(* ===== verification/_CoqProject ===== *)
-Q . S2P
Prelude.v
Lists.v
ListProofs.v
Bitmap.v
Fifo.v
ListSpec.v
Kernel.v
Queues.v
Sched.v
Threads.v
ThreadInv.v
Mutex.v
Locks.v
SchedSpec.v
Yield.v
Timer.v
TimerProofs.v
TimerSpec.v
Paging.v
PagingSpec.v
Malloc.v
MallocInv.v
MallocProofs.v
MallocFree.v
MallocSpec.v
PagesImpl.v
Ioqueue.v
IoqueueProofs.v
IoqueueSpec.v
X86.v
Str.v
StrProofs.v
StrSpec.v
Stdio.v
HashMap.v
HashMapSpec.v
Ipc.v
IpcSpec.v
Softirq.v
Fs.v
FsInode.v
FsDir.v
FsFile.v
FsProofs.v
FsSpec.v
Path.v
FsPath.v
FsDev.v
FsCalls.v
FsDirSpec.v
FsPathSpec.v
FsCallsSpec.v
FsWriteProofs.v
FsWriteSpec.v
Format.v
FormatSpec.v
Cmos.v
Descriptor.v
Process.v
ProcessProofs.v
ProcessSpec.v
WaitQueue.v
WaitQueueSpec.v
Ports.v
Hid.v
HidSpec.v
Keyboard.v
KeyboardSpec.v
Mouse.v
MouseSpec.v
Ps2hid.v
Resume.v
Ide.v
IdeSpec.v
Gfx.v
GfxSpec.v
Package.v
PackageSpec.v
Exec.v
Select.v
