(* ===== verification/Prelude.v ===== *)
(** * Frog: a verified model of the kernel core

    Frog is a teaching operating system for the 32-bit PC: a boot loader, a
    kernel (under src/core) and a small desktop.  This library translates the
    kernel's own logic into executable definitions, one per C function, and
    proves what the functions promise.  Names follow the source; a fixpoint
    that stands for a loop is named after it.

    ** How the code is represented

    A C function is a computation in the monad [M] below: from a state to a
    result and a new state, or [Panic] (a failed ASSERT or a PANIC), [Fault]
    (an access to memory that is not there, or outside an object) or [Stuck]
    (the fuel of a loop was too small, or the loop has no end).  An integer is
    a [Z] kept in the range of its type by the conversions of this file.  The
    state of each component is a record of what the C code keeps in memory for
    it; aliasing matters in the lists, in the control blocks, in the inodes and
    in the page tables, and these are stores indexed by address.

    Fuel.  Loops over lists take fuel as an argument, which the theorems bound
    from below by the length of the list (or of the chain of senders, in
    Ipc.v); the other loops compute their fuel from the state: the number of
    entries of a hash table, the bytes of a bitmap, the 140 places of a zone
    table, the pages or chunks asked for, the characters of a path.  Theorems
    say that a call returns [Ok], so that the fuel was enough is part of each.  The string functions
    run on a model of the processor ([run_asm] of X86.v), and their theorems
    say from which fuel on they return.

    ** The parts

    - Prelude.v: results, the monad, machine integers, tactics and hints.
    - Lists.v: core/lib/list.c and include/list.h, the circular doubly linked
      lists, as operations on a store of nodes ([HasLists] is the interface by
      which other components own such a store).  ListProofs.v
      shows what each call does to the sequences that a store represents, and
      ListSpec.v states the refinement: calls on nodes are operations on
      sequences; the searches, and the two functions that miss the last node
      or follow a cleared pointer.
    - Bitmap.v: core/lib/bitmap.c; a bitmap is the set of its used positions,
      and the search finds the first run of free positions.
    - Fifo.v: core/lib/fifo.c; the byte queue refines a bounded queue.
    - Kernel.v: control blocks, scheduler, blocking and waking
      (core/thread/threads.c, sched.c, process.c), semaphores
      (core/thread/semaphore.c), interrupt flag (core/interrupt/int.c).
      Queues.v: a thread is on at most one queue.  Sched.v: what [schedule],
      [thread_unblock] and the rest do to the queues.  Threads.v: threads as
      programs of kernel calls, with the clock interrupt, as a step relation
      [steps].  ThreadInv.v, Mutex.v: the invariant and its
      preservation.  SchedSpec.v: no step of the kernel fails, a lock has one
      holder, no wake-up is lost, time slices go round.  Yield.v: what
      [thread_yield] does to a thread that blocks afterwards.
    - Timer.v, TimerProofs.v, TimerSpec.v: the timer wheel of core/frog/timer.c;
      every timer is called back in its tick, once, and none before.
    - Locks.v: the lock calls in one piece, for code that holds a lock.
    - Paging.v: the pages of core/mm/memory.c; PagingSpec.v: the self-mapping window leads to the tables, [put_page] maps exactly one
      page, frames come from the free ones.
    - Malloc.v: the arenas of core/mm/memory.c (sys_malloc, sys_free) over an
      interface for pages ([Pages]); MallocInv.v states when a heap is in
      order, MallocInv.v, MallocProofs.v and MallocFree.v show that the calls
      keep it so, MallocSpec.v that blocks are disjoint and come back, and
      their pages with the last block of them; PagesImpl.v: the pages of Paging.v implement the interface.
    - Ioqueue.v, IoqueueProofs.v, IoqueueSpec.v: core/lib/ioqueue.c, the
      circular queues with their lock and their lists of waiting threads, cut
      where a thread goes to sleep; putting and getting keep the order of the
      bytes and wake the other side, or put the caller to sleep.
    - X86.v, Str.v, StrProofs.v, StrSpec.v: the inline assembly of
      core/libc/string.c, instruction by instruction; copying, comparing and
      measuring strings.
    - Stdio.v: core/lib/oslib.c and core/libc/stdio.c; numbers
      read back as they were written, and the two formatters agree.
    - HashMap.v, HashMapSpec.v: core/lib/hashmap.c as lists per bucket; the
      allocator is an interface ([Alloc]).
    - Ipc.v, IpcSpec.v: core/ipc/ipc.c on the control blocks and the scheduler
      of Kernel.v; delivery, order of the senders, the deadlock check.
    - Softirq.v: core/interrupt/softirq.c.
    - Fs.v, FsInode.v, FsDir.v, FsFile.v: disk layout, inodes, directories and
      files (core/fs/inode.c, dir.c, file.c) over sectors of bytes, with the
      bitmaps of Bitmap.v; FsProofs.v, FsSpec.v, FsDirSpec.v:
      inodes survive the disk, reading returns the file's bytes, entries are
      put into the first free place.
    - Path.v: paths taken apart (core/fs/fs.c).  FsPath.v: the
      search in one directory and along a path.  FsDev.v: device files and
      pipes, the drivers being an interface ([Drivers]).  FsCalls.v: the
      system calls of core/fs/fs.c.  FsDirSpec.v: a small disk; FsPathSpec.v,
      FsCallsSpec.v: what a directory shows, that opening a path and reading
      gives the bytes of the file it leads to, that seeking stays inside.
      Format.v, FormatSpec.v: making and mounting a file system; a formatted
      partition mounts, and is empty.  FsWriteProofs.v, FsWriteSpec.v: what is
      written at the end of a file is appended to it and read back.

    - Process.v: threads and processes made, forked, ended and collected
      (core/thread/threads.c, process.c, fork.c, exit.c) on the threads of
      Kernel.v, the memory of Paging.v and the files of Fs.v together.
      ProcessProofs.v, ProcessSpec.v: what exit and wait do to the threads; an
      exit reaches the parent that waits.  ProcessSpec.v: a process from fork
      to its end, and what goes wrong.
    - Cmos.v: core/device/cmos.c; the seconds since 1970 are those of the
      calendar, also with 12 hours, but for midnight and noon.
    - Descriptor.v: core/destab and core/protect.c; what the
      processor reads in the descriptor tables after they were set up.

    - WaitQueue.v, WaitQueueSpec.v: the wait queues of include/sys/wait.h and
      core/thread/sched.c; a wake-up makes the first waiting thread of the
      asked status ready, and leaves the others where they are.
    - Ports.v: input and output over an interface for the devices behind the
      ports ([Machine], [HasDevices]), the interrupt controllers and the
      programmable timer (core/pic, core/frog/pit8253.c).
    - Hid.v, HidSpec.v: the queues the input drivers share; Keyboard.v,
      KeyboardSpec.v: core/device/pc_kbd.c implements the
      layout of a US keyboard, and a key wakes the thread that reads; Mouse.v,
      MouseSpec.v: core/device/pc_mouse.c, bytes to packets and back;
      Ps2hid.v: the controller and the two interrupts.
    - Resume.v: calls that are paused when the thread sleeps or is
      interrupted, as resumptions, with the waiting calls of
      core/thread/semaphore.c and sched.c over them.  Ide.v, IdeSpec.v:
      core/device/ide.c; with a drive as the ATA standard has it, reading and
      writing through the driver is reading and writing the disk that Fs.v
      takes for granted, whether the drive's requests come before or after
      the thread sleeps.
    - Package.v, PackageSpec.v: core/vfs/packagefs.c and core/lib/packetx.c,
      over the files and the circular queues; reading and writing on package
      files is taking from and appending to inboxes of messages.
    - Exec.v: core/thread/exec.c and core/include/elf.h; a program file is
      loaded into the memory of the calling process, byte by byte where its
      headers say, and everything else in user memory stays what it was.
    - Select.v: core/fs/select.c, core/include/frog/poll.h, schedule_timeout
      and the poll functions of the devices; a thread that waits for several
      devices has an entry in the queue of each, is woken, looks, and leaves
      no entry of its own in a queue.
    - Gfx.v, GfxSpec.v: core/lib/2d_graphics.c; drawing a sprite changes
      exactly the pixels it covers, and no other byte.

    Calls between the parts follow the code: Kernel.v calls the lists, Ipc.v
    the scheduler, the pools of Paging.v and the file system the bitmaps.

    ** What is left out

    Assembly outside core/libc/string.c, interrupt entry and the translation
    cache of the processor.  The desktop, the JPEG decoder and the console are
    not modelled.  A switch of threads changes the current thread; what a
    suspended call still has to do is a separate definition (a program counter
    in Threads.v, a [_resume] function in Ipc.v, a resumption in Resume.v).
    Package.v and Select.v get the addresses of new memory from a parameter. *)
From Stdlib Require Export ZArith Lia.
From stdpp Require Export gmap list numbers.
Declare Scope frog_scope.
Delimit Scope frog_scope with frog.
#[global] Open Scope Z_scope.

(** ** Results of kernel code

    A C function of the kernel either returns, stops the machine in
    [panic_print] (a failed [ASSERT] or a [PANIC], core/lib/debug.c), touches
    memory it must not touch (a page fault), or is still running when the fuel
    of the model is used up.  [Stuck] is only ever the result of a loop whose
    fuel was too small; each loop comes with a lemma that gives enough. *)
Inductive res (A : Type) : Type :=
| Ok (a : A)
| Panic
| Fault
| Stuck.
Arguments Ok {A} a.
Arguments Panic {A}.
Arguments Fault {A}.
Arguments Stuck {A}.

#[export] Instance res_eq_dec {A} `{EqDecision A} : EqDecision (res A).
Proof. solve_decision. Defined.

(** Going on with the value of a result. *)
Definition rbind {A B} (r : res A) (k : A -> res B) : res B :=
  match r with Ok a => k a | Panic => Panic | Fault => Fault | Stuck => Stuck end.
Lemma rbind_ok {A B} (r : res A) (k : A -> res B) b : rbind r k = Ok b -> exists a, r = Ok a /\ k a = Ok b.
Proof. destruct r; try done. intros E. by exists a. Qed.

(** State passing with these results. *)
Definition M (S A : Type) : Type := S -> res (A * S).

Definition ret {S A} (a : A) : M S A := fun s => Ok (a, s).
Definition bind {S A B} (m : M S A) (k : A -> M S B) : M S B :=
  fun s => match m s with
           | Ok (a, s') => k a s'
           | Panic => Panic
           | Fault => Fault
           | Stuck => Stuck
           end.
Definition panic {S A} : M S A := fun _ => Panic.
Definition fault {S A} : M S A := fun _ => Fault.
Definition stuck {S A} : M S A := fun _ => Stuck.
Definition get {S} : M S S := fun s => Ok (s, s).
Definition put {S} (s : S) : M S unit := fun _ => Ok (tt, s).
Definition gets {S A} (f : S -> A) : M S A := fun s => Ok (f s, s).
Definition modify {S} (f : S -> S) : M S unit := fun s => Ok (tt, f s).

(** The macro [ASSERT] of core/include/debug.h. *)
Definition ASSERT {S} (b : bool) : M S unit := if b then ret tt else panic.

Notation "x <- m ;; k" := (bind m (fun x => k))
  (at level 100, m at next level, right associativity) : frog_scope.
Notation "m ;;; k" := (bind m (fun _ => k))
  (at level 100, right associativity) : frog_scope.
Notation "'when' b 'do' m" := (if b then m else ret tt)
  (at level 99, b at level 98, m at level 98) : frog_scope.
#[global] Open Scope frog_scope.

(** Running a computation of a part of the state inside the whole. *)
Definition zoom {S T A} (gt : S -> T) (st : T -> S -> S) (m : M T A) : M S A :=
  fun s => match m (gt s) with
           | Ok (a, t) => Ok (a, st t s)
           | Panic => Panic
           | Fault => Fault
           | Stuck => Stuck
           end.

Section monad_laws.
Context {S : Type}.

Lemma bind_ok {A B} (m : M S A) (k : A -> M S B) s a s' :
  m s = Ok (a, s') -> bind m k s = k a s'.
Proof. unfold bind. by intros ->. Qed.

Lemma bind_ret {A B} (a : A) (k : A -> M S B) s : bind (ret a) k s = k a s.
Proof. done. Qed.

Lemma bind_assoc {A B C} (m : M S A) (k : A -> M S B) (l : B -> M S C) s :
  bind (bind m k) l s = bind m (fun a => bind (k a) l) s.
Proof. unfold bind. by destruct (m s) as [[??]| | |]. Qed.

Lemma bind_inv {A B} (m : M S A) (k : A -> M S B) s b s' :
  bind m k s = Ok (b, s') -> exists a s1, m s = Ok (a, s1) /\ k a s1 = Ok (b, s').
Proof. unfold bind. destruct (m s) as [[??]| | |]; eauto; done. Qed.

Lemma assert_true b s : b = true -> ASSERT (S:=S) b s = Ok (tt, s).
Proof. by intros ->. Qed.

Lemma assert_bind {B} b (k : unit -> M S B) s :
  b = true -> bind (ASSERT b) k s = k tt s.
Proof. by intros ->. Qed.
Lemma assert_bind_false {B} b (k : unit -> M S B) s :
  b = false -> bind (ASSERT b) k s = Panic.
Proof. by intros ->. Qed.
Lemma get_bind {B} (k : S -> M S B) s : bind get k s = k s s.
Proof. done. Qed.
Lemma gets_bind {A B} (f : S -> A) (k : A -> M S B) s : bind (gets f) k s = k (f s) s.
Proof. done. Qed.
Lemma put_bind {B} s' (k : unit -> M S B) s : bind (put s') k s = k tt s'.
Proof. done. Qed.
Lemma modify_bind {B} f (k : unit -> M S B) s : bind (modify f) k s = k tt (f s).
Proof. done. Qed.

Lemma assert_inv b s u s' :
  ASSERT (S:=S) b s = Ok (u, s') -> b = true /\ s' = s.
Proof. destruct b; unfold ASSERT, ret, panic; naive_solver. Qed.
End monad_laws.

Create HintDb frog.
Create Rewrite HintDb frog.
Create Rewrite HintDb bytes.
#[export] Hint Rewrite @bind_assoc @bind_ret @get_bind @gets_bind @put_bind @modify_bind : frog.

(** [run H] steps the leading computation of the goal with the equation [H];
    [binv H] takes apart an equation saying that a sequence returned. *)
Tactic Notation "run" uconstr(H) :=
  rewrite ?bind_assoc; erewrite bind_ok; [|eapply H]; cbn beta iota.
Ltac binv H :=
  let a := fresh "a" in let s := fresh "s" in let H1 := fresh "Hm" in
  apply bind_inv in H as (a & s & H1 & H).
(** [pass] goes past an assertion that holds, [rets] past computations that
    only return. *)
Tactic Notation "pass" := rewrite ?bind_assoc; rewrite assert_bind by done.
Tactic Notation "pass" "by" tactic(t) := rewrite ?bind_assoc; rewrite assert_bind by t.
Ltac rets := rewrite ?bind_assoc, ?bind_ret.
(** Proves a decidable closed statement by evaluating its decision. *)
Ltac by_computation := apply (bool_decide_unpack _); vm_compute; exact I.
(** Turns boolean comparisons of integers into propositions. *)
Ltac zb :=
  repeat match goal with
  | H : (_ =? _) = true |- _ => apply Z.eqb_eq in H
  | H : (_ =? _) = false |- _ => apply Z.eqb_neq in H
  | H : (_ <? _) = true |- _ => apply Z.ltb_lt in H
  | H : (_ <? _) = false |- _ => apply Z.ltb_ge in H
  | H : (_ <=? _) = true |- _ => apply Z.leb_le in H
  | H : (_ <=? _) = false |- _ => apply Z.leb_gt in H
  | H : negb _ = true |- _ => apply negb_true_iff in H
  | H : negb _ = false |- _ => apply negb_false_iff in H
  | H : _ && _ = true |- _ => apply andb_true_iff in H as [? ?]
  | H : _ || _ = false |- _ => apply orb_false_iff in H as [? ?]
  end.

(** ** Machine integers (core/include/ostype.h)

    An integer variable of the C code is a [Z]; the operations that can leave
    the range of its type are followed by the conversion below. *)
Definition u8 (x : Z) : Z := x mod 2 ^ 8.
Definition u16 (x : Z) : Z := x mod 2 ^ 16.
Definition u32 (x : Z) : Z := x mod 2 ^ 32.
(** The value of a 32-bit pattern read as [int_32]; likewise for 8 and 16. *)
Definition sx (w x : Z) : Z :=
  let y := x mod 2 ^ w in if y <? 2 ^ (w - 1) then y else y - 2 ^ w.
Definition s8 (x : Z) : Z := sx 8 x.
Definition s16 (x : Z) : Z := sx 16 x.
Definition s32 (x : Z) : Z := sx 32 x.

Section machine_integers.
Lemma u32_range x : 0 <= u32 x < 2 ^ 32.
Proof. apply Z.mod_pos_bound. lia. Qed.
Lemma u8_range x : 0 <= u8 x < 256.
Proof. apply (Z.mod_pos_bound x (2 ^ 8)). lia. Qed.
Lemma u16_range x : 0 <= u16 x < 65536.
Proof. apply (Z.mod_pos_bound x (2 ^ 16)). lia. Qed.
Lemma u32_small x : 0 <= x < 2 ^ 32 -> u32 x = x.
Proof. apply Z.mod_small. Qed.
Lemma u8_small x : 0 <= x < 256 -> u8 x = x.
Proof. intros. apply Z.mod_small. lia. Qed.
Lemma u16_small x : 0 <= x < 65536 -> u16 x = x.
Proof. intros. apply Z.mod_small. lia. Qed.
Lemma u32_idem x : u32 (u32 x) = u32 x.
Proof. apply u32_small, u32_range. Qed.
Lemma s32_small x : - 2 ^ 31 <= x < 2 ^ 31 -> s32 x = x.
Proof.
  intros. unfold s32, sx. change (2 ^ (32 - 1)) with (2 ^ 31).
  assert (x mod 2 ^ 32 = if x <? 0 then x + 2 ^ 32 else x) as ->.
  { destruct (Z.ltb_spec x 0); [|apply Z.mod_small; lia].
    symmetry. apply (Z.mod_unique_pos x (2 ^ 32) (-1)); lia. }
  destruct (Z.ltb_spec x 0); case_match eqn:E; zb; lia.
Qed.
Lemma s32_range x : - 2 ^ 31 <= s32 x < 2 ^ 31.
Proof.
  unfold s32, sx. pose proof (Z.mod_pos_bound x (2 ^ 32)).
  change (2 ^ (32 - 1)) with (2 ^ 31). case_match eqn:E; zb; lia.
Qed.
Lemma u32_s32 x : u32 (s32 x) = u32 x.
Proof.
  unfold s32, sx, u32. destruct (_ <? _).
  - by rewrite Zmod_mod.
  - rewrite <-(Z_mod_plus_full (x mod 2 ^ 32 - 2 ^ 32) 1).
    replace (x mod 2 ^ 32 - 2 ^ 32 + 1 * 2 ^ 32) with (x mod 2 ^ 32) by lia.
    by rewrite Zmod_mod.
Qed.
(** Masking off low bits, in 32 bits. *)
Lemma land_high k x : 0 <= k <= 32 -> 0 <= x < 2 ^ 32 -> Z.land x (2 ^ 32 - 2 ^ k) = x / 2 ^ k * 2 ^ k.
Proof.
  intros Hk Hx.
  replace (2 ^ 32 - 2 ^ k) with (Z.shiftl (Z.ones (32 - k)) k).
  2: { rewrite Z.shiftl_mul_pow2, Z.ones_equiv by lia. replace (2 ^ 32) with (2 ^ (32 - k) * 2 ^ k) by (rewrite <-Z.pow_add_r by lia; f_equal; lia). lia. }
  rewrite <-Z.shiftr_div_pow2, <-Z.shiftl_mul_pow2 by lia.
  apply Z.bits_inj'. intros i Hi. rewrite Z.land_spec, !Z.shiftl_spec by lia.
  destruct (Z.lt_ge_cases i k).
  - rewrite !(Z.testbit_neg_r _ (i - k)) by lia. apply andb_false_r.
  - rewrite Z.shiftr_spec, Z.testbit_ones by lia. replace (i - k + k) with i by lia.
    destruct (Z.ltb_spec (i - k) (32 - k)); destruct (Z.leb_spec 0 (i - k)); simpl; try lia; [by rewrite andb_true_r|].
    rewrite andb_false_r. symmetry. destruct (Z.eq_dec x 0) as [->|]; [apply Z.bits_0|].
    apply Z.bits_above_log2; [lia|]. assert (Z.log2 x < 32); [|lia]. apply Z.log2_lt_pow2; lia.
Qed.
(** Putting fields together, and taking low bits. *)
Lemma lor_disjoint a b : Z.land a b = 0 -> Z.lor a b = a + b.
Proof. intros H. by rewrite Z.add_nocarry_lxor, Z.lxor_lor. Qed.
Lemma lor_shift a b k : 0 <= k -> 0 <= a < 2 ^ k -> Z.lor a (Z.shiftl b k) = a + b * 2 ^ k.
Proof.
  intros Hk Ha. rewrite lor_disjoint; [by rewrite Z.shiftl_mul_pow2 by lia|].
  apply Z.bits_inj'. intros i Hi. rewrite Z.land_spec, Z.shiftl_spec, Z.bits_0 by lia.
  destruct (Z.lt_ge_cases i k); [rewrite (Z.testbit_neg_r _ (i - k)) by lia; apply andb_false_r|].
  rewrite <-(Z.mod_small a (2 ^ k)), Z.mod_pow2_bits_high by lia. done.
Qed.
Lemma land_ones_16 x : Z.land x 0xffff = x mod 2 ^ 16.
Proof. apply (Z.land_ones x 16). lia. Qed.
Lemma land_ones_8 x : Z.land x 0xff = x mod 2 ^ 8.
Proof. apply (Z.land_ones x 8). lia. Qed.
Lemma land_ones_4 x : Z.land x 0xf = x mod 2 ^ 4.
Proof. apply (Z.land_ones x 4). lia. Qed.
End machine_integers.
#[export] Hint Rewrite land_ones_16 land_ones_8 land_ones_4 : bytes.
#[export] Hint Resolve u32_range u8_range u16_range s32_range : frog.
#[export] Hint Rewrite u32_idem u32_s32 : frog.

(** ** Lists *)
Section lists.
Context {A : Type}.
Implicit Types (l : list A) (P Q : A -> Prop).

Lemma filter_ext_in P Q `{forall x, Decision (P x), forall x, Decision (Q x)} l :
  (forall x, x ∈ l -> P x <-> Q x) -> filter P l = filter Q l.
Proof.
  induction l as [|x l IH]; [done|]. intros Hx. rewrite !filter_cons.
  rewrite IH by (intros; apply Hx; by right). destruct (Hx x ltac:(by left)).
  repeat case_decide; tauto || done.
Qed.
Lemma filter_all P `{forall x, Decision (P x)} l : (forall x, x ∈ l -> P x) -> filter P l = l.
Proof.
  induction l as [|x l IH]; [done|]. intros Hx. rewrite filter_cons_True by (apply Hx; by left).
  by rewrite IH by (intros; apply Hx; by right).
Qed.
End lists.

(** ** Bytes, little end first *)
Fixpoint le (n : nat) (x : Z) : list Z :=
  match n with O => [] | S n => x mod 256 :: le n (x / 256) end.
Fixpoint of_le (l : list Z) : Z :=
  match l with [] => 0 | b :: l => b + 256 * of_le l end.
Lemma le_length n x : length (le n x) = n.
Proof. revert x. induction n; intros x; simpl; auto. Qed.
Lemma le_of_le n x : 0 <= x < 256 ^ Z.of_nat n -> of_le (le n x) = x.
Proof.
  revert x. induction n as [|n IH]; intros x Hx.
  - simpl in *. lia.
  - cbn [le of_le]. rewrite IH.
    + pose proof (Z.div_mod x 256). lia.
    + rewrite Nat2Z.inj_succ, Z.pow_succ_r in Hx by lia. split; [apply Z.div_pos; lia|].
      apply Z.div_lt_upper_bound; lia.
Qed.
