(* ===== verification/Lists.v ===== *)
(** * Lists: the intrusive doubly linked lists of core/lib/list.c *)
From S2P Require Import Prelude.

(** [struct list_head]: two pointers; the null pointer is 0. *)
Record list_head := Node { prev : Z; next : Z }.
#[export] Instance list_head_eq_dec : EqDecision list_head.
Proof. solve_decision. Defined.

(** The part of memory that holds list nodes, by address. *)
Abbreviation lheap := (gmap Z list_head).

(** The list code runs inside the state of its callers: a state of type [S]
    with a list memory in it. *)
Class HasLists (S : Type) := {
  lists : S -> lheap;
  set_lists : lheap -> S -> S;
  lists_set : forall h s, lists (set_lists h s) = h;
  set_set : forall h h' s, set_lists h (set_lists h' s) = set_lists h s;
  set_get : forall s, set_lists (lists s) s = s
}.
#[export] Hint Rewrite @lists_set @set_set @set_get : frog.

#[export] Program Instance lheap_lists : HasLists lheap :=
  {| lists h := h; set_lists h _ := h |}.
Solve All Obligations with done.

Section operations.
Context {S : Type} `{HasLists S}.

(** A load or store through a pointer to a [struct list_head]; memory that
    holds no node faults (address 0 is never mapped). *)
Definition get_next (p : Z) : M S Z :=
  fun s => match lists s !! p with Some n => Ok (next n, s) | None => Fault end.
Definition get_prev (p : Z) : M S Z :=
  fun s => match lists s !! p with Some n => Ok (prev n, s) | None => Fault end.
Definition set_next (p v : Z) : M S unit :=
  fun s => match lists s !! p with
           | Some n => Ok (tt, set_lists (<[p := Node (prev n) v]> (lists s)) s)
           | None => Fault end.
Definition set_prev (p v : Z) : M S unit :=
  fun s => match lists s !! p with
           | Some n => Ok (tt, set_lists (<[p := Node v (next n)]> (lists s)) s)
           | None => Fault end.

Definition INIT_LIST_HEAD (ptr : Z) : M S unit :=
  set_next ptr ptr ;;;
  set_prev ptr ptr.

Definition list_is_empty (head : Z) : M S bool :=
  n <- get_next head ;;
  ret (n =? head).

(** The loop [for (; next != node && next != head->prev;)]. *)
Fixpoint find_loop (fuel : nat) (node head nx : Z) : M S bool :=
  match fuel with
  | O => stuck
  | Datatypes.S fuel =>
      if nx =? node then (last <- get_prev head ;; ret (negb (nx =? last)))
      else
        last <- get_prev head ;;
        if nx =? last then ret (negb (nx =? last))
        else (nx' <- get_next nx ;; find_loop fuel node head nx')
  end.
Definition list_find_element (fuel : nat) (node head : Z) : M S bool :=
  nx <- get_next head ;;
  find_loop fuel node head nx.

Definition list_add (node head : Z) : M S unit :=
  first_node <- get_next head ;;
  set_prev first_node node ;;;
  set_next node first_node ;;;
  set_prev node head ;;;
  set_next head node.

Definition list_add_tail (node head : Z) : M S unit :=
  last_node <- get_prev head ;;
  set_next last_node node ;;;
  set_next node head ;;;
  set_prev node last_node ;;;
  set_prev head node.

Definition list_del (node : Z) : M S unit :=
  nx <- get_next node ;;
  pv <- get_prev node ;;
  set_prev nx pv ;;;
  set_next pv nx ;;;
  set_next node 0 ;;;
  set_prev node 0.

Definition list_del_init (node : Z) : M S unit :=
  list_del node ;;;
  INIT_LIST_HEAD node.

Definition list_pop (head : Z) : M S Z :=
  target <- get_next head ;;
  list_del_init target ;;;
  ret target.

Fixpoint map_loop (fuel : nat) (head res : Z) (func : Z -> M S Z) (nx : Z) : M S Z :=
  match fuel with
  | O => stuck
  | Datatypes.S fuel =>
      last <- get_prev head ;;
      if nx =? last then ret 1
      else
        res_node <- func nx ;;
        (when negb (res_node =? 0) do list_add_tail res_node res) ;;;
        nx' <- get_next nx ;;
        map_loop fuel head res func nx'
  end.
Definition list_map (fuel : nat) (head res : Z) (func : Z -> M S Z) : M S Z :=
  e <- list_is_empty head ;;
  if e : bool then ret 0
  else
    r <- list_is_empty res ;;
    if negb r then ret 0
    else (nx <- get_next head ;; map_loop fuel head res func nx).

(** [list_walker] and [list_walkerv2] are the same code over another type
    of argument; [list_walkerv2_prev] follows the other pointer.  The null
    result is 0. *)
Fixpoint walk_loop {V} (fuel : nat) (step : Z -> M S Z) (head : Z)
    (func : Z -> V -> M S bool) (value : V) (nx : Z) : M S Z :=
  match fuel with
  | O => stuck
  | Datatypes.S fuel =>
      if nx =? head then ret 0
      else
        test <- func nx value ;;
        if test : bool then ret nx
        else (nx' <- step nx ;; walk_loop fuel step head func value nx')
  end.
Definition list_walker (fuel : nat) (head : Z)
    (func : Z -> Z -> M S bool) (value : Z) : M S Z :=
  e <- list_is_empty head ;;
  if e : bool then ret 0
  else (nx <- get_next head ;; walk_loop fuel get_next head func value nx).
Definition list_walkerv2 {V} (fuel : nat) (head : Z)
    (func : Z -> V -> M S bool) (value : V) : M S Z :=
  e <- list_is_empty head ;;
  if e : bool then ret 0
  else (nx <- get_next head ;; walk_loop fuel get_next head func value nx).
Definition list_walkerv2_prev {V} (fuel : nat) (head : Z)
    (func : Z -> V -> M S bool) (value : V) : M S Z :=
  e <- list_is_empty head ;;
  if e : bool then ret 0
  else (pv <- get_prev head ;; walk_loop fuel get_prev head func value pv).

Fixpoint length_loop (fuel : nat) (head iter length : Z) : M S Z :=
  match fuel with
  | O => stuck
  | Datatypes.S fuel =>
      last <- get_prev head ;;
      if iter =? last then ret length
      else (iter' <- get_next iter ;; length_loop fuel head iter' (length + 1))
  end.
Definition list_length (fuel : nat) (head : Z) : M S Z :=
  nx <- get_next head ;;
  pv <- get_prev head ;;
  if (nx =? pv) && (nx =? head) then ret 0
  else
    ASSERT (negb (nx =? 0) && negb (pv =? 0)) ;;;
    length_loop fuel head nx 1.

Fixpoint destory_loop (fuel : nat) (head iter : Z) : M S unit :=
  match fuel with
  | O => stuck
  | Datatypes.S fuel =>
      last <- get_prev head ;;
      if iter =? last then ret tt
      else
        iter' <- get_next iter ;;
        list_del iter' ;;;
        destory_loop fuel head iter'
  end.
Definition list_destory (fuel : nat) (head : Z) : M S Z :=
  e <- list_is_empty head ;;
  if e : bool then ret (-1)
  else
    iter <- get_next head ;;
    destory_loop fuel head iter ;;;
    INIT_LIST_HEAD head ;;;
    ret (-1).

Definition list_is_singular (fuel : nat) (head : Z) : M S Z :=
  n <- list_length fuel head ;;
  ret (if n =? 1 then 1 else 0).

Definition list_append (list head : Z) : M S unit :=
  e <- list_is_empty list ;;
  if e : bool then ret tt
  else
    h_next <- get_next head ;;
    l_next <- get_next list ;;
    l_prev <- get_prev list ;;
    set_next head l_next ;;;
    set_prev h_next l_prev ;;;
    set_prev l_next head ;;;
    set_next l_prev h_next.

Definition list_append_tail (list head : Z) : M S unit :=
  e <- list_is_empty list ;;
  if e : bool then ret tt
  else
    h_prev <- get_prev head ;;
    l_next <- get_next list ;;
    l_prev <- get_prev list ;;
    set_prev head l_prev ;;;
    set_next h_prev l_next ;;;
    set_prev l_next h_prev ;;;
    set_next l_prev head.

Definition list_append_init (list head : Z) : M S unit :=
  list_append list head ;;;
  INIT_LIST_HEAD list.

Definition list_append_tail_init (list head : Z) : M S unit :=
  list_append_tail list head ;;;
  INIT_LIST_HEAD list.

(** The body of [list_cut_position] is empty in the source. *)
Definition list_cut_position (head_to head_from node : Z) : M S unit := ret tt.

Definition list_move (node head : Z) : M S unit :=
  list_del node ;;;
  list_add node head.

Definition list_move_tail (node head : Z) : M S unit :=
  list_del node ;;;
  list_add_tail node head.
End operations.

(** ** Views of the list memory *)

Definition nxt (h : lheap) (p : Z) : option Z := next <$> h !! p.
Definition prv (h : lheap) (p : Z) : option Z := prev <$> h !! p.
Definition unext (p v : Z) (h : lheap) : lheap := alter (fun n => Node (prev n) v) p h.
Definition uprev (p v : Z) (h : lheap) : lheap := alter (fun n => Node v (next n)) p h.
Definition mapped (h : lheap) (p : Z) : Prop := is_Some (h !! p).

(** [seg h a xs b]: from [a], the [next] pointers run through [xs] to [b], and
    the [prev] pointers run back. *)
Fixpoint seg (h : lheap) (a : Z) (xs : list Z) (b : Z) : Prop :=
  match xs with
  | [] => nxt h a = Some b /\ prv h b = Some a
  | x :: xs => nxt h a = Some x /\ prv h x = Some a /\ seg h x xs b
  end.

(** The list whose head is at [head] has the nodes [xs], in this order. *)
Definition dll (h : lheap) (head : Z) (xs : list Z) : Prop :=
  seg h head xs head /\ NoDup (head :: xs).

(** Memory outside [ps] is the same. *)
Definition unchanged_except (ps : list Z) (h h' : lheap) : Prop :=
  (forall p, p ∉ ps -> h' !! p = h !! p) /\ (forall p, mapped h p -> mapped h' p).

Section views.
Implicit Types (h : lheap) (p q v : Z).

Lemma nxt_unext_eq h p v : mapped h p -> nxt (unext p v h) p = Some v.
Proof. unfold nxt, unext, mapped. rewrite lookup_alter_eq. by intros [? ->]. Qed.
Lemma nxt_unext_ne h p q v : p <> q -> nxt (unext p v h) q = nxt h q.
Proof. unfold nxt, unext. intros. by rewrite lookup_alter_ne. Qed.
Lemma nxt_uprev h p q v : nxt (uprev p v h) q = nxt h q.
Proof.
  unfold nxt, uprev. rewrite lookup_alter. case_decide; [subst|done].
  by destruct (h !! q).
Qed.
Lemma prv_uprev_eq h p v : mapped h p -> prv (uprev p v h) p = Some v.
Proof. unfold prv, uprev, mapped. rewrite lookup_alter_eq. by intros [? ->]. Qed.
Lemma prv_uprev_ne h p q v : p <> q -> prv (uprev p v h) q = prv h q.
Proof. unfold prv, uprev. intros. by rewrite lookup_alter_ne. Qed.
Lemma prv_unext h p q v : prv (unext p v h) q = prv h q.
Proof.
  unfold prv, unext. rewrite lookup_alter. case_decide; [subst|done].
  by destruct (h !! q).
Qed.
Lemma mapped_unext h p q v : mapped (unext p v h) q <-> mapped h q.
Proof. unfold mapped, unext. apply lookup_alter_is_Some. Qed.
Lemma mapped_uprev h p q v : mapped (uprev p v h) q <-> mapped h q.
Proof. unfold mapped, uprev. apply lookup_alter_is_Some. Qed.
Lemma lookup_unext_ne h p q v : p <> q -> unext p v h !! q = h !! q.
Proof. apply lookup_alter_ne. Qed.
Lemma lookup_uprev_ne h p q v : p <> q -> uprev p v h !! q = h !! q.
Proof. apply lookup_alter_ne. Qed.
Lemma nxt_mapped h p q : nxt h p = Some q -> mapped h p.
Proof. unfold nxt, mapped. destruct (h !! p); [eauto|done]. Qed.
Lemma prv_mapped h p q : prv h p = Some q -> mapped h p.
Proof. unfold prv, mapped. destruct (h !! p); [eauto|done]. Qed.

Lemma node_eq h p a b : nxt h p = Some b -> prv h p = Some a -> h !! p = Some (Node a b).
Proof. unfold nxt, prv. destruct (h !! p) as [[]|]; naive_solver. Qed.
End views.
#[export] Hint Resolve nxt_mapped prv_mapped : frog.

(** Decides a lookup in an updated memory, using the disequalities at hand. *)
Ltac lmapped := repeat first [rewrite mapped_unext | rewrite mapped_uprev].
Ltac ldone := first [done | by apply not_eq_sym].
Ltac lread :=
  repeat first
  [ rewrite nxt_uprev | rewrite prv_unext
  | rewrite nxt_unext_ne by ldone | rewrite prv_uprev_ne by ldone
  | rewrite nxt_unext_eq by (lmapped; eauto with frog)
  | rewrite prv_uprev_eq by (lmapped; eauto with frog) ];
  eauto with frog.
Ltac lframe :=
  split; intros ?; lmapped;
  [intros; repeat first [rewrite lookup_unext_ne by set_solver
                        | rewrite lookup_uprev_ne by set_solver]; done
  | done].
(** Takes a [NoDup] of an explicit list apart into non-memberships. *)
Ltac nodup_hyps :=
  repeat match goal with
  | H : NoDup (_ :: _) |- _ => apply list.NoDup_cons in H as [? ?]
  | H : NoDup (_ ++ _) |- _ => apply list.NoDup_app in H as (? & ? & ?)
  end.
(** Disequalities and non-memberships from the disjointness of two lists. *)
Ltac apart_clear :=
  repeat match goal with
  | H : _ = default _ _ |- _ => clear H
  | H : seg _ _ _ _ |- _ => clear H
  | H : nxt _ _ = _ |- _ => clear H
  | H : prv _ _ = _ |- _ => clear H
  | H : NoDup _ |- _ => clear H
  end.
Ltac apart_cases :=
  repeat match goal with
  | H : _ ∈ _ :: _ |- _ => apply list.elem_of_cons in H as [->|H]
  | H : _ ∈ _ ++ _ |- _ => apply list.elem_of_app in H as [H|H]
  | H : _ ∈ [] |- _ => by apply not_elem_of_nil in H
  end.
Ltac apart_inst :=
  repeat match goal with
  | H : forall x : Z, x ∈ ?xs -> x ∉ ?l, Hp : ?p ∈ ?xs |- _ =>
      lazymatch goal with _ : p ∉ l |- _ => fail | _ => pose proof (H p Hp) end
  end;
  repeat match goal with
  | H : forall x : Z, x ∈ _ -> x ∉ _ |- _ => clear H
  end.
Ltac apart_atoms :=
  repeat match goal with
  | H : _ ∉ _ :: _ |- _ => apply list.not_elem_of_cons in H as [? ?]
  | H : _ ∉ _ ++ _ |- _ => apply list.not_elem_of_app in H as [? ?]
  end.
Ltac apart_split :=
  repeat match goal with
  | |- _ /\ _ => split
  | |- _ ∉ _ :: _ => apply list.not_elem_of_cons
  | |- _ ∉ _ ++ _ => apply list.not_elem_of_app
  end.
Ltac apart :=
  apart_clear; apart_split; intros ?; subst; apart_cases; apart_inst; apart_atoms;
  first [done | congruence].
Ltac nodup :=
  nodup_hyps;
  repeat match goal with
  | |- NoDup [] => apply NoDup_nil_2
  | |- NoDup (_ :: _) => apply NoDup_cons_2
  | |- NoDup (_ ++ _) => apply list.NoDup_app; split_and!
  end; try done; try set_solver.

Section segments.
Implicit Types (h : lheap) (p q v a b : Z) (xs ys : list Z).

Lemma seg_app h a xs y ys b :
  seg h a (xs ++ y :: ys) b <-> seg h a xs y /\ seg h y ys b.
Proof.
  revert a. induction xs as [|x xs IH]; intros a; simpl; [naive_solver|].
  rewrite IH. naive_solver.
Qed.

Lemma seg_frame h h' a xs b :
  seg h a xs b ->
  (forall p, p ∈ a :: xs -> nxt h' p = nxt h p) ->
  (forall p, p ∈ xs ++ [b] -> prv h' p = prv h p) ->
  seg h' a xs b.
Proof.
  revert a. induction xs as [|x xs IH]; intros a; simpl.
  - intros [Hn Hp] HN HP. rewrite HN, HP by set_solver. done.
  - intros (Hn & Hp & Hs) HN HP. rewrite HN, HP by set_solver.
    split_and!; [done..|]. apply IH; [done|set_solver..].
Qed.

Lemma seg_mapped h a xs b p : seg h a xs b -> p ∈ a :: xs ++ [b] -> mapped h p.
Proof.
  revert a. induction xs as [|x xs IH]; intros a; simpl.
  - intros [? ?] Hp. assert (p = a \/ p = b) as [-> | ->] by set_solver; eauto with frog.
  - intros (? & ? & Hs) Hp. rewrite elem_of_cons in Hp. destruct Hp as [->|Hp]; eauto with frog.
Qed.

Lemma seg_frame_heap h h' a xs b :
  seg h a xs b -> (forall p, p ∈ a :: xs ++ [b] -> h' !! p = h !! p) -> seg h' a xs b.
Proof.
  intros Hs Hf. eapply seg_frame; [done|..]; intros p Hp; unfold nxt, prv;
    rewrite Hf; set_solver.
Qed.

Lemma dll_frame h h' head xs :
  dll h head xs -> (forall p, p ∈ head :: xs -> h' !! p = h !! p) -> dll h' head xs.
Proof.
  intros [Hs Hn] Hf. split; [|done]. eapply seg_frame_heap; [done|]. set_solver.
Qed.

Lemma dll_first h head xs :
  dll h head xs ->
  exists f, nxt h head = Some f /\ prv h f = Some head /\ f = default head (xs !! 0%nat).
Proof. intros [Hs _]. destruct xs as [|x xs]; simpl in Hs; naive_solver. Qed.

Lemma dll_last h head xs :
  dll h head xs ->
  exists l, prv h head = Some l /\ nxt h l = Some head /\ l = default head (list.last xs).
Proof.
  intros [Hs _]. destruct xs as [|x xs _] using rev_ind.
  - simpl in Hs. naive_solver.
  - apply seg_app in Hs as [_ Hs]. rewrite last_snoc. simpl in *. naive_solver.
Qed.

Lemma dll_mapped h head xs p : dll h head xs -> p ∈ head :: xs -> mapped h p.
Proof. intros [Hs _] Hp. eapply seg_mapped; [done|]. set_solver. Qed.

(** Changing the end a segment runs into, and the end it comes from. *)
Lemma seg_relink_last h h' a xs b b' :
  seg h a xs b -> NoDup (a :: xs) ->
  nxt h' (default a (list.last xs)) = Some b' ->
  prv h' b' = Some (default a (list.last xs)) ->
  (forall p, p ∈ a :: xs -> p <> default a (list.last xs) -> nxt h' p = nxt h p) ->
  (forall p, p ∈ xs -> prv h' p = prv h p) ->
  seg h' a xs b'.
Proof.
  destruct xs as [|x xs _] using rev_ind; [done|].
  rewrite last_snoc. simpl. intros Hs Hd Hn Hp HN HP.
  apply seg_app in Hs as [Hs _]. apply seg_app. split; [|done].
  nodup_hyps. eapply seg_frame; [done| |done].
  intros p Hp'. apply HN; [set_solver|]. intros ->. set_solver.
Qed.
Lemma seg_relink_first h h' a a' xs b :
  seg h a xs b -> NoDup (xs ++ [b]) ->
  nxt h' a' = Some (default b (xs !! 0%nat)) ->
  prv h' (default b (xs !! 0%nat)) = Some a' ->
  (forall p, p ∈ xs -> nxt h' p = nxt h p) ->
  (forall p, p ∈ xs ++ [b] -> p <> default b (xs !! 0%nat) -> prv h' p = prv h p) ->
  seg h' a' xs b.
Proof.
  destruct xs as [|x xs]; [done|]. simpl. intros (_ & _ & Hs) Hd Hn Hp HN HP.
  split_and!; [done..|]. nodup_hyps. eapply seg_frame; [done|done|].
  intros p Hp'. apply HP; [set_solver|]. intros ->. set_solver.
Qed.
Lemma seg_join h a xs ys b :
  seg h a xs (default b (ys !! 0%nat)) ->
  seg h (default a (list.last xs)) ys b -> seg h a (xs ++ ys) b.
Proof.
  destruct ys as [|y ys]; simpl; [by rewrite app_nil_r|].
  intros ? (? & ? & ?). by apply seg_app.
Qed.
Lemma first_elem xs b : default b (xs !! 0%nat) ∈ xs ++ [b].
Proof. destruct xs; set_solver. Qed.
Lemma last_elem xs a : default a (list.last xs) ∈ a :: xs.
Proof. destruct xs as [|x xs _] using rev_ind; [set_solver|]. rewrite last_snoc. set_solver. Qed.

Lemma unchanged_trans ps qs rs h1 h2 h3 :
  unchanged_except ps h1 h2 -> unchanged_except qs h2 h3 ->
  (forall p, p ∈ ps -> p ∈ rs) -> (forall p, p ∈ qs -> p ∈ rs) ->
  unchanged_except rs h1 h3.
Proof.
  intros [H1 M1] [H2 M2] ? ?. split; [|auto].
  intros p Hp. rewrite H2, H1; auto.
Qed.
Lemma unchanged_sub ps rs h1 h2 :
  unchanged_except ps h1 h2 -> (forall p, p ∈ ps -> p ∈ rs) -> unchanged_except rs h1 h2.
Proof. intros [H1 M1] ?. split; auto. Qed.

(** The nodes of a list are determined by the memory. *)
Lemma seg_det h a xs ys b :
  seg h a xs b -> seg h a ys b -> b ∉ xs -> b ∉ ys -> xs = ys.
Proof.
  revert a ys. induction xs as [|x xs IH]; intros a [|y ys]; simpl.
  - done.
  - intros [??] (?&?&?) ? ?. set_solver.
  - intros (?&?&?) [??] ? ?. set_solver.
  - intros (?&?&Hs) (?&?&Hs') ? ?. assert (x = y) as -> by congruence.
    f_equal. eapply IH; [done|done|set_solver..].
Qed.
Lemma dll_det h head xs ys : dll h head xs -> dll h head ys -> xs = ys.
Proof. intros [??] [??]. nodup_hyps. by apply (seg_det h head xs ys head). Qed.
End segments.

Section steps.
Context {S : Type} `{HasLists S}.
Implicit Types s : S.

Lemma get_next_ok s p q : nxt (lists s) p = Some q -> get_next p s = Ok (q, s).
Proof. unfold nxt, get_next. destruct (lists s !! p); [by intros [= ->]|done]. Qed.
Lemma get_prev_ok s p q : prv (lists s) p = Some q -> get_prev p s = Ok (q, s).
Proof. unfold prv, get_prev. destruct (lists s !! p); [by intros [= ->]|done]. Qed.
Lemma insert_alter (h : lheap) p n f : h !! p = Some n -> <[p := f n]> h = alter f p h.
Proof.
  intros Hp. apply map_eq. intros q. rewrite lookup_insert, lookup_alter.
  case_decide; [subst; by rewrite Hp|done].
Qed.
Lemma set_next_ok s p v :
  mapped (lists s) p -> set_next p v s = Ok (tt, set_lists (unext p v (lists s)) s).
Proof.
  intros [n Hn]. unfold set_next. rewrite Hn. unfold unext. do 3 f_equal.
  by rewrite <-(insert_alter _ _ n (fun n => Node (prev n) v)).
Qed.
Lemma set_prev_ok s p v :
  mapped (lists s) p -> set_prev p v s = Ok (tt, set_lists (uprev p v (lists s)) s).
Proof.
  intros [n Hn]. unfold set_prev. rewrite Hn. unfold uprev. do 3 f_equal.
  by rewrite <-(insert_alter _ _ n (fun n => Node v (next n))).
Qed.
End steps.

(** One load or store of the code at the front of the goal. *)
Ltac lmap := autorewrite with frog; lmapped; eauto with frog.
Ltac lstep :=
  rewrite ?bind_assoc;
  first
  [ erewrite bind_ok; [|apply get_next_ok; autorewrite with frog; lread; fail]
  | erewrite bind_ok; [|apply get_prev_ok; autorewrite with frog; lread; fail]
  | erewrite bind_ok; [|apply set_next_ok; lmap; fail]
  | erewrite bind_ok; [|apply set_prev_ok; lmap; fail]
  | rewrite set_next_ok by lmap
  | rewrite set_prev_ok by lmap ];
  cbn beta iota; autorewrite with frog.

