(* ===== verification/ListProofs.v ===== *)
(** * ListProofs: what the list operations do to the sequence of nodes

    Every operation of core/lib/list.c is proved to implement an operation on
    sequences, for the lists described by [dll], and to leave the rest of the
    list memory alone. *)
From S2P Require Import Prelude Lists.

(** ** Each operation implements an operation on sequences *)
Section correctness.
Context {S : Type} `{HasLists S}.
Implicit Types (s : S) (head node : Z) (xs ys : list Z).

Lemma INIT_LIST_HEAD_ok s p :
  mapped (lists s) p ->
  exists h', INIT_LIST_HEAD p s = Ok (tt, set_lists h' s) /\ dll h' p [] /\
    unchanged_except [p] (lists s) h'.
Proof.
  intros Hp. unfold INIT_LIST_HEAD. lstep. lstep. eexists. split; [done|].
  split; [split; [simpl; split; lread|nodup]|lframe].
Qed.

Lemma list_add_ok s node head xs :
  dll (lists s) head xs -> node ∉ head :: xs -> mapped (lists s) node ->
  exists h', list_add node head s = Ok (tt, set_lists h' s) /\
    dll h' head (node :: xs) /\
    unchanged_except (node :: head :: xs) (lists s) h'.
Proof.
  intros Hd Hn Hm. destruct (dll_first _ _ _ Hd) as (f & Hf & Hpf & Hf').
  assert (f ∈ xs ++ [head]) by (subst; apply first_elem).
  assert (node <> head /\ node <> f) as [? ?] by set_solver.
  unfold list_add. do 5 lstep. eexists. split; [done|].
  destruct Hd as [Hs Hd]. nodup_hyps. split; [split; [|nodup]|].
  - simpl. split_and!; [lread..|].
    apply (seg_relink_first _ _ head node _ _ Hs); [nodup| | | |]; rewrite <-?Hf'; [lread..| |].
    + intros p Hp. assert (p <> node /\ p <> head) as [? ?] by set_solver. lread.
    + intros p Hp ?. assert (p <> node) by set_solver. lread.
  - lframe.
Qed.

Lemma list_add_tail_ok s node head xs :
  dll (lists s) head xs -> node ∉ head :: xs -> mapped (lists s) node ->
  exists h', list_add_tail node head s = Ok (tt, set_lists h' s) /\
    dll h' head (xs ++ [node]) /\
    unchanged_except (node :: head :: xs) (lists s) h'.
Proof.
  intros Hd Hn Hm. destruct (dll_last _ _ _ Hd) as (l & Hl & Hnl & Hl').
  assert (l ∈ head :: xs) by (subst; apply last_elem).
  assert (node <> head /\ node <> l) as [? ?] by set_solver.
  unfold list_add_tail. do 5 lstep. eexists. split; [done|].
  destruct Hd as [Hs Hd]. split; [split; [|nodup]|].
  - apply seg_app. split; [|simpl; split_and!; lread].
    apply (seg_relink_last _ _ _ _ _ _ Hs Hd); rewrite <-?Hl'; [lread..| |].
    + intros p Hp ?. assert (p <> node) by set_solver. lread.
    + intros p Hp. nodup_hyps. assert (p <> node /\ p <> head) as [? ?] by set_solver. lread.
  - lframe.
Qed.

(** Unlinking the node between [xs] and [ys]. *)
Lemma list_del_ok s node head xs ys :
  dll (lists s) head (xs ++ node :: ys) ->
  exists h', list_del node s = Ok (tt, set_lists h' s) /\
    dll h' head (xs ++ ys) /\ h' !! node = Some (Node 0 0) /\
    unchanged_except (head :: xs ++ node :: ys) (lists s) h'.
Proof.
  intros [Hs Hn]. apply seg_app in Hs as [Hs1 Hs2]. nodup_hyps.
  assert (exists f, nxt (lists s) node = Some f /\ prv (lists s) f = Some node /\
    f = default head (ys !! 0%nat)) as (f & Hf & Hpf & Hf')
    by (destruct ys; simpl in Hs2; naive_solver).
  assert (exists l, prv (lists s) node = Some l /\ nxt (lists s) l = Some node /\
    l = default head (list.last xs)) as (l & Hl & Hnl & Hl').
  { destruct xs as [|x xs _] using rev_ind; simpl in Hs1; [naive_solver|].
    apply seg_app in Hs1 as [_ [? ?]]. rewrite last_snoc. naive_solver. }
  assert (f ∈ ys ++ [head]) by (subst; apply first_elem).
  assert (l ∈ head :: xs) by (subst; apply last_elem).
  assert (node <> f) by apart. assert (node <> l) by apart.
  assert (l ∉ ys) by apart.
  unfold list_del. do 6 lstep. eexists. split; [done|]. split_and!.
  - split; [|nodup]. apply seg_join.
    + apply (seg_relink_last _ _ _ _ _ _ Hs1); [nodup|..]; rewrite <-?Hl', <-?Hf'; [lread..| |].
      * intros p Hp ?. assert (p <> node) by apart. lread.
      * intros p Hp. assert (p <> node /\ p <> f) as [? ?] by apart. lread.
    + rewrite <-Hl'. apply (seg_relink_first _ _ node _ _ _ Hs2); [nodup|..];
        rewrite <-?Hf'; [lread..| |].
      * intros p Hp. assert (p <> node /\ p <> l) as [? ?] by apart. lread.
      * intros p Hp ?. assert (p <> node) by apart. lread.
  - apply node_eq; lread.
  - lframe.
Qed.

Lemma list_del_init_ok s node head xs ys :
  dll (lists s) head (xs ++ node :: ys) ->
  exists h', list_del_init node s = Ok (tt, set_lists h' s) /\
    dll h' head (xs ++ ys) /\ dll h' node [] /\
    unchanged_except (head :: xs ++ node :: ys) (lists s) h'.
Proof.
  intros Hd. destruct (list_del_ok _ _ _ _ _ Hd) as (h1 & E1 & Hd1 & Hn1 & Hu1).
  destruct (INIT_LIST_HEAD_ok (set_lists h1 s) node) as (h2 & E2 & Hd2 & Hu2).
  { autorewrite with frog. by eexists. }
  exists h2. autorewrite with frog in *. unfold list_del_init. run E1. rewrite E2.
  autorewrite with frog. split_and!; [done| |done|].
  - destruct Hd as [_ Hn]. nodup_hyps. eapply dll_frame; [done|].
    intros p Hp. apply Hu2. set_solver.
  - eapply unchanged_trans; [done..| |]; set_solver.
Qed.

Lemma list_pop_ok s head x xs :
  dll (lists s) head (x :: xs) ->
  exists h', list_pop head s = Ok (x, set_lists h' s) /\
    dll h' head xs /\ dll h' x [] /\
    unchanged_except (head :: x :: xs) (lists s) h'.
Proof.
  intros Hd. destruct (list_del_init_ok s x head [] xs Hd) as (h1 & E1 & ? & ? & ?).
  exists h1. split_and!; [|done..]. destruct Hd as [(? & ? & _) _].
  unfold list_pop. lstep. by run E1.
Qed.

Lemma list_move_ok s node head xs ys :
  dll (lists s) head (xs ++ node :: ys) ->
  exists h', list_move node head s = Ok (tt, set_lists h' s) /\
    dll h' head (node :: xs ++ ys) /\
    unchanged_except (head :: xs ++ node :: ys) (lists s) h'.
Proof.
  intros Hd. destruct (list_del_ok _ _ _ _ _ Hd) as (h1 & E1 & Hd1 & Hn1 & Hu1).
  destruct Hd as [_ Hn]. nodup_hyps.
  destruct (list_add_ok (set_lists h1 s) node head (xs ++ ys)) as (h2 & E2 & Hd2 & Hu2);
    autorewrite with frog in *; [done|set_solver|by eexists|].
  exists h2. unfold list_move. run E1. rewrite E2. split_and!; [done..|].
  eapply unchanged_trans; [done..| |]; set_solver.
Qed.
Lemma list_move_tail_ok s node head xs ys :
  dll (lists s) head (xs ++ node :: ys) ->
  exists h', list_move_tail node head s = Ok (tt, set_lists h' s) /\
    dll h' head ((xs ++ ys) ++ [node]) /\
    unchanged_except (head :: xs ++ node :: ys) (lists s) h'.
Proof.
  intros Hd. destruct (list_del_ok _ _ _ _ _ Hd) as (h1 & E1 & Hd1 & Hn1 & Hu1).
  destruct Hd as [_ Hn]. nodup_hyps.
  destruct (list_add_tail_ok (set_lists h1 s) node head (xs ++ ys)) as (h2 & E2 & Hd2 & Hu2);
    autorewrite with frog in *; [done|set_solver|by eexists|].
  exists h2. unfold list_move_tail. run E1. rewrite E2. split_and!; [done..|].
  eapply unchanged_trans; [done..| |]; set_solver.
Qed.

(** Joining two disjoint lists. *)
Lemma list_append_ok s list head xs ys :
  dll (lists s) head xs -> dll (lists s) list ys -> NoDup (head :: xs ++ list :: ys) ->
  exists h', list_append list head s = Ok (tt, set_lists h' s) /\
    dll h' head (ys ++ xs) /\ h' !! list = lists s !! list /\
    unchanged_except (head :: xs ++ ys) (lists s) h'.
Proof.
  intros Hx Hy Hd.
  destruct (dll_first _ _ _ Hx) as (f & Hf & Hpf & Hf').
  destruct (dll_first _ _ _ Hy) as (g & Hg & Hpg & Hg').
  destruct (dll_last _ _ _ Hy) as (l & Hl & Hnl & Hl').
  assert (f ∈ xs ++ [head]) by (subst; apply first_elem).
  assert (l ∈ list :: ys) by (subst; apply last_elem).
  assert (g ∈ ys ++ [list]) by (subst; apply first_elem).
  destruct Hx as [Hx _], Hy as [Hy ?]. nodup_hyps.
  unfold list_append, list_is_empty. lstep.
  destruct ys as [|y ys]; simpl in Hg'; subst g.
  { rewrite Z.eqb_refl. exists (lists s). autorewrite with frog.
    split_and!; [done|split; [done|nodup]|done|by split]. }
  assert (l ∈ y :: ys).
  { subst l. simpl. rewrite last_cons.
    destruct (list.last ys) eqn:El; simpl; [apply list.last_Some_elem_of in El|]; set_solver. }
  assert (y <> list) by apart. assert (y <> f) by apart. assert (y <> head) by apart.
  assert (l <> head) by apart. assert (l ∉ xs) by apart. assert (f ∉ y :: ys) by apart.
  rewrite (proj2 (Z.eqb_neq y list)) by done. autorewrite with frog.
  do 7 lstep. eexists. split; [done|].
  simpl in Hy. destruct Hy as (_ & _ & Hy). split_and!.
  - assert (l = default y (list.last ys)) as Hly
      by (rewrite Hl', last_cons; by destruct (list.last ys)).
    assert (default head (list.last (y :: ys)) = l) as Hly'
      by (rewrite Hl', !last_cons; by destruct (list.last ys)).
    split; [|nodup]. apply seg_join.
    + rewrite <-Hf'. simpl. split_and!; [lread..|].
      apply (seg_relink_last _ _ _ _ _ _ Hy); [done|..]; rewrite <-?Hly; [lread..| |].
      * intros p Hp ?. assert (p <> head) by apart. lread.
      * intros p Hp. nodup_hyps. assert (p <> y /\ p <> f) as [? ?] by apart. lread.
    + rewrite Hly'. apply (seg_relink_first _ _ head _ _ _ Hx); [nodup|..];
        rewrite <-?Hf'; [lread..| |].
      * intros p Hp. assert (p <> head /\ p <> l) as [? ?] by apart. lread.
      * intros p Hp ?. assert (p <> y) by apart. lread.
  - unfold unext, uprev. rewrite !lookup_alter_ne; [done|apart..].
  - split; [|intros ?; lmapped; done]. intros p Hp.
    assert (p <> head /\ p <> f /\ p <> y /\ p <> l) as (? & ? & ? & ?) by apart.
    unfold unext, uprev. by rewrite !lookup_alter_ne.
Qed.

Lemma list_append_tail_ok s list head xs ys :
  dll (lists s) head xs -> dll (lists s) list ys -> NoDup (head :: xs ++ list :: ys) ->
  exists h', list_append_tail list head s = Ok (tt, set_lists h' s) /\
    dll h' head (xs ++ ys) /\ h' !! list = lists s !! list /\
    unchanged_except (head :: xs ++ ys) (lists s) h'.
Proof.
  intros Hx Hy Hd.
  destruct (dll_last _ _ _ Hx) as (k & Hk & Hnk & Hk').
  destruct (dll_first _ _ _ Hy) as (g & Hg & Hpg & Hg').
  destruct (dll_last _ _ _ Hy) as (l & Hl & Hnl & Hl').
  assert (k ∈ head :: xs) by (subst; apply last_elem).
  destruct Hx as [Hx _], Hy as [Hy ?]. nodup_hyps.
  unfold list_append_tail, list_is_empty. lstep.
  destruct ys as [|y ys]; simpl in Hg'; subst g.
  { rewrite Z.eqb_refl. exists (lists s). autorewrite with frog.
    split_and!; [done|rewrite app_nil_r; split; [done|nodup]|done|by split]. }
  assert (l ∈ y :: ys).
  { subst l. simpl. rewrite last_cons.
    destruct (list.last ys) eqn:El; simpl; [apply list.last_Some_elem_of in El|]; set_solver. }
  assert (y <> list) by apart. assert (y <> k) by apart. assert (y <> head) by apart.
  assert (l <> head) by apart. assert (l ∉ xs) by apart. assert (k ∉ y :: ys) by apart.
  assert (k <> l) by apart. assert (k <> list) by apart. assert (head <> list) by apart.
  assert (l <> list) by apart.
  rewrite (proj2 (Z.eqb_neq y list)) by done. autorewrite with frog.
  do 7 lstep. eexists. split; [done|].
  simpl in Hy. destruct Hy as (_ & _ & Hy).
  assert (l = default y (list.last ys)) as Hly
    by (rewrite Hl', last_cons; by destruct (list.last ys)).
  split_and!.
  - split; [|nodup]. apply seg_join.
    + simpl. apply (seg_relink_last _ _ _ _ _ _ Hx); [nodup|..]; rewrite <-?Hk'; [lread..| |].
      * intros p Hp ?. assert (p <> l) by apart. lread.
      * intros p Hp. assert (p <> y /\ p <> head) as [? ?] by apart. lread.
    + rewrite <-Hk'. simpl. split_and!; [lread..|].
      apply (seg_relink_last _ _ _ _ _ _ Hy); [done|..]; rewrite <-?Hly; [lread..| |].
      * intros p Hp ?. assert (p <> k) by apart. lread.
      * intros p Hp. nodup_hyps. assert (p <> y /\ p <> head) as [? ?] by apart. lread.
  - unfold unext, uprev. rewrite !lookup_alter_ne; [done|apart..].
  - split; [|intros ?; lmapped; done]. intros p Hp.
    assert (p <> head /\ p <> k /\ p <> y /\ p <> l) as (? & ? & ? & ?) by apart.
    unfold unext, uprev. by rewrite !lookup_alter_ne.
Qed.

Lemma list_append_init_ok s list head xs ys :
  dll (lists s) head xs -> dll (lists s) list ys -> NoDup (head :: xs ++ list :: ys) ->
  exists h', list_append_init list head s = Ok (tt, set_lists h' s) /\
    dll h' head (ys ++ xs) /\ dll h' list [] /\
    unchanged_except (head :: xs ++ list :: ys) (lists s) h'.
Proof.
  intros Hx Hy Hd. destruct (list_append_ok s list head xs ys) as (h1 & E1 & H1 & E2 & Hu1); [done..|].
  destruct (INIT_LIST_HEAD_ok (set_lists h1 s) list) as (h2 & E3 & Hd2 & Hu2);
    autorewrite with frog in *.
  { unfold mapped. rewrite E2. eapply dll_mapped; [done|set_solver]. }
  exists h2. unfold list_append_init. run E1. rewrite E3. autorewrite with frog.
  split_and!; [done| |done|].
  - eapply dll_frame; [done|]. intros p Hp. apply Hu2. nodup_hyps. apart.
  - eapply unchanged_trans; [done..| |]; set_solver.
Qed.
Lemma list_append_tail_init_ok s list head xs ys :
  dll (lists s) head xs -> dll (lists s) list ys -> NoDup (head :: xs ++ list :: ys) ->
  exists h', list_append_tail_init list head s = Ok (tt, set_lists h' s) /\
    dll h' head (xs ++ ys) /\ dll h' list [] /\
    unchanged_except (head :: xs ++ list :: ys) (lists s) h'.
Proof.
  intros Hx Hy Hd. destruct (list_append_tail_ok s list head xs ys) as (h1 & E1 & H1 & E2 & Hu1); [done..|].
  destruct (INIT_LIST_HEAD_ok (set_lists h1 s) list) as (h2 & E3 & Hd2 & Hu2);
    autorewrite with frog in *.
  { unfold mapped. rewrite E2. eapply dll_mapped; [done|set_solver]. }
  exists h2. unfold list_append_tail_init. run E1. rewrite E3. autorewrite with frog.
  split_and!; [done| |done|].
  - eapply dll_frame; [done|]. intros p Hp. apply Hu2. nodup_hyps. apart.
  - eapply unchanged_trans; [done..| |]; set_solver.
Qed.

Lemma list_is_empty_ok s head xs :
  dll (lists s) head xs ->
  list_is_empty head s = Ok (bool_decide (xs = []), s).
Proof.
  intros [Hs Hd]. unfold list_is_empty. destruct xs as [|x xs]; simpl in Hs.
  - destruct Hs. lstep. by rewrite Z.eqb_refl.
  - destruct Hs as (? & ? & ?). nodup_hyps. lstep. rewrite (proj2 (Z.eqb_neq _ _)) by apart. done.
Qed.
End correctness.

(** * The loops of core/lib/list.c

    Each loop returns as soon as its fuel exceeds the number of nodes. *)

Section loops.
Context {S : Type} `{HasLists S}.
Implicit Types (s : S) (head node : Z) (xs ys : list Z).

(** All nodes but the last one. *)
Definition front (xs : list Z) : list Z := take (pred (length xs)) xs.
Lemma front_snoc xs x : front (xs ++ [x]) = xs.
Proof. unfold front. rewrite length_app, Nat.add_comm. simpl. by rewrite take_app_length. Qed.
Lemma front_cons2 x y xs : front (x :: y :: xs) = x :: front (y :: xs).
Proof. done. Qed.

(** From [nx], at the front of [ys], the search goes on to the last node. *)
Lemma find_loop_ok fuel s node head ys y :
  seg (lists s) y ys head -> prv (lists s) head = Some (default y (list.last ys)) ->
  NoDup (y :: ys) -> (length ys < fuel)%nat ->
  find_loop fuel node head y s = Ok (bool_decide (node ∈ front (y :: ys)), s).
Proof.
  revert y fuel. induction ys as [|z ys IH]; intros y [|fuel] Hs Hl Hd Hf; simpl in Hs, Hl, Hf; try lia; cbn [find_loop].
  - destruct Hs as [Hy Hp]. destruct (Z.eqb_spec y node) as [->|]; lstep;
      rewrite Z.eqb_refl; by rewrite bool_decide_false by apply not_elem_of_nil.
  - destruct Hs as (Hy & Hz & Hs). rewrite last_cons in Hl.
    assert (default y (Some (default z (list.last ys))) = default z (list.last ys)) by done.
    assert (prv (lists s) head = Some (default z (list.last ys))) as Hl'
      by (rewrite Hl; by destruct (list.last ys)).
    assert (y <> default z (list.last ys)) as Hne.
    { nodup_hyps. intros ->. pose proof (last_elem ys z). set_solver. }
    rewrite front_cons2. destruct (Z.eqb_spec y node) as [->|].
    + lstep. rewrite (proj2 (Z.eqb_neq _ _)) by done. by rewrite bool_decide_true by set_solver.
    + lstep. rewrite (proj2 (Z.eqb_neq _ _)) by done. lstep. rewrite IH; [|done..|nodup|lia].
      do 2 f_equal. apply bool_decide_ext. set_solver.
Qed.

Lemma list_find_element_ok fuel s node head xs :
  dll (lists s) head xs -> node <> head -> (length xs < fuel)%nat ->
  list_find_element fuel node head s = Ok (bool_decide (node ∈ front xs), s).
Proof.
  intros Hd Hne Hf. destruct (dll_last _ _ _ Hd) as (l & Hl & Hnl & ->).
  destruct Hd as [Hs Hd]. unfold list_find_element.
  destruct xs as [|x xs]; simpl in Hs.
  - destruct Hs. lstep. destruct fuel as [|fuel]; [lia|]. simpl.
    rewrite (proj2 (Z.eqb_neq head node)) by done. lstep. by rewrite Z.eqb_refl.
  - destruct Hs as (? & ? & Hs). lstep. nodup_hyps.
    apply find_loop_ok; [done| |nodup|simpl in *; lia].
    rewrite Hl, last_cons. by destruct (list.last xs).
Qed.

Lemma length_loop_ok fuel s head ys y n :
  seg (lists s) y ys head -> prv (lists s) head = Some (default y (list.last ys)) ->
  NoDup (y :: ys) -> (length ys < fuel)%nat ->
  length_loop fuel head y n s = Ok (n + Z.of_nat (length ys), s).
Proof.
  revert y n fuel. induction ys as [|z ys IH]; intros y n [|fuel] Hs Hl Hd Hf; simpl in *; try lia.
  - lstep. rewrite Z.eqb_refl. unfold ret. do 2 f_equal. lia.
  - destruct Hs as (Hy & Hz & Hs). rewrite last_cons in Hl.
    assert (prv (lists s) head = Some (default z (list.last ys))) as Hl'
      by (rewrite Hl; by destruct (list.last ys)).
    assert (y <> default z (list.last ys)) as Hne.
    { nodup_hyps. intros ->. pose proof (last_elem ys z). set_solver. }
    lstep. rewrite (proj2 (Z.eqb_neq _ _)) by done. lstep. rewrite IH; [|done..|nodup|lia].
    do 2 f_equal. lia.
Qed.

Lemma list_length_ok fuel s head xs :
  dll (lists s) head xs -> 0 ∉ head :: xs -> (length xs < fuel)%nat ->
  list_length fuel head s = Ok (Z.of_nat (length xs), s).
Proof.
  intros Hd H0 Hf. destruct (dll_last _ _ _ Hd) as (l & Hl & Hnl & ->).
  pose proof (last_elem xs head) as Hle.
  destruct Hd as [Hs Hd]. unfold list_length.
  destruct xs as [|x xs]; simpl in Hs.
  - clear Hl Hnl. destruct Hs. do 2 lstep. by rewrite Z.eqb_refl.
  - destruct Hs as (? & ? & Hs). do 2 lstep. nodup_hyps.
    rewrite (proj2 (Z.eqb_neq x head)), andb_false_r by apart.
    rewrite (proj2 (Z.eqb_neq x 0)) by apart.
    rewrite (proj2 (Z.eqb_neq (default head (list.last (x :: xs))) 0)).
    2:{ intros E. by rewrite E in Hle. }
    cbn [negb andb ASSERT]. autorewrite with frog.
    rewrite (length_loop_ok _ _ _ xs); [do 2 f_equal; simpl; lia|done| |nodup|simpl in *; lia].
    rewrite Hl, last_cons. by destruct (list.last xs).
Qed.

(** A callback that only looks at its argument. *)
Definition reads {V} (func : Z -> V -> M S bool) (value : V) (s : S)
    (test : Z -> bool) (xs : list Z) : Prop :=
  forall x, x ∈ xs -> func x value s = Ok (test x, s).

Lemma walk_loop_next_ok {V} fuel s head (func : Z -> V -> M S bool) value test ys y :
  seg (lists s) y ys head -> head ∉ y :: ys -> reads func value s test (y :: ys) ->
  (Datatypes.S (length ys) < fuel)%nat ->
  walk_loop fuel get_next head func value y s = Ok (default 0 (List.find test (y :: ys)), s).
Proof.
  revert y fuel. induction ys as [|z ys IH]; intros y [|fuel] Hs Hh Hr Hf; simpl in *; try lia.
  all: rewrite (proj2 (Z.eqb_neq y head)) by apart.
  all: run (Hr y ltac:(set_solver)); destruct (test y) eqn:Ht; [done|].
  - destruct Hs as [Hy _]. lstep. destruct fuel; [lia|]. simpl. by rewrite Z.eqb_refl.
  - destruct Hs as (Hy & Hz & Hs). lstep.
    rewrite IH; [simpl; by destruct (test z)|done|set_solver| |lia].
    intros x Hx. apply Hr. set_solver.
Qed.

Lemma list_walker_ok fuel s head (func : Z -> Z -> M S bool) value test xs :
  dll (lists s) head xs -> reads func value s test xs -> (Datatypes.S (length xs) < fuel)%nat ->
  list_walker fuel head func value s = Ok (default 0 (List.find test xs), s).
Proof.
  intros Hd Hr Hf. unfold list_walker. run (list_is_empty_ok _ _ _ Hd).
  destruct Hd as [Hs Hd]. destruct xs as [|x xs]; [done|]. simpl in Hs.
  rewrite bool_decide_false by done. destruct Hs as (? & ? & Hs). lstep.
  nodup_hyps. apply walk_loop_next_ok; [done..|simpl in *; lia].
Qed.
Lemma list_walkerv2_ok {V} fuel s head (func : Z -> V -> M S bool) value test xs :
  dll (lists s) head xs -> reads func value s test xs -> (Datatypes.S (length xs) < fuel)%nat ->
  list_walkerv2 fuel head func value s = Ok (default 0 (List.find test xs), s).
Proof.
  intros Hd Hr Hf. unfold list_walkerv2. run (list_is_empty_ok _ _ _ Hd).
  destruct Hd as [Hs Hd]. destruct xs as [|x xs]; [done|]. simpl in Hs.
  rewrite bool_decide_false by done. destruct Hs as (? & ? & Hs). lstep.
  nodup_hyps. apply walk_loop_next_ok; [done..|simpl in *; lia].
Qed.

(** [list_destory] unlinks the second node, which clears the pointer it then
    follows: a list of two or more nodes makes it fault. *)
Lemma list_destory_faults_ok fuel s head x y xs :
  dll (lists s) head (x :: y :: xs) -> lists s !! 0 = None -> (2 < fuel)%nat ->
  list_destory fuel head s = Fault.
Proof.
  intros Hd H0 Hf. unfold list_destory. run (list_is_empty_ok _ _ _ Hd).
  rewrite bool_decide_false by done.
  destruct (dll_last _ _ _ Hd) as (l & Hl & Hnl & Hl').
  assert (l ∈ y :: xs).
  { rewrite Hl'. rewrite !last_cons. destruct (list.last xs) eqn:E; simpl; [apply list.last_Some_elem_of in E|]; set_solver. }
  destruct (list_del_ok s y head [x] xs Hd) as (h1 & E1 & Hd1 & Hy1 & Hu1).
  assert (0 ∉ head :: [x] ++ y :: xs) as H0'.
  { intros Hin. pose proof (dll_mapped _ _ _ _ Hd Hin) as [? E]. congruence. }
  destruct (dll_last _ _ _ Hd1) as (l1 & Hl1 & Hnl1 & Hl1').
  assert (l1 ∈ x :: xs).
  { rewrite Hl1'. simpl app. rewrite last_cons. destruct (list.last xs) eqn:E; simpl; [apply list.last_Some_elem_of in E|]; set_solver. }
  destruct Hd as [(? & ? & ? & ? & _) Hd]. lstep. destruct fuel as [|[|fuel]]; [lia..|].
  assert (x <> l) by (nodup_hyps; set_solver).
  assert (y <> l1) by (nodup_hyps; set_solver).
  simpl. lstep. rewrite (proj2 (Z.eqb_neq x l)) by done. autorewrite with frog.
  assert (get_prev head (set_lists h1 s) = Ok (l1, set_lists h1 s)) as E2
    by (apply get_prev_ok; by autorewrite with frog).
  assert (get_next y (set_lists h1 s) = Ok (0, set_lists h1 s)) as E3
    by (apply get_next_ok; autorewrite with frog; unfold nxt; by rewrite Hy1).
  lstep. run E1. run E2.
  rewrite (proj2 (Z.eqb_neq y l1)) by done. autorewrite with frog.
  run E3.
  assert (get_next 0 (set_lists h1 s) = Fault) as E4
    by (unfold get_next; autorewrite with frog; rewrite (proj1 Hu1) by done; by rewrite H0).
  unfold bind at 1 2. unfold list_del, bind at 1. by rewrite E4.
Qed.
End loops.
