(* ===== verification/Bitmap.v ===== *)
(** * Bitmap: the allocation bitmaps of core/lib/bitmap.c

    A bitmap is a run of bytes in memory; bit [i] of the map is bit [i mod 8]
    of byte [i / 8].  The specification reads it as a set of used positions. *)
From S2P Require Import Prelude.

Definition FULL_MASK : Z := 1.

(** [struct bitmap].  [bits] are the bytes the pointer leads to, and [after]
    is the byte that follows them in memory, which [find_block_bitmap] reads
    when every byte of the map is full. *)
Record bitmap := Bitmap { bits : list Z; map_bytes_length : Z; after : Z }.

Definition set_bits (l : list Z) (b : bitmap) : bitmap :=
  Bitmap l (map_bytes_length b) (after b).

Section operations.
(** A byte of the map; the loops never look further than [after]. *)
Definition byte_at (b : bitmap) (i : Z) : Z :=
  default (after b) (bits b !! Z.to_nat i).

Fixpoint init_loop (n : nat) (i : Z) (b : bitmap) : bitmap :=
  match n with
  | O => b
  | S n => init_loop n (i + 1) (set_bits (<[Z.to_nat i := 0]> (bits b)) b)
  end.
Definition init_bitmap : M bitmap unit :=
  modify (fun b => init_loop (Z.to_nat (map_bytes_length b)) 0 b).

Definition set_value_bitmap (bit_pos value : Z) : M bitmap unit :=
  b <- get ;;
  ASSERT (u32 (map_bytes_length b * 8) >? bit_pos) ;;;
  ASSERT ((value =? 0) || (value =? 1)) ;;;
  let byte_id := bit_pos / 8 in
  let bit_in_byte_id := bit_pos mod 8 in
  let old := byte_at b byte_id in
  let new := if negb (value =? 0)
             then u8 (Z.lor old (Z.shiftl FULL_MASK bit_in_byte_id))
             else u8 (Z.land old (Z.lnot (Z.shiftl FULL_MASK bit_in_byte_id))) in
  put (set_bits (<[Z.to_nat byte_id := new]> (bits b)) b).

Definition get_value_bitmap (bit_pos : Z) : M bitmap Z :=
  b <- get ;;
  ASSERT (bit_pos >=? 0) ;;;
  ASSERT (u32 (map_bytes_length b * 8) >? bit_pos) ;;;
  let byte_id := bit_pos / 8 in
  let bit_in_byte_id := bit_pos mod 8 in
  ret (Z.land (byte_at b byte_id) (Z.shiftl FULL_MASK bit_in_byte_id)).

(** The loop that advances [map_p] over full bytes while it is inside the map. *)
Fixpoint full_loop (fuel : nat) (b : bitmap) (map_p : Z) : res Z :=
  match fuel with
  | O => Stuck
  | S fuel =>
      if (byte_at b map_p =? 255) && (map_p <? map_bytes_length b)
      then full_loop fuel b (map_p + 1) else Ok map_p
  end.
(** The loop that looks for the first clear bit of the byte found. *)
Fixpoint bit_loop (fuel : nat) (byte bit_idx : Z) : res Z :=
  match fuel with
  | O => Stuck
  | S fuel =>
      if negb (Z.land (Z.shiftl FULL_MASK bit_idx) byte =? 0)
      then bit_loop fuel byte (bit_idx + 1) else Ok bit_idx
  end.
(** The last loop of [find_block_bitmap]; the fuel is [other_bits]. *)
Fixpoint run_loop (other_bits : nat) (cnt next_bit count : Z) : M bitmap Z :=
  match other_bits with
  | O => ret (u32 (-1))
  | S other_bits =>
      b <- get ;;
      if next_bit >=? u32 (map_bytes_length b * 8) then ret (u32 (-1))
      else
        v <- get_value_bitmap next_bit ;;
        let count := if v =? 0 then count + 1 else 0 in
        if count =? cnt then ret (next_bit - cnt + 1)
        else run_loop other_bits cnt (next_bit + 1) count
  end.
Definition lift_res {A} (r : res A) : M bitmap A :=
  match r with Ok a => ret a | Panic => panic | Fault => fault | Stuck => stuck end.
Definition find_block_bitmap (cnt : Z) : M bitmap Z :=
  if cnt =? 0 then ret (u32 (-1))
  else
    b <- get ;;
    pass_count <- lift_res (full_loop (S (S (Z.to_nat (map_bytes_length b)))) b 0) ;;
    if pass_count =? map_bytes_length b then ret (u32 (-1))
    else
      ASSERT (pass_count <? map_bytes_length b) ;;;
      bit_idx <- lift_res (bit_loop 9 (byte_at b pass_count) 0) ;;
      let start_idx := 8 * pass_count + bit_idx in
      if cnt =? 1 then ret start_idx
      else
        let other_bits := u32 (map_bytes_length b * 8) - start_idx in
        let next_bit := start_idx + 1 in
        if next_bit >=? u32 (map_bytes_length b * 8) then ret (u32 (-1))
        else run_loop (Z.to_nat other_bits) cnt next_bit 1.
End operations.

(** ** Reading a bitmap as a set of used positions *)

Definition nbits (b : bitmap) : Z := 8 * map_bytes_length b.
Definition used (b : bitmap) (i : Z) : bool := Z.testbit (byte_at b (i / 8)) (i mod 8).

Record wf (b : bitmap) : Prop := {
  wf_length : Z.of_nat (length (bits b)) = map_bytes_length b;
  wf_size : nbits b < 2 ^ 32;
  wf_bytes : Forall (fun x => 0 <= x < 256) (bits b)
}.

(** [cnt] free positions in a row from [r] on, inside the map. *)
Definition fits (b : bitmap) (cnt r : Z) : Prop :=
  0 <= r /\ r + cnt <= nbits b /\ forall j, 0 <= j < cnt -> used b (r + j) = false.
(** The value an allocation search must return: the first place that fits, or
    [-1] when there is none. *)
Definition first_fit (b : bitmap) (cnt r : Z) : Prop :=
  (fits b cnt r /\ forall r', r' < r -> ~ fits b cnt r') \/
  (r = u32 (-1) /\ forall r', ~ fits b cnt r').

Section facts.
Implicit Types (b : bitmap).

Lemma wf_nbits b : wf b -> 0 <= nbits b < 2 ^ 32 /\ u32 (map_bytes_length b * 8) = nbits b.
Proof.
  intros [Hl Hs _]. unfold nbits in *. split; [lia|]. rewrite Z.mul_comm. apply u32_small. lia.
Qed.

Lemma byte_at_range b i : wf b -> 0 <= i < map_bytes_length b -> 0 <= byte_at b i < 256.
Proof.
  intros [Hl _ Hb] Hi. unfold byte_at.
  destruct (lookup_lt_is_Some_2 (bits b) (Z.to_nat i)) as [x Hx]; [lia|].
  rewrite Hx. simpl. by apply (proj1 (Forall_lookup _ _) Hb _ _ Hx).
Qed.

Lemma land_bit x k : 0 <= k -> (Z.land x (Z.shiftl 1 k) =? 0) = negb (Z.testbit x k).
Proof.
  intros Hk. rewrite Z.shiftl_1_l.
  destruct (Z.testbit x k) eqn:E; simpl.
  - apply Z.eqb_neq. intros H. apply (f_equal (fun z => Z.testbit z k)) in H.
    rewrite Z.land_spec, E, Z.pow2_bits_true, Z.bits_0 in H by done. done.
  - apply Z.eqb_eq, Z.bits_inj'. intros j Hj. rewrite Z.land_spec, Z.bits_0.
    destruct (Z.eqb_spec k j) as [->|]; [by rewrite E|].
    rewrite Z.pow2_bits_false by done. apply andb_false_r.
Qed.

Lemma testbit_high x k : 0 <= x < 256 -> 8 <= k -> Z.testbit x k = false.
Proof.
  intros Hx Hk. destruct (Z.eq_dec x 0) as [->|]; [apply Z.bits_0|].
  apply Z.bits_above_log2; [lia|]. assert (Z.log2 x < 8); [|lia].
  apply Z.log2_lt_pow2; lia.
Qed.

Lemma byte_eq x y :
  0 <= x < 256 -> 0 <= y < 256 ->
  (forall k, 0 <= k < 8 -> Z.testbit x k = Z.testbit y k) -> x = y.
Proof.
  intros Hx Hy Hk. apply Z.bits_inj'. intros k ?.
  destruct (Z.lt_ge_cases k 8); [auto|]. by rewrite !testbit_high.
Qed.

Lemma u8_byte x : u8 x = Z.land x (Z.ones 8).
Proof. unfold u8. by rewrite Z.land_ones by lia. Qed.
Lemma u8_bits x k : 0 <= k -> Z.testbit (u8 x) k = (k <? 8) && Z.testbit x k.
Proof.
  intros Hk. rewrite u8_byte, Z.land_spec, Z.testbit_ones_nonneg, andb_comm by lia. done.
Qed.

(** What the two updates of [set_value_bitmap] do to the bits of a byte. *)
Lemma set_bit_spec x k v j :
  0 <= k < 8 -> 0 <= j < 8 ->
  Z.testbit (if v : bool then u8 (Z.lor x (Z.shiftl FULL_MASK k))
             else u8 (Z.land x (Z.lnot (Z.shiftl FULL_MASK k)))) j =
  if j =? k then v else Z.testbit x j.
Proof.
  intros Hk Hj. unfold FULL_MASK. rewrite Z.shiftl_1_l.
  destruct v; rewrite u8_bits, (proj2 (Z.ltb_lt j 8)) by lia; simpl.
  - rewrite Z.lor_spec. destruct (Z.eqb_spec j k) as [->|].
    + rewrite Z.pow2_bits_true by lia. apply orb_true_r.
    + rewrite Z.pow2_bits_false by lia. apply orb_false_r.
  - rewrite Z.land_spec, Z.lnot_spec by lia. destruct (Z.eqb_spec j k) as [->|].
    + rewrite Z.pow2_bits_true by lia. apply andb_false_r.
    + rewrite Z.pow2_bits_false by lia. apply andb_true_r.
Qed.
End facts.

(** ** What the operations do to the set *)
Section correctness.
Implicit Types (b : bitmap).

Lemma div_mod_eqb i pos : (i =? pos) = (i / 8 =? pos / 8) && (i mod 8 =? pos mod 8).
Proof.
  destruct (Z.eqb_spec i pos) as [->|Hne]; [by rewrite !Z.eqb_refl|].
  destruct (Z.eqb_spec (i / 8) (pos / 8)) as [E|]; [|done].
  destruct (Z.eqb_spec (i mod 8) (pos mod 8)); [|done].
  pose proof (Z.div_mod i 8). pose proof (Z.div_mod pos 8). lia.
Qed.

Lemma byte_at_insert b j x i :
  wf b -> 0 <= j < map_bytes_length b -> 0 <= i ->
  byte_at (set_bits (<[Z.to_nat j := x]> (bits b)) b) i = if i =? j then x else byte_at b i.
Proof.
  intros [Hl _ _] Hj Hi. unfold byte_at. simpl.
  destruct (Z.eqb_spec i j) as [->|].
  - by rewrite list_lookup_insert_eq by lia.
  - by rewrite list_lookup_insert_ne by lia.
Qed.

Lemma wf_insert b j x :
  wf b -> 0 <= x < 256 -> wf (set_bits (<[j := x]> (bits b)) b).
Proof.
  intros [Hl Hs Hb] Hx. split; simpl; [by rewrite length_insert|done|].
  by apply Forall_insert.
Qed.

Lemma set_value_ok b pos (v : bool) :
  wf b -> 0 <= pos < nbits b ->
  exists b', set_value_bitmap pos (if v then 1 else 0) b = Ok (tt, b') /\
    wf b' /\ map_bytes_length b' = map_bytes_length b /\ after b' = after b /\
    forall i, 0 <= i -> used b' i = if i =? pos then v else used b i.
Proof.
  intros Hb Hp. destruct (wf_nbits b Hb) as [? Hn]. unfold nbits in Hp.
  assert (0 <= pos / 8 < map_bytes_length b) as Hd
    by (split; [apply Z.div_pos|apply Z.div_lt_upper_bound]; lia).
  pose proof (Z.mod_pos_bound pos 8 ltac:(lia)) as Hm.
  unfold set_value_bitmap. rewrite get_bind.
  rewrite Hn, assert_bind by (unfold nbits; lia). cbn beta.
  rewrite assert_bind by (by destruct v). unfold put. eexists. split; [done|].
  split; [apply wf_insert; [done|]|split; [done|split; [done|]]].
  { destruct v; simpl negb; cbn iota; apply u8_range. }
  intros i Hi. unfold used at 1. rewrite byte_at_insert by (done || apply Z.div_pos; lia).
  rewrite (div_mod_eqb i pos). pose proof (Z.mod_pos_bound i 8 ltac:(lia)).
  destruct (Z.eqb_spec (i / 8) (pos / 8)) as [E|]; simpl; [|done].
  unfold used. rewrite E. rewrite <-(set_bit_spec _ _ v) by done. by destruct v.
Qed.

Lemma set_value_panics b pos v :
  wf b -> nbits b <= pos -> set_value_bitmap pos v b = Panic.
Proof.
  intros Hb Hp. destruct (wf_nbits b Hb) as [? Hn]. unfold set_value_bitmap.
  rewrite get_bind, Hn. apply assert_bind_false. lia.
Qed.

Lemma get_value_ok b pos :
  wf b -> 0 <= pos < nbits b ->
  exists v, get_value_bitmap pos b = Ok (v, b) /\ (v =? 0) = negb (used b pos).
Proof.
  intros Hb Hp. destruct (wf_nbits b Hb) as [? Hn]. unfold get_value_bitmap.
  rewrite get_bind.
  rewrite Hn, !assert_bind by lia. eexists. split; [done|].
  unfold used, FULL_MASK. apply land_bit. pose proof (Z.mod_pos_bound pos 8). lia.
Qed.

Lemma init_loop_ok n i b :
  wf b -> 0 <= i -> i + Z.of_nat n = map_bytes_length b ->
  let b' := init_loop n i b in
  wf b' /\ map_bytes_length b' = map_bytes_length b /\ after b' = after b /\
  forall j, 0 <= j -> byte_at b' j = if (i <=? j) && (j <? map_bytes_length b) then 0 else byte_at b j.
Proof.
  revert i b. induction n as [|n IH]; intros i b Hb Hi Hn; simpl.
  - split_and!; [done..|]. intros j Hj. by destruct (Z.leb_spec i j), (Z.ltb_spec j (map_bytes_length b)); try lia.
  - destruct (IH (i + 1) (set_bits (<[Z.to_nat i := 0]> (bits b)) b)) as (? & E & ? & Hj);
      [apply wf_insert; [done|lia]|lia|simpl; lia|].
    split_and!; [done..|]. simpl in *. intros j Hj'. rewrite Hj, byte_at_insert by (done || lia).
    destruct (Z.leb_spec (i + 1) j), (Z.leb_spec i j), (Z.ltb_spec j (map_bytes_length b)),
      (Z.eqb_spec j i); simpl; done || lia.
Qed.
Lemma init_bitmap_ok b :
  wf b -> exists b', init_bitmap b = Ok (tt, b') /\ wf b' /\
    map_bytes_length b' = map_bytes_length b /\
    forall i, 0 <= i < nbits b -> used b' i = false.
Proof.
  intros Hb. pose proof (wf_length _ Hb).
  destruct (init_loop_ok (Z.to_nat (map_bytes_length b)) 0 b) as (? & ? & ? & Hj); [done|lia..|].
  eexists. split; [done|]. split_and!; [done..|]. intros i Hi. unfold nbits in Hi.
  assert (0 <= i / 8 < map_bytes_length b) as Hd
    by (split; [apply Z.div_pos|apply Z.div_lt_upper_bound]; lia).
  unfold used. rewrite Hj by lia.
  rewrite (proj2 (Z.leb_le 0 (i / 8))), (proj2 (Z.ltb_lt _ _)) by lia. apply Z.bits_0.
Qed.
End correctness.

(** ** The search *)
Section search.
Implicit Types (b : bitmap).

Lemma full_byte_used b i :
  byte_at b (i / 8) = 255 -> used b i = true.
Proof.
  intros E. unfold used. rewrite E. change 255 with (Z.ones 8).
  apply Z.ones_spec_low. pose proof (Z.mod_pos_bound i 8). lia.
Qed.

Lemma full_loop_ok fuel b i :
  wf b -> 0 <= i <= map_bytes_length b -> map_bytes_length b - i < Z.of_nat fuel ->
  exists j, full_loop fuel b i = Ok j /\ i <= j <= map_bytes_length b /\
    (forall k, i <= k < j -> byte_at b k = 255) /\
    (j < map_bytes_length b -> byte_at b j <> 255).
Proof.
  intros Hb. revert i. induction fuel as [|fuel IH]; intros i Hi Hf; [lia|]. simpl.
  destruct (Z.eqb_spec (byte_at b i) 255) as [E|E],
    (Z.ltb_spec i (map_bytes_length b)) as [Hlt|Hge]; simpl.
  - destruct (IH (i + 1)) as (j & ? & ? & Hall & ?); [lia..|].
    exists j. split_and!; try done; try lia. intros k Hk.
    destruct (Z.eq_dec k i) as [->|]; [done|]. apply Hall. lia.
  - exists i. split_and!; try done; lia.
  - exists i. split_and!; try done; lia.
  - exists i. split_and!; try done; lia.
Qed.

Lemma bit_loop_ok fuel x k :
  0 <= x < 256 -> x <> 255 -> 0 <= k <= 8 ->
  (forall i, 0 <= i < k -> Z.testbit x i = true) -> 8 - k < Z.of_nat fuel ->
  exists j, bit_loop fuel x k = Ok j /\ k <= j < 8 /\ Z.testbit x j = false /\
    (forall i, 0 <= i < j -> Z.testbit x i = true).
Proof.
  intros Hx Hne. revert k. induction fuel as [|fuel IH]; intros k Hk Hall Hf; [lia|]. simpl.
  assert (k < 8) as Hk8.
  { destruct (Z.lt_ge_cases k 8); [done|]. destruct Hne. apply byte_eq; [done|lia|].
    intros i Hi. rewrite Hall by lia. change 255 with (Z.ones 8).
    symmetry. by apply Z.ones_spec_low. }
  rewrite Z.land_comm. unfold FULL_MASK. rewrite land_bit, negb_involutive by lia.
  destruct (Z.testbit x k) eqn:E; [|exists k; split_and!; try done; lia].
  destruct (IH (k + 1)) as (j & ? & ? & ? & ?); [lia| |lia|].
  { intros i Hi. destruct (Z.eq_dec i k) as [->|]; [done|]. apply Hall. lia. }
  exists j. split_and!; try done; lia.
Qed.

(** The two scanning loops find the first free position. *)
Lemma first_free_ok b p j :
  wf b -> 0 <= p < map_bytes_length b -> (forall k, 0 <= k < p -> byte_at b k = 255) ->
  0 <= j < 8 -> Z.testbit (byte_at b p) j = false ->
  (forall i, 0 <= i < j -> Z.testbit (byte_at b p) i = true) ->
  used b (8 * p + j) = false /\ forall i, 0 <= i < 8 * p + j -> used b i = true.
Proof.
  intros Hb Hp Hfull Hj Hz Hones. split.
  - unfold used. rewrite (Z.mul_comm 8), Z.div_add_l, Z.div_small, Z.add_0_r by lia.
    rewrite Z.add_comm, Z_mod_plus_full, Z.mod_small by lia. done.
  - intros i Hi. destruct (Z.lt_ge_cases (i / 8) p) as [Hlt|Hge].
    + apply full_byte_used, Hfull. split; [apply Z.div_pos; lia|done].
    + assert (i / 8 = p) as E.
      { assert (i / 8 <= p); [|lia]. apply Z.lt_succ_r, Z.div_lt_upper_bound; lia. }
      unfold used. rewrite E. apply Hones. pose proof (Z.div_mod i 8). 
      pose proof (Z.mod_pos_bound i 8). lia.
Qed.

(** Invariant of the last loop: the [count] positions before [next_bit] are
    free, and no place fits before them. *)
Lemma run_loop_ok fuel b cnt next_bit count :
  wf b -> 0 <= count < cnt -> 0 <= next_bit - count -> next_bit <= nbits b ->
  nbits b - next_bit < Z.of_nat fuel ->
  (forall i, next_bit - count <= i < next_bit -> used b i = false) ->
  (forall r, r < next_bit - count -> ~ fits b cnt r) ->
  exists r, run_loop fuel cnt next_bit count b = Ok (r, b) /\ first_fit b cnt r.
Proof.
  intros Hb. destruct (wf_nbits b Hb) as [Hr Hn].
  revert next_bit count. induction fuel as [|fuel IH]; intros nb c Hc H0 Hnb Hf Hfree Hno; [lia|].
  cbn [run_loop]. rewrite get_bind, Hn.
  destruct (Z.geb_spec nb (nbits b)) as [Hge|Hlt].
  { eexists. split; [done|]. right. split; [done|]. intros r Hfit.
    destruct (Z.lt_ge_cases r (nb - c)); [by eapply Hno|]. destruct Hfit as (? & ? & _). lia. }
  destruct (get_value_ok b nb Hb ltac:(lia)) as (v & Ev & Hv). run Ev. rewrite Hv.
  destruct (used b nb) eqn:Hu; cbn [negb]; cbv iota zeta.
  - rewrite (proj2 (Z.eqb_neq 0 cnt)) by lia. apply IH; try lia.
    intros r Hr' Hfit. destruct (Z.lt_ge_cases r (nb - c)); [by eapply Hno|].
    destruct Hfit as (? & ? & Hj). specialize (Hj (nb - r) ltac:(lia)).
    replace (r + (nb - r)) with nb in Hj by lia. congruence.
  - assert (forall i, nb - c <= i <= nb -> used b i = false) as Hfree'.
    { intros i Hi. destruct (Z.eq_dec i nb) as [->|]; [done|]. apply Hfree. lia. }
    destruct (Z.eqb_spec (c + 1) cnt) as [<-|Hne].
    + eexists. split; [done|]. left. split.
      * split_and!; [lia|lia|]. intros j Hj. apply Hfree'. lia.
      * intros r Hr'. apply Hno. lia.
    + apply IH; try lia; intros i Hi; [apply Hfree'|apply Hno]; lia.
Qed.

Lemma find_block_ok b cnt :
  wf b -> 0 < cnt ->
  exists r, find_block_bitmap cnt b = Ok (r, b) /\ first_fit b cnt r.
Proof.
  intros Hb Hc. destruct (wf_nbits b Hb) as [Hr Hn]. unfold find_block_bitmap.
  rewrite (proj2 (Z.eqb_neq cnt 0)) by lia. rewrite get_bind.
  assert (0 <= map_bytes_length b) by (unfold nbits in *; lia).
  destruct (full_loop_ok (S (S (Z.to_nat (map_bytes_length b)))) b 0) as (p & Ep & Hp & Hfull & Hpe);
    [done|lia..|].
  rewrite Ep. cbn [lift_res]. rewrite bind_ret.
  destruct (Z.eqb_spec p (map_bytes_length b)) as [->|Hne].
  { eexists. split; [done|]. right. split; [done|]. intros r (? & ? & Hj).
    specialize (Hj 0 ltac:(lia)). rewrite Z.add_0_r in Hj. rewrite full_byte_used in Hj; [done|].
    apply Hfull. unfold nbits in *. split; [apply Z.div_pos; lia|]. apply Z.div_lt_upper_bound; lia. }
  rewrite assert_bind by (apply Z.ltb_lt; lia).
  destruct (bit_loop_ok 9 (byte_at b p) 0) as (j & Ej & Hj & Hz & Hones);
    [apply byte_at_range; [done|lia]|apply Hpe; lia|lia..|].
  rewrite Ej. cbn [lift_res]. rewrite bind_ret. cbv zeta.
  destruct (first_free_ok b p j) as [Hfree Hused]; [done|lia|done|lia|done..|].
  assert (8 * p + j < nbits b) by (unfold nbits; lia).
  assert (forall r, r < 8 * p + j -> ~ fits b cnt r) as Hno.
  { intros r Hr' (? & ? & Hj'). specialize (Hj' 0 ltac:(lia)). rewrite Z.add_0_r in Hj'.
    rewrite Hused in Hj'; [done|lia]. }
  destruct (Z.eqb_spec cnt 1) as [->|Hc1].
  { eexists. split; [done|]. left. split; [|done]. split_and!; [lia..|].
    intros k Hk. by replace (8 * p + j + k) with (8 * p + j) by lia. }
  rewrite Hn. destruct (Z.geb_spec (8 * p + j + 1) (nbits b)).
  { eexists. split; [done|]. right. split; [done|]. intros r Hfit.
    destruct (Z.lt_ge_cases r (8 * p + j)); [by eapply Hno|]. destruct Hfit. lia. }
  apply run_loop_ok; [done|lia..| |].
  - intros i Hi. by replace i with (8 * p + j) by lia.
  - intros r Hr'. apply Hno. lia.
Qed.

Lemma find_block_zero b : find_block_bitmap 0 b = Ok (2 ^ 32 - 1, b).
Proof. done. Qed.

(** An allocation that succeeds lies inside the map. *)
Lemma first_fit_range b cnt r :
  wf b -> first_fit b cnt r -> r <> u32 (-1) -> fits b cnt r.
Proof. by intros Hb [[? _]|[-> _]]. Qed.
End search.

(** ** The properties of the bitmaps *)

(** [set_value_bitmap] inside the map makes exactly the given position
    used or free, and keeps the map well formed; [get_value_bitmap] tells
    whether a position is used; a position outside the map stops the machine;
    [init_bitmap] frees every position. *)
Theorem bitmap_is_a_set (b : bitmap) (pos : Z) (v : bool) :
  wf b -> 0 <= pos ->
  (pos < nbits b ->
     (exists b', set_value_bitmap pos (if v then 1 else 0) b = Ok (tt, b') /\ wf b' /\
        map_bytes_length b' = map_bytes_length b /\
        forall i, 0 <= i -> used b' i = if i =? pos then v else used b i) /\
     (exists x, get_value_bitmap pos b = Ok (x, b) /\ (x =? 0) = negb (used b pos))) /\
  (nbits b <= pos -> set_value_bitmap pos (if v then 1 else 0) b = Panic) /\
  (exists b', init_bitmap b = Ok (tt, b') /\ wf b' /\ forall i, 0 <= i < nbits b -> used b' i = false).
Proof.
  intros Hb Hp. split_and!.
  - intros Hlt. split; [|by apply get_value_ok].
    destruct (set_value_ok b pos v) as (b' & ? & ? & ? & ? & ?); [done..|]. by exists b'.
  - intros. by apply set_value_panics.
  - destruct (init_bitmap_ok b Hb) as (b' & ? & ? & ? & ?). by exists b'.
Qed.

(** C32: [find_block_bitmap] always returns, changes nothing, and finds the
    first place with [cnt] free positions in a row inside the map; it returns
    [-1] only when there is no such place, and also for a count of 0. *)
Theorem find_block_bitmap_first_fit (b : bitmap) (cnt : Z) :
  wf b -> 0 <= cnt ->
  exists r, find_block_bitmap cnt b = Ok (r, b) /\
    (if cnt =? 0 then r = u32 (-1) else first_fit b cnt r).
Proof.
  intros Hb Hc. destruct (Z.eqb_spec cnt 0) as [->|].
  - exists (u32 (-1)). split; [apply find_block_zero|done].
  - destruct (find_block_ok b cnt) as (r & ? & ?); [done|lia|]. by exists r.
Qed.

Lemma bitmap_is_a_set_witness :
  exists b', set_value_bitmap 9 1 (Bitmap [255; 0] 2 0) = Ok (tt, b') /\ used b' 9 = true.
Proof.
  destruct (bitmap_is_a_set (Bitmap [255; 0] 2 0) 9 true) as [H _].
  - split; [reflexivity|reflexivity|by_computation].
  - lia.
  - destruct (H ltac:(reflexivity)) as [(b' & E & _ & _ & Hu) _].
    exists b'. split; [exact E|]. rewrite Hu by lia. reflexivity.
Defined.

Lemma find_block_bitmap_first_fit_witness :
  find_block_bitmap 3 (Bitmap [231; 24] 2 0) = Ok (8, Bitmap [231; 24] 2 0) /\
  exists r, find_block_bitmap 3 (Bitmap [231; 24] 2 0) = Ok (r, Bitmap [231; 24] 2 0) /\
    first_fit (Bitmap [231; 24] 2 0) 3 r.
Proof.
  split; [reflexivity|]. apply (find_block_bitmap_first_fit (Bitmap [231; 24] 2 0) 3).
  - split; [reflexivity|reflexivity|by_computation].
  - lia.
Defined.
