(* ===== verification/Fifo.v ===== *)
(** * Fifo: the byte queue of core/lib/fifo.c *)
From S2P Require Import Prelude.

Definition FIFO_QUEUE_MAX : Z := 1024.

(** [FIFO].  [buf] is the array behind the pointer that [init_fifo] was given;
    an access outside it faults. *)
Record FIFO := Fifo { put_p : Z; get_p : Z; buf : list Z; size : Z; free : Z }.

Definition init_fifo (sz : Z) (b : list Z) : FIFO := Fifo 0 0 b sz sz.

Definition next_pos (pos : Z) : Z := (pos + 1) mod FIFO_QUEUE_MAX.

Definition load (i : Z) : M FIFO Z :=
  fun q => if (0 <=? i) then
             match buf q !! Z.to_nat i with Some x => Ok (x, q) | None => Fault end
           else Fault.
Definition store (i x : Z) : M FIFO unit :=
  fun q => if (0 <=? i) && (i <? Z.of_nat (length (buf q)))
           then Ok (tt, Fifo (put_p q) (get_p q) (<[Z.to_nat i := x]> (buf q)) (size q) (free q))
           else Fault.

Definition fifo_put_data (data : Z) : M FIFO Z :=
  q <- get ;;
  if free q =? 0 then ret (u32 (-1))
  else
    store (put_p q) data ;;;
    modify (fun q => Fifo (next_pos (put_p q)) (get_p q) (buf q) (size q) (free q)) ;;;
    modify (fun q => Fifo (put_p q) (get_p q) (buf q) (size q) (u32 (free q - 1))) ;;;
    ret 0.

Definition fifo_get_data : M FIFO Z :=
  q <- get ;;
  r <- load (get_p q) ;;
  if free q =? size q then ret (-1)
  else
    modify (fun q => Fifo (put_p q) (next_pos (get_p q)) (buf q) (size q) (free q)) ;;;
    modify (fun q => Fifo (put_p q) (get_p q) (buf q) (size q) (u32 (free q + 1))) ;;;
    ret r.

Definition fifo_rest : M FIFO Z := gets (fun q => u32 (size q - free q)).

Definition fifo_length : M FIFO Z :=
  gets (fun q => if get_p q >=? put_p q
                 then u32 (FIFO_QUEUE_MAX - (get_p q - put_p q))
                 else u32 (put_p q - get_p q)).

(** ** The queue a [FIFO] stands for

    [holds q xs]: the unread bytes are [xs], oldest first. *)
Record holds (q : FIFO) (xs : list Z) : Prop := {
  h_buf : length (buf q) = Z.to_nat FIFO_QUEUE_MAX;
  h_size : size q = FIFO_QUEUE_MAX;
  h_free : free q = FIFO_QUEUE_MAX - Z.of_nat (length xs);
  h_fit : Z.of_nat (length xs) <= FIFO_QUEUE_MAX;
  h_get : 0 <= get_p q < FIFO_QUEUE_MAX;
  h_put : put_p q = (get_p q + Z.of_nat (length xs)) mod FIFO_QUEUE_MAX;
  h_data : forall i x, xs !! i = Some x ->
             buf q !! Z.to_nat ((get_p q + Z.of_nat i) mod FIFO_QUEUE_MAX) = Some x
}.

Section correctness.
Implicit Types (q : FIFO) (xs : list Z).
Notation N := FIFO_QUEUE_MAX.

Lemma mod_lt x : 0 <= x mod N < N.
Proof. apply Z.mod_pos_bound. done. Qed.

Lemma ring_inj g i j :
  0 <= i < N -> 0 <= j < N -> (g + i) mod N = (g + j) mod N -> i = j.
Proof.
  intros Hi Hj E. apply (f_equal (fun z => (z - g) mod N)) in E.
  rewrite !Zminus_mod_idemp_l in E. replace (g + i - g) with i in E by lia.
  replace (g + j - g) with j in E by lia. rewrite !Z.mod_small in E; done.
Qed.

Lemma init_fifo_ok b : length b = Z.to_nat N -> holds (init_fifo N b) [].
Proof. intros Hb. split; simpl; try done. Qed.

Lemma put_full q xs data :
  holds q xs -> Z.of_nat (length xs) = N -> fifo_put_data data q = Ok (2 ^ 32 - 1, q).
Proof.
  intros Hq Hl. unfold fifo_put_data. rewrite get_bind, (h_free _ _ Hq), Hl, Z.sub_diag. done.
Qed.

Lemma put_ok q xs data :
  holds q xs -> Z.of_nat (length xs) < N ->
  exists q', fifo_put_data data q = Ok (0, q') /\ holds q' (xs ++ [data]).
Proof.
  intros Hq Hl. pose proof (h_free _ _ Hq). pose proof (mod_lt (get_p q + Z.of_nat (length xs))) as Hm.
  pose proof (h_put _ _ Hq) as Hp. unfold fifo_put_data. rewrite get_bind.
  rewrite (proj2 (Z.eqb_neq (free q) 0)) by lia. unfold store, bind at 1.
  rewrite (h_buf _ _ Hq), (proj2 (Z.leb_le 0 (put_p q))), (proj2 (Z.ltb_lt (put_p q) _)) by (rewrite Hp; lia).
  simpl. eexists. split; [done|].
  split; simpl; rewrite ?length_insert, ?length_app; try apply Hq.
  - simpl. rewrite H, u32_small by (unfold FIFO_QUEUE_MAX in *; lia). lia.
  - simpl. lia.
  - simpl. unfold next_pos. rewrite Hp, Zplus_mod_idemp_l. f_equal. lia.
  - intros i x Hi. pose proof (lookup_lt_Some _ _ _ Hi) as Hlt. rewrite length_app in Hlt; simpl in Hlt.
    destruct (decide (i = length xs)) as [->|Hne].
    + rewrite lookup_app_r, Nat.sub_diag in Hi by lia. simplify_eq/=.
      rewrite Hp, list_lookup_insert_eq; [done|]. rewrite (h_buf _ _ Hq). lia.
    + rewrite lookup_app_l in Hi by lia. rewrite list_lookup_insert_ne; [by apply Hq|].
      intros E. rewrite Hp in E. pose proof (mod_lt (get_p q + Z.of_nat i)).
      apply Z2Nat.inj in E; [|lia..]. apply ring_inj in E; lia.
Qed.

Lemma get_empty q : holds q [] -> fifo_get_data q = Ok (-1, q).
Proof.
  intros Hq. unfold fifo_get_data, load. rewrite get_bind. unfold bind at 1.
  pose proof (h_get _ _ Hq). pose proof (h_buf _ _ Hq).
  rewrite (proj2 (Z.leb_le 0 (get_p q))) by lia.
  destruct (lookup_lt_is_Some_2 (buf q) (Z.to_nat (get_p q))) as [x ->]; [lia|].
  rewrite (h_free _ _ Hq), (h_size _ _ Hq). done.
Qed.

Lemma get_ok q x xs :
  holds q (x :: xs) ->
  exists q', fifo_get_data q = Ok (x, q') /\ holds q' xs.
Proof.
  intros Hq. pose proof (h_get _ _ Hq). pose proof (h_fit _ _ Hq). pose proof (h_free _ _ Hq) as Hfr.
  simpl in Hfr. pose proof (h_data _ _ Hq 0 x eq_refl) as Hx.
  rewrite Z.add_0_r, Z.mod_small in Hx by done.
  unfold fifo_get_data, load. rewrite get_bind. unfold bind at 1.
  rewrite (proj2 (Z.leb_le 0 (get_p q))), Hx by lia.
  rewrite (proj2 (Z.eqb_neq (free q) (size q))) by (rewrite (h_size _ _ Hq); lia).
  simpl. eexists. split; [done|]. simpl in *. split; simpl; try apply Hq.
  - rewrite Hfr, u32_small by (unfold FIFO_QUEUE_MAX in *; lia). lia.
  - lia.
  - apply mod_lt.
  - rewrite (h_put _ _ Hq). unfold next_pos. rewrite Zplus_mod_idemp_l. f_equal. simpl. lia.
  - intros i y Hi. unfold next_pos. rewrite Zplus_mod_idemp_l.
    rewrite <-(h_data _ _ Hq (S i) y Hi). do 3 f_equal. lia.
Qed.

Lemma rest_ok q xs : holds q xs -> fifo_rest q = Ok (Z.of_nat (length xs), q).
Proof.
  intros Hq. unfold fifo_rest, gets. rewrite (h_free _ _ Hq), (h_size _ _ Hq).
  do 2 f_equal. pose proof (h_fit _ _ Hq). rewrite u32_small by (unfold FIFO_QUEUE_MAX in *; lia). lia.
Qed.

(** [fifo_length] looks at the positions only, and takes the empty queue for
    a full one. *)
Lemma length_ok q xs :
  holds q xs -> fifo_length q = Ok (if decide (xs = []) then N else Z.of_nat (length xs), q).
Proof.
  intros Hq. unfold fifo_length, gets. do 2 f_equal.
  pose proof (h_get _ _ Hq). pose proof (h_fit _ _ Hq). pose proof (h_put _ _ Hq) as Hp.
  assert (u32 N = N) as HN by done. unfold u32 in *. unfold FIFO_QUEUE_MAX in *.
  set (n := Z.of_nat (length xs)) in *.
  assert ((xs = [] /\ n = 0) \/ (xs <> [] /\ 0 < n)) as [[-> Hn]|[Hne Hn]]
    by (destruct xs; simpl in *; [left|right]; split; try done; lia).
  - rewrite decide_True by done. rewrite Hn, Z.add_0_r, Z.mod_small in Hp by lia.
    rewrite Hp, (proj2 (Z.geb_le _ _)), Z.sub_diag by lia. done.
  - rewrite decide_False by done.
    destruct (Z.geb_spec (get_p q) (put_p q)) as [Hg|Hg].
    + destruct (Z.lt_ge_cases (get_p q + n) 1024) as [Hlt|Hge].
      * rewrite Z.mod_small in Hp by lia. lia.
      * replace ((get_p q + n) mod 1024) with (get_p q + n - 1024) in Hp
          by (apply (Z.mod_unique_pos _ _ 1); lia).
        rewrite Z.mod_small by lia. lia.
    + destruct (Z.lt_ge_cases (get_p q + n) 1024) as [Hlt|Hge].
      * rewrite Z.mod_small in Hp by lia. rewrite Z.mod_small by lia. lia.
      * replace ((get_p q + n) mod 1024) with (get_p q + n - 1024) in Hp
          by (apply (Z.mod_unique_pos _ _ 1); lia). lia.
Qed.
End correctness.

(** ** Runs of calls against the abstract bounded queue *)
Inductive call := Put (data : Z) | Get | Rest.
Definition do_call (c : call) : M FIFO Z :=
  match c with Put d => fifo_put_data d | Get => fifo_get_data | Rest => fifo_rest end.
Definition spec_call (c : call) (xs : list Z) : Z * list Z :=
  match c with
  | Put d => if Z.of_nat (length xs) =? FIFO_QUEUE_MAX then (2 ^ 32 - 1, xs) else (0, xs ++ [d])
  | Get => match xs with [] => (-1, []) | x :: xs => (x, xs) end
  | Rest => (Z.of_nat (length xs), xs)
  end.
Fixpoint do_calls (cs : list call) : M FIFO (list Z) :=
  match cs with
  | [] => ret []
  | c :: cs => r <- do_call c ;; rs <- do_calls cs ;; ret (r :: rs)
  end.
Fixpoint spec_calls (cs : list call) (xs : list Z) : list Z * list Z :=
  match cs with
  | [] => ([], xs)
  | c :: cs => let '(r, ys) := spec_call c xs in
               let '(rs, zs) := spec_calls cs ys in (r :: rs, zs)
  end.

Lemma do_call_ok c q xs :
  holds q xs -> exists q', do_call c q = Ok (fst (spec_call c xs), q') /\ holds q' (snd (spec_call c xs)).
Proof.
  intros Hq. destruct c as [d| |]; simpl.
  - destruct (Z.eqb_spec (Z.of_nat (length xs)) FIFO_QUEUE_MAX); simpl.
    + exists q. split; [by eapply put_full|done].
    + apply put_ok; [done|]. pose proof (h_fit _ _ Hq). lia.
  - destruct xs as [|x xs]; simpl; [exists q; split; [by apply get_empty|done]|by apply get_ok].
  - exists q. split; [by apply rest_ok|done].
Qed.

(** ** A queue smaller than [FIFO_QUEUE_MAX] *)
Lemma small_cycle sz b k d :
  length b = Z.to_nat sz -> 0 <= k < sz -> sz < FIFO_QUEUE_MAX ->
  exists b', length b' = Z.to_nat sz /\
    bind (fifo_put_data d) (fun _ => fifo_get_data) (Fifo k k b sz sz)
      = Ok (d, Fifo (k + 1) (k + 1) b' sz sz).
Proof.
  intros Hb Hk Hs. assert (next_pos k = k + 1) as Hn by (apply Z.mod_small; lia).
  exists (<[Z.to_nat k := d]> b). split; [by rewrite length_insert|].
  unfold FIFO_QUEUE_MAX in Hs.
  unfold fifo_put_data. rewrite bind_assoc, get_bind. cbn [free].
  rewrite (proj2 (Z.eqb_neq sz 0)) by lia. rewrite !bind_assoc.
  unfold store at 1, bind at 1. cbn [put_p get_p buf size free].
  rewrite (proj2 (Z.leb_le 0 k)), (proj2 (Z.ltb_lt k (Z.of_nat (length b)))) by lia. cbn [andb].
  rewrite !bind_assoc, modify_bind. cbn [put_p get_p buf size free].
  rewrite !bind_assoc, modify_bind. cbn [put_p get_p buf size free]. rewrite bind_ret, Hn.
  unfold fifo_get_data. rewrite get_bind. unfold load, bind at 1. cbn [put_p get_p buf size free].
  rewrite (proj2 (Z.leb_le 0 k)), list_lookup_insert_eq by lia.
  rewrite (proj2 (Z.eqb_neq (u32 (sz - 1)) sz)) by (rewrite u32_small; lia).
  rewrite modify_bind. cbn [put_p get_p buf size free]. rewrite modify_bind. cbn [put_p get_p buf size free].
  rewrite Hn. unfold ret. do 3 f_equal. rewrite (u32_small (sz - 1)), u32_small; lia.
Qed.

Lemma small_cycles n sz b k d :
  length b = Z.to_nat sz -> 0 <= k -> k + Z.of_nat n = sz -> sz < FIFO_QUEUE_MAX ->
  do_calls (concat (replicate n [Put d; Get]) ++ [Put d]) (Fifo k k b sz sz)
    = if decide (n = 0%nat /\ sz = 0) then Ok ([2 ^ 32 - 1], Fifo k k b sz sz) else Fault.
Proof.
  revert b k. induction n as [|n IH]; intros b k Hb Hk Hn Hs.
  - case_decide as Hz.
    + destruct Hz as [_ ->]. done.
    + simpl. unfold fifo_put_data. rewrite bind_assoc, get_bind. cbn [free].
      rewrite (proj2 (Z.eqb_neq sz 0)) by lia. unfold bind, store. cbn [put_p buf].
      rewrite (proj2 (Z.ltb_ge k _)) by lia. by rewrite andb_false_r.
  - rewrite decide_False by lia.
    destruct (small_cycle sz b k d) as (b' & Hb' & E); [done|lia|done|].
    simpl. unfold bind at 1 in E. destruct (fifo_put_data d (Fifo k k b sz sz)) as [[r q1]| | |] eqn:E1; try done.
    rewrite (bind_ok _ _ _ _ _ E1), bind_assoc, (bind_ok _ _ _ _ _ E), bind_assoc.
    destruct (decide (sz = 0)); [lia|].
    specialize (IH b' (k + 1) Hb' ltac:(lia) ltac:(lia) Hs).
    rewrite decide_False in IH by lia.
    change (bind ?m ?f ?q) with (match m q with Ok (a, s') => f a s' | Panic => Panic | Fault => Fault | Stuck => Stuck end).
    by rewrite IH.
Qed.

Lemma do_calls_ok cs q xs :
  holds q xs -> exists q', do_calls cs q = Ok (fst (spec_calls cs xs), q') /\ holds q' (snd (spec_calls cs xs)).
Proof.
  revert q xs. induction cs as [|c cs IH]; intros q xs Hq; simpl; [by exists q|].
  destruct (do_call_ok c q xs Hq) as (q1 & E1 & Hq1).
  destruct (spec_call c xs) as [r ys]. simpl in *.
  destruct (IH q1 ys Hq1) as (q2 & E2 & Hq2). destruct (spec_calls cs ys) as [rs zs]. simpl in *.
  exists q2. run E1. by run E2.
Qed.

(** ** The properties of the queue *)

(** C35: any run of the queue calls on a freshly initialised queue of
    [FIFO_QUEUE_MAX] bytes returns what a bounded first-in first-out queue of
    that size returns: a full queue refuses a byte with [-1], an empty one
    gives [-1]. *)
Theorem fifo_refines_bounded_queue (cs : list call) (b : list Z) :
  length b = Z.to_nat FIFO_QUEUE_MAX ->
  exists q, do_calls cs (init_fifo FIFO_QUEUE_MAX b) = Ok (fst (spec_calls cs []), q) /\
    holds q (snd (spec_calls cs [])).
Proof. intros Hb. apply do_calls_ok, init_fifo_ok, Hb. Qed.

(** On a queue initialised with fewer than [FIFO_QUEUE_MAX] bytes, as
    many rounds of one write and one read as it has bytes take the write
    position past the end of its buffer, and the next write is out of bounds:
    the positions wrap at [FIFO_QUEUE_MAX], not at the size of the queue. *)
Theorem fifo_small_overruns (sz d : Z) (b : list Z) :
  0 < sz < FIFO_QUEUE_MAX -> length b = Z.to_nat sz ->
  do_calls (concat (replicate (Z.to_nat sz) [Put d; Get]) ++ [Put d]) (init_fifo sz b) = Fault.
Proof. intros Hs Hb. unfold init_fifo. rewrite small_cycles by lia. by rewrite decide_False by lia. Qed.

Lemma fifo_refines_bounded_queue_witness :
  length (replicate 1024 7) = Z.to_nat FIFO_QUEUE_MAX /\
  exists q, do_calls [Put 1; Put 2; Rest; Get; Get; Get] (init_fifo FIFO_QUEUE_MAX (replicate 1024 7))
    = Ok ([0; 0; 2; 1; 2; -1], q).
Proof.
  split; [reflexivity|].
  destruct (fifo_refines_bounded_queue [Put 1; Put 2; Rest; Get; Get; Get] (replicate 1024 7)) as (q & E & _);
    [reflexivity|exists q; exact E].
Defined.

Lemma fifo_small_overruns_witness :
  do_calls [Put 5; Get; Put 5; Get; Put 5] (init_fifo 2 [0; 0]) = Fault.
Proof. apply (fifo_small_overruns 2 5 [0; 0]); [split; reflexivity|reflexivity]. Defined.
