(* ===== verification/ListSpec.v ===== *)
(** * ListSpec: the lists of core/lib/list.c as sequences

    Runs of list calls against the abstract sequence of nodes, and what the
    searching and the destroying loops give. *)
From S2P Require Import Prelude Lists ListProofs.

(** A call on one list; [node] is the node it is given. *)
Inductive list_op :=
| Add (node : Z) | AddTail (node : Z) | Del (node : Z) | DelInit (node : Z)
| Pop | Move (node : Z) | MoveTail (node : Z) | IsEmpty.

(** The code of a call; the result of a call without one is 0. *)
Definition run_op {S} `{HasLists S} (head : Z) (op : list_op) : M S Z :=
  match op with
  | Add n => list_add n head ;;; ret 0
  | AddTail n => list_add_tail n head ;;; ret 0
  | Del n => list_del n ;;; ret 0
  | DelInit n => list_del_init n ;;; ret 0
  | Pop => list_pop head
  | Move n => list_move n head ;;; ret 0
  | MoveTail n => list_move_tail n head ;;; ret 0
  | IsEmpty => b <- list_is_empty head ;; ret (if b : bool then 1 else 0)
  end.
Fixpoint run_ops {S} `{HasLists S} (head : Z) (ops : list list_op) : M S (list Z) :=
  match ops with
  | [] => ret []
  | op :: ops => r <- run_op head op ;; rs <- run_ops head ops ;; ret (r :: rs)
  end.

(** The same call on the sequence of nodes; [None] when the call is not
    allowed: a node is inserted once, and only a node of the list is removed
    or moved. *)
Definition without (n : Z) (xs : list Z) : list Z := filter (fun m => m <> n) xs.
Definition seq_op (head : Z) (op : list_op) (xs : list Z) : option (Z * list Z) :=
  match op with
  | Add n => if decide (n ∈ head :: xs) then None else Some (0, n :: xs)
  | AddTail n => if decide (n ∈ head :: xs) then None else Some (0, xs ++ [n])
  | Del n | DelInit n => if decide (n ∈ xs) then Some (0, without n xs) else None
  | Pop => match xs with [] => None | x :: xs => Some (x, xs) end
  | Move n => if decide (n ∈ xs) then Some (0, n :: without n xs) else None
  | MoveTail n => if decide (n ∈ xs) then Some (0, without n xs ++ [n]) else None
  | IsEmpty => Some (match xs with [] => 1 | _ => 0 end, xs)
  end.
Fixpoint seq_ops (head : Z) (ops : list list_op) (xs : list Z) : option (list Z * list Z) :=
  match ops with
  | [] => Some ([], xs)
  | op :: ops =>
      '(r, ys) ← seq_op head op xs;
      '(rs, zs) ← seq_ops head ops ys;
      Some (r :: rs, zs)
  end.

Definition op_node (op : list_op) : list Z :=
  match op with
  | Add n | AddTail n | Del n | DelInit n | Move n | MoveTail n => [n]
  | Pop | IsEmpty => []
  end.

Section refinement.
Context {S : Type} `{HasLists S}.
Implicit Types (s : S) (head n : Z) (xs ys : list Z).

Lemma without_split xs ys n : NoDup (xs ++ n :: ys) -> without n (xs ++ n :: ys) = xs ++ ys.
Proof.
  intros Hd. nodup_hyps. unfold without. rewrite list.filter_app, filter_cons_False by naive_solver.
  assert (forall zs : list Z, n ∉ zs -> filter (fun m => m <> n) zs = zs) as Hf.
  { induction zs as [|z zs IH]; [done|]. intros Hn. apply list.not_elem_of_cons in Hn as [? ?].
    rewrite filter_cons_True by done. by rewrite IH. }
  f_equal; apply Hf; set_solver.
Qed.

Lemma run_op_ok s head op xs r ys :
  dll (lists s) head xs -> (forall n, n ∈ op_node op -> mapped (lists s) n) ->
  seq_op head op xs = Some (r, ys) ->
  exists h', run_op head op s = Ok (r, set_lists h' s) /\ dll h' head ys /\
    unchanged_except (op_node op ++ head :: xs) (lists s) h' /\
    (forall p, p ∈ ys -> p ∈ op_node op ++ xs).
Proof.
  intros Hd Hm Hop.
  destruct op as [n|n|n|n| |n|n|]; simpl in Hop; try case_decide as Hi; simplify_eq.
  - destruct (list_add_ok s n head xs) as (h' & E & ? & ?); [done..|apply Hm; set_solver|].
    exists h'. simpl. run E. split_and!; [done..|set_solver].
  - destruct (list_add_tail_ok s n head xs) as (h' & E & ? & ?); [done..|apply Hm; set_solver|].
    exists h'. simpl. run E. split_and!; [done..|set_solver].
  - apply list_elem_of_split in Hi as (l1 & l2 & ->).
    destruct (list_del_ok s n head l1 l2 Hd) as (h' & E & ? & ? & ?).
    rewrite without_split by (by destruct Hd as [_ [_ ?]%list.NoDup_cons]).
    exists h'. simpl. run E. split_and!; [done..|eapply unchanged_sub; [done|set_solver]|set_solver].
  - apply list_elem_of_split in Hi as (l1 & l2 & ->).
    destruct (list_del_init_ok s n head l1 l2 Hd) as (h' & E & ? & ? & ?).
    rewrite without_split by (by destruct Hd as [_ [_ ?]%list.NoDup_cons]).
    exists h'. simpl. run E. split_and!; [done..|eapply unchanged_sub; [done|set_solver]|set_solver].
  - destruct xs as [|x xs]; simplify_eq.
    destruct (list_pop_ok s head r ys Hd) as (h' & E & ? & ? & ?).
    exists h'. split_and!; [done..|set_solver].
  - apply list_elem_of_split in Hi as (l1 & l2 & ->).
    destruct (list_move_ok s n head l1 l2 Hd) as (h' & E & ? & ?).
    rewrite without_split by (by destruct Hd as [_ [_ ?]%list.NoDup_cons]).
    exists h'. simpl. run E. split_and!; [done..|eapply unchanged_sub; [done|set_solver]|set_solver].
  - apply list_elem_of_split in Hi as (l1 & l2 & ->).
    destruct (list_move_tail_ok s n head l1 l2 Hd) as (h' & E & ? & ?).
    rewrite without_split by (by destruct Hd as [_ [_ ?]%list.NoDup_cons]).
    exists h'. simpl. run E. split_and!; [done..|eapply unchanged_sub; [done|set_solver]|set_solver].
  - exists (lists s). simpl. run (list_is_empty_ok s head ys Hd). rewrite set_get.
    split_and!; [by destruct ys|done|split; done|set_solver].
Qed.

Lemma run_ops_ok ops s head xs rs ys :
  dll (lists s) head xs ->
  (forall op n, op ∈ ops -> n ∈ op_node op -> mapped (lists s) n) ->
  seq_ops head ops xs = Some (rs, ys) ->
  exists h', run_ops head ops s = Ok (rs, set_lists h' s) /\ dll h' head ys /\
    unchanged_except (concat (op_node <$> ops) ++ head :: xs) (lists s) h'.
Proof.
  revert s xs rs. induction ops as [|op ops IH]; intros s xs rs Hd Hm Hop; simpl in Hop.
  - simplify_eq. exists (lists s). simpl. rewrite set_get. split_and!; [done..|by split].
  - apply bind_Some in Hop as ([r zs] & E1 & Hop). apply bind_Some in Hop as ([rs' zs'] & E2 & Hop).
    simplify_eq. destruct (run_op_ok s head op xs r zs) as (h1 & R1 & Hd1 & Hu1 & Hi);
      [done|intros n Hn; apply (Hm op n); [set_solver|done]|done|].
    destruct (IH (set_lists h1 s) zs rs') as (h2 & R2 & Hd2 & Hu2); autorewrite with frog in *; [done| |done|].
    { intros op' n Ho Hn. apply Hu1. apply (Hm op' n); [set_solver|done]. }
    exists h2. simpl. run R1. run R2. split_and!; [done..|].
    eapply unchanged_trans; [exact Hu1|exact Hu2|set_solver|set_solver].
Qed.
End refinement.

(** ** The properties of the lists *)
Section properties.
Context {S : Type} {L : HasLists S}.

(** C27: any run of the list calls (adding at either end, deleting, popping,
  moving, testing for emptiness) on a well-formed doubly linked list returns
  the results of the same calls on the sequence of its nodes, leaves a
  well-formed list of that sequence, and changes no other node of memory. *)
Theorem list_calls_refine_sequences (ops : list list_op) (s : S) (head : Z) (xs : list Z) (rs ys : list Z) :
  dll (lists s) head xs ->
  (forall op n, op ∈ ops -> n ∈ op_node op -> mapped (lists s) n) ->
  seq_ops head ops xs = Some (rs, ys) ->
  exists h', run_ops head ops s = Ok (rs, set_lists h' s) /\ dll h' head ys /\
    unchanged_except (concat (op_node <$> ops) ++ head :: xs) (lists s) h'.
Proof. apply run_ops_ok. Qed.

(** [list_find_element] returns whether the node is in the list without
  its last node: the last node itself is never found. *)
Theorem list_find_element_misses_last (fuel : nat) (s : S) (node head : Z) (xs : list Z) :
  dll (lists s) head xs -> node <> head -> (length xs < fuel)%nat ->
  list_find_element fuel node head s = Ok (bool_decide (node ∈ front xs), s).
Proof. apply list_find_element_ok. Qed.

(** The walkers return the first node whose test holds, and the null
  pointer when there is none, and [list_length] counts the nodes; none of
  them changes the list. *)
Theorem list_walkers_search (fuel : nat) (s : S) (head : Z)
    (func : Z -> Z -> M S bool) (value : Z) (test : Z -> bool) (xs : list Z) :
  dll (lists s) head xs -> 0 ∉ head :: xs -> reads func value s test xs ->
  (Datatypes.S (length xs) < fuel)%nat ->
  list_walker fuel head func value s = Ok (default 0 (List.find test xs), s) /\
  list_walkerv2 fuel head func value s = Ok (default 0 (List.find test xs), s) /\
  list_length fuel head s = Ok (Z.of_nat (length xs), s).
Proof.
  intros Hd H0 Hr Hf. split_and!;
    [by apply list_walker_ok|by apply list_walkerv2_ok|apply list_length_ok; [done..|lia]].
Qed.

(** Appending a list at the front or the back of another one joins the two
  sequences, and the initialising variants leave the first list empty. *)
Theorem list_append_joins (s : S) (list head : Z) (xs ys : Datatypes.list Z) :
  dll (lists s) head xs -> dll (lists s) list ys -> NoDup (head :: xs ++ list :: ys) ->
  (exists h', list_append_init list head s = Ok (tt, set_lists h' s) /\
    dll h' head (ys ++ xs) /\ dll h' list [] /\
    unchanged_except (head :: xs ++ list :: ys) (lists s) h') /\
  (exists h', list_append_tail_init list head s = Ok (tt, set_lists h' s) /\
    dll h' head (xs ++ ys) /\ dll h' list [] /\
    unchanged_except (head :: xs ++ list :: ys) (lists s) h').
Proof. intros. split; [by apply list_append_init_ok|by apply list_append_tail_init_ok]. Qed.

(** [list_destory] on a list of two nodes or more follows the pointer that
  [list_del] has just set to null. *)
Theorem list_destory_follows_null (fuel : nat) (s : S) (head x y : Z) (xs : list Z) :
  dll (lists s) head (x :: y :: xs) -> lists s !! 0 = None -> (2 < fuel)%nat ->
  list_destory fuel head s = Fault.
Proof. apply list_destory_faults_ok. Qed.
End properties.

(** ** Witnesses: a list at 100 with the nodes 200, 300 and 400 *)
Definition three : lheap :=
  list_to_map [(100, Node 400 200); (200, Node 100 300); (300, Node 200 400);
               (400, Node 300 100); (500, Node 500 500); (600, Node 0 0)].
Lemma three_dll : dll three 100 [200; 300; 400].
Proof. split; [vm_compute; done|by_computation]. Qed.
Lemma three_empty : dll three 500 [].
Proof. split; [vm_compute; done|by_computation]. Qed.

Lemma list_calls_refine_sequences_witness :
  exists h', run_ops 100 [Add 600; Del 300; Pop; MoveTail 200; IsEmpty] three = Ok ([0; 0; 600; 0; 0], h') /\
    dll h' 100 [400; 200].
Proof.
  destruct (list_calls_refine_sequences (L:=lheap_lists) [Add 600; Del 300; Pop; MoveTail 200; IsEmpty] three 100 [200; 300; 400]
    [0; 0; 600; 0; 0] [400; 200]) as (h' & E & Hd & _).
  - apply three_dll.
  - intros op n Ho Hn. repeat (apply list.elem_of_cons in Ho as [->|Ho]; [simpl in Hn|]);
      try (apply not_elem_of_nil in Ho; done);
      repeat (apply list.elem_of_cons in Hn as [->|Hn]; [vm_compute; by eexists|]);
      apply not_elem_of_nil in Hn; done.
  - reflexivity.
  - exists h'. split; [exact E|exact Hd].
Defined.

Lemma list_find_element_misses_last_witness :
  list_find_element 4 400 100 three = Ok (false, three).
Proof.
  apply (list_find_element_misses_last (L:=lheap_lists) 4 three 400 100 [200; 300; 400] three_dll); [done|simpl; lia].
Defined.

Lemma list_walkers_search_witness :
  list_walker 5 100 (fun n v => ret (n >? v)) 250 three = Ok (300, three).
Proof.
  apply (list_walkers_search (L:=lheap_lists) 5 three 100 (fun n v => ret (n >? v)) 250 (fun n => n >? 250) [200; 300; 400] three_dll).
  - set_solver.
  - intros x _. reflexivity.
  - simpl. lia.
Defined.

Lemma list_append_joins_witness :
  exists h', list_append_init 100 500 three = Ok (tt, h') /\ dll h' 500 [200; 300; 400].
Proof.
  destruct (list_append_joins (L:=lheap_lists) three 100 500 [] [200; 300; 400] three_empty three_dll) as [(h' & E & Hd & _) _].
  - by_computation.
  - exists h'. split; [exact E|exact Hd].
Defined.

Lemma list_destory_follows_null_witness : list_destory 3 100 three = Fault.
Proof. apply (list_destory_follows_null (L:=lheap_lists) 3 three 100 200 300 [400] three_dll); [reflexivity|lia]. Defined.
