(* ===== verification/Kernel.v ===== *)
(** * Kernel: thread control blocks, the scheduler and the locks

    core/thread/threads.c, core/thread/sched.c (the clock interrupt and the
    wake-up calls), core/thread/semaphore.c, core/interrupt/int.c and the part
    of core/thread/process.c that a switch uses.

    A thread is named by the address of its control block, as in the C code;
    its list nodes lie inside the block, at the offsets below.  [switch_to]
    makes another thread the current one; what the suspended thread does when
    it is switched to again is the matter of the files that use this one. *)
From S2P Require Import Prelude Lists.

(** ** The data (core/include/sys/threads.h, sched.h, ipc.h, semaphore.h) *)
Definition THREAD_TASK_RUNNING : Z := 0.
Definition THREAD_TASK_READY : Z := 1.
Definition THREAD_TASK_WAITING : Z := 2.
Definition THREAD_TASK_HANGING : Z := 4.
Definition THREAD_TASK_BLOCKED : Z := 8.
Definition THREAD_TASK_DIED : Z := 16.
Definition PG_SIZE : Z := 4096.
Definition STACK_MAGIC : Z := 0x19900921.

(** [message]; the payload of 56 bytes is kept as its 14 words. *)
Record message := Message { m_source : Z; m_type : Z; m_data : list Z }.
#[export] Instance message_eq_dec : EqDecision message.
Proof. solve_decision. Defined.

(** [TCB_t], without the saved stack and the memory and file tables, which
    belong to other components.  Null pointers are 0. *)
Record TCB := Tcb {
  parent_pid : Z; pid : Z; exit_status : Z; status : Z; priority : Z;
  ticks : Z; elapsed_ticks : Z; pgdir : Z;
  p_message : message; p_recvfrom : Z; p_sendto : Z; p_flags : Z; p_intr_present : Z;
  p_sending_queue : Z; p_next_sending : Z; stack_magic : Z }.
#[export] Instance TCB_eq_dec : EqDecision TCB.
Proof. solve_decision. Defined.

(** The offsets of the list nodes in [TCB_t], and of the queue in [struct lock]. *)
Definition general_tag (t : Z) : Z := t + 52.
Definition all_list_tag (t : Z) : Z := t + 60.
Definition of_general_tag (p : Z) : Z := p - 52.
Definition of_all_list_tag (p : Z) : Z := p - 60.
Definition waiting_queue (l : Z) : Z := l + 8.

(** [struct lock] with the value of its semaphore; its queue of waiting
    threads is the list headed at [waiting_queue l]. *)
Record lock := Lock { holder : Z; value : Z; holder_repeat_nr : Z }.

(** What the linker fixes, and the translation of kernel addresses that
    [page_dir_activate] asks the memory manager for. *)
Class Globals := {
  thread_ready_list : Z;
  thread_all_list : Z;
  addr_v2p : Z -> Z
}.

(** The state of the kernel that threads share. *)
Record kern := Kern {
  klists : lheap;              (* all list nodes *)
  tasks : gmap Z TCB;          (* the control blocks, by address *)
  locks : gmap Z lock;         (* the locks, by address *)
  current : Z;                 (* the thread whose stack is in use *)
  intr : bool;                 (* the interrupt flag of the processor *)
  jiffies : Z;                 (* [ticks] of sched.c *)
  cr3 : Z; esp0 : Z;           (* the page directory and [tss.esp0] in use *)
  idle_thread : Z; main_thread : Z }.

Definition set_klists (h : lheap) (k : kern) : kern :=
  Kern h (tasks k) (locks k) (current k) (intr k) (jiffies k) (cr3 k) (esp0 k) (idle_thread k) (main_thread k).
Definition set_tasks (m : gmap Z TCB) (k : kern) : kern :=
  Kern (klists k) m (locks k) (current k) (intr k) (jiffies k) (cr3 k) (esp0 k) (idle_thread k) (main_thread k).
Definition set_locks (m : gmap Z lock) (k : kern) : kern :=
  Kern (klists k) (tasks k) m (current k) (intr k) (jiffies k) (cr3 k) (esp0 k) (idle_thread k) (main_thread k).
Definition set_current (t : Z) (k : kern) : kern :=
  Kern (klists k) (tasks k) (locks k) t (intr k) (jiffies k) (cr3 k) (esp0 k) (idle_thread k) (main_thread k).
Definition set_intr (b : bool) (k : kern) : kern :=
  Kern (klists k) (tasks k) (locks k) (current k) b (jiffies k) (cr3 k) (esp0 k) (idle_thread k) (main_thread k).
Definition set_jiffies (n : Z) (k : kern) : kern :=
  Kern (klists k) (tasks k) (locks k) (current k) (intr k) n (cr3 k) (esp0 k) (idle_thread k) (main_thread k).
Definition set_cr3 (v : Z) (k : kern) : kern :=
  Kern (klists k) (tasks k) (locks k) (current k) (intr k) (jiffies k) v (esp0 k) (idle_thread k) (main_thread k).
Definition set_esp0 (v : Z) (k : kern) : kern :=
  Kern (klists k) (tasks k) (locks k) (current k) (intr k) (jiffies k) (cr3 k) v (idle_thread k) (main_thread k).

#[export] Program Instance kern_lists : HasLists kern :=
  {| lists := klists; set_lists := set_klists |}.
Solve All Obligations with by repeat intros [].

Definition set_status (v : Z) (t : TCB) : TCB :=
  Tcb (parent_pid t) (pid t) (exit_status t) v (priority t) (ticks t) (elapsed_ticks t) (pgdir t)
      (p_message t) (p_recvfrom t) (p_sendto t) (p_flags t) (p_intr_present t)
      (p_sending_queue t) (p_next_sending t) (stack_magic t).
Definition set_ticks (v : Z) (t : TCB) : TCB :=
  Tcb (parent_pid t) (pid t) (exit_status t) (status t) (priority t) v (elapsed_ticks t) (pgdir t)
      (p_message t) (p_recvfrom t) (p_sendto t) (p_flags t) (p_intr_present t)
      (p_sending_queue t) (p_next_sending t) (stack_magic t).
Definition set_elapsed (v : Z) (t : TCB) : TCB :=
  Tcb (parent_pid t) (pid t) (exit_status t) (status t) (priority t) (ticks t) v (pgdir t)
      (p_message t) (p_recvfrom t) (p_sendto t) (p_flags t) (p_intr_present t)
      (p_sending_queue t) (p_next_sending t) (stack_magic t).

(** ** Loads and stores; an address without the object faults *)
Section accesses.
Definition tcb (p : Z) : M kern TCB :=
  fun k => match tasks k !! p with Some t => Ok (t, k) | None => Fault end.
Definition upd_tcb (p : Z) (f : TCB -> TCB) : M kern unit :=
  fun k => match tasks k !! p with
           | Some t => Ok (tt, set_tasks (<[p := f t]> (tasks k)) k)
           | None => Fault end.
Definition lk (l : Z) : M kern lock :=
  fun k => match locks k !! l with Some x => Ok (x, k) | None => Fault end.
Definition upd_lock (l : Z) (f : lock -> lock) : M kern unit :=
  fun k => match locks k !! l with
           | Some x => Ok (tt, set_locks (<[l := f x]> (locks k)) k)
           | None => Fault end.
End accesses.

(** ** The interrupt flag (core/interrupt/int.c); [INTR_ON] is [true] *)
Section interrupts.
Definition intr_get_status : M kern bool := gets intr.
Definition intr_enable : M kern bool :=
  b <- intr_get_status ;;
  if b : bool then ret true else (modify (set_intr true) ;;; ret false).
Definition intr_disable : M kern bool :=
  b <- intr_get_status ;;
  if negb b then ret false else (modify (set_intr false) ;;; ret true).
Definition intr_set_status (s : bool) : M kern bool :=
  if s then intr_enable else intr_disable.
End interrupts.

(** ** The scheduler (core/thread/threads.c, process.c) *)
Section scheduler.
Context {G : Globals}.
(** Fuel for the search in a list; every use is proved to have enough. *)
Variable fuel : nat.

Definition running_thread : M kern Z := gets current.

Definition page_dir_activate (thread : Z) : M kern unit :=
  t <- tcb thread ;;
  modify (set_cr3 (if negb (pgdir t =? 0) then addr_v2p (pgdir t) else 0x100000)).
Definition update_tss_esp0 (thread : Z) : M kern unit :=
  modify (set_esp0 (u32 (thread + PG_SIZE))).
Definition process_activate (thread : Z) : M kern unit :=
  ASSERT (negb (thread =? 0)) ;;;
  page_dir_activate thread ;;;
  t <- tcb thread ;;
  when negb (pgdir t =? 0) do update_tss_esp0 thread.

(** [switch_to] of switch.s: the stack of [next] is the one in use. *)
Definition switch_to (cur next : Z) : M kern unit := modify (set_current next).

Definition thread_unblock (thread : Z) : M kern unit :=
  t <- tcb thread ;;
  ASSERT ((status t =? THREAD_TASK_HANGING) || (status t =? THREAD_TASK_WAITING) ||
          (status t =? THREAD_TASK_BLOCKED)) ;;;
  old_int_status <- intr_disable ;;
  (when negb (status t =? THREAD_TASK_READY) do
     (f <- list_find_element fuel (general_tag thread) thread_ready_list ;;
      ASSERT (negb f) ;;;
      f <- list_find_element fuel (general_tag thread) thread_ready_list ;;
      (when f do panic) ;;;
      list_add (general_tag thread) thread_ready_list ;;;
      upd_tcb thread (set_status THREAD_TASK_READY))) ;;;
  intr_set_status old_int_status ;;;
  ret tt.

(** The end of [schedule]: the first ready thread gets the processor. *)
Definition run_next (cur : Z) : M kern unit :=
  thread_tag <- list_pop thread_ready_list ;;
  let next := of_general_tag thread_tag in
  upd_tcb next (set_status THREAD_TASK_RUNNING) ;;;
  process_activate next ;;;
  switch_to cur next.
Definition schedule : M kern unit :=
  cur <- running_thread ;;
  t <- tcb cur ;;
  (if status t =? THREAD_TASK_RUNNING then
     f <- list_find_element fuel (general_tag cur) thread_ready_list ;;
     ASSERT (negb f) ;;;
     list_add_tail (general_tag cur) thread_ready_list ;;;
     upd_tcb cur (fun t => set_ticks (priority t) t) ;;;
     upd_tcb cur (set_status THREAD_TASK_READY)
   else if status t =? THREAD_TASK_READY then
     f <- list_find_element fuel (general_tag cur) thread_ready_list ;;
     when negb f do
       (f <- list_find_element fuel (general_tag cur) thread_ready_list ;;
        ASSERT (negb f) ;;;
        list_add_tail (general_tag cur) thread_ready_list)
   else ret tt) ;;;
  e <- list_is_empty thread_ready_list ;;
  (when (e : bool) do (i <- gets idle_thread ;; thread_unblock i)) ;;;
  run_next cur.

(** [thread_block] up to the switch; what is left for the time it runs again
    is [intr_set_status] of the result. *)
Definition blocking (st : Z) : bool :=
  (st =? THREAD_TASK_HANGING) || (st =? THREAD_TASK_WAITING) || (st =? THREAD_TASK_BLOCKED).
Definition thread_block (st : Z) : M kern bool :=
  ASSERT (blocking st) ;;;
  old_int_status <- intr_disable ;;
  cur <- running_thread ;;
  upd_tcb cur (set_status st) ;;;
  schedule ;;;
  ret old_int_status.
(** The same for another task, as the message calls use it. *)
Definition thread_auth_block (task st : Z) : M kern bool :=
  ASSERT (blocking st) ;;;
  ASSERT (negb (task =? 0)) ;;;
  old_int_status <- intr_disable ;;
  upd_tcb task (set_status st) ;;;
  schedule ;;;
  ret old_int_status.
Definition thread_yield : M kern bool :=
  cur <- running_thread ;;
  old_status <- intr_disable ;;
  f <- list_find_element fuel (general_tag cur) thread_ready_list ;;
  ASSERT (negb f) ;;;
  list_add_tail (general_tag cur) thread_ready_list ;;;
  upd_tcb cur (set_status THREAD_TASK_READY) ;;;
  schedule ;;;
  ret old_status.

(** [inthandler20] after [timer_bh] and up to a switch; it returns whether the
    processor was given to another thread. *)
Definition clock_tick : M kern bool :=
  cur_thread <- running_thread ;;
  t <- tcb cur_thread ;;
  ASSERT (stack_magic t =? STACK_MAGIC) ;;;
  upd_tcb cur_thread (fun t => set_elapsed (u32 (elapsed_ticks t + 1)) t) ;;;
  modify (fun k => set_jiffies (u32 (jiffies k + 1)) k) ;;;
  if ticks t =? 0 then (schedule ;;; ret true)
  else (upd_tcb cur_thread (fun t => set_ticks (u32 (ticks t - 1)) t) ;;; ret false).

Definition find_pid (ele id : Z) : M kern bool :=
  t <- tcb (of_all_list_tag ele) ;;
  ret (pid t =? id).
Definition pid2thread (id : Z) : M kern Z :=
  node <- list_walker fuel thread_all_list find_pid id ;;
  if node =? 0 then ret 0 else ret (of_all_list_tag node).

(** [try_to_wake_up] of sched.c: a thread is taken to be on the ready list
    when its node does not point to itself. *)
Definition task_on_readylist (p : Z) : M kern bool :=
  n <- get_next (general_tag p) ;;
  ret (negb (n =? general_tag p)).
Definition add_to_readylist (p : Z) : M kern unit :=
  list_add_tail (general_tag p) thread_ready_list.
Definition move_last_readylist (p : Z) : M kern unit :=
  list_del (general_tag p) ;;;
  list_add_tail (general_tag p) thread_ready_list.
Definition try_to_wake_up (p : Z) : M kern Z :=
  old_int_status <- intr_disable ;;
  upd_tcb p (set_status THREAD_TASK_READY) ;;;
  on <- task_on_readylist p ;;
  success <- (if on : bool then ret 0 else (add_to_readylist p ;;; ret 1)) ;;
  intr_set_status old_int_status ;;;
  ret success.
Definition wake_up_process (p : Z) : M kern Z := try_to_wake_up p.
Definition process_timeout (data : Z) : M kern unit := wake_up_process data ;;; ret tt.
End scheduler.

(** ** Semaphores and locks (core/thread/semaphore.c) *)
Section locks.
Context {G : Globals}.
Variable fuel : nat.

Definition semaphore_init (l v : Z) : M kern unit :=
  upd_lock l (fun x => Lock (holder x) v (holder_repeat_nr x)) ;;;
  INIT_LIST_HEAD (waiting_queue l).
Definition lock_init (l : Z) : M kern unit :=
  upd_lock l (fun x => Lock 0 (value x) (holder_repeat_nr x)) ;;;
  upd_lock l (fun x => Lock (holder x) (value x) 0) ;;;
  semaphore_init l 1.

(** One round of the loop of [semaphore_down], interrupts off: either the
    semaphore is taken ([true]), or the thread is queued and blocked ([false])
    and goes round again when it runs. *)
Definition down_round (l : Z) : M kern bool :=
  x <- lk l ;;
  if value x =? 0 then
    ASSERT (value x =? 0) ;;;
    cur <- running_thread ;;
    f <- list_find_element fuel (general_tag cur) (waiting_queue l) ;;
    (when (f : bool) do panic) ;;;
    list_add_tail (general_tag cur) (waiting_queue l) ;;;
    thread_block fuel THREAD_TASK_BLOCKED ;;;
    ret false
  else
    upd_lock l (fun x => Lock (holder x) (u32 (value x - 1)) (holder_repeat_nr x)) ;;;
    x <- lk l ;;
    ASSERT (value x =? 0) ;;;
    ret true.

Definition semaphore_up (l : Z) : M kern unit :=
  old_status <- intr_disable ;;
  e <- list_is_empty (waiting_queue l) ;;
  (when negb e do
     (tag <- list_pop (waiting_queue l) ;;
      thread_unblock fuel (of_general_tag tag))) ;;;
  upd_lock l (fun x => Lock (holder x) (u32 (value x + 1)) (holder_repeat_nr x)) ;;;
  x <- lk l ;;
  ASSERT (value x =? 1) ;;;
  intr_set_status old_status ;;;
  ret tt.
End locks.
