(* ===== verification/Queues.v ===== *)
(** * Queues: threads on the ready list and on waiting lists

    A thread is on at most one queue of the kernel at a time, because all of
    them link the same node of its control block ([general_tag]).  [queues]
    says that the list memory represents a map from list heads to sequences of
    threads in this way; the lemmas say what the list calls do to it. *)
From S2P Require Import Prelude Lists ListProofs ListSpec Kernel.

Abbreviation queue_map := (gmap Z (list Z)).

(** [T] are the threads whose control blocks exist. *)
Record queues (h : lheap) (T : Z -> Prop) (Q : queue_map) : Prop := {
  q_dll : forall a xs, Q !! a = Some xs -> dll h a (general_tag <$> xs);
  q_in : forall a xs t, Q !! a = Some xs -> t ∈ xs -> T t;
  q_one : forall a b xs ys t, Q !! a = Some xs -> Q !! b = Some ys -> t ∈ xs -> t ∈ ys -> a = b;
  q_node : forall t, T t -> mapped h (general_tag t);
  q_head : forall a xs t, Q !! a = Some xs -> T t -> general_tag t <> a
}.

(** A thread that is on no queue. *)
Definition off_queues (Q : queue_map) (t : Z) : Prop := forall a xs, Q !! a = Some xs -> t ∉ xs.

(** Memory changed at most at the head of a queue and at nodes of threads. *)
Definition queue_frame (a : Z) (T : Z -> Prop) (h h' : lheap) : Prop :=
  (forall p, p <> a -> (forall t, T t -> p <> general_tag t) -> h' !! p = h !! p) /\
  (forall p, mapped h p -> mapped h' p).

Section facts.
Implicit Types (h : lheap) (T : Z -> Prop) (Q : queue_map) (xs ys : list Z).

Lemma general_tag_inj t u : general_tag t = general_tag u -> t = u.
Proof. unfold general_tag. lia. Qed.
#[export] Instance general_tag_Inj : Inj (=) (=) general_tag.
Proof. intros ??. apply general_tag_inj. Qed.
Lemma of_general_tag_tag t : of_general_tag (general_tag t) = t.
Proof. unfold of_general_tag, general_tag. lia. Qed.
Lemma elem_tags t xs : general_tag t ∈ general_tag <$> xs <-> t ∈ xs.
Proof.
  rewrite list_elem_of_fmap. split; [intros (u & ->%general_tag_inj & ?); done|].
  intros. by exists t.
Qed.
Lemma not_elem_tags p xs : (forall t, t ∈ xs -> p <> general_tag t) -> p ∉ general_tag <$> xs.
Proof. intros Hp (t & -> & Ht)%list_elem_of_fmap. by destruct (Hp t Ht). Qed.

Lemma queues_heads h T Q a b xs ys :
  queues h T Q -> Q !! a = Some xs -> Q !! b = Some ys -> b ∉ general_tag <$> xs.
Proof.
  intros HQ Ha Hb. apply not_elem_tags. intros t Ht E.
  apply (q_head _ _ _ HQ b ys t Hb); [by apply (q_in _ _ _ HQ a xs)|done].
Qed.

(** Replacing one queue, when the memory changed only at its head, at its
    nodes and at nodes on no queue. *)
Lemma queues_update h h' T Q a xs ys (ts : list Z) :
  queues h T Q -> Q !! a = Some xs ->
  dll h' a (general_tag <$> ys) ->
  unchanged_except (a :: (general_tag <$> ts)) h h' ->
  (forall t, t ∈ ys -> t ∈ ts) ->
  (forall t, t ∈ ts -> T t /\ (t ∈ xs \/ off_queues Q t)) ->
  queues h' T (<[a := ys]> Q).
Proof.
  intros HQ Ha Hd [Hu Hm] Hys Hts.
  assert (forall b zs t, b <> a -> Q !! b = Some zs -> t ∈ zs -> t ∉ ts) as Hother.
  { intros b zs t Hne Hb Hz Ht. destruct (Hts t Ht) as [_ [Hx|Hoff]]; [|by eapply Hoff].
    destruct Hne. by eapply (q_one _ _ _ HQ). }
  split.
  - intros b zs. rewrite lookup_insert. case_decide; [subst; by intros [= <-]|]. intros Hb.
    eapply dll_frame; [by apply HQ|]. intros p Hp. apply Hu. intros Hin'.
    apply list.elem_of_cons in Hp as [->|Hp]; apply list.elem_of_cons in Hin' as [->|Hin'].
    + done.
    + apply list_elem_of_fmap in Hin' as (t & -> & Ht).
      by eapply (q_head _ _ _ HQ _ zs t Hb); [apply Hts|].
    + by eapply (queues_heads _ _ _ b a zs xs HQ Hb Ha).
    + apply list_elem_of_fmap in Hin' as (t & -> & Ht). apply (proj1 (elem_tags _ _)) in Hp.
      by apply (Hother b zs t).
  - intros b zs t. rewrite lookup_insert. case_decide; [subst; intros [= <-]|intros Hb]; [|by eapply q_in].
    intros Ht. by apply Hts, Hys.
  - intros b c zs ws t. rewrite !lookup_insert. repeat case_decide; subst; try done.
    + intros [= <-] Hc Ht1 Ht2. destruct (Hother c ws t); [done..|by apply Hys].
    + intros Hb [= <-] Ht1 Ht2. destruct (Hother b zs t); [done..|by apply Hys].
    + by eapply q_one.
  - intros t Ht. by apply Hm, (q_node _ _ _ HQ).
  - intros b zs t. rewrite lookup_insert. case_decide; [subst; intros _|]; by eapply (q_head _ _ _ HQ).
Qed.

Lemma queue_frame_refl a T h : queue_frame a T h h.
Proof. done. Qed.
Lemma queue_frame_trans a T h1 h2 h3 : queue_frame a T h1 h2 -> queue_frame a T h2 h3 -> queue_frame a T h1 h3.
Proof. intros [H1 M1] [H2 M2]. split; [|auto]. intros p Hp Ht. by rewrite H2, H1. Qed.
Lemma queue_frame_ext a T T' h h' : (forall t, T t <-> T' t) -> queue_frame a T h h' -> queue_frame a T' h h'.
Proof. intros HT [H M]. split; [|done]. intros p Hp Ht. apply H; [done|]. intros t. rewrite HT. apply Ht. Qed.
Lemma queue_frame_of a T h h' (ts : list Z) :
  unchanged_except (a :: (general_tag <$> ts)) h h' -> (forall t, t ∈ ts -> T t) -> queue_frame a T h h'.
Proof.
  intros [Hu Hm] Hts. split; [|done]. intros p Hp Ht. apply Hu. apply list.not_elem_of_cons. split; [done|].
  apply not_elem_tags. intros t Hin. apply Ht. by apply Hts.
Qed.
End facts.

Section calls.
Context {S : Type} {L : HasLists S}.
Implicit Types (s : S) (T : Z -> Prop) (Q : queue_map) (xs : list Z).

(** The nodes that change are those of the queue and of [t]. *)
Lemma q_push_tail_framed s T Q a xs t :
  queues (lists s) T Q -> Q !! a = Some xs -> T t -> off_queues Q t ->
  exists h', list_add_tail (general_tag t) a s = Ok (tt, set_lists h' s) /\
    queues h' T (<[a := xs ++ [t]]> Q) /\ unchanged_except (a :: (general_tag <$> t :: xs)) (lists s) h'.
Proof.
  intros HQ Ha Ht Hoff.
  destruct (list_add_tail_ok s (general_tag t) a (general_tag <$> xs)) as (h' & E & Hd & Hu).
  - by apply HQ.
  - apply list.not_elem_of_cons. rewrite elem_tags. split; [by eapply (q_head _ _ _ HQ)|by apply (Hoff a)].
  - by apply (q_node _ _ _ HQ).
  - assert (unchanged_except (a :: (general_tag <$> t :: xs)) (lists s) h') as Hu'.
    { eapply unchanged_sub; [done|]. intros p. rewrite fmap_cons, !list.elem_of_cons. tauto. }
    exists h'. split_and!; [done| |done].
    eapply (queues_update _ _ _ _ _ _ _ (t :: xs)); [done..| |done| |].
    + by rewrite fmap_app.
    + intros u. rewrite list.elem_of_app, !list.elem_of_cons, elem_of_nil. tauto.
    + intros u [->|Hx]%list.elem_of_cons; [by auto|]. split; [by eapply q_in|by left].
Qed.
Lemma q_push_tail s T Q a xs t :
  queues (lists s) T Q -> Q !! a = Some xs -> T t -> off_queues Q t ->
  exists h', list_add_tail (general_tag t) a s = Ok (tt, set_lists h' s) /\
    queues h' T (<[a := xs ++ [t]]> Q).
Proof. intros HQ Ha Ht Hoff. destruct (q_push_tail_framed s T Q a xs t HQ Ha Ht Hoff) as (h' & ? & ? & _). by exists h'. Qed.

Lemma q_push_front_framed s T Q a xs t :
  queues (lists s) T Q -> Q !! a = Some xs -> T t -> off_queues Q t ->
  exists h', list_add (general_tag t) a s = Ok (tt, set_lists h' s) /\
    queues h' T (<[a := t :: xs]> Q) /\ unchanged_except (a :: (general_tag <$> t :: xs)) (lists s) h'.
Proof.
  intros HQ Ha Ht Hoff.
  destruct (list_add_ok s (general_tag t) a (general_tag <$> xs)) as (h' & E & Hd & Hu).
  - by apply HQ.
  - apply list.not_elem_of_cons. rewrite elem_tags. split; [by eapply (q_head _ _ _ HQ)|by apply (Hoff a)].
  - by apply (q_node _ _ _ HQ).
  - assert (unchanged_except (a :: (general_tag <$> t :: xs)) (lists s) h') as Hu'.
    { eapply unchanged_sub; [done|]. intros p. rewrite fmap_cons, !list.elem_of_cons. tauto. }
    exists h'. split_and!; [done| |done].
    eapply (queues_update _ _ _ _ _ _ _ (t :: xs)); [done..|].
    intros u [->|Hx]%list.elem_of_cons; [by auto|]. split; [by eapply q_in|by left].
Qed.
Lemma q_push_front s T Q a xs t :
  queues (lists s) T Q -> Q !! a = Some xs -> T t -> off_queues Q t ->
  exists h', list_add (general_tag t) a s = Ok (tt, set_lists h' s) /\
    queues h' T (<[a := t :: xs]> Q).
Proof. intros HQ Ha Ht Hoff. destruct (q_push_front_framed s T Q a xs t HQ Ha Ht Hoff) as (h' & ? & ? & _). by exists h'. Qed.

Lemma q_pop_framed s T Q a xs t :
  queues (lists s) T Q -> Q !! a = Some (t :: xs) ->
  exists h', list_pop a s = Ok (general_tag t, set_lists h' s) /\
    queues h' T (<[a := xs]> Q) /\ off_queues (<[a := xs]> Q) t /\
    dll h' (general_tag t) [] /\ unchanged_except (a :: (general_tag <$> t :: xs)) (lists s) h'.
Proof.
  intros HQ Ha.
  destruct (list_pop_ok s a (general_tag t) (general_tag <$> xs)) as (h' & E & Hd & Hs & Hu).
  { by apply (q_dll _ _ _ HQ a (t :: xs)). }
  exists h'. split_and!; [done| | |done|done].
  - eapply (queues_update _ _ _ _ _ _ _ (t :: xs)); [done..|set_solver|].
    intros u Hu'. split; [by eapply q_in|by left].
  - intros b zs. rewrite lookup_insert. case_decide as Hab; [subst; intros [= <-]|intros Hb Ht].
    + pose proof (q_dll _ _ _ HQ _ _ Ha) as [_ Hn]. rewrite fmap_cons in Hn. nodup_hyps.
      rewrite <-elem_tags. done.
    + destruct Hab. eapply (q_one _ _ _ HQ); [done..| |done]. by left.
Qed.

Lemma q_pop s T Q a xs t :
  queues (lists s) T Q -> Q !! a = Some (t :: xs) ->
  exists h', list_pop a s = Ok (general_tag t, set_lists h' s) /\
    queues h' T (<[a := xs]> Q) /\ off_queues (<[a := xs]> Q) t /\
    dll h' (general_tag t) [].
Proof. intros HQ Ha. destruct (q_pop_framed s T Q a xs t HQ Ha) as (h' & ? & ? & ? & ? & _). by exists h'. Qed.

Lemma q_empty s T Q a xs :
  queues (lists s) T Q -> Q !! a = Some xs ->
  list_is_empty a s = Ok (bool_decide (xs = []), s).
Proof.
  intros HQ Ha. rewrite (list_is_empty_ok s a (general_tag <$> xs)) by by apply HQ.
  do 2 f_equal. apply bool_decide_ext. destruct xs; naive_solver.
Qed.

Lemma q_find s T Q a xs t fuel :
  queues (lists s) T Q -> Q !! a = Some xs -> T t -> t ∉ xs -> (length xs < fuel)%nat ->
  list_find_element fuel (general_tag t) a s = Ok (false, s).
Proof.
  intros HQ Ha Ht Hx Hf. rewrite (list_find_element_ok fuel s _ _ (general_tag <$> xs)).
  - rewrite bool_decide_false; [done|]. intros Hin. apply Hx, elem_tags.
    unfold front in Hin. eapply (subseteq_take (pred _)); done.
  - by apply HQ.
  - by eapply (q_head _ _ _ HQ).
  - by rewrite length_fmap.
Qed.

Lemma q_nodup h T Q a xs : queues h T Q -> Q !! a = Some xs -> NoDup xs.
Proof.
  intros HQ Ha. pose proof (q_dll _ _ _ HQ _ _ Ha) as [_ [_ Hn]%list.NoDup_cons].
  by apply NoDup_fmap_1 in Hn.
Qed.
End calls.

(** ** Deciding [queues] for a given memory *)
Section checking.
#[export] Instance seg_dec h a xs b : Decision (seg h a xs b).
Proof. revert a. induction xs as [|x xs IH]; intros a; simpl; apply _. Defined.
#[export] Instance dll_dec h a xs : Decision (dll h a xs).
Proof. unfold dll. apply _. Defined.

Definition queues_check (h : lheap) (ts : gmap Z TCB) (Q : queue_map) : Prop :=
  map_Forall (fun a xs => dll h a (general_tag <$> xs) /\ Forall (fun t => is_Some (ts !! t)) xs /\
    map_Forall (fun t _ => general_tag t <> a) ts /\
    map_Forall (fun b ys => a = b \/ Forall (fun t => t ∉ ys) xs) Q) Q /\
  map_Forall (fun t _ => is_Some (h !! general_tag t)) ts.
#[export] Instance queues_check_dec h ts Q : Decision (queues_check h ts Q).
Proof. unfold queues_check. apply _. Defined.
Lemma queues_by_check h ts Q : queues_check h ts Q -> queues h (fun t => is_Some (ts !! t)) Q.
Proof.
  intros [HQ Hn]. split.
  - intros a xs Ha. by apply (HQ a xs Ha).
  - intros a xs t Ha Ht. destruct (HQ a xs Ha) as (_ & Hx & _). by eapply list.Forall_forall in Hx.
  - intros a b xs ys t Ha Hb Hx Hy. destruct (HQ a xs Ha) as (_ & _ & _ & Hd). destruct (Hd b ys Hb) as [|Hf]; [done|].
    by eapply list.Forall_forall in Hf.
  - intros t [x Hx]. by apply (Hn t x).
  - intros a xs t Ha [x Hx]. destruct (HQ a xs Ha) as (_ & _ & Hh & _). by apply (Hh t x).
Qed.
End checking.
