(* ===== verification/Sched.v ===== *)
(** * Sched: what the scheduler does to the queues of threads *)
From S2P Require Import Prelude Lists ListProofs ListSpec Kernel Queues.

Definition alive (k : kern) (t : Z) : Prop := is_Some (tasks k !! t).
Definition rl `{Globals} (Q : queue_map) (rq : list Z) : Prop := Q !! thread_ready_list = Some rq.

Section accesses.
Implicit Types k : kern.

Lemma tcb_bind {B} k p t (f : TCB -> M kern B) :
  tasks k !! p = Some t -> bind (tcb p) f k = f t k.
Proof. intros E. apply bind_ok. unfold tcb. by rewrite E. Qed.
Lemma upd_tcb_ok k p t f :
  tasks k !! p = Some t -> upd_tcb p f k = Ok (tt, set_tasks (<[p := f t]> (tasks k)) k).
Proof. intros E. unfold upd_tcb. by rewrite E. Qed.
Lemma lk_bind {B} k l x (f : lock -> M kern B) :
  locks k !! l = Some x -> bind (lk l) f k = f x k.
Proof. intros E. apply bind_ok. unfold lk. by rewrite E. Qed.
Lemma upd_lock_ok k l x f :
  locks k !! l = Some x -> upd_lock l f k = Ok (tt, set_locks (<[l := f x]> (locks k)) k).
Proof. intros E. unfold upd_lock. by rewrite E. Qed.

Lemma set_intr_id b k : intr k = b -> set_intr b k = k.
Proof. destruct k; simpl. by intros ->. Qed.
Lemma intr_disable_ok k : intr_disable k = Ok (intr k, set_intr false k).
Proof.
  unfold intr_disable, intr_get_status. rewrite gets_bind. destruct (intr k) eqn:E; [done|].
  by rewrite set_intr_id.
Qed.
Lemma intr_enable_ok k : intr_enable k = Ok (intr k, set_intr true k).
Proof.
  unfold intr_enable, intr_get_status. rewrite gets_bind. destruct (intr k) eqn:E; [|done].
  by rewrite set_intr_id.
Qed.
Lemma intr_set_status_ok b k : intr_set_status b k = Ok (intr k, set_intr b k).
Proof. destruct b; [apply intr_enable_ok|apply intr_disable_ok]. Qed.
End accesses.

(** Steps a load of a control block, in the middle of updates to the map. *)
Ltac rdt := rewrite ?bind_assoc; erewrite tcb_bind by (simpl; rewrite ?lookup_insert_eq; done).

Section queues_of_threads.
Lemma queues_ext h T T' Q : (forall t, T t <-> T' t) -> queues h T Q -> queues h T' Q.
Proof.
  intros E HQ. split.
  - apply HQ.
  - intros. by eapply E, q_in.
  - apply HQ.
  - intros t Ht. by apply (q_node _ _ _ HQ), E.
  - intros a xs t Ha Ht. eapply (q_head _ _ _ HQ); [done|by apply E].
Qed.
Lemma alive_insert k p t u : alive k p -> (alive (set_tasks (<[p := t]> (tasks k)) k) u <-> alive k u).
Proof.
  intros Hp. unfold alive. simpl. rewrite lookup_insert. case_decide; [subst; naive_solver|done].
Qed.
End queues_of_threads.

Section scheduler.
Context {G : Globals}.
Implicit Types (k : kern) (Q : queue_map) (rq : list Z).

(** [k'] is [k] after a switch to [next], the control blocks having become
    [ts] before it and the ready list being [rest] after it. *)
Record switched k (ts : gmap Z TCB) Q (next : Z) (rest : list Z) (k' : kern) : Prop := {
  sw_next : exists t, ts !! next = Some t /\ tasks k' = <[next := set_status THREAD_TASK_RUNNING t]> ts /\
    cr3 k' = (if pgdir t =? 0 then 0x100000 else addr_v2p (pgdir t)) /\
    esp0 k' = (if pgdir t =? 0 then esp0 k else u32 (next + PG_SIZE));
  sw_current : current k' = next;
  sw_locks : locks k' = locks k;
  sw_intr : intr k' = intr k;
  sw_jiffies : jiffies k' = jiffies k;
  sw_idle : idle_thread k' = idle_thread k;
  sw_main : main_thread k' = main_thread k;
  sw_queues : queues (lists k') (alive k) (<[thread_ready_list := rest]> Q);
  sw_off : off_queues (<[thread_ready_list := rest]> Q) next;
  sw_frame : unchanged_except (thread_ready_list :: (general_tag <$> next :: rest)) (klists k) (klists k')
}.

(** The end of [schedule], given who is first in line. *)
Lemma run_next_ok k T Q cur next rest :
  queues (lists k) T Q -> (forall t, T t <-> alive k t) -> rl Q (next :: rest) -> next <> 0 ->
  exists k', run_next cur k = Ok (tt, k') /\ switched k (tasks k) Q next rest k'.
Proof.
  intros HQ HT Hrl H0. apply (queues_ext _ _ _ _ HT) in HQ.
  destruct (q_pop_framed (L:=kern_lists) k (alive k) Q _ _ _ HQ Hrl) as (h' & E & HQ' & Hoff & Hs & Hfr).
  destruct (q_in _ _ _ HQ _ _ next Hrl) as [t Ht]; [by left|].
  eexists. split.
  - unfold run_next. run E. rewrite of_general_tag_tag.
    run (upd_tcb_ok (set_klists h' k) next t (set_status THREAD_TASK_RUNNING)); [|done].
    unfold process_activate, page_dir_activate.
    rewrite !bind_assoc, assert_bind by (apply negb_true_iff; by apply Z.eqb_neq).
    rdt. rewrite modify_bind. rdt. simpl.
    instantiate (1 := Kern h' (<[next := set_status THREAD_TASK_RUNNING t]> (tasks k)) (locks k) next
      (intr k) (jiffies k) (if pgdir t =? 0 then 0x100000 else addr_v2p (pgdir t))
      (if pgdir t =? 0 then esp0 k else u32 (next + PG_SIZE)) (idle_thread k) (main_thread k)).
    destruct (Z.eqb_spec (pgdir t) 0); reflexivity.
  - split; simpl; try done. by exists t.
Qed.

Lemma rl_insert Q rq rq' : <[thread_ready_list := rq]> (<[thread_ready_list := rq']> Q) = <[thread_ready_list := rq]> Q.
Proof. apply insert_insert_eq. Qed.

(** A thread that may be unblocked: its status says so and it is on no queue. *)
Record sleeping k Q (t : Z) (b : TCB) : Prop := {
  sl_tcb : tasks k !! t = Some b;
  sl_status : blocking (status b) = true;
  sl_off : off_queues Q t
}.

Lemma blocking_cases st : blocking st = true -> st <> THREAD_TASK_RUNNING /\ st <> THREAD_TASK_READY.
Proof.
  unfold blocking, THREAD_TASK_RUNNING, THREAD_TASK_READY, THREAD_TASK_HANGING, THREAD_TASK_WAITING, THREAD_TASK_BLOCKED.
  intros H. split; intros ->; done.
Qed.

Lemma thread_unblock_framed fuel k T Q rq t b :
  queues (lists k) T Q -> (forall t, T t <-> alive k t) -> rl Q rq -> sleeping k Q t b -> (length rq < fuel)%nat ->
  exists h', thread_unblock fuel t k
      = Ok (tt, set_tasks (<[t := set_status THREAD_TASK_READY b]> (tasks k)) (set_klists h' k)) /\
    queues h' T (<[thread_ready_list := t :: rq]> Q) /\ unchanged_except (thread_ready_list :: (general_tag <$> t :: rq)) (klists k) h'.
Proof.
  intros HQ HT Hrl [Hb Hst Hoff] Hf. assert (T t) as Ht by (apply HT; by eexists).
  destruct (blocking_cases _ Hst) as [_ Hr].
  destruct (q_push_front_framed (L:=kern_lists) (set_intr false k) T Q _ rq t HQ Hrl Ht Hoff) as (h' & E & HQ').
  exists h'. split; [|exact HQ']. unfold thread_unblock. erewrite tcb_bind by done.
  rewrite assert_bind by done. run (intr_disable_ok k).
  rewrite (proj2 (Z.eqb_neq (status b) THREAD_TASK_READY)) by done. simpl.
  assert (list_find_element fuel (general_tag t) thread_ready_list (set_intr false k) = Ok (false, set_intr false k)) as Ef.
  { eapply (q_find (L:=kern_lists)); [exact HQ|done..|by apply (Hoff _ _ Hrl)|done]. }
  run Ef. pass. run Ef. rets. run E.
  run (upd_tcb_ok (set_klists h' (set_intr false k)) t b (set_status THREAD_TASK_READY)); [|done].
  run (intr_set_status_ok (intr k) (set_tasks (<[t := set_status THREAD_TASK_READY b]> (tasks k)) (set_klists h' (set_intr false k)))).
  destruct k; reflexivity.
Qed.

Lemma thread_unblock_ok fuel k T Q rq t b :
  queues (lists k) T Q -> (forall t, T t <-> alive k t) -> rl Q rq -> sleeping k Q t b -> (length rq < fuel)%nat ->
  exists h', thread_unblock fuel t k
      = Ok (tt, set_tasks (<[t := set_status THREAD_TASK_READY b]> (tasks k)) (set_klists h' k)) /\
    queues h' T (<[thread_ready_list := t :: rq]> Q).
Proof.
  intros HQ HT Hrl Hs Hf. destruct (thread_unblock_framed fuel k T Q rq t b HQ HT Hrl Hs Hf) as (h' & ? & ? & _). by exists h'.
Qed.

Lemma off_ready Q rq rest t u :
  rl Q rq -> off_queues Q u -> u <> t -> (forall v, v ∈ rest -> v ∈ rq \/ v = t) ->
  off_queues (<[thread_ready_list := rest]> Q) u.
Proof.
  intros Hrl Hoff Hne Hin a xs. rewrite lookup_insert. case_decide as Ha; [intros [= <-] Hu|apply Hoff].
  destruct (Hin u Hu); [by apply (Hoff _ _ Hrl)|done].
Qed.

(** [schedule] called by a running thread: it goes to the end of the line. *)
Lemma schedule_running_ok fuel k Q rq next rest b :
  queues (lists k) (alive k) Q -> rl Q rq -> tasks k !! current k = Some b ->
  status b = THREAD_TASK_RUNNING -> off_queues Q (current k) ->
  (length rq < fuel)%nat -> (forall t, alive k t -> t <> 0) -> rq ++ [current k] = next :: rest ->
  exists k', schedule fuel k = Ok (tt, k') /\
    switched k (<[current k := set_status THREAD_TASK_READY (set_ticks (priority b) b)]> (tasks k)) Q next rest k'.
Proof.
  intros HQ Hrl Hb Hst Hoff Hf H0 Hn.
  assert (alive k (current k)) as Ha by by eexists.
  assert (list_find_element fuel (general_tag (current k)) thread_ready_list k = Ok (false, k)) as Ef.
  { eapply (q_find (L:=kern_lists)); [exact HQ|done..|by apply (Hoff _ _ Hrl)|done]. }
  destruct (q_push_tail_framed (L:=kern_lists) k (alive k) Q _ rq (current k) HQ Hrl Ha Hoff) as (h1 & E1 & HQ1 & Hfr1).
  set (k1 := set_tasks (<[current k := set_status THREAD_TASK_READY (set_ticks (priority b) b)]> (tasks k)) (set_klists h1 k)).
  assert (forall t, alive k t <-> alive k1 t) as HT by (intros t; symmetry; by apply (alive_insert (set_klists h1 k))).
  assert (rl (<[thread_ready_list := rq ++ [current k]]> Q) (next :: rest)) as Hrl1 by (unfold rl; by rewrite lookup_insert_eq, Hn).
  assert (next <> 0) as Hnext.
  { apply H0. destruct rq as [|r rq]; simplify_eq/=; [done|]. eapply (q_in _ _ _ HQ); [done|by left]. }
  destruct (run_next_ok k1 (alive k) _ (current k) next rest HQ1 HT Hrl1 Hnext) as (k' & E & Hk').
  exists k'. split.
  - unfold schedule, running_thread. rewrite gets_bind. erewrite tcb_bind by done.
    rewrite Hst, Z.eqb_refl. run Ef. pass. run E1.
    run (upd_tcb_ok (set_klists h1 k) (current k) b (fun t => set_ticks (priority t) t)); [|done].
    match goal with |- bind (upd_tcb _ _) _ ?s = _ =>
      run (upd_tcb_ok s (current k) (set_ticks (priority b) b) (set_status THREAD_TASK_READY)); [|simpl; by rewrite lookup_insert_eq] end.
    simpl. rewrite insert_insert_eq. change (set_tasks _ _) with k1.
    run (q_empty (L:=kern_lists) k1 (alive k) _ _ _ HQ1 Hrl1).
    rewrite bool_decide_false by done. rets. exact E.
  - destruct Hk' as [Hk1 ? ? ? ? ? ? Hq Ho Hfr]. split; try done.
    + rewrite rl_insert in Hq. eapply queues_ext; [|done]. intros t. symmetry. apply HT.
    + by rewrite rl_insert in Ho.
    + eapply unchanged_trans; [exact Hfr1|exact Hfr| |done]. rewrite <-Hn, !fmap_app. set_solver.
Qed.

(** [schedule] called by a thread that has just given up the processor; with
    nobody in line, the idle thread is woken. *)
Lemma schedule_blocked_ok fuel k Q rq b :
  queues (lists k) (alive k) Q -> rl Q rq -> tasks k !! current k = Some b ->
  blocking (status b) = true ->
  (length rq < fuel)%nat -> (forall t, alive k t -> t <> 0) ->
  match rq with
  | next :: rest => exists k', schedule fuel k = Ok (tt, k') /\ switched k (tasks k) Q next rest k'
  | [] => forall i, sleeping k Q (idle_thread k) i ->
      exists k', schedule fuel k = Ok (tt, k') /\
        switched k (<[idle_thread k := set_status THREAD_TASK_READY i]> (tasks k)) Q (idle_thread k) [] k'
  end.
Proof.
  intros HQ Hrl Hb Hst Hf H0. destruct (blocking_cases _ Hst) as [Hs1 Hs2].
  destruct rq as [|next rest].
  - intros i Hi. destruct (thread_unblock_framed fuel k (alive k) Q [] (idle_thread k) i) as (h1 & E1 & HQ1 & Hfr1); [done..|].
    set (k1 := set_tasks (<[idle_thread k := set_status THREAD_TASK_READY i]> (tasks k)) (set_klists h1 k)) in *.
    assert (alive k (idle_thread k)) as Hai by (destruct Hi; by eexists).
    assert (forall t, alive k t <-> alive k1 t) as HT by (intros t; symmetry; by apply (alive_insert (set_klists h1 k))).
    assert (rl (<[thread_ready_list := [idle_thread k]]> Q) [idle_thread k]) as Hrl1 by (unfold rl; by rewrite lookup_insert_eq).
    destruct (run_next_ok k1 (alive k) _ (current k) (idle_thread k) [] HQ1 HT Hrl1) as (k' & E & Hk'); [by apply H0|].
    exists k'. split.
    + unfold schedule, running_thread. rewrite gets_bind. erewrite tcb_bind by done.
      rewrite (proj2 (Z.eqb_neq _ _) Hs1), (proj2 (Z.eqb_neq _ _) Hs2). rets.
      run (q_empty (L:=kern_lists) k (alive k) _ _ _ HQ Hrl). rewrite bool_decide_true by done.
      rets. rewrite gets_bind. run E1. exact E.
    + destruct Hk' as [Hk1 ? ? ? ? ? ? Hq Ho Hfr]. split; try done.
      * rewrite rl_insert in Hq. eapply queues_ext; [|done]. intros t. symmetry. apply HT.
      * by rewrite rl_insert in Ho.
      * by eapply unchanged_trans; [exact Hfr1|exact Hfr| |].
  - destruct (run_next_ok k (alive k) Q (current k) next rest) as (k' & E & Hk'); [done..| |].
    { apply H0. eapply (q_in _ _ _ HQ); [done|by left]. }
    exists k'. split; [|done].
    unfold schedule, running_thread. rewrite gets_bind. erewrite tcb_bind by done.
    rewrite (proj2 (Z.eqb_neq _ _) Hs1), (proj2 (Z.eqb_neq _ _) Hs2). rets.
    run (q_empty (L:=kern_lists) k (alive k) _ _ _ HQ Hrl). rewrite bool_decide_false by done.
    rets. exact E.
Qed.

Lemma alive_set_intr k v t : alive (set_intr v k) t <-> alive k t.
Proof. done. Qed.
End scheduler.
