(* ===== verification/Threads.v ===== *)
(** * Threads: running the kernel's threads against each other

    A transition system over the scheduler and the locks of [Kernel].  One
    thread runs at a time; its kernel code is cut where another thread can get
    the processor (a clock interrupt while interrupts are on, or a switch), and
    [pc] says where each thread stands. *)
From S2P Require Import Prelude Lists Kernel Queues Sched.

(** Where a thread stands. *)
Inductive pc :=
| Run                     (* in code of its own *)
| Tick (p : pc)           (* interrupted at [p] by the clock, and switched away *)
| Blocked (old : bool)    (* in [thread_block], before the last line *)
| Fetch1 (l : Z)          (* [lock_fetch]: not the holder, before [semaphore_down] *)
| Down (l : Z) (old : bool) (* in the loop of [semaphore_down], switched away *)
| Fetch2 (l : Z)          (* [semaphore_down] has returned *)
| Fetch3 (l : Z)          (* the holder is set *)
| Rel1 (l : Z)            (* [lock_release]: the counter was 1 *)
| Rel2 (l : Z)            (* the holder is cleared *)
| Rel3 (l : Z).           (* the counter is cleared, before [semaphore_up] *)
#[export] Instance pc_eq_dec : EqDecision pc.
Proof. solve_decision. Defined.

(** [inside] records for the proofs which thread is between a [lock_fetch]
    that returned and the [lock_release] that gives the lock back. *)
Record sys := Sys { kn : kern; pcs : Z -> pc; inside : Z -> Z -> bool }.

Definition at_pc (t : Z) (p : pc) (P : Z -> pc) : Z -> pc := fun u => if u =? t then p else P u.
Definition set_inside (t l : Z) (b : bool) (I : Z -> Z -> bool) : Z -> Z -> bool :=
  fun u m => if (u =? t) && (m =? l) then b else I u m.

Definition then_sys {A} (r : res (A * kern)) (f : A -> kern -> sys) : res sys :=
  match r with
  | Ok (a, k) => Ok (f a k)
  | Panic => Panic
  | Fault => Fault
  | Stuck => Stuck
  end.

(** What the running thread, or the clock, does next. *)
Inductive action :=
| AClock                  (* a clock interrupt *)
| AGo                     (* the thread goes on with the kernel code it is in *)
| AFetch (l : Z)          (* it calls [lock_fetch] *)
| ARelease (l : Z)        (* it calls [lock_release] *)
| ABlock (st : Z)         (* it calls [thread_block] *)
| AUnblock (t : Z)        (* it calls [thread_unblock] *)
| AIntr (on : bool).      (* it sets the interrupt flag *)

Section machine.
Context {G : Globals}.
Variable fuel : nat.

(** [semaphore_down] from the test of its loop on. *)
Definition go_down (l : Z) (old : bool) (s : sys) : res sys :=
  let c := current (kn s) in
  then_sys (down_round fuel l (kn s))
    (fun taken k =>
       if taken : bool then Sys (set_intr old k) (at_pc c (Fetch2 l) (pcs s)) (inside s)
       else Sys k (at_pc c (Down l old) (pcs s)) (inside s)).

(** [lock_fetch], [lock_release] and the ends of the switching calls, one
    statement at a time. *)
Definition go (s : sys) : res sys :=
  let k := kn s in let c := current k in
  match pcs s c with
  | Run => Ok s
  | Tick p => Ok (Sys (set_intr true k) (at_pc c p (pcs s)) (inside s))
  | Blocked old => then_sys (intr_set_status old k) (fun _ k => Sys k (at_pc c Run (pcs s)) (inside s))
  | Fetch1 l =>
      match intr_disable k with
      | Ok (old, k) => go_down l old (Sys k (pcs s) (inside s))
      | _ => Fault
      end
  | Down l old => go_down l old s
  | Fetch2 l =>
      then_sys (upd_lock l (fun x => Lock c (value x) (holder_repeat_nr x)) k)
        (fun _ k => Sys k (at_pc c (Fetch3 l) (pcs s)) (inside s))
  | Fetch3 l =>
      then_sys ((x <- lk l ;; ASSERT (holder_repeat_nr x =? 0) ;;;
                 upd_lock l (fun x => Lock (holder x) (value x) 1)) k)
        (fun _ k => Sys k (at_pc c Run (pcs s)) (set_inside c l true (inside s)))
  | Rel1 l =>
      then_sys (upd_lock l (fun x => Lock 0 (value x) (holder_repeat_nr x)) k)
        (fun _ k => Sys k (at_pc c (Rel2 l) (pcs s)) (inside s))
  | Rel2 l =>
      then_sys (upd_lock l (fun x => Lock (holder x) (value x) 0) k)
        (fun _ k => Sys k (at_pc c (Rel3 l) (pcs s)) (inside s))
  | Rel3 l =>
      then_sys (semaphore_up fuel l k) (fun _ k => Sys k (at_pc c Run (pcs s)) (inside s))
  end.

Definition exec (a : action) (s : sys) : res sys :=
  let k := kn s in let c := current k in
  match a with
  | AClock =>
      then_sys (clock_tick fuel (set_intr false k))
        (fun switched k => if switched : bool then Sys k (at_pc c (Tick (pcs s c)) (pcs s)) (inside s)
                           else Sys (set_intr true k) (pcs s) (inside s))
  | AGo => go s
  | AFetch l =>
      then_sys ((x <- lk l ;; cur <- running_thread ;;
                 if negb (holder x =? cur) then ret true
                 else (upd_lock l (fun x => Lock (holder x) (value x) (u32 (holder_repeat_nr x + 1))) ;;; ret false)) k)
        (fun wait k => if wait : bool then Sys k (at_pc c (Fetch1 l) (pcs s)) (inside s)
                       else Sys k (pcs s) (set_inside c l true (inside s)))
  | ARelease l =>
      then_sys ((x <- lk l ;;
                 if holder_repeat_nr x >? 1
                 then (upd_lock l (fun x => Lock (holder x) (value x) (holder_repeat_nr x - 1)) ;;; ret false)
                 else (ASSERT (holder_repeat_nr x =? 1) ;;; ret true)) k)
        (fun last k => if last : bool then Sys k (at_pc c (Rel1 l) (pcs s)) (set_inside c l false (inside s))
                       else Sys k (pcs s) (inside s))
  | ABlock st =>
      then_sys (thread_block fuel st k) (fun old k => Sys k (at_pc c (Blocked old) (pcs s)) (inside s))
  | AUnblock t => then_sys (thread_unblock fuel t k) (fun _ k => Sys k (pcs s) (inside s))
  | AIntr on => then_sys (intr_set_status on k) (fun _ k => Sys k (pcs s) (inside s))
  end.

(** What callers may do: the clock only interrupts when interrupts are on; a
    lock is released by a thread that is inside it; only a thread that has
    blocked itself is unblocked; the idle thread stays out of all this; and a
    lock is not taken [2 ^ 32] times over by its holder. *)
Definition allowed (a : action) (s : sys) : Prop :=
  let k := kn s in let c := current k in
  match a with
  | AClock => intr k = true
  | AGo => pcs s c <> Run
  | AFetch l => pcs s c = Run /\ c <> idle_thread k /\
      exists x, locks k !! l = Some x /\ (holder x = c -> holder_repeat_nr x + 1 < 2 ^ 32)
  | ARelease l => pcs s c = Run /\ c <> idle_thread k /\ inside s c l = true
  | ABlock st => pcs s c = Run /\ blocking st = true
  | AUnblock t => pcs s c = Run /\ t <> c /\ t <> idle_thread k /\
      exists b old, tasks k !! t = Some b /\ blocking (status b) = true /\ pcs s t = Blocked old
  | AIntr on => pcs s c = Run
  end.

(** [steps s s']: some allowed actions lead from [s] to [s']. *)
Inductive steps : sys -> sys -> Prop :=
| steps_refl s : steps s s
| steps_step s s1 s2 a : steps s s1 -> allowed a s1 -> exec a s1 = Ok s2 -> steps s s2.
End machine.
