(* ===== verification/ThreadInv.v ===== *)
(** * ThreadInv: the invariant of the threads and its preservation *)
From S2P Require Import Prelude Lists Kernel Queues Sched Threads.

(** ** Where threads are *)
Section places.
Context {G : Globals}.
Implicit Types (Q : queue_map) (P : Z -> pc) (lks : gmap Z lock).

(** The queues there are: the ready list and one waiting list for each lock. *)
Record shape (lks : gmap Z lock) (Q : queue_map) : Prop := {
  sh_ready : is_Some (Q !! thread_ready_list);
  sh_wait : forall l, is_Some (lks !! l) -> is_Some (Q !! waiting_queue l);
  sh_only : forall a, is_Some (Q !! a) ->
    a = thread_ready_list \/ exists l, is_Some (lks !! l) /\ a = waiting_queue l;
  sh_ne : forall l, is_Some (lks !! l) -> waiting_queue l <> thread_ready_list
}.

(** A thread that is not running is ready and in line, or waits for a lock, or
    has blocked itself. *)
Definition place lks P Q (t : Z) (b : TCB) : Prop :=
  (exists rq, rl Q rq /\ t ∈ rq /\ status b = THREAD_TASK_READY) \/
  (exists l ws old, is_Some (lks !! l) /\ Q !! waiting_queue l = Some ws /\ t ∈ ws /\
     P t = Down l old /\ status b = THREAD_TASK_BLOCKED) \/
  (off_queues Q t /\ blocking (status b) = true /\ exists old, P t = Blocked old).

Definition interruptible (p : pc) : bool :=
  match p with Tick _ | Blocked _ | Down _ _ => false | _ => true end.
Fixpoint idle_pc (p : pc) : bool :=
  match p with Run | Blocked _ => true | Tick p => idle_pc p | _ => false end.

Record threads_ok (fuel : nat) (k : kern) (P : Z -> pc) (Q : queue_map) : Prop := {
  t_queues : queues (lists k) (alive k) Q;
  t_shape : shape (locks k) Q;
  t_place : forall t b, tasks k !! t = Some b -> t <> current k -> place (locks k) P Q t b;
  t_cur : exists b, tasks k !! current k = Some b /\ status b = THREAD_TASK_RUNNING;
  t_off : off_queues Q (current k);
  t_idle : alive k (idle_thread k) /\ idle_pc (P (idle_thread k)) = true;
  t_live : forall t b, tasks k !! t = Some b -> t <> 0 /\ stack_magic b = STACK_MAGIC;
  t_fuel : (size (tasks k) <= fuel)%nat;
  t_intr : intr k = true -> interruptible (P (current k)) = true
}.

Lemma shape_insert lks Q a xs ys : shape lks Q -> Q !! a = Some xs -> shape lks (<[a := ys]> Q).
Proof.
  intros [H1 H2 H3 H4] Ha.
  assert (forall b, is_Some ((<[a := ys]> Q) !! b) <-> is_Some (Q !! b)) as E.
  { intros b. rewrite lookup_insert. case_decide; [subst; rewrite Ha; split; by eexists|done]. }
  split; [by apply E|intros; apply E; auto|intros b Hb; by apply H3, E|done].
Qed.
Lemma shape_locks lks lks' Q :
  (forall l, is_Some (lks' !! l) <-> is_Some (lks !! l)) -> shape lks Q -> shape lks' Q.
Proof.
  intros E [H1 H2 H3 H4]. split; [done|intros l Hl%E; auto| |intros l Hl%E; auto].
  intros a Ha. destruct (H3 a Ha) as [?|(l & ? & ?)]; [by left|right]. exists l. by rewrite E.
Qed.

Lemma not_off Q a xs t : Q !! a = Some xs -> t ∈ xs -> ~ off_queues Q t.
Proof. intros Ha Ht Ho. by apply (Ho a xs). Qed.

(** The other threads stay where they are when one queue changes for one
    thread, and when only that thread moves on. *)
Lemma place_frame lks lks' P P' Q a xs ys t b :
  place lks P Q t b -> Q !! a = Some xs -> (t ∈ xs <-> t ∈ ys) -> P' t = P t ->
  (forall l, is_Some (lks' !! l) <-> is_Some (lks !! l)) ->
  place lks' P' (<[a := ys]> Q) t b.
Proof.
  intros Hp Ha Ht HP Hl.
  destruct Hp as [(rq & Hrl & Hin & ?)|[(l & ws & old & ? & Hw & Hin & ? & ?)|(Hoff & ? & ?)]].
  - left. unfold rl in *. destruct (decide (a = thread_ready_list)) as [->|].
    + exists ys. rewrite lookup_insert_eq. simplify_eq. naive_solver.
    + exists rq. by rewrite lookup_insert_ne.
  - right; left. destruct (decide (a = waiting_queue l)) as [->|].
    + exists l, ys, old. rewrite lookup_insert_eq, HP, Hl. simplify_eq. naive_solver.
    + exists l, ws, old. by rewrite lookup_insert_ne, HP, Hl.
  - right; right. rewrite HP. split_and!; [|done..]. intros c zs. rewrite lookup_insert.
    case_decide; [intros [= <-]; rewrite <-Ht; by apply (Hoff a)|apply Hoff].
Qed.
Lemma place_same lks lks' P P' Q t b :
  place lks P Q t b -> P' t = P t -> (forall l, is_Some (lks' !! l) <-> is_Some (lks !! l)) ->
  place lks' P' Q t b.
Proof.
  intros Hp HP Hl. unfold place. rewrite HP.
  destruct Hp as [?|[(l & ws & old & ? & ?)|?]]; [by left|right; left|by right; right].
  exists l, ws, old. by rewrite Hl.
Qed.

Lemma at_pc_eq t p P : at_pc t p P t = p.
Proof. unfold at_pc. by rewrite Z.eqb_refl. Qed.
Lemma at_pc_ne t u p P : u <> t -> at_pc t p P u = P u.
Proof. intros. unfold at_pc. by rewrite (proj2 (Z.eqb_neq _ _)). Qed.

(** There is fuel for every queue. *)
Lemma queue_fuel fuel k P Q a xs :
  threads_ok fuel k P Q -> Q !! a = Some xs -> (length xs < fuel)%nat.
Proof.
  intros H Ha. pose proof (q_nodup _ _ _ _ _ (t_queues _ _ _ _ H) Ha) as Hn.
  pose proof (t_fuel _ _ _ _ H). apply (Nat.lt_le_trans _ (size (tasks k))); [|done].
  rewrite <-size_dom.
  assert (list_to_set (current k :: xs) ⊆ dom (tasks k)) as Hsub.
  { intros t Ht%elem_of_list_to_set. apply elem_of_dom.
    apply list.elem_of_cons in Ht as [->|Ht].
    - destruct (t_cur _ _ _ _ H) as (b & ? & _). by eexists.
    - by apply (q_in _ _ _ (t_queues _ _ _ _ H) a xs). }
  apply subseteq_size in Hsub. rewrite size_list_to_set in Hsub; [simpl in Hsub; lia|].
  apply list.NoDup_cons. split; [|done]. by apply (t_off _ _ _ _ H a).
Qed.
End places.

(** ** Switching *)
Section switching.
Context {G : Globals}.
Implicit Types (Q : queue_map) (P : Z -> pc) (k : kern).

(** What a step leaves alone. *)
Record same_frame k k' Q Q' : Prop := {
  sf_locks : locks k' = locks k;
  sf_idle : idle_thread k' = idle_thread k;
  sf_alive : forall t, alive k' t <-> alive k t;
  sf_wait : forall l, is_Some (locks k !! l) -> Q' !! waiting_queue l = Q !! waiting_queue l
}.

Lemma size_insert_in (m : gmap Z TCB) c x : is_Some (m !! c) -> size (<[c := x]> m) = size m.
Proof.
  intros Hc. rewrite <-!size_dom, dom_insert_L. f_equal. apply elem_of_dom in Hc. set_solver.
Qed.
Lemma live_insert (m : gmap Z TCB) c b b' :
  (forall t b, m !! t = Some b -> t <> 0 /\ stack_magic b = STACK_MAGIC) ->
  m !! c = Some b -> stack_magic b' = stack_magic b ->
  forall t b, <[c := b']> m !! t = Some b -> t <> 0 /\ stack_magic b = STACK_MAGIC.
Proof.
  intros Hm Hc E t b1. rewrite lookup_insert. case_decide; [subst; intros [= <-]|by apply Hm].
  rewrite E. by apply (Hm t b).
Qed.

(** After a switch everybody has a place, if everybody, the current thread
    included, had one before it, with [next] the first in line. *)
Lemma switched_ok fuel k ts P Q next rest k' :
  switched k ts Q next rest k' ->
  shape (locks k) Q ->
  (forall t b, ts !! t = Some b -> place (locks k) P (<[thread_ready_list := next :: rest]> Q) t b) ->
  (forall t, is_Some (ts !! t) <-> alive k t) ->
  alive k (idle_thread k) /\ idle_pc (P (idle_thread k)) = true ->
  (forall t b, ts !! t = Some b -> t <> 0 /\ stack_magic b = STACK_MAGIC) ->
  (size ts <= fuel)%nat -> intr k = false ->
  threads_ok fuel k' P (<[thread_ready_list := rest]> Q) /\
  same_frame k k' Q (<[thread_ready_list := rest]> Q).
Proof.
  intros [(n & Hn & Ht & _) Hc Hl Hi Hj Hid Hm Hq Ho _] Hsh Hp Ha Hidle Hlive Hsz Hint.
  destruct (sh_ready _ _ Hsh) as [rq0 Hrq0].
  assert (forall t, alive k' t <-> alive k t) as Ha'.
  { intros t. rewrite <-Ha. unfold alive. rewrite Ht, lookup_insert. case_decide; [subst; rewrite Hn; split; by eexists|done]. }
  split; split; try done.
  - eapply queues_ext; [|exact Hq]. intros t. by rewrite Ha'.
  - rewrite Hl. by eapply shape_insert.
  - rewrite Ht, Hc, Hl. intros t b. rewrite lookup_insert. case_decide; [naive_solver|]. intros Hb Hne.
    rewrite <-(insert_insert_eq Q thread_ready_list rest (next :: rest)).
    eapply place_frame; [by apply Hp| by rewrite lookup_insert_eq| |done..].
    rewrite list.elem_of_cons. naive_solver.
  - rewrite Hc, Ht, lookup_insert_eq. by eexists.
  - by rewrite Hc.
  - by rewrite Hid, Ha'.
  - rewrite Ht. by eapply live_insert.
  - rewrite Ht, size_insert_in; [done|by eexists].
  - rewrite Hi, Hint. done.
  - intros l Hl'. rewrite lookup_insert_ne; [done|]. apply not_eq_sym. by apply (sh_ne _ _ Hsh).
Qed.

(** A switch away from a running thread. *)
Lemma schedule_preempt_ok fuel k P Q p :
  threads_ok fuel k P Q -> intr k = false ->
  (current k = idle_thread k -> idle_pc p = true) ->
  exists k' Q', schedule fuel k = Ok (tt, k') /\
    threads_ok fuel k' (at_pc (current k) p P) Q' /\ same_frame k k' Q Q'.
Proof.
  intros Hk Hint Hp. destruct (t_cur _ _ _ _ Hk) as (b & Hb & Hst).
  destruct (sh_ready _ _ (t_shape _ _ _ _ Hk)) as [rq Hrq].
  destruct (rq ++ [current k]) as [|next rest] eqn:Erq; [by destruct rq|].
  destruct (schedule_running_ok fuel k Q rq next rest b) as (k' & E & Hsw);
    [by apply Hk|done..|by apply Hk|by eapply queue_fuel| |done|].
  { intros t [bt Ht]. by apply (t_live _ _ _ _ Hk t bt). }
  exists k', (<[thread_ready_list := rest]> Q). split; [done|].
  eapply switched_ok; [done|by apply Hk| | | | | |done].
  - intros t bt. rewrite lookup_insert. case_decide as Ht.
    + intros [= <-]. left. exists (next :: rest). unfold rl. rewrite lookup_insert_eq. split_and!; [done| |done].
      rewrite <-Erq, Ht. apply list.elem_of_app. right. by left.
    + intros Hbt. eapply place_frame; [by eapply (t_place _ _ _ _ Hk)|done| |by apply at_pc_ne|done].
      rewrite <-Erq, list.elem_of_app, list.elem_of_cons, elem_of_nil. naive_solver.
  - intros t. by apply (alive_insert k); eexists.
  - destruct (t_idle _ _ _ _ Hk) as [? ?]. split; [done|]. unfold at_pc. case_match eqn:Ei; [|done].
    apply Z.eqb_eq in Ei. by apply Hp.
  - eapply live_insert; [apply (t_live _ _ _ _ Hk)|done|done].
  - rewrite size_insert_in; [apply Hk|by eexists].
Qed.

(** A switch away from a thread that has given up the processor and taken its
    place. *)
Record resting (fuel : nat) k P Q : Prop := {
  r_queues : queues (lists k) (alive k) Q;
  r_shape : shape (locks k) Q;
  r_place : forall t b, tasks k !! t = Some b -> place (locks k) P Q t b;
  r_cur : exists b, tasks k !! current k = Some b /\ blocking (status b) = true;
  r_idle : alive k (idle_thread k) /\ idle_pc (P (idle_thread k)) = true;
  r_live : forall t b, tasks k !! t = Some b -> t <> 0 /\ stack_magic b = STACK_MAGIC;
  r_size : (size (tasks k) <= fuel)%nat;
  r_fuel : forall rq, rl Q rq -> (length rq < fuel)%nat;
  r_intr : intr k = false
}.

Lemma schedule_resting_ok fuel k P Q :
  resting fuel k P Q ->
  exists k' Q', schedule fuel k = Ok (tt, k') /\ (threads_ok fuel k' P Q' /\ same_frame k k' Q Q') /\ intr k' = false.
Proof.
  intros [Hq Hsh Hp (b & Hb & Hst) [Hid Hidp] Hlive Hsz Hf Hint].
  destruct (sh_ready _ _ Hsh) as [rq Hrq].
  pose proof (schedule_blocked_ok fuel k Q rq b Hq Hrq Hb Hst (Hf _ Hrq)) as Hs.
  destruct rq as [|next rest].
  - destruct Hid as [i Hi].
    assert (sleeping k Q (idle_thread k) i) as Hsl.
    { destruct (Hp _ _ Hi) as [(rq & Hrl & Hin & _)|[(l & ws & old & _ & _ & _ & E & _)|(? & ? & _)]]; [| |done].
      - unfold rl in Hrl. simplify_eq. by apply not_elem_of_nil in Hin.
      - by rewrite E in Hidp. }
    destruct (Hs ltac:(intros t [bt Ht]; by apply (Hlive t bt)) i Hsl) as (k' & E & Hsw).
    exists k', (<[thread_ready_list := []]> Q). split; [done|]. split; [|by rewrite (sw_intr _ _ _ _ _ _ Hsw)].
    eapply switched_ok; [done|done| | |by split; [eexists|]| | |done].
    + intros t bt. rewrite lookup_insert. case_decide as Ht.
      * intros [= <-]. left. exists [idle_thread k]. unfold rl. rewrite lookup_insert_eq, Ht. split_and!; [done|by left|done].
      * intros Hbt. eapply place_frame; [by apply Hp|done| |done|done].
        rewrite list.elem_of_cons, elem_of_nil. naive_solver.
    + intros t. apply (alive_insert k). by eexists.
    + by eapply live_insert.
    + rewrite size_insert_in; [done|by eexists].
  - destruct (Hs ltac:(intros t [bt Ht]; by apply (Hlive t bt))) as (k' & E & Hsw).
    exists k', (<[thread_ready_list := rest]> Q). split; [done|]. split; [|by rewrite (sw_intr _ _ _ _ _ _ Hsw)].
    eapply switched_ok; [done|done| |done|done|done|done|done].
    intros t bt Ht. rewrite insert_id by done. by apply Hp.
Qed.
End switching.

(** ** The calls, as steps of the threads *)
Section calls.
Context {G : Globals}.
Implicit Types (Q : queue_map) (P : Z -> pc) (k : kern).

Lemma same_frame_refl k k' Q :
  locks k' = locks k -> idle_thread k' = idle_thread k -> (forall t, alive k' t <-> alive k t) ->
  same_frame k k' Q Q.
Proof. by split. Qed.

(** A step that concerns the current thread alone: its position, its counters,
    the interrupt flag, and the contents of locks. *)
Lemma threads_alone fuel k k' P Q p b b' :
  threads_ok fuel k P Q ->
  lists k' = lists k -> current k' = current k -> idle_thread k' = idle_thread k ->
  tasks k !! current k = Some b -> tasks k' = <[current k := b']> (tasks k) ->
  status b' = status b -> stack_magic b' = stack_magic b ->
  (forall l, is_Some (locks k' !! l) <-> is_Some (locks k !! l)) ->
  (current k = idle_thread k -> idle_pc p = true) ->
  (intr k' = true -> interruptible p = true) ->
  threads_ok fuel k' (at_pc (current k) p P) Q.
Proof.
  intros [Hq Hsh Hp (cb & Hcb & Hst) Hoff [Hid Hidp] Hlive Hsz Hint] El Ec Ei Hb Et Es Em Elk Hpi Hpn.
  assert (cb = b) as -> by congruence.
  assert (forall t, alive k' t <-> alive k t) as Ha.
  { intros t. unfold alive. rewrite Et, lookup_insert. case_decide; [subst; rewrite Hb; split; by eexists|done]. }
  split; rewrite ?El, ?Ec, ?Ei; try done.
  - eapply queues_ext; [|exact Hq]. intros t. by rewrite Ha.
  - by eapply shape_locks.
  - intros t bt. rewrite Et, lookup_insert. case_decide; [naive_solver|]. intros Hbt Hne.
    eapply place_same; [by apply Hp|by apply at_pc_ne|done].
  - exists b'. rewrite Et, lookup_insert_eq, Es. done.
  - rewrite Ha. split; [done|]. unfold at_pc. case_match eqn:E; [|done]. apply Z.eqb_eq in E. by apply Hpi.
  - rewrite Et. by eapply live_insert.
  - rewrite Et, size_insert_in; [done|by eexists].
  - by rewrite at_pc_eq.
Qed.
Lemma threads_pc fuel k k' P Q p :
  threads_ok fuel k P Q ->
  lists k' = lists k -> current k' = current k -> idle_thread k' = idle_thread k -> tasks k' = tasks k ->
  (forall l, is_Some (locks k' !! l) <-> is_Some (locks k !! l)) ->
  (current k = idle_thread k -> idle_pc p = true) -> (intr k' = true -> interruptible p = true) ->
  threads_ok fuel k' (at_pc (current k) p P) Q.
Proof.
  intros H. intros. destruct (t_cur _ _ _ _ H) as (b & Hb & _).
  eapply (threads_alone _ _ _ _ _ _ b b); try done. by rewrite insert_id.
Qed.
Lemma threads_ext fuel k P P' Q :
  (forall t, P' t = P t) -> threads_ok fuel k P Q -> threads_ok fuel k P' Q.
Proof.
  intros E [? ? Hp ? ? ? ? ? ?]. split; rewrite ?E; try done.
  intros t b Hb Ht. eapply place_same; [by apply Hp|apply E|done].
Qed.
Lemma at_pc_same t p P u : P t = p -> at_pc t p P u = P u.
Proof. unfold at_pc. case_match eqn:E; [|done]. apply Z.eqb_eq in E. by subst. Qed.
Lemma at_pc_twice t p q P u : at_pc t p (at_pc t q P) u = at_pc t p P u.
Proof. unfold at_pc. by case_match. Qed.
Lemma threads_flag fuel k v P Q :
  threads_ok fuel k P Q -> (v = true -> interruptible (P (current k)) = true) ->
  threads_ok fuel (set_intr v k) P Q.
Proof. intros [] ?. by split. Qed.

(** The clock interrupt. *)
Lemma clock_ok fuel k P Q :
  threads_ok fuel k P Q -> intr k = true ->
  exists r k1, clock_tick fuel (set_intr false k) = Ok (r, k1) /\
    if r : bool then exists Q', threads_ok fuel k1 (at_pc (current k) (Tick (P (current k))) P) Q' /\ same_frame k k1 Q Q'
    else threads_ok fuel (set_intr true k1) P Q /\ same_frame k (set_intr true k1) Q Q.
Proof.
  intros H Hi. destruct (t_cur _ _ _ _ H) as (b & Hb & Hst).
  destruct (t_live _ _ _ _ H _ _ Hb) as [_ Hm]. pose proof (t_intr _ _ _ _ H Hi) as Hip.
  set (b1 := set_elapsed (u32 (elapsed_ticks b + 1)) b).
  set (k1 := set_jiffies (u32 (jiffies k + 1)) (set_tasks (<[current k := b1]> (tasks k)) (set_intr false k))).
  assert (threads_ok fuel k1 P Q) as H1.
  { eapply threads_ext; [intros t; symmetry; by apply (at_pc_same (current k) (P (current k)))|].
    eapply (threads_alone _ _ _ _ _ _ b b1); try done. intros ->. apply H. }
  assert (forall t, alive k1 t <-> alive k t) as Ha by (intros t; apply (alive_insert k); by eexists).
  assert (clock_tick fuel (set_intr false k) =
    if ticks b =? 0 then bind (schedule fuel) (fun _ => ret true) k1
    else Ok (false, set_tasks (<[current k := set_ticks (u32 (ticks b - 1)) b1]> (tasks k)) k1)) as Ec.
  { unfold clock_tick, running_thread. rewrite gets_bind. erewrite tcb_bind by done. pass by by apply Z.eqb_eq.
    run (upd_tcb_ok (set_intr false k) (current k) b); [|done]. rewrite modify_bind.
    change (set_jiffies _ _) with k1. destruct (ticks b =? 0); [done|].
    run (upd_tcb_ok k1 (current k) b1); [|simpl; by rewrite lookup_insert_eq].
    simpl. by rewrite insert_insert_eq. }
  rewrite Ec. destruct (ticks b =? 0).
  - destruct (schedule_preempt_ok fuel k1 _ Q (Tick (P (current k))) H1 eq_refl) as (k2 & Q2 & E2 & H2 & F2).
    { simpl. intros ->. apply H. }
    exists true, k2. split; [by run E2|]. exists Q2. split; [done|].
    destruct F2. split; try done. intros t. by rewrite <-Ha.
  - eexists false, _. split; [done|]. split.
    + eapply threads_ext; [intros t; symmetry; by apply (at_pc_same (current k) (P (current k)))|].
      eapply (threads_alone _ k _ P Q (P (current k)) b (set_ticks (u32 (ticks b - 1)) b1)); try done.
      intros ->. apply H.
    + apply same_frame_refl; [done..|]. intros t. apply (alive_insert k). by eexists.
Qed.
End calls.

(** ** Blocking and waking *)
Section waking.
Context {G : Globals}.
Implicit Types (Q : queue_map) (P : Z -> pc) (k : kern).

(** [thread_block] of the current thread, once the rest of its move ([Q1], the
    list memory [h1]) is made and it has a place for its new status. *)
Lemma block_gen_ok fuel k P Q Q1 h1 p st b :
  threads_ok fuel k P Q -> blocking st = true -> tasks k !! current k = Some b ->
  queues h1 (alive k) Q1 -> shape (locks k) Q1 ->
  (forall t bt, tasks k !! t = Some bt -> t <> current k -> place (locks k) P Q1 t bt) ->
  place (locks k) (at_pc (current k) p P) Q1 (current k) (set_status st b) ->
  Q1 !! thread_ready_list = Q !! thread_ready_list ->
  (current k = idle_thread k -> idle_pc p = true) ->
  exists k' Q', thread_block fuel st (set_klists h1 k) = Ok (intr k, k') /\
    threads_ok fuel k' (at_pc (current k) p P) Q' /\ same_frame k k' Q1 Q' /\ intr k' = false.
Proof.
  intros H Hst Hb Hq1 Hsh1 Hp1 Hpc Hrl Hi. destruct (t_cur _ _ _ _ H) as (b' & Hb' & Hrun).
  assert (b' = b) as -> by congruence.
  set (k1 := set_tasks (<[current k := set_status st b]> (tasks k)) (set_intr false (set_klists h1 k))).
  assert (forall t, alive k1 t <-> alive k t) as Ha by (intros t; apply (alive_insert k); by eexists).
  destruct (schedule_resting_ok fuel k1 (at_pc (current k) p P) Q1) as (k' & Q' & E & [H' F] & Hi').
  { split; try done.
    - eapply queues_ext; [|exact Hq1]. intros t. by rewrite Ha.
    - intros t bt. simpl. rewrite lookup_insert. case_decide as Ht; [intros [= <-]; by rewrite <-Ht|].
      intros Hbt. eapply place_same; [by apply Hp1|by apply at_pc_ne|done].
    - exists (set_status st b). simpl. by rewrite lookup_insert_eq.
    - rewrite Ha. split; [apply H|]. simpl. unfold at_pc. case_match eqn:E; [|apply H].
      apply Z.eqb_eq in E. by apply Hi.
    - simpl. eapply live_insert; [apply (t_live _ _ _ _ H)|done|done].
    - simpl. rewrite size_insert_in; [apply H|by eexists].
    - intros rq Hrq. unfold rl in Hrq. rewrite Hrl in Hrq. by eapply queue_fuel. }
  exists k', Q'. destruct F as [F1 F2 F3 F4].
  split_and!; [|done| |done].
  - unfold thread_block. rewrite assert_bind by done. run (intr_disable_ok (set_klists h1 k)).
    unfold running_thread. rewrite gets_bind.
    run (upd_tcb_ok (set_intr false (set_klists h1 k)) (current k) b (set_status st)); [|done].
    change (set_tasks _ _) with k1. by run E.
  - split; [done|done| |done]. intros t. by rewrite F3, Ha.
Qed.

Lemma block_ok fuel k P Q st :
  threads_ok fuel k P Q -> blocking st = true ->
  exists k' Q', thread_block fuel st k = Ok (intr k, k') /\
    threads_ok fuel k' (at_pc (current k) (Blocked (intr k)) P) Q' /\ same_frame k k' Q Q'.
Proof.
  intros H Hst. destruct (t_cur _ _ _ _ H) as (b & Hb & Hrun).
  destruct (block_gen_ok fuel k P Q Q (klists k) (Blocked (intr k)) st b) as (k' & Q' & E & ? & ? & _); try done.
  - apply H.
  - apply H.
  - apply H.
  - right; right. rewrite at_pc_eq. split_and!; [apply H|done|by eexists].
  - exists k', Q'. split_and!; [|done..]. destruct k. exact E.
Qed.

(** What [thread_unblock] gives for a thread on no queue. *)
Lemma woken_ok fuel k P Q rq h1 t b :
  queues h1 (alive k) (<[thread_ready_list := t :: rq]> Q) ->
  shape (locks k) Q -> rl Q rq -> tasks k !! t = Some b -> t <> current k ->
  (forall u bu, tasks k !! u = Some bu -> u <> current k -> u <> t -> place (locks k) P Q u bu) ->
  (exists bc, tasks k !! current k = Some bc /\ status bc = THREAD_TASK_RUNNING) ->
  off_queues Q (current k) ->
  alive k (idle_thread k) /\ idle_pc (P (idle_thread k)) = true ->
  (forall t b, tasks k !! t = Some b -> t <> 0 /\ stack_magic b = STACK_MAGIC) ->
  (size (tasks k) <= fuel)%nat -> (intr k = true -> interruptible (P (current k)) = true) ->
  let k' := set_tasks (<[t := set_status THREAD_TASK_READY b]> (tasks k)) (set_klists h1 k) in
  threads_ok fuel k' P (<[thread_ready_list := t :: rq]> Q) /\
  same_frame k k' Q (<[thread_ready_list := t :: rq]> Q).
Proof.
  intros Hq Hsh Hrl Hb Hne Hp (bc & Hbc & Hrun) Hoff Hidle Hlive Hsz Hint k'.
  assert (forall u, alive k' u <-> alive k u) as Ha by (intros u; apply (alive_insert k); by eexists).
  split; split; try done.
  - eapply queues_ext; [|exact Hq]. intros u. by rewrite Ha.
  - by eapply shape_insert.
  - simpl. intros u bu. rewrite lookup_insert. case_decide as Hu.
    + intros [= <-] _. left. exists (t :: rq). unfold rl. rewrite lookup_insert_eq, Hu. split_and!; [done|by left|done].
    + intros Hbu Huc. eapply place_frame; [by apply Hp|done| |done|done].
      rewrite list.elem_of_cons. naive_solver.
  - exists bc. simpl. by rewrite lookup_insert_ne.
  - intros a xs. rewrite lookup_insert. case_decide; [intros [= <-]|apply Hoff].
    rewrite list.elem_of_cons. intros [E|?]; [by destruct (Hne (eq_sym E))|by apply (Hoff _ _ Hrl)].
  - rewrite Ha. done.
  - simpl. eapply live_insert; [exact Hlive|done|done].
  - simpl. rewrite size_insert_in; [done|by eexists].
  - intros l Hl. rewrite lookup_insert_ne; [done|]. apply not_eq_sym. by apply (sh_ne _ _ Hsh).
Qed.

Lemma unblock_ok fuel k P Q t b old :
  threads_ok fuel k P Q -> t <> current k -> tasks k !! t = Some b -> blocking (status b) = true ->
  P t = Blocked old ->
  exists k' Q', thread_unblock fuel t k = Ok (tt, k') /\ threads_ok fuel k' P Q' /\ same_frame k k' Q Q' /\
    current k' = current k.
Proof.
  intros H Hne Hb Hst HP. destruct (blocking_cases _ Hst) as [_ Hr].
  assert (off_queues Q t) as Hoff.
  { destruct (t_place _ _ _ _ H t b Hb Hne) as [(? & _ & _ & ?)|[(? & ? & ? & _ & _ & _ & E & _)|(? & _)]];
      [done|congruence|done]. }
  destruct (sh_ready _ _ (t_shape _ _ _ _ H)) as [rq Hrq].
  destruct (thread_unblock_ok fuel k (alive k) Q rq t b) as (h1 & E & Hq);
    [by apply H|done|done|done|by eapply queue_fuel|].
  destruct (woken_ok fuel k P Q rq h1 t b Hq) as [H1 F1]; try done; try (by apply H).
  { intros u bu Hu ? _. by eapply (t_place _ _ _ _ H). }
  eexists _, _. split_and!; [exact E|exact H1|exact F1|done].
Qed.
End waking.

(** * What the semaphore calls do to the threads *)

Section semaphores.
Context {G : Globals}.
Implicit Types (Q : queue_map) (P : Z -> pc) (k : kern) (l : Z).

(** What a step on the lock [l] leaves alone. *)
Record lock_frame l k k' Q Q' : Prop := {
  lf_idle : idle_thread k' = idle_thread k;
  lf_alive : forall t, alive k' t <-> alive k t;
  lf_wait : forall m, m <> l -> is_Some (locks k !! m) -> Q' !! waiting_queue m = Q !! waiting_queue m
}.

Lemma waiting_inj l m : waiting_queue l = waiting_queue m -> l = m.
Proof. unfold waiting_queue. lia. Qed.

(** A round of [semaphore_down] that has to wait. *)
Lemma down_wait_ok fuel k P Q l x old :
  threads_ok fuel k P Q -> intr k = false -> current k <> idle_thread k ->
  locks k !! l = Some x -> value x = 0 ->
  exists k' Q' ws, down_round fuel l k = Ok (false, k') /\
    threads_ok fuel k' (at_pc (current k) (Down l old) P) Q' /\ locks k' = locks k /\
    lock_frame l k k' Q Q' /\ intr k' = false /\
    Q !! waiting_queue l = Some ws /\ Q' !! waiting_queue l = Some (ws ++ [current k]).
Proof.
  intros H Hint Hidle Hx Hv. destruct (t_cur _ _ _ _ H) as (b & Hb & Hrun).
  pose proof (t_queues _ _ _ _ H) as Hq. pose proof (t_off _ _ _ _ H) as Hoff.
  assert (is_Some (locks k !! l)) as Hl by by eexists.
  destruct (sh_wait _ _ (t_shape _ _ _ _ H) l Hl) as [ws Hws].
  assert (alive k (current k)) as Ha by by eexists.
  assert (list_find_element fuel (general_tag (current k)) (waiting_queue l) k = Ok (false, k)) as Ef.
  { eapply (q_find (L:=kern_lists)); [exact Hq|done..|by apply (Hoff _ _ Hws)|by eapply queue_fuel]. }
  destruct (q_push_tail (L:=kern_lists) k (alive k) Q _ ws (current k) Hq Hws Ha Hoff) as (h1 & E1 & Hq1).
  set (Q1 := <[waiting_queue l := ws ++ [current k]]> Q) in *.
  destruct (block_gen_ok fuel k P Q Q1 h1 (Down l old) THREAD_TASK_BLOCKED b) as (k' & Q' & E & H' & F & Hi'); try done.
  - eapply shape_insert; [apply H|done].
  - intros t bt Ht Hne. eapply place_frame; [by eapply (t_place _ _ _ _ H)|done| |done|done].
    rewrite list.elem_of_app, list.elem_of_cons, elem_of_nil. naive_solver.
  - right; left. exists l, (ws ++ [current k]), old. rewrite at_pc_eq. unfold Q1. rewrite lookup_insert_eq.
    split_and!; [done|done| |done|done]. apply list.elem_of_app. right. by left.
  - unfold Q1. rewrite lookup_insert_ne; [done|]. by apply (sh_ne _ _ (t_shape _ _ _ _ H)).
  - destruct F as [F1 F2 F3 F4]. exists k', Q', ws. split_and!; [|done|done| |done|done|].
    + unfold down_round. erewrite lk_bind by done. rewrite Hv, Z.eqb_refl. pass. unfold running_thread. rewrite gets_bind.
      run Ef. rets. run E1. run E. by rets.
    + split; [done|done|]. intros m Hm Hlm. rewrite F4 by done. unfold Q1.
      rewrite lookup_insert_ne; [done|]. by intros ->%waiting_inj.
    + rewrite F4 by done. unfold Q1. by rewrite lookup_insert_eq.
Qed.

Lemma down_take_ok fuel k l x :
  locks k !! l = Some x -> value x = 1 ->
  down_round fuel l k = Ok (true, set_locks (<[l := Lock (holder x) 0 (holder_repeat_nr x)]> (locks k)) k).
Proof.
  intros Hx Hv. unfold down_round. erewrite lk_bind by done. rewrite Hv. cbn [Z.eqb].
  run (upd_lock_ok k l x); [|done]. rewrite Hv.
  erewrite lk_bind by (simpl; by rewrite lookup_insert_eq). by pass.
Qed.

Lemma threads_locks fuel k P Q lks :
  (forall l, is_Some (lks !! l) <-> is_Some (locks k !! l)) ->
  threads_ok fuel k P Q -> threads_ok fuel (set_locks lks k) P Q.
Proof.
  intros E [? ? Hp ? ? ? ? ? ?]. split; try done.
  - by eapply shape_locks.
  - intros t b Hb Ht. eapply place_same; [by apply Hp|done|done].
Qed.

Lemma insert_lock_dom (m : gmap Z lock) l x y n :
  m !! l = Some x -> (is_Some (<[l := y]> m !! n) <-> is_Some (m !! n)).
Proof. intros Hx. rewrite lookup_insert. case_decide; [subst; rewrite Hx; split; by eexists|done]. Qed.

(** [semaphore_up] of a semaphore whose value is 0. *)
Lemma up_ok fuel k P Q l x :
  threads_ok fuel k P Q -> locks k !! l = Some x -> value x = 0 ->
  exists k' Q', semaphore_up fuel l k = Ok (tt, k') /\ threads_ok fuel k' P Q' /\
    locks k' = <[l := Lock (holder x) 1 (holder_repeat_nr x)]> (locks k) /\
    lock_frame l k k' Q Q' /\ intr k' = intr k /\ current k' = current k /\
    (Q' !! waiting_queue l = Some [] \/
     exists w ws old, Q !! waiting_queue l = Some (w :: ws) /\ Q' !! waiting_queue l = Some ws /\
       alive k w /\ P w = Down l old /\ w ∉ ws).
Proof.
  intros H Hx Hv. pose proof (t_queues _ _ _ _ H) as Hq.
  assert (is_Some (locks k !! l)) as Hl by by eexists.
  destruct (sh_wait _ _ (t_shape _ _ _ _ H) l Hl) as [ws Hws].
  set (lks := <[l := Lock (holder x) 1 (holder_repeat_nr x)]> (locks k)).
  assert (forall n, is_Some (lks !! n) <-> is_Some (locks k !! n)) as Hd by (intros n; by eapply insert_lock_dom).
  destruct ws as [|w ws].
  - exists (set_locks lks k), Q. split_and!; try done; [|by apply threads_locks|by left].
    unfold semaphore_up. run (intr_disable_ok k).
    run (q_empty (L:=kern_lists) (set_intr false k) _ Q _ [] Hq Hws). rewrite bool_decide_true by done. cbn [negb]. rets.
    run (upd_lock_ok (set_intr false k) l x); [|done]. rewrite Hv.
    erewrite lk_bind by (simpl; by rewrite lookup_insert_eq). pass.
    erewrite bind_ok by apply intr_set_status_ok. by destruct k.
  - destruct (q_pop (L:=kern_lists) (set_intr false k) (alive k) Q _ ws w Hq Hws) as (h1 & E1 & Hq1 & Hoff & _).
    destruct (q_in _ _ _ Hq _ _ w Hws) as [b Hb]; [by left|].
    pose proof (q_nodup _ _ _ _ _ Hq Hws) as [Hnw _]%list.NoDup_cons.
    set (Q1 := <[waiting_queue l := ws]> Q) in *.
    assert (w <> current k) as Hne.
    { intros ->. apply (t_off _ _ _ _ H _ _ Hws). by left. }
    assert (exists old, P w = Down l old /\ status b = THREAD_TASK_BLOCKED) as (old & HPw & Hst).
    { destruct (t_place _ _ _ _ H w b Hb Hne) as [(rq & Hrl & Hin & _)|[(m & vs & old & Hm & Hvs & Hin & ? & ?)|(Ho & _)]].
      - exfalso. apply (sh_ne _ _ (t_shape _ _ _ _ H) l Hl). eapply (q_one _ _ _ Hq _ _ _ _ w); [done..|by left|done].
      - assert (m = l) as ->; [|by exists old]. apply waiting_inj. by eapply (q_one _ _ _ Hq _ _ _ _ w); [..|done|by left].
      - exfalso. apply (Ho _ _ Hws). by left. }
    destruct (sh_ready _ _ (t_shape _ _ _ _ H)) as [rq Hrq].
    assert (waiting_queue l <> thread_ready_list) as Hwr by by apply (sh_ne _ _ (t_shape _ _ _ _ H)).
    assert (rl Q1 rq) as Hrq1 by (unfold rl, Q1; by rewrite lookup_insert_ne).
    destruct (thread_unblock_ok fuel (set_klists h1 (set_intr false k)) (alive k) Q1 rq w b) as (h2 & E2 & Hq2);
      [done|done|done|split; [done|by rewrite Hst|done]|by eapply queue_fuel|].
    destruct (woken_ok fuel k P Q1 rq h2 w b Hq2) as [H2 F2]; try done; try (by apply H).
    { by eapply shape_insert; [apply H|]. }
    { intros u bu Hu Huc Huw. eapply place_frame; [by eapply (t_place _ _ _ _ H)|done| |done|done].
      rewrite list.elem_of_cons. naive_solver. }
    { intros a xs. unfold Q1. rewrite lookup_insert. case_decide; [intros [= <-] Hin|apply (t_off _ _ _ _ H)].
      apply (t_off _ _ _ _ H _ _ Hws). by right. }
    set (k2 := set_tasks (<[w := set_status THREAD_TASK_READY b]> (tasks k)) (set_klists h2 k)) in *.
    exists (set_locks lks k2), (<[thread_ready_list := w :: rq]> Q1).
    assert ((<[thread_ready_list := w :: rq]> Q1) !! waiting_queue l = Some ws) as Hws2
      by (rewrite lookup_insert_ne by done; apply lookup_insert_eq).
    split_and!; [|by apply threads_locks|done| |done|done|].
    + unfold semaphore_up. run (intr_disable_ok k).
      run (q_empty (L:=kern_lists) (set_intr false k) _ Q _ (w :: ws) Hq Hws). rewrite bool_decide_false by done. cbn [negb]. rets.
      run E1. rewrite of_general_tag_tag. run E2.
      erewrite bind_ok by (apply (upd_lock_ok _ l x); done). cbn beta. rewrite Hv.
      erewrite lk_bind by (simpl; by rewrite lookup_insert_eq). pass.
      erewrite bind_ok by apply intr_set_status_ok. by destruct k.
    + split; [done| |].
      * intros t. apply (alive_insert k). by eexists.
      * intros m Hm Hlm. rewrite lookup_insert_ne; [|apply not_eq_sym; by apply (sh_ne _ _ (t_shape _ _ _ _ H))].
        unfold Q1. rewrite lookup_insert_ne; [done|]. by intros ->%waiting_inj.
    + right. exists w, ws, old. split_and!; try done. by eexists.
Qed.
End semaphores.
