(* ===== verification/Mutex.v ===== *)
(** * Mutex: mutual exclusion, no failed assertion, no lost wake-up

    The invariant of the locks on top of that of the threads, its preservation
    by every step, and the properties of the scheduler and the locks. *)
From S2P Require Import Prelude Lists Kernel Queues Sched Threads ThreadInv.

(** ** Stages of a thread in a lock *)
Fixpoint crit_pc (p : pc) : option (Z * nat) :=
  match p with
  | Tick p => crit_pc p
  | Fetch2 l => Some (l, 0%nat) | Fetch3 l => Some (l, 1%nat)
  | Rel1 l => Some (l, 2%nat) | Rel2 l => Some (l, 3%nat) | Rel3 l => Some (l, 4%nat)
  | _ => None
  end.
Fixpoint waits (p : pc) : option Z :=
  match p with
  | Tick p => waits p
  | Fetch1 l | Down l _ => Some l
  | _ => None
  end.
Definition stage (P : Z -> pc) (I : Z -> Z -> bool) (l t : Z) : option nat :=
  match crit_pc (P t) with
  | Some (m, n) => if m =? l then Some n else if I t l then Some 5%nat else None
  | None => if I t l then Some 5%nat else None
  end.

(** What the fields of a lock are when its owner is at a stage. *)
Definition fields (st : nat) (t : Z) (x : lock) : Prop :=
  match st with
  | 0%nat | 4%nat => holder x = 0 /\ holder_repeat_nr x = 0
  | 1%nat => holder x = t /\ holder_repeat_nr x = 0
  | 2%nat => holder x = t /\ holder_repeat_nr x = 1
  | 3%nat => holder x = 0 /\ holder_repeat_nr x = 1
  | _ => holder x = t /\ 1 <= holder_repeat_nr x < 2 ^ 32
  end.
Definition lock_ok (f : Z -> option nat) (x : lock) : Prop :=
  (value x = 1 /\ holder x = 0 /\ holder_repeat_nr x = 0 /\ forall t, f t = None) \/
  (value x = 0 /\ exists t st, f t = Some st /\ fields st t x /\ forall u, u <> t -> f u = None).

Record locks_ok (lks : gmap Z lock) (A : Z -> Prop) (P : Z -> pc) (I : Z -> Z -> bool) (Q : queue_map) : Prop := {
  l_ok : forall l x, lks !! l = Some x -> lock_ok (stage P I l) x;
  l_in : forall t l, I t l = true ->
    is_Some (lks !! l) /\ (forall n, crit_pc (P t) <> Some (l, n)) /\ waits (P t) <> Some l;
  l_pc : forall t l n, crit_pc (P t) = Some (l, n) -> is_Some (lks !! l);
  l_wait : forall t l, waits (P t) = Some l -> is_Some (lks !! l);
  l_wake : forall l x w ws, lks !! l = Some x -> Q !! waiting_queue l = Some (w :: ws) -> value x = 1 ->
    exists t old, A t /\ P t = Down l old /\ t ∉ w :: ws
}.

Section lock_lemmas.
Implicit Types (P : Z -> pc) (I : Z -> Z -> bool) (Q : queue_map) (lks : gmap Z lock).

Lemma lock_ok_own f x c a : lock_ok f x -> f c = Some a -> value x = 0 /\ fields a c x /\ forall u, u <> c -> f u = None.
Proof.
  intros [(_ & _ & _ & Hn)|(Hv & t & st & Ht & Hf & Hu)] Hc; [by rewrite Hn in Hc|].
  destruct (decide (c = t)) as [->|Hne]; [naive_solver|]. by rewrite Hu in Hc.
Qed.
Lemma lock_ok_free f x : lock_ok f x -> value x <> 0 ->
  value x = 1 /\ holder x = 0 /\ holder_repeat_nr x = 0 /\ forall u, f u = None.
Proof. intros [?|(? & _)] ?; done. Qed.
Lemma lock_ok_mk f x c a :
  value x = 0 -> f c = Some a -> fields a c x -> (forall u, u <> c -> f u = None) -> lock_ok f x.
Proof. intros. right. split; [done|]. by exists c, a. Qed.
Lemma lock_ok_ext f g x : (forall t, g t = f t) -> lock_ok f x -> lock_ok g x.
Proof.
  intros E [(? & ? & ? & Hn)|(Hv & t & st & Ht & Hf & Hu)]; [left; split_and!; try done; intros; by rewrite E|].
  right. split; [done|]. exists t, st. rewrite E. split_and!; [done..|]. intros. rewrite E. auto.
Qed.

Lemma stage_at P I l c n : crit_pc (P c) = Some (l, n) -> stage P I l c = Some n.
Proof. unfold stage. intros ->. by rewrite Z.eqb_refl. Qed.
Lemma stage_in P I l c : I c l = true -> (forall n, crit_pc (P c) <> Some (l, n)) -> stage P I l c = Some 5%nat.
Proof.
  unfold stage. intros -> Hn. destruct (crit_pc (P c)) as [[m n]|]; [|done].
  destruct (Z.eqb_spec m l) as [->|]; [by destruct (Hn n)|done].
Qed.
Lemma stage_none P I l c : I c l = false -> (forall n, crit_pc (P c) <> Some (l, n)) -> stage P I l c = None.
Proof.
  unfold stage. intros -> Hn. destruct (crit_pc (P c)) as [[m n]|]; [|done].
  destruct (Z.eqb_spec m l) as [->|]; [by destruct (Hn n)|done].
Qed.

(** Steps that move nobody in any lock. *)
Lemma locks_same lks A A' P P' I Q Q' :
  locks_ok lks A P I Q ->
  (forall t, crit_pc (P' t) = crit_pc (P t)) -> (forall t, waits (P' t) = waits (P t)) ->
  (forall t l old, P t = Down l old -> P' t = Down l old) ->
  (forall t, A t -> A' t) ->
  (forall l, is_Some (lks !! l) -> Q' !! waiting_queue l = Q !! waiting_queue l) ->
  locks_ok lks A' P' I Q'.
Proof.
  intros [H1 H2 H3 H4 H5] Ec Ew Ed HA HQ. split.
  - intros l x Hx. eapply lock_ok_ext; [|by apply H1]. intros t. unfold stage. by rewrite Ec.
  - intros t l. rewrite Ec, Ew. apply H2.
  - intros t l n. rewrite Ec. apply H3.
  - intros t l. rewrite Ew. apply H4.
  - intros l x w ws Hx. rewrite HQ by by eexists. intros Hw Hv.
    destruct (H5 _ _ _ _ Hx Hw Hv) as (t & old & ? & ? & ?). exists t, old. auto.
Qed.

(** A step of the thread [c] in the lock [l]. *)
Lemma locks_step lks A A' P I Q Q' c l p b x x' :
  locks_ok lks A P I Q -> lks !! l = Some x ->
  (forall m n, crit_pc p = Some (m, n) -> m = l) -> (forall m n, crit_pc (P c) = Some (m, n) -> m = l) ->
  (forall m, waits p = Some m -> m = l) -> (forall m old, P c = Down m old -> m = l) ->
  (b = true -> crit_pc p = None /\ waits p = None) ->
  lock_ok (stage (at_pc c p P) (set_inside c l b I) l) x' ->
  (forall t, A t -> A' t) ->
  (forall m, m <> l -> is_Some (lks !! m) -> Q' !! waiting_queue m = Q !! waiting_queue m) ->
  (forall w ws, Q' !! waiting_queue l = Some (w :: ws) -> value x' = 1 ->
     exists t old, A' t /\ at_pc c p P t = Down l old /\ t ∉ w :: ws) ->
  locks_ok (<[l := x']> lks) A' (at_pc c p P) (set_inside c l b I) Q'.
Proof.
  intros [H1 H2 H3 H4 H5] Hx Hcp HcP Hwp HdP Hb Hok HA HQ Hwake.
  assert (forall m, is_Some (<[l := x']> lks !! m) <-> is_Some (lks !! m)) as Hd by (intros; by eapply insert_lock_dom).
  assert (forall t m, (t, m) <> (c, l) -> set_inside c l b I t m = I t m) as HI.
  { intros t m Hne. unfold set_inside. destruct (Z.eqb_spec t c), (Z.eqb_spec m l); simpl; try done. by subst. }
  split.
  - intros m y. rewrite lookup_insert. case_decide as Hm; [subst; by intros [= <-]|]. intros Hy.
    eapply lock_ok_ext; [|by apply H1]. intros t. unfold stage. rewrite HI by congruence.
    destruct (decide (t = c)) as [->|]; [|by rewrite at_pc_ne]. rewrite at_pc_eq.
    destruct (crit_pc p) as [[m1 n1]|] eqn:E1, (crit_pc (P c)) as [[m2 n2]|] eqn:E2; try done.
    + rewrite (Hcp _ _ eq_refl), (HcP _ _ eq_refl), (proj2 (Z.eqb_neq l m)) by done. done.
    + rewrite (Hcp _ _ eq_refl), (proj2 (Z.eqb_neq l m)) by done. done.
    + rewrite (HcP _ _ eq_refl), (proj2 (Z.eqb_neq l m)) by done. done.
  - intros t m. rewrite Hd. destruct (decide ((t, m) = (c, l))) as [[= -> ->]|Hne].
    + unfold set_inside. rewrite !Z.eqb_refl, at_pc_eq. simpl. intros ->.
      destruct (Hb eq_refl) as [-> ->]. split_and!; [by eexists|done..].
    + rewrite HI by done. intros Hi. destruct (H2 t m Hi) as (? & ? & ?).
      destruct (decide (t = c)) as [->|]; [|by rewrite at_pc_ne]. rewrite at_pc_eq.
      split_and!; [done| |].
      * intros n E. apply Hne. by rewrite (Hcp _ _ E).
      * intros E. apply Hne. by rewrite (Hwp _ E).
  - intros t m n. rewrite Hd. destruct (decide (t = c)) as [->|]; [|rewrite at_pc_ne by done; apply H3].
    rewrite at_pc_eq. intros E. rewrite (Hcp _ _ E). by eexists.
  - intros t m. rewrite Hd. destruct (decide (t = c)) as [->|]; [|rewrite at_pc_ne by done; apply H4].
    rewrite at_pc_eq. intros E. rewrite (Hwp _ E). by eexists.
  - intros m y w ws. rewrite lookup_insert. case_decide as Hm; [subst; intros [= <-]; apply Hwake|].
    intros Hy. rewrite HQ by (try done; by eexists). intros Hw Hv.
    destruct (H5 _ _ _ _ Hy Hw Hv) as (t & old & ? & Ht & ?). exists t, old. split_and!; [auto| |done].
    rewrite at_pc_ne; [done|]. intros ->. by rewrite (HdP _ _ Ht) in Hm.
Qed.
End lock_lemmas.

(** ** The invariant *)
Section invariant.
Context {G : Globals}.
Variable fuel : nat.
Implicit Types (P : Z -> pc) (I : Z -> Z -> bool) (Q : queue_map) (k : kern) (s : sys).

Definition ticks_ok P : Prop := forall t p, P t = Tick p -> interruptible p = true.
Lemma ticks_at_pc P c p :
  ticks_ok P -> (forall q, p = Tick q -> interruptible q = true) -> ticks_ok (at_pc c p P).
Proof.
  intros H Hp t q. destruct (decide (t = c)) as [->|]; [rewrite at_pc_eq; apply Hp|].
  rewrite at_pc_ne by done. apply H.
Qed.

Definition Inv s : Prop :=
  exists Q, threads_ok fuel (kn s) (pcs s) Q /\
    locks_ok (locks (kn s)) (alive (kn s)) (pcs s) (inside s) Q /\ ticks_ok (pcs s).

Lemma stage_other P I l c p b u : u <> c -> stage (at_pc c p P) (set_inside c l b I) l u = stage P I l u.
Proof.
  intros Hne. unfold stage, set_inside. rewrite at_pc_ne by done.
  by rewrite (proj2 (Z.eqb_neq u c)).
Qed.
Lemma set_inside_eq c l b I : set_inside c l b I c l = b.
Proof. unfold set_inside. by rewrite !Z.eqb_refl. Qed.
Lemma set_inside_same c l I t m : set_inside c l (I c l) I t m = I t m.
Proof. unfold set_inside. destruct (Z.eqb_spec t c), (Z.eqb_spec m l); simpl; by subst. Qed.
Lemma stage_ext P I I' l t : (forall t m, I' t m = I t m) -> stage P I' l t = stage P I l t.
Proof. intros E. unfold stage. by rewrite E. Qed.

Lemma locks_ext lks A P I I' Q : (forall t m, I' t m = I t m) -> locks_ok lks A P I Q -> locks_ok lks A P I' Q.
Proof.
  intros E [H1 H2 H3 H4 H5]. split; try done.
  - intros l x Hx. eapply lock_ok_ext; [|by apply H1]. intros t. by apply stage_ext.
  - intros t l. rewrite E. apply H2.
Qed.

Lemma not_idle k P Q : threads_ok fuel k P Q -> idle_pc (P (current k)) = false -> current k <> idle_thread k.
Proof. intros H E Ei. pose proof (t_idle _ _ _ _ H) as [_ Hi]. rewrite <-Ei in Hi. congruence. Qed.

Lemma own_outside lks A P I Q c l n : locks_ok lks A P I Q -> crit_pc (P c) = Some (l, n) -> I c l = false.
Proof. intros H E. destruct (I c l) eqn:Ei; [|done]. destruct (l_in _ _ _ _ _ H _ _ Ei) as (_ & Hn & _). by destruct (Hn n). Qed.
Lemma wait_outside lks A P I Q c l : locks_ok lks A P I Q -> waits (P c) = Some l -> I c l = false.
Proof. intros H E. destruct (I c l) eqn:Ei; [|done]. by destruct (l_in _ _ _ _ _ H _ _ Ei) as (_ & _ & ?). Qed.

(** A step of the running thread that writes one lock and keeps the value of
    its semaphore. *)
Lemma lock_move k P I Q l p b I' x x' a :
  threads_ok fuel k P Q -> locks_ok (locks k) (alive k) P I Q -> ticks_ok P -> locks k !! l = Some x ->
  stage P I l (current k) = Some a -> value x' = value x ->
  (forall m n, crit_pc p = Some (m, n) -> m = l) ->
  (forall m n, crit_pc (P (current k)) = Some (m, n) -> m = l) ->
  waits p = None -> (forall m old, P (current k) <> Down m old) ->
  (b = true -> crit_pc p = None) -> interruptible p = true -> current k <> idle_thread k \/ idle_pc p = true ->
  (forall t m, I' t m = set_inside (current k) l b I t m) ->
  (exists a', stage (at_pc (current k) p P) (set_inside (current k) l b I) l (current k) = Some a' /\
     (fields a (current k) x -> fields a' (current k) x')) ->
  Inv (Sys (set_locks (<[l := x']> (locks k)) k) (at_pc (current k) p P) I').
Proof.
  intros Ht Hl Htk Hx Ha Hv Hcp HcP Hwp HdP Hb Hint Hidle HI (a' & Ha' & Hf).
  destruct (lock_ok_own _ _ _ _ (l_ok _ _ _ _ _ Hl _ _ Hx) Ha) as (Hv0 & Hfa & Hu).
  exists Q. split_and!; [| |apply ticks_at_pc; [done|by intros q ->]].
  - eapply threads_pc; try done.
    + simpl. intros m. by eapply insert_lock_dom.
    + simpl. intros. destruct Hidle; done.
  - simpl. eapply locks_ext; [exact HI|]. eapply locks_step; try done.
    + intros m. by rewrite Hwp.
    + intros m old E. by destruct (HdP m old).
    + intros E. split; [by apply Hb|done].
    + eapply lock_ok_mk; [by rewrite Hv|done|by apply Hf|]. intros u Hne. rewrite stage_other by done. by apply Hu.
    + intros w ws _. rewrite Hv, Hv0. done.
Qed.

Lemma go_down_ok k P I Q l old :
  threads_ok fuel k P Q -> locks_ok (locks k) (alive k) P I Q -> ticks_ok P -> intr k = false ->
  waits (P (current k)) = Some l -> (forall m n, crit_pc (P (current k)) <> Some (m, n)) ->
  (forall m old, P (current k) = Down m old -> m = l) -> idle_pc (P (current k)) = false ->
  exists s', go_down fuel l old (Sys k P I) = Ok s' /\ Inv s'.
Proof.
  intros Ht Hl Htk Hint Hw Hcp Hd Hi. pose proof (not_idle _ _ _ Ht Hi) as Hidle.
  destruct (l_wait _ _ _ _ _ Hl _ _ Hw) as [x Hx].
  pose proof (wait_outside _ _ _ _ _ _ _ Hl Hw) as Hout.
  pose proof (l_ok _ _ _ _ _ Hl _ _ Hx) as Hok.
  assert (stage P I l (current k) = None) as Hst by (apply stage_none; [done|apply Hcp]).
  destruct (decide (value x = 0)) as [Hv|Hv].
  - destruct (down_wait_ok fuel k P Q l x old Ht Hint Hidle Hx Hv) as (k' & Q' & ws & E & Ht' & El & [Fi Fa Fw] & _ & Hws & Hws').
    eexists. split; [unfold go_down; simpl; rewrite E; simpl; reflexivity|]. exists Q'. split_and!; [done| |by apply ticks_at_pc]. simpl.
    rewrite El, <-(insert_id (locks k) l x) by done.
    eapply locks_ext; [intros t m; symmetry; apply (set_inside_same (current k) l)|].
    rewrite Hout. eapply locks_step; try done.
    + intros m n ?. by destruct (Hcp m n).
    + simpl. by intros m [= ->].
    + eapply lock_ok_ext; [|done]. intros u. destruct (decide (u = current k)) as [->|]; [|by apply stage_other].
      rewrite Hst. apply stage_none; [apply set_inside_eq|]. by rewrite at_pc_eq.
    + intros t. apply Fa.
    + intros w vs _ ?. lia.
  - destruct (lock_ok_free _ _ Hok Hv) as (Hv1 & Hh & Hr & Hn).
    eexists. split; [unfold go_down; simpl; erewrite down_take_ok by done; simpl; reflexivity|]. exists Q. split_and!; [| |by apply ticks_at_pc].
    + eapply (threads_pc _ k); try done. simpl. intros m. by eapply insert_lock_dom.
    + simpl. eapply locks_ext; [intros t m; symmetry; apply (set_inside_same (current k) l)|].
      rewrite Hout. eapply locks_step; try done.
      * simpl. by intros m n [= -> _].
      * intros m n ?. by destruct (Hcp m n).
      * apply (lock_ok_mk _ _ (current k) 0%nat); [done|by apply stage_at; rewrite at_pc_eq|done|].
        intros u Hne. by rewrite stage_other.
Qed.

Lemma same_place k k' P P' I Q Q' :
  threads_ok fuel k' P' Q' -> locks_ok (locks k) (alive k) P I Q -> ticks_ok P' -> same_frame k k' Q Q' ->
  (forall t, crit_pc (P' t) = crit_pc (P t)) -> (forall t, waits (P' t) = waits (P t)) ->
  (forall t l old, P t = Down l old -> P' t = Down l old) ->
  Inv (Sys k' P' I).
Proof.
  intros Ht Hl Htk [F1 F2 F3 F4] ???. exists Q'. split_and!; [done| |done]. simpl. rewrite F1.
  eapply locks_same; try done. intros t. apply F3.
Qed.

(** Moving only the current thread, between two positions outside the locks. *)
Lemma same_place_pc k k' P p I Q Q' :
  threads_ok fuel k' (at_pc (current k) p P) Q' -> locks_ok (locks k) (alive k) P I Q -> ticks_ok (at_pc (current k) p P) -> same_frame k k' Q Q' ->
  crit_pc p = crit_pc (P (current k)) -> waits p = waits (P (current k)) ->
  (forall l old, P (current k) <> Down l old) ->
  Inv (Sys k' (at_pc (current k) p P) I).
Proof.
  intros Ht Hl Htk F Ec Ew Hd. eapply same_place; [done..| | |]; intros t; [| |intros l old];
    (destruct (decide (t = current k)) as [->|]; [rewrite at_pc_eq|by rewrite at_pc_ne]); [done..|].
  intros E. by destruct (Hd l old).
Qed.

Lemma go_ok s : Inv s -> pcs s (current (kn s)) <> Run -> exists s', go fuel s = Ok s' /\ Inv s'.
Proof.
  destruct s as [k P I]. intros (Q & Ht & Hl & Htk) Hne. simpl in *.
  pose proof (t_intr _ _ _ _ Ht) as Hint.
  destruct (P (current k)) as [|p|old|l|l old|l|l|l|l|l] eqn:EP; [done|unfold go; simpl; rewrite EP..].
  - (* back from the clock interrupt *)
    eexists. split; [reflexivity|].
    assert (interruptible p = true) as Hp by by apply (Htk (current k)).
    eapply same_place_pc; [|done| |by apply same_frame_refl| | |].
    + eapply threads_pc; try done. intros Ei. pose proof (t_idle _ _ _ _ Ht) as [_ Hi].
      rewrite <-Ei, EP in Hi. done.
    + apply ticks_at_pc; [done|by intros q ->].
    + by rewrite EP.
    + by rewrite EP.
    + by rewrite EP.
  - (* the end of [thread_block] *)
    rewrite intr_set_status_ok. eexists. split; [reflexivity|].
    eapply same_place_pc; [|done|by apply ticks_at_pc|by apply same_frame_refl| | |]; [|by rewrite EP..].
    by eapply threads_pc.
  - (* into [semaphore_down] *)
    rewrite intr_disable_ok.
    apply (go_down_ok (set_intr false k) P I Q); simpl; rewrite ?EP; try done.
    by apply threads_flag.
  - (* round the loop of [semaphore_down] *)
    apply (go_down_ok k P I Q); simpl; rewrite ?EP; try done; [|naive_solver].
    destruct (intr k); [|done]. by specialize (Hint eq_refl).
  - (* the holder is set *)
    destruct (l_pc _ _ _ _ _ Hl _ _ _ ltac:(by rewrite EP)) as [x Hx].
    rewrite (upd_lock_ok k l x) by done. eexists. split; [reflexivity|].
    eapply (lock_move k P I Q l (Fetch3 l) (I (current k) l) I x _ 0%nat); try done; rewrite ?EP; try done.
    all: try (intros ?? [= -> _]; done).
    + by apply stage_at; rewrite EP.
    + intros E. by rewrite (own_outside _ _ _ _ _ _ _ _ Hl ltac:(by rewrite EP)) in E.
    + left. eapply not_idle; [done|by rewrite EP].
    + intros t m. symmetry. apply set_inside_same.
    + exists 1%nat. split; [by apply stage_at; rewrite at_pc_eq|]. by intros [_ ?].
  - (* the counter is set *)
    destruct (l_pc _ _ _ _ _ Hl _ _ _ ltac:(by rewrite EP)) as [x Hx].
    assert (stage P I l (current k) = Some 1%nat) as Hst by (by apply stage_at; rewrite EP).
    destruct (lock_ok_own _ _ _ _ (l_ok _ _ _ _ _ Hl _ _ Hx) Hst) as (_ & [Hh Hr] & _).
    erewrite lk_bind by done. rewrite Hr, assert_bind by done.
    rewrite (upd_lock_ok k l x) by done. eexists. split; [reflexivity|].
    eapply (lock_move k P I Q l Run true _ x _ 1%nat); try done; rewrite ?EP; try done.
    all: try (intros ?? [= -> _]; done).
    + by right.
    + exists 5%nat. split; [apply stage_in; [apply set_inside_eq|by rewrite at_pc_eq]|]. intros _. simpl. lia.
  - (* the holder is cleared *)
    destruct (l_pc _ _ _ _ _ Hl _ _ _ ltac:(by rewrite EP)) as [x Hx].
    rewrite (upd_lock_ok k l x) by done. eexists. split; [reflexivity|].
    eapply (lock_move k P I Q l (Rel2 l) (I (current k) l) I x _ 2%nat); try done; rewrite ?EP; try done.
    all: try (intros ?? [= -> _]; done).
    + by apply stage_at; rewrite EP.
    + intros E. by rewrite (own_outside _ _ _ _ _ _ _ _ Hl ltac:(by rewrite EP)) in E.
    + left. eapply not_idle; [done|by rewrite EP].
    + intros t m. symmetry. apply set_inside_same.
    + exists 3%nat. split; [by apply stage_at; rewrite at_pc_eq|]. by intros [_ ?].
  - (* the counter is cleared *)
    destruct (l_pc _ _ _ _ _ Hl _ _ _ ltac:(by rewrite EP)) as [x Hx].
    rewrite (upd_lock_ok k l x) by done. eexists. split; [reflexivity|].
    eapply (lock_move k P I Q l (Rel3 l) (I (current k) l) I x _ 3%nat); try done; rewrite ?EP; try done.
    all: try (intros ?? [= -> _]; done).
    + by apply stage_at; rewrite EP.
    + intros E. by rewrite (own_outside _ _ _ _ _ _ _ _ Hl ltac:(by rewrite EP)) in E.
    + left. eapply not_idle; [done|by rewrite EP].
    + intros t m. symmetry. apply set_inside_same.
    + exists 4%nat. split; [by apply stage_at; rewrite at_pc_eq|]. by intros [? _].
  - (* [semaphore_up] *)
    destruct (l_pc _ _ _ _ _ Hl _ _ _ ltac:(by rewrite EP)) as [x Hx].
    assert (stage P I l (current k) = Some 4%nat) as Hst by (by apply stage_at; rewrite EP).
    destruct (lock_ok_own _ _ _ _ (l_ok _ _ _ _ _ Hl _ _ Hx) Hst) as (Hv & [Hh Hr] & Hu).
    assert (I (current k) l = false) as Hout by (eapply own_outside; [done|by rewrite EP]).
    destruct (up_ok fuel k P Q l x Ht Hx Hv) as (k' & Q' & E & Ht' & El & [Fi Fa Fw] & Ei & Ec & Hw).
    rewrite E. eexists. split; [reflexivity|]. exists Q'. split_and!; [| |by apply ticks_at_pc].
    + simpl. rewrite <-Ec. by eapply threads_pc.
    + simpl. rewrite El. eapply locks_ext; [intros t m; symmetry; apply (set_inside_same (current k) l)|].
      rewrite Hout. eapply locks_step; try done.
      * by rewrite EP; intros m n [= -> _].
      * by rewrite EP.
      * left. split_and!; [done..|]. intros u. destruct (decide (u = current k)) as [->|]; [|rewrite stage_other by done; auto].
        apply stage_none; [apply set_inside_eq|by rewrite at_pc_eq].
      * intros t. apply Fa.
      * intros w ws Hws _. destruct Hw as [Hw|(v & vs & old & _ & Hw & Hal & Hv' & Hnin)]; simplify_eq.
        exists v, old. split_and!; [by apply Fa| |congruence].
        rewrite at_pc_ne; [done|]. intros ->. by rewrite EP in Hv'.
Qed.

Lemma exec_ok a s : Inv s -> allowed a s -> exists s', exec fuel a s = Ok s' /\ Inv s'.
Proof.
  destruct a as [| |l|l|st|t|on]; [|by apply go_ok|..]; destruct s as [k P I];
    intros (Q & Ht & Hl & Htk) Hal; simpl in *; unfold exec; simpl.
  - (* the clock *)
    destruct (clock_ok fuel k P Q Ht Hal) as (r & k1 & E & Hr). rewrite E. destruct r; simpl; eexists; split; try reflexivity.
    + destruct Hr as (Q' & H1 & F).
      eapply (same_place k); [done|done| |done|..].
      * apply ticks_at_pc; [done|]. intros q [= <-]. by apply (t_intr _ _ _ _ Ht).
      * intros t. destruct (decide (t = current k)) as [->|]; [by rewrite at_pc_eq|by rewrite at_pc_ne].
      * intros t. destruct (decide (t = current k)) as [->|]; [by rewrite at_pc_eq|by rewrite at_pc_ne].
      * intros t l old E'. rewrite at_pc_ne; [done|]. intros ->.
        pose proof (t_intr _ _ _ _ Ht Hal) as Hi. by rewrite E' in Hi.
    + destruct Hr as [H1 F]. by eapply (same_place k).
  - (* [lock_fetch] *)
    destruct Hal as (HP & Hidle & x & Hx & Hrep). erewrite lk_bind by done. unfold running_thread. rewrite gets_bind.
    pose proof (l_ok _ _ _ _ _ Hl _ _ Hx) as Hok. destruct (t_cur _ _ _ _ Ht) as (b & Hb & _).
    destruct (t_live _ _ _ _ Ht _ _ Hb) as [Hc0 _].
    destruct (Z.eqb_spec (holder x) (current k)) as [Hh|Hh]; simpl.
    + assert (stage P I l (current k) = Some 5%nat) as Hst.
      { destruct Hok as [(_ & H0 & _)|(_ & t & st & Hts & Hf & _)]; [congruence|].
        assert (t = current k) as ->.
        { destruct st as [|[|[|[|[|?]]]]]; simpl in Hf; destruct Hf as [Hf _]; congruence. }
        rewrite Hts. unfold stage in Hts. rewrite HP in Hts. simpl in Hts. by destruct (I (current k) l). }
      assert (I (current k) l = true) as Hin.
      { unfold stage in Hst. rewrite HP in Hst. simpl in Hst. by destruct (I (current k) l). }
      run (upd_lock_ok k l x); [|done]. eexists. split; [reflexivity|].
      destruct (lock_move k P I Q l Run true (set_inside (current k) l true I) x (Lock (holder x) (value x) (u32 (holder_repeat_nr x + 1))) 5%nat)
        as (Q' & H1 & H2 & H3); try done; rewrite ?HP; try done.
      * by right.
      * exists 5%nat. split; [apply stage_in; [apply set_inside_eq|by rewrite at_pc_eq]|].
        simpl. intros [? ?]. rewrite u32_small; specialize (Hrep Hh); lia.
      * exists Q'. simpl in *. assert (forall t, P t = at_pc (current k) Run P t) as EP.
        { intros t. destruct (decide (t = current k)) as [->|]; [by rewrite at_pc_eq|by rewrite at_pc_ne]. }
        split_and!; [by eapply threads_ext| |done].
        eapply locks_same; [exact H2|..]; intros; by rewrite ?EP.
    + eexists. split; [reflexivity|]. exists Q. split_and!; [| |by apply ticks_at_pc].
      * by eapply threads_pc.
      * assert (I (current k) l = false) as Hout.
        { destruct (I (current k) l) eqn:Ei; [|done].
          assert (stage P I l (current k) = Some 5%nat) as Hst by (apply stage_in; [done|by rewrite HP]).
          destruct (lock_ok_own _ _ _ _ Hok Hst) as (_ & [? _] & _). done. }
        simpl. rewrite <-(insert_id (locks k) l x) by done.
        eapply locks_ext; [intros t m; symmetry; apply (set_inside_same (current k) l)|].
        rewrite Hout. eapply locks_step; try done; rewrite ?HP; try done.
        -- by intros m [= ->].
        -- eapply lock_ok_ext; [|done]. intros u. destruct (decide (u = current k)) as [->|]; [|by apply stage_other].
           rewrite !stage_none; [done..| |apply set_inside_eq|]; by rewrite ?at_pc_eq, ?HP.
        -- intros w ws Hw Hv. destruct (l_wake _ _ _ _ _ Hl _ _ _ _ Hx Hw Hv) as (t & old & ? & Et & ?).
           exists t, old. split_and!; [done| |done]. rewrite at_pc_ne; [done|]. intros ->. by rewrite HP in Et.
  - (* [lock_release] *)
    destruct Hal as (HP & Hidle & Hin). destruct (l_in _ _ _ _ _ Hl _ _ Hin) as ([x Hx] & _ & _).
    assert (stage P I l (current k) = Some 5%nat) as Hst by (apply stage_in; [done|by rewrite HP]).
    destruct (lock_ok_own _ _ _ _ (l_ok _ _ _ _ _ Hl _ _ Hx) Hst) as (_ & [Hh Hr] & _).
    erewrite lk_bind by done. rewrite Z.gtb_ltb. destruct (Z.ltb_spec 1 (holder_repeat_nr x)) as [Hlt|Hge].
    + run (upd_lock_ok k l x); [|done]. eexists. split; [reflexivity|].
      destruct (lock_move k P I Q l Run true I x (Lock (holder x) (value x) (holder_repeat_nr x - 1)) 5%nat)
        as (Q' & H1 & H2 & H3); try done; rewrite ?HP; try done.
      * by right.
      * intros t m. unfold set_inside. destruct (Z.eqb_spec t (current k)), (Z.eqb_spec m l); simpl; subst; done.
      * exists 5%nat. split; [apply stage_in; [apply set_inside_eq|by rewrite at_pc_eq]|]. simpl. lia.
      * exists Q'. simpl in *. assert (forall t, P t = at_pc (current k) Run P t) as EP.
        { intros t. destruct (decide (t = current k)) as [->|]; [by rewrite at_pc_eq|by rewrite at_pc_ne]. }
        split_and!; [by eapply threads_ext| |done].
        eapply locks_same; [exact H2|..]; intros; by rewrite ?EP.
    + assert (holder_repeat_nr x = 1) as Hr1 by lia. rewrite assert_bind by lia. eexists. split; [reflexivity|].
      assert (k = set_locks (<[l := x]> (locks k)) k) as Ek by (rewrite insert_id by done; by destruct k).
      rewrite Ek at 1.
      eapply (lock_move k P I Q l (Rel1 l) false _ x x 5%nat); try done; rewrite ?HP; try done.
      all: try (intros ?? [= -> _]; done).
      * by left.
      * exists 2%nat. split; [by apply stage_at; rewrite at_pc_eq|]. done.
  - (* [thread_block] *)
    destruct Hal as (HP & Hst). destruct (block_ok fuel k P Q st Ht Hst) as (k' & Q' & E & H1 & F).
    rewrite E. eexists. split; [reflexivity|].
    eapply same_place_pc; [done|done|by apply ticks_at_pc|done|by rewrite HP..].
  - (* [thread_unblock] *)
    destruct Hal as (HP & Hne & Hi & b & old & Hb & Hst & HPt).
    destruct (unblock_ok fuel k P Q t b old Ht Hne Hb Hst HPt) as (k' & Q' & E & H1 & F & _).
    rewrite E. eexists. split; [reflexivity|]. by eapply (same_place k).
  - (* the interrupt flag *)
    rewrite intr_set_status_ok. eexists. split; [reflexivity|].
    eapply (same_place k); [|done|done|by apply same_frame_refl|done..].
    apply threads_flag; [done|]. intros _. by rewrite Hal.
Qed.

Lemma steps_ok s s' : Inv s -> steps fuel s s' -> Inv s'.
Proof.
  intros Hs. induction 1 as [|s s1 s2 a _ IH Hal E]; [done|].
  destruct (exec_ok a s1 (IH Hs) Hal) as (s3 & E' & H3). by rewrite E in E'; simplify_eq.
Qed.

Lemma inv_exclusive s t u l : Inv s -> inside s t l = true -> inside s u l = true -> t = u.
Proof.
  intros (Q & _ & Hl & _) Ht Hu. destruct (l_in _ _ _ _ _ Hl _ _ Ht) as ([x Hx] & Hct & _).
  destruct (l_in _ _ _ _ _ Hl _ _ Hu) as (_ & Hcu & _).
  pose proof (stage_in _ _ _ _ Ht Hct) as St. pose proof (stage_in _ _ _ _ Hu Hcu) as Su.
  destruct (lock_ok_own _ _ _ _ (l_ok _ _ _ _ _ Hl _ _ Hx) St) as (_ & _ & Hn).
  destruct (decide (u = t)); [done|]. by rewrite Hn in Su.
Qed.

Lemma inv_wakeup s t l old b x :
  Inv s -> pcs s t = Down l old -> tasks (kn s) !! t = Some b -> status b = THREAD_TASK_BLOCKED ->
  locks (kn s) !! l = Some x -> value x <> 0 ->
  exists u old' bu, u <> t /\ pcs s u = Down l old' /\ tasks (kn s) !! u = Some bu /\
    (status bu = THREAD_TASK_READY \/ u = current (kn s)).
Proof.
  intros (Q & Hk & Hl & _) HP Hb Hst Hx Hv.
  destruct (lock_ok_free _ _ (l_ok _ _ _ _ _ Hl _ _ Hx) Hv) as (Hv1 & _).
  assert (t <> current (kn s)) as Hne.
  { intros ->. destruct (t_cur _ _ _ _ Hk) as (b' & Hb' & Hr). simplify_eq. by rewrite Hst in Hr. }
  destruct (t_place _ _ _ _ Hk t b Hb Hne) as [(rq & _ & _ & E)|[(m & ws & old' & Hm & Hws & Hin & E & _)|(_ & _ & old' & E)]];
    [by rewrite Hst in E| |congruence].
  assert (m = l) as -> by congruence.
  destruct ws as [|w ws]; [by apply not_elem_of_nil in Hin|].
  destruct (l_wake _ _ _ _ _ Hl _ _ _ _ Hx Hws Hv1) as (u & old2 & [bu Hbu] & HPu & Hnin).
  exists u, old2, bu. split_and!; [by intros ->|done|done|].
  destruct (decide (u = current (kn s))) as [|Hnu]; [by right|left].
  destruct (t_place _ _ _ _ Hk u bu Hbu Hnu) as [(rq & _ & _ & E')|[(m & vs & old3 & _ & Hvs & Hin' & E' & _)|(_ & _ & old3 & E')]];
    [done| |congruence].
  assert (m = l) as -> by congruence. simplify_eq.
Qed.
End invariant.

(** ** The state the kernel starts its threads in *)
Section boot.
Context {G : Globals}.

(** Every thread but the running one is on the ready list, no lock is taken,
    nobody waits, and the control blocks, locks and list heads do not
    overlap. *)
Record boot (fuel : nat) (s : sys) (rq : list Z) : Prop := {
  b_ready : dll (klists (kn s)) thread_ready_list (general_tag <$> rq);
  b_locks : forall l x, locks (kn s) !! l = Some x ->
    x = Lock 0 1 0 /\ dll (klists (kn s)) (waiting_queue l) [] /\ waiting_queue l <> thread_ready_list;
  b_threads : forall t b, tasks (kn s) !! t = Some b ->
    t <> 0 /\ stack_magic b = STACK_MAGIC /\ mapped (klists (kn s)) (general_tag t) /\
    general_tag t <> thread_ready_list /\ (forall l, is_Some (locks (kn s) !! l) -> general_tag t <> waiting_queue l) /\
    (if decide (t = current (kn s)) then status b = THREAD_TASK_RUNNING /\ t ∉ rq
     else status b = THREAD_TASK_READY /\ t ∈ rq);
  b_rq : forall t, t ∈ rq -> alive (kn s) t;
  b_alive : alive (kn s) (current (kn s)) /\ alive (kn s) (idle_thread (kn s));
  b_fuel : (size (tasks (kn s)) <= fuel)%nat;
  b_pcs : forall t, pcs s t = Run;
  b_inside : forall t l, inside s t l = false
}.

#[local] Instance waiting_queue_inj : Inj (=) (=) waiting_queue.
Proof. intros ??. apply waiting_inj. Qed.

Definition boot_queues (lks : gmap Z lock) (rq : list Z) : queue_map :=
  <[thread_ready_list := rq]> (kmap waiting_queue ((fun _ => []) <$> lks)).

Lemma boot_lookup lks rq a xs :
  boot_queues lks rq !! a = Some xs ->
  (a = thread_ready_list /\ xs = rq) \/ (exists l, is_Some (lks !! l) /\ a = waiting_queue l /\ xs = []).
Proof.
  unfold boot_queues. rewrite lookup_insert. case_decide; [intros [= <-]; by left|].
  intros (l & -> & Hl)%lookup_kmap_Some; [|apply _]. right. exists l.
  rewrite lookup_fmap in Hl. destruct (lks !! l); simplify_eq/=. eauto.
Qed.

Lemma boot_inv fuel s rq : boot fuel s rq -> Inv fuel s.
Proof.
  intros [Hr Hlk Ht Hrq [Hc Hid] Hf Hp Hi]. set (k := kn s) in *. set (Q := boot_queues (locks k) rq).
  assert (forall l, is_Some (locks k !! l) -> waiting_queue l <> thread_ready_list) as Hne.
  { intros l [x Hx]. by destruct (Hlk l x Hx) as (_ & _ & ?). }
  assert (rl Q rq) as Hrl by apply lookup_insert_eq.
  assert (forall l, is_Some (locks k !! l) -> Q !! waiting_queue l = Some []) as Hw.
  { intros l [x Hx]. unfold Q, boot_queues. rewrite lookup_insert_ne by (apply not_eq_sym, Hne; by eexists).
    rewrite (lookup_kmap waiting_queue), lookup_fmap, Hx. done. }
  assert (queues (klists k) (alive k) Q) as HQ.
  { split.
    - intros a xs [[-> ->]|(l & [x Hx] & -> & ->)]%boot_lookup; [done|by apply (Hlk l x)].
    - intros a xs t [[-> ->]|(l & _ & -> & ->)]%boot_lookup; [apply Hrq|by intros ?%not_elem_of_nil].
    - intros a b xs ys t [[-> ->]|(l & _ & -> & ->)]%boot_lookup [[-> ->]|(m & _ & -> & ->)]%boot_lookup;
        try done; by intros ? ?%not_elem_of_nil || (intros ?%not_elem_of_nil; done).
    - intros t [b Hb]. by apply (Ht t b).
    - intros a xs t [[-> ->]|(l & Hl & -> & ->)]%boot_lookup [b Hb]; [by apply (Ht t b)|].
      destruct (Ht t b Hb) as (_ & _ & _ & _ & H & _). by apply H. }
  assert (off_queues Q (current k)) as Hoff.
  { intros a xs [[-> ->]|(l & _ & -> & ->)]%boot_lookup; [|apply not_elem_of_nil].
    destruct Hc as [b Hb]. destruct (Ht _ _ Hb) as (_ & _ & _ & _ & _ & H). rewrite decide_True in H by done. apply H. }
  exists Q. split_and!.
  - split; try done.
    + split; [by eexists|intros l Hl; rewrite Hw by done; by eexists| |done].
      intros a [xs [[-> ->]|(l & Hl & -> & ->)]%boot_lookup]; [by left|right; by exists l].
    + intros t b Hb Htc. destruct (Ht t b Hb) as (_ & _ & _ & _ & _ & H). rewrite decide_False in H by done.
      left. exists rq. naive_solver.
    + destruct Hc as [b Hb]. destruct (Ht _ _ Hb) as (_ & _ & _ & _ & _ & H). rewrite decide_True in H by done.
      exists b. naive_solver.
    + by rewrite Hp.
    + intros t b Hb. destruct (Ht t b Hb) as (? & ? & _). done.
    + by rewrite Hp.
  - split.
    + intros l x Hx. destruct (Hlk l x Hx) as (-> & _). left. split_and!; [done..|]. intros t. unfold stage. by rewrite Hp, Hi.
    + intros t l. by rewrite Hi.
    + intros t l n. by rewrite Hp.
    + intros t l. by rewrite Hp.
    + intros l x w ws Hx Hws. rewrite Hw in Hws by by eexists. done.
  - intros t p. by rewrite Hp.
Qed.
End boot.
