(* ===== verification/Locks.v ===== *)
(** * Locks: [lock_fetch] and [lock_release] run in one go

    Threads.v cuts the lock calls of core/thread/semaphore.c wherever another
    thread can get the processor.  Code that holds a lock for a while (the
    allocator, the circular queues) is easier to read with the calls in one
    piece: [lock_fetch] answers [true] when the lock was taken and [false] when
    the thread was put on the waiting queue and switched away, from where it
    goes on in the loop of [semaphore_down].  The lemmas say what the calls do
    to a lock that nobody waits for. *)
From S2P Require Import Prelude Lists ListProofs Kernel.

Section calls.
Context {G : Globals}.
Variable fuel : nat.

(** [semaphore_down] up to the point where it either returns or has
    switched to another thread. *)
Definition semaphore_down (l : Z) : M kern bool :=
  old_status <- intr_disable ;;
  taken <- down_round fuel l ;;
  if taken : bool then (intr_set_status old_status ;;; ret true) else ret false.

Definition lock_fetch (l : Z) : M kern bool :=
  x <- lk l ;;
  cur <- running_thread ;;
  if negb (holder x =? cur) then
    taken <- semaphore_down l ;;
    if taken : bool then
      upd_lock l (fun x => Lock cur (value x) (holder_repeat_nr x)) ;;;
      x <- lk l ;;
      ASSERT (holder_repeat_nr x =? 0) ;;;
      upd_lock l (fun x => Lock (holder x) (value x) 1) ;;;
      ret true
    else ret false
  else
    upd_lock l (fun x => Lock (holder x) (value x) (u32 (holder_repeat_nr x + 1))) ;;;
    ret true.

Definition lock_release (l : Z) : M kern unit :=
  x <- lk l ;;
  if holder_repeat_nr x >? 1 then
    upd_lock l (fun x => Lock (holder x) (value x) (u32 (holder_repeat_nr x - 1)))
  else
    ASSERT (holder_repeat_nr x =? 1) ;;;
    upd_lock l (fun x => Lock 0 (value x) (holder_repeat_nr x)) ;;;
    upd_lock l (fun x => Lock (holder x) (value x) 0) ;;;
    semaphore_up fuel l.
End calls.

(** ** A lock nobody holds or waits for *)
Definition free_lock : lock := Lock 0 1 0.
Definition held_by (c : Z) : lock := Lock c 0 1.
Definition lock_free (l : Z) (k : kern) : Prop :=
  locks k !! l = Some free_lock /\ dll (klists k) (waiting_queue l) [].
Definition with_lock (l : Z) (x : lock) (k : kern) : kern := set_locks (<[l := x]> (locks k)) k.

Section uncontended.
Context {G : Globals}.
Implicit Types (k : kern) (l : Z).

Lemma intr_disable_now k : intr_disable k = Ok (intr k, set_intr false k).
Proof. by destruct k as [? ? ? ? [] ? ? ? ? ?]. Qed.
Lemma intr_set_now v k : intr_set_status v k = Ok (intr k, set_intr v k).
Proof. by destruct k as [? ? ? ? [] ? ? ? ? ?], v. Qed.

Lemma lk_now k l x : locks k !! l = Some x -> lk l k = Ok (x, k).
Proof. unfold lk. by intros ->. Qed.
Lemma upd_lock_now k l x f : locks k !! l = Some x -> upd_lock l f k = Ok (tt, with_lock l (f x) k).
Proof. unfold upd_lock. by intros ->. Qed.

Lemma with_lock_twice l x y k : with_lock l x (with_lock l y k) = with_lock l x k.
Proof. unfold with_lock, set_locks. cbn. by rewrite insert_insert_eq. Qed.
Lemma with_lock_locks l x k : locks (with_lock l x k) !! l = Some x.
Proof. apply lookup_insert_eq. Qed.

Lemma semaphore_down_now fuel l c n k :
  locks k !! l = Some (Lock c 1 n) ->
  semaphore_down fuel l k = Ok (true, with_lock l (Lock c 0 n) k).
Proof.
  intros Hl. unfold semaphore_down. run (intr_disable_now k). unfold down_round.
  run (lk_now (set_intr false k) l (Lock c 1 n)); [|done].
  cbn [value]. change (1 =? 0) with false. cbn iota.
  run (upd_lock_now (set_intr false k) l (Lock c 1 n)); [|done]. cbn [value].
  change (u32 (1 - 1)) with 0.
  run (lk_now (with_lock l (Lock c 0 n) (set_intr false k)) l (Lock c 0 n)); [|apply with_lock_locks].
  cbn [value]. pass. rets. run (intr_set_now (intr k) (with_lock l (Lock c 0 n) (set_intr false k))).
  by destruct k.
Qed.

Lemma lock_fetch_now fuel l k :
  locks k !! l = Some free_lock -> current k <> 0 ->
  lock_fetch fuel l k = Ok (true, with_lock l (held_by (current k)) k).
Proof.
  intros Hl Hc. unfold lock_fetch. run (lk_now k l free_lock); [|done].
  unfold running_thread. rewrite gets_bind. cbn [holder free_lock].
  replace (0 =? current k) with false by lia. cbn [negb].
  run (semaphore_down_now fuel l 0 0 k); [|done].
  run (upd_lock_now (with_lock l (Lock 0 0 0) k) l (Lock 0 0 0)); [|apply with_lock_locks].
  rewrite with_lock_twice. cbn [value holder_repeat_nr].
  run (lk_now (with_lock l (Lock (current k) 0 0) k) l (Lock (current k) 0 0)); [|apply with_lock_locks].
  cbn [holder_repeat_nr]. pass.
  run (upd_lock_now (with_lock l (Lock (current k) 0 0) k) l (Lock (current k) 0 0)); [|apply with_lock_locks].
  by rewrite with_lock_twice.
Qed.

Lemma semaphore_up_now fuel l c n k :
  locks k !! l = Some (Lock c 0 n) -> dll (klists k) (waiting_queue l) [] ->
  semaphore_up fuel l k = Ok (tt, with_lock l (Lock c 1 n) k).
Proof.
  intros Hl Hd. unfold semaphore_up. run (intr_disable_now k).
  run (list_is_empty_ok (H:=kern_lists) (set_intr false k) (waiting_queue l) []); [|done].
  rewrite bool_decide_true by done. cbn [negb]. rets.
  run (upd_lock_now (set_intr false k) l (Lock c 0 n)); [|done]. cbn [value].
  change (u32 (0 + 1)) with 1.
  run (lk_now (with_lock l (Lock c 1 n) (set_intr false k)) l (Lock c 1 n)); [|apply with_lock_locks].
  cbn [value]. pass. run (intr_set_now (intr k) (with_lock l (Lock c 1 n) (set_intr false k))).
  by destruct k.
Qed.

Lemma lock_release_now fuel l c k :
  locks k !! l = Some (held_by c) -> dll (klists k) (waiting_queue l) [] ->
  lock_release fuel l k = Ok (tt, with_lock l free_lock k).
Proof.
  intros Hl Hd. unfold lock_release. run (lk_now k l (held_by c)); [|done].
  cbn [holder_repeat_nr held_by]. change (1 >? 1) with false. cbn iota. pass.
  run (upd_lock_now k l (held_by c)); [|done].
  run (upd_lock_now (with_lock l (Lock 0 0 1) k) l (Lock 0 0 1)); [|apply with_lock_locks].
  rewrite with_lock_twice. cbn [value holder_repeat_nr holder].
  rewrite (semaphore_up_now fuel l 0 0); [by rewrite with_lock_twice|apply with_lock_locks|done].
Qed.

(** What is held and given back leaves the locks as they were. *)
Lemma with_lock_back l x k : locks k !! l = Some x -> with_lock l x k = k.
Proof. intros. unfold with_lock. rewrite insert_id by done. by destruct k. Qed.
End uncontended.
