(* ===== verification/SchedSpec.v ===== *)
(** * SchedSpec: the properties of the scheduler and the locks *)
From S2P Require Import Prelude Lists ListProofs Kernel Queues Sched Threads ThreadInv Mutex.

(** ** Turns *)
Section turns.
Context {G : Globals}.
Variable fuel : nat.

(** The thread that runs and the ready ones, in the order of their turns. *)
Definition ring_ok (k : kern) (ring : list Z) : Prop :=
  exists Q rq, ring = current k :: rq /\ queues (lists k) (alive k) Q /\ rl Q rq /\
    off_queues Q (current k) /\ (exists b, tasks k !! current k = Some b /\ status b = THREAD_TASK_RUNNING) /\
    (forall t, alive k t -> t <> 0) /\ (length rq < fuel)%nat.

Lemma ring_ready k c rq : ring_ok k (c :: rq) -> current k = c /\ dll (klists k) thread_ready_list (general_tag <$> rq).
Proof. intros (Q & rq' & [= -> ->] & HQ & Hrl & _). split; [done|]. by apply (q_dll _ _ _ HQ). Qed.

Lemma ring_step k c rq :
  ring_ok k (c :: rq) -> exists k', schedule fuel k = Ok (tt, k') /\ ring_ok k' (rq ++ [c]).
Proof.
  intros (Q & rq' & [= -> ->] & HQ & Hrl & Hoff & (b & Hb & Hst) & H0 & Hf).
  destruct (rq' ++ [current k]) as [|next rest] eqn:E; [by destruct rq'|].
  destruct (schedule_running_ok fuel k Q rq' next rest b) as (k' & Es & Hsw); [done..|].
  exists k'. split; [done|]. destruct Hsw as [(n & Hn & Ht & _) Hc _ _ _ _ _ Hq Ho].
  assert (forall t, alive k' t <-> alive k t) as Ha.
  { intros t. unfold alive. rewrite Ht, !lookup_insert. rewrite lookup_insert in Hn.
    repeat case_decide; subst; rewrite ?Hb; split; intros; try (by eexists); done. }
  exists (<[thread_ready_list := rest]> Q), rest. split_and!.
  - by rewrite Hc.
  - eapply queues_ext; [|exact Hq]. intros t. by rewrite Ha.
  - apply lookup_insert_eq.
  - by rewrite Hc.
  - rewrite Hc, Ht, lookup_insert_eq. by eexists.
  - intros t Hat. apply H0. by apply Ha.
  - apply (f_equal length) in E. rewrite length_app in E. simpl in E. lia.
Qed.

(** [n] time slices run out, one after the other. *)
Fixpoint preempts (n : nat) : M kern unit :=
  match n with O => ret tt | S n => preempts n ;;; schedule fuel end.

Lemma preempts_ok n k ring :
  ring_ok k ring -> (n <= length ring)%nat ->
  exists k', preempts n k = Ok (tt, k') /\ ring_ok k' (drop n ring ++ take n ring).
Proof.
  intros Hr. induction n as [|n IH]; intros Hn.
  - exists k. rewrite take_0, app_nil_r. done.
  - destruct IH as (k1 & E1 & H1); [lia|].
    destruct (lookup_lt_is_Some_2 ring n) as [x Hx]; [lia|].
    rewrite (drop_S _ _ _ Hx) in H1. simpl in H1.
    destruct (ring_step _ _ _ H1) as (k2 & E2 & H2). exists k2. split; [simpl; by run E1|].
    by rewrite (take_S_r _ _ _ Hx), app_assoc.
Qed.
End turns.

(** ** The properties *)
Section properties.
Context {G : Globals}.

(** C1: in every state that the kernel can reach, by any interleaving of
    clock interrupts, lock calls, blocking and waking, every allowed step
    succeeds: no assertion of the scheduler, of the semaphores or of the locks
    fails, no wild pointer is followed, and no list search runs on. *)
Theorem kernel_steps_never_fail (fuel : nat) (s s' : sys) (rq : list Z) (a : action) :
  boot fuel s rq -> steps fuel s s' -> allowed a s' -> exists s'', exec fuel a s' = Ok s''.
Proof.
  intros Hb Hs Ha. destruct (exec_ok fuel a s') as (s'' & E & _); [|done|by exists s''].
  eapply steps_ok; [by eapply boot_inv|done].
Qed.

(** C2: at most one thread at a time is between a [lock_fetch] that returned
    and the [lock_release] that gives the lock back; while one is, the lock
    names it as its holder and its semaphore is 0. *)
Theorem lock_mutual_exclusion (fuel : nat) (s s' : sys) (rq : list Z) (l t u : Z) :
  boot fuel s rq -> steps fuel s s' -> inside s' t l = true ->
  (inside s' u l = true -> u = t) /\
  exists x, locks (kn s') !! l = Some x /\ holder x = t /\ value x = 0 /\ 1 <= holder_repeat_nr x.
Proof.
  intros Hb Hs Ht. assert (Inv fuel s') as Hi by (eapply steps_ok; [by eapply boot_inv|done]).
  split; [intros Hu; by eapply inv_exclusive|].
  destruct Hi as (Q & _ & Hl & _). destruct (l_in _ _ _ _ _ Hl _ _ Ht) as ([x Hx] & Hn & _).
  destruct (lock_ok_own _ _ _ _ (l_ok _ _ _ _ _ Hl _ _ Hx) (stage_in _ _ _ _ Ht Hn)) as (Hv & [? ?] & _).
  exists x. split_and!; [done..|lia].
Qed.

(** C6: no wake-up is lost: while a thread is blocked on a lock whose
    semaphore is not 0, another thread that was woken for that lock is ready
    or running, at the loop of [semaphore_down]. *)
Theorem no_lost_wakeup (fuel : nat) (s s' : sys) (rq : list Z) (t l : Z) (old : bool) (b : TCB) (x : lock) :
  boot fuel s rq -> steps fuel s s' -> pcs s' t = Down l old ->
  tasks (kn s') !! t = Some b -> status b = THREAD_TASK_BLOCKED ->
  locks (kn s') !! l = Some x -> value x <> 0 ->
  exists u old' bu, u <> t /\ pcs s' u = Down l old' /\ tasks (kn s') !! u = Some bu /\
    (status bu = THREAD_TASK_READY \/ u = current (kn s')).
Proof.
  intros Hb Hs. intros. eapply inv_wakeup; [|done..]. eapply steps_ok; [by eapply boot_inv|done].
Qed.

(** C7: the scheduler is a round robin: as time slices run out, the threads
    get the processor in the order of the ready list, each once, and then the
    first one again. *)
Theorem schedule_round_robin (fuel n : nat) (s : sys) (rq : list Z) :
  boot fuel s rq -> (n <= length rq)%nat ->
  exists k, preempts fuel n (kn s) = Ok (tt, k) /\
    Some (current k) = (current (kn s) :: rq) !! n /\
    dll (klists k) thread_ready_list (general_tag <$> (drop n rq ++ take n (current (kn s) :: rq))) /\
    exists k', preempts fuel (S (length rq)) (kn s) = Ok (tt, k') /\ current k' = current (kn s).
Proof.
  intros Hb Hn. destruct (boot_inv _ _ _ Hb) as (Q & Ht & _).
  assert (ring_ok fuel (kn s) (current (kn s) :: rq)) as Hr.
  { destruct (sh_ready _ _ (t_shape _ _ _ _ Ht)) as [rq' Hrq].
    assert (rq' = rq) as ->.
    { apply (inj (fmap (M:=list) general_tag)). eapply dll_det; [by apply (q_dll _ _ _ (t_queues _ _ _ _ Ht))|apply Hb]. }
    exists Q, rq. split_and!; try done; try apply Ht; [|by eapply queue_fuel].
    intros t [bt Hbt]. by apply (t_live _ _ _ _ Ht t bt). }
  destruct (preempts_ok fuel n _ _ Hr) as (k & E & Hk); [simpl; lia|].
  destruct (preempts_ok fuel (S (length rq)) _ _ Hr) as (k' & E' & Hk'); [simpl; lia|].
  rewrite drop_ge, take_ge in Hk' by (simpl; lia).
  destruct (lookup_lt_is_Some_2 (current (kn s) :: rq) n) as [x Hx]; [simpl; lia|].
  rewrite (drop_S _ _ _ Hx) in Hk. destruct (ring_ready _ _ _ _ Hk) as [Hc Hd].
  exists k. split_and!; [done|by rewrite Hc|exact Hd|].
  exists k'. split; [done|]. by apply (ring_ready _ _ _ _ Hk').
Qed.
End properties.

(** ** Witnesses: four threads and one lock *)
Definition demo_globals : Globals :=
  {| thread_ready_list := 100; thread_all_list := 300; addr_v2p := fun a => a - 0xc0000000 |}.
Definition demo_tcb (st : Z) : TCB :=
  Tcb 0 1 0 st 2 2 0 0 (Message 0 0 []) 0 0 0 0 0 0 STACK_MAGIC.
(** The main thread at 4096 runs, two others at 8192 and 16384 and the idle
    thread at 12288 are ready; the lock is at 200. *)
Definition demo : sys :=
  Sys (Kern (list_to_map [(100, Node 12340 8244); (8244, Node 100 16436); (16436, Node 8244 12340); (12340, Node 16436 100);
                          (4148, Node 0 0); (208, Node 208 208)])
            (list_to_map [(4096, demo_tcb 0); (8192, demo_tcb 1); (16384, demo_tcb 1); (12288, demo_tcb 1)])
            (list_to_map [(200, Lock 0 1 0)])
            4096 true 0 0 0 12288 4096)
      (fun _ => Run) (fun _ _ => false).

Ltac small_map H :=
  repeat (apply lookup_insert_Some in H as [[<- <-]|[_ H]]); try (by apply lookup_empty_Some in H).

Lemma demo_boot : @boot demo_globals 4 demo [8192; 16384; 12288].
Proof.
  split.
  - split; [vm_compute; done|by_computation].
  - intros l x Hx. cbn in Hx. small_map Hx. split_and!; [done|split; [vm_compute; done|by_computation]|done].
  - intros t b Hb. cbn in Hb. small_map Hb; (split_and!;
      [done|done|vm_compute; by eexists|done| |case_decide as E; [first [by vm_compute in E|split; [done|by_computation]]
        |first [by destruct E|split; [done|by_computation]]]]);
      intros l [x Hx]; cbn in Hx; small_map Hx; done.
  - intros t Ht. repeat (apply list.elem_of_cons in Ht as [->|Ht]; [vm_compute; by eexists|]).
    by apply not_elem_of_nil in Ht.
  - split; vm_compute; by eexists.
  - vm_compute. lia.
  - done.
  - done.
Qed.

Definition run_or_stay (a : action) (s : sys) : sys :=
  match @exec demo_globals 4 a s with Ok s' => s' | _ => s end.
Definition succeeds (a : action) (s : sys) : bool :=
  match @exec demo_globals 4 a s with Ok _ => true | _ => false end.
Lemma demo_step a s0 s :
  @steps demo_globals 4 s0 s -> @allowed a s -> succeeds a s = true ->
  @steps demo_globals 4 s0 (run_or_stay a s).
Proof.
  intros Hs Ha Hok. eapply steps_step; [done..|]. unfold succeeds, run_or_stay in *. by destruct (exec 4 a s).
Qed.

Fixpoint run_all (acts : list action) (s : sys) : sys :=
  match acts with [] => s | a :: acts => run_all acts (run_or_stay a s) end.
Fixpoint checks (acts : list action) (s : sys) : Prop :=
  match acts with
  | [] => True
  | a :: acts => allowed a s /\ succeeds a s = true /\ checks acts (run_or_stay a s)
  end.
Lemma demo_steps acts s0 s :
  @steps demo_globals 4 s0 s -> checks acts s -> @steps demo_globals 4 s0 (run_all acts s).
Proof.
  revert s. induction acts as [|a acts IH]; intros s Hs Hc; [done|].
  destruct Hc as (Ha & Hok & Hc). simpl. apply IH; [by apply demo_step|done].
Qed.

(** The main thread takes the lock. *)
Definition demo_in : sys := run_all [AFetch 200; AGo; AGo; AGo] demo.
(** Its time is up; the two others ask for the lock and are put to sleep; the
    time of the idle thread is up; the main thread gives the lock back. *)
Definition demo_out : sys :=
  run_all [AClock; AClock; AClock; AIntr true; AFetch 200; AGo; AIntr true; AFetch 200; AGo;
           AIntr true; AClock; AClock; AClock; AGo;
           ARelease 200; AGo; AGo; AGo] demo_in.

Ltac demo_check :=
  cbn [checks allowed];
  repeat (split; [first [by_computation
                        | split; [vm_compute; reflexivity|]; split; [by_computation|];
                          eexists; split; [vm_compute; reflexivity|];
                          intros H; vm_compute in H; discriminate H]
                 | split; [vm_compute; reflexivity|]]); exact I.

Lemma demo_in_steps : @steps demo_globals 4 demo demo_in.
Proof. apply demo_steps; [apply steps_refl|demo_check]. Qed.
Lemma demo_out_steps : @steps demo_globals 4 demo demo_out.
Proof. apply demo_steps; [apply demo_in_steps|demo_check]. Qed.

Lemma kernel_steps_never_fail_witness :
  exists s'', @exec demo_globals 4 (ARelease 200) demo_in = Ok s''.
Proof.
  apply (@kernel_steps_never_fail demo_globals 4 demo demo_in [8192; 16384; 12288] (ARelease 200) demo_boot demo_in_steps).
  split; [reflexivity|]. split; [intros H; vm_compute in H; discriminate H|vm_compute; reflexivity].
Defined.

Lemma lock_mutual_exclusion_witness :
  exists x, locks (kn demo_in) !! 200 = Some x /\ holder x = 4096.
Proof.
  destruct (@lock_mutual_exclusion demo_globals 4 demo demo_in [8192; 16384; 12288] 200 4096 0 demo_boot demo_in_steps)
    as [_ (x & Hx & Hh & _)]; [vm_compute; reflexivity|exists x; split; [exact Hx|exact Hh]].
Defined.

Lemma schedule_round_robin_witness :
  exists k, @preempts demo_globals 4 1 (kn demo) = Ok (tt, k) /\ current k = 8192.
Proof.
  destruct (@schedule_round_robin demo_globals 4 1 demo [8192; 16384; 12288] demo_boot) as (k & E & Hc & _).
  - simpl. lia.
  - exists k. split; [exact E|]. simpl in Hc. congruence.
Defined.

Lemma no_lost_wakeup_witness :
  exists u old' bu, u <> 16384 /\ pcs demo_out u = Down 200 old' /\ tasks (kn demo_out) !! u = Some bu /\
    (status bu = THREAD_TASK_READY \/ u = current (kn demo_out)).
Proof.
  apply (@no_lost_wakeup demo_globals 4 demo demo_out [8192; 16384; 12288] 16384 200 true
    (demo_tcb 8) (Lock 0 1 0) demo_boot demo_out_steps); vm_compute; try reflexivity. intros H. discriminate H.
Defined.
