(* ===== verification/Yield.v ===== *)
(** * Yield: what [thread_yield] does when no other thread is ready *)
From S2P Require Import Prelude Lists ListProofs Kernel Queues Sched SchedSpec.

Section heap.
Context {S : Type} {L : HasLists S}.
Implicit Types (s : S) (n a : Z).

(** A node that is both inside and outside of the list headed at [a]: the head
    leads to it, and it leads to [b]. *)
Definition half_in (h : lheap) (a n b : Z) : Prop :=
  nxt h a = Some n /\ prv h a = Some n /\ nxt h n = Some b /\ prv h n = Some n.

Lemma add_again_ok s n a :
  dll (lists s) a [n] -> exists h, list_add_tail n a s = Ok (tt, set_lists h s) /\ half_in h a n a.
Proof.
  intros [(Ha & Hp & Hn & Hpa) Hd]. simpl in *. nodup_hyps. assert (n <> a) by apart.
  unfold list_add_tail. do 5 lstep. eexists. split; [done|]. split_and!; lread.
Qed.
Lemma pop_half_ok s n a :
  n <> a -> half_in (lists s) a n a ->
  exists h, list_pop a s = Ok (n, set_lists h s) /\ half_in h a n n.
Proof.
  intros Hne (H1 & H2 & H3 & H4). unfold list_pop, list_del_init, list_del, INIT_LIST_HEAD.
  do 9 lstep. eexists. split; [done|]. split_and!; lread.
Qed.
Lemma pop_self_ok s n a :
  n <> a -> half_in (lists s) a n n ->
  exists h, list_pop a s = Ok (n, set_lists h s) /\ half_in h a n n.
Proof.
  intros Hne (H1 & H2 & H3 & H4). unfold list_pop, list_del_init, list_del, INIT_LIST_HEAD.
  do 9 lstep. eexists. split; [done|]. split_and!; lread.
Qed.
End heap.

Section yield.
Context {G : Globals}.
Implicit Types k : kern.

Lemma run_next_half k cur n t b :
  n <> thread_ready_list -> n = general_tag t -> t <> 0 -> tasks k !! t = Some b ->
  half_in (lists k) thread_ready_list n thread_ready_list \/ half_in (lists k) thread_ready_list n n ->
  exists k', run_next cur k = Ok (tt, k') /\ half_in (lists k') thread_ready_list n n /\
    tasks k' = <[t := set_status THREAD_TASK_RUNNING b]> (tasks k) /\ current k' = t.
Proof.
  intros Hne Hn Ht0 Hb Hh.
  assert (exists h', list_pop thread_ready_list k = Ok (n, set_lists h' k) /\ half_in h' thread_ready_list n n)
    as (h' & E & Hh') by (destruct Hh; [by apply (pop_half_ok k)|by apply (pop_self_ok k)]).
  eexists. split.
  - unfold run_next. run E. rewrite Hn, of_general_tag_tag.
    run (upd_tcb_ok (set_klists h' k) t b (set_status THREAD_TASK_RUNNING)); [|done].
    unfold process_activate, page_dir_activate.
    rewrite !bind_assoc, assert_bind by (apply negb_true_iff; by apply Z.eqb_neq).
    rdt. rewrite modify_bind. rdt.
    erewrite bind_ok by (instantiate (1 := if pgdir b =? 0 then _ else _); simpl; by destruct (pgdir b =? 0)).
    reflexivity.
  - simpl. destruct (pgdir b =? 0); simpl; by subst.
Qed.

Lemma empty_half k n b :
  n <> thread_ready_list -> half_in (lists k) thread_ready_list n b ->
  list_is_empty thread_ready_list k = Ok (false, k).
Proof.
  intros Hne (H & _). unfold list_is_empty. lstep. by rewrite (proj2 (Z.eqb_neq _ _)).
Qed.

Lemma find_single k n fuel :
  dll (lists k) thread_ready_list [n] -> n <> thread_ready_list -> (1 < fuel)%nat ->
  list_find_element fuel n thread_ready_list k = Ok (false, k).
Proof.
  intros Hd Hne Hf. rewrite (list_find_element_ok fuel k n _ [n]) by done.
  by rewrite bool_decide_false by apply not_elem_of_nil.
Qed.

Lemma yield_alone_ok fuel k t b :
  (1 < fuel)%nat -> ring_ok fuel k [t] -> tasks k !! t = Some b ->
  exists old k', thread_yield fuel k = Ok (old, k') /\ current k' = t /\
    half_in (lists k') thread_ready_list (general_tag t) (general_tag t) /\
    tasks k' !! t = Some (set_status THREAD_TASK_RUNNING (set_status THREAD_TASK_READY b)).
Proof.
  intros Hf (Q & rq & [= -> <-] & HQ & Hrl & Hoff & (b' & Hb' & Hst) & H0 & _) Hb. assert (b' = b) as -> by congruence.
  assert (alive k (current k)) as Ha by by eexists. pose proof (H0 _ Ha) as Hc0.
  set (n := general_tag (current k)).
  assert (n <> thread_ready_list) as Hne by (eapply (q_head _ _ _ HQ); done).
  destruct (list_add_tail_ok (set_intr false k) n thread_ready_list []) as (h1 & E1 & Hd1 & _).
  { by apply (q_dll _ _ _ HQ thread_ready_list []). }
  { set_solver. }
  { by apply (q_node _ _ _ HQ). }
  set (k1 := set_tasks (<[current k := set_status THREAD_TASK_READY b]> (tasks k)) (set_klists h1 (set_intr false k))).
  destruct (add_again_ok (L:=kern_lists) k1 n thread_ready_list Hd1) as (h2 & E2 & Hh2).
  destruct (run_next_half (set_klists h2 k1) (current k) n (current k) (set_status THREAD_TASK_READY b))
    as (k3 & E3 & Hh3 & Ht3 & Hc3); [done|done|done|simpl; by rewrite lookup_insert_eq|by left|].
  exists (intr k), k3. split_and!; [|done|done|by rewrite Ht3, lookup_insert_eq].
  assert (list_find_element fuel n thread_ready_list (set_intr false k) = Ok (false, set_intr false k)) as Ef.
  { eapply (q_find (L:=kern_lists)); [exact HQ|done|done|apply not_elem_of_nil|simpl; lia]. }
  pose proof (find_single k1 n fuel Hd1 Hne Hf) as Ef1.
  unfold thread_yield, running_thread. rewrite gets_bind. run (intr_disable_ok k). run Ef. pass. run E1.
  run (upd_tcb_ok (set_klists h1 (set_intr false k)) (current k) b (set_status THREAD_TASK_READY)); [|done].
  change (set_tasks _ _) with k1.
  assert (schedule fuel k1 = Ok (tt, k3)) as Es; [|by run Es].
  unfold schedule, running_thread. rewrite gets_bind.
  erewrite tcb_bind by (simpl; by rewrite lookup_insert_eq). simpl.
  run Ef1. cbn [negb]. rets. run Ef1. pass. run E2.
  run (empty_half (set_klists h2 k1) n thread_ready_list Hne Hh2). rets. exact E3.
Qed.

Lemma block_half_ok fuel k t b st :
  current k = t -> half_in (lists k) thread_ready_list (general_tag t) (general_tag t) ->
  general_tag t <> thread_ready_list -> t <> 0 -> tasks k !! t = Some b -> blocking st = true ->
  exists old k', thread_block fuel st k = Ok (old, k') /\ current k' = t /\
    tasks k' !! t = Some (set_status THREAD_TASK_RUNNING (set_status st b)).
Proof.
  intros Hc Hh Hne H0 Hb Hst. destruct (blocking_cases _ Hst) as [Hs1 Hs2].
  set (k1 := set_tasks (<[t := set_status st b]> (tasks k)) (set_intr false k)).
  destruct (run_next_half k1 t (general_tag t) t (set_status st b)) as (k3 & E3 & _ & Ht3 & Hc3);
    [done|done|done|simpl; by rewrite lookup_insert_eq|by right|].
  exists (intr k), k3. split_and!; [|done|by rewrite Ht3, lookup_insert_eq].
  unfold thread_block. rewrite assert_bind by done. run (intr_disable_ok k).
  unfold running_thread. rewrite gets_bind. simpl. rewrite Hc.
  run (upd_tcb_ok (set_intr false k) t b (set_status st)); [|done]. change (set_tasks _ _) with k1.
  assert (schedule fuel k1 = Ok (tt, k3)) as Es; [|by run Es].
  unfold schedule, running_thread. rewrite gets_bind. simpl. rewrite Hc.
  erewrite tcb_bind by (simpl; by rewrite lookup_insert_eq). simpl.
  rewrite (proj2 (Z.eqb_neq _ _) Hs1), (proj2 (Z.eqb_neq _ _) Hs2). rets.
  run (empty_half k1 (general_tag t) _ Hne Hh). rets. exact E3.
Qed.
End yield.

(** ** The property *)
Section property.
Context {G : Globals}.

(** When a thread yields and no other thread is ready, it goes on running
    but stays on the ready list (it is put there twice, because
    [list_find_element] does not see the last node), and from then on
    [thread_block] does not block it: the call gives the processor back to the
    thread itself, with its status [THREAD_TASK_RUNNING]. *)
Theorem yield_then_block_does_not_block (fuel : nat) (k : kern) (t st : Z) :
  (1 < fuel)%nat -> ring_ok fuel k [t] -> blocking st = true ->
  exists old k1, thread_yield fuel k = Ok (old, k1) /\ current k1 = t /\
    nxt (klists k1) thread_ready_list = Some (general_tag t) /\
    exists old' k2 b, thread_block fuel st k1 = Ok (old', k2) /\ current k2 = t /\
      tasks k2 !! t = Some b /\ status b = THREAD_TASK_RUNNING.
Proof.
  intros Hf Hr Hst. pose proof Hr as (Q & rq & [= -> <-] & HQ & Hrl & _ & (b & Hb & _) & H0 & _).
  assert (alive k (current k)) as Ha by by eexists.
  destruct (yield_alone_ok fuel k (current k) b Hf Hr Hb) as (old & k1 & E1 & Hc1 & Hh1 & Ht1).
  exists old, k1. split_and!; [done|done|apply Hh1|].
  destruct (block_half_ok fuel k1 (current k) (set_status THREAD_TASK_RUNNING (set_status THREAD_TASK_READY b))
    st Hc1 Hh1) as (old' & k2 & E2 & Hc2 & Ht2);
    [by eapply (q_head _ _ _ HQ)|by apply H0|done|done|].
  by exists old', k2, (set_status THREAD_TASK_RUNNING (set_status st
    (set_status THREAD_TASK_RUNNING (set_status THREAD_TASK_READY b)))).
Qed.
End property.

(** One thread at 4096 that runs, and an idle thread at 12288 that sleeps. *)
Definition lonely : kern :=
  Kern (list_to_map [(100, Node 100 100); (4148, Node 4148 4148); (12340, Node 0 0)])
       (list_to_map [(4096, demo_tcb 0); (12288, demo_tcb 8)]) ∅ 4096 true 0 0 0 12288 4096.
Lemma lonely_ring : @ring_ok demo_globals 3 lonely [4096].
Proof.
  exists {[100 := []]}, []. split_and!; [done| |done| |by eexists| |simpl; lia].
  - split.
    + intros a xs [<- <-]%lookup_singleton_Some. split; [vm_compute; done|by_computation].
    + intros a xs t [<- <-]%lookup_singleton_Some Ht. by apply not_elem_of_nil in Ht.
    + intros a b xs ys t [<- <-]%lookup_singleton_Some [<- <-]%lookup_singleton_Some. done.
    + intros t [b Hb]. cbn in Hb. small_map Hb; vm_compute; by eexists.
    + intros a xs t [<- <-]%lookup_singleton_Some [b Hb]. cbn in Hb. small_map Hb; done.
  - intros a xs [<- <-]%lookup_singleton_Some. apply not_elem_of_nil.
  - intros t [b Hb]. cbn in Hb. small_map Hb; done.
Qed.

Lemma yield_then_block_does_not_block_witness :
  exists old k1 old' k2, @thread_yield demo_globals 3 lonely = Ok (old, k1) /\
    @thread_block demo_globals 3 THREAD_TASK_WAITING k1 = Ok (old', k2) /\ current k2 = 4096.
Proof.
  destruct (@yield_then_block_does_not_block demo_globals 3 lonely 4096 THREAD_TASK_WAITING
    ltac:(lia) lonely_ring eq_refl) as (old & k1 & E1 & _ & _ & old' & k2 & b & E2 & Hc & _).
  exists old, k1, old', k2. split; [exact E1|]. split; [exact E2|exact Hc].
Defined.
