(* ===== verification/Timer.v ===== *)
(** * Timer: the timer wheel of core/frog/timer.c

    The vectors of list heads are sequences of timers here: the calls that the
    code makes on them are [list_add] at the end of a list and [list_del],
    whose effect on sequences is proved for the memory of [Lists] in
    [ListSpec].  A timer is named by its address; that its [list.next] is not
    null ([timer_pending]) is the field [linked].  The interrupt flag, which
    the functions save and restore, is not part of this state. *)
From S2P Require Import Prelude.

Definition TVN_BITS : Z := 6.
Definition TVR_BITS : Z := 8.
Definition TVN_SIZE : Z := 2 ^ TVN_BITS.
Definition TVR_SIZE : Z := 2 ^ TVR_BITS.
Definition TVN_MASK : Z := TVN_SIZE - 1.
Definition TVR_MASK : Z := TVR_SIZE - 1.
Definition NOOF_TVECS : Z := 5.

(** [struct timer_list]. *)
Record timer := Timer { expires : Z; data : Z; function : Z; linked : bool }.
#[export] Instance timer_eq_dec : EqDecision timer.
Proof. solve_decision. Defined.

(** [tv1] to [tv5] with their indices, [run_timer_list_running] with the list
    it points to, the timers, the clock, and the callbacks that were made. *)
Record wheel := Wheel {
  vecs : gmap (Z * Z) (list Z);
  indices : gmap Z Z;
  timer_jiffies : Z;
  running : option (list Z);
  timers : gmap Z timer;
  ticks : Z;
  calls : list (Z * Z) }.

Definition bucket (w : wheel) (n i : Z) : list Z := default [] (vecs w !! (n, i)).
Definition index (w : wheel) (n : Z) : Z := default 0 (indices w !! n).
Definition set_bucket (n i : Z) (xs : list Z) (w : wheel) : wheel :=
  Wheel (<[(n, i) := xs]> (vecs w)) (indices w) (timer_jiffies w) (running w) (timers w) (ticks w) (calls w).
Definition set_index (n i : Z) (w : wheel) : wheel :=
  Wheel (vecs w) (<[n := i]> (indices w)) (timer_jiffies w) (running w) (timers w) (ticks w) (calls w).
Definition set_jiffies (j : Z) (w : wheel) : wheel :=
  Wheel (vecs w) (indices w) j (running w) (timers w) (ticks w) (calls w).
Definition set_running (r : option (list Z)) (w : wheel) : wheel :=
  Wheel (vecs w) (indices w) (timer_jiffies w) r (timers w) (ticks w) (calls w).
Definition set_timer (t : Z) (x : timer) (w : wheel) : wheel :=
  Wheel (vecs w) (indices w) (timer_jiffies w) (running w) (<[t := x]> (timers w)) (ticks w) (calls w).
Definition set_ticks (n : Z) (w : wheel) : wheel :=
  Wheel (vecs w) (indices w) (timer_jiffies w) (running w) (timers w) n (calls w).
Definition add_call (c : Z * Z) (w : wheel) : wheel :=
  Wheel (vecs w) (indices w) (timer_jiffies w) (running w) (timers w) (ticks w) (calls w ++ [c]).
Definition set_linked (b : bool) (x : timer) : timer := Timer (expires x) (data x) (function x) b.

(** [init_timervecs] and the static initial values. *)
Definition init_timervecs (ts : gmap Z timer) : wheel := Wheel ∅ ∅ 0 None ts 0 [].

Definition get_timer (t : Z) : M wheel timer :=
  fun w => match timers w !! t with Some x => Ok (x, w) | None => Fault end.
Definition upd_timer (t : Z) (f : timer -> timer) : M wheel unit :=
  x <- get_timer t ;; modify (set_timer t (f x)).

(** Which vector and which of its lists [internal_add_timer] chooses. *)
Definition choose_vec (w : wheel) (ex : Z) : Z * Z :=
  let idx := u32 (ex - timer_jiffies w) in
  if idx <? TVR_SIZE then (1, Z.land ex TVR_MASK)
  else if idx <? Z.shiftl 1 (TVR_BITS + TVN_BITS) then (2, Z.land (Z.shiftr ex TVR_BITS) TVN_MASK)
  else if idx <? Z.shiftl 1 (TVR_BITS + 2 * TVN_BITS) then (3, Z.land (Z.shiftr ex (TVR_BITS + TVN_BITS)) TVN_MASK)
  else if idx <? Z.shiftl 1 (TVR_BITS + 3 * TVN_BITS) then (4, Z.land (Z.shiftr ex (TVR_BITS + 2 * TVN_BITS)) TVN_MASK)
  else if s32 idx <? 0 then (1, index w 1)
  else (5, Z.land (Z.shiftr ex (TVR_BITS + 3 * TVN_BITS)) TVN_MASK).

Definition internal_add_timer (t : Z) : M wheel unit :=
  x <- get_timer t ;;
  r <- gets running ;;
  (match r with
   | Some q => modify (set_running (Some (q ++ [t])))
   | None => w <- get ;;
             let '(n, i) := choose_vec w (expires x) in
             put (set_bucket n i (bucket w n i ++ [t]) w)
   end) ;;;
  upd_timer t (set_linked true).

Definition timer_pending (t : Z) : M wheel bool := x <- get_timer t ;; ret (linked x).

Definition add_timer (t : Z) : M wheel unit :=
  p <- timer_pending t ;;
  if p : bool then ret tt else internal_add_timer t.

(** [list_del] of the node of a timer, whatever list it is on. *)
Definition unlink (t : Z) (w : wheel) : wheel :=
  let out := filter (fun u => u <> t) in
  Wheel (out <$> vecs w) (indices w) (timer_jiffies w) (out <$> running w) (timers w) (ticks w) (calls w).
Definition list_del_timer (t : Z) : M wheel unit :=
  modify (unlink t) ;;; upd_timer t (set_linked false).

Definition detach_timer (t : Z) : M wheel Z :=
  p <- timer_pending t ;;
  if negb p then ret 0 else (list_del_timer t ;;; ret 1).

Definition del_timer (t : Z) : M wheel Z :=
  r <- detach_timer t ;;
  upd_timer t (set_linked false) ;;;
  ret r.

(** The loop of [cascade_timers]: the successor is read before the timer is
    moved, so the loop ends with the node that is last at that time. *)
Fixpoint cascade_loop (fuel : nat) (n i : Z) : M wheel unit :=
  match fuel with
  | O => stuck
  | S fuel =>
      xs <- gets (fun w => bucket w n i) ;;
      match xs with
      | [] => ret tt
      | [t] => list_del_timer t ;;; internal_add_timer t
      | t :: _ => list_del_timer t ;;; internal_add_timer t ;;; cascade_loop fuel n i
      end
  end.
Definition cascade_timers (fuel : nat) (n : Z) : M wheel unit :=
  i <- gets (fun w => index w n) ;;
  cascade_loop fuel n i ;;;
  modify (set_bucket n i []) ;;;
  modify (set_index n (Z.land (i + 1) TVN_MASK)).

(** [do cascade_timers(tvecs[n]) while (tvecs[n]->index == 1 && ++n < NOOF_TVECS)];
    [levels] counts the vectors that are left, [n] is the number of the vector. *)
Fixpoint cascades (levels fuel : nat) (n : Z) : M wheel unit :=
  match levels with
  | O => ret tt
  | S levels =>
      cascade_timers fuel n ;;;
      i <- gets (fun w => index w n) ;;
      if i =? 1 then cascades levels fuel (n + 1) else ret tt
  end.

Section run.
(** The call through the function pointer of a timer. *)
Variable call : Z -> Z -> M wheel unit.

(** The part from [repeat] to the end of the inner loop. *)
Fixpoint expire_loop (fuel : nat) : M wheel unit :=
  match fuel with
  | O => stuck
  | S fuel =>
      xs <- gets (fun w => bucket w 1 (index w 1)) ;;
      match xs with
      | [] => ret tt
      | t :: _ =>
          x <- get_timer t ;;
          detach_timer t ;;;
          upd_timer t (set_linked false) ;;;
          call (function x) (data x) ;;;
          expire_loop fuel
      end
  end.

Fixpoint requeue (q : list Z) : M wheel unit :=
  match q with
  | [] => ret tt
  | t :: q => internal_add_timer t ;;; requeue q
  end.

Definition run_once (fuel : nat) : M wheel unit :=
  i1 <- gets (fun w => index w 1) ;;
  (when i1 =? 0 do cascades 4 fuel 2) ;;;
  modify (set_running (Some [])) ;;;
  expire_loop fuel ;;;
  q <- gets (fun w => default [] (running w)) ;;
  modify (set_running None) ;;;
  modify (fun w => set_jiffies (u32 (timer_jiffies w + 1)) w) ;;;
  modify (fun w => set_index 1 (Z.land (index w 1 + 1) TVR_MASK) w) ;;;
  requeue q.

(** [run_timer_list]: [rounds] bounds the outer loop, [fuel] the lists. *)
Fixpoint run_timer_list (rounds fuel : nat) : M wheel unit :=
  match rounds with
  | O => stuck
  | S rounds =>
      w <- get ;;
      if s32 (ticks w - timer_jiffies w) >=? 0
      then run_once fuel ;;; run_timer_list rounds fuel
      else ret tt
  end.
Definition timer_bh := run_timer_list.
End run.
