(* ===== verification/TimerProofs.v ===== *)
(** * TimerProofs: the invariant of the timer wheel

    A timer of the first vector expires within 256 ticks and lies in the list
    of its last 8 bits.  A timer of vector [n] lies in the list of the 6 bits
    of its block of [span n] ticks, and the list is cascaded at the start of
    that block. *)
From S2P Require Import Prelude Timer.

Definition span (n : Z) : Z := 2 ^ (8 + 6 * (n - 2)).
Definition block (n e : Z) : Z := e / span n * span n.

(** Timer expiring at [e] may be in list [i] of vector [n] when the time is
    [T]; the vectors up to [d] have been cascaded for [T] already. *)
Definition placed (T d n i e : Z) : Prop :=
  (n = 1 /\ T <= e < T + 256 /\ i = e mod 256) \/
  (2 <= n <= 5 /\ i = (e / span n) mod 64 /\
   (if n <=? d then T < block n e else T <= block n e) /\ block n e < T + 64 * span n).

(** The index of vector [n] when everything before time [T] has been done. *)
Definition index_at (T n : Z) : Z := ((T + span n - 1) / span n) mod 64.

Record wheel_ok (w : wheel) (T d : Z) : Prop := {
  k_now : timer_jiffies w = T;
  k_T : 0 <= T < 2 ^ 32;
  k_in : forall n i t, t ∈ bucket w n i ->
    exists x, timers w !! t = Some x /\ linked x = true /\ placed T d n i (expires x);
  k_one : forall n i m j t, t ∈ bucket w n i -> t ∈ bucket w m j -> n = m /\ i = j;
  k_nodup : forall n i, NoDup (bucket w n i);
  k_all : forall t x, timers w !! t = Some x -> linked x = true -> exists n i, t ∈ bucket w n i;
  k_exp : forall t x, timers w !! t = Some x -> 0 <= expires x < 2 ^ 32
}.

Section arithmetic.
Lemma span_pos n : 2 <= n -> 0 < span n.
Proof. intros. unfold span. apply Z.pow_pos_nonneg; lia. Qed.
Lemma span_next n : 2 <= n -> span (n + 1) = 64 * span n.
Proof. intros. unfold span. replace (8 + 6 * (n + 1 - 2)) with (6 + (8 + 6 * (n - 2))) by lia. by rewrite Z.pow_add_r by lia. Qed.
Lemma span_le m n : 2 <= m <= n -> span m <= span n.
Proof. intros. unfold span. apply Z.pow_le_mono_r; lia. Qed.
Lemma span_divide m n : 2 <= m <= n -> (span m | span n).
Proof.
  intros. exists (2 ^ (6 * (n - m))). unfold span. rewrite <-Z.pow_add_r by lia. f_equal. lia.
Qed.
Lemma block_le n e : 2 <= n -> block n e <= e < block n e + span n.
Proof.
  intros. unfold block. pose proof (span_pos n). pose proof (Z.div_mod e (span n)). pose proof (Z.mod_pos_bound e (span n)).
  nia.
Qed.
Lemma block_mod n e : 2 <= n -> block n e mod span n = 0.
Proof. intros. unfold block. apply Z.mod_mul. pose proof (span_pos n). lia. Qed.

(** The list that is cascaded at [T] holds timers of the block that starts at
    [T], and only them. *)
Lemma block_now n e T :
  2 <= n -> T mod span n = 0 -> T <= block n e < T + 64 * span n ->
  (e / span n) mod 64 = (T / span n) mod 64 -> block n e = T.
Proof.
  intros Hn HT Hb Hm. unfold block in *. set (u := span n) in *. assert (0 < u) by by apply span_pos.
  assert (T = T / u * u) as E by (rewrite Z.mul_comm; apply Z.div_exact; lia).
  set (p := T / u) in *. set (q := e / u) in *.
  assert (p <= q < p + 64) by nia.
  assert ((q - p) mod 64 = 0) as Hd by (rewrite Zminus_mod, Hm, Z.sub_diag; done).
  rewrite Z.mod_small in Hd by lia. assert (q = p) by lia.
  nia.
Qed.
Lemma block_eq n e T : 2 <= n -> T mod span n = 0 -> block n e = T -> (e / span n) mod 64 = (T / span n) mod 64.
Proof.
  intros Hn HT <-. unfold block. rewrite Z.div_mul; [done|]. pose proof (span_pos n). lia.
Qed.

Lemma index_at_multiple T n : 2 <= n -> T mod span n = 0 -> index_at T n = (T / span n) mod 64.
Proof.
  intros Hn HT. unfold index_at. f_equal. set (u := span n) in *. assert (0 < u) by by apply span_pos.
  symmetry. apply (Z.div_unique_pos _ _ _ (u - 1)); [lia|].
  pose proof (Z.div_mod T u). lia.
Qed.
Lemma index_at_next T n : 2 <= n -> index_at (T + 1) n = (T / span n + 1) mod 64.
Proof.
  intros Hn. unfold index_at. f_equal. set (u := span n) in *. assert (0 < u) by by apply span_pos.
  replace (T + 1 + u - 1) with (T + 1 * u) by lia. by rewrite Z.div_add by lia.
Qed.
Lemma index_at_same T n : 2 <= n -> T mod span n <> 0 -> index_at (T + 1) n = index_at T n.
Proof.
  intros Hn HT. rewrite index_at_next by done. unfold index_at. f_equal. set (u := span n) in *.
  assert (0 < u) by by apply span_pos. pose proof (Z.div_mod T u). pose proof (Z.mod_pos_bound T u).
  apply (Z.div_unique_pos _ _ _ (T mod u - 1)); lia.
Qed.
Lemma multiple_next T n : 2 <= n -> T mod span n = 0 -> (T / span n) mod 64 = 0 <-> T mod span (n + 1) = 0.
Proof.
  intros Hn HT. rewrite span_next, (Z.mul_comm 64) by done. pose proof (span_pos n Hn).
  rewrite Z.rem_mul_r by lia. rewrite HT. nia.
Qed.
Lemma span_2 : span 2 = 256.
Proof. done. Qed.
Lemma not_multiple_above T m n : 2 <= m <= n -> T mod span m <> 0 -> T mod span n <> 0.
Proof.
  intros H Hm Hn. apply Hm. pose proof (span_pos m). pose proof (span_pos n).
  apply Z.mod_divide in Hn; [|lia]. apply Z.mod_divide; [lia|]. etrans; [by apply (span_divide m n)|done].
Qed.

(** Where [internal_add_timer] puts a timer. *)
Lemma mask_mod x k : 0 <= k -> Z.land x (2 ^ k - 1) = x mod 2 ^ k.
Proof. intros. rewrite <-Z.land_ones by done. f_equal. rewrite Z.ones_equiv. lia. Qed.

Lemma placed_above T n e : 2 <= n <= 5 -> span n <= e - T < 64 * span n -> placed T 5 n ((e / span n) mod 64) e.
Proof.
  intros Hn He. right. pose proof (block_le n e). split_and!; [lia..|done| |lia].
  rewrite (proj2 (Z.leb_le n 5)) by lia. lia.
Qed.

Lemma choose_ok w e T :
  timer_jiffies w = T -> 0 <= T <= e -> e - T < 2 ^ 31 ->
  exists m i, choose_vec w e = (m, i) /\ placed T 5 m i e /\
    (forall n, 2 <= n -> e - T < span n -> m < n) /\ 1 <= m.
Proof.
  intros E HT He. rewrite <-E in *. clear E. unfold choose_vec. rewrite u32_small by lia.
  remember (e - timer_jiffies w) as d eqn:Ed.
  assert (forall n, 2 <= n -> forall m, 2 <= m -> span m <= d -> d < span n -> m < n) as Hlt.
  { intros n Hn m Hm H1 H2. destruct (Z.lt_ge_cases m n); [done|]. pose proof (span_le n m). lia. }
  unfold TVR_SIZE, TVR_BITS, TVN_BITS, TVR_MASK, TVN_MASK, TVR_SIZE, TVN_SIZE, TVR_BITS, TVN_BITS.
  rewrite !Z.shiftl_1_l, !mask_mod, !Z.shiftr_div_pow2 by lia.
  change (8 + 6) with 14. change (8 + 2 * 6) with 20. change (8 + 3 * 6) with 26.
  repeat case_match; zb; (eexists _, _; split; [reflexivity|]).
  - change (2 ^ 8) with 256 in *. split; [left; lia|]. split; [intros; lia|lia].
  - split; [apply (placed_above _ 2); [lia|change (span 2) with 256; lia]|]. split; [|lia].
    intros n ??. apply Hlt; [done|lia|change (span 2) with 256; lia|done].
  - split; [apply (placed_above _ 3); [lia|change (span 3) with (2 ^ 14); lia]|]. split; [|lia].
    intros n ??. apply Hlt; [done|lia|change (span 3) with (2 ^ 14); lia|done].
  - split; [apply (placed_above _ 4); [lia|change (span 4) with (2 ^ 20); lia]|]. split; [|lia].
    intros n ??. apply Hlt; [done|lia|change (span 4) with (2 ^ 20); lia|done].
  - rewrite s32_small in * by lia. lia.
  - split; [apply (placed_above _ 5); [lia|change (span 5) with (2 ^ 26); lia]|]. split; [|lia].
    intros n ??. apply Hlt; [done|lia|change (span 5) with (2 ^ 26); lia|done].
Qed.

Lemma placed_mono T d n i e : 1 <= d -> placed T 5 n i e -> placed T d n i e.
Proof.
  intros Hd [?|(Hn & ? & Hb & ?)]; [by left|right]. split_and!; [lia..|done| |done].
  rewrite (proj2 (Z.leb_le n 5)) in Hb by lia. case_match; lia.
Qed.
End arithmetic.

(** ** The calls *)
Section calls.
Implicit Types (w : wheel) (t n i T d : Z).

Lemma bucket_set n i xs w m j : bucket (set_bucket n i xs w) m j = if (m =? n) && (j =? i) then xs else bucket w m j.
Proof.
  unfold bucket. simpl. destruct (Z.eqb_spec m n), (Z.eqb_spec j i); simpl; subst;
    rewrite ?lookup_insert_eq; try done; rewrite lookup_insert_ne; try done; congruence.
Qed.
Lemma bucket_unlink t w m j : bucket (unlink t w) m j = filter (fun u => u <> t) (bucket w m j).
Proof. unfold bucket. simpl. rewrite lookup_fmap. by destruct (vecs w !! (m, j)). Qed.

Lemma get_timer_bind {B} w t x (f : timer -> M wheel B) : timers w !! t = Some x -> bind (get_timer t) f w = f x w.
Proof. intros E. apply bind_ok. unfold get_timer. by rewrite E. Qed.
Lemma upd_timer_ok w t x f : timers w !! t = Some x -> upd_timer t f w = Ok (tt, set_timer t (f x) w).
Proof. intros E. unfold upd_timer. by erewrite get_timer_bind. Qed.

(** A timer on no list. *)
Definition fresh w t : Prop := forall n i, t ∉ bucket w n i.

Lemma not_linked_fresh w T d t x : wheel_ok w T d -> timers w !! t = Some x -> linked x = false -> fresh w t.
Proof.
  intros H Hx Hl n i Hin. destruct (k_in _ _ _ H _ _ _ Hin) as (y & Hy & Hly & _). congruence.
Qed.

(** Everything but the lists and the states of timers. *)
Definition same_rest w w' : Prop :=
  indices w' = indices w /\ timer_jiffies w' = timer_jiffies w /\ running w' = running w /\
  ticks w' = ticks w /\ calls w' = calls w.
Lemma same_rest_trans w1 w2 w3 : same_rest w1 w2 -> same_rest w2 w3 -> same_rest w1 w3.
Proof. unfold same_rest. intros (?&?&?&?&?) (?&?&?&?&?). split_and!; congruence. Qed.
Lemma same_index w w' n : same_rest w w' -> index w' n = index w n.
Proof. intros (E & _). unfold index. by rewrite E. Qed.

Lemma internal_add_ok w T d t x :
  wheel_ok w T d -> 1 <= d <= 5 -> running w = None -> timers w !! t = Some x -> fresh w t ->
  T <= expires x -> expires x - T < 2 ^ 31 ->
  exists w' m j, internal_add_timer t w = Ok (tt, w') /\ wheel_ok w' T d /\ same_rest w w' /\
    timers w' = <[t := set_linked true x]> (timers w) /\
    (forall n, 2 <= n -> expires x - T < span n -> m < n) /\
    (forall n i, bucket w' n i = if (n =? m) && (i =? j) then bucket w n i ++ [t] else bucket w n i).
Proof.
  intros H Hd Hr Hx Hf He1 He2. pose proof (k_T _ _ _ H). pose proof (k_exp _ _ _ H _ _ Hx).
  destruct (choose_ok w (expires x) T) as (m & j & Ec & Hp & Hm & _); [apply H|lia|done|].
  set (w1 := set_bucket m j (bucket w m j ++ [t]) w).
  set (w2 := set_timer t (set_linked true x) w1).
  assert (forall n i, bucket w2 n i = if (n =? m) && (i =? j) then bucket w n i ++ [t] else bucket w n i) as Hb.
  { intros n i. change (bucket w2 n i) with (bucket w1 n i). unfold w1. rewrite bucket_set.
    destruct (Z.eqb_spec n m), (Z.eqb_spec i j); simpl; by subst. }
  assert (forall n i u, u ∈ bucket w2 n i -> (u = t /\ n = m /\ i = j) \/ (u <> t /\ u ∈ bucket w n i)) as Hin.
  { intros n i u. rewrite Hb. destruct (Z.eqb_spec n m), (Z.eqb_spec i j); simpl; subst;
      rewrite ?list.elem_of_app, ?list.elem_of_cons, ?elem_of_nil; intros Hu; destruct (decide (u = t)) as [->|];
      try (exfalso; by eapply Hf); naive_solver. }
  exists w2, m, j. split_and!; [| |by split_and!|done|done|done].
  - unfold internal_add_timer. erewrite get_timer_bind by done. rewrite gets_bind, Hr. rets. rewrite get_bind, Ec.
    rets. rewrite put_bind. change (set_bucket _ _ _ _) with w1. by apply (upd_timer_ok w1 t x).
  - split; simpl; try apply H.
    + intros n i u [(-> & -> & ->)|[Hne Hu]]%Hin.
      * exists (set_linked true x). rewrite lookup_insert_eq. split_and!; [done..|]. apply placed_mono; [lia|done].
      * rewrite lookup_insert_ne by done. by apply (k_in _ _ _ H).
    + intros n i n' i' u [(-> & -> & ->)|[Hne Hu]]%Hin [(E & -> & ->)|[Hne' Hu']]%Hin; try done. by eapply (k_one _ _ _ H).
    + intros n i. rewrite Hb. case_match; [|apply H]. apply list.NoDup_app. split_and!; [apply H| |apply NoDup_singleton].
      intros u Hu ->%list_elem_of_singleton. by eapply Hf.
    + intros u y. rewrite lookup_insert. case_decide as Hu.
      * subst. intros _ _. exists m, j. rewrite Hb, !Z.eqb_refl. simpl. apply list.elem_of_app. right. by left.
      * intros Hy Hl. destruct (k_all _ _ _ H _ _ Hy Hl) as (n & i & Hni). exists n, i. rewrite Hb.
        case_match; [|done]. apply list.elem_of_app. by left.
    + intros u y. rewrite lookup_insert. case_decide; [intros [= <-]; by apply (k_exp _ _ _ H t x)|apply (k_exp _ _ _ H)].
Qed.

Lemma list_del_timer_ok w T d t x :
  wheel_ok w T d -> timers w !! t = Some x ->
  exists w', list_del_timer t w = Ok (tt, w') /\ wheel_ok w' T d /\
    indices w' = indices w /\ timer_jiffies w' = timer_jiffies w /\ ticks w' = ticks w /\ calls w' = calls w /\
    running w' = filter (fun u => u <> t) <$> running w /\
    timers w' = <[t := set_linked false x]> (timers w) /\ fresh w' t /\
    (forall n i, bucket w' n i = filter (fun u => u <> t) (bucket w n i)).
Proof.
  intros H Hx. set (w1 := unlink t w). set (w2 := set_timer t (set_linked false x) w1).
  assert (forall n i, bucket w2 n i = filter (fun u => u <> t) (bucket w n i)) as Hb by (intros; apply bucket_unlink).
  assert (forall n i u, u ∈ bucket w2 n i <-> u <> t /\ u ∈ bucket w n i) as Hin.
  { intros n i u. by rewrite Hb, list_elem_of_filter. }
  exists w2. split_and!; try done.
  - unfold list_del_timer. rewrite modify_bind. by apply (upd_timer_ok w1 t x).
  - split; simpl; try apply H.
    + intros n i u [Hne Hu]%Hin. rewrite lookup_insert_ne by done. by apply (k_in _ _ _ H).
    + intros n i n' i' u [Hne Hu]%Hin [Hne' Hu']%Hin. by eapply (k_one _ _ _ H).
    + intros n i. rewrite Hb. apply list.NoDup_filter, H.
    + intros u y. rewrite lookup_insert. case_decide; [by intros [= <-]|]. intros Hy Hl.
      destruct (k_all _ _ _ H _ _ Hy Hl) as (n & i & Hni). exists n, i. by apply Hin.
    + intros u y. rewrite lookup_insert. case_decide; [intros [= <-]; by apply (k_exp _ _ _ H t x)|apply (k_exp _ _ _ H)].
  - intros n i [Hne _]%Hin. done.
Qed.
End calls.

(** ** Cascading *)
Section cascading.
Implicit Types (w : wheel) (t n i T d : Z).

Lemma filter_tail t (xs : list Z) : NoDup (t :: xs) -> filter (fun u => u <> t) (t :: xs) = xs.
Proof.
  intros [Hn _]%list.NoDup_cons. rewrite filter_cons_False by naive_solver.
  induction xs as [|x xs IH]; [done|]. apply list.not_elem_of_cons in Hn as [? ?].
  rewrite filter_cons_True by done. by rewrite IH.
Qed.

(** Moving one timer out of the list that is cascaded. *)
Lemma cascade_one w T n i t xs :
  wheel_ok w T (n - 1) -> 2 <= n <= 5 -> running w = None -> T mod span n = 0 -> i = (T / span n) mod 64 ->
  bucket w n i = t :: xs ->
  exists w', (list_del_timer t ;;; internal_add_timer t) w = Ok (tt, w') /\ wheel_ok w' T (n - 1) /\
    same_rest w w' /\ timers w' = timers w /\ bucket w' n i = xs.
Proof.
  intros H Hn Hr HT Hi Hb.
  assert (t ∈ bucket w n i) as Hin by (rewrite Hb; by left).
  destruct (k_in _ _ _ H _ _ _ Hin) as (x & Hx & Hl & Hp).
  assert (T <= expires x < T + span n) as He.
  { destruct Hp as [(? & _)|(_ & Hi' & Hge & Hlt)]; [lia|].
    rewrite (proj2 (Z.leb_gt n (n - 1))) in Hge by lia.
    pose proof (block_now n (expires x) T) as E. rewrite <-Hi', Hi in E. specialize (E ltac:(lia) HT ltac:(lia) eq_refl).
    pose proof (block_le n (expires x)). lia. }
  assert (span n <= 2 ^ 26) as Hu by (change (2 ^ 26) with (span 5); apply span_le; lia).
  destruct (list_del_timer_ok w T (n - 1) t x H Hx) as (w1 & E1 & H1 & Ei1 & Ej1 & Et1 & Ec1 & Er1 & Em1 & Hf1 & Hb1).
  rewrite Hr in Er1. cbn in Er1.
  assert (timers w1 !! t = Some (set_linked false x)) as Hx1 by (by rewrite Em1, lookup_insert_eq).
  destruct (internal_add_ok w1 T (n - 1) t _ H1 ltac:(lia) Er1 Hx1 Hf1) as (w2 & m & j & E2 & H2 & S2 & Em2 & Hm & Hb2);
    [simpl; lia|simpl; lia|].
  exists w2. split_and!; [by run E1|done| | |].
  - destruct S2 as (?&?&?&?&?). split_and!; congruence.
  - rewrite Em2, Em1, insert_insert_eq. apply insert_id. rewrite Hx. f_equal.
    destruct x. simpl in *. by subst.
  - rewrite Hb2. specialize (Hm n ltac:(lia) ltac:(simpl; lia)).
    rewrite (proj2 (Z.eqb_neq n m)) by lia. simpl. rewrite Hb1, Hb. apply filter_tail. rewrite <-Hb. apply H.
Qed.

Lemma cascade_loop_ok fuel w T n i xs :
  wheel_ok w T (n - 1) -> 2 <= n <= 5 -> running w = None -> T mod span n = 0 -> i = (T / span n) mod 64 ->
  bucket w n i = xs -> (length xs < fuel)%nat ->
  exists w', cascade_loop fuel n i w = Ok (tt, w') /\ wheel_ok w' T (n - 1) /\
    same_rest w w' /\ timers w' = timers w /\ bucket w' n i = [].
Proof.
  intros H Hn Hr HT Hi. revert w xs H Hr. induction fuel as [|fuel IH]; intros w xs H Hr Hb Hf; [lia|].
  cbn [cascade_loop]. rewrite gets_bind, Hb. destruct xs as [|t xs].
  - exists w. by split_and!.
  - destruct (cascade_one w T n i t xs H Hn Hr HT Hi Hb) as (w1 & E1 & H1 & S1 & M1 & B1).
    destruct xs as [|u xs]; [by exists w1|].
    destruct (IH w1 (u :: xs) H1) as (w2 & E2 & H2 & S2 & M2 & B2); [|done|simpl in *; lia|].
    { destruct S1 as (_ & _ & -> & _). done. }
    exists w2. split_and!; [|done|by eapply same_rest_trans|congruence|done].
    rewrite <-bind_assoc. by erewrite bind_ok by exact E1.
Qed.

Lemma placed_done T n i e :
  2 <= n <= 5 -> T mod span n = 0 -> placed T (n - 1) n i e -> i <> (T / span n) mod 64 -> placed T n n i e.
Proof.
  intros Hn HT [?|(_ & Hi & Hb & Hlt)] Hne; [by left|right].
  rewrite (proj2 (Z.leb_gt n (n - 1))) in Hb by lia.
  split_and!; [lia..|done| |done]. rewrite Z.leb_refl.
  destruct (decide (block n e = T)) as [E|]; [|lia].
  destruct Hne. rewrite Hi. apply block_eq; [lia|done|done].
Qed.
Lemma placed_step T n m i e : m <> n -> placed T (n - 1) m i e -> placed T n m i e.
Proof.
  intros Hne [?|(Hm & Hi & Hb & Hlt)]; [by left|right]. split_and!; [lia..|done| |done].
  destruct (Z.leb_spec m (n - 1)), (Z.leb_spec m n); try lia.
Qed.
Lemma placed_free T d i m e :
  (forall n, d < n <= 5 -> 2 <= n -> T mod span n <> 0) -> placed T d m i e -> placed T 5 m i e.
Proof.
  intros HT [?|(Hm & Hi & Hb & Hlt)]; [by left|right]. split_and!; [lia..|done| |done].
  rewrite (proj2 (Z.leb_le m 5)) by lia. destruct (Z.leb_spec m d); [done|].
  destruct (decide (block m e = T)) as [E|]; [|lia].
  destruct (HT m); [lia..|]. rewrite <-E. apply block_mod. lia.
Qed.

Lemma wheel_placed w T d d' :
  wheel_ok w T d ->
  (forall n i t x, t ∈ bucket w n i -> timers w !! t = Some x -> placed T d n i (expires x) -> placed T d' n i (expires x)) ->
  wheel_ok w T d'.
Proof.
  intros [] Hp. split; try done. intros n i t Ht. destruct (k_in0 n i t Ht) as (x & ? & ? & ?).
  exists x. split_and!; [done..|by eapply Hp].
Qed.
(** Clearing an empty list and setting an index. *)
Lemma wheel_set_index w T d n i m j :
  wheel_ok w T d -> bucket w n i = [] -> wheel_ok (set_index m j (set_bucket n i [] w)) T d.
Proof.
  intros [] Hb.
  assert (forall a b, bucket (set_index m j (set_bucket n i [] w)) a b = bucket w a b) as E.
  { intros a b. change (bucket (set_bucket n i [] w) a b = bucket w a b). rewrite bucket_set.
    destruct (Z.eqb_spec a n), (Z.eqb_spec b i); simpl; subst; done. }
  split; simpl; try done.
  - intros a b u. rewrite E. apply k_in0.
  - intros a b c e u. rewrite !E. apply k_one0.
  - intros a b. by rewrite E.
  - intros u y Hy Hl. destruct (k_all0 _ _ Hy Hl) as (a & b & ?). exists a, b. by rewrite E.
Qed.

Lemma cascade_timers_ok fuel w T n :
  wheel_ok w T (n - 1) -> 2 <= n <= 5 -> running w = None -> T mod span n = 0 ->
  index w n = (T / span n) mod 64 -> (forall i, (length (bucket w n i) < fuel)%nat) ->
  exists w', cascade_timers fuel n w = Ok (tt, w') /\ wheel_ok w' T n /\
    timer_jiffies w' = timer_jiffies w /\ running w' = None /\ ticks w' = ticks w /\ calls w' = calls w /\
    timers w' = timers w /\ index w' n = (T / span n + 1) mod 64 /\
    (forall m, m <> n -> index w' m = index w m).
Proof.
  intros H Hn Hr HT Hi Hf. unfold cascade_timers. rewrite gets_bind, Hi. set (i := (T / span n) mod 64) in *.
  destruct (cascade_loop_ok fuel w T n i (bucket w n i)) as (w1 & E1 & H1 & S1 & M1 & B1); [done..|].
  run E1. rewrite modify_bind. eexists. split; [reflexivity|].
  pose proof S1 as (_ & ? & ? & ? & ?). split_and!; try (simpl; congruence).
  - eapply wheel_placed; [by apply wheel_set_index|]. intros m j t x Hin _ Hp.
    destruct (decide (m = n)) as [->|]; [|by apply placed_step].
    apply placed_done; [done..|]. intros ->. change (t ∈ bucket (set_bucket n i [] w1) n i) in Hin.
    rewrite bucket_set, !Z.eqb_refl in Hin. by apply not_elem_of_nil in Hin.
  - unfold index. simpl. rewrite lookup_insert_eq. simpl. unfold TVN_MASK, TVN_SIZE, TVN_BITS.
    rewrite mask_mod by lia. change (2 ^ 6) with 64. unfold i. rewrite Zplus_mod_idemp_l. done.
  - intros m Hm. unfold index. simpl. rewrite lookup_insert_ne by done. by apply same_index.
Qed.

(** All lists fit the fuel when there are no more timers than fuel. *)
Lemma bucket_fuel fuel w T d n i : wheel_ok w T d -> (size (timers w) < fuel)%nat -> (length (bucket w n i) < fuel)%nat.
Proof.
  intros H Hf. rewrite <-size_dom in Hf.
  assert (list_to_set (bucket w n i) ⊆ dom (timers w)) as Hs.
  { intros t Ht%elem_of_list_to_set. destruct (k_in _ _ _ H _ _ _ Ht) as (x & ? & _). by apply elem_of_dom_2 in H0. }
  apply subseteq_size in Hs. rewrite size_list_to_set in Hs by apply H. lia.
Qed.

Lemma cascades_ok levels fuel w T n :
  wheel_ok w T (n - 1) -> 2 <= n -> n + Z.of_nat levels = 6 -> (0 < levels)%nat -> running w = None -> T mod span n = 0 ->
  (forall m, 2 <= m <= 5 -> index w m = if m <? n then index_at (T + 1) m else index_at T m) ->
  (size (timers w) < fuel)%nat ->
  exists w', cascades levels fuel n w = Ok (tt, w') /\ wheel_ok w' T 5 /\
    timer_jiffies w' = timer_jiffies w /\ running w' = None /\ ticks w' = ticks w /\ calls w' = calls w /\
    timers w' = timers w /\ index w' 1 = index w 1 /\
    (forall m, 2 <= m <= 5 -> index w' m = index_at (T + 1) m).
Proof.
  revert w n. induction levels as [|levels IH]; intros w n H Hn Hl Hl0 Hr HT Hi Hf; [lia|].
  destruct (cascade_timers_ok fuel w T n) as (w1 & E1 & H1 & J1 & R1 & T1 & C1 & M1 & I1 & O1); [done|lia|done|done| |intros; by eapply bucket_fuel|].
  { rewrite Hi, (proj2 (Z.ltb_ge n n)) by lia. apply index_at_multiple; [lia|done]. }
  cbn [cascades]. run E1. rewrite gets_bind, I1.
  assert (forall m, 2 <= m <= 5 -> index w1 m = if m <? n + 1 then index_at (T + 1) m else index_at T m) as Hi1.
  { intros m Hm. destruct (decide (m = n)) as [->|].
    - rewrite I1, (proj2 (Z.ltb_lt n (n + 1))) by lia. by rewrite index_at_next by lia.
    - rewrite O1, Hi by done. destruct (Z.ltb_spec m n), (Z.ltb_spec m (n + 1)); lia || done. }
  destruct (Z.eqb_spec ((T / span n + 1) mod 64) 1) as [Eq|Ne]; [destruct levels as [|levels]|].
  - exists w1. assert (n = 5) as -> by lia. split_and!; try done.
    + apply O1. lia.
    + intros m Hm. rewrite Hi1 by done. by rewrite (proj2 (Z.ltb_lt m (5 + 1))) by lia.
  - destruct (IH w1 (n + 1)) as (w2 & E2 & H2 & J2 & R2 & T2 & C2 & M2 & I2 & O2); [|lia..| | | | |].
    + by replace (n + 1 - 1) with n by lia.
    + done.
    + apply (proj1 (multiple_next T n Hn HT)). pose proof (Z.mod_pos_bound (T / span n) 64).
      rewrite Z.add_mod in Eq by lia. destruct (decide ((T / span n) mod 64 = 63)) as [E|]; [by rewrite E in Eq|].
      rewrite (Z.mod_small (_ + _)) in Eq; change (1 mod 64) with 1 in *; lia.
    + done.
    + by rewrite M1.
    + exists w2. split_and!; try done; try congruence. rewrite I2. apply O1. lia.
  - exists w1. split_and!; try done.
    + eapply wheel_placed; [done|]. intros m i t x _ _. apply placed_free. intros k Hk _.
      apply (not_multiple_above T (n + 1)); [lia|]. intros E. apply (proj2 (multiple_next T n Hn HT)) in E. apply Ne.
      rewrite Z.add_mod, E by lia. done.
    + apply O1. lia.
    + intros m Hm. rewrite Hi1 by done. destruct (Z.ltb_spec m (n + 1)); [done|]. symmetry. apply index_at_same; [lia|].
      apply (not_multiple_above T (n + 1)); [lia|]. intros E. apply (proj2 (multiple_next T n Hn HT)) in E. apply Ne.
      rewrite Z.add_mod, E by lia. done.
Qed.
End cascading.
