(* ===== verification/TimerSpec.v ===== *)
(** * TimerSpec: timers fire when they expire, and only then *)
From S2P Require Import Prelude Timer TimerProofs.

(** Callbacks that leave the timers alone, as [process_timeout] of sched.c
    does: what is left is that they were made. *)
Definition call (f d : Z) : M wheel unit := modify (add_call (f, d)).

(** The wheel between two clock interrupts: everything that expires before
    the present tick has been called. *)
Record wheel_inv (w : wheel) : Prop := {
  i_ok : wheel_ok w (timer_jiffies w) 1;
  i_index1 : index w 1 = timer_jiffies w mod 256;
  i_index : forall n, 2 <= n <= 5 -> index w n = index_at (timer_jiffies w) n;
  i_running : running w = None;
  i_ticks : ticks w = timer_jiffies w
}.

Definition pending (w : wheel) (t : Z) (x : timer) : Prop := timers w !! t = Some x /\ linked x = true.
(** The state of the timers after the calls of [fired]. *)
Definition stop_all (fired : list Z) (ts : gmap Z timer) : gmap Z timer :=
  map_imap (fun t x => Some (if decide (t ∈ fired) then set_linked false x else x)) ts.

Section firing.
Implicit Types (w : wheel) (T t : Z).

Lemma stop_all_nil ts : stop_all [] ts = ts.
Proof.
  apply map_eq. intros t. unfold stop_all. rewrite map_lookup_imap. destruct (ts !! t); [|done].
  done.
Qed.
Lemma stop_all_cons t x xs ts :
  ts !! t = Some x -> stop_all xs (<[t := set_linked false x]> ts) = stop_all (t :: xs) ts.
Proof.
  intros Hx. apply map_eq. intros u. unfold stop_all. rewrite !map_lookup_imap, lookup_insert.
  destruct (decide (t = u)) as [->|Hne]; simpl.
  - rewrite Hx. simpl. rewrite (decide_True (P := u ∈ u :: xs)) by (by left). by case_decide.
  - destruct (ts !! u); [|done]. simpl. do 2 f_equal.
    apply decide_ext. rewrite list.elem_of_cons. naive_solver.
Qed.
(** The callbacks of a list of timers. *)
Fixpoint callbacks (ts : gmap Z timer) (xs : list Z) : list (Z * Z) :=
  match xs with
  | [] => []
  | t :: xs => match ts !! t with
               | Some x => (function x, data x) :: callbacks ts xs
               | None => callbacks ts xs
               end
  end.
Lemma callbacks_insert ts t x xs : t ∉ xs -> callbacks (<[t := x]> ts) xs = callbacks ts xs.
Proof.
  induction xs as [|u xs IH]; intros Hn; [done|]. apply list.not_elem_of_cons in Hn as [Hne Hn].
  cbn [callbacks]. rewrite lookup_insert_ne by done. by rewrite IH.
Qed.

Lemma expire_loop_ok fuel w T xs :
  wheel_ok w T 5 -> running w = Some [] -> bucket w 1 (index w 1) = xs -> (length xs < fuel)%nat ->
  exists w', expire_loop call fuel w = Ok (tt, w') /\ wheel_ok w' T 5 /\ running w' = Some [] /\
    indices w' = indices w /\ timer_jiffies w' = timer_jiffies w /\ ticks w' = ticks w /\
    bucket w' 1 (index w 1) = [] /\ timers w' = stop_all xs (timers w) /\
    calls w' = calls w ++ callbacks (timers w) xs.
Proof.
  revert w xs. induction fuel as [|fuel IH]; intros w xs H Hr Hb Hf; [lia|].
  cbn [expire_loop]. rewrite gets_bind, Hb. destruct xs as [|t xs].
  - exists w. rewrite stop_all_nil, app_nil_r. by split_and!.
  - assert (t ∈ bucket w 1 (index w 1)) as Hin by (rewrite Hb; by left).
    pose proof (k_nodup _ _ _ H 1 (index w 1)) as Hn. rewrite Hb in Hn.
    destruct (k_in _ _ _ H _ _ _ Hin) as (x & Hx & Hl & _).
    destruct (list_del_timer_ok w T 5 t x H Hx) as (w1 & E1 & H1 & Ei1 & Ej1 & Et1 & Ec1 & Er1 & Em1 & Hf1 & Hb1).
    rewrite Hr in Er1. cbn in Er1.
    set (w2 := add_call (function x, data x) (set_timer t (set_linked false x) w1)).
    assert (timers w2 = timers w1) as Em2.
    { simpl. rewrite Em1. by rewrite insert_insert_eq. }
    assert (wheel_ok w2 T 5) as H2.
    { destruct H1 as [H1a H1b H1c H1d H1e H1f H1g]. split; try done; rewrite ?Em2; done. }
    assert (index w2 1 = index w 1) as Ei2 by (unfold index; simpl; by rewrite Ei1).
    assert (bucket w2 1 (index w2 1) = xs) as Hb2.
    { rewrite Ei2. change (bucket w1 1 (index w 1) = xs). rewrite Hb1, Hb. by apply filter_tail. }
    destruct (IH w2 xs H2) as (w3 & E3 & H3 & R3 & I3 & J3 & T3 & B3 & M3 & C3); [done|done|simpl in Hf; lia|].
    exists w3. rewrite Ei2 in B3. split_and!; try done; try (simpl in *; congruence).
    + erewrite get_timer_bind by done. unfold detach_timer, timer_pending. rewrite !bind_assoc.
      erewrite get_timer_bind by done. rets. rewrite Hl. cbn [negb]. run E1. rets.
      erewrite bind_ok by (apply (upd_timer_ok w1 t (set_linked false x)); rewrite Em1; apply lookup_insert_eq).
      unfold call. rewrite modify_bind. simpl. exact E3.
    + rewrite M3, Em2, Em1. by apply stop_all_cons.
    + apply list.NoDup_cons in Hn as [Hn _]. rewrite C3, Em2, Em1, callbacks_insert by done.
      cbn [callbacks]. rewrite Hx. simpl. by rewrite Ec1, <-app_assoc.
Qed.

Lemma add_call_nil w : wheel_ok w (timer_jiffies w) 1 -> timer_jiffies w mod 256 <> 0 -> wheel_ok w (timer_jiffies w) 5.
Proof.
  intros H Hne. eapply wheel_placed; [done|]. intros n i t x _ _. apply placed_free. intros m Hm _.
  by apply (not_multiple_above _ 2); [lia|].
Qed.

(** Closing a tick: what is left expires later. *)
Lemma close_ok w T :
  wheel_ok w T 5 -> bucket w 1 (T mod 256) = [] -> T + 1 < 2 ^ 32 ->
  let w' := set_index 1 ((T + 1) mod 256) (set_jiffies (T + 1) (set_running None w)) in
  wheel_ok w' (T + 1) 1.
Proof.
  intros H Hb HT w'. pose proof (k_T _ _ _ H). split; try (by apply H); try (simpl; lia).
  intros n i t Hin. change (t ∈ bucket w n i) in Hin.
  destruct (k_in _ _ _ H _ _ _ Hin) as (x & Hx & Hl & Hp). exists x. split_and!; [done..|].
  destruct Hp as [(-> & He & ->)|(Hn & Hi & Hge & Hlt)].
  - left. split_and!; [done| |lia|done]. destruct (decide (expires x = T)) as [E|]; [|lia].
    rewrite E, Hb in Hin. by apply not_elem_of_nil in Hin.
  - right. rewrite (proj2 (Z.leb_le n 5)) in Hge by lia. rewrite (proj2 (Z.leb_gt n 1)) by lia.
    split_and!; [lia..|done|lia|lia].
Qed.

Lemma run_once_ok fuel w :
  let T := timer_jiffies w in
  wheel_inv w -> T + 1 < 2 ^ 32 -> (size (timers w) < fuel)%nat ->
  exists w' fired, run_once call fuel w = Ok (tt, w') /\
    NoDup fired /\ (forall t, t ∈ fired <-> exists x, pending w t x /\ expires x = T) /\
    timers w' = stop_all fired (timers w) /\ calls w' = calls w ++ callbacks (timers w) fired /\
    timer_jiffies w' = T + 1 /\ ticks w' = ticks w /\ running w' = None /\
    wheel_ok w' (T + 1) 1 /\ index w' 1 = (T + 1) mod 256 /\
    (forall n, 2 <= n <= 5 -> index w' n = index_at (T + 1) n).
Proof.
  intros T [Hok Hi1 Hi Hr Ht] HT Hf. fold T in Hok, Hi1, Hi.
  assert (exists w1, (when index w 1 =? 0 do cascades 4 fuel 2) w = Ok (tt, w1) /\ wheel_ok w1 T 5 /\
    running w1 = None /\ ticks w1 = ticks w /\ calls w1 = calls w /\ timers w1 = timers w /\
    index w1 1 = T mod 256 /\ (forall n, 2 <= n <= 5 -> index w1 n = index_at (T + 1) n))
    as (w1 & E1 & H1 & R1 & T1 & C1 & M1 & I1 & O1).
  { rewrite Hi1. destruct (Z.eqb_spec (T mod 256) 0) as [E|Hne].
    - destruct (cascades_ok 4 fuel w T 2) as (w1 & E1 & H1 & J1 & R1 & T1 & C1 & M1 & I1 & O1); try done; try lia.
      + intros m Hm. rewrite (proj2 (Z.ltb_ge m 2)) by lia. by apply Hi.
      + exists w1. split_and!; try done. by rewrite I1, Hi1.
    - exists w. split_and!; try done; [by apply add_call_nil|]. intros n Hn. rewrite Hi by done.
      symmetry. apply index_at_same; [lia|]. by apply (not_multiple_above _ 2); [lia|]. }
  set (w2 := set_running (Some []) w1).
  assert (wheel_ok w2 T 5) as H2 by (destruct H1; by split).
  destruct (expire_loop_ok fuel w2 T (bucket w2 1 (index w2 1)) H2) as
    (w3 & E3 & H3 & R3 & I3 & J3 & T3 & B3 & M3 & C3); [done|done| |].
  { eapply bucket_fuel; [done|]. change (size (timers w1) < fuel)%nat. by rewrite M1. }
  change (index w2 1) with (index w1 1) in *. rewrite I1 in *. set (xs := bucket w2 1 (T mod 256)) in *.
  assert (timer_jiffies w3 = T) as J3' by (rewrite J3; apply H2).
  assert (index w3 1 = T mod 256) as I31 by (unfold index in *; rewrite I3; exact I1).
  eexists _, xs. split_and!.
  - unfold run_once. rewrite gets_bind. run E1. rewrite modify_bind. change (set_running _ _) with w2. run E3.
    rewrite gets_bind, R3. rewrite !modify_bind. simpl. reflexivity.
  - apply H2.
  - intros t. split.
    + intros Hin. destruct (k_in _ _ _ H2 _ _ _ Hin) as (x & Hx & Hl & Hp). exists x.
      change (timers w2) with (timers w1) in Hx. rewrite M1 in Hx. split; [done|].
      destruct Hp as [(_ & He & E)|(? & _)]; [|lia].
      assert ((expires x - T) mod 256 = 0) as Hd by (rewrite Zminus_mod, <-E, Z.sub_diag; done).
      rewrite Z.mod_small in Hd; lia.
    + intros (x & [Hx Hl] & E). rewrite <-M1 in Hx. destruct (k_all _ _ _ H2 t x Hx Hl) as (n & i & Hin).
      destruct (k_in _ _ _ H2 _ _ _ Hin) as (x' & Hx' & _ & Hp). change (timers w2) with (timers w1) in Hx'. simplify_eq.
      destruct Hp as [(-> & _ & ->)|(Hn & Hi' & Hge & _)]; [by rewrite E in Hin|].
      rewrite (proj2 (Z.leb_le n 5)) in Hge by lia. pose proof (block_le n (expires x)). lia.
  - simpl. rewrite M3. simpl. by rewrite M1.
  - simpl. rewrite C3. simpl. by rewrite C1, M1.
  - simpl. rewrite J3'. apply u32_small. pose proof (k_T _ _ _ H2). lia.
  - simpl. rewrite T3. done.
  - done.
  - pose proof (close_ok w3 T H3 B3 HT) as Hc. cbn zeta in Hc.
    match goal with |- wheel_ok ?a _ _ => assert (a = set_index 1 ((T + 1) mod 256) (set_jiffies (T + 1) (set_running None w3))) as -> end; [|done].
    rewrite J3', u32_small by (pose proof (k_T _ _ _ H2); lia).
    f_equal. unfold index. simpl. fold (index w3 1). rewrite I31.
    unfold TVR_MASK, TVR_SIZE, TVR_BITS. rewrite mask_mod by lia. change (2 ^ 8) with 256. by rewrite Zplus_mod_idemp_l.
  - unfold index. simpl. rewrite lookup_insert_eq. simpl. fold (index w3 1). rewrite I31.
    unfold TVR_MASK, TVR_SIZE, TVR_BITS. rewrite mask_mod by lia. change (2 ^ 8) with 256. by rewrite Zplus_mod_idemp_l.
  - intros n Hn. unfold index. simpl. rewrite lookup_insert_ne by lia. rewrite I3. by apply O1.
Qed.

Lemma run_timer_list_ok fuel rounds w :
  wheel_inv w -> timer_jiffies w + 1 < 2 ^ 32 -> (size (timers w) < fuel)%nat -> (2 <= rounds)%nat ->
  exists w', run_timer_list call rounds fuel w = Ok (tt, w') /\ run_once call fuel w = Ok (tt, w').
Proof.
  intros Hw HT Hf Hr. destruct (run_once_ok fuel w Hw HT Hf) as (w' & xs & E & _ & _ & _ & _ & J & T1 & _).
  exists w'. split; [|done]. pose proof (i_ticks _ Hw) as Et. pose proof (k_T _ _ _ (i_ok _ Hw)).
  destruct rounds as [|[|rounds]]; [lia..|]. cbn [run_timer_list]. rewrite get_bind, Et, Z.sub_diag.
  change (s32 0 >=? 0) with true. cbn iota. run E. rewrite get_bind, T1, Et, J.
  replace (timer_jiffies w - (timer_jiffies w + 1)) with (-1) by lia. done.
Qed.
End firing.

(** What the clock interrupt does for the timers: [timer_bh], then [ticks++]. *)
Definition tick (rounds fuel : nat) : M wheel unit :=
  timer_bh call rounds fuel ;;; modify (fun w => set_ticks (u32 (ticks w + 1)) w).
Fixpoint tick_n (rounds fuel n : nat) : M wheel unit :=
  match n with O => ret tt | S n => tick rounds fuel ;;; tick_n rounds fuel n end.

Section ticks.
Implicit Types (w : wheel) (t : Z).

Lemma size_stop_all xs ts : size (stop_all xs ts) = size ts.
Proof.
  rewrite <-!size_dom. f_equal. apply set_eq. intros t. rewrite !elem_of_dom. unfold stop_all.
  rewrite map_lookup_imap. destruct (ts !! t); simpl; split; intros []; try done; by eexists.
Qed.

Lemma tick_ok rounds fuel w :
  wheel_inv w -> timer_jiffies w + 1 < 2 ^ 32 -> (size (timers w) < fuel)%nat -> (2 <= rounds)%nat ->
  exists w' fired, tick rounds fuel w = Ok (tt, w') /\ wheel_inv w' /\
    timer_jiffies w' = timer_jiffies w + 1 /\
    NoDup fired /\ (forall t, t ∈ fired <-> exists x, pending w t x /\ expires x = timer_jiffies w) /\
    timers w' = stop_all fired (timers w) /\ calls w' = calls w ++ callbacks (timers w) fired.
Proof.
  intros Hw HT Hf Hr. destruct (run_timer_list_ok fuel rounds w Hw HT Hf Hr) as (w1 & E1 & E1').
  destruct (run_once_ok fuel w Hw HT Hf) as (w1' & xs & E & Hn & Hin & M & C & J & T1 & R & H & I1 & I).
  rewrite E1' in E. simplify_eq. pose proof (i_ticks _ Hw) as Et. pose proof (k_T _ _ _ (i_ok _ Hw)).
  eexists _, xs. split; [unfold tick, timer_bh; run E1; reflexivity|]. split_and!; try done.
  split; simpl; rewrite ?J; try done.
  - destruct H. by split.
  - rewrite T1, Et, u32_small by lia. done.
Qed.

Lemma tick_n_ok rounds fuel n w t x :
  wheel_inv w -> timers w !! t = Some x -> linked x = true ->
  timer_jiffies w + Z.of_nat n < 2 ^ 32 -> (size (timers w) < fuel)%nat -> (2 <= rounds)%nat ->
  exists w', tick_n rounds fuel n w = Ok (tt, w') /\ wheel_inv w' /\ timer_jiffies w' = timer_jiffies w + Z.of_nat n /\
    timers w' !! t = Some (if expires x <? timer_jiffies w + Z.of_nat n then set_linked false x else x).
Proof.
  intros Hw Hx Hl HT Hf Hr.
  assert (forall w x', wheel_inv w -> timers w !! t = Some x' -> linked x' = true -> timer_jiffies w <= expires x') as Hlate.
  { clear. intros w x Hw Hx Hl. destruct (k_all _ _ _ (i_ok _ Hw) t x Hx Hl) as (n & i & Hin).
    destruct (k_in _ _ _ (i_ok _ Hw) _ _ _ Hin) as (y & Hy & _ & Hp). simplify_eq.
    destruct Hp as [(_ & ? & _)|(Hn & _ & Hge & _)]; [lia|].
    rewrite (proj2 (Z.leb_gt n 1)) in Hge by lia. pose proof (block_le n (expires x)). lia. }
  assert (forall m w, wheel_inv w -> timers w !! t = Some (set_linked false x) ->
    timer_jiffies w + Z.of_nat m < 2 ^ 32 -> (size (timers w) < fuel)%nat ->
    exists w', tick_n rounds fuel m w = Ok (tt, w') /\ wheel_inv w' /\ timer_jiffies w' = timer_jiffies w + Z.of_nat m /\
      timers w' !! t = Some (set_linked false x)) as Hdone.
  { clear -Hr. induction m as [|m IH]; intros w Hw Hx HT Hf; [exists w; split_and!; try done; lia|].
    destruct (tick_ok rounds fuel w Hw) as (w1 & xs & E & Hw1 & J & _ & _ & M & _); [lia|done|done|].
    destruct (IH w1 Hw1) as (w2 & E2 & Hw2 & J2 & M2); [|lia|by rewrite M, size_stop_all|].
    - rewrite M. unfold stop_all. rewrite map_lookup_imap, Hx. simpl. by case_decide.
    - exists w2. split_and!; [cbn [tick_n]; by run E|done|lia|done]. }
  revert w Hw Hx HT Hf. induction n as [|n IH]; intros w Hw Hx HT Hf.
  - exists w. pose proof (Hlate w x Hw Hx Hl). rewrite (proj2 (Z.ltb_ge _ _)) by lia. split_and!; try done; lia.
  - destruct (tick_ok rounds fuel w Hw) as (w1 & xs & E & Hw1 & J & _ & Hin & M & _); [lia|done|done|].
    assert (timers w1 !! t = Some (if decide (t ∈ xs) then set_linked false x else x)) as Hx1.
    { rewrite M. unfold stop_all. rewrite map_lookup_imap, Hx. done. }
    pose proof (Hlate w x Hw Hx Hl). cbn [tick_n]. rewrite size_stop_all in * || idtac.
    case_decide as Ht.
    + apply Hin in Ht as (x' & [Hx' _] & Ex). simplify_eq.
      destruct (Hdone n w1 Hw1 Hx1) as (w2 & E2 & Hw2 & J2 & M2); [lia|by rewrite M, size_stop_all|].
      exists w2. rewrite (proj2 (Z.ltb_lt _ _)) by lia. split_and!; [by run E|done|lia|done].
    + destruct (IH w1 Hw1 Hx1) as (w2 & E2 & Hw2 & J2 & M2); [lia|by rewrite M, size_stop_all|].
      exists w2. split_and!; [by run E|done|lia|]. rewrite M2, J.
      by replace (timer_jiffies w + 1 + Z.of_nat n) with (timer_jiffies w + Z.of_nat (S n)) by lia.
Qed.

(** The timers of the [n] ticks to come: [fired k] are those that expire at
    the [k]th of them, each once. *)
Definition fires (w : wheel) (n : nat) (fired : nat -> list Z) : Prop :=
  forall k, (k < n)%nat -> NoDup (fired k) /\
    forall u, u ∈ fired k <-> exists y, pending w u y /\ expires y = timer_jiffies w + Z.of_nat k.
(** The calls made during the first [m] of these ticks, in order. *)
Definition calls_of (ts : gmap Z timer) (fired : nat -> list Z) (m : nat) : list (Z * Z) :=
  flat_map (fun k => callbacks ts (fired k)) (seq 0 m).

Lemma lookup_stop_all xs ts u : stop_all xs ts !! u = (fun x => if decide (u ∈ xs) then set_linked false x else x) <$> ts !! u.
Proof. unfold stop_all. rewrite map_lookup_imap. by destruct (ts !! u). Qed.
Lemma callbacks_stop_all xs ts ys : callbacks (stop_all xs ts) ys = callbacks ts ys.
Proof.
  induction ys as [|u ys IH]; [done|]. cbn [callbacks]. rewrite lookup_stop_all, IH.
  destruct (ts !! u); [|done]. simpl. by case_decide.
Qed.
Lemma flat_map_seq_S {A} (f : nat -> list A) a m : flat_map f (seq (S a) m) = flat_map (fun k => f (S k)) (seq a m).
Proof. revert a. induction m as [|m IH]; intros a; [done|]. cbn [seq flat_map]. by rewrite IH. Qed.
Lemma calls_of_S xs ts fired m :
  callbacks ts xs ++ calls_of (stop_all xs ts) fired m = calls_of ts (fun k => match k with O => xs | S k => fired k end) (S m).
Proof.
  unfold calls_of. cbn [seq flat_map]. rewrite flat_map_seq_S. f_equal. apply flat_map_ext.
  intros k. apply callbacks_stop_all.
Qed.

Lemma tick_n_calls rounds fuel n w :
  wheel_inv w -> timer_jiffies w + Z.of_nat n < 2 ^ 32 -> (size (timers w) < fuel)%nat -> (2 <= rounds)%nat ->
  exists fired, fires w n fired /\ forall m, (m <= n)%nat ->
    exists w', tick_n rounds fuel m w = Ok (tt, w') /\ calls w' = calls w ++ calls_of (timers w) fired m.
Proof.
  revert w. induction n as [|n IH]; intros w Hw HT Hf Hr.
  { exists (fun _ => []). split; [intros k; lia|]. intros m Hm. exists w.
    replace m with O by lia. by rewrite app_nil_r. }
  destruct (tick_ok rounds fuel w Hw) as (w1 & xs & E & Hw1 & J & Hnd & Hin & M & C); [lia|done|done|].
  destruct (IH w1 Hw1) as (fired & Hfi & Hrun); [lia|by rewrite M, size_stop_all|done|].
  exists (fun k => match k with O => xs | S k => fired k end). split.
  - intros k Hk. destruct k as [|k].
    { split; [done|]. intros u. rewrite Hin. by rewrite Z.add_0_r. }
    destruct (Hfi k) as [Hnd' Hin']; [lia|]. split; [done|].
    intros u. rewrite Hin'. unfold pending. rewrite M, lookup_stop_all, J. split.
    + intros (y & [Hy Hl] & Ey). destruct (timers w !! u) as [z|]; [|done]. simpl in Hy.
      case_decide as Hu; injection Hy as Hy; subst y; [done|]. exists z. split; [done|lia].
    + intros (y & [Hy Hl] & Ey). exists y. rewrite Hy. simpl. rewrite decide_False; [split; [done|lia]|].
      intros Hu. apply Hin in Hu as (z & [Hz _] & Ez). simplify_eq. lia.
  - intros m Hm. destruct m as [|m]; [exists w; by rewrite app_nil_r|]. destruct (Hrun m) as (w' & E' & C'); [lia|].
    exists w'. split; [cbn [tick_n]; by run E|]. by rewrite C', C, <-calls_of_S, M, app_assoc.
Qed.

Lemma add_timer_ok w t x :
  wheel_inv w -> timers w !! t = Some x -> linked x = false ->
  timer_jiffies w <= expires x < timer_jiffies w + 2 ^ 31 ->
  exists w', add_timer t w = Ok (tt, w') /\ wheel_inv w' /\ timer_jiffies w' = timer_jiffies w /\
    timers w' = <[t := set_linked true x]> (timers w) /\ calls w' = calls w.
Proof.
  intros [Hok Hi1 Hi Hr Ht] Hx Hl He.
  destruct (internal_add_ok w _ 1 t x Hok ltac:(lia) Hr Hx) as (w' & m & j & E & H' & S & M & _);
    [by eapply not_linked_fresh|lia|lia|].
  pose proof S as (Ei & Ej & Er & Et & Ec). exists w'. split_and!; try done.
  - unfold add_timer, timer_pending. rewrite bind_assoc. erewrite get_timer_bind by done. rets. by rewrite Hl.
  - split.
    + rewrite Ej. exact H'.
    + rewrite (same_index _ _ _ S), Ej. exact Hi1.
    + intros n Hn. rewrite (same_index _ _ _ S), Ej. by apply Hi.
    + by rewrite Er.
    + by rewrite Et, Ej.
Qed.

Lemma init_inv ts :
  (forall t x, ts !! t = Some x -> linked x = false /\ 0 <= expires x < 2 ^ 32) -> wheel_inv (init_timervecs ts).
Proof.
  intros Hts. assert (forall n i, bucket (init_timervecs ts) n i = []) as Hb by done.
  split; try done.
  - split; try done; try (intros *; rewrite ?Hb; by intros ?%not_elem_of_nil).
    + intros n i. rewrite Hb. constructor.
    + intros t x Hx. destruct (Hts t x Hx). congruence.
    + intros t x Hx. by apply (Hts t x).
  - intros n Hn. unfold index_at, index. simpl. pose proof (span_pos n). rewrite Z.div_small by lia. done.
Qed.
End ticks.

(** ** The properties *)

(** C10: at every clock interrupt the wheel calls back exactly the timers that
    expire at the present tick, each once, with the data it was given, and
    takes them off; the run terminates with a few rounds and as much fuel as
    there are timers, and everything that is left expires later. *)
Theorem tick_fires_expired_timers (rounds fuel : nat) (w : wheel) :
  wheel_inv w -> timer_jiffies w + 1 < 2 ^ 32 -> (size (timers w) < fuel)%nat -> (2 <= rounds)%nat ->
  exists w' fired, tick rounds fuel w = Ok (tt, w') /\ wheel_inv w' /\
    timer_jiffies w' = timer_jiffies w + 1 /\
    NoDup fired /\ (forall t, t ∈ fired <-> exists x, pending w t x /\ expires x = timer_jiffies w) /\
    timers w' = stop_all fired (timers w) /\ calls w' = calls w ++ callbacks (timers w) fired.
Proof. apply tick_ok. Qed.

(** C8: a timer added for any tick of the next [2 ^ 31] is pending up to that
    tick and called back during it, through whatever vectors of the wheel it
    has to come down: of the [n] clock interrupts that follow, the [k]th calls
    back the timers that expire at its tick, each once and with the data it
    was given, this one among them exactly when [k] is the distance to its
    tick; after them it is off the wheel exactly when its tick is past. *)
Theorem timer_fires_on_time (rounds fuel n : nat) (w : wheel) (t : Z) (x : timer) :
  wheel_inv w -> timers w !! t = Some x -> linked x = false ->
  timer_jiffies w <= expires x < timer_jiffies w + 2 ^ 31 ->
  timer_jiffies w + Z.of_nat n < 2 ^ 32 -> (size (timers w) < fuel)%nat -> (2 <= rounds)%nat ->
  exists w1 w2, add_timer t w = Ok (tt, w1) /\ tick_n rounds fuel n w1 = Ok (tt, w2) /\ wheel_inv w2 /\
    timers w2 !! t = Some (set_linked (negb (expires x <? timer_jiffies w + Z.of_nat n)) x) /\
    timers w1 = <[t := set_linked true x]> (timers w) /\
    exists fired, fires w1 n fired /\
      (forall k, (k < n)%nat -> t ∈ fired k <-> expires x = timer_jiffies w + Z.of_nat k) /\
      forall m, (m <= n)%nat -> exists wm, tick_n rounds fuel m w1 = Ok (tt, wm) /\
        calls wm = calls w ++ calls_of (timers w1) fired m.
Proof.
  intros Hw Hx Hl He HT Hf Hr.
  destruct (add_timer_ok w t x Hw Hx Hl He) as (w1 & E1 & Hw1 & J1 & M1 & C1).
  assert (size (timers w1) < fuel)%nat as Hf1.
  { rewrite M1, <-size_dom, dom_insert_L.
    replace ({[t]} ∪ dom (timers w)) with (dom (timers w)); [by rewrite size_dom|].
    apply elem_of_dom_2 in Hx. set_solver. }
  assert (timers w1 !! t = Some (set_linked true x)) as Hx1 by (by rewrite M1, lookup_insert_eq).
  destruct (tick_n_ok rounds fuel n w1 t _ Hw1 Hx1) as (w2 & E2 & Hw2 & J2 & M2); [reflexivity|rewrite J1; lia|exact Hf1|exact Hr|].
  destruct (tick_n_calls rounds fuel n w1 Hw1) as (fired & Hfi & Hrun); [by rewrite J1|done..|].
  exists w1, w2. split_and!; [done..| |done|].
  - rewrite M2, J1. simpl. by destruct (expires x <? _).
  - exists fired. split_and!; [done| |by rewrite <-C1].
    intros k Hk. destruct (Hfi k Hk) as [_ Hin]. rewrite Hin, J1. unfold pending. rewrite Hx1. split.
    + intros (y & [[= <-] _] & Ey). exact Ey.
    + intros Ey. by exists (set_linked true x).
Qed.

(** Three timers: one for tick 3, one that has to come down from the second
    vector, and one that is never added. *)
Definition demo_timers : gmap Z timer :=
  list_to_map [(1, Timer 3 11 7 false); (2, Timer 300 22 7 false); (3, Timer 5 33 7 false)].
Lemma demo_wheel_inv : wheel_inv (init_timervecs demo_timers).
Proof.
  apply init_inv. intros t x Hx. unfold demo_timers in Hx. cbn in Hx.
  repeat (apply lookup_insert_Some in Hx as [[<- <-]|[_ Hx]]; [split; [done|simpl; lia]|]).
  by apply lookup_empty_Some in Hx.
Qed.

Lemma tick_fires_expired_timers_witness :
  exists w', tick 2 4 (init_timervecs demo_timers) = Ok (tt, w') /\ timer_jiffies w' = 1.
Proof.
  destruct (tick_fires_expired_timers 2 4 (init_timervecs demo_timers) demo_wheel_inv) as (w' & fired & E & _ & J & _).
  - reflexivity.
  - vm_compute. lia.
  - lia.
  - exists w'. split; [exact E|exact J].
Defined.

(** What the timers have called after [n] clock interrupts with timer 2 added. *)
Definition demo_calls (n : nat) : option (list (Z * Z)) :=
  match (add_timer 2 ;;; tick_n 2 4 n) (init_timervecs demo_timers) with Ok (_, w) => Some (calls w) | _ => None end.
Example demo_before : demo_calls 300 = Some [].
Proof. vm_compute. reflexivity. Qed.
Example demo_after : demo_calls 301 = Some [(7, 22)].
Proof. vm_compute. reflexivity. Qed.

Lemma timer_fires_on_time_witness :
  exists w1 w2, add_timer 2 (init_timervecs demo_timers) = Ok (tt, w1) /\ tick_n 2 4 301 w1 = Ok (tt, w2) /\
    timers w2 !! 2 = Some (Timer 300 22 7 false) /\
    exists fired, (forall k, (k < 301)%nat -> 2 ∈ fired k <-> 300 = Z.of_nat k) /\
      forall m, (m <= 301)%nat -> exists wm, tick_n 2 4 m w1 = Ok (tt, wm) /\
        calls wm = calls_of (timers w1) fired m.
Proof.
  destruct (timer_fires_on_time 2 4 301 (init_timervecs demo_timers) 2 (Timer 300 22 7 false) demo_wheel_inv)
    as (w1 & w2 & E1 & E2 & _ & M & _ & fired & _ & Ht & Hrun).
  - reflexivity.
  - reflexivity.
  - simpl. lia.
  - simpl. lia.
  - vm_compute. lia.
  - lia.
  - exists w1, w2. split; [exact E1|]. split; [exact E2|]. split; [exact M|].
    exists fired. split; [exact Ht|exact Hrun].
Defined.
