(* ===== verification/Paging.v ===== *)
(** * Paging: page tables and page frames of core/mm/memory.c

    Physical memory is a function from addresses of 32-bit words to words, and
    a load or store of the kernel goes through the page tables that the
    processor would walk from [cr3], so that the trick of [pte_ptr] and
    [pde_ptr] (the last entry of the page directory points to the directory
    itself) is something to prove.  The translation cache is not modelled:
    every access walks the tables, as the processor does after a reload of
    [cr3] or an [invlpg]. *)
From S2P Require Import Prelude Bitmap.

Definition PG_SIZE : Z := 4096.
Definition PG_P_SET : Z := 1.
Definition PG_RW_W : Z := 2.
Definition PG_US_U : Z := 4.
Definition MP_KERNEL : Z := 1.
Definition MP_USER : Z := 2.
Definition K_HEAP_START : Z := 0xc0100000.
Definition MEM_BITMAP_BASE : Z := 0xc0060000.
Definition PDT_COUNT : Z := 1.
Definition PGT_COUNT : Z := 254 + 1 + 1.

Definition PDE_IDX (addr : Z) : Z := Z.shiftr (Z.land addr 0xffc00000) 22.
Definition PTE_IDX (addr : Z) : Z := Z.shiftr (Z.land addr 0x003ff000) 12.

(** [struct pool], without its lock, and [virtual_addr]. *)
Record pool := Pool { pool_bitmap : bitmap; phy_addr_start : Z; pool_size : Z }.
Record virtual_addr := Vaddr { vaddr_bitmap : bitmap; vaddr_start : Z }.

(** [progress_vaddr] and [pgdir] are those of the running thread. *)
Record mem := Mem {
  phys : Z -> Z;
  cr3 : Z;
  kernel_pool : pool; user_pool : pool;
  kernel_viraddr : virtual_addr; progress_vaddr : virtual_addr;
  pgdir : Z }.

Definition set_phys (p : Z -> Z) (m : mem) : mem :=
  Mem p (cr3 m) (kernel_pool m) (user_pool m) (kernel_viraddr m) (progress_vaddr m) (pgdir m).
Definition set_cr3 (v : Z) (m : mem) : mem :=
  Mem (phys m) v (kernel_pool m) (user_pool m) (kernel_viraddr m) (progress_vaddr m) (pgdir m).
Definition set_kpool (p : pool) (m : mem) : mem :=
  Mem (phys m) (cr3 m) p (user_pool m) (kernel_viraddr m) (progress_vaddr m) (pgdir m).
Definition set_upool (p : pool) (m : mem) : mem :=
  Mem (phys m) (cr3 m) (kernel_pool m) p (kernel_viraddr m) (progress_vaddr m) (pgdir m).
Definition set_kvaddr (v : virtual_addr) (m : mem) : mem :=
  Mem (phys m) (cr3 m) (kernel_pool m) (user_pool m) v (progress_vaddr m) (pgdir m).
Definition set_uvaddr (v : virtual_addr) (m : mem) : mem :=
  Mem (phys m) (cr3 m) (kernel_pool m) (user_pool m) (kernel_viraddr m) v (pgdir m).

(** ** The processor's walk, and memory through it *)
Definition frame (entry : Z) : Z := Z.land entry 0xfffff000.
Definition present (entry : Z) : bool := negb (Z.land entry 1 =? 0).
Definition pde_of (m : mem) (va : Z) : Z := phys m (cr3 m + 4 * PDE_IDX va).
Definition translate (m : mem) (va : Z) : option Z :=
  let pde := pde_of m va in
  if present pde then
    let pte := phys m (frame pde + 4 * PTE_IDX va) in
    if present pte then Some (frame pte + Z.land va 0xfff) else None
  else None.
Definition load (va : Z) : M mem Z :=
  fun m => match translate m va with Some pa => Ok (phys m pa, m) | None => Fault end.
Definition store (va v : Z) : M mem unit :=
  fun m => match translate m va with
           | Some pa => Ok (tt, set_phys (fun a => if a =? pa then v else phys m a) m)
           | None => Fault end.
(** [memset(va, 0, PG_SIZE)] of a page. *)
Definition clear_page (va : Z) : M mem unit :=
  fun m => match translate m va with
           | Some pa => Ok (tt, set_phys (fun a => if (pa <=? a) && (a <? pa + PG_SIZE) then 0 else phys m a) m)
           | None => Fault end.

(** ** Pools of frames and of virtual pages *)
Definition pool_of (poolt : Z) (m : mem) : pool :=
  if negb (Z.land poolt MP_KERNEL =? 0) then kernel_pool m else user_pool m.
Definition set_pool (poolt : Z) (p : pool) (m : mem) : mem :=
  if negb (Z.land poolt MP_KERNEL =? 0) then set_kpool p m else set_upool p m.
(** Running a bitmap call on the bitmap of a pool. *)
Definition on_pool {A} (poolt : Z) (c : M bitmap A) : M mem A :=
  zoom (fun m => pool_bitmap (pool_of poolt m))
       (fun b m => set_pool poolt (Pool b (phy_addr_start (pool_of poolt m)) (pool_size (pool_of poolt m))) m) c.
Definition on_kvaddr {A} (c : M bitmap A) : M mem A :=
  zoom (fun m => vaddr_bitmap (kernel_viraddr m))
       (fun b m => set_kvaddr (Vaddr b (vaddr_start (kernel_viraddr m))) m) c.
Definition on_uvaddr {A} (c : M bitmap A) : M mem A :=
  zoom (fun m => vaddr_bitmap (progress_vaddr m))
       (fun b m => set_uvaddr (Vaddr b (vaddr_start (progress_vaddr m))) m) c.

Definition get_free_page (poolt : Z) : M mem Z :=
  start_pos <- on_pool poolt (find_block_bitmap 1) ;;
  if start_pos =? u32 (-1) then ret 0
  else
    on_pool poolt (set_value_bitmap start_pos 1) ;;;
    gets (fun m => u32 (start_pos * PG_SIZE + phy_addr_start (pool_of poolt m))).

(** [for (i = 0; i < cnt; i++) set_value_bitmap(bm, pos + i, v)]. *)
Fixpoint set_values (n : nat) (pos v : Z) : M bitmap unit :=
  match n with
  | O => ret tt
  | S n => set_value_bitmap pos v ;;; set_values n (u32 (pos + 1)) v
  end.

Definition get_free_vaddress (poolt pg_cnt : Z) : M mem Z :=
  if poolt =? MP_KERNEL then
    start_pos <- on_kvaddr (find_block_bitmap pg_cnt) ;;
    if start_pos =? u32 (-1) then ret 0
    else
      on_kvaddr (set_values (Z.to_nat pg_cnt) start_pos 1) ;;;
      gets (fun m => u32 (start_pos * PG_SIZE + vaddr_start (kernel_viraddr m)))
  else if poolt =? MP_USER then
    start_pos <- on_uvaddr (find_block_bitmap pg_cnt) ;;
    if start_pos =? u32 (-1) then ret 0
    else
      on_uvaddr (set_values (Z.to_nat pg_cnt) start_pos 1) ;;;
      gets (fun m => u32 (start_pos * PG_SIZE + vaddr_start (progress_vaddr m)))
  else panic.

(** ** Page tables *)
Definition pte_ptr (vaddr : Z) : Z :=
  u32 (0xffc00000 + Z.shiftr (Z.land vaddr 0xffc00000) 10 + PTE_IDX vaddr * 4).
Definition pde_ptr (vaddr : Z) : Z := u32 (0xfffff000 + PDE_IDX vaddr * 4).

Definition addr_v2p (vaddr : Z) : M mem Z :=
  e <- load (pte_ptr vaddr) ;;
  ret (u32 (Z.land e 0xfffff000 + Z.land vaddr 0x00000fff)).

(** Reloading [cr3] for the running thread, or for another page directory. *)
Definition flush_cr3 (dir : Z) : M mem unit :=
  a <- (if negb (dir =? 0) then addr_v2p dir else ret 0x100000) ;;
  modify (set_cr3 a).
Definition invalidate : M mem unit :=
  d <- gets pgdir ;; flush_cr3 d.

Definition entry_of (phyaddress : Z) : Z :=
  Z.lor (Z.lor (Z.lor phyaddress PG_US_U) PG_RW_W) PG_P_SET.

(** The common body of [put_page] and [put_page_and_flush], which differ in
    the flush after the change of an existing table. *)
Definition put_page_with (flush : M mem unit) (vaddress phyaddress : Z) : M mem unit :=
  let pde := pde_ptr vaddress in
  let pte := pte_ptr vaddress in
  d <- load pde ;;
  if present d then
    t <- load pte ;;
    (if negb (present t) then store pte (entry_of phyaddress)
     else store pte (entry_of phyaddress)) ;;;
    flush
  else
    pde_phyaddr <- get_free_page MP_KERNEL ;;
    store pde (entry_of pde_phyaddr) ;;;
    clear_page (Z.land pte 0xfffff000) ;;;
    t <- load pte ;;
    ASSERT (negb (present t)) ;;;
    store pte (entry_of phyaddress).
Definition put_page (vaddress phyaddress : Z) : M mem unit :=
  put_page_with invalidate vaddress phyaddress.
Definition put_page_and_flush (vaddress phyaddress dir : Z) : M mem unit :=
  put_page_with (flush_cr3 dir) vaddress phyaddress.

Definition remove_page (vaddress : Z) : M mem unit :=
  e <- load (pte_ptr vaddress) ;;
  store (pte_ptr vaddress) (Z.land e (u32 (Z.lnot PG_P_SET))).

Definition virtual_addr_to_physical_addr (v_addr : Z) : M mem Z :=
  d <- load (pde_ptr v_addr) ;;
  if present d then
    t <- load (pte_ptr v_addr) ;;
    if present t then ret (Z.land t 0xfffff000) else panic
  else panic.

(** ** Allocating and freeing pages *)
Fixpoint map_pages (n : nat) (poolt vaddr res : Z) : M mem Z :=
  match n with
  | O => ret res
  | S n =>
      phyaddrs <- get_free_page poolt ;;
      if phyaddrs =? 0 then ret 0
      else put_page vaddr phyaddrs ;;; map_pages n poolt (u32 (vaddr + PG_SIZE)) res
  end.
Definition malloc_page (poolt pg_cnt : Z) : M mem Z :=
  ASSERT (pg_cnt >? 0) ;;;
  vaddr_start <- get_free_vaddress poolt pg_cnt ;;
  if vaddr_start =? 0 then ret 0
  else map_pages (Z.to_nat pg_cnt) poolt vaddr_start vaddr_start.

Definition malloc_page_with_vaddr (poolt va : Z) : M mem Z :=
  m <- get ;;
  (if (pgdir m =? 0) && (poolt =? MP_KERNEL) then
     let bit_idx := s32 (u32 (va - vaddr_start (kernel_viraddr m)) / PG_SIZE) in
     ASSERT (bit_idx >=? 0) ;;; on_kvaddr (set_value_bitmap bit_idx 1)
   else if negb (pgdir m =? 0) && (poolt =? MP_USER) then
     let bit_idx := s32 (u32 (va - vaddr_start (progress_vaddr m)) / PG_SIZE) in
     ASSERT (bit_idx >=? 0) ;;; on_uvaddr (set_value_bitmap bit_idx 1)
   else panic) ;;;
  phyaddrs <- get_free_page poolt ;;
  if phyaddrs =? 0 then ret 0
  else put_page va phyaddrs ;;; ret va.

Definition free_addr_bitmap (addr_start addr pos pg_cnt : Z) : M bitmap unit :=
  b <- get ;;
  if addr <? addr_start then panic
  else if pos >? u32 (map_bytes_length b * 8) then panic
  else set_values (Z.to_nat pg_cnt) pos 0.
Definition free_vaddress (poolt vaddress pg_cnt : Z) : M mem unit :=
  m <- get ;;
  if poolt =? MP_KERNEL then
    let start := vaddr_start (kernel_viraddr m) in
    on_kvaddr (free_addr_bitmap start vaddress (u32 (vaddress - start) / PG_SIZE) pg_cnt)
  else
    let start := vaddr_start (progress_vaddr m) in
    on_uvaddr (free_addr_bitmap start vaddress (u32 (vaddress - start) / PG_SIZE) pg_cnt).

Definition free_page (poolt phy_addr_page : Z) : M mem unit :=
  m <- get ;;
  let p := pool_of poolt m in
  if phy_addr_page <? phy_addr_start p then panic
  else
    let pos := s32 (u32 (phy_addr_page - phy_addr_start p) / PG_SIZE) in
    if pos >? u32 (map_bytes_length (pool_bitmap p) * 8) then panic
    else on_pool poolt (set_value_bitmap pos 0).
Definition free_phy_page (phy_addr_page : Z) : M mem unit :=
  m <- get ;;
  if phy_addr_page >=? phy_addr_start (user_pool m) then free_page MP_USER phy_addr_page
  else free_page MP_KERNEL phy_addr_page.

Fixpoint unmap_pages (n : nat) (poolt vaddr : Z) : M mem unit :=
  match n with
  | O => ret tt
  | S n =>
      phy_addr <- virtual_addr_to_physical_addr vaddr ;;
      free_page poolt phy_addr ;;;
      remove_page vaddr ;;;
      unmap_pages n poolt (u32 (vaddr + PG_SIZE))
  end.
Definition mfree_page (poolt vaddr pg_cnt : Z) : M mem unit :=
  free_vaddress poolt vaddr pg_cnt ;;;
  unmap_pages (Z.to_nat pg_cnt) poolt vaddr.

(** ** Setting up ([mem_pool_init]); the bytes of the three bitmaps follow one
    another in memory *)
Definition mem_pool_init (all_mem : Z) (dir0 : virtual_addr) (ph : Z -> Z) (c : Z) : mem :=
  let page_table_size := PG_SIZE * (PDT_COUNT + PGT_COUNT) in
  let used_mem := page_table_size + 0x100000 in
  let free_mem := u32 (all_mem - used_mem) in
  let all_free_pages := u16 (free_mem / PG_SIZE) in
  let kernel_free_page := all_free_pages / 2 in
  let user_free_page := all_free_pages - kernel_free_page in
  let kbm_length := kernel_free_page / 8 in
  let ubm_length := user_free_page / 8 in
  let kp_start := used_mem in
  let up_start := kp_start + kernel_free_page * PG_SIZE in
  let empty n := Bitmap (replicate (Z.to_nat n) 0) n 0 in
  Mem ph c (Pool (empty kbm_length) kp_start (kernel_free_page * PG_SIZE))
      (Pool (empty ubm_length) up_start (user_free_page * PG_SIZE))
      (Vaddr (empty kbm_length) K_HEAP_START) dir0 0.
