(* ===== verification/PagingSpec.v ===== *)
(** * PagingSpec: the page tables map what they are told to map *)
From S2P Require Import Prelude Bitmap Paging.

Section arithmetic.
Implicit Types (x va : Z).

Lemma pde_idx va : 0 <= va < 2 ^ 32 -> PDE_IDX va = va / 2 ^ 22.
Proof.
  intros H. unfold PDE_IDX. change 0xffc00000 with (2 ^ 32 - 2 ^ 22). rewrite land_high by lia.
  rewrite Z.shiftr_div_pow2 by lia. apply Z.div_mul. lia.
Qed.
Lemma pde_idx_range va : 0 <= va < 2 ^ 32 -> 0 <= PDE_IDX va < 1024.
Proof.
  intros H. rewrite pde_idx by done. split; [apply Z.div_pos; lia|]. apply Z.div_lt_upper_bound; lia.
Qed.
Lemma pte_idx va : 0 <= va -> PTE_IDX va = (va / 4096) mod 1024.
Proof.
  intros H. unfold PTE_IDX. change 0x003ff000 with (Z.shiftl (Z.ones 10) 12).
  rewrite Z.shiftr_land, Z.shiftr_shiftl_l by lia. change (Z.shiftl (Z.ones 10) (12 - 12)) with (Z.ones 10).
  rewrite Z.shiftr_div_pow2, Z.land_ones by lia. done.
Qed.
Lemma pte_idx_range va : 0 <= va -> 0 <= PTE_IDX va < 1024.
Proof. intros. rewrite pte_idx by done. apply Z.mod_pos_bound. lia. Qed.
Lemma offset_mod va : Z.land va 0xfff = va mod 4096.
Proof. change 0xfff with (Z.ones 12). by rewrite Z.land_ones. Qed.
Lemma frame_div e : 0 <= e < 2 ^ 32 -> frame e = e / 4096 * 4096.
Proof. intros. unfold frame. change 0xfffff000 with (2 ^ 32 - 2 ^ 12). by rewrite land_high by lia. Qed.

Lemma va_split va : 0 <= va < 2 ^ 32 -> va = PDE_IDX va * 2 ^ 22 + PTE_IDX va * 4096 + va mod 4096.
Proof.
  intros H. rewrite pde_idx, pte_idx by lia. change (2 ^ 22) with (4096 * 1024). rewrite <-Z.div_div by lia.
  pose proof (Z.div_mod va 4096). pose proof (Z.div_mod (va / 4096) 1024). lia.
Qed.
(** The indices of an address given by its parts. *)
Lemma idx_of d t o :
  0 <= d < 1024 -> 0 <= t < 1024 -> 0 <= o < 4096 ->
  let va := d * 2 ^ 22 + t * 4096 + o in
  PDE_IDX va = d /\ PTE_IDX va = t /\ Z.land va 0xfff = o /\ 0 <= va < 2 ^ 32.
Proof.
  intros Hd Ht Ho va. change (2 ^ 22) with 4194304 in *. assert (0 <= va < 2 ^ 32) as Hr by (unfold va; lia).
  split_and!; [| | |lia..].
  - rewrite pde_idx by done. change (2 ^ 22) with 4194304. symmetry. apply (Z.div_unique_pos _ _ _ (t * 4096 + o)); unfold va; lia.
  - rewrite pte_idx by lia. replace (va / 4096) with (d * 1024 + t).
    + rewrite Z.add_comm, Z_mod_plus_full. apply Z.mod_small. lia.
    + apply (Z.div_unique_pos _ _ _ o); unfold va; lia.
  - rewrite offset_mod. symmetry. apply (Z.mod_unique_pos _ _ (d * 1024 + t)); unfold va; lia.
Qed.

Lemma pte_ptr_eq va : 0 <= va < 2 ^ 32 -> pte_ptr va = 1023 * 2 ^ 22 + PDE_IDX va * 4096 + 4 * PTE_IDX va.
Proof.
  intros H. pose proof (pde_idx_range va H). pose proof (pte_idx_range va). unfold pte_ptr.
  assert (Z.shiftr (Z.land va 0xffc00000) 10 = PDE_IDX va * 4096) as ->.
  { rewrite pde_idx by done. change 0xffc00000 with (2 ^ 32 - 2 ^ 22). rewrite land_high by lia.
    rewrite Z.shiftr_div_pow2 by lia. change (2 ^ 22) with (4096 * 2 ^ 10). rewrite Z.mul_assoc. apply Z.div_mul. lia. }
  rewrite u32_small; lia.
Qed.
Lemma pde_ptr_eq va : 0 <= va < 2 ^ 32 -> pde_ptr va = 1023 * 2 ^ 22 + 1023 * 4096 + 4 * PDE_IDX va.
Proof. intros H. pose proof (pde_idx_range va H). unfold pde_ptr. rewrite u32_small; lia. Qed.

Lemma pte_ptr_page va : 0 <= va < 2 ^ 32 -> Z.land (pte_ptr va) 0xfffff000 = 1023 * 2 ^ 22 + PDE_IDX va * 4096.
Proof.
  intros H. pose proof (pde_idx_range va H). pose proof (pte_idx_range va).
  change (frame (pte_ptr va) = 1023 * 2 ^ 22 + PDE_IDX va * 4096). rewrite pte_ptr_eq by done.
  change (2 ^ 22) with (1024 * 4096). rewrite frame_div by lia.
  rewrite Z.mul_assoc, <-Z.mul_add_distr_r, Z.add_comm, Z.div_add, Z.div_small by lia. done.
Qed.

(** An entry made by [put_page] for a page frame. *)
Lemma entry_spec p : p mod 4096 = 0 -> 0 <= p < 2 ^ 32 ->
  entry_of p = p + 7 /\ frame (entry_of p) = p /\ present (entry_of p) = true /\ 0 <= entry_of p < 2 ^ 32.
Proof.
  intros Hm Hp.
  assert (exists q, p = q * 4096 /\ 0 <= q < 2 ^ 20) as (q & -> & Hq).
  { exists (p / 4096). pose proof (Z.div_mod p 4096). lia. }
  assert (entry_of (q * 4096) = q * 4096 + 7) as E.
  { unfold entry_of. rewrite <-!Z.lor_assoc. change (Z.lor PG_US_U (Z.lor PG_RW_W PG_P_SET)) with 7.
    apply lor_disjoint. change 4096 with (2 ^ 12). rewrite <-Z.shiftl_mul_pow2 by lia.
    apply Z.bits_inj'. intros i Hi. rewrite Z.land_spec, Z.shiftl_spec, Z.bits_0 by lia.
    destruct (Z.lt_ge_cases i 12); [by rewrite (Z.testbit_neg_r _ (i - 12)) by lia|].
    rewrite (Z.bits_above_log2 7 i), andb_false_r by (simpl; lia). done. }
  rewrite E. assert (0 <= q * 4096 + 7 < 2 ^ 32) by lia. split_and!; [done| | |lia..].
  - rewrite frame_div by done. rewrite Z.add_comm, Z.div_add, Z.div_small by lia. lia.
  - unfold present. change 1 with (Z.ones 1) at 1. rewrite Z.land_ones by lia.
    replace (q * 4096 + 7) with (1 + (q * 2048 + 3) * 2) by lia. rewrite Z_mod_plus_full. done.
Qed.
End arithmetic.

(** ** Walking the tables *)

(** The page directory in use: its last entry leads to itself, and no two of
    its entries lead to the same page. *)
Record tables_ok (m : mem) : Prop := {
  to_cr3 : 0 <= cr3 m < 2 ^ 32 /\ cr3 m mod 4096 = 0;
  to_self : phys m (cr3 m + 4 * 1023) = entry_of (cr3 m);
  to_range : forall i, 0 <= i < 1024 -> 0 <= phys m (cr3 m + 4 * i) < 2 ^ 32;
  to_distinct : forall i j, 0 <= i < 1024 -> 0 <= j < 1024 ->
    present (phys m (cr3 m + 4 * i)) = true -> present (phys m (cr3 m + 4 * j)) = true ->
    frame (phys m (cr3 m + 4 * i)) = frame (phys m (cr3 m + 4 * j)) -> i = j
}.

Section walking.
Implicit Types (m : mem) (va : Z).

Lemma frame_aligned e : 0 <= e < 2 ^ 32 -> frame e mod 4096 = 0 /\ 0 <= frame e < 2 ^ 32.
Proof.
  intros H. rewrite frame_div by done. rewrite Z.mod_mul by lia. split; [done|].
  pose proof (Z.div_mod e 4096). pose proof (Z.mod_pos_bound e 4096). pose proof (Z.div_pos e 4096). lia.
Qed.
Lemma pages_apart a b o o' :
  a mod 4096 = 0 -> b mod 4096 = 0 -> a <> b -> 0 <= o < 4096 -> 0 <= o' < 4096 -> a + o <> b + o'.
Proof. intros Ha Hb. pose proof (Z.div_mod a 4096). pose proof (Z.div_mod b 4096). lia. Qed.

(** The processor's translation from the two indices. *)
Definition walk (p : Z -> Z) (c d t o : Z) : option Z :=
  let pde := p (c + 4 * d) in
  if present pde then
    let pte := p (frame pde + 4 * t) in if present pte then Some (frame pte + o) else None
  else None.
Lemma translate_walk m va : translate m va = walk (phys m) (cr3 m) (PDE_IDX va) (PTE_IDX va) (Z.land va 0xfff).
Proof. done. Qed.

Lemma translate_pde_ptr m va :
  tables_ok m -> 0 <= va < 2 ^ 32 -> translate m (pde_ptr va) = Some (cr3 m + 4 * PDE_IDX va).
Proof.
  intros H Hva. pose proof (pde_idx_range va Hva). destruct (to_cr3 _ H) as [Hc Hm].
  destruct (entry_spec _ Hm Hc) as (_ & Hf & Hp & _).
  rewrite translate_walk, pde_ptr_eq by done.
  destruct (idx_of 1023 1023 (4 * PDE_IDX va)) as (-> & -> & -> & _); [lia..|].
  unfold walk. rewrite (to_self _ H), Hp, Hf, (to_self _ H), Hp, Hf. done.
Qed.
Lemma translate_pte_ptr m va :
  tables_ok m -> 0 <= va < 2 ^ 32 -> present (pde_of m va) = true ->
  translate m (pte_ptr va) = Some (frame (pde_of m va) + 4 * PTE_IDX va).
Proof.
  intros H Hva Hp'. pose proof (pde_idx_range va Hva). pose proof (pte_idx_range va).
  destruct (to_cr3 _ H) as [Hc Hm]. destruct (entry_spec _ Hm Hc) as (_ & Hf & Hp & _).
  rewrite translate_walk, pte_ptr_eq by done.
  destruct (idx_of 1023 (PDE_IDX va) (4 * PTE_IDX va)) as (-> & -> & -> & _); [lia..|].
  unfold walk. rewrite (to_self _ H), Hp, Hf. unfold pde_of in *. by rewrite Hp'.
Qed.
Lemma translate_pte_page m va :
  tables_ok m -> 0 <= va < 2 ^ 32 -> present (pde_of m va) = true ->
  translate m (Z.land (pte_ptr va) 0xfffff000) = Some (frame (pde_of m va)).
Proof.
  intros H Hva Hp'. pose proof (pde_idx_range va Hva).
  destruct (to_cr3 _ H) as [Hc Hm]. destruct (entry_spec _ Hm Hc) as (_ & Hf & Hp & _).
  rewrite translate_walk, pte_ptr_page by done.
  destruct (idx_of 1023 (PDE_IDX va) 0) as (E1 & E2 & E3 & _); [lia..|]. rewrite Z.add_0_r in E1, E2, E3.
  rewrite E1, E2, E3. unfold walk. rewrite (to_self _ H), Hp, Hf. unfold pde_of in *. by rewrite Hp', Z.add_0_r.
Qed.

Lemma load_ok m va pa : translate m va = Some pa -> load va m = Ok (phys m pa, m).
Proof. intros E. unfold load. by rewrite E. Qed.
Lemma store_ok m va pa v : translate m va = Some pa ->
  store va v m = Ok (tt, set_phys (fun a => if a =? pa then v else phys m a) m).
Proof. intros E. unfold store. by rewrite E. Qed.

(** Writing one entry of a page table, or of the page directory. *)
Definition put (p : Z -> Z) (a v : Z) : Z -> Z := fun b => if b =? a then v else p b.
Lemma put_eq p a v : put p a v a = v.
Proof. unfold put. by rewrite Z.eqb_refl. Qed.
Lemma put_ne p a v b : b <> a -> put p a v b = p b.
Proof. intros. unfold put. by rewrite (proj2 (Z.eqb_neq _ _)). Qed.

Lemma table_not_dir m va :
  tables_ok m -> 0 <= va < 2 ^ 32 -> present (pde_of m va) = true -> PDE_IDX va <> 1023 ->
  frame (pde_of m va) <> cr3 m.
Proof.
  intros H Hva Hp Hne E. pose proof (pde_idx_range va Hva). destruct (to_cr3 _ H) as [Hc Hm].
  destruct (entry_spec _ Hm Hc) as (_ & Hf & Hp' & _). apply Hne.
  apply (to_distinct _ H (PDE_IDX va) 1023); [lia..|done|by rewrite (to_self _ H)|].
  rewrite (to_self _ H), Hf. exact E.
Qed.

(** Setting the entry of [va] in an existing table. *)
Lemma put_entry_ok m va e :
  tables_ok m -> 0 <= va < 2 ^ 32 -> present (pde_of m va) = true -> PDE_IDX va <> 1023 ->
  let m' := set_phys (put (phys m) (frame (pde_of m va) + 4 * PTE_IDX va) e) m in
  tables_ok m' /\
  (forall vb, 0 <= vb < 2 ^ 32 -> PDE_IDX vb = PDE_IDX va -> PTE_IDX vb = PTE_IDX va ->
     translate m' vb = if present e then Some (frame e + Z.land vb 0xfff) else None) /\
  (forall vb, 0 <= vb < 2 ^ 32 -> PDE_IDX vb <> 1023 -> ~ (PDE_IDX vb = PDE_IDX va /\ PTE_IDX vb = PTE_IDX va) ->
     translate m' vb = translate m vb).
Proof.
  intros H Hva Hp Hne m'. pose proof (pde_idx_range va Hva) as Hd. pose proof (pte_idx_range va ltac:(lia)) as Ht.
  pose proof (table_not_dir m va H Hva Hp Hne) as Hnd. destruct (to_cr3 _ H) as [Hc Hm].
  destruct (frame_aligned (pde_of m va)) as [Hfa _]; [by apply (to_range _ H)|].
  assert (forall i, 0 <= i < 1024 -> phys m' (cr3 m + 4 * i) = phys m (cr3 m + 4 * i)) as Hdir.
  { intros i Hi. apply put_ne. apply pages_apart; [done..|congruence|lia|lia]. }
  split_and!.
  - destruct H as [H1 H2 H3 H4]. split; change (cr3 m') with (cr3 m).
    + done.
    + by rewrite (Hdir 1023).
    + intros. rewrite Hdir by done. auto.
    + intros i j Hi Hj. rewrite !Hdir by done. auto.
  - intros vb Hvb E1 E2. rewrite translate_walk. unfold walk. change (cr3 m') with (cr3 m).
    rewrite Hdir by (rewrite E1; lia). rewrite E1, E2. fold (pde_of m va). rewrite Hp. simpl. by rewrite put_eq.
  - intros vb Hvb Hnb Hdiff. pose proof (pde_idx_range vb Hvb). pose proof (pte_idx_range vb).
    rewrite !translate_walk. unfold walk. change (cr3 m') with (cr3 m). rewrite Hdir by lia.
    destruct (present (phys m (cr3 m + 4 * PDE_IDX vb))) eqn:Hpb; [|done].
    simpl. rewrite put_ne; [done|]. intros E.
    destruct (decide (PDE_IDX vb = PDE_IDX va)) as [Ed|Ed].
    + apply Hdiff. split; [done|]. rewrite Ed in E. fold (pde_of m va) in E. lia.
    + revert E. apply pages_apart; [by apply frame_aligned, (to_range _ H)|done| |lia|lia].
      intros Ef. apply Ed. by apply (to_distinct _ H); [lia|lia|..].
Qed.
End walking.

(** ** Frames from a pool *)
Section frames.
Implicit Types (m : mem) (va : Z).

Record pool_ok (p : pool) : Prop := {
  po_wf : wf (pool_bitmap p);
  po_start : phy_addr_start p mod 4096 = 0 /\ 0 < phy_addr_start p;
  po_end : phy_addr_start p + nbits (pool_bitmap p) * 4096 <= 2 ^ 32
}.
Definition frame_of (p : pool) (pos : Z) : Z := pos * PG_SIZE + phy_addr_start p.
Definition set_pool_bitmap (poolt : Z) (b : bitmap) (m : mem) : mem :=
  set_pool poolt (Pool b (phy_addr_start (pool_of poolt m)) (pool_size (pool_of poolt m))) m.

Lemma pool_of_set poolt p m : pool_of poolt (set_pool poolt p m) = p.
Proof. unfold pool_of, set_pool. by case_match. Qed.
Lemma set_pool_same poolt m : set_pool poolt (pool_of poolt m) m = m.
Proof. unfold pool_of, set_pool. case_match; by destruct m. Qed.

Lemma get_free_page_ok poolt m :
  pool_ok (pool_of poolt m) ->
  (exists pos b', get_free_page poolt m = Ok (frame_of (pool_of poolt m) pos, set_pool_bitmap poolt b' m) /\
     0 <= pos < nbits (pool_bitmap (pool_of poolt m)) /\ used (pool_bitmap (pool_of poolt m)) pos = false /\
     wf b' /\ map_bytes_length b' = map_bytes_length (pool_bitmap (pool_of poolt m)) /\
     (forall i, 0 <= i -> used b' i = if i =? pos then true else used (pool_bitmap (pool_of poolt m)) i)) \/
  (get_free_page poolt m = Ok (0, m) /\
     forall pos, 0 <= pos < nbits (pool_bitmap (pool_of poolt m)) -> used (pool_bitmap (pool_of poolt m)) pos = true).
Proof.
  intros [Hw [Hs1 Hs2] He]. set (p := pool_of poolt m) in *. set (b := pool_bitmap p) in *.
  destruct (find_block_ok b 1 Hw) as (r & E & Hr); [lia|].
  assert (on_pool poolt (find_block_bitmap 1) m = Ok (r, m)) as E1.
  { unfold on_pool, zoom. fold p b. rewrite E. fold p. do 2 f_equal. rewrite <-(set_pool_same poolt m) at 2.
    f_equal. fold p. unfold b. by destruct p. }
  unfold get_free_page. run E1. pose proof (wf_nbits b Hw) as [Hnb _].
  destruct Hr as [[(Hr0 & Hr1 & Hfree) _]|[-> Hnone]].
  - left. rewrite (proj2 (Z.eqb_neq r _)) by (change (u32 (-1)) with (2 ^ 32 - 1); unfold nbits in *; lia).
    destruct (set_value_ok b r true Hw) as (b' & E2 & Hw' & Hl & _ & Hu); [lia|].
    exists r, b'. split_and!; [|lia|lia| |done|done|done].
    + erewrite bind_ok by (unfold on_pool, zoom; fold p b; rewrite E2; reflexivity).
      unfold gets, set_pool_bitmap. rewrite pool_of_set. fold p. do 2 f_equal. cbn [phy_addr_start]. apply u32_small.
      unfold frame_of, PG_SIZE. nia.
    + specialize (Hfree 0 ltac:(lia)). by rewrite Z.add_0_r in Hfree.
  - right. split; [by rewrite Z.eqb_refl|]. intros pos Hpos. apply not_false_iff_true. intros Hu.
    apply (Hnone pos). split_and!; [lia..|]. intros j Hj. by replace (pos + j) with pos by lia.
Qed.

Lemma frame_of_aligned p pos : pool_ok p -> 0 <= pos < nbits (pool_bitmap p) ->
  frame_of p pos mod 4096 = 0 /\ 0 < frame_of p pos < 2 ^ 32.
Proof.
  intros [_ [Hs1 Hs2] He] Hp. unfold frame_of, PG_SIZE. split; [|nia].
  rewrite Z.add_comm, Z_mod_plus_full. done.
Qed.
Lemma frame_of_inj p i j : frame_of p i = frame_of p j -> i = j.
Proof. unfold frame_of, PG_SIZE. lia. Qed.
End frames.

(** ** [put_page] *)
Section put_page.
Implicit Types (m : mem) (va : Z).

(** [cr3] holds the page directory of the running thread. *)
Definition own_dir m : Prop :=
  (pgdir m = 0 /\ cr3 m = 0x100000) \/
  (pgdir m <> 0 /\ 0 <= pgdir m < 2 ^ 32 /\ PDE_IDX (pgdir m) <> 1023 /\ translate m (pgdir m) = Some (cr3 m)).

(** No page table lies in a free frame of the kernel pool. *)
Definition tables_used m : Prop :=
  forall i pos, 0 <= i < 1024 -> present (phys m (cr3 m + 4 * i)) = true ->
    0 <= pos < nbits (pool_bitmap (kernel_pool m)) -> used (pool_bitmap (kernel_pool m)) pos = false ->
    frame (phys m (cr3 m + 4 * i)) <> frame_of (kernel_pool m) pos.

Lemma addr_v2p_ok m va pa :
  tables_ok m -> 0 <= va < 2 ^ 32 -> translate m va = Some pa -> addr_v2p va m = Ok (u32 pa, m).
Proof.
  intros H Hva E. rewrite translate_walk in E. unfold walk in E. fold (pde_of m va) in E.
  destruct (present (pde_of m va)) eqn:Hp; [|done].
  destruct (present _) eqn:Hpt in E; simplify_eq.
  unfold addr_v2p. run (load_ok m _ _ (translate_pte_ptr m va H Hva Hp)). done.
Qed.

Lemma invalidate_ok m : tables_ok m -> own_dir m -> invalidate m = Ok (tt, m).
Proof.
  intros H Hd. unfold invalidate, flush_cr3. rewrite gets_bind.
  assert (set_cr3 (cr3 m) m = m) as E by by destruct m.
  destruct Hd as [[Hp Hc]|(Hp & Hr & _ & Ht)].
  - rewrite Hp. change (Ok (tt, set_cr3 0x100000 m) = Ok (tt, m)). by rewrite <-Hc, E.
  - rewrite (proj2 (Z.eqb_neq (pgdir m) 0)) by done. cbn [negb]. run (addr_v2p_ok m _ _ H Hr Ht).
    rewrite u32_small by apply H. unfold modify. by rewrite E.
Qed.

Lemma same_page va vb :
  0 <= va < 2 ^ 32 -> 0 <= vb < 2 ^ 32 ->
  (PDE_IDX vb = PDE_IDX va /\ PTE_IDX vb = PTE_IDX va) <-> vb / 4096 = va / 4096.
Proof.
  intros Ha Hb. split.
  - intros [E1 E2]. pose proof (va_split va Ha). pose proof (va_split vb Hb).
    change (2 ^ 22) with 4194304 in *. pose proof (Z.mod_pos_bound va 4096). pose proof (Z.mod_pos_bound vb 4096).
    assert (va / 4096 = PDE_IDX va * 1024 + PTE_IDX va) as -> by (symmetry; apply (Z.div_unique_pos _ _ _ (va mod 4096)); lia).
    symmetry. apply (Z.div_unique_pos _ _ _ (vb mod 4096)); lia.
  - intros E. rewrite !pde_idx, !pte_idx by lia. change (2 ^ 22) with (4096 * 1024). rewrite <-!Z.div_div by lia.
    by rewrite E.
Qed.

Lemma own_dir_after m va e :
  tables_ok m -> own_dir m -> 0 <= va < 2 ^ 32 -> present (pde_of m va) = true -> PDE_IDX va <> 1023 ->
  (pgdir m <> 0 -> pgdir m / 4096 <> va / 4096) ->
  own_dir (set_phys (put (phys m) (frame (pde_of m va) + 4 * PTE_IDX va) e) m).
Proof.
  intros H [?|(Hp & Hr & Hne & Ht)] Hva Hpr Hi Hpg; [by left|right]. split_and!; [exact Hp|apply Hr|apply Hr|exact Hne|].
  destruct (put_entry_ok m va e H Hva Hpr Hi) as (_ & _ & Hf). simpl. rewrite <-Ht. apply Hf; [done..|].
  rewrite same_page by done. by apply Hpg.
Qed.

Lemma put_page_present_ok m va p :
  tables_ok m -> own_dir m -> 0 <= va < 2 ^ 32 -> PDE_IDX va <> 1023 ->
  (pgdir m <> 0 -> pgdir m / 4096 <> va / 4096) -> present (pde_of m va) = true ->
  put_page va p m = Ok (tt, set_phys (put (phys m) (frame (pde_of m va) + 4 * PTE_IDX va) (entry_of p)) m).
Proof.
  intros H Hd Hva Hi Hpg Hp. set (m' := set_phys _ m).
  destruct (put_entry_ok m va (entry_of p) H Hva Hp Hi) as (H' & _ & _). fold m' in H'.
  pose proof (own_dir_after m va (entry_of p) H Hd Hva Hp Hi Hpg) as Hd'. fold m' in Hd'.
  unfold put_page, put_page_with. run (load_ok m _ _ (translate_pde_ptr m va H Hva)).
  fold (pde_of m va). rewrite Hp. run (load_ok m _ _ (translate_pte_ptr m va H Hva Hp)).
  erewrite bind_ok; [by apply invalidate_ok|].
  case_match; (etrans; [eapply store_ok, translate_pte_ptr; done|reflexivity]).
Qed.

(** A page table created at a frame that holds no table: first the entry of
    the directory, then the cleared page. *)
Definition fresh_table m (f : Z) : Prop :=
  f mod 4096 = 0 /\ 0 <= f < 2 ^ 32 /\
  forall i, 0 <= i < 1024 -> present (phys m (cr3 m + 4 * i)) = true -> frame (phys m (cr3 m + 4 * i)) <> f.
Definition cleared (p : Z -> Z) (f : Z) : Z -> Z := fun a => if (f <=? a) && (a <? f + PG_SIZE) then 0 else p a.

Lemma cleared_in p f o : 0 <= o < 4096 -> cleared p f (f + o) = 0.
Proof.
  intros. unfold cleared, PG_SIZE. by rewrite (proj2 (Z.leb_le _ _)), (proj2 (Z.ltb_lt _ _)) by lia.
Qed.
Lemma cleared_out p f a o : f mod 4096 = 0 -> a mod 4096 = 0 -> a <> f -> 0 <= o < 4096 -> cleared p f (a + o) = p (a + o).
Proof.
  intros Hf Ha Hne Ho. unfold cleared, PG_SIZE. case_match eqn:E; [|done]. zb.
  exfalso. refine (pages_apart a f o (a + o - f) Ha Hf Hne Ho _ _); lia.
Qed.

Lemma fresh_not_dir m f : tables_ok m -> fresh_table m f -> cr3 m <> f.
Proof.
  intros H (_ & _ & Hf) E. destruct (to_cr3 _ H) as [Hc Hm].
  destruct (entry_spec _ Hm Hc) as (_ & Hfr & Hp & _).
  apply (Hf 1023); [lia|by rewrite (to_self _ H)|by rewrite (to_self _ H), Hfr].
Qed.

Lemma new_entry_ok m va f :
  tables_ok m -> fresh_table m f -> 0 <= va < 2 ^ 32 -> present (pde_of m va) = false -> PDE_IDX va <> 1023 ->
  tables_ok (set_phys (put (phys m) (cr3 m + 4 * PDE_IDX va) (entry_of f)) m).
Proof.
  intros H (Hfm & Hfr & Hff) Hva Hp Hne. pose proof (pde_idx_range va Hva).
  destruct (entry_spec f Hfm Hfr) as (_ & Ef & Ep & Er). destruct H as [H1 H2 H3 H4].
  split; change (cr3 (set_phys _ m)) with (cr3 m); cbn [phys set_phys].
  - done.
  - rewrite put_ne by lia. done.
  - intros i Hi. unfold put. case_match; auto.
  - intros i j Hi Hj. unfold put.
    destruct (Z.eqb_spec (cr3 m + 4 * i) (cr3 m + 4 * PDE_IDX va)), (Z.eqb_spec (cr3 m + 4 * j) (cr3 m + 4 * PDE_IDX va));
      try lia; rewrite ?Ef, ?Ep; intros Hpi Hpj E; [exfalso|exfalso|].
    + by apply (Hff j).
    + by apply (Hff i).
    + by apply H4.
Qed.

Lemma new_table_ok m va f :
  tables_ok m -> fresh_table m f -> 0 <= va < 2 ^ 32 -> present (pde_of m va) = false -> PDE_IDX va <> 1023 ->
  let m' := set_phys (cleared (put (phys m) (cr3 m + 4 * PDE_IDX va) (entry_of f)) f) m in
  tables_ok m' /\ pde_of m' va = entry_of f /\ phys m' (f + 4 * PTE_IDX va) = 0 /\
  (forall vb, 0 <= vb < 2 ^ 32 -> PDE_IDX vb <> 1023 -> translate m' vb = translate m vb).
Proof.
  intros H Hfr Hva Hp Hne m'. pose proof (pde_idx_range va Hva) as Hd. pose proof (pte_idx_range va ltac:(lia)) as Ht.
  pose proof (new_entry_ok m va f H Hfr Hva Hp Hne) as H'. pose proof (fresh_not_dir m f H Hfr) as Hnd.
  destruct Hfr as (Hfm & Hfr & Hff). destruct (entry_spec f Hfm Hfr) as (_ & Ef & Ep & Er).
  destruct (to_cr3 _ H) as [Hc Hm].
  assert (forall i, 0 <= i < 1024 -> phys m' (cr3 m + 4 * i) = put (phys m) (cr3 m + 4 * PDE_IDX va) (entry_of f) (cr3 m + 4 * i)) as Hdir.
  { intros i Hi. apply cleared_out; [done..|lia]. }
  split_and!.
  - destruct H' as [H1 H2 H3 H4]. cbn [phys set_phys cr3] in *. split; change (cr3 m') with (cr3 m).
    + done.
    + by rewrite (Hdir 1023).
    + intros i Hi. rewrite Hdir by done. auto.
    + intros i j Hi Hj. rewrite !Hdir by done. auto.
  - unfold pde_of. change (cr3 m') with (cr3 m). by rewrite Hdir, put_eq by lia.
  - apply cleared_in. lia.
  - intros vb Hvb Hnb. pose proof (pde_idx_range vb Hvb). pose proof (pte_idx_range vb).
    rewrite !translate_walk. unfold walk. change (cr3 m') with (cr3 m). rewrite Hdir by lia.
    destruct (decide (PDE_IDX vb = PDE_IDX va)) as [Ed|Ed].
    + rewrite Ed, put_eq, Ep, Ef. fold (pde_of m va). rewrite Hp. simpl. by rewrite cleared_in by lia.
    + rewrite put_ne by lia. destruct (present (phys m (cr3 m + 4 * PDE_IDX vb))) eqn:Hpb; [|done].
      destruct (frame_aligned (phys m (cr3 m + 4 * PDE_IDX vb))) as [Hba _]; [by apply (to_range _ H)|].
      simpl. rewrite cleared_out; [|exact Hfm|exact Hba|by apply Hff|lia].
      rewrite put_ne; [done|]. apply pages_apart; [exact Hba|exact Hm| |lia|lia].
      intros E. apply Hnb. destruct (entry_spec _ Hm Hc) as (_ & Hfs & Hps & _).
      apply (to_distinct _ H); [lia|lia|done|by rewrite (to_self _ H)|]. by rewrite (to_self _ H), Hfs.
Qed.

Lemma put_page_absent_ok m va p :
  tables_ok m -> 0 <= va < 2 ^ 32 -> PDE_IDX va <> 1023 -> present (pde_of m va) = false ->
  forall f b, get_free_page MP_KERNEL m = Ok (f, set_pool_bitmap MP_KERNEL b m) -> fresh_table m f ->
  put_page va p m =
    Ok (tt, set_phys (put (cleared (put (phys m) (cr3 m + 4 * PDE_IDX va) (entry_of f)) f) (f + 4 * PTE_IDX va) (entry_of p))
              (set_pool_bitmap MP_KERNEL b m)).
Proof.
  intros H Hva Hne Hp f b Eg Hf. set (m1 := set_pool_bitmap MP_KERNEL b m).
  assert (tables_ok m1) as H1 by by destruct H; split.
  assert (fresh_table m1 f) as Hf1 by done. assert (present (pde_of m1 va) = false) as Hp1 by done.
  pose proof (new_entry_ok m1 va f H1 Hf1 Hva Hp1 Hne) as H2.
  destruct (new_table_ok m1 va f H1 Hf1 Hva Hp1 Hne) as (H3 & Epde & Ez & _).
  destruct Hf1 as (Hfm & Hfr & _). destruct (entry_spec f Hfm Hfr) as (_ & Ef & Ep & _).
  unfold put_page, put_page_with. run (load_ok m _ _ (translate_pde_ptr m va H Hva)).
  fold (pde_of m va). rewrite Hp. run Eg. fold m1.
  run (store_ok m1 _ _ (entry_of f) (translate_pde_ptr m1 va H1 Hva)).
  set (m2 := set_phys _ m1) in *. 
  assert (pde_of m2 va = entry_of f) as E2 by apply put_eq.
  assert (clear_page (Z.land (pte_ptr va) 0xfffff000) m2 = Ok (tt, set_phys (cleared (phys m2) f) m2)) as Ec.
  { unfold clear_page. rewrite translate_pte_page; [|done..|by rewrite E2]. rewrite E2, Ef. done. }
  run Ec. set (m3 := set_phys (cleared (phys m2) f) m2).
  change (tables_ok m3) in H3. change (pde_of m3 va = entry_of f) in Epde. change (phys m3 (f + 4 * PTE_IDX va) = 0) in Ez.
  assert (translate m3 (pte_ptr va) = Some (f + 4 * PTE_IDX va)) as Et.
  { rewrite translate_pte_ptr; [|done..|by rewrite Epde]. by rewrite Epde, Ef. }
  run (load_ok m3 _ _ Et). rewrite Ez. pass. by rewrite (store_ok m3 _ _ _ Et).
Qed.
End put_page.

(** * What the paging code promises *)

(** A page frame taken from a pool was free, is aligned, lies inside the
    pool, and only its own bit of the bitmap changes; 0 means that no frame of
    the pool is free. *)
Theorem get_free_page_takes_a_free_frame poolt m :
  pool_ok (pool_of poolt m) ->
  let p := pool_of poolt m in
  exists r m', get_free_page poolt m = Ok (r, m') /\
    ((exists pos, r = frame_of p pos /\ 0 <= pos < nbits (pool_bitmap p) /\ r mod 4096 = 0 /\ 0 < r < 2 ^ 32 /\
        used (pool_bitmap p) pos = false /\
        (forall i, 0 <= i -> used (pool_bitmap (pool_of poolt m')) i = if i =? pos then true else used (pool_bitmap p) i) /\
        pool_ok (pool_of poolt m') /\ phys m' = phys m /\ cr3 m' = cr3 m) \/
     (r = 0 /\ m' = m /\ forall pos, 0 <= pos < nbits (pool_bitmap p) -> used (pool_bitmap p) pos = true)).
Proof.
  intros Hp p. pose proof (get_free_page_ok poolt m Hp) as Hg. fold p in Hp, Hg.
  destruct Hg as [(pos & b' & E & Hr & Hu & Hw & Hl & Hb)|[E Hall]].
  - exists (frame_of p pos), (set_pool_bitmap poolt b' m). split; [done|]. left. exists pos.
    destruct (frame_of_aligned p pos Hp Hr). unfold set_pool_bitmap. rewrite pool_of_set.
    split_and!; try done; try lia.
    + destruct Hp as [? Hs He]. split; [done|done|]. unfold nbits in *. cbn [pool_bitmap phy_addr_start]. by rewrite Hl.
    + unfold set_pool. by case_match.
    + unfold set_pool. by case_match.
  - exists 0, m. split; [done|]. by right.
Qed.

(** C21: after [put_page] the whole page of the virtual address translates to
    the given frame, every other page below the tables' own window translates
    as before, and the tables stay well formed, whether the page table existed
    or had to be created. *)
Theorem put_page_maps m va p :
  tables_ok m -> own_dir m -> tables_used m -> pool_ok (kernel_pool m) ->
  0 <= va < 2 ^ 32 -> PDE_IDX va <> 1023 -> (pgdir m <> 0 -> pgdir m / 4096 <> va / 4096) ->
  p mod 4096 = 0 -> 0 <= p < 2 ^ 32 ->
  present (pde_of m va) = true \/
    (exists pos, 0 <= pos < nbits (pool_bitmap (kernel_pool m)) /\ used (pool_bitmap (kernel_pool m)) pos = false) ->
  exists m', put_page va p m = Ok (tt, m') /\ tables_ok m' /\
    (forall vb, 0 <= vb < 2 ^ 32 -> vb / 4096 = va / 4096 -> translate m' vb = Some (p + vb mod 4096)) /\
    (forall vb, 0 <= vb < 2 ^ 32 -> PDE_IDX vb <> 1023 -> vb / 4096 <> va / 4096 -> translate m' vb = translate m vb).
Proof.
  intros H Hd Ht Hk Hva Hi Hpg Hpm Hpr Hfree. destruct (entry_spec p Hpm Hpr) as (_ & Efr & Epr & _).
  destruct (present (pde_of m va)) eqn:Hp.
  - eexists. split; [by apply put_page_present_ok|].
    destruct (put_entry_ok m va (entry_of p) H Hva Hp Hi) as (H' & Hsame & Hother). split; [done|]. split.
    + intros vb Hvb E. apply same_page in E as [E1 E2]; [|done..]. by rewrite Hsame, Epr, Efr, offset_mod by done.
    + intros vb Hvb Hnb E. apply Hother; [done..|]. by rewrite same_page by done.
  - destruct Hfree as [?|(pos0 & Hpos0 & Hu0)]; [done|].
    destruct (get_free_page_ok MP_KERNEL m Hk) as [(pos & b' & Eg & Hr & Hu & _)|[_ Hall]].
    2: { by rewrite Hall in Hu0. }
    change (pool_of MP_KERNEL m) with (kernel_pool m) in *.
    destruct (frame_of_aligned _ pos Hk Hr) as [Hfm Hfr].
    assert (fresh_table m (frame_of (kernel_pool m) pos)) as Hf.
    { split_and!; [done|lia|lia|]. intros i Hib Hpi. by apply Ht. }
    set (f := frame_of _ _) in *. set (m1 := set_pool_bitmap MP_KERNEL b' m).
    eexists. split; [by apply (put_page_absent_ok m va p H Hva Hi Hp f b' Eg Hf)|]. fold m1.
    assert (tables_ok m1) as H1 by by destruct H; split.
    destruct (new_table_ok m1 va f H1 Hf Hva Hp Hi) as (H3 & Epde & _ & Hkeep).
    destruct (entry_spec f Hfm ltac:(lia)) as (_ & Eff & Epf & _).
    set (m3 := set_phys _ m1) in *.
    assert (present (pde_of m3 va) = true) as Hp3 by by rewrite Epde.
    destruct (put_entry_ok m3 va (entry_of p) H3 Hva Hp3 Hi) as (H' & Hsame & Hother).
    rewrite Epde, Eff in H', Hsame, Hother. split; [exact H'|]. split.
    + intros vb Hvb E. apply same_page in E as [E1 E2]; [|done..].
      etrans; [by apply Hsame|]. by rewrite Epr, Efr, offset_mod.
    + intros vb Hvb Hnb E. etrans; [apply Hother; [done..|]|by apply Hkeep]. by rewrite same_page by done.
Qed.

(** ** A small machine: an empty page directory at 0x100000 and eight free
    frames at 0x202000 *)
Definition demo_pool : pool := Pool (Bitmap [0] 1 0) 0x202000 0x8000.
Definition demo_mem : mem :=
  Mem (fun a => if a =? 0x100ffc then 0x100007 else 0) 0x100000 demo_pool demo_pool
      (Vaddr (Bitmap [0] 1 0) K_HEAP_START) (Vaddr (Bitmap [] 0 0) 0) 0.

Lemma demo_pool_ok : pool_ok demo_pool.
Proof.
  split; [|done|by vm_compute]. split; [done|by vm_compute|repeat constructor; lia].
Qed.
Lemma demo_entry i : 0 <= i < 1024 ->
  phys demo_mem (cr3 demo_mem + 4 * i) = if i =? 1023 then 0x100007 else 0.
Proof. intros. unfold demo_mem; simpl. destruct (Z.eqb_spec i 1023), (Z.eqb_spec (1048576 + 4 * i) 0x100ffc); lia || done. Qed.
Lemma demo_tables_ok : tables_ok demo_mem.
Proof.
  split; [by vm_compute|done| |].
  - intros i Hi. rewrite demo_entry by done. case_match; lia.
  - intros i j Hi Hj. rewrite !demo_entry by done.
    destruct (Z.eqb_spec i 1023), (Z.eqb_spec j 1023); intros Hpi Hpj; (vm_compute in Hpi; done) || (vm_compute in Hpj; done) || (intros; lia).
Qed.
Lemma demo_tables_used : tables_used demo_mem.
Proof.
  intros i pos Hi. rewrite demo_entry by done. destruct (Z.eqb_spec i 1023); intros Hp Hpos _; [|by vm_compute in Hp].
  change (nbits _) with 8 in Hpos. unfold frame_of. change (frame 0x100007) with 0x100000.
  change (phy_addr_start _) with 0x202000. change PG_SIZE with 4096. lia.
Qed.
Lemma demo_own_dir : own_dir demo_mem.
Proof. by left. Qed.

Lemma get_free_page_takes_a_free_frame_witness :
  pool_ok (pool_of MP_KERNEL demo_mem) /\ exists m', get_free_page MP_KERNEL demo_mem = Ok (0x202000, m').
Proof.
  split; [exact demo_pool_ok|].
  destruct (get_free_page_takes_a_free_frame MP_KERNEL demo_mem demo_pool_ok) as (r & m' & E & _).
  exists m'. rewrite E. vm_compute in E. by simplify_eq.
Defined.

Lemma put_page_maps_witness :
  exists m', put_page K_HEAP_START 0x5000 demo_mem = Ok (tt, m') /\ translate m' (K_HEAP_START + 12) = Some 0x500c.
Proof.
  destruct (put_page_maps demo_mem K_HEAP_START 0x5000) as (m' & E & _ & Hm & _);
    [exact demo_tables_ok|exact demo_own_dir|exact demo_tables_used|exact demo_pool_ok|by vm_compute|by vm_compute|by vm_compute
    |done|lia|by right; exists 0|].
  exists m'. split; [done|]. rewrite Hm; [done|by vm_compute|done].
Defined.
