(* ===== verification/Malloc.v ===== *)
(** * Malloc: the arenas of core/mm/memory.c

    [sys_malloc] and [sys_free] cut pages into blocks of seven sizes; the free
    blocks of a size are linked through their own first words.  The pages come
    from an interface, [Pages], that [malloc_page] and [mfree_page] of
    Paging.v implement (PagesImpl.v); the list nodes are those of the kernel
    state, and the pool locks those of Locks.v.

    Memory that the allocator looks into is the head of a page ([struct
    arena]) and the list node at the start of a free block.  Clearing memory
    makes a zero node of every word in the range, and a page that is given
    back has no arena and no nodes any more. *)
From S2P Require Import Prelude Lists Kernel Locks.

Definition MP_KERNEL : Z := 1.
Definition MP_USER : Z := 2.
Definition DESC_CNT : Z := 7.
Definition K_HEAP_START : Z := 0xc0100000.

(** ** The data *)
(** [struct mem_block_desc] is 16 bytes, its [free_list] the last 8. *)
Record mem_block_desc := Desc { block_size : Z; blocks_per_arena : Z }.
Definition free_list (d : Z) : Z := d + 8.
Definition nth_desc (descs : Z) (i : Z) : Z := descs + 16 * i.
(** [struct arena] is 12 bytes. *)
Record arena := Arena { desc : Z; cnt : Z; large : bool }.
Definition sizeof_arena : Z := 12.

(** Where the linker and the control blocks put the descriptors and the locks. *)
Class HeapGlobals := {
  k_block_descs : Z;
  u_block_descs : Z -> Z;        (* of the control block of a process *)
  pool_lock : Z -> Z             (* of the pool of a type *)
}.

(** Pages for the allocator: [malloc_page], [mfree_page] and the size of a pool. *)
Class Pages (P : Type) := {
  malloc_page : Z -> Z -> M P Z;
  mfree_page : Z -> Z -> Z -> M P unit;
  pool_size : Z -> P -> Z
}.

Record heap (P : Type) := Heap {
  kn : kern;                     (* threads, locks and list nodes *)
  pages : P;
  arenas : gmap Z arena;         (* by page address *)
  descs : gmap Z mem_block_desc  (* by address *) }.
Arguments Heap {P}. Arguments kn {P}. Arguments pages {P}. Arguments arenas {P}. Arguments descs {P}.

Section state.
Context {P : Type}.
Definition set_kn (k : kern) (s : heap P) : heap P := Heap k (pages s) (arenas s) (descs s).
Definition set_pages (p : P) (s : heap P) : heap P := Heap (kn s) p (arenas s) (descs s).
Definition set_arenas (a : gmap Z arena) (s : heap P) : heap P := Heap (kn s) (pages s) a (descs s).
Definition set_descs (d : gmap Z mem_block_desc) (s : heap P) : heap P := Heap (kn s) (pages s) (arenas s) d.
Definition set_nodes (h : lheap) (s : heap P) : heap P := set_kn (set_klists h (kn s)) s.

#[export] Program Instance heap_lists : HasLists (heap P) :=
  {| lists s := klists (kn s); set_lists := set_nodes |}.
Next Obligation. done. Qed.
Next Obligation. done. Qed.
Next Obligation. by intros [[] ? ? ?]. Qed.

Definition on_kern {A} (c : M kern A) : M (heap P) A := zoom kn set_kn c.
Definition on_pages {A} (c : M P A) : M (heap P) A := zoom pages set_pages c.

Definition get_desc (d : Z) : M (heap P) mem_block_desc :=
  fun s => match descs s !! d with Some x => Ok (x, s) | None => Fault end.
Definition set_desc (d : Z) (x : mem_block_desc) : M (heap P) unit :=
  modify (fun s => set_descs (<[d := x]> (descs s)) s).
Definition get_arena (a : Z) : M (heap P) arena :=
  fun s => match arenas s !! a with Some x => Ok (x, s) | None => Fault end.
Definition upd_arena (a : Z) (f : arena -> arena) : M (heap P) unit :=
  fun s => match arenas s !! a with
           | Some x => Ok (tt, set_arenas (<[a := f x]> (arenas s)) s)
           | None => Fault end.

(** [memset(p, 0, len)], for a block and for whole pages. *)
Definition clear_nodes (p len : Z) (h : lheap) : lheap :=
  foldr (fun i h => <[p + 4 * i := Node 0 0]> h) h (seqZ 0 (len / 4)).
Definition memset_block (p len : Z) : M (heap P) unit :=
  modify (fun s => set_nodes (clear_nodes p len (klists (kn s))) s).
Definition memset_pages (p len : Z) : M (heap P) unit :=
  modify (fun s => set_arenas (<[p := Arena 0 0 false]> (arenas s))
                     (set_nodes (clear_nodes p len (klists (kn s))) s)).
(** What is no longer there when pages have been given back. *)
Definition inside (p n a : Z) : Prop := p <= a < p + n * PG_SIZE.
#[export] Instance inside_dec p n a : Decision (inside p n a) := _.
Definition unmap (p n : Z) : M (heap P) unit :=
  modify (fun s => set_arenas (filter (fun x => ~ inside p n x.1) (arenas s))
                     (set_nodes (filter (fun x => ~ inside p n x.1) (klists (kn s))) s)).

(** ** The code *)
Definition block_desc_loop (desc_array : Z) : nat -> Z -> Z -> M (heap P) unit :=
  fix loop n desc_idx block_size :=
    match n with
    | O => ret tt
    | S n =>
        set_desc (nth_desc desc_array desc_idx)
          (Desc block_size ((PG_SIZE - sizeof_arena) / block_size)) ;;;
        INIT_LIST_HEAD (free_list (nth_desc desc_array desc_idx)) ;;;
        loop n (u16 (desc_idx + 1)) (u16 (block_size * 2))
    end.
Definition block_desc_init (desc_array : Z) : M (heap P) unit :=
  block_desc_loop desc_array (Z.to_nat DESC_CNT) 0 16.

Definition arena2block (a idx : Z) : M (heap P) Z :=
  x <- get_arena a ;;
  d <- get_desc (desc x) ;;
  ret (u32 (a + sizeof_arena + idx * block_size d)).
Definition block2arena (b : Z) : Z := Z.land b 0xfffff000.

Context `{Pages P} `{HeapGlobals} `{Globals}.
Variable fuel : nat.

(** The pool and the descriptors of the running thread. *)
Definition pool_t : M (heap P) Z :=
  cur <- on_kern running_thread ;;
  t <- on_kern (tcb cur) ;;
  ret (if pgdir t =? 0 then MP_KERNEL else MP_USER).
Definition descs_t : M (heap P) Z :=
  cur <- on_kern running_thread ;;
  t <- on_kern (tcb cur) ;;
  ret (if pgdir t =? 0 then k_block_descs else u_block_descs cur).

Definition release (pt : Z) : M (heap P) unit := on_kern (lock_release fuel (pool_lock pt)).

Definition DIV_ROUND_UP (x step : Z) : Z := u32 (x + step - 1) / step.

(** [sys_malloc] of more than 1024 bytes, with the lock. *)
Definition malloc_large (pt size : Z) : M (heap P) Z :=
  let page_cnt := DIV_ROUND_UP (u32 (size + sizeof_arena)) PG_SIZE in
  area <- on_pages (malloc_page pt page_cnt) ;;
  if negb (area =? 0) then
    memset_pages area (PG_SIZE * page_cnt) ;;;
    upd_arena area (fun a => Arena 0 (cnt a) (large a)) ;;;
    upd_arena area (fun a => Arena (desc a) page_cnt (large a)) ;;;
    upd_arena area (fun a => Arena (desc a) (cnt a) true) ;;;
    release pt ;;;
    ret (u32 (area + sizeof_arena))
  else
    release pt ;;;
    ret 0.

(** The first descriptor whose blocks are large enough. *)
Fixpoint desc_loop (n : nat) (ds desc_idx size : Z) : M (heap P) Z :=
  match n with
  | O => ret desc_idx
  | S n =>
      d <- get_desc (nth_desc ds desc_idx) ;;
      if size <=? block_size d then ret desc_idx
      else desc_loop n ds (u8 (desc_idx + 1)) size
  end.
Fixpoint fill_loop (n : nat) (area block_idx : Z) : M (heap P) unit :=
  match n with
  | O => ret tt
  | S n =>
      block <- arena2block area block_idx ;;
      a <- get_arena area ;;
      list_add_tail block (free_list (desc a)) ;;;
      fill_loop n area (u32 (block_idx + 1))
  end.
(** A page for blocks of the size of [d]; the answer says whether there was one. *)
Definition new_arena (pt d : Z) : M (heap P) bool :=
  area <- on_pages (malloc_page pt 1) ;;
  if area =? 0 then ret false
  else
    memset_pages area PG_SIZE ;;;
    upd_arena area (fun a => Arena d (cnt a) (large a)) ;;;
    upd_arena area (fun a => Arena (desc a) (cnt a) false) ;;;
    x <- get_desc d ;;
    upd_arena area (fun a => Arena (desc a) (blocks_per_arena x) (large a)) ;;;
    old_status <- on_kern intr_disable ;;
    fill_loop (Z.to_nat (blocks_per_arena x)) area 0 ;;;
    on_kern (intr_set_status old_status) ;;;
    ret true.
(** Taking the first free block, with the lock. *)
Definition take_block (pt d : Z) : M (heap P) Z :=
  block <- list_pop (free_list d) ;;
  x <- get_desc d ;;
  memset_block block (block_size x) ;;;
  upd_arena (block2arena block) (fun a => Arena (desc a) (u32 (cnt a - 1)) (large a)) ;;;
  release pt ;;;
  ret block.
Definition malloc_small (pt ds size : Z) : M (heap P) Z :=
  desc_idx <- desc_loop (Z.to_nat DESC_CNT) ds 0 size ;;
  let d := nth_desc ds desc_idx in
  e <- list_is_empty (free_list d) ;;
  ok <- (if e : bool then new_arena pt d else ret true) ;;
  if ok : bool then take_block pt d
  else (release pt ;;; ret 0).

Definition malloc_locked (pt ds size : Z) : M (heap P) Z :=
  if size >? 1024 then malloc_large pt size else malloc_small pt ds size.
(** [None]: the thread waits for the pool lock; it goes on with
    [malloc_locked] when it has it. *)
Definition sys_malloc (size : Z) : M (heap P) (option Z) :=
  pt <- pool_t ;;
  ds <- descs_t ;;
  psize <- gets (fun s => pool_size pt (pages s)) ;;
  if negb ((size >? 0) && (size <? psize)) then ret (Some 0)
  else
    taken <- on_kern (lock_fetch fuel (pool_lock pt)) ;;
    if taken : bool then (r <- malloc_locked pt ds size ;; ret (Some r)) else ret None.

Fixpoint unlink_loop (n : nat) (a block_idx : Z) : M (heap P) unit :=
  match n with
  | O => ret tt
  | S n =>
      b <- arena2block a block_idx ;;
      list_del_init b ;;;
      unlink_loop n a (u32 (block_idx + 1))
  end.
Definition give_back (pt a n : Z) : M (heap P) unit :=
  on_pages (mfree_page pt a n) ;;;
  unmap a n.
(** [sys_free] with the lock. *)
Definition free_locked (pt ptr : Z) : M (heap P) unit :=
  let a := block2arena ptr in
  x <- get_arena a ;;
  (if (desc x =? 0) && large x then give_back pt a (cnt x)
   else
     list_add_tail ptr (free_list (desc x)) ;;;
     upd_arena a (fun x => Arena (desc x) (u32 (cnt x + 1)) (large x)) ;;;
     x <- get_arena a ;;
     d <- get_desc (desc x) ;;
     when cnt x =? blocks_per_arena d do
       (unlink_loop (Z.to_nat (blocks_per_arena d)) a 0 ;;;
        give_back pt a 1)) ;;;
  release pt.
(** [false]: the thread waits for the pool lock, then does [free_locked]. *)
Definition sys_free (ptr : Z) : M (heap P) bool :=
  ASSERT (negb (ptr =? 0)) ;;;
  pt <- pool_t ;;
  ASSERT (negb (pt =? MP_KERNEL) || (ptr >=? K_HEAP_START)) ;;;
  taken <- on_kern (lock_fetch fuel (pool_lock pt)) ;;
  if taken : bool then (free_locked pt ptr ;;; ret true) else ret false.
End state.
