(* ===== verification/MallocInv.v ===== *)
(** * MallocInv: what the arenas have to be like

    The blocks of a page, the invariant of the allocator without its memory
    ([shape]), and what taking, giving back and cutting pages does to it. *)
From S2P Require Import Prelude Kernel Malloc.

(** Block sizes and counts, as [block_desc_init] computes them. *)
Definition bsz (i : Z) : Z := 16 * 2 ^ i.
Definition per (i : Z) : Z := (PG_SIZE - sizeof_arena) / bsz i.
Definition class (i : Z) : Prop := 0 <= i < 7.
Definition block_at (a i j : Z) : Z := a + sizeof_arena + j * bsz i.
Definition blocks (a i : Z) : list Z := block_at a i <$> seqZ 0 (per i).
Definition head (ds i : Z) : Z := free_list (nth_desc ds i).
Definition extent (x : arena) : Z := if large x then cnt x else 1.

(** The free lists as a function of the class. *)
Definition fupd (i : Z) (xs : list Z) (F : Z -> list Z) : Z -> list Z := fun j => if j =? i then xs else F j.

(** The blocks of a list that lie in the page [a]. *)
Definition in_page (a : Z) (xs : list Z) : list Z := filter (fun b => block2arena b = a) xs.

Section arithmetic.
Lemma class_cases i : class i -> i = 0 \/ i = 1 \/ i = 2 \/ i = 3 \/ i = 4 \/ i = 5 \/ i = 6.
Proof. unfold class. lia. Qed.
Lemma class_facts i : class i ->
  16 <= bsz i <= 1024 /\ bsz i mod 16 = 0 /\ 3 <= per i <= 255 /\ per i * bsz i <= 4084.
Proof. intros [->|[->|[->|[->|[->|[->| ->]]]]]]%class_cases; by_computation. Qed.

Lemma block2arena_eq b : 0 <= b < 2 ^ 32 -> block2arena b = b / 4096 * 4096.
Proof.
  intros Hb. unfold block2arena. change 0xfffff000 with (2 ^ 32 - 2 ^ 12). by rewrite land_high by lia.
Qed.

Lemma block_at_range a i j : class i -> 0 <= j < per i ->
  a + 12 <= block_at a i j /\ block_at a i j + bsz i <= a + 4096.
Proof.
  intros Hi Hj. pose proof (class_facts i Hi). unfold block_at. change sizeof_arena with 12. nia.
Qed.
Lemma block2arena_block a i j :
  a mod 4096 = 0 -> 0 <= a -> a + 4096 <= 2 ^ 32 -> class i -> 0 <= j < per i ->
  block2arena (block_at a i j) = a.
Proof.
  intros Ha Ha0 Hhi Hi Hj. pose proof (block_at_range a i j Hi Hj). pose proof (class_facts i Hi).
  rewrite block2arena_eq by lia. Z.div_mod_to_equations. lia.
Qed.
Lemma elem_blocks a i b : b ∈ blocks a i <-> exists j, 0 <= j < per i /\ b = block_at a i j.
Proof.
  unfold blocks. rewrite list_elem_of_fmap. setoid_rewrite elem_of_seqZ.
  split; intros (j & ? & ?); exists j; split; lia || done.
Qed.
Lemma block_at_inj a i j k : class i -> block_at a i j = block_at a i k -> j = k.
Proof. intros Hi. pose proof (class_facts i Hi). unfold block_at. nia. Qed.
Lemma blocks_nodup a i : class i -> NoDup (blocks a i).
Proof.
  intros Hi. unfold blocks. apply NoDup_fmap_2_strong; [|apply NoDup_seqZ].
  intros j k _ _. by apply block_at_inj.
Qed.
Lemma length_blocks a i : length (blocks a i) = Z.to_nat (per i).
Proof. unfold blocks. by rewrite length_fmap, length_seqZ. Qed.
Lemma blocks_apart a i b c : class i -> b ∈ blocks a i -> c ∈ blocks a i -> b <> c ->
  b + bsz i <= c \/ c + bsz i <= b.
Proof.
  intros Hi (j & Hj & ->)%elem_blocks (k & Hk & ->)%elem_blocks Hne.
  pose proof (class_facts i Hi). assert (j <> k) by congruence. unfold block_at. nia.
Qed.
Lemma head_inj ds i j : head ds i = head ds j -> i = j.
Proof. unfold head, free_list, nth_desc. lia. Qed.
Lemma nth_desc_inj ds i j : nth_desc ds i = nth_desc ds j -> i = j.
Proof. unfold nth_desc. lia. Qed.

Lemma fupd_eq i xs F : fupd i xs F i = xs.
Proof. unfold fupd. by rewrite Z.eqb_refl. Qed.
Lemma fupd_ne i j xs F : j <> i -> fupd i xs F j = F j.
Proof. unfold fupd. intros. by rewrite (proj2 (Z.eqb_neq j i)). Qed.

Lemma elem_in_page a xs b : b ∈ in_page a xs <-> b ∈ xs /\ block2arena b = a.
Proof. unfold in_page. rewrite list_elem_of_filter. tauto. Qed.
Lemma in_page_app a xs ys : in_page a (xs ++ ys) = in_page a xs ++ in_page a ys.
Proof. apply list.filter_app. Qed.
Lemma in_page_cons a b xs :
  in_page a (b :: xs) = if decide (block2arena b = a) then b :: in_page a xs else in_page a xs.
Proof. unfold in_page. by rewrite filter_cons. Qed.
End arithmetic.

(** ** The invariant, without the memory of the nodes

    [A] are the arenas, [U] maps every block in use to its size, [F] gives
    the free blocks of a class, in order; the pages lie between [lo] and [hi]
    and [own] says which of them belong to the allocator. *)
Record shape (ds lo hi : Z) (own : Z -> Prop) (A : gmap Z arena) (U : gmap Z Z) (F : Z -> list Z) : Prop := {
  sh_range : 0 < lo /\ hi <= 2 ^ 32;
  sh_arena : forall a x, A !! a = Some x ->
    a mod 4096 = 0 /\ lo <= a /\ 0 < extent x /\ a + 4096 * extent x <= hi /\
    forall k, 0 <= k < extent x -> own (a + 4096 * k);
  sh_apart : forall a x b y, A !! a = Some x -> A !! b = Some y -> a <> b ->
    a + 4096 * extent x <= b \/ b + 4096 * extent y <= a;
  sh_large : forall a x, A !! a = Some x -> large x = true ->
    desc x = 0 /\ U !! (a + 12) = Some (cnt x * 4096 - 12);
  sh_small : forall a x, A !! a = Some x -> large x = false ->
    exists i, class i /\ desc x = nth_desc ds i /\ cnt x = Z.of_nat (length (in_page a (F i))) /\
      forall b, b ∈ blocks a i -> b ∈ F i \/ U !! b = Some (bsz i);
  sh_free : forall i b, class i -> b ∈ F i -> U !! b = None /\
    exists x, A !! block2arena b = Some x /\ large x = false /\ desc x = nth_desc ds i /\
      b ∈ blocks (block2arena b) i;
  sh_nodup : forall i, class i -> NoDup (F i);
  sh_used : forall r n, U !! r = Some n ->
    exists x, A !! block2arena r = Some x /\
      (large x = true /\ r = block2arena r + 12 /\ n = cnt x * 4096 - 12 \/
       large x = false /\ exists i, class i /\ desc x = nth_desc ds i /\ r ∈ blocks (block2arena r) i /\ n = bsz i)
}.

Section facts.
Implicit Types (ds lo hi a b i : Z) (own : Z -> Prop) (A : gmap Z arena) (U : gmap Z Z) (F : Z -> list Z).

Lemma sh_page ds lo hi own A U F a x : shape ds lo hi own A U F -> A !! a = Some x ->
  a mod 4096 = 0 /\ 0 < a /\ a + 4096 <= 2 ^ 32.
Proof.
  intros Hs Ha. destruct (sh_arena _ _ _ _ _ _ _ Hs a x Ha) as (? & ? & ? & ? & _).
  pose proof (sh_range _ _ _ _ _ _ _ Hs). lia.
Qed.

Lemma sh_home ds lo hi own A U F a x i b : shape ds lo hi own A U F -> A !! a = Some x -> class i ->
  b ∈ blocks a i -> block2arena b = a.
Proof.
  intros Hs Ha Hi (j & Hj & ->)%elem_blocks. destruct (sh_page _ _ _ _ _ _ _ _ _ Hs Ha) as (? & ? & ?).
  apply block2arena_block; (done || lia).
Qed.

(** Where a block in use lies: inside its arena. *)
Lemma used_range ds lo hi own A U F r n : shape ds lo hi own A U F -> U !! r = Some n ->
  exists x, A !! block2arena r = Some x /\ 0 < n /\ block2arena r + 12 <= r /\
    r + n <= block2arena r + 4096 * extent x.
Proof.
  intros Hs Hr. destruct (sh_used _ _ _ _ _ _ _ Hs r n Hr) as (x & Ha & H).
  exists x. split; [done|]. destruct (sh_arena _ _ _ _ _ _ _ Hs _ x Ha) as (_ & _ & He & _).
  unfold extent in *. destruct H as [(Hl & E & En)|(Hl & i & Hi & _ & Hb & ->)]; rewrite Hl in *; [lia|].
  apply elem_blocks in Hb as (j & Hj & E). pose proof (class_facts i Hi).
  pose proof (block_at_range (block2arena r) i j Hi Hj). lia.
Qed.

(** Blocks in use do not overlap. *)
Lemma used_apart ds lo hi own A U F r n r' n' : shape ds lo hi own A U F ->
  U !! r = Some n -> U !! r' = Some n' -> r <> r' -> r + n <= r' \/ r' + n' <= r.
Proof.
  intros Hs Hr Hr' Hne.
  destruct (used_range _ _ _ _ _ _ _ _ _ Hs Hr) as (x & Ha & ? & ? & ?).
  destruct (used_range _ _ _ _ _ _ _ _ _ Hs Hr') as (y & Hb & ? & ? & ?).
  destruct (decide (block2arena r = block2arena r')) as [E|Hp].
  - rewrite E in *. assert (x = y) as <- by congruence.
    destruct (sh_used _ _ _ _ _ _ _ Hs r n Hr) as (x1 & Ha1 & K1).
    destruct (sh_used _ _ _ _ _ _ _ Hs r' n' Hr') as (x2 & Ha2 & K2).
    rewrite E in *. assert (x1 = x) as -> by congruence. assert (x2 = x) as -> by congruence.
    destruct K1 as [(L1 & E1 & ?)|(L1 & i & Hi & D1 & B1 & ->)];
      destruct K2 as [(L2 & E2 & ?)|(L2 & j & Hj & D2 & B2 & ->)]; try congruence.
    assert (i = j) as <- by (apply (nth_desc_inj ds); congruence).
    by apply (blocks_apart (block2arena r')).
  - destruct (sh_apart _ _ _ _ _ _ _ Hs _ _ _ _ Ha Hb Hp); lia.
Qed.

(** Pages may be added to those the allocator owns. *)
Lemma shape_own ds lo hi own own' A U F :
  shape ds lo hi own A U F ->
  (forall a x k, A !! a = Some x -> 0 <= k < extent x -> own (a + 4096 * k) -> own' (a + 4096 * k)) ->
  shape ds lo hi own' A U F.
Proof.
  intros Hs Ho. destruct Hs as [H1 H2 H3 H4 H5 H6 H7 H8]. split; try done.
  intros a x Ha. destruct (H2 a x Ha) as (? & ? & ? & ? & H). split_and!; eauto.
Qed.

(** The number of free blocks of a page. *)
Lemma free_count ds lo hi own A U F a x i : shape ds lo hi own A U F -> A !! a = Some x -> class i ->
  large x = false -> desc x = nth_desc ds i ->
  cnt x = Z.of_nat (length (in_page a (F i))) /\
  (forall b, b ∈ in_page a (F i) -> b ∈ blocks a i) /\ 0 <= cnt x <= per i /\
  (cnt x = per i -> forall b, b ∈ blocks a i -> b ∈ F i).
Proof.
  intros Hs Ha Hi Hl Hd. destruct (sh_small _ _ _ _ _ _ _ Hs a x Ha Hl) as (j & Hj & Dj & Hc & Hb).
  assert (j = i) as -> by (apply (nth_desc_inj ds); congruence).
  assert (forall b, b ∈ in_page a (F i) -> b ∈ blocks a i) as Hin.
  { intros b (Hb1 & <-)%elem_in_page. destruct (sh_free _ _ _ _ _ _ _ Hs i b Hi Hb1) as (_ & y & _ & _ & _ & H). done. }
  assert (NoDup (in_page a (F i))) as Hn by apply list.NoDup_filter, (sh_nodup _ _ _ _ _ _ _ Hs i Hi).
  pose proof (NoDup_submseteq _ _ Hn Hin) as Hsub. pose proof (submseteq_length _ _ Hsub) as Hle.
  rewrite length_blocks in Hle. pose proof (class_facts i Hi).
  split_and!; [done|done|lia|lia|]. intros Hfull b Hbb.
  assert (in_page a (F i) ≡ₚ blocks a i) as Hp.
  { apply submseteq_length_Permutation; [done|]. rewrite length_blocks. lia. }
  rewrite <-Hp in Hbb. by apply elem_in_page in Hbb as [? _].
Qed.
(** A page whose blocks are all free has no block in use, and any other has one. *)
Lemma full_unused ds lo hi own A U F a x i : shape ds lo hi own A U F -> A !! a = Some x -> class i ->
  large x = false -> desc x = nth_desc ds i -> cnt x = per i ->
  forall b m, U !! b = Some m -> block2arena b <> a.
Proof.
  intros Hs Ha Hi Hl Hd Hc b m Hb E. destruct (free_count _ _ _ _ _ _ _ _ _ _ Hs Ha Hi Hl Hd) as (_ & _ & _ & Hall).
  destruct (sh_used _ _ _ _ _ _ _ Hs b m Hb) as (y & Hy & H). rewrite E in *. assert (y = x) as -> by congruence.
  destruct H as [(? & _)|(_ & j & Hj & Dj & Hbj & _)]; [congruence|].
  assert (j = i) as -> by (apply (nth_desc_inj ds); congruence).
  destruct (sh_free _ _ _ _ _ _ _ Hs i b Hi (Hall Hc b Hbj)) as [? _]. congruence.
Qed.
Lemma not_full_used ds lo hi own A U F a x i : shape ds lo hi own A U F -> A !! a = Some x -> class i ->
  large x = false -> desc x = nth_desc ds i -> cnt x <> per i ->
  exists b, block2arena b = a /\ U !! b = Some (bsz i).
Proof.
  intros Hs Ha Hi Hl Hd Hc. destruct (free_count _ _ _ _ _ _ _ _ _ _ Hs Ha Hi Hl Hd) as (Ec & _ & Hle & _).
  destruct (sh_small _ _ _ _ _ _ _ Hs a x Ha Hl) as (j & Hj & Dj & _ & Hb).
  assert (j = i) as -> by (apply (nth_desc_inj ds); congruence).
  destruct (decide (Exists (fun b => b ∉ F i) (blocks a i))) as [He|Hall].
  - apply list.Exists_exists in He as (b & Hbb & Hn). exists b. split; [by apply (sh_home _ _ _ _ _ _ _ _ _ _ _ Hs Ha Hi)|].
    by destruct (Hb b Hbb).
  - exfalso. apply Hc. assert (blocks a i ⊆+ in_page a (F i)) as Hsub.
    { apply NoDup_submseteq; [by apply blocks_nodup|]. intros b Hbb. apply elem_in_page.
      split; [|by apply (sh_home _ _ _ _ _ _ _ _ _ _ _ Hs Ha Hi)].
      destruct (decide (b ∈ F i)); [done|]. destruct Hall. apply list.Exists_exists. by exists b. }
    apply submseteq_length in Hsub. rewrite length_blocks in Hsub. lia.
Qed.
Lemma large_used ds lo hi own A U F a x b m : shape ds lo hi own A U F -> A !! a = Some x -> large x = true ->
  U !! b = Some m -> block2arena b = a -> b = a + 12.
Proof.
  intros Hs Ha Hl Hb E. destruct (sh_used _ _ _ _ _ _ _ Hs b m Hb) as (y & Hy & H). rewrite E in *.
  assert (y = x) as -> by congruence. destruct H as [(_ & ? & _)|(? & _)]; [done|congruence].
Qed.
End facts.

(** * Taking and giving back blocks and arenas keeps the shape *)

Section steps.
Context (ds lo hi : Z).
Implicit Types (a b i : Z) (own : Z -> Prop) (A : gmap Z arena) (U : gmap Z Z) (F : Z -> list Z).

Lemma large_home a : a mod 4096 = 0 -> 0 <= a -> a + 4096 <= 2 ^ 32 -> block2arena (a + 12) = a.
Proof. intros. rewrite block2arena_eq by lia. Z.div_mod_to_equations. lia. Qed.

Lemma in_page_perm a xs ys : NoDup xs -> NoDup ys ->
  (forall c, block2arena c = a -> c ∈ xs <-> c ∈ ys) -> length (in_page a xs) = length (in_page a ys).
Proof.
  intros Hx Hy Hc. apply Permutation_length, NoDup_Permutation; [by apply list.NoDup_filter..|].
  intros c. rewrite !elem_in_page. naive_solver.
Qed.

(** One block changes hands: the free list of its class, the count of its
    arena and the map of the blocks in use change together. *)
Lemma shape_block own A U F a x i b ys U' :
  shape ds lo hi own A U F -> A !! a = Some x -> large x = false -> class i -> desc x = nth_desc ds i ->
  b ∈ blocks a i -> NoDup ys -> (forall c, c <> b -> c ∈ ys <-> c ∈ F i) ->
  (forall c, c <> b -> U' !! c = U !! c) ->
  (b ∈ ys /\ U' !! b = None \/ b ∉ ys /\ U' !! b = Some (bsz i)) ->
  shape ds lo hi own (<[a := Arena (desc x) (Z.of_nat (length (in_page a ys))) false]> A) U' (fupd i ys F).
Proof.
  intros Hs Ha Hl Hi Hd Hb Hn Hys HU Hch.
  pose proof (sh_home _ _ _ _ _ _ _ _ _ _ _ Hs Ha Hi Hb) as Hhome.
  set (A' := <[_ := _]> A).
  assert (forall c y, A' !! c = Some y -> exists y0, A !! c = Some y0 /\ extent y = extent y0 /\
            large y = large y0 /\ desc y = desc y0 /\ (c <> a -> y = y0)) as HA.
  { intros c y. unfold A'. rewrite lookup_insert. case_decide; [subst|naive_solver].
    intros [= <-]. exists x. unfold extent. rewrite Hl. naive_solver. }
  assert (forall c y0, A !! c = Some y0 -> exists y, A' !! c = Some y /\ large y = large y0 /\ desc y = desc y0
            /\ (large y0 = true -> y = y0)) as HA'.
  { intros c y0 Hc. unfold A'. rewrite lookup_insert. case_decide; [subst|naive_solver].
    eexists. split; [done|]. assert (y0 = x) as -> by congruence. rewrite Hl. naive_solver. }
  destruct Hs as [H1 H2 H3 H4 H5 H6 H7 H8]. split; [done|..].
  - intros c y (y0 & Hc & -> & _)%HA. by apply H2.
  - intros c y d z (y0 & Hc & -> & _)%HA (z0 & Hz & -> & _)%HA. by apply H3.
  - intros c y (y0 & Hc & _ & El & Ed & Ey)%HA Hlc. assert (c <> a) as Hca by congruence.
    rewrite (Ey Hca) in *. destruct (H4 c y0 Hc Hlc) as [? ?]. split; [done|]. rewrite HU; [done|].
    intros <-. destruct (H2 c y0 Hc) as (? & ? & ? & ? & _). unfold extent in *. rewrite Hlc in *.
    rewrite large_home in Hhome by lia. done.
  - intros c y Hc Hlc. unfold A' in Hc. rewrite lookup_insert in Hc. case_decide as E; [subst c|].
    + injection Hc as <-. cbn in *. exists i. split_and!; [done..|by rewrite fupd_eq|].
      intros e He. rewrite fupd_eq. destruct (decide (e = b)) as [->|Hne]; [naive_solver|].
      rewrite Hys, HU by done. destruct (H5 a x Ha Hl) as (j & Hj & Dj & _ & Hbl).
      assert (j = i) as -> by (apply (nth_desc_inj ds); congruence). auto.
    + destruct (H5 c y Hc Hlc) as (j & Hj & Dj & Cj & Hbl). exists j.
      destruct (H2 c y Hc) as (? & ? & ? & ? & _). unfold extent in *. rewrite Hlc in *.
      assert (forall e, e ∈ blocks c j -> e <> b) as Hne.
      { intros e (k & Hk & ->)%elem_blocks <-. rewrite block2arena_block in Hhome; lia || done. }
      split_and!; [done..| |].
      * rewrite Cj. destruct (decide (j = i)) as [->|]; [|by rewrite fupd_ne].
        rewrite fupd_eq. f_equal. apply in_page_perm; [by apply H7|done|].
        intros e He. symmetry. apply Hys. congruence.
      * intros e He. rewrite HU by by apply Hne.
        destruct (decide (j = i)) as [->|]; [|rewrite fupd_ne by done; by apply Hbl].
        rewrite fupd_eq, Hys by by apply Hne. by apply Hbl.
  - intros j c Hj Hc. destruct (decide (c = b)) as [->|Hne].
    + assert (j = i) as ->.
      { destruct (decide (j = i)) as [|Hji]; [done|]. rewrite fupd_ne in Hc by done.
        destruct (H6 j b Hj Hc) as (_ & y & Hy & _ & Dy & _). rewrite Hhome in Hy.
        apply (nth_desc_inj ds). congruence. }
      rewrite fupd_eq in Hc. split; [naive_solver|].
      destruct (HA' a x Ha) as (y & Hy & Ly & Dy & _). rewrite Hhome. exists y.
      split_and!; [done|congruence|congruence|done].
    + assert (c ∈ F j) as Hcj.
      { destruct (decide (j = i)) as [->|]; [|by rewrite fupd_ne in Hc].
        rewrite fupd_eq in Hc. by apply Hys. }
      destruct (H6 j c Hj Hcj) as (Uc & y0 & Hy & Ly & Dy & By). rewrite HU by done.
      destruct (HA' _ _ Hy) as (y & ? & ? & ? & _). split; [done|]. exists y. split_and!; congruence || done.
  - intros j Hj. destruct (decide (j = i)) as [->|]; [by rewrite fupd_eq|rewrite fupd_ne; auto].
  - intros r n Hr. destruct (decide (r = b)) as [->|Hne].
    + destruct Hch as [[_ ?]|[_ E]]; [congruence|]. destruct (HA' a x Ha) as (y & Hy & Ly & Dy & _).
      rewrite Hhome. exists y. split; [done|]. right. split; [congruence|]. exists i.
      split_and!; congruence || done.
    + rewrite HU in Hr by done. destruct (H8 r n Hr) as (y0 & Hy & H).
      destruct (HA' _ _ Hy) as (y & ? & Ly & Dy & Ey). exists y. split; [done|].
      destruct H as [(L & ? & ?)|(L & j & ? & ? & ? & ?)].
      * left. rewrite (Ey L). done.
      * right. split; [congruence|]. exists j. split_and!; congruence || done.
Qed.

(** New pages do not overlap the arenas there are. *)
Lemma fresh_apart own A U F b y v n :
  shape ds lo hi own A U F -> A !! b = Some y -> v mod 4096 = 0 -> 0 < n ->
  (forall k, 0 <= k < n -> ~ own (v + 4096 * k)) ->
  v + 4096 * n <= b \/ b + 4096 * extent y <= v.
Proof.
  intros Hs Hb Hv Hn Hf. destruct (sh_arena _ _ _ _ _ _ _ Hs b y Hb) as (Hb0 & _ & He & _ & Ho).
  destruct (decide (v + 4096 * n <= b \/ b + 4096 * extent y <= v)) as [|Hno]; [done|exfalso].
  set (m := Z.max (v / 4096) (b / 4096)).
  apply (Hf (m - v / 4096)); [Z.div_mod_to_equations; lia|].
  replace (v + 4096 * (m - v / 4096)) with (b + 4096 * (m - b / 4096)) by (Z.div_mod_to_equations; lia).
  apply Ho. Z.div_mod_to_equations. lia.
Qed.
Lemma fresh_none own A U F v n : shape ds lo hi own A U F -> v mod 4096 = 0 -> 0 < n ->
  (forall k, 0 <= k < n -> ~ own (v + 4096 * k)) -> A !! v = None.
Proof.
  intros Hs Hv Hn Hf. destruct (A !! v) as [y|] eqn:E; [|done].
  destruct (sh_arena _ _ _ _ _ _ _ Hs v y E) as (_ & _ & He & _ & _).
  destruct (fresh_apart _ _ _ _ _ _ _ _ Hs E Hv Hn Hf); lia.
Qed.
(** No block lies in a page without an arena. *)
Lemma unused_page own A U F v r : shape ds lo hi own A U F -> A !! v = None ->
  block2arena r = v -> U !! r = None /\ forall i, class i -> r ∉ F i.
Proof.
  intros Hs Hv <-. split.
  - destruct (U !! r) eqn:E; [|done]. destruct (sh_used _ _ _ _ _ _ _ Hs _ _ E) as (? & ? & _). congruence.
  - intros i Hi Hr. destruct (sh_free _ _ _ _ _ _ _ Hs i r Hi Hr) as (_ & ? & ? & _). congruence.
Qed.

(** A new arena of either kind; [x], [U'] and [F'] are what its pages add. *)
Lemma shape_add own own' A U F v x U' F' :
  shape ds lo hi own A U F -> v mod 4096 = 0 -> lo <= v -> 0 < extent x -> v + 4096 * extent x <= hi ->
  (forall k, 0 <= k < extent x -> ~ own (v + 4096 * k)) ->
  (forall a, own a \/ (exists k, 0 <= k < extent x /\ a = v + 4096 * k) -> own' a) ->
  (forall r, block2arena r <> v -> U' !! r = U !! r) ->
  (forall i r, class i -> block2arena r <> v -> r ∈ F' i <-> r ∈ F i) ->
  (forall i, class i -> NoDup (F' i)) ->
  (large x = true -> desc x = 0 /\ U' !! (v + 12) = Some (cnt x * 4096 - 12)) ->
  (large x = false -> exists i, class i /\ desc x = nth_desc ds i /\ cnt x = Z.of_nat (length (in_page v (F' i))) /\
      forall b, b ∈ blocks v i -> b ∈ F' i \/ U' !! b = Some (bsz i)) ->
  (forall i b, class i -> b ∈ F' i -> block2arena b = v -> U' !! b = None /\
      large x = false /\ desc x = nth_desc ds i /\ b ∈ blocks v i) ->
  (forall r n, U' !! r = Some n -> block2arena r = v -> large x = true /\ r = v + 12 /\ n = cnt x * 4096 - 12) ->
  shape ds lo hi own' (<[v := x]> A) U' F'.
Proof.
  intros Hs Hv Hlo He Hhi Hf Ho HU HF Hnd Hlx Hsx Hfx Hux.
  pose proof (fresh_none _ _ _ _ _ _ Hs Hv He Hf) as Hv0.
  assert (forall a y, A !! a = Some y -> a <> v) as Hne by congruence.
  destruct (sh_range _ _ _ _ _ _ _ Hs) as [? ?]. split; [done|..].
  - intros a y. rewrite lookup_insert. case_decide; [subst; intros [= <-]; split_and!; eauto|].
    intros Ha. destruct (sh_arena _ _ _ _ _ _ _ Hs a y Ha) as (? & ? & ? & ? & ?). split_and!; eauto.
  - intros a y b z. rewrite !lookup_insert. repeat case_decide; subst; intros Ha Hb Hab; try congruence.
    + injection Ha as <-. by apply (fresh_apart _ _ _ _ _ _ _ _ Hs Hb).
    + injection Hb as <-. destruct (fresh_apart _ _ _ _ _ _ _ _ Hs Ha Hv He Hf); tauto.
    + by apply (sh_apart _ _ _ _ _ _ _ Hs).
  - intros a y. rewrite lookup_insert. case_decide; [subst; intros [= <-]; done|]. intros Ha Hl.
    destruct (sh_page _ _ _ _ _ _ _ _ _ Hs Ha) as (? & ? & ?).
    rewrite HU by (rewrite large_home by lia; done). by apply (sh_large _ _ _ _ _ _ _ Hs).
  - intros a y. rewrite lookup_insert. case_decide; [subst; intros [= <-]; done|]. intros Ha Hl.
    destruct (sh_small _ _ _ _ _ _ _ Hs a y Ha Hl) as (i & Hi & Di & Ci & Bi). exists i. split_and!; [done..| |].
    + rewrite Ci. f_equal. apply in_page_perm; [by apply (sh_nodup _ _ _ _ _ _ _ Hs)|by apply Hnd|].
      intros c Hc. symmetry. apply HF; congruence.
    + intros b Hb. pose proof (sh_home _ _ _ _ _ _ _ _ _ _ _ Hs Ha Hi Hb).
      rewrite HF, HU by congruence. by apply Bi.
  - intros i b Hi Hb. destruct (decide (block2arena b = v)) as [E|E].
    + destruct (Hfx i b Hi Hb E) as (? & ? & ? & ?). split; [done|]. exists x. rewrite E, lookup_insert_eq. done.
    + rewrite HF in Hb by done. destruct (sh_free _ _ _ _ _ _ _ Hs i b Hi Hb) as (? & y & ? & ?).
      rewrite HU by done. split; [done|]. exists y. by rewrite lookup_insert_ne.
  - done.
  - intros r n Hr. destruct (decide (block2arena r = v)) as [E|E].
    + exists x. rewrite E, lookup_insert_eq. split; [done|]. left. by apply Hux.
    + rewrite HU in Hr by done. destruct (sh_used _ _ _ _ _ _ _ Hs r n Hr) as (y & ? & ?).
      exists y. by rewrite lookup_insert_ne.
Qed.

(** A page cut into the blocks of a class. *)
Lemma shape_new own own' A U F v i :
  shape ds lo hi own A U F -> class i -> v mod 4096 = 0 -> lo <= v -> v + 4096 <= hi ->
  ~ own v -> (forall a, own a \/ a = v -> own' a) ->
  shape ds lo hi own' (<[v := Arena (nth_desc ds i) (per i) false]> A) U (fupd i (F i ++ blocks v i) F).
Proof.
  intros Hs Hi Hv Hlo Hhi Hf Ho. destruct (sh_range _ _ _ _ _ _ _ Hs) as [? ?].
  assert (forall k, 0 <= k < 1 -> ~ own (v + 4096 * k)) as Hf'.
  { intros k Hk. replace k with 0 by lia. by rewrite Z.mul_0_r, Z.add_0_r. }
  assert (A !! v = None) as Hv0 by (by apply (fresh_none _ _ _ _ _ 1 Hs)).
  assert (forall b, b ∈ blocks v i -> block2arena b = v) as Hhome.
  { intros b (j & Hj & ->)%elem_blocks. apply block2arena_block; lia || done. }
  assert (forall j r, class j -> r ∈ F j -> block2arena r <> v) as Hno.
  { intros j r Hj Hr E. destruct (unused_page _ _ _ _ _ _ Hs Hv0 E) as [_ Hn]. by apply (Hn j). }
  assert (NoDup (F i ++ blocks v i)) as Hnd.
  { apply list.NoDup_app. split_and!; [by apply (sh_nodup _ _ _ _ _ _ _ Hs)| |by apply blocks_nodup].
    intros r Hr Hb. by apply (Hno i r), Hhome. }
  assert (in_page v (F i ++ blocks v i) ≡ₚ blocks v i) as Hin.
  { apply NoDup_Permutation; [by apply list.NoDup_filter|by apply blocks_nodup|].
    intros r. rewrite elem_in_page, list.elem_of_app. split; [|by auto].
    intros [[Hr|Hr] E]; [|done]. by destruct (Hno i r). }
  apply (shape_add own _ _ U F); unfold extent; cbn [large cnt desc]; try done.
  - intros a [?|(k & ? & ->)]; apply Ho; [by left|]. right. lia.
  - intros j r Hj Hr. destruct (decide (j = i)) as [->|]; [|by rewrite fupd_ne].
    rewrite fupd_eq, list.elem_of_app. naive_solver.
  - intros j Hj. destruct (decide (j = i)) as [->|]; [by rewrite fupd_eq|].
    rewrite fupd_ne by done. by apply (sh_nodup _ _ _ _ _ _ _ Hs).
  - intros _. exists i. rewrite fupd_eq. split_and!; [done|done| |].
    + rewrite (Permutation_length Hin), length_blocks. pose proof (class_facts i Hi). lia.
    + intros b Hb. left. apply list.elem_of_app. by right.
  - intros j b Hj Hb E. split; [by apply (unused_page _ _ _ _ _ _ Hs Hv0 E)|]. split; [done|].
    destruct (decide (j = i)) as [->|]; [|rewrite fupd_ne in Hb by done; by destruct (Hno j b)].
    rewrite fupd_eq in Hb. apply list.elem_of_app in Hb as [Hb|Hb]; [by destruct (Hno i b)|done].
  - intros r n Hr E. destruct (unused_page _ _ _ _ _ _ Hs Hv0 E) as [? _]. congruence.
Qed.

(** Pages for one large block. *)
Lemma shape_new_large own own' A U F v n :
  shape ds lo hi own A U F -> v mod 4096 = 0 -> lo <= v -> 0 < n -> v + 4096 * n <= hi ->
  (forall k, 0 <= k < n -> ~ own (v + 4096 * k)) ->
  (forall a, own a \/ (exists k, 0 <= k < n /\ a = v + 4096 * k) -> own' a) ->
  shape ds lo hi own' (<[v := Arena 0 n true]> A) (<[v + 12 := n * 4096 - 12]> U) F.
Proof.
  intros Hs Hv Hlo Hn Hhi Hf Ho. destruct (sh_range _ _ _ _ _ _ _ Hs) as [? ?].
  pose proof (fresh_none _ _ _ _ _ _ Hs Hv Hn Hf) as Hv0.
  assert (block2arena (v + 12) = v) as Hhome by (apply large_home; lia).
  apply (shape_add own _ _ U F); unfold extent; cbn [large cnt desc]; try done.
  - intros r Hr. apply lookup_insert_ne. congruence.
  - by apply (sh_nodup _ _ _ _ _ _ _ Hs).
  - intros _. by rewrite lookup_insert_eq.
  - intros j b Hj Hb E. destruct (unused_page _ _ _ _ _ _ Hs Hv0 E) as [_ Hno]. by destruct (Hno j Hj).
  - intros r m. rewrite lookup_insert. case_decide as E; [subst r; by intros [= <-]|].
    intros Hr E'. destruct (unused_page _ _ _ _ _ _ Hs Hv0 E'). congruence.
Qed.

(** An arena goes; its page has no block in use or free any more. *)
Lemma shape_del own own' A U F v x U' F' :
  shape ds lo hi own A U F -> A !! v = Some x ->
  (forall a, own a -> ~ (v <= a < v + 4096 * extent x) -> own' a) ->
  (forall r, block2arena r <> v -> U' !! r = U !! r) -> (forall r, block2arena r = v -> U' !! r = None) ->
  (forall i r, class i -> r ∈ F' i <-> r ∈ F i /\ block2arena r <> v) ->
  (forall i, class i -> NoDup (F' i)) ->
  shape ds lo hi own' (delete v A) U' F'.
Proof.
  intros Hs Hv Ho HU HU0 HF Hnd. destruct (sh_page _ _ _ _ _ _ _ _ _ Hs Hv) as (Hv1 & Hv2 & Hv3).
  split; [by apply (sh_range _ _ _ _ _ _ _ Hs)|..].
  - intros a y (Hne & Ha)%lookup_delete_Some.
    destruct (sh_arena _ _ _ _ _ _ _ Hs a y Ha) as (? & ? & ? & ? & Hown). split_and!; [done..|].
    intros k Hk. apply Ho; [by apply Hown|]. destruct (sh_apart _ _ _ _ _ _ _ Hs _ _ _ _ Ha Hv); lia.
  - intros a y b z (? & Ha)%lookup_delete_Some (? & Hb)%lookup_delete_Some. by apply (sh_apart _ _ _ _ _ _ _ Hs).
  - intros a y (Hne & Ha)%lookup_delete_Some Hl. destruct (sh_page _ _ _ _ _ _ _ _ _ Hs Ha) as (? & ? & ?).
    rewrite HU by (rewrite large_home by lia; done). by apply (sh_large _ _ _ _ _ _ _ Hs).
  - intros a y (Hne & Ha)%lookup_delete_Some Hl.
    destruct (sh_small _ _ _ _ _ _ _ Hs a y Ha Hl) as (i & Hi & Di & Ci & Bi). exists i. split_and!; [done..| |].
    + rewrite Ci. f_equal. apply in_page_perm; [by apply (sh_nodup _ _ _ _ _ _ _ Hs)|by apply Hnd|].
      intros c Hc. rewrite HF by done. naive_solver.
    + intros b Hb. pose proof (sh_home _ _ _ _ _ _ _ _ _ _ _ Hs Ha Hi Hb) as Hh.
      rewrite HF, HU by congruence. destruct (Bi b Hb); [left|by right]. split; congruence.
  - intros i b Hi (Hb & Hne)%HF; [|done]. destruct (sh_free _ _ _ _ _ _ _ Hs i b Hi Hb) as (? & y & ? & ?).
    rewrite HU by done. split; [done|]. exists y. by rewrite lookup_delete_ne.
  - done.
  - intros r n Hr. destruct (decide (block2arena r = v)) as [E|E]; [rewrite HU0 in Hr; done|].
    rewrite HU in Hr by done. destruct (sh_used _ _ _ _ _ _ _ Hs r n Hr) as (y & ? & ?).
    exists y. by rewrite lookup_delete_ne.
Qed.

Definition without_page (v : Z) (xs : list Z) : list Z := filter (fun b => block2arena b <> v) xs.
Lemma shape_del_small own own' A U F v x i :
  shape ds lo hi own A U F -> A !! v = Some x -> large x = false -> class i -> desc x = nth_desc ds i ->
  cnt x = per i -> (forall a, own a -> ~ (v <= a < v + 4096 * 1) -> own' a) ->
  shape ds lo hi own' (delete v A) U (fupd i (without_page v (F i)) F).
Proof.
  intros Hs Hv Hl Hi Hd Hc Ho.
  apply (shape_del own _ _ U F v x); try done.
  - intros a Ha Hout. apply Ho; [done|]. unfold extent in Hout. by rewrite Hl in Hout.
  - intros r Hr. destruct (U !! r) as [n|] eqn:E; [|done].
    by destruct (full_unused _ _ _ _ _ _ _ _ _ _ Hs Hv Hi Hl Hd Hc r n).
  - intros j r Hj. destruct (decide (j = i)) as [->|Hne].
    + rewrite fupd_eq. unfold without_page. rewrite list_elem_of_filter. tauto.
    + rewrite fupd_ne by done. split; [|tauto]. intros Hr. split; [done|]. intros E.
      destruct (sh_free _ _ _ _ _ _ _ Hs j r Hj Hr) as (_ & y & Hy & _ & Dy & _). rewrite E in Hy.
      apply Hne, (nth_desc_inj ds). congruence.
  - intros j Hj. destruct (decide (j = i)) as [->|Hne].
    + rewrite fupd_eq. by apply list.NoDup_filter, (sh_nodup _ _ _ _ _ _ _ Hs).
    + rewrite fupd_ne by done. by apply (sh_nodup _ _ _ _ _ _ _ Hs).
Qed.
Lemma shape_del_large own own' A U F v x :
  shape ds lo hi own A U F -> A !! v = Some x -> large x = true ->
  (forall a, own a -> ~ (v <= a < v + 4096 * cnt x) -> own' a) ->
  shape ds lo hi own' (delete v A) (delete (v + 12) U) F.
Proof.
  intros Hs Hv Hl Ho. destruct (sh_page _ _ _ _ _ _ _ _ _ Hs Hv) as (? & ? & ?).
  assert (block2arena (v + 12) = v) as Hh by (apply large_home; lia).
  apply (shape_del own _ _ U F v x); try done.
  - intros a Ha Hout. apply Ho; [done|]. unfold extent in Hout. by rewrite Hl in Hout.
  - intros r Hr. apply lookup_delete_ne. congruence.
  - intros r Hr. destruct (delete (v + 12) U !! r) as [n|] eqn:E; [|done].
    apply lookup_delete_Some in E as [Hne E].
    destruct (sh_used _ _ _ _ _ _ _ Hs r n E) as (y & Hy & H'). rewrite Hr in *. assert (y = x) as -> by congruence.
    destruct H' as [(_ & ? & _)|(? & _)]; congruence.
  - intros j r Hj. split; [|tauto]. intros Hr. split; [done|]. intros E.
    destruct (sh_free _ _ _ _ _ _ _ Hs j r Hj Hr) as (_ & y & Hy & Ly & _). rewrite E in Hy. congruence.
  - by apply (sh_nodup _ _ _ _ _ _ _ Hs).
Qed.
End steps.
