(* ===== verification/MallocProofs.v ===== *)
(** * MallocProofs: [sys_malloc] and [sys_free] keep the heap in order *)
From S2P Require Import Prelude Lists ListProofs Kernel Locks Malloc MallocInv.

(** What the allocator relies on when it asks for pages, and gives back:
    pages it gets are whole, lie in the part of the address space that the
    pool has, and were not its own before; giving pages back, or not getting
    any, does not take away others. *)
Class PagesLaws (P : Type) `{Pages P} := {
  pages_ok : P -> Prop;
  low : Z -> P -> Z;
  high : Z -> P -> Z;
  owned : Z -> P -> Z -> Prop;
  malloc_page_law : forall pt n p v p', pages_ok p -> 0 < n -> malloc_page pt n p = Ok (v, p') ->
    pages_ok p' /\ low pt p' = low pt p /\ high pt p' = high pt p /\
    (forall a, owned pt p a -> owned pt p' a) /\
    (v <> 0 -> v mod 4096 = 0 /\ low pt p <= v /\ v + 4096 * n <= high pt p /\
       forall k, 0 <= k < n -> ~ owned pt p (v + 4096 * k) /\ owned pt p' (v + 4096 * k));
  mfree_page_law : forall pt v n p u p', pages_ok p -> 0 < n -> v mod 4096 = 0 -> 0 <= v < 2 ^ 32 ->
    mfree_page pt v n p = Ok (u, p') ->
    pages_ok p' /\ low pt p' = low pt p /\ high pt p' = high pt p /\
    forall a, owned pt p a -> ~ (v <= a < v + 4096 * n) -> owned pt p' a;
  pool_size_law : forall pt p, pages_ok p -> pool_size pt p <= 2 ^ 31
}.

(** The invariant: the shape of the arenas and, in memory, the lists of the
    free blocks; [h] are the nodes, [p] the pages, [D] the descriptors. *)
Record heap_ok {P} `{PagesLaws P} (pt ds : Z) (h : lheap) (p : P) (A : gmap Z arena)
    (D : gmap Z mem_block_desc) (U : gmap Z Z) (F : Z -> list Z) : Prop := {
  hk_pages : pages_ok p;
  hk_shape : shape ds (low pt p) (high pt p) (owned pt p) A U F;
  hk_descs : forall i, class i -> D !! nth_desc ds i = Some (Desc (bsz i) (per i));
  hk_lists : forall i, class i -> dll h (head ds i) (F i);
  hk_heads : forall i, class i -> ~ (low pt p <= head ds i < high pt p);
  hk_mapped : forall a x i b, A !! a = Some x -> large x = false -> class i -> desc x = nth_desc ds i ->
    b ∈ blocks a i -> mapped h b
}.

(** Nodes outside the pool's part of the address space, and not heads of the
    free lists, stay what they are. *)
Definition elsewhere {P} `{PagesLaws P} (pt ds : Z) (p : P) (h h' : lheap) : Prop :=
  forall q, ~ (low pt p <= q < high pt p) -> (forall i, class i -> q <> head ds i) -> h' !! q = h !! q.

Section memory.
Implicit Types (h : lheap) (p q : Z).

Lemma clear_nodes_out p len h q : ~ (p <= q < p + len) -> clear_nodes p len h !! q = h !! q.
Proof.
  intros Hq. unfold clear_nodes.
  assert (forall l, (forall i, i ∈ l -> 0 <= i < len / 4) ->
    foldr (fun i h => <[p + 4 * i := Node 0 0]> h) h l !! q = h !! q) as Hl; [|apply Hl; intros i; rewrite elem_of_seqZ; lia].
  induction l as [|i l IH]; [done|]. intros Hi. cbn. rewrite lookup_insert_ne; [apply IH; set_solver|].
  assert (0 <= i < len / 4) by set_solver. Z.div_mod_to_equations. lia.
Qed.
Lemma clear_nodes_mapped p len h q : mapped h q -> mapped (clear_nodes p len h) q.
Proof.
  intros Hm. unfold clear_nodes. induction (seqZ 0 (len / 4)) as [|i l IH]; [done|].
  cbn. unfold mapped. rewrite lookup_insert. case_decide; [by eexists|done].
Qed.
Lemma clear_nodes_in p len h k : 0 <= k < len / 4 -> mapped (clear_nodes p len h) (p + 4 * k).
Proof.
  intros Hk. unfold clear_nodes. assert (k ∈ seqZ 0 (len / 4)) as Hin by (apply elem_of_seqZ; lia).
  induction (seqZ 0 (len / 4)) as [|i l IH]; [by apply elem_of_nil in Hin|].
  cbn. unfold mapped. rewrite lookup_insert. case_decide; [by eexists|].
  apply list.elem_of_cons in Hin as [->|Hin]; [done|]. by apply IH.
Qed.
End memory.

Section lists.
Context {P : Type} `{PagesLaws P}.
Implicit Types (pt ds i b q : Z) (h : lheap) (p : P) (U : gmap Z Z) (F : Z -> list Z).

Lemma free_in_pool pt ds h p A D U F i b : heap_ok pt ds h p A D U F -> class i -> b ∈ F i ->
  low pt p <= b < high pt p.
Proof.
  intros Hk Hi Hb. destruct (sh_free _ _ _ _ _ _ _ (hk_shape _ _ _ _ _ _ _ _ Hk) i b Hi Hb) as (_ & x & Hx & Hl & _ & Hbb).
  destruct (sh_arena _ _ _ _ _ _ _ (hk_shape _ _ _ _ _ _ _ _ Hk) _ x Hx) as (_ & ? & _ & Hh & _).
  unfold extent in Hh. rewrite Hl in Hh. apply elem_blocks in Hbb as (j & Hj & E).
  pose proof (block_at_range (block2arena b) i j Hi Hj). pose proof (class_facts i Hi). lia.
Qed.

(** The lists of two classes have nothing in common. *)
Lemma lists_apart pt ds h p A D U F i j q : heap_ok pt ds h p A D U F -> class i -> class j -> j <> i ->
  q ∈ head ds j :: F j -> q ∉ head ds i :: F i.
Proof.
  intros Hk Hi Hj Hne Hq Hq'. pose proof (hk_heads _ _ _ _ _ _ _ _ Hk) as Hh.
  apply list.elem_of_cons in Hq as [->|Hq]; apply list.elem_of_cons in Hq' as [E|Hq'].
  - by apply head_inj in E.
  - apply (Hh j Hj). by apply (free_in_pool _ _ _ _ _ _ _ _ i _ Hk).
  - subst. apply (Hh i Hi). by apply (free_in_pool _ _ _ _ _ _ _ _ j _ Hk).
  - destruct (sh_free _ _ _ _ _ _ _ (hk_shape _ _ _ _ _ _ _ _ Hk) i q Hi Hq') as (_ & x & Hx & _ & Dx & _).
    destruct (sh_free _ _ _ _ _ _ _ (hk_shape _ _ _ _ _ _ _ _ Hk) j q Hj Hq) as (_ & y & Hy & _ & Dy & _).
    apply Hne, (nth_desc_inj ds). congruence.
Qed.

(** A free block is not inside another block. *)
Lemma free_not_inside pt ds h p A D U F a x i b j c : heap_ok pt ds h p A D U F ->
  A !! a = Some x -> large x = false -> class i -> desc x = nth_desc ds i -> b ∈ blocks a i ->
  class j -> c ∈ F j -> c <> b -> ~ (b <= c < b + bsz i).
Proof.
  intros Hk Ha Hl Hi Hd Hb Hj Hc Hne Hin. pose proof (hk_shape _ _ _ _ _ _ _ _ Hk) as Hs.
  destruct (sh_free _ _ _ _ _ _ _ Hs j c Hj Hc) as (_ & y & Hy & Ly & Dy & By).
  destruct (sh_page _ _ _ _ _ _ _ _ _ Hs Ha) as (? & ? & ?).
  assert (block2arena c = a) as E.
  { apply elem_blocks in Hb as (k & Hk' & ->). pose proof (block_at_range a i k Hi Hk').
    rewrite block2arena_eq by lia. Z.div_mod_to_equations. lia. }
  rewrite E in *. assert (j = i) as -> by (apply (nth_desc_inj ds); congruence).
  pose proof (class_facts i Hi). destruct (blocks_apart a i b c Hi Hb By); [done|lia..].
Qed.

(** Changing the list of one class. *)
Lemma lists_fupd ds h h' F i ys :
  (forall j, class j -> dll h (head ds j) (F j)) -> dll h' (head ds i) ys ->
  (forall j q, class j -> j <> i -> q ∈ head ds j :: F j -> h' !! q = h !! q) ->
  forall j, class j -> dll h' (head ds j) (fupd i ys F j).
Proof.
  intros Hl Hd Hf j Hj. destruct (decide (j = i)) as [->|Hne]; [by rewrite fupd_eq|].
  rewrite fupd_ne by done. eapply dll_frame; [by apply Hl|]. intros. by apply (Hf j).
Qed.

Lemma elsewhere_trans pt ds p p' h1 h2 h3 : low pt p' = low pt p -> high pt p' = high pt p ->
  elsewhere pt ds p h1 h2 -> elsewhere pt ds p' h2 h3 -> elsewhere pt ds p h1 h3.
Proof. intros El Eh H1 H2 q Hq Hh. rewrite H2, H1; [done..|by rewrite El, Eh|done]. Qed.
Lemma elsewhere_unchanged pt ds p h h' qs i : unchanged_except (head ds i :: qs) h h' -> class i ->
  (forall q, q ∈ qs -> low pt p <= q < high pt p) -> elsewhere pt ds p h h'.
Proof.
  intros [Hu _] Hi Hqs q Hq Hh. apply Hu. intros [->|Hin]%list.elem_of_cons; [by apply (Hh i Hi)|auto].
Qed.
End lists.

(** * The pieces of [sys_malloc] and [sys_free], with the lock held *)

(** The waiting queue of a pool lock is not in the way of the allocator. *)
Definition lock_out {P} `{PagesLaws P} `{HeapGlobals} (pt ds : Z) (p : P) : Prop :=
  ~ (low pt p <= waiting_queue (pool_lock pt) < high pt p) /\
  forall i, class i -> waiting_queue (pool_lock pt) <> head ds i.
(** The lock is held by [c] and nobody waits. *)
Definition lock_held {P} `{HeapGlobals} (pt c : Z) (s : heap P) : Prop :=
  locks (kn s) !! pool_lock pt = Some (held_by c) /\
  dll (klists (kn s)) (waiting_queue (pool_lock pt)) [].
(** [s] with other memory and with the lock given back. *)
Definition released {P} `{HeapGlobals} (pt : Z) (h : lheap) (p : P) (A : gmap Z arena) (s : heap P) : heap P :=
  Heap (with_lock (pool_lock pt) free_lock (set_klists h (kn s))) p A (descs s).

Section pieces.
Context {P : Type} `{PagesLaws P} `{HeapGlobals} `{Globals}.
Context (fuel : nat) (pt ds c : Z).
Implicit Types (s : heap P) (U : gmap Z Z) (F : Z -> list Z) (A : gmap Z arena) (h : lheap).

Definition ok s U F : Prop := heap_ok pt ds (klists (kn s)) (pages s) (arenas s) (descs s) U F.

Lemma get_desc_ok s d x : descs s !! d = Some x -> get_desc d s = Ok (x, s).
Proof. unfold get_desc. by intros ->. Qed.
Lemma upd_arena_ok s a x f : arenas s !! a = Some x ->
  upd_arena a f s = Ok (tt, set_arenas (<[a := f x]> (arenas s)) s).
Proof. unfold upd_arena. by intros ->. Qed.
Lemma upd_arena_at k p A D a x f :
  upd_arena a f (Heap k p (<[a := x]> A) D : heap P) = Ok (tt, Heap k p (<[a := f x]> A) D).
Proof. rewrite (upd_arena_ok _ a x) by apply lookup_insert_eq. unfold set_arenas. cbn. by rewrite insert_insert_eq. Qed.
Lemma memset_pages_at k p A D v len :
  memset_pages v len (Heap k p A D : heap P) =
  Ok (tt, Heap (set_klists (clear_nodes v len (klists k)) k) p (<[v := Arena 0 0 false]> A) D).
Proof. done. Qed.
Lemma get_arena_ok s a x : arenas s !! a = Some x -> get_arena a s = Ok (x, s).
Proof. unfold get_arena. by intros ->. Qed.

Lemma set_pages_heap p s :
  set_pages p s = Heap (set_klists (klists (kn s)) (kn s)) p (arenas s) (descs s).
Proof. by destruct s as [[]]. Qed.
Lemma release_ok s h p A : lock_held pt c s -> lock_out pt ds p -> elsewhere pt ds p (klists (kn s)) h ->
  release fuel pt (Heap (set_klists h (kn s)) p A (descs s)) = Ok (tt, released pt h p A s).
Proof.
  intros [Hl Hd] [Ho Hh] He. unfold release, on_kern, zoom. cbn [kn].
  rewrite (lock_release_now fuel _ c); [done|done|].
  eapply dll_frame; [done|]. intros q ->%list_elem_of_singleton. by apply He.
Qed.

Lemma nonempty_page a b rest : block2arena b = a ->
  Z.of_nat (length (in_page a (b :: rest))) - 1 = Z.of_nat (length (in_page a rest)).
Proof. intros E. rewrite in_page_cons, decide_True by done. cbn [length]. lia. Qed.

(** The rest of a free list after its first block was taken and cleared. *)
Lemma popped_lists s U F i b rest h1 : ok s U F -> class i -> F i = b :: rest ->
  dll h1 (head ds i) rest -> unchanged_except (head ds i :: b :: rest) (klists (kn s)) h1 ->
  forall j, class j -> dll (clear_nodes b (bsz i) h1) (head ds j) (fupd i rest F j).
Proof.
  intros Hk Hi HF Hd Hu.
  destruct (sh_free _ _ _ _ _ _ _ (hk_shape _ _ _ _ _ _ _ _ Hk) i b Hi) as (_ & x & Hx & Hl & Hdx & Hb); [rewrite HF; set_solver|].
  assert (forall j q, class j -> q ∈ head ds j :: F j -> q <> b -> ~ (b <= q < b + bsz i)) as Hout.
  { intros j q Hj Hq Hne. apply list.elem_of_cons in Hq as [->|Hq]; [|by eapply free_not_inside].
    pose proof (free_in_pool _ _ _ _ _ _ _ _ i b Hk Hi) as Hr. rewrite HF in Hr. specialize (Hr ltac:(set_solver)).
    destruct (sh_arena _ _ _ _ _ _ _ (hk_shape _ _ _ _ _ _ _ _ Hk) _ x Hx) as (_ & ? & _ & Hh & _).
    unfold extent in Hh. rewrite Hl in Hh. apply elem_blocks in Hb as (k & Hk' & E).
    pose proof (block_at_range (block2arena b) i k Hi Hk'). pose proof (hk_heads _ _ _ _ _ _ _ _ Hk j Hj). lia. }
  eapply (lists_fupd _ (klists (kn s))); [by apply Hk| |].
  - eapply dll_frame; [done|]. intros q Hq. apply clear_nodes_out, (Hout i); [done| |].
    + rewrite HF. set_solver.
    + destruct (hk_lists _ _ _ _ _ _ _ _ Hk i Hi) as [_ Hn]. rewrite HF in Hn. nodup_hyps. set_solver.
  - intros j q Hj Hne Hq. pose proof (lists_apart _ _ _ _ _ _ _ _ i j q Hk Hi Hj Hne Hq) as Hap. rewrite HF in Hap.
    rewrite clear_nodes_out; [by apply Hu|]. apply (Hout j); [done|done|set_solver].
Qed.

Lemma take_block_ok s U F i b rest :
  ok s U F -> lock_held pt c s -> lock_out pt ds (pages s) -> class i -> F i = b :: rest ->
  exists h A, take_block fuel pt (nth_desc ds i) s = Ok (b, released pt h (pages s) A s) /\
    heap_ok pt ds h (pages s) A (descs s) (<[b := bsz i]> U) (fupd i rest F) /\
    elsewhere pt ds (pages s) (klists (kn s)) h.
Proof.
  intros Hk Hl Ho Hi HF.
  destruct (sh_free _ _ _ _ _ _ _ (hk_shape _ _ _ _ _ _ _ _ Hk) i b Hi) as (_ & x & Hx & Lx & Dx & Bx); [rewrite HF; set_solver|].
  destruct (list_pop_ok s (head ds i) b rest) as (h1 & E1 & Hd1 & _ & Hu1); [rewrite <-HF; by apply Hk|].
  set (h2 := clear_nodes b (bsz i) h1).
  set (A' := <[block2arena b := Arena (desc x) (u32 (cnt x - 1)) (large x)]> (arenas s)).
  assert (cnt x - 1 = Z.of_nat (length (in_page (block2arena b) rest))) as Hc.
  { destruct (free_count _ _ _ _ _ _ _ _ _ _ (hk_shape _ _ _ _ _ _ _ _ Hk) Hx Hi Lx Dx) as (-> & _).
    rewrite HF. by apply nonempty_page. }
  assert (elsewhere pt ds (pages s) (klists (kn s)) h2) as Hels.
  { intros q Hq Hh. unfold h2. pose proof (fun q' => free_in_pool _ _ _ _ _ _ _ _ i q' Hk Hi) as Hr. rewrite HF in Hr.
    rewrite clear_nodes_out.
    - apply Hu1. specialize (Hh i Hi). intros [->|Hin]%list.elem_of_cons; [done|]. by apply Hq, Hr.
    - intros Hin. apply Hq. pose proof (Hr b ltac:(set_solver)).
      destruct (sh_arena _ _ _ _ _ _ _ (hk_shape _ _ _ _ _ _ _ _ Hk) _ x Hx) as (_ & ? & _ & Hhi & _).
      unfold extent in Hhi. rewrite Lx in Hhi. apply elem_blocks in Bx as (k & Hk' & E).
      pose proof (block_at_range (block2arena b) i k Hi Hk'). lia. }
  exists h2, A'. split_and!; [| |done].
  - unfold take_block. run E1. change (set_lists h1 s) with (Heap (set_klists h1 (kn s)) (pages s) (arenas s) (descs s)).
    erewrite bind_ok; [|by apply get_desc_ok, Hk].
    cbn [block_size]. unfold memset_block. rewrite modify_bind. cbn [kn pages arenas descs].
    erewrite bind_ok; [|by apply upd_arena_ok]. erewrite bind_ok; [|by apply (release_ok s h2 (pages s) A')]. done.
  - destruct Hk as [K1 K2 K3 K4 K5 K6]. split; try done.
    + unfold A'. rewrite Lx, Hc, u32_small.
      * apply (shape_block _ _ _ _ _ U F _ x i b); try done.
        -- pose proof (sh_nodup _ _ _ _ _ _ _ K2 i Hi) as Hn. rewrite HF in Hn. by apply list.NoDup_cons in Hn as [_ ?].
        -- intros c'. rewrite HF. set_solver.
        -- intros c' Hne. by apply lookup_insert_ne.
        -- right. rewrite lookup_insert_eq. split; [|done].
           pose proof (sh_nodup _ _ _ _ _ _ _ K2 i Hi) as Hn. rewrite HF in Hn. by apply list.NoDup_cons in Hn as [? _].
      * rewrite <-Hc. destruct (free_count _ _ _ _ _ _ _ _ _ _ K2 Hx Hi Lx Dx) as (E & _ & Hle & _).
        pose proof (class_facts i Hi). lia.
    + by apply (popped_lists s U F i b rest h1).
    + intros a y j b' Ha Ly Hj Dy Hb'. apply clear_nodes_mapped, Hu1. unfold A' in Ha. rewrite lookup_insert in Ha.
      case_decide; [|by apply (K6 a y j b')]. injection Ha as <-. subst a. cbn in Dy. by apply (K6 (block2arena b) x j b').
Qed.

(** The class that is chosen is the smallest whose blocks are large enough. *)
Lemma desc_loop_ok s size n idx :
  (forall i, class i -> descs s !! nth_desc ds i = Some (Desc (bsz i) (per i))) ->
  0 < size <= 1024 -> 0 <= idx -> idx + Z.of_nat n = 7 -> (0 < n)%nat ->
  exists i, desc_loop n ds idx size s = Ok (i, s) /\ class i /\ size <= bsz i /\
    forall j, idx <= j < i -> bsz j < size.
Proof.
  intros Hd Hs. revert idx. induction n as [|n IH]; [lia|]. intros idx Hi Hn _. cbn [desc_loop].
  erewrite bind_ok; [|by apply get_desc_ok, Hd; unfold class; lia]. cbn [block_size].
  destruct (Z.leb_spec size (bsz idx)).
  - exists idx. split_and!; [done|unfold class; lia|done|lia].
  - destruct n as [|n].
    { assert (idx = 6) as -> by lia. change (bsz 6) with 1024 in *. lia. }
    rewrite u8_small by lia. destruct (IH (idx + 1)) as (i & E & ? & ? & Hj); [lia..|].
    exists i. split_and!; [done..|]. intros j ?. destruct (decide (j = idx)) as [->|]; [done|]. apply Hj. lia.
Qed.

Lemma arena2block_ok s a x i j : arenas s !! a = Some x -> desc x = nth_desc ds i -> class i ->
  descs s !! nth_desc ds i = Some (Desc (bsz i) (per i)) -> 0 <= a -> a + 4096 <= 2 ^ 32 -> 0 <= j < per i ->
  arena2block a j s = Ok (block_at a i j, s).
Proof.
  intros Ha Hx Hi Hd ? ? Hj. unfold arena2block. erewrite bind_ok; [|by apply get_arena_ok].
  rewrite Hx. erewrite bind_ok; [|by apply get_desc_ok]. cbn [block_size].
  pose proof (block_at_range a i j Hi Hj) as Hb. pose proof (class_facts i Hi). unfold block_at in *.
  by rewrite u32_small by lia.
Qed.

(** Linking the blocks of a page from the [j]th on. *)
Lemma fill_loop_ok s a x i n j ys :
  arenas s !! a = Some x -> desc x = nth_desc ds i -> class i ->
  descs s !! nth_desc ds i = Some (Desc (bsz i) (per i)) -> 0 <= a -> a + 4096 <= 2 ^ 32 ->
  0 <= j -> j + Z.of_nat n = per i ->
  dll (klists (kn s)) (head ds i) ys ->
  (forall k, j <= k < per i -> block_at a i k ∉ head ds i :: ys /\ mapped (klists (kn s)) (block_at a i k)) ->
  exists h, fill_loop n a j s = Ok (tt, set_lists h s) /\
    dll h (head ds i) (ys ++ (block_at a i <$> seqZ j (Z.of_nat n))) /\
    unchanged_except (head ds i :: ys ++ (block_at a i <$> seqZ j (Z.of_nat n))) (klists (kn s)) h.
Proof.
  intros Ha Hx Hi Hd Hlo Hhi. revert s j ys Ha Hd. induction n as [|n IH]; intros s j ys Ha Hd Hj Hn Hl Hb.
  { exists (klists (kn s)). rewrite seqZ_nil, app_nil_r by lia. split_and!; [|done|done].
    change (klists (kn s)) with (lists s). by rewrite set_get. }
  destruct (Hb j) as [Hnew Hm]; [lia|].
  destruct (list_add_tail_ok s (block_at a i j) (head ds i) ys) as (h1 & E1 & Hl1 & Hu1); [done..|].
  destruct (IH (set_lists h1 s) (j + 1) (ys ++ [block_at a i j])) as (h2 & E2 & Hl2 & Hu2); [done..|lia|lia|done| |].
  { intros k Hk. destruct (Hb k) as [Hnk Hmk]; [lia|]. split; [|by apply Hu1].
    rewrite app_comm_cons, list.elem_of_app, list_elem_of_singleton. intros [?|E%block_at_inj]; [done|lia|done]. }
  exists h2. rewrite seqZ_cons by lia. replace (Z.succ j) with (j + 1) by lia. replace (Z.pred (Z.of_nat (S n))) with (Z.of_nat n) by lia.
  rewrite fmap_cons, cons_middle, app_assoc. split_and!; [|done|].
  - cbn [fill_loop]. erewrite bind_ok; [|apply (arena2block_ok s a x i j); done || lia].
    erewrite bind_ok; [|by apply get_arena_ok]. rewrite Hx. run E1.
    rewrite u32_small by (pose proof (class_facts i Hi); lia). done.
  - eapply unchanged_trans; [done|done|set_solver|done].
Qed.

(** Pages that are not given out hold none of the lists. *)
Lemma cleared_lists s U F p' v n : ok s U F -> v mod 4096 = 0 -> 0 < n ->
  low pt (pages s) <= v -> v + 4096 * n <= high pt (pages s) ->
  (forall k, 0 <= k < n -> ~ owned pt (pages s) (v + 4096 * k)) ->
  (forall j, class j -> dll (clear_nodes v (4096 * n) (klists (kn s))) (head ds j) (F j)) /\
  (forall q, low pt p' = low pt (pages s) -> ~ (low pt (pages s) <= q < high pt (pages s)) ->
     clear_nodes v (4096 * n) (klists (kn s)) !! q = klists (kn s) !! q).
Proof.
  intros Hk Hv Hn Hlo Hhi Hf. pose proof (hk_shape _ _ _ _ _ _ _ _ Hk) as Hs. split.
  - intros j Hj. eapply dll_frame; [by apply Hk|]. intros q Hq. apply clear_nodes_out. intros Hin.
    apply list.elem_of_cons in Hq as [->|Hq]; [pose proof (hk_heads _ _ _ _ _ _ _ _ Hk j Hj); lia|].
    destruct (sh_free _ _ _ _ _ _ _ Hs j q Hj Hq) as (_ & x & Hx & Lx & _ & Bx).
    destruct (fresh_apart _ _ _ _ _ _ _ _ _ _ _ Hs Hx Hv Hn Hf) as [Hap|Hap];
      apply elem_blocks in Bx as (k & Hk' & E); pose proof (block_at_range (block2arena q) j k Hj Hk');
      pose proof (class_facts j Hj); unfold extent in Hap; rewrite ?Lx in Hap; cbn iota in Hap; lia.
  - intros q _ Hq. apply clear_nodes_out. lia.
Qed.

Lemma new_arena_ok s U F i v p' :
  ok s U F -> class i -> F i = [] -> malloc_page pt 1 (pages s) = Ok (v, p') ->
  (v = 0 /\ new_arena pt (nth_desc ds i) s = Ok (false, set_pages p' s) /\ ok (set_pages p' s) U F) \/
  (v <> 0 /\ exists h A, new_arena pt (nth_desc ds i) s = Ok (true, Heap (set_klists h (kn s)) p' A (descs s)) /\
     heap_ok pt ds h p' A (descs s) U (fupd i (blocks v i) F) /\
     elsewhere pt ds (pages s) (klists (kn s)) h).
Proof.
  intros Hk Hi HF E. destruct (malloc_page_law pt 1 _ _ _ (hk_pages _ _ _ _ _ _ _ _ Hk) Z.lt_0_1 E)
    as (Hp' & El & Eh & Ho & Hv).
  pose proof (hk_shape _ _ _ _ _ _ _ _ Hk) as Hs. pose proof (hk_descs _ _ _ _ _ _ _ _ Hk i Hi) as Hdi.
  destruct (decide (v = 0)) as [->|Hv0]; [left|right].
  - split_and!; [done| |].
    + unfold new_arena, on_pages, zoom. erewrite bind_ok; [|by rewrite E]. done.
    + destruct Hk as [K1 K2 K3 K4 K5 K6]. split; cbn; try done; rewrite ?El, ?Eh; [|done].
      eapply shape_own; [done|]. auto.
  - split; [done|]. destruct (Hv Hv0) as (Hv1 & Hlo & Hhi & Hfr).
    destruct (sh_range _ _ _ _ _ _ _ Hs) as [? ?].
    assert (~ owned pt (pages s) v /\ owned pt p' v) as [Hf Hown].
    { specialize (Hfr 0). rewrite Z.mul_0_r, Z.add_0_r in Hfr. apply Hfr. lia. }
    destruct (cleared_lists s U F p' v 1 Hk Hv1) as [Hc Hco]; [lia|lia|lia| |]; [intros; by apply Hfr|].
    change (4096 * 1) with 4096 in *. set (h1 := clear_nodes v 4096 (klists (kn s))) in *.
    set (A' := <[v := Arena (nth_desc ds i) (per i) false]> (arenas s)).
    set (s1 := Heap (set_intr false (set_klists h1 (kn s))) p' A' (descs s)).
    assert (forall b, b ∈ blocks v i -> v + 12 <= b /\ b + 16 <= v + 4096 /\ (b - v) mod 4 = 0) as Hbl.
    { intros b (k & Hk' & ->)%elem_blocks. pose proof (block_at_range v i k Hi Hk').
      destruct (class_facts i Hi) as (? & Hm & _). split_and!; [lia..|].
      unfold block_at. change sizeof_arena with 12. Z.div_mod_to_equations. nia. }
    destruct (fill_loop_ok s1 v (Arena (nth_desc ds i) (per i) false) i (Z.to_nat (per i)) 0 []) as (h2 & E2 & Hl2 & Hu2);
      [apply lookup_insert_eq|done|done|done|lia|lia|lia|pose proof (class_facts i Hi); lia|rewrite <-HF; by apply Hc| |].
    { intros k Hk'. destruct (Hbl (block_at v i k)) as (? & ? & Hm4); [apply elem_blocks; by exists k|]. split.
      - rewrite list_elem_of_singleton. intros Eh'. apply (hk_heads _ _ _ _ _ _ _ _ Hk i Hi). lia.
      - replace (block_at v i k) with (v + 4 * ((block_at v i k - v) / 4)) by (Z.div_mod_to_equations; lia).
        apply clear_nodes_in. Z.div_mod_to_equations. lia. }
    rewrite app_nil_l in *. replace (Z.of_nat (Z.to_nat (per i))) with (per i) in * by (pose proof (class_facts i Hi); lia).
    fold (blocks v i) in *. exists h2, A'. split_and!.
    + unfold new_arena, on_pages, zoom. erewrite bind_ok; [|by rewrite E]. rewrite (proj2 (Z.eqb_neq v 0)) by done.
      change (set_pages p' s) with (Heap (kn s) p' (arenas s) (descs s)).
      run memset_pages_at. do 2 run upd_arena_at. erewrite bind_ok; [|by apply get_desc_ok].
      run upd_arena_at. cbn [desc large blocks_per_arena].
      unfold on_kern, zoom. erewrite bind_ok; [|by rewrite intr_disable_now].
      change (set_kn (set_intr _ _) _) with s1.
      run E2. erewrite bind_ok; [|by rewrite intr_set_now]. cbn. by destruct (kn s).
    + destruct Hk as [K1 K2 K3 K4 K5 K6]. split; rewrite ?El, ?Eh; try done.
      * pose proof (shape_new _ _ _ _ (owned pt p') _ _ _ v i K2 Hi Hv1 Hlo ltac:(lia) Hf) as Hnew.
        rewrite HF in Hnew. apply Hnew. intros a [Ha| ->]; auto.
      * eapply (lists_fupd _ h1); [done|done|]. intros j q Hj Hne Hq. apply Hu2.
        intros [->|Hin]%list.elem_of_cons; apply list.elem_of_cons in Hq as [Eq|Hq].
        -- by apply head_inj in Eq.
        -- apply (K5 i Hi). by apply (free_in_pool pt ds (klists (kn s)) (pages s) (arenas s) (descs s) U F j).
        -- subst. apply (K5 j Hj). destruct (Hbl _ Hin). lia.
        -- destruct (sh_free _ _ _ _ _ _ _ K2 j q Hj Hq) as (_ & y & Hy & _ & _ & _).
           assert (block2arena q = v) as Eq.
           { apply elem_blocks in Hin as (k & Hk' & ->). apply block2arena_block; lia || done. }
           rewrite Eq in Hy. rewrite (fresh_none _ _ _ _ _ _ _ v 1 K2) in Hy; [done..|intros; by apply Hfr].
      * intros a x j b Ha Lx Hj Dx Hb. apply Hu2. unfold A' in Ha. rewrite lookup_insert in Ha. case_decide.
        -- subst a. destruct (Hbl b) as (? & ? & Hm4).
           { injection Ha as <-. cbn in Dx. apply nth_desc_inj in Dx. by subst. }
           replace b with (v + 4 * ((b - v) / 4)) by (Z.div_mod_to_equations; lia).
           apply clear_nodes_in. Z.div_mod_to_equations. lia.
        -- apply clear_nodes_mapped. by apply (K6 a x j b).
    + intros q Hq Hh. destruct Hu2 as [Hu2 _]. rewrite Hu2.
      * by apply Hco.
      * intros [->|Hin]%list.elem_of_cons; [by apply (Hh i Hi)|]. destruct (Hbl q Hin). lia.
Qed.

(** What a request for memory leads to: either nothing is given and the heap
    is as good as before, or a block of at least the size, which was not in use. *)
Definition given (size : Z) s U (r : Z) (s' : heap P) : Prop :=
  exists h p A F', s' = released pt h p A s /\ low pt p = low pt (pages s) /\ high pt p = high pt (pages s) /\
    elsewhere pt ds (pages s) (klists (kn s)) h /\
    (r = 0 /\ (exists n, 0 < n /\ malloc_page pt n (pages s) = Ok (0, p)) /\ heap_ok pt ds h p A (descs s) U F' \/
     r <> 0 /\ exists n, size <= n /\ U !! r = None /\ heap_ok pt ds h p A (descs s) (<[r := n]> U) F').

Lemma given_block s U F size i b rest :
  ok s U F -> lock_held pt c s -> lock_out pt ds (pages s) -> class i -> F i = b :: rest -> size <= bsz i ->
  exists r s' h A, take_block fuel pt (nth_desc ds i) s = Ok (r, s') /\ s' = released pt h (pages s) A s /\
    elsewhere pt ds (pages s) (klists (kn s)) h /\
    (r <> 0 /\ exists n, size <= n /\ U !! r = None /\ heap_ok pt ds h (pages s) A (descs s) (<[r := n]> U) (fupd i rest F)).
Proof.
  intros Hk Hl Ho Hi HF Hs. destruct (take_block_ok s U F i b rest Hk Hl Ho Hi HF) as (h & A & E & Hk' & He).
  exists b. eexists. exists h, A. do 3 (split; [done|]). pose proof (free_in_pool _ _ _ _ _ _ _ _ i b Hk Hi) as Hr. rewrite HF in Hr. specialize (Hr ltac:(set_solver)).
  pose proof (sh_range _ _ _ _ _ _ _ (hk_shape _ _ _ _ _ _ _ _ Hk)). split; [lia|]. exists (bsz i). split_and!; [done| |done].
  apply (sh_free _ _ _ _ _ _ _ (hk_shape _ _ _ _ _ _ _ _ Hk) i b Hi). rewrite HF. set_solver.
Qed.

Lemma malloc_small_ok s U F size :
  ok s U F -> lock_held pt c s -> lock_out pt ds (pages s) -> 0 < size <= 1024 ->
  (exists r, malloc_page pt 1 (pages s) = Ok r) ->
  exists r s', malloc_small fuel pt ds size s = Ok (r, s') /\ given size s U r s'.
Proof.
  intros Hk Hl Ho Hs [[v p'] Hret].
  destruct (desc_loop_ok s size (Z.to_nat DESC_CNT) 0) as (i & Ei & Hi & Hsz & _);
    [apply Hk|done|done|done|unfold DESC_CNT; lia|].
  unfold malloc_small. run Ei. run (list_is_empty_ok s (head ds i) (F i)); [|by apply Hk].
  destruct (F i) as [|b rest] eqn:HF.
  - rewrite bool_decide_true by done. cbn iota.
    destruct (malloc_page_law pt 1 _ _ _ (hk_pages _ _ _ _ _ _ _ _ Hk) Z.lt_0_1 Hret) as (_ & El & Eh & _).
    assert (lock_out pt ds p') as Ho' by (destruct Ho; split; by rewrite ?El, ?Eh).
    destruct (new_arena_ok s U F i v p' Hk Hi HF Hret) as [(-> & E & Hk')|(Hv & h & A & E & Hk' & He)]; run E.
    + rewrite set_pages_heap. run (release_ok s (klists (kn s)) p' (arenas s)); [|done..].
      exists 0. eexists. split; [done|]. exists (klists (kn s)), p', (arenas s), F. split_and!; try done.
      left. split_and!; [done|by exists 1|done].
    + set (s1 := Heap (set_klists h (kn s)) p' A (descs s)) in *.
      assert (lock_held pt c s1) as Hl1.
      { destruct Hl as [Hl Hd]. split; [done|]. eapply dll_frame; [done|].
        intros q ->%list_elem_of_singleton. by apply He; apply Ho. }
      destruct (class_facts i Hi) as (_ & _ & Hper & _).
      assert (blocks v i = block_at v i 0 :: (block_at v i <$> seqZ 1 (per i - 1))) as Hb.
      { unfold blocks. by rewrite seqZ_cons by lia. }
      destruct (given_block s1 U (fupd i (blocks v i) F) size i (block_at v i 0) (block_at v i <$> seqZ 1 (per i - 1)))
        as (r & s' & h' & A' & E' & -> & He' & Hg); [done..|by rewrite fupd_eq|done|].
      exists r. eexists. split; [done|]. exists h', p', A', (fupd i (block_at v i <$> seqZ 1 (per i - 1)) (fupd i (blocks v i) F)).
      split_and!; [done|done|done| |by right]. by eapply (elsewhere_trans pt ds _ p').
  - rewrite bool_decide_false by done. rets.
    destruct (given_block s U F size i b rest) as (r & s' & h & A & E & -> & He & Hg); [done..|].
    exists r. eexists. split; [done|]. exists h, (pages s), A, (fupd i rest F). do 4 (split; [done|]). by right.
Qed.

Lemma malloc_large_ok s U F size :
  ok s U F -> lock_held pt c s -> lock_out pt ds (pages s) -> 1024 < size < 2 ^ 31 ->
  (forall n, 0 < n -> exists r, malloc_page pt n (pages s) = Ok r) ->
  exists r s', malloc_large fuel pt size s = Ok (r, s') /\ given size s U r s'.
Proof.
  intros Hk Hl Ho Hs Hret. unfold malloc_large. set (n := DIV_ROUND_UP _ _).
  assert (0 < n /\ size <= n * 4096 - 12) as [Hn Hsn].
  { unfold n, DIV_ROUND_UP. change sizeof_arena with 12. change PG_SIZE with 4096.
    rewrite (u32_small (size + 12)), u32_small by lia. Z.div_mod_to_equations. lia. }
  destruct (Hret n Hn) as [[v p'] E]. pose proof (hk_shape _ _ _ _ _ _ _ _ Hk) as Hsh.
  destruct (malloc_page_law pt n _ _ _ (hk_pages _ _ _ _ _ _ _ _ Hk) Hn E) as (Hp' & El & Eh & Hown & Hv).
  assert (lock_out pt ds p') as Ho' by (destruct Ho; split; by rewrite ?El, ?Eh).
  unfold on_pages, zoom. erewrite bind_ok; [|by rewrite E].
  destruct (Z.eqb_spec v 0) as [->|Hv0]; cbn [negb].
  - rewrite set_pages_heap. run (release_ok s (klists (kn s)) p' (arenas s)); [|done..].
    exists 0. eexists. split; [done|]. exists (klists (kn s)), p', (arenas s), F. split_and!; try done. left. split_and!; [done|by exists n|].
    destruct Hk as [K1 K2 K3 K4 K5 K6]. split; rewrite ?El, ?Eh; try done. eapply shape_own; [done|]. auto.
  - destruct (Hv Hv0) as (Hv1 & Hlo & Hhi & Hfr). destruct (sh_range _ _ _ _ _ _ _ Hsh) as [? ?].
    destruct (cleared_lists s U F p' v n Hk Hv1 Hn Hlo Hhi) as [Hc Hco]; [intros; by apply Hfr|].
    set (h1 := clear_nodes v (4096 * n) (klists (kn s))) in *.
    set (A' := <[v := Arena 0 n true]> (arenas s)).
    assert (elsewhere pt ds (pages s) (klists (kn s)) h1) as He by (intros q Hq _; by apply Hco).
    change (set_pages p' s) with (Heap (kn s) p' (arenas s) (descs s)).
    run memset_pages_at. do 3 run upd_arena_at. cbn [cnt desc]. run (release_ok s h1 p' A'); [|done|done|intros q Hq; rewrite El, Eh in Hq; by apply He].
    change sizeof_arena with 12. rewrite u32_small by lia.
    exists (v + 12). eexists. split; [done|]. exists h1, p', A', F. split_and!; [done..|].
    right. split; [lia|]. exists (n * 4096 - 12). split_and!; [done| |].
    + apply (unused_page _ _ _ _ _ _ _ v _ Hsh); [|by apply large_home; lia].
      apply (fresh_none _ _ _ _ _ _ _ v n Hsh); [done..|intros; by apply Hfr].
    + destruct Hk as [K1 K2 K3 K4 K5 K6]. split; rewrite ?El, ?Eh; try done.
      * eapply shape_new_large; [done..|intros; by apply Hfr|].
        intros a [Ha|(k & Hk' & ->)]; [by apply Hown|by apply Hfr].
      * intros a x i b Ha Lx Hi Dx Hb. apply clear_nodes_mapped. unfold A' in Ha. rewrite lookup_insert in Ha.
        case_decide; [by injection Ha as <-|by apply (K6 a x i b)].
Qed.
End pieces.
