(* ===== verification/MallocFree.v ===== *)
(** * MallocFree: giving blocks and arenas back *)
From S2P Require Import Prelude Lists ListProofs Kernel Locks Malloc MallocInv MallocProofs.

Section pieces.
Context {P : Type} `{PagesLaws P} `{HeapGlobals} `{Globals}.
Context (fuel : nat) (pt ds c : Z).
Implicit Types (s : heap P) (U : gmap Z Z) (F : Z -> list Z) (A : gmap Z arena) (h : lheap).
Abbreviation ok := (MallocProofs.ok pt ds).

(** A list without some of its nodes. *)
Lemma remove_head (b : Z) (zs l1 l2 : list Z) : NoDup (l1 ++ b :: l2) ->
  filter (fun x => x ∉ b :: zs) (l1 ++ b :: l2) = filter (fun x => x ∉ zs) (l1 ++ l2).
Proof.
  intros (Hn1 & Hb & Hn2)%list.NoDup_app. apply list.NoDup_cons in Hn2 as [Hb2 _].
  rewrite !list.filter_app, filter_cons_False by set_solver.
  f_equal; apply filter_ext_in; intros x Hx; rewrite list.not_elem_of_cons.
  - split; [tauto|]. intros Hz. split; [|done]. intros ->. by apply (Hb b Hx); left.
  - split; [tauto|]. intros Hz. split; [|done]. by intros ->.
Qed.

(** Unlinking the blocks of a page from the [j]th on. *)
Lemma unlink_loop_ok s a x i n j ys :
  arenas s !! a = Some x -> desc x = nth_desc ds i -> class i ->
  descs s !! nth_desc ds i = Some (Desc (bsz i) (per i)) -> 0 <= a -> a + 4096 <= 2 ^ 32 ->
  0 <= j -> j + Z.of_nat n = per i ->
  dll (klists (kn s)) (head ds i) ys ->
  (forall k, j <= k < per i -> block_at a i k ∈ ys) ->
  exists h, unlink_loop n a j s = Ok (tt, set_lists h s) /\
    dll h (head ds i) (filter (fun b => b ∉ (block_at a i <$> seqZ j (Z.of_nat n))) ys) /\
    unchanged_except (head ds i :: ys) (klists (kn s)) h.
Proof.
  intros Ha Hx Hi Hd Hlo Hhi. revert s j ys Ha Hd. induction n as [|n IH]; intros s j ys Ha Hd Hj Hn Hl Hb.
  { exists (klists (kn s)). rewrite seqZ_nil by lia. split_and!; [change (klists (kn s)) with (lists s); by rewrite set_get| |done].
    by rewrite filter_all by by intros; apply not_elem_of_nil. }
  destruct (list_elem_of_split ys (block_at a i j)) as (l1 & l2 & ->); [apply Hb; lia|].
  destruct (list_del_init_ok s (block_at a i j) (head ds i) l1 l2) as (h1 & E1 & Hl1 & _ & Hu1); [done|].
  destruct (IH (set_lists h1 s) (j + 1) (l1 ++ l2)) as (h2 & E2 & Hl2 & Hu2); [done..|lia|lia|done| |].
  { intros k Hk. specialize (Hb k ltac:(lia)). rewrite list.elem_of_app, list.elem_of_cons in *.
    destruct Hb as [?|[E%block_at_inj|?]]; [by left|lia|done|by right]. }
  exists h2. rewrite seqZ_cons by lia. replace (Z.succ j) with (j + 1) by lia. replace (Z.pred (Z.of_nat (S n))) with (Z.of_nat n) by lia.
  rewrite fmap_cons, remove_head by (destruct Hl as [_ Hnd]; by apply list.NoDup_cons in Hnd as [_ ?]).
  split_and!; [|done|].
  - cbn [unlink_loop]. erewrite bind_ok; [|apply (arena2block_ok ds s a x i j); done || lia]. run E1.
    rewrite u32_small by (pose proof (class_facts i Hi); lia). done.
  - eapply unchanged_trans; [done|done|set_solver|set_solver].
Qed.

(** Pages are given back: their arena and the nodes in them go. *)
Lemma give_back_ok s U F a x p' U' F' u :
  pages_ok (pages s) -> arenas s !! a = Some x -> shape ds (low pt (pages s)) (high pt (pages s)) (owned pt (pages s)) (arenas s) U F ->
  (forall i, class i -> descs s !! nth_desc ds i = Some (Desc (bsz i) (per i))) ->
  (forall i, class i -> ~ (low pt (pages s) <= head ds i < high pt (pages s))) ->
  (forall b y i q, arenas s !! b = Some y -> large y = false -> class i -> desc y = nth_desc ds i ->
    q ∈ blocks b i -> b <> a -> mapped (klists (kn s)) q) ->
  (forall i, class i -> dll (klists (kn s)) (head ds i) (F' i)) ->
  mfree_page pt a (extent x) (pages s) = Ok (u, p') ->
  (forall own', (forall b, owned pt (pages s) b -> ~ (a <= b < a + 4096 * extent x) -> own' b) ->
     shape ds (low pt (pages s)) (high pt (pages s)) own' (delete a (arenas s)) U' F') ->
  exists h, give_back pt a (extent x) s = Ok (tt, Heap (set_klists h (kn s)) p' (delete a (arenas s)) (descs s)) /\
    low pt p' = low pt (pages s) /\ high pt p' = high pt (pages s) /\
    heap_ok pt ds h p' (delete a (arenas s)) (descs s) U' F' /\ elsewhere pt ds (pages s) (klists (kn s)) h.
Proof.
  intros Hp Ha Hs Hd Hh Hm Hl E Hsh. pose proof (sh_arena _ _ _ _ _ _ _ Hs a x Ha) as (Ha1 & Ha2 & He & Ha3 & _).
  destruct (sh_range _ _ _ _ _ _ _ Hs) as [? ?].
  destruct (mfree_page_law pt a _ _ _ _ Hp He Ha1 ltac:(lia) E) as (Hp' & El & Eh & Ho).
  set (h := filter (fun y => ~ inside a (extent x) y.1) (klists (kn s))).
  assert (forall q, ~ inside a (extent x) q -> h !! q = klists (kn s) !! q) as Hq.
  { intros q Hq. unfold h. apply option_eq. intros n. rewrite map_lookup_filter_Some. naive_solver. }
  assert (filter (fun y => ~ inside a (extent x) y.1) (arenas s) = delete a (arenas s)) as EA.
  { apply map_eq. intros b. rewrite lookup_delete. case_decide as Eb.
    - apply map_lookup_filter_None. right. intros y _. subst. cbn. unfold inside. change PG_SIZE with 4096. lia.
    - apply option_eq. intros y. rewrite map_lookup_filter_Some. split; [tauto|]. intros Hb. split; [done|].
      cbn. unfold inside. change PG_SIZE with 4096. destruct (sh_arena _ _ _ _ _ _ _ Hs b y Hb) as (_ & _ & ? & _).
      destruct (sh_apart _ _ _ _ _ _ _ Hs _ _ _ _ Ha Hb ltac:(done)); lia. }
  assert (forall q, ~ (low pt (pages s) <= q < high pt (pages s)) -> ~ inside a (extent x) q) as Hout
    by (unfold inside; change PG_SIZE with 4096; lia).
  exists h. split_and!; [|done|done| |].
  - unfold give_back, on_pages, zoom. erewrite bind_ok; [|by rewrite E]. unfold unmap, modify. cbn. by rewrite EA.
  - specialize (Hsh (owned pt p') Ho). split; rewrite ?El, ?Eh; try done.
    + intros j Hj. eapply dll_frame; [by apply Hl|]. intros q Hin. apply Hq. apply list.elem_of_cons in Hin as [->|Hin].
      { by apply Hout, Hh. }
      destruct (sh_free _ _ _ _ _ _ _ Hsh j q Hj Hin) as (_ & y & Hy & Ly & _ & By).
      apply lookup_delete_Some in Hy as [Hne Hy].
      apply elem_blocks in By as (k & Hk' & Eq). pose proof (block_at_range (block2arena q) j k Hj Hk').
      pose proof (class_facts j Hj). unfold inside. change PG_SIZE with 4096.
      destruct (sh_apart _ _ _ _ _ _ _ Hs _ _ _ _ Ha Hy ltac:(congruence)) as [Hap|Hap]; [lia|].
      unfold extent in Hap at 1. rewrite Ly in Hap. cbn iota in Hap. lia.
    + intros b y i q (Hne & Hb)%lookup_delete_Some Ly Hi Dy Hin. unfold mapped. rewrite Hq.
      { by apply (Hm b y i q). }
      apply elem_blocks in Hin as (k & Hk' & ->). pose proof (block_at_range b i k Hi Hk').
      pose proof (class_facts i Hi). unfold inside. change PG_SIZE with 4096.
      destruct (sh_apart _ _ _ _ _ _ _ Hs _ _ _ _ Ha Hb ltac:(congruence)) as [Hap|Hap]; [lia|].
      unfold extent in Hap at 1. rewrite Ly in Hap. cbn iota in Hap. lia.
  - intros q Hq' _. by apply Hq, Hout.
Qed.

(** What becomes of the page of a block: with the last block in use on it, it
    goes back to its pool, arena and all (a large block is always the last);
    otherwise it stays, with one free block more. *)
Definition page_back U (r : Z) (x : arena) s (p : P) A : Prop :=
  (forall b m, U !! b = Some m -> block2arena b = block2arena r -> b = r) /\
  A = delete (block2arena r) (arenas s) /\
  exists u, mfree_page pt (block2arena r) (extent x) (pages s) = Ok (u, p).
Definition page_kept U (r : Z) (x : arena) s (p : P) A : Prop :=
  (exists b m, U !! b = Some m /\ block2arena b = block2arena r /\ b <> r) /\ large x = false /\
  A = <[block2arena r := Arena (desc x) (cnt x + 1) false]> (arenas s) /\ p = pages s.

(** What [sys_free] leaves behind: the heap without the block. *)
Definition freed s U (r : Z) (s' : heap P) : Prop :=
  exists h p A F' x, s' = released pt h p A s /\ low pt p = low pt (pages s) /\ high pt p = high pt (pages s) /\
    elsewhere pt ds (pages s) (klists (kn s)) h /\ heap_ok pt ds h p A (descs s) (delete r U) F' /\
    arenas s !! block2arena r = Some x /\ (page_back U r x s p A \/ page_kept U r x s p A).

(** The block goes to the end of the free list of its class. *)
Lemma put_block_ok s U F r x i h :
  ok s U F -> arenas s !! block2arena r = Some x -> large x = false -> class i -> desc x = nth_desc ds i ->
  r ∈ blocks (block2arena r) i -> U !! r = Some (bsz i) ->
  dll h (head ds i) (F i ++ [r]) -> unchanged_except (r :: head ds i :: F i) (klists (kn s)) h ->
  let A' := <[block2arena r := Arena (desc x) (u32 (cnt x + 1)) (large x)]> (arenas s) in
  heap_ok pt ds h (pages s) A' (descs s) (delete r U) (fupd i (F i ++ [r]) F) /\
  elsewhere pt ds (pages s) (klists (kn s)) h /\ u32 (cnt x + 1) = cnt x + 1.
Proof.
  intros Hk Ha Lx Hi Dx Hb HU Hl Hu A'. pose proof (hk_shape _ _ _ _ _ _ _ _ Hk) as Hs.
  destruct (free_count _ _ _ _ _ _ _ _ _ _ Hs Ha Hi Lx Dx) as (Hc & _ & Hle & _). pose proof (class_facts i Hi).
  assert (forall j, class j -> r ∉ F j) as Hnf.
  { intros j Hj Hr. destruct (sh_free _ _ _ _ _ _ _ Hs j r Hj Hr). congruence. }
  assert (low pt (pages s) <= r < high pt (pages s)) as Hr.
  { destruct (sh_arena _ _ _ _ _ _ _ Hs _ x Ha) as (_ & ? & _ & Hh & _). unfold extent in Hh. rewrite Lx in Hh.
    apply elem_blocks in Hb as (k & Hk' & E). pose proof (block_at_range (block2arena r) i k Hi Hk'). lia. }
  assert (u32 (cnt x + 1) = cnt x + 1) as Ec by (apply u32_small; lia).
  split_and!; [split|..]; try apply Hk; try done.
  - unfold A'. rewrite Ec, Lx. replace (cnt x + 1) with (Z.of_nat (length (in_page (block2arena r) (F i ++ [r])))).
    2: { rewrite in_page_app, in_page_cons, decide_True, length_app by done. cbn. lia. }
    apply (shape_block _ _ _ _ _ U F _ x i r); try done.
    + apply list.NoDup_app. split_and!; [by apply (sh_nodup _ _ _ _ _ _ _ Hs)| |apply NoDup_singleton].
      intros q Hq ->%list_elem_of_singleton. by apply (Hnf i).
    + intros q Hq. rewrite list.elem_of_app, list_elem_of_singleton. tauto.
    + intros q Hq. by apply lookup_delete_ne.
    + left. rewrite lookup_delete_eq. split; [set_solver|done].
  - eapply (lists_fupd _ (klists (kn s))); [apply Hk|done|]. intros j q Hj Hne Hq. apply Hu.
    apply list.not_elem_of_cons. split; [|by apply (lists_apart _ _ _ _ _ _ _ _ i j q Hk)].
    apply list.elem_of_cons in Hq as [->|Hq]; [|intros ->; by apply (Hnf j)].
    intros <-. by apply (hk_heads _ _ _ _ _ _ _ _ Hk j Hj).
  - intros a y j b Hy Ly Hj Dy Hbj. apply Hu. unfold A' in Hy. rewrite lookup_insert in Hy.
    case_decide; [|by apply (hk_mapped _ _ _ _ _ _ _ _ Hk a y j b)]. injection Hy as <-. subst a. cbn in Dy.
    by apply (hk_mapped _ _ _ _ _ _ _ _ Hk (block2arena r) x j b).
  - intros q Hq Hh. apply Hu. rewrite !list.not_elem_of_cons. split_and!; [congruence|by apply Hh|].
    intros Hin. by apply Hq, (free_in_pool _ _ _ _ _ _ _ _ i q Hk Hi).
Qed.

(** The page of [a], all free, is given back. *)
Lemma drop_arena_ok s U F a x i p' u :
  ok s U F -> arenas s !! a = Some x -> large x = false -> class i -> desc x = nth_desc ds i -> cnt x = per i ->
  mfree_page pt a 1 (pages s) = Ok (u, p') ->
  exists h, (unlink_loop (Z.to_nat (per i)) a 0 ;;; give_back pt a 1) s =
      Ok (tt, Heap (set_klists h (kn s)) p' (delete a (arenas s)) (descs s)) /\
    low pt p' = low pt (pages s) /\ high pt p' = high pt (pages s) /\
    heap_ok pt ds h p' (delete a (arenas s)) (descs s) U (fupd i (without_page a (F i)) F) /\
    elsewhere pt ds (pages s) (klists (kn s)) h.
Proof.
  intros Hk Ha Lx Hi Dx Hc E. pose proof (hk_shape _ _ _ _ _ _ _ _ Hk) as Hs. pose proof (class_facts i Hi).
  destruct (sh_page _ _ _ _ _ _ _ _ _ Hs Ha) as (Ha1 & Ha2 & Ha3).
  destruct (free_count _ _ _ _ _ _ _ _ _ _ Hs Ha Hi Lx Dx) as (_ & _ & _ & Hall).
  destruct (unlink_loop_ok s a x i (Z.to_nat (per i)) 0 (F i)) as (h1 & E1 & Hl1 & Hu1);
    [done|done|done|by apply Hk|lia|lia|lia|lia|by apply Hk| |].
  { intros k Hk'. apply (Hall Hc), elem_blocks. by exists k. }
  assert (filter (fun b => b ∉ (block_at a i <$> seqZ 0 (Z.of_nat (Z.to_nat (per i))))) (F i) = without_page a (F i)) as EF.
  { rewrite Z2Nat.id by lia. apply filter_ext_in. intros b Hb. fold (blocks a i). split.
    - intros Hnb Eb. apply Hnb. destruct (sh_free _ _ _ _ _ _ _ Hs i b Hi Hb) as (_ & y & _ & _ & _ & By). by rewrite Eb in By.
    - intros Hne Hin. by apply Hne, (sh_home _ _ _ _ _ _ _ _ _ _ _ Hs Ha Hi). }
  rewrite EF in Hl1. set (s1 := set_lists h1 s) in *. replace 1 with (extent x) in E |- * by (unfold extent; by rewrite Lx).
  destruct (give_back_ok s1 U F a x p' U (fupd i (without_page a (F i)) F) u) as (h2 & E2 & El & Eh & Hk2 & He2); try done; try apply Hk.
  - intros b y j q Hb Ly Hj Dy Hq _. apply Hu1. by apply (hk_mapped _ _ _ _ _ _ _ _ Hk b y j q).
  - eapply (lists_fupd _ (klists (kn s))); [apply Hk|done|]. intros j q Hj Hne Hq.
    apply Hu1. by apply (lists_apart _ _ _ _ _ _ _ _ i j q Hk).
  - intros own' Ho. apply (shape_del_small _ _ _ (owned pt (pages s)) _ _ _ _ _ x); try done. intros b Hb Hne. apply Ho; [done|].
    unfold extent. by rewrite Lx.
  - exists h2. split_and!; [run E1; by rewrite E2|done|done|done|].
    intros q Hq Hh. rewrite He2 by done. apply Hu1. rewrite list.not_elem_of_cons. split; [by apply Hh|].
    intros Hin. by apply Hq, (free_in_pool _ _ _ _ _ _ _ _ i q Hk Hi).
Qed.

Lemma lock_out_same p p' : low pt p' = low pt p -> high pt p' = high pt p -> lock_out pt ds p -> lock_out pt ds p'.
Proof. intros El Eh [? ?]. split; by rewrite ?El, ?Eh. Qed.

Lemma free_locked_ok s U F r n :
  ok s U F -> lock_held pt c s -> lock_out pt ds (pages s) -> U !! r = Some n ->
  (forall m, 0 < m -> exists v, mfree_page pt (block2arena r) m (pages s) = Ok v) ->
  exists s', free_locked fuel pt r s = Ok (tt, s') /\ freed s U r s'.
Proof.
  intros Hk Hl Ho HU Hret. pose proof (hk_shape _ _ _ _ _ _ _ _ Hk) as Hs.
  destruct (sh_used _ _ _ _ _ _ _ Hs r n HU) as (x & Ha & Hx).
  destruct (sh_arena _ _ _ _ _ _ _ Hs _ x Ha) as (_ & _ & He & _).
  destruct (Hret (extent x) He) as [[u p'] E].
  unfold free_locked. cbn zeta. erewrite bind_ok; [|by apply get_arena_ok].
  destruct Hx as [(Lx & Er & _)|(Lx & i & Hi & Dx & Hb & ->)].
  - (* a large block *)
    destruct (sh_large _ _ _ _ _ _ _ Hs _ x Ha Lx) as [Dx _]. rewrite Dx, Lx. cbn [andb Z.eqb].
    assert (cnt x = extent x) as Ec by (unfold extent; by rewrite Lx). rewrite Ec.
    destruct (give_back_ok s U F (block2arena r) x p' (delete r U) F u) as (h & E2 & El & Eh & Hk2 & He2); try done; try apply Hk.
    + intros b y j q Hb' Ly Hj Dy Hq _. by apply (hk_mapped _ _ _ _ _ _ _ _ Hk b y j q).
    + intros own' Ho'. rewrite Er at 2. apply (shape_del_large _ _ _ (owned pt (pages s)) _ _ _ _ _ x); try done.
      by rewrite Ec.
    + run E2. rewrite (release_ok fuel pt ds c s h p'); [|done|by eapply lock_out_same|intros q Hq; rewrite El, Eh in Hq; by apply He2].
      eexists. split; [done|]. exists h, p', (delete (block2arena r) (arenas s)), F, x. split_and!; [done..|].
      left. split_and!; [|done|by exists u]. intros b m Hb Eb. rewrite Er. by apply (large_used _ _ _ _ _ _ _ _ _ _ _ Hs Ha Lx Hb).
  - (* a block of a class *)
    rewrite Lx, andb_false_r, Dx. cbn iota.
    destruct (list_add_tail_ok s r (head ds i) (F i)) as (h1 & E1 & Hl1 & Hu1); [by apply Hk| | |].
    { rewrite list.not_elem_of_cons. split.
      - intros ->. destruct (used_range _ _ _ _ _ _ _ _ _ Hs HU) as (y & Hy & ? & ? & ?).
        assert (y = x) as -> by congruence. destruct (sh_arena _ _ _ _ _ _ _ Hs _ x Ha) as (_ & ? & _ & ? & _).
        apply (hk_heads _ _ _ _ _ _ _ _ Hk i Hi). lia.
      - intros Hin. destruct (sh_free _ _ _ _ _ _ _ Hs i r Hi Hin). congruence. }
    { by apply (hk_mapped _ _ _ _ _ _ _ _ Hk (block2arena r) x i r). }
    destruct (put_block_ok s U F r x i h1 Hk Ha Lx Hi Dx Hb HU Hl1 Hu1) as (Hk1 & He1 & Ec).
    set (A1 := <[block2arena r := _]> (arenas s)) in *.
    set (s1 := Heap (set_klists h1 (kn s)) (pages s) A1 (descs s)).
    run E1. rewrite bind_assoc. erewrite bind_ok; [|by apply upd_arena_ok]. rewrite ?bind_assoc.
    change (set_arenas _ _) with s1. erewrite bind_ok; [|apply get_arena_ok, lookup_insert_eq]. cbn [desc cnt].
    rewrite ?bind_assoc, Dx. erewrite bind_ok; [|by apply get_desc_ok, Hk]. cbn [blocks_per_arena]. rewrite Ec.
    destruct (Z.eqb_spec (cnt x + 1) (per i)) as [Hfull|Hpart].
    + replace (extent x) with 1 in E by (unfold extent; by rewrite Lx).
      destruct (drop_arena_ok s1 (delete r U) (fupd i (F i ++ [r]) F) (block2arena r) (Arena (desc x) (cnt x + 1) (large x)) i p' u)
        as (h2 & E2 & El & Eh & Hk2 & He2); try done.
      { unfold s1, A1. cbn [arenas]. by rewrite lookup_insert_eq, Ec. }
      erewrite bind_ok; [|exact E2]. assert (elsewhere pt ds (pages s) (klists (kn s)) h2) as He3 by (by eapply (elsewhere_trans pt ds _ (pages s))).
      rewrite (release_ok fuel pt ds c s h2 p'); [|done|by eapply lock_out_same|intros q Hq; rewrite El, Eh in Hq; by apply He3].
      eexists. split; [done|]. unfold s1, A1 in *. cbn [arenas descs] in *. rewrite delete_insert_eq in *.
      do 5 eexists. split_and!; [done..|exact Ha|]. left. split_and!; [|done|exists u; by replace (extent x) with 1 by (unfold extent; by rewrite Lx)].
      intros b m Hbm Eb. destruct (decide (b = r)) as [|Hne]; [done|]. exfalso.
      apply (full_unused _ _ _ _ _ _ _ _ _ _ (hk_shape _ _ _ _ _ _ _ _ Hk1) (lookup_insert_eq _ _ _) Hi Lx Dx) with b m; [by rewrite Ec| |done].
      by rewrite lookup_delete_ne.
    + rets. unfold s1. rewrite (release_ok fuel pt ds c s h1 (pages s)) by done. eexists. split; [done|].
      exists h1, (pages s), A1, (fupd i (F i ++ [r]) F), x. split_and!; [done..|]. right.
      destruct (not_full_used _ _ _ _ _ _ _ _ _ _ (hk_shape _ _ _ _ _ _ _ _ Hk1) (lookup_insert_eq _ _ _) Hi Lx Dx)
        as (b & Eb & Hbm); [by rewrite Ec|].
      apply lookup_delete_Some in Hbm as [Hne Hbm]. split_and!; [by exists b, (bsz i)|done| |done]. unfold A1. by rewrite Ec, Lx.
Qed.
End pieces.
