(* ===== verification/MallocSpec.v ===== *)
(** * MallocSpec: what [sys_malloc] and [sys_free] promise *)
From S2P Require Import Prelude Lists ListProofs Kernel Locks Malloc MallocInv MallocProofs MallocFree.

Section promises.
Context {P : Type} `{PagesLaws P} `{HeapGlobals} `{Globals}.
Variable fuel : nat.
Implicit Types (s : heap P) (U : gmap Z Z).

(** The running thread allocates from the pool of type [pt], with the
    descriptors at [ds]. *)
Definition allocates (pt ds : Z) s : Prop :=
  exists t, tasks (kn s) !! current (kn s) = Some t /\ current (kn s) <> 0 /\
    pt = (if pgdir t =? 0 then MP_KERNEL else MP_USER) /\
    ds = (if pgdir t =? 0 then k_block_descs else u_block_descs (current (kn s))).

(** The heap is in order, [U] are the blocks in use with their sizes, and
    nobody is inside the allocator. *)
Definition heap_inv (pt ds : Z) s U : Prop :=
  (exists F, ok pt ds s U F) /\ lock_free (pool_lock pt) (kn s) /\ lock_out pt ds (pages s) /\
  (pt = MP_KERNEL -> K_HEAP_START <= low pt (pages s)).

(** The call changed nothing of the kernel but list nodes of the heap. *)
Definition same_kernel (pt ds : Z) s s' : Prop :=
  kn s' = set_klists (klists (kn s')) (kn s) /\ descs s' = descs s /\
  elsewhere pt ds (pages s) (klists (kn s)) (klists (kn s')).

Lemma pool_t_ok pt ds s : allocates pt ds s -> pool_t s = Ok (pt, s) /\ descs_t s = Ok (ds, s).
Proof.
  intros (t & Ht & _ & -> & ->). unfold pool_t, descs_t, on_kern, zoom, running_thread, gets, tcb, bind.
  destruct s as [k p A D]. cbn [kn set_kn pages arenas descs] in *. by rewrite Ht.
Qed.

(** Taking the lock leaves the rest of the heap as it is. *)
Lemma enter_ok pt ds s U F : allocates pt ds s -> lock_free (pool_lock pt) (kn s) -> ok pt ds s U F ->
  let s1 := set_kn (with_lock (pool_lock pt) (held_by (current (kn s))) (kn s)) s in
  on_kern (lock_fetch fuel (pool_lock pt)) s = Ok (true, s1) /\ ok pt ds s1 U F /\ lock_held pt (current (kn s)) s1.
Proof.
  intros (t & _ & Hc & _) [Hl Hd] Hk. cbn zeta. unfold on_kern, zoom.
  rewrite lock_fetch_now by done. split_and!; [done|exact Hk|]. split; [apply with_lock_locks|done].
Qed.
(** Giving it back makes the kernel what it was. *)
Lemma released_kernel pt h p A s c : lock_free (pool_lock pt) (kn s) ->
  released pt h p A (set_kn (with_lock (pool_lock pt) (held_by c) (kn s)) s) =
  Heap (set_klists h (kn s)) p A (descs s).
Proof.
  intros [Hl _]. unfold released. cbn [kn set_kn descs]. f_equal.
  change (set_klists h (with_lock ?l ?x ?k)) with (with_lock l x (set_klists h k)).
  rewrite with_lock_twice. by apply with_lock_back.
Qed.
Lemma still_free pt ds s h p p' A D : lock_free (pool_lock pt) (kn s) -> lock_out pt ds p ->
  elsewhere pt ds p (klists (kn s)) h ->
  lock_free (pool_lock pt) (kn (Heap (set_klists h (kn s)) p' A D : heap P)).
Proof.
  intros [Hl Hd] [Ho1 Ho2] He. split; [done|]. eapply dll_frame; [done|].
  intros q ->%list_elem_of_singleton. by apply He.
Qed.

(** C12: [sys_malloc] never fails: it answers null, for a size of 0, a size as
    large as the pool or when no pages are left, or the address of a block of
    at least the size that does not overlap any block in use; the heap stays in
    order, and nothing outside it changes. *)
Theorem sys_malloc_fresh (pt ds size : Z) (s : heap P) (U : gmap Z Z) :
  allocates pt ds s -> heap_inv pt ds s U -> 0 <= size ->
  (forall n, 0 < n -> exists r, malloc_page pt n (pages s) = Ok r) ->
  exists r s', sys_malloc fuel size s = Ok (Some r, s') /\ same_kernel pt ds s s' /\
    (r = 0 /\ heap_inv pt ds s' U /\
       (s' = s /\ (size = 0 \/ pool_size pt (pages s) <= size) \/
        exists n p, malloc_page pt n (pages s) = Ok (0, p)) \/
     r <> 0 /\ 0 < size < pool_size pt (pages s) /\
       exists n, size <= n /\ (forall b m, U !! b = Some m -> r + n <= b \/ b + m <= r) /\
         heap_inv pt ds s' (<[r := n]> U)).
Proof.
  intros Ha ((F & Hk) & Hl & Ho & Hst) Hs Hret. destruct (pool_t_ok _ _ _ Ha) as [Ep Ed].
  unfold sys_malloc. run Ep. run Ed. rewrite gets_bind.
  destruct ((size >? 0) && (size <? pool_size pt (pages s))) eqn:Esz; cbn [negb].
  2: { exists 0, s. split; [done|]. split; [by destruct s as [[]]|]. left. split; [done|].
       split; [by split; [exists F|]|]. left. split; [done|]. destruct (Z.gtb_spec size 0), (Z.ltb_spec size (pool_size pt (pages s))); lia || done. }
  apply andb_true_iff in Esz as [Hpos Hlt]. destruct (Z.gtb_spec size 0) as [Hpos'|]; [clear Hpos|done]. zb.
  pose proof (pool_size_law pt (pages s) (hk_pages _ _ _ _ _ _ _ _ Hk)) as Hpl.
  destruct (enter_ok _ _ _ _ _ Ha Hl Hk) as (E1 & Hk1 & Hl1). set (s1 := set_kn _ s) in *. run E1.
  assert (exists r s', malloc_locked fuel pt ds size s1 = Ok (r, s') /\ given pt ds size s1 U r s') as (r & s' & E & Hg).
  { unfold malloc_locked. destruct (Z.gtb_spec size 1024).
    - apply (malloc_large_ok fuel pt ds (current (kn s)) s1 U F); try done. lia.
    - apply (malloc_small_ok fuel pt ds (current (kn s)) s1 U F); try done. by apply Hret. }
  run E. destruct Hg as (h & p & A & F' & -> & El & Eh & He & Hg). unfold s1 in *. rewrite released_kernel in * by done.
  cbn [kn set_kn pages arenas descs] in *.
  assert (forall U', heap_ok pt ds h p A (descs s) U' F' -> heap_inv pt ds (Heap (set_klists h (kn s)) p A (descs s)) U') as Hinv.
  { intros U' Hk'. split; [by exists F'|]. split; [by eapply still_free|]. cbn [pages]. rewrite El.
    split; [by apply (lock_out_same pt ds (pages s))|done]. }
  exists r. eexists. split; [done|]. split; [done|].
  destruct Hg as [(-> & (n & _ & En) & Hk')|(Hr & n & Hn & Hnew & Hk')]; [left|right].
  - split; [done|]. split; [by apply Hinv|]. right. by exists n, p.
  - split; [done|]. split; [done|]. exists n. split; [done|]. split; [|by apply Hinv].
    intros b m Hb. apply (used_apart _ _ _ _ _ _ _ r n b m (hk_shape _ _ _ _ _ _ _ _ Hk')); [apply lookup_insert_eq| |congruence].
    rewrite lookup_insert_ne; [done|congruence].
Qed.


(** Descriptors from [idx] on, as the loop leaves them. *)
Lemma block_desc_loop_ok ds n idx s :
  0 <= idx -> idx + Z.of_nat n = 7 -> (forall i, idx <= i < 7 -> mapped (klists (kn s)) (head ds i)) ->
  exists h D, block_desc_loop ds n idx (bsz idx) s = Ok (tt, set_descs D (set_nodes h s)) /\
    (forall i, idx <= i < 7 -> D !! nth_desc ds i = Some (Desc (bsz i) (per i)) /\ dll h (head ds i) []) /\
    (forall i, i < idx -> D !! nth_desc ds i = descs s !! nth_desc ds i /\ h !! head ds i = klists (kn s) !! head ds i) /\
    (forall q, (forall i, class i -> q <> head ds i) -> h !! q = klists (kn s) !! q).
Proof.
  revert idx s. induction n as [|n IH]; intros idx s Hi Hn Hm.
  { exists (klists (kn s)), (descs s). split; [|split_and!; [lia|done|done]]. by destruct s as [[]]. }
  set (s1 := set_descs (<[nth_desc ds idx := Desc (bsz idx) (per idx)]> (descs s)) s).
  destruct (INIT_LIST_HEAD_ok s1 (head ds idx)) as (h1 & E1 & Hd1 & Hu1); [apply Hm; lia|].
  assert (u16 (bsz idx * 2) = bsz (idx + 1)) as Eb.
  { destruct (class_facts idx) as (? & _); [unfold class; lia|]. rewrite u16_small by lia.
    unfold bsz. rewrite Z.pow_add_r by lia. change (2 ^ 1) with 2. lia. }
  destruct (IH (idx + 1) (set_lists h1 s1)) as (h2 & D & E2 & H1' & H2' & H3'); [lia|lia|intros i ?; apply Hu1, Hm; lia|].
  exists h2, D. split; [|split_and!].
  - cbn [block_desc_loop]. unfold set_desc. rewrite modify_bind. fold (per idx).
    change (set_descs _ s) with s1. run E1. rewrite u16_small, Eb by lia. rewrite E2. by destruct s as [[]].
  - intros i Hi'. destruct (decide (i = idx)) as [->|]; [|apply H1'; lia].
    destruct (H2' idx ltac:(lia)) as [E E']. split.
    + rewrite E. apply lookup_insert_eq.
    + eapply dll_frame; [exact Hd1|]. by intros q ->%list_elem_of_singleton.
  - intros i Hi'. destruct (H2' i ltac:(lia)) as [E E']. split.
    + rewrite E. apply lookup_insert_ne. intros Ed%nth_desc_inj. lia.
    + rewrite E'. apply Hu1. intros Eh%list_elem_of_singleton. apply head_inj in Eh. lia.
  - intros q Hq. rewrite H3' by done. apply Hu1. intros ->%list_elem_of_singleton. apply (Hq idx); [unfold class; lia|done].
Qed.

(** [block_desc_init] on a pool without arenas makes the heap of the seven
    block sizes, with no block in use and no free block. *)
Theorem block_desc_init_starts (pt ds : Z) (s : heap P) :
  arenas s = ∅ -> pages_ok (pages s) -> 0 < low pt (pages s) -> high pt (pages s) <= 2 ^ 32 ->
  (forall i, class i -> mapped (klists (kn s)) (head ds i) /\ ~ (low pt (pages s) <= head ds i < high pt (pages s))) ->
  lock_free (pool_lock pt) (kn s) -> lock_out pt ds (pages s) ->
  (pt = MP_KERNEL -> K_HEAP_START <= low pt (pages s)) ->
  exists s', block_desc_init ds s = Ok (tt, s') /\ heap_inv pt ds s' ∅ /\
    (forall i, class i -> descs s' !! nth_desc ds i = Some (Desc (bsz i) (per i))) /\
    pages s' = pages s /\ elsewhere pt ds (pages s) (klists (kn s)) (klists (kn s')).
Proof.
  intros EA Hp Hlo Hhi Hh Hl Ho Hst.
  destruct (block_desc_loop_ok ds 7 0 s) as (h & D & E & Hnew & _ & Hq); [lia|lia|intros; by apply Hh|].
  eexists. split; [exact E|]. cbn [kn pages arenas descs set_descs set_nodes set_kn].
  assert (elsewhere pt ds (pages s) (klists (kn s)) h) as He by (intros q _; apply Hq).
  split_and!; [|intros; by apply Hnew|done|done].
  split; [|split_and!; [|done|done]].
  - exists (fun _ => []). split; cbn; rewrite ?EA; try done; try (intros; by apply Hnew); try (intros; by apply Hh).
    split; try done; try (intros; apply base.NoDup_nil_2).
    intros i b _ Hb. by apply elem_of_nil in Hb.
  - by apply (still_free pt ds s h (pages s) (pages s) (arenas s) D).
Qed.
End promises.

(** ** A heap to try the properties on

    The pages come from a pool of sixteen that are handed out in order; the
    last ones handed out can come back. *)
Definition bump_lo : Z := 0xc0100000.
Definition bump_hi : Z := 0xc0110000.
#[local] Instance bump_pages : Pages Z :=
  {| malloc_page := fun _ n => fun p => if p + 4096 * n <=? bump_hi then Ok (p, p + 4096 * n) else Ok (0, p);
     mfree_page := fun _ a n => fun p => Ok (tt, if (p =? a + 4096 * n) && (bump_lo <=? a) then a else p); pool_size := fun _ _ => 65536 |}.
#[local] Program Instance bump_laws : PagesLaws Z :=
  {| pages_ok := fun p => bump_lo <= p /\ p mod 4096 = 0; low := fun _ _ => bump_lo; high := fun _ _ => bump_hi;
     owned := fun _ p a => bump_lo <= a < p |}.
Next Obligation.
  cbn. intros _ n p v p' [Hp Hm] Hn. unfold bump_lo, bump_hi in *. case_match eqn:E; zb; intros [= <- <-].
  - split_and!; try lia; [Z.div_mod_to_equations; lia|]. intros _. split_and!; [done|lia..|intros; lia].
  - split_and!; try lia.
Qed.
Next Obligation.
  cbn. intros ? a n p ? p' [Hp Hm] Hn Ha _ [= _ <-].
  destruct (Z.eqb_spec p (a + 4096 * n)), (Z.leb_spec bump_lo a); cbn [andb]; split_and!; done || lia.
Qed.
Next Obligation. cbn. intros. by compute. Qed.

#[local] Instance heap_globals : HeapGlobals :=
  {| k_block_descs := 1000; u_block_descs := fun t => t + 100; pool_lock := fun _ => 2000 |}.
#[local] Instance kernel_globals : Globals :=
  {| thread_ready_list := 500; thread_all_list := 600; addr_v2p := fun x => x |}.
Definition a_thread : TCB := Tcb 0 1 0 0 31 31 0 0 (Message 0 0 []) 0 0 0 0 0 0 STACK_MAGIC.
(** Memory where the seven heads and the waiting queue of the lock are empty lists. *)
Definition empty_lists : lheap :=
  foldr (fun i h => <[1008 + 16 * i := Node (1008 + 16 * i) (1008 + 16 * i)]> h) {[2008 := Node 2008 2008]} (seqZ 0 7).
Definition empty_kern : kern :=
  Kern empty_lists {[3000 := a_thread]} {[2000 := free_lock]} 3000 true 0 0 0 0 3000.
Definition seven_descs : gmap Z mem_block_desc :=
  foldr (fun i D => <[1000 + 16 * i := Desc (bsz i) (per i)]> D) ∅ (seqZ 0 7).
Definition empty_heap : heap Z := Heap empty_kern bump_lo ∅ seven_descs.
(** The same with one large block in use. *)
Definition large_heap : heap Z :=
  Heap empty_kern (bump_lo + 4096) {[bump_lo := Arena 0 1 true]} seven_descs.

Lemma seven_lists i : class i -> dll empty_lists (head 1000 i) [].
Proof.
  intros [->|[->|[->|[->|[->|[->| ->]]]]]]%class_cases; (split; [split; reflexivity|apply NoDup_singleton]).
Qed.
Lemma heap_lock_free : lock_free 2000 empty_kern.
Proof. split; [done|]. split; [split; reflexivity|apply NoDup_singleton]. Qed.
Lemma heap_outside i : class i -> ~ (bump_lo <= head 1000 i < bump_hi).
Proof. unfold class, bump_lo, bump_hi, head, free_list, nth_desc. lia. Qed.
Lemma heap_lock_out p : lock_out MP_KERNEL 1000 (p : Z).
Proof.
  unfold lock_out, head, free_list, nth_desc, waiting_queue, class. cbn. unfold bump_lo.
  split; intros; lia.
Qed.
Lemma seven_descs_ok i : class i -> seven_descs !! nth_desc 1000 i = Some (Desc (bsz i) (per i)).
Proof. by intros [->|[->|[->|[->|[->|[->| ->]]]]]]%class_cases. Qed.
Lemma empty_heap_inv : heap_inv MP_KERNEL 1000 empty_heap ∅.
Proof.
  split; [|split_and!; [apply heap_lock_free|apply heap_lock_out|done]].
  exists (fun _ => []). split; cbn; try done; [|apply seven_descs_ok|apply seven_lists|apply heap_outside].
  split; try done; [intros i b _ Hb; by apply elem_of_nil in Hb|intros; apply base.NoDup_nil_2].
Qed.
Lemma large_heap_inv : heap_inv MP_KERNEL 1000 large_heap {[bump_lo + 12 := 4084]}.
Proof.
  split; [|split_and!; [apply heap_lock_free|apply heap_lock_out|done]].
  exists (fun _ => []). split; [done| |apply seven_descs_ok|apply seven_lists|apply heap_outside|].
  2: { cbn [arenas large_heap]. intros a x i b [<- <-]%lookup_singleton_Some. done. }
  split; cbn [arenas large_heap pages low high owned bump_laws].
  - done.
  - intros a x [<- <-]%lookup_singleton_Some. unfold bump_lo, bump_hi, extent. cbn. split_and!; [done|lia..|]. lia.
  - intros a x b y [<- <-]%lookup_singleton_Some [<- <-]%lookup_singleton_Some. done.
  - by intros a x [<- <-]%lookup_singleton_Some _.
  - by intros a x [<- <-]%lookup_singleton_Some.
  - intros i b _ Hb. by apply elem_of_nil in Hb.
  - intros. apply base.NoDup_nil_2.
  - intros r n [<- <-]%lookup_singleton_Some. exists (Arena 0 1 true). split; [done|]. by left.
Qed.
Lemma empty_allocates s : kn s = empty_kern -> allocates MP_KERNEL 1000 (s : heap Z).
Proof. intros E. exists a_thread. rewrite E. split_and!; done. Qed.

Lemma sys_malloc_fresh_witness :
  (forall r s', sys_malloc 0 100 empty_heap = Ok (Some r, s') -> r = 0xc010000c) /\
  exists r s', sys_malloc 0 100 empty_heap = Ok (Some r, s') /\ same_kernel MP_KERNEL 1000 empty_heap s' /\
    (r = 0 /\ heap_inv MP_KERNEL 1000 s' ∅ /\
       (s' = empty_heap /\ (100 = 0 \/ pool_size MP_KERNEL (pages empty_heap) <= 100) \/
        exists n p, malloc_page MP_KERNEL n (pages empty_heap) = Ok (0, p)) \/
     r <> 0 /\ 0 < 100 < pool_size MP_KERNEL (pages empty_heap) /\
       exists n, 100 <= n /\ (forall b m, (∅ : gmap Z Z) !! b = Some m -> r + n <= b \/ b + m <= r) /\
         heap_inv MP_KERNEL 1000 s' (<[r := n]> ∅)).
Proof.
  split.
  - assert (match sys_malloc 0 100 empty_heap with Ok (Some r, _) => r =? 0xc010000c | _ => false end = true) as H
      by (vm_compute; reflexivity).
    intros r s' E. rewrite E in H. by apply Z.eqb_eq in H.
  - apply (sys_malloc_fresh 0 MP_KERNEL 1000 100 empty_heap ∅); [by apply empty_allocates|apply empty_heap_inv|lia|].
    intros n Hn. cbn. destruct (_ <=? _); by eexists.
Defined.


Lemma block_desc_init_starts_witness :
  exists s', block_desc_init 1000 empty_heap = Ok (tt, s') /\ heap_inv MP_KERNEL 1000 s' ∅ /\
    (forall i, class i -> descs s' !! nth_desc 1000 i = Some (Desc (bsz i) (per i))) /\
    pages s' = pages empty_heap /\
    elsewhere MP_KERNEL 1000 (pages empty_heap) (klists (kn empty_heap)) (klists (kn s')).
Proof.
  apply (block_desc_init_starts MP_KERNEL 1000 empty_heap); [done|done|done|done| |apply heap_lock_free|apply heap_lock_out|done].
  intros i Hi. split; [|by apply heap_outside]. eapply dll_mapped; [by apply seven_lists|by left].
Defined.
