(* ===== verification/PagesImpl.v ===== *)
(** * PagesImpl: the pages of core/mm/memory.c keep their promise to the allocator

    [malloc_page] and [mfree_page] of Paging.v, with the virtual addresses
    taken from a bitmap, implement the interface that the arenas rely on. *)
From S2P Require Import Prelude Bitmap Malloc MallocProofs Paging.

(** The virtual addresses of a pool. *)
Definition vmap (pt : Z) (m : mem) : virtual_addr :=
  if pt =? MP_KERNEL then kernel_viraddr m else progress_vaddr m.
Definition vaddr_ok (v : virtual_addr) : Prop :=
  wf (vaddr_bitmap v) /\ vaddr_start v mod 4096 = 0 /\ 0 < vaddr_start v /\
  vaddr_start v + 4096 * nbits (vaddr_bitmap v) <= 2 ^ 32.
Definition mem_ok (m : mem) : Prop :=
  vaddr_ok (kernel_viraddr m) /\ vaddr_ok (progress_vaddr m) /\
  pool_size (kernel_pool m) <= 2 ^ 31 /\ pool_size (user_pool m) <= 2 ^ 31.
Definition owned_page (pt : Z) (m : mem) (a : Z) : Prop :=
  exists i, 0 <= i < nbits (vaddr_bitmap (vmap pt m)) /\ a = vaddr_start (vmap pt m) + 4096 * i /\
    used (vaddr_bitmap (vmap pt m)) i = true.

Section bits.
(** Setting or clearing a run of bits, when it returns. *)
Lemma set_values_inv n pos (v : bool) b u b' :
  wf b -> 0 <= pos -> set_values n pos (if v then 1 else 0) b = Ok (u, b') ->
  wf b' /\ nbits b' = nbits b /\
  forall i, 0 <= i -> used b' i = if (pos <=? i) && (i <? pos + Z.of_nat n) then v else used b i.
Proof.
  revert pos b. induction n as [|n IH]; intros pos b Hb Hp E.
  { injection E as _ <-. split_and!; [done..|]. intros i Hi.
    destruct (Z.leb_spec pos i), (Z.ltb_spec i (pos + Z.of_nat 0)); done || lia. }
  cbn [set_values] in E. destruct (decide (pos < nbits b)) as [Hlt|Hge].
  2: { unfold bind in E. rewrite set_value_panics in E; [done..|lia]. }
  destruct (set_value_ok b pos v Hb ltac:(lia)) as (b1 & E1 & Hb1 & Hl1 & _ & Hu1).
  rewrite (bind_ok _ _ _ _ _ E1) in E. destruct (wf_nbits b Hb) as [Hnb _].
  rewrite u32_small in E by lia. apply IH in E as (Hb' & Hn' & Hu'); [|done|lia].
  split_and!; [done|unfold nbits in *; lia|]. intros i Hi. rewrite Hu', Hu1 by done.
  destruct (Z.leb_spec (pos + 1) i), (Z.ltb_spec i (pos + 1 + Z.of_nat n)), (Z.eqb_spec i pos),
    (Z.leb_spec pos i), (Z.ltb_spec i (pos + Z.of_nat (S n))); done || lia.
Qed.
End bits.

(** Computations that leave the virtual address maps and pool sizes alone. *)
Definition maps_same (m m' : mem) : Prop :=
  kernel_viraddr m' = kernel_viraddr m /\ progress_vaddr m' = progress_vaddr m /\
  pool_size (kernel_pool m') = pool_size (kernel_pool m) /\ pool_size (user_pool m') = pool_size (user_pool m).
Definition keeps {A} (c : M mem A) : Prop := forall m a m', c m = Ok (a, m') -> maps_same m m'.

Section keeping.
Lemma maps_same_trans m1 m2 m3 : maps_same m1 m2 -> maps_same m2 m3 -> maps_same m1 m3.
Proof. unfold maps_same. intuition congruence. Qed.
Lemma keeps_bind {A B} (c : M mem A) (k : A -> M mem B) : keeps c -> (forall a, keeps (k a)) -> keeps (bind c k).
Proof. intros Hc Hk m b m' (a & m1 & E1 & E2)%bind_inv. eapply maps_same_trans; [by eapply Hc|by eapply Hk]. Qed.
Lemma keeps_ret {A} (a : A) : keeps (ret a).
Proof. by intros m ? ? [= <- <-]. Qed.
Lemma keeps_gets {A} (f : mem -> A) : keeps (gets f).
Proof. by intros m ? ? [= <- <-]. Qed.
Lemma keeps_get : keeps get.
Proof. by intros m ? ? [= <- <-]. Qed.
Lemma keeps_panic {A} : keeps (panic : M mem A).
Proof. by intros m ? ?. Qed.
Lemma keeps_assert b : keeps (ASSERT b).
Proof. destruct b; [apply keeps_ret|apply keeps_panic]. Qed.
Lemma keeps_load va : keeps (load va).
Proof. intros m a m'. unfold load. destruct (translate m va); [|done]. by intros [= <- <-]. Qed.
Lemma keeps_store va v : keeps (store va v).
Proof. intros m a m'. unfold store. destruct (translate m va); [|done]. by intros [= <- <-]. Qed.
Lemma keeps_clear va : keeps (clear_page va).
Proof. intros m a m'. unfold clear_page. destruct (translate m va); [|done]. by intros [= <- <-]. Qed.
Lemma keeps_cr3 a : keeps (modify (set_cr3 a)).
Proof. by intros m ? ? [= <- <-]. Qed.
Lemma keeps_pool {A} pt (c : M bitmap A) : keeps (on_pool pt c).
Proof.
  intros m a m'. unfold on_pool, zoom. destruct (c _) as [[x b]| | |]; [|done..]. intros [= <- <-].
  unfold set_pool, pool_of. by destruct (negb _).
Qed.
End keeping.
Create HintDb keeps.
#[export] Hint Resolve keeps_ret keeps_gets keeps_get keeps_panic keeps_assert keeps_load keeps_store
  keeps_clear keeps_cr3 keeps_pool : keeps.
Ltac keeps := repeat first [solve [eauto with keeps] | apply keeps_bind; [|intros ?] | progress cbn zeta | case_match].

Section pages.
Lemma keeps_get_free_page pt : keeps (get_free_page pt).
Proof. unfold get_free_page. keeps. Qed.
Lemma keeps_flush dir : keeps (flush_cr3 dir).
Proof. unfold flush_cr3, addr_v2p. keeps. Qed.
#[local] Hint Resolve keeps_get_free_page keeps_flush : keeps.
Lemma keeps_put_page va p : keeps (put_page va p).
Proof. unfold put_page, put_page_with, invalidate. keeps. Qed.
#[local] Hint Resolve keeps_put_page : keeps.
Lemma keeps_map_pages n pt va r : keeps (map_pages n pt va r).
Proof. revert va. induction n as [|n IH]; intros va; cbn [map_pages]; keeps. Qed.
Lemma keeps_free_page pt p : keeps (free_page pt p).
Proof. unfold free_page. keeps. Qed.
Lemma keeps_v2p va : keeps (virtual_addr_to_physical_addr va).
Proof. unfold virtual_addr_to_physical_addr. keeps. Qed.
Lemma keeps_remove va : keeps (remove_page va).
Proof. unfold remove_page. keeps. Qed.
#[local] Hint Resolve keeps_free_page keeps_v2p keeps_remove : keeps.
Lemma keeps_unmap_pages n pt va : keeps (unmap_pages n pt va).
Proof. revert va. induction n as [|n IH]; intros va; cbn [unmap_pages]; keeps. Qed.
End pages.

(** ** The two calls *)
Section calls.
Lemma vmap_same pt m m' : maps_same m m' -> vmap pt m' = vmap pt m.
Proof. intros (? & ? & _). unfold vmap. destruct (_ =? _); congruence. Qed.
Lemma mem_ok_same m m' : maps_same m m' -> mem_ok m -> mem_ok m'.
Proof. unfold mem_ok. intros (-> & -> & -> & ->). done. Qed.
Lemma mem_ok_vmap pt m : mem_ok m -> vaddr_ok (vmap pt m).
Proof. intros (? & ? & _). unfold vmap. by destruct (_ =? _). Qed.

(** Changing the bits of the address map of a pool. *)
Definition with_bits (pt : Z) (b : bitmap) (m : mem) : mem :=
  if pt =? MP_KERNEL then set_kvaddr (Vaddr b (vaddr_start (kernel_viraddr m))) m
  else set_uvaddr (Vaddr b (vaddr_start (progress_vaddr m))) m.
Lemma vmap_with_bits pt b m : vmap pt (with_bits pt b m) = Vaddr b (vaddr_start (vmap pt m)).
Proof. unfold vmap, with_bits. by destruct (_ =? _). Qed.
Lemma mem_ok_with_bits pt b m : mem_ok m -> wf b -> nbits b = nbits (vaddr_bitmap (vmap pt m)) -> mem_ok (with_bits pt b m).
Proof.
  intros (Hk & Hu & Hp) Hb Hn. unfold mem_ok, vaddr_ok, with_bits, vmap in *.
  destruct (_ =? _); cbn; rewrite Hn; tauto.
Qed.
Lemma zoom_inv {S T A} (gt : S -> T) (st : T -> S -> S) (c : M T A) s a s' :
  zoom gt st c s = Ok (a, s') -> exists t, c (gt s) = Ok (a, t) /\ s' = st t s.
Proof. unfold zoom. destruct (c (gt s)) as [[x t]| | |]; [|done..]. intros [= <- <-]. by exists t. Qed.

(** Taking virtual addresses, for either pool. *)
Definition take_vaddr (pt n : Z) : M mem Z :=
  start_pos <- zoom (fun m => vaddr_bitmap (vmap pt m)) (with_bits pt) (find_block_bitmap n) ;;
  if start_pos =? u32 (-1) then ret 0
  else
    zoom (fun m => vaddr_bitmap (vmap pt m)) (with_bits pt) (set_values (Z.to_nat n) start_pos 1) ;;;
    gets (fun m => u32 (start_pos * PG_SIZE + vaddr_start (vmap pt m))).
Lemma get_free_vaddress_take pt n m r : get_free_vaddress pt n m = Ok r -> take_vaddr pt n m = Ok r.
Proof.
  unfold get_free_vaddress. destruct (Z.eqb_spec pt MP_KERNEL) as [->|]; [done|].
  by destruct (Z.eqb_spec pt MP_USER) as [->|].
Qed.
Lemma take_vaddr_inv pt n m v m' : mem_ok m -> 0 < n ->
  take_vaddr pt n m = Ok (v, m') ->
  (v = 0 /\ m' = m) \/
  exists pos b, m' = with_bits pt b m /\ v = vaddr_start (vmap pt m) + 4096 * pos /\
    fits (vaddr_bitmap (vmap pt m)) n pos /\ wf b /\ nbits b = nbits (vaddr_bitmap (vmap pt m)) /\
    forall i, 0 <= i -> used b i = if (pos <=? i) && (i <? pos + n) then true else used (vaddr_bitmap (vmap pt m)) i.
Proof.
  intros Hm Hn E. destruct (mem_ok_vmap pt m Hm) as (Hb & Hs & Hs0 & Hs1).
  destruct (find_block_ok _ n Hb Hn) as (r & Ef & Hff).
  apply bind_inv in E as (p & m1 & E1 & E). apply zoom_inv in E1 as (b1 & E1 & ->).
  rewrite Ef in E1. injection E1 as <- <-.
  assert (with_bits pt (vaddr_bitmap (vmap pt m)) m = m) as Em.
  { unfold with_bits, vmap. destruct (pt =? MP_KERNEL); destruct m as [? ? ? ? [] [] ?]; reflexivity. }
  rewrite Em in E. destruct (Z.eqb_spec r (u32 (-1))) as [|Hr]; [injection E as <- <-; by left|right].
  pose proof (first_fit_range _ _ _ Hb Hff Hr) as Hfit. pose proof Hfit as (Hr0 & Hrn & _).
  apply bind_inv in E as (u & m2 & E2 & E). apply zoom_inv in E2 as (b2 & E2 & ->). injection E as <- <-.
  apply (set_values_inv _ _ true) in E2 as (Hb2 & Hn2 & Hu2); [|done|done].
  exists r, b2. rewrite vmap_with_bits. cbn [vaddr_start].
  split_and!; [done| |done..|].
  - change PG_SIZE with 4096. rewrite u32_small; lia.
  - intros i Hi. rewrite Hu2 by done. by rewrite Z2Nat.id by lia.
Qed.

Lemma map_pages_result n pt va r m v m' : map_pages n pt va r m = Ok (v, m') -> v = r \/ v = 0.
Proof.
  revert va m. induction n as [|n IH]; intros va m; cbn [map_pages]; [intros [= <- <-]; by left|].
  intros (p & m1 & _ & E)%bind_inv. destruct (p =? 0); [injection E as <- <-; by right|].
  apply bind_inv in E as (? & m2 & _ & E). by eapply IH.
Qed.

Lemma malloc_page_keeps pt n m v m' : mem_ok m -> 0 < n -> malloc_page pt n m = Ok (v, m') ->
  mem_ok m' /\ vaddr_start (vmap pt m') = vaddr_start (vmap pt m) /\
  nbits (vaddr_bitmap (vmap pt m')) = nbits (vaddr_bitmap (vmap pt m)) /\
  (forall a, owned_page pt m a -> owned_page pt m' a) /\
  (v <> 0 -> v mod 4096 = 0 /\ vaddr_start (vmap pt m) <= v /\
     v + 4096 * n <= vaddr_start (vmap pt m) + 4096 * nbits (vaddr_bitmap (vmap pt m)) /\
     forall k, 0 <= k < n -> ~ owned_page pt m (v + 4096 * k) /\ owned_page pt m' (v + 4096 * k)).
Proof.
  intros Hm Hn E. destruct (mem_ok_vmap pt m Hm) as (Hb & Hs & Hs0 & Hs1).
  unfold malloc_page in E. apply bind_inv in E as (? & m0 & E0 & E). apply assert_inv in E0 as [_ ->].
  apply bind_inv in E as (v0 & m1 & E1%get_free_vaddress_take & E).
  destruct (take_vaddr_inv _ _ _ _ _ Hm Hn E1) as [[-> ->]|(pos & b & -> & Ev & (Hp0 & Hp1 & Hfree) & Hwf & Hnb & Hused)].
  { cbn in E. injection E as <- <-. split_and!; done. }
  rewrite (proj2 (Z.eqb_neq v0 0)) in E by lia. pose proof (map_pages_result _ _ _ _ _ _ _ E) as Hv.
  apply keeps_map_pages in E as Hsame. pose proof (vmap_same pt _ _ Hsame) as Evm. rewrite vmap_with_bits in Evm.
  assert (forall i, 0 <= i -> used (vaddr_bitmap (vmap pt m')) i =
            if (pos <=? i) && (i <? pos + n) then true else used (vaddr_bitmap (vmap pt m)) i) as Hu by by rewrite Evm.
  split_and!.
  - eapply mem_ok_same; [done|]. by apply mem_ok_with_bits.
  - by rewrite Evm.
  - by rewrite Evm.
  - intros a (i & Hi & -> & Hui). exists i. rewrite Hu, Evm by lia. cbn [vaddr_start vaddr_bitmap]. rewrite Hui, Hnb.
    split_and!; [lia..|done|by destruct (_ && _)].
  - intros Hv0. destruct Hv as [->|]; [|done]. subst v0. split_and!; [|lia|lia|].
    { rewrite Z.mul_comm, Z.mod_add by lia. done. }
    intros k Hk. split.
    + intros (i & Hi & Ei & Hui). assert (i = pos + k) as -> by lia. by rewrite Hfree in Hui by lia.
    + exists (pos + k). rewrite Hu, Evm by lia. cbn [vaddr_start vaddr_bitmap]. rewrite Hnb. split_and!; [lia..|].
      destruct (Z.leb_spec pos (pos + k)), (Z.ltb_spec (pos + k) (pos + n)); done || lia.
Qed.

Lemma mfree_page_keeps pt v n m u m' : mem_ok m -> 0 < n -> v mod 4096 = 0 -> 0 <= v < 2 ^ 32 ->
  mfree_page pt v n m = Ok (u, m') ->
  mem_ok m' /\ vaddr_start (vmap pt m') = vaddr_start (vmap pt m) /\
  nbits (vaddr_bitmap (vmap pt m')) = nbits (vaddr_bitmap (vmap pt m)) /\
  forall a, owned_page pt m a -> ~ (v <= a < v + 4096 * n) -> owned_page pt m' a.
Proof.
  intros Hm Hn Hv Hvr E. destruct (mem_ok_vmap pt m Hm) as (Hb & Hs & Hs0 & Hs1).
  unfold mfree_page in E. apply bind_inv in E as (a & m1 & E1 & E). apply keeps_unmap_pages in E as Hsame.
  set (start := vaddr_start (vmap pt m)) in *. set (pos := u32 (v - start) / PG_SIZE).
  assert (zoom (fun m => vaddr_bitmap (vmap pt m)) (with_bits pt) (free_addr_bitmap start v pos n) m = Ok (a, m1)) as E2.
  { unfold free_vaddress in E1. rewrite get_bind in E1. unfold start, pos, vmap, with_bits in *. by destruct (pt =? MP_KERNEL). }
  apply zoom_inv in E2 as (b & E2 & ->). unfold free_addr_bitmap in E2. rewrite get_bind in E2.
  destruct (Z.ltb_spec v start) as [|Hge]; [done|]. destruct (_ >? _) eqn:Epos; [done|]. change PG_SIZE with 4096 in pos.
  assert (pos = (v - start) / 4096) as Ep by (unfold pos; rewrite u32_small; [done|lia]).
  apply (set_values_inv _ _ false) in E2 as (Hb2 & Hn2 & Hu2); [|done|rewrite Ep; apply Z.div_pos; lia].
  pose proof (vmap_same pt _ _ Hsame) as Evm. rewrite vmap_with_bits in Evm. rewrite Evm. cbn [vaddr_start vaddr_bitmap].
  split_and!; [|done|done|].
  - eapply mem_ok_same; [done|]. by apply mem_ok_with_bits.
  - intros a' (i & Hi & -> & Hui) Hout. exists i. rewrite Evm. cbn [vaddr_start vaddr_bitmap]. rewrite Hn2, Hu2, Hui by lia.
    split_and!; [lia..|done|].
    destruct (Z.leb_spec pos i), (Z.ltb_spec i (pos + Z.of_nat (Z.to_nat n))); try done.
    exfalso. apply Hout. fold start. assert (v = start + 4096 * pos); [|lia]. rewrite Ep. Z.div_mod_to_equations. lia.
Qed.
End calls.

(** The interface of the arenas, implemented. *)
#[export] Instance mem_pages : Pages mem :=
  {| Malloc.malloc_page := malloc_page; Malloc.mfree_page := mfree_page;
     Malloc.pool_size := fun pt m => pool_size (pool_of pt m) |}.
#[export] Program Instance mem_pages_laws : PagesLaws mem :=
  {| pages_ok := mem_ok; low := fun pt m => vaddr_start (vmap pt m);
     high := fun pt m => vaddr_start (vmap pt m) + 4096 * nbits (vaddr_bitmap (vmap pt m)); owned := owned_page |}.
Next Obligation.
  intros pt n m v m' Hm Hn E. destruct (malloc_page_keeps pt n m v m' Hm Hn E) as (? & Es & En & ?).
  by rewrite Es, En.
Qed.
Next Obligation.
  intros pt v n m u m' Hm Hn Hv Hr E. destruct (mfree_page_keeps pt v n m u m' Hm Hn Hv Hr E) as (? & Es & En & ?).
  by rewrite Es, En.
Qed.
Next Obligation. intros pt m (_ & _ & ? & ?). unfold Malloc.pool_size, mem_pages, pool_of. by destruct (negb _). Qed.
