(* ===== verification/Ioqueue.v ===== *)
(** * Ioqueue: circular queues whose users wait (core/lib/ioqueue.c)

    A queue is named by its address, which is also that of its lock; its two
    waiting lists are in the list memory of the kernel.  [ioqueue_put_data] and
    [ioqueue_get_data] are cut where the thread gives up the processor: an
    outcome says whether the call is done, or on which queue the thread waits;
    the [_resume] functions are what it does when it runs again. *)
From S2P Require Import Prelude Lists Kernel Locks.

Definition QUEUE_MAX : Z := 4000.
(** [struct ioqueue]; the buffer is what is left of the pages behind it. *)
Record ioqueue := Ioqueue { producer_p : Z; consumor_p : Z; size : Z; buf : list Z }.
Definition sizeof_ioqueue : Z := 48.
Definition queue_lock (queue : Z) : Z := queue.
Definition producer_waiting_list (queue : Z) : Z := queue + 20.
Definition consumor_waiting_list (queue : Z) : Z := queue + 28.
Definition set_producer v x := Ioqueue v (consumor_p x) (size x) (buf x).
Definition set_consumor v x := Ioqueue (producer_p x) v (size x) (buf x).
Definition set_buf v x := Ioqueue (producer_p x) (consumor_p x) (size x) v.

Record iosys := Iosys { kn : kern; ioqs : gmap Z ioqueue }.
Definition set_kn (k : kern) (s : iosys) : iosys := Iosys k (ioqs s).
Definition set_ioqs (m : gmap Z ioqueue) (s : iosys) : iosys := Iosys (kn s) m.
Definition on_kern {A} (c : M kern A) : M iosys A := zoom kn set_kn c.
Definition ioq (queue : Z) : M iosys ioqueue :=
  fun s => match ioqs s !! queue with Some x => Ok (x, s) | None => Fault end.
Definition upd_ioq (queue : Z) (f : ioqueue -> ioqueue) : M iosys unit :=
  fun s => match ioqs s !! queue with
           | Some x => Ok (tt, set_ioqs (<[queue := f x]> (ioqs s)) s)
           | None => Fault end.

(** ** Counting *)
Definition avaliable (x : ioqueue) : Z :=
  if consumor_p x =? producer_p x then u32 (size x - 1)
  else if consumor_p x >? producer_p x then u32 (consumor_p x - producer_p x - 1)
  else u32 (size x - producer_p x + consumor_p x - 1).
Definition unread (x : ioqueue) : Z :=
  if consumor_p x =? producer_p x then 0
  else if consumor_p x >? producer_p x then u32 (size x - consumor_p x + producer_p x)
  else u32 (producer_p x - consumor_p x).
Definition ioqueue_avaliable (queue : Z) : M iosys Z := x <- ioq queue ;; ret (avaliable x).
Definition ioqueue_unread (queue : Z) : M iosys Z := x <- ioq queue ;; ret (unread x).
Definition ioqueue_check (queue : Z) : M iosys Z :=
  n <- ioqueue_unread queue ;; ret (if n >? 0 then 0 else -1).
Definition ioqueue_is_full (queue : Z) : M iosys bool := x <- ioq queue ;; ret (producer_p x =? QUEUE_MAX).
Definition ioqueue_is_empty (queue : Z) : M iosys bool := x <- ioq queue ;; ret (producer_p x =? consumor_p x).
Definition next_index (x : ioqueue) (current_index : Z) : Z := u32 (current_index + 1) mod size x.
(** A byte of the buffer; behind its end is other memory. *)
Definition put_byte (queue c : Z) : M iosys unit :=
  x <- ioq queue ;;
  if (0 <=? producer_p x) && (producer_p x <? Z.of_nat (length (buf x)))
  then upd_ioq queue (set_buf (<[Z.to_nat (producer_p x) := c]> (buf x)))
  else fault.
Definition get_byte (queue : Z) : M iosys Z :=
  x <- ioq queue ;;
  if consumor_p x <? 0 then fault
  else match buf x !! Z.to_nat (consumor_p x) with Some c => ret c | None => fault end.

(** What became of a call: done with a result, or waiting for the lock, or on
    the waiting list with the interrupt status to restore and what it has done
    so far. *)
Inductive outcome (A : Type) := Done (a : A) | Lock_wait | Queue_wait (old_status : bool) (so_far : A).
Arguments Done {A} a.
Arguments Lock_wait {A}.
Arguments Queue_wait {A} old_status so_far.

Section calls.
Context {G : Globals}.
Variable fuel : nat.

Definition ioqueue_size (queue : Z) : M iosys (option Z) :=
  taken <- on_kern (lock_fetch fuel (queue_lock queue)) ;;
  if negb taken then ret None
  else
    out <- ioqueue_unread queue ;;
    on_kern (lock_release fuel (queue_lock queue)) ;;;
    ret (Some (s32 out)).

(** ** Waiting and waking *)
(** The loop of [____wake_up]: it empties the list. *)
Fixpoint wake_loop (n : nat) (waiting_list : Z) : M kern unit :=
  match n with
  | O => stuck
  | S n =>
      len <- list_length fuel waiting_list ;;
      if len >? 0 then
        pos <- list_pop waiting_list ;;
        thread_unblock fuel (of_general_tag pos) ;;;
        wake_loop n waiting_list
      else ret tt
  end.
Definition ____wake_up (waiting_list : Z) : M kern unit :=
  old_status <- intr_disable ;;
  wake_loop fuel waiting_list ;;;
  intr_set_status old_status ;;;
  ret tt.
Definition wake_up_list (waiting_list : Z) : M kern unit :=
  e <- list_is_empty waiting_list ;;
  when negb e do ____wake_up waiting_list.
Definition wake_up_consumors (queue : Z) : M kern unit := wake_up_list (consumor_waiting_list queue).
Definition wake_up_producers (queue : Z) : M kern unit := wake_up_list (producer_waiting_list queue).
Definition add_to_waiting_list (cur waiting_list : Z) : M kern unit :=
  f <- list_find_element fuel (general_tag cur) waiting_list ;;
  (when (f : bool) do panic) ;;;
  list_add_tail (general_tag cur) waiting_list.
(** The thread goes to sleep on a list and gives the lock back. *)
Definition wait_on (queue waiting_list : Z) : M kern bool :=
  cur <- running_thread ;;
  add_to_waiting_list cur waiting_list ;;;
  old_status <- intr_disable ;;
  lock_release fuel (queue_lock queue) ;;;
  thread_block fuel THREAD_TASK_WAITING ;;;
  ret old_status.
(** When it runs again: the end of [thread_block], whose interrupts were off,
    and the restored status. *)
Definition wake_status (old_status : bool) : M kern unit :=
  intr_set_status false ;;; intr_set_status old_status ;;; ret tt.

(** ** Putting *)
(** [while (ioqueue_avaliable(queue) > 0 && written < count)]; [w_data] is
    what is left of the data. *)
Fixpoint put_loop (n : nat) (queue : Z) (w_data : list Z) (written count : Z) : M iosys Z :=
  match n with
  | O => stuck
  | S n =>
      av <- ioqueue_avaliable queue ;;
      if (av >? 0) && (written <? count) then
        match w_data with
        | [] => fault
        | c :: w_data =>
            put_byte queue c ;;;
            x <- ioq queue ;;
            upd_ioq queue (set_producer (next_index x (producer_p x))) ;;;
            put_loop n queue w_data (written + 1) count
        end
      else ret written
  end.
(** One round of the outer loop, which starts at the beginning of the data. *)
Definition put_round (queue : Z) (data : list Z) (written count : Z) : M iosys (outcome Z) :=
  taken <- on_kern (lock_fetch fuel (queue_lock queue)) ;;
  if negb taken then ret Lock_wait
  else
    av <- ioqueue_avaliable queue ;;
    written <- (if av >? count then put_loop (S (Z.to_nat count)) queue data written count else ret written) ;;
    on_kern (wake_up_consumors queue) ;;;
    if written <? count then old_status <- on_kern (wait_on queue (producer_waiting_list queue)) ;; ret (Queue_wait old_status written)
    else on_kern (lock_release fuel (queue_lock queue)) ;;; ret (Done written).
Definition ioqueue_put_data (queue : Z) (data : list Z) : M iosys (outcome Z) :=
  let count := Z.of_nat (length data) in
  if 0 <? count then put_round queue data 0 count else ret (Done 0).
Definition put_resume (queue : Z) (data : list Z) (old_status : bool) (written : Z) : M iosys (outcome Z) :=
  on_kern (wake_status old_status) ;;; put_round queue data written (Z.of_nat (length data)).

(** ** Getting: the result is the bytes put into the caller's buffer *)
Fixpoint get_loop (n : nat) (queue : Z) (data : list Z) (count : Z) : M iosys (list Z) :=
  match n with
  | O => stuck
  | S n =>
      un <- ioqueue_unread queue ;;
      if (un >? 0) && (Z.of_nat (length data) <? count) then
        c <- get_byte queue ;;
        x <- ioq queue ;;
        upd_ioq queue (set_consumor (next_index x (consumor_p x))) ;;;
        get_loop n queue (data ++ [c]) count
      else ret data
  end.
Definition get_round (queue : Z) (data : list Z) (count : Z) : M iosys (outcome (list Z)) :=
  taken <- on_kern (lock_fetch fuel (queue_lock queue)) ;;
  if negb taken then ret Lock_wait
  else
    un <- ioqueue_unread queue ;;
    data <- (if un >=? count then get_loop (S (Z.to_nat count)) queue data count else ret data) ;;
    on_kern (wake_up_producers queue) ;;;
    if Z.of_nat (length data) <? count
    then old_status <- on_kern (wait_on queue (consumor_waiting_list queue)) ;; ret (Queue_wait old_status data)
    else on_kern (lock_release fuel (queue_lock queue)) ;;; ret (Done data).
Definition ioqueue_get_data (queue count : Z) : M iosys (outcome (list Z)) :=
  if 0 <? count then get_round queue [] count else ret (Done []).
Definition get_resume (queue count : Z) (old_status : bool) (data : list Z) : M iosys (outcome (list Z)) :=
  on_kern (wake_status old_status) ;;; get_round queue data count.

(** ** Making one *)
(** [get_kernel_page(pg_count)] of core/mm/memory.c gives [queue], 0 when there
    is no memory, else the address of pages of zeros. *)
Definition queue_pages (sz : Z) : Z :=
  if sz >? PG_SIZE + sizeof_ioqueue then (sz + (PG_SIZE + sizeof_ioqueue) - 1) / (PG_SIZE + sizeof_ioqueue) else 1.
Definition init_ioqueue (get_kernel_page : Z -> Z) (sz : Z) : M iosys Z :=
  let pg_count := queue_pages sz in
  let queue := get_kernel_page pg_count in
  if queue =? 0 then ret 0
  else
    modify (fun s => set_ioqs (<[queue := Ioqueue 0 0 sz (replicate (Z.to_nat (pg_count * PG_SIZE - sizeof_ioqueue)) 0)]> (ioqs s)) s) ;;;
    on_kern (modify (fun k => set_locks (<[queue_lock queue := Lock 0 0 0]> (locks k)) k)) ;;;
    on_kern (modify (fun k => set_klists
      (<[waiting_queue (queue_lock queue) := Node 0 0]> (<[producer_waiting_list queue := Node 0 0]>
        (<[consumor_waiting_list queue := Node 0 0]> (klists k)))) k)) ;;;
    on_kern (lock_init (queue_lock queue)) ;;;
    upd_ioq queue (set_producer 0) ;;;
    upd_ioq queue (set_consumor 0) ;;;
    on_kern (INIT_LIST_HEAD (consumor_waiting_list queue)) ;;;
    on_kern (INIT_LIST_HEAD (producer_waiting_list queue)) ;;;
    ret queue.
End calls.
