(* ===== verification/IoqueueProofs.v ===== *)
(** * IoqueueProofs: the ring holds a sequence, and waiting lists are queues *)
From S2P Require Import Prelude Lists ListProofs Kernel Queues Sched Locks Ioqueue.

(** ** The ring *)
(** [x] holds the bytes [l], the next one to be read first. *)
Record ring (x : ioqueue) (l : list Z) : Prop := {
  rg_size : 0 < size x < 2 ^ 31;
  rg_buf : size x <= Z.of_nat (length (buf x));
  rg_producer : 0 <= producer_p x < size x;
  rg_consumor : 0 <= consumor_p x < size x;
  rg_length : Z.of_nat (length l) = (producer_p x - consumor_p x) mod size x;
  rg_bytes : forall j, (j < length l)%nat -> buf x !! Z.to_nat ((consumor_p x + Z.of_nat j) mod size x) = l !! j
}.

Section ring.
Implicit Types (x : ioqueue) (l : list Z).

Lemma mod_wrap a n : 0 < n -> - n <= a < n -> a mod n = if a <? 0 then a + n else a.
Proof.
  intros Hn Ha. destruct (Z.ltb_spec a 0); [|apply Z.mod_small; lia].
  rewrite <-(Z_mod_plus_full a 1), Z.mod_small; lia.
Qed.
Lemma mod_wrap_up a n : 0 < n -> 0 <= a < 2 * n -> a mod n = if a <? n then a else a - n.
Proof.
  intros Hn Ha. destruct (Z.ltb_spec a n); [apply Z.mod_small; lia|].
  rewrite <-(Z_mod_plus_full a (-1)). rewrite Z.mod_small by lia. lia.
Qed.
Lemma ring_short x l : ring x l -> Z.of_nat (length l) < size x.
Proof. intros [? ? ? ? -> _]. apply Z.mod_pos_bound. lia. Qed.
Lemma ring_unread x l : ring x l -> unread x = Z.of_nat (length l).
Proof.
  intros [Hs _ Hp Hc Hl _]. rewrite Hl, mod_wrap by lia. unfold unread. rewrite Z.gtb_ltb.
  destruct (Z.eqb_spec (consumor_p x) (producer_p x)) as [->|]; [by rewrite Z.sub_diag|].
  destruct (Z.ltb_spec (producer_p x) (consumor_p x)), (Z.ltb_spec (producer_p x - consumor_p x) 0); try lia; rewrite u32_small; lia.
Qed.
Lemma ring_avaliable x l : ring x l -> avaliable x = size x - 1 - Z.of_nat (length l).
Proof.
  intros [Hs _ Hp Hc Hl _]. rewrite Hl, mod_wrap by lia. unfold avaliable. rewrite Z.gtb_ltb.
  destruct (Z.eqb_spec (consumor_p x) (producer_p x)) as [->|]; [rewrite Z.sub_diag, u32_small by lia; cbn; lia|].
  destruct (Z.ltb_spec (producer_p x) (consumor_p x)), (Z.ltb_spec (producer_p x - consumor_p x) 0); try lia; rewrite u32_small; lia.
Qed.
Lemma next_index_ok x l i : ring x l -> 0 <= i < size x ->
  next_index x i = (if i + 1 =? size x then 0 else i + 1) /\ 0 <= next_index x i < size x.
Proof.
  intros [Hs _ _ _ _ _] Hi. unfold next_index. rewrite u32_small by lia.
  split; [|apply Z.mod_pos_bound; lia]. destruct (Z.eqb_spec (i + 1) (size x)) as [->|]; [apply Z_mod_same_full|apply Z.mod_small; lia].
Qed.

(** Where byte number [j] lies. *)
Lemma ring_end x l : ring x l -> (consumor_p x + Z.of_nat (length l)) mod size x = producer_p x.
Proof.
  intros [Hs _ Hp Hc Hl _]. rewrite Hl, Zplus_mod_idemp_r. replace (consumor_p x + (producer_p x - consumor_p x)) with (producer_p x) by lia.
  apply Z.mod_small. lia.
Qed.
Lemma ring_place_ne x l j : ring x l -> (j < length l)%nat -> (consumor_p x + Z.of_nat j) mod size x <> producer_p x.
Proof.
  intros Hr Hj. pose proof (ring_short x l Hr). rewrite <-(ring_end x l Hr). destruct Hr as [Hs _ Hp Hc _ _].
  rewrite !mod_wrap_up by lia. repeat case_match; zb; lia.
Qed.

Lemma ring_put x l c : ring x l -> Z.of_nat (length l) < size x - 1 ->
  let x1 := set_buf (<[Z.to_nat (producer_p x) := c]> (buf x)) x in
  ring (set_producer (next_index x1 (producer_p x1)) x1) (l ++ [c]).
Proof.
  intros Hr Hl x1. pose proof (ring_end x l Hr) as He.
  assert (next_index x1 (producer_p x1) = next_index x (producer_p x)) as -> by done.
  destruct (next_index_ok x l (producer_p x) Hr ltac:(apply Hr)) as [En Hn].
  pose proof (fun j => ring_place_ne x l j Hr) as Hne. destruct Hr as [Hs Hb Hp Hc Hlen Hby]. split; cbn [size buf producer_p consumor_p set_producer set_buf x1]; try done.
  - by rewrite length_insert.
  - rewrite length_app. cbn [length]. rewrite Nat2Z.inj_add, Hlen. revert Hl. rewrite Hlen, En, !mod_wrap by (repeat case_match; zb; lia).
    repeat case_match; zb; lia.
  - intros j Hj. rewrite length_app in Hj. cbn [length] in Hj. destruct (decide (j = length l)) as [->|Hjn].
    + rewrite He, list_lookup_insert_eq by lia. by rewrite lookup_app_r, Nat.sub_diag by lia.
    + rewrite list_lookup_insert_ne, lookup_app_l by (try lia; pose proof (Hne j ltac:(lia)); pose proof (Z.mod_pos_bound (consumor_p x + Z.of_nat j) (size x)); lia).
      apply Hby. lia.
Qed.
Lemma ring_get x l c : ring x (c :: l) ->
  buf x !! Z.to_nat (consumor_p x) = Some c /\ ring (set_consumor (next_index x (consumor_p x)) x) l.
Proof.
  intros Hr. destruct (next_index_ok x _ (consumor_p x) Hr ltac:(apply Hr)) as [En Hn]. pose proof (ring_short _ _ Hr) as Hsh.
  destruct Hr as [Hs Hb Hp Hc Hlen Hby]. split.
  - specialize (Hby 0%nat ltac:(cbn; lia)). by rewrite Z.add_0_r, Z.mod_small in Hby.
  - cbn [length] in *. split; cbn [size buf producer_p consumor_p set_consumor]; try done.
    + revert Hlen. rewrite En, !mod_wrap by (repeat case_match; zb; lia). repeat case_match; zb; lia.
    + intros j Hj. etransitivity; [|exact (Hby (S j) ltac:(lia))]. f_equal. f_equal.
      rewrite En. destruct (Z.eqb_spec (consumor_p x + 1) (size x)).
      * rewrite <-(Z_mod_plus_full (0 + Z.of_nat j) 1). f_equal. lia.
      * f_equal. lia.
Qed.
End ring.

(** ** The loops over the bytes *)
Section loops.
Implicit Types (s : iosys) (x : ioqueue) (l data : list Z).

Lemma ioq_now s q x : ioqs s !! q = Some x -> ioq q s = Ok (x, s).
Proof. unfold ioq. by intros ->. Qed.
Lemma upd_ioq_now s q x f : ioqs s !! q = Some x -> upd_ioq q f s = Ok (tt, set_ioqs (<[q := f x]> (ioqs s)) s).
Proof. unfold upd_ioq. by intros ->. Qed.
Lemma set_ioqs_same s q x : ioqs s !! q = Some x -> set_ioqs (<[q := x]> (ioqs s)) s = s.
Proof. intros Hx. unfold set_ioqs. rewrite insert_id by done. by destruct s. Qed.
Lemma set_ioqs_twice s q x y : set_ioqs (<[q := x]> (ioqs (set_ioqs (<[q := y]> (ioqs s)) s))) (set_ioqs (<[q := y]> (ioqs s)) s) =
  set_ioqs (<[q := x]> (ioqs s)) s.
Proof. unfold set_ioqs. cbn. by rewrite insert_insert_eq. Qed.
Lemma avaliable_now s q x l : ioqs s !! q = Some x -> ring x l ->
  ioqueue_avaliable q s = Ok (size x - 1 - Z.of_nat (length l), s).
Proof. intros Hx Hr. unfold ioqueue_avaliable. run (ioq_now s q x Hx). by rewrite (ring_avaliable x l Hr). Qed.
Lemma unread_now s q x l : ioqs s !! q = Some x -> ring x l -> ioqueue_unread q s = Ok (Z.of_nat (length l), s).
Proof. intros Hx Hr. unfold ioqueue_unread. run (ioq_now s q x Hx). by rewrite (ring_unread x l Hr). Qed.

Lemma put_loop_ok n s q x l data written count :
  ioqs s !! q = Some x -> ring x l -> written + Z.of_nat (length data) = count -> (length data < n)%nat ->
  Z.of_nat (length l + length data) < size x ->
  exists x', put_loop n q data written count s = Ok (count, set_ioqs (<[q := x']> (ioqs s)) s) /\
    ring x' (l ++ data) /\ size x' = size x.
Proof.
  revert s x l data written. induction n as [|n IH]; intros s x l data written Hx Hr Hc Hn Hl; [lia|]. cbn [put_loop].
  run (avaliable_now s q x l Hx Hr). destruct data as [|c data].
  - exists x. rewrite (proj2 (Z.ltb_ge written count)), andb_false_r by (cbn in Hc; lia).
    rewrite app_nil_r, set_ioqs_same by done. cbn in Hc. split; [|done]. unfold ret. do 2 f_equal. lia.
  - cbn [length] in *. rewrite Z.gtb_ltb, (proj2 (Z.ltb_lt 0 _)), (proj2 (Z.ltb_lt written count)) by lia. cbn [andb].
    pose proof (rg_producer x l Hr). pose proof (rg_buf x l Hr).
    assert (put_byte q c s = Ok (tt, set_ioqs (<[q := set_buf (<[Z.to_nat (producer_p x) := c]> (buf x)) x]> (ioqs s)) s)) as Ep.
    { unfold put_byte. run (ioq_now s q x Hx). rewrite (proj2 (Z.leb_le 0 _)), (proj2 (Z.ltb_lt (producer_p x) _)) by lia. cbn [andb].
      by rewrite (upd_ioq_now s q x). }
    run Ep. set (x1 := set_buf _ x). set (s1 := set_ioqs _ s).
    assert (ioqs s1 !! q = Some x1) as Hx1 by apply lookup_insert_eq.
    run (ioq_now s1 q x1 Hx1). run (upd_ioq_now s1 q x1 (set_producer (next_index x1 (producer_p x1))) Hx1).
    unfold s1. rewrite set_ioqs_twice.
    set (x2 := set_producer _ x1). set (s2 := set_ioqs (<[q := x2]> (ioqs s)) s).
    destruct (IH s2 x2 (l ++ [c]) data (written + 1)) as (x' & E & Hr' & Hs'); [apply lookup_insert_eq|by apply ring_put; [|lia]|lia|lia| |].
    { rewrite length_app. cbn [length]. unfold x2, x1. cbn. lia. }
    exists x'. rewrite E. unfold s2. rewrite set_ioqs_twice. rewrite <-app_assoc in Hr'. split; [done|]. split; [done|]. by rewrite Hs'.
Qed.

Lemma take_loop_ok n s q x l1 l2 data count :
  ioqs s !! q = Some x -> ring x (l1 ++ l2) -> Z.of_nat (length data + length l1) = count -> (length l1 < n)%nat ->
  exists x', get_loop n q data count s = Ok (data ++ l1, set_ioqs (<[q := x']> (ioqs s)) s) /\
    ring x' l2 /\ size x' = size x.
Proof.
  revert s x l1 data. induction n as [|n IH]; intros s x l1 data Hx Hr Hc Hn; [lia|]. cbn [get_loop].
  run (unread_now s q x _ Hx Hr). destruct l1 as [|c l1].
  - exists x. cbn in Hc. rewrite (proj2 (Z.ltb_ge _ count)), andb_false_r by lia.
    by rewrite app_nil_r, set_ioqs_same.
  - cbn [length app] in *. rewrite Z.gtb_ltb, (proj2 (Z.ltb_lt 0 _)), (proj2 (Z.ltb_lt _ count)) by lia. cbn [andb].
    destruct (ring_get x (l1 ++ l2) c Hr) as [Hb Hr1].
    assert (get_byte q s = Ok (c, s)) as Eg.
    { unfold get_byte. run (ioq_now s q x Hx). rewrite (proj2 (Z.ltb_ge _ 0)) by (pose proof (rg_consumor x _ Hr); lia). by rewrite Hb. }
    run Eg. run (ioq_now s q x Hx). run (upd_ioq_now s q x (set_consumor (next_index x (consumor_p x))) Hx).
    set (x2 := set_consumor _ x). set (s2 := set_ioqs (<[q := x2]> (ioqs s)) s).
    destruct (IH s2 x2 l1 (data ++ [c])) as (x' & E & Hr' & Hs'); [apply lookup_insert_eq|done|rewrite length_app; cbn; lia|lia|].
    exists x'. rewrite E. unfold s2. rewrite set_ioqs_twice, <-app_assoc. split; [done|]. split; [done|]. by rewrite Hs'.
Qed.
End loops.

(** ** Waking everybody on a list *)
Section waking.
Context {G : Globals}.
Implicit Types (k : kern) (Q : queue_map) (ts rq : list Z).

Definition woken ts (m : gmap Z TCB) : gmap Z TCB := foldl (fun m t => alter (set_status THREAD_TASK_READY) t m) m ts.
(** The last one woken is the first on the ready list. *)
Definition woken_queues (a : Z) ts rq Q : queue_map := <[thread_ready_list := rev ts ++ rq]> (<[a := []]> Q).

Lemma alter_some (m : gmap Z TCB) t b f : m !! t = Some b -> alter f t m = <[t := f b]> m.
Proof.
  intros Hb. apply map_eq. intros u. rewrite lookup_insert. case_decide as Hu.
  - subst u. by rewrite lookup_alter_eq, Hb.
  - by rewrite lookup_alter_ne.
Qed.

(** Memory changed at most at the two list heads and at nodes of threads. *)
Definition wake_frame (a : Z) (T : Z -> Prop) (h h' : lheap) : Prop :=
  forall p, p <> a -> p <> thread_ready_list -> (forall t, T t -> general_tag t <> p) -> h' !! p = h !! p.
Lemma unchanged_frame a b (T : Z -> Prop) h h' xs :
  unchanged_except (b :: (general_tag <$> xs)) h h' -> b = a \/ b = thread_ready_list -> (forall t, t ∈ xs -> T t) ->
  wake_frame a T h h'.
Proof.
  intros [Hu _] Hb Hxs p Ha Hr Ht. apply Hu. intros [->|(t & -> & Hin)%list_elem_of_fmap]%list.elem_of_cons; [by destruct Hb|].
  by apply (Ht t); [apply Hxs|].
Qed.
Lemma wake_frame_trans a T h1 h2 h3 : wake_frame a T h1 h2 -> wake_frame a T h2 h3 -> wake_frame a T h1 h3.
Proof. intros H1 H2 p Ha Hr Ht. by rewrite H2, H1. Qed.

(** The addresses of threads and of the list are not null. *)
Record waiters k (T : Z -> Prop) Q (a : Z) ts rq : Prop := {
  wt_queues : queues (lists k) T Q;
  wt_alive : forall t, T t <-> alive k t;
  wt_list : Q !! a = Some ts;
  wt_ready : rl Q rq;
  wt_other : a <> thread_ready_list;
  wt_null : a <> 0 /\ forall t, T t -> 0 < t;
  wt_asleep : forall t, t ∈ ts -> exists b, tasks k !! t = Some b /\ blocking (status b) = true
}.

Lemma wake_loop_ok n fuel k T Q a ts rq :
  waiters k T Q a ts rq -> (length ts < n)%nat -> (length ts + length rq < fuel)%nat ->
  exists h', wake_loop fuel n a k = Ok (tt, set_tasks (woken ts (tasks k)) (set_klists h' k)) /\
    queues h' T (woken_queues a ts rq Q) /\ wake_frame a T (klists k) h'.
Proof.
  revert n k Q rq. induction ts as [|t ts IH]; intros n k Q rq Hw Hn Hf; destruct Hw as [HQ HT Ha Hrl Hne [H0 Hpos] Hs];
    (destruct n as [|n]; [cbn in Hn; lia|]); cbn [wake_loop].
  - run (list_length_ok (H:=kern_lists) fuel k a [] (q_dll _ _ _ HQ a [] Ha)); [|apply list.not_elem_of_cons; split; [lia|apply not_elem_of_nil]|cbn in *; lia].
    exists (klists k). split; [by destruct k|]. split; [|done]. unfold woken_queues. cbn [rev app]. rewrite insert_insert_ne by done.
    unfold rl in Hrl. by rewrite (insert_id Q _ rq), insert_id.
  - cbn [length] in *. assert (0 ∉ a :: (general_tag <$> t :: ts)) as H0'.
    { apply list.not_elem_of_cons. split; [lia|]. apply not_elem_tags. intros u Hu.
      pose proof (Hpos u (q_in _ _ _ HQ a (t :: ts) u Ha Hu)). unfold general_tag. lia. }
    run (list_length_ok (H:=kern_lists) fuel k a _ (q_dll _ _ _ HQ a (t :: ts) Ha) H0' ltac:(rewrite length_fmap; cbn; lia)).
    rewrite Z.gtb_ltb, (proj2 (Z.ltb_lt 0 _)) by (cbn; lia).
    destruct (q_pop_framed (L:=kern_lists) k T Q a ts t HQ Ha) as (h1 & E1 & HQ1 & Hoff & _ & Hu1). run E1. rewrite of_general_tag_tag.
    destruct (Hs t) as (b & Hb & Hst); [by left|].
    assert (rl (<[a := ts]> Q) rq) as Hrl1 by (unfold rl; by rewrite lookup_insert_ne).
    destruct (thread_unblock_framed fuel (set_klists h1 k) T (<[a := ts]> Q) rq t b HQ1 HT Hrl1) as (h2 & E2 & HQ2 & Hu2); [done|lia|].
    run E2. cbn [tasks set_klists].
    set (k2 := set_tasks _ _). set (Q2 := <[thread_ready_list := t :: rq]> (<[a := ts]> Q)) in *.
    destruct (IH n k2 Q2 (t :: rq)) as (h' & E & HQ' & Hu'); [|lia|cbn; lia|].
    { pose proof (q_nodup _ _ _ _ _ HQ Ha) as Hnd. split; [done| | |apply lookup_insert_eq|done|done|].
      - intros u. rewrite (HT u). symmetry. apply (alive_insert k). by eexists.
      - unfold Q2. by rewrite lookup_insert_ne, lookup_insert_eq.
      - intros u Hu. apply list.NoDup_cons in Hnd as [Hnt _]. destruct (Hs u) as (bu & Hbu & Hstu); [by right|].
        exists bu. split; [|done]. unfold k2. cbn [tasks set_tasks]. rewrite lookup_insert_ne; [done|]. intros <-. done. }
    exists h'. rewrite E. split; [|split].
    + unfold k2. cbn [woken foldl tasks set_tasks]. rewrite (alter_some (tasks k) t b) by done. by destruct k.
    + unfold woken_queues, Q2 in *. cbn [rev]. rewrite <-app_assoc. cbn [app].
      rewrite (insert_insert_ne _ a thread_ready_list) in HQ' by done. by rewrite !insert_insert_eq in HQ'.
    + assert (forall u, u ∈ t :: ts -> T u) as Hts by (intros u; apply (q_in _ _ _ HQ a), Ha).
      eapply wake_frame_trans; [by eapply (unchanged_frame a); [exact Hu1|left|]|].
      eapply wake_frame_trans; [eapply (unchanged_frame a); [exact Hu2|by right|]|exact Hu'].
      intros u [->|Hu]%list.elem_of_cons; [apply Hts; left|by apply (q_in _ _ _ HQ _ _ u Hrl)].
Qed.

Lemma wake_up_list_ok fuel k T Q a ts rq :
  waiters k T Q a ts rq -> (length ts + length rq < fuel)%nat ->
  exists h', wake_up_list fuel a k = Ok (tt, set_tasks (woken ts (tasks k)) (set_klists h' k)) /\
    queues h' T (woken_queues a ts rq Q) /\ wake_frame a T (klists k) h'.
Proof.
  intros Hw Hf. unfold wake_up_list.
  run (q_empty (L:=kern_lists) k T Q a ts (wt_queues _ _ _ _ _ _ Hw) (wt_list _ _ _ _ _ _ Hw)).
  destruct (wake_loop_ok fuel fuel (set_intr false k) T Q a ts rq) as (h' & E & HQ' & Hu); [by destruct Hw; split|lia|done|].
  destruct ts as [|t ts].
  - rewrite bool_decide_true by done. cbn [negb]. exists (klists k). split; [by destruct k|]. split; [|done]. destruct Hw as [HQ _ Ha Hrl Hne _ _].
    unfold woken_queues. cbn [rev app]. rewrite insert_insert_ne by done. unfold rl in Hrl. by rewrite (insert_id Q _ rq), insert_id.
  - rewrite bool_decide_false by done. cbn [negb]. exists h'. split; [|done]. unfold ____wake_up. run (intr_disable_ok k). run E.
    run (intr_set_status_ok (intr k) (set_tasks (woken (t :: ts) (tasks k)) (set_klists h' (set_intr false k)))). by destruct k.
Qed.
Lemma woken_alive ts m u : is_Some (woken ts m !! u) <-> is_Some (m !! u).
Proof.
  unfold woken. revert m. induction ts as [|t ts IH]; intros m; [done|]. cbn [foldl]. rewrite IH, lookup_alter.
  case_decide; [|done]. subst. by rewrite fmap_is_Some.
Qed.
Lemma woken_other ts m u : u ∉ ts -> woken ts m !! u = m !! u.
Proof.
  unfold woken. revert m. induction ts as [|t ts IH]; intros m; [done|]. intros [Hne Hu]%list.not_elem_of_cons. cbn [foldl].
  rewrite IH by done. by rewrite lookup_alter_ne.
Qed.
End waking.
