(* ===== verification/IoqueueSpec.v ===== *)
(** * IoqueueSpec: a circular queue is a bounded queue that makes its users wait *)
From S2P Require Import Prelude Lists ListProofs Kernel Queues Sched Locks Ioqueue IoqueueProofs.

(** Nobody holds the lock of queue [q]; [ps] wait to put, [cs] wait to get,
    [rq] are ready; the running thread is on no list. *)
Record idle_queue `{Globals} (k : kern) (Q : queue_map) (q : Z) (ps cs rq : list Z) : Prop := {
  iq_queues : queues (lists k) (alive k) Q;
  iq_producers : Q !! producer_waiting_list q = Some ps;
  iq_consumors : Q !! consumor_waiting_list q = Some cs;
  iq_ready : rl Q rq;
  iq_lock : locks k !! q = Some free_lock;
  iq_lock_queue : Q !! waiting_queue q = Some [];
  iq_places : 0 < q /\ thread_ready_list <> waiting_queue q /\ thread_ready_list <> producer_waiting_list q /\
    thread_ready_list <> consumor_waiting_list q;
  iq_asleep : forall t, t ∈ ps ++ cs -> exists b, tasks k !! t = Some b /\ blocking (status b) = true;
  iq_threads : forall t, alive k t -> 0 < t;
  iq_current : alive k (current k) /\ off_queues Q (current k)
}.

Section waiting.
Context {G : Globals}.
Implicit Types (k : kern) (Q : queue_map) (ts rq : list Z).

Lemma on_kern_ok {A} (c : M kern A) s a k : c (kn s) = Ok (a, k) -> on_kern c s = Ok (a, set_kn k s).
Proof. intros E. unfold on_kern, zoom. by rewrite E. Qed.

(** The state after waking, seen with the lock held by [c]. *)
Definition after_wake k ts h : kern := set_tasks (woken ts (tasks k)) (set_klists h k).
Lemma after_wake_alive k ts h t : alive (after_wake k ts h) t <-> alive k t.
Proof. apply woken_alive. Qed.

Lemma waiters_of k Q q ps cs rq x (first : bool) : idle_queue k Q q ps cs rq ->
  waiters (with_lock q x k) (alive k) Q (if first then consumor_waiting_list q else producer_waiting_list q)
    (if first then cs else ps) rq.
Proof.
  intros [HQ Hp Hc Hr _ _ (Hq & _ & Hrp & Hrc) Hs Hpos _].
  split; [done|done|by destruct first|done|by destruct first|split; [|done]|].
  - unfold consumor_waiting_list, producer_waiting_list. destruct first; lia.
  - intros t Ht. apply Hs. rewrite list.elem_of_app. destruct first; tauto.
Qed.

(** Falling asleep on the list [a] and giving the lock back; [next] is the
    first in line. *)
Lemma wait_on_ok fuel k Q q a ts next rest b :
  queues (lists k) (alive k) Q -> Q !! a = Some ts -> rl Q (next :: rest) -> a <> thread_ready_list ->
  locks k !! q = Some (held_by (current k)) -> Q !! waiting_queue q = Some [] -> a <> waiting_queue q ->
  tasks k !! current k = Some b -> off_queues Q (current k) -> (forall t, alive k t -> 0 < t) ->
  (length ts < fuel)%nat -> (length (next :: rest) < fuel)%nat ->
  exists k', wait_on fuel q a k = Ok (intr k, k') /\
    queues (lists k') (alive k) (<[thread_ready_list := rest]> (<[a := ts ++ [current k]]> Q)) /\
    current k' = next /\ locks k' !! q = Some free_lock /\
    (current k <> next -> tasks k' !! current k = Some (set_status THREAD_TASK_WAITING b)).
Proof.
  intros HQ Ha Hrl Hne Hl Hw Hnw Hb Hoff Hpos Hf1 Hf2.
  assert (alive k (current k)) as Hcur by by eexists.
  assert (list_find_element fuel (general_tag (current k)) a k = Ok (false, k)) as Ef.
  { eapply (q_find (L:=kern_lists)); [exact HQ|done..|by apply (Hoff _ _ Ha)|done]. }
  destruct (q_push_tail (L:=kern_lists) k (alive k) Q a ts (current k) HQ Ha Hcur Hoff) as (h1 & E1 & HQ1).
  set (Q1 := <[a := ts ++ [current k]]> Q) in *.
  assert (Q1 !! waiting_queue q = Some []) as Hw1 by (unfold Q1; by rewrite lookup_insert_ne).
  assert (rl Q1 (next :: rest)) as Hrl1 by (unfold rl, Q1; by rewrite lookup_insert_ne).
  set (k1 := set_intr false (set_klists h1 k)).
  assert (lock_release fuel q k1 = Ok (tt, with_lock q free_lock k1)) as E2.
  { apply (lock_release_now fuel q (current k)); [done|]. by apply (q_dll _ _ _ HQ1 _ [] Hw1). }
  set (k2 := set_tasks (<[current k := set_status THREAD_TASK_WAITING b]> (tasks k)) (with_lock q free_lock k1)).
  pose proof (schedule_blocked_ok fuel k2 Q1 (next :: rest) (set_status THREAD_TASK_WAITING b)) as Hsch.
  destruct Hsch as (k' & E3 & Hk'); [|done|apply lookup_insert_eq|done|done| |].
  { eapply queues_ext; [|exact HQ1]. intros t. symmetry. by apply (alive_insert k). }
  { intros t Ht%(alive_insert k _ _ t Hcur). specialize (Hpos t Ht). lia. }
  exists k'. split; [|split; [|split; [|split]]].
  - unfold wait_on, running_thread. rewrite gets_bind. unfold add_to_waiting_list. run Ef. rets. run E1.
    run (intr_disable_ok (set_klists h1 k)). run E2. unfold thread_block. pass.
    run (intr_disable_ok (with_lock q free_lock k1)). unfold running_thread. rewrite bind_assoc, gets_bind.
    run (upd_tcb_ok (set_intr false (with_lock q free_lock k1)) (current k) b (set_status THREAD_TASK_WAITING)); [|done].
    by run E3.
  - eapply queues_ext; [|exact (sw_queues _ _ _ _ _ _ Hk')]. intros t. by apply (alive_insert k).
  - apply Hk'.
  - rewrite (sw_locks _ _ _ _ _ _ Hk'). apply lookup_insert_eq.
  - intros Hcn. destruct (sw_next _ _ _ _ _ _ Hk') as (t & _ & -> & _). rewrite lookup_insert_ne by done. apply lookup_insert_eq.
Qed.
End waiting.

(** ** What both calls do around their loop *)
Section rounds.
Context {G : Globals}.
Implicit Types (k : kern) (Q : queue_map) (ts rq l data : list Z) (s : iosys).

Lemma taken_lock fuel k Q q ps cs rq : idle_queue k Q q ps cs rq -> 
  lock_fetch fuel q k = Ok (true, with_lock q (held_by (current k)) k).
Proof.
  intros Hi. apply lock_fetch_now; [apply Hi|]. destruct (iq_current _ _ _ _ _ _ Hi) as [Ha _].
  pose proof (iq_threads _ _ _ _ _ _ Hi _ Ha). lia.
Qed.
Lemma after_wake_lock k ts h q x : after_wake (with_lock q x k) ts h = with_lock q x (after_wake k ts h).
Proof. done. Qed.

(** The end of a call that is done: the lock goes back. *)
Lemma released fuel k Q q ps cs rq (first : bool) h x :
  let a := if first then consumor_waiting_list q else producer_waiting_list q in
  let ts := if first then cs else ps in
  idle_queue k Q q ps cs rq -> queues h (alive k) (woken_queues a ts rq Q) ->
  lock_release fuel q (with_lock q (held_by x) (after_wake k ts h)) = Ok (tt, after_wake k ts h).
Proof.
  intros a ts Hi HQ'. pose proof (iq_places _ _ _ _ _ _ Hi) as (Hq & Hrw & Hrp & Hrc).
  assert (woken_queues a ts rq Q !! waiting_queue q = Some []) as Hw.
  { unfold woken_queues. rewrite lookup_insert_ne by done. rewrite lookup_insert_ne; [apply Hi|].
    unfold a, consumor_waiting_list, producer_waiting_list, waiting_queue. destruct first; lia. }
  rewrite (lock_release_now fuel q x); [|apply with_lock_locks|by apply (q_dll _ _ _ HQ' _ [] Hw)].
  rewrite with_lock_twice. f_equal. f_equal. apply with_lock_back. apply Hi.
Qed.

(** The end of a call that waits: the caller of put waits with the producers
    after waking the consumers, and the other way round. *)
Lemma blocked fuel k Q q ps cs rq (put : bool) h next rest b :
  let a := if put then consumor_waiting_list q else producer_waiting_list q in
  let ts := if put then cs else ps in
  let mine := if put then producer_waiting_list q else consumor_waiting_list q in
  let others := if put then ps else cs in
  idle_queue k Q q ps cs rq -> queues h (alive k) (woken_queues a ts rq Q) ->
  rev ts ++ rq = next :: rest -> tasks k !! current k = Some b -> current k ∉ ts ->
  (length others < fuel)%nat -> (length ts + length rq < fuel)%nat ->
  exists k', wait_on fuel q mine (with_lock q (held_by (current k)) (after_wake k ts h)) = Ok (intr k, k') /\
    queues (lists k') (alive k) (<[thread_ready_list := rest]> (<[mine := others ++ [current k]]> (<[a := []]> Q))) /\
    current k' = next /\ locks k' !! q = Some free_lock /\
    (current k <> next -> tasks k' !! current k = Some (set_status THREAD_TASK_WAITING b)).
Proof.
  intros a ts mine others Hi HQ' Hrq Hb Hnot Hf1 Hf2.
  pose proof (iq_places _ _ _ _ _ _ Hi) as (Hq & Hrw & Hrp & Hrc). destruct (iq_current _ _ _ _ _ _ Hi) as [Hcur Hoff].
  set (k1 := with_lock q (held_by (current k)) (after_wake k ts h)).
  assert (forall t, alive k1 t <-> alive k t) as Hal by (intros t; apply (after_wake_alive k ts h)).
  assert (a <> mine /\ mine <> waiting_queue q /\ a <> waiting_queue q /\ mine <> thread_ready_list /\ a <> thread_ready_list) as (Ham & Hmw & Haw & Hmr & Har).
  { unfold a, mine, consumor_waiting_list, producer_waiting_list, waiting_queue in *. destruct put; split_and!; lia || congruence. }
  destruct (wait_on_ok fuel k1 (woken_queues a ts rq Q) q mine others next rest b) as (k' & E & HQ2 & Hc' & Hl' & Hs').
  - eapply queues_ext; [|exact HQ']. intros t. symmetry. apply Hal.
  - unfold woken_queues. rewrite !lookup_insert_ne by done. unfold mine, others. destruct put; apply Hi.
  - unfold rl, woken_queues. by rewrite lookup_insert_eq, Hrq.
  - done.
  - apply with_lock_locks.
  - unfold woken_queues. rewrite !lookup_insert_ne by done. apply Hi.
  - done.
  - change (woken ts (tasks k) !! current k = Some b). by rewrite woken_other.
  - intros u zs. unfold woken_queues. rewrite lookup_insert. case_decide as Hu; [|rewrite lookup_insert; case_decide as Hu'].
    + intros [= <-]. rewrite list.elem_of_app. intros [Hin|Hin]; [by rewrite list_elem_of_In, <-in_rev, <-list_elem_of_In in Hin|]. by apply (Hoff _ _ (iq_ready _ _ _ _ _ _ Hi)).
    + intros [= <-]. apply not_elem_of_nil.
    + apply Hoff.
  - intros t Ht%Hal. by apply (iq_threads _ _ _ _ _ _ Hi).
  - done.
  - rewrite <-Hrq, length_app, length_rev. done.
  - exists k'. split; [exact E|]. split; [|split; [done|split; [done|by intros Hn; apply Hs']]].
    eapply queues_ext; [exact Hal|]. change (current k1) with (current k) in HQ2. unfold woken_queues in HQ2.
    rewrite (insert_insert_ne _ mine thread_ready_list) in HQ2 by done. by rewrite insert_insert_eq in HQ2.
Qed.
End rounds.

Section spec.
Context {G : Globals}.

(** C14: putting [data] into an idle queue that holds [l]: when the queue has
    more room than the data takes, the data is appended, everybody who waits to
    get becomes ready and the call is done; otherwise nothing is put, the
    waiting getters are woken all the same, and the caller sleeps at the end of
    the list of putters, without the lock, while the next thread runs - so
    data as long as the queue less one waits even when the queue is empty. *)
Theorem put_data_appends_or_waits (fuel : nat) (s : iosys) (Q : queue_map) (q : Z) (x : ioqueue)
    (l data : list Z) (ps cs rq rest : list Z) (next : Z) (b : TCB) :
  idle_queue (kn s) Q q ps cs rq -> ioqs s !! q = Some x -> ring x l -> data <> [] ->
  rev cs ++ rq = next :: rest -> tasks (kn s) !! current (kn s) = Some b -> current (kn s) ∉ cs ->
  (length ps < fuel)%nat -> (length cs + length rq < fuel)%nat ->
  let count := Z.of_nat (length data) in
  if size x - 1 - Z.of_nat (length l) >? count
  then exists x' h, ioqueue_put_data fuel q data s =
         Ok (Done count, Iosys (after_wake (kn s) cs h) (<[q := x']> (ioqs s))) /\
       ring x' (l ++ data) /\ size x' = size x /\
       queues h (alive (kn s)) (woken_queues (consumor_waiting_list q) cs rq Q)
  else exists k', ioqueue_put_data fuel q data s = Ok (Queue_wait (intr (kn s)) 0, Iosys k' (ioqs s)) /\
       queues (lists k') (alive (kn s)) (<[thread_ready_list := rest]>
         (<[producer_waiting_list q := ps ++ [current (kn s)]]> (<[consumor_waiting_list q := []]> Q))) /\
       current k' = next /\ locks k' !! q = Some free_lock /\
       (current (kn s) <> next -> tasks k' !! current (kn s) = Some (set_status THREAD_TASK_WAITING b)).
Proof.
  intros Hi Hx Hr Hd Hrq Hb Hnot Hf1 Hf2 count. set (k := kn s) in *.
  assert (0 < count) as Hc by (unfold count; destruct data; [done|cbn; lia]).
  pose proof (on_kern_ok _ s _ _ (taken_lock fuel k Q q ps cs rq Hi)) as El.
  destruct (wake_up_list_ok fuel _ _ Q _ _ rq (waiters_of k Q q ps cs rq (held_by (current k)) true Hi) Hf2) as (h & Ew & HQ' & _).
  change (set_tasks _ _) with (with_lock q (held_by (current k)) (after_wake k cs h)) in Ew.
  unfold ioqueue_put_data. fold count. rewrite (proj2 (Z.ltb_lt 0 count)) by done. unfold put_round, queue_lock. run El. cbn [negb].
  run (avaliable_now (set_kn (with_lock q (held_by (current k)) k) s) q x l Hx Hr).
  destruct (Z.gtb_spec (size x - 1 - Z.of_nat (length l)) count) as [Hroom|Hroom].
  - destruct (put_loop_ok (S (Z.to_nat count)) (set_kn (with_lock q (held_by (current k)) k) s) q x l data 0 count Hx Hr)
      as (x' & Ep & Hr' & Hs'); [unfold count; lia|unfold count; lia|unfold count in *; lia|].
    run Ep. unfold wake_up_consumors.
    run (on_kern_ok _ (set_ioqs (<[q := x']> (ioqs s)) (set_kn (with_lock q (held_by (current k)) k) s)) _ _ Ew).
    rewrite Z.ltb_irrefl.
    run (on_kern_ok _ (set_kn (with_lock q (held_by (current k)) (after_wake k cs h))
      (set_ioqs (<[q := x']> (ioqs s)) (set_kn (with_lock q (held_by (current k)) k) s))) _ _ (released fuel k Q q ps cs rq true h (current k) Hi HQ')).
    by exists x', h.
  - rets. unfold wake_up_consumors. run (on_kern_ok _ (set_kn (with_lock q (held_by (current k)) k) s) _ _ Ew).
    rewrite (proj2 (Z.ltb_lt 0 count)) by done.
    destruct (blocked fuel k Q q ps cs rq true h next rest b Hi HQ' Hrq Hb Hnot Hf1 Hf2) as (k' & Eb & Hk').
    run (on_kern_ok _ (set_kn (with_lock q (held_by (current k)) (after_wake k cs h)) (set_kn (with_lock q (held_by (current k)) k) s)) _ _ Eb).
    exists k'. split; [done|]. exact Hk'.
Qed.

(** C16: getting [count] bytes from an idle queue that holds [l]: when there are
    as many, the first ones come out in order, everybody who waits to put
    becomes ready and the call is done; otherwise nothing is taken, the waiting
    putters are woken all the same, and the caller sleeps at the end of the
    list of getters, without the lock, while the next thread runs. *)
Theorem get_data_takes_or_waits (fuel : nat) (s : iosys) (Q : queue_map) (q : Z) (x : ioqueue)
    (l : list Z) (count : Z) (ps cs rq rest : list Z) (next : Z) (b : TCB) :
  idle_queue (kn s) Q q ps cs rq -> ioqs s !! q = Some x -> ring x l -> 0 < count ->
  rev ps ++ rq = next :: rest -> tasks (kn s) !! current (kn s) = Some b -> current (kn s) ∉ ps ->
  (length cs < fuel)%nat -> (length ps + length rq < fuel)%nat ->
  if Z.of_nat (length l) >=? count
  then exists x' h, ioqueue_get_data fuel q count s =
         Ok (Done (take (Z.to_nat count) l), Iosys (after_wake (kn s) ps h) (<[q := x']> (ioqs s))) /\
       ring x' (drop (Z.to_nat count) l) /\ size x' = size x /\
       queues h (alive (kn s)) (woken_queues (producer_waiting_list q) ps rq Q)
  else exists k', ioqueue_get_data fuel q count s = Ok (Queue_wait (intr (kn s)) [], Iosys k' (ioqs s)) /\
       queues (lists k') (alive (kn s)) (<[thread_ready_list := rest]>
         (<[consumor_waiting_list q := cs ++ [current (kn s)]]> (<[producer_waiting_list q := []]> Q))) /\
       current k' = next /\ locks k' !! q = Some free_lock /\
       (current (kn s) <> next -> tasks k' !! current (kn s) = Some (set_status THREAD_TASK_WAITING b)).
Proof.
  intros Hi Hx Hr Hc Hrq Hb Hnot Hf1 Hf2. set (k := kn s) in *.
  pose proof (on_kern_ok _ s _ _ (taken_lock fuel k Q q ps cs rq Hi)) as El.
  destruct (wake_up_list_ok fuel _ _ Q _ _ rq (waiters_of k Q q ps cs rq (held_by (current k)) false Hi) Hf2) as (h & Ew & HQ' & _).
  change (set_tasks _ _) with (with_lock q (held_by (current k)) (after_wake k ps h)) in Ew.
  unfold ioqueue_get_data. rewrite (proj2 (Z.ltb_lt 0 count)) by done. unfold get_round, queue_lock. run El. cbn [negb].
  run (unread_now (set_kn (with_lock q (held_by (current k)) k) s) q x l Hx Hr). rewrite Z.geb_leb.
  destruct (Z.leb_spec count (Z.of_nat (length l))) as [Hroom|Hroom].
  - assert (length (take (Z.to_nat count) l) = Z.to_nat count) as Hlt by (rewrite length_take; lia).
    destruct (take_loop_ok (S (Z.to_nat count)) (set_kn (with_lock q (held_by (current k)) k) s) q x (take (Z.to_nat count) l) (drop (Z.to_nat count) l) [] count Hx)
      as (x' & Ep & Hr' & Hs'); [by rewrite take_drop|cbn [length]; lia|lia|].
    run Ep. rewrite app_nil_l. unfold wake_up_producers.
    run (on_kern_ok _ (set_ioqs (<[q := x']> (ioqs s)) (set_kn (with_lock q (held_by (current k)) k) s)) _ _ Ew).
    rewrite (proj2 (Z.ltb_ge _ count)) by lia.
    run (on_kern_ok _ (set_kn (with_lock q (held_by (current k)) (after_wake k ps h))
      (set_ioqs (<[q := x']> (ioqs s)) (set_kn (with_lock q (held_by (current k)) k) s))) _ _ (released fuel k Q q ps cs rq false h (current k) Hi HQ')).
    by exists x', h.
  - rets. unfold wake_up_producers. run (on_kern_ok _ (set_kn (with_lock q (held_by (current k)) k) s) _ _ Ew).
    cbn [length]. rewrite (proj2 (Z.ltb_lt _ count)) by done.
    destruct (blocked fuel k Q q ps cs rq false h next rest b Hi HQ' Hrq Hb Hnot Hf1 Hf2) as (k' & Eb & Hk').
    run (on_kern_ok _ (set_kn (with_lock q (held_by (current k)) (after_wake k ps h)) (set_kn (with_lock q (held_by (current k)) k) s)) _ _ Eb).
    exists k'. split; [done|]. exact Hk'.
Qed.
End spec.

(** ** A queue of 8 bytes at 20000: the thread at 4096 runs, 8192 waits to get,
    12288 is ready *)
Definition ring_globals : Globals := {| thread_ready_list := 100; thread_all_list := 300; addr_v2p := fun a => a |}.
Definition ring_thread (st : Z) : TCB := Tcb 0 1 0 st 2 2 0 0 (Message 0 0 []) 0 0 0 0 0 0 STACK_MAGIC.
Definition ring_kern : kern :=
  Kern (list_to_map [(100, Node 12340 12340); (12340, Node 100 100); (20028, Node 8244 8244); (8244, Node 20028 20028);
                     (20008, Node 20008 20008); (20020, Node 20020 20020); (4148, Node 0 0)])
       (list_to_map [(4096, ring_thread 0); (8192, ring_thread 2); (12288, ring_thread 1)])
       (list_to_map [(20000, free_lock)]) 4096 true 0 0 0 12288 4096.
Definition ring_queues : queue_map := list_to_map [(100, [12288]); (20028, [8192]); (20020, []); (20008, [])].
Definition ring_with (p : Z) (bytes : list Z) : iosys := Iosys ring_kern {[20000 := Ioqueue p 0 8 bytes]}.

Section example.
Existing Instance ring_globals.

Lemma ring_alive t : alive ring_kern t -> t = 4096 \/ t = 8192 \/ t = 12288.
Proof. intros [b Hb]. cbn in Hb. repeat (apply lookup_insert_Some in Hb as [[<- _]|[_ Hb]]; [tauto|]). by apply lookup_empty_Some in Hb. Qed.
Lemma ring_queue a xs : ring_queues !! a = Some xs ->
  (a = 100 /\ xs = [12288]) \/ (a = 20028 /\ xs = [8192]) \/ (a = 20020 /\ xs = []) \/ (a = 20008 /\ xs = []).
Proof.
  intros H. cbn in H. repeat (apply lookup_insert_Some in H as [[<- <-]|[_ H]]; [tauto|]). by apply lookup_empty_Some in H.
Qed.
Lemma ring_members a xs t : ring_queues !! a = Some xs -> t ∈ xs -> (a = 100 /\ t = 12288) \/ (a = 20028 /\ t = 8192).
Proof.
  intros [[-> ->]|[[-> ->]|[[-> ->]|[-> ->]]]]%ring_queue Ht; try (by apply not_elem_of_nil in Ht);
    apply list_elem_of_singleton in Ht; tauto.
Qed.
Lemma ring_idle : idle_queue ring_kern ring_queues 20000 [] [8192] [12288].
Proof.
  split; try done.
  - split.
    + intros a xs Ha. apply ring_queue in Ha as [[-> ->]|[[-> ->]|[[-> ->]|[-> ->]]]]; (split; [vm_compute; done|by_computation]).
    + intros a xs t Ha [[-> ->]|[-> ->]]%(ring_members a xs t Ha); by eexists.
    + intros a b xs ys t Ha Hb Hx Hy. destruct (ring_members a xs t Ha Hx), (ring_members b ys t Hb Hy); lia.
    + intros t [->|[->| ->]]%ring_alive; vm_compute; by eexists.
    + intros a xs t Ha Ht. apply ring_queue in Ha. apply ring_alive in Ht. unfold general_tag. lia.
  - intros t Ht. apply list_elem_of_singleton in Ht as ->. by eexists.
  - intros t Ht%ring_alive. lia.
  - split; [by eexists|]. intros a xs Ha Ht. destruct (ring_members a xs 4096 Ha Ht); lia.
Qed.
Lemma ring_holds p l rest : (length l <= 7)%nat -> p = Z.of_nat (length l) -> length (l ++ rest) = 8%nat ->
  ring (Ioqueue p 0 8 (l ++ rest)) l.
Proof.
  intros Hl -> Hlen. split; cbn [size buf producer_p consumor_p]; rewrite ?Hlen; try lia.
  - rewrite Z.mod_small; lia.
  - intros j Hj. rewrite Z.mod_small, Z.add_0_l, Nat2Z.id by lia. by apply lookup_app_l.
Qed.
End example.

Lemma put_data_appends_or_waits_witness :
  exists x' h, @ioqueue_put_data ring_globals 9 20000 [7; 8; 9] (ring_with 0 (replicate 8 0)) =
      Ok (Done 3, Iosys (after_wake ring_kern [8192] h) {[20000 := x']}) /\ ring x' [7; 8; 9].
Proof.
  destruct (@put_data_appends_or_waits ring_globals 9 (ring_with 0 (replicate 8 0)) ring_queues 20000 (Ioqueue 0 0 8 (replicate 8 0))
    [] [7; 8; 9] [] [8192] [12288] [12288] 8192 (ring_thread 0)) as (x' & h & E & Hr & _).
  - exact ring_idle.
  - done.
  - apply (ring_holds 0 [] (replicate 8 0)); cbn; lia.
  - done.
  - done.
  - done.
  - by_computation.
  - cbn; lia.
  - cbn; lia.
  - exists x', h. split; [exact E|exact Hr].
Defined.
Lemma get_data_takes_or_waits_witness :
  (exists x' h, @ioqueue_get_data ring_globals 9 20000 2 (ring_with 3 [7; 8; 9; 0; 0; 0; 0; 0]) =
      Ok (Done [7; 8], Iosys (after_wake ring_kern [] h) {[20000 := x']}) /\ ring x' [9]) /\
  exists k', @ioqueue_get_data ring_globals 9 20000 4 (ring_with 3 [7; 8; 9; 0; 0; 0; 0; 0]) =
      Ok (Queue_wait true [], Iosys k' {[20000 := Ioqueue 3 0 8 [7; 8; 9; 0; 0; 0; 0; 0]]}) /\ current k' = 12288.
Proof.
  assert (ring (Ioqueue 3 0 8 [7; 8; 9; 0; 0; 0; 0; 0]) [7; 8; 9]) as Hr by (apply (ring_holds 3 [7; 8; 9] [0; 0; 0; 0; 0]); cbn; lia).
  assert (4096 ∉ @nil Z) as Hn by apply not_elem_of_nil.
  split.
  - destruct (@get_data_takes_or_waits ring_globals 9 (ring_with 3 [7; 8; 9; 0; 0; 0; 0; 0]) ring_queues 20000 _ [7; 8; 9] 2
      [] [8192] [12288] [] 12288 (ring_thread 0) ring_idle eq_refl Hr ltac:(lia) eq_refl eq_refl Hn ltac:(cbn; lia) ltac:(cbn; lia))
      as (x' & h & E & Hr' & _). exists x', h. split; [exact E|exact Hr'].
  - destruct (@get_data_takes_or_waits ring_globals 9 (ring_with 3 [7; 8; 9; 0; 0; 0; 0; 0]) ring_queues 20000 _ [7; 8; 9] 4
      [] [8192] [12288] [] 12288 (ring_thread 0) ring_idle eq_refl Hr ltac:(lia) eq_refl eq_refl Hn ltac:(cbn; lia) ltac:(cbn; lia))
      as (k' & E & _ & Hc & _). exists k'. split; [exact E|exact Hc].
Defined.

(** ** What the code does not do *)

(** Seven bytes do not go into an empty queue of eight, which holds seven. *)
Lemma put_waits_for_ever :
  match @ioqueue_put_data ring_globals 9 20000 (replicate 7 1) (ring_with 0 (replicate 8 0)) with
  | Ok (Queue_wait _ _, s) => bool_decide (buf <$> ioqs s !! 20000 = Some (replicate 8 0)) | _ => false end = true.
Proof. vm_compute. reflexivity. Qed.
(** A queue of 4096 bytes, as [sys_pipe] makes it, gets one page, in which 4048
    bytes are left for its buffer. *)
Lemma pipe_queue_too_long :
  match @init_ioqueue (fun _ => 20000) 4096 (Iosys ring_kern ∅) with
  | Ok (q, s) => match ioqs s !! q with Some x => (Z.of_nat (length (buf x)) <? size x) | None => false end
  | _ => false end = true.
Proof. vm_compute. reflexivity. Qed.
