(* ===== verification/X86.v ===== *)
(** * X86: the processor as far as core/libc/string.c uses it

    The string functions are inline assembly.  This file has the registers,
    flags and instructions they use, executed one at a time; a repeated string
    instruction is one step per element, as on the processor, which can be
    interrupted between two of them.  Addresses are 32-bit and memory is a
    function from addresses to bytes. *)
From S2P Require Import Prelude.

Inductive reg := EAX | EBX | ECX | EDX | ESI | EDI.
#[export] Instance reg_eq_dec : EqDecision reg.
Proof. solve_decision. Defined.

(** The flags are those the conditional jumps look at: [zf], [sf], and [lt]
    for the condition of [jl] (the sign flag differs from the overflow flag);
    [df] is the direction flag. *)
Record cpu := Cpu {
  eax : Z; ebx : Z; ecx : Z; edx : Z; esi : Z; edi : Z;
  zf : bool; sf : bool; lt : bool; df : bool;
  bytes : Z -> Z }.

Definition rd (r : reg) (c : cpu) : Z :=
  match r with EAX => eax c | EBX => ebx c | ECX => ecx c | EDX => edx c | ESI => esi c | EDI => edi c end.
Definition wr (r : reg) (v : Z) (c : cpu) : cpu :=
  let '(Cpu a b cx d si di z s l f m) := c in
  match r with
  | EAX => Cpu v b cx d si di z s l f m
  | EBX => Cpu a v cx d si di z s l f m
  | ECX => Cpu a b v d si di z s l f m
  | EDX => Cpu a b cx v si di z s l f m
  | ESI => Cpu a b cx d v di z s l f m
  | EDI => Cpu a b cx d si v z s l f m
  end.
Definition flags (z s l : bool) (c : cpu) : cpu :=
  Cpu (eax c) (ebx c) (ecx c) (edx c) (esi c) (edi c) z s l (df c) (bytes c).
Definition set_df (f : bool) (c : cpu) : cpu :=
  Cpu (eax c) (ebx c) (ecx c) (edx c) (esi c) (edi c) (zf c) (sf c) (lt c) f (bytes c).
Definition poke (a v : Z) (c : cpu) : cpu :=
  Cpu (eax c) (ebx c) (ecx c) (edx c) (esi c) (edi c) (zf c) (sf c) (lt c) (df c)
      (fun b => if b =? a then v else bytes c b).

Definition AL (c : cpu) : Z := eax c mod 256.
Definition AH (c : cpu) : Z := (eax c / 256) mod 256.
Definition set_AL (v : Z) (c : cpu) : cpu := wr EAX (eax c - eax c mod 256 + v) c.
Definition set_AH (v : Z) (c : cpu) : cpu := wr EAX (eax c - AH c * 256 + v * 256) c.

(** The flags of a comparison [a - b] of bytes and of a value of [w] bits. *)
Definition cmp8 (a b : Z) (c : cpu) : cpu :=
  flags (u8 (a - b) =? 0) (s8 (a - b) <? 0) (s8 a <? s8 b) c.
Definition logic (w v : Z) (c : cpu) : cpu := flags (v =? 0) (sx w v <? 0) (sx w v <? 0) c.

(** Operands that are not registers are the immediates and the "g" operands,
    whose value the caller gives. *)
Inductive way := fwd | bwd.
Inductive instr :=
| CLD | STD
| LABEL (n : nat)
| JMP (w : way) (n : nat) | JE (w : way) (n : nat) | JNE (w : way) (n : nat)
| JS (w : way) (n : nat) | JL (w : way) (n : nat)
| LODSB | STOSB | SCASB
| REP_STOSB | REP_MOVSB | REPNE_SCASB | REPE_CMPSB
| TESTB_AL | TESTL (r : reg)
| DECL (r : reg) | INCL (r : reg) | NOTL (r : reg) | NEGL (r : reg)
| XORL_SELF (r : reg) | XCHGL (a b : reg)
| MOVL_I (v : Z) (r : reg) | MOVL (a b : reg) | MOVB_AL_AH
| CMPB_AH_AL | CMPB_0_MEM (r : reg) (off : Z) | MOVB_0_MEM (r : reg).

(** A local label ["1b"] is the nearest one before, ["1f"] the nearest after. *)
Fixpoint find_label (n : nat) (p : list instr) (i : nat) : option nat :=
  match p with
  | [] => None
  | LABEL m :: p => if (n =? m)%nat then Some i else find_label n p (S i)
  | _ :: p => find_label n p (S i)
  end.
Definition target (p : list instr) (pc : nat) (w : way) (n : nat) : option nat :=
  match w with
  | fwd => find_label n (skipn pc p) pc
  | bwd => match find_label n (rev (firstn pc p)) 0 with
           | Some i => Some (pc - 1 - i)%nat
           | None => None
           end
  end.

Definition delta (c : cpu) : Z := if df c then -1 else 1.
Definition lodsb (c : cpu) : cpu := wr ESI (u32 (esi c + delta c)) (set_AL (bytes c (esi c)) c).
Definition stosb (c : cpu) : cpu := wr EDI (u32 (edi c + delta c)) (poke (edi c) (AL c) c).
Definition movsb (c : cpu) : cpu :=
  wr ESI (u32 (esi c + delta c)) (wr EDI (u32 (edi c + delta c)) (poke (edi c) (bytes c (esi c)) c)).
Definition scasb (c : cpu) : cpu := wr EDI (u32 (edi c + delta c)) (cmp8 (AL c) (bytes c (edi c)) c).
Definition cmpsb (c : cpu) : cpu :=
  wr ESI (u32 (esi c + delta c)) (wr EDI (u32 (edi c + delta c)) (cmp8 (bytes c (esi c)) (bytes c (edi c)) c)).

(** One element of a repeated instruction: the body when the count is not 0,
    and whether to go on. *)
Definition repeat_step (body : cpu -> cpu) (go_on : cpu -> bool) (pc : nat) (c : cpu) : nat * cpu :=
  if ecx c =? 0 then (S pc, c)
  else let c := body (wr ECX (u32 (ecx c - 1)) c) in
       (if go_on c then pc else S pc, c).

Definition jump (p : list instr) (pc : nat) (cond : bool) (w : way) (n : nat) (c : cpu) : option (nat * cpu) :=
  if cond then match target p pc w n with Some q => Some (q, c) | None => None end
  else Some (S pc, c).

(** One step; [None] when there is no instruction at [pc]. *)
Definition step (p : list instr) (s : nat * cpu) : option (nat * cpu) :=
  let '(pc, c) := s in
  match nth_error p pc with
  | None => None
  | Some i =>
      match i with
      | CLD => Some (S pc, set_df false c)
      | STD => Some (S pc, set_df true c)
      | LABEL _ => Some (S pc, c)
      | JMP f n => jump p pc true f n c
      | JE f n => jump p pc (zf c) f n c
      | JNE f n => jump p pc (negb (zf c)) f n c
      | JS f n => jump p pc (sf c) f n c
      | JL f n => jump p pc (lt c) f n c
      | LODSB => Some (S pc, lodsb c)
      | STOSB => Some (S pc, stosb c)
      | SCASB => Some (S pc, scasb c)
      | REP_STOSB => Some (repeat_step stosb (fun _ => true) pc c)
      | REP_MOVSB => Some (repeat_step movsb (fun _ => true) pc c)
      | REPNE_SCASB => Some (repeat_step scasb (fun c => negb (zf c)) pc c)
      | REPE_CMPSB => Some (repeat_step cmpsb zf pc c)
      | TESTB_AL => Some (S pc, logic 8 (AL c) c)
      | TESTL r => Some (S pc, logic 32 (rd r c) c)
      | DECL r => let v := u32 (rd r c - 1) in
          Some (S pc, wr r v (flags (v =? 0) (s32 v <? 0) (s32 (rd r c) - 1 <? 0) c))
      | INCL r => let v := u32 (rd r c + 1) in
          Some (S pc, wr r v (flags (v =? 0) (s32 v <? 0) (s32 (rd r c) + 1 <? 0) c))
      | NOTL r => Some (S pc, wr r (u32 (Z.lnot (rd r c))) c)
      | NEGL r => let v := u32 (- rd r c) in
          Some (S pc, wr r v (flags (v =? 0) (s32 v <? 0) (- s32 (rd r c) <? 0) c))
      | XORL_SELF r => Some (S pc, wr r 0 (flags true false false c))
      | XCHGL a b => Some (S pc, wr a (rd b c) (wr b (rd a c) c))
      | MOVL_I v r => Some (S pc, wr r (u32 v) c)
      | MOVL a b => Some (S pc, wr b (rd a c) c)
      | MOVB_AL_AH => Some (S pc, set_AH (AL c) c)
      | CMPB_AH_AL => Some (S pc, cmp8 (AL c) (AH c) c)
      | CMPB_0_MEM r off => Some (S pc, cmp8 (bytes c (u32 (rd r c + off))) 0 c)
      | MOVB_0_MEM r => Some (S pc, poke (rd r c) 0 c)
      end
  end.

(** Running to the end, with fuel. *)
Fixpoint run_asm (fuel : nat) (p : list instr) (s : nat * cpu) : option cpu :=
  match fuel with
  | O => None
  | S n =>
      match step p s with
      | None => Some (s.2)
      | Some s' => run_asm n p s'
      end
  end.

(** ** Sequences of steps *)
Inductive goes (p : list instr) : nat * cpu -> nat * cpu -> Prop :=
| goes_refl s : goes p s s
| goes_step s s1 s2 : step p s = Some s1 -> goes p s1 s2 -> goes p s s2.

Section goes.
Context (p : list instr).

Lemma goes_trans s1 s2 s3 : goes p s1 s2 -> goes p s2 s3 -> goes p s1 s3.
Proof. induction 1; [done|]. intros. econstructor; eauto. Qed.

(** Steps that reach the end of the program are a run with enough fuel. *)
Lemma goes_run s pc c :
  goes p s (pc, c) -> length p = pc ->
  exists n, forall fuel, (n <= fuel)%nat -> run_asm fuel p s = Some c.
Proof.
  intros H Hl. remember (pc, c) as e eqn:E. induction H as [s|s s1 s2 Hs _ IH]; subst.
  - exists 1%nat. intros fuel Hf. destruct fuel as [|fuel]; [lia|]. cbn [run_asm step].
    by rewrite (proj2 (nth_error_None p (length p))).
  - destruct (IH eq_refl) as [n Hn]. exists (S n). intros fuel Hf. destruct fuel as [|fuel]; [lia|].
    cbn [run_asm]. rewrite Hs. apply Hn. lia.
Qed.
End goes.

(** [asm] executes one instruction of a goal [goes p (pc, c) _], for a literal
    program and program counter. *)
Ltac asm := eapply goes_step; [reflexivity|].
(** [cpu] simplifies the states. *)
Ltac cpu :=
  cbv beta iota zeta delta [rd wr flags set_df poke AL AH set_AL set_AH cmp8 logic delta lodsb stosb movsb scasb cmpsb
    eax ebx ecx edx esi edi zf sf lt df bytes negb].
