(* ===== verification/Str.v ===== *)
(** * Str: the string functions of core/libc/string.c

    Each function is the instruction list of its [__asm__] statement, the
    registers its input constraints load, and the register of the result.  An
    operand that is a number is loaded as the constraint says; a [char] loads
    only the low byte of [eax]. *)
From S2P Require Import Prelude X86.

(** Running the statement of a function: [init] loads the operands, [res] reads
    the result. *)
Definition asm_call (fuel : nat) (p : list instr) (init : cpu -> cpu) (res : cpu -> Z) (c : cpu) : option (Z * cpu) :=
  match run_asm fuel p (O, init c) with
  | Some c' => Some (res c', c')
  | None => None
  end.
Definition SD (src dest : Z) (c : cpu) : cpu := wr ESI src (wr EDI dest c).

Definition strcpy_asm : list instr :=
  [CLD; LABEL 1; LODSB; STOSB; TESTB_AL; JNE bwd 1].
Definition strcpy (fuel : nat) (dest src : Z) : cpu -> option (Z * cpu) :=
  asm_call fuel strcpy_asm (SD src dest) (fun _ => dest).

Definition strncpy_asm : list instr :=
  [CLD; LABEL 1; DECL ECX; JS fwd 2; LODSB; STOSB; TESTB_AL; JNE bwd 1; REP_STOSB; LABEL 2].
Definition strncpy (fuel : nat) (dest src count : Z) : cpu -> option (Z * cpu) :=
  asm_call fuel strncpy_asm (fun c => wr ECX (u32 count) (SD src dest c)) (fun _ => dest).

Definition strcat_asm : list instr :=
  [CLD; REPNE_SCASB; DECL EDI; LABEL 1; LODSB; STOSB; TESTB_AL; JNE bwd 1].
Definition strcat (fuel : nat) (dest src : Z) : cpu -> option (Z * cpu) :=
  asm_call fuel strcat_asm (fun c => wr EAX 0 (wr ECX 0xffffffff (SD src dest c))) (fun _ => dest).

Definition strncat_asm (count : Z) : list instr :=
  [CLD; REPNE_SCASB; DECL EDI; MOVL_I count ECX; LABEL 1; DECL ECX; JS fwd 2; LODSB; STOSB; TESTB_AL; JNE bwd 1;
   LABEL 2; XORL_SELF EAX; STOSB].
Definition strncat (fuel : nat) (dest src count : Z) : cpu -> option (Z * cpu) :=
  asm_call fuel (strncat_asm count) (fun c => wr EAX 0 (wr ECX 0xffffffff (SD src dest c))) (fun _ => dest).

Definition strcmp_asm : list instr :=
  [CLD; LABEL 1; LODSB; SCASB; JNE fwd 2; TESTB_AL; JNE bwd 1; XORL_SELF EAX; JMP fwd 3;
   LABEL 2; MOVL_I 1 EAX; JL fwd 3; NEGL EAX; LABEL 3].
Definition strcmp (fuel : nat) (cs ct : Z) : cpu -> option (Z * cpu) :=
  asm_call fuel strcmp_asm (SD ct cs) (fun c => s32 (eax c)).

Definition strncmp_asm : list instr :=
  [CLD; LABEL 1; DECL ECX; JS fwd 2; LODSB; SCASB; JNE fwd 3; TESTB_AL; JNE bwd 1; LABEL 2; XORL_SELF EAX; JMP fwd 4;
   LABEL 3; MOVL_I 1 EAX; JL fwd 4; NEGL EAX; LABEL 4].
Definition strncmp (fuel : nat) (cs ct count : Z) : cpu -> option (Z * cpu) :=
  asm_call fuel strncmp_asm (fun c => wr ECX (u32 count) (SD ct cs c)) (fun c => s32 (eax c)).

Definition strchr_asm : list instr :=
  [CLD; MOVB_AL_AH; LABEL 1; LODSB; CMPB_AH_AL; JE fwd 2; TESTB_AL; JNE bwd 1; MOVL_I 1 ESI;
   LABEL 2; MOVL ESI EAX; DECL EAX].
Definition strchr (fuel : nat) (s ch : Z) : cpu -> option (Z * cpu) :=
  asm_call fuel strchr_asm (fun c => wr ESI s (set_AL (u8 ch) c)) eax.

Definition strrchr_asm : list instr :=
  [CLD; MOVB_AL_AH; LABEL 1; LODSB; CMPB_AH_AL; JNE fwd 2; MOVL ESI EDX; DECL EDX; LABEL 2; TESTB_AL; JNE bwd 1].
Definition strrchr (fuel : nat) (s ch : Z) : cpu -> option (Z * cpu) :=
  asm_call fuel strrchr_asm (fun c => wr EDX 0 (wr ESI s (set_AL (u8 ch) c))) edx.

(** The length of [ct] in [edx]: the common start of the functions that look
    for the characters of [ct]. *)
Definition ct_length (ct : Z) : list instr :=
  [CLD; MOVL_I ct EDI; REPNE_SCASB; NOTL ECX; DECL ECX; MOVL ECX EDX].
(** Is the character in [al] one of [ct]? *)
Definition in_ct (ct : Z) : list instr := [MOVL_I ct EDI; MOVL EDX ECX; REPNE_SCASB].
Definition search_init (cs : Z) (c : cpu) : cpu := wr EAX 0 (wr ECX 0xffffffff (wr ESI cs c)).

Definition strspn_asm (ct : Z) : list instr :=
  ct_length ct ++ [LABEL 1; LODSB; TESTB_AL; JE fwd 2] ++ in_ct ct ++ [JE bwd 1; LABEL 2; DECL ESI].
Definition strspn (fuel : nat) (cs ct : Z) : cpu -> option (Z * cpu) :=
  asm_call fuel (strspn_asm ct) (search_init cs) (fun c => s32 (esi c - cs)).

Definition strcspn_asm (ct : Z) : list instr :=
  ct_length ct ++ [LABEL 1; LODSB; TESTB_AL; JE fwd 2] ++ in_ct ct ++ [JNE bwd 1; LABEL 2; DECL ESI].
Definition strcspn (fuel : nat) (cs ct : Z) : cpu -> option (Z * cpu) :=
  asm_call fuel (strcspn_asm ct) (search_init cs) (fun c => s32 (esi c - cs)).

Definition strpbrk_asm (ct : Z) : list instr :=
  ct_length ct ++ [LABEL 1; LODSB; TESTB_AL; JE fwd 2] ++ in_ct ct ++
  [JNE bwd 1; DECL ESI; JMP fwd 3; LABEL 2; XORL_SELF ESI; LABEL 3].
Definition strpbrk (fuel : nat) (cs ct : Z) : cpu -> option (Z * cpu) :=
  asm_call fuel (strpbrk_asm ct) (search_init cs) esi.

Definition strstr_asm (ct : Z) : list instr :=
  ct_length ct ++
  [LABEL 1; MOVL_I ct EDI; MOVL ESI EAX; MOVL EDX ECX; REPE_CMPSB; JE fwd 2;
   XCHGL EAX ESI; INCL ESI; CMPB_0_MEM EAX (-1); JNE bwd 1; XORL_SELF EAX; LABEL 2].
Definition strstr (fuel : nat) (cs ct : Z) : cpu -> option (Z * cpu) :=
  asm_call fuel (strstr_asm ct) (search_init cs) eax.

Definition strlen_asm : list instr := [CLD; REPNE_SCASB; NOTL ECX; DECL ECX].
Definition strlen (fuel : nat) (s : Z) : cpu -> option (Z * cpu) :=
  asm_call fuel strlen_asm (fun c => wr EDI s (wr EAX 0 (wr ECX 0xffffffff c))) (fun c => s32 (ecx c)).

(** [strtok] keeps the rest of the string in [___strtok]; the result is that
    of the call and the new rest. *)
Definition strtok_asm (ct : Z) : list instr :=
  [TESTL ESI; JNE fwd 1; TESTL EBX; JE fwd 8; MOVL EBX ESI; LABEL 1; XORL_SELF EBX; MOVL_I (-1) ECX; XORL_SELF EAX;
   CLD; MOVL_I ct EDI; REPNE_SCASB; NOTL ECX; DECL ECX; JE fwd 7; MOVL ECX EDX;
   LABEL 2; LODSB; TESTB_AL; JE fwd 7] ++ in_ct ct ++
  [JE bwd 2; DECL ESI; CMPB_0_MEM ESI 0; JE fwd 7; MOVL ESI EBX;
   LABEL 3; LODSB; TESTB_AL; JE fwd 5] ++ in_ct ct ++
  [JNE bwd 3; DECL ESI; CMPB_0_MEM ESI 0; JE fwd 5; MOVB_0_MEM ESI; INCL ESI; JMP fwd 6;
   LABEL 5; XORL_SELF ESI; LABEL 6; CMPB_0_MEM EBX 0; JNE fwd 7; XORL_SELF EBX;
   LABEL 7; TESTL EBX; JNE fwd 8; MOVL EBX ESI; LABEL 8].
Definition strtok (fuel : nat) (s ct : Z) (___strtok : Z) (c : cpu) : option (Z * Z * cpu) :=
  match asm_call fuel (strtok_asm ct) (fun c => wr EBX ___strtok (wr ESI s c)) ebx c with
  | Some (r, c') => Some (r, esi c', c')
  | None => None
  end.

Definition memcpy_asm : list instr := [CLD; REP_MOVSB].
Definition memcpy (fuel : nat) (dest src n : Z) : cpu -> option (Z * cpu) :=
  asm_call fuel memcpy_asm (fun c => wr ECX (u32 n) (SD src dest c)) (fun _ => dest).

Definition memmove_down_asm : list instr := [STD; REP_MOVSB].
Definition memmove (fuel : nat) (dest src n : Z) : cpu -> option (Z * cpu) :=
  if dest <? src then
    asm_call fuel memcpy_asm (fun c => wr ECX (u32 n) (SD src dest c)) (fun _ => dest)
  else
    asm_call fuel memmove_down_asm
      (fun c => wr ECX (u32 n) (SD (u32 (src + n - 1)) (u32 (dest + n - 1)) c)) (fun _ => dest).

Definition memcmp_asm : list instr := [CLD; REPE_CMPSB; JE fwd 1; MOVL_I 1 EAX; JL fwd 1; NEGL EAX; LABEL 1].
Definition memcmp (fuel : nat) (cs ct count : Z) : cpu -> option (Z * cpu) :=
  asm_call fuel memcmp_asm (fun c => wr EAX 0 (wr ECX (u32 count) (SD ct cs c))) (fun c => s32 (eax c)).

Definition memchr_asm : list instr := [CLD; REPNE_SCASB; JE fwd 1; MOVL_I 1 EDI; LABEL 1; DECL EDI].
Definition memchr (fuel : nat) (cs ch count : Z) (c : cpu) : option (Z * cpu) :=
  if count =? 0 then Some (0, c)
  else asm_call fuel memchr_asm (fun c => wr EDI cs (wr ECX (u32 count) (set_AL (u8 ch) c))) edi c.

Definition memset_asm : list instr := [CLD; REP_STOSB].
Definition memset (fuel : nat) (s ch count : Z) : cpu -> option (Z * cpu) :=
  asm_call fuel memset_asm (fun c => wr EDI s (wr ECX (u32 count) (set_AL (u8 ch) c))) (fun _ => s).

(** A concrete run: searching a copy of a string. *)
Definition poke_all (p : Z) (l : list Z) (c : cpu) : cpu :=
  foldr (fun '(i, v) c => poke (p + Z.of_nat i) v c) c (imap (fun i v => (i, v)) l).
Definition cpu0 : cpu := Cpu 0 0 0 0 0 0 false false false false (fun _ => 0).
Definition hello : cpu := poke_all 1000 [104; 101; 108; 108; 111; 0] (poke_all 2000 [108; 111; 0] cpu0).
Example strlen_hello : option_map fst (strlen 100 1000 hello) = Some 5.
Proof. vm_compute. reflexivity. Qed.
Example strstr_hello : option_map fst (strstr 200 1000 2000 hello) = Some 1003.
Proof. vm_compute. reflexivity. Qed.
Example strspn_hello : option_map fst (strcspn 200 1000 2000 hello) = Some 2.
Proof. vm_compute. reflexivity. Qed.
Example strtok_hello : option_map fst (strtok 300 1000 2000 0 hello) = Some (1000, 1003).
Proof. vm_compute. reflexivity. Qed.
Example strchr_hello : option_map fst (strchr 300 1000 108 hello) = Some 1002.
Proof. vm_compute. reflexivity. Qed.
Example strrchr_hello : option_map fst (strrchr 300 1000 108 hello) = Some 1003.
Proof. vm_compute. reflexivity. Qed.
Example strcmp_hello : option_map fst (strcmp 300 1000 2000 hello) = Some (-1).
Proof. vm_compute. reflexivity. Qed.
