(* ===== verification/StrProofs.v ===== *)
(** * StrProofs: what the loops of the string functions do *)
From S2P Require Import Prelude X86 Str.

(** The bytes [l] and a final 0 at [p]. *)
Fixpoint str_at (m : Z -> Z) (p : Z) (l : list Z) : Prop :=
  match l with
  | [] => m p = 0
  | x :: l => m p = x /\ 0 < x < 256 /\ str_at m (p + 1) l
  end.
(** A string inside the address space. *)
Definition cstr (m : Z -> Z) (p : Z) (l : list Z) : Prop :=
  str_at m p l /\ 0 <= p /\ p + Z.of_nat (length l) + 1 < 2 ^ 32.
(** [al] replaced in [eax]. *)
Definition low (e v : Z) : Z := e - e mod 256 + v.
Definition upd (m : Z -> Z) (a v : Z) : Z -> Z := fun b => if b =? a then v else m b.
Fixpoint write_list (m : Z -> Z) (q : Z) (l : list Z) : Z -> Z :=
  match l with
  | [] => m
  | x :: l => write_list (upd m q x) (q + 1) l
  end.

Section memory.
Implicit Types (m : Z -> Z) (l : list Z).

Lemma low_mod e v : 0 <= v < 256 -> low e v mod 256 = v.
Proof.
  intros H. unfold low. pose proof (Z.div_mod e 256 ltac:(lia)).
  replace (e - e mod 256 + v) with (v + e / 256 * 256) by lia. rewrite Z_mod_plus_full. by apply Z.mod_small.
Qed.
Lemma low_low e v w : 0 <= v < 256 -> low (low e v) w = low e w.
Proof. intros H. unfold low at 1. rewrite low_mod by done. unfold low. lia. Qed.

Lemma str_at_frame m m' p l :
  (forall a, p <= a <= p + Z.of_nat (length l) -> m' a = m a) -> str_at m p l -> str_at m' p l.
Proof.
  revert p. induction l as [|x l IH]; intros p Hf; simpl in *.
  - intros H. by rewrite Hf by lia.
  - intros (H & Hx & Hl). rewrite Hf by lia. split_and!; [done|lia|lia|]. apply IH; [|done].
    intros. apply Hf. lia.
Qed.
Lemma write_list_out m q l a : ~ (q <= a < q + Z.of_nat (length l)) -> write_list m q l a = m a.
Proof.
  revert m q. induction l as [|x l IH]; intros m q Ha; simpl in *; [done|].
  rewrite IH by lia. unfold upd. by rewrite (proj2 (Z.eqb_neq a q)) by lia.
Qed.
Lemma write_str m q l : Forall (fun x => 0 < x < 256) l -> str_at (write_list m q (l ++ [0])) q l.
Proof.
  intros H. revert m q. induction H as [|x l Hx _ IH]; intros m q; simpl.
  - unfold upd. by rewrite Z.eqb_refl.
  - split_and!; [|lia..|apply IH]. rewrite write_list_out by lia. unfold upd. by rewrite Z.eqb_refl.
Qed.
Lemma str_at_bytes m p l : str_at m p l -> Forall (fun x => 0 < x < 256) l.
Proof. revert p. induction l; simpl; intros p; [constructor|]. intros (_ & ? & ?). constructor; eauto. Qed.
Lemma str_at_app m p l1 l2 :
  Forall (fun x => 0 < x < 256) l1 -> (forall i x, l1 !! i = Some x -> m (p + Z.of_nat i) = x) ->
  str_at m (p + Z.of_nat (length l1)) l2 -> str_at m p (l1 ++ l2).
Proof.
  intros H. revert p. induction H as [|x l1 Hx _ IH]; intros p Hl; simpl.
  - by rewrite Z.add_0_r.
  - intros H2. split_and!; [|lia..|].
    + specialize (Hl O x eq_refl). by rewrite Z.add_0_r in Hl.
    + apply IH.
      * intros i y Hy. specialize (Hl (S i) y Hy). by replace (p + 1 + Z.of_nat i) with (p + Z.of_nat (S i)) by lia.
      * by replace (p + 1 + Z.of_nat (length l1)) with (p + Z.of_nat (S (length l1))) by lia.
Qed.
Lemma str_at_lookup m p l i x : str_at m p l -> l !! i = Some x -> m (p + Z.of_nat i) = x.
Proof.
  revert p i. induction l as [|y l IH]; intros p i; simpl; [done|]. intros (Hy & _ & Hl).
  destruct i as [|i]; simpl; intros E; [simplify_eq; by rewrite Z.add_0_r|].
  replace (p + Z.of_nat (S i)) with (p + 1 + Z.of_nat i) by lia. eauto.
Qed.
End memory.

(** ** The repeated instructions *)
Section repeated.
Context (p : list instr) (pc : nat).
Implicit Types (m : Z -> Z).

Lemma u8_diff x y : 0 <= x < 256 -> 0 <= y < 256 -> (u8 (x - y) =? 0) = (x =? y).
Proof.
  intros Hx Hy. unfold u8. change (2 ^ 8) with 256. destruct (Z.eqb_spec x y) as [->|]; [by rewrite Z.sub_diag|].
  apply Z.eqb_neq. intros E. apply Z.mod_divide in E as [k Hk]; lia.
Qed.

(** [repne scasb] looking for the end of a string. *)
Lemma scan_end l a b cx d si di z s lt m :
  nth_error p pc = Some REPNE_SCASB -> a mod 256 = 0 -> str_at m di l -> 0 <= di ->
  di + Z.of_nat (length l) + 1 < 2 ^ 32 -> Z.of_nat (length l) < cx < 2 ^ 32 ->
  goes p (pc, Cpu a b cx d si di z s lt false m)
         (S pc, Cpu a b (cx - Z.of_nat (length l) - 1) d si (di + Z.of_nat (length l) + 1) true false false false m).
Proof.
  intros Hp Ha. revert cx di z s lt. induction l as [|x l IH]; intros cx di z s lt0 Hs Hdi Hmax Hcx; cbn [length] in *.
  - eapply goes_step.
    + unfold step. rewrite Hp. unfold repeat_step. cbn [ecx]. rewrite (proj2 (Z.eqb_neq cx 0)) by lia.
      cbn -[u8 s8 u32 Z.modulo]. unfold AL; cbn [eax]. rewrite Ha, Hs. cbn -[u32]. reflexivity.
    + rewrite !u32_small by lia. replace (cx - Z.of_nat 0 - 1) with (cx - 1) by lia.
      replace (di + Z.of_nat 0 + 1) with (di + 1) by lia. constructor.
  - destruct Hs as (Hx & Hr & Hs). eapply goes_step.
    + unfold step. rewrite Hp. unfold repeat_step. cbn [ecx]. rewrite (proj2 (Z.eqb_neq cx 0)) by lia.
      cbn -[u8 s8 u32 Z.eqb Z.modulo]. unfold AL; cbn [eax]. rewrite Ha, Hx, u8_diff, (proj2 (Z.eqb_neq 0 x)) by lia.
      cbn [negb]. reflexivity.
    + rewrite !u32_small by lia.
      replace (cx - Z.of_nat (S (length l)) - 1) with (cx - 1 - Z.of_nat (length l) - 1) by lia.
      replace (di + Z.of_nat (S (length l)) + 1) with (di + 1 + Z.of_nat (length l) + 1) by lia.
      apply IH; [done|lia..].
Qed.

(** [rep movsb], up and down. *)
Lemma movs_up (n : nat) a b d si di z s lt m :
  nth_error p pc = Some REP_MOVSB -> 0 <= si -> 0 <= di -> si + Z.of_nat n < 2 ^ 32 -> di + Z.of_nat n < 2 ^ 32 ->
  di < si \/ si + Z.of_nat n <= di ->
  exists m', goes p (pc, Cpu a b (Z.of_nat n) d si di z s lt false m)
       (S pc, Cpu a b 0 d (si + Z.of_nat n) (di + Z.of_nat n) z s lt false m') /\
    (forall i, 0 <= i < Z.of_nat n -> m' (di + i) = m (si + i)) /\
    (forall x, ~ (di <= x < di + Z.of_nat n) -> m' x = m x).
Proof.
  intros Hp. revert si di m. induction n as [|n IH]; intros si di m Hsi Hdi Hs Hd Ho.
  - exists m. split_and!; [|lia|done]. eapply goes_step.
    + unfold step. rewrite Hp. reflexivity.
    + change (Z.of_nat 0) with 0. rewrite !Z.add_0_r. constructor.
  - destruct (IH (si + 1) (di + 1) (upd m di (m si))) as (m' & Hg & Hc & Hf); [lia..|].
    exists m'. split_and!.
    + eapply goes_step.
      * unfold step. rewrite Hp. unfold repeat_step. cbn [ecx]. rewrite (proj2 (Z.eqb_neq _ 0)) by lia.
        cbn -[u32 Z.of_nat Z.sub]. reflexivity.
      * rewrite !u32_small by lia. replace (Z.of_nat (S n) - 1) with (Z.of_nat n) by lia.
        replace (si + Z.of_nat (S n)) with (si + 1 + Z.of_nat n) by lia.
        replace (di + Z.of_nat (S n)) with (di + 1 + Z.of_nat n) by lia. exact Hg.
    + intros i Hi. destruct (Z.eq_dec i 0) as [->|].
      * rewrite !Z.add_0_r, Hf by lia. unfold upd. by rewrite Z.eqb_refl.
      * replace (di + i) with (di + 1 + (i - 1)) by lia. rewrite Hc by lia.
        replace (si + 1 + (i - 1)) with (si + i) by lia. unfold upd.
        by rewrite (proj2 (Z.eqb_neq (si + i) di)) by lia.
    + intros x Hx. rewrite Hf by lia. unfold upd. by rewrite (proj2 (Z.eqb_neq x di)) by lia.
Qed.

Lemma movs_down (n : nat) a b d si di z s lt m :
  nth_error p pc = Some REP_MOVSB -> 0 <= si -> si <= di -> di + Z.of_nat n < 2 ^ 32 ->
  exists m' si' di', goes p (pc, Cpu a b (Z.of_nat n) d (u32 (si + Z.of_nat n - 1)) (u32 (di + Z.of_nat n - 1)) z s lt true m)
       (S pc, Cpu a b 0 d si' di' z s lt true m') /\
    (forall i, 0 <= i < Z.of_nat n -> m' (di + i) = m (si + i)) /\
    (forall x, ~ (di <= x < di + Z.of_nat n) -> m' x = m x).
Proof.
  intros Hp Hsi Hdi. revert m. induction n as [|n IH]; intros m Hd.
  - exists m. do 2 eexists. split_and!; [|lia|done]. eapply goes_step.
    + unfold step. rewrite Hp. reflexivity.
    + constructor.
  - set (m1 := upd m (di + Z.of_nat n) (m (si + Z.of_nat n))).
    destruct (IH m1) as (m' & si' & di' & Hg & Hc & Hf); [lia|]. exists m', si', di'. split_and!.
    + eapply goes_step.
      * unfold step. rewrite Hp. unfold repeat_step. cbn [ecx]. rewrite (proj2 (Z.eqb_neq _ 0)) by lia.
        cbn -[u32 Z.of_nat Z.sub]. reflexivity.
      * replace (si + Z.of_nat (S n) - 1) with (si + Z.of_nat n) by lia.
        replace (di + Z.of_nat (S n) - 1) with (di + Z.of_nat n) by lia.
        rewrite (u32_small (si + _)), (u32_small (di + _)), (u32_small (Z.of_nat (S n) - 1)) by lia.
        replace (Z.of_nat (S n) - 1) with (Z.of_nat n) by lia. exact Hg.
    + intros i Hi. destruct (Z.eq_dec i (Z.of_nat n)) as [->|].
      * rewrite Hf by lia. unfold m1, upd. by rewrite Z.eqb_refl.
      * rewrite Hc by lia. unfold m1, upd. by rewrite (proj2 (Z.eqb_neq (si + i) _)) by lia.
    + intros x Hx. rewrite Hf by lia. unfold m1, upd. by rewrite (proj2 (Z.eqb_neq x _)) by lia.
Qed.

(** The loop [1: lodsb; stosb; testb al,al; jne 1b]. *)
Lemma copy_loop l a b cx d si di z s lt m :
  nth_error p pc = Some (LABEL 1) -> nth_error p (S pc) = Some LODSB -> nth_error p (S (S pc)) = Some STOSB ->
  nth_error p (S (S (S pc))) = Some TESTB_AL -> nth_error p (S (S (S (S pc)))) = Some (JNE bwd 1) -> target p (S (S (S (S pc)))) bwd 1 = Some pc ->
  str_at m si l -> 0 <= si -> 0 <= di -> si + Z.of_nat (length l) + 1 < 2 ^ 32 -> di + Z.of_nat (length l) + 1 < 2 ^ 32 ->
  si + Z.of_nat (length l) < di \/ di + Z.of_nat (length l) < si ->
  goes p (pc, Cpu a b cx d si di z s lt false m)
         ((S (S (S (S (S pc))))), Cpu (low a 0) b cx d (si + Z.of_nat (length l) + 1) (di + Z.of_nat (length l) + 1) true false false false
                     (write_list m di (l ++ [0]))).
Proof.
  intros P0 P1 P2 P3 P4 PT. revert a si di z s lt m.
  induction l as [|x l IH]; intros a si di z s lt0 m Hs Hsi Hdi Hms Hmd Ho; cbn [length] in *.
  - eapply goes_step; [unfold step; rewrite P0; reflexivity|].
    eapply goes_step; [unfold step; rewrite P1; reflexivity|].
    cbn -[u32 Z.modulo]. simpl in Hs. rewrite Hs.
    eapply goes_step; [unfold step; rewrite P2; reflexivity|].
    cbn -[u32 Z.modulo]. unfold AL; cbn [eax].
    eapply goes_step; [unfold step; rewrite P3; reflexivity|].
    cbn -[u32 Z.modulo sx]. unfold AL; cbn [eax].
    fold (low a 0). rewrite low_mod by lia. cbn -[u32 Z.modulo].
    eapply goes_step; [unfold step; rewrite P4; reflexivity|].
    cbn -[u32 Z.modulo]. rewrite !u32_small by lia.
    replace (si + Z.of_nat 0 + 1) with (si + 1) by lia. replace (di + Z.of_nat 0 + 1) with (di + 1) by lia. constructor.
  - destruct Hs as (Hx & Hr & Hs).
    eapply goes_step; [unfold step; rewrite P0; reflexivity|].
    eapply goes_step; [unfold step; rewrite P1; reflexivity|].
    cbn -[u32 Z.modulo]. rewrite Hx.
    eapply goes_step; [unfold step; rewrite P2; reflexivity|].
    cbn -[u32 Z.modulo]. unfold AL; cbn [eax].
    eapply goes_step; [unfold step; rewrite P3; reflexivity|].
    cbn -[u32 Z.modulo sx Z.eqb]. unfold AL; cbn [eax].
    fold (low a x). rewrite low_mod by lia.
    eapply goes_step; [unfold step; rewrite P4; cbn -[u32 Z.modulo sx Z.eqb target]; rewrite (proj2 (Z.eqb_neq x 0)) by lia; unfold jump; cbn [negb]; rewrite PT; reflexivity|]. cbn -[u32 Z.modulo sx Z.eqb Z.of_nat Z.add].
    rewrite !u32_small by lia. fold (upd m di x). rewrite <-(low_low a x 0) by lia.
    replace (si + Z.of_nat (S (length l)) + 1) with (si + 1 + Z.of_nat (length l) + 1) by lia.
    replace (di + Z.of_nat (S (length l)) + 1) with (di + 1 + Z.of_nat (length l) + 1) by lia.
    cbn [app write_list]. apply IH; [|lia..].
    eapply str_at_frame; [|exact Hs]. intros y Hy. unfold upd. by rewrite (proj2 (Z.eqb_neq y di)) by lia.
Qed.
End repeated.

(** ** [strcmp] *)

(** The result in terms of the strings: the first bytes that differ, compared
    as [signed char]s. *)
Fixpoint compare_strings (l1 l2 : list Z) : Z :=
  match l1, l2 with
  | [], [] => 0
  | [], y :: _ => if s8 y <? 0 then 1 else -1
  | x :: _, [] => if 0 <? s8 x then 1 else -1
  | x :: l1, y :: l2 => if x =? y then compare_strings l1 l2 else if s8 y <? s8 x then 1 else -1
  end.

Section strcmp.
Implicit Types (m : Z -> Z).

Lemma strcmp_differ x y a b cx d si di z s lt m :
  m si = y -> m di = x -> x <> y -> 0 <= x < 256 -> 0 <= y < 256 ->
  exists c', goes strcmp_asm (1%nat, Cpu a b cx d si di z s lt false m) (14%nat, c') /\ bytes c' = m /\
    s32 (eax c') = if s8 y <? s8 x then 1 else -1.
Proof.
  intros Hy Hx Hne Hrx Hry. destruct (s8 y <? s8 x) eqn:E; eexists; split.
  - asm. asm. cpu. rewrite Hy. asm. cpu. fold (low a y). rewrite low_mod, Hx, u8_diff, (proj2 (Z.eqb_neq y x)) by lia.
    asm. asm. asm. cpu. rewrite E. asm. asm. constructor.
  - done.
  - asm. asm. cpu. rewrite Hy. asm. cpu. fold (low a y). rewrite low_mod, Hx, u8_diff, (proj2 (Z.eqb_neq y x)) by lia.
    asm. asm. asm. cpu. rewrite E. asm. asm. asm. constructor.
  - done.
Qed.

Lemma strcmp_loop l1 l2 a b cx d si di z s lt m :
  str_at m di l1 -> str_at m si l2 -> 0 <= si -> 0 <= di ->
  si + Z.of_nat (length l2) + 1 < 2 ^ 32 -> di + Z.of_nat (length l1) + 1 < 2 ^ 32 ->
  exists c', goes strcmp_asm (1%nat, Cpu a b cx d si di z s lt false m) (14%nat, c') /\ bytes c' = m /\
    s32 (eax c') = compare_strings l1 l2.
Proof.
  revert l2 a si di z s lt. induction l1 as [|x l1 IH]; intros [|y l2] a si di z s lt0 H1 H2 Hsi Hdi Hms Hmd.
  - simpl in H1, H2. eexists. split; [|split].
    + asm. asm. cpu. rewrite H2. asm. cpu. fold (low a 0). rewrite low_mod, H1, u8_diff by lia.
      asm. asm. cpu. fold (low a 0). rewrite low_mod by lia. asm. asm. asm. asm. constructor.
    + done.
    + done.
  - destruct H2 as (Hy & Hr & _). destruct (strcmp_differ 0 y a b cx d si di z s lt0 m) as (c' & Hg & Hb & He); [done|done|lia..|].
    by exists c'.
  - destruct H1 as (Hx & Hr & _). destruct (strcmp_differ x 0 a b cx d si di z s lt0 m) as (c' & Hg & Hb & He); [done|done|lia..|].
    by exists c'.
  - destruct H1 as (Hx & Hrx & H1), H2 as (Hy & Hry & H2). cbn [compare_strings length] in *.
    destruct (Z.eqb_spec x y) as [<-|Hne].
    + destruct (IH l2 (low a x) (si + 1) (di + 1) false (sx 8 x <? 0) (sx 8 x <? 0)) as (c' & Hg & Hb & He); [done|done|lia..|].
      exists c'. split; [|done].
      asm. asm. cpu. rewrite Hy. asm. cpu. fold (low a x). rewrite low_mod, Hx, u8_diff, Z.eqb_refl by lia.
      asm. asm. cpu. fold (low a x). rewrite low_mod, (proj2 (Z.eqb_neq x 0)) by lia. asm.
      rewrite !u32_small by lia. exact Hg.
    + by apply strcmp_differ; [done|done|lia..].
Qed.

Lemma compare_eq l1 l2 : Forall (fun x => 0 < x < 256) l1 -> Forall (fun x => 0 < x < 256) l2 ->
  compare_strings l1 l2 = 0 <-> l1 = l2.
Proof.
  intros H. revert l2. induction H as [|x l1 Hx _ IH]; intros l2 H2; destruct H2 as [|y l2 Hy H2]; simpl.
  - done.
  - split; [by case_match|done].
  - split; [by case_match|done].
  - destruct (Z.eqb_spec x y) as [<-|Hne].
    + rewrite IH by done. split; [by intros ->|by intros [= ->]].
    + split; [by case_match|by intros [= ? ?]].
Qed.
End strcmp.
