(* ===== verification/StrSpec.v ===== *)
(** * StrSpec: what the string functions promise *)
From S2P Require Import Prelude X86 Str StrProofs.

(** Calls end: with enough fuel, whatever the registers hold, the call returns
    [r] in a state with [Q]. *)
Definition returns (call : nat -> cpu -> option (Z * cpu)) (c : cpu) (r : Z) (Q : cpu -> Prop) : Prop :=
  exists n c', (forall fuel, (n <= fuel)%nat -> call fuel c = Some (r, c')) /\ Q c'.

Lemma asm_returns p init res c r pc c' (Q : cpu -> Prop) :
  goes p (O, init c) (pc, c') -> length p = pc -> res c' = r -> Q c' ->
  returns (fun fuel => asm_call fuel p init res) c r Q.
Proof.
  intros H Hl Hr HQ. destruct (goes_run p _ pc c' H Hl) as [n Hn]. exists n, c'. split; [|done].
  intros fuel Hf. unfold asm_call. by rewrite (Hn fuel Hf), Hr.
Qed.

(** [strlen] returns the length of the string, and ends, and leaves the
    memory alone. *)
Theorem strlen_counts s l c :
  cstr (bytes c) s l -> Z.of_nat (length l) < 2 ^ 31 ->
  returns (fun fuel => strlen fuel s) c (Z.of_nat (length l)) (fun c' => bytes c' = bytes c /\ df c' = false).
Proof.
  intros (Hs & H0 & H1) Hl. destruct c as [a b cx d si di z sf lt df m]; cbn [bytes] in *.
  eapply (asm_returns _ _ _ _ _ 4%nat).
  - asm. cpu; unfold SD; cpu.
    eapply goes_trans; [eapply (scan_end strlen_asm 1 l); [done|done|exact Hs|lia..]|].
    asm. asm. constructor.
  - done.
  - cpu; unfold SD; cpu. set (n := Z.of_nat (length l)) in *.
    assert (u32 (Z.lnot (0xffffffff - n - 1)) = n + 1) as ->.
    { unfold Z.lnot. symmetry. apply (Z.mod_unique_pos _ _ (-1)); lia. }
    replace (n + 1 - 1) with n by lia. rewrite u32_small, s32_small by lia. done.
  - done.
Qed.

(** [strcat] leaves at [dest] the two strings one after the other, changes
    nothing outside the second string's place there, and returns [dest]. *)
Theorem strcat_appends dest src l1 l2 c :
  cstr (bytes c) dest l1 -> cstr (bytes c) src l2 ->
  let len1 := Z.of_nat (length l1) in let len2 := Z.of_nat (length l2) in
  dest + len1 + len2 + 1 < 2 ^ 32 -> src + len2 < dest + len1 \/ dest + len1 + len2 < src ->
  returns (fun fuel => strcat fuel dest src) c dest
    (fun c' => cstr (bytes c') dest (l1 ++ l2) /\
               forall a, ~ (dest + len1 <= a <= dest + len1 + len2) -> bytes c' a = bytes c a).
Proof.
  intros (Hd & Hd0 & Hd1) (Hs & Hs0 & Hs1) len1 len2 Hmax Ho.
  destruct c as [a b cx d si di z sf lt df m]; cbn [bytes] in *.
  eapply (asm_returns _ _ _ _ _ 8%nat).
  - asm. cpu; unfold SD; cpu.
    eapply goes_trans; [eapply (scan_end strcat_asm 1 l1); [done|done|exact Hd|lia..]|].
    asm. cpu; unfold SD; cpu. fold len1.
    replace (dest + len1 + 1 - 1) with (dest + len1) by lia. rewrite (u32_small (dest + len1)) by lia.
    eapply (copy_loop strcat_asm 3 l2); [reflexivity..|exact Hs|lia|lia|lia|lia|lia].
  - done.
  - done.
  - cbn [bytes]. assert (forall x, ~ (dest + len1 <= x <= dest + len1 + len2) ->
      write_list m (dest + len1) (l2 ++ [0]) x = m x) as Hf.
    { intros x Hx. apply write_list_out. rewrite length_app. cbn [length]. lia. }
    split; [|exact Hf]. split_and!; [|lia|rewrite length_app; lia].
    apply str_at_app; [by eapply str_at_bytes| |].
    + intros i x Hi. pose proof (lookup_lt_Some _ _ _ Hi). rewrite Hf by lia. by eapply str_at_lookup.
    + apply write_str. by eapply str_at_bytes.
Qed.

(** [strcpy] makes a copy of the string. *)
Theorem strcpy_copies dest src l c :
  cstr (bytes c) src l -> 0 <= dest ->
  let len := Z.of_nat (length l) in
  dest + len + 1 < 2 ^ 32 -> src + len < dest \/ dest + len < src ->
  returns (fun fuel => strcpy fuel dest src) c dest
    (fun c' => cstr (bytes c') dest l /\ forall a, ~ (dest <= a <= dest + len) -> bytes c' a = bytes c a).
Proof.
  intros (Hs & Hs0 & Hs1) Hd0 len Hmax Ho. destruct c as [a b cx d si di z sf lt df m]; cbn [bytes] in *.
  eapply (asm_returns _ _ _ _ _ 6%nat).
  - asm. cpu; unfold SD; cpu.
    eapply (copy_loop strcpy_asm 1 l); [reflexivity..|exact Hs|lia|lia|lia|lia|lia].
  - done.
  - done.
  - cbn [bytes]. split; [split_and!; [|lia..]|].
    + apply write_str. by eapply str_at_bytes.
    + intros x Hx. apply write_list_out. rewrite length_app. cbn [length]. lia.
Qed.

(** [memmove] copies as if through a buffer, whether or not the areas
    overlap; after a copy downwards the direction flag is left set. *)
Theorem memmove_copies dest src n c :
  0 <= dest -> 0 <= src -> 0 <= n -> dest + n < 2 ^ 32 -> src + n < 2 ^ 32 ->
  returns (fun fuel => memmove fuel dest src n) c dest
    (fun c' => (forall i, 0 <= i < n -> bytes c' (dest + i) = bytes c (src + i)) /\
               (forall a, ~ (dest <= a < dest + n) -> bytes c' a = bytes c a) /\
               df c' = negb (dest <? src)).
Proof.
  intros Hd Hs Hn Hdm Hsm. destruct c as [a b cx d si di z sf lt df m]; cbn [bytes] in *.
  unfold memmove. destruct (Z.ltb_spec dest src) as [Hlt|Hge].
  - destruct (movs_up memcpy_asm 1 (Z.to_nat n) a b d src dest z sf lt m) as (m' & Hg & Hc & Hf); [done|lia..|].
    rewrite Z2Nat.id in Hg, Hc, Hf by lia.
    eapply (asm_returns _ _ _ _ _ 2%nat); [|done|done|].
    + asm. cpu; unfold SD; cpu. rewrite u32_small by lia. exact Hg.
    + done.
  - destruct (movs_down memmove_down_asm 1 (Z.to_nat n) a b d src dest z sf lt m) as (m' & si' & di' & Hg & Hc & Hf); [done|lia..|].
    rewrite Z2Nat.id in Hg, Hc, Hf by lia.
    eapply (asm_returns _ _ _ _ _ 2%nat); [|done|done|].
    + asm. cpu; unfold SD; cpu. rewrite (u32_small n) by lia. exact Hg.
    + done.
Qed.

(** The order of the dictionary. *)
Fixpoint before (l1 l2 : list Z) : bool :=
  match l1, l2 with
  | [], [] => false
  | [], _ :: _ => true
  | _ :: _, [] => false
  | x :: l1, y :: l2 => (x <? y) || ((x =? y) && before l1 l2)
  end.

Lemma s8_ascii x : 0 <= x < 128 -> s8 x = x.
Proof.
  intros. unfold s8, sx. change (2 ^ 8) with 256. change (2 ^ (8 - 1)) with 128. rewrite Z.mod_small by lia.
  by rewrite (proj2 (Z.ltb_lt x 128)) by lia.
Qed.
Lemma compare_before l1 l2 : Forall (fun x => 0 < x < 128) l1 -> Forall (fun x => 0 < x < 128) l2 ->
  (compare_strings l1 l2 <? 0) = before l1 l2.
Proof.
  intros H. revert l2. induction H as [|x l1 Hx _ IH]; intros l2 H2; destruct H2 as [|y l2 Hy H2]; simpl.
  - done.
  - by rewrite s8_ascii, (proj2 (Z.ltb_ge y 0)) by lia.
  - by rewrite s8_ascii, (proj2 (Z.ltb_lt 0 x)) by lia.
  - rewrite !s8_ascii by lia. destruct (Z.eqb_spec x y) as [<-|Hne].
    + rewrite Z.ltb_irrefl. by apply IH.
    + rewrite orb_false_r. destruct (Z.ltb_spec y x), (Z.ltb_spec x y); try done; lia.
Qed.

(** [strcmp] tells whether two strings are equal, and for 7-bit
    characters its sign is the order of the dictionary. *)
Theorem strcmp_compares cs ct l1 l2 c :
  cstr (bytes c) cs l1 -> cstr (bytes c) ct l2 ->
  exists r, returns (fun fuel => strcmp fuel cs ct) c r (fun c' => bytes c' = bytes c) /\
    (r = 0 <-> l1 = l2) /\
    (Forall (fun x => x < 128) l1 -> Forall (fun x => x < 128) l2 -> (r <? 0) = before l1 l2).
Proof.
  intros (H1 & Ha0 & Ha1) (H2 & Hb0 & Hb1). pose proof (str_at_bytes _ _ _ H1) as F1. pose proof (str_at_bytes _ _ _ H2) as F2.
  destruct c as [a b cx d si di z sf lt df m]; cbn [bytes] in *.
  destruct (strcmp_loop l1 l2 a b cx d ct cs z sf lt m) as (c' & Hg & Hm & Hr); [done|done|lia..|].
  exists (compare_strings l1 l2). split_and!.
  - eapply (asm_returns _ _ _ _ _ 14%nat); [|done|exact Hr|exact Hm]. asm. cpu; unfold SD; cpu. exact Hg.
  - by apply compare_eq.
  - intros G1 G2. apply compare_before.
    + eapply Forall_impl; [|exact (Forall_and F1 G1)]. simpl. lia.
    + eapply Forall_impl; [|exact (Forall_and F2 G2)]. simpl. lia.
Qed.

(** [memcmp] of no bytes answers by the zero flag that was left from
    before the call, not by the areas. *)
Theorem memcmp_of_nothing cs ct c :
  returns (fun fuel => memcmp fuel cs ct 0) c (if zf c then 0 else if lt c then 1 else -1) (fun c' => bytes c' = bytes c).
Proof.
  destruct c as [a b cx d si di z sf lt df m]. unfold memcmp. destruct z; [|destruct lt].
  - eapply (asm_returns _ _ _ _ _ 7%nat); [|reflexivity|..].
    + asm. cpu. unfold SD. cpu. asm. asm. asm. constructor.
    + done.
    + done.
  - eapply (asm_returns _ _ _ _ _ 7%nat); [|reflexivity|..].
    + asm. cpu. unfold SD. cpu. asm. asm. asm. asm. asm. constructor.
    + done.
    + done.
  - eapply (asm_returns _ _ _ _ _ 7%nat); [|reflexivity|..].
    + asm. cpu. unfold SD. cpu. asm. asm. asm. asm. asm. asm. constructor.
    + done.
    + done.
Qed.

(** ** Concrete strings *)
Ltac string_at := cbn; repeat split; (reflexivity || lia).

Lemma strlen_counts_witness :
  returns (fun fuel => strlen fuel 1000) hello 5 (fun c' => bytes c' = bytes hello /\ df c' = false).
Proof. apply (strlen_counts 1000 [104; 101; 108; 108; 111]); [string_at|done]. Defined.

Lemma strcpy_copies_witness :
  returns (fun fuel => strcpy fuel 3000 1000) hello 3000
    (fun c' => cstr (bytes c') 3000 [104; 101; 108; 108; 111] /\
               forall a, ~ (3000 <= a <= 3005) -> bytes c' a = bytes hello a).
Proof. apply (strcpy_copies 3000 1000 [104; 101; 108; 108; 111]); [string_at|simpl; lia..]. Defined.

Lemma strcat_appends_witness :
  returns (fun fuel => strcat fuel 1000 2000) hello 1000
    (fun c' => cstr (bytes c') 1000 [104; 101; 108; 108; 111; 108; 111] /\
               forall a, ~ (1005 <= a <= 1007) -> bytes c' a = bytes hello a).
Proof.
  apply (strcat_appends 1000 2000 [104; 101; 108; 108; 111] [108; 111]); [string_at|string_at|simpl; lia..].
Defined.

Lemma memmove_copies_witness :
  returns (fun fuel => memmove fuel 1001 1000 5) hello 1001
    (fun c' => (forall i, 0 <= i < 5 -> bytes c' (1001 + i) = bytes hello (1000 + i)) /\
               (forall a, ~ (1001 <= a < 1001 + 5) -> bytes c' a = bytes hello a) /\ df c' = negb (1001 <? 1000)).
Proof. apply (memmove_copies 1001 1000 5); lia. Defined.

Lemma strcmp_compares_witness :
  exists r, returns (fun fuel => strcmp fuel 1000 2000) hello r (fun c' => bytes c' = bytes hello) /\ (r <? 0) = true.
Proof.
  destruct (strcmp_compares 1000 2000 [104; 101; 108; 108; 111] [108; 111] hello) as (r & Hr & _ & Hb); [string_at|string_at|].
  exists r. split; [exact Hr|]. rewrite Hb; [done|repeat constructor; lia|repeat constructor; lia].
Defined.
