(* ===== verification/Stdio.v ===== *)
(** * Stdio: numbers and formats (core/lib/oslib.c, core/libc/stdio.c)

    Strings are lists of characters as small numbers, without their null
    character.  A local array is a list of fixed length that starts as zeros:
    writing or reading past its end is a fault. *)
From S2P Require Import Prelude.

(** ** [itoa] *)
Definition digit (i : Z) : Z := if i <? 10 then i + 48 else i + 97 - 10.
(** The digits of [v] in [tmp], last digit first, as the loop writes them;
    [room] is what is left of [tmp]. *)
Fixpoint digits_loop (room : nat) (v radix : Z) (tmp : list Z) : res (list Z) :=
  if (v =? 0) && negb (bool_decide (tmp = [])) then Ok tmp
  else match room with
       | O => Fault
       | S room => digits_loop room (v / radix) radix (tmp ++ [digit (v mod radix)])
       end.
Definition tmp_size : nat := 16.
(** The characters written to [sp]; their number is the result of the C function. *)
Definition itoa (value radix : Z) : res (list Z) :=
  if radix =? 0 then Fault
  else
    let sign := (radix =? 10) && (value <? 0) in
    let v := if sign : bool then u32 (- value) else u32 value in
    match digits_loop tmp_size v radix [] with
    | Ok tmp => Ok (if sign then 45 :: rev tmp else rev tmp)
    | Panic => Panic
    | Fault => Fault
    | Stuck => Stuck
    end.

(** A local array of [n] zeros filled by [itoa]. *)
Definition itoa_array (n : nat) (value radix : Z) : res (list Z * nat) :=
  match itoa value radix with
  | Ok s => if (length s <=? n)%nat then Ok (s ++ replicate (n - length s) 0, length s) else Fault
  | Panic => Panic
  | Fault => Fault
  | Stuck => Stuck
  end.
(** [while ( *p) PUT( *p++)] over an array. *)
Fixpoint put_string (a : list Z) : res (list Z) :=
  match a with
  | [] => Fault
  | c :: a => if c =? 0 then Ok []
              else match put_string a with Ok s => Ok (c :: s) | r => r end
  end.

(** ** Formats *)
(** What [va_arg] finds: an integer, or a pointer to a string, which may be null. *)
Inductive arg := AInt (d : Z) | AStr (s : option (list Z)).
Definition null_text : list Z := [40; 110; 117; 108; 108; 41].

Definition next_int (args : list arg) : res (Z * list arg) :=
  match args with AInt d :: args => Ok (d, args) | _ => Fault end.
Definition next_str (args : list arg) : res (option (list Z) * list arg) :=
  match args with AStr s :: args => Ok (s, args) | _ => Fault end.


(** A conversion of [lvasprintf]: the characters that are put, what is added
    to [res_len], and the arguments that are left. *)
Definition convert (c : Z) (args : list arg) : res (list Z * Z * list arg) :=
  if c =? 115 then
    rbind (next_str args) (fun '(s, args) =>
      let s := default null_text s in Ok (s, Z.of_nat (length s), args))
  else if c =? 100 then
    rbind (next_int args) (fun '(d, args) =>
      rbind (itoa_array 10 d 10) (fun '(tmp, tlen) =>
        rbind (put_string tmp) (fun s => Ok (s, Z.of_nat tlen, args))))
  else if c =? 120 then
    rbind (next_int args) (fun '(d, args) =>
      rbind (itoa_array 10 d 16) (fun '(xtmp, xlen) =>
        rbind (put_string xtmp) (fun s => Ok (s, Z.of_nat xlen, args))))
  else if c =? 99 then
    rbind (next_int args) (fun '(d, args) => Ok ([u8 d], 1, args))
  else Ok ([c], 1, args).

Fixpoint lvasprintf (fmt : list Z) (seen_mark : bool) (args : list arg) : res (list Z * Z) :=
  match fmt with
  | [] => Ok ([], 0)
  | c :: fmt =>
      if (c =? 37) && negb seen_mark then lvasprintf fmt true args
      else
        rbind (if seen_mark then convert c args else Ok ([c], 1, args)) (fun '(out, n, args) =>
          rbind (lvasprintf fmt false args) (fun '(outs, ns) => Ok (out ++ outs, n + ns)))
  end.

(** [print_to_buf] with [vsprintf]'s 1024 bytes: the characters that reach
    [str], and the result. *)
Definition vsprintf (fmt : list Z) (args : list arg) : res (list Z * Z) :=
  rbind (lvasprintf fmt false args) (fun '(out, n) => Ok (take 1024 out, n)).
(** [print_to_stdout]: what is written to descriptor 1, one byte at a time. *)
Definition printf (fmt : list Z) (args : list arg) : res (list Z * Z) := lvasprintf fmt false args.

(** [mvsprintf]; the characters are those at [str] before the null character
    it puts at the end. *)
Definition mconvert (c : Z) (args : list arg) : res (list Z * list arg) :=
  if c =? 115 then
    rbind (next_str args) (fun '(s, args) =>
      match s with Some s => Ok (s, args) | None => Fault end)
  else if c =? 100 then
    rbind (next_int args) (fun '(d, args) =>
      rbind (itoa_array 10 d 10) (fun '(tmp, tlen) => Ok (take tlen tmp, args)))
  else if c =? 120 then
    rbind (next_int args) (fun '(d, args) =>
      rbind (itoa_array 10 d 16) (fun '(xtmp, xlen) => Ok (take xlen xtmp, args)))
  else if c =? 99 then
    rbind (next_int args) (fun '(d, args) => Ok ([u8 d], args))
  else Ok ([c], args).
Fixpoint mvsprintf (fmt : list Z) (seen_mark : bool) (args : list arg) : res (list Z) :=
  match fmt with
  | [] => Ok []
  | c :: fmt =>
      if (c =? 37) && negb seen_mark then mvsprintf fmt true args
      else
        rbind (if seen_mark then mconvert c args else Ok ([c], args)) (fun '(out, args) =>
          rbind (mvsprintf fmt false args) (fun outs => Ok (out ++ outs)))
  end.
(** The result is [strlen] of what was written. *)
Fixpoint c_length (s : list Z) : Z :=
  match s with [] => 0 | c :: s => if c =? 0 then 0 else 1 + c_length s end.
Definition sprintf (fmt : list Z) (args : list arg) : res (list Z * Z) :=
  rbind (mvsprintf fmt false args) (fun s => Ok (s, c_length s)).

Example itoa_examples :
  itoa (-2147483648) 10 = Ok (map (fun c => c + 48) [-3; 2; 1; 4; 7; 4; 8; 3; 6; 4; 8]) /\
  itoa 255 16 = Ok [102; 102] /\ itoa 0 10 = Ok [48].
Proof. by_computation. Qed.

(** * Numbers are printed as they are read, and the two formatters agree *)

(** ** Reading numbers back *)
Definition undigit (c : Z) : Z := if c <? 58 then c - 48 else c - 97 + 10.
Definition read_digits (radix : Z) (s : list Z) : Z := foldl (fun acc c => acc * radix + undigit c) 0 s.
(** A number in [radix]; in decimal with its sign. *)
Definition read_number (radix : Z) (s : list Z) : Z :=
  match s with
  | c :: t => if c =? 45 then - read_digits radix t else read_digits radix s
  | [] => 0
  end.
(** Digits with the last one first. *)
Fixpoint low_first (radix : Z) (t : list Z) : Z :=
  match t with [] => 0 | c :: t => undigit c + radix * low_first radix t end.
Definition is_digit (c : Z) : Prop := 48 <= c < 58 \/ 97 <= c < 123.

Section digits.
Implicit Types (radix v : Z) (t tmp s : list Z).

Lemma undigit_digit i : 0 <= i < 36 -> undigit (digit i) = i /\ is_digit (digit i).
Proof.
  intros Hi. unfold undigit, digit, is_digit. destruct (Z.ltb_spec i 10).
  - rewrite (proj2 (Z.ltb_lt (i + 48) 58)) by lia. lia.
  - rewrite (proj2 (Z.ltb_ge (i + 97 - 10) 58)) by lia. lia.
Qed.
Lemma low_first_snoc radix t c :
  low_first radix (t ++ [c]) = low_first radix t + radix ^ Z.of_nat (length t) * undigit c.
Proof.
  induction t as [|d t IH]; cbn [app low_first length]; [rewrite Z.pow_0_r; lia|].
  rewrite IH, Nat2Z.inj_succ, Z.pow_succ_r by lia. lia.
Qed.
Lemma read_digits_rev radix t : read_digits radix (rev t) = low_first radix t.
Proof.
  induction t as [|c t IH]; [done|]. cbn [rev low_first]. unfold read_digits in *.
  rewrite foldl_snoc, IH. lia.
Qed.

(** The loop writes the digits of its number, low digit first. *)
Lemma digits_loop_ok room v radix tmp :
  2 <= radix <= 36 -> 0 <= v < radix ^ Z.of_nat room -> (tmp = [] -> (0 < room)%nat) -> Forall is_digit tmp ->
  exists t, digits_loop room v radix tmp = Ok t /\ Forall is_digit t /\ t <> [] /\
    low_first radix t = low_first radix tmp + radix ^ Z.of_nat (length tmp) * v /\
    (length t <= length tmp + room)%nat /\
    (forall k, v < radix ^ Z.of_nat k -> (0 < k)%nat -> (length t <= length tmp + k)%nat) /\
    (forall k, radix ^ Z.of_nat k <= v -> (length tmp + k < length t)%nat).
Proof.
  intros Hr. revert v tmp. induction room as [|room IH]; intros v tmp Hv Hroom Hd.
  - assert (v = 0) as -> by (cbn in Hv; lia). destruct tmp as [|c tmp]; [specialize (Hroom eq_refl); lia|].
    exists (c :: tmp). cbn [digits_loop]. rewrite Z.eqb_refl. cbn. split_and!; [done..|lia|lia|intros; lia|].
    intros k Hk. assert (0 < radix ^ Z.of_nat k) by (apply Z.pow_pos_nonneg; lia). lia.
  - cbn [digits_loop]. destruct ((v =? 0) && negb (bool_decide (tmp = []))) eqn:E.
    + apply andb_true_iff in E as [->%Z.eqb_eq Ht%negb_true_iff%bool_decide_eq_false].
      exists tmp. split_and!; [done..|lia|lia|intros; lia|].
      intros k Hk. assert (0 < radix ^ Z.of_nat k) by (apply Z.pow_pos_nonneg; lia). lia.
    + pose proof (Z.mod_pos_bound v radix ltac:(lia)). destruct (undigit_digit (v mod radix)) as [Hu Hdig]; [lia|].
      rewrite Nat2Z.inj_succ, Z.pow_succ_r in Hv by lia.
      destruct (IH (v / radix) (tmp ++ [digit (v mod radix)])) as (t & Et & Hft & Hne & Hlow & Hlen & Hup & Hdown).
      * split; [apply Z.div_pos; lia|]. apply Z.div_lt_upper_bound; lia.
      * intros Habs. by destruct tmp.
      * apply Forall_app. by rewrite Forall_singleton.
      * exists t. rewrite length_app in *. cbn [length] in *. split_and!; [done..| |lia| |].
        -- rewrite Hlow, low_first_snoc, Hu, Nat2Z.inj_add, Z.pow_add_r, Z.pow_1_r by lia.
           rewrite (Z.div_mod v radix) at 3 by lia. ring.
        -- intros [|[|k]] Hk Hk0; [lia| |].
           ++ rewrite Z.pow_1_r in Hk. rewrite Z.div_small in Et by lia.
              destruct room; cbn [digits_loop] in Et; rewrite Z.eqb_refl, bool_decide_false in Et by (by destruct tmp);
                injection Et as <-; rewrite length_app; cbn; lia.
           ++ specialize (Hup (S k)). enough (v / radix < radix ^ Z.of_nat (S k)) by lia.
              apply Z.div_lt_upper_bound; [lia|]. rewrite (Nat2Z.inj_succ (S k)), Z.pow_succ_r in Hk by lia. lia.
        -- intros [|k] Hk; [specialize (Hdown 0%nat) as Hd0; cbn in Hk |].
           ++ assert (length tmp + 1 <= length t)%nat; [|lia].
              assert (forall n w r q, digits_loop n w radix r = Ok q -> (length r <= length q)%nat) as Hmono; [|].
              { clear. intros n. induction n as [|n IH]; intros w r q; cbn [digits_loop];
                  (destruct (_ && _); [by intros [= <-]|]); [done|]. intros E%IH. rewrite length_app in E. cbn in E. lia. }
              apply Hmono in Et. rewrite length_app in Et. cbn in Et. lia.
           ++ specialize (Hdown k). enough (radix ^ Z.of_nat k <= v / radix) by lia.
              apply Z.div_le_lower_bound; [lia|]. by rewrite Nat2Z.inj_succ, Z.pow_succ_r in Hk by lia.
Qed.
End digits.

Section numbers.
Implicit Types (value radix : Z).

Lemma digit_not_zero s : Forall is_digit s -> Forall (fun c => c <> 0) s.
Proof. intros H. eapply Forall_impl; [|exact H]. unfold is_digit. lia. Qed.
Lemma read_number_digits radix s : Forall is_digit s -> read_number radix s = read_digits radix s.
Proof.
  destruct s as [|c s]; [done|]. intros [Hc _]%list.Forall_cons. unfold read_number.
  rewrite (proj2 (Z.eqb_neq c 45)); [done|]. unfold is_digit in Hc. lia.
Qed.

(** The number that [itoa] takes apart. *)
Definition magnitude (value radix : Z) : Z := if (radix =? 10) && (value <? 0) then - value else u32 value.
Definition signed (value radix : Z) : bool := (radix =? 10) && (value <? 0).

Lemma itoa_ok value radix :
  - 2 ^ 31 <= value < 2 ^ 31 -> 4 <= radix <= 36 ->
  exists t, itoa value radix = Ok (if signed value radix then 45 :: rev t else rev t) /\
    Forall is_digit t /\ t <> [] /\ read_digits radix (rev t) = magnitude value radix /\
    (forall k, magnitude value radix < radix ^ Z.of_nat k -> (0 < k)%nat -> (length t <= k)%nat) /\
    (forall k, radix ^ Z.of_nat k <= magnitude value radix -> (k < length t)%nat).
Proof.
  intros Hv Hr. unfold itoa, magnitude, signed. rewrite (proj2 (Z.eqb_neq radix 0)) by lia.
  set (b := (radix =? 10) && (value <? 0)). set (v := if b then - value else u32 value).
  assert (0 <= v < 2 ^ 32) as Hv'.
  { unfold v. destruct b eqn:E; [|apply u32_range]. unfold b in E. zb. lia. }
  replace (if b then u32 (- value) else u32 value) with v.
  2: { unfold v in *. destruct b; [|done]. by rewrite u32_small. }
  destruct (digits_loop_ok tmp_size v radix []) as (t & Et & Hd & Hne & Hl & _ & Hup & Hdown); [lia| |intros; unfold tmp_size; lia|done|].
  { split; [lia|]. apply Z.lt_le_trans with (4 ^ 16); [lia|]. by apply Z.pow_le_mono_l; lia. }
  rewrite Et. exists t. rewrite read_digits_rev, Hl. cbn [low_first length]. rewrite Z.pow_0_r.
  split_and!; [by destruct b|done|done|lia|done|done].
Qed.
End numbers.

(** C30: [itoa] in decimal writes the number with its sign, and in hexadecimal
    the 32-bit pattern of the number, so that reading the characters back gives
    the number; it writes at most eleven characters, and never a null one. *)
Theorem itoa_roundtrip (value radix : Z) :
  - 2 ^ 31 <= value < 2 ^ 31 -> radix = 10 \/ radix = 16 ->
  exists s, itoa value radix = Ok s /\
    read_number radix s = (if radix =? 10 then value else u32 value) /\
    (1 <= length s <= 11)%nat /\ Forall (fun c => c <> 0) s.
Proof.
  intros Hv Hr. destruct (itoa_ok value radix) as (t & E & Hd & Hne & Hread & Hup & _); [done|lia|].
  assert (length t <= 10)%nat as Hlen.
  { apply Hup; [|lia]. unfold magnitude. destruct (_ && _) eqn:Eb; [zb; destruct Hr as [->| ->]; lia|].
    pose proof (u32_range value). destruct Hr as [->| ->]; lia. }
  assert (1 <= length t)%nat by (destruct t; cbn; lia || done).
  assert (Forall is_digit (rev t)) as Hrev by by apply Forall_rev.
  unfold magnitude, signed in *. eexists. split; [exact E|].
  destruct ((radix =? 10) && (value <? 0)) eqn:Eb; split_and!; rewrite ?length_cons, ?length_rev; try lia.
  - zb. subst. change (- read_digits 10 (rev t) = value). rewrite Hread. lia.
  - apply list.Forall_cons. split; [done|]. by apply digit_not_zero.
  - rewrite read_number_digits, Hread by done. destruct Hr as [->| ->]; [|done]. destruct (Z.ltb_spec value 0); [done|]. change (u32 value = value). apply u32_small. lia.
  - by apply digit_not_zero.
Qed.

(** ** The formats *)
Section formats.
Lemma put_string_ok s n : Forall (fun c => c <> 0) s ->
  put_string (s ++ replicate n 0) = if (n =? 0)%nat then Fault else Ok s.
Proof.
  intros Hs. induction Hs as [|c s Hc Hs IH]; cbn [app put_string]; [by destruct n|].
  rewrite (proj2 (Z.eqb_neq c 0)), IH by done. by destruct n.
Qed.

(** An integer conversion of either formatter. *)
Lemma itoa_array_ok value radix s : itoa value radix = Ok s -> Forall (fun c => c <> 0) s ->
  rbind (itoa_array 10 value radix) (fun '(tmp, tlen) => rbind (put_string tmp) (fun o => Ok (o, Z.of_nat tlen))) =
    (if (length s <? 10)%nat then Ok (s, Z.of_nat (length s)) else Fault) /\
  rbind (itoa_array 10 value radix) (fun '(tmp, tlen) => Ok (take tlen tmp)) =
    (if (length s <=? 10)%nat then Ok s else Fault).
Proof.
  intros E Hs. unfold itoa_array. rewrite E. destruct (Nat.leb_spec (length s) 10).
  - cbn [rbind]. rewrite put_string_ok by done. split; [|by rewrite take_app_length].
    destruct (Nat.ltb_spec (length s) 10); destruct (Nat.eqb_spec (10 - length s) 0); done || lia.
  - cbn [rbind]. split; [|done]. destruct (Nat.ltb_spec (length s) 10); [lia|done].
Qed.

Definition no_null (a : arg) : Prop := match a with AStr None => False | _ => True end.
Definition in_int (a : arg) : Prop := match a with AInt d => - 2 ^ 31 <= d < 2 ^ 31 | _ => True end.

Lemma convert_int d radix (args : list arg) out n args' :
  - 2 ^ 31 <= d < 2 ^ 31 -> 4 <= radix <= 36 ->
  rbind (itoa_array 10 d radix) (fun '(tmp, tlen) => rbind (put_string tmp) (fun s => Ok (s, Z.of_nat tlen, args))) = Ok (out, n, args') ->
  rbind (itoa_array 10 d radix) (fun '(tmp, tlen) => Ok (take tlen tmp, args)) = Ok (out, args') /\
  n = Z.of_nat (length out) /\ args' = args.
Proof.
  intros Hd Hr E. destruct (itoa_ok d radix Hd Hr) as (t & Ei & Ht & _).
  set (s := if signed d radix then 45 :: rev t else rev t) in *.
  assert (Forall (fun c => c <> 0) s) as Hs.
  { assert (Forall is_digit (rev t)) as Hrev by (by apply Forall_rev). apply digit_not_zero in Hrev.
    unfold s. destruct (signed d radix); [apply list.Forall_cons; done|done]. }
  destruct (itoa_array_ok d radix s Ei Hs) as [E1 E2]. unfold itoa_array in *. rewrite Ei in *.
  destruct (Nat.leb_spec (length s) 10); cbn [rbind] in *; [|done].
  rewrite put_string_ok in E by done. destruct (10 - length s =? 0)%nat; [done|]. cbn in E. injection E as <- <- <-.
  by rewrite take_app_length.
Qed.

(** One conversion. *)
Lemma convert_agree c args out n args' :
  Forall no_null args -> Forall in_int args -> convert c args = Ok (out, n, args') ->
  mconvert c args = Ok (out, args') /\ n = Z.of_nat (length out) /\ Forall no_null args' /\ Forall in_int args'.
Proof.
  intros Hn Hi. unfold convert, mconvert.
  destruct (c =? 115); [|destruct (c =? 100); [|destruct (c =? 120); [|destruct (c =? 99)]]].
  - destruct args as [|[d|[s|]] args]; try done; apply list.Forall_cons in Hn as [Hn0 Hn]; apply list.Forall_cons in Hi as [_ Hi]; [|done].
    cbn. by intros [= <- <- <-].
  - destruct args as [|[d|s] args]; try done. apply list.Forall_cons in Hn as [_ Hn]; apply list.Forall_cons in Hi as [Hd Hi].
    cbn [next_int rbind]. intros (E & -> & ->)%convert_int; [done|done|lia].
  - destruct args as [|[d|s] args]; try done. apply list.Forall_cons in Hn as [_ Hn]; apply list.Forall_cons in Hi as [Hd Hi].
    cbn [next_int rbind]. intros (E & -> & ->)%convert_int; [done|done|lia].
  - destruct args as [|[d|s] args]; try done. apply list.Forall_cons in Hn as [_ Hn]; apply list.Forall_cons in Hi as [_ Hi].
    cbn. by intros [= <- <- <-].
  - by intros [= <- <- <-].
Qed.
Lemma formats_agree fmt m args out n :
  Forall no_null args -> Forall in_int args -> lvasprintf fmt m args = Ok (out, n) ->
  mvsprintf fmt m args = Ok out /\ n = Z.of_nat (length out).
Proof.
  revert m args out n. induction fmt as [|c fmt IH]; intros m args out n Hn Hi; cbn [lvasprintf mvsprintf].
  { by intros [= <- <-]. }
  destruct ((c =? 37) && negb m); [by apply IH|]. intros ([[o k] args'] & E1 & E)%rbind_ok.
  apply rbind_ok in E as ([os ns] & E2 & E). injection E as <- <-.
  assert ((if m then mconvert c args else Ok ([c], args)) = Ok (o, args') /\ k = Z.of_nat (length o) /\
    Forall no_null args' /\ Forall in_int args') as (Em & -> & Hn' & Hi').
  { destruct m; [by apply convert_agree|]. by injection E1 as <- <- <-. }
  rewrite Em. cbn [rbind]. destruct (IH _ _ _ _ Hn' Hi' E2) as [-> ->]. cbn. split; [done|]. rewrite length_app. lia.
Qed.
Lemma c_length_all s : Forall (fun c => c <> 0) s -> c_length s = Z.of_nat (length s).
Proof.
  induction 1 as [|c s Hc Hs IH]; [done|]. cbn [c_length length]. rewrite (proj2 (Z.eqb_neq c 0)), IH by done. lia.
Qed.
End formats.

(** Whenever the formatter behind [printf] and [vsprintf] gets to its end
    on arguments without null strings, the separate formatter of [sprintf]
    writes the same characters, and the result of the first is their number;
    [vsprintf] keeps the first 1024 of them. *)
Theorem sprintf_agrees (fmt : list Z) (args : list arg) (out : list Z) (n : Z) :
  Forall no_null args -> Forall in_int args -> Forall (fun c => c <> 0) out ->
  printf fmt args = Ok (out, n) ->
  sprintf fmt args = Ok (out, n) /\ n = Z.of_nat (length out) /\ vsprintf fmt args = Ok (take 1024 out, n).
Proof.
  unfold printf, sprintf, vsprintf. intros Hn Hi Ho E. destruct (formats_agree _ _ _ _ _ Hn Hi E) as [Em En].
  rewrite Em, E. cbn. by rewrite c_length_all, <-En.
Qed.

(** [printf("%d")] reads past the end of its ten-character buffer exactly
    for the numbers that take ten or more characters: from 1000000000 on and
    from -100000000 down; the others come out as [itoa] writes them. *)
Theorem printf_int_overruns (d : Z) :
  - 2 ^ 31 <= d < 2 ^ 31 ->
  if (-100000000 <? d) && (d <? 1000000000)
  then exists s, itoa d 10 = Ok s /\ printf [37; 100] [AInt d] = Ok (s, Z.of_nat (length s))
  else printf [37; 100] [AInt d] = Fault.
Proof.
  intros Hd. destruct (itoa_ok d 10 Hd ltac:(lia)) as (t & E & Ht & Hne & _ & Hup & Hdown).
  set (s := if signed d 10 then 45 :: rev t else rev t) in *.
  assert (Forall (fun c => c <> 0) s) as Hs.
  { assert (Forall is_digit (rev t)) as Hrev by (by apply Forall_rev). apply digit_not_zero in Hrev.
    unfold s. destruct (signed d 10); [apply list.Forall_cons; done|done]. }
  assert ((length s <? 10)%nat = (-100000000 <? d) && (d <? 1000000000)) as Hlen.
  { specialize (Hup 8%nat) as Hu8. specialize (Hup 9%nat). specialize (Hdown 8%nat) as Hd8. specialize (Hdown 9%nat).
    unfold s, signed, magnitude in *. cbn [Z.eqb Pos.eqb andb] in *. change (10 =? 10) with true in *. cbn [andb] in *.
    change (10 ^ Z.of_nat 8) with 100000000 in *. change (10 ^ Z.of_nat 9) with 1000000000 in *.
    destruct (Z.ltb_spec d 0).
    - cbn [length]. rewrite length_rev. destruct (Z.ltb_spec (-100000000) d); cbn [andb].
      + rewrite (proj2 (Z.ltb_lt d 1000000000)) by lia. apply Nat.ltb_lt. lia.
      + apply Nat.ltb_ge. lia.
    - rewrite length_rev. rewrite u32_small in * by lia. rewrite (proj2 (Z.ltb_lt (-100000000) d)) by lia. cbn [andb].
      destruct (Z.ltb_spec d 1000000000); [apply Nat.ltb_lt|apply Nat.ltb_ge]; lia. }
  destruct (itoa_array_ok d 10 s E Hs) as [E1 _].
  assert (printf [37; 100] [AInt d] = if (length s <? 10)%nat then Ok (s, Z.of_nat (length s)) else Fault) as ->.
  { unfold printf. cbn [lvasprintf Z.eqb Pos.eqb andb negb]. unfold convert. cbn [Z.eqb Pos.eqb next_int rbind].
    unfold itoa_array in *. rewrite E in *. destruct (length s <=? 10)%nat; cbn [rbind] in *.
    - destruct (put_string _); cbn [rbind] in *; destruct (length s <? 10)%nat; try done.
      injection E1 as ->. by rewrite app_nil_r, Z.add_0_r.
    - by destruct (length s <? 10)%nat. }
  rewrite Hlen. destruct (_ && _); [|done]. by exists s.
Qed.

Lemma itoa_roundtrip_witness :
  itoa (-305) 10 = Ok [45; 51; 48; 53] /\
  exists s, itoa (-305) 10 = Ok s /\ read_number 10 s = (if 10 =? 10 then -305 else u32 (-305)) /\
    (1 <= length s <= 11)%nat /\ Forall (fun c => c <> 0) s.
Proof. split; [reflexivity|]. apply (itoa_roundtrip (-305) 10); [lia|by left]. Defined.

Lemma sprintf_agrees_witness :
  let fmt := [97; 37; 100; 37; 115] in
  let args := [AInt 42; AStr (Some [120; 121])] in
  sprintf fmt args = Ok ([97; 52; 50; 120; 121], 5) /\ 5 = Z.of_nat (length [97; 52; 50; 120; 121]) /\
  vsprintf fmt args = Ok (take 1024 [97; 52; 50; 120; 121], 5).
Proof.
  intros fmt args. apply (sprintf_agrees fmt args [97; 52; 50; 120; 121] 5); [| | |reflexivity].
  - by repeat constructor.
  - repeat constructor; cbn; lia.
  - repeat constructor; lia.
Defined.

Lemma printf_int_overruns_witness :
  (if (-100000000 <? 1234567890) && (1234567890 <? 1000000000)
   then exists s, itoa 1234567890 10 = Ok s /\ printf [37; 100] [AInt 1234567890] = Ok (s, Z.of_nat (length s))
   else printf [37; 100] [AInt 1234567890] = Fault) /\ printf [37; 100] [AInt (-7)] = Ok ([45; 55], 2).
Proof. split; [apply (printf_int_overruns 1234567890); lia|reflexivity]. Defined.
