(* ===== verification/HashMap.v ===== *)
(** * HashMap: core/lib/hashmap.c

    The entries are objects in a store, linked by [next] addresses; the table
    holds the address of the first entry of each bucket.  [malloc] and [free]
    belong to the system-call layer: [alloc] answers an address for a new
    entry, or 0. *)
From S2P Require Import Prelude.

Record hashmap_entry := Entry { key : Z; value : Z; next : Z }.
Record hashmap_t := Hashmap {
  hash_func : Z -> Z -> Z; hash_compare : Z -> Z -> bool; size : Z; entry : list Z;
  heap : gmap Z hashmap_entry }.
Definition set_entry (e : list Z) (h : hashmap_t) : hashmap_t :=
  Hashmap (hash_func h) (hash_compare h) (size h) e (heap h).
Definition set_heap (s : gmap Z hashmap_entry) (h : hashmap_t) : hashmap_t :=
  Hashmap (hash_func h) (hash_compare h) (size h) (entry h) s.

(** What the map relies on: an address that is not 0 is not in use. *)
Class Alloc := {
  alloc : gmap Z hashmap_entry -> Z;
  alloc_fresh s : alloc s <> 0 -> s !! alloc s = None
}.

(** The mixed [_key] is computed and then not used. *)
Definition hash_function (k size : Z) : Z :=
  let k1 := u32 (Z.lxor (Z.shiftr k 16) k * 0x45d9f3b) in
  let k2 := u32 (Z.lxor (Z.shiftr k1 16) k1 * 0x45d9f3b) in
  let _k3 := Z.lxor (Z.shiftr k2 16) k2 in
  u32 k mod size.
Definition hash_int_compare (source target : Z) : bool := s32 source =? s32 target.

Definition deref (p : Z) : M hashmap_t hashmap_entry :=
  fun h => match heap h !! p with Some e => Ok (e, h) | None => Fault end.
Definition assign (p : Z) (e : hashmap_entry) : M hashmap_t unit :=
  fun h => match heap h !! p with Some _ => Ok (tt, set_heap (<[p := e]> (heap h)) h) | None => Fault end.
Definition free (p : Z) : M hashmap_t unit := modify (fun h => set_heap (delete p (heap h)) h).
Definition head_of (i : Z) : M hashmap_t Z :=
  fun h => match entry h !! Z.to_nat i with Some p => if i <? 0 then Fault else Ok (p, h) | None => Fault end.
Definition set_head (i p : Z) : M hashmap_t unit :=
  modify (fun h => set_entry (<[Z.to_nat i := p]> (entry h)) h).
Definition index_of (k : Z) : M hashmap_t Z :=
  h <- get ;; if size h =? 0 then fault else ret (s32 (hash_func h k (size h))).
(** Enough fuel for walking a bucket. *)
Definition chain_fuel : M hashmap_t nat := gets (fun h => S (base.size (heap h))).

Section operations.
Context `{Alloc}.

Definition hashmap_init (size : Z) : hashmap_t :=
  Hashmap hash_function hash_int_compare size (replicate (Z.to_nat size) 0) ∅.

(** [free] of a chain, and of every bucket. *)
Fixpoint free_chain (fuel : nat) (target : Z) : M hashmap_t unit :=
  if target =? 0 then ret tt
  else match fuel with
       | O => stuck
       | S fuel => e <- deref target ;; free target ;;; free_chain fuel (next e)
       end.
Fixpoint free_buckets (n : nat) (i : Z) : M hashmap_t unit :=
  match n with
  | O => ret tt
  | S n => p <- head_of i ;; fuel <- chain_fuel ;; free_chain fuel p ;;; free_buckets n (i + 1)
  end.
Definition hashmap_free : M hashmap_t unit :=
  h <- get ;; free_buckets (Z.to_nat (size h)) 0.

(** The last entry of a chain. *)
Fixpoint last_entry (fuel : nat) (p : Z) : M hashmap_t Z :=
  match fuel with
  | O => stuck
  | S fuel => e <- deref p ;; if next e =? 0 then ret p else last_entry fuel (next e)
  end.
Definition new_entry (e : hashmap_entry) : M hashmap_t Z :=
  fun h => let p := alloc (heap h) in
           if p =? 0 then Ok (0, h) else Ok (p, set_heap (<[p := e]> (heap h)) h).
Definition hashmap_set (k v : Z) : M hashmap_t Z :=
  index <- index_of k ;;
  entry <- head_of index ;;
  if entry =? 0 then
    entry <- new_entry (Entry k v 0) ;;
    if entry =? 0 then ret 0
    else set_head index entry ;;; ret entry
  else
    collision_entry <- new_entry (Entry k v 0) ;;
    if collision_entry =? 0 then fault
    else
      fuel <- chain_fuel ;;
      entry <- last_entry fuel entry ;;
      e <- deref entry ;;
      assign entry (Entry (key e) (value e) collision_entry) ;;;
      ret entry.

Fixpoint has_loop (fuel : nat) (k p : Z) : M hashmap_t bool :=
  if p =? 0 then ret false
  else match fuel with
       | O => stuck
       | S fuel =>
           e <- deref p ;; h <- get ;;
           if hash_compare h k (key e) then ret true else has_loop fuel k (next e)
       end.
Definition hashmap_has (k : Z) : M hashmap_t bool :=
  index <- index_of k ;; p <- head_of index ;; fuel <- chain_fuel ;; has_loop fuel k p.

Definition hashmap_is_empty : M hashmap_t bool :=
  gets (fun h => forallb (fun p => p =? 0) (entry h)).

Fixpoint get_loop (fuel : nat) (k p : Z) : M hashmap_t Z :=
  if p =? 0 then ret 0
  else match fuel with
       | O => stuck
       | S fuel =>
           e <- deref p ;; h <- get ;;
           if hash_compare h k (key e) then ret (value e) else get_loop fuel k (next e)
       end.
Definition hashmap_get (k : Z) : M hashmap_t Z :=
  index <- index_of k ;;
  p <- head_of index ;;
  if p =? 0 then ret 0
  else
    e <- deref p ;;
    if next e =? 0 then ret (value e)
    else fuel <- chain_fuel ;; get_loop fuel k p.

(** [head] is the address of the link that leads to [p]: that of the bucket
    (0), or the [next] field of the entry [prev]. *)
Definition set_link (index prev q : Z) : M hashmap_t unit :=
  if prev =? 0 then set_head index q
  else e <- deref prev ;; assign prev (Entry (key e) (value e) q).
Fixpoint remove_loop (fuel : nat) (index k prev p : Z) : M hashmap_t Z :=
  if p =? 0 then ret (-1)
  else match fuel with
       | O => stuck
       | S fuel =>
           e <- deref p ;; h <- get ;;
           if hash_compare h k (key e) then
             free p ;;; set_link index prev (next e) ;;; ret 0
           else remove_loop fuel index k p (next e)
       end.
Definition hashmap_remove (k : Z) : M hashmap_t Z :=
  index <- index_of k ;; p <- head_of index ;; fuel <- chain_fuel ;; remove_loop fuel index k 0 p.

Fixpoint update_loop (fuel : nat) (k v p : Z) : M hashmap_t Z :=
  if p =? 0 then ret 0
  else match fuel with
       | O => stuck
       | S fuel =>
           e <- deref p ;; h <- get ;;
           if hash_compare h k (key e) then assign p (Entry (key e) v (next e)) ;;; ret 0
           else update_loop fuel k v (next e)
       end.
Definition hashmap_update (k v : Z) : M hashmap_t Z :=
  index <- index_of k ;; p <- head_of index ;; fuel <- chain_fuel ;; update_loop fuel k v p.
End operations.
