(* ===== verification/HashMapSpec.v ===== *)
(** * HashMapSpec: the table is a list of buckets *)
From S2P Require Import Prelude HashMap.

(** A bucket: the addresses of its entries, with keys and values. *)
Abbreviation bucket := (list (Z * (Z * Z))).
Inductive chain (s : gmap Z hashmap_entry) : Z -> bucket -> Prop :=
| chain_nil : chain s 0 []
| chain_cons p k v n l : p <> 0 -> s !! p = Some (Entry k v n) -> chain s n l -> chain s p ((p, (k, v)) :: l).

Record rep (h : hashmap_t) (B : list bucket) : Prop := {
  rep_size : 0 < size h < 2 ^ 31 /\ length B = Z.to_nat (size h) /\ length (entry h) = length B;
  rep_hash : forall k, 0 <= hash_func h k (size h) < size h;
  rep_chain : forall i p l, entry h !! i = Some p -> B !! i = Some l -> chain (heap h) p l;
  rep_nodup : forall i l, B !! i = Some l -> NoDup l.*1;
  rep_apart : forall i j l1 l2 p, B !! i = Some l1 -> B !! j = Some l2 -> p ∈ l1.*1 -> p ∈ l2.*1 -> i = j
}.
Definition slot (h : hashmap_t) (k : Z) : nat := Z.to_nat (hash_func h k (size h)).
(** The value of the first entry whose key compares equal. *)
Fixpoint search (cmp : Z -> Z -> bool) (k : Z) (l : bucket) : option Z :=
  match l with
  | [] => None
  | (_, (k', v)) :: l => if cmp k k' then Some v else search cmp k l
  end.
Fixpoint update_first (cmp : Z -> Z -> bool) (k v : Z) (l : bucket) : bucket :=
  match l with
  | [] => []
  | (p, (k', v')) :: l => if cmp k k' then (p, (k', v)) :: l else (p, (k', v')) :: update_first cmp k v l
  end.
Fixpoint remove_first (cmp : Z -> Z -> bool) (k : Z) (l : bucket) : bucket :=
  match l with
  | [] => []
  | (p, (k', v')) :: l => if cmp k k' then l else (p, (k', v')) :: remove_first cmp k l
  end.
Definition found {A} (o : option A) : bool := match o with Some _ => true | None => false end.

Section chains.
Implicit Types (s : gmap Z hashmap_entry) (h : hashmap_t) (l : bucket).

Lemma chain_mem s p l q : chain s p l -> q ∈ l.*1 -> q ∈ dom s /\ q <> 0.
Proof.
  induction 1; simpl; [by intros ?%not_elem_of_nil|]. rewrite list.elem_of_cons. intros [->|Hq]; [|auto].
  split; [|done]. by apply elem_of_dom_2 in H0.
Qed.
Lemma chain_length s p l : chain s p l -> NoDup l.*1 -> (length l <= base.size s)%nat.
Proof.
  intros H Hn. rewrite <-(length_fmap fst l), <-(size_list_to_set (C:=gset Z)), <-size_dom by done.
  apply subseteq_size. intros q. rewrite elem_of_list_to_set. intros Hq. by apply (chain_mem s p l).
Qed.
Lemma chain_frame s s' p l : (forall q, q ∈ l.*1 -> s' !! q = s !! q) -> chain s p l -> chain s' p l.
Proof.
  intros Hf H. induction H; [constructor|]. econstructor; [done| |].
  - rewrite Hf; [done|]. simpl. by apply list.elem_of_cons; left.
  - apply IHchain. intros. apply Hf. simpl. by apply list.elem_of_cons; right.
Qed.
Lemma chain_head s p l : chain s p l -> p = match l with [] => 0 | (q, _) :: _ => q end.
Proof. by destruct 1. Qed.

Lemma deref_ok h p e : heap h !! p = Some e -> deref p h = Ok (e, h).
Proof. intros E. unfold deref. by rewrite E. Qed.

Lemma get_loop_ok h k fuel p l : chain (heap h) p l -> (length l <= fuel)%nat ->
  get_loop fuel k p h = Ok (default 0 (search (hash_compare h) k l), h).
Proof.
  intros H. revert fuel. induction H as [|p k' v n l Hp E H IH]; intros [|fuel] Hf; simpl in Hf; try lia; try done.
  simpl. rewrite (proj2 (Z.eqb_neq p 0)) by done. run (deref_ok h p _ E). rewrite get_bind. cbn [key value next].
  case_match; [done|]. apply IH. lia.
Qed.
Lemma has_loop_ok h k fuel p l : chain (heap h) p l -> (length l <= fuel)%nat ->
  has_loop fuel k p h = Ok (found (search (hash_compare h) k l), h).
Proof.
  intros H. revert fuel. induction H as [|p k' v n l Hp E H IH]; intros [|fuel] Hf; simpl in Hf; try lia; try done.
  simpl. rewrite (proj2 (Z.eqb_neq p 0)) by done. run (deref_ok h p _ E). rewrite get_bind. cbn [key value next].
  case_match; [done|]. apply IH. lia.
Qed.

Lemma update_loop_ok h k v fuel p l : chain (heap h) p l -> NoDup l.*1 -> (length l <= fuel)%nat ->
  exists s', update_loop fuel k v p h = Ok (0, set_heap s' h) /\
    chain s' p (update_first (hash_compare h) k v l) /\ (forall q, q ∉ l.*1 -> s' !! q = heap h !! q).
Proof.
  intros H. revert fuel. induction H as [|p k' v' n l Hp E H IH]; intros [|fuel] Hn Hf; simpl in Hf; try lia.
  - exists (heap h). split_and!; [by destruct h|constructor|done].
  - exists (heap h). split_and!; [by destruct h|constructor|done].
  - simpl in Hn. apply list.NoDup_cons in Hn as [Hpl Hn].
    simpl. rewrite (proj2 (Z.eqb_neq p 0)) by done. rewrite (bind_ok _ _ _ _ _ (deref_ok h p _ E)), get_bind.
    cbn [key value next]. case_match eqn:Ec.
    + exists (<[p := Entry k' v n]> (heap h)). split_and!.
      * unfold assign, bind. by rewrite E.
      * econstructor; [done|by rewrite lookup_insert_eq|]. eapply chain_frame; [|exact H].
        intros q Hq. apply lookup_insert_ne. by intros ->.
      * intros q Hq. apply list.not_elem_of_cons in Hq as [Hq _]. apply lookup_insert_ne. by intros ->.
    + destruct (IH fuel) as (s' & Eu & Hc & Hout); [done|lia|]. exists s'. split_and!.
      * exact Eu.
      * econstructor; [done| |exact Hc]. by rewrite Hout.
      * intros q Hq. apply list.not_elem_of_cons in Hq as [_ Hq]. by apply Hout.
Qed.

Lemma last_entry_ok h fuel p l : chain (heap h) p l -> l <> [] -> (length l <= fuel)%nat ->
  exists q k v, last_entry fuel p h = Ok (q, h) /\ list.last l = Some (q, (k, v)) /\ heap h !! q = Some (Entry k v 0).
Proof.
  intros H. revert fuel. induction H as [|p k v n l Hp E H IH]; intros fuel Hl Hf; [done|].
  simpl in Hf. destruct fuel as [|fuel]; [lia|]. simpl. setoid_rewrite (bind_ok _ _ _ _ _ (deref_ok h p _ E)). cbn [next].
  destruct H as [|n k' v' n' l Hn E' H].
  - exists p, k, v. done.
  - rewrite (proj2 (Z.eqb_neq n 0)) by done. apply IH; [done|]. simpl in *. lia.
Qed.
Lemma last_mem l q x : list.last l = Some (q, x) -> q ∈ l.*1.
Proof. intros H. apply last_Some in H as [l' ->]. rewrite fmap_app. simpl. apply list.elem_of_app. right. by apply list_elem_of_singleton. Qed.

(** Hanging a new entry behind the last. *)
Lemma chain_append s p l q k v p' k' v' :
  chain s p l -> NoDup l.*1 -> list.last l = Some (q, (k, v)) -> p' ∉ l.*1 -> p' <> 0 ->
  chain (<[q := Entry k v p']> (<[p' := Entry k' v' 0]> s)) p (l ++ [(p', (k', v'))]).
Proof.
  induction 1 as [|p k0 v0 n l Hp E H IH]; intros Hn Hl Hp' H0; [done|].
  simpl in Hn, Hp'. apply list.NoDup_cons in Hn as [Hpl Hn]. apply list.not_elem_of_cons in Hp' as [Hpp Hp'].
  destruct l as [|[p1 x1] l].
  - simpl in Hl. simplify_eq. inversion H; subst. econstructor; [done|by rewrite lookup_insert_eq|].
    econstructor; [done|by rewrite lookup_insert_ne, lookup_insert_eq by done|constructor].
  - change (list.last ((p1, x1) :: l) = Some (q, (k, v))) in Hl. pose proof (last_mem _ _ _ Hl) as Hq.
    simpl. econstructor; [done| |by apply IH].
    rewrite !lookup_insert_ne; [done|congruence|]. intros ->. by apply Hpl.
Qed.


(** Taking out the first entry that compares equal; [prev] is the entry before
    [p], or 0 at the head of the bucket. *)
Definition linked h (index prev ek ev p : Z) : Prop :=
  if prev =? 0 then entry h !! Z.to_nat index = Some p else heap h !! prev = Some (Entry ek ev p).

Lemma set_link_ok h index prev ek ev p q :
  linked h index prev ek ev p ->
  exists h', set_link index prev q h = Ok (tt, h') /\ linked h' index prev ek ev q /\
    (forall r, r <> prev \/ prev = 0 -> heap h' !! r = heap h !! r) /\ h' = set_entry (entry h') (set_heap (heap h') h) /\
    entry h' = if prev =? 0 then <[Z.to_nat index := q]> (entry h) else entry h.
Proof.
  unfold linked, set_link. destruct (Z.eqb_spec prev 0) as [->|Hp]; intros H.
  - eexists. split_and!; [done| |done|done|done]. cbn [entry set_entry]. apply list_lookup_insert_eq. by eapply lookup_lt_Some.
  - eexists. split_and!.
    + rewrite (bind_ok _ _ _ _ _ (deref_ok h prev _ H)). unfold assign. rewrite H. done.
    + cbn [heap set_heap]. by rewrite lookup_insert_eq.
    + intros r Hr. apply lookup_insert_ne. intros ->. by destruct Hr.
    + by destruct h.
    + done.
Qed.

Lemma remove_loop_ok h index k fuel p l prev ek ev :
  chain (heap h) p l -> NoDup l.*1 -> (length l <= fuel)%nat -> prev ∉ l.*1 -> linked h index prev ek ev p ->
  exists h' p', remove_loop fuel index k prev p h = Ok (if found (search (hash_compare h) k l) then 0 else -1, h') /\
    chain (heap h') p' (remove_first (hash_compare h) k l) /\ linked h' index prev ek ev p' /\
    (forall q, q ∉ l.*1 -> q <> prev \/ prev = 0 -> heap h' !! q = heap h !! q) /\
    h' = set_entry (entry h') (set_heap (heap h') h) /\
    entry h' = if prev =? 0 then <[Z.to_nat index := p']> (entry h) else entry h.
Proof.
  intros H. revert fuel prev ek ev. induction H as [|p k' v' n l Hp E H IH]; intros [|fuel] prev ek ev Hn Hf Hpl Hlink; simpl in Hf; try lia.
  1,2: exists h, 0; split_and!; [done|constructor|done|done|by destruct h|]; unfold linked in Hlink; case_match; [|done];
    symmetry; by apply list_insert_id.
  simpl in Hn, Hpl. apply list.NoDup_cons in Hn as [Hnp Hn]. apply list.not_elem_of_cons in Hpl as [Hpp Hpl].
  simpl. rewrite (proj2 (Z.eqb_neq p 0)) by done. setoid_rewrite (bind_ok _ _ _ _ _ (deref_ok h p _ E)). setoid_rewrite get_bind.
  cbn [key value next]. destruct (hash_compare h k k') eqn:Ec.
  - set (h1 := set_heap (delete p (heap h)) h).
    assert (linked h1 index prev ek ev p) as Hl1.
    { unfold linked in Hlink |- *. destruct (prev =? 0); [done|]. unfold h1; cbn [heap set_heap]. by rewrite lookup_delete_ne by (by intros ->). }
    destruct (set_link_ok h1 index prev ek ev p n Hl1) as (h' & Es & Hl' & Hfr & Hh & He).
    exists h', n. split_and!.
    + unfold free. rewrite modify_bind. fold h1. by rewrite (bind_ok _ _ _ _ _ Es).
    + eapply chain_frame; [|exact H]. intros q Hq. rewrite Hfr by (left; by intros ->). apply lookup_delete_ne. by intros ->.
    + done.
    + intros q Hq Hqp. apply list.not_elem_of_cons in Hq as [Hq _]. rewrite Hfr by done. apply lookup_delete_ne. by intros ->.
    + rewrite Hh. by destruct h.
    + done.
  - destruct (IH fuel p k' v') as (h' & p' & Er & Hc & Hl' & Hfr & Hh & He); [done|lia|done| |].
    { unfold linked. by rewrite (proj2 (Z.eqb_neq p 0)) by done. }
    unfold linked in Hl'. rewrite (proj2 (Z.eqb_neq p 0)) in Hl', He by done.
    assert (linked h' index prev ek ev p) as Hl2.
    { unfold linked in Hlink |- *. destruct (prev =? 0); [by rewrite He|]. by rewrite Hfr by (done || by left). }
    exists h', p. split_and!; [exact Er| |exact Hl2| |exact Hh|].
    + by econstructor.
    + intros q Hq Hqp. apply list.not_elem_of_cons in Hq as [Hq Hq']. apply Hfr; [done|by left].
    + rewrite He. unfold linked in Hlink. destruct (prev =? 0); [|done]. symmetry. by apply list_insert_id.
Qed.
End chains.

Section tables.
Context `{Alloc}.
Implicit Types (h : hashmap_t) (l : bucket) (B : list bucket).

Lemma rep_update h h' B i l l' p' :
  rep h B -> B !! i = Some l -> size h' = size h -> hash_func h' = hash_func h -> length (entry h') = length (entry h) ->
  (forall j, j <> i -> entry h' !! j = entry h !! j) -> entry h' !! i = Some p' -> chain (heap h') p' l' -> NoDup l'.*1 ->
  (forall q, q ∈ dom (heap h) -> q ∉ l.*1 -> heap h' !! q = heap h !! q) ->
  (forall q, q ∈ l'.*1 -> q ∈ l.*1 \/ q ∉ dom (heap h)) ->
  rep h' (<[i := l']> B).
Proof.
  intros [Hs Hh Hc Hn Ha] Hi Es Ef El Hj Hp' Hc' Hn' Hq Hsub.
  assert (i < length B)%nat as Hib by by eapply lookup_lt_Some.
  assert (forall j l1, j <> i -> B !! j = Some l1 -> forall q, q ∈ l1.*1 -> q ∈ dom (heap h) /\ q ∉ l.*1) as Hother.
  { intros j l1 Hji Hj1 q Hq1. destruct (entry h !! j) as [p|] eqn:Ep.
    - split; [by eapply chain_mem; eauto|]. intros Hql. by eapply Hji, Ha.
    - apply lookup_ge_None in Ep. apply lookup_lt_Some in Hj1. lia. }
  split.
  - by rewrite Es, length_insert, El.
  - intros k. rewrite Es, Ef. apply Hh.
  - intros j p l1 Hjp Hjl. destruct (decide (j = i)) as [->|Hji].
    + rewrite list_lookup_insert_eq in Hjl by done. by simplify_eq.
    + rewrite list_lookup_insert_ne in Hjl by done. rewrite Hj in Hjp by done.
      eapply chain_frame; [|by eapply Hc]. intros q Hq1. apply Hq; by eapply Hother.
  - intros j l1 Hjl. destruct (decide (j = i)) as [->|Hji].
    + rewrite list_lookup_insert_eq in Hjl by done. by simplify_eq.
    + rewrite list_lookup_insert_ne in Hjl by done. by eapply Hn.
  - assert (forall j l1 q, j <> i -> B !! j = Some l1 -> q ∈ l1.*1 -> q ∈ l'.*1 -> False) as Hno.
    { intros j l1 q Hji Hjl Hq1 Hq2. destruct (Hother j l1 Hji Hjl q Hq1). by destruct (Hsub q Hq2). }
    intros j1 j2 l1 l2 q H1 H2 Hq1 Hq2. destruct (decide (j1 = i)) as [->|N1], (decide (j2 = i)) as [->|N2]; [done|..].
    + rewrite list_lookup_insert_eq in H1 by done. rewrite list_lookup_insert_ne in H2 by done. simplify_eq. by destruct (Hno j2 l2 q).
    + rewrite list_lookup_insert_eq in H2 by done. rewrite list_lookup_insert_ne in H1 by done. simplify_eq. by destruct (Hno j1 l1 q).
    + rewrite list_lookup_insert_ne in H1, H2 by done. by eapply Ha.
Qed.

(** The bucket that a call works on. *)
Lemma bucket_at h B k : rep h B ->
  exists p l, B !! slot h k = Some l /\ entry h !! slot h k = Some p /\ chain (heap h) p l /\ NoDup l.*1 /\
    (length l <= S (base.size (heap h)))%nat /\
    index_of k h = Ok (hash_func h k (size h), h) /\ head_of (hash_func h k (size h)) h = Ok (p, h).
Proof.
  intros [(Hs1 & Hs2 & Hs3) Hh Hc Hn _]. pose proof (Hh k) as Hk. unfold slot.
  destruct (lookup_lt_is_Some_2 B (Z.to_nat (hash_func h k (size h)))) as [l Hl]; [lia|].
  destruct (lookup_lt_is_Some_2 (entry h) (Z.to_nat (hash_func h k (size h)))) as [p Hp]; [lia|].
  exists p, l. split_and!; eauto.
  - pose proof (chain_length _ _ _ (Hc _ _ _ Hp Hl) (Hn _ _ Hl)). lia.
  - unfold index_of. rewrite get_bind, (proj2 (Z.eqb_neq (size h) 0)) by lia. by rewrite s32_small by lia.
  - unfold head_of. by rewrite Hp, (proj2 (Z.ltb_ge _ 0)) by lia.
Qed.
Ltac at_bucket p l :=
  let H1 := fresh "Hl" in let H2 := fresh "Hp" in let H3 := fresh "Hc" in let H4 := fresh "Hn" in
  let H5 := fresh "Hlen" in let H6 := fresh "Ei" in let H7 := fresh "Eh" in
  match goal with HR : rep ?h ?B |- context [slot ?h ?k] =>
    destruct (bucket_at h B k HR) as (p & l & H1 & H2 & H3 & H4 & H5 & H6 & H7) end.

Lemma last_exists l : l <> [] -> exists q k v, list.last l = Some (q, (k, v)).
Proof. intros Hl. destruct (list.last l) as [[q [k v]]|] eqn:E; [eauto|]. by apply last_None in E. Qed.

(** Looking up: [hashmap_has] tells whether an entry of the bucket
    compares equal; [hashmap_get] gives the value of the first such entry, but
    when the bucket has one entry it gives that one's value without comparing.
    Neither changes the table. *)
Theorem hashmap_lookups_search h B k :
  rep h B ->
  exists l, B !! slot h k = Some l /\
    hashmap_has k h = Ok (found (search (hash_compare h) k l), h) /\
    hashmap_get k h = Ok (match l with [(_, (_, v))] => v | _ => default 0 (search (hash_compare h) k l) end, h).
Proof.
  intros HR. at_bucket p l. exists l. split_and!; [done| |].
  - unfold hashmap_has. run Ei. run Eh. unfold chain_fuel. rewrite gets_bind. by apply has_loop_ok.
  - unfold hashmap_get. run Ei. run Eh. destruct Hc as [|p k' v n l Hp0 E Hc]; [done|].
    rewrite (proj2 (Z.eqb_neq p 0)) by done. run (deref_ok h p _ E). cbn [next value].
    destruct Hc as [|n k2 v2 n2 l Hn0 E2 Hc]; [done|]. rewrite (proj2 (Z.eqb_neq n 0)) by done.
    unfold chain_fuel. rewrite gets_bind. apply get_loop_ok; [|done]. econstructor; [done|done|]. by econstructor.
Qed.

Lemma hashmap_set_ok h B k v p l :
  rep h B -> B !! slot h k = Some l -> entry h !! slot h k = Some p -> chain (heap h) p l -> NoDup l.*1 ->
  (length l <= S (base.size (heap h)))%nat -> index_of k h = Ok (hash_func h k (size h), h) ->
  head_of (hash_func h k (size h)) h = Ok (p, h) ->
  alloc (heap h) <> 0 -> exists r h', hashmap_set k v h = Ok (r, h') /\ r <> 0 /\
    rep h' (<[slot h k := l ++ [(alloc (heap h), (k, v))]]> B).
Proof.
  intros HR Hl Hp Hc Hn Hlen Ei Eh Hal. pose proof (alloc_fresh _ Hal) as Hfr. apply not_elem_of_dom in Hfr.
  set (p' := alloc (heap h)) in *.
  assert (p' ∉ l.*1) as Hpl by (intros Hin; by apply Hfr, (chain_mem _ _ _ _ Hc)).
  unfold hashmap_set. setoid_rewrite (bind_ok _ _ _ _ _ Ei). setoid_rewrite (bind_ok _ _ _ _ _ Eh).
  set (h1 := set_heap (<[p' := Entry k v 0]> (heap h)) h).
  assert (new_entry (Entry k v 0) h = Ok (p', h1)) as En.
  { unfold new_entry. fold p'. by rewrite (proj2 (Z.eqb_neq p' 0)) by done. }
  destruct (decide (l = [])) as [->|Hne].
  + inversion Hc; subst p. rewrite Z.eqb_refl. setoid_rewrite (bind_ok _ _ _ _ _ En).
    rewrite (proj2 (Z.eqb_neq p' 0)) by done. do 2 eexists. split_and!; [done|done|].
    eapply (rep_update h _ B (slot h k) [] _ p'); try done.
    * cbn. by rewrite length_insert.
    * intros j Hj. cbn. by apply list_lookup_insert_ne.
    * cbn. apply list_lookup_insert_eq. by eapply lookup_lt_Some.
    * econstructor; [done|cbn; by rewrite lookup_insert_eq|constructor].
    * apply list.NoDup_cons. split; [apply not_elem_of_nil|constructor].
    * intros q Hq _. cbn. apply lookup_insert_ne. by intros ->.
    * intros q Hq%list_elem_of_singleton. right. by subst.
  + destruct (last_entry_ok h (S (base.size (heap h))) p l Hc Hne Hlen) as (q & kq & vq & _ & Hlast & Eq).
    assert (p <> 0) as Hp0 by by inversion Hc; subst.
    assert (p' <> q) as Hpq by (intros <-; by apply Hfr, (elem_of_dom_2 _ _ _ Eq)).
    rewrite (proj2 (Z.eqb_neq p 0)) by done. setoid_rewrite (bind_ok _ _ _ _ _ En).
    rewrite (proj2 (Z.eqb_neq p' 0)) by done. unfold chain_fuel. setoid_rewrite gets_bind.
    assert (chain (heap h1) p l) as Hc1.
    { eapply chain_frame; [|exact Hc]. intros r Hr. cbn. apply lookup_insert_ne. by intros <-. }
    assert (heap h1 !! q = Some (Entry kq vq 0)) as Eq1 by (cbn; by rewrite lookup_insert_ne by done).
    destruct (last_entry_ok h1 (S (base.size (heap h1))) p l Hc1 Hne) as (q1 & kq1 & vq1 & El & Hlast1 & _).
    { pose proof (chain_length _ _ _ Hc1 Hn). lia. }
    rewrite Hlast in Hlast1. simplify_eq. setoid_rewrite (bind_ok _ _ _ _ _ El).
    setoid_rewrite (bind_ok _ _ _ _ _ (deref_ok h1 _ _ Eq1)).
    do 2 eexists. split_and!.
    * unfold assign, bind. by rewrite Eq1.
    * eapply (chain_mem _ _ _ _ Hc), last_mem, Hlast.
    * eapply (rep_update h _ B (slot h k) l _ p); try done.
      -- by apply chain_append.
      -- rewrite fmap_app. apply list.NoDup_app. split_and!; [done| |apply NoDup_singleton].
         intros r Hr ->%list_elem_of_singleton. done.
      -- intros r Hr Hrl. cbn. rewrite !lookup_insert_ne; [done|by intros <-|].
         intros <-. by eapply Hrl, last_mem.
      -- intros r. rewrite fmap_app, list.elem_of_app. intros [?|Hr%list_elem_of_singleton]; [by left|right; by subst].
Qed.

Lemma hashmap_update_ok h B k v p l :
  rep h B -> B !! slot h k = Some l -> entry h !! slot h k = Some p -> chain (heap h) p l -> NoDup l.*1 ->
  (length l <= S (base.size (heap h)))%nat -> index_of k h = Ok (hash_func h k (size h), h) ->
  head_of (hash_func h k (size h)) h = Ok (p, h) ->
  exists h', hashmap_update k v h = Ok (0, h') /\
    rep h' (<[slot h k := update_first (hash_compare h) k v l]> B).
Proof.
  intros HR Hl Hp Hc Hn Hlen Ei Eh.
  unfold hashmap_update. setoid_rewrite (bind_ok _ _ _ _ _ Ei). setoid_rewrite (bind_ok _ _ _ _ _ Eh).
  unfold chain_fuel. setoid_rewrite gets_bind.
  destruct (update_loop_ok h k v _ p l Hc Hn Hlen) as (s' & Eu & Hc' & Hout). eexists. split; [exact Eu|].
  assert ((update_first (hash_compare h) k v l).*1 = l.*1) as Ea.
  { clear. induction l as [|[q [k' v']] l IH]; [done|]. simpl. case_match; [done|]. simpl. by f_equal. }
  eapply (rep_update h _ B (slot h k) l _ p); try done; rewrite ?Ea; try done.
  + intros q _ Hq. by apply Hout.
  + by left.
Qed.

Lemma hashmap_remove_ok h B k p l :
  rep h B -> B !! slot h k = Some l -> entry h !! slot h k = Some p -> chain (heap h) p l -> NoDup l.*1 ->
  (length l <= S (base.size (heap h)))%nat -> index_of k h = Ok (hash_func h k (size h), h) ->
  head_of (hash_func h k (size h)) h = Ok (p, h) ->
  exists h', hashmap_remove k h = Ok (if found (search (hash_compare h) k l) then 0 else -1, h') /\
    rep h' (<[slot h k := remove_first (hash_compare h) k l]> B).
Proof.
  intros HR Hl Hp Hc Hn Hlen Ei Eh.
  unfold hashmap_remove. setoid_rewrite (bind_ok _ _ _ _ _ Ei). setoid_rewrite (bind_ok _ _ _ _ _ Eh).
  unfold chain_fuel. setoid_rewrite gets_bind.
  destruct (remove_loop_ok h (hash_func h k (size h)) k (S (base.size (heap h))) p l 0 0 0) as (h' & p' & Er & Hc' & Hl' & Hfr & Hh & He);
    [done|done|done| |done|].
  { intros Hin. by eapply (chain_mem _ _ _ _ Hc Hin). }
  exists h'. split; [exact Er|]. unfold linked in Hl'. cbn [Z.eqb] in Hl', He. fold (slot h k) in Hl', He.
  assert (forall q, q ∈ (remove_first (hash_compare h) k l).*1 -> q ∈ l.*1) as Hsub.
  { clear. induction l as [|[q [k' v']] l IH]; intros r; [done|]. simpl. case_match.
    - intros Hr. apply list.elem_of_cons. by right.
    - simpl. rewrite !list.elem_of_cons. naive_solver. }
  eapply (rep_update h _ B (slot h k) l _ p'); try done.
  + by rewrite Hh.
  + by rewrite Hh.
  + by rewrite He, length_insert.
  + intros j Hj. rewrite He. by apply list_lookup_insert_ne.
  + revert Hn. clear -Hsub. clear Hsub. induction l as [|[q [k' v']] l IH]; [done|]. simpl. intros [Hq Hn]%list.NoDup_cons.
    case_match; [done|]. simpl. apply list.NoDup_cons. split; [|by apply IH].
    intros Hin. apply Hq. clear -Hin. induction l as [|[r [k' v']] l IH]; [done|]. simpl in *. case_match.
    * apply list.elem_of_cons. by right.
    * simpl in Hin. apply list.elem_of_cons in Hin as [->|Hin]; apply list.elem_of_cons; [by left|right; auto].
  + intros q Hq Hql. apply Hfr; [done|by right].
  + intros q Hq. left. by apply Hsub.
Qed.

(** C28: changing: [hashmap_set] puts a new entry at the end of the bucket of
    its key when memory is found, whether or not the key is there already;
    [hashmap_update] changes the value of the first entry that compares equal;
    [hashmap_remove] takes that entry out and answers 0, or -1 when there is
    none.  All other buckets stay as they are. *)
Theorem hashmap_changes_one_bucket h B k v :
  rep h B ->
  exists l, B !! slot h k = Some l /\
    (alloc (heap h) <> 0 -> exists r h', hashmap_set k v h = Ok (r, h') /\ r <> 0 /\
       rep h' (<[slot h k := l ++ [(alloc (heap h), (k, v))]]> B)) /\
    (exists h', hashmap_update k v h = Ok (0, h') /\
       rep h' (<[slot h k := update_first (hash_compare h) k v l]> B)) /\
    (exists h', hashmap_remove k h = Ok (if found (search (hash_compare h) k l) then 0 else -1, h') /\
       rep h' (<[slot h k := remove_first (hash_compare h) k l]> B)).
Proof.
  intros HR. at_bucket p l. exists l. split_and!; [done|..].
  - by apply (hashmap_set_ok h B k v p l).
  - by apply (hashmap_update_ok h B k v p l).
  - by apply (hashmap_remove_ok h B k p l).
Qed.
End tables.

(** ** A table of four buckets *)
Definition fresh_address (s : gmap Z hashmap_entry) : Z := fresh ({[0]} ∪ dom s : gset Z).
Lemma fresh_address_free s : fresh_address s <> 0 -> s !! fresh_address s = None.
Proof.
  intros _. apply not_elem_of_dom. pose proof (is_fresh ({[0]} ∪ dom s : gset Z)). set_solver.
Qed.
#[export] Instance some_alloc : Alloc := {| alloc := fresh_address; alloc_fresh := fresh_address_free |}.

Lemma init_rep n : 0 < n < 2 ^ 31 -> rep (hashmap_init n) (replicate (Z.to_nat n) []).
Proof.
  intros Hn. split; cbn.
  - by rewrite !length_replicate.
  - intros k. apply Z.mod_pos_bound. lia.
  - intros i p l [-> _]%lookup_replicate [-> _]%lookup_replicate. constructor.
  - intros i l [-> _]%lookup_replicate. constructor.
  - intros i j l1 l2 p [-> _]%lookup_replicate _ Hp. by apply not_elem_of_nil in Hp.
Qed.

Lemma hashmap_lookups_search_witness :
  hashmap_has 7 (hashmap_init 4) = Ok (false, hashmap_init 4) /\ hashmap_get 7 (hashmap_init 4) = Ok (0, hashmap_init 4).
Proof.
  destruct (hashmap_lookups_search (hashmap_init 4) _ 7 (init_rep 4 ltac:(lia))) as (l & Hl & Hh & Hg).
  assert (l = []) as -> by (vm_compute in Hl; congruence). done.
Defined.

Lemma hashmap_changes_one_bucket_witness :
  exists r h', hashmap_set 7 70 (hashmap_init 4) = Ok (r, h') /\
    rep h' [[]; []; []; [(fresh_address ∅, (7, 70))]].
Proof.
  destruct (hashmap_changes_one_bucket (hashmap_init 4) _ 7 70 (init_rep 4 ltac:(lia))) as (l & Hl & Hs & _).
  assert (l = []) as -> by (vm_compute in Hl; congruence).
  destruct Hs as (r & h' & E & _ & Hr); [by vm_compute|]. exists r, h'. split; [done|]. exact Hr.
Defined.
