(* ===== verification/Ipc.v ===== *)
(** * Ipc: messages between processes (core/ipc/ipc.c)

    Sending and receiving on the control blocks of Kernel.v.  A call that
    blocks hands over to the scheduler in its middle; [msg_send] and
    [msg_receive] are the part before the switch, with what the thread has
    still to do when it runs again as their result. *)
From S2P Require Import Prelude Lists Kernel.

Definition SENDING : Z := 2.
Definition RECEIVING : Z := 4.
Definition NR_TASKS : Z := 10.
Definition NR_PROCS : Z := 30.
Definition ANY_TASK : Z := 0xffffffff.
Definition NO_TASK : Z := 0xfffffff7.
(** -10, as it is converted in comparisons with a [pid_t]. *)
Definition INTR_TASK : Z := u32 (-10).
Definition HARD_INT : Z := 1.

Section fields.
Implicit Types t : TCB.
Definition set_message (v : message) t : TCB :=
  Tcb (parent_pid t) (pid t) (exit_status t) (status t) (priority t) (ticks t) (elapsed_ticks t) (pgdir t)
      v (p_recvfrom t) (p_sendto t) (p_flags t) (p_intr_present t) (p_sending_queue t) (p_next_sending t) (stack_magic t).
Definition set_recvfrom (v : Z) t : TCB :=
  Tcb (parent_pid t) (pid t) (exit_status t) (status t) (priority t) (ticks t) (elapsed_ticks t) (pgdir t)
      (p_message t) v (p_sendto t) (p_flags t) (p_intr_present t) (p_sending_queue t) (p_next_sending t) (stack_magic t).
Definition set_sendto (v : Z) t : TCB :=
  Tcb (parent_pid t) (pid t) (exit_status t) (status t) (priority t) (ticks t) (elapsed_ticks t) (pgdir t)
      (p_message t) (p_recvfrom t) v (p_flags t) (p_intr_present t) (p_sending_queue t) (p_next_sending t) (stack_magic t).
Definition set_flags (v : Z) t : TCB :=
  Tcb (parent_pid t) (pid t) (exit_status t) (status t) (priority t) (ticks t) (elapsed_ticks t) (pgdir t)
      (p_message t) (p_recvfrom t) (p_sendto t) (u8 v) (p_intr_present t) (p_sending_queue t) (p_next_sending t) (stack_magic t).
Definition set_intr_present (v : Z) t : TCB :=
  Tcb (parent_pid t) (pid t) (exit_status t) (status t) (priority t) (ticks t) (elapsed_ticks t) (pgdir t)
      (p_message t) (p_recvfrom t) (p_sendto t) (p_flags t) v (p_sending_queue t) (p_next_sending t) (stack_magic t).
Definition set_sending_queue (v : Z) t : TCB :=
  Tcb (parent_pid t) (pid t) (exit_status t) (status t) (priority t) (ticks t) (elapsed_ticks t) (pgdir t)
      (p_message t) (p_recvfrom t) (p_sendto t) (p_flags t) (p_intr_present t) v (p_next_sending t) (stack_magic t).
Definition set_next_sending (v : Z) t : TCB :=
  Tcb (parent_pid t) (pid t) (exit_status t) (status t) (priority t) (ticks t) (elapsed_ticks t) (pgdir t)
      (p_message t) (p_recvfrom t) (p_sendto t) (p_flags t) (p_intr_present t) (p_sending_queue t) v (stack_magic t).
End fields.

(** [flags & bit]. *)
Definition has (flags bit : Z) : bool := negb (Z.land flags bit =? 0).
Definition without (flags bit : Z) : Z := Z.land flags (Z.lnot bit).
Definition reset_msg : message := Message 0 0 (replicate 14 0).

Section ipc.
Context {G : Globals}.
Variable fuel : nat.

Definition pid_helper (proc_tag value : Z) : M kern bool :=
  t <- tcb (of_all_list_tag proc_tag) ;;
  ret (pid t =? value).
Definition pid2proc (id : Z) : M kern Z :=
  e <- list_is_empty thread_all_list ;;
  ASSERT (negb e) ;;;
  proc_tag <- list_walker fuel thread_all_list pid_helper id ;;
  if negb (proc_tag =? 0) then ret (of_all_list_tag proc_tag) else ret 0.

Fixpoint cycle_loop (n : nat) (src proc : Z) : M kern bool :=
  match n with
  | O => stuck
  | S n =>
      p <- tcb proc ;;
      if has (p_flags p) SENDING then
        if p_sendto p =? src then ret true
        else proc <- pid2proc (p_sendto p) ;; cycle_loop n src proc
      else ret false
  end.
Definition detect_cycle (src dest : Z) : M kern bool :=
  proc <- pid2proc dest ;; cycle_loop fuel src proc.

(** The last control block of a sending queue. *)
Fixpoint queue_end (n : nat) (p : Z) : M kern Z :=
  match n with
  | O => stuck
  | S n => t <- tcb p ;; if negb (p_next_sending t =? 0) then queue_end n (p_next_sending t) else ret p
  end.

(** The result is [None] when the call is over, and [Some st] when the caller
    was blocked and has to restore the interrupt status [st] later. *)
Definition msg_send (sender dest : Z) (msg : message) : M kern (option bool) :=
  p_dest <- pid2proc dest ;;
  ASSERT (negb (p_dest =? 0)) ;;;
  s <- tcb sender ;;
  cycle <- detect_cycle (pid s) dest ;;
  (when (cycle : bool) do panic) ;;;
  d <- tcb p_dest ;;
  s <- tcb sender ;;
  if (has (p_flags d) RECEIVING && (p_recvfrom d =? pid s)) || (p_recvfrom d =? ANY_TASK) then
    ASSERT (m_source (p_message d) >? 0) ;;;
    upd_tcb p_dest (set_message msg) ;;;
    upd_tcb p_dest (fun d => set_flags (without (p_flags d) RECEIVING) d) ;;;
    upd_tcb p_dest (set_recvfrom NO_TASK) ;;;
    thread_unblock fuel p_dest ;;;
    ret None
  else
    upd_tcb sender (fun s => set_flags (Z.lor (p_flags s) SENDING) s) ;;;
    s <- tcb sender ;;
    ASSERT (p_flags s =? SENDING) ;;;
    upd_tcb sender (set_sendto dest) ;;;
    upd_tcb sender (set_message msg) ;;;
    d <- tcb p_dest ;;
    (if negb (p_sending_queue d =? 0) then
       p <- queue_end fuel (p_sending_queue d) ;;
       upd_tcb p (set_next_sending sender)
     else upd_tcb p_dest (set_sending_queue sender)) ;;;
    upd_tcb sender (set_next_sending 0) ;;;
    old <- thread_auth_block fuel sender THREAD_TASK_BLOCKED ;;
    ret (Some old).
(** The rest of [msg_send] for a caller that was blocked. *)
Definition msg_send_resume (old : bool) : M kern Z := intr_set_status old ;;; ret 0.

(** What a receiver gets. *)
Inductive received :=
| Interrupted                  (* the message is in the caller's [p_message] *)
| Got (msg : message)          (* copied to the caller's buffer *)
| Waiting (old : bool).        (* blocked *)

(** The control block before that of pid [src] in the queue (0 at the head). *)
Fixpoint find_sender (n : nat) (p_from src prev p : Z) : M kern Z :=
  match n with
  | O => stuck
  | S n =>
      if p =? 0 then ret prev
      else
        f <- tcb p_from ;;
        ASSERT (has (p_flags f) SENDING) ;;;
        t <- tcb p ;;
        if pid t =? src then ret prev
        else find_sender n p_from src p (p_next_sending t)
  end.

Definition take_message (receiver p_from prev : Z) : M kern received :=
  r <- tcb receiver ;;
  (if p_from =? p_sending_queue r then
     ASSERT (prev =? 0) ;;;
     f <- tcb p_from ;;
     upd_tcb receiver (set_sending_queue (p_next_sending f)) ;;;
     upd_tcb p_from (set_next_sending 0)
   else
     ASSERT (negb (prev =? 0)) ;;;
     f <- tcb p_from ;;
     upd_tcb prev (set_next_sending (p_next_sending f)) ;;;
     upd_tcb p_from (set_next_sending 0)) ;;;
  f <- tcb p_from ;;
  ASSERT (m_source (p_message f) >? 0) ;;;
  upd_tcb p_from (set_message reset_msg) ;;;
  upd_tcb p_from (set_sendto NO_TASK) ;;;
  upd_tcb p_from (fun f => set_flags (without (p_flags f) SENDING) f) ;;;
  thread_unblock fuel p_from ;;;
  ret (Got (p_message f)).
Definition wait_message (receiver src : Z) (msg : message) : M kern received :=
  upd_tcb receiver (fun r => set_flags (Z.lor (p_flags r) RECEIVING) r) ;;;
  upd_tcb receiver (set_message msg) ;;;
  upd_tcb receiver (set_recvfrom src) ;;;
  old <- thread_auth_block fuel receiver THREAD_TASK_BLOCKED ;;
  ret (Waiting old).

Definition msg_receive (receiver src : Z) (msg : message) : M kern received :=
  r <- tcb receiver ;;
  if (negb (p_intr_present r =? 0) && (src =? ANY_TASK)) || (src =? INTR_TASK) then
    upd_tcb receiver (set_message (Message INTR_TASK HARD_INT (replicate 14 0))) ;;;
    upd_tcb receiver (set_intr_present 0) ;;;
    ret Interrupted
  else if src =? ANY_TASK then
    if negb (p_sending_queue r =? 0) then take_message receiver (p_sending_queue r) 0
    else wait_message receiver src msg
  else if (src >=? 0) && (src <? NR_PROCS + NR_TASKS) then
    p_from <- pid2proc src ;;
    f <- tcb p_from ;;
    if has (p_flags f) SENDING && (p_sendto f =? pid r) then
      ASSERT (negb (p_sending_queue r =? 0)) ;;;
      prev <- find_sender fuel p_from src 0 (p_sending_queue r) ;;
      r <- tcb receiver ;;
      ASSERT (p_flags r =? 0) ;;;
      take_message receiver p_from prev
    else wait_message receiver src msg
  else wait_message receiver src msg.
(** The rest of [msg_receive] for a caller that was blocked: its message. *)
Definition msg_receive_resume (receiver : Z) (old : bool) : M kern message :=
  intr_set_status old ;;;
  r <- tcb receiver ;;
  ret (p_message r).

Definition notify_intr (task_nr : Z) : M kern unit :=
  p <- pid2proc task_nr ;;
  t <- tcb p ;;
  if has (p_flags t) RECEIVING && ((p_recvfrom t =? INTR_TASK) || (p_recvfrom t =? ANY_TASK)) then
    upd_tcb p (fun t => set_message (Message INTR_TASK HARD_INT (m_data (p_message t))) t) ;;;
    upd_tcb p (set_intr_present 0) ;;;
    upd_tcb p (fun t => set_flags (without (p_flags t) RECEIVING) t) ;;;
    upd_tcb p (set_recvfrom NO_TASK) ;;;
    t <- tcb p ;;
    ASSERT (p_flags t =? 0) ;;;
    thread_unblock fuel p ;;;
    t <- tcb p ;;
    ASSERT (p_flags t =? 0) ;;;
    ASSERT (p_recvfrom t =? NO_TASK) ;;;
    ASSERT (p_sendto t =? NO_TASK)
  else upd_tcb p (set_intr_present 1).
End ipc.
