(* ===== verification/IpcSpec.v ===== *)
(** * IpcSpec: what the message calls promise *)
From S2P Require Import Prelude Lists ListProofs ListSpec Kernel Queues Sched Ipc.

Section people.
Context {G : Globals}.
Implicit Types (k : kern) (ts : list Z).

(** [ts] are the threads on [thread_all_list], in order. *)
Record people k ts : Prop := {
  pe_list : dll (klists k) thread_all_list (all_list_tag <$> ts);
  pe_alive : Forall (alive k) ts
}.
Definition has_pid k (id t : Z) : bool := match tasks k !! t with Some b => pid b =? id | None => false end.
Definition proc_of k ts (id : Z) : option Z := List.find (has_pid k id) ts.

Lemma of_all_list_tag_tag t : of_all_list_tag (all_list_tag t) = t.
Proof. unfold of_all_list_tag, all_list_tag. lia. Qed.
Lemma find_tags k ts id :
  List.find (fun p => has_pid k id (of_all_list_tag p)) (all_list_tag <$> ts) = all_list_tag <$> proc_of k ts id.
Proof.
  induction ts as [|t ts IH]; [done|]. cbn. rewrite of_all_list_tag_tag. unfold proc_of; simpl. by case_match.
Qed.

Lemma pid2proc_ok fuel k ts id t :
  people k ts -> proc_of k ts id = Some t -> all_list_tag t <> 0 -> (S (length ts) < fuel)%nat ->
  pid2proc fuel id k = Ok (t, k).
Proof.
  intros [Hd Ha] Hp Ht Hf. unfold pid2proc. run (list_is_empty_ok (H:=kern_lists) _ _ _ Hd).
  assert (ts <> []) as Hne by by intros ->. rewrite bool_decide_false by by destruct ts. pass.
  erewrite bind_ok.
  2: { eapply (list_walker_ok (H:=kern_lists) fuel k thread_all_list pid_helper id
         (fun p => has_pid k id (of_all_list_tag p)) (all_list_tag <$> ts)).
       - exact Hd.
       - intros p Hin. apply list_elem_of_fmap in Hin as (u & -> & Hu).
         rewrite of_all_list_tag_tag. unfold pid_helper. rewrite of_all_list_tag_tag.
         destruct (proj1 (list.Forall_forall _ _) Ha u Hu) as [b Hb]. unfold has_pid. erewrite tcb_bind by done. by rewrite Hb.
       - by rewrite length_fmap. }
  rewrite find_tags, Hp. simpl. rewrite (proj2 (Z.eqb_neq _ 0)) by done. simpl. by rewrite of_all_list_tag_tag.
Qed.

(** The pids that are waited for, starting from thread [p]. *)
Inductive leads k ts : Z -> list Z -> Prop :=
| leads_end p b : tasks k !! p = Some b -> has (p_flags b) SENDING = false -> leads k ts p []
| leads_on p b q l : tasks k !! p = Some b -> has (p_flags b) SENDING = true ->
    proc_of k ts (p_sendto b) = Some q -> leads k ts q l -> leads k ts p (p_sendto b :: l).

Definition nodes_mapped ts : Prop := forall t, t ∈ ts -> all_list_tag t <> 0.

Lemma proc_of_in k ts id t : proc_of k ts id = Some t -> t ∈ ts.
Proof. intros H. apply List.find_some in H as [H _]. by apply list_elem_of_In. Qed.

Lemma cycle_loop_ok fuel n k ts src p l :
  people k ts -> nodes_mapped ts -> (S (length ts) < fuel)%nat -> leads k ts p l -> (length l < n)%nat ->
  cycle_loop fuel n src p k = Ok (bool_decide (src ∈ l), k).
Proof.
  intros Hk Hm Hf H. revert n. induction H as [p b Hb Hs|p b q l Hb Hs Hq Hl IH]; intros [|n] Hn; simpl in Hn; try lia;
    simpl; erewrite tcb_bind by done; rewrite Hs.
  - done.
  - destruct (Z.eqb_spec (p_sendto b) src) as [->|Hne].
    + rewrite bool_decide_true; [done|]. by apply list.elem_of_cons; left.
    + run (pid2proc_ok fuel k ts _ q Hk Hq (Hm _ (proc_of_in _ _ _ _ Hq)) Hf). rewrite IH by lia.
      do 2 f_equal. apply bool_decide_ext. rewrite list.elem_of_cons. split; [by right|]. intros [->|]; done.
Qed.

Lemma detect_cycle_ok fuel k ts src dest p l :
  people k ts -> nodes_mapped ts -> (S (length ts) < fuel)%nat -> proc_of k ts dest = Some p -> leads k ts p l ->
  (length l < fuel)%nat -> detect_cycle fuel src dest k = Ok (bool_decide (src ∈ l), k).
Proof.
  intros Hk Hm Hf Hp Hl Hn. unfold detect_cycle.
  run (pid2proc_ok fuel k ts _ p Hk Hp (Hm _ (proc_of_in _ _ _ _ Hp)) Hf). by apply (cycle_loop_ok _ _ k ts src p l).
Qed.

(** C39: [detect_cycle] answers whether sending to [dest] would close a cycle of
    waiting senders: whether [src] is among the processes that [dest] waits
    for, directly or through others; it ends whenever that chain does. *)
Theorem detect_cycle_decides fuel k ts src dest p l :
  people k ts -> nodes_mapped ts -> proc_of k ts dest = Some p -> leads k ts p l ->
  (S (length ts + length l) < fuel)%nat ->
  detect_cycle fuel src dest k = Ok (bool_decide (src ∈ l), k).
Proof. intros. eapply detect_cycle_ok; [done|done|lia|done|done|lia]. Qed.

(** The receiver's control block after a delivery. *)
Definition delivered (msg : message) (d : TCB) : TCB :=
  set_status THREAD_TASK_READY
    (set_recvfrom NO_TASK (set_flags (without (p_flags d) RECEIVING) (set_message msg d))).

(** C31: a message to a process that waits for it, or for any sender, is put
    into the receiver's control block at once: the receiver no longer waits
    and is first in line for the processor, the sender goes on, and the
    receiver's call will return that very message. *)
Theorem msg_send_delivers fuel k T Q rq ts l sender dest d s b msg :
  queues (klists k) T Q -> (forall t, T t <-> alive k t) -> rl Q rq -> people k ts -> nodes_mapped ts ->
  tasks k !! sender = Some s -> proc_of k ts dest = Some d -> d <> 0 -> sleeping k Q d b ->
  leads k ts d l -> pid s ∉ l ->
  (p_recvfrom b = ANY_TASK \/ (has (p_flags b) RECEIVING = true /\ p_recvfrom b = pid s)) ->
  0 < m_source (p_message b) ->
  (S (length ts + length l + length rq) < fuel)%nat ->
  exists k', msg_send fuel sender dest msg k = Ok (None, k') /\
    tasks k' = <[d := delivered msg b]> (tasks k) /\ queues (klists k') T (<[thread_ready_list := d :: rq]> Q) /\
    current k' = current k /\ intr k' = intr k /\
    forall old, msg_receive_resume d old k' = Ok (msg, set_intr old k').
Proof.
  intros HQ HT Hrl Hk Hm Hs Hd Hd0 [Hb Hst Hoff] Hl Hnl Hw Hsrc Hf.
  assert (has (p_flags b) RECEIVING && (p_recvfrom b =? pid s) || (p_recvfrom b =? ANY_TASK) = true) as Hc.
  { apply orb_true_iff. destruct Hw as [->|[-> ->]]; [by right|left; by rewrite Z.eqb_refl]. }
  set (b3 := set_recvfrom NO_TASK (set_flags (without (p_flags b) RECEIVING) (set_message msg b))).
  set (k3 := set_tasks (<[d := b3]> (tasks k)) k).
  assert (alive k d) as Had by by eexists.
  destruct (thread_unblock_ok fuel k3 T Q rq d b3) as (h' & Eu & HQ').
  { exact HQ. }
  { intros t. rewrite HT. symmetry. by apply (alive_insert k). }
  { done. }
  { split; [apply lookup_insert_eq|exact Hst|exact Hoff]. }
  { lia. }
  eexists. split; [|split_and!].
  - unfold msg_send. run (pid2proc_ok fuel k ts _ d Hk Hd (Hm _ (proc_of_in _ _ _ _ Hd)) ltac:(lia)).
    pass by (by rewrite (proj2 (Z.eqb_neq d 0))). erewrite tcb_bind by done.
    run (detect_cycle_ok fuel k ts (pid s) dest d l Hk Hm ltac:(lia) Hd Hl ltac:(lia)).
    rewrite bool_decide_false by done. rets. erewrite tcb_bind by done. erewrite tcb_bind by done. rewrite Hc.
    pass by (by apply Z.gtb_lt). run (upd_tcb_ok k d b (set_message msg)); [|done].
    run (upd_tcb_ok (set_tasks (<[d := set_message msg b]> (tasks k)) k) d (set_message msg b)
          (fun d => set_flags (without (p_flags d) RECEIVING) d)); [|apply lookup_insert_eq].
    cbn [tasks set_tasks]. rewrite insert_insert_eq.
    match goal with |- bind (upd_tcb _ _) _ ?st = _ =>
      run (upd_tcb_ok st d (set_flags (without (p_flags b) RECEIVING) (set_message msg b)) (set_recvfrom NO_TASK));
        [|apply lookup_insert_eq] end.
    cbn [tasks set_tasks]. rewrite insert_insert_eq. run Eu. done.
  - cbn [tasks set_tasks k3 set_klists]. by rewrite insert_insert_eq.
  - exact HQ'.
  - done.
  - done.
  - intros old. unfold msg_receive_resume.
    match goal with |- bind _ _ ?st = _ => run (intr_set_status_ok old st) end.
    erewrite tcb_bind by (cbn; apply lookup_insert_eq). done.
Qed.

(** The processes that wait to send to one process, linked by
    [p_next_sending]. *)
Inductive squeue k : Z -> list Z -> Prop :=
| sq_nil : squeue k 0 []
| sq_cons p b l : p <> 0 -> tasks k !! p = Some b -> squeue k (p_next_sending b) l -> squeue k p (p :: l).

Lemma squeue_frame k k' p l :
  (forall q, q ∈ l -> tasks k' !! q = tasks k !! q) -> squeue k p l -> squeue k' p l.
Proof.
  intros Hf H. induction H as [|p b l Hp Hb Hl IH]; [constructor|]. econstructor; [done| |].
  - rewrite Hf; [done|by apply list.elem_of_cons; left].
  - apply IH. intros. apply Hf. by apply list.elem_of_cons; right.
Qed.

(** A sender's control block after its message was taken. *)
Definition taken (f : TCB) : TCB :=
  set_status THREAD_TASK_READY
    (set_flags (without (p_flags f) SENDING) (set_sendto NO_TASK (set_message reset_msg (set_next_sending 0 f)))).

(** A process that receives from anyone, with no interrupt pending, gets
    the message of the first of the waiting senders, the others stay queued in
    their order, and that sender is made ready. *)
Theorem msg_receive_takes_first fuel k T Q rq receiver r f b l msg :
  queues (klists k) T Q -> (forall t, T t <-> alive k t) -> rl Q rq ->
  tasks k !! receiver = Some r -> p_intr_present r = 0 ->
  squeue k (p_sending_queue r) (f :: l) -> NoDup (receiver :: f :: l) -> sleeping k Q f b ->
  0 < m_source (p_message b) -> (length rq < fuel)%nat ->
  exists k', msg_receive fuel receiver ANY_TASK msg k = Ok (Got (p_message b), k') /\
    tasks k' = <[f := taken b]> (<[receiver := set_sending_queue (p_next_sending b) r]> (tasks k)) /\
    squeue k' (p_next_sending b) l /\
    queues (klists k') T (<[thread_ready_list := f :: rq]> Q).
Proof.
  intros HQ HT Hrl Hr Hi Hsq Hnd [Hb Hst Hoff] Hsrc Hf.
  inversion Hsq as [|p b' l' Hf0 Hb' Hl Ep El]; subst. assert (b' = b) as -> by congruence. clear Hsq Hb'.
  apply list.NoDup_cons in Hnd as [Hrn [Hfn _]%list.NoDup_cons]. apply list.not_elem_of_cons in Hrn as [Hrf Hrl'].
  set (fq := p_sending_queue r) in *.
  set (b3 := set_flags (without (p_flags b) SENDING) (set_sendto NO_TASK (set_message reset_msg (set_next_sending 0 b)))).
  set (ts1 := <[receiver := set_sending_queue (p_next_sending b) r]> (tasks k)).
  set (k3 := set_tasks (<[fq := b3]> ts1) k).
  assert (forall t, T t <-> alive k3 t) as HT3.
  { intros t. rewrite HT. unfold alive, k3, ts1; cbn. rewrite !lookup_insert. repeat case_decide; subst; split; eauto. }
  destruct (thread_unblock_ok fuel k3 T Q rq fq b3 HQ HT3 Hrl) as (h' & Eu & HQ').
  { split; [apply lookup_insert_eq|exact Hst|exact Hoff]. }
  { done. }
  eexists. split; [|split_and!].
  - unfold msg_receive. erewrite tcb_bind by done. rewrite Hi. cbn [negb andb orb Z.eqb].
    change (ANY_TASK =? INTR_TASK) with false. change (ANY_TASK =? ANY_TASK) with true. cbn [negb andb orb].
    change (p_sending_queue r) with fq. rewrite (proj2 (Z.eqb_neq fq 0)) by done. cbn [negb].
    unfold take_message. erewrite tcb_bind by done. fold fq. rewrite Z.eqb_refl. pass.
    rewrite ?bind_assoc. erewrite tcb_bind by done.
    run (upd_tcb_ok k receiver r (set_sending_queue (p_next_sending b))); [|done]. fold ts1.
    run (upd_tcb_ok (set_tasks ts1 k) fq b (set_next_sending 0)); [|unfold ts1; cbn; by rewrite lookup_insert_ne].
    cbn [tasks set_tasks]. erewrite tcb_bind by (cbn; apply lookup_insert_eq).
    pass by (by apply Z.gtb_lt).
    match goal with |- bind (upd_tcb _ _) _ ?st = _ =>
      run (upd_tcb_ok st fq (set_next_sending 0 b) (set_message reset_msg)); [|apply lookup_insert_eq] end.
    cbn [tasks set_tasks]. rewrite insert_insert_eq.
    match goal with |- bind (upd_tcb _ _) _ ?st = _ =>
      run (upd_tcb_ok st fq (set_message reset_msg (set_next_sending 0 b)) (set_sendto NO_TASK)); [|apply lookup_insert_eq] end.
    cbn [tasks set_tasks]. rewrite insert_insert_eq.
    match goal with |- bind (upd_tcb _ _) _ ?st = _ =>
      run (upd_tcb_ok st fq (set_sendto NO_TASK (set_message reset_msg (set_next_sending 0 b)))
        (fun f => set_flags (without (p_flags f) SENDING) f)); [|apply lookup_insert_eq] end.
    cbn [tasks set_tasks]. rewrite insert_insert_eq. run Eu. done.
  - cbn [tasks set_tasks k3 set_klists]. by rewrite insert_insert_eq.
  - eapply squeue_frame; [|exact Hl]. intros q Hq. cbn. unfold ts1.
    rewrite !lookup_insert_ne; [done|by intros ->..].
  - exact HQ'.
Qed.
End people.

(** ** Two processes: 1 at 4096 and 2 at 8192, nobody ready *)
Definition mail_globals : Globals := {| thread_ready_list := 100; thread_all_list := 300; addr_v2p := fun a => a |}.
Definition mail (a b : TCB) (cur : Z) : kern :=
  Kern (list_to_map [(100, Node 100 100); (300, Node 8252 4156); (4156, Node 300 8252); (8252, Node 4156 300);
                     (4148, Node 4148 4148); (8244, Node 8244 8244)])
       (list_to_map [(4096, a); (8192, b)]) ∅ cur true 0 0 0 0 0.
Definition letter : message := Message 1 3 (replicate 14 7).
Definition person (p st flags from sendto queue : Z) : TCB :=
  Tcb 0 p 0 st 2 2 0 0 letter from sendto flags 0 queue 0 STACK_MAGIC.
(** Process 2 waits for anyone; and process 1 waits to send to process 2. *)
Definition mail_waiting : kern := mail (person 1 0 0 NO_TASK NO_TASK 0) (person 2 8 4 ANY_TASK NO_TASK 0) 4096.
Definition mail_sending : kern := mail (person 1 8 2 NO_TASK 2 0) (person 2 0 0 NO_TASK NO_TASK 4096) 8192.

Section mail.
Existing Instance mail_globals.

Lemma mail_alive a b c t : alive (mail a b c) t -> t = 4096 \/ t = 8192.
Proof.
  intros [x Hx]. unfold mail in Hx; cbn in Hx.
  apply lookup_insert_Some in Hx as [[<- _]|[_ Hx]]; [by left|].
  apply lookup_insert_Some in Hx as [[<- _]|[_ Hx]]; [by right|]. by apply lookup_empty_Some in Hx.
Qed.
Lemma mail_queues a b c : queues (klists (mail a b c)) (alive (mail a b c)) {[100 := []]}.
Proof.
  split.
  - intros x xs [<- <-]%lookup_singleton_Some. split; [vm_compute; done|by_computation].
  - intros x xs t [<- <-]%lookup_singleton_Some Ht. by apply not_elem_of_nil in Ht.
  - intros x y xs ys t [<- <-]%lookup_singleton_Some _ Ht. by apply not_elem_of_nil in Ht.
  - intros t [->| ->]%mail_alive; vm_compute; by eexists.
  - intros x xs t [<- <-]%lookup_singleton_Some [->| ->]%mail_alive; done.
Qed.
Lemma mail_people a b c : people (mail a b c) [4096; 8192].
Proof.
  split; [split; [vm_compute; done|by_computation]|].
  repeat constructor; by eexists.
Qed.
Lemma mail_nodes : nodes_mapped [4096; 8192].
Proof. intros t Ht. apply list.elem_of_cons in Ht as [->|Ht]; [done|]. apply list_elem_of_singleton in Ht as ->. done. Qed.
Lemma mail_off t : off_queues {[100 := []]} t.
Proof. intros x xs [<- <-]%lookup_singleton_Some. apply not_elem_of_nil. Qed.
End mail.

Lemma detect_cycle_decides_witness :
  @detect_cycle mail_globals 9 2 1 mail_sending = Ok (true, mail_sending) /\
  @detect_cycle mail_globals 9 1 2 mail_sending = Ok (false, mail_sending).
Proof.
  split.
  - apply (@detect_cycle_decides mail_globals 9 mail_sending [4096; 8192] 2 1 4096 [2]);
      [apply mail_people|apply mail_nodes|done| |simpl; lia].
    eapply (leads_on mail_sending _ 4096 (person 1 8 2 NO_TASK 2 0) 8192); [done|done|done|].
    eapply leads_end; done.
  - apply (@detect_cycle_decides mail_globals 9 mail_sending [4096; 8192] 1 2 8192 []);
      [apply mail_people|apply mail_nodes|done| |simpl; lia].
    eapply leads_end; done.
Defined.

Lemma msg_send_delivers_witness :
  exists k', @msg_send mail_globals 9 4096 2 letter mail_waiting = Ok (None, k') /\
    msg_receive_resume 8192 true k' = Ok (letter, set_intr true k').
Proof.
  destruct (@msg_send_delivers mail_globals 9 mail_waiting (alive mail_waiting) {[100 := []]} [] [4096; 8192] []
    4096 2 8192 (person 1 0 0 NO_TASK NO_TASK 0) (person 2 8 4 ANY_TASK NO_TASK 0) letter) as (k' & E & _ & _ & _ & _ & Hr).
  - apply mail_queues.
  - done.
  - done.
  - apply mail_people.
  - apply mail_nodes.
  - done.
  - done.
  - done.
  - split; [done|done|apply mail_off].
  - eapply leads_end; done.
  - apply not_elem_of_nil.
  - by left.
  - done.
  - simpl; lia.
  - exists k'. split; [exact E|apply Hr].
Defined.

Lemma msg_receive_takes_first_witness :
  exists k', @msg_receive mail_globals 9 8192 ANY_TASK reset_msg mail_sending = Ok (Got letter, k') /\
    tasks k' !! 4096 = Some (taken (person 1 8 2 NO_TASK 2 0)).
Proof.
  destruct (@msg_receive_takes_first mail_globals 9 mail_sending (alive mail_sending) {[100 := []]} []
    8192 (person 2 0 0 NO_TASK NO_TASK 4096) 4096 (person 1 8 2 NO_TASK 2 0) [] reset_msg) as (k' & E & Ht & _).
  - apply mail_queues.
  - done.
  - done.
  - done.
  - done.
  - eapply sq_cons; [done|done|constructor].
  - by_computation.
  - split; [done|done|apply mail_off].
  - done.
  - simpl; lia.
  - exists k'. split; [exact E|]. rewrite Ht. done.
Defined.
