(* ===== verification/Softirq.v ===== *)
(** * Softirq: deferred interrupt work (core/interrupt/softirq.c)

    A handler is called through a pointer; here the calls are recorded, and
    what the handlers do to the pending bits is a parameter. *)
From S2P Require Import Prelude.

Record softirq := Softirq {
  g_softirq_pending : Z;
  calls : list nat }.              (* the indices of the handlers called, last one first *)

Section softirq.
(** The pending bits after handler [h] ran. *)
Variable action : nat -> Z -> Z.

Definition clear_softirq (type : Z) (s : softirq) : softirq :=
  Softirq (Z.land (g_softirq_pending s) (u32 (Z.lnot (Z.shiftl 1 type)))) (calls s).
Definition raise_softirq (type : Z) (s : softirq) : softirq :=
  Softirq (Z.lor (g_softirq_pending s) (u32 (Z.shiftl 1 type))) (calls s).
Definition run_handler (h : nat) (s : softirq) : softirq :=
  Softirq (action h (g_softirq_pending s)) (h :: calls s).

(** One round of the loop: [type] is 0 in every round, [h] goes on. *)
Definition softirq_round (h : nat) (s : softirq) : softirq :=
  if negb (Z.land (g_softirq_pending s) (Z.shiftl 1 0) =? 0)
  then run_handler h (clear_softirq 0 s) else s.
Fixpoint do_softirq_loop (fuel h : nat) : M softirq unit :=
  match fuel with
  | O => stuck
  | S fuel =>
      modify (softirq_round h) ;;;
      s <- get ;;
      if negb (g_softirq_pending s =? 0) then do_softirq_loop fuel (S h) else ret tt
  end.
Definition do_softirq (fuel : nat) : M softirq unit := do_softirq_loop fuel 0.

(** Leaving an interrupt, the interrupt flag aside. *)
Definition irq_exit (fuel : nat) : M softirq unit :=
  s <- get ;;
  when negb (g_softirq_pending s =? 0) do do_softirq fuel.
End softirq.

Lemma clear_first p : 0 <= p -> Z.land p (u32 (Z.lnot (Z.shiftl 1 0))) = 0 -> p < 2 ^ 32 -> p = 0 \/ p = 1.
Proof.
  intros H0 H Hp. assert (forall i, 1 <= i -> Z.testbit p i = false) as Hb.
  { intros i Hi. destruct (Z.lt_ge_cases i 32).
    - assert (Z.testbit (Z.land p (u32 (Z.lnot (Z.shiftl 1 0)))) i = false) as Hf by (rewrite H; apply Z.bits_0).
      rewrite Z.land_spec in Hf. change (u32 (Z.lnot (Z.shiftl 1 0))) with (Z.shiftl (Z.ones 31) 1) in Hf.
      rewrite Z.shiftl_spec, Z.testbit_ones_nonneg in Hf by lia.
      rewrite (proj2 (Z.ltb_lt _ _)), andb_true_r in Hf by lia. done.
    - destruct (Z.eq_dec p 0) as [->|]; [apply Z.bits_0|]. apply Z.bits_above_log2; [done|].
      assert (Z.log2 p < 32); [apply Z.log2_lt_pow2; lia|lia]. }
  assert (p = Z.land p (Z.ones 1)) as E.
  { apply Z.bits_inj'. intros i Hi. rewrite Z.land_spec, Z.testbit_ones_nonneg by lia.
    destruct (Z.ltb_spec i 1); [by rewrite andb_true_r|]. by rewrite Hb, andb_false_r by lia. }
  rewrite Z.land_ones in E by lia. pose proof (Z.mod_pos_bound p (2 ^ 1)). lia.
Qed.

(** With handlers that raise nothing, [do_softirq] ends exactly when bit 0
    is the only one pending; it then has called handler 0 once.  Any other
    pending bit keeps the loop going for ever. *)
Theorem do_softirq_handles_first_only p l :
  0 < p < 2 ^ 32 ->
  (p = 1 -> do_softirq (fun _ q => q) 1 (Softirq p l) = Ok (tt, Softirq 0 (O :: l))) /\
  (p <> 1 -> forall fuel, do_softirq (fun _ q => q) fuel (Softirq p l) = Stuck).
Proof.
  intros Hp. split; [by intros ->|]. intros Hne fuel. unfold do_softirq.
  assert (forall h l q, 0 < q < 2 ^ 32 -> q <> 1 -> do_softirq_loop (fun _ q => q) fuel h (Softirq q l) = Stuck) as H;
    [|by apply H]. clear. induction fuel as [|fuel IH]; intros h l q Hq Hne; [done|].
  cbn [do_softirq_loop]. rewrite modify_bind, get_bind. unfold softirq_round. cbn [g_softirq_pending].
  destruct (Z.land q (Z.shiftl 1 0) =? 0); cbn [negb].
  - cbn [g_softirq_pending]. rewrite (proj2 (Z.eqb_neq q 0)) by lia. by apply IH.
  - cbn [g_softirq_pending run_handler clear_softirq].
    set (q' := Z.land q _). assert (0 <= q' < 2 ^ 32) as Hq'.
    { unfold q'. split; [apply Z.land_nonneg; lia|]. change (u32 _) with (Z.shiftl (Z.ones 31) 1).
      destruct (Z.eq_dec (Z.land q (Z.shiftl (Z.ones 31) 1)) 0) as [->|]; [lia|].
      assert (0 <= Z.land q (Z.shiftl (Z.ones 31) 1)) by (apply Z.land_nonneg; lia).
      apply Z.log2_lt_pow2; [lia|]. pose proof (Z.log2_land q (Z.shiftl (Z.ones 31) 1) ltac:(lia) ltac:(by vm_compute)).
      assert (Z.log2 q < 32) by (apply Z.log2_lt_pow2; lia). lia. }
    assert (q' <> 0) as H0.
    { intros E. pose proof (clear_first q ltac:(lia) E ltac:(lia)). lia. }
    assert (q' <> 1) as H1.
    { intros E. assert (Z.testbit q' 0 = true) as Hb by by rewrite E. unfold q' in Hb. rewrite Z.land_spec in Hb.
      change (Z.testbit (u32 (Z.lnot (Z.shiftl 1 0))) 0) with false in Hb. by rewrite andb_false_r in Hb. }
    rewrite (proj2 (Z.eqb_neq q' 0)) by done. cbn [negb]. apply (IH (S h) (h :: l) q'); [lia|done].
Qed.

Lemma do_softirq_handles_first_only_witness :
  do_softirq (fun _ q => q) 1 (Softirq 1 []) = Ok (tt, Softirq 0 [O]) /\
  do_softirq (fun _ q => q) 1000 (Softirq 2 []) = Stuck.
Proof.
  split.
  - by apply (do_softirq_handles_first_only 1 []).
  - by apply (do_softirq_handles_first_only 2 []).
Defined.
