(* ===== verification/Fs.v ===== *)
(** * Fs: the data of the file system (core/include/fs, core/include/device/ide.h)

    The disk is a function from sector numbers to sectors of 512 bytes;
    [ide_read] and [ide_write] are what the driver of Ide.v does (IdeSpec.v),
    without its ports and interrupts.  Inodes and directory entries have the layout the
    compiler gives the C structures.  Memory that a function takes from
    [sys_malloc] and gives back appears only as the success or failure of the
    call: the state says how the next calls will end. *)
From S2P Require Import Prelude Bitmap.

Definition SECTOR_SIZE : Z := 512.
Definition ZONE_SIZE : Z := SECTOR_SIZE.
Definition BITS_PER_SECTOR : Z := 4096.
Definition MAX_ZONE_COUNT : Z := 140.
Definition MAX_FILE_SIZE : Z := ZONE_SIZE * MAX_ZONE_COUNT.
Definition MAX_FILE_OPEN : Z := 128.
Definition MAX_FILES_OPEN_PER_PROC : Z := 32.
Definition MAX_FILE_NAME_LEN : Z := 16.
Definition FT_UNKOWN : Z := 0.
Definition FT_DIRECTORY : Z := 3.
Definition FT_REGULAR : Z := 5.
Definition O_WRONLY : Z := 1.
Definition O_RDWR : Z := 2.
Inductive bitmap_type := INODE_BITMAP | ZONE_BITMAP.

(** ** The structures *)
Record inode := Inode {
  i_num : Z; i_mode : Z; i_uid : Z; i_size : Z; i_mtime : Z; i_gid : Z; i_nlinks : Z;
  i_zones : list Z;
  i_atime : Z; i_ctime : Z; i_dev : Z; i_count : Z;
  i_lock : Z; i_dirt : Z; i_pipe : Z; i_mount : Z; i_seek : Z; i_update : Z }.
#[export] Instance inode_eq_dec : EqDecision inode.
Proof. solve_decision. Defined.
Definition zero_inode : inode := Inode 0 0 0 0 0 0 0 (replicate 13 0) 0 0 0 0 0 0 0 0 0 0.
Record dir_entry := DirEntry { filename : list Z; i_no : Z; f_type : Z }.
#[export] Instance dir_entry_eq_dec : EqDecision dir_entry.
Proof. solve_decision. Defined.
Record file := File { fd_pos : Z; fd_flag : Z; fd_inode : Z }.
Record super_block := Super {
  s_ninodes : Z; s_imap_lba : Z; s_zmap_lba : Z; s_inode_table_lba : Z; s_inode_table_sz : Z; s_data_start_lba : Z }.

Definition set_num v i := Inode v (i_mode i) (i_uid i) (i_size i) (i_mtime i) (i_gid i) (i_nlinks i) (i_zones i)
  (i_atime i) (i_ctime i) (i_dev i) (i_count i) (i_lock i) (i_dirt i) (i_pipe i) (i_mount i) (i_seek i) (i_update i).
Definition set_mode v i := Inode (i_num i) v (i_uid i) (i_size i) (i_mtime i) (i_gid i) (i_nlinks i) (i_zones i)
  (i_atime i) (i_ctime i) (i_dev i) (i_count i) (i_lock i) (i_dirt i) (i_pipe i) (i_mount i) (i_seek i) (i_update i).
Definition set_size v i := Inode (i_num i) (i_mode i) (i_uid i) v (i_mtime i) (i_gid i) (i_nlinks i) (i_zones i)
  (i_atime i) (i_ctime i) (i_dev i) (i_count i) (i_lock i) (i_dirt i) (i_pipe i) (i_mount i) (i_seek i) (i_update i).
Definition set_zones v i := Inode (i_num i) (i_mode i) (i_uid i) (i_size i) (i_mtime i) (i_gid i) (i_nlinks i) v
  (i_atime i) (i_ctime i) (i_dev i) (i_count i) (i_lock i) (i_dirt i) (i_pipe i) (i_mount i) (i_seek i) (i_update i).
Definition set_count v i := Inode (i_num i) (i_mode i) (i_uid i) (i_size i) (i_mtime i) (i_gid i) (i_nlinks i) (i_zones i)
  (i_atime i) (i_ctime i) (i_dev i) v (i_lock i) (i_dirt i) (i_pipe i) (i_mount i) (i_seek i) (i_update i).
Definition set_ilock v i := Inode (i_num i) (i_mode i) (i_uid i) (i_size i) (i_mtime i) (i_gid i) (i_nlinks i) (i_zones i)
  (i_atime i) (i_ctime i) (i_dev i) (i_count i) v (i_dirt i) (i_pipe i) (i_mount i) (i_seek i) (i_update i).

(** ** Buffers *)
(** The [n] bytes at offset [o]. *)
Definition sub (o n : nat) (l : list Z) : list Z := take n (drop o l).
Definition word (o n : nat) (l : list Z) : Z := of_le (sub o n l).
(** The words of 4 bytes of a buffer. *)
Fixpoint words (n : nat) (l : list Z) : list Z :=
  match n with O => [] | S n => of_le (take 4 l) :: words n (drop 4 l) end.
(** Overwriting at an offset. *)
Definition splice (o : nat) (d l : list Z) : list Z := take o l ++ d ++ drop (o + length d) l.

(** [struct inode] is 100 bytes: 2 of padding after [i_nlinks] and after
    [i_update], and the two links of [inode_tag] at the end, which are null on
    the disk. *)
Definition sizeof_inode : Z := 100.
Definition encode_inode (i : inode) : list Z :=
  le 4 (i_num i) ++ le 2 (i_mode i) ++ le 2 (i_uid i) ++ le 4 (i_size i) ++ le 4 (i_mtime i) ++
  le 1 (i_gid i) ++ le 1 (i_nlinks i) ++ le 2 0 ++ flat_map (le 4) (i_zones i) ++
  le 4 (i_atime i) ++ le 4 (i_ctime i) ++ le 2 (i_dev i) ++ le 2 (i_count i) ++
  le 1 (i_lock i) ++ le 1 (i_dirt i) ++ le 1 (i_pipe i) ++ le 1 (i_mount i) ++ le 1 (i_seek i) ++ le 1 (i_update i) ++
  le 2 0 ++ le 4 0 ++ le 4 0.
Definition decode_inode (l : list Z) : inode :=
  Inode (word 0 4 l) (word 4 2 l) (word 6 2 l) (word 8 4 l) (word 12 4 l) (word 16 1 l) (word 17 1 l)
        (words 13 (drop 20 l)) (word 72 4 l) (word 76 4 l) (word 80 2 l) (word 82 2 l)
        (word 84 1 l) (word 85 1 l) (word 86 1 l) (word 87 1 l) (word 88 1 l) (word 89 1 l).

Definition sizeof_dir_entry : Z := 24.
Definition entries_per_sector : Z := 512 / sizeof_dir_entry.
Definition encode_entry (e : dir_entry) : list Z := filename e ++ le 4 (i_no e) ++ le 4 (f_type e).
Definition decode_entry (l : list Z) : dir_entry := DirEntry (sub 0 16 l) (word 16 4 l) (word 20 4 l).
(** Entry number [k] of a sector. *)
Definition entry_at (k : Z) (buf : list Z) : dir_entry := decode_entry (drop (Z.to_nat (k * sizeof_dir_entry)) buf).
Definition put_entry (k : Z) (e : dir_entry) (buf : list Z) : list Z :=
  splice (Z.to_nat (k * sizeof_dir_entry)) (encode_entry e) buf.
(** [strlen] of a name field. *)
Fixpoint name_length (l : list Z) : Z :=
  match l with [] => 0 | c :: l => if c =? 0 then 0 else 1 + name_length l end.

(** ** The state: the mounted partition, the inodes in memory, the file tables *)
Record fs := Fs {
  disk : Z -> list Z;
  sb : super_block;
  zone_bitmap : bitmap;
  inode_bitmap : bitmap;
  inodes : gmap Z inode;        (* the inodes in memory, by address *)
  open_inodes : list Z;         (* the list of open inodes, first one first *)
  g_file_table : list file;
  fd_table : list Z;            (* of the running thread *)
  ft_locked : bool;             (* [g_ft_lock] is held *)
  mallocs : list bool }.        (* how the next calls of [sys_malloc] end *)

Definition set_disk v s := Fs v (sb s) (zone_bitmap s) (inode_bitmap s) (inodes s) (open_inodes s) (g_file_table s) (fd_table s) (ft_locked s) (mallocs s).
Definition set_zmap v s := Fs (disk s) (sb s) v (inode_bitmap s) (inodes s) (open_inodes s) (g_file_table s) (fd_table s) (ft_locked s) (mallocs s).
Definition set_imap v s := Fs (disk s) (sb s) (zone_bitmap s) v (inodes s) (open_inodes s) (g_file_table s) (fd_table s) (ft_locked s) (mallocs s).
Definition set_inodes v s := Fs (disk s) (sb s) (zone_bitmap s) (inode_bitmap s) v (open_inodes s) (g_file_table s) (fd_table s) (ft_locked s) (mallocs s).
Definition set_open v s := Fs (disk s) (sb s) (zone_bitmap s) (inode_bitmap s) (inodes s) v (g_file_table s) (fd_table s) (ft_locked s) (mallocs s).
Definition set_files v s := Fs (disk s) (sb s) (zone_bitmap s) (inode_bitmap s) (inodes s) (open_inodes s) v (fd_table s) (ft_locked s) (mallocs s).
Definition set_fds v s := Fs (disk s) (sb s) (zone_bitmap s) (inode_bitmap s) (inodes s) (open_inodes s) (g_file_table s) v (ft_locked s) (mallocs s).
Definition set_ftlock v s := Fs (disk s) (sb s) (zone_bitmap s) (inode_bitmap s) (inodes s) (open_inodes s) (g_file_table s) (fd_table s) v (mallocs s).
Definition set_mallocs v s := Fs (disk s) (sb s) (zone_bitmap s) (inode_bitmap s) (inodes s) (open_inodes s) (g_file_table s) (fd_table s) (ft_locked s) v.

(** What the file system relies on: an address for a new inode, and the bytes
    of a stack slot that one function writes to the disk by mistake. *)
Class FsEnv := {
  new_address : gmap Z inode -> Z;
  new_address_fresh m : new_address m <> 0 /\ m !! new_address m = None;
  stack_bytes : list Z
}.

(** ** Primitives *)
Definition sys_malloc_ok : M fs bool :=
  fun s => match mallocs s with
           | [] => Ok (true, s)
           | b :: l => Ok (b, set_mallocs l s)
           end.
Fixpoint sectors (d : Z -> list Z) (lba : Z) (n : nat) : list Z :=
  match n with O => [] | S n => d lba ++ sectors d (u32 (lba + 1)) n end.
Fixpoint put_sectors (d : Z -> list Z) (lba : Z) (n : nat) (buf : list Z) : Z -> list Z :=
  match n with
  | O => d
  | S n => put_sectors (fun a => if a =? lba then take 512 buf else d a) (u32 (lba + 1)) n (drop 512 buf)
  end.
Definition max_lba : Z := 80 * 1024 * 1024 / 512 - 1.
(** The last of the assertions is made for each sector in turn. *)
Definition ide_read (lba sec_cnt : Z) : M fs (list Z) :=
  ASSERT (lba <=? max_lba) ;;; ASSERT (sec_cnt >? 0) ;;; ASSERT (lba + sec_cnt <=? max_lba + 1) ;;;
  gets (fun s => sectors (disk s) lba (Z.to_nat sec_cnt)).
Definition ide_write (lba : Z) (buf : list Z) (sec_cnt : Z) : M fs unit :=
  ASSERT (lba <=? max_lba) ;;; ASSERT (sec_cnt >? 0) ;;; ASSERT (lba + sec_cnt <=? max_lba + 1) ;;;
  modify (fun s => set_disk (put_sectors (disk s) lba (Z.to_nat sec_cnt) buf) s).
(** The inode at an address. *)
Definition inode_at (a : Z) : M fs inode :=
  fun s => match inodes s !! a with Some i => Ok (i, s) | None => Fault end.
Definition upd_inode (a : Z) (f : inode -> inode) : M fs unit :=
  fun s => match inodes s !! a with
           | Some i => Ok (tt, set_inodes (<[a := f i]> (inodes s)) s)
           | None => Fault end.
(** An element of an array; outside it the access faults. *)
Definition elem (l : list Z) (i : Z) : M fs Z :=
  if i <? 0 then fault else match l !! Z.to_nat i with Some x => ret x | None => fault end.
Definition on_zmap {A} (c : M bitmap A) : M fs A := zoom zone_bitmap set_zmap c.
Definition on_imap {A} (c : M bitmap A) : M fs A := zoom inode_bitmap set_imap c.
