(* ===== verification/FsInode.v ===== *)
(** * FsInode: inodes on the disk and in memory (core/fs/inode.c, and the
    bitmap calls of core/fs/file.c) *)
From S2P Require Import Prelude Bitmap Fs.

(** [struct iposition]. *)
Record iposition := Iposition { is_crossed : bool; start_lba : Z; offset : Z }.

Section inodes.
Context {E : FsEnv}.

Definition locale_inode (inode_nr : Z) : M fs iposition :=
  s <- gets sb ;;
  ASSERT (inode_nr <? s_ninodes s) ;;;
  let inode_offset := u32 (inode_nr * sizeof_inode) in
  let inode_in_sect_offset := inode_offset mod SECTOR_SIZE in
  ret (Iposition (SECTOR_SIZE - inode_in_sect_offset <? sizeof_inode)
                 (u32 (s_inode_table_lba s + inode_offset / SECTOR_SIZE)) inode_in_sect_offset).

(** [io_buf] says that the caller's buffer is not null. *)
Definition flush_inode (a : Z) (io_buf : bool) : M fs unit :=
  (when negb io_buf do panic) ;;;
  i <- inode_at a ;;
  pos <- locale_inode (i_num i) ;;
  s <- gets sb ;;
  ASSERT (start_lba pos <=? u32 (s_inode_table_lba s + s_inode_table_sz s)) ;;;
  let target_inode := set_ilock 0 (set_count 0 i) in
  if is_crossed pos then
    buf <- ide_read (start_lba pos) 2 ;;
    ide_write (start_lba pos) (splice (Z.to_nat (offset pos)) (encode_inode target_inode) buf) 2
  else
    buf <- ide_read (start_lba pos) 1 ;;
    ide_write (start_lba pos) (splice (Z.to_nat (offset pos)) (encode_inode target_inode) buf) 1.

Fixpoint find_open_inode (list : list Z) (inode_nr : Z) : M fs Z :=
  match list with
  | [] => ret 0
  | cur :: list =>
      i <- inode_at cur ;;
      if i_num i =? inode_nr then ret cur else find_open_inode list inode_nr
  end.

(** Neither allocation of the C code is checked: without memory it writes
    through a null pointer. *)
Definition inode_open (inode_nr : Z) : M fs Z :=
  open <- gets open_inodes ;;
  target <- find_open_inode open inode_nr ;;
  if negb (target =? 0) then ret target
  else
    pos <- locale_inode inode_nr ;;
    let read_sz := if is_crossed pos then 2 else 1 in
    ok <- sys_malloc_ok ;;
    (when negb ok do fault) ;;;
    ok <- sys_malloc_ok ;;
    (when negb ok do fault) ;;;
    m <- gets inodes ;;
    let target := new_address m in
    buf <- ide_read (start_lba pos) read_sz ;;
    let i := decode_inode (drop (Z.to_nat (offset pos)) buf) in
    modify (fun s => set_inodes (<[target := set_count (u16 (i_count i + 1)) i]> (inodes s)) s) ;;;
    modify (fun s => set_open (target :: open_inodes s) s) ;;;
    ret target.

Definition inode_close (a : Z) : M fs unit :=
  upd_inode a (fun i => set_count (u16 (i_count i - 1)) i) ;;;
  i <- inode_at a ;;
  when i_count i =? 0 do
    (modify (fun s => set_open (filter (fun b => b <> a) (open_inodes s)) s) ;;;
     modify (fun s => set_inodes (delete a (inodes s)) s)).

(** The loop of [new_inode] that clears [i_zones]. *)
Definition new_inode (inode_nr : Z) (i : inode) : inode :=
  set_zones (replicate 13 0) (set_ilock 0 (set_count 0 (set_size 0 (set_num inode_nr i)))).

Definition inode_delete (inode_no : Z) : M fs unit :=
  pos <- locale_inode inode_no ;;
  let zeros := replicate (Z.to_nat sizeof_inode) 0 in
  if is_crossed pos then
    buf <- ide_read (start_lba pos) 2 ;;
    ide_write (start_lba pos) (splice (Z.to_nat (offset pos)) zeros buf) 2
  else
    buf <- ide_read (start_lba pos) 1 ;;
    ide_write (start_lba pos) (splice (Z.to_nat (offset pos)) zeros buf) 1.

(** The leading zones that are not 0, the others of the first twelve being 0. *)
Fixpoint leading (n : nat) (l : list Z) : list Z :=
  match n, l with
  | S n, z :: l => if z =? 0 then replicate (S n) 0 else z :: leading n l
  | n, _ => replicate n 0
  end.
(** [inode_all_zones]: the array of 140 zones, 0 where there is none. *)
Definition inode_all_zones (i : inode) : M fs (list Z) :=
  let direct := leading 12 (i_zones i) in
  z12 <- elem (i_zones i) 12 ;;
  if negb (z12 =? 0) then
    table <- ide_read z12 1 ;;
    ret (direct ++ words 128 table)
  else ret (direct ++ replicate 128 0).

(** ** Allocating, and writing the bitmaps back *)
Definition inode_bitmap_alloc : M fs Z :=
  idx <- on_imap (find_block_bitmap 1) ;;
  if s32 idx =? -1 then ret (-1)
  else on_imap (set_value_bitmap idx 1) ;;; ret (s32 idx).
(** The result of a failure is -1 as a zone number, 0xffffffff. *)
Definition zone_bitmap_alloc : M fs Z :=
  idx <- on_zmap (find_block_bitmap 1) ;;
  if s32 idx =? -1 then ret (u32 (-1))
  else
    on_zmap (set_value_bitmap idx 1) ;;;
    s <- gets sb ;;
    ret (u32 (s_data_start_lba s + idx)).
Definition flush_bitmap (b_type : bitmap_type) (bit_idx : Z) : M fs unit :=
  let off_sce := bit_idx / BITS_PER_SECTOR in
  let off_size := Z.to_nat (off_sce * ZONE_SIZE) in
  s <- get ;;
  match b_type with
  | INODE_BITMAP => ide_write (u32 (s_imap_lba (sb s) + off_sce)) (drop off_size (bits (inode_bitmap s))) 1
  | ZONE_BITMAP => ide_write (u32 (s_zmap_lba (sb s) + off_sce)) (drop off_size (bits (zone_bitmap s))) 1
  end.

(** Giving the zones of a list back, up to the first 0. *)
Fixpoint release_zones (n : nat) (zones : list Z) (last : Z) : M fs Z :=
  match n, zones with
  | O, _ => ret last
  | S _, [] => fault
  | S n, z :: zones =>
      if z =? 0 then ret last
      else
        s <- gets sb ;;
        let zone_bitmap_idx := u32 (z - s_data_start_lba s) in
        ASSERT (zone_bitmap_idx >? 0) ;;;
        on_zmap (set_value_bitmap zone_bitmap_idx 0) ;;;
        flush_bitmap ZONE_BITMAP zone_bitmap_idx ;;;
        release_zones n zones zone_bitmap_idx
  end.
(** The array of [inode_release] has 141 places, the last one 0; the bit that
    is flushed after the inode's own is cleared is that of the last zone (0
    here when there is none, where the C variable has no value). *)
Definition inode_release (inode_nr : Z) : M fs unit :=
  a <- inode_open inode_nr ;;
  i <- inode_at a ;;
  all_zones <- inode_all_zones i ;;
  idx <- release_zones 141 (all_zones ++ [0]) 0 ;;
  z12 <- elem (i_zones i) 12 ;;
  idx <- (if negb (z12 =? 0) then
            s <- gets sb ;;
            let zone_bitmap_idx := u32 (z12 - s_data_start_lba s) in
            ASSERT (zone_bitmap_idx >? 0) ;;;
            on_zmap (set_value_bitmap zone_bitmap_idx 0) ;;;
            flush_bitmap ZONE_BITMAP zone_bitmap_idx ;;;
            ret zone_bitmap_idx
          else ret idx) ;;
  on_imap (set_value_bitmap inode_nr 0) ;;;
  flush_bitmap INODE_BITMAP idx ;;;
  sys_malloc_ok ;;;
  inode_delete inode_nr ;;;
  inode_close a.
End inodes.
