(* ===== verification/FsDir.v ===== *)
(** * FsDir: directories (core/fs/dir.c)

    A directory is an inode whose zones hold entries of 24 bytes; a [struct
    dir] is here the address of its inode, with [dir_pos] where it matters. *)
From S2P Require Import Prelude Bitmap Fs FsInode.

Section directories.
Context {E : FsEnv}.

(** [!strncmp(entry.filename, name, strlen(name))]. *)
Definition same_name (e : dir_entry) (name : list Z) : bool :=
  bool_decide (take (length name) (encode_entry e) = name).

(** The inner loop over the entries of one sector: the entry found, or how the
    loop ended. *)
Fixpoint search_sector (n : nat) (k : Z) (name : list Z) (buf : list Z) : option dir_entry :=
  match n with
  | O => None
  | S n =>
      let entry := entry_at k buf in
      if same_name entry name then Some entry
      else if name_length (filename entry) <=? 0 then None
      else search_sector n (k + 1) name buf
  end.
(** All 140 places are read, those without a zone as sector 0. *)
Fixpoint search_zones (n : nat) (i : Z) (name : list Z) (all_zones : list Z) : M fs (option dir_entry) :=
  match n with
  | O => ret None
  | S n =>
      d_entry_lba <- elem all_zones i ;;
      buf <- ide_read d_entry_lba 1 ;;
      match search_sector (Z.to_nat entries_per_sector) 0 name buf with
      | Some entry => ret (Some entry)
      | None => search_zones n (i + 1) name all_zones
      end
  end.
(** [z_idx] never gets beyond 12, so the second-layer table is never read. *)
Definition search_dir_entry (name : list Z) (d : Z) : M fs (option dir_entry) :=
  ok <- sys_malloc_ok ;;
  (when negb ok do panic) ;;;
  i <- inode_at d ;;
  let all_zones := leading 12 (i_zones i) ++ replicate 128 0 in
  ok <- sys_malloc_ok ;;
  (when negb ok do fault) ;;;
  search_zones 140 0 name all_zones.

(** The loop over the entries always leaves after the first one. *)
Fixpoint search_inodenr (n : nat) (i inode_nr : Z) (all_zones : list Z) : M fs (option dir_entry) :=
  match n with
  | O => ret None
  | S n =>
      d_entry_lba <- elem all_zones i ;;
      buf <- ide_read d_entry_lba 1 ;;
      let entry := entry_at 0 buf in
      if i_no entry =? inode_nr then ret (Some entry)
      else search_inodenr n (i + 1) inode_nr all_zones
  end.
(** Both ways out give the array, which is on the stack, to [sys_free]. *)
Definition search_dir_entry_by_inodenr (inode_nr d : Z) : M fs (option dir_entry) :=
  i <- inode_at d ;;
  all_zones <- inode_all_zones i ;;
  ok <- sys_malloc_ok ;;
  (when negb ok do fault) ;;;
  r <- search_inodenr 140 0 inode_nr all_zones ;;
  fault.

Definition dir_open (inode_nr : Z) : M fs Z :=
  ok <- sys_malloc_ok ;;
  (when negb ok do fault) ;;;
  inode_open inode_nr.
(** [root] says that [d] is [root_dir], which is never closed. *)
Definition dir_close (root : bool) (d : Z) : M fs unit :=
  when negb root do inode_close d.

Definition new_dir_entry (name : list Z) (inode_nr file_type : Z) : M fs dir_entry :=
  ASSERT (Z.of_nat (length name) <? MAX_FILE_NAME_LEN) ;;;
  ret (DirEntry (name ++ replicate (16 - length name) 0) inode_nr file_type).

(** A place for a new entry in a sector. *)
Definition free_entry (e : dir_entry) : bool := (name_length (filename e) =? 0) && (f_type e =? FT_UNKOWN).
Fixpoint find_free (n : nat) (k : Z) (buf : list Z) : option Z :=
  match n with
  | O => None
  | S n => if free_entry (entry_at k buf) then Some k else find_free n (k + 1) buf
  end.

(** The loop of [flush_dir_entry]; [i] is [zones_idx].  A zone that is
    allocated for one of the first twelve places is not used in its own round;
    the branch of the indirect table is taken for zone number 12 instead of
    index 12. *)
Fixpoint flush_loop (n : nat) (i : Z) (p_dir : Z) (new_entry : dir_entry) (all_zones : list Z) : M fs Z :=
  match n with
  | O => ret (-1)
  | S n =>
      z <- elem all_zones i ;;
      if z =? 0 then
        zone_lba <- zone_bitmap_alloc ;;
        ASSERT (negb (zone_lba =? u32 (-1))) ;;;
        s <- gets sb ;;
        flush_bitmap ZONE_BITMAP (u32 (zone_lba - s_data_start_lba s)) ;;;
        if i <? 12 then
          upd_inode p_dir (fun d => set_zones (<[Z.to_nat i := zone_lba]> (i_zones d)) d) ;;;
          flush_loop n (i + 1) p_dir new_entry (<[Z.to_nat i := zone_lba]> all_zones)
        else if zone_lba =? 12 then
          upd_inode p_dir (fun d => set_zones (<[12%nat := zone_lba]> (i_zones d)) d) ;;;
          zone_lba2 <- zone_bitmap_alloc ;;
          if zone_lba2 =? u32 (-1) then
            on_zmap (set_value_bitmap (u32 (zone_lba - s_data_start_lba s)) 0) ;;;
            upd_inode p_dir (fun d => set_zones (<[12%nat := 0]> (i_zones d)) d) ;;;
            panic
          else
            flush_bitmap ZONE_BITMAP (u32 (zone_lba - s_data_start_lba s)) ;;;
            let all_zones := <[12%nat := zone_lba2]> all_zones in
            ide_write zone_lba (flat_map (le 4) (drop 12 all_zones)) 1 ;;;
            t <- elem all_zones i ;;
            ide_write t (splice 0 (encode_entry new_entry) (replicate 512 0)) 1 ;;;
            upd_inode p_dir (fun d => set_size (u32 (i_size d + sizeof_dir_entry)) d) ;;;
            ret 0
        else flush_loop n (i + 1) p_dir new_entry all_zones
      else
        buf <- ide_read z 1 ;;
        match find_free (Z.to_nat entries_per_sector) 0 buf with
        | Some k =>
            ide_write z (put_entry k new_entry buf) 1 ;;;
            upd_inode p_dir (fun d => set_size (u32 (i_size d + sizeof_dir_entry)) d) ;;;
            ret 0
        | None => flush_loop n (i + 1) p_dir new_entry all_zones
        end
  end.
Definition flush_dir_entry (p_dir : Z) (new_entry : dir_entry) : M fs Z :=
  d <- inode_at p_dir ;;
  z12 <- elem (i_zones d) 12 ;;
  table <- (if negb (z12 =? 0) then
              buf <- ide_read z12 1 ;; ret (words 128 buf)
            else ret (replicate 128 0)) ;;
  flush_loop 140 0 p_dir new_entry (take 12 (i_zones d) ++ table).

(** The scan of one sector by [delete_dir_entry]: the last entry with the
    inode number, and how many entries are not "." or "..". *)
Definition is_dots (e : dir_entry) : bool :=
  bool_decide (take (Z.to_nat (name_length (filename e))) (filename e) = [46]) ||
  bool_decide (take (Z.to_nat (name_length (filename e))) (filename e) = [46; 46]).
Fixpoint scan_sector (n : nat) (k inode_nr : Z) (buf : list Z) (zone_link : Z) (found : option Z) : Z * option Z :=
  match n with
  | O => (zone_link, found)
  | S n =>
      let entry := entry_at k buf in
      let zone_link := if is_dots entry then zone_link else zone_link + 1 in
      let found := if i_no entry =? inode_nr then Some k else found in
      scan_sector n (k + 1) inode_nr buf zone_link found
  end.
(** The loop over the zones.  [found_entry] stays set for the zones after the
    one where the entry was found: it then points into the buffer as it is
    filled with each later zone.  The copy of the entry to the null pointer
    [target_entry] is left out. *)
Fixpoint delete_loop (n : nat) (i pdir inode_nr : Z) (all_zones : list Z) (found : option Z) : M fs unit :=
  match n with
  | O => ret tt
  | S n =>
      z <- elem all_zones i ;;
      buf <- ide_read z 1 ;;
      let '(zone_link, found) := scan_sector (Z.to_nat entries_per_sector) 0 inode_nr buf 0 found in
      match found with
      | None => delete_loop n (i + 1) pdir inode_nr all_zones found
      | Some k =>
          d <- inode_at pdir ;;
          s <- gets sb ;;
          all_zones <-
            (if zone_link =? 0 then
               on_zmap (set_value_bitmap 1 0) ;;;
               flush_bitmap ZONE_BITMAP (u32 (z - s_data_start_lba s)) ;;;
               if i <? 12 then
                 upd_inode pdir (fun d => set_zones (<[Z.to_nat i := 0]> (i_zones d)) d) ;;;
                 ret all_zones
               else
                 let cnt := Z.of_nat (length (filter (fun z => z <> 0) (drop 12 all_zones))) in
                 ASSERT (cnt >=? 1) ;;;
                 z12 <- elem (i_zones d) 12 ;;
                 if cnt >? 1 then
                   let all_zones := <[Z.to_nat i := 0]> all_zones in
                   ide_write z12 (flat_map (le 4) (drop 12 all_zones)) 1 ;;;
                   ret all_zones
                 else
                   on_zmap (set_value_bitmap (u32 (z12 - s_data_start_lba s)) 0) ;;;
                   flush_bitmap ZONE_BITMAP (u32 (z12 - s_data_start_lba s)) ;;;
                   upd_inode pdir (fun d => set_zones (<[12%nat := 0]> (i_zones d)) d) ;;;
                   ret all_zones
             else
               ide_write z (splice (Z.to_nat (k * sizeof_dir_entry)) (replicate 24 0) buf) 1 ;;;
               ret all_zones) ;;
          upd_inode pdir (fun d => set_size (u32 (i_size d - sizeof_dir_entry)) d) ;;;
          flush_inode pdir true ;;;
          delete_loop n (i + 1) pdir inode_nr all_zones found
      end
  end.
Definition delete_dir_entry (pdir inode_nr : Z) : M fs unit :=
  d <- inode_at pdir ;;
  all_zones <- inode_all_zones d ;;
  delete_loop 140 0 pdir inode_nr all_zones None.

(** [read_dir]: the next entry and the new [dir_pos]. *)
Fixpoint read_loop (n : nat) (zone_idx entry_idx dir_pos : Z) (all_zones : list Z) : M fs (option dir_entry * Z) :=
  match n with
  | O => fault
  | S n =>
      z <- elem all_zones zone_idx ;;
      if z =? 0 then ret (None, dir_pos)
      else
        buf <- ide_read z 1 ;;
        let entry := entry_at entry_idx buf in
        if (entry_idx <? entries_per_sector) && negb ((i_no entry =? 0) && (name_length (filename entry) =? 0))
        then ret (Some entry, u32 (dir_pos + sizeof_dir_entry))
        else read_loop n (zone_idx + 1) entry_idx dir_pos all_zones
  end.
Definition read_dir (d dir_pos : Z) : M fs (option dir_entry * Z) :=
  ok <- sys_malloc_ok ;;
  if negb ok then ret (None, dir_pos)
  else
    i <- inode_at d ;;
    all_zones <- inode_all_zones i ;;
    let nr := dir_pos / sizeof_dir_entry in
    read_loop 141 (nr / entries_per_sector) (nr mod entries_per_sector) dir_pos all_zones.

Definition dir_is_empty (d : Z) : M fs bool :=
  i <- inode_at d ;; ret (i_size i =? sizeof_dir_entry * 2).

Definition dir_remove (parent_dir child_dir : Z) : M fs Z :=
  c <- inode_at child_dir ;;
  ASSERT (forallb (fun z => z =? 0) (drop 1 (i_zones c))) ;;;
  ok <- sys_malloc_ok ;;
  if negb ok then ret (-1)
  else
    delete_dir_entry parent_dir (i_num c) ;;;
    inode_release (i_num c) ;;;
    ret 0.
End directories.
