(* ===== verification/FsFile.v ===== *)
(** * FsFile: files (core/fs/file.c)

    A caller's buffer is a list of bytes; reading gives back the bytes and the
    result, writing takes the bytes that are at the buffer's address. *)
From S2P Require Import Prelude Bitmap Fs FsInode FsDir.

Section files.
Context {E : FsEnv}.

(** ** Descriptors *)
Definition fd_local2global (local_fd : Z) : M fs Z :=
  t <- gets fd_table ;;
  g_fd <- elem t local_fd ;;
  ASSERT ((g_fd >=? 0) && (g_fd <? MAX_FILE_OPEN)) ;;;
  ret g_fd.
Definition get_file (local_fd : Z) : M fs Z := fd_local2global local_fd.

Fixpoint free_slot (l : list file) (idx : Z) : Z :=
  match l with
  | [] => -1
  | f :: l => if fd_inode f =? 0 then idx else free_slot l (idx + 1)
  end.
Definition occupy_file_table_slot : M fs Z := gets (fun s => free_slot (g_file_table s) 0).
Definition set_slot (idx : Z) (f : file -> file) : M fs unit :=
  modify (fun s => set_files (alter f (Z.to_nat idx) (g_file_table s)) s).

Fixpoint free_fd (l : list Z) (idx : Z) : Z :=
  match l with
  | [] => -1
  | x :: l => if x =? -1 then idx else free_fd l (idx + 1)
  end.
Definition install_thread_fd (fd : Z) : M fs Z :=
  t <- gets fd_table ;;
  let fd_idx := free_fd (drop 3 t) 3 in
  if fd_idx =? -1 then ret (-1)
  else modify (set_fds (<[Z.to_nat fd_idx := fd]> t)) ;;; ret fd_idx.

(** [g_ft_lock]: taking it while it is held blocks for ever when its holder
    never gives it back. *)
Definition lock_files : M fs unit :=
  b <- gets ft_locked ;; if b : bool then stuck else modify (set_ftlock true).
Definition unlock_files : M fs unit := modify (set_ftlock false).

(** ** Creating, opening, closing *)
(** Step 2 of the rollback frees the inode, step 3 clears the slot first; the
    bit of the inode is cleared in memory. *)
Definition roll_back (step : Z) (inode_nr fd_idx inode_a : Z) : M fs Z :=
  (when step >=? 3 do set_slot fd_idx (fun _ => File 0 0 0)) ;;;
  (when step >=? 2 do modify (fun s => set_inodes (delete inode_a (inodes s)) s)) ;;;
  on_imap (set_value_bitmap inode_nr 0) ;;;
  ret (-1).
Definition file_create (parent_d : Z) (name : list Z) (flag : Z) : M fs Z :=
  ok <- sys_malloc_ok ;;
  if negb ok then ret (-1)
  else
    inode_nr <- inode_bitmap_alloc ;;
    if inode_nr =? -1 then ret (-1)
    else
      ok <- sys_malloc_ok ;;
      if negb ok then roll_back 1 inode_nr 0 0
      else
        m <- gets inodes ;;
        let a := new_address m in
        modify (fun s => set_inodes (<[a := new_inode inode_nr zero_inode]> (inodes s)) s) ;;;
        upd_inode a (set_mode (Z.shiftl FT_REGULAR 11)) ;;;
        new_entry <- new_dir_entry name inode_nr FT_REGULAR ;;
        lock_files ;;;
        fd_idx <- occupy_file_table_slot ;;
        if fd_idx =? -1 then roll_back 2 inode_nr fd_idx a
        else
          set_slot fd_idx (fun f => File 0 flag a) ;;;
          upd_inode a (set_ilock 0) ;;;
          unlock_files ;;;
          r <- flush_dir_entry parent_d new_entry ;;
          if negb (r =? 0) then roll_back 3 inode_nr fd_idx a
          else
            flush_inode parent_d true ;;;
            flush_inode a true ;;;
            flush_bitmap INODE_BITMAP inode_nr ;;;
            modify (fun s => set_open (a :: open_inodes s) s) ;;;
            install_thread_fd fd_idx.

Definition file_open (inode_nr flags : Z) : M fs Z :=
  lock_files ;;;
  gidx <- occupy_file_table_slot ;;
  if gidx =? -1 then ret (-1)
  else
    a <- inode_open inode_nr ;;
    set_slot gidx (fun _ => File 0 flags a) ;;;
    unlock_files ;;;
    if negb (Z.land flags O_WRONLY =? 0) || negb (Z.land flags O_RDWR =? 0) then
      i <- inode_at a ;;
      if i_lock i =? 0 then upd_inode a (set_ilock 1) ;;; install_thread_fd gidx
      else ret (-1)
    else install_thread_fd gidx.

(** [file] is an index of the file table. *)
Definition file_at (idx : Z) : M fs file :=
  fun s => match g_file_table s !! Z.to_nat idx with Some f => Ok (f, s) | None => Fault end.
Definition file_close (idx : Z) : M fs Z :=
  f <- file_at idx ;;
  upd_inode (fd_inode f) (set_ilock 0) ;;;
  inode_close (fd_inode f) ;;;
  set_slot idx (fun f => File (fd_pos f) (fd_flag f) 0) ;;;
  ret 0.

(** ** Writing *)
Definition advance (idx n : Z) : M fs unit := set_slot idx (fun f => File (u32 (fd_pos f + n)) (fd_flag f) (fd_inode f)).
(** [buf] is what is left of the caller's bytes at [*w_cursor]; the result is
    the number of bytes written, or -1. *)
Definition write_zone (idx chunk_rest zone_lba : Z) (is_last_turn : bool) (buf : list Z) : M fs Z :=
  if (chunk_rest >? 0) && is_last_turn then
    ok <- sys_malloc_ok ;;
    if negb ok then ret (-1)
    else
      ide_write zone_lba (splice 0 (take (Z.to_nat chunk_rest) buf) (replicate 512 0)) 1 ;;;
      advance idx chunk_rest ;;;
      ret chunk_rest
  else
    ide_write zone_lba buf 1 ;;;
    advance idx ZONE_SIZE ;;;
    ret ZONE_SIZE.
(** A full zone is written from the address of the pointer [w_cursor] itself. *)
Definition rewrite_zone (idx chunk_rest zone_lba : Z) (is_last_turn : bool) (buf : list Z) : M fs Z :=
  if (chunk_rest >? 0) && is_last_turn then
    ok <- sys_malloc_ok ;;
    if negb ok then ret (-1)
    else
      old <- ide_read zone_lba 1 ;;
      ide_write zone_lba (splice 0 (take (Z.to_nat chunk_rest) buf) old) 1 ;;;
      advance idx chunk_rest ;;;
      ret chunk_rest
  else
    ide_write zone_lba stack_bytes 1 ;;;
    advance idx ZONE_SIZE ;;;
    ret ZONE_SIZE.

(** A zone for place [k] of the file, entered into the inode or its table:
    its number, or [None] when the zones or the memory are used up. *)
Definition alloc_zone (a k : Z) : M fs (option Z) :=
  zone_lba <- zone_bitmap_alloc ;;
  if zone_lba =? u32 (-1) then ret None
  else
    s <- gets sb ;;
    flush_bitmap ZONE_BITMAP (u32 (zone_lba - s_data_start_lba s)) ;;;
    if k <? 12 then
      upd_inode a (fun i => set_zones (<[Z.to_nat k := zone_lba]> (i_zones i)) i) ;;;
      ret (Some zone_lba)
    else
      zone_lba <-
        (if k =? 12 then
           upd_inode a (fun i => set_zones (<[12%nat := zone_lba]> (i_zones i)) i) ;;;
           zone_lba <- zone_bitmap_alloc ;;
           if zone_lba =? u32 (-1) then ret zone_lba
           else flush_bitmap ZONE_BITMAP (u32 (zone_lba - s_data_start_lba s)) ;;; ret zone_lba
         else ret zone_lba) ;;
      if zone_lba =? u32 (-1) then ret None
      else
        ok <- sys_malloc_ok ;;
        if negb ok then ret None
        else
          i <- inode_at a ;;
          z12 <- elem (i_zones i) 12 ;;
          table <- ide_read z12 1 ;;
          ide_write z12 (splice (Z.to_nat ((k - 12) * 4)) (le 4 zone_lba) table) 1 ;;;
          ret (Some zone_lba).

(** The loop over the chunks from number [i] on; the result is the number of
    bytes written, or [None] for a failure. *)
Fixpoint write_chunks (n : nat) (i : Z) (idx a zone_idx chunk_cnt chunk_rest : Z) (all_zones : list Z)
    (buf : list Z) (written : Z) : M fs (option Z) :=
  match n with
  | O => ret (Some written)
  | S n =>
      z <- elem all_zones (zone_idx + i) ;;
      let is_last_turn := i =? chunk_cnt - 1 in
      w <- (if z =? 0 then
              zone <- alloc_zone a (zone_idx + i) ;;
              match zone with
              | Some zone_lba => write_zone idx chunk_rest zone_lba is_last_turn buf
              | None => ret (-1)
              end
            else rewrite_zone idx chunk_rest z is_last_turn buf) ;;
      if w =? -1 then ret None
      else write_chunks n (i + 1) idx a zone_idx chunk_cnt chunk_rest all_zones (drop (Z.to_nat w) buf) (written + w)
  end.

(** The first place without a zone. *)
Fixpoint first_empty (n : nat) (i : Z) (all_zones : list Z) : M fs Z :=
  z <- elem all_zones i ;;
  if z =? 0 then ret i
  else match n with
       | O => ret i
       | S n => first_empty n (i + 1) all_zones
       end.

Definition file_write (idx : Z) (buf : list Z) (write_len : Z) : M fs Z :=
  f <- file_at idx ;;
  if negb (fd_pos f <? MAX_FILE_SIZE + 1) then ret (-1)
  else
    let count := if u32 (fd_pos f + write_len) >? MAX_FILE_SIZE then MAX_FILE_SIZE - fd_pos f else write_len in
    ok <- sys_malloc_ok ;;
    if negb ok then ret (-1)
    else
      let a := fd_inode f in
      i <- inode_at a ;;
      z12 <- elem (i_zones i) 12 ;;
      (when negb (z12 =? 0) do (ok <- sys_malloc_ok ;; when negb ok do fault)) ;;;
      all_zones <- inode_all_zones i ;;
      let zone_idx := (fd_pos f + ZONE_SIZE - 1) / ZONE_SIZE in
      z <- (if fd_pos f =? i_size i then elem all_zones zone_idx else ret 1) ;;
      p <- (if z =? 0 then
              k <- first_empty 140 0 all_zones ;; ret (k, i_size i mod ZONE_SIZE)
            else ret (zone_idx, fd_pos f mod ZONE_SIZE)) ;;
      let '(zone_idx, rest_sz) := p in
      let room := ZONE_SIZE - rest_sz in
      let need_filled_sz := if rest_sz =? 0 then 0 else if count <=? room then count else room in
      let chunk_cnt := if (negb (rest_sz =? 0)) && (count <=? room) then 0
                       else (count - need_filled_sz + ZONE_SIZE - 1) / ZONE_SIZE in
      let chunk_rest := (count - need_filled_sz) mod ZONE_SIZE in
      (when negb (rest_sz =? 0) do
         (zone_lba <- elem all_zones (zone_idx - 1) ;;
          io <- ide_read zone_lba 1 ;;
          ide_write zone_lba (splice (Z.to_nat rest_sz) (take (Z.to_nat need_filled_sz) buf) io) 1 ;;;
          advance idx need_filled_sz)) ;;;
      r <- write_chunks (Z.to_nat chunk_cnt) 0 idx a zone_idx chunk_cnt chunk_rest all_zones
             (drop (Z.to_nat need_filled_sz) buf) need_filled_sz ;;
      match r with
      | None => ret (-1)
      | Some bytes_written =>
          f <- file_at idx ;;
          upd_inode a (fun i => set_size (Z.max (fd_pos f) (i_size i)) i) ;;;
          flush_inode a true ;;;
          ret bytes_written
      end.

(** ** Reading *)
(** [memcpy] out of the sector buffer; beyond its end the access faults. *)
Definition copy_out (io_buf : list Z) (off len : Z) : M fs (list Z) :=
  if off + len >? Z.of_nat (length io_buf) then fault else ret (sub (Z.to_nat off) (Z.to_nat len) io_buf).
Fixpoint read_chunks (n : nat) (i : Z) (idx rd_zone_idx rd_count rd_count_offset rd_zone_offset : Z)
    (all_zones : list Z) (out : list Z) : M fs (list Z) :=
  match n with
  | O => ret out
  | S n =>
      r_lba <- elem all_zones (rd_zone_idx + i) ;;
      io_buf <- ide_read r_lba 1 ;;
      let len := if rd_zone_offset >? 0 then ZONE_SIZE - rd_zone_offset
                 else if (i =? rd_count - 1) && negb (rd_count_offset =? 0) then rd_count_offset
                 else ZONE_SIZE in
      d <- copy_out io_buf rd_zone_offset len ;;
      advance idx len ;;;
      read_chunks n (i + 1) idx rd_zone_idx rd_count rd_count_offset 0 all_zones (out ++ d)
  end.
Definition file_read (idx count : Z) : M fs (list Z * Z) :=
  ok <- sys_malloc_ok ;;
  if negb ok then ret ([], -1)
  else
    f <- file_at idx ;;
    i <- inode_at (fd_inode f) ;;
    let EOF := i_size i + 1 in
    ASSERT (fd_pos f <=? EOF) ;;;
    if fd_pos f >=? EOF then ret ([], -1)
    else
      let f_left_sz := u32 (i_size i - fd_pos f) in
      let rd_len := Z.min f_left_sz count in
      all_zones <- inode_all_zones i ;;
      let rd_zone_idx := fd_pos f / ZONE_SIZE in
      if rd_zone_idx >=? 140 then ret ([], -1)
      else
        let rd_zone_offset := fd_pos f mod ZONE_SIZE in
        if rd_len <? ZONE_SIZE then
          r_lba <- elem all_zones rd_zone_idx ;;
          io_buf <- ide_read r_lba 1 ;;
          d <- copy_out io_buf rd_zone_offset rd_len ;;
          advance idx rd_len ;;;
          ret (d, rd_len)
        else
          let rd_count := (rd_len + ZONE_SIZE - 1) / ZONE_SIZE in
          out <- read_chunks (Z.to_nat rd_count) 0 idx rd_zone_idx rd_count (rd_len mod ZONE_SIZE) rd_zone_offset all_zones [] ;;
          ret (out, rd_len).
End files.
