(* ===== verification/FsProofs.v ===== *)
(** * FsProofs: bytes, inodes on the disk *)
From S2P Require Import Prelude Bitmap Fs FsInode FsDir FsFile.

Section bytes.
Implicit Types (l d : list Z).

Lemma sub_length o n l : (o + n <= length l)%nat -> length (sub o n l) = n.
Proof. intros H. unfold sub. rewrite length_take, length_drop. lia. Qed.
Lemma sub_app_l o n l1 l2 : (o + n <= length l1)%nat -> sub o n (l1 ++ l2) = sub o n l1.
Proof.
  intros H. unfold sub. rewrite drop_app_le by lia. apply take_app_le. rewrite length_drop. lia.
Qed.
Lemma sub_app_r o n l1 l2 : (length l1 <= o)%nat -> sub o n (l1 ++ l2) = sub (o - length l1) n l2.
Proof. intros H. unfold sub. by rewrite drop_app_ge. Qed.
Lemma sub_all n l : n = length l -> sub 0 n l = l.
Proof. intros ->. apply firstn_all. Qed.

Lemma splice_length o d l : (o + length d <= length l)%nat -> length (splice o d l) = length l.
Proof. intros H. unfold splice. rewrite !length_app, length_take, length_drop. lia. Qed.
Lemma splice_lookup o d l k : (o + length d <= length l)%nat ->
  splice o d l !! k = if decide (o <= k < o + length d)%nat then d !! (k - o)%nat else l !! k.
Proof.
  intros H. unfold splice. case_decide as Hk.
  - rewrite lookup_app_r by (rewrite length_take; lia). rewrite length_take.
    rewrite lookup_app_l by lia. f_equal. lia.
  - destruct (decide (k < o)%nat).
    + rewrite lookup_app_l by (rewrite length_take; lia). by apply lookup_take_lt.
    + rewrite lookup_app_r by (rewrite length_take; lia). rewrite length_take.
      rewrite lookup_app_r by lia. rewrite lookup_drop. f_equal. lia.
Qed.
Lemma words_app n l1 l2 zs : l1 = flat_map (le 4) zs -> length zs = n ->
  Forall (fun z => 0 <= z < 2 ^ 32) zs -> words n (l1 ++ l2) = zs.
Proof.
  intros -> <-. induction 1 as [|z zs Hz _ IH]; [done|]. cbn [flat_map words length].
  rewrite <-app_assoc, take_app_length' by (by rewrite le_length). rewrite drop_app_length' by (by rewrite le_length).
  rewrite IH. f_equal. by apply (le_of_le 4).
Qed.
Lemma flat_le_length zs : length (flat_map (le 4) zs) = (4 * length zs)%nat.
Proof. induction zs as [|z zs IH]; [done|]. cbn [flat_map]. rewrite length_app, le_length, IH. simpl. lia. Qed.
End bytes.

(** ** Inodes as bytes *)
Record inode_ok (i : inode) : Prop := {
  io_num : 0 <= i_num i < 2 ^ 32; io_mode : 0 <= i_mode i < 2 ^ 16; io_uid : 0 <= i_uid i < 2 ^ 16;
  io_size : 0 <= i_size i < 2 ^ 32; io_mtime : 0 <= i_mtime i < 2 ^ 32; io_gid : 0 <= i_gid i < 256;
  io_nlinks : 0 <= i_nlinks i < 256; io_zones : length (i_zones i) = 13%nat;
  io_zrange : Forall (fun z => 0 <= z < 2 ^ 32) (i_zones i);
  io_atime : 0 <= i_atime i < 2 ^ 32; io_ctime : 0 <= i_ctime i < 2 ^ 32; io_dev : 0 <= i_dev i < 2 ^ 16;
  io_count : 0 <= i_count i < 2 ^ 16; io_lock : 0 <= i_lock i < 256; io_dirt : 0 <= i_dirt i < 256;
  io_pipe : 0 <= i_pipe i < 256; io_mount : 0 <= i_mount i < 256; io_seek : 0 <= i_seek i < 256;
  io_update : 0 <= i_update i < 256
}.

Section codec.
Lemma encode_length i : length (i_zones i) = 13%nat -> length (encode_inode i) = 100%nat.
Proof.
  intros H. unfold encode_inode. rewrite !length_app, !le_length, flat_le_length, H. done.
Qed.
Lemma decode_encode i : inode_ok i -> decode_inode (encode_inode i) = i.
Proof.
  intros []. destruct i as [num mode uid size mtime gid nl zones at_ ct dev cnt lck dirt pipe mnt seek upd]. cbn in * |-.
  unfold decode_inode, encode_inode. cbn [i_num i_mode i_uid i_size i_mtime i_gid i_nlinks i_zones i_atime i_ctime i_dev
    i_count i_lock i_dirt i_pipe i_mount i_seek i_update].
  assert (length (flat_map (le 4) zones) = 52%nat) as Hz by (rewrite flat_le_length; lia).
  f_equal.
  all: try (unfold word;
    repeat (rewrite sub_app_r by (rewrite ?le_length, ?Hz; lia); rewrite ?le_length, ?Hz; cbn [Nat.sub]);
    rewrite sub_app_l by (rewrite le_length; lia); rewrite sub_all by (by rewrite le_length);
    apply le_of_le; simpl; lia).
  repeat (rewrite drop_app_ge by (rewrite ?le_length; lia); rewrite ?le_length; cbn [Nat.sub]).
  rewrite drop_0. by apply words_app.
Qed.
End codec.

(** ** Sectors and bytes of the disk *)
Section sectors.
Implicit Types (d : Z -> list Z) (lba : Z).

Definition disk_ok d : Prop := forall a, length (d a) = 512%nat.
(** Byte [k] of the disk, counted from sector [t] on. *)
Definition byte_of d (t k : Z) : Z := default 0 (d (t + k / 512) !! Z.to_nat (k mod 512)).

Lemma sectors_length d lba n : disk_ok d -> length (sectors d lba n) = (512 * n)%nat.
Proof. intros Hd. revert lba. induction n as [|n IH]; intros lba; [done|]. simpl. rewrite length_app, IH, Hd. lia. Qed.
Lemma sectors_lookup d lba n j : disk_ok d -> 0 <= lba -> lba + Z.of_nat n < 2 ^ 32 -> (j < 512 * n)%nat ->
  sectors d lba n !! j = d (lba + Z.of_nat j / 512) !! Z.to_nat (Z.of_nat j mod 512).
Proof.
  intros Hd. revert lba j. induction n as [|n IH]; intros lba j H0 Hl Hj; [lia|]. cbn [sectors].
  destruct (decide (j < 512)%nat).
  - rewrite lookup_app_l by (rewrite Hd; lia). rewrite Z.div_small, Z.mod_small, Nat2Z.id, Z.add_0_r by lia. done.
  - rewrite lookup_app_r by (rewrite Hd; lia). rewrite Hd, u32_small by lia. rewrite IH by lia.
    assert (Z.of_nat j = Z.of_nat (j - 512) + 1 * 512) as -> by lia.
    rewrite Z.div_add, Z_mod_plus_full by lia. f_equal. f_equal. lia.
Qed.
Lemma put_sectors_spec d lba n buf a : 0 <= lba -> lba + Z.of_nat n < 2 ^ 32 ->
  put_sectors d lba n buf a =
    if decide (lba <= a < lba + Z.of_nat n) then sub (512 * Z.to_nat (a - lba)) 512 buf else d a.
Proof.
  revert d lba buf. induction n as [|n IH]; intros d lba buf H0 Hl; cbn [put_sectors].
  - rewrite decide_False by lia. done.
  - rewrite u32_small by lia. rewrite IH by lia. repeat case_decide; try lia.
    + unfold sub. rewrite drop_drop. f_equal. f_equal. lia.
    + rewrite (proj2 (Z.eqb_eq a lba)) by lia. replace (Z.to_nat (a - lba)) with O by lia. done.
    + rewrite (proj2 (Z.eqb_neq a lba)) by lia. done.
Qed.
Lemma put_sectors_ok d lba n buf : disk_ok d -> 0 <= lba -> lba + Z.of_nat n < 2 ^ 32 -> length buf = (512 * n)%nat ->
  disk_ok (put_sectors d lba n buf).
Proof.
  intros Hd H0 Hl Hb a. rewrite put_sectors_spec by done. case_decide; [|apply Hd]. apply sub_length. lia.
Qed.

(** Reading [n] sectors, putting bytes over some of them and writing them
    back. *)
Lemma rewrite_bytes d t base n e k :
  disk_ok d -> 0 <= t -> 0 <= base -> t + base / 512 + Z.of_nat n < 2 ^ 32 -> 0 <= k ->
  let lba := t + base / 512 in
  (Z.to_nat (base mod 512) + length e <= 512 * n)%nat ->
  let d' := put_sectors d lba n (splice (Z.to_nat (base mod 512)) e (sectors d lba n)) in
  disk_ok d' /\
  byte_of d' t k = if decide (base <= k < base + Z.of_nat (length e)) then default 0 (e !! Z.to_nat (k - base))
                   else byte_of d t k.
Proof.
  intros Hd Ht Hb Hmax Hk lba Hlen d'.
  pose proof (Z.mod_pos_bound base 512 ltac:(lia)). pose proof (Z.div_pos base 512 ltac:(lia) ltac:(lia)).
  pose proof (Z.mod_pos_bound k 512 ltac:(lia)). pose proof (Z.div_mod base 512 ltac:(lia)). pose proof (Z.div_mod k 512 ltac:(lia)).
  assert (0 <= lba) by (unfold lba; lia).
  assert (length (sectors d lba n) = (512 * n)%nat) as Hsl by by apply sectors_length.
  split.
  { apply put_sectors_ok; [done|lia|unfold lba; lia|]. by rewrite splice_length by lia. }
  unfold byte_of, d'. rewrite put_sectors_spec by (unfold lba; lia).
  case_decide as Hin; unfold lba in Hin.
  - set (j := (512 * Z.to_nat (t + k / 512 - lba) + Z.to_nat (k mod 512))%nat).
    assert (Z.of_nat j = k - base / 512 * 512) as Hj by (unfold j, lba; lia).
    unfold sub. rewrite lookup_take_lt by lia. rewrite lookup_drop. fold j.
    rewrite splice_lookup by lia. repeat case_decide; try lia.
    + f_equal. f_equal. lia.
    + rewrite sectors_lookup by (done || unfold lba; lia).
      assert (Z.of_nat j = k + (- (base / 512)) * 512) as -> by lia.
      rewrite Z.div_add, Z_mod_plus_full by lia. do 2 f_equal. f_equal. unfold lba. lia.
  - rewrite decide_False; [done|]. intros Hk'. apply Hin.
    assert (base / 512 <= k / 512) by (apply Z.div_le_mono; lia).
    assert (k < (base / 512 + Z.of_nat n) * 512) by lia.
    pose proof (Z.div_lt_upper_bound k 512 (base / 512 + Z.of_nat n)). lia.
Qed.
End sectors.

(** ** The inode table *)
Section table.
Context {E : FsEnv}.
Implicit Types (s : fs) (i : inode).

(** The inode table lies on the disk. *)
Record table_ok s : Prop := {
  tb_disk : disk_ok (disk s);
  tb_start : 0 <= s_inode_table_lba (sb s);
  tb_size : 0 <= s_ninodes (sb s) /\ s_ninodes (sb s) * 100 <= s_inode_table_sz (sb s) * 512;
  tb_end : s_inode_table_lba (sb s) + s_inode_table_sz (sb s) < max_lba
}.
Definition inode_bytes s (nr : Z) : list Z :=
  (fun j => byte_of (disk s) (s_inode_table_lba (sb s)) (100 * nr + Z.of_nat j)) <$> seq 0 100.
(** What the disk holds for inode [nr]. *)
Definition disk_inode s (nr : Z) : inode := decode_inode (inode_bytes s nr).

Definition pos_of s (nr : Z) : iposition :=
  Iposition (512 - (100 * nr) mod 512 <? 100) (s_inode_table_lba (sb s) + 100 * nr / 512) ((100 * nr) mod 512).
Lemma table_bounds s nr : table_ok s -> 0 <= nr < s_ninodes (sb s) ->
  0 <= 100 * nr / 512 /\ 100 * nr / 512 <= s_inode_table_sz (sb s) /\
  s_inode_table_lba (sb s) + 100 * nr / 512 + 2 <= max_lba + 1 /\ max_lba = 163839 /\ 0 <= (100 * nr) mod 512 < 512 /\
  0 <= 100 * nr < 2 ^ 32.
Proof.
  intros [Hd Hs [Hn Hz] He] Hr. pose proof (Z.mod_pos_bound (100 * nr) 512). pose proof (Z.div_mod (100 * nr) 512).
  change max_lba with 163839 in *. lia.
Qed.
Lemma locale_ok s nr : table_ok s -> 0 <= nr < s_ninodes (sb s) -> locale_inode nr s = Ok (pos_of s nr, s).
Proof.
  intros Ht Hr. pose proof (table_bounds s nr Ht Hr) as (? & ? & ? & ? & ? & ?). pose proof (tb_start s Ht).
  unfold locale_inode. rewrite gets_bind. pass by (apply Z.ltb_lt; lia).
  unfold sizeof_inode, SECTOR_SIZE. rewrite (Z.mul_comm nr). rewrite !u32_small by (rewrite ?u32_small; lia). done.
Qed.

Lemma ide_read_ok s lba n : lba <= max_lba -> 0 < n -> lba + n <= max_lba + 1 -> ide_read lba n s = Ok (sectors (disk s) lba (Z.to_nat n), s).
Proof. intros H1 H2 H3. unfold ide_read. pass by (by apply Z.leb_le). pass by (by apply Z.gtb_lt). by pass by (by apply Z.leb_le). Qed.
Lemma ide_write_ok s lba buf n : lba <= max_lba -> 0 < n -> lba + n <= max_lba + 1 ->
  ide_write lba buf n s = Ok (tt, set_disk (put_sectors (disk s) lba (Z.to_nat n) buf) s).
Proof. intros H1 H2 H3. unfold ide_write. pass by (by apply Z.leb_le). pass by (by apply Z.gtb_lt). by pass by (by apply Z.leb_le). Qed.

(** Where an inode is written, only its own bytes change. *)
Lemma write_inode_ok s nr e (n : Z) : table_ok s -> 0 <= nr < s_ninodes (sb s) -> length e = 100%nat ->
  0 < n -> (n = 1 -> (100 * nr) mod 512 + 100 <= 512) -> n <= 2 ->
  let p := pos_of s nr in
  let s' := set_disk (put_sectors (disk s) (start_lba p) (Z.to_nat n)
              (splice (Z.to_nat (offset p)) e (sectors (disk s) (start_lba p) (Z.to_nat n)))) s in
  table_ok s' /\ disk_inode s' nr = decode_inode e /\
  forall nr', 0 <= nr' -> nr' <> nr -> disk_inode s' nr' = disk_inode s nr'.
Proof.
  intros Ht Hr He H0 H1 H2 p s'. pose proof (table_bounds s nr Ht Hr) as (? & ? & ? & Hm & ? & ?).
  destruct Ht as [Hd Hs [Hn Hz] Hend]. set (t := s_inode_table_lba (sb s)) in *.
  assert (forall k, 0 <= k -> disk_ok (disk s') /\ byte_of (disk s') t k =
    if decide (100 * nr <= k < 100 * nr + 100) then default 0 (e !! Z.to_nat (k - 100 * nr)) else byte_of (disk s) t k) as Hb.
  { intros k Hk. pose proof (rewrite_bytes (disk s) t (100 * nr) (Z.to_nat n) e k Hd ltac:(lia) ltac:(lia) ltac:(lia) Hk) as Hrb.
    rewrite He in Hrb. apply Hrb. assert (n = 1 \/ n = 2) as [->| ->] by lia; lia. }
  split_and!.
  - split; [apply (Hb 0); lia|done|done|done].
  - unfold disk_inode. f_equal. unfold inode_bytes. apply list_eq. intros j.
    rewrite list_lookup_fmap. destruct (decide (j < 100)%nat) as [Hj|Hj].
    + rewrite lookup_seq_lt by done. change (0 + j)%nat with j. cbn [fmap option_fmap option_map]. change (s_inode_table_lba (sb s')) with t.
      rewrite (proj2 (Hb (100 * nr + Z.of_nat j) ltac:(lia))). rewrite decide_True by lia.
      replace (Z.to_nat (100 * nr + Z.of_nat j - 100 * nr)) with j by lia.
      destruct (lookup_lt_is_Some_2 e j) as [x Hx]; [lia|]. by rewrite Hx.
    + rewrite lookup_seq_ge by lia. simpl. symmetry. apply lookup_ge_None. lia.
  - intros nr' Hr' Hne. unfold disk_inode. f_equal. unfold inode_bytes. apply list_fmap_ext. intros j x Hx.
    apply lookup_seq in Hx as [-> Hx]. change (s_inode_table_lba (sb s')) with t.
    rewrite (proj2 (Hb (100 * nr' + Z.of_nat (0 + j)) ltac:(lia))). by rewrite decide_False by lia.
Qed.

Definition for_disk (i : inode) : inode := set_ilock 0 (set_count 0 i).
Lemma for_disk_ok i : inode_ok i -> inode_ok (for_disk i).
Proof. intros []. split; cbn; (done || lia). Qed.

Lemma flush_inode_ok s a i : table_ok s -> inodes s !! a = Some i -> inode_ok i -> i_num i < s_ninodes (sb s) ->
  exists d, flush_inode a true s = Ok (tt, set_disk d s) /\
    table_ok (set_disk d s) /\ disk_inode (set_disk d s) (i_num i) = for_disk i /\
    (forall nr, 0 <= nr -> nr <> i_num i -> disk_inode (set_disk d s) nr = disk_inode s nr) /\
    (forall z, ~ s_inode_table_lba (sb s) <= z < s_inode_table_lba (sb s) + s_inode_table_sz (sb s) -> d z = disk s z).
Proof.
  intros Ht Ha Hi Hn. assert (0 <= i_num i < s_ninodes (sb s)) as Hr by (split; [apply Hi|done]).
  pose proof (table_bounds s (i_num i) Ht Hr) as (? & ? & ? & Hm & ? & ?). pose proof (tb_start s Ht). pose proof (tb_end s Ht).
  assert (length (encode_inode (for_disk i)) = 100%nat) as Hl by by apply encode_length, Hi.
  set (n := if is_crossed (pos_of s (i_num i)) then 2 else 1).
  destruct (write_inode_ok s (i_num i) (encode_inode (for_disk i)) n Ht Hr Hl) as (Ht' & Hd & Ho).
  { unfold n. by case_match. }
  { unfold n, pos_of; cbn [is_crossed]. case_match eqn:Ec; [done|]. zb. lia. }
  { unfold n. by case_match. }
  eexists. split; [|split; [exact Ht'|split; [by rewrite Hd, decode_encode by by apply for_disk_ok|split; [exact Ho|]]]].
  2: { intros z Hz. pose proof (tb_size s Ht) as [_ Hsz]. rewrite put_sectors_spec; unfold pos_of; cbn [start_lba].
       - apply decide_False. intros Hin. apply Hz. pose proof (Z.div_mod (100 * i_num i) 512 ltac:(lia)).
         unfold n, pos_of in Hin; cbn [is_crossed] in Hin. destruct (Z.ltb_spec (512 - (100 * i_num i) mod 512) 100); lia.
       - lia.
       - unfold n. case_match; lia. }
  unfold flush_inode. cbn [negb]. rets.
  assert (inode_at a s = Ok (i, s)) as Ea by (unfold inode_at; by rewrite Ha).
  run Ea. run (locale_ok s _ Ht Hr). rewrite gets_bind. pass by (apply Z.leb_le; unfold pos_of; cbn [start_lba]; rewrite u32_small; lia).
  assert (start_lba (pos_of s (i_num i)) + 2 <= max_lba + 1) as Hlba by (unfold pos_of; cbn [start_lba]; lia).
  unfold n. destruct (is_crossed _);
    (erewrite bind_ok; [|apply ide_read_ok; lia]; rewrite ide_write_ok by lia; done).
Qed.

Lemma decode_prefix l1 l2 : length l1 = 100%nat -> decode_inode (l1 ++ l2) = decode_inode l1.
Proof.
  intros H. unfold decode_inode, word. rewrite !sub_app_l by lia. f_equal.
  rewrite drop_app_le by lia. assert (length (drop 20 l1) = 80%nat) as Hd by (rewrite length_drop; lia).
  revert Hd. generalize (drop 20 l1). intros l Hl.
  assert (forall n l, (4 * n <= length l)%nat -> words n (l ++ l2) = words n l) as Hw; [|apply Hw; lia].
  clear. induction n as [|n IH]; intros l Hl; [done|]. cbn [words].
  rewrite take_app_le, drop_app_le by lia. f_equal. apply IH. rewrite length_drop. lia.
Qed.

Lemma find_open_ok s l nr : (forall b, b ∈ l -> exists i, inodes s !! b = Some i /\ i_num i <> nr) ->
  find_open_inode l nr s = Ok (0, s).
Proof.
  induction l as [|b l IH]; intros H; [done|]. cbn [find_open_inode].
  destruct (H b) as (i & Hb & Hn); [by apply list.elem_of_cons; left|].
  assert (inode_at b s = Ok (i, s)) as Ea by (unfold inode_at; by rewrite Hb). run Ea.
  rewrite (proj2 (Z.eqb_neq _ _)) by done. apply IH. intros c Hc. apply H. by apply list.elem_of_cons; right.
Qed.

Lemma read_inode_ok s nr (n : Z) : table_ok s -> 0 <= nr < s_ninodes (sb s) ->
  0 < n -> (n = 1 -> (100 * nr) mod 512 + 100 <= 512) -> n <= 2 ->
  decode_inode (drop (Z.to_nat (offset (pos_of s nr))) (sectors (disk s) (start_lba (pos_of s nr)) (Z.to_nat n))) = disk_inode s nr.
Proof.
  intros Ht Hr H0 H1 H2. pose proof (table_bounds s nr Ht Hr) as (? & ? & ? & Hm & ? & ?). destruct Ht as [Hd Hs [Hn Hz] Hend].
  pose proof (Z.div_mod (100 * nr) 512 ltac:(lia)).
  set (buf := sectors _ _ _). set (off := Z.to_nat (offset _)).
  assert (length buf = (512 * Z.to_nat n)%nat) as Hl by by apply sectors_length.
  assert (off + 100 <= length buf)%nat as Hoff.
  { rewrite Hl. unfold off, pos_of; cbn [offset]. assert (n = 1 \/ n = 2) as [->| ->] by lia; lia. }
  rewrite <-(firstn_skipn 100 (drop off buf)). rewrite decode_prefix by (apply (sub_length off 100); lia).
  unfold disk_inode. f_equal. apply list_eq. intros j. unfold inode_bytes. rewrite list_lookup_fmap.
  destruct (decide (j < 100)%nat) as [Hj|Hj].
  - rewrite lookup_take_lt, lookup_drop, lookup_seq_lt by lia. simpl. unfold buf, pos_of; cbn [start_lba].
    assert (Z.of_nat (off + j) = 100 * nr + Z.of_nat j + (- (100 * nr / 512)) * 512) as Ej by (unfold off, pos_of; cbn [offset]; lia).
    rewrite sectors_lookup by (done || lia). rewrite Ej, Z.div_add, Z_mod_plus_full by lia.
    unfold byte_of. set (q := (100 * nr + Z.of_nat j) / 512).
    replace (s_inode_table_lba (sb s) + 100 * nr / 512 + (q + - (100 * nr / 512))) with (s_inode_table_lba (sb s) + q) by lia.
    pose proof (Z.mod_pos_bound (100 * nr + Z.of_nat j) 512 ltac:(lia)).
    destruct (lookup_lt_is_Some_2 (disk s (s_inode_table_lba (sb s) + q)) (Z.to_nat ((100 * nr + Z.of_nat j) mod 512))) as [x Hx];
      [rewrite Hd; lia|]. by rewrite Hx.
  - rewrite lookup_take_ge by lia. rewrite lookup_seq_ge by lia. done.
Qed.

Lemma inode_open_ok s nr : table_ok s -> 0 <= nr < s_ninodes (sb s) ->
  (forall b, b ∈ open_inodes s -> exists i, inodes s !! b = Some i /\ i_num i <> nr) -> mallocs s = [] ->
  let a := new_address (inodes s) in
  inode_open nr s =
    Ok (a, set_open (a :: open_inodes s)
             (set_inodes (<[a := set_count (u16 (i_count (disk_inode s nr) + 1)) (disk_inode s nr)]> (inodes s)) s)).
Proof.
  intros Ht Hr Ho Hm a. pose proof (table_bounds s nr Ht Hr) as (? & ? & ? & Hmax & ? & ?). pose proof (tb_start s Ht).
  unfold inode_open. rewrite gets_bind. run (find_open_ok s _ nr Ho). rewrite Z.eqb_refl. cbn [negb]. run (locale_ok s nr Ht Hr).
  assert (sys_malloc_ok s = Ok (true, s)) as Em by (unfold sys_malloc_ok; by rewrite Hm).
  run Em. cbn [negb]. rets. run Em. cbn [negb]. rets. rewrite gets_bind. fold a.
  set (n := if is_crossed (pos_of s nr) then 2 else 1).
  assert (0 < n <= 2) as Hn by (unfold n; by case_match).
  run (ide_read_ok s (start_lba (pos_of s nr)) n ltac:(unfold pos_of; cbn [start_lba]; lia) ltac:(lia) ltac:(unfold pos_of; cbn [start_lba]; lia)).
  rewrite read_inode_ok; [|done|done|lia| |lia].
  - done.
  - unfold n, pos_of; cbn [is_crossed]. case_match eqn:Ec; [done|]. zb. lia.
Qed.
End table.

(** * Reading a file is reading its zones *)

Section reading.
Context {E : FsEnv}.
Implicit Types (s : fs) (i : inode).

(** The zones of a file, 0 where there is none; its bytes. *)
Definition zones_of s i : list Z :=
  leading 12 (i_zones i) ++
  (if default 0 (i_zones i !! 12%nat) =? 0 then replicate 128 0 else words 128 (disk s (default 0 (i_zones i !! 12%nat)))).
Definition content s i : list Z := flat_map (disk s) (zones_of s i).

Lemma leading_length n l : length (leading n l) = n.
Proof.
  revert l. induction n as [|n IH]; intros [|z l]; simpl; rewrite ?length_replicate; try done.
  case_match; simpl; rewrite ?length_replicate, ?IH; done.
Qed.
Lemma words_length n l : length (words n l) = n.
Proof. revert l. induction n; intros l; simpl; auto. Qed.
Lemma zones_length s i : length (zones_of s i) = 140%nat.
Proof. unfold zones_of. rewrite length_app, leading_length. case_match; by rewrite ?length_replicate, ?words_length. Qed.

(** The zones that a call looks at lie on the disk. *)
Record zones_ok s i : Prop := {
  zo_disk : disk_ok (disk s);
  zo_len : length (i_zones i) = 13%nat;
  zo_table : default 0 (i_zones i !! 12%nat) <= max_lba;
  zo_range : Forall (fun z => z <= max_lba) (zones_of s i)
}.

Lemma elem_ok l (k : Z) x s : 0 <= k -> l !! Z.to_nat k = Some x -> elem l k s = Ok (x, s).
Proof. intros Hk Hx. unfold elem. by rewrite (proj2 (Z.ltb_ge k 0)), Hx by lia. Qed.

Lemma inode_all_zones_ok s i : zones_ok s i -> inode_all_zones i s = Ok (zones_of s i, s).
Proof.
  intros [Hd Hl Ht Hz]. destruct (lookup_lt_is_Some_2 (i_zones i) 12) as [z Hz12]; [lia|].
  unfold inode_all_zones, zones_of. rewrite Hz12 in *. change (default 0 (Some z)) with z in *. run (elem_ok (i_zones i) 12 z s ltac:(lia) Hz12).
  destruct (Z.eqb_spec z 0) as [->|Hne]; cbn [negb]; [done|].
  run (ide_read_ok s z 1 Ht ltac:(lia) ltac:(lia)). change (Z.to_nat 1) with 1%nat. cbn [sectors]. by rewrite app_nil_r.
Qed.

Lemma content_length s i : disk_ok (disk s) -> length (content s i) = (512 * 140)%nat.
Proof.
  intros Hd. assert (forall l, length (flat_map (disk s) l) = (512 * length l)%nat) as H.
  { induction l as [|z l IH]; [done|]. cbn [flat_map length]. rewrite length_app, Hd, IH. lia. }
  unfold content. by rewrite H, zones_length.
Qed.
(** A part of one zone. *)
Lemma content_sub s i k z off len : disk_ok (disk s) -> zones_of s i !! k = Some z -> (off + len <= 512)%nat ->
  sub (512 * k + off) len (content s i) = sub off len (disk s z).
Proof.
  intros Hd. unfold content. generalize (zones_of s i). intros l. revert k. induction l as [|y l IH]; intros k Hk Ho; [done|].
  cbn [flat_map]. destruct k as [|k]; simpl in Hk.
  - simplify_eq. rewrite Nat.mul_0_r, Nat.add_0_l. apply sub_app_l. rewrite Hd. lia.
  - rewrite sub_app_r by (rewrite Hd; lia). rewrite Hd.
    replace (512 * S k + off - 512)%nat with (512 * k + off)%nat by lia. by apply IH.
Qed.
Lemma sub_split o n k l : (k <= n)%nat -> sub o n l = sub o k l ++ sub (o + k) (n - k) l.
Proof.
  intros H. unfold sub. rewrite <-drop_drop, <-(firstn_skipn k (take n (drop o l))) at 1.
  f_equal; [by rewrite take_take, Nat.min_l by lia|]. rewrite skipn_firstn_comm. by rewrite drop_drop.
Qed.

(** The file after reading or writing [n] bytes. *)
Definition moved (f : file) (n : Z) : file := File (fd_pos f + n) (fd_flag f) (fd_inode f).
Lemma set_slot_ok s idx h f : 0 <= idx -> g_file_table s !! Z.to_nat idx = Some f ->
  set_slot idx h s = Ok (tt, set_files (<[Z.to_nat idx := h f]> (g_file_table s)) s).
Proof.
  intros Hi Hf. unfold set_slot, modify. do 3 f_equal. apply list_eq. intros k.
  destruct (decide (k = Z.to_nat idx)) as [->|Hne].
  - by rewrite list_lookup_alter_eq, Hf, list_lookup_insert_eq by by eapply lookup_lt_Some.
  - by rewrite list_lookup_alter_ne, list_lookup_insert_ne by done.
Qed.
Lemma advance_ok s idx f n : 0 <= idx -> g_file_table s !! Z.to_nat idx = Some f -> 0 <= fd_pos f + n < 2 ^ 32 ->
  advance idx n s = Ok (tt, set_files (<[Z.to_nat idx := moved f n]> (g_file_table s)) s).
Proof.
  intros Hi Hf Hn. unfold advance, moved. rewrite (set_slot_ok s idx _ f Hi Hf). by rewrite u32_small.
Qed.
Lemma copy_out_ok buf off len s : 0 <= off -> off + len <= Z.of_nat (length buf) ->
  copy_out buf off len s = Ok (sub (Z.to_nat off) (Z.to_nat len) buf, s).
Proof. intros H0 H. unfold copy_out. case_match eqn:Ec; [|done]. apply Z.gtb_lt in Ec. lia. Qed.

(** The loop over whole zones, from a zone boundary on. *)
Lemma read_chunks_ok n k idx f s i z0 cnt coff (rem : nat) out :
  zones_ok s i -> 0 <= idx -> g_file_table s !! Z.to_nat idx = Some f -> 0 <= fd_pos f -> fd_pos f + Z.of_nat rem < 2 ^ 32 ->
  0 <= z0 -> 0 <= k -> cnt = k + Z.of_nat n -> (512 * (Z.to_nat (z0 + k)) + rem <= 512 * 140)%nat ->
  (rem <= 512 * n)%nat -> (512 * n < rem + 512)%nat -> (n <> 0%nat -> coff = Z.of_nat rem mod 512) ->
  read_chunks n k idx z0 cnt coff 0 (zones_of s i) out s =
    Ok (out ++ sub (512 * Z.to_nat (z0 + k)) rem (content s i),
        if decide (n = 0%nat) then s else set_files (<[Z.to_nat idx := moved f (Z.of_nat rem)]> (g_file_table s)) s).
Proof.
  intros Hz Hidx. assert (forall u, zones_of (set_files u s) i = zones_of s i) as Hzs by done.
  assert (forall u, content (set_files u s) i = content s i) as Hcs by done.
  destruct Hz as [Hd Hl Ht Hr]. revert k f s rem out Hd Hl Ht Hr Hzs Hcs.
  induction n as [|n IH]; intros k f s rem out Hd Hl Ht Hr Hzs Hcs Hf Hp Hmax Hz0 Hk Hcnt Hin Hle Hgt Hcoff.
  - assert (rem = 0%nat) as -> by lia. cbn [read_chunks]. unfold sub. by rewrite take_0, app_nil_r.
  - cbn [read_chunks]. destruct (lookup_lt_is_Some_2 (zones_of s i) (Z.to_nat (z0 + k))) as [z Hzk]; [rewrite zones_length; lia|].
    assert (z <= max_lba) as Hzm by by apply (proj1 (Forall_lookup _ _) Hr _ _ Hzk).
    run (elem_ok (zones_of s i) (z0 + k) z s ltac:(lia) Hzk). run (ide_read_ok s z 1 Hzm ltac:(lia) ltac:(lia)).
    change (Z.to_nat 1) with 1%nat. cbn [sectors]. rewrite app_nil_r. change (0 >? 0) with false. cbv iota.
    set (len := if (k =? cnt - 1) && negb (coff =? 0) then coff else ZONE_SIZE).
    assert (len = Z.of_nat (Nat.min rem 512)) as Elen.
    { unfold len. specialize (Hcoff ltac:(lia)). destruct n as [|n].
      - rewrite (proj2 (Z.eqb_eq k (cnt - 1))) by lia. cbn [andb]. destruct (Z.eqb_spec coff 0) as [Ec|Ec]; cbn [negb].
        + assert (rem = 512%nat) as ->; [|done]. rewrite Ec in Hcoff. symmetry in Hcoff. apply Z.mod_divide in Hcoff as [q Hq]; lia.
        + rewrite Hcoff. destruct (decide (rem = 512%nat)) as [->|]; [done|]. rewrite Z.mod_small by lia. lia.
      - rewrite (proj2 (Z.eqb_neq k (cnt - 1))) by lia. cbn [andb]. unfold ZONE_SIZE, SECTOR_SIZE. lia. }
    run (copy_out_ok (disk s z) 0 len s ltac:(lia) ltac:(rewrite Hd; lia)).
    run (advance_ok s idx f len Hidx Hf ltac:(lia)).
    change (Z.to_nat 0) with 0%nat.
    rewrite <-(content_sub s i (Z.to_nat (z0 + k)) z 0 (Z.to_nat len) Hd Hzk) by lia. rewrite Nat.add_0_r.
    set (s1 := set_files _ s).
    rewrite (IH (k + 1) (moved f len) s1 (rem - Z.to_nat len)%nat); try done; try lia.
    + destruct (decide (S n = 0%nat)) as [|_]; [lia|]. f_equal. f_equal.
      * change (content s1 i) with (content s i). rewrite <-app_assoc. f_equal.
        rewrite (sub_split _ rem (Z.to_nat len)) by lia. f_equal. destruct (decide (rem <= 512)%nat).
        { by replace (rem - Z.to_nat len)%nat with 0%nat by lia. }
        f_equal. lia.
      * unfold s1. case_decide as Hn0.
        -- replace (Z.of_nat rem) with len by lia. done.
        -- cbn [g_file_table set_files]. rewrite list_insert_insert_eq.
           unfold moved; cbn [fd_pos fd_flag fd_inode set_files].
           replace (fd_pos f + len + Z.of_nat (rem - Z.to_nat len)) with (fd_pos f + Z.of_nat rem) by lia. done.
    + cbn. rewrite list_lookup_insert_eq; [done|]. by eapply lookup_lt_Some.
    + cbn. lia.
    + cbn. lia.
    + intros Hn0. rewrite Hcoff by done.
      replace (Z.of_nat (rem - Z.to_nat len)) with (Z.of_nat rem + (-1) * 512) by lia. by rewrite Z_mod_plus_full.
Qed.
End reading.
