(* ===== verification/FsSpec.v ===== *)
(** * FsSpec: what the file system promises *)
From S2P Require Import Prelude Bitmap Fs FsInode FsProofs FsDir FsFile.

Section spec.
Context {E : FsEnv}.
Implicit Types (s : fs) (i : inode).

(** Reading, where the code reads what it means to. *)
Lemma file_read_ok s idx f i count :
  0 <= idx -> g_file_table s !! Z.to_nat idx = Some f -> inodes s !! fd_inode f = Some i -> zones_ok s i -> mallocs s = [] ->
  0 <= fd_pos f <= i_size i -> i_size i <= MAX_FILE_SIZE -> fd_pos f < MAX_FILE_SIZE -> 0 <= count ->
  let n := Z.min (i_size i - fd_pos f) count in
  fd_pos f mod 512 = 0 \/ (fd_pos f mod 512 + n <= 512 /\ n < 512) ->
  file_read idx count s =
    Ok ((sub (Z.to_nat (fd_pos f)) (Z.to_nat n) (content s i), n),
        set_files (<[Z.to_nat idx := moved f n]> (g_file_table s)) s).
Proof.
  intros Hidx Hf Hi Hz Hm Hpos Hsz Hlt Hc n Hal.
  change MAX_FILE_SIZE with 71680 in *.
  pose proof (Z.div_mod (fd_pos f) 512 ltac:(lia)) as Hdm. pose proof (Z.mod_pos_bound (fd_pos f) 512 ltac:(lia)) as Hmb.
  assert (0 <= fd_pos f / 512 < 140) as Hz0 by lia.
  unfold file_read. assert (sys_malloc_ok s = Ok (true, s)) as Em by (unfold sys_malloc_ok; by rewrite Hm).
  run Em. cbn [negb]. assert (file_at idx s = Ok (f, s)) as Ef by (unfold file_at; by rewrite Hf). run Ef.
  assert (inode_at (fd_inode f) s = Ok (i, s)) as Ei by (unfold inode_at; by rewrite Hi). run Ei.
  pass by (apply Z.leb_le; lia). rewrite Z.geb_leb, (proj2 (Z.leb_gt _ _)) by lia.
  run (inode_all_zones_ok s i Hz). change ZONE_SIZE with 512.
  rewrite Z.geb_leb, (proj2 (Z.leb_gt _ _)) by lia. rewrite u32_small by lia. fold n.
  assert (Z.to_nat (fd_pos f) = 512 * Z.to_nat (fd_pos f / 512) + Z.to_nat (fd_pos f mod 512))%nat as Hp by lia.
  destruct (Z.ltb_spec n 512) as [Hs|Hs].
  - destruct (lookup_lt_is_Some_2 (zones_of s i) (Z.to_nat (fd_pos f / 512))) as [z Hzk]; [rewrite zones_length; lia|].
    pose proof (proj1 (Forall_lookup _ _) (zo_range _ _ Hz) _ _ Hzk) as Hzm. cbn beta in Hzm.
    run (elem_ok (zones_of s i) (fd_pos f / 512) z s ltac:(lia) Hzk).
    run (ide_read_ok s z 1 Hzm ltac:(lia) ltac:(lia)). change (Z.to_nat 1) with 1%nat. cbn [sectors]. rewrite app_nil_r.
    run (copy_out_ok (disk s z) (fd_pos f mod 512) n s ltac:(lia) ltac:(rewrite (zo_disk _ _ Hz); lia)).
    run (advance_ok s idx f n Hidx Hf ltac:(lia)).
    rewrite Hp, (content_sub s i _ z); [done|apply Hz|done|lia].
  - assert (fd_pos f mod 512 = 0) as H0 by lia. rewrite H0.
    pose proof (Z.div_mod n 512 ltac:(lia)). pose proof (Z.mod_pos_bound n 512 ltac:(lia)).
    pose proof (Z.div_mod (n + 512 - 1) 512 ltac:(lia)). pose proof (Z.mod_pos_bound (n + 512 - 1) 512 ltac:(lia)).
    set (cnt := (n + 512 - 1) / 512) in *.
    erewrite bind_ok.
    2: { eapply (read_chunks_ok (Z.to_nat cnt) 0 idx f s i (fd_pos f / 512) cnt (n mod 512) (Z.to_nat n));
           [done|done|done|lia|lia|lia|lia|lia|rewrite Z.add_0_r; lia|lia|lia|]. intros _. by rewrite Z2Nat.id by lia. }
    rewrite decide_False by lia. rewrite app_nil_l, Z.add_0_r, Hp, H0, Z2Nat.id by lia.
    by rewrite Nat.add_0_r.
Qed.
(** C25: writing an inode back and opening it again gives the same inode, with
    the open count 1 and the lock cleared; on the disk no other inode changes,
    whether or not the inode crosses the border of two sectors. *)
Theorem inode_flush_open_roundtrip s a i :
  table_ok s -> inodes s !! a = Some i -> inode_ok i -> i_num i < s_ninodes (sb s) ->
  exists d, flush_inode a true s = Ok (tt, set_disk d s) /\
    (forall nr, 0 <= nr -> nr <> i_num i -> disk_inode (set_disk d s) nr = disk_inode s nr) /\
    forall s', disk s' = d -> sb s' = sb s -> mallocs s' = [] ->
      (forall b, b ∈ open_inodes s' -> exists j, inodes s' !! b = Some j /\ i_num j <> i_num i) ->
      exists b s'', inode_open (i_num i) s' = Ok (b, s'') /\
        inodes s'' !! b = Some (set_count 1 (set_ilock 0 i)) /\ disk s'' = disk s'.
Proof.
  intros Ht Ha Hi Hn. destruct (flush_inode_ok s a i Ht Ha Hi Hn) as (d & Ef & Ht' & Hd & Ho & _).
  exists d. split; [done|]. split; [done|]. intros s' E1 E2 Hm Hop.
  assert (table_ok s') as Ht2 by (destruct Ht'; split; cbn in *; by rewrite ?E1, ?E2).
  assert (disk_inode s' (i_num i) = for_disk i) as Hd2.
  { rewrite <-Hd. unfold disk_inode, inode_bytes. cbn [sb disk set_disk]. by rewrite E1, E2. }
  do 2 eexists. split; [apply inode_open_ok; [done| |done|done]|].
  { rewrite E2. split; [apply Hi|done]. }
  cbn [inodes set_open set_inodes disk]. split; [|done]. by rewrite lookup_insert_eq, Hd2.
Qed.

(** C26: reading from a zone boundary, or inside one zone, gives the bytes of
    the file from its position on, as many as were asked for and are there,
    and moves the position behind them. *)
Theorem file_read_reads s idx f i count :
  0 <= idx -> g_file_table s !! Z.to_nat idx = Some f -> inodes s !! fd_inode f = Some i -> zones_ok s i -> mallocs s = [] ->
  0 <= fd_pos f <= i_size i -> i_size i <= MAX_FILE_SIZE -> fd_pos f < MAX_FILE_SIZE -> 0 <= count ->
  let n := Z.min (i_size i - fd_pos f) count in
  fd_pos f mod 512 = 0 \/ (fd_pos f mod 512 + n <= 512 /\ n < 512) ->
  file_read idx count s =
    Ok ((sub (Z.to_nat (fd_pos f)) (Z.to_nat n) (content s i), n),
        set_files (<[Z.to_nat idx := moved f n]> (g_file_table s)) s).
Proof. apply file_read_ok. Qed.
End spec.

(** ** A small disk: the inode table at sector 10, a file of 600 bytes in the
    sectors 100 and 101 *)
#[export] Instance some_env : FsEnv.
Proof.
  refine {| new_address m := fresh ({[0]} ∪ dom m : gset Z); stack_bytes := replicate 512 0 |}.
  intros m. pose proof (is_fresh ({[0]} ∪ dom m : gset Z)). split; [set_solver|]. apply not_elem_of_dom. set_solver.
Defined.
Definition demo_inode : inode := set_zones [100; 101; 0; 0; 0; 0; 0; 0; 0; 0; 0; 0; 0] (set_size 600 (set_num 5 zero_inode)).
Definition demo_bitmap : bitmap := Bitmap (replicate 512 0) 512 0.
Definition demo_fs : fs :=
  Fs (fun a => replicate 512 (if a <? 50 then 0 else a mod 256)) (Super 20 2 3 10 8 99) demo_bitmap demo_bitmap
     {[7000 := demo_inode]} [7000] [File 0 0 7000; File 512 0 7000] (replicate 32 (-1)) false [].

Lemma demo_table : table_ok demo_fs.
Proof. split; [intros a; apply length_replicate|done|split; cbn; lia|by vm_compute]. Qed.
Lemma demo_inode_ok : inode_ok demo_inode.
Proof. split; cbn; try lia. repeat constructor; lia. Qed.
Lemma demo_zones : zones_ok demo_fs demo_inode.
Proof.
  split; [intros a; apply length_replicate|done|by vm_compute|].
  apply (bool_decide_unpack _). vm_compute. exact I.
Qed.

Lemma inode_flush_open_roundtrip_witness :
  exists d b s'', flush_inode 7000 true demo_fs = Ok (tt, set_disk d demo_fs) /\
    inode_open 5 (set_open [] (set_disk d demo_fs)) = Ok (b, s'') /\
    inodes s'' !! b = Some (set_count 1 (set_ilock 0 demo_inode)).
Proof.
  destruct (inode_flush_open_roundtrip demo_fs 7000 demo_inode) as (d & Ef & _ & Ho);
    [exact demo_table|done|exact demo_inode_ok|done|].
  destruct (Ho (set_open [] (set_disk d demo_fs))) as (b & s'' & Eo & Hb & _); [done|done|done| |].
  - intros b Hb. by apply not_elem_of_nil in Hb.
  - by exists d, b, s''.
Defined.

Lemma file_read_reads_witness :
  file_read 0 1000 demo_fs =
    Ok ((sub 0 600 (content demo_fs demo_inode), 600),
        set_files [File 600 0 7000; File 512 0 7000] demo_fs).
Proof.
  apply (file_read_reads demo_fs 0 (File 0 0 7000) demo_inode 1000);
    [lia|done|done|exact demo_zones|done|cbn; lia|by vm_compute|by vm_compute|lia|by left].
Defined.

(** ** What the code does not do *)

(** A read that starts inside a zone and reaches into the next one copies from
    behind the sector buffer. *)
Lemma file_read_overreads : file_read 1 88 (set_files [File 0 0 7000; File 500 0 7000] demo_fs) = Fault.
Proof. vm_compute. reflexivity. Qed.

(** Opening an inode that is open does not count it: two opens and one close
    leave the second user with a freed inode. *)
Lemma second_open_not_counted :
  match inode_open 0 demo_fs with
  | Ok (a, s1) =>
      match inode_open 0 s1 with
      | Ok (b, s2) =>
          match inode_close b s2 with
          | Ok (_, s3) => bool_decide (a = b) && bool_decide (inodes s3 !! a = None)
          | _ => false end
      | _ => false end
  | _ => false end = true.
Proof. vm_compute. reflexivity. Qed.
