(* ===== verification/Path.v ===== *)
(** * Path: taking paths apart (core/fs/fs.c)

    A [char *] here is the piece of memory it points into, as a list of bytes
    that ends where the memory ends: looking for the null character beyond it
    is a fault.  [sys_malloc] gives a block of zeros whose length is that of
    the size class of the request (Malloc.v), and the path functions copy
    [strlen(path)] bytes into one, without the null character. *)
From S2P Require Import Prelude Fs.

Definition slash : Z := 47.

(** [strlen], and the characters before the null one. *)
Fixpoint c_string (buf : list Z) : res (list Z) :=
  match buf with
  | [] => Fault
  | c :: buf => if c =? 0 then Ok []
                else match c_string buf with Ok s => Ok (c :: s) | r => r end
  end.

(** The length of the block that [sys_malloc(n)] returns. *)
Definition malloc_length (n : Z) : Z :=
  if n >? 1024 then (n + 12 + 4095) / 4096 * 4096 - 12
  else if n <=? 16 then 16 else if n <=? 32 then 32 else if n <=? 64 then 64
  else if n <=? 128 then 128 else if n <=? 256 then 256 else if n <=? 512 then 512 else 1024.
(** [tmp = sys_malloc(strlen(path)); memcpy(tmp, path, strlen(path))]; the
    request of no bytes at all gets the null pointer, any other succeeds. *)
Definition copy_path (s : list Z) : option (list Z) :=
  if (length s =? 0)%nat then None
  else Some (s ++ replicate (Z.to_nat (malloc_length (Z.of_nat (length s))) - length s) 0).

(** The last slash that is not the last character: its index. *)
Fixpoint last_slash (s : list Z) (i len : Z) (found : option Z) : option Z :=
  match s with
  | [] => found
  | c :: s => last_slash s (i + 1) len (if (c =? slash) && negb (i =? len - 1) then Some i else found)
  end.
(** The new path and the name put into [last_name], which has room for 16
    characters; [None] is the null result.  Without a slash the pointer
    [last_slash] has no value. *)
Definition path_peel (path : list Z) : res (option (list Z * list Z)) :=
  rbind (c_string path) (fun s =>
    let path_len := Z.of_nat (length s) in
    if path_len =? 0 then Ok None
    else if (path_len =? 1) && bool_decide (s = [slash]) then Ok (Some (path, []))
    else
      match last_slash s 0 path_len None with
      | None => Fault
      | Some i =>
          let res_len := i + 1 in
          let name_len := path_len - res_len in
          if name_len >=? MAX_FILE_NAME_LEN then Fault
          else Ok (Some (<[Z.to_nat res_len := 0]> path, drop (Z.to_nat res_len) s))
      end).

(** [strcmp("/", path)] is 0. *)
Definition is_root (path : list Z) : res bool := rbind (c_string path) (fun s => Ok (bool_decide (s = [slash]))).

Fixpoint depth_loop (fuel : nat) (path : list Z) (depth : Z) : res Z :=
  match fuel with
  | O => Stuck
  | S fuel =>
      rbind (is_root path) (fun r =>
        if r : bool then Ok depth
        else rbind (path_peel path) (fun p =>
          match p with
          | None => Fault
          | Some (path, _) => depth_loop fuel path (depth + 1)
          end))
  end.
Definition path_depth (s : list Z) : res Z :=
  if (length s =? 0)%nat then Ok 0
  else
    match copy_path s with
    | None => Fault
    | Some tmp =>
        rbind (path_peel tmp) (fun p =>
          match p with
          | None => Fault
          | Some (path, _) => depth_loop (S (length s)) path 1
          end)
    end.

(** The names with a slash at the end, in the order in which they are peeled
    off; each takes 16 bytes of [dirs], which is not checked. *)
Fixpoint dirs_loop (fuel : nat) (path : list Z) (dirs : list (list Z)) : res (list (list Z)) :=
  match fuel with
  | O => Stuck
  | S fuel =>
      rbind (is_root path) (fun r =>
        if r : bool then Ok dirs
        else rbind (path_peel path) (fun p =>
          match p with
          | None => Fault
          | Some (path, last) =>
              dirs_loop fuel path (if bool_decide (list.last last = Some slash) then dirs ++ [last] else dirs)
          end))
  end.
(** [None] is the result -1: there is no memory for the copy. *)
Definition path_dirs (s : list Z) : res (option (list (list Z))) :=
  match copy_path s with
  | None => Ok None
  | Some tmp => rbind (dirs_loop (S (length s)) tmp []) (fun dirs => Ok (Some dirs))
  end.

Example path_examples :
  let p := [47; 97; 47; 98; 47; 99] in
  path_depth p = Ok 3 /\ path_dirs p = Ok (Some [[98; 47]; [97; 47]]) /\
  path_dirs [] = Ok None /\ path_depth [47] = Ok 1 /\
  path_depth (replicate 15 97) = Fault /\ path_depth (47 :: replicate 15 97) = Fault.
Proof. split_and!; reflexivity. Qed.

(** * Paths are taken apart at their slashes *)

(** The text of a path: the directories on the way, then the last name, with a
    slash when it is a directory. *)
Definition dirs_text (cs : list (list Z)) : list Z := slash :: flat_map (fun c => c ++ [slash]) cs.
Definition last_text (c : list Z) (dir : bool) : list Z := c ++ (if dir then [slash] else []).
Definition path_text (cs : list (list Z)) (c : list Z) (dir : bool) : list Z := dirs_text cs ++ last_text c dir.
Definition name_ok (c : list Z) : Prop := c <> [] /\ slash ∉ c /\ 0 ∉ c.
(** Short enough for the buffer of a name, with a slash at the end. *)
Definition short (c : list Z) : Prop := (length c < 15)%nat.

Section texts.
Implicit Types (s c buf rest : list Z) (cs : list (list Z)).

Lemma c_string_app s rest : 0 ∉ s -> c_string (s ++ 0 :: rest) = Ok s.
Proof.
  induction s as [|c s IH]; [done|]. intros [Hc Hs]%list.not_elem_of_cons. cbn [app c_string].
  rewrite (proj2 (Z.eqb_neq c 0)), IH by done. done.
Qed.
Lemma c_string_none s : 0 ∉ s -> c_string s = Fault.
Proof.
  induction s as [|c s IH]; [done|]. intros [Hc Hs]%list.not_elem_of_cons. cbn [c_string].
  by rewrite (proj2 (Z.eqb_neq c 0)), IH by done.
Qed.

Lemma last_slash_app s1 s2 i len f :
  last_slash (s1 ++ s2) i len f = last_slash s2 (i + Z.of_nat (length s1)) len (last_slash s1 i len f).
Proof.
  revert i f. induction s1 as [|c s1 IH]; intros i f; [by rewrite Z.add_0_r|].
  cbn [app last_slash length]. rewrite IH. f_equal. lia.
Qed.
Lemma last_slash_none s i len f : slash ∉ s -> last_slash s i len f = f.
Proof.
  revert i. induction s as [|c s IH]; intros i; [done|]. intros [Hc Hs]%list.not_elem_of_cons. cbn [last_slash].
  rewrite (proj2 (Z.eqb_neq c slash)) by done. cbn [andb]. by apply IH.
Qed.

(** The text of the directories ends with a slash. *)
Lemma dirs_text_snoc cs c : dirs_text (cs ++ [c]) = path_text cs c true.
Proof. unfold dirs_text, path_text, last_text. rewrite flat_map_app. cbn. by rewrite app_nil_r. Qed.
Lemma dirs_text_end cs : exists s, dirs_text cs = s ++ [slash].
Proof.
  destruct cs as [|c cs _] using rev_ind; [by exists []|]. rewrite dirs_text_snoc.
  exists (dirs_text cs ++ c). unfold path_text, last_text. by rewrite app_assoc.
Qed.
Lemma dirs_text_clean cs : Forall name_ok cs -> 0 ∉ dirs_text cs.
Proof.
  intros H. apply list.not_elem_of_cons. split; [done|]. induction H as [|c cs (_ & _ & Hc) _ IH]; [apply not_elem_of_nil|].
  cbn [flat_map]. rewrite !not_elem_of_app, list_elem_of_singleton. by split_and!.
Qed.
Lemma path_text_clean cs c dir : Forall name_ok cs -> name_ok c -> 0 ∉ path_text cs c dir.
Proof.
  intros Hcs (_ & _ & Hc). unfold path_text, last_text. rewrite !not_elem_of_app.
  split_and!; [by apply dirs_text_clean|done|]. destruct dir; [by rewrite list_elem_of_singleton|apply not_elem_of_nil].
Qed.
Lemma path_text_not_root cs c dir : name_ok c -> path_text cs c dir <> [slash].
Proof.
  intros (Hc & _) E. apply (f_equal length) in E. unfold path_text, last_text, dirs_text in E.
  rewrite !length_app in E. cbn in E. destruct c; [done|cbn in E; lia].
Qed.

(** Where the last part of a path begins. *)
Lemma last_slash_path cs c dir : name_ok c ->
  last_slash (path_text cs c dir) 0 (Z.of_nat (length (path_text cs c dir))) None =
  Some (Z.of_nat (length (dirs_text cs)) - 1).
Proof.
  intros (Hne & Hs & _). destruct (dirs_text_end cs) as [d Ed]. set (n := Z.of_nat (length (path_text cs c dir))).
  assert (n = Z.of_nat (length d) + 1 + Z.of_nat (length (last_text c dir))) as En.
  { unfold n, path_text. rewrite Ed, !length_app. cbn. lia. }
  assert (0 < Z.of_nat (length (last_text c dir))) by (unfold last_text; rewrite length_app; destruct c; [done|cbn; lia]).
  unfold path_text. rewrite Ed, <-app_assoc, last_slash_app. cbn [app]. cbn [last_slash].
  rewrite Z.eqb_refl, (proj2 (Z.eqb_neq _ (n - 1))) by lia. cbn [andb negb].
  unfold last_text in *. rewrite last_slash_app, (last_slash_none c) by done. rewrite length_app. cbn [length].
  replace (Z.of_nat (length d + 1) - 1) with (0 + Z.of_nat (length d)) by lia.
  destruct dir; [|done]. cbn [last_slash]. rewrite length_app in *. cbn [length] in *.
  rewrite (proj2 (Z.eqb_eq _ (n - 1))) by lia. by rewrite andb_false_r.
Qed.

Lemma insert_after s t v : <[length s := v]> (s ++ t) = s ++ <[0%nat := v]> t.
Proof. by rewrite <-(Nat.add_0_r (length s)), insert_app_r. Qed.

(** Peeling off the last part leaves the directories. *)
Lemma path_peel_ok cs c dir rest : Forall name_ok cs -> name_ok c ->
  path_peel (path_text cs c dir ++ 0 :: rest) =
  if (length (last_text c dir) <? 16)%nat
  then Ok (Some (dirs_text cs ++ 0 :: drop 1 (last_text c dir) ++ 0 :: rest, last_text c dir))
  else Fault.
Proof.
  intros Hcs Hc. unfold path_peel. rewrite c_string_app by by apply path_text_clean. cbn [rbind].
  rewrite last_slash_path by done.
  assert (0 < length (last_text c dir))%nat as Hl by (destruct Hc as [Hc _]; unfold last_text; rewrite length_app; destruct c; [done|cbn; lia]).
  assert (length (path_text cs c dir) = length (dirs_text cs) + length (last_text c dir))%nat as En by (unfold path_text; by rewrite length_app).
  rewrite (proj2 (Z.eqb_neq _ 0)) by lia.
  rewrite (bool_decide_false _ (path_text_not_root cs c dir Hc)), andb_false_r.
  replace (Z.of_nat (length (dirs_text cs)) - 1 + 1) with (Z.of_nat (length (dirs_text cs))) by lia.
  rewrite En, Nat2Z.id. unfold MAX_FILE_NAME_LEN. destruct (Z.geb_spec (Z.of_nat (length (dirs_text cs) + length (last_text c dir)) - Z.of_nat (length (dirs_text cs))) 16).
  - rewrite (proj2 (Nat.ltb_ge _ _)) by lia. done.
  - rewrite (proj2 (Nat.ltb_lt _ _)) by lia. unfold path_text. rewrite <-app_assoc, insert_after, drop_app_length.
    clear En. revert Hl. by destruct (last_text c dir); [cbn; lia|].
Qed.
End texts.

Section loops.
Implicit Types (c rest : list Z) (cs : list (list Z)).

Lemma short_last c : short c -> (length (last_text c true) <? 16)%nat = true.
Proof. unfold short, last_text. intros. apply Nat.ltb_lt. rewrite length_app. cbn [length]. lia. Qed.
Lemma is_root_dirs cs rest : Forall name_ok cs -> is_root (dirs_text cs ++ 0 :: rest) = Ok (bool_decide (cs = [])).
Proof.
  intros Hcs. unfold is_root. rewrite c_string_app by by apply dirs_text_clean. cbn [rbind]. f_equal.
  destruct cs as [|c cs _] using rev_ind; [done|]. rewrite dirs_text_snoc.
  apply Forall_app in Hcs as [_ [Hc _]%list.Forall_cons].
  rewrite !bool_decide_false; [done|by destruct cs|by apply path_text_not_root].
Qed.

Lemma depth_loop_ok fuel cs rest d : Forall name_ok cs -> Forall short cs -> (length cs < fuel)%nat ->
  depth_loop fuel (dirs_text cs ++ 0 :: rest) d = Ok (d + Z.of_nat (length cs)).
Proof.
  revert fuel rest d. induction cs as [|c cs IH] using rev_ind; intros fuel rest d Hcs Hs Hf;
    (destruct fuel as [|fuel]; [lia|]); cbn [depth_loop]; rewrite is_root_dirs by done; cbn [rbind].
  - rewrite bool_decide_true by done. f_equal. cbn. lia.
  - rewrite bool_decide_false by (by destruct cs). rewrite length_app in *. cbn [length] in *.
    apply Forall_app in Hcs as [Hcs [Hc _]%list.Forall_cons]. apply Forall_app in Hs as [Hs [Hsc _]%list.Forall_cons].
    rewrite dirs_text_snoc, path_peel_ok, short_last by done. cbn [rbind]. rewrite IH by (done || lia). f_equal. lia.
Qed.
Lemma dirs_loop_ok fuel cs rest ds : Forall name_ok cs -> Forall short cs -> (length cs < fuel)%nat ->
  dirs_loop fuel (dirs_text cs ++ 0 :: rest) ds = Ok (ds ++ rev (map (fun c => c ++ [slash]) cs)).
Proof.
  revert fuel rest ds. induction cs as [|c cs IH] using rev_ind; intros fuel rest ds Hcs Hs Hf;
    (destruct fuel as [|fuel]; [lia|]); cbn [dirs_loop]; rewrite is_root_dirs by done; cbn [rbind].
  - rewrite bool_decide_true by done. f_equal. cbn. by rewrite app_nil_r.
  - rewrite bool_decide_false by (by destruct cs). rewrite length_app in *. cbn [length] in *.
    apply Forall_app in Hcs as [Hcs [Hc _]%list.Forall_cons]. apply Forall_app in Hs as [Hs [Hsc _]%list.Forall_cons].
    rewrite dirs_text_snoc, path_peel_ok, short_last by done. cbn [rbind]. unfold last_text.
    rewrite last_snoc, bool_decide_true by done. rewrite IH by (done || lia).
    by rewrite map_app, rev_app_distr, <-app_assoc.
Qed.
Lemma dirs_text_length cs : Forall name_ok cs -> (length cs < length (dirs_text cs))%nat.
Proof.
  induction 1 as [|c cs (Hc & _) _ IH]; [cbn; lia|]. unfold dirs_text in *. cbn [flat_map length] in *.
  rewrite !length_app. cbn [length]. lia.
Qed.
(** Whether the copy of a path has a null character after it. *)
Lemma copy_path_ok s : s <> [] -> 0 ∉ s ->
  if Z.of_nat (length s) <? malloc_length (Z.of_nat (length s))
  then exists rest, copy_path s = Some (s ++ 0 :: rest)
  else copy_path s = Some s.
Proof.
  intros Hne Hs. unfold copy_path. rewrite (proj2 (Nat.eqb_neq _ _)) by by destruct s.
  set (n := Z.of_nat (length s)). destruct (Z.ltb_spec n (malloc_length n)).
  - destruct (Z.to_nat (malloc_length n) - length s)%nat as [|k] eqn:Ek; [lia|]. by exists (replicate k 0).
  - replace (Z.to_nat (malloc_length n) - length s)%nat with 0%nat by lia. by rewrite app_nil_r.
Qed.
End loops.

(** A path whose copy has its null character. *)
Definition fits (s : list Z) : bool := Z.of_nat (length s) <? malloc_length (Z.of_nat (length s)).

Section calls.
Implicit Types (c : list Z) (cs : list (list Z)) (dir : bool).

Lemma peel_path_ok cs c dir : Forall name_ok cs -> name_ok c -> (length (last_text c dir) < 16)%nat ->
  let s := path_text cs c dir in
  fits s = true ->
  exists tmp rest, copy_path s = Some tmp /\ tmp = s ++ 0 :: rest /\
    path_peel tmp = Ok (Some (dirs_text cs ++ 0 :: drop 1 (last_text c dir) ++ 0 :: rest, last_text c dir)).
Proof.
  intros Hcs Hc Hl s Hf. pose proof (copy_path_ok s ltac:(done) ltac:(by apply path_text_clean)) as Hcp.
  unfold fits in Hf. rewrite Hf in Hcp. destruct Hcp as [rest ->]. exists (s ++ 0 :: rest), rest. split; [done|]. split; [done|].
  unfold s. by rewrite path_peel_ok, (proj2 (Nat.ltb_lt _ _)) by done.
Qed.
Lemma dirs_fuel cs c dir : Forall name_ok cs -> (length cs < length (path_text cs c dir))%nat.
Proof. intros Hcs. pose proof (dirs_text_length cs Hcs). unfold path_text. rewrite length_app. lia. Qed.
Lemma path_depth_ok cs c dir : Forall name_ok cs -> Forall short cs -> name_ok c -> (length (last_text c dir) < 16)%nat ->
  fits (path_text cs c dir) = true -> path_depth (path_text cs c dir) = Ok (Z.of_nat (length cs) + 1).
Proof.
  intros Hcs Hs Hc Hl Hf. destruct (peel_path_ok cs c dir Hcs Hc Hl Hf) as (tmp & rest & Ec & _ & Ep). cbn zeta in *.
  pose proof (dirs_fuel cs c dir Hcs). unfold path_depth. rewrite (proj2 (Nat.eqb_neq _ _)) by lia. rewrite Ec, Ep. cbn [rbind].
  rewrite depth_loop_ok by (done || lia). f_equal. lia.
Qed.
Lemma path_dirs_ok cs c dir : Forall name_ok cs -> Forall short cs -> name_ok c -> (length (last_text c dir) < 16)%nat ->
  fits (path_text cs c dir) = true ->
  path_dirs (path_text cs c dir) =
    Ok (Some ((if dir then [last_text c true] else []) ++ rev (map (fun c => c ++ [slash]) cs))).
Proof.
  intros Hcs Hs Hc Hl Hf. destruct (peel_path_ok cs c dir Hcs Hc Hl Hf) as (tmp & rest & Ec & Et & Ep). cbn zeta in *.
  pose proof (dirs_fuel cs c dir Hcs). unfold path_dirs. rewrite Ec. cbn [dirs_loop].
  assert (is_root tmp = Ok false) as ->.
  { unfold is_root. rewrite Et, c_string_app by by apply path_text_clean. cbn. f_equal. by apply bool_decide_false, path_text_not_root. }
  cbn [rbind]. rewrite Ep. cbn [rbind]. rewrite dirs_loop_ok by (done || lia). cbn [rbind]. do 2 f_equal.
  destruct Hc as (_ & Hc & _). unfold last_text. destruct dir; [by rewrite last_snoc, bool_decide_true|].
  rewrite app_nil_r, bool_decide_false; [done|]. intros E. by apply last_Some_elem_of in E.
Qed.
Lemma path_misfit s : s <> [] -> 0 ∉ s -> fits s = false -> path_depth s = Fault /\ path_dirs s = Fault.
Proof.
  intros Hne H0 Hf. pose proof (copy_path_ok s Hne H0) as Hcp. unfold fits in Hf. rewrite Hf in Hcp.
  unfold path_depth, path_dirs. rewrite (proj2 (Nat.eqb_neq (length s) 0)) by by destruct s. rewrite Hcp. cbn [dirs_loop].
  unfold path_peel, is_root. by rewrite (c_string_none s).
Qed.
End calls.

(** A path of [n] names has depth [n], and [path_dirs] gives the names of
    its directories, the innermost first - unless the length of the path is
    that of a block of the allocator (16, 32, and so on): then the copy has no
    null character, and both read on past the block. *)
Theorem path_depth_counts (cs : list (list Z)) (c : list Z) (dir : bool) :
  Forall name_ok cs -> Forall short cs -> name_ok c -> (length (last_text c dir) < 16)%nat ->
  let s := path_text cs c dir in
  if Z.of_nat (length s) <? malloc_length (Z.of_nat (length s))
  then path_depth s = Ok (Z.of_nat (length cs) + 1) /\
       path_dirs s = Ok (Some ((if dir then [last_text c true] else []) ++ rev (map (fun c => c ++ [slash]) cs)))
  else path_depth s = Fault /\ path_dirs s = Fault.
Proof.
  intros Hcs Hs Hc Hl s. change (Z.of_nat (length s) <? malloc_length (Z.of_nat (length s))) with (fits s).
  destruct (fits s) eqn:Ef; [by split; [apply path_depth_ok|apply path_dirs_ok]|].
  apply path_misfit; [done|by apply path_text_clean|done].
Qed.

Lemma path_depth_counts_witness :
  let s := path_text [[97]; [98; 99]] [100; 46; 99] false in
  s = [47; 97; 47; 98; 99; 47; 100; 46; 99] /\
  if Z.of_nat (length s) <? malloc_length (Z.of_nat (length s))
  then path_depth s = Ok (Z.of_nat (length [[97]; [98; 99]]) + 1) /\
       path_dirs s = Ok (Some ([] ++ rev (map (fun c => c ++ [slash]) [[97]; [98; 99]])))
  else path_depth s = Fault /\ path_dirs s = Fault.
Proof.
  split; [reflexivity|].
  assert (forall c, bool_decide (c <> [] /\ slash ∉ c /\ 0 ∉ c) = true -> name_ok c) as Hok by (intros c H; by apply bool_decide_eq_true in H).
  apply (path_depth_counts [[97]; [98; 99]] [100; 46; 99] false).
  - repeat constructor; by apply Hok.
  - repeat constructor; unfold short; cbn; lia.
  - by apply Hok.
  - cbn. lia.
Defined.
