(* ===== verification/FsPath.v ===== *)
(** * FsPath: looking a path up (core/fs/fs.c)

    [search_file] looks a name up in one directory and
    [search_file_with_pathname] follows a path from the root.  A [struct dir]
    is the address of its inode, its position, and whether it is the variable
    [root_dir] itself, which [dir_close] leaves open; a copy of [root_dir] is
    not.  Path names are strings without their null character; a directory's
    name is kept with the slash at its end. *)
From S2P Require Import Prelude Bitmap Fs FsInode FsDir Path.

Record dir := Dir { is_root_dir : bool; d_inode : Z; dir_pos : Z }.

(** [strcmp(s, name) == 0] for the bytes [l] at [s], among which the
    comparison of a name of at most 15 characters ends. *)
Fixpoint str_is (l name : list Z) : bool :=
  match l, name with
  | c :: _, [] => c =? 0
  | c :: l, d :: name => (c =? d) && str_is l name
  | [], _ => false
  end.

(** One sector of [search_file]: the number found, or -1 at the first free
    entry. *)
Fixpoint find_in_sector (n : nat) (k : Z) (name buf : list Z) : option Z :=
  match n with
  | O => None
  | S n =>
      let cur_entry := entry_at k buf in
      let filename := encode_entry cur_entry in
      if str_is filename [46] || str_is filename [46; 46] then find_in_sector n (k + 1) name buf
      else if (i_no cur_entry =? 0) && (f_type cur_entry =? FT_UNKOWN) then Some (-1)
      else if str_is filename name then Some (s32 (i_no cur_entry))
      else find_in_sector n (k + 1) name buf
  end.
(** A lift of the calculations on paths. *)
Definition lift {A} (r : res A) : M fs A :=
  fun s => match r with Ok a => Ok (a, s) | Panic => Panic | Fault => Fault | Stuck => Stuck end.
(** An allocation whose result is used without a test. *)
Definition malloc_unchecked : M fs unit := ok <- sys_malloc_ok ;; if ok : bool then ret tt else fault.

Section paths.
Context {E : FsEnv}.

(** All 140 places are read, those without a zone as sector 0. *)
Fixpoint find_in_zones (n : nat) (zones_idx : Z) (name all_zones : list Z) : M fs Z :=
  match n with
  | O => ret (-1)
  | S n =>
      z <- elem all_zones zones_idx ;;
      entries_buf <- ide_read z 1 ;;
      match find_in_sector (Z.to_nat entries_per_sector) 0 name entries_buf with
      | Some r => ret r
      | None => find_in_zones n (zones_idx + 1) name all_zones
      end
  end.
Definition search_file (this_dir : dir) (name : list Z) : M fs Z :=
  i <- inode_at (d_inode this_dir) ;;
  z12 <- elem (i_zones i) 12 ;;
  table <- (if negb (z12 =? 0) then malloc_unchecked ;;; buf <- ide_read z12 1 ;; ret (words 128 buf)
            else ret (replicate 128 0)) ;;
  malloc_unchecked ;;;
  find_in_zones 140 0 name (take 12 (i_zones i) ++ table).

(** Paths with the memory they take. *)
Definition path_depth_m (pathname : list Z) : M fs Z :=
  (when negb (length pathname =? 0)%nat do malloc_unchecked) ;;; lift (path_depth pathname).
(** [None] is the result -1; [dirs] says whether there is memory for the names. *)
Definition path_dirs_m (dirs : bool) (pathname : list Z) : M fs (option (list (list Z))) :=
  ok <- (if (length pathname =? 0)%nat then ret false else sys_malloc_ok) ;;
  if negb ok then ret None
  else
    r <- lift (path_dirs pathname) ;;
    match r with
    | Some (_ :: _) => if dirs then ret r else fault
    | r => ret r
    end.
(** A copy of the path, and its last name. *)
Definition peel_copy (pathname : list Z) : M fs (list Z * list Z) :=
  match copy_path pathname with
  | None => fault
  | Some tmp =>
      r <- lift (path_peel tmp) ;;
      match r with Some p => ret p | None => fault end
  end.

Definition dir_open_dir (inode_nr : Z) : M fs dir := a <- dir_open inode_nr ;; ret (Dir false a 0).
Definition dir_close_dir (d : dir) : M fs unit := dir_close (is_root_dir d) (d_inode d).
(** [memcpy(pdir, d, sizeof(struct dir))]. *)
Definition copy_dir (d : dir) : dir := Dir false (d_inode d) (dir_pos d).

(** The walk of [search_file_with_pathname] along the directories, outermost
    first: where it ends, and the directory before that.  The directories it
    opens on the way stay open. *)
Fixpoint walk_dirs (names : list (list Z)) (prev d : dir) (nr : Z) : M fs (option (dir * dir * Z)) :=
  match names with
  | [] => ret (Some (prev, d, nr))
  | name :: names =>
      d_inode_nr <- search_file d name ;;
      if negb (d_inode_nr =? -1) then
        next <- dir_open_dir d_inode_nr ;;
        walk_dirs names d next d_inode_nr
      else ret None
  end.

(** [root] is the inode of [root_dir]; [pdir] is what [*pdir] holds before the
    call, and the result contains what it holds afterwards. *)
Variable root : Z.
Definition root_dir : dir := Dir true root 0.
Definition search_file_with_pathname (pathname : list Z) (pdir : dir) : M fs (Z * dir) :=
  if (length pathname =? 0)%nat then ret (-1, pdir)
  else
    let is_file := negb (bool_decide (list.last pathname = Some slash)) in
    ok <- sys_malloc_ok ;;
    if negb ok then ret (-1, pdir)
    else
      p <- peel_copy pathname ;;
      let '(_, last_name) := p in
      depth <- path_depth_m pathname ;;
      has_dirs <- sys_malloc_ok ;;
      dirs <- path_dirs_m has_dirs pathname ;;
      (when negb has_dirs do fault) ;;;
      let dirs_path := default [] dirs in
      let dirs_cnt := if (length dirs_path =? 0)%nat then 1%nat else length dirs_path in
      if (dirs_cnt =? 1)%nat then
        f_inode <- search_file root_dir last_name ;;
        if negb (f_inode =? -1) then ret (f_inode, copy_dir root_dir) else ret (-1, pdir)
      else
        w <- walk_dirs (rev dirs_path) root_dir root_dir (-1) ;;
        match w with
        | None => ret (-1, pdir)
        | Some (prev_d, d, d_inode_nr) =>
            if negb is_file then ret (d_inode_nr, copy_dir prev_d)
            else
              file_inode_nr <- search_file d last_name ;;
              ret (file_inode_nr, copy_dir d)
        end.
End paths.
