(* ===== verification/FsDev.v ===== *)
(** * FsDev: device files (core/device, core/video, core/vfs)

    A device file is an inode of type [FT_CHAR], or [FT_FIFO] for the package
    files, that lives only in memory: the six functions that create one differ
    in the type, the device number and whether they take a slot of the file
    table.  What the drivers do with their own data is an interface
    ([Drivers]). *)
From S2P Require Import Prelude Bitmap Fs FsInode FsDir FsFile.

Definition FT_FIFO : Z := 1.
Definition FT_CHAR : Z := 2.
Definition DNOAUX : Z := 1.
Definition DNOPCMOUSE : Z := 2.
Definition DNOPCKBD : Z := 3.
Definition DNOLFB : Z := 4.
Definition DNOCONSOLE : Z := 5.
Definition DNOPKGFS : Z := 6.
Definition PIPE_FLAG : Z := 0xffffff.
Definition CLIENT_MARK : Z := 0xdeadbeef.
Definition IS_FT_CHAR (i : inode) : bool := Z.shiftr (i_mode i) 11 =? FT_CHAR.
Definition IS_FT_FIFO (i : inode) : bool := Z.shiftr (i_mode i) 11 =? FT_FIFO.
Definition set_dev v i := Inode (i_num i) (i_mode i) (i_uid i) (i_size i) (i_mtime i) (i_gid i) (i_nlinks i) (i_zones i)
  (i_atime i) (i_ctime i) v (i_count i) (i_lock i) (i_dirt i) (i_pipe i) (i_mount i) (i_seek i) (i_update i).

(** What the system calls ask of the drivers, the console, the package files
    and the circular queues: descriptors and slots are as in FsFile.v, bytes
    are lists. *)
Class Drivers := {
  flush_input_queue : M fs unit;                       (* [queue->head = queue->tail = 0] of ps2hid.c *)
  read_device : Z -> Z -> Z -> M fs (list Z * Z);      (* device number, slot, count *)
  ioctl_device : Z -> Z -> Z -> Z -> M fs Z;           (* device number, slot, request, argument *)
  console_write : list Z -> M fs unit;
  open_pkg : Z -> list Z -> Z -> Z -> M fs Z;          (* parent directory, name, inode number, flags *)
  read_client : Z -> Z -> M fs (list Z * Z);
  read_server : Z -> Z -> M fs (list Z * Z);
  write_client : Z -> list Z -> M fs Z;
  write_server : Z -> list Z -> M fs Z;
  init_ioqueue : Z -> M fs Z;                          (* the address of a queue, or 0 *)
  destory_ioqueue : Z -> M fs unit;
  ioqueue_put_data : Z -> list Z -> M fs Z;
  ioqueue_get_data : Z -> Z -> M fs (list Z * Z)
}.

Section devices.
Context {E : FsEnv} {D : Drivers}.

(** ** What kind of file it is: the tests open the inode and leave it open *)
Definition is_char_file (inode_nr : Z) : M fs bool :=
  a <- inode_open inode_nr ;; i <- inode_at a ;; ret (IS_FT_CHAR i).
Definition is_dev (inode_nr dev_flag : Z) : M fs bool :=
  a <- inode_open inode_nr ;; i <- inode_at a ;; ret (i_dev i =? dev_flag).
Definition is_pkg_file (inode_nr : Z) : M fs bool :=
  a <- inode_open inode_nr ;; i <- inode_at a ;; ret (IS_FT_FIFO i).
Definition is_char_fd (fd : Z) : M fs bool :=
  g_fd <- fd_local2global fd ;; f <- file_at g_fd ;; i <- inode_at (fd_inode f) ;; ret (IS_FT_CHAR i).
Definition is_pkg_fd (fd : Z) : M fs bool :=
  g_fd <- fd_local2global fd ;; f <- file_at g_fd ;; i <- inode_at (fd_inode f) ;; ret (IS_FT_FIFO i).
Definition is_pipe (fd : Z) : M fs bool :=
  g_fd <- fd_local2global fd ;; f <- file_at g_fd ;; ret (fd_flag f =? PIPE_FLAG).

(** ** Creating device files *)
Definition device_create (ft dev : Z) (takes_slot : bool) (parent_d : Z) (name : list Z) (target : Z) : M fs Z :=
  ok <- sys_malloc_ok ;;
  if negb ok then ret (-1)
  else
    inode_nr <- inode_bitmap_alloc ;;
    if inode_nr =? -1 then ret (-1)
    else
      ok <- sys_malloc_ok ;;
      if negb ok then roll_back 1 inode_nr 0 0
      else
        m <- gets inodes ;;
        let a := new_address m in
        let i := set_mode (Z.shiftl ft 11) (new_inode inode_nr zero_inode) in
        let i := set_dev dev (set_count (i_count i + 1) (set_zones (<[0%nat := target]> (i_zones i)) i)) in
        modify (fun s => set_inodes (<[a := i]> (inodes s)) s) ;;;
        new_entry <- new_dir_entry name inode_nr ft ;;
        fd_idx <- (if takes_slot : bool then lock_files ;;; occupy_file_table_slot else ret 0) ;;
        if fd_idx =? -1 then roll_back 2 inode_nr fd_idx a
        else
          (when takes_slot do
             (set_slot fd_idx (fun f => File 0 (fd_flag f) a) ;;;
              upd_inode a (set_ilock 0) ;;;
              unlock_files)) ;;;
          found <- search_dir_entry name parent_d ;;
          match found with
          | Some _ => modify (fun s => set_open (a :: open_inodes s) s) ;;; ret fd_idx
          | None =>
              r <- flush_dir_entry parent_d new_entry ;;
              if negb (r =? 0) then roll_back 3 inode_nr fd_idx a
              else modify (fun s => set_open (a :: open_inodes s) s) ;;; ret fd_idx
          end.
Definition aux_create : Z -> list Z -> Z -> M fs Z := device_create FT_CHAR DNOAUX true.
Definition kbd_create : Z -> list Z -> Z -> M fs Z := device_create FT_CHAR DNOPCKBD true.
Definition pcmouse_create : Z -> list Z -> Z -> M fs Z := device_create FT_CHAR DNOPCMOUSE true.
Definition console_create : Z -> list Z -> Z -> M fs Z := device_create FT_CHAR DNOCONSOLE true.
Definition lfbvideo_create : Z -> list Z -> Z -> M fs Z := device_create FT_CHAR DNOLFB false.
Definition packagefs_create : Z -> list Z -> Z -> M fs Z := device_create FT_FIFO DNOPKGFS true.

(** ** Opening and closing them *)
(** [before] is what is done before the lock is given back; every flag has
    the bits of [O_RDONLY], which is 0. *)
Definition device_open (before : M fs unit) (inode_nr flags : Z) : M fs Z :=
  lock_files ;;;
  gidx <- occupy_file_table_slot ;;
  if gidx =? -1 then ret (-1)
  else
    a <- inode_open inode_nr ;;
    set_slot gidx (fun _ => File 0 flags a) ;;;
    before ;;;
    unlock_files ;;;
    if Z.land flags 0 =? 0 then install_thread_fd gidx else ret (-1).
Definition open_aux : Z -> Z -> M fs Z := device_open flush_input_queue.
Definition open_lfb : Z -> Z -> M fs Z := device_open (ret tt).
Definition close_aux (idx : Z) : M fs Z := file_close idx.
Definition write_aux (buf : list Z) : M fs Z := ret (Z.of_nat (length buf)).

(** ** Pipes (core/fs/pipe.c) *)
(** [occupy_file_table_slot] may return -1, which is then used as an index. *)
Definition sys_pipe : M fs (option (Z * Z) * Z) :=
  g_fd <- occupy_file_table_slot ;;
  (when g_fd =? -1 do fault) ;;;
  queue <- init_ioqueue 4096 ;;
  set_slot g_fd (fun f => File (fd_pos f) (fd_flag f) queue) ;;;
  if queue =? 0 then ret (None, -1)
  else
    set_slot g_fd (fun f => File (fd_pos f) PIPE_FLAG (fd_inode f)) ;;;
    set_slot g_fd (fun f => File 2 (fd_flag f) (fd_inode f)) ;;;
    fd0 <- install_thread_fd g_fd ;;
    fd1 <- install_thread_fd g_fd ;;
    ret (Some (fd0, fd1), 0).
(** Both work on a copy of the slot: the count in the table stays 2. *)
Definition destory_pipe (g_fd : Z) : M fs Z :=
  f <- file_at g_fd ;;
  let f := File (u32 (fd_pos f - 1)) (fd_flag f) (fd_inode f) in
  if fd_pos f =? 0 then destory_ioqueue (fd_inode f) ;;; ret 0 else ret (-1).
Definition open_pipe (fd : Z) : M fs Z :=
  p <- is_pipe fd ;;
  if p : bool then g_fd <- fd_local2global fd ;; f <- file_at g_fd ;; ret 0 else ret (-1).
Definition close_pipe (fd : Z) : M fs unit := g_fd <- fd_local2global fd ;; destory_pipe g_fd ;;; ret tt.
Definition read_pipe (fd count : Z) : M fs (list Z * Z) :=
  g_fd <- fd_local2global fd ;; f <- file_at g_fd ;; ioqueue_get_data (fd_inode f) count.
Definition write_pipe (fd : Z) (buf : list Z) : M fs Z :=
  g_fd <- fd_local2global fd ;; f <- file_at g_fd ;; ioqueue_put_data (fd_inode f) buf.
End devices.
