(* ===== verification/FsCalls.v ===== *)
(** * FsCalls: the file system calls (core/fs/fs.c)

    Calls on descriptors first, then calls on paths.  [root] is the inode of
    [root_dir].  Memory that is only given back shows up as the call of
    [sys_malloc] that takes it. *)
From S2P Require Import Prelude Bitmap Fs FsInode FsDir FsFile Path FsPath FsDev.

Definition O_RDONLY : Z := 0.
Definition O_CREAT : Z := 64.
Definition SEEK_SET : Z := 1.
Definition SEEK_CUR : Z := 2.
Definition SEEK_END : Z := 3.
Record stat := Stat { st_ino : Z; st_mode : Z; st_nlink : Z; st_size : Z; st_zones : Z }.
#[export] Instance stat_eq_dec : EqDecision stat.
Proof. solve_decision. Defined.

Definition set_nlinks v i := Inode (i_num i) (i_mode i) (i_uid i) (i_size i) (i_mtime i) (i_gid i) v (i_zones i)
  (i_atime i) (i_ctime i) (i_dev i) (i_count i) (i_lock i) (i_dirt i) (i_pipe i) (i_mount i) (i_seek i) (i_update i).

Section descriptors.
Context {E : FsEnv} {D : Drivers}.

Definition set_pos (idx pos : Z) : M fs unit := set_slot idx (fun f => File pos (fd_flag f) (fd_inode f)).

Definition sys_close (fd : Z) : M fs Z :=
  if fd >? 2 then
    g_fd <- fd_local2global fd ;;
    pipe <- is_pipe fd ;;
    if pipe : bool then close_pipe fd ;;; ret 0
    else
      char <- is_char_fd fd ;;
      if char : bool then close_aux g_fd ;;; ret 0
      else
        r <- file_close g_fd ;;
        modify (fun s => set_fds (<[Z.to_nat fd := -1]> (fd_table s)) s) ;;;
        ret r
  else ret (-1).

(** [tmp] has 1024 bytes. *)
Definition write_console (buf : list Z) : M fs Z :=
  if (1024 <? Z.of_nat (length buf)) then fault
  else console_write buf ;;; ret (Z.of_nat (length buf)).
Definition sys_write (fd : Z) (buf : list Z) : M fs Z :=
  let count := Z.of_nat (length buf) in
  if fd <? 0 then ret (-1)
  else
    pipe <- is_pipe fd ;;
    if pipe : bool then write_pipe fd buf
    else if fd =? 1 then write_console buf
    else
      char <- is_char_fd fd ;;
      if char : bool then write_aux buf
      else
        pkg <- is_pkg_fd fd ;;
        g_fd <- fd_local2global fd ;;
        wr_file <- file_at g_fd ;;
        if pkg : bool then
          if fd_pos wr_file =? CLIENT_MARK then write_client g_fd buf else write_server g_fd buf
        else if negb (Z.land (fd_flag wr_file) O_WRONLY =? 0) || negb (Z.land (fd_flag wr_file) O_RDWR =? 0)
        then file_write g_fd buf count
        else ret (-1).

(** The bytes put into the buffer, and the result; for the standard input
    nothing is read. *)
Definition sys_read (fd count : Z) : M fs (list Z * Z) :=
  if fd <? 0 then ret ([], -1)
  else if fd =? 2 then ret ([], -1)
  else
    pipe <- is_pipe fd ;;
    if pipe : bool then read_pipe fd count
    else if fd =? 0 then ret ([], -1)
    else
      char <- is_char_fd fd ;;
      if char : bool then
        g_fd <- fd_local2global fd ;; f <- file_at g_fd ;; i <- inode_at (fd_inode f) ;;
        if (i_dev i =? DNOAUX) || (i_dev i =? DNOPCMOUSE) || (i_dev i =? DNOPCKBD)
        then read_device (i_dev i) g_fd count
        else ret ([], -1)
      else
        pkg <- is_pkg_fd fd ;;
        g_fd <- fd_local2global fd ;;
        f <- file_at g_fd ;;
        if pkg : bool then
          if fd_pos f =? CLIENT_MARK then read_client g_fd count else read_server g_fd count
        else file_read g_fd count.

Definition sys_lseek (fd offset whence : Z) : M fs Z :=
  if fd <? 0 then ret (-1)
  else
    ASSERT ((whence >? 0) && (whence <? 4)) ;;;
    g_fd <- fd_local2global fd ;;
    f <- file_at g_fd ;;
    i <- inode_at (fd_inode f) ;;
    let file_size := s32 (i_size i) in
    let new_pos :=
      if whence =? SEEK_SET then offset
      else if whence =? SEEK_CUR then s32 (s32 (fd_pos f) + offset)
      else s32 (file_size + 1 + (offset - 1)) in
    if (new_pos <? 0) || (new_pos >? file_size) then ret (-1)
    else set_pos g_fd new_pos ;;; ret new_pos.

(** Only the frame buffer, the console and the package files answer; for the
    others the result has no value. *)
Definition sys_ioctl (fd request argp : Z) : M fs (option Z) :=
  g_fd <- get_file fd ;; f <- file_at g_fd ;; i <- inode_at (fd_inode f) ;;
  if (i_dev i =? DNOLFB) || (i_dev i =? DNOCONSOLE) || (i_dev i =? DNOPKGFS)
  then r <- ioctl_device (i_dev i) g_fd request argp ;; ret (Some r)
  else ret None.
End descriptors.

Section paths.
Context {E : FsEnv} {D : Drivers}.
Variable root : Z.
Notation root_dir := (root_dir root).

(** ** [sys_open] *)
(** The loop over the directories, outermost first: each one is closed when
    the next is found, or missing. *)
Fixpoint open_dirs (names : list (list Z)) (next_dir : dir) : M fs (option dir) :=
  match names with
  | [] => ret (Some next_dir)
  | cur_name :: names =>
      d_inode <- search_file next_dir cur_name ;;
      dir_close_dir next_dir ;;;
      if d_inode =? -1 then ret None
      else next_dir <- dir_open_dir d_inode ;; open_dirs names next_dir
  end.
(** The part that [sys_open] and [sys_mount_device] share; with a depth of at
    least 2 the loop starts at the name number [depth - 2].  [None] is the
    result -1. *)
Definition path_names (depth : Z) (pathname : list Z) : M fs (option (list (list Z))) :=
  if depth >? 1 then
    has_dirs <- sys_malloc_ok ;;
    dirs <- path_dirs_m has_dirs pathname ;;
    match dirs with
    | None => ret None
    | Some dirs => ret (Some (rev (take (Z.to_nat (depth - 1)) dirs)))
    end
  else ret (Some []).
Definition DEV_PKG : list Z := [47; 100; 101; 118; 47; 112; 107; 103].
(** The switch over the flags; only a flag with [O_CREAT] closes the directory. *)
Definition open_found (pathname last_name : list Z) (next_dir : dir) (file_inode_nr flags : Z) : M fs Z :=
  if negb (Z.land flags O_CREAT =? 0) then
    fd <- (if bool_decide (take 8 pathname = DEV_PKG)
           then open_pkg (d_inode next_dir) last_name file_inode_nr flags
           else file_create (d_inode next_dir) last_name flags) ;;
    dir_close_dir next_dir ;;;
    ret fd
  else
    char <- is_char_file file_inode_nr ;;
    if char : bool then
      aux <- is_dev file_inode_nr DNOAUX ;;
      if aux : bool then open_aux file_inode_nr flags
      else
        lfb <- is_dev file_inode_nr DNOLFB ;;
        if lfb : bool then open_lfb file_inode_nr flags else open_aux file_inode_nr flags
    else
      pkg <- is_pkg_file file_inode_nr ;;
      if pkg : bool then open_pkg (d_inode next_dir) last_name file_inode_nr flags
      else file_open file_inode_nr flags.
Definition sys_open (pathname : list Z) (flags : Z) : M fs Z :=
  if bool_decide (list.last pathname = Some slash) then ret (-1)
  else
    (when negb (length pathname =? 0)%nat do malloc_unchecked) ;;;
    p <- peel_copy pathname ;;
    let '(_, last_name) := p in
    depth <- path_depth_m pathname ;;
    names <- path_names depth pathname ;;
    match names with
    | None => ret (-1)
    | Some names =>
        d <- open_dirs names root_dir ;;
        match d with
        | None => ret (-1)
        | Some next_dir =>
            file_inode_nr <- search_file next_dir last_name ;;
            if (file_inode_nr =? -1) && (Z.land flags O_CREAT =? 0) then dir_close_dir next_dir ;;; ret (-1)
            else if negb (file_inode_nr =? -1) && negb (Z.land flags O_CREAT =? 0) then dir_close_dir next_dir ;;; ret (-1)
            else open_found pathname last_name next_dir file_inode_nr flags
        end
    end.

(** ** Removing files *)
Fixpoint in_use (l : list file) (inode_nr : Z) : M fs bool :=
  match l with
  | [] => ret false
  | f :: l =>
      if fd_inode f =? 0 then in_use l inode_nr
      else i <- inode_at (fd_inode f) ;; if inode_nr =? i_num i then ret true else in_use l inode_nr
  end.
(** The block for [pdir] is zeros before it is filled. *)
Definition sys_unlink (pathname : list Z) : M fs Z :=
  ok <- sys_malloc_ok ;;
  if negb ok then ret (-1)
  else
    ok <- sys_malloc_ok ;;
    if negb ok then ret (-1)
    else
      r <- search_file_with_pathname root pathname (Dir false 0 0) ;;
      let '(inode_nr, pdir) := r in
      if inode_nr =? -1 then dir_close_dir pdir ;;; ret (-1)
      else
        a <- inode_open inode_nr ;;
        files <- gets g_file_table ;;
        used <- in_use files inode_nr ;;
        if used : bool then dir_close_dir pdir ;;; ret (-1)
        else
          i <- inode_at a ;;
          if i_nlinks i =? 0 then
            delete_dir_entry (d_inode pdir) inode_nr ;;;
            inode_release inode_nr ;;;
            dir_close_dir pdir ;;;
            ret 0
          else
            upd_inode a (set_nlinks (u8 (i_nlinks i - 1))) ;;;
            flush_inode a true ;;;
            dir_close_dir pdir ;;;
            ret (-1).
(** It is the parent directory that is tested for being empty. *)
Definition sys_rmdir (pathname : list Z) : M fs Z :=
  r <- search_file_with_pathname root pathname (Dir false 0 0) ;;
  let '(target_dir_inode, parent_dir) := r in
  if target_dir_inode =? -1 then ret (-1)
  else
    target_dir <- dir_open_dir target_dir_inode ;;
    empty <- dir_is_empty (d_inode parent_dir) ;;
    if empty : bool then dir_remove (d_inode parent_dir) (d_inode target_dir) else ret (-1).

(** ** Making directories *)
(** What the inode on the stack holds before [new_inode] fills in five fields. *)
Variable stack_inode : inode.
Definition MKDIR_ENTRY (name : list Z) (inode_nr : Z) : dir_entry :=
  DirEntry (name ++ replicate (16 - length name) 0) inode_nr FT_DIRECTORY.
(** The bits are cleared in memory, the last thing done first. *)
Definition mkdir_rollback (step zone_bitmap_idx inode_nr : Z) (pdir : dir) : M fs Z :=
  (when step <=? 1 do on_zmap (set_value_bitmap zone_bitmap_idx 0)) ;;;
  (when step <=? 2 do on_imap (set_value_bitmap inode_nr 0)) ;;;
  dir_close_dir pdir ;;;
  ret (-1).
Definition mkdir_in (pdir : dir) (last_name : list Z) : M fs Z :=
  new_dir_inode_nr <- inode_bitmap_alloc ;;
  if new_dir_inode_nr =? -1 then mkdir_rollback 3 0 new_dir_inode_nr pdir
  else
    zone_lba <- zone_bitmap_alloc ;;
    if zone_lba =? u32 (-1) then mkdir_rollback 2 0 new_dir_inode_nr pdir
    else
      s <- gets sb ;;
      let zone_bitmap_idx := u32 (zone_lba - s_data_start_lba s) in
      ASSERT (negb (zone_bitmap_idx =? 0)) ;;;
      flush_bitmap ZONE_BITMAP zone_bitmap_idx ;;;
      p <- inode_at (d_inode pdir) ;;
      let io_buf := replicate 512 0 in
      let io_buf := put_entry 0 (MKDIR_ENTRY [46] new_dir_inode_nr) io_buf in
      let io_buf := put_entry 1 (MKDIR_ENTRY [46; 46] (i_num p)) io_buf in
      ide_write zone_lba io_buf 1 ;;;
      cur_dir_entry <- new_dir_entry last_name new_dir_inode_nr FT_DIRECTORY ;;
      r <- flush_dir_entry (d_inode pdir) cur_dir_entry ;;
      if negb (r =? 0) then mkdir_rollback 1 zone_bitmap_idx new_dir_inode_nr pdir
      else
        flush_inode (d_inode pdir) true ;;;
        m <- gets inodes ;;
        let a := new_address m in
        let i := set_mode (Z.shiftl FT_DIRECTORY 11) (new_inode new_dir_inode_nr stack_inode) in
        let i := set_size (2 * sizeof_dir_entry) (set_zones (<[0%nat := zone_lba]> (i_zones i)) i) in
        modify (fun s => set_inodes (<[a := i]> (inodes s)) s) ;;;
        flush_inode a true ;;;
        modify (fun s => set_inodes (delete a (inodes s)) s) ;;;
        flush_bitmap INODE_BITMAP new_dir_inode_nr ;;;
        dir_close_dir pdir ;;;
        ret 0.
Definition sys_mkdir (pathname : list Z) : M fs Z :=
  ok <- sys_malloc_ok ;;
  if negb ok then ret (-1)
  else if (length pathname =? 0)%nat then ret (-1)
  else
    ok <- sys_malloc_ok ;;
    if negb ok then ret (-1)
    else
      p <- peel_copy pathname ;;
      let '(parent_buf, last_name) := p in
      parent_path <- lift (c_string parent_buf) ;;
      pdir <- (if bool_decide (parent_path = [slash]) then ret (Some root_dir)
               else
                 r <- search_file_with_pathname root parent_path (Dir false 0 0) ;;
                 let '(pdir_inode_nr, _) := r in
                 if pdir_inode_nr =? -1 then ret None
                 else d <- dir_open_dir pdir_inode_nr ;; ret (Some d)) ;;
      match pdir with
      | None => ret (-1)
      | Some pdir =>
          found <- search_file pdir last_name ;;
          if negb (found =? -1) then ret (-1) else mkdir_in pdir last_name
      end.

(** ** Reading directories *)
Definition sys_opendir (name : list Z) : M fs (option dir) :=
  if bool_decide (name = [slash]) then ret (Some root_dir)
  else
    sys_malloc_ok ;;;
    r <- search_file_with_pathname root name (Dir false 0 0) ;;
    if fst r =? -1 then ret None else d <- dir_open_dir (fst r) ;; ret (Some d).
Definition sys_closedir (dirp : option dir) : M fs Z :=
  match dirp with None => ret (-1) | Some d => dir_close_dir d ;;; ret 0 end.
(** The entry, and the directory with its new position. *)
Definition sys_readdir (dirp : option dir) : M fs (option dir_entry * option dir) :=
  match dirp with
  | None => panic
  | Some d =>
      r <- read_dir (d_inode d) (dir_pos d) ;;
      ret (fst r, Some (Dir (is_root_dir d) (d_inode d) (snd r)))
  end.
Definition sys_rewinddir (d : dir) : dir := Dir (is_root_dir d) (d_inode d) 0.

(** ** The working directory *)
Definition get_parent_dir_inode_nr (childdir_inode_nr : Z) : M fs Z :=
  a <- inode_open childdir_inode_nr ;;
  i <- inode_at a ;;
  zone_lba <- elem (i_zones i) 0 ;;
  s <- gets sb ;;
  ASSERT (zone_lba >=? s_data_start_lba s) ;;;
  inode_close a ;;;
  io_buf <- ide_read zone_lba 1 ;;
  let dentry := entry_at 1 io_buf in
  ASSERT ((i_no dentry <? 4096) && (f_type dentry =? FT_DIRECTORY)) ;;;
  ret (i_no dentry).
(** The characters of an entry's name, up to the null one. *)
Definition entry_name (e : dir_entry) : list Z :=
  take (Z.to_nat (name_length (encode_entry e))) (encode_entry e).
Fixpoint child_in_sector (n : nat) (k child_inode_nr : Z) (buf : list Z) : option (list Z) :=
  match n with
  | O => None
  | S n => let entry := entry_at k buf in
           if i_no entry =? child_inode_nr then Some (entry_name entry)
           else child_in_sector n (k + 1) child_inode_nr buf
  end.
Fixpoint child_in_zones (n : nat) (zone_idx child_inode_nr : Z) (all_zones : list Z) : M fs (option (list Z)) :=
  match n with
  | O => ret None
  | S n =>
      z <- elem all_zones zone_idx ;;
      if z =? 0 then child_in_zones n (zone_idx + 1) child_inode_nr all_zones
      else
        buf <- ide_read z 1 ;;
        match child_in_sector (Z.to_nat entries_per_sector) 0 child_inode_nr buf with
        | Some name => ret (Some name)
        | None => child_in_zones n (zone_idx + 1) child_inode_nr all_zones
        end
  end.
(** The path with the name appended, or [None] for -1; [path] has 1024 bytes. *)
Definition get_child_dir_name (parent_inode_nr child_inode_nr : Z) (path : list Z) : M fs (option (list Z)) :=
  a <- inode_open parent_inode_nr ;;
  i <- inode_at a ;;
  all_zones <- inode_all_zones i ;;
  inode_close a ;;;
  r <- child_in_zones 140 0 child_inode_nr all_zones ;;
  match r with
  | None => ret None
  | Some name =>
      let path := path ++ slash :: name in
      if 1024 <=? Z.of_nat (length path) then fault else ret (Some path)
  end.
(** From the working directory up to the root. *)
Fixpoint getcwd_up (fuel : nat) (cwd_inode_nr : Z) (path : list Z) : M fs (option (list Z)) :=
  if cwd_inode_nr =? 0 then ret (Some path)
  else match fuel with
  | O => stuck
  | S fuel =>
      parent_inode_nr <- get_parent_dir_inode_nr cwd_inode_nr ;;
      r <- get_child_dir_name parent_inode_nr cwd_inode_nr path ;;
      match r with
      | None => ret None
      | Some path => getcwd_up fuel parent_inode_nr path
      end
  end.
(** The loop with [strrchr]: the parts of the path from the last slash on,
    last part first. *)
Fixpoint last_part (s : list Z) : option (list Z * list Z) :=
  match s with
  | [] => None
  | c :: s =>
      match last_part s with
      | Some (before, part) => Some (c :: before, part)
      | None => if c =? slash then Some ([], c :: s) else None
      end
  end.
Fixpoint turn_round (fuel : nat) (path buf : list Z) : list Z :=
  match fuel with
  | O => buf
  | S fuel => match last_part path with
              | None => buf
              | Some (before, part) => turn_round fuel before (buf ++ part)
              end
  end.
(** What is in [buf], and whether the result is [buf] and not null. *)
Definition sys_getcwd (fuel : nat) (cwd_inode_nr size : Z) : M fs (list Z * bool) :=
  ok <- sys_malloc_ok ;;
  if negb ok then ret ([], false)
  else if cwd_inode_nr =? 0 then ret ([slash], true)
  else
    r <- getcwd_up fuel cwd_inode_nr [] ;;
    match r with
    | None => ret ([], false)
    | Some path =>
        ASSERT (Z.of_nat (length path) <=? size) ;;;
        (when Z.of_nat (length path) =? size do fault) ;;;
        ret (turn_round (length path) path [], false)
    end.
(** The result and the new [cwd_inode_nr] of the thread. *)
Definition sys_chdir (pathname : list Z) (cwd_inode_nr : Z) : M fs (Z * Z) :=
  r <- search_file_with_pathname root pathname (Dir false 0 0) ;;
  let inode_nr := fst r in
  if negb (inode_nr =? -1) then
    a <- inode_open inode_nr ;;
    i <- inode_at a ;;
    if Z.land (Z.shiftr (i_mode i) 11) 15 =? FT_DIRECTORY then ret (0, u32 inode_nr) else ret (-1, cwd_inode_nr)
  else ret (-1, cwd_inode_nr).

(** ** [sys_stat] *)
(** The zones before the first 0; after the thirteen come the two times. *)
Fixpoint count_zones (l : list Z) : res Z :=
  match l with
  | [] => Fault
  | z :: l => if z =? 0 then Ok 0 else rbind (count_zones l) (fun n => Ok (1 + n))
  end.
Definition sys_stat (pathname : list Z) : M fs (option stat * Z) :=
  if bool_decide (pathname = [slash]) || bool_decide (pathname = [slash; 46]) || bool_decide (pathname = [slash; 46; 46]) then
    i <- inode_at root ;;
    idx <- lift (count_zones (i_zones i ++ [i_atime i; i_ctime i])) ;;
    ret (Some (Stat 0 (s16 (i_mode i)) (s8 (i_nlinks i)) (s32 (i_size i)) idx), 0)
  else
    r <- search_file_with_pathname root pathname (Dir false 0 0) ;;
    let inode_nr := fst r in
    if negb (inode_nr =? -1) then
      a <- inode_open inode_nr ;;
      i <- inode_at a ;;
      idx <- lift (count_zones (i_zones i ++ [i_atime i; i_ctime i])) ;;
      ret (Some (Stat inode_nr (s16 (i_mode i)) (s8 (i_nlinks i)) (s32 (i_size i)) (idx + 1)), 0)
    else ret (None, -1).

(** ** Device files *)
(** The directories on the way are made when they are missing; [abs] is
    [cur_abs_dir_path], in a block of [strlen(pathname)] bytes. *)
Fixpoint mount_dirs (names : list (list Z)) (abs : list Z) (next_dir : dir) : M fs (option dir) :=
  match names with
  | [] => ret (Some next_dir)
  | cur_name :: names =>
      let abs := abs ++ cur_name in
      d_inode <- search_file next_dir cur_name ;;
      d_inode <- (if d_inode =? -1 then sys_mkdir abs ;;; search_file next_dir cur_name else ret d_inode) ;;
      if d_inode =? -1 then ret None
      else dir_close_dir next_dir ;;; next_dir <- dir_open_dir d_inode ;; mount_dirs names abs next_dir
  end.
Definition create_device (dev_no : Z) : option (Z -> list Z -> Z -> M fs Z) :=
  if dev_no =? DNOAUX then Some aux_create
  else if dev_no =? DNOPCKBD then Some kbd_create
  else if dev_no =? DNOPCMOUSE then Some pcmouse_create
  else if dev_no =? DNOLFB then Some lfbvideo_create
  else if dev_no =? DNOCONSOLE then Some console_create
  else if dev_no =? DNOPKGFS then Some packagefs_create
  else None.
Definition sys_mount_device (pathname : list Z) (dev_no file : Z) : M fs Z :=
  if bool_decide (list.last pathname = Some slash) then ret (-1)
  else
    (when negb (length pathname =? 0)%nat do malloc_unchecked) ;;;
    p <- peel_copy pathname ;;
    let '(_, last_name) := p in
    depth <- path_depth_m pathname ;;
    names <- path_names depth pathname ;;
    match names with
    | None => ret (-1)
    | Some names =>
        (when depth >? 1 do malloc_unchecked) ;;;
        d <- mount_dirs names [slash] root_dir ;;
        match d with
        | None => ret (-1)
        | Some next_dir =>
            fd <- (match create_device dev_no with
                   | Some create => create (d_inode next_dir) last_name file
                   | None => ret (-1)
                   end) ;;
            dir_close_dir next_dir ;;;
            ret fd
        end
    end.
End paths.
