(* ===== verification/FsDirSpec.v ===== *)
(** * FsDirSpec: entering names into a directory *)
From S2P Require Import Prelude Bitmap Fs FsInode FsDir FsFile FsProofs FsSpec FsDev.

Record entry_ok (e : dir_entry) : Prop := {
  eo_name : length (filename e) = 16%nat;
  eo_no : 0 <= i_no e < 2 ^ 32;
  eo_type : 0 <= f_type e < 2 ^ 32
}.

Section entries.
Context {E : FsEnv}.
Implicit Types (s : fs) (e : dir_entry) (buf : list Z).

Lemma encode_entry_length e : entry_ok e -> length (encode_entry e) = 24%nat.
Proof. intros [H _ _]. unfold encode_entry. rewrite !length_app, !le_length, H. done. Qed.
Lemma decode_encode_entry e l : entry_ok e -> decode_entry (encode_entry e ++ l) = e.
Proof.
  intros [H1 H2 H3]. destruct e as [name no ty]. unfold decode_entry, encode_entry. cbn [filename i_no f_type] in *.
  rewrite <-!app_assoc. f_equal.
  - rewrite sub_app_l by lia. by rewrite sub_all.
  - unfold word. rewrite sub_app_r by lia. rewrite H1. rewrite sub_app_l by (rewrite le_length; lia).
    rewrite sub_all by (by rewrite le_length). by apply le_of_le.
  - unfold word. rewrite sub_app_r by lia. rewrite H1. rewrite sub_app_r by (rewrite le_length; lia). rewrite le_length.
    cbn [Nat.sub]. rewrite sub_app_l by (rewrite le_length; lia). rewrite sub_all by (by rewrite le_length). by apply le_of_le.
Qed.

Lemma decode_entry_24 l1 l2 : take 24 l1 = take 24 l2 -> decode_entry l1 = decode_entry l2.
Proof.
  intros H. assert (forall o n l, (o + n <= 24)%nat -> sub o n l = sub o n (take 24 l)) as Hs.
  { intros o n l Ho. unfold sub. rewrite skipn_firstn_comm, take_take. by rewrite Nat.min_l by lia. }
  unfold decode_entry, word. rewrite !(Hs _ _ l1), !(Hs _ _ l2) by lia. by rewrite H.
Qed.
(** The entry put at [k] is read back there, and the others are not touched. *)
Lemma entry_put_ok e k k' buf : entry_ok e -> length buf = 512%nat -> 0 <= k < 21 -> 0 <= k' < 21 ->
  entry_at k' (put_entry k e buf) = if decide (k' = k) then e else entry_at k' buf.
Proof.
  intros He Hb Hk Hk'. pose proof (encode_entry_length e He) as Hl.
  unfold entry_at, put_entry, sizeof_dir_entry. set (o := Z.to_nat (k * 24)). set (o' := Z.to_nat (k' * 24)).
  case_decide as Ek.
  - subst k'. unfold splice. rewrite drop_app_ge by (rewrite length_take; lia). rewrite length_take.
    replace (o' - o `min` length buf)%nat with 0%nat by lia. rewrite drop_0. by apply decode_encode_entry.
  - apply decode_entry_24. apply list_eq. intros j. destruct (decide (j < 24)%nat) as [Hj|Hj].
    + rewrite !lookup_take_lt, !lookup_drop by lia. rewrite splice_lookup by lia.
      rewrite decide_False by lia. done.
    + by rewrite !lookup_take_ge by lia.
Qed.

Lemma find_free_range n k buf r : find_free n k buf = Some r -> k <= r < k + Z.of_nat n.
Proof.
  revert k. induction n as [|n IH]; intros k H; simpl in H; [done|]. case_match; [simplify_eq; lia|].
  apply IH in H. lia.
Qed.

(** The zones of a directory as [flush_dir_entry] reads them. *)
Definition dir_zones s (i : inode) : list Z :=
  take 12 (i_zones i) ++
  (if default 0 (i_zones i !! 12%nat) =? 0 then replicate 128 0 else words 128 (disk s (default 0 (i_zones i !! 12%nat)))).
(** Place [j] is the first zone with a free entry, [k] that entry. *)
Definition first_free s (zs : list Z) (j : nat) (z k : Z) : Prop :=
  zs !! j = Some z /\ z <> 0 /\ find_free 21 0 (disk s z) = Some k /\
  forall m y, (m < j)%nat -> zs !! m = Some y -> y <> 0 /\ find_free 21 0 (disk s y) = None.

Lemma flush_loop_ok s zs p_dir i e j z k n (m : Z) :
  inodes s !! p_dir = Some i -> Forall (fun z => z <= max_lba) zs -> first_free s zs j z k ->
  0 <= m <= Z.of_nat j -> (j < Z.to_nat m + n)%nat ->
  flush_loop n m p_dir e zs s =
    Ok (0, set_inodes (<[p_dir := set_size (u32 (i_size i + sizeof_dir_entry)) i]> (inodes s))
             (set_disk (put_sectors (disk s) z 1 (put_entry k e (disk s z))) s)).
Proof.
  intros Hi Hz (Hzj & Hz0 & Hk & Hbefore). revert m. induction n as [|n IH]; intros m Hm Hn; [lia|]. cbn [flush_loop].
  assert (j < length zs)%nat by by eapply lookup_lt_Some.
  destruct (lookup_lt_is_Some_2 zs (Z.to_nat m)) as [y Hy]; [lia|].
  pose proof (proj1 (Forall_lookup _ _) Hz _ _ Hy) as Hyl. cbn beta in Hyl.
  run (elem_ok zs m y s ltac:(lia) Hy). change (Z.to_nat entries_per_sector) with 21%nat.
  destruct (decide (Z.to_nat m = j)) as [Ej|Ej].
  - assert (y = z) as -> by congruence. rewrite (proj2 (Z.eqb_neq z 0)) by done.
    run (ide_read_ok s z 1 Hyl ltac:(lia) ltac:(lia)). change (Z.to_nat 1) with 1%nat. cbn [sectors]. rewrite app_nil_r, Hk.
    run (ide_write_ok s z (put_entry k e (disk s z)) 1 Hyl ltac:(lia) ltac:(lia)). change (Z.to_nat 1) with 1%nat.
    erewrite bind_ok by (unfold upd_inode; cbn [inodes set_disk]; rewrite Hi; reflexivity). done.
  - destruct (Hbefore (Z.to_nat m) y) as [Hy0 Hyn]; [lia|done|]. rewrite (proj2 (Z.eqb_neq y 0)) by done.
    run (ide_read_ok s y 1 Hyl ltac:(lia) ltac:(lia)). change (Z.to_nat 1) with 1%nat. cbn [sectors]. rewrite app_nil_r, Hyn.
    apply IH; lia.
Qed.

(** C34: when some zone of a directory has a free entry, [flush_dir_entry]
    answers 0, puts the new entry into the first free place of the first such
    zone, where it is read back, leaves every other entry of that sector and
    every other sector alone, and the directory grows by one entry. *)
Theorem flush_dir_entry_fills_first_free s p_dir i e j z k :
  inodes s !! p_dir = Some i -> disk_ok (disk s) -> length (i_zones i) = 13%nat ->
  default 0 (i_zones i !! 12%nat) <= max_lba -> Forall (fun z => 0 <= z <= max_lba) (dir_zones s i) ->
  first_free s (dir_zones s i) j z k -> entry_ok e ->
  exists s', flush_dir_entry p_dir e s = Ok (0, s') /\
    entry_at k (disk s' z) = e /\
    (forall k', 0 <= k' < 21 -> k' <> k -> entry_at k' (disk s' z) = entry_at k' (disk s z)) /\
    (forall a, a <> z -> disk s' a = disk s a) /\
    inodes s' = <[p_dir := set_size (u32 (i_size i + 24)) i]> (inodes s).
Proof.
  intros Hi Hd Hl Hz12 Hz Hff He. destruct (lookup_lt_is_Some_2 (i_zones i) 12) as [t Ht]; [lia|].
  assert (Forall (fun z => z <= max_lba) (dir_zones s i)) as Hz' by (eapply Forall_impl; [|exact Hz]; simpl; lia).
  pose proof Hff as (Hzj & Hz0 & Hk & _). pose proof (find_free_range _ _ _ _ Hk) as Hkr.
  assert (length (dir_zones s i) = 140%nat) as Hzl.
  { unfold dir_zones. rewrite length_app, length_take, Hl. case_match; by rewrite ?length_replicate, ?words_length. }
  eexists. split.
  - unfold flush_dir_entry. assert (inode_at p_dir s = Ok (i, s)) as Ei by (unfold inode_at; by rewrite Hi). run Ei.
    run (elem_ok (i_zones i) 12 t s ltac:(lia) Ht).
    assert ((if negb (t =? 0) then buf <- ide_read t 1 ;; ret (words 128 buf) else ret (replicate 128 0)) s =
            Ok (drop 12 (dir_zones s i), s)) as Et.
    { unfold dir_zones. rewrite drop_app_length' by (rewrite length_take; lia). rewrite Ht in *.
      change (default 0 (Some t)) with t in *. destruct (t =? 0); cbn [negb]; [done|].
      run (ide_read_ok s t 1 Hz12 ltac:(lia) ltac:(lia)). change (Z.to_nat 1) with 1%nat. cbn [sectors]. by rewrite app_nil_r. }
    run Et. replace (take 12 (i_zones i)) with (take 12 (dir_zones s i)).
    2: { unfold dir_zones. by rewrite take_app_length' by (rewrite length_take; lia). }
    rewrite firstn_skipn. apply (flush_loop_ok s _ p_dir i e j z k); [done|done|done|lia|].
    assert (j < 140)%nat by (rewrite <-Hzl; by eapply lookup_lt_Some). lia.
  - cbn [disk set_inodes set_disk inodes]. assert (0 <= z <= max_lba) as Hzr by by apply (proj1 (Forall_lookup _ _) Hz _ _ Hzj).
    change max_lba with 163839 in Hzr.
    assert (put_sectors (disk s) z 1 (put_entry k e (disk s z)) z = put_entry k e (disk s z)) as Ez.
    { cbn [put_sectors]. rewrite Z.eqb_refl. apply firstn_all2. unfold put_entry.
      rewrite splice_length; [by rewrite Hd|]. rewrite encode_entry_length, Hd by done. unfold sizeof_dir_entry. lia. }
    rewrite Ez. split_and!.
    + rewrite entry_put_ok by (done || lia). by rewrite decide_True.
    + intros k' Hk' Hne. rewrite entry_put_ok by (done || lia). by rewrite decide_False.
    + intros a Ha. cbn [put_sectors]. by rewrite (proj2 (Z.eqb_neq a z)).
    + done.
Qed.
End entries.

(** ** A directory of one zone, sector 100, with the entries ".", ".." and
    "foobar" *)
Definition name16 (l : list Z) : list Z := l ++ replicate (16 - length l) 0.
Definition foobar : dir_entry := DirEntry (name16 [102; 111; 111; 98; 97; 114]) 9 FT_REGULAR.
Definition newname : dir_entry := DirEntry (name16 [110; 101; 119]) 10 FT_REGULAR.
Definition dir_sector : list Z :=
  put_entry 2 foobar (put_entry 1 (DirEntry (name16 [46; 46]) 0 FT_DIRECTORY)
    (put_entry 0 (DirEntry (name16 [46]) 5 FT_DIRECTORY) (replicate 512 0))).
Definition dir_inode (z : Z) : inode := set_zones (z :: replicate 12 0) (set_size 72 (set_num 5 zero_inode)).
(** The boot sector is all ones, sector 101 a full directory zone. *)
Definition dir_fs (z : Z) : fs :=
  Fs (fun a => if a =? 100 then dir_sector else if a =? 101 then flat_map (fun _ => encode_entry foobar) (replicate 21 0) ++ replicate 8 0
               else replicate 512 (if a =? 0 then 1 else 0))
     (Super 20 2 3 10 8 99) demo_bitmap demo_bitmap {[7000 := dir_inode z]} [7000] [] (replicate 32 (-1)) false [].

Lemma flush_dir_entry_fills_first_free_witness :
  exists s', flush_dir_entry 7000 newname (dir_fs 100) = Ok (0, s') /\ entry_at 3 (disk s' 100) = newname.
Proof.
  destruct (flush_dir_entry_fills_first_free (dir_fs 100) 7000 (dir_inode 100) newname 0 100 3) as (s' & Ef & Hk & _).
  - done.
  - intros a. unfold dir_fs; cbn [disk]. repeat case_match; [by vm_compute|by vm_compute|apply length_replicate..].
  - done.
  - by vm_compute.
  - apply (bool_decide_unpack _). vm_compute. exact I.
  - split_and!; [done|done|by vm_compute|]. intros m y Hm. lia.
  - split; [done|by_computation|by_computation].
  - by exists s'.
Defined.

(** Looking for "foo" finds "foobar". *)
Lemma search_matches_prefixes :
  match search_dir_entry [102; 111; 111] 7000 (dir_fs 100) with
  | Ok (Some e, _) => bool_decide (e = foobar)
  | _ => false end = true.
Proof. vm_compute. reflexivity. Qed.

(** Deleting "foobar" goes on to clear the same place of sector 0, and takes
    140 entries off the directory's size. *)
Lemma delete_writes_boot_sector :
  match delete_dir_entry 7000 9 (dir_fs 100) with
  | Ok (_, s) => bool_decide (word 48 4 (disk s 0) = 0) && bool_decide (word 48 4 (disk (dir_fs 100) 0) = 16843009)
      && bool_decide (i_size <$> inodes s !! 7000 = Some (u32 (72 - 140 * 24)))
  | _ => false end = true.
Proof. vm_compute. reflexivity. Qed.

(** A directory whose zone is full gets no new entry: every free place of the
    zone table is filled with a newly allocated zone and the call fails. *)
Lemma full_directory_takes_all_zones :
  match flush_dir_entry 7000 newname (dir_fs 101) with
  | Ok (r, s) => bool_decide (r = -1) && bool_decide (used (zone_bitmap s) 138 = true) && bool_decide (used (zone_bitmap s) 139 = false)
  | _ => false end = true.
Proof. vm_compute. reflexivity. Qed.

(** * A small file system for the examples *)

(** ** A disk with a directory "d" and the file "f" in it: the inode table at
    sector 10, the root at sector 100, the directory at 101, the file of 600
    bytes at 102 and 103; in the root, behind a free entry, a name "x" *)
Definition file_entry (name : list Z) (nr ft : Z) : dir_entry := DirEntry (name16 name) nr ft.
Definition entry_sector (l : list dir_entry) : list Z :=
  take 512 (flat_map encode_entry l ++ replicate 512 0).
Definition demo_dir (nr z : Z) : inode :=
  set_mode (Z.shiftl FT_DIRECTORY 11) (set_zones (z :: replicate 12 0) (set_size 72 (set_num nr zero_inode))).
Definition demo_file : inode :=
  set_mode (Z.shiftl FT_REGULAR 11) (set_zones (102 :: 103 :: replicate 11 0) (set_size 600 (set_num 4 zero_inode))).
Definition inode_sector : list Z :=
  flat_map encode_inode [demo_dir 0 100; zero_inode; zero_inode; demo_dir 3 101; demo_file] ++ replicate 12 0.
Definition dot_entries (nr up : Z) : list dir_entry := [file_entry [46] nr FT_DIRECTORY; file_entry [46; 46] up FT_DIRECTORY].
Definition demo_disk (a : Z) : list Z :=
  if a =? 10 then inode_sector
  else if a =? 100 then entry_sector (dot_entries 0 0 ++ [file_entry [100; 47] 3 FT_DIRECTORY; file_entry [103] 4 FT_REGULAR;
                                                          file_entry [] 0 FT_UNKOWN; file_entry [120] 4 FT_REGULAR])
  else if a =? 101 then entry_sector (dot_entries 3 0 ++ [file_entry [102] 4 FT_REGULAR])
  else replicate 512 (if a <? 100 then 0 else a mod 256).
Definition demo_root : Z := 5000.
Definition demo_state : fs :=
  Fs demo_disk (Super 5 2 3 10 8 99) demo_bitmap demo_bitmap {[demo_root := set_count 1 (demo_dir 0 100)]} [demo_root]
     (replicate 128 (File 0 0 0)) ([0; 1; 2] ++ replicate 29 (-1)) false [].
(** Drivers that do nothing. *)
#[export] Instance no_drivers : Drivers := {|
  flush_input_queue := ret tt; read_device _ _ _ := ret ([], -1); ioctl_device _ _ _ _ := ret (-1);
  console_write _ := ret tt; open_pkg _ _ _ _ := ret (-1); read_client _ _ := ret ([], -1); read_server _ _ := ret ([], -1);
  write_client _ _ := ret (-1); write_server _ _ := ret (-1); init_ioqueue _ := ret 0; destory_ioqueue _ := ret tt;
  ioqueue_put_data _ _ := ret 0; ioqueue_get_data _ _ := ret ([], 0)
|}.

Lemma demo_state_table : table_ok demo_state.
Proof.
  split; [|done|split; cbn; lia|by vm_compute].
  intros a. cbn [disk demo_state]. unfold demo_disk. destruct (a =? 10); [by vm_compute|].
  destruct (a =? 100); [by vm_compute|]. destruct (a =? 101); [by vm_compute|apply length_replicate].
Qed.
