(* ===== verification/FsPathSpec.v ===== *)
(** * FsPathSpec: what a directory shows, and where a path leads *)
From S2P Require Import Prelude Bitmap Fs FsInode FsProofs FsDir FsDirSpec FsSpec Path FsPath FsDev.

(** ** The entries of a directory *)
Definition dots (e : dir_entry) : bool := str_is (encode_entry e) [46] || str_is (encode_entry e) [46; 46].
Definition hole (e : dir_entry) : bool := (i_no e =? 0) && (f_type e =? FT_UNKOWN).
Definition named (name : list Z) (e : dir_entry) : bool := str_is (encode_entry e) name.
Definition sector_entries (buf : list Z) : list dir_entry := (fun j => entry_at (Z.of_nat j) buf) <$> seq 0 21.
Definition dir_entries (s : fs) (i : inode) : list dir_entry :=
  flat_map (fun z => sector_entries (disk s z)) (dir_zones s i).
(** Those that [search_file] gets to: without "." and "..", up to the first
    free one. *)
Fixpoint visible (l : list dir_entry) : list dir_entry :=
  match l with
  | [] => []
  | e :: l => if dots e then visible l else if hole e then [] else e :: visible l
  end.
Definition lookup_name (name : list Z) (l : list dir_entry) : Z :=
  match find (named name) (visible l) with Some e => s32 (i_no e) | None => -1 end.

(** The zones that are read lie on the disk. *)
Record dir_ok (s : fs) (i : inode) : Prop := {
  do_len : length (i_zones i) = 13%nat;
  do_table : default 0 (i_zones i !! 12%nat) <= max_lba;
  do_range : Forall (fun z => z <= max_lba) (dir_zones s i)
}.

Section searching.
Context {E : FsEnv}.
Implicit Types (s : fs) (i : inode) (name : list Z) (l : list dir_entry).

(** The search over a list of entries. *)
Fixpoint scan (name : list Z) l : option Z :=
  match l with
  | [] => None
  | e :: l => if dots e then scan name l else if hole e then Some (-1)
              else if named name e then Some (s32 (i_no e)) else scan name l
  end.
Lemma scan_app name l1 l2 : scan name (l1 ++ l2) = match scan name l1 with Some r => Some r | None => scan name l2 end.
Proof. induction l1 as [|e l1 IH]; [done|]. cbn [app scan]. by repeat case_match. Qed.
Lemma scan_lookup name l : default (-1) (scan name l) = lookup_name name l.
Proof.
  unfold lookup_name. induction l as [|e l IH]; [done|]. cbn [scan visible].
  destruct (dots e); [done|]. destruct (hole e); [done|]. cbn [find]. by destruct (named name e).
Qed.

Lemma find_in_sector_scan n (k : nat) name buf :
  find_in_sector n (Z.of_nat k) name buf = scan name ((fun j => entry_at (Z.of_nat j) buf) <$> seq k n).
Proof.
  revert k. induction n as [|n IH]; intros k; [done|]. cbn [find_in_sector seq fmap list_fmap scan].
  replace (Z.of_nat k + 1) with (Z.of_nat (S k)) by lia. rewrite (IH (S k)). unfold dots, hole, named. by repeat case_match.
Qed.

Lemma malloc_unchecked_ok s : mallocs s = [] -> malloc_unchecked s = Ok (tt, s).
Proof. intros Hm. unfold malloc_unchecked, sys_malloc_ok, bind. by rewrite Hm. Qed.

Lemma find_in_zones_ok s n (k : nat) name zs :
  length zs = (k + n)%nat -> Forall (fun z => z <= max_lba) zs ->
  find_in_zones n (Z.of_nat k) name zs s =
    Ok (default (-1) (scan name (flat_map (fun z => sector_entries (disk s z)) (drop k zs))), s).
Proof.
  revert k. induction n as [|n IH]; intros k Hl Hz; cbn [find_in_zones].
  - by rewrite drop_ge by lia.
  - destruct (lookup_lt_is_Some_2 zs k) as [z Hk]; [lia|]. rewrite (drop_S zs z k Hk). cbn [flat_map].
    pose proof (proj1 (Forall_lookup _ _) Hz k z Hk) as Hm. cbn beta in Hm.
    assert (zs !! Z.to_nat (Z.of_nat k) = Some z) as Hk' by (by rewrite Nat2Z.id).
    run (elem_ok zs (Z.of_nat k) z s ltac:(lia) Hk').
    run (ide_read_ok s z 1 Hm ltac:(lia) ltac:(lia)). change (Z.to_nat 1) with 1%nat. cbn [sectors]. rewrite app_nil_r.
    change (Z.to_nat entries_per_sector) with 21%nat. rewrite (find_in_sector_scan 21 0), scan_app.
    fold (sector_entries (disk s z)). destruct (scan name (sector_entries (disk s z))); [done|].
    replace (Z.of_nat k + 1) with (Z.of_nat (S k)) by lia. apply IH; [lia|done].
Qed.

Lemma search_file_ok s d i name :
  inodes s !! d_inode d = Some i -> dir_ok s i -> mallocs s = [] ->
  search_file d name s = Ok (lookup_name name (dir_entries s i), s).
Proof.
  intros Hi [Hl Ht Hz] Hm. unfold search_file.
  assert (inode_at (d_inode d) s = Ok (i, s)) as Ei by (unfold inode_at; by rewrite Hi). run Ei.
  destruct (lookup_lt_is_Some_2 (i_zones i) 12) as [z Hz12]; [lia|].
  run (elem_ok (i_zones i) 12 z s ltac:(lia) Hz12).
  assert ((if negb (z =? 0) then malloc_unchecked ;;; buf <- ide_read z 1 ;; ret (words 128 buf) else ret (replicate 128 0)) s =
    Ok (if z =? 0 then replicate 128 0 else words 128 (disk s z), s)) as Et.
  { destruct (z =? 0); [done|]. cbn [negb]. run (malloc_unchecked_ok s Hm). rewrite Hz12 in Ht. cbn in Ht.
    run (ide_read_ok s z 1 Ht ltac:(lia) ltac:(lia)). change (Z.to_nat 1) with 1%nat. cbn [sectors]. by rewrite app_nil_r. }
  run Et. run (malloc_unchecked_ok s Hm).
  unfold dir_entries. rewrite <-scan_lookup. unfold dir_zones in *. rewrite Hz12 in *. cbn [default] in *. change (default 0 (Some z)) with z in *.
  rewrite (find_in_zones_ok s 140 0); [done| |done].
  rewrite length_app, length_take, Hl. by destruct (z =? 0); rewrite ?length_replicate, ?words_length.
Qed.
End searching.

(** ** Opening and closing one inode *)
Section opening.
Context {E : FsEnv}.
Implicit Types (s : fs) (i j : inode) (name : list Z).

(** An inode of the table that nobody has open, as [flush_inode] leaves it. *)
Record openable s (nr : Z) : Prop := {
  op_range : 0 <= nr < s_ninodes (sb s);
  op_closed : forall b, b ∈ open_inodes s -> exists i, inodes s !! b = Some i /\ i_num i <> nr;
  op_count : i_count (disk_inode s nr) = 0;
  op_num : i_num (disk_inode s nr) = nr
}.
Definition fresh_inode s nr : inode := set_count 1 (disk_inode s nr).
Definition new_at s : Z := new_address (inodes s).
(** The state with inode number [nr] open. *)
Definition open_state nr s : fs :=
  set_open (new_at s :: open_inodes s) (set_inodes (<[new_at s := fresh_inode s nr]> (inodes s)) s).

Lemma inode_open_now s nr : table_ok s -> mallocs s = [] -> openable s nr ->
  inode_open nr s = Ok (new_at s, open_state nr s).
Proof.
  intros Ht Hm [Hr Ho Hc _]. rewrite (inode_open_ok s nr Ht Hr Ho Hm). by rewrite Hc.
Qed.
Lemma new_at_fresh s nr b : openable s nr -> b ∈ open_inodes s -> b <> new_at s.
Proof.
  intros [_ Ho _ _] Hb ->. destruct (Ho _ Hb) as (i & Hi & _).
  unfold new_at in Hi. by rewrite (proj2 (new_address_fresh (inodes s))) in Hi.
Qed.
Lemma inode_close_now s nr : openable s nr -> inode_close (new_at s) (open_state nr s) = Ok (tt, s).
Proof.
  intros Ho. unfold inode_close.
  assert (upd_inode (new_at s) (fun i => set_count (u16 (i_count i - 1)) i) (open_state nr s) =
    Ok (tt, set_inodes (<[new_at s := set_count 0 (disk_inode s nr)]> (inodes s)) (open_state nr s))) as E1.
  { unfold upd_inode. cbn [open_state inodes set_open set_inodes]. rewrite lookup_insert_eq, insert_insert_eq. done. }
  run E1. erewrite bind_ok.
  2: { unfold inode_at. cbn [inodes set_inodes]. by rewrite lookup_insert_eq. }
  cbn beta iota. cbn [i_count set_count]. rewrite Z.eqb_refl. rewrite modify_bind. unfold modify. do 2 f_equal.
  cbn [open_state inodes set_open set_inodes open_inodes]. rewrite delete_insert_eq.
  rewrite delete_id by apply new_address_fresh.
  rewrite filter_cons_False by (intros H; by apply H). rewrite (filter_all (fun b => b <> new_at s)) by (intros b; by apply (new_at_fresh s nr)).
  by destruct s.
Qed.

(** ** Paths that lead from a directory to another *)
(** [leads s i names j]: following [names], outermost first, from the
    directory [i] one gets to the directory [j]. *)
Inductive leads s : inode -> list (list Z) -> inode -> Prop :=
| leads_here i : dir_ok s i -> leads s i [] i
| leads_into i nr name names j :
    dir_ok s i -> lookup_name name (dir_entries s i) = nr -> openable s nr ->
    leads s (fresh_inode s nr) names j -> leads s i (name :: names) j.

(** A [struct dir] for a directory, and the state in which it is open: the root
    is always, another one is open for the time being. *)
Inductive at_dir (root : Z) s : dir -> inode -> fs -> Prop :=
| at_root i : inodes s !! root = Some i -> at_dir root s (root_dir root) i s
| at_nr nr : openable s nr -> at_dir root s (Dir false (new_at s) 0) (fresh_inode s nr) (open_state nr s).

Lemma leads_dir_ok s i names j : leads s i names j -> dir_ok s i.
Proof. by destruct 1. Qed.
Lemma leads_end s i names j : leads s i names j -> dir_ok s j.
Proof. by induction 1. Qed.

Lemma at_dir_inode root s d i t : at_dir root s d i t -> inodes t !! d_inode d = Some i.
Proof.
  destruct 1 as [i Hi|nr _]; [done|]. cbn [d_inode open_state inodes set_open set_inodes]. apply lookup_insert_eq.
Qed.
Lemma at_dir_disk root s d i t : at_dir root s d i t -> disk t = disk s /\ mallocs t = mallocs s /\ sb t = sb s.
Proof. by destruct 1. Qed.
Lemma at_dir_search root s d i t name : at_dir root s d i t -> dir_ok s i -> mallocs s = [] ->
  search_file d name t = Ok (lookup_name name (dir_entries s i), t).
Proof.
  intros Hd Hi Hm. destruct (at_dir_disk root s d i t Hd) as (Ed & Em & _).
  assert (dir_entries t i = dir_entries s i) as Ee by (unfold dir_entries, dir_zones; by rewrite Ed).
  rewrite <-Ee. apply search_file_ok; [by eapply at_dir_inode| |by rewrite Em].
  destruct Hi as [H1 H2 H3]. split; [done..|]. unfold dir_zones in *. by rewrite Ed.
Qed.
Lemma at_dir_close root s d i t : at_dir root s d i t -> dir_close_dir d t = Ok (tt, s).
Proof. destruct 1 as [i Hi|nr Ho]; [done|]. cbn [dir_close_dir is_root_dir d_inode negb]. by apply inode_close_now. Qed.
Lemma dir_open_now s nr : table_ok s -> mallocs s = [] -> openable s nr ->
  dir_open_dir nr s = Ok (Dir false (new_at s) 0, open_state nr s).
Proof.
  intros Ht Hm Ho. unfold dir_open_dir, dir_open.
  assert (sys_malloc_ok s = Ok (true, s)) as E1 by (unfold sys_malloc_ok; by rewrite Hm).
  run E1. cbn [negb]. rets. by run (inode_open_now s nr Ht Hm Ho).
Qed.
End opening.

Section spec.
Context {E : FsEnv}.

Lemma lookup_name_cases name l :
  (exists before e after, visible l = before ++ e :: after /\ named name e = true /\
     Forall (fun e => named name e = false) before /\ lookup_name name l = s32 (i_no e)) \/
  (Forall (fun e => named name e = false) (visible l) /\ lookup_name name l = -1).
Proof.
  unfold lookup_name. induction (visible l) as [|e v IH]; [by right|]. cbn [find].
  destruct (named name e) eqn:En; [left; by exists [], e, v|].
  destruct IH as [(before & x & after & -> & Hx & Hb & Hr)|[Hv Hr]].
  - left. exists (e :: before), x, after. rewrite Hr. by repeat split; [done|constructor].
  - right. rewrite Hr. by split; [constructor|].
Qed.
Lemma visible_hole l1 e l2 : dots e = false -> hole e = true -> visible (l1 ++ e :: l2) = visible l1.
Proof.
  intros Hd Hh. induction l1 as [|x l1 IH]; cbn [app visible]; [by rewrite Hd, Hh|]. by rewrite IH.
Qed.

(** C36: looking a name up in a directory gives the inode number of the first
    entry with exactly that name, or -1 when there is none, among the entries
    that are in front of the first free one: what lies behind the entry of a
    deleted file is not found. *)
Theorem search_file_sees_up_to_hole (s : fs) (d : dir) (i : inode) (name : list Z) :
  inodes s !! d_inode d = Some i -> dir_ok s i -> mallocs s = [] ->
  exists r, search_file d name s = Ok (r, s) /\
    ((exists before e after, visible (dir_entries s i) = before ++ e :: after /\ named name e = true /\
        Forall (fun e => named name e = false) before /\ r = s32 (i_no e)) \/
     (Forall (fun e => named name e = false) (visible (dir_entries s i)) /\ r = -1)) /\
    forall before e after, dir_entries s i = before ++ e :: after -> dots e = false -> hole e = true ->
      visible (dir_entries s i) = visible before.
Proof.
  intros Hi Hd Hm. exists (lookup_name name (dir_entries s i)). split; [by apply search_file_ok|].
  split; [apply lookup_name_cases|]. intros before e after ->. by apply visible_hole.
Qed.
End spec.

Lemma demo_dir_ok nr z : z <= max_lba -> dir_ok demo_state (set_count 1 (demo_dir nr z)).
Proof.
  intros Hz. split; [done|by vm_compute|]. unfold dir_zones. cbn. repeat constructor; [done|..].
  all: apply (bool_decide_unpack _); vm_compute; exact I.
Qed.
(** The name "g" is found, the name "x" behind the free entry is not. *)
Definition found {A} (r : res (A * fs)) : option A := match r with Ok (a, _) => Some a | _ => None end.
Lemma demo_search :
  found (search_file (root_dir demo_root) [103] demo_state) = Some 4 /\
  found (search_file (root_dir demo_root) [120] demo_state) = Some (-1) /\
  existsb (named [120]) (dir_entries demo_state (demo_dir 0 100)) = true.
Proof. split_and!; vm_compute; reflexivity. Qed.
Lemma search_file_sees_up_to_hole_witness :
  exists r, search_file (root_dir demo_root) [120] demo_state = Ok (r, demo_state).
Proof.
  destruct (search_file_sees_up_to_hole demo_state (root_dir demo_root) (set_count 1 (demo_dir 0 100)) [120]) as (r & Hr & _).
  - by vm_compute.
  - by apply demo_dir_ok.
  - done.
  - by exists r.
Defined.
