(* ===== verification/FsCallsSpec.v ===== *)
(** * FsCallsSpec: what the file system calls do *)
From S2P Require Import Prelude Bitmap Fs FsInode FsProofs FsDir FsFile FsDirSpec FsSpec.
From S2P Require Import Path FsPath FsDev FsDirSpec FsPathSpec FsCalls.

Section opening.
Context {E : FsEnv} {D : Drivers}.
Implicit Types (s t : fs) (i j : inode) (c : list Z) (cs : list (list Z)).

(** ** Following a path *)
Lemma open_dirs_ok root s i names j : leads s i names j -> table_ok s -> mallocs s = [] ->
  forall d t, at_dir root s d i t -> exists d' t', open_dirs names d t = Ok (Some d', t') /\ at_dir root s d' j t'.
Proof.
  intros Hl Ht Hm. induction Hl as [i Hi|i nr name names j Hi Hn Ho Hl IH]; intros d t Hd; cbn [open_dirs]; [by exists d, t|].
  run (at_dir_search root s d i t name Hd Hi Hm). run (at_dir_close root s d i t Hd). rewrite Hn.
  rewrite (proj2 (Z.eqb_neq _ _)) by (pose proof (op_range s nr Ho); lia).
  run (dir_open_now s nr Ht Hm Ho). apply IH. by constructor.
Qed.

Lemma path_text_last cs c : name_ok c -> list.last (path_text cs c false) <> Some slash.
Proof.
  intros (Hc & Hs & _). unfold path_text, last_text. rewrite app_nil_r, last_app.
  destruct (list.last c) eqn:El; [|by apply last_None in El]. intros [= ->]. by apply last_Some_elem_of in El.
Qed.
Lemma sys_malloc_now s : mallocs s = [] -> sys_malloc_ok s = Ok (true, s).
Proof. unfold sys_malloc_ok. by intros ->. Qed.

Lemma path_depth_now s cs c dir : Forall name_ok cs -> Forall short cs -> name_ok c -> (length (last_text c dir) < 16)%nat ->
  fits (path_text cs c dir) = true -> mallocs s = [] ->
  path_depth_m (path_text cs c dir) s = Ok (Z.of_nat (length cs) + 1, s).
Proof.
  intros. unfold path_depth_m. change (length (path_text cs c dir) =? 0)%nat with false. cbn [negb].
  run (malloc_unchecked_ok s ltac:(done)). unfold lift. by rewrite path_depth_ok.
Qed.
Lemma path_dirs_now s cs c dir : Forall name_ok cs -> Forall short cs -> name_ok c -> (length (last_text c dir) < 16)%nat ->
  fits (path_text cs c dir) = true -> mallocs s = [] ->
  path_dirs_m true (path_text cs c dir) s =
    Ok (Some ((if dir then [last_text c true] else []) ++ rev (map (fun c => c ++ [slash]) cs)), s).
Proof.
  intros. unfold path_dirs_m. change (length (path_text cs c dir) =? 0)%nat with false. cbn iota.
  run (sys_malloc_now s ltac:(done)). cbn [negb].
  unfold lift. rewrite path_dirs_ok by done. unfold bind. by destruct (_ ++ _).
Qed.
Lemma path_names_now s cs c : Forall name_ok cs -> Forall short cs -> name_ok c -> (length c < 16)%nat ->
  fits (path_text cs c false) = true -> mallocs s = [] ->
  path_names (Z.of_nat (length cs) + 1) (path_text cs c false) s = Ok (Some (map (fun c => c ++ [slash]) cs), s).
Proof.
  intros. unfold path_names. destruct cs as [|c0 cs']; [done|]. set (cs := c0 :: cs') in *.
  destruct (Z.gtb_spec (Z.of_nat (length cs) + 1) 1); [|unfold cs in *; cbn [length] in *; lia].
  run (sys_malloc_now s ltac:(done)).
  assert ((length (last_text c false) < 16)%nat) by (unfold last_text; by rewrite app_nil_r).
  run (path_dirs_now s cs c false ltac:(done) ltac:(done) ltac:(done) ltac:(done) ltac:(done) ltac:(done)).
  cbn [app]. rewrite firstn_all2 by (rewrite length_rev, length_map; lia). by rewrite rev_involutive.
Qed.
Lemma peel_copy_now s cs c dir : Forall name_ok cs -> name_ok c -> (length (last_text c dir) < 16)%nat ->
  fits (path_text cs c dir) = true ->
  exists buf, peel_copy (path_text cs c dir) s = Ok ((buf, last_text c dir), s) /\ c_string buf = Ok (dirs_text cs).
Proof.
  intros Hcs Hc Hl Hf. destruct (peel_path_ok cs c dir Hcs Hc Hl Hf) as (tmp & rest & Ec & _ & Ep). cbn zeta in *.
  eexists. split; [unfold peel_copy; rewrite Ec; erewrite bind_ok; [|unfold lift; rewrite Ep; done]; done|].
  by apply c_string_app, dirs_text_clean.
Qed.

(** ** Opening the inode at the end of the path *)
Lemma inode_at_new s nr : inode_at (new_at s) (open_state nr s) = Ok (fresh_inode s nr, open_state nr s).
Proof. unfold inode_at, open_state. cbn [inodes set_open set_inodes]. by rewrite lookup_insert_eq. Qed.
Lemma inode_open_head t nr a i l : open_inodes t = a :: l -> inodes t !! a = Some i -> i_num i = nr -> a <> 0 ->
  inode_open nr t = Ok (a, t).
Proof.
  intros Ho Hi Hn Ha. unfold inode_open. rewrite gets_bind, Ho. cbn [find_open_inode].
  assert (inode_at a t = Ok (i, t)) as Ei by (unfold inode_at; by rewrite Hi). run Ei.
  rewrite Hn, Z.eqb_refl. rets. by rewrite (proj2 (Z.eqb_neq _ _)).
Qed.
Lemma new_at_found s nr : inodes (open_state nr s) !! new_at s = Some (fresh_inode s nr).
Proof. apply lookup_insert_eq. Qed.
Lemma inode_open_again s nr : openable s nr -> inode_open nr (open_state nr s) = Ok (new_at s, open_state nr s).
Proof. intros [_ _ _ Hn]. eapply inode_open_head; [done|apply new_at_found|done|apply new_address_fresh]. Qed.

(** In the state with the last directory open, the file can still be opened. *)
Lemma at_dir_openable root s d j t nr : at_dir root s d j t -> openable s nr -> i_num j <> nr ->
  openable t nr /\ fresh_inode t nr = fresh_inode s nr.
Proof.
  intros Hd Hnr Hj. destruct Hd as [i Hi|dnr Hop]; [done|]. destruct Hnr as [Hr Ho Hc Hn].
  split; [|done]. split; [done| |done|done]. cbn [open_state open_inodes set_open set_inodes inodes].
  intros b [->|Hb]%list.elem_of_cons.
  - exists (fresh_inode s dnr). by rewrite lookup_insert_eq.
  - destruct (Ho b Hb) as (i & Hi & Hne). exists i.
    rewrite lookup_insert_ne; [done|]. intros <-. by apply (new_at_fresh s dnr _ Hop Hb).
Qed.
Lemma at_dir_table root s d j t : at_dir root s d j t -> table_ok s -> table_ok t.
Proof. intros Hd []. by destruct Hd; split. Qed.

(** The tests of the kind of file leave it open; [file_open] finds it so. *)
Definition opened_slot (g : Z) (flags : Z) nr s : fs :=
  set_files (<[Z.to_nat g := File 0 flags (new_at s)]> (g_file_table s)) (open_state nr s).
Lemma free_slot_spec l k g : free_slot l k = g -> g <> -1 -> 0 <= k ->
  k <= g < k + Z.of_nat (length l) /\ exists f, l !! Z.to_nat (g - k) = Some f /\ fd_inode f = 0.
Proof.
  revert k. induction l as [|f l IH]; intros k; cbn [free_slot]; [lia|]. cbn [length]. destruct (Z.eqb_spec (fd_inode f) 0) as [E0|E0].
  - intros <- _ _. split; [lia|]. rewrite Z.sub_diag. by exists f.
  - intros Hg Hn Hk. destruct (IH (k + 1) Hg Hn ltac:(lia)) as (Hr & x & Hx & H0). split; [lia|]. exists x. split; [|done].
    by replace (Z.to_nat (g - k)) with (S (Z.to_nat (g - (k + 1)))) by lia.
Qed.
Lemma free_fd_spec l k fd : free_fd l k = fd -> fd <> -1 -> 0 <= k ->
  k <= fd < k + Z.of_nat (length l) /\ l !! Z.to_nat (fd - k) = Some (-1).
Proof.
  revert k. induction l as [|x l IH]; intros k; cbn [free_fd]; [lia|]. cbn [length]. destruct (Z.eqb_spec x (-1)) as [->|E0].
  - intros <- _ _. split; [lia|]. by rewrite Z.sub_diag.
  - intros Hg Hn Hk. destruct (IH (k + 1) Hg Hn ltac:(lia)) as (Hr & Hx). split; [lia|].
    by replace (Z.to_nat (fd - k)) with (S (Z.to_nat (fd - (k + 1)))) by lia.
Qed.

Lemma file_open_now s nr fd g : openable s nr -> ft_locked s = false ->
  free_slot (g_file_table s) 0 = g -> g <> -1 -> free_fd (drop 3 (fd_table s)) 3 = fd -> fd <> -1 ->
  file_open nr O_RDONLY (open_state nr s) = Ok (fd, set_fds (<[Z.to_nat fd := g]> (fd_table s)) (opened_slot g O_RDONLY nr s)).
Proof.
  intros Ho Hk Hg Hgn Hf Hfn. destruct (free_slot_spec _ 0 g Hg Hgn ltac:(lia)) as (Hgr & x & Hx & _). rewrite Z.sub_0_r in Hx.
  assert (lock_files (open_state nr s) = Ok (tt, set_ftlock true (open_state nr s))) as El.
  { unfold lock_files. rewrite gets_bind. change (ft_locked _) with (ft_locked s). by rewrite Hk. }
  unfold file_open. run El. unfold occupy_file_table_slot. rewrite gets_bind.
  change (g_file_table _) with (g_file_table s). rewrite Hg, (proj2 (Z.eqb_neq g (-1))) by done.
  erewrite bind_ok; [|by eapply inode_open_head; [done|apply new_at_found|apply Ho|apply new_address_fresh]]. cbn beta iota.
  run (set_slot_ok (set_ftlock true (open_state nr s)) g (fun _ => File 0 O_RDONLY (new_at s)) x ltac:(lia) Hx).
  unfold unlock_files. rewrite modify_bind. change (negb (Z.land O_RDONLY O_WRONLY =? 0) || negb (Z.land O_RDONLY O_RDWR =? 0)) with false. cbn iota.
  unfold install_thread_fd. rewrite gets_bind. change (fd_table _) with (fd_table s). rewrite Hf, (proj2 (Z.eqb_neq fd (-1))) by done.
  rewrite modify_bind. unfold ret. do 2 f_equal. unfold opened_slot, open_state. destruct s. cbn in Hk |- *. by rewrite Hk.
Qed.

(** What kind of file it is. *)
Lemma is_char_now s nr : table_ok s -> mallocs s = [] -> openable s nr ->
  is_char_file nr s = Ok (IS_FT_CHAR (fresh_inode s nr), open_state nr s).
Proof. intros. unfold is_char_file. run (inode_open_now s nr). all: try done. by run (inode_at_new s nr). Qed.
Lemma is_pkg_now s nr : openable s nr ->
  is_pkg_file nr (open_state nr s) = Ok (IS_FT_FIFO (fresh_inode s nr), open_state nr s).
Proof. intros. unfold is_pkg_file. run (inode_open_again s nr). all: try done. by run (inode_at_new s nr). Qed.

(** An existing regular file at the end of a path is opened for reading. *)
Lemma sys_open_now root s iroot cs c j nr fd g :
  table_ok s -> mallocs s = [] -> ft_locked s = false -> inodes s !! root = Some iroot ->
  Forall name_ok cs -> Forall short cs -> name_ok c -> (length c < 16)%nat -> fits (path_text cs c false) = true ->
  leads s iroot (map (fun c => c ++ [slash]) cs) j -> lookup_name c (dir_entries s j) = nr -> openable s nr -> i_num j <> nr ->
  IS_FT_CHAR (fresh_inode s nr) = false -> IS_FT_FIFO (fresh_inode s nr) = false ->
  free_slot (g_file_table s) 0 = g -> g <> -1 -> free_fd (drop 3 (fd_table s)) 3 = fd -> fd <> -1 ->
  exists d t, at_dir root s d j t /\
    sys_open root (path_text cs c false) O_RDONLY s =
      Ok (fd, set_fds (<[Z.to_nat fd := g]> (fd_table t)) (opened_slot g O_RDONLY nr t)).
Proof.
  intros Ht Hm Hk Hroot Hcs Hs Hc Hl Hfit Hlead Hnr Ho Hj Hch Hff Hg Hgn Hf Hfn.
  assert (length (last_text c false) < 16)%nat as Hl' by (unfold last_text; by rewrite app_nil_r).
  destruct (open_dirs_ok root s iroot _ j Hlead Ht Hm (root_dir root) s) as (d & t & Ed & Hd); [by constructor|].
  exists d, t. split; [done|]. destruct (at_dir_openable root s d j t nr Hd Ho Hj) as [Ho' Ef].
  destruct (at_dir_disk root s d j t Hd) as (_ & Emt & _).
  unfold sys_open. rewrite bool_decide_false by by apply path_text_last.
  change (length (path_text cs c false) =? 0)%nat with false. cbn [negb]. run (malloc_unchecked_ok s Hm).
  destruct (peel_copy_now s cs c false Hcs Hc Hl' Hfit) as (buf & Ep & _). run Ep.
  run (path_depth_now s cs c false Hcs Hs Hc Hl' Hfit Hm). run (path_names_now s cs c Hcs Hs Hc Hl Hfit Hm).
  run Ed. unfold last_text. rewrite app_nil_r.
  run (at_dir_search root s d j t c Hd (leads_end s _ _ _ Hlead) Hm). rewrite Hnr.
  rewrite (proj2 (Z.eqb_neq nr (-1))) by (pose proof (op_range s nr Ho); lia). cbn [andb negb].
  change (Z.land O_RDONLY O_CREAT =? 0) with true. cbn [negb]. unfold open_found.
  change (Z.land O_RDONLY O_CREAT =? 0) with true. cbn [negb].
  run (is_char_now t nr (at_dir_table root s d j t Hd Ht) ltac:(by rewrite Emt) Ho'). rewrite Ef, Hch.
  run (is_pkg_now t nr Ho'). rewrite Ef, Hff.
  assert (ft_locked t = ft_locked s /\ g_file_table t = g_file_table s /\ fd_table t = fd_table s) as (Ek & Eg & Efd) by by destruct Hd.
  rewrite <-Hg, <-Hf, <-Eg, <-Efd. apply file_open_now; try congruence. 
Qed.
End opening.

(** ** Calls on descriptors *)
(** Descriptor [fd] leads to slot [g] with the file [f] and the inode [i]. *)
Record descriptor (t : fs) (fd g : Z) (f : file) (i : inode) : Prop := {
  de_fd : 0 <= fd;
  de_global : fd_table t !! Z.to_nat fd = Some g;
  de_slot : 0 <= g < MAX_FILE_OPEN;
  de_file : g_file_table t !! Z.to_nat g = Some f;
  de_inode : inodes t !! fd_inode f = Some i
}.
Section descriptors.
Context {E : FsEnv} {D : Drivers}.
Implicit Types (s t : fs) (f : file) (i : inode).

Lemma local2global_now t fd g f i : descriptor t fd g f i -> fd_local2global fd t = Ok (g, t).
Proof.
  intros [H1 H2 H3 _ _]. unfold fd_local2global. rewrite gets_bind. run (elem_ok (fd_table t) fd g t H1 H2).
  pass by (rewrite Z.geb_leb, (proj2 (Z.leb_le 0 g)), (proj2 (Z.ltb_lt g MAX_FILE_OPEN)) by lia; done). done.
Qed.
Lemma file_at_now t fd g f i : descriptor t fd g f i -> file_at g t = Ok (f, t).
Proof. intros [_ _ _ H _]. unfold file_at. by rewrite H. Qed.
Lemma fd_inode_now t fd g f i : descriptor t fd g f i -> inode_at (fd_inode f) t = Ok (i, t).
Proof. intros [_ _ _ _ H]. unfold inode_at. by rewrite H. Qed.
Lemma is_pipe_now t fd g f i : descriptor t fd g f i -> is_pipe fd t = Ok (fd_flag f =? PIPE_FLAG, t).
Proof. intros Hd. unfold is_pipe. run (local2global_now t fd g f i Hd). by run (file_at_now t fd g f i Hd). Qed.
Lemma is_char_fd_now t fd g f i : descriptor t fd g f i -> is_char_fd fd t = Ok (IS_FT_CHAR i, t).
Proof.
  intros Hd. unfold is_char_fd. run (local2global_now t fd g f i Hd). run (file_at_now t fd g f i Hd).
  by run (fd_inode_now t fd g f i Hd).
Qed.
Lemma is_pkg_fd_now t fd g f i : descriptor t fd g f i -> is_pkg_fd fd t = Ok (IS_FT_FIFO i, t).
Proof.
  intros Hd. unfold is_pkg_fd. run (local2global_now t fd g f i Hd). run (file_at_now t fd g f i Hd).
  by run (fd_inode_now t fd g f i Hd).
Qed.

(** On a regular file [sys_read] is [file_read]. *)
Lemma sys_read_regular t fd g f i count : descriptor t fd g f i -> 2 < fd -> fd_flag f <> PIPE_FLAG ->
  IS_FT_CHAR i = false -> IS_FT_FIFO i = false -> sys_read fd count t = file_read g count t.
Proof.
  intros Hd Hfd Hp Hc Hf. unfold sys_read. rewrite (proj2 (Z.ltb_ge fd 0)), (proj2 (Z.eqb_neq fd 2)) by lia.
  run (is_pipe_now t fd g f i Hd). rewrite (proj2 (Z.eqb_neq _ PIPE_FLAG)) by done. rewrite (proj2 (Z.eqb_neq fd 0)) by lia.
  run (is_char_fd_now t fd g f i Hd). rewrite Hc. run (is_pkg_fd_now t fd g f i Hd). rewrite Hf.
  run (local2global_now t fd g f i Hd). by run (file_at_now t fd g f i Hd).
Qed.
End descriptors.

Section spec.
Context {E : FsEnv} {D : Drivers}.

Lemma search_in_root root s iroot cs c pdir :
  mallocs s = [] -> inodes s !! root = Some iroot -> dir_ok s iroot ->
  Forall name_ok cs -> Forall short cs -> name_ok c -> (length c < 16)%nat -> fits (path_text cs c false) = true ->
  (length cs <= 1)%nat ->
  let r := lookup_name c (dir_entries s iroot) in
  search_file_with_pathname root (path_text cs c false) pdir s =
    Ok ((r, if r =? -1 then pdir else copy_dir (root_dir root)), s).
Proof.
  intros Hm Hroot Hdir Hcs Hs Hc Hl Hfit Hlen r.
  assert (length (last_text c false) < 16)%nat as Hl' by (unfold last_text; by rewrite app_nil_r).
  unfold search_file_with_pathname. change (length (path_text cs c false) =? 0)%nat with false. cbn iota.
  run (sys_malloc_now s Hm). cbn [negb].
  destruct (peel_copy_now s cs c false Hcs Hc Hl' Hfit) as (buf & Ep & _). run Ep.
  run (path_depth_now s cs c false Hcs Hs Hc Hl' Hfit Hm). run (sys_malloc_now s Hm).
  run (path_dirs_now s cs c false Hcs Hs Hc Hl' Hfit Hm). rets. cbn [negb]. rets. cbn [app default]. unfold id.
  rewrite !length_rev, !length_map.
  assert ((if (length cs =? 0)%nat then 1%nat else length cs) = 1%nat) as ->.
  { destruct cs as [|? [|]]; [done|done|cbn in Hlen; lia]. }
  change (1 =? 1)%nat with true. cbn iota. unfold last_text. rewrite app_nil_r.
  run (search_file_ok s (root_dir root) iroot c Hroot Hdir Hm). fold r.
  destruct (Z.eqb_spec r (-1)) as [Er|]; cbn [negb]; [by rewrite Er|done].
Qed.
(** A file that is not there: the directory that is closed was never opened. *)
Lemma sys_unlink_missing root s iroot cs c :
  mallocs s = [] -> inodes s !! root = Some iroot -> inodes s !! 0 = None -> dir_ok s iroot ->
  Forall name_ok cs -> Forall short cs -> name_ok c -> (length c < 16)%nat -> fits (path_text cs c false) = true ->
  (length cs <= 1)%nat -> lookup_name c (dir_entries s iroot) = -1 ->
  sys_unlink root (path_text cs c false) s = Fault.
Proof.
  intros Hm Hroot H0 Hdir Hcs Hs Hc Hl Hfit Hlen Hr. unfold sys_unlink.
  run (sys_malloc_now s Hm). cbn [negb]. run (sys_malloc_now s Hm). cbn [negb].
  run (search_in_root root s iroot cs c (Dir false 0 0) Hm Hroot Hdir Hcs Hs Hc Hl Hfit Hlen).
  rewrite Hr, Z.eqb_refl. cbn [dir_close_dir is_root_dir d_inode].
  unfold dir_close_dir, dir_close, inode_close, upd_inode, bind. cbn [is_root_dir d_inode negb]. by rewrite H0.
Qed.

(** C29: opening a path for reading follows it from the root, one directory
    after the other, to the file, and the first [sys_read] of the new
    descriptor gives the bytes of that file's zones on the disk from its
    beginning, as many as there are and were asked for; the disk is not
    written. *)
Theorem open_then_read (root : Z) (s : fs) (iroot j : inode) (cs : list (list Z)) (c : list Z) (nr fd count : Z) :
  table_ok s -> mallocs s = [] -> ft_locked s = false -> length (g_file_table s) = 128%nat -> inodes s !! root = Some iroot ->
  Forall name_ok cs -> Forall short cs -> name_ok c -> (length c < 16)%nat -> fits (path_text cs c false) = true ->
  leads s iroot (map (fun c => c ++ [slash]) cs) j -> lookup_name c (dir_entries s j) = nr -> openable s nr -> i_num j <> nr ->
  let i := disk_inode s nr in
  IS_FT_CHAR i = false -> IS_FT_FIFO i = false -> zones_ok s i -> 0 <= i_size i <= MAX_FILE_SIZE -> 0 <= count ->
  free_slot (g_file_table s) 0 <> -1 -> free_fd (drop 3 (fd_table s)) 3 = fd -> fd <> -1 ->
  exists s1 s2,
    sys_open root (path_text cs c false) O_RDONLY s = Ok (fd, s1) /\
    sys_read fd count s1 = Ok ((take (Z.to_nat (Z.min (i_size i) count)) (content s i), Z.min (i_size i) count), s2) /\
    disk s2 = disk s.
Proof.
  intros Ht Hm Hk Hlen Hroot Hcs Hs Hc Hl Hfit Hlead Hnr Ho Hj i Hch Hff Hz Hsz Hcount Hg Hf Hfn.
  set (g := free_slot (g_file_table s) 0) in *.
  destruct (sys_open_now root s iroot cs c j nr fd g) as (d & t & Hd & Eo); try done.
  destruct (at_dir_openable root s d j t nr Hd Ho Hj) as [Ho' Ef].
  assert (disk t = disk s /\ mallocs t = [] /\ g_file_table t = g_file_table s /\ fd_table t = fd_table s) as (Ed & Em & Eg & Efd)
    by by destruct Hd.
  destruct (free_slot_spec _ 0 g eq_refl Hg ltac:(lia)) as (Hgr & x & Hx & _). rewrite Z.sub_0_r in Hx.
  destruct (free_fd_spec _ 3 fd Hf Hfn ltac:(lia)) as (Hfr & Hfx). rewrite lookup_drop in Hfx.
  replace (3 + Z.to_nat (fd - 3))%nat with (Z.to_nat fd) in Hfx by lia.
  set (s1 := set_fds (<[Z.to_nat fd := g]> (fd_table t)) (opened_slot g O_RDONLY nr t)) in *.
  assert (g_file_table s1 !! Z.to_nat g = Some (File 0 O_RDONLY (new_at t))) as Hslot.
  { apply list_lookup_insert_eq. rewrite Eg. by eapply lookup_lt_Some. }
  assert (inodes s1 !! new_at t = Some (set_count 1 i)) as Hi1.
  { change (inodes s1) with (inodes (open_state nr t)). by rewrite new_at_found, Ef. }
  assert (descriptor s1 fd g (File 0 O_RDONLY (new_at t)) (set_count 1 i)) as Hde.
  { split; [lia| |change MAX_FILE_OPEN with 128; lia|done|done]. cbn [s1 fd_table set_fds].
    apply list_lookup_insert_eq. rewrite Efd. by eapply lookup_lt_Some. }
  assert (zones_of s1 (set_count 1 i) = zones_of s i) as Ez.
  { unfold zones_of. cbn [i_zones set_count]. change (disk s1) with (disk t). by rewrite Ed. }
  exists s1. eexists. split; [done|]. rewrite (sys_read_regular s1 fd g _ _ count Hde) by (done || lia).
  rewrite (file_read_ok s1 g (File 0 O_RDONLY (new_at t)) (set_count 1 i) count).
  - cbn [fd_pos i_size set_count]. rewrite Z.sub_0_r. unfold sub. cbn [Z.to_nat drop].
    assert (content s1 (set_count 1 i) = content s i) as ->.
    { unfold content. rewrite Ez. change (disk s1) with (disk t). by rewrite Ed. }
    split; [done|]. change (disk t = disk s). done.
  - lia.
  - done.
  - done.
  - destruct Hz as [H1 H2 H3 H4]. split; [change (disk s1) with (disk t); by rewrite Ed|done|done|by rewrite Ez].
  - done.
  - cbn [fd_pos i_size set_count]. lia.
  - cbn [i_size set_count]. lia.
  - by vm_compute.
  - done.
  - by left.
Qed.

(** [sys_lseek] moves a file to the offset counted from its beginning, its
    position or its end when that is inside the file or at its end, also where
    the sum leaves the 32 bits, and otherwise answers -1 and changes nothing:
    the position never gets behind the end of the file. *)
Theorem sys_lseek_stays_inside (t : fs) (fd g offset whence : Z) (f : file) (i : inode) :
  descriptor t fd g f i -> 1 <= whence <= 3 -> - 2 ^ 31 <= offset < 2 ^ 31 ->
  0 <= i_size i < 2 ^ 31 -> 0 <= fd_pos f < 2 ^ 31 ->
  let target := offset + (if whence =? SEEK_SET then 0 else if whence =? SEEK_CUR then fd_pos f else i_size i) in
  sys_lseek fd offset whence t =
    if (0 <=? target) && (target <=? i_size i)
    then Ok (target, set_files (<[Z.to_nat g := File target (fd_flag f) (fd_inode f)]> (g_file_table t)) t)
    else Ok (-1, t).
Proof.
  intros Hd Hw Ho Hs Hp target. pose proof (de_fd _ _ _ _ _ Hd). pose proof (de_slot _ _ _ _ _ Hd).
  unfold sys_lseek. rewrite (proj2 (Z.ltb_ge fd 0)) by lia.
  pass by (rewrite Z.gtb_ltb, (proj2 (Z.ltb_lt 0 whence)), (proj2 (Z.ltb_lt whence 4)) by lia; done).
  run (local2global_now t fd g f i Hd). run (file_at_now t fd g f i Hd). run (fd_inode_now t fd g f i Hd).
  rewrite !(s32_small (i_size i)), !(s32_small (fd_pos f)) by lia.
  set (new_pos := if whence =? SEEK_SET then offset else _).
  assert (new_pos = s32 target) as ->.
  { unfold new_pos, target. destruct (whence =? SEEK_SET); [rewrite Z.add_0_r; symmetry; by apply s32_small|].
    destruct (whence =? SEEK_CUR); f_equal; lia. }
  assert (- 2 ^ 31 <= target < 2 ^ 32) as Ht by (unfold target; repeat case_match; lia).
  assert ((s32 target <? 0) || (s32 target >? i_size i) = negb ((0 <=? target) && (target <=? i_size i))) as ->.
  { destruct (Z.lt_ge_cases target (2 ^ 31)).
    - rewrite s32_small by lia. rewrite Z.gtb_ltb, negb_andb, Z.ltb_antisym, (Z.ltb_antisym target). done.
    - assert (s32 target = target - 2 ^ 32) as ->.
      { unfold s32, sx. rewrite Z.mod_small by lia. by rewrite (proj2 (Z.ltb_ge _ _)) by lia. }
      rewrite (proj2 (Z.ltb_lt (target - 2 ^ 32) 0)), (proj2 (Z.leb_gt target (i_size i))) by lia. by rewrite andb_false_r. }
  destruct ((0 <=? target) && (target <=? i_size i)) eqn:Eb; cbn [negb]; [|done]. zb.
  rewrite s32_small by lia. erewrite bind_ok; [done|].
  unfold set_pos. apply (set_slot_ok t g (fun f => File target (fd_flag f) (fd_inode f)) f); [lia|apply Hd].
Qed.

(** C40: the search behind [sys_unlink], [sys_stat], [sys_chdir] and the others
    looks a file up in the root directory when its path goes through one
    directory as well as when it goes through none: the name of that directory
    plays no part. *)
Theorem search_skips_single_directory (root : Z) (s : fs) (iroot : inode) (cs : list (list Z)) (c : list Z) (pdir : dir) :
  mallocs s = [] -> inodes s !! root = Some iroot -> dir_ok s iroot ->
  Forall name_ok cs -> Forall short cs -> name_ok c -> (length c < 16)%nat -> fits (path_text cs c false) = true ->
  (length cs <= 1)%nat ->
  let r := lookup_name c (dir_entries s iroot) in
  search_file_with_pathname root (path_text cs c false) pdir s =
    Ok ((r, if r =? -1 then pdir else copy_dir (root_dir root)), s).
Proof. intros. by apply search_in_root. Qed.
End spec.

(** ** The small disk of FsDirSpec.v *)
Definition path_d_f : list Z := [47; 100; 47; 102].
Example demo_open_read :
  match sys_open demo_root path_d_f O_RDONLY demo_state with
  | Ok (fd, s1) => match sys_read fd 600 s1 with Ok ((out, n), _) => bool_decide (fd = 3 /\ n = 600 /\ out = replicate 512 102 ++ replicate 88 103) | _ => false end
  | _ => false end = true.
Proof. vm_compute. reflexivity. Qed.

Lemma demo_openable nr i : disk_inode demo_state nr = i -> i_num i = nr -> i_count i = 0 -> 0 < nr < 5 -> openable demo_state nr.
Proof.
  intros <- Hn Hc Hr. split; [cbn; lia| |done|done]. intros b Hb%list_elem_of_singleton. subst b.
  exists (set_count 1 (demo_dir 0 100)). split; [by vm_compute|]. cbn. lia.
Qed.
Lemma demo_leads : leads demo_state (set_count 1 (demo_dir 0 100)) [[100; 47]] (set_count 1 (demo_dir 3 101)).
Proof.
  assert (disk_inode demo_state 3 = demo_dir 3 101) as E by (vm_compute; reflexivity).
  eapply (leads_into _ _ 3); [by apply demo_dir_ok|vm_compute; reflexivity|by eapply demo_openable|].
  unfold fresh_inode. rewrite E. constructor. by apply demo_dir_ok.
Qed.

Lemma open_then_read_witness :
  exists s1 s2,
    sys_open demo_root path_d_f O_RDONLY demo_state = Ok (3, s1) /\
    sys_read 3 100 s1 = Ok ((take 100 (content demo_state demo_file), 100), s2) /\ disk s2 = demo_disk.
Proof.
  assert (disk_inode demo_state 4 = demo_file) as E by (vm_compute; reflexivity).
  destruct (open_then_read demo_root demo_state (set_count 1 (demo_dir 0 100)) (set_count 1 (demo_dir 3 101)) [[100]] [102] 4 3 100)
    as (s1 & s2 & H1 & H2 & H3).
  - exact demo_state_table.
  - done.
  - done.
  - done.
  - by vm_compute.
  - by_computation.
  - by_computation.
  - by_computation.
  - cbn. lia.
  - done.
  - exact demo_leads.
  - vm_compute. reflexivity.
  - by eapply demo_openable.
  - done.
  - by vm_compute.
  - by vm_compute.
  - rewrite E. split; [apply demo_state_table|done|by vm_compute|]. apply (bool_decide_unpack _). vm_compute. exact I.
  - rewrite E. by vm_compute.
  - lia.
  - by vm_compute.
  - by vm_compute.
  - lia.
  - exists s1, s2. rewrite E in H2. exact (conj H1 (conj H2 H3)).
Defined.

Lemma sys_lseek_stays_inside_witness :
  let t := set_inodes {[7000 := demo_file]} (set_files (replicate 128 (File 500 0 7000)) demo_state) in
  sys_lseek 1 (-10) SEEK_END t = Ok (590, set_files (<[1%nat := File 590 0 7000]> (g_file_table t)) t) /\
  sys_lseek 1 2147483647 SEEK_CUR t = Ok (-1, t).
Proof.
  intros t. assert (descriptor t 1 1 (File 500 0 7000) demo_file) as Hd by (split; [lia|done|by vm_compute|done|done]).
  split.
  - apply (sys_lseek_stays_inside t 1 1 (-10) SEEK_END (File 500 0 7000) demo_file Hd); [by vm_compute|lia|by vm_compute|cbn; lia].
  - apply (sys_lseek_stays_inside t 1 1 2147483647 SEEK_CUR (File 500 0 7000) demo_file Hd); [by vm_compute|lia|by vm_compute|cbn; lia].
Defined.

Lemma search_skips_single_directory_witness :
  search_file_with_pathname demo_root path_d_f (Dir false 0 0) demo_state =
    Ok ((lookup_name [102] (dir_entries demo_state (set_count 1 (demo_dir 0 100))),
         if lookup_name [102] (dir_entries demo_state (set_count 1 (demo_dir 0 100))) =? -1 then Dir false 0 0 else copy_dir (root_dir demo_root)), demo_state).
Proof.
  apply (search_skips_single_directory demo_root demo_state (set_count 1 (demo_dir 0 100)) [[100]] [102] (Dir false 0 0)).
  - done.
  - by vm_compute.
  - by apply demo_dir_ok.
  - by_computation.
  - by_computation.
  - by_computation.
  - cbn. lia.
  - done.
  - done.
Defined.

(** ** What the calls do not do *)

(** The file "/d/f" is there, and [sys_stat] does not find it. *)
Lemma stat_misses_file_in_directory : found (sys_stat demo_root path_d_f demo_state) = Some (None, -1).
Proof. vm_compute. reflexivity. Qed.
(** Removing a file in the root directory closes the inode of the root; removing
    one that is not there uses a null pointer. *)
Lemma unlink_closes_root :
  match sys_unlink demo_root [47; 103] demo_state with
  | Ok (r, s) => bool_decide (r = 0 /\ inodes s !! demo_root = None /\ open_inodes s = []) | _ => false end = true.
Proof. vm_compute. reflexivity. Qed.
Lemma unlink_missing_faults : sys_unlink demo_root [47; 113] demo_state = Fault.
Proof. vm_compute. reflexivity. Qed.
(** The working directory "/d/" comes out as "//d", the result is null, and the
    root is closed. *)
Lemma getcwd_null :
  match sys_getcwd 10 3 100 demo_state with
  | Ok ((buf, r), s) => bool_decide (buf = [47; 47; 100] /\ r = false /\ inodes s !! demo_root = None) | _ => false end = true.
Proof. vm_compute. reflexivity. Qed.
(** An empty directory cannot be removed: its parent is not empty. *)
Lemma rmdir_refuses :
  found (sys_rmdir demo_root [47; 100; 47] (set_disk (fun a => if a =? 101 then entry_sector (dot_entries 3 0) else demo_disk a) demo_state)) = Some (-1).
Proof. vm_compute. reflexivity. Qed.
(** The lock of the file table is not given back when there is no slot. *)
Lemma open_keeps_lock :
  match sys_open demo_root path_d_f O_RDONLY (set_files [] demo_state) with
  | Ok (fd, s) => bool_decide (fd = -1 /\ ft_locked s = true) | _ => false end = true.
Proof. vm_compute. reflexivity. Qed.
