(* ===== verification/FsWriteProofs.v ===== *)
(** * FsWriteProofs: appending to a file whose zones are all direct *)
From S2P Require Import Prelude Bitmap Fs FsInode FsProofs FsDir FsFile.

(** ** Free positions of a bitmap, counted *)
Definition free_count (b : bitmap) : nat := length (filter (fun i => used b i = false) (seqZ 0 (nbits b))).
Section counting.
Implicit Types (b : bitmap).

Lemma free_exists b : (0 < free_count b)%nat -> exists i, 0 <= i < nbits b /\ used b i = false.
Proof.
  unfold free_count. intros H. destruct (filter _ _) as [|x l] eqn:E; [simpl in H; lia|].
  assert (x ∈ filter (fun i => used b i = false) (seqZ 0 (nbits b))) as Hx by (rewrite E; by apply list.elem_of_cons; left).
  apply list_elem_of_filter in Hx as [Hu Hx]. apply elem_of_seqZ in Hx. exists x. split; [lia|done].
Qed.
Lemma free_count_take b b' k : nbits b' = nbits b -> 0 <= k < nbits b -> used b k = false ->
  (forall i, 0 <= i -> used b' i = if i =? k then true else used b i) -> free_count b = S (free_count b').
Proof.
  intros Hn Hk Hu H. unfold free_count. rewrite Hn.
  assert (nbits b = k + (1 + (nbits b - k - 1))) as -> by lia.
  rewrite !seqZ_app, !list.filter_app, !length_app by lia. change (seqZ (0 + k) 1) with [0 + k]. rewrite Z.add_0_l.
  assert (filter (fun i => used b i = false) [k] = [k]) as -> by (by rewrite list.filter_cons_True).
  assert (filter (fun i => used b' i = false) [k] = []) as ->.
  { rewrite list.filter_cons_False; [done|]. by rewrite H, Z.eqb_refl by lia. }
  assert (forall o n, 0 <= o -> k < o \/ o + n <= k -> filter (fun i => used b' i = false) (seqZ o n) = filter (fun i => used b i = false) (seqZ o n)) as E.
  { intros o n Ho Hd. apply filter_ext_in. intros x Hx. apply elem_of_seqZ in Hx. rewrite H by lia. by rewrite (proj2 (Z.eqb_neq x k)) by lia. }
  rewrite !E by lia. simpl. lia.
Qed.
End counting.

(** ** Volumes, and the files in them *)
Record volume (s : fs) : Prop := {
  v_disk : disk_ok (disk s);
  v_map : wf (zone_bitmap s);
  v_whole : map_bytes_length (zone_bitmap s) mod 512 = 0;
  v_start : 0 <= s_zmap_lba (sb s);
  v_end : s_zmap_lba (sb s) + map_bytes_length (zone_bitmap s) / 512 <= s_data_start_lba (sb s);
  v_table : table_ok s;
  v_tab_end : s_inode_table_lba (sb s) + s_inode_table_sz (sb s) <= s_data_start_lba (sb s);
  v_pos : 0 < s_data_start_lba (sb s) <= max_lba;
  v_free : forall i, 0 <= i < nbits (zone_bitmap s) -> used (zone_bitmap s) i = false -> s_data_start_lba (sb s) + i <= max_lba
}.
(** A zone of the data area that the map has as used. *)
Record owned (s : fs) (z : Z) : Prop := {
  ow_range : s_data_start_lba (sb s) <= z <= max_lba;
  ow_map : z - s_data_start_lba (sb s) < nbits (zone_bitmap s);
  ow_used : used (zone_bitmap s) (z - s_data_start_lba (sb s)) = true
}.
(** The file of inode [i] is [data], in the zones [zs]. *)
Record file_is (s : fs) (i : inode) (zs data : list Z) : Prop := {
  fi_zones : i_zones i = zs ++ replicate (13 - length zs) 0;
  fi_len : (length zs <= 12)%nat;
  fi_nodup : NoDup zs;
  fi_owned : Forall (owned s) zs;
  fi_size : i_size i = Z.of_nat (length data);
  fi_count : (512 * (length zs) < length data + 512)%nat /\ (length data <= 512 * length zs)%nat;
  fi_data : take (length data) (flat_map (disk s) zs) = data
}.

Section facts.
Implicit Types (s : fs) (i : inode) (zs : list Z).

Lemma flat_disk_length (d : Z -> list Z) zs : disk_ok d -> length (flat_map d zs) = (512 * length zs)%nat.
Proof. intros Hd. induction zs as [|z zs IH]; [done|]. cbn [flat_map length]. rewrite length_app, Hd, IH. lia. Qed.
Lemma flat_disk_ext (d d' : Z -> list Z) zs : (forall z, z ∈ zs -> d z = d' z) -> flat_map d zs = flat_map d' zs.
Proof.
  intros H. induction zs as [|z zs IH]; [done|]. cbn [flat_map]. rewrite H, IH; [done| |by apply list.elem_of_cons; left].
  intros x Hx. apply H. by apply list.elem_of_cons; right.
Qed.
Lemma leading_all zs n : Forall (fun z => z <> 0) zs -> (length zs <= n)%nat -> forall m, leading n (zs ++ replicate m 0) = zs ++ replicate (n - length zs) 0.
Proof.
  intros Hz. revert n. induction Hz as [|z zs Hz _ IH]; intros n Hn m.
  - cbn [app length]. rewrite Nat.sub_0_r. destruct n as [|n]; [done|]. by destruct m.
  - destruct n as [|n]; [simpl in Hn; lia|]. cbn [app leading length Nat.sub]. rewrite (proj2 (Z.eqb_neq z 0)) by done.
    f_equal. apply IH. simpl in Hn. lia.
Qed.
Lemma owned_nonzero s zs : volume s -> Forall (owned s) zs -> Forall (fun z => z <> 0) zs.
Proof. intros Hv. apply Forall_impl. intros z [Hr _ _]. pose proof (v_pos s Hv). lia. Qed.
Lemma file_zones s i zs data : volume s -> file_is s i zs data -> zones_of s i = zs ++ replicate (140 - length zs) 0.
Proof.
  intros Hv [Hz Hl _ Ho _ _ _]. unfold zones_of. rewrite Hz.
  rewrite lookup_app_r, lookup_replicate_2 by lia. cbn [default]. unfold id. rewrite Z.eqb_refl.
  rewrite leading_all by (done || by eapply owned_nonzero). rewrite <-app_assoc, <-replicate_add.
  do 2 f_equal. lia.
Qed.
Lemma file_zones_ok s i zs data : volume s -> file_is s i zs data -> zones_ok s i.
Proof.
  intros Hv Hf. destruct (Hf) as [Hz Hl _ Ho _ _ _]. split.
  - apply Hv.
  - rewrite Hz, length_app, length_replicate. lia.
  - rewrite Hz, lookup_app_r, lookup_replicate_2 by lia. by vm_compute.
  - rewrite (file_zones s i zs data) by done. apply Forall_app. split.
    + eapply Forall_impl; [|exact Ho]. intros z [Hr _ _]. lia.
    + apply Forall_replicate. by vm_compute.
Qed.
Lemma file_content s i zs data n : volume s -> file_is s i zs data -> (n <= length data)%nat -> take n (content s i) = take n data.
Proof.
  intros Hv Hf Hn. unfold content. rewrite (file_zones s i zs data) by done. rewrite flat_map_app.
  pose proof (fi_count _ _ _ _ Hf) as [_ Hc]. rewrite take_app_le by (rewrite flat_disk_length; [lia|apply Hv]).
  rewrite <-(fi_data _ _ _ _ Hf). rewrite take_take. f_equal. lia.
Qed.
End facts.

(** ** The steps of a write *)
Section steps.
Context {E : FsEnv}.
Variable s : fs.
Variables (idx a : Z) (i0 : inode) (f0 : file).
Hypothesis Hidx : 0 <= idx.
Hypothesis Hf0 : g_file_table s !! Z.to_nat idx = Some f0.
Hypothesis Hm : mallocs s = [].
Implicit Types (b : bitmap) (d : Z -> list Z) (i : inode) (f : file).

(** The state during the call: the map, the disk, the inode and the slot of
    the descriptor. *)
Definition st b d i f : fs :=
  set_files (<[Z.to_nat idx := f]> (g_file_table s)) (set_inodes (<[a := i]> (inodes s)) (set_disk d (set_zmap b s))).
Lemma st_malloc b d i f : sys_malloc_ok (st b d i f) = Ok (true, st b d i f).
Proof. unfold sys_malloc_ok. change (mallocs (st b d i f)) with (mallocs s). by rewrite Hm. Qed.
Lemma st_inode b d i f : inode_at a (st b d i f) = Ok (i, st b d i f).
Proof. unfold inode_at. cbn [inodes st set_files set_inodes]. by rewrite lookup_insert_eq. Qed.
Lemma st_upd b d i f h : upd_inode a h (st b d i f) = Ok (tt, st b d (h i) f).
Proof.
  unfold upd_inode. cbn [inodes st set_files set_inodes]. rewrite lookup_insert_eq.
  unfold st, set_inodes, set_files. cbn. by rewrite insert_insert_eq.
Qed.
Lemma st_file b d i f : file_at idx (st b d i f) = Ok (f, st b d i f).
Proof. unfold file_at. cbn [g_file_table st set_files]. rewrite list_lookup_insert_eq; [done|]. by eapply lookup_lt_Some. Qed.
Lemma st_advance b d i f n : 0 <= fd_pos f + n < 2 ^ 32 -> advance idx n (st b d i f) = Ok (tt, st b d i (moved f n)).
Proof.
  intros Hn. rewrite (advance_ok _ idx f n Hidx) by (done || (cbn [g_file_table st set_files]; rewrite list_lookup_insert_eq; [done|by eapply lookup_lt_Some])).
  unfold st, set_files. cbn. by rewrite list_insert_insert_eq.
Qed.
Lemma st_read b d i f lba : lba <= max_lba -> ide_read lba 1 (st b d i f) = Ok (d lba, st b d i f).
Proof. intros Hl. rewrite ide_read_ok by lia. change (Z.to_nat 1) with 1%nat. cbn [sectors]. by rewrite app_nil_r. Qed.
Lemma st_write b d i f lba buf : lba <= max_lba ->
  ide_write lba buf 1 (st b d i f) = Ok (tt, st b (fun x => if x =? lba then take 512 buf else d x) i f).
Proof. intros Hl. rewrite ide_write_ok by lia. done. Qed.

Notation ds := (s_data_start_lba (sb s)).
(** What a map and a disk must keep of those of [s]. *)
Record vol b d : Prop := {
  vo_disk : disk_ok d;
  vo_map : wf b;
  vo_len : map_bytes_length b = map_bytes_length (zone_bitmap s);
  vo_free : forall k, 0 <= k < nbits b -> used b k = false -> ds + k <= max_lba
}.
Lemma st_volume b d i f : volume s -> vol b d -> volume (st b d i f).
Proof.
  intros [] []. split; cbn [disk zone_bitmap sb st set_files set_inodes set_disk set_zmap]; try done; try (by rewrite vo_len0).
  destruct v_table0. by split.
Qed.

(** Taking a zone: it was free, and the map is written back. *)
Lemma alloc_bit_ok b d i f : volume s -> vol b d -> (0 < free_count b)%nat ->
  exists z b' d', zone_bitmap_alloc (st b d i f) = Ok (z, st b' d i f) /\
    flush_bitmap ZONE_BITMAP (u32 (z - ds)) (st b' d i f) = Ok (tt, st b' d' i f) /\
    ds <= z <= max_lba /\ z - ds < nbits b /\ used b (z - ds) = false /\ vol b' d' /\
    free_count b = S (free_count b') /\
    (forall k, 0 <= k -> used b' k = if k =? z - ds then true else used b k) /\
    (forall x, ds <= x -> d' x = d x).
Proof.
  intros Hv [Hd Hb Hl Hfr] Hc. destruct (find_block_ok b 1 Hb ltac:(lia)) as (r & Er & Hr).
  destruct (free_exists b Hc) as (k & Hk & Hku).
  destruct Hr as [[(H0 & H1 & Hu) _]|[_ Hno]].
  2: { exfalso. apply (Hno k). split_and!; [lia|lia|]. intros j Hj. by replace (k + j) with k by lia. }
  specialize (Hu 0 ltac:(lia)). rewrite Z.add_0_r in Hu. assert (ds + r <= max_lba) as Hmax by (apply Hfr; [lia|done]).
  destruct (v_pos s Hv) as [Hds _]. change max_lba with 163839 in *.
  destruct (set_value_ok b r true Hb ltac:(lia)) as (b' & Eb & Hb' & Hl' & Ha' & Hu').
  set (d' := fun x => if x =? s_zmap_lba (sb s) + r / 4096 then take 512 (drop (Z.to_nat (r / 4096 * 512)) (bits b')) else d x).
  pose proof (Z.div_mod r 4096 ltac:(lia)). pose proof (Z.mod_pos_bound r 4096 ltac:(lia)).
  pose proof (v_start s Hv). pose proof (v_end s Hv) as Hve. rewrite <-Hl, <-Hl' in Hve.
  pose proof (Z.div_mod (map_bytes_length b') 512 ltac:(lia)) as Hdm. rewrite Hl', Hl, (v_whole s Hv), <-Hl, <-Hl' in Hdm.
  assert (r / 4096 < map_bytes_length b' / 512) as Hin by (unfold nbits in *; lia).
  exists (ds + r), b', d'. replace (ds + r - ds) with r by lia. split; [|split].
  { unfold zone_bitmap_alloc, on_zmap.
    assert (zoom zone_bitmap set_zmap (find_block_bitmap 1) (st b d i f) = Ok (r, st b d i f)) as E1.
    { unfold zoom. change (zone_bitmap (st b d i f)) with b. by rewrite Er. }
    run E1. rewrite s32_small by lia. rewrite (proj2 (Z.eqb_neq r (-1))) by lia.
    assert (zoom zone_bitmap set_zmap (set_value_bitmap r 1) (st b d i f) = Ok (tt, st b' d i f)) as E2.
    { unfold zoom. change (zone_bitmap (st b d i f)) with b. by rewrite Eb. }
    run E2. rewrite gets_bind. unfold ret. change (sb (st b' d i f)) with (sb s). by rewrite u32_small by lia. }
  { unfold flush_bitmap. rewrite get_bind. change (sb (st b' d i f)) with (sb s). change (zone_bitmap (st b' d i f)) with b'.
    unfold BITS_PER_SECTOR, ZONE_SIZE, SECTOR_SIZE. rewrite !u32_small by (rewrite ?u32_small; lia).
    by rewrite st_write by (change max_lba with 163839; lia). }
  split; [lia|]. split; [lia|]. split; [done|].
  assert (nbits b' = nbits b) as Hn by (unfold nbits; by rewrite Hl'). split; [split|split].
  - intros x. unfold d'. destruct (x =? _); [|apply Hd]. apply (sub_length _ 512). pose proof (wf_length b' Hb'). lia.
  - done.
  - by rewrite Hl'.
  - intros j Hj Hju. rewrite Hu' in Hju by lia. destruct (Z.eqb_spec j r); [done|]. apply Hfr; [lia|done].
  - apply (free_count_take b b' r); [done|lia|done|done].
  - split; [done|]. intros x Hx. unfold d'. by rewrite (proj2 (Z.eqb_neq x _)) by lia.
Qed.

(** The zones behind the last one of a file are taken in order. *)
Definition grown zs (n : nat) : list Z := zs ++ replicate (n - length zs) 0.
Lemma alloc_zone_ok b d i f zs : volume s -> vol b d -> i_zones i = grown zs 13 -> (length zs < 12)%nat -> (0 < free_count b)%nat ->
  exists z b' d', alloc_zone a (Z.of_nat (length zs)) (st b d i f) = Ok (Some z, st b' d' (set_zones (grown (zs ++ [z]) 13) i) f) /\
    ds <= z <= max_lba /\ z - ds < nbits b /\ used b (z - ds) = false /\ vol b' d' /\ free_count b = S (free_count b') /\
    (forall k, 0 <= k -> used b' k = if k =? z - ds then true else used b k) /\
    (forall x, ds <= x -> d' x = d x).
Proof.
  intros Hv Hb Hz Hl Hc. destruct (alloc_bit_ok b d i f Hv Hb Hc) as (z & b' & d' & Ea & Ef & Hr & Hrest).
  exists z, b', d'. split; [|done]. unfold alloc_zone. run Ea.
  assert (0 < ds) as Hpos by apply Hv. change max_lba with 163839 in Hr. change (u32 (-1)) with 4294967295.
  rewrite (proj2 (Z.eqb_neq z _)) by lia. rewrite gets_bind. change (sb (st b' d i f)) with (sb s). run Ef.
  rewrite (proj2 (Z.ltb_lt _ _)) by lia. run (st_upd b' d' i f (fun i => set_zones (<[Z.to_nat (Z.of_nat (length zs)) := z]> (i_zones i)) i)).
  rewrite Hz, Nat2Z.id. unfold grown. replace (13 - length zs)%nat with (S (13 - S (length zs))) by lia.
  rewrite (insert_app_r_alt _ _ (length zs)), Nat.sub_diag by lia. cbn [replicate insert list_insert].
  rewrite length_app, <-app_assoc. cbn [app length]. by rewrite Nat.add_1_r.
Qed.
Lemma write_zone_ok b d i f z chunk_rest (last : bool) buf (m : nat) : z <= max_lba -> (m <= length buf)%nat ->
  Z.of_nat m = (if (chunk_rest >? 0) && last then chunk_rest else 512) -> (m <= 512)%nat -> 0 <= fd_pos f + Z.of_nat m < 2 ^ 32 ->
  write_zone idx chunk_rest z last buf (st b d i f) =
    Ok (Z.of_nat m, st b (fun x => if x =? z then take m buf ++ replicate (512 - m) 0 else d x) i (moved f (Z.of_nat m))).
Proof.
  intros Hz Hb Hm' Hle Hp. unfold write_zone. destruct (_ && last).
  - run (st_malloc b d i f). cbn [negb]. rewrite <-Hm', Nat2Z.id.
    run (st_write b d i f z (splice 0 (take m buf) (replicate 512 0)) Hz). run (st_advance b (fun x => if x =? z then take 512 (splice 0 (take m buf) (replicate 512 0)) else d x) i f (Z.of_nat m) Hp).
    unfold splice. rewrite take_0, length_take, Nat.min_l, drop_replicate by lia. cbn [app Nat.add].
    rewrite (take_ge (take m buf ++ _)) by (rewrite length_app, length_take, length_replicate; lia). done.
  - assert (m = 512%nat) as -> by lia. run (st_write b d i f z buf Hz). change ZONE_SIZE with (Z.of_nat 512).
    run (st_advance b (fun x => if x =? z then take 512 buf else d x) i f (Z.of_nat 512) Hp). by rewrite app_nil_r.
Qed.
Lemma set_zones_same i : set_zones (i_zones i) i = i.
Proof. by destruct i. Qed.
Lemma moved_0 f : moved f 0 = f.
Proof. destruct f. unfold moved. cbn. by rewrite Z.add_0_r. Qed.
Lemma moved_twice f n m : moved (moved f n) m = moved f (n + m).
Proof. unfold moved. cbn. by rewrite Z.add_assoc. Qed.

(** What the loop has done when it took the zones [news]. *)
Record wrote b d b' d' (news data : list Z) : Prop := {
  wr_vol : vol b' d';
  wr_nodup : NoDup news;
  wr_free : Forall (fun z => ds <= z <= max_lba /\ z - ds < nbits b /\ used b (z - ds) = false) news;
  wr_used : forall k, 0 <= k -> used b' k = used b k || bool_decide (ds + k ∈ news);
  wr_other : forall x, ds <= x -> x ∉ news -> d' x = d x;
  wr_data : exists pad, flat_map d' news = data ++ pad
}.
Lemma wrote_cons b d b1 d1 b' d' z (m : nat) news buf data : vol b1 d1 ->
  ds <= z <= max_lba -> z - ds < nbits b -> used b (z - ds) = false ->
  (forall k, 0 <= k -> used b1 k = if k =? z - ds then true else used b k) -> nbits b1 = nbits b ->
  (forall x, ds <= x -> x <> z -> d1 x = d x) -> (m <= 512)%nat -> d1 z = take m buf ++ replicate (512 - m) 0 ->
  (news = [] \/ m = 512%nat) -> (news = [] -> data = []) ->
  wrote b1 d1 b' d' news data -> wrote b d b' d' (z :: news) (take m buf ++ data).
Proof.
  intros Hv Hz Hn Hu Hu1 Hn1 Hd1 Hmb Hz1 Hnm Hnd [H1 H2 H3 H4 H5 (pad & H6)].
  assert (z ∉ news) as Hzn.
  { intros Hin. apply (proj1 (list.Forall_forall _ _) H3) in Hin as (_ & _ & Hin). rewrite Hu1, Z.eqb_refl in Hin by lia. done. }
  split.
  - done.
  - by apply list.NoDup_cons.
  - apply list.Forall_cons. split; [done|]. eapply Forall_impl; [|exact H3]. intros x (Hx1 & Hx2 & Hx3).
    split; [done|]. rewrite Hn1 in Hx2. split; [done|]. rewrite Hu1 in Hx3 by lia. by destruct (x - ds =? z - ds).
  - intros k Hk. rewrite H4, Hu1 by done. destruct (Z.eqb_spec k (z - ds)) as [->|Hne].
    + symmetry. apply orb_true_iff. right. apply bool_decide_true. apply list.elem_of_cons. left. lia.
    + f_equal. apply bool_decide_ext. rewrite list.elem_of_cons. split; [by right|]. intros [|]; [lia|done].
  - intros x Hx Hn'. apply list.not_elem_of_cons in Hn' as [Hne Hn']. rewrite H5 by done. by apply Hd1.
  - cbn [flat_map]. rewrite (H5 z) by (lia || done). rewrite Hz1, H6. destruct Hnm as [->| ->].
    + rewrite Hnd in * by done. simpl in H6. subst pad. exists (replicate (512 - m) 0). by rewrite !app_nil_r.
    + exists pad. by rewrite Nat.sub_diag, app_nil_r, <-app_assoc.
Qed.
Lemma write_chunks_ok n k zs b d i f cnt crest zi azones buf (rem : nat) w :
  volume s -> vol b d -> i_zones i = grown zs 13 -> (length zs + n <= 12)%nat -> (n <= free_count b)%nat ->
  (rem <= length buf)%nat -> (rem <= 512 * n)%nat -> (512 * n < rem + 512)%nat -> cnt = k + Z.of_nat n -> 0 <= k -> 0 <= w ->
  (n <> 0%nat -> crest = Z.of_nat rem mod 512) -> zi + k = Z.of_nat (length zs) ->
  (forall j, (length zs <= j < length zs + n)%nat -> azones !! j = Some 0) -> 0 <= fd_pos f -> fd_pos f + Z.of_nat rem < 2 ^ 32 ->
  exists news b' d', write_chunks n k idx a zi cnt crest azones buf w (st b d i f) =
      Ok (Some (w + Z.of_nat rem), st b' d' (set_zones (grown (zs ++ news) 13) i) (moved f (Z.of_nat rem))) /\
    length news = n /\ wrote b d b' d' news (take rem buf).
Proof.
  intros Hv. revert k zs b d i f buf rem w.
  induction n as [|n IH]; intros k zs b d i f buf rem w Hb Hz Hlen Hfree Hbuf Hle Hgt Hcnt Hk Hw Hcr Hzi Haz Hp Hmax.
  - assert (rem = 0%nat) as -> by lia. exists [], b, d. cbn [write_chunks]. rewrite app_nil_r, <-Hz, set_zones_same, moved_0, Z.add_0_r.
    split; [done|]. split; [done|]. split; [done|constructor|constructor| |done|by exists []].
    intros j Hj. by rewrite orb_false_r.
  - cbn [write_chunks]. specialize (Hcr ltac:(lia)).
    run (elem_ok azones (zi + k) 0 (st b d i f) ltac:(lia) ltac:(apply Haz; lia)). rewrite Z.eqb_refl, Hzi.
    destruct (alloc_zone_ok b d i f zs Hv Hb Hz ltac:(lia) ltac:(lia)) as (z & b1 & d1 & Ea & Hzr & Hzn & Hzu & Hb1 & Hc1 & Hu1 & Hd1).
    run Ea. set (i1 := set_zones _ i). set (m := Nat.min rem 512).
    assert (Z.of_nat m = (if (crest >? 0) && (k =? cnt - 1) then crest else 512)) as Hm'.
    { destruct n as [|n'].
      - rewrite (proj2 (Z.eqb_eq k (cnt - 1))), andb_true_r by lia. unfold m. destruct (decide (rem = 512%nat)) as [->|].
        { subst crest. done. }
        rewrite Z.mod_small in Hcr by lia. rewrite Hcr. destruct (Z.gtb_spec (Z.of_nat rem) 0); lia.
      - rewrite (proj2 (Z.eqb_neq k (cnt - 1))), andb_false_r by lia. unfold m. lia. }
    assert (m <= 512)%nat as Hm512 by (unfold m; lia). assert (m <= rem)%nat as Hmr by (unfold m; lia).
    erewrite bind_ok by (apply (write_zone_ok b1 d1 i1 f z crest (k =? cnt - 1) buf m); [apply Hzr|lia|exact Hm'|exact Hm512|lia]).
    rewrite (proj2 (Z.eqb_neq _ (-1))) by lia. rewrite Nat2Z.id. set (d2 := fun x => if x =? z then _ else d1 x).
    assert (vol b1 d2) as Hb2.
    { destruct Hb1. split; try done. intros x. unfold d2. destruct (x =? z); [|done].
      rewrite length_app, length_take, length_replicate. lia. }
    destruct (IH (k + 1) (zs ++ [z]) b1 d2 i1 (moved f (Z.of_nat m)) (drop m buf) (rem - m)%nat (w + Z.of_nat m)) as (news & b' & d' & Ew & Hln & Hwr);
      try done; rewrite ?length_app, ?length_drop; cbn [length]; try lia.
    + intros Hn. rewrite Hcr. unfold m. replace (Z.of_nat (rem - rem `min` 512)) with (Z.of_nat rem + (-1) * 512) by lia.
      by rewrite Z_mod_plus_full.
    + intros j Hj. apply Haz. lia.
    + cbn. lia.
    + cbn. lia.
    + exists (z :: news), b', d'. split; [|split; [by cbn; rewrite Hln|]].
      * rewrite Ew. rewrite <-app_assoc. cbn [app]. rewrite moved_twice.
        replace (Z.of_nat m + Z.of_nat (rem - m)) with (Z.of_nat rem) by lia.
        replace (w + Z.of_nat m + Z.of_nat (rem - m)) with (w + Z.of_nat rem) by lia. done.
      * assert (take rem buf = take m buf ++ take (rem - m) (drop m buf)) as ->.
        { rewrite <-(take_drop m (take rem buf)) at 1. by rewrite take_take, Nat.min_l, skipn_firstn_comm by lia. }
        apply (wrote_cons b d b1 d2 b' d' z m news buf); try done.
        -- unfold nbits. rewrite (vo_len _ _ Hb1), (vo_len _ _ Hb). done.
        -- intros x Hx Hne. unfold d2. rewrite (proj2 (Z.eqb_neq x z)) by done. by apply Hd1.
        -- unfold d2. by rewrite Z.eqb_refl.
        -- destruct n; [left; by destruct news|right; unfold m; lia].
        -- intros ->. simpl in Hln. subst n. replace (rem - m)%nat with 0%nat by (unfold m; lia). done.
Qed.

(** What goes into the rest of the last zone. *)
Definition need (size n : Z) : Z :=
  let rest_sz := size mod 512 in
  if rest_sz =? 0 then 0 else if n <=? 512 - rest_sz then n else 512 - rest_sz.
Definition fill_last (zone_idx rest_sz k : Z) (azones buf : list Z) : M fs unit :=
  when negb (rest_sz =? 0) do
    (zone_lba <- elem azones (zone_idx - 1) ;;
     io <- ide_read zone_lba 1 ;;
     ide_write zone_lba (splice (Z.to_nat rest_sz) (take (Z.to_nat k) buf) io) 1 ;;;
     advance idx k).
Lemma splice_take o e l : (o + length e <= length l)%nat -> splice o e l = take o l ++ e ++ drop (o + length e) l.
Proof. done. Qed.
Lemma fill_last_ok b d i f zs azones data buf n : vol b d -> NoDup zs -> Forall (fun z => z <= max_lba) zs ->
  (512 * length zs < length data + 512)%nat -> (length data <= 512 * length zs)%nat ->
  take (length data) (flat_map d zs) = data -> 0 <= n -> n <= Z.of_nat (length buf) ->
  (forall j x, zs !! j = Some x -> azones !! j = Some x) -> 0 <= fd_pos f -> fd_pos f + n < 2 ^ 32 ->
  let size := Z.of_nat (length data) in let k := need size n in
  exists d1 junk, fill_last (Z.of_nat (length zs)) (size mod 512) k azones buf (st b d i f) = Ok (tt, st b d1 i (moved f k)) /\
    0 <= k <= n /\ vol b d1 /\ (forall x, x ∉ zs -> d1 x = d x) /\
    flat_map d1 zs = data ++ take (Z.to_nat k) buf ++ junk /\ (k < n -> junk = []) /\ Z.of_nat (length junk) = 512 * Z.of_nat (length zs) - size - k.
Proof.
  intros Hb Hnd Hz Hc1 Hc2 Hdata Hn Hbuf Haz Hp Hmax size k.
  pose proof (flat_disk_length d zs (vo_disk _ _ Hb)) as Hfl. pose proof (Z.div_mod size 512 ltac:(lia)). pose proof (Z.mod_pos_bound size 512 ltac:(lia)).
  unfold fill_last. unfold k, need. destruct (Z.eqb_spec (size mod 512) 0) as [Hr|Hr]; cbn [negb].
  - exists d, []. rewrite moved_0. cbn [length]. assert (length data = 512 * length zs)%nat as Hl by lia.
    split_and!; try done; try lia. rewrite <-Hdata at 1. by rewrite Hl, take_ge, take_0, !app_nil_r by lia.
  - set (rest := size mod 512) in *. set (m := if n <=? 512 - rest then n else 512 - rest).
    assert (0 <= m <= n /\ m <= 512 - rest /\ (m < n -> m = 512 - rest)) as (Hm1 & Hm2 & Hm3) by (unfold m; destruct (Z.leb_spec n (512 - rest)); lia).
    destruct zs as [|zl zs _] using rev_ind; [simpl in *; lia|].
    rewrite length_app in *. cbn [length] in *. apply Forall_app in Hz as [_ Hz]. apply list.Forall_cons in Hz as [Hzl _].
    apply list.NoDup_app in Hnd as (_ & Hnd & _).
    assert (zl ∉ zs) as Hni by (intros Hin; apply (Hnd zl Hin); by apply list_elem_of_singleton).
    run (elem_ok azones (Z.of_nat (length zs + 1) - 1) zl (st b d i f) ltac:(lia)
      ltac:(apply Haz; replace (Z.to_nat (Z.of_nat (length zs + 1) - 1)) with (length zs) by lia; by rewrite lookup_app_r, Nat.sub_diag by lia)).
    run (st_read b d i f zl Hzl). set (buf' := splice _ _ _). run (st_write b d i f zl buf' Hzl).
    set (d1 := fun x => if x =? zl then take 512 buf' else d x).
    rewrite st_advance by lia. pose proof (vo_disk _ _ Hb zl) as Hdz.
    assert (length (take (Z.to_nat m) buf) = Z.to_nat m) as Htl by (rewrite length_take; lia).
    assert (take 512 buf' = buf') as Et by (apply take_ge; unfold buf'; rewrite splice_length; lia).
    assert (length buf' = 512%nat) as Hbl by (unfold buf'; rewrite splice_length; lia).
    exists d1, (drop (Z.to_nat rest + Z.to_nat m) (d zl)).
    assert (data = flat_map d zs ++ take (Z.to_nat rest) (d zl)) as Hde.
    { rewrite <-Hdata. rewrite flat_map_app. cbn [flat_map]. rewrite app_nil_r.
      pose proof (flat_disk_length d zs (vo_disk _ _ Hb)) as Hfz. rewrite take_app_ge by lia. do 2 f_equal. lia. }
    split_and!; try done; try lia.
    + destruct Hb. split; try done. intros x. unfold d1. destruct (x =? zl); [by rewrite Et|done].
    + intros x Hx. unfold d1. rewrite (proj2 (Z.eqb_neq x zl)); [done|]. intros ->. apply Hx, list.elem_of_app. right. by apply list_elem_of_singleton.
    + rewrite flat_map_app. cbn [flat_map]. rewrite app_nil_r. unfold d1 at 2. rewrite Z.eqb_refl, Et.
      rewrite (flat_disk_ext d1 d zs). 2: { intros z Hzi. unfold d1. rewrite (proj2 (Z.eqb_neq z zl)); [done|]. by intros ->. }
      rewrite Hde, <-app_assoc. f_equal. unfold buf', splice. by rewrite Htl.
    + intros Hlt. apply drop_ge. lia.
    + rewrite length_drop. lia.
Qed.
End steps.
