(* ===== verification/FsWriteSpec.v ===== *)
(** * FsWriteSpec: a file is what was written to it *)
From S2P Require Import Prelude Bitmap Fs FsInode FsProofs FsDir FsFile FsSpec FsWriteProofs.

Section writing.
Context {E : FsEnv}.
Implicit Types (s : fs) (i : inode) (zs data buf : list Z).

Lemma first_empty_ok s zs n k : Forall (fun z => z <> 0) zs -> (length zs <= n)%nat -> (length zs < k)%nat -> forall j pre,
  Z.of_nat (length pre) = j ->
  first_empty n j (pre ++ zs ++ replicate (k - length zs) 0) s = Ok (j + Z.of_nat (length zs), s).
Proof.
  intros Hz. revert n k. induction Hz as [|z zs Hz _ IH]; intros n k Hn Hk j pre Hj.
  - assert (first_empty n j (pre ++ [] ++ replicate (k - length (@nil Z)) 0) s =
      (z <- elem (pre ++ [] ++ replicate (k - length (@nil Z)) 0) j ;; if z =? 0 then ret j else
         match n with O => ret j | S n => first_empty n (j + 1) (pre ++ [] ++ replicate (k - length (@nil Z)) 0) end) s) as -> by by destruct n.
    run (elem_ok (pre ++ [] ++ replicate (k - length (@nil Z)) 0) j 0 s ltac:(lia)
      ltac:(rewrite <-Hj, Nat2Z.id, lookup_app_r, Nat.sub_diag by lia; apply lookup_replicate_2; simpl in *; lia)).
    rewrite Z.eqb_refl. cbn [length]. by rewrite Z.add_0_r.
  - cbn [length] in *. destruct n as [|n]; [lia|]. cbn [first_empty].
    run (elem_ok (pre ++ (z :: zs) ++ replicate (k - S (length zs)) 0) j z s ltac:(lia)
      ltac:(rewrite <-Hj, Nat2Z.id, lookup_app_r, Nat.sub_diag by lia; done)).
    rewrite (proj2 (Z.eqb_neq z 0)) by done. replace (k - S (length zs))%nat with (k - 1 - length zs)%nat by lia.
    pose proof (IH n (k - 1)%nat ltac:(lia) ltac:(lia) (j + 1) (pre ++ [z]) ltac:(rewrite length_app; cbn [length]; lia)) as H.
    rewrite <-app_assoc in H. cbn [app] in *. rewrite H. do 2 f_equal. lia.
Qed.

Lemma st_self s idx a i f : g_file_table s !! Z.to_nat idx = Some f -> inodes s !! a = Some i ->
  st s idx a (zone_bitmap s) (disk s) i f = s.
Proof.
  intros Hf Hi. unfold st, set_files, set_inodes. cbn. rewrite insert_id, list_insert_id by done. by destruct s.
Qed.
(** The inode after the call. *)
Definition longer i zs (size : Z) : inode := set_size size (set_zones (grown zs 13) i).
Lemma longer_ok i zs size : inode_ok i -> 0 <= size < 2 ^ 32 -> (length zs <= 12)%nat -> Forall (fun z => 0 <= z <= max_lba) zs -> 0 <= size ->
  inode_ok (longer i zs size).
Proof.
  intros [] Hs Hl Hz _. split; cbn [longer set_size set_zones i_num i_mode i_uid i_size i_mtime i_gid i_nlinks i_zones i_atime i_ctime i_dev i_count i_lock i_dirt i_pipe i_mount i_seek i_update]; try done.
  - unfold grown. rewrite length_app, length_replicate. lia.
  - apply Forall_app. split; [eapply Forall_impl; [|exact Hz]; intros z [? ?]; change max_lba with 163839 in *; lia|]. apply Forall_replicate. lia.
Qed.
Lemma file_write_ok s idx f i zs data buf n :
  volume s -> file_is s i zs data -> 0 <= idx -> g_file_table s !! Z.to_nat idx = Some f -> inodes s !! fd_inode f = Some i ->
  inode_ok i -> i_num i < s_ninodes (sb s) -> mallocs s = [] -> fd_pos f = i_size i ->
  0 <= n <= Z.of_nat (length buf) -> i_size i + n <= 512 * 12 ->
  (i_size i + n + 511) / 512 - Z.of_nat (length zs) <= Z.of_nat (free_count (zone_bitmap s)) ->
  let i' := fun news => longer i (zs ++ news) (i_size i + n) in
  exists news b d1 d2 d3 junk, file_write idx buf n s = Ok (n, set_disk d3 (st s idx (fd_inode f) b d2 (i' news) (moved f n))) /\
    Z.of_nat (length (zs ++ news)) = (i_size i + n + 511) / 512 /\
    wrote s (zone_bitmap s) d1 b d2 news (take (Z.to_nat n - Z.to_nat (need (i_size i) n)) (drop (Z.to_nat (need (i_size i) n)) buf)) /\
    disk_ok d3 /\ (forall x, s_data_start_lba (sb s) <= x -> d3 x = d2 x) /\ (forall x, x ∉ zs -> d1 x = disk s x) /\
    flat_map d1 zs = data ++ take (Z.to_nat (need (i_size i) n)) buf ++ junk /\ (need (i_size i) n < n -> junk = []).
Proof.
  intros Hv Hfile Hidx Hf Hi Hio Hnum Hm Hpos Hn Hmax Hfree i'.
  pose proof Hfile as [Hz Hl Hnd Hown Hsize [Hc1 Hc2] Hdata]. set (size := i_size i) in *.
  pose proof (Z.div_mod (size + n + 511) 512 ltac:(lia)). pose proof (Z.mod_pos_bound (size + n + 511) 512 ltac:(lia)).
  pose proof (Z.div_mod size 512 ltac:(lia)) as Hdm. pose proof (Z.mod_pos_bound size 512 ltac:(lia)) as Hmb.
  set (S0 := st s idx (fd_inode f) (zone_bitmap s) (disk s) i f).
  assert (S0 = s) as ES by by apply st_self.
  assert (vol s (zone_bitmap s) (disk s)) as Hvol0 by (split; [apply Hv|apply Hv|done|apply Hv]).
  assert (Forall (fun z => z <= max_lba) zs) as Hzm by (eapply Forall_impl; [|exact Hown]; intros z [Hr _ _]; lia).
  pose proof (file_zones s i zs data Hv Hfile) as Hzo. pose proof (inode_all_zones_ok s i (file_zones_ok s i zs data Hv Hfile)) as Eaz.
  rewrite Hzo in Eaz. set (azones := zs ++ replicate (140 - length zs) 0) in *.
  assert (forall j x, zs !! j = Some x -> azones !! j = Some x) as Haz by (intros j x Hj; unfold azones; by apply lookup_app_l_Some).
  assert (forall j, (length zs <= j < 140)%nat -> azones !! j = Some 0) as Haz0 by (intros j Hj; unfold azones; rewrite lookup_app_r by lia; apply lookup_replicate_2; lia).
  destruct (fill_last_ok s idx (fd_inode f) f Hidx Hf (zone_bitmap s) (disk s) i f zs azones data buf n) as (d1 & junk & Ef & Hk & Hv1 & Hd1 & Hfl & Hj & Hjl);
    try done; try lia. rewrite <-Hsize in *. fold size in Ef, Hk, Hfl, Hj, Hjl. set (k := need size n) in *.
  set (cnt := (n - k + 511) / 512). pose proof (Z.div_mod (n - k + 511) 512 ltac:(lia)). pose proof (Z.mod_pos_bound (n - k + 511) 512 ltac:(lia)).
  assert (Z.of_nat (length zs) + cnt = (size + n + 511) / 512) as Hcnt.
  { unfold cnt in *. destruct (decide (k < n)) as [Hlt|]; [specialize (Hj Hlt); subst junk; cbn [length] in Hjl; lia|].
    assert (k = n) as Ekn by lia. rewrite Ekn in *. replace ((n - n + 511) / 512) with 0 by (rewrite Z.sub_diag; done). lia. }
  assert (i_zones i = grown zs 13) as Hgz by done.
  destruct (write_chunks_ok s idx (fd_inode f) f Hidx Hf Hm (Z.to_nat cnt) 0 zs (zone_bitmap s) d1 i (moved f k) cnt ((n - k) mod 512) (Z.of_nat (length zs)) azones
              (drop (Z.to_nat k) buf) (Z.to_nat n - Z.to_nat k) k) as (news & b & d2 & Ew & Hln & Hwr);
    try done; try lia; [rewrite length_drop; lia|intros _; f_equal; lia|intros j Hjj; apply Haz0; lia|cbn; lia|cbn; lia|].
  assert (zs_len : Z.of_nat (length (zs ++ news)) = (size + n + 511) / 512) by (rewrite length_app, Hln; lia).
  set (i1 := set_zones (grown (zs ++ news) 13) i) in *.
  replace (k + Z.of_nat (Z.to_nat n - Z.to_nat k)) with n in Ew by lia. rewrite moved_twice in Ew.
  replace (k + Z.of_nat (Z.to_nat n - Z.to_nat k)) with n in Ew by lia.
  set (S1 := st s idx (fd_inode f) b d2 (i' news) (moved f n)).
  assert (volume S1) as HvS by (apply st_volume; [done|apply Hwr]).
  destruct (flush_inode_ok S1 (fd_inode f) (i' news)) as (d3 & Efl & Ht3 & _ & _ & Ho3).
  { apply HvS. }
  { unfold S1, st. cbn [inodes set_files set_inodes]. by rewrite lookup_insert_eq. }
  { apply longer_ok; [done|lia|lia| |lia]. apply Forall_app. split.
    - eapply Forall_impl; [|exact Hown]. intros z [Hr _ _]. pose proof (v_pos s Hv). lia.
    - eapply Forall_impl; [|exact (wr_free _ _ _ _ _ _ _ Hwr)]. intros z [Hr _]. pose proof (v_pos s Hv). lia. }
  { done. }
  exists news, b, d1, d2, d3, junk. split; [|split_and!; try done].
  2: { apply Ht3. }
  2: { intros x Hx. apply Ho3. pose proof (v_tab_end s Hv). change (sb S1) with (sb s). lia. }
  rewrite <-ES at 1. unfold file_write, S0. run (st_file s idx (fd_inode f) f Hf (zone_bitmap s) (disk s) i f).
  change MAX_FILE_SIZE with 71680. change ZONE_SIZE with 512. rewrite Hpos. fold size. rewrite (proj2 (Z.ltb_lt size _)) by lia. cbn [negb].
  rewrite u32_small by lia. rewrite Z.gtb_ltb, (proj2 (Z.ltb_ge _ _)) by lia.
  run (st_malloc s idx (fd_inode f) Hm (zone_bitmap s) (disk s) i f). cbn [negb].
  run (st_inode s idx (fd_inode f) (zone_bitmap s) (disk s) i f).
  assert (i_zones i !! 12%nat = Some 0) as H12 by (rewrite Hz, lookup_app_r by lia; apply lookup_replicate_2; lia).
  fold S0. rewrite ES. run (elem_ok (i_zones i) 12 0 s ltac:(lia) H12). change (negb (0 =? 0)) with false. cbn iota. rets. run Eaz.
  rewrite Z.eqb_refl. replace ((size + 512 - 1) / 512) with (Z.of_nat (length zs)) by (apply (Z.div_unique _ _ _ (size + 511 - 512 * Z.of_nat (length zs))); lia).
  run (elem_ok azones (Z.of_nat (length zs)) 0 s ltac:(lia) ltac:(apply Haz0; lia)). rewrite Z.eqb_refl.
  pose proof (first_empty_ok s zs 140 140 (owned_nonzero s zs Hv Hown) ltac:(lia) ltac:(lia) 0 [] eq_refl) as Efe.
  cbn [app] in Efe. rewrite Z.add_0_l in Efe. fold azones in Efe. run Efe. rets.
  fold size. fold (need size n). fold k. unfold fill_last in Ef. fold S0 in Ef. rewrite ES in Ef. rewrite (bind_ok _ _ _ _ _ Ef).
  assert ((if negb (size mod 512 =? 0) && (n <=? 512 - size mod 512) then 0 else (n - k + 512 - 1) / 512) = cnt) as ->.
  { unfold cnt. replace (n - k + 512 - 1) with (n - k + 511) by lia. unfold k, need.
    destruct (Z.eqb_spec (size mod 512) 0); cbn [negb andb]; [done|]. destruct (n <=? _); [|done]. by rewrite Z.sub_diag. }
  run Ew. run (st_file s idx (fd_inode f) f Hf b d2 i1 (moved f n)). run (st_upd s idx (fd_inode f) b d2 i1 (moved f n) (fun i => set_size (Z.max (fd_pos (moved f n)) (i_size i)) i)).
  replace (set_size _ i1) with (i' news) by (unfold i', i1, longer; f_equal; cbn; lia). fold S1. by run Efl.
Qed.

(** ** What the call leaves *)
Section after_write.
Context (s : fs) (idx a : Z) (f : file) (zs news : list Z) (b : bitmap) (d1 d2 d3 : Z -> list Z) (i' : inode) (data new : list Z).
Hypothesis Hv : volume s.
Hypothesis Hown : Forall (owned s) zs.
Hypothesis Hd3 : disk_ok d3.
Hypothesis H3 : forall x, s_data_start_lba (sb s) <= x -> d3 x = d2 x.
Hypothesis H1 : forall x, x ∉ zs -> d1 x = disk s x.
Hypothesis Hw : wrote s (zone_bitmap s) d1 b d2 news new.
Notation s' := (set_disk d3 (st s idx a b d2 i' f)).

Lemma after_volume : volume s'.
Proof.
  pose proof (st_volume s idx a b d2 i' f Hv (wr_vol _ _ _ _ _ _ _ Hw)) as [V1 V2 V3 V4 V5 V6 V7 V8 V9].
  split; try assumption. destruct V6. by split.
Qed.
Lemma after_owned z : owned s z -> owned s' z.
Proof.
  intros [Hr Hm Hu]. split.
  - done.
  - change (zone_bitmap s') with b. unfold nbits in *. by rewrite (vo_len _ _ _ (wr_vol _ _ _ _ _ _ _ Hw)).
  - change (zone_bitmap s') with b. change (sb s') with (sb s). rewrite (wr_used _ _ _ _ _ _ _ Hw) by lia. by rewrite Hu.
Qed.
Lemma owned_not_new z : owned s z -> z ∉ news.
Proof.
  intros [_ _ Hu] Hin. apply (proj1 (list.Forall_forall _ _) (wr_free _ _ _ _ _ _ _ Hw)) in Hin as (_ & _ & Hn). congruence.
Qed.
Lemma after_disk_old z : owned s z -> d3 z = d1 z.
Proof. intros Hz. rewrite H3 by apply Hz. apply (wr_other _ _ _ _ _ _ _ Hw); [apply Hz|by apply owned_not_new]. Qed.
Lemma after_other j zs2 data2 : zs ## zs2 -> file_is s j zs2 data2 -> file_is s' j zs2 data2.
Proof.
  intros Hdis [F1 F2 F3 F4 F5 F6 F7]. split; try done.
  - eapply Forall_impl; [|exact F4]. apply after_owned.
  - cbn [disk set_disk]. rewrite <-F7 at 2. f_equal. apply flat_disk_ext. intros z Hz.
    rewrite after_disk_old by (by apply (proj1 (list.Forall_forall _ _) F4)). apply H1. intros Hin. by apply (Hdis z).
Qed.
Lemma after_new_owned : Forall (owned s') news.
Proof.
  apply list.Forall_forall. intros z Hz. pose proof (proj1 (list.Forall_forall _ _) (wr_free _ _ _ _ _ _ _ Hw) z Hz) as (Hr & Hn & _).
  split; [done| |].
  - change (zone_bitmap s') with b. unfold nbits in *. by rewrite (vo_len _ _ _ (wr_vol _ _ _ _ _ _ _ Hw)).
  - change (zone_bitmap s') with b. change (sb s') with (sb s). rewrite (wr_used _ _ _ _ _ _ _ Hw) by lia.
    apply orb_true_iff. right. apply bool_decide_true. by replace (s_data_start_lba (sb s) + (z - s_data_start_lba (sb s))) with z by lia.
Qed.
Lemma after_bytes : exists pad, flat_map d3 (zs ++ news) = flat_map d1 zs ++ new ++ pad.
Proof.
  destruct (wr_data _ _ _ _ _ _ _ Hw) as [pad Hp]. exists pad. rewrite flat_map_app. f_equal.
  - apply flat_disk_ext. intros z Hz. by apply after_disk_old, (proj1 (list.Forall_forall _ _) Hown).
  - rewrite <-Hp. apply flat_disk_ext. intros z Hz. apply H3.
    by apply (proj1 (list.Forall_forall _ _) (wr_free _ _ _ _ _ _ _ Hw)).
Qed.
Lemma after_file buf (k n : nat) junk : NoDup zs -> i_zones i' = grown (zs ++ news) 13 -> i_size i' = Z.of_nat (length data + n) ->
  Z.of_nat (length (zs ++ news)) = (i_size i' + 511) / 512 -> (length (zs ++ news) <= 12)%nat ->
  flat_map d1 zs = data ++ take k buf ++ junk -> (k <= n)%nat -> (n <= length buf)%nat -> ((k < n)%nat -> junk = []) ->
  new = take (n - k) (drop k buf) -> file_is s' i' (zs ++ news) (data ++ take n buf).
Proof.
  intros Hnd Hz Hs Hl Hl12 Hb Hk Hn Hj Hnew. assert (length (data ++ take n buf) = (length data + n)%nat) as Hlen by (rewrite length_app, length_take; lia).
  rewrite Hs in Hl. pose proof (Z.div_mod (Z.of_nat (length data + n) + 511) 512 ltac:(lia)). pose proof (Z.mod_pos_bound (Z.of_nat (length data + n) + 511) 512 ltac:(lia)).
  split; try done.
  - apply list.NoDup_app. split; [done|]. split; [|apply Hw]. intros z Hz1. by apply owned_not_new, (proj1 (list.Forall_forall _ _) Hown).
  - apply Forall_app. split; [|apply after_new_owned]. eapply Forall_impl; [|exact Hown]. apply after_owned.
  - by rewrite Hlen.
  - rewrite Hlen. lia.
  - destruct after_bytes as [pad Hp]. cbn [disk set_disk]. rewrite Hp, Hb, Hlen, Hnew.
    destruct (decide (k < n)%nat) as [Hlt|].
    + rewrite Hj, app_nil_r, <-!app_assoc by done. rewrite (app_assoc (take k buf)).
      assert (take k buf ++ take (n - k) (drop k buf) = take n buf) as ->.
      { rewrite <-(take_drop k (take n buf)). by rewrite take_take, Nat.min_l, skipn_firstn_comm by lia. }
      rewrite app_assoc. apply take_app_length'. by rewrite Hlen.
    + assert (k = n) as -> by lia. rewrite (app_assoc data), <-(app_assoc (data ++ _)). apply take_app_length'. rewrite length_app, length_take. lia.
Qed.
End after_write.

(** C23: writing at the end of a file whose zones stay direct ones appends: the
    call returns the number of bytes, the file is the old bytes followed by
    the new ones, every other file is what it was, and reading the file from
    a zone boundary on gives the bytes back. *)
Theorem file_write_appends s idx f i zs data buf n :
  volume s -> file_is s i zs data -> 0 <= idx -> g_file_table s !! Z.to_nat idx = Some f -> inodes s !! fd_inode f = Some i ->
  inode_ok i -> i_num i < s_ninodes (sb s) -> mallocs s = [] -> fd_pos f = i_size i ->
  0 <= n <= Z.of_nat (length buf) -> i_size i + n <= 512 * 12 ->
  (i_size i + n + 511) / 512 - Z.of_nat (length zs) <= Z.of_nat (free_count (zone_bitmap s)) ->
  exists s' i' zs', let data' := data ++ take (Z.to_nat n) buf in
    file_write idx buf n s = Ok (n, s') /\ volume s' /\
    inodes s' = <[fd_inode f := i']> (inodes s) /\ g_file_table s' = <[Z.to_nat idx := moved f n]> (g_file_table s) /\
    file_is s' i' zs' data' /\
    (forall j zs2 data2, zs ## zs2 -> file_is s j zs2 data2 -> file_is s' j zs2 data2) /\
    forall idx' f' count, 0 <= idx' -> g_file_table s' !! Z.to_nat idx' = Some f' -> fd_inode f' = fd_inode f ->
      0 <= fd_pos f' <= Z.of_nat (length data') -> fd_pos f' mod 512 = 0 -> 0 <= count ->
      let m := Z.min (Z.of_nat (length data') - fd_pos f') count in
      file_read idx' count s' =
        Ok ((sub (Z.to_nat (fd_pos f')) (Z.to_nat m) data', m), set_files (<[Z.to_nat idx' := moved f' m]> (g_file_table s')) s').
Proof.
  intros Hv Hfile Hidx Hf Hi Hio Hnum Hm Hpos Hn Hmax Hfree.
  destruct (file_write_ok s idx f i zs data buf n Hv Hfile Hidx Hf Hi Hio Hnum Hm Hpos Hn Hmax Hfree)
    as (news & b & d1 & d2 & d3 & junk & Ew & Hzs & Hwr & Hd3 & H3 & H1 & Hb & Hj).
  assert (Hsz := fi_size _ _ _ _ Hfile). pose proof (Z.mod_pos_bound (i_size i) 512 ltac:(lia)).
  set (k := need (i_size i) n) in *. assert (0 <= k <= n) as Hk.
  { unfold k, need. destruct (_ =? _); [lia|]. destruct (Z.leb_spec n (512 - i_size i mod 512)); lia. }
  set (i' := longer i (zs ++ news) (i_size i + n)) in *. set (s' := set_disk d3 (st s idx (fd_inode f) b d2 i' (moved f n))) in *.
  assert (Hown := fi_owned _ _ _ _ Hfile).
  assert (volume s') as Hv' by (eapply after_volume; eauto).
  pose proof (Z.div_mod (i_size i + n + 511) 512 ltac:(lia)). pose proof (Z.mod_pos_bound (i_size i + n + 511) 512 ltac:(lia)).
  assert (file_is s' i' (zs ++ news) (data ++ take (Z.to_nat n) buf)) as Hfile'.
  { eapply (after_file s idx (fd_inode f) (moved f n) zs news b d1 d2 d3 i' data); eauto; try lia.
    - apply Hfile.
    - cbn [i' longer i_size set_size]. lia.
    - intros Hlt. apply Hj. lia. }
  exists s', i', (zs ++ news). cbv zeta. split_and!; [done|done|done|done|done| |].
  - intros j zs2 data2 Hdis Hf2. eapply after_other; eauto.
  - intros idx' f' count Hi0 Hf' Hin Hp' Hal Hc. set (data' := data ++ take (Z.to_nat n) buf) in *. set (m := Z.min _ _).
    assert (Z.of_nat (length data') <= 6144) as Hmax' by (pose proof (fi_size _ _ _ _ Hfile') as Hs'; cbn [i' longer i_size set_size] in Hs'; lia).
    pose proof (fi_size _ _ _ _ Hfile') as Hs'.
    rewrite (file_read_ok s' idx' f' i' count); try done; rewrite ?Hs'; try (change MAX_FILE_SIZE with 71680; lia).
    + fold m. do 2 f_equal. f_equal. unfold sub.
      assert (forall n1 n2 (l : list Z), take n1 (drop n2 l) = drop n2 (take (n2 + n1) l)) as Htd by (intros; by rewrite skipn_firstn_comm, Nat.add_comm, Nat.add_sub).
      rewrite !Htd. f_equal. apply (file_content s' i' (zs ++ news)); [done|done|lia].
    + rewrite Hin. unfold s', st. cbn [inodes set_disk set_files set_inodes]. by rewrite lookup_insert_eq.
    + by eapply file_zones_ok.
Qed.
End writing.

(** ** A file of 600 bytes at the zones 1 and 2 of the data area *)
Definition write_fs : fs :=
  set_files [File 600 0 7000; File 0 0 7000] (set_zmap (Bitmap (7 :: replicate 511 0) 512 0) demo_fs).
Definition write_data : list Z := take 600 (disk write_fs 100 ++ disk write_fs 101).
Definition write_buf : list Z := replicate 500 7.
Lemma write_volume : volume write_fs.
Proof.
  split; try done.
  - split; [done|done|by_computation].
  - intros i Hi _. change max_lba with 163839. change (s_data_start_lba (sb write_fs)) with 99.
    change (nbits (zone_bitmap write_fs)) with 4096 in Hi. lia.
Qed.
Lemma write_file : file_is write_fs demo_inode [100; 101] write_data.
Proof.
  split; try done.
  - simpl. lia.
  - by_computation.
  - repeat constructor; try (by vm_compute).
  - change (length write_data) with 600%nat. simpl length. lia.
Qed.
Lemma file_write_appends_witness :
  exists s' i' zs', file_write 0 write_buf 500 write_fs = Ok (500, s') /\ file_is s' i' zs' (write_data ++ write_buf).
Proof.
  destruct (file_write_appends write_fs 0 (File 600 0 7000) demo_inode [100; 101] write_data write_buf 500 write_volume write_file)
    as (s' & i' & zs' & Ew & _ & _ & _ & Hf & _);
    [discriminate|reflexivity|reflexivity|exact demo_inode_ok|reflexivity|reflexivity|reflexivity|split; discriminate|discriminate
    |vm_compute; discriminate|].
  exists s', i', zs'. exact (conj Ew Hf).
Defined.

(** ** What the code does not do *)

(** The table of the zones from the 13th on is a zone that nobody clears: after
    the first append that needs it, the file seems to have 140 zones. *)
Definition full_inode : inode := set_zones (seqZ 100 12 ++ [0]) (set_size 6144 (set_num 5 zero_inode)).
Definition full_fs : fs :=
  set_files [File 6144 0 7000] (set_inodes {[7000 := full_inode]} (set_zmap (Bitmap (255 :: 31 :: replicate 510 0) 512 0) demo_fs)).
Lemma indirect_table_not_cleared :
  match file_write 0 write_buf 500 full_fs with
  | Ok (n, s') => match inodes s' !! 7000 with
                  | Some i => bool_decide (n = 500) && bool_decide (zones_of s' i !! 12%nat = Some 113) &&
                              bool_decide (zones_of s' i !! 13%nat = Some (112 * (1 + 256 + 65536 + 16777216)))
                  | None => false
                  end
  | _ => false
  end = true.
Proof. vm_compute. reflexivity. Qed.
