(* ===== verification/Format.v ===== *)
(** * Format: making and mounting a file system (core/fs/fs.c)

    [partition_format] writes the super block, the two bitmaps, the inode table
    and the root directory of a partition; [mount_partition] reads the super
    block and the bitmaps back; [fs_init] does both and opens the root. *)
From S2P Require Import Prelude Bitmap Fs FsInode.

Definition MAX_FILES_PER_PARTITION : Z := 4096.
Definition SUPER_MAGIC : Z := 0x2023B07A.
Definition DIV_UP (n d : Z) : Z := u32 (n + d - 1) / d.
(** [struct partition] before it is mounted. *)
Record partition := Partition { p_name : list Z; p_start_lba : Z; p_sec_cnt : Z }.
(** The whole [struct super_block], but for the fields that are never set. *)
Record super := SuperBlock {
  s_magic : Z; s_nzones : Z; s_imap_sz : Z; s_zmap_sz : Z; root_inode_no : Z; dir_entry_size : Z; s_mounted : super_block }.
(** [unset] are the 17 bytes from [s_log_zone_sz] to [s_dirt]. *)
Definition encode_super (unset : list Z) (x : super) : list Z :=
  let b := s_mounted x in
  flat_map (le 4) [s_magic x; s_ninodes b; s_nzones x; s_imap_lba b; s_imap_sz x; s_zmap_lba b; s_zmap_sz x;
                   s_inode_table_lba b; s_inode_table_sz b; s_data_start_lba b; root_inode_no x; dir_entry_size x] ++
  unset ++ replicate 447 0.
Definition decode_super (l : list Z) : super :=
  match words 12 l with
  | [magic; nin; nz; im; ims; zm; zms; it; its; ds; rt; des] => SuperBlock magic nz ims zms rt des (Super nin im zm it its ds)
  | _ => SuperBlock 0 0 0 0 0 0 (Super 0 0 0 0 0 0)
  end.

(** ** The layout of a partition *)
Definition inode_bitmap_sz : Z := DIV_UP MAX_FILES_PER_PARTITION BITS_PER_SECTOR.
Definition inode_table_sz : Z := DIV_UP (sizeof_inode * MAX_FILES_PER_PARTITION) SECTOR_SIZE.
Definition free_sector_sz (sec_cnt : Z) : Z := u32 (sec_cnt - (1 + 1 + inode_bitmap_sz + inode_table_sz)).
(** The number of zones the bitmap is made for. *)
Definition bm_len (sec_cnt : Z) : Z := u32 (free_sector_sz sec_cnt - DIV_UP (free_sector_sz sec_cnt) BITS_PER_SECTOR).
Definition zone_bitmap_sz (sec_cnt : Z) : Z := DIV_UP (bm_len sec_cnt) BITS_PER_SECTOR.
Definition zones_sz (sec_cnt : Z) : Z := u32 (free_sector_sz sec_cnt - zone_bitmap_sz sec_cnt).
Definition new_super (part : partition) : super :=
  let zbs := zone_bitmap_sz (p_sec_cnt part) in
  let imap := u32 (p_start_lba part + 1 + 1) in
  let zmap := u32 (imap + inode_bitmap_sz) in
  let table := u32 (zmap + zbs) in
  SuperBlock SUPER_MAGIC (DIV_UP (zones_sz (p_sec_cnt part)) ZONE_SIZE) inode_bitmap_sz zbs 0 sizeof_dir_entry
    (Super (DIV_UP (inode_table_sz * SECTOR_SIZE) sizeof_inode) imap zmap table inode_table_sz (u32 (table + inode_table_sz))).

(** ** What is written *)
(** [while (bit_idx <= zbm_last_bit) buf[zbm_last_byte] &= ~(1 << bit_idx++)]:
    the byte after [n] rounds. *)
Fixpoint clear_bits (n : nat) (bit_idx byte : Z) : Z :=
  match n with O => byte | S n => clear_bits n (bit_idx + 1) (u8 (Z.land byte (Z.lnot (Z.shiftl 1 bit_idx)))) end.
Definition first_bit (buf : list Z) : list Z := <[0%nat := Z.lor (default 0 (buf !! 0%nat)) 1]> buf.
(** The map of the zones in [buf]; [memset] past the buffer is a fault. *)
Definition zone_map (len : Z) (buf : list Z) : option (list Z) :=
  let zbm_last_byte := Z.to_nat (len / 8) in
  let zbm_last_bit := len mod 8 in
  let last_sz := Z.to_nat (SECTOR_SIZE - (len / 8) mod SECTOR_SIZE) in
  if (length buf <? zbm_last_byte + last_sz)%nat then None
  else
    let buf := splice zbm_last_byte (replicate last_sz 255) (first_bit buf) in
    Some (alter (clear_bits (S (Z.to_nat zbm_last_bit)) 0) zbm_last_byte buf).
Definition root_inode (zone : Z) : inode :=
  set_zones (zone :: replicate 12 0) (set_mode (Z.shiftl FT_DIRECTORY 11) (set_num 0 (set_size (sizeof_dir_entry * 2) zero_inode))).
Definition dot_entry (name : list Z) : dir_entry := DirEntry (name ++ replicate (16 - length name) 0) 0 FT_DIRECTORY.

Section format.
Context {E : FsEnv}.
Variable unset : list Z.

Definition partition_format (part : partition) : M fs unit :=
  if p_sec_cnt part <=? 0 then ret tt
  else
    let sb := new_super part in
    let b := s_mounted sb in
    ide_write (u32 (p_start_lba part + 1)) (encode_super unset sb) 1 ;;;
    let buf_sz := Z.max (Z.max (s_imap_sz sb) (s_zmap_sz sb)) (s_inode_table_sz b) * SECTOR_SIZE in
    ok <- sys_malloc_ok ;;
    (when negb ok do fault) ;;;
    let zeros := replicate (Z.to_nat buf_sz) 0 in
    match zone_map (bm_len (p_sec_cnt part)) zeros with
    | None => fault
    | Some buf =>
        ide_write (s_zmap_lba b) buf (s_zmap_sz sb) ;;;
        ide_write (s_imap_lba b) (first_bit zeros) (s_imap_sz sb) ;;;
        ide_write (s_inode_table_lba b) (splice 0 (encode_inode (root_inode (s_data_start_lba b))) zeros) (s_inode_table_sz b) ;;;
        ide_write (s_data_start_lba b) (put_entry 1 (dot_entry [46; 46]) (put_entry 0 (dot_entry [46]) zeros)) 1
    end.

Definition set_sb v s := Fs (disk s) v (zone_bitmap s) (inode_bitmap s) (inodes s) (open_inodes s) (g_file_table s) (fd_table s) (ft_locked s) (mallocs s).
(** A bitmap of [sz] sectors read from the disk into a block of its own. *)
Definition read_bitmap (lba sz : Z) (after : Z) : M fs bitmap :=
  ok <- sys_malloc_ok ;;
  (when negb ok do panic) ;;;
  bits <- ide_read lba sz ;;
  ret (Bitmap bits (u32 (sz * SECTOR_SIZE)) after).
(** The result says whether it was the partition with this name. *)
Definition mount_partition (target_name : list Z) (part : partition) : M fs bool :=
  if negb (bool_decide (target_name = p_name part)) then ret false
  else
    ok <- sys_malloc_ok ;;
    (when negb ok do panic) ;;;
    buf <- ide_read (u32 (p_start_lba part + 1)) 1 ;;
    let x := decode_super buf in
    ASSERT (s_magic x =? SUPER_MAGIC) ;;;
    modify (set_sb (s_mounted x)) ;;;
    s <- get ;;
    zmap <- read_bitmap (s_zmap_lba (s_mounted x)) (s_zmap_sz x) (after (zone_bitmap s)) ;;
    modify (set_zmap zmap) ;;;
    imap <- read_bitmap (s_imap_lba (s_mounted x)) (s_imap_sz x) (after (inode_bitmap s)) ;;
    modify (set_imap imap) ;;;
    modify (set_open []) ;;;
    ret true.

(** The loop of [fs_init] over the partitions of the slave disks. *)
Fixpoint format_loop (parts : list partition) : M fs unit :=
  match parts with
  | [] => ret tt
  | part :: parts =>
      buf <- ide_read (u32 (p_start_lba part + 1)) 1 ;;
      (when negb (s_magic (decode_super buf) =? SUPER_MAGIC) do partition_format part) ;;;
      format_loop parts
  end.
(** [list_walker] over the list of partitions. *)
Fixpoint mount_loop (parts : list partition) (target_name : list Z) : M fs unit :=
  match parts with
  | [] => ret tt
  | part :: parts =>
      found <- mount_partition target_name part ;;
      if found : bool then ret tt else mount_loop parts target_name
  end.
Definition open_root_dir : M fs Z := inode_open 0.
Definition SDB1 : list Z := [115; 100; 98; 49].
(** The result is the inode of [root_dir]; [parts] are the twelve partitions
    of each slave disk, [known] those on the list. *)
Definition fs_init (parts known : list partition) : M fs Z :=
  ok <- sys_malloc_ok ;;
  (when negb ok do panic) ;;;
  modify (set_ftlock false) ;;;
  format_loop parts ;;;
  mount_loop known SDB1 ;;;
  root <- open_root_dir ;;
  modify (fun s => set_files (map (fun f => File (fd_pos f) (fd_flag f) 0) (g_file_table s)) s) ;;;
  ret root.
End format.
