(* ===== verification/FormatSpec.v ===== *)
(** * FormatSpec: a formatted partition can be mounted, and is empty *)
From S2P Require Import Prelude Bitmap Fs FsInode FsProofs FsDir FsDirSpec FsSpec FsPathSpec Format.

(** ** Writing and reading stretches of the disk *)
Section stretches.
Implicit Types (d : Z -> list Z) (buf : list Z).

Lemma sectors_put_same d lba n m buf : 0 <= lba -> lba + Z.of_nat n < 2 ^ 32 -> (m <= n)%nat ->
  sectors (put_sectors d lba n buf) lba m = take (512 * m) buf.
Proof.
  intros H0 Hl Hm. assert (forall m j, (m + j <= n)%nat ->
    sectors (put_sectors d lba n buf) (lba + Z.of_nat j) m = take (512 * m) (drop (512 * j) buf)) as H.
  { clear m Hm. induction m as [|m IH]; intros j Hj; [done|]. cbn [sectors].
    rewrite u32_small by lia. replace (lba + Z.of_nat j + 1) with (lba + Z.of_nat (S j)) by lia. rewrite IH by lia.
    rewrite put_sectors_spec, decide_True by lia. replace (Z.to_nat (lba + Z.of_nat j - lba)) with j by lia. unfold sub.
    replace (512 * S m)%nat with (512 + 512 * m)%nat by lia. replace (512 * S j)%nat with (512 * j + 512)%nat by lia.
    rewrite <-(drop_drop buf 512 (512 * j)). apply take_take_drop. }
  specialize (H m O ltac:(lia)). by rewrite Z.add_0_r in H.
Qed.
Lemma sectors_put_other d lba n buf lba' m : 0 <= lba -> lba + Z.of_nat n < 2 ^ 32 -> 0 <= lba' -> lba' + Z.of_nat m < 2 ^ 32 ->
  lba' + Z.of_nat m <= lba \/ lba + Z.of_nat n <= lba' ->
  sectors (put_sectors d lba n buf) lba' m = sectors d lba' m.
Proof.
  intros H0 Hl H0' Hl' Hd. revert lba' H0' Hl' Hd. induction m as [|m IH]; intros lba' H0' Hl' Hd; [done|]. cbn [sectors].
  rewrite u32_small, IH by lia. by rewrite put_sectors_spec, decide_False by lia.
Qed.
Lemma put_sectors_full d lba n buf : disk_ok d -> 0 <= lba -> lba + Z.of_nat n < 2 ^ 32 -> (512 * n <= length buf)%nat ->
  disk_ok (put_sectors d lba n buf).
Proof.
  intros Hd H0 Hl Hb a. rewrite put_sectors_spec by done. case_decide; [|apply Hd]. apply sub_length. lia.
Qed.
End stretches.

(** ** The map of the zones *)
Section zone_map.
Implicit Types (buf : list Z).

Lemma clear_bits_all :
  forallb (fun r => forallb (fun k => Bool.eqb (Z.testbit (clear_bits (S r) 0 255) (Z.of_nat k)) (r <? k)%nat) (seq 0 8)) (seq 0 8) = true.
Proof. vm_compute. reflexivity. Qed.
Lemma clear_bits_ok r k : 0 <= r < 8 -> 0 <= k < 8 -> Z.testbit (clear_bits (S (Z.to_nat r)) 0 255) k = (r <? k).
Proof.
  intros Hr Hk. pose proof clear_bits_all as H. rewrite forallb_forall in H.
  specialize (H (Z.to_nat r) ltac:(apply in_seq; lia)). cbn beta in H. rewrite forallb_forall in H.
  specialize (H (Z.to_nat k) ltac:(apply in_seq; lia)). apply Bool.eqb_prop in H. rewrite Z2Nat.id in H by lia. rewrite H.
  destruct (Nat.ltb_spec (Z.to_nat r) (Z.to_nat k)), (Z.ltb_spec r k); lia || done.
Qed.
Lemma clear_bits_range r : 0 <= r < 8 -> 0 <= clear_bits (S (Z.to_nat r)) 0 255 < 256.
Proof.
  intros Hr. assert (forall n i b, 0 <= clear_bits (S n) i b < 256) as H; [|apply H].
  clear. induction n as [|n IH]; intros i b; [apply u8_range|]. apply (IH (i + 1)).
Qed.

(** Byte [j] of the map, for a map of [len] zones. *)
Definition map_byte (len j : Z) : Z :=
  if j =? 0 then 1 else if j <? len / 8 then 0 else if j =? len / 8 then clear_bits (S (Z.to_nat (len mod 8))) 0 255 else 255.
Lemma zone_map_ok len (sz : nat) : 8 <= len -> (Z.to_nat (len / 8) + Z.to_nat (512 - (len / 8) mod 512) <= sz)%nat ->
  exists m, zone_map len (replicate sz 0) = Some m /\ length m = sz /\
    forall j, (j < Z.to_nat (len / 8) + Z.to_nat (512 - (len / 8) mod 512))%nat -> m !! j = Some (map_byte len (Z.of_nat j)).
Proof.
  intros Hl Hs. pose proof (Z.mod_pos_bound (len / 8) 512 ltac:(lia)).
  assert (1 <= len / 8) as Hlast by (apply Z.div_le_lower_bound; lia).
  unfold zone_map. change SECTOR_SIZE with 512. rewrite length_replicate, (proj2 (Nat.ltb_ge _ _)) by lia.
  set (last := Z.to_nat (len / 8)) in *. set (n := Z.to_nat (512 - (len / 8) mod 512)) in *.
  set (b0 := first_bit (replicate sz 0)).
  assert (length b0 = sz) as Hb0 by (unfold b0, first_bit; by rewrite length_insert, length_replicate).
  eexists. split; [done|]. split; [by rewrite length_alter, splice_length by (rewrite length_replicate; lia)|].
  assert (forall j, (j < sz)%nat -> b0 !! j = Some (if (j =? 0)%nat then 1 else 0)) as Hb0j.
  { intros j Hj. unfold b0, first_bit. destruct (Nat.eqb_spec j 0) as [->|Hne].
    - rewrite list_lookup_insert_eq by (rewrite length_replicate; lia). by rewrite lookup_replicate_2 by lia.
    - rewrite list_lookup_insert_ne by done. by apply lookup_replicate_2. }
  intros j Hj. unfold map_byte. destruct (decide (j = last)) as [->|Hne].
  - rewrite list_lookup_alter_eq, splice_lookup by (rewrite length_replicate; lia). rewrite length_replicate, decide_True by lia.
    rewrite lookup_replicate_2 by lia. unfold last. rewrite !Z2Nat.id by lia.
    rewrite (proj2 (Z.eqb_neq _ 0)), Z.ltb_irrefl, Z.eqb_refl by lia. done.
  - rewrite list_lookup_alter_ne, splice_lookup by (try done; rewrite length_replicate; lia). rewrite length_replicate. case_decide as Hd.
    + rewrite lookup_replicate_2 by lia. f_equal. repeat case_match; zb; lia.
    + rewrite Hb0j by lia. f_equal. repeat case_match; zb; try lia; by apply Nat.eqb_eq in H0 || apply Nat.eqb_neq in H0; lia.
Qed.
(** Zone 0 and those behind zone [len] are marked as used. *)
Lemma map_byte_bit len i : 8 <= len -> 0 <= i -> Z.testbit (map_byte len (i / 8)) (i mod 8) = (i =? 0) || (len <? i).
Proof.
  intros Hl Hi. pose proof (Z.mod_pos_bound i 8 ltac:(lia)). pose proof (Z.mod_pos_bound len 8 ltac:(lia)).
  pose proof (Z.div_mod i 8 ltac:(lia)). pose proof (Z.div_mod len 8 ltac:(lia)). unfold map_byte.
  assert (1 <= len / 8) by (apply Z.div_le_lower_bound; lia).
  destruct (Z.eqb_spec (i / 8) 0) as [E|E].
  - assert (len <? i = false) as -> by (apply Z.ltb_ge; lia). rewrite orb_false_r. destruct (Z.eqb_spec i 0) as [->|]; [done|].
    change 1 with (2 ^ 0). apply Z.pow2_bits_false. lia.
  - rewrite (proj2 (Z.eqb_neq i 0)) by (intros ->; done). cbn [orb].
    destruct (Z.ltb_spec (i / 8) (len / 8)); [rewrite Z.bits_0; symmetry; apply Z.ltb_ge; lia|].
    destruct (Z.eqb_spec (i / 8) (len / 8)) as [E2|E2].
    + rewrite clear_bits_ok by lia. destruct (Z.ltb_spec (len mod 8) (i mod 8)), (Z.ltb_spec len i); lia || done.
    + rewrite (proj2 (Z.ltb_lt len i)) by lia. change 255 with (Z.ones 8). apply Z.ones_spec_low. lia.
Qed.
Lemma map_byte_range len j : 0 <= map_byte len j < 256.
Proof.
  unfold map_byte. pose proof (clear_bits_range (len mod 8) ltac:(apply Z.mod_pos_bound; lia)). repeat case_match; lia.
Qed.
End zone_map.

(** ** The layout *)
Record part_ok (part : partition) : Prop := {
  po_start : 0 <= p_start_lba part;
  po_end : p_start_lba part + p_sec_cnt part <= max_lba + 1;
  po_cnt : 812 <= p_sec_cnt part
}.
Lemma DIV_UP_ok n d : 0 < d -> 0 <= n -> n + d < 2 ^ 32 -> DIV_UP n d = (n + d - 1) / d.
Proof. intros Hd Hn Hm. unfold DIV_UP. by rewrite u32_small by lia. Qed.
Section layout.
Variable part : partition.
Hypothesis Hp : part_ok part.
Notation st := (p_start_lba part).
Notation cnt := (p_sec_cnt part).
Notation len := (bm_len cnt).
Notation zbs := (zone_bitmap_sz cnt).

Lemma layout_sizes : len = cnt - 803 - (cnt - 803 + 4095) / 4096 /\ zbs = (len + 4095) / 4096 /\
  8 <= len /\ 1 <= zbs <= 40 /\ len <= zbs * 4096 /\ zbs * 4096 < len + 4096 /\ zbs + 8 <= cnt - 803.
Proof.
  destruct Hp as [H0 H1 H2]. change max_lba with 163839 in H1.
  assert (free_sector_sz cnt = cnt - 803) as Hf by (unfold free_sector_sz; change (1 + 1 + inode_bitmap_sz + inode_table_sz) with 803; apply u32_small; lia).
  pose proof (Z.div_mod (cnt - 803 + 4095) 4096 ltac:(lia)). pose proof (Z.mod_pos_bound (cnt - 803 + 4095) 4096 ltac:(lia)).
  assert (len = cnt - 803 - (cnt - 803 + 4095) / 4096) as Hlen.
  { unfold bm_len. rewrite Hf. unfold BITS_PER_SECTOR. rewrite DIV_UP_ok by lia. replace (cnt - 803 + 4096 - 1) with (cnt - 803 + 4095) by lia.
    apply u32_small. lia. }
  pose proof (Z.div_mod (len + 4095) 4096 ltac:(lia)). pose proof (Z.mod_pos_bound (len + 4095) 4096 ltac:(lia)).
  assert (zbs = (len + 4095) / 4096) as Hz.
  { unfold zone_bitmap_sz. unfold BITS_PER_SECTOR. rewrite DIV_UP_ok by lia. f_equal. lia. }
  split; [done|]. split; [done|]. rewrite Hz. lia.
Qed.
Lemma formatted_bounds : 0 <= st /\ st + cnt <= 163840 /\ 1 <= zbs <= 40 /\ zbs + 8 <= cnt - 803.
Proof. destruct (layout_sizes) as (_ & _ & _ & Hz & _ & _ & Hz3). destruct Hp. change max_lba with 163839 in *. lia. Qed.
Lemma new_super_ok : exists nz, 0 <= nz < 2 ^ 32 /\
  new_super part = SuperBlock SUPER_MAGIC nz 1 zbs 0 24 (Super 4096 (st + 2) (st + 3) (st + 3 + zbs) 800 (st + 803 + zbs)).
Proof.
  destruct layout_sizes as (_ & _ & _ & Hz & _). destruct Hp as [H0 H1 H2]. change max_lba with 163839 in H1.
  exists (DIV_UP (zones_sz cnt) ZONE_SIZE). split.
  { unfold DIV_UP. pose proof (u32_range (zones_sz cnt + ZONE_SIZE - 1)). unfold ZONE_SIZE, SECTOR_SIZE in *.
    split; [apply Z.div_pos; lia|]. apply Z.div_lt_upper_bound; lia. }
  unfold new_super. change inode_bitmap_sz with 1. change inode_table_sz with 800. change sizeof_dir_entry with 24.
  change (DIV_UP (800 * SECTOR_SIZE) sizeof_inode) with 4096. f_equal. rewrite !u32_small by (rewrite ?u32_small; lia).
  f_equal; lia.
Qed.
Lemma super_roundtrip unset x l : length unset = 17%nat ->
  Forall (fun z => 0 <= z < 2 ^ 32) [s_magic x; s_ninodes (s_mounted x); s_nzones x; s_imap_lba (s_mounted x); s_imap_sz x; s_zmap_lba (s_mounted x); s_zmap_sz x;
     s_inode_table_lba (s_mounted x); s_inode_table_sz (s_mounted x); s_data_start_lba (s_mounted x); root_inode_no x; dir_entry_size x] ->
  l = take 512 (encode_super unset x) -> decode_super l = x.
Proof.
  intros Hu Hf ->. rewrite take_ge by (unfold encode_super; rewrite !length_app, length_replicate, Hu, flat_le_length; simpl; lia).
  unfold decode_super, encode_super. erewrite words_app; [|done|done|exact Hf]. by destruct x as [? ? ? ? ? ? []].
Qed.
End layout.

(** ** The disk after formatting *)
Definition dots_sector (zeros : list Z) : list Z :=
  put_entry 1 (dot_entry [46; 46]) (put_entry 0 (dot_entry [46]) zeros).
Section formatted.
Variable part : partition.
Hypothesis Hp : part_ok part.
Notation st := (p_start_lba part).
Notation cnt := (p_sec_cnt part).
Notation len := (bm_len cnt).
Notation zbs := (zone_bitmap_sz cnt).
(** The bytes of the buffer. *)
Variable nb : nat.
Hypothesis Hnb : Z.of_nat nb = 409600.
Notation zeros := (replicate nb 0).

Definition formatted_disk (d : Z -> list Z) (unset zmap : list Z) : Z -> list Z :=
  let d := put_sectors d (st + 1) 1 (encode_super unset (new_super part)) in
  let d := put_sectors d (st + 3) (Z.to_nat zbs) zmap in
  let d := put_sectors d (st + 2) 1 (first_bit zeros) in
  let d := put_sectors d (st + 3 + zbs) (Z.to_nat 800) (splice 0 (encode_inode (root_inode (st + 803 + zbs))) zeros) in
  put_sectors d (st + 803 + zbs) 1 (dots_sector zeros).

Lemma partition_format_ok unset s : mallocs s = [] ->
  exists zmap, zone_map len zeros = Some zmap /\ length zmap = nb /\
    (forall j, Z.of_nat j < 512 * zbs -> zmap !! j = Some (map_byte len (Z.of_nat j))) /\
    partition_format unset part s = Ok (tt, set_disk (formatted_disk (disk s) unset zmap) s).
Proof.
  intros Hm. destruct (layout_sizes part Hp) as (_ & _ & Hlen & Hz & Hz1 & Hz2 & Hz3). destruct Hp as [H0 H1 H2].
  destruct (new_super_ok part Hp) as (nz & _ & Hsb). assert (max_lba = 163839) as Hmax by done. rewrite Hmax in H1.
  pose proof (Z.div_mod len 8 ltac:(lia)). pose proof (Z.mod_pos_bound len 8 ltac:(lia)).
  pose proof (Z.div_mod (len / 8) 512 ltac:(lia)). pose proof (Z.mod_pos_bound (len / 8) 512 ltac:(lia)).
  destruct (zone_map_ok len nb) as (m & Em & Hml & Hmj); [done|lia|].
  exists m. split; [done|]. split; [done|]. split; [intros j Hj; apply Hmj; lia|].
  unfold partition_format. rewrite (proj2 (Z.leb_gt _ _)) by lia. rewrite u32_small by lia.
  assert (forall s lba buf n, lba + n <= 163840 -> 0 < n ->
    ide_write lba buf n s = Ok (tt, set_disk (put_sectors (disk s) lba (Z.to_nat n) buf) s)) as W.
  { intros. apply ide_write_ok; lia. }
  run (W s (st + 1) (encode_super unset (new_super part)) 1 ltac:(lia) ltac:(lia)). set (s1 := set_disk _ s).
  assert (sys_malloc_ok s1 = Ok (true, s1)) as Ea by (unfold sys_malloc_ok; unfold s1 at 1; cbn [mallocs set_disk]; by rewrite Hm).
  run Ea. cbn [negb]. rets. unfold formatted_disk. rewrite Hsb. cbn [s_imap_sz s_zmap_sz s_mounted s_inode_table_sz].
  replace (Z.max (Z.max 1 zbs) 800) with 800 by lia. unfold SECTOR_SIZE. assert (Z.to_nat (800 * 512) = nb) as -> by lia. rewrite Em.
  cbn [s_zmap_lba s_imap_lba s_inode_table_lba s_data_start_lba].
  rewrite (bind_ok _ _ _ _ _ (W s1 (st + 3) m zbs ltac:(lia) ltac:(lia))).
  erewrite bind_ok by (apply W; lia). erewrite bind_ok by (apply W; lia). rewrite W by lia.
  unfold s1. rewrite Hsb. done.
Qed.


Section contents.
Context (d : Z -> list Z) (unset zmap : list Z).
Hypothesis Hd : disk_ok d.
Hypothesis Hu : length unset = 17%nat.
Hypothesis Hzl : length zmap = nb.
Notation d' := (formatted_disk d unset zmap).

Lemma splice_zeros_length k e : (k + length e <= nb)%nat -> length (splice k e zeros) = nb.
Proof. intros H. rewrite splice_length; rewrite length_replicate; lia. Qed.
Lemma dots_sector_length : length (dots_sector zeros) = nb.
Proof.
  unfold dots_sector, put_entry. rewrite splice_length; rewrite splice_zeros_length; try done;
    change (length (encode_entry _)) with 24%nat; unfold sizeof_dir_entry; lia.
Qed.
Ltac other := rewrite (sectors_put_other _ _ _ _ _ _) by lia.
Lemma formatted_super : sectors d' (st + 1) 1 = take 512 (encode_super unset (new_super part)).
Proof.
  pose proof (formatted_bounds part Hp). unfold formatted_disk. cbv zeta. do 4 other. by rewrite sectors_put_same by lia.
Qed.
Lemma formatted_zmap : sectors d' (st + 3) (Z.to_nat zbs) = take (512 * Z.to_nat zbs) zmap.
Proof.
  pose proof (formatted_bounds part Hp). unfold formatted_disk. cbv zeta. do 3 other. by rewrite sectors_put_same by lia.
Qed.
Lemma formatted_imap : sectors d' (st + 2) 1 = take 512 (first_bit zeros).
Proof.
  pose proof (formatted_bounds part Hp). unfold formatted_disk. cbv zeta. do 2 other. by rewrite sectors_put_same by lia.
Qed.
Lemma formatted_table : sectors d' (st + 3 + zbs) 1 = take 512 (splice 0 (encode_inode (root_inode (st + 803 + zbs))) zeros).
Proof.
  pose proof (formatted_bounds part Hp). unfold formatted_disk. cbv zeta. other. by rewrite sectors_put_same by lia.
Qed.
Lemma formatted_root : sectors d' (st + 803 + zbs) 1 = take 512 (dots_sector zeros).
Proof.
  pose proof (formatted_bounds part Hp). unfold formatted_disk. cbv zeta. by rewrite sectors_put_same by lia.
Qed.
Lemma formatted_other a : ~ st <= a < st + cnt -> d' a = d a.
Proof.
  intros Ha. pose proof (formatted_bounds part Hp). unfold formatted_disk. cbv zeta.
  rewrite !put_sectors_spec by lia. by rewrite !decide_False by lia.
Qed.
Lemma formatted_ok : disk_ok d'.
Proof.
  pose proof (formatted_bounds part Hp). unfold formatted_disk. cbv zeta. repeat (apply put_sectors_full; [|lia|lia|]); try done.
  - unfold encode_super. rewrite !length_app, length_replicate, Hu, flat_le_length. simpl. lia.
  - lia.
  - unfold first_bit. rewrite length_insert, length_replicate. lia.
  - rewrite splice_zeros_length; [lia|]. rewrite encode_length by done. lia.
  - rewrite dots_sector_length. lia.
Qed.
End contents.
End formatted.

(** ** What is read back *)
Lemma take_splice n o e l : (o + length e <= n)%nat -> (n <= length l)%nat -> take n (splice o e l) = splice o e (take n l).
Proof.
  intros H1 H2. apply list_eq. intros i. rewrite splice_lookup by (rewrite length_take; lia).
  destruct (decide (i < n)%nat).
  - rewrite !lookup_take_lt, splice_lookup by lia. done.
  - rewrite !lookup_take_ge, decide_False by lia. done.
Qed.
Lemma take_first_bit nb : (512 <= nb)%nat -> take 512 (first_bit (replicate nb 0)) = first_bit (replicate 512 0).
Proof.
  intros H. replace nb with (512 + (nb - 512))%nat by lia. rewrite replicate_add.
  generalize (replicate (nb - 512) 0). intros l. unfold first_bit. rewrite lookup_app_l by (rewrite length_replicate; lia).
  rewrite insert_app_l by (rewrite length_replicate; lia). apply take_app_length'. by rewrite length_insert, length_replicate.
Qed.
Lemma take_dots nb : (512 <= nb)%nat -> take 512 (dots_sector (replicate nb 0)) = dots_sector (replicate 512 0).
Proof.
  intros H. unfold dots_sector, put_entry.
  change sizeof_dir_entry with 24. rewrite take_splice; [|change (length (encode_entry _)) with 24%nat; lia|].
  2: { rewrite splice_length; rewrite length_replicate; [lia|]. change (length (encode_entry _)) with 24%nat. lia. }
  rewrite take_splice; [|change (length (encode_entry _)) with 24%nat; lia|rewrite length_replicate; lia].
  rewrite take_replicate. by replace (512 `min` nb)%nat with 512%nat by lia.
Qed.
Lemma dots_entries : forallb (fun k => bool_decide (entry_at (Z.of_nat k) (dots_sector (replicate 512 0)) =
  match k with O => dot_entry [46] | 1%nat => dot_entry [46; 46] | _ => DirEntry (replicate 16 0) 0 FT_UNKOWN end)) (seq 0 21) = true.
Proof. vm_compute. reflexivity. Qed.
Lemma first_bit_used a : forallb (fun i => Bool.eqb (used (Bitmap (first_bit (replicate 512 0)) 512 a) (Z.of_nat i)) (i =? 0)%nat) (seq 0 4096) = true.
Proof. vm_compute. reflexivity. Qed.
Lemma root_inode_ok z : 0 <= z < 2 ^ 32 -> inode_ok (root_inode z).
Proof.
  intros Hz. assert (root_inode z = Inode 0 6144 0 48 0 0 0 (z :: replicate 12 0) 0 0 0 0 0 0 0 0 0 0) as -> by done.
  split; cbn [i_num i_mode i_uid i_size i_mtime i_gid i_nlinks i_zones i_atime i_ctime i_dev i_count i_lock i_dirt i_pipe i_mount i_seek i_update];
    try lia; [done|]. constructor; [done|]. apply Forall_replicate. lia.
Qed.

(** A partition with an empty file system: only the root directory exists,
    and all zones but its own are free. *)
Record empty_fs (part : partition) (root : Z) (s : fs) : Prop := {
  ef_table : table_ok s;
  ef_open : open_inodes s = [root];
  ef_root : inodes s !! root = Some (set_count 1 (root_inode (s_data_start_lba (sb s))));
  ef_inodes : wf (inode_bitmap s) /\ nbits (inode_bitmap s) = 4096 /\
    forall i, 0 <= i < 4096 -> used (inode_bitmap s) i = (i =? 0);
  ef_zones : wf (zone_bitmap s) /\ bm_len (p_sec_cnt part) <= nbits (zone_bitmap s) /\
    forall i, 0 <= i < nbits (zone_bitmap s) -> used (zone_bitmap s) i = (i =? 0) || (bm_len (p_sec_cnt part) <? i);
  ef_inside : p_start_lba part <= s_data_start_lba (sb s) /\
    s_data_start_lba (sb s) + bm_len (p_sec_cnt part) <= p_start_lba part + p_sec_cnt part;
  ef_dots : take 2 (dir_entries s (root_inode (s_data_start_lba (sb s)))) = [dot_entry [46]; dot_entry [46; 46]];
  ef_names : visible (dir_entries s (root_inode (s_data_start_lba (sb s)))) = []
}.

Section mounted.
Context {E : FsEnv}.
Context (part : partition) (unset zmap : list Z) (nb : nat) (d : Z -> list Z) (s : fs).
Hypothesis Hp : part_ok part.
Hypothesis Hnb : Z.of_nat nb = 409600.
Hypothesis Hu : length unset = 17%nat.
Hypothesis Hd : disk_ok d.
Hypothesis Hzl : length zmap = nb.
Hypothesis Hmap : forall j, Z.of_nat j < 512 * zone_bitmap_sz (p_sec_cnt part) -> zmap !! j = Some (map_byte (bm_len (p_sec_cnt part)) (Z.of_nat j)).
Hypothesis Hs : disk s = formatted_disk part nb d unset zmap.
Hypothesis Hm : mallocs s = [].
Notation st := (p_start_lba part).
Notation zbs := (zone_bitmap_sz (p_sec_cnt part)).

Definition mounted : fs :=
  set_open [] (set_imap (Bitmap (first_bit (replicate 512 0)) 512 (after (inode_bitmap s)))
    (set_zmap (Bitmap (take (512 * Z.to_nat zbs) zmap) (512 * zbs) (after (zone_bitmap s)))
      (set_sb (s_mounted (new_super part)) s))).
Lemma mount_ok : mount_partition (p_name part) part s = Ok (true, mounted).
Proof.
  destruct (formatted_bounds part Hp) as (H0 & H1 & H2 & H3). destruct (new_super_ok part Hp) as (nz & Hnz & Hsb).
  assert (forall s, mallocs s = [] -> sys_malloc_ok s = Ok (true, s)) as Ea by (intros s' Hm'; unfold sys_malloc_ok; by rewrite Hm').
  assert (max_lba = 163839) as Hmax by done.
  unfold mount_partition. rewrite bool_decide_true by done. cbn [negb]. run (Ea s Hm). cbn [negb]. rets.
  rewrite u32_small by lia. run (ide_read_ok s (st + 1) 1 ltac:(lia) ltac:(lia) ltac:(lia)). rewrite Hs, formatted_super by done.
  rewrite (super_roundtrip unset (new_super part) _ Hu) by (done || (rewrite Hsb; cbn; unfold SUPER_MAGIC; repeat constructor; lia)).
  unfold mounted. rewrite Hsb. cbn [s_magic s_mounted s_zmap_lba s_zmap_sz s_imap_lba s_imap_sz]. pass.
  rewrite modify_bind, get_bind. unfold read_bitmap. set (s1 := set_sb _ s).
  run (Ea s1 Hm). cbn [negb]. rets. run (ide_read_ok s1 (st + 3) zbs ltac:(lia) ltac:(lia) ltac:(lia)). rets.
  rewrite modify_bind. set (s2 := set_zmap _ s1). run (Ea s2 Hm). cbn [negb]. rets.
  run (ide_read_ok s2 (st + 2) 1 ltac:(lia) ltac:(lia) ltac:(lia)). rets. rewrite !modify_bind. unfold s2.
  change (disk (set_zmap _ s1)) with (disk s). change (disk s1) with (disk s). rewrite Hs.
  change (Z.to_nat 1) with 1%nat. rewrite formatted_zmap, formatted_imap, take_first_bit by (done || lia).
  unfold SECTOR_SIZE. rewrite !u32_small by lia. rewrite (Z.mul_comm zbs). done.
Qed.
Notation ds := (st + 803 + zbs).
Lemma mounted_table : table_ok mounted.
Proof.
  destruct (formatted_bounds part Hp) as (H0 & H1 & H2 & H3). destruct (new_super_ok part Hp) as (nz & _ & Hsb).
  unfold mounted. rewrite Hsb. split.
  - cbn. rewrite Hs. by apply formatted_ok.
  - cbn. lia.
  - cbn. lia.
  - change max_lba with 163839. cbn. lia.
Qed.
Lemma mounted_sb : sb mounted = s_mounted (new_super part) /\ s_data_start_lba (sb mounted) = ds /\ s_ninodes (sb mounted) = 4096 /\ disk mounted = formatted_disk part nb d unset zmap.
Proof. destruct (new_super_ok part Hp) as (nz & _ & Hsb). unfold mounted. rewrite Hsb. done. Qed.
Lemma mounted_root : disk_inode mounted 0 = root_inode ds.
Proof.
  destruct (formatted_bounds part Hp) as (H0 & H1 & H2 & H3). destruct mounted_sb as (Hsb & Hds & Hni & Hdk).
  rewrite <-(read_inode_ok mounted 0 1) by (try apply mounted_table; rewrite ?Hni; lia || done).
  assert (start_lba (pos_of mounted 0) = st + 3 + zbs) as ->.
  { unfold pos_of. cbn [start_lba]. rewrite Hsb. destruct (new_super_ok part Hp) as (nz & _ & ->). cbn [s_mounted s_inode_table_lba]. change (100 * 0 / 512) with 0. lia. }
  change (Z.to_nat (offset _)) with O. rewrite drop_0, Hdk. change (Z.to_nat 1) with 1%nat. rewrite formatted_table by done.
  assert (length (encode_inode (root_inode ds)) = 100%nat) as Hl by done.
  rewrite take_splice by (rewrite ?length_replicate; lia). unfold splice at 1. rewrite take_0. cbn [app].
  rewrite decode_prefix by done. apply decode_encode, root_inode_ok. lia.
Qed.
Lemma mounted_imap : wf (inode_bitmap mounted) /\ nbits (inode_bitmap mounted) = 4096 /\
  forall i, 0 <= i < 4096 -> used (inode_bitmap mounted) i = (i =? 0).
Proof.
  change (inode_bitmap mounted) with (Bitmap (first_bit (replicate 512 0)) 512 (after (inode_bitmap s))). split; [|split; [done|]].
  - split; [done|done|]. cbn [bits]. change (first_bit (replicate 512 0)) with (1 :: replicate 511 0).
    constructor; [done|]. apply Forall_replicate. lia.
  - intros i Hi. pose proof (first_bit_used (after (inode_bitmap s))) as H. rewrite forallb_forall in H.
    specialize (H (Z.to_nat i) ltac:(apply in_seq; lia)). apply Bool.eqb_prop in H. rewrite Z2Nat.id in H by lia. rewrite H.
    destruct (Nat.eqb_spec (Z.to_nat i) 0), (Z.eqb_spec i 0); lia || done.
Qed.
Lemma mounted_zmap : wf (zone_bitmap mounted) /\ nbits (zone_bitmap mounted) = 4096 * zbs /\
  forall i, 0 <= i < 4096 * zbs -> used (zone_bitmap mounted) i = (i =? 0) || (bm_len (p_sec_cnt part) <? i).
Proof.
  destruct (layout_sizes part Hp) as (_ & _ & Hlen & Hz & _). set (len := bm_len (p_sec_cnt part)) in *.
  change (zone_bitmap mounted) with (Bitmap (take (512 * Z.to_nat zbs) zmap) (512 * zbs) (after (zone_bitmap s))).
  assert (length (take (512 * Z.to_nat zbs) zmap) = (512 * Z.to_nat zbs)%nat) as Hl by (rewrite length_take, Hzl; lia).
  split; [|split].
  - split; cbn [bits map_bytes_length]; [rewrite Hl; lia|unfold nbits; cbn; lia|].
    apply Forall_lookup. intros j x Hx. assert (j < 512 * Z.to_nat zbs)%nat by (apply lookup_lt_Some in Hx; lia).
    rewrite lookup_take_lt, Hmap in Hx by lia. injection Hx as <-. apply map_byte_range.
  - unfold nbits. cbn. lia.
  - intros i Hi. unfold used, byte_at. cbn [bits after].
    pose proof (Z.div_pos i 8 ltac:(lia) ltac:(lia)). pose proof (Z.div_lt_upper_bound i 8 (512 * zbs) ltac:(lia) ltac:(lia)).
    rewrite lookup_take_lt, Hmap by lia. cbn [default]. unfold id. rewrite Z2Nat.id by lia. by apply map_byte_bit; [lia|lia].
Qed.
Lemma root_entries s' : disk s' = formatted_disk part nb d unset zmap ->
  take 2 (dir_entries s' (root_inode ds)) = [dot_entry [46]; dot_entry [46; 46]] /\ visible (dir_entries s' (root_inode ds)) = [].
Proof.
  destruct (formatted_bounds part Hp) as (H0 & H1 & H2 & H3). intros Hd'.
  assert (sector_entries (disk s' ds) = [dot_entry [46]; dot_entry [46; 46]] ++ DirEntry (replicate 16 0) 0 FT_UNKOWN :: replicate 18 (DirEntry (replicate 16 0) 0 FT_UNKOWN)) as He.
  { pose proof (formatted_root part Hp nb d unset zmap Hu Hzl) as Hr. cbn [sectors] in Hr. rewrite app_nil_r, take_dots in Hr by lia.
    rewrite Hd', Hr. vm_compute. reflexivity. }
  assert (exists rest, dir_entries s' (root_inode ds) = sector_entries (disk s' ds) ++ rest) as [rest Hde].
  { eexists. unfold dir_entries, dir_zones. change (i_zones (root_inode ds)) with (ds :: replicate 12 0). cbn [take app flat_map]. reflexivity. }
  rewrite Hde, He. split; [done|]. rewrite <-app_assoc. match goal with |- context [(?e :: ?l) ++ rest] => change ((e :: l) ++ rest) with (e :: (l ++ rest)) end. rewrite visible_hole by (vm_compute; reflexivity). vm_compute. reflexivity.
Qed.
End mounted.

Section spec.
Context {E : FsEnv}.

(** C24: formatting a partition writes inside of it only, and a partition that
    was formatted can be mounted by its name and its root directory opened:
    the file system is then empty, the only inode in use is the root's, the
    only zones in use are the root's and those behind the partition's last
    ones, and the root shows no name but "." and "..". *)
Theorem format_then_mount (unset : list Z) (part : partition) (s : fs) :
  part_ok part -> length unset = 17%nat -> disk_ok (disk s) -> mallocs s = [] ->
  exists s1 s2 s3, let root := new_address (inodes s) in
    partition_format unset part s = Ok (tt, s1) /\
    mount_partition (p_name part) part s1 = Ok (true, s2) /\
    open_root_dir s2 = Ok (root, s3) /\
    (forall a, ~ p_start_lba part <= a < p_start_lba part + p_sec_cnt part -> disk s3 a = disk s a) /\
    empty_fs part root s3.
Proof.
  intros Hp Hu Hd Hm. pose (nb := Z.to_nat 409600). assert (Z.of_nat nb = 409600) as Hnb by (unfold nb; lia). clearbody nb.
  destruct (partition_format_ok part Hp nb Hnb unset s Hm) as (zmap & _ & Hzl & Hmap & Ef).
  set (s1 := set_disk _ s) in *. pose proof (mount_ok part unset zmap nb (disk s) s1 Hp Hnb Hu Hzl eq_refl Hm) as Em.
  set (s2 := mounted part zmap s1) in *.
  destruct (mounted_sb part unset zmap nb (disk s) s1 Hp eq_refl) as (Hsb & Hds & Hni & Hdk). fold s2 in Hsb, Hds, Hni, Hdk.
  pose proof (mounted_table part unset zmap nb (disk s) s1 Hp Hnb Hu Hd Hzl eq_refl) as Ht. fold s2 in Ht.
  pose proof (mounted_root part unset zmap nb (disk s) s1 Hp Hnb Hu Hd Hzl eq_refl) as Hr. fold s2 in Hr.
  destruct (layout_sizes part Hp) as (Hlen1 & Hzbs & Hlen & Hz & Hl1 & _). destruct (formatted_bounds part Hp) as (H0 & H1 & _ & H3).
  assert (forall b, b ∈ open_inodes s2 -> exists i, inodes s2 !! b = Some i /\ i_num i <> 0) as Hno by (intros b Hb; by apply not_elem_of_nil in Hb).
  pose proof (inode_open_ok s2 0 Ht ltac:(lia) Hno Hm) as Eo. cbv zeta in Eo.
  rewrite Hr in Eo. eexists s1, s2, _. cbv zeta. split_and!; [exact Ef|exact Em|exact Eo| |].
  - intros a Ha. cbn [disk set_open set_inodes]. rewrite Hdk. by apply formatted_other.
  - split; cbn [disk set_open set_inodes sb open_inodes inodes inode_bitmap zone_bitmap].
    + destruct Ht. by split.
    + done.
    + rewrite lookup_insert_eq, Hds. done.
    + by apply (mounted_imap part unset zmap nb s1 Hu Hzl).
    + destruct (mounted_zmap part unset zmap nb s1 Hp Hnb Hu Hzl Hmap) as (Hw & Hn & Hused). fold s2 in Hw, Hn, Hused.
      split_and!; [done|lia|]. by rewrite Hn.
    + rewrite Hds. pose proof (Z.div_pos (p_sec_cnt part - 803 + 4095) 4096 ltac:(lia) ltac:(lia)). pose proof (Z.div_le_mono (bm_len (p_sec_cnt part) + 4095) (p_sec_cnt part - 803 + 4095) 4096 ltac:(lia)). lia.
    + rewrite Hds. by apply (root_entries part unset zmap nb (disk s) Hp Hnb Hu Hzl).
    + rewrite Hds. by apply (root_entries part unset zmap nb (disk s) Hp Hnb Hu Hzl).
Qed.
End spec.

(** A partition of 1000 sectors from sector 1 on, on an empty disk. *)
Definition demo_part : partition := Partition SDB1 1 1000.
Definition empty_disk : fs := set_disk (fun _ => replicate 512 0) demo_state.
Lemma format_then_mount_witness :
  part_ok demo_part /\ exists s1 s2 s3, let root := new_address (inodes empty_disk) in
    partition_format (replicate 17 0) demo_part empty_disk = Ok (tt, s1) /\
    mount_partition (p_name demo_part) demo_part s1 = Ok (true, s2) /\
    open_root_dir s2 = Ok (root, s3) /\
    (forall a, ~ p_start_lba demo_part <= a < p_start_lba demo_part + p_sec_cnt demo_part -> disk s3 a = disk empty_disk a) /\
    empty_fs demo_part root s3.
Proof.
  assert (part_ok demo_part) as Hp by (split; [discriminate|by apply Z.leb_le|discriminate]).
  split; [exact Hp|]. apply format_then_mount; [exact Hp|reflexivity|intros a; apply length_replicate|reflexivity].
Defined.

(** The bits of the map are cleared up to the number of zones itself: one zone
    more is free than the partition has when the map keeps its first size. *)
Lemma zone_behind_partition (root : Z) (s : fs) : empty_fs demo_part root s ->
  sb s = s_mounted (new_super demo_part) ->
  let last := s_data_start_lba (sb s) + bm_len 1000 in
  used (zone_bitmap s) (bm_len 1000) = false /\ last = p_start_lba demo_part + p_sec_cnt demo_part.
Proof.
  intros He Hsb last. destruct (ef_zones _ _ _ He) as (_ & Hn & Hu). split.
  - rewrite Hu; [reflexivity|]. change (p_sec_cnt demo_part) with 1000 in Hn. change (bm_len 1000) with 196 in *.
    unfold nbits in *. lia.
  - unfold last. rewrite Hsb. reflexivity.
Qed.
