(* ===== verification/Cmos.v ===== *)
(** * Cmos: the clock chip and the time of day (core/device/cmos.c)

    The chip answers reads of its data port; [chip n r] is what the [n]-th
    read of register [r] gives, so that its contents may change between
    reads.  Time stamps are 32-bit counts of seconds since 1970. *)
From S2P Require Import Prelude.

Definition RTC_HOUR_MODE_12H : Z := 0x02.
Definition RTC_SEC_REG : Z := 0x00.
Definition RTC_MIN_REG : Z := 0x02.
Definition RTC_HOUR_REG : Z := 0x04.
Definition RTC_DAY_REG : Z := 0x07.
Definition RTC_MONTH_REG : Z := 0x08.
Definition RTC_YEAR_REG : Z := 0x09.
Definition RTC_B_REG : Z := 0x0B.
Definition cmos_address : Z := 0x70.
Definition cmos_data : Z := 0x71.
Definition HZ : Z := 9000.
Definition SUBSECONDS_PER_SECOND : Z := 1000000.

(** ** Seconds of years and months *)
(** [while (years > 1969)]. *)
Fixpoint years_loop (fuel : nat) (years days : Z) : Z :=
  match fuel with
  | O => days
  | S fuel =>
      if years >? 1969 then
        let days := u32 (days + 365) in
        let days := if years mod 4 =? 0 then
                      if years mod 100 =? 0 then (if years mod 400 =? 0 then u32 (days + 1) else days)
                      else u32 (days + 1)
                    else days in
        years_loop fuel (years - 1) days
      else days
  end.
Definition secs_of_years (years : Z) : Z :=
  let years := years + 2000 in u32 (years_loop (Z.to_nat (years - 1969)) years 0 * 86400).
(** The cases of the switch in their order, with the days each adds. *)
Definition month_cases (year : Z) : list (Z * Z) :=
  [(11, 30); (10, 31); (9, 30); (8, 31); (7, 31); (6, 30); (5, 31); (4, 30); (3, 31);
   (2, if (year mod 4 =? 0) && (negb (year mod 100 =? 0) || (year mod 400 =? 0)) then 29 else 28); (1, 31)].
(** A switch that falls through: all cases from the label on. *)
Fixpoint fall_through (label : Z) (l : list (Z * Z)) : Z :=
  match l with
  | [] => 0
  | (c, _) :: l' => if c =? label then foldr (fun x n => snd x + n) 0 l else fall_through label l'
  end.
Definition secs_of_month (months year : Z) : Z :=
  let year := year + 2000 in u32 (fall_through months (month_cases year) * 86400).

(** ** Reading the chip *)
Record cmos := Cmos { address : Z; reads : nat }.
(** What [read_rtc] keeps in its variables. *)
Record rtc := Rtc { second : Z; minute : Z; hour : Z; day : Z; month : Z; year : Z }.
#[export] Instance rtc_eq_dec : EqDecision rtc.
Proof. solve_decision. Defined.

Section chip.
Variable chip : nat -> Z -> Z.

Definition outb (port v : Z) : M cmos unit :=
  when port =? cmos_address do modify (fun s => Cmos v (reads s)).
Definition inb (port : Z) : M cmos Z :=
  if port =? cmos_data then
    s <- get ;;
    put (Cmos (address s) (S (reads s))) ;;;
    ret (u8 (chip (reads s) (address s)))
  else fault.
Definition get_update_in_progress_flag : M cmos Z :=
  outb cmos_address 0x0A ;;;
  b <- inb cmos_data ;;
  ret (Z.land b 0x80).
Definition get_RTC_register (reg : Z) : M cmos Z :=
  outb cmos_address reg ;;;
  inb cmos_data.
Fixpoint wait_update (fuel : nat) : M cmos unit :=
  match fuel with
  | O => stuck
  | S fuel =>
      f <- get_update_in_progress_flag ;;
      if negb (f =? 0) then wait_update fuel else ret tt
  end.
Definition read_registers : M cmos rtc :=
  second <- get_RTC_register RTC_SEC_REG ;;
  minute <- get_RTC_register RTC_MIN_REG ;;
  hour <- get_RTC_register RTC_HOUR_REG ;;
  day <- get_RTC_register RTC_DAY_REG ;;
  month <- get_RTC_register RTC_MONTH_REG ;;
  year <- get_RTC_register RTC_YEAR_REG ;;
  ret (Rtc second minute hour day month year).
(** The loop that reads until two readings agree. *)
Fixpoint same_twice (fuel : nat) (last : rtc) : M cmos rtc :=
  match fuel with
  | O => stuck
  | S n =>
      wait_update fuel ;;;
      now <- read_registers ;;
      if bool_decide (last = now) then ret now else same_twice n now
  end.

Definition of_bcd (x : Z) : Z := Z.land x 0x0F + x / 16 * 10.
Definition to_binary (registerB : Z) (t : rtc) : rtc :=
  if Z.land registerB 0x04 =? 0 then
    Rtc (u8 (of_bcd (second t))) (u8 (of_bcd (minute t)))
        (u8 (Z.lor (Z.land (hour t) 0x0F + Z.land (hour t) 0x70 / 16 * 10) (Z.land (hour t) 0x80)))
        (u8 (of_bcd (day t))) (u8 (of_bcd (month t))) (u32 (of_bcd (year t)))
  else t.
Definition to_24h (registerB : Z) (t : rtc) : rtc :=
  if (Z.land registerB RTC_HOUR_MODE_12H =? 0) && negb (Z.land (hour t) 0x80 =? 0) then
    Rtc (second t) (minute t) ((Z.land (hour t) 0x7F + 12) mod 24) (day t) (month t) (year t)
  else t.
Definition time_of (t : rtc) : Z :=
  u32 (secs_of_years (s32 (year t - 1)) + secs_of_month (month t - 1) (s32 (year t)) + (day t - 1) * 86400 +
       hour t * 3600 + minute t * 60 + second t + 0).
Definition read_rtc (fuel : nat) : M cmos Z :=
  wait_update fuel ;;;
  t <- read_registers ;;
  t <- same_twice fuel t ;;
  registerB <- get_RTC_register RTC_B_REG ;;
  ret (time_of (to_24h registerB (to_binary registerB t))).
Definition clock_init (fuel : nat) : M cmos Z := read_rtc fuel.
End chip.

(** ** The time of day *)
Definition update_ticks (ticks : Z) : Z * Z :=
  (ticks / HZ, u32 (ticks mod HZ * (SUBSECONDS_PER_SECOND / HZ))).
(** [tv_sec] and [tv_usec] at clock tick [ticks]. *)
Definition sys_gettimeofday (arch_boot_time ticks : Z) : Z * Z :=
  let '(timer_ticks, timer_subticks) := update_ticks ticks in
  (u32 (arch_boot_time + timer_ticks), timer_subticks).

(** * The seconds since 1970 are counted by the calendar *)

(** ** The calendar *)
Record date := Date { d_year : Z; d_month : Z; d_day : Z }.
Definition leap (y : Z) : bool := (y mod 4 =? 0) && (negb (y mod 100 =? 0) || (y mod 400 =? 0)).
Definition month_length (y m : Z) : Z :=
  if m =? 2 then (if leap y then 29 else 28)
  else if (m =? 4) || (m =? 6) || (m =? 9) || (m =? 11) then 30 else 31.
Definition tomorrow (x : date) : date :=
  if d_day x <? month_length (d_year x) (d_month x) then Date (d_year x) (d_month x) (d_day x + 1)
  else if d_month x <? 12 then Date (d_year x) (d_month x + 1) 1
  else Date (d_year x + 1) 1 1.
(** The date that comes [n] days after the first of January 1970. *)
Inductive day_number : Z -> date -> Prop :=
| epoch : day_number 0 (Date 1970 1 1)
| next_day n x : day_number n x -> day_number (n + 1) (tomorrow x).

Definition date_ok (x : date) : Prop :=
  1970 <= d_year x /\ 1 <= d_month x <= 12 /\ 1 <= d_day x <= month_length (d_year x) (d_month x).

(** ** The code's sums *)
Section sums.
Definition year_days (y : Z) : Z := if leap y then 366 else 365.
(** The days of the years from 1970 to [y], and of the months before [m]. *)
Fixpoint years_days (n : nat) (y : Z) : Z :=
  match n with O => 0 | S n => year_days y + years_days n (y - 1) end.
Definition days_to_year (y : Z) : Z := years_days (Z.to_nat (y - 1969)) y.
Definition days_to_month (m y : Z) : Z := fall_through m (month_cases y).
Definition day_count (x : date) : Z :=
  days_to_year (d_year x - 1) + days_to_month (d_month x - 1) (d_year x) + (d_day x - 1).

Lemma year_days_range y : 365 <= year_days y <= 366.
Proof. unfold year_days. case_match; lia. Qed.
Lemma years_days_range n y : 365 * Z.of_nat n <= years_days n y <= 366 * Z.of_nat n.
Proof.
  revert y. induction n as [|n IH]; intros y; cbn [years_days]; [lia|].
  pose proof (year_days_range y). pose proof (IH (y - 1)). lia.
Qed.
Lemma years_loop_ok n y d : Z.of_nat n = Z.max 0 (y - 1969) -> 0 <= d -> d + 366 * Z.of_nat n < 2 ^ 32 ->
  years_loop n y d = d + years_days n y.
Proof.
  revert y d. induction n as [|n IH]; intros y d Hn Hd Hm; cbn [years_loop years_days]; [lia|].
  rewrite Z.gtb_ltb, (proj2 (Z.ltb_lt _ _)) by lia. rewrite !(u32_small (d + 365)) by lia.
  unfold year_days, leap.
  destruct (y mod 4 =? 0), (y mod 100 =? 0), (y mod 400 =? 0); cbn [andb orb negb]; rewrite ?u32_small by lia; rewrite IH by lia; lia.
Qed.
Lemma secs_of_years_ok y : 1969 <= y <= 2100 -> secs_of_years (y - 2000) = days_to_year y * 86400.
Proof.
  intros Hy. unfold secs_of_years, days_to_year. replace (y - 2000 + 2000) with y by lia.
  pose proof (years_days_range (Z.to_nat (y - 1969)) y). rewrite years_loop_ok by lia. rewrite Z.add_0_l. apply u32_small.
  destruct (decide (y = 2100)) as [->|]; [by vm_compute|]. lia.
Qed.
Lemma days_to_month_next m y : 1 <= m < 12 -> days_to_month m y = days_to_month (m - 1) y + month_length y m.
Proof.
  intros Hm. assert (m = 1 \/ m = 2 \/ m = 3 \/ m = 4 \/ m = 5 \/ m = 6 \/ m = 7 \/ m = 8 \/ m = 9 \/ m = 10 \/ m = 11) as Hc by lia.
  unfold days_to_month, month_length, month_cases. fold (leap y).
  destruct Hc as [->|[->|[->|[->|[->|[->|[->|[->|[->|[->| ->]]]]]]]]]]; destruct (leap y); simpl; lia.
Qed.
Lemma days_to_month_year y : days_to_month 11 y + month_length y 12 = year_days y.
Proof. unfold days_to_month, year_days, month_length, month_cases. fold (leap y). by destruct (leap y). Qed.
Lemma days_to_month_range m y : 0 <= m <= 11 -> 0 <= days_to_month m y <= 335.
Proof.
  intros Hm. assert (m = 0 \/ m = 1 \/ m = 2 \/ m = 3 \/ m = 4 \/ m = 5 \/ m = 6 \/ m = 7 \/ m = 8 \/ m = 9 \/ m = 10 \/ m = 11) as Hc by lia.
  unfold days_to_month, month_cases. fold (leap y).
  destruct Hc as [->|[->|[->|[->|[->|[->|[->|[->|[->|[->|[->| ->]]]]]]]]]]]; destruct (leap y); simpl; lia.
Qed.
Lemma month_length_range y m : 28 <= month_length y m <= 31.
Proof. unfold month_length. repeat case_match; lia. Qed.

Lemma tomorrow_ok x : date_ok x -> date_ok (tomorrow x) /\ day_count (tomorrow x) = day_count x + 1.
Proof.
  intros (Hy & Hm & Hd). unfold tomorrow. destruct (Z.ltb_spec (d_day x) (month_length (d_year x) (d_month x))).
  { split; [unfold date_ok; cbn [d_year d_month d_day]; lia|]. unfold day_count. cbn [d_year d_month d_day]. lia. }
  pose proof (month_length_range (d_year x) (d_month x + 1)). pose proof (month_length_range (d_year x + 1) 1).
  destruct (Z.ltb_spec (d_month x) 12).
  - split; [unfold date_ok; cbn [d_year d_month d_day]; lia|]. unfold day_count. cbn [d_year d_month d_day].
    replace (d_month x + 1 - 1) with (d_month x) by lia. rewrite (days_to_month_next (d_month x)) by lia. lia.
  - split; [unfold date_ok; cbn [d_year d_month d_day]; lia|]. unfold day_count. cbn [d_year d_month d_day].
    assert (d_month x = 12) as Hm12 by lia. rewrite Hm12 in *. change (days_to_month (1 - 1) (d_year x + 1)) with 0.
    replace (d_year x + 1 - 1) with (d_year x) by lia. pose proof (days_to_month_year (d_year x)).
    assert (days_to_year (d_year x) = year_days (d_year x) + days_to_year (d_year x - 1)) as ->; [|change (12 - 1) with 11; lia].
    unfold days_to_year. replace (Z.to_nat (d_year x - 1969)) with (S (Z.to_nat (d_year x - 1 - 1969))) by lia. done.
Qed.
Lemma day_number_ok n x : day_number n x -> date_ok x /\ day_count x = n.
Proof.
  induction 1 as [|n x _ [IH1 IH2]]; [split; [by vm_compute|done]|].
  destruct (tomorrow_ok x IH1) as [H1 H2]. split; [done|]. lia.
Qed.
End sums.

(** ** A chip that shows a time of day *)
Definition bcd (x : Z) : Z := 16 * (x / 10) + x mod 10.
(** The hour [h] as the chip shows it, [digits] being its way to write a
    number: with 12 hours, midnight and noon are 12, and bit 7 marks the
    hours from noon on. *)
Definition shown_hour (regB : Z) (digits : Z -> Z) (h : Z) : Z :=
  if Z.land regB RTC_HOUR_MODE_12H =? 0
  then digits (if h mod 12 =? 0 then 12 else h mod 12) + (if h <? 12 then 0 else 0x80)
  else digits h.
(** The time [t] in the format that register B announces: bit 2 for binary
    numbers, bit 1 for 24 hours. *)
Definition encoded (regB : Z) (t : rtc) : rtc :=
  let digits := if Z.land regB 0x04 =? 0 then bcd else fun x => x in
  Rtc (digits (second t)) (digits (minute t)) (shown_hour regB digits (hour t))
      (digits (day t)) (digits (month t)) (digits (year t)).
(** The hour that the code makes of it: with 12 hours it takes midnight and
    noon for each other. *)
Definition hour_read (regB h : Z) : Z :=
  if (Z.land regB RTC_HOUR_MODE_12H =? 0) && (h mod 12 =? 0) then 12 - h else h.
(** An update is in progress up to the [k]-th read; from then on the chip
    shows the registers [e]. *)
Record shows (chip : nat -> Z -> Z) (k : nat) (regB : Z) (e : rtc) : Prop := {
  sh_busy n : (n < k)%nat -> Z.land (u8 (chip n 0x0A)) 0x80 <> 0;
  sh_done n : (k <= n)%nat -> Z.land (u8 (chip n 0x0A)) 0x80 = 0;
  sh_second n : (k <= n)%nat -> chip n RTC_SEC_REG = second e;
  sh_minute n : (k <= n)%nat -> chip n RTC_MIN_REG = minute e;
  sh_hour n : (k <= n)%nat -> chip n RTC_HOUR_REG = hour e;
  sh_day n : (k <= n)%nat -> chip n RTC_DAY_REG = day e;
  sh_month n : (k <= n)%nat -> chip n RTC_MONTH_REG = month e;
  sh_year n : (k <= n)%nat -> chip n RTC_YEAR_REG = year e;
  sh_B n : (k <= n)%nat -> chip n RTC_B_REG = regB
}.

Section reading.
Context (chip : nat -> Z -> Z) (k : nat) (regB : Z) (e : rtc).
Hypothesis Hs : shows chip k regB e.
Hypothesis He : Forall (fun x => 0 <= x < 256) [second e; minute e; hour e; day e; month e; year e; regB].

Lemma register_ok reg s : get_RTC_register chip reg s = Ok (u8 (chip (reads s) reg), Cmos reg (S (reads s))).
Proof. done. Qed.
Lemma wait_ok fuel s : (k < fuel + reads s)%nat -> (0 < fuel)%nat ->
  exists s', wait_update chip fuel s = Ok (tt, s') /\ (k <= reads s')%nat.
Proof.
  revert s. induction fuel as [|fuel IH]; intros s Hf H0; [lia|]. cbn [wait_update].
  assert (get_update_in_progress_flag chip s = Ok (Z.land (u8 (chip (reads s) 0x0A)) 0x80, Cmos 0x0A (S (reads s)))) as E1 by done.
  run E1. destruct (decide (reads s < k)%nat) as [Hlt|Hge].
  - rewrite (proj2 (Z.eqb_neq _ 0)) by (by apply (sh_busy _ _ _ _ Hs)). cbn [negb]. apply IH; cbn [reads]; lia.
  - rewrite (proj2 (Z.eqb_eq _ 0)) by (apply (sh_done _ _ _ _ Hs); lia). cbn [negb]. eexists. split; [done|]. cbn [reads]. lia.
Qed.
Lemma read_registers_ok s : (k <= reads s)%nat -> exists s', read_registers chip s = Ok (e, s') /\ (k <= reads s')%nat.
Proof.
  intros Hk. pose proof He as H. rewrite !list.Forall_cons in H. destruct H as (H1 & H2 & H3 & H4 & H5 & H6 & _).
  unfold read_registers. do 6 (erewrite bind_ok by apply register_ok). eexists. split; [|shelve].
  unfold ret. cbn [reads]. rewrite (sh_second _ _ _ _ Hs), (sh_minute _ _ _ _ Hs), (sh_hour _ _ _ _ Hs), (sh_day _ _ _ _ Hs), (sh_month _ _ _ _ Hs), (sh_year _ _ _ _ Hs) by lia.
  rewrite !u8_small by lia. by destruct e. Unshelve. cbn [reads]. lia.
Qed.
Lemma read_rtc_ok fuel s : (k < fuel + reads s)%nat -> (0 < fuel)%nat ->
  exists s', read_rtc chip fuel s = Ok (time_of (to_24h regB (to_binary regB e)), s').
Proof.
  intros Hf H0. unfold read_rtc. destruct (wait_ok fuel s Hf H0) as (s1 & E1 & K1). run E1.
  destruct (read_registers_ok s1 K1) as (s2 & E2 & K2). run E2. destruct fuel as [|fuel]; [lia|]. cbn [same_twice].
  destruct (wait_ok (S fuel) s2 ltac:(lia) ltac:(lia)) as (s3 & E3 & K3). run E3.
  destruct (read_registers_ok s3 K3) as (s4 & E4 & K4). run E4. rewrite bool_decide_true by done. rets.
  eexists. run (register_ok RTC_B_REG s4). rewrite (sh_B _ _ _ _ Hs) by lia.
  rewrite !list.Forall_cons in He. rewrite u8_small by (apply He). done.
Qed.
End reading.

Section decoding.
Lemma of_bcd_table : forallb (fun n => let x := Z.of_nat n in
  (of_bcd (bcd x) =? x) && (0 <=? bcd x) && (bcd x <? 256)) (seq 0 100) = true.
Proof. vm_compute. reflexivity. Qed.
Lemma of_bcd_ok x : 0 <= x < 100 -> of_bcd (bcd x) = x /\ 0 <= bcd x < 256.
Proof.
  intros Hx. pose proof of_bcd_table as H. rewrite forallb_forall in H. specialize (H (Z.to_nat x) ltac:(apply in_seq; lia)).
  cbv zeta in H. rewrite Z2Nat.id in H by lia. apply andb_prop in H as [H H3]. apply andb_prop in H as [H1 H2].
  zb. split; [done|lia].
Qed.
(** A statement about all hours is proved by trying them. *)
Lemma by_hours (P : Z -> Prop) : Forall P (seqZ 0 24) -> forall h, 0 <= h < 24 -> P h.
Proof. intros H h Hh. eapply list.Forall_forall; [exact H|]. apply elem_of_seqZ. lia. Qed.
Lemma shown_hour_ok regB (b : bool) h : 0 <= h < 24 ->
  let digits := if b then bcd else fun x => x in
  let e := shown_hour regB digits h in
  let e' := if b then u8 (Z.lor (Z.land e 0x0F + Z.land e 0x70 / 16 * 10) (Z.land e 0x80)) else e in
  0 <= e < 256 /\
  (if (Z.land regB RTC_HOUR_MODE_12H =? 0) && negb (Z.land e' 0x80 =? 0) then (Z.land e' 0x7F + 12) mod 24 else e') =
  hour_read regB h.
Proof.
  intros Hh digits e e'. revert digits e e'. unfold shown_hour, hour_read. revert h Hh.
  destruct (Z.land regB RTC_HOUR_MODE_12H =? 0), b; apply by_hours; by_computation.
Qed.
(** A time of day between 2000 and 2099. *)
Record rtc_ok (t : rtc) : Prop := {
  ro_second : 0 <= second t < 60; ro_minute : 0 <= minute t < 60; ro_hour : 0 <= hour t < 24;
  ro_day : 1 <= day t <= 31; ro_month : 1 <= month t <= 12; ro_year : 0 <= year t < 100
}.
Definition with_hour (h : Z) (t : rtc) : rtc := Rtc (second t) (minute t) h (day t) (month t) (year t).
Lemma to_binary_encoded regB t : rtc_ok t ->
  to_24h regB (to_binary regB (encoded regB t)) = with_hour (hour_read regB (hour t)) t.
Proof.
  intros []. destruct (shown_hour_ok regB (Z.land regB 0x04 =? 0) (hour t)) as [_ Hh]; [done|]. rewrite <-Hh. clear Hh.
  unfold to_24h, to_binary, encoded, with_hour. pose proof (fun x H => proj1 (of_bcd_ok x H)) as B.
  destruct (Z.land regB 4 =? 0); cbn [second minute hour day month year];
    rewrite ?B by lia; rewrite ?(u8_small (second t)), ?(u8_small (minute t)), ?(u8_small (day t)), ?(u8_small (month t)), ?(u32_small (year t)) by lia;
    by destruct (_ && _).
Qed.
Lemma hour_read_ok regB t : rtc_ok t -> rtc_ok (with_hour (hour_read regB (hour t)) t).
Proof. intros []. split; cbn [with_hour second minute hour day month year]; try done. unfold hour_read. case_match; [|done]. zb. Z.div_mod_to_equations. lia. Qed.
Lemma encoded_bytes regB t : rtc_ok t -> 0 <= regB < 256 ->
  let e := encoded regB t in Forall (fun x => 0 <= x < 256) [second e; minute e; hour e; day e; month e; year e; regB].
Proof.
  intros [] Hb e. destruct (shown_hour_ok regB (Z.land regB 0x04 =? 0) (hour t)) as [Hh _]; [done|].
  unfold e, encoded. pose proof (fun x H => proj2 (of_bcd_ok x H)) as B.
  destruct (Z.land regB 4 =? 0); cbn [second minute hour day month year]; repeat apply list.Forall_cons_2; try done; try lia; apply B; lia.
Qed.
Lemma time_of_ok t n : rtc_ok t -> day_number n (Date (2000 + year t) (month t) (day t)) ->
  time_of t = 86400 * n + 3600 * hour t + 60 * minute t + second t.
Proof.
  intros Ht Hn. apply day_number_ok in Hn as [_ Hc]. destruct Ht. unfold day_count in Hc. cbn [d_year d_month d_day] in Hc.
  unfold time_of. rewrite !s32_small by lia. replace (year t - 1) with (2000 + year t - 1 - 2000) by lia.
  rewrite secs_of_years_ok by lia. unfold secs_of_month. rewrite Z.add_comm with (n := year t).
  change (fall_through ?m (month_cases ?y)) with (days_to_month m y).
  pose proof (days_to_month_range (month t - 1) (2000 + year t) ltac:(lia)). rewrite (u32_small (days_to_month _ _ * 86400)) by lia.
  unfold days_to_year in *. pose proof (years_days_range (Z.to_nat (2000 + year t - 1 - 1969)) (2000 + year t - 1)).
  rewrite u32_small by lia. lia.
Qed.
End decoding.

(** C38: when the chip shows a time between 2000 and 2099, in binary or in
    decimal digits and with 12 or 24 hours, [read_rtc] waits for an update to
    end and returns the seconds since 1970: the days that the calendar counts
    up to the date, times 86400, and the time of day, except that on a chip
    with 12 hours it takes midnight and noon for each other. *)
Theorem read_rtc_counts_seconds (chip : nat -> Z -> Z) (k fuel : nat) (regB n : Z) (t : rtc) (s : cmos) :
  rtc_ok t -> day_number n (Date (2000 + year t) (month t) (day t)) -> 0 <= regB < 256 ->
  shows chip k regB (encoded regB t) -> (k < fuel + reads s)%nat -> (0 < fuel)%nat ->
  exists s', read_rtc chip fuel s =
    Ok (86400 * n + 3600 * hour_read regB (hour t) + 60 * minute t + second t, s').
Proof.
  intros Ht Hn HB Hs Hf H0. pose proof (time_of_ok _ n (hour_read_ok regB t Ht) Hn) as E. cbn [with_hour second minute hour] in E.
  rewrite <-E, <-(to_binary_encoded regB t Ht). by apply (read_rtc_ok chip k regB); [|apply encoded_bytes|..].
Qed.

(** 29 February 2024, 11:34:56 in the evening, in decimal digits and with 12
    hours, after an update of 3 reads. *)
Definition demo_time : rtc := Rtc 56 34 23 29 2 24.
Definition demo_chip (n : nat) (r : Z) : Z :=
  let e := encoded 0 demo_time in
  if r =? 0x0A then (if (n <? 3)%nat then 0x80 else 0)
  else if r =? RTC_SEC_REG then second e else if r =? RTC_MIN_REG then minute e else if r =? RTC_HOUR_REG then hour e
  else if r =? RTC_DAY_REG then day e else if r =? RTC_MONTH_REG then month e else if r =? RTC_YEAR_REG then year e else 0.
(** The hour register shows 11 with bit 7. *)
Example demo_hour : demo_chip 5 RTC_HOUR_REG = 0x91.
Proof. reflexivity. Qed.
Lemma day_numbers k n x : day_number n x -> day_number (n + Z.of_nat k) (Nat.iter k tomorrow x).
Proof.
  intros H. induction k as [|k IH]; [by rewrite Z.add_0_r|]. cbn [Nat.iter nat_rect].
  replace (n + Z.of_nat (S k)) with (n + Z.of_nat k + 1) by lia. by constructor.
Qed.
Lemma demo_day : day_number 19782 (Date 2024 2 29).
Proof.
  replace (Date 2024 2 29) with (Nat.iter (Z.to_nat 19782) tomorrow (Date 1970 1 1)) by (vm_compute; reflexivity).
  apply (day_numbers (Z.to_nat 19782) 0). constructor.
Qed.
Lemma demo_shows : shows demo_chip 3 0 (encoded 0 demo_time).
Proof.
  split; intros n Hn; try done; unfold demo_chip; change (0x0A =? 0x0A) with true; cbv iota.
  - by rewrite (proj2 (Nat.ltb_lt n 3)).
  - by rewrite (proj2 (Nat.ltb_ge n 3)).
Qed.
Lemma read_rtc_counts_seconds_witness :
  exists s', read_rtc demo_chip 10 (Cmos 0 0) = Ok (86400 * 19782 + 3600 * 23 + 60 * 34 + 56, s').
Proof.
  apply (read_rtc_counts_seconds demo_chip 3 10 0 19782 demo_time (Cmos 0 0));
    [split; cbn; lia|exact demo_day|lia|exact demo_shows|cbn; lia|lia].
Defined.

(** ** What the code does not do *)

(** A chip that counts 12 hours shows 12 with bit 7 at noon, of which the code
    makes midnight; at midnight it shows 12, which stays 12. *)
Lemma twelve_hours_wrong :
  encoded 0 (Rtc 0 0 12 1 1 0) = Rtc 0 0 (0x80 + 0x12) 1 1 0 /\
  hour (to_24h 0 (to_binary 0 (encoded 0 (Rtc 0 0 12 1 1 0)))) = 0 /\
  encoded 0 (Rtc 0 0 0 1 1 0) = Rtc 0 0 0x12 1 1 0 /\
  hour (to_24h 0 (to_binary 0 (encoded 0 (Rtc 0 0 0 1 1 0)))) = 12.
Proof. split_and!; reflexivity. Qed.
(** Each tick stands for 111 microseconds, so a second of ticks falls short of
    the next by 1000 microseconds. *)
Lemma microseconds_fall_short : snd (sys_gettimeofday 0 8999) = 998889.
Proof. reflexivity. Qed.
