(* ===== verification/Descriptor.v ===== *)
(** * Descriptor: segment and gate descriptors, the task state segment
    (core/destab/descriptor.c, core/destab/tss.c, core/protect.c)

    The tables lie in memory, one byte at each address; the processor's
    registers hold their limits and addresses.  Where the linker puts the
    task state segment and the entry points of core.s are parameters. *)
From S2P Require Import Prelude.

Definition DESC_TYPE_CODEX : Z := 0x8.
Definition DESC_TYPE_DATARW : Z := 0x2.
Definition DESC_TYPE_INTR : Z := 0xE.
Definition DESC_TYPE_TSS : Z := 0x9.
Definition DESC_S_SYSTEM : Z := 0x00.
Definition DESC_S_DATA : Z := 0x10.
Definition DESC_DPL_0 : Z := 0x00.
Definition DESC_DPL_1 : Z := 0x20.
Definition DESC_DPL_3 : Z := 0x60.
Definition DESC_P_1 : Z := 0x80.
Definition DESC_AVL : Z := 0x0.
Definition DESC_L_32BITS : Z := 0x0.
Definition DESC_D_16 : Z := 0x0.
Definition DESC_D_32 : Z := 0x4.
Definition DESC_G_4K : Z := 0x8.
Definition TI_GDT : Z := 0x0.
Definition RPL0 : Z := 0x0.
Definition RPL1 : Z := 0x1.
Definition RPL3 : Z := 0x3.
Definition SEL_IDX_CODE_DPL_0 : Z := 1.
Definition SEL_IDX_DATA_DPL_0 : Z := 2.
Definition SEL_IDX_TSS_DPL_0 : Z := 5.
Definition SEL_IDX_CODE_DPL_3 : Z := 6.
Definition SEL_IDX_DATA_DPL_3 : Z := 7.
Definition SEL_IDX_CODE_DPL_1 : Z := 8.
Definition SEL_IDX_DATA_DPL_1 : Z := 9.
Definition IDT_DESC_CNT : Z := 0x30.
Definition INT_VECTOR_SYSCALL : Z := 0x93.
Definition K_STACK_ADDRESS : Z := 0xc009f000.
Definition CREATE_SELECTOR (IDX TI RPL : Z) : Z := s16 (Z.shiftl IDX 3 + TI + RPL).

(** A descriptor takes 8 bytes, the task state segment 104. *)
Definition DESC_SIZE : Z := 8.
Definition TSS_SIZE : Z := 104.

Record Descriptor_REG := DescReg { limit : Z; address : Z }.
Record cpu := Cpu {
  mem : Z -> Z;
  gdtr : Descriptor_REG; idtr : Descriptor_REG; tr : Z;
  intr_table : Z -> Z
}.
Definition set_mem (m : Z -> Z) (s : cpu) : cpu := Cpu m (gdtr s) (idtr s) (tr s) (intr_table s).
Definition set_idtr (r : Descriptor_REG) (s : cpu) : cpu := Cpu (mem s) (gdtr s) r (tr s) (intr_table s).
Definition set_gdtr (r : Descriptor_REG) (s : cpu) : cpu := Cpu (mem s) r (idtr s) (tr s) (intr_table s).
Definition set_tr (v : Z) (s : cpu) : cpu := Cpu (mem s) (gdtr s) (idtr s) v (intr_table s).

(** Storing a field of one, two or four bytes, the low byte first. *)
Definition upd (a v : Z) (m : Z -> Z) : Z -> Z := fun x => if x =? a then v else m x.
Definition store8 (a v : Z) (m : Z -> Z) : Z -> Z := upd (u32 a) (u8 v) m.
Definition store16 (a v : Z) (m : Z -> Z) : Z -> Z := store8 (a + 1) (v / 2 ^ 8) (store8 a v m).
Definition store32 (a v : Z) (m : Z -> Z) : Z -> Z := store16 (a + 2) (v / 2 ^ 16) (store16 a v m).
Definition memset0 (a n : Z) (m : Z -> Z) : Z -> Z := fun x => if (a <=? x) && (x <? a + n) then 0 else m x.

(** ** core/destab/descriptor.c *)
Inductive DT_type := GDT | IDT | LDT.
(** What [sgdt] and [sidt] store, as two 32-bit words. *)
Definition _save_reg (r : Descriptor_REG) : Z * Z :=
  (Z.lor (u16 (limit r)) (Z.shiftl (u16 (address r)) 16), Z.shiftr (u32 (address r)) 16).
Definition __get_from_descriptor_table_register (type : DT_type) (s : cpu) : Descriptor_REG :=
  let '(d0, d1) := match type with GDT => _save_reg (gdtr s) | IDT => _save_reg (idtr s) | LDT => (0, 0) end in
  let limit := Z.land d0 0x0000ffff in
  let addr := Z.lor (Z.shiftr d0 16) (u32 (Z.shiftl d1 16)) in
  DescReg (u16 limit) addr.
Definition save_gdtr : cpu -> Descriptor_REG := __get_from_descriptor_table_register GDT.
Definition save_idtr : cpu -> Descriptor_REG := __get_from_descriptor_table_register IDT.
Definition get_gdt_base_address (s : cpu) : Z := address (save_gdtr s).
Definition get_idt_base_address (s : cpu) : Z := address (save_idtr s).
Definition load_gdtr (data : Descriptor_REG) : cpu -> cpu := set_gdtr (DescReg (u16 (limit data)) (address data)).
Definition load_idtr (data : Descriptor_REG) : cpu -> cpu := set_idtr (DescReg (u16 (limit data)) (address data)).

Definition create_gate (gd selector offset attribute dcount : Z) (m : Z -> Z) : Z -> Z :=
  let m := store16 gd (Z.land offset 0xffff) m in
  let m := store16 (gd + 2) selector m in
  let m := store8 (gd + 4) dcount m in
  let m := store8 (gd + 5) attribute m in
  store16 (gd + 6) (Z.land (Z.shiftr offset 16) 0xffff) m.
Definition create_descriptor (sd base_address limit access_right attribute : Z) (m : Z -> Z) : Z -> Z :=
  let m := store16 (sd + 2) (Z.land base_address 0xffff) m in
  let m := store16 sd (Z.land limit 0xffff) m in
  let m := store8 (sd + 7) (Z.shiftr base_address 24) m in
  let m := store8 (sd + 4) (Z.land (Z.shiftr base_address 16) 0xff) m in
  let m := store8 (sd + 5) access_right m in
  store8 (sd + 6) (Z.shiftl attribute 4 + Z.land (Z.shiftr limit 16) 0xf) m.

Section kernel_image.
Variables (tss_addr : Z) (intr_entry_table : Z -> Z) (syscall_handler : Z).

(** ** core/destab/tss.c *)
Definition create_tss_descriptor (des_addr base limit dpl : Z) : (Z -> Z) -> Z -> Z :=
  create_descriptor des_addr base limit
    (Z.lor (Z.lor (Z.lor DESC_P_1 dpl) DESC_S_SYSTEM) DESC_TYPE_TSS)
    (Z.lor (Z.lor (Z.lor DESC_G_4K DESC_D_16) DESC_L_32BITS) DESC_AVL).
Definition create_tss (s : cpu) : cpu :=
  let tss_size := TSS_SIZE in
  let m := memset0 tss_addr tss_size (mem s) in
  let sel_dat_ring0 := CREATE_SELECTOR SEL_IDX_DATA_DPL_0 TI_GDT RPL0 in
  let m := store32 (tss_addr + 8) sel_dat_ring0 m in
  let m := store32 (tss_addr + 4) K_STACK_ADDRESS m in
  let m := store16 (tss_addr + 102) 0x0 m in
  let gdt_start := get_gdt_base_address s in
  let sel_TSS := CREATE_SELECTOR SEL_IDX_TSS_DPL_0 TI_GDT RPL0 in
  let m := create_tss_descriptor (gdt_start + SEL_IDX_TSS_DPL_0 * DESC_SIZE) tss_addr tss_size DESC_DPL_0 m in
  set_tr (u16 sel_TSS) (set_mem m s).

(** ** core/protect.c *)
Definition register_INT (int_vector_code handler_address dpl : Z) (s : cpu) : cpu :=
  let idt_start := address (save_idtr s) in
  let selector_code := CREATE_SELECTOR SEL_IDX_CODE_DPL_0 TI_GDT RPL0 in
  set_mem (create_gate (idt_start + int_vector_code * DESC_SIZE) selector_code handler_address
             (Z.lor (Z.lor DESC_P_1 dpl) DESC_TYPE_INTR) 0 (mem s)) s.
Definition register_ring0_INT (int_vector_code : Z) : cpu -> cpu :=
  register_INT int_vector_code (intr_entry_table int_vector_code) DESC_DPL_0.
Definition register_ring3_INT (int_vector_code handler_address : Z) : cpu -> cpu :=
  register_INT int_vector_code handler_address DESC_DPL_3.
Definition create_ring_Descriptor (dpl desc_index des_type : Z) (s : cpu) : cpu :=
  let gdt_start := address (save_gdtr s) in
  set_mem (create_descriptor (gdt_start + desc_index * DESC_SIZE) 0x0 0xffffffff
             (Z.lor (Z.lor (Z.lor DESC_P_1 dpl) DESC_S_DATA) des_type)
             (Z.lor (Z.lor (Z.lor DESC_G_4K DESC_D_32) DESC_L_32BITS) DESC_AVL) (mem s)) s.
Definition create_ring0_Descriptor : Z -> Z -> cpu -> cpu := create_ring_Descriptor DESC_DPL_0.
Definition create_ring1_Descriptor : Z -> Z -> cpu -> cpu := create_ring_Descriptor DESC_DPL_1.
Definition create_ring3_Descriptor : Z -> Z -> cpu -> cpu := create_ring_Descriptor DESC_DPL_3.
Definition init_gdt (s : cpu) : cpu :=
  let s := create_ring3_Descriptor SEL_IDX_CODE_DPL_3 DESC_TYPE_CODEX s in
  let s := create_ring3_Descriptor SEL_IDX_DATA_DPL_3 DESC_TYPE_DATARW s in
  let s := create_ring1_Descriptor SEL_IDX_CODE_DPL_1 DESC_TYPE_CODEX s in
  create_ring1_Descriptor SEL_IDX_DATA_DPL_1 DESC_TYPE_DATARW s.
(** [for (int vec_nr = 0; vec_nr < n; vec_nr++)]. *)
Fixpoint register_loop (n : nat) (s : cpu) : cpu :=
  match n with
  | O => s
  | S n => register_ring0_INT (Z.of_nat n) (register_loop n s)
  end.
Definition init_idt (s : cpu) : cpu :=
  let idtr_data := save_idtr s in
  let s := load_idtr (DescReg (limit idtr_data) (Z.lor (address idtr_data) 0xc0000000)) s in
  let s := register_loop (Z.to_nat IDT_DESC_CNT) s in
  register_ring3_INT INT_VECTOR_SYSCALL syscall_handler s.
Definition init_idt_gdt_tss (s : cpu) : cpu := create_tss (init_idt (init_gdt s)).
Definition register_r0_intr_handler (int_vector_code handler : Z) (s : cpu) : cpu :=
  Cpu (mem s) (gdtr s) (idtr s) (tr s) (upd int_vector_code handler (intr_table s)).
End kernel_image.

(** * What the processor finds in the tables *)

(** ** How the processor reads descriptors
    (Intel 64 and IA-32 manual, volume 3, sections 3.4.5 and 6.11) *)
Record segment := Segment { sg_base : Z; sg_limit : Z; sg_type : Z; sg_memory : bool; sg_dpl : Z; sg_present : bool; sg_big : bool; sg_pages : bool }.
Record gate := Gate { gt_offset : Z; gt_selector : Z; gt_type : Z; gt_dpl : Z; gt_present : bool }.
Definition segment_at (m : Z -> Z) (a : Z) : segment :=
  Segment (m (a + 2) + 2 ^ 8 * m (a + 3) + 2 ^ 16 * m (a + 4) + 2 ^ 24 * m (a + 7))
          (m a + 2 ^ 8 * m (a + 1) + 2 ^ 16 * (m (a + 6) mod 16))
          (m (a + 5) mod 16) (Z.testbit (m (a + 5)) 4) (m (a + 5) / 32 mod 4) (Z.testbit (m (a + 5)) 7)
          (Z.testbit (m (a + 6)) 6) (Z.testbit (m (a + 6)) 7).
Definition gate_at (m : Z -> Z) (a : Z) : gate :=
  Gate (m a + 2 ^ 8 * m (a + 1) + 2 ^ 16 * m (a + 6) + 2 ^ 24 * m (a + 7))
       (m (a + 2) + 2 ^ 8 * m (a + 3))
       (m (a + 5) mod 32) (m (a + 5) / 32 mod 4) (Z.testbit (m (a + 5)) 7).

(** ** Bytes *)
(** Arithmetic with quotients and remainders by constants. *)
Ltac divs := Z.div_mod_to_equations; lia.
Section bytes.
Lemma saved_ok r : 0 <= limit r < 2 ^ 16 -> 0 <= address r < 2 ^ 32 ->
  (let '(d0, d1) := _save_reg r in DescReg (u16 (Z.land d0 0x0000ffff)) (Z.lor (Z.shiftr d0 16) (u32 (Z.shiftl d1 16)))) = r.
Proof.
  intros Hl Ha. unfold _save_reg. rewrite lor_shift by (rewrite ?u16_small; lia). unfold u16.
  rewrite land_ones_16, !Z.shiftr_div_pow2 by lia. rewrite (Z.mod_small (limit r) (2 ^ 16)) by lia.
  rewrite Z.mod_add, !(Z.mod_small (limit r) (2 ^ 16)) by lia. rewrite Z.div_add, (Z.div_small (limit r)), Z.add_0_l by lia.
  rewrite (u32_small (address r)) by lia. rewrite (u32_small (Z.shiftl _ _)) by (rewrite Z.shiftl_mul_pow2 by lia; divs).
  rewrite lor_shift by divs. destruct r as [l a]. cbn [limit address] in *. f_equal. divs.
Qed.
End bytes.

(** Decides comparisons of addresses. *)
Ltac addresses :=
  repeat match goal with
  | |- context [?x =? ?y] => first [rewrite (proj2 (Z.eqb_neq x y)) by lia | rewrite (proj2 (Z.eqb_eq x y)) by lia]
  end.

Section one_descriptor.
Context (a : Z) (m : Z -> Z).
Hypothesis Ha : 0 <= a <= 2 ^ 32 - 8.

Lemma create_descriptor_bytes b l r t x : create_descriptor a b l r t m x =
  if x =? a + 6 then u8 (Z.shiftl t 4 + Z.land (Z.shiftr l 16) 0xf) else if x =? a + 5 then u8 r
  else if x =? a + 4 then u8 (Z.land (Z.shiftr b 16) 0xff) else if x =? a + 7 then u8 (Z.shiftr b 24)
  else if x =? a + 1 then u8 (Z.land l 0xffff / 2 ^ 8) else if x =? a then u8 (Z.land l 0xffff)
  else if x =? a + 3 then u8 (Z.land b 0xffff / 2 ^ 8) else if x =? a + 2 then u8 (Z.land b 0xffff) else m x.
Proof.
  unfold create_descriptor, store16, store8, upd. rewrite !u32_small by lia.
  by replace (a + 2 + 1) with (a + 3) by lia.
Qed.
Lemma create_gate_bytes s o t d x : create_gate a s o t d m x =
  if x =? a + 7 then u8 (Z.land (Z.shiftr o 16) 0xffff / 2 ^ 8) else if x =? a + 6 then u8 (Z.land (Z.shiftr o 16) 0xffff)
  else if x =? a + 5 then u8 t else if x =? a + 4 then u8 d
  else if x =? a + 3 then u8 (s / 2 ^ 8) else if x =? a + 2 then u8 s
  else if x =? a + 1 then u8 (Z.land o 0xffff / 2 ^ 8) else if x =? a then u8 (Z.land o 0xffff) else m x.
Proof.
  unfold create_gate, store16, store8, upd. rewrite !u32_small by lia.
  replace (a + 2 + 1) with (a + 3) by lia. by replace (a + 6 + 1) with (a + 7) by lia.
Qed.
Lemma create_descriptor_frame b l r t x : x < a \/ a + 8 <= x -> create_descriptor a b l r t m x = m x.
Proof. intros Hx. rewrite create_descriptor_bytes. by addresses. Qed.
Lemma create_gate_frame s o t d x : x < a \/ a + 8 <= x -> create_gate a s o t d m x = m x.
Proof. intros Hx. rewrite create_gate_bytes. by addresses. Qed.

Lemma create_descriptor_read b l r t : 0 <= b < 2 ^ 32 -> 0 <= l -> 0 <= r < 2 ^ 8 -> 0 <= t < 2 ^ 4 ->
  segment_at (create_descriptor a b l r t m) a =
    Segment b (l mod 2 ^ 20) (r mod 16) (Z.testbit r 4) (r / 32 mod 4) (Z.testbit r 7) (Z.testbit t 2) (Z.testbit t 3).
Proof.
  intros Hb Hl Hr Ht. unfold segment_at. rewrite !create_descriptor_bytes. addresses.
  autorewrite with bytes. rewrite !Z.shiftl_mul_pow2, !Z.shiftr_div_pow2 by lia. rewrite !(u8_small r) by lia.
  unfold u8. rewrite (Z.mod_small (t * 2 ^ 4 + _) (2 ^ 8)) by divs.
  assert (forall k, 0 <= k -> Z.testbit (t * 2 ^ 4 + (l / 2 ^ 16) mod 2 ^ 4) (k + 4) = Z.testbit t k) as Hbit.
  { intros k Hk. rewrite <-Z.div_pow2_bits by lia. f_equal. divs. }
  f_equal; [divs|divs|exact (Hbit 2 ltac:(lia))|exact (Hbit 3 ltac:(lia))].
Qed.
Lemma create_gate_read s o t d : 0 <= s < 2 ^ 16 -> 0 <= o < 2 ^ 32 -> 0 <= t < 2 ^ 8 ->
  gate_at (create_gate a s o t d m) a = Gate o s (t mod 32) (t / 32 mod 4) (Z.testbit t 7).
Proof.
  intros Hs Ho Ht. unfold gate_at. rewrite !create_gate_bytes. addresses.
  autorewrite with bytes. rewrite !Z.shiftr_div_pow2 by lia. rewrite !(u8_small t) by lia. unfold u8. f_equal; divs.
Qed.
End one_descriptor.

(** A descriptor is read from its eight bytes. *)
Lemma segment_at_ext m m' a : (forall x, a <= x < a + 8 -> m' x = m x) -> segment_at m' a = segment_at m a.
Proof. intros H. unfold segment_at. by rewrite !H by lia. Qed.
Lemma gate_at_ext m m' a : (forall x, a <= x < a + 8 -> m' x = m x) -> gate_at m' a = gate_at m a.
Proof. intros H. unfold gate_at. by rewrite !H by lia. Qed.
Lemma segment_at_other a b base l r t m : 0 <= b <= 2 ^ 32 - 8 -> a + 8 <= b \/ b + 8 <= a ->
  segment_at (create_descriptor b base l r t m) a = segment_at m a.
Proof. intros Hb Hd. apply segment_at_ext. intros x Hx. apply create_descriptor_frame; lia. Qed.

(** ** All tables *)
Definition reg_ok (r : Descriptor_REG) : Prop := 0 <= limit r < 2 ^ 16 /\ 0 <= address r < 2 ^ 32.
Definition high (a : Z) : Z := Z.lor a 0xc0000000.
(** The tables and the task state segment lie apart and inside memory. *)
Record layout (tss : Z) (s : cpu) : Prop := {
  lay_gdtr : reg_ok (gdtr s); lay_idtr : reg_ok (idtr s);
  lay_gdt : address (gdtr s) + 80 <= 2 ^ 32;
  lay_idt : 0 <= high (address (idtr s)) /\ high (address (idtr s)) + 0x4a0 <= 2 ^ 32;
  lay_tss : 0 <= tss /\ tss + TSS_SIZE <= 2 ^ 32;
  lay_gdt_idt : address (gdtr s) + 80 <= high (address (idtr s)) \/ high (address (idtr s)) + 0x4a0 <= address (gdtr s);
  lay_gdt_tss : address (gdtr s) + 80 <= tss \/ tss + TSS_SIZE <= address (gdtr s);
  lay_idt_tss : high (address (idtr s)) + 0x4a0 <= tss \/ tss + TSS_SIZE <= high (address (idtr s))
}.
(** A present interrupt gate to kernel code, and a present segment of 4 GB. *)
Definition interrupt_gate (dpl handler : Z) : gate := Gate handler 8 0xE dpl true.
Definition flat_segment (type dpl : Z) : segment := Segment 0 0xfffff type true dpl true true true.

Section tables.
Context (tss : Z) (entry : Z -> Z) (sysh : Z).

Lemma save_gdtr_ok s : reg_ok (gdtr s) -> save_gdtr s = gdtr s.
Proof. intros [H1 H2]. exact (saved_ok (gdtr s) H1 H2). Qed.
Lemma save_idtr_ok s : reg_ok (idtr s) -> save_idtr s = idtr s.
Proof. intros [H1 H2]. exact (saved_ok (idtr s) H1 H2). Qed.

(** The segments for user programs and for ring 1. *)
Definition gdt_memory (g : Z) (m : Z -> Z) : Z -> Z :=
  let mk dpl k type := create_descriptor (g + k * 8) 0 0xffffffff (Z.lor (Z.lor (Z.lor 0x80 dpl) 0x10) type) 0xc in
  mk 0x20 9 2 (mk 0x20 8 8 (mk 0x60 7 2 (mk 0x60 6 8 m))).
Lemma init_gdt_eq s : reg_ok (gdtr s) -> init_gdt s = set_mem (gdt_memory (address (gdtr s)) (mem s)) s.
Proof.
  intros Hg. unfold init_gdt, create_ring3_Descriptor, create_ring1_Descriptor, create_ring_Descriptor.
  repeat (rewrite save_gdtr_ok by exact Hg; cbn [mem gdtr set_mem]). done.
Qed.
Lemma gdt_memory_read g m : 0 <= g -> g + 80 <= 2 ^ 32 ->
  segment_at (gdt_memory g m) (g + 48) = flat_segment 8 3 /\ segment_at (gdt_memory g m) (g + 56) = flat_segment 2 3 /\
  segment_at (gdt_memory g m) (g + 64) = flat_segment 8 1 /\ segment_at (gdt_memory g m) (g + 72) = flat_segment 2 1 /\
  forall x, x < g + 48 \/ g + 80 <= x -> gdt_memory g m x = m x.
Proof.
  intros H0 H1. unfold gdt_memory. cbv zeta.
  repeat split; [..|intros x Hx; by rewrite !create_descriptor_frame by lia];
    repeat (rewrite segment_at_other by lia);
    (etrans; [apply create_descriptor_read; first [lia|by vm_compute]|]); reflexivity.
Qed.
(** The gates of the first [n] vectors. *)
Definition put_gate (i v handler dpl : Z) (m : Z -> Z) : Z -> Z :=
  create_gate (i + v * 8) 8 handler (Z.lor (Z.lor 0x80 dpl) 0xE) 0 m.
Fixpoint idt_memory (n : nat) (i : Z) (m : Z -> Z) : Z -> Z :=
  match n with O => m | S n => put_gate i (Z.of_nat n) (entry (Z.of_nat n)) 0 (idt_memory n i m) end.
Lemma register_INT_eq v h dpl s : reg_ok (idtr s) ->
  register_INT v h dpl s = set_mem (put_gate (address (idtr s)) v h dpl (mem s)) s.
Proof. intros Hi. unfold register_INT. by rewrite save_idtr_ok by exact Hi. Qed.
Lemma register_loop_eq n s : reg_ok (idtr s) ->
  register_loop entry n s = set_mem (idt_memory n (address (idtr s)) (mem s)) s.
Proof.
  intros Hi. induction n as [|n IH]; cbn [register_loop idt_memory]; [by destruct s|].
  rewrite IH. unfold register_ring0_INT. by rewrite register_INT_eq by exact Hi.
Qed.
Lemma put_gate_read i v h dpl m : 0 <= i -> 0 <= v -> i + v * 8 + 8 <= 2 ^ 32 -> 0 <= h < 2 ^ 32 -> dpl = 0 \/ dpl = 0x60 ->
  gate_at (put_gate i v h dpl m) (i + v * 8) = interrupt_gate (dpl / 32) h /\
  forall x, x < i + v * 8 \/ i + v * 8 + 8 <= x -> put_gate i v h dpl m x = m x.
Proof.
  intros Hi Hv Hm Hh Hd. split; [|intros x Hx; apply create_gate_frame; lia].
  unfold put_gate. destruct Hd as [-> | ->]; (etrans; [apply create_gate_read; first [lia|by vm_compute]|]); reflexivity.
Qed.
Hypothesis Hentry : forall v, 0 <= v < 0x30 -> 0 <= entry v < 2 ^ 32.
Lemma idt_memory_read n i m : 0 <= i -> (n <= 48)%nat -> i + 0x4a0 <= 2 ^ 32 ->
  (forall v, 0 <= v < Z.of_nat n -> gate_at (idt_memory n i m) (i + v * 8) = interrupt_gate 0 (entry v)) /\
  forall x, x < i \/ i + Z.of_nat n * 8 <= x -> idt_memory n i m x = m x.
Proof.
  intros Hi Hn Hm. induction n as [|n IH]; cbn [idt_memory]; [split; [lia|done]|].
  destruct (IH ltac:(lia)) as [IH1 IH2].
  destruct (put_gate_read i (Z.of_nat n) (entry (Z.of_nat n)) 0 (idt_memory n i m)) as [G1 G2]; [lia..|apply Hentry; lia|by left|].
  split; [|intros x Hx; rewrite G2 by lia; apply IH2; lia].
  intros v Hv. destruct (decide (v = Z.of_nat n)) as [->|Hne]; [exact G1|].
  rewrite (gate_at_ext (idt_memory n i m)) by (intros x Hx; apply G2; lia). apply IH1. lia.
Qed.
(** The task state segment and its descriptor. *)
Definition tss_memory (g : Z) (m : Z -> Z) : Z -> Z :=
  create_descriptor (g + 40) tss TSS_SIZE 0x89 8
    (store16 (tss + 102) 0 (store32 (tss + 4) K_STACK_ADDRESS (store32 (tss + 8) 16 (memset0 tss TSS_SIZE m)))).
Lemma tss_bytes m x : 0 <= tss -> tss + TSS_SIZE <= 2 ^ 32 ->
  store16 (tss + 102) 0 (store32 (tss + 4) K_STACK_ADDRESS (store32 (tss + 8) 16 (memset0 tss TSS_SIZE m))) x =
  if x =? tss + 7 then 0xc0 else if x =? tss + 6 then 0x09 else if x =? tss + 5 then 0xf0 else if x =? tss + 4 then 0x00
  else if x =? tss + 8 then 16 else if (tss <=? x) && (x <? tss + TSS_SIZE) then 0 else m x.
Proof.
  intros H0 H1. unfold TSS_SIZE, memset0 in *. unfold store32, store16, store8, upd. rewrite !u32_small by lia.
  repeat match goal with |- context [if ?a =? ?b then _ else _] => destruct (Z.eqb_spec a b) end; try lia; try reflexivity.
  all: destruct (_ && _) eqn:E; try reflexivity; apply andb_false_iff in E; zb; lia.
Qed.
Lemma create_tss_eq s : reg_ok (gdtr s) -> create_tss tss s = set_tr 40 (set_mem (tss_memory (address (gdtr s)) (mem s)) s).
Proof. intros Hg. unfold create_tss, get_gdt_base_address. by rewrite save_gdtr_ok by exact Hg. Qed.
Lemma tss_memory_frame g m x : 0 <= g -> g + 80 <= 2 ^ 32 -> 0 <= tss -> tss + TSS_SIZE <= 2 ^ 32 ->
  x < g + 40 \/ g + 48 <= x -> x < tss \/ tss + TSS_SIZE <= x -> tss_memory g m x = m x.
Proof.
  intros Hg0 Hg Ht0 Ht Hx1 Hx2. unfold tss_memory. rewrite create_descriptor_frame by lia. rewrite tss_bytes by done.
  unfold TSS_SIZE in *. addresses. destruct (_ && _) eqn:E; [|done]. zb. lia.
Qed.
(** The state after initialisation. *)
Definition vectors : nat := Z.to_nat IDT_DESC_CNT.
Lemma vectors_48 : (vectors = 48)%nat.
Proof. reflexivity. Qed.
Definition all_memory (g i : Z) (m : Z -> Z) : Z -> Z :=
  tss_memory g (put_gate i 0x93 sysh 0x60 (idt_memory vectors i (gdt_memory g m))).
Lemma init_eq s : layout tss s ->
  init_idt_gdt_tss tss entry sysh s =
  Cpu (all_memory (address (gdtr s)) (high (address (idtr s))) (mem s)) (gdtr s)
      (DescReg (limit (idtr s)) (high (address (idtr s)))) 40 (intr_table s).
Proof.
  intros []. unfold init_idt_gdt_tss. rewrite init_gdt_eq by done. unfold init_idt. rewrite save_idtr_ok by done.
  cbn [idtr set_mem].
  set (s1 := Cpu (gdt_memory (address (gdtr s)) (mem s)) (gdtr s) (DescReg (limit (idtr s)) (high (address (idtr s)))) (tr s) (intr_table s)).
  assert (load_idtr (DescReg (limit (idtr s)) (Z.lor (address (idtr s)) 0xc0000000)) (set_mem (gdt_memory (address (gdtr s)) (mem s)) s) = s1) as ->.
  { unfold load_idtr, s1. cbn [limit address]. destruct lay_idtr0 as [Hl _]. by rewrite u16_small by lia. }
  assert (reg_ok (idtr s1)) as Hi.
  { unfold reg_ok, s1. cbn [idtr limit address]. destruct lay_idtr0 as [Hl _]. lia. }
  unfold all_memory, vectors. generalize (Z.to_nat IDT_DESC_CNT). intros n. rewrite register_loop_eq by exact Hi. unfold register_ring3_INT.
  rewrite register_INT_eq by (cbn [idtr set_mem]; exact Hi). rewrite create_tss_eq by (cbn [gdtr set_mem]; exact lay_gdtr0).
  reflexivity.
Qed.
Lemma all_memory_frame g i m x : 0 <= g -> g + 80 <= 2 ^ 32 -> 0 <= i -> i + 0x4a0 <= 2 ^ 32 -> 0 <= tss -> tss + TSS_SIZE <= 2 ^ 32 ->
  0 <= sysh < 2 ^ 32 ->
  x < g + 40 \/ g + 80 <= x -> x < i \/ i + 0x4a0 <= x -> x < tss \/ tss + TSS_SIZE <= x -> all_memory g i m x = m x.
Proof.
  intros Hg0 Hg Hi0 Hi Ht0 Ht Hs H1 H2 H3. unfold all_memory. rewrite tss_memory_frame by lia.
  rewrite (proj2 (put_gate_read i 0x93 sysh 0x60 _ ltac:(lia) ltac:(lia) ltac:(lia) Hs ltac:(by right))) by lia.
  rewrite (proj2 (idt_memory_read vectors i _ ltac:(lia) ltac:(by rewrite vectors_48) ltac:(lia))) by (rewrite vectors_48; lia).
  apply gdt_memory_read; lia.
Qed.
End tables.

(** What the tables hold: entry [v] of the interrupt table and entry [k] of
    the descriptor table of a state. *)
Definition gate_of (s : cpu) (v : Z) : gate := gate_at (mem s) (address (idtr s) + v * 8).
Definition segment_of (s : cpu) (k : Z) : segment := segment_at (mem s) (address (gdtr s) + k * 8).
Definition word_at (m : Z -> Z) (a : Z) : Z := m a + 2 ^ 8 * m (a + 1) + 2 ^ 16 * m (a + 2) + 2 ^ 24 * m (a + 3).

Section initialised.
Context (tss : Z) (entry : Z -> Z) (sysh : Z) (s : cpu).
Hypothesis Hlay : layout tss s.
Hypothesis Hentry : forall v, 0 <= v < 0x30 -> 0 <= entry v < 2 ^ 32.
Hypothesis Hsys : 0 <= sysh < 2 ^ 32.
Let g := address (gdtr s).
Let i := high (address (idtr s)).
Let m' := all_memory tss entry sysh g i (mem s).

Lemma below_tss x : x < g + 40 \/ g + 48 <= x -> x < tss \/ tss + TSS_SIZE <= x ->
  m' x = put_gate i 0x93 sysh 0x60 (idt_memory entry vectors i (gdt_memory g (mem s))) x.
Proof. destruct Hlay. destruct lay_gdtr0 as [_ ?]. intros H1 H2. apply tss_memory_frame; unfold g in *; lia. Qed.
Lemma below_gates x : x < i \/ i + 0x4a0 <= x ->
  put_gate i 0x93 sysh 0x60 (idt_memory entry vectors i (gdt_memory g (mem s))) x = gdt_memory g (mem s) x.
Proof.
  destruct Hlay. intros H1.
  rewrite (proj2 (put_gate_read i 0x93 sysh 0x60 _ ltac:(unfold i; lia) ltac:(lia) ltac:(unfold i; lia) Hsys ltac:(by right))) by lia.
  apply idt_memory_read; rewrite ?vectors_48; unfold i; lia || done.
Qed.
Lemma gates_ok v : 0 <= v < 0x30 \/ v = 0x93 ->
  gate_at m' (i + v * 8) = if v =? 0x93 then interrupt_gate 3 sysh else interrupt_gate 0 (entry v).
Proof.
  destruct Hlay. unfold TSS_SIZE in *. intros Hv.
  rewrite (gate_at_ext (put_gate i 0x93 sysh 0x60 (idt_memory entry vectors i (gdt_memory g (mem s)))))
    by (intros x Hx; apply below_tss; unfold g, i, TSS_SIZE in *; lia).
  pose proof (put_gate_read i 0x93 sysh 0x60 (idt_memory entry vectors i (gdt_memory g (mem s))) ltac:(unfold i; lia) ltac:(lia) ltac:(unfold i; lia) Hsys ltac:(by right)) as [G1 G2].
  destruct (Z.eqb_spec v 0x93) as [->|]; [exact G1|].
  rewrite (gate_at_ext (idt_memory entry vectors i (gdt_memory g (mem s)))) by (intros x Hx; apply G2; lia).
  apply (idt_memory_read entry Hentry vectors); rewrite ?vectors_48; unfold i; lia.
Qed.
Lemma segments_ok k : 6 <= k <= 9 ->
  segment_at m' (g + k * 8) = flat_segment (if (k =? 6) || (k =? 8) then 8 else 2) (if k <=? 7 then 3 else 1).
Proof.
  destruct Hlay. destruct lay_gdtr0 as [_ ?]. unfold TSS_SIZE in *. intros Hk.
  rewrite (segment_at_ext (gdt_memory g (mem s))).
  2: { intros x Hx. rewrite below_tss by (unfold g, TSS_SIZE in *; lia). apply below_gates. unfold g, i in *. lia. }
  destruct (gdt_memory_read g (mem s)) as (R1 & R2 & R3 & R4 & _); [unfold g; lia..|].
  assert (k = 6 \/ k = 7 \/ k = 8 \/ k = 9) as Hc by lia. by destruct Hc as [->|[->|[->| ->]]].
Qed.
Lemma tss_ok : segment_at m' (g + 40) = Segment tss TSS_SIZE 9 false 0 true false true /\
  word_at m' (tss + 4) = K_STACK_ADDRESS /\ word_at m' (tss + 8) = 16 /\
  forall x, tss + 12 <= x < tss + TSS_SIZE -> m' x = 0.
Proof.
  destruct Hlay. destruct lay_gdtr0 as [_ ?]. unfold TSS_SIZE in *. unfold m', all_memory, tss_memory.
  split.
  { etrans; [apply create_descriptor_read; first [unfold g; lia|by vm_compute]|]. reflexivity. }
  assert (forall d, 4 <= d < 104 -> create_descriptor (g + 40) tss 104 137 8 (store16 (tss + 102) 0 (store32 (tss + 4) K_STACK_ADDRESS (store32 (tss + 8) 16 (memset0 tss 104 (put_gate i 147 sysh 96 (idt_memory entry vectors i (gdt_memory g (mem s)))))))) (tss + d) =
     if d =? 7 then 0xc0 else if d =? 6 then 0x09 else if d =? 5 then 0xf0 else if d =? 4 then 0x00 else if d =? 8 then 16 else 0) as Hb.
  { intros d Hd. rewrite create_descriptor_frame by (unfold g; lia). rewrite (tss_bytes tss _ (tss + d)) by (unfold TSS_SIZE; lia).
    unfold TSS_SIZE. rewrite (proj2 (andb_true_iff _ _)) by lia.
    repeat match goal with |- context [if ?a =? ?b then _ else _] => destruct (Z.eqb_spec a b) end; lia || reflexivity. }
  unfold word_at. rewrite <-!Z.add_assoc. cbn [Z.add Pos.add Pos.succ]. rewrite !Hb by lia. split; [reflexivity|]. split; [reflexivity|].
  intros x Hx. replace x with (tss + (x - tss)) by lia. rewrite Hb by lia. by addresses.
Qed.
End initialised.

(** After [init_idt_gdt_tss], each of the first 48 vectors has a present
    interrupt gate of the kernel's privilege to its entry point, the system
    call vector one that programs may use, entries 6 to 9 are segments of 4 GB
    for programs and for ring 1, entry 5 describes the task state segment,
    whose stack for interrupts is the kernel's, and no other byte changed. *)
Theorem init_idt_gdt_tss_fills_tables (tss : Z) (entry : Z -> Z) (sysh : Z) (s : cpu) :
  layout tss s -> (forall v, 0 <= v < 0x30 -> 0 <= entry v < 2 ^ 32) -> 0 <= sysh < 2 ^ 32 ->
  let s' := init_idt_gdt_tss tss entry sysh s in
  (forall v, 0 <= v < 0x30 -> gate_of s' v = interrupt_gate 0 (entry v)) /\
  gate_of s' 0x93 = interrupt_gate 3 sysh /\
  segment_of s' 6 = flat_segment 8 3 /\ segment_of s' 7 = flat_segment 2 3 /\
  segment_of s' 8 = flat_segment 8 1 /\ segment_of s' 9 = flat_segment 2 1 /\
  segment_of s' (tr s' / 8) = Segment tss TSS_SIZE 9 false 0 true false true /\
  word_at (mem s') (tss + 4) = K_STACK_ADDRESS /\ word_at (mem s') (tss + 8) = 2 * 8 /\
  (forall x, x < address (gdtr s) + 40 \/ address (gdtr s) + 80 <= x ->
     x < address (idtr s') \/ address (idtr s') + 0x4a0 <= x -> x < tss \/ tss + TSS_SIZE <= x -> mem s' x = mem s x).
Proof.
  intros Hl He Hs s'. assert (s' = Cpu _ _ _ _ _) as -> by exact (init_eq tss entry sysh s Hl).
  unfold gate_of, segment_of. cbn [mem idtr gdtr tr address].
  destruct (tss_ok tss entry sysh s Hl) as (T1 & T2 & T3 & _).
  split. { intros v Hv. rewrite (gates_ok tss entry sysh s Hl He Hs v) by (by left). by rewrite (proj2 (Z.eqb_neq v 0x93)) by lia. }
  split; [apply (gates_ok tss entry sysh s Hl He Hs 0x93); by right|].
  pose proof (segments_ok tss entry sysh s Hl He Hs) as Hg. do 4 (split; [apply Hg; lia|]).
  split; [exact T1|]. split; [exact T2|]. split; [exact T3|].
  intros x. destruct Hl. destruct lay_gdtr0 as [_ ?]. apply all_memory_frame; lia || done.
Qed.
Definition demo_cpu : cpu :=
  Cpu (fun _ => 0xff) (DescReg 0x4f 0xc0000900) (DescReg 0xffff 0x0000c000) 0 (fun _ => 0).
Lemma demo_layout : layout 0xc0010000 demo_cpu.
Proof. split; vm_compute; intuition discriminate. Qed.
Lemma init_idt_gdt_tss_fills_tables_witness :
  gate_of (init_idt_gdt_tss 0xc0010000 (fun v => 0xc0100000 + 32 * v) 0xc0200000 demo_cpu) 0x21 = interrupt_gate 0 0xc0100420.
Proof.
  apply (init_idt_gdt_tss_fills_tables 0xc0010000 (fun v => 0xc0100000 + 32 * v) 0xc0200000 demo_cpu demo_layout); lia.
Defined.

(** ** What the code does not do *)
(** Programs run with input/output privilege 0, and may use a port when its bit
    in the bitmap of the task state segment is 0.  The bitmap begins at offset
    0, so that the segment itself is taken for it: the ports from 0x60 to
    0x2ff, the keyboard's and the disk's among them, are open. *)
Definition program_may_use (m : Z -> Z) (tss tss_limit port : Z) : bool :=
  let at_ := m (tss + 102) + 2 ^ 8 * m (tss + 103) + port / 8 in
  (at_ + 1 <=? tss_limit) && negb (Z.testbit (m (tss + at_)) (port mod 8)).
Lemma ports_are_open (tss : Z) (entry : Z -> Z) (sysh : Z) (s : cpu) port :
  layout tss s -> 0x60 <= port < 0x300 -> program_may_use (mem (init_idt_gdt_tss tss entry sysh s)) tss TSS_SIZE port = true.
Proof.
  intros Hl Hp. rewrite (init_eq tss entry sysh s Hl). cbn [mem]. destruct (tss_ok tss entry sysh s Hl) as (_ & _ & _ & Hz).
  unfold program_may_use. unfold TSS_SIZE in *. rewrite !Hz by divs. rewrite Z.mul_0_r, !Z.add_0_l.
  rewrite Z.testbit_0_l. rewrite andb_true_r. apply Z.leb_le. divs.
Qed.
