(* ===== verification/Process.v ===== *)
(** * Process: threads and processes come and go (core/thread/threads.c,
    process.c, fork.c, exit.c)

    The state puts the components together: the kernel state of Kernel.v, the
    memory of Paging.v, the files of Fs.v.  The calls on memory and files work
    on the page directory, the map of user pages and the descriptors of the
    thread that runs ([memory_of], [files_of]).

    A call that waits for a lock returns [None]: its thread was put on the
    waiting list and the processor was given away.  [sys_wait] and [sys_exit]
    end where the thread gives up the processor; [sys_wait] begins its loop
    anew when it runs again. *)
From S2P Require Import Prelude Descriptor Lists Bitmap Kernel Locks Malloc Paging Fs FsInode FsFile FsDev FsCalls.

Definition DEFAULT_PRIORITY : Z := 30.
Definition TASK_NAME_LEN : Z := 16.
Definition USER_VADDR_START : Z := 0x08000000.
Definition DIV_ROUND_UP (n d : Z) : Z := (n + d - 1) / d.
Definition PAGE : Z := 4096.
(** [struct context_registers] and [struct thread_stack]. *)
Definition sizeof_context : Z := 76.
Definition sizeof_thread_stack : Z := 32.

(** What [TCB_t] holds for memory, files and the stack; [vbits] is the address
    of the bytes of the map of user pages. *)
Record proc := Proc {
  name : list Z; self_kstack : Z;
  vmap : virtual_addr; vbits : Z;
  fds : list Z; cwd_inode_nr : Z }.
Definition set_name v p := Proc v (self_kstack p) (vmap p) (vbits p) (fds p) (cwd_inode_nr p).
Definition set_kstack v p := Proc (name p) v (vmap p) (vbits p) (fds p) (cwd_inode_nr p).
Definition set_vmap v p := Proc (name p) (self_kstack p) v (vbits p) (fds p) (cwd_inode_nr p).
Definition set_vbits v p := Proc (name p) (self_kstack p) (vmap p) v (fds p) (cwd_inode_nr p).
Definition set_pfds v p := Proc (name p) (self_kstack p) (vmap p) (vbits p) v (cwd_inode_nr p).
Definition set_cwd v p := Proc (name p) (self_kstack p) (vmap p) (vbits p) (fds p) v.

(** [struct pid_pool], without its lock. *)
Record pid_pool := Pids { pid_bm : bitmap; pid_start : Z }.

Record os := Os {
  kn : kern;
  ram : mem;                       (* its last two fields are those of [memory_of] *)
  descs : gmap Z mem_block_desc;
  procs : gmap Z proc;             (* by the address of the control block *)
  files : fs;
  pids : pid_pool;
  stacks : Z -> Z                  (* the words of the kernel stacks, by address *)
}.
Definition set_kn v s := Os v (ram s) (descs s) (procs s) (files s) (pids s) (stacks s).
Definition set_ram v s := Os (kn s) v (descs s) (procs s) (files s) (pids s) (stacks s).
Definition set_descs v s := Os (kn s) (ram s) v (procs s) (files s) (pids s) (stacks s).
Definition set_procs v s := Os (kn s) (ram s) (descs s) v (files s) (pids s) (stacks s).
Definition set_files v s := Os (kn s) (ram s) (descs s) (procs s) v (pids s) (stacks s).
Definition set_pids v s := Os (kn s) (ram s) (descs s) (procs s) (files s) v (stacks s).
Definition set_stacks v s := Os (kn s) (ram s) (descs s) (procs s) (files s) (pids s) v.

(** Addresses that the linker and core.s fix. *)
Class ProcGlobals := {
  pid_lock : Z;
  intr_exit : Z;
  kernel_thread : Z;
  start_process_entry : Z;
  start_process_ring1_entry : Z
}.

(** ** The components seen by the running thread *)
Section views.
Definition memory_of (s : os) : mem :=
  let c := current (kn s) in
  Mem (phys (ram s)) (Kernel.cr3 (kn s)) (kernel_pool (ram s)) (user_pool (ram s)) (kernel_viraddr (ram s))
      (default (progress_vaddr (ram s)) (vmap <$> procs s !! c))
      (default 0 (Kernel.pgdir <$> tasks (kn s) !! c)).
Definition set_memory (m : mem) (s : os) : os :=
  Os (Kernel.set_cr3 (Paging.cr3 m) (kn s)) m (descs s)
     (alter (set_vmap (progress_vaddr m)) (current (kn s)) (procs s)) (files s) (pids s) (stacks s).
Definition files_of (s : os) : fs :=
  Fs.set_fds (default [] (fds <$> procs s !! current (kn s))) (files s).
Definition set_files_of (f : fs) (s : os) : os :=
  Os (kn s) (ram s) (descs s) (alter (set_pfds (Fs.fd_table f)) (current (kn s)) (procs s)) f (pids s) (stacks s).
Definition on_kern {A} (c : M kern A) : M os A := zoom kn set_kn c.
Definition on_mem {A} (c : M mem A) : M os A := zoom memory_of set_memory c.
Definition on_fs {A} (c : M fs A) : M os A := zoom files_of set_files_of c.
Definition on_pids {A} (c : M bitmap A) : M os A :=
  zoom (fun s => pid_bm (pids s)) (fun b s => set_pids (Pids b (pid_start (pids s))) s) c.
Definition on_descs {A} (c : M (Malloc.heap unit) A) : M os A :=
  zoom (fun s => Malloc.Heap (kn s) tt ∅ (descs s)) (fun h s => set_descs (Malloc.descs h) (set_kn (Malloc.kn h) s)) c.
Definition proc_at (p : Z) : M os proc :=
  fun s => match procs s !! p with Some x => Ok (x, s) | None => Fault end.
Definition upd_proc (p : Z) (f : proc -> proc) : M os unit :=
  fun s => match procs s !! p with
           | Some x => Ok (tt, set_procs (<[p := f x]> (procs s)) s)
           | None => Fault end.
(** Going on with the value of a call that did not go to sleep. *)
Definition awake {A B} (m : M os (option A)) (k : A -> M os (option B)) : M os (option B) :=
  o <- m ;; match o with Some a => k a | None => ret None end.
End views.
Notation "x <~ m ;; k" := (awake m (fun x => k))
  (at level 100, m at next level, right associativity) : frog_scope.

Definition set_pgdir (v : Z) (t : TCB) : TCB :=
  Tcb (parent_pid t) (pid t) (exit_status t) (status t) (priority t) (ticks t) (elapsed_ticks t) v
      (p_message t) (p_recvfrom t) (p_sendto t) (p_flags t) (p_intr_present t)
      (p_sending_queue t) (p_next_sending t) (stack_magic t).
Definition set_pid (v : Z) (t : TCB) : TCB :=
  Tcb (parent_pid t) v (exit_status t) (status t) (priority t) (ticks t) (elapsed_ticks t) (Kernel.pgdir t)
      (p_message t) (p_recvfrom t) (p_sendto t) (p_flags t) (p_intr_present t)
      (p_sending_queue t) (p_next_sending t) (stack_magic t).
Definition set_parent (v : Z) (t : TCB) : TCB :=
  Tcb v (pid t) (exit_status t) (status t) (priority t) (ticks t) (elapsed_ticks t) (Kernel.pgdir t)
      (p_message t) (p_recvfrom t) (p_sendto t) (p_flags t) (p_intr_present t)
      (p_sending_queue t) (p_next_sending t) (stack_magic t).
Definition set_exit_status (v : Z) (t : TCB) : TCB :=
  Tcb (parent_pid t) (pid t) v (status t) (priority t) (ticks t) (elapsed_ticks t) (Kernel.pgdir t)
      (p_message t) (p_recvfrom t) (p_sendto t) (p_flags t) (p_intr_present t)
      (p_sending_queue t) (p_next_sending t) (stack_magic t).

Section processes.
Context {G : Globals} {HG : HeapGlobals} {PG : ProcGlobals} {E : FsEnv} {D : Drivers}.
(** Fuel for the searches in lists. *)
Variable fuel : nat.

(** ** Pages under the lock of their pool (core/mm/memory.c) *)
Definition fetch (l : Z) : M os (option unit) :=
  t <- on_kern (lock_fetch fuel l) ;; ret (if t : bool then Some tt else None).
Fixpoint clear_pages (n : nat) (va : Z) : M mem unit :=
  match n with
  | O => ret tt
  | S n => clear_page va ;;; clear_pages n (u32 (va + PAGE))
  end.
Definition get_kernel_page (pg_cnt : Z) : M os (option Z) :=
  _ <~ fetch (pool_lock MP_KERNEL) ;;
  vaddr <- on_mem (Paging.malloc_page MP_KERNEL pg_cnt) ;;
  (when negb (vaddr =? 0) do on_mem (clear_pages (Z.to_nat pg_cnt) vaddr)) ;;;
  on_kern (lock_release fuel (pool_lock MP_KERNEL)) ;;;
  ret (Some vaddr).
Definition get_phy_free_page_with_vaddr (poolt vaddr child_pgdir : Z) : M os (option Z) :=
  _ <~ fetch (pool_lock poolt) ;;
  page_phyaddr <- on_mem (get_free_page poolt) ;;
  if page_phyaddr =? 0 then (_ <~ fetch (pool_lock poolt) ;; ret (Some 0))
  else
    on_mem (put_page_and_flush vaddr page_phyaddr child_pgdir) ;;;
    on_kern (lock_release fuel (pool_lock poolt)) ;;;
    ret (Some vaddr).

(** ** Process numbers (core/thread/threads.c) *)
Definition init_pid_bitmap (length : Z) : M os unit :=
  modify (set_pids (Pids (Bitmap (replicate (Z.to_nat length) 0) length 0) 1)) ;;;
  on_kern (lock_init pid_lock) ;;;
  on_pids init_bitmap.
Definition allocate_pid : M os (option Z) :=
  _ <~ fetch pid_lock ;;
  base <- gets (fun s => pid_start (pids s)) ;;
  pos <- on_pids (find_block_bitmap 1) ;;
  on_pids (set_value_bitmap pos 1) ;;;
  on_kern (lock_release fuel pid_lock) ;;;
  ret (Some (u32 (base + pos))).
Definition release_pid (id : Z) : M os (option unit) :=
  _ <~ fetch pid_lock ;;
  base <- gets (fun s => pid_start (pids s)) ;;
  ASSERT (id >=? base) ;;;
  on_pids (set_value_bitmap (u32 (id - base)) 0) ;;;
  on_kern (lock_release fuel pid_lock) ;;;
  ret (Some tt).
Definition fork_pid : M os (option Z) := allocate_pid.

(** ** New threads *)
(** [memset(thread, 0, sizeof( *thread))]: the fields, and the list nodes. *)
Definition zero_tcb : TCB := Tcb 0 0 0 0 0 0 0 0 (Message 0 0 (replicate 14 0)) 0 0 0 0 0 0 0.
Definition zero_proc : proc := Proc (replicate 16 0) 0 (Vaddr (Bitmap [] 0 0) 0) 0 (replicate 32 0) 0.
Definition clear_tags (thread : Z) (h : lheap) : lheap :=
  <[all_list_tag thread := Node 0 0]> (<[general_tag thread := Node 0 0]> h).
(** The list nodes of the block descriptors. *)
Definition put_desc_nodes (thread : Z) (g : Z -> list_head) (h : lheap) : lheap :=
  foldr (fun i h => <[free_list (nth_desc (u_block_descs thread) i) := g i]> h) h (seqZ 0 DESC_CNT).
Definition clear_thread (thread : Z) : M os unit :=
  if thread =? 0 then fault
  else modify (fun s =>
    set_procs (<[thread := zero_proc]> (procs s))
      (set_kn (set_klists (put_desc_nodes thread (fun _ => Node 0 0) (clear_tags thread (klists (kn s)))) (set_tasks (<[thread := zero_tcb]> (tasks (kn s))) (kn s))) s)).
(** [strcpy] into the 16 bytes of [name]; more would go over the next fields. *)
Definition set_thread_name (thread : Z) (nm : list Z) : M os unit :=
  if (Z.of_nat (length nm) <? TASK_NAME_LEN)
  then upd_proc thread (fun p => set_name (nm ++ 0 :: drop (S (length nm)) (name p)) p)
  else fault.
Definition init_thread (thread : Z) (nm : list Z) (prio : Z) : M os (option unit) :=
  clear_thread thread ;;;
  upd_proc thread (set_pfds ([0; 1; 2] ++ replicate 29 (-1))) ;;;
  id <~ allocate_pid ;;
  on_kern (upd_tcb thread (set_pid id)) ;;;
  set_thread_name thread nm ;;;
  m <- gets (fun s => main_thread (kn s)) ;;
  on_kern (upd_tcb thread (set_status (if thread =? m then THREAD_TASK_RUNNING else THREAD_TASK_READY))) ;;;
  upd_proc thread (set_kstack (u32 (thread + PAGE))) ;;;
  on_kern (upd_tcb thread (fun t =>
    Tcb (u32 (-1)) (pid t) (exit_status t) (status t) (u8 prio) (u8 prio) 0 0
      (p_message t) (p_recvfrom t) (p_sendto t) (p_flags t) (p_intr_present t)
      (p_sending_queue t) (p_next_sending t) STACK_MAGIC)) ;;;
  upd_proc thread (set_cwd 0) ;;;
  ret (Some tt).

Definition store_word (a v : Z) : M os unit :=
  modify (fun s => set_stacks (fun x => if x =? u32 a then v else stacks s x) s).
Definition create_thread (thread func arg : Z) : M os unit :=
  upd_proc thread (fun p => set_kstack (u32 (self_kstack p - sizeof_context)) p) ;;;
  upd_proc thread (fun p => set_kstack (u32 (self_kstack p - sizeof_thread_stack)) p) ;;;
  p <- proc_at thread ;;
  let kthread_stack := self_kstack p in
  store_word kthread_stack 0 ;;;
  store_word (kthread_stack + 4) 0 ;;;
  store_word (kthread_stack + 12) 0 ;;;
  store_word (kthread_stack + 8) 0 ;;;
  store_word (kthread_stack + 16) kernel_thread ;;;
  store_word (kthread_stack + 24) func ;;;
  store_word (kthread_stack + 28) arg.

Definition add_ready (thread : Z) : M kern unit :=
  f <- list_find_element fuel (general_tag thread) thread_ready_list ;;
  ASSERT (negb f) ;;;
  list_add_tail (general_tag thread) thread_ready_list.
Definition add_all (thread : Z) : M kern unit :=
  f <- list_find_element fuel (all_list_tag thread) thread_all_list ;;
  ASSERT (negb f) ;;;
  list_add_tail (all_list_tag thread) thread_all_list.
Definition thread_start (nm : list Z) (prio func arg : Z) : M os (option Z) :=
  thread <~ get_kernel_page 1 ;;
  _ <~ init_thread thread nm prio ;;
  create_thread thread func arg ;;;
  on_kern (add_ready thread) ;;;
  on_kern (add_all thread) ;;;
  ret (Some thread).
Definition make_main_thread : M os (option unit) :=
  t <- gets (fun s => current (kn s)) ;;
  modify (fun s => let k := kn s in
    set_kn (Kern (klists k) (tasks k) (locks k) (current k) (intr k) (jiffies k) (Kernel.cr3 k) (esp0 k) (idle_thread k) t) s) ;;;
  _ <~ init_thread t [109; 97; 105; 110] 42 ;;
  on_kern (upd_tcb t (set_pid 0)) ;;;
  on_kern (add_all t) ;;;
  ret (Some tt).

(** ** New processes (core/thread/process.c) *)
Fixpoint copy_words (n : nat) (dst src : Z) : M mem unit :=
  match n with
  | O => ret tt
  | S n => v <- load src ;; store dst v ;;; copy_words n (u32 (dst + 4)) (u32 (src + 4))
  end.
Definition create_page_dir : M os (option Z) :=
  page_dir_vaddr <~ get_kernel_page 1 ;;
  if page_dir_vaddr =? 0 then ret (Some 0)
  else
    on_mem (copy_words 256 (u32 (page_dir_vaddr + 0x300 * 4)) (0xfffff000 + 0x300 * 4)) ;;;
    new_page_dir_phy_addr <- on_mem (Paging.addr_v2p page_dir_vaddr) ;;
    on_mem (store (u32 (page_dir_vaddr + 1023 * 4)) (Z.lor (Z.lor (Z.lor new_page_dir_phy_addr PG_US_U) PG_RW_W) PG_P_SET)) ;;;
    ret (Some page_dir_vaddr).
Definition user_bitmap_len : Z := DIV_ROUND_UP ((0xc0000000 - USER_VADDR_START) / PAGE) 8.
Definition create_user_vaddr_bitmap (user_prog : Z) : M os (option unit) :=
  let bitmap_len := user_bitmap_len in
  upd_proc user_prog (fun p => set_vmap (Vaddr (vaddr_bitmap (vmap p)) USER_VADDR_START) p) ;;;
  let bitmap_pg_cnt := DIV_ROUND_UP bitmap_len PAGE in
  page <~ get_kernel_page bitmap_pg_cnt ;;
  (when page =? 0 do fault) ;;;
  upd_proc user_prog (set_vbits page) ;;;
  upd_proc user_prog (fun p => set_vmap (Vaddr (Bitmap (replicate (Z.to_nat bitmap_len) 0) bitmap_len 0) (vaddr_start (vmap p))) p) ;;;
  ret (Some tt).
(** The two functions differ in the routine and in the block descriptors,
    which a process of ring 1 does not get. *)
Definition process_execute_with (routine : Z) (blocks : bool) (filename : Z) (nm : list Z) : M os (option unit) :=
  thread <~ get_kernel_page 1 ;;
  _ <~ init_thread thread nm DEFAULT_PRIORITY ;;
  _ <~ create_user_vaddr_bitmap thread ;;
  create_thread thread routine filename ;;;
  dir <~ create_page_dir ;;
  on_kern (upd_tcb thread (set_pgdir dir)) ;;;
  (when blocks do on_descs (block_desc_init (u_block_descs thread))) ;;;
  old_status <- on_kern intr_disable ;;
  on_kern (add_ready thread) ;;;
  on_kern (add_all thread) ;;;
  on_kern (intr_set_status old_status) ;;;
  ret (Some tt).
Definition process_execute : Z -> list Z -> M os (option unit) := process_execute_with start_process_entry true.
Definition process_execute_ring1 : Z -> list Z -> M os (option unit) := process_execute_with start_process_ring1_entry false.

(** What a new process does first: the frame from which [intr_exit] takes its
    registers, and a page for its stack.  The two functions differ in the
    selectors, and in what they add to [self_kstack]: the second one adds to a
    pointer to words. *)
Definition EFLAGS_RESERVED : Z := Z.shiftl 1 1.
Definition EFLAGS_IF_1 : Z := Z.shiftl 1 9.
Definition EFLAGS_IOPL_0 : Z := 0.
Definition USER_STACK3_VADDR : Z := 0xc0000000 - 0x1000.
Definition start_process_with (skip sel_data sel_code function : Z) : M os unit :=
  cur <- on_kern running_thread ;;
  upd_proc cur (fun p => set_kstack (u32 (self_kstack p + skip)) p) ;;;
  p <- proc_at cur ;;
  let proc_stack := self_kstack p in
  store_word (proc_stack + 4) 0 ;;; store_word (proc_stack + 8) 0 ;;; store_word (proc_stack + 12) 0 ;;; store_word (proc_stack + 16) 0 ;;;
  store_word (proc_stack + 32) 0 ;;; store_word (proc_stack + 20) 0 ;;; store_word (proc_stack + 28) 0 ;;; store_word (proc_stack + 24) 0 ;;;
  store_word (proc_stack + 36) 0 ;;;
  store_word (proc_stack + 48) sel_data ;;; store_word (proc_stack + 44) sel_data ;;; store_word (proc_stack + 40) sel_data ;;;
  store_word (proc_stack + 60) sel_code ;;;
  store_word (proc_stack + 56) function ;;;
  store_word (proc_stack + 64) (Z.lor (Z.lor EFLAGS_IOPL_0 EFLAGS_IF_1) EFLAGS_RESERVED) ;;;
  page <- on_mem (malloc_page_with_vaddr MP_USER USER_STACK3_VADDR) ;;
  store_word (proc_stack + 68) (u32 (page + PAGE)) ;;;
  store_word (proc_stack + 72) sel_data.
Definition start_process : Z -> M os unit :=
  start_process_with sizeof_thread_stack
    (CREATE_SELECTOR SEL_IDX_DATA_DPL_3 TI_GDT RPL3) (CREATE_SELECTOR SEL_IDX_CODE_DPL_3 TI_GDT RPL3).
Definition start_process_ring1 : Z -> M os unit :=
  start_process_with (4 * sizeof_thread_stack)
    (CREATE_SELECTOR SEL_IDX_DATA_DPL_1 TI_GDT RPL1) (CREATE_SELECTOR SEL_IDX_CODE_DPL_1 TI_GDT RPL1).

(** ** The end of a thread (core/thread/threads.c) *)
(** The page of the control block is given back before its pid is read; the
    block still reads as it was ([mfree_page] changes no byte of it, and the
    processor goes on using the translation it knows).  With [need_schedule]
    the call ends at the switch. *)
Definition thread_exit (discard_thread : Z) (need_schedule : bool) : M os (option unit) :=
  on_kern intr_disable ;;;
  on_kern (upd_tcb discard_thread (set_status THREAD_TASK_DIED)) ;;;
  let discard_node := general_tag discard_thread in
  f <- on_kern (list_find_element fuel discard_node thread_ready_list) ;;
  (when (f : bool) do on_kern (list_del_init discard_node)) ;;;
  t <- on_kern (tcb discard_thread) ;;
  (when negb (Kernel.pgdir t =? 0) do on_mem (Paging.mfree_page MP_KERNEL (Kernel.pgdir t) 1)) ;;;
  on_kern (list_del_init (all_list_tag discard_thread)) ;;;
  m <- gets (fun s => main_thread (kn s)) ;;
  (when negb (discard_thread =? m) do on_mem (Paging.mfree_page MP_KERNEL discard_thread 1)) ;;;
  t <- on_kern (tcb discard_thread) ;;
  _ <~ release_pid (pid t) ;;
  (when need_schedule do on_kern (schedule fuel)) ;;;
  ret (Some tt).

(** ** Exit and wait (core/thread/exit.c) *)
(** Frees the frames of a page table, [n] entries from [pte_p] on. *)
Fixpoint free_table (n : nat) (pte_p : Z) : M mem unit :=
  match n with
  | O => ret tt
  | S n =>
      pte <- load pte_p ;;
      (when negb (Z.land pte 1 =? 0) do free_phy_page (Z.land pte 0xfffff000)) ;;;
      free_table n (u32 (pte_p + 4))
  end.
Fixpoint free_directory (n : nat) (dir pde_idx : Z) : M mem unit :=
  match n with
  | O => ret tt
  | S n =>
      pde <- load (u32 (dir + 4 * pde_idx)) ;;
      (when negb (Z.land pde 1 =? 0) do
         (free_table 1024 (pte_ptr (u32 (pde_idx * 0x400000))) ;;;
          free_phy_page (Z.land pde 0xfffff000))) ;;;
      free_directory n dir (pde_idx + 1)
  end.
(** The inode of a slot of the file table, here the address of a pipe. *)
Definition slot_inode (idx : Z) : M fs Z := f <- file_at idx ;; ret (fd_inode f).
Fixpoint close_fds (n : nat) (thread fd_idx : Z) : M os unit :=
  match n with
  | O => ret tt
  | S n =>
      p <- proc_at thread ;;
      fd <- (match fds p !! Z.to_nat fd_idx with Some v => ret v | None => fault end) ;;
      (when negb (fd =? -1) do
         (pipe <- on_fs (is_pipe fd_idx) ;;
          if pipe : bool then
            global_fd <- on_fs (fd_local2global fd_idx) ;;
            on_fs (set_slot global_fd (fun f => File (u32 (fd_pos f - 1)) (fd_flag f) (fd_inode f))) ;;;
            f <- on_fs (file_at global_fd) ;;
            when fd_pos f =? 0 do
              (a <- on_fs (slot_inode fd_idx) ;;
               on_mem (Paging.mfree_page MP_KERNEL a 1) ;;;
               on_fs (set_slot global_fd (fun f => File (fd_pos f) (fd_flag f) 0)))
          else (on_fs (sys_close fd_idx) ;;; ret tt))) ;;;
      close_fds n thread (fd_idx + 1)
  end.
Definition release_proc_resource (thread : Z) : M os unit :=
  t <- on_kern (tcb thread) ;;
  on_mem (free_directory 768 (Kernel.pgdir t) 0) ;;;
  p <- proc_at thread ;;
  let bitmap_len := map_bytes_length (vaddr_bitmap (vmap p)) in
  let bitmap_pg_cnt := DIV_ROUND_UP bitmap_len PAGE in
  on_mem (Paging.mfree_page MP_KERNEL (vbits p) bitmap_pg_cnt) ;;;
  close_fds (Z.to_nat MAX_FILES_OPEN_PER_PROC) thread 0.

(** The callbacks of [list_walker]. *)
Definition find_child (ele ppid : Z) : M kern bool :=
  cur <- tcb (of_all_list_tag ele) ;;
  ret (parent_pid cur =? ppid).
Definition find_hanging_child (ele ppid : Z) : M kern bool :=
  cur <- tcb (of_all_list_tag ele) ;;
  ret ((parent_pid cur =? ppid) && (status cur =? THREAD_TASK_HANGING)).
Definition proc_init_adopt_a_child (ele id : Z) : M kern bool :=
  cur <- tcb (of_all_list_tag ele) ;;
  (when parent_pid cur =? id do upd_tcb (of_all_list_tag ele) (set_parent 1)) ;;;
  ret false.

(** What became of a round of [sys_wait]: it returned a pid (and a status, if
    there was one), or blocked, to go round again when it runs. *)
Inductive wait_result :=
| Returned (child : Z) (exit_code : option Z)
| Waiting (old_int_status : bool).
Definition sys_wait : M os (option wait_result) :=
  parent <- on_kern running_thread ;;
  p <- on_kern (tcb parent) ;;
  child_node <- on_kern (list_walker fuel thread_all_list find_hanging_child (pid p)) ;;
  if negb (child_node =? 0) then
    let child := of_all_list_tag child_node in
    c <- on_kern (tcb child) ;;
    let child_pid := pid c in
    _ <~ thread_exit child false ;;
    ret (Some (Returned child_pid (Some (exit_status c))))
  else
    child_node <- on_kern (list_walker fuel thread_all_list find_child (pid p)) ;;
    if child_node =? 0 then ret (Some (Returned (u32 (-1)) None))
    else
      old <- on_kern (thread_block fuel THREAD_TASK_WAITING) ;;
      ret (Some (Waiting old)).

Definition sys_exit (code : Z) : M os unit :=
  child <- on_kern running_thread ;;
  on_kern (upd_tcb child (set_exit_status code)) ;;;
  c <- on_kern (tcb child) ;;
  (when parent_pid c =? u32 (-1) do panic) ;;;
  on_kern (list_walker fuel thread_all_list proc_init_adopt_a_child (pid c)) ;;;
  release_proc_resource child ;;;
  c <- on_kern (tcb child) ;;
  parent <- on_kern (pid2thread fuel (parent_pid c)) ;;
  p <- on_kern (tcb parent) ;;
  (when status p =? THREAD_TASK_WAITING do on_kern (thread_unblock fuel parent)) ;;;
  on_kern (thread_block fuel THREAD_TASK_HANGING) ;;;
  ret tt.

(** ** Fork (core/thread/fork.c); a failure is -1 *)
Definition FAILED : Z := u32 (-1).
(** [memcpy(child, parent, PG_SIZE)]: the fields, the list nodes and the stack. *)
Definition copy_thread (child parent : Z) : M os unit :=
  t <- on_kern (tcb parent) ;;
  p <- proc_at parent ;;
  modify (fun s => let h := klists (kn s) in
    let h := <[general_tag child := default (Node 0 0) (h !! general_tag parent)]> h in
    let h := <[all_list_tag child := default (Node 0 0) (h !! all_list_tag parent)]> h in
    let h := put_desc_nodes child (fun i => default (Node 0 0) (h !! free_list (nth_desc (u_block_descs parent) i))) h in
    set_stacks (fun a => if (child <=? a) && (a <? child + PAGE) then stacks s (parent + (a - child)) else stacks s a)
      (set_procs (<[child := p]> (procs s)) (set_kn (set_klists h (set_tasks (<[child := t]> (tasks (kn s))) (kn s))) s))).
(** [strcat(name, "_fork")]. *)
Definition fork_name (nm : list Z) : list Z :=
  let n := Z.to_nat (name_length nm) in take n nm ++ [95; 102; 111; 114; 107; 0] ++ drop (n + 6) nm.
Definition copy_tcb_vaddrbitmap_stack0 (child_thread parent_thread : Z) : M os (option Z) :=
  copy_thread child_thread parent_thread ;;;
  id <~ fork_pid ;;
  pt <- on_kern (tcb parent_thread) ;;
  on_kern (upd_tcb child_thread (fun t =>
    Tcb (pid pt) id (exit_status t) THREAD_TASK_READY (priority t) (priority t) 0 (Kernel.pgdir t)
      (p_message t) (p_recvfrom t) (p_sendto t) (p_flags t) (p_intr_present t)
      (p_sending_queue t) (p_next_sending t) (stack_magic t))) ;;;
  modify (fun s => set_kn (set_klists (clear_tags child_thread (klists (kn s))) (kn s)) s) ;;;
  on_descs (block_desc_init (u_block_descs child_thread)) ;;;
  let bitmap_len := user_bitmap_len in
  let bitmap_pg_cnt := DIV_ROUND_UP bitmap_len PAGE in
  vaddr_btmp <~ get_kernel_page bitmap_pg_cnt ;;
  if vaddr_btmp =? 0 then ret (Some FAILED)
  else
    upd_proc child_thread (set_vbits vaddr_btmp) ;;;
    p <- proc_at child_thread ;;
    ASSERT (name_length (name p) <? 11) ;;;
    upd_proc child_thread (fun p => set_name (fork_name (name p)) p) ;;;
    ret (Some 0).

(** [memcpy] of a page. *)
Definition copy_page (dst src : Z) : M mem unit := copy_words 1024 dst src.
(** The pages of the bits [idx_bit], ... of a byte of the map. *)
Fixpoint copy_bits (n : nat) (byte idx_byte idx_bit start buf_page child_dir parent_dir : Z) : M os (option unit) :=
  match n with
  | O => ret (Some tt)
  | S n =>
      if negb (Z.land (Z.shiftl FULL_MASK idx_bit) byte =? 0) then
        let prog_vaddr := u32 ((idx_byte * 8 + idx_bit) * PAGE + start) in
        on_mem (copy_page buf_page prog_vaddr) ;;;
        on_mem (flush_cr3 child_dir) ;;;
        _ <~ get_phy_free_page_with_vaddr MP_USER prog_vaddr child_dir ;;
        on_mem (copy_page prog_vaddr buf_page) ;;;
        on_mem (flush_cr3 parent_dir) ;;;
        copy_bits n byte idx_byte (idx_bit + 1) start buf_page child_dir parent_dir
      else copy_bits n byte idx_byte (idx_bit + 1) start buf_page child_dir parent_dir
  end.
Fixpoint copy_bytes (l : list Z) (idx_byte start buf_page child_dir parent_dir : Z) : M os (option unit) :=
  match l with
  | [] => ret (Some tt)
  | byte :: l =>
      _ <~ (if negb (byte =? 0) then copy_bits 8 byte idx_byte 0 start buf_page child_dir parent_dir else ret (Some tt)) ;;
      copy_bytes l (idx_byte + 1) start buf_page child_dir parent_dir
  end.
Definition copy_body_stack3 (child_thread parent_thread buf_page : Z) : M os (option unit) :=
  p <- proc_at parent_thread ;;
  pt <- on_kern (tcb parent_thread) ;;
  ct <- on_kern (tcb child_thread) ;;
  let bm := vaddr_bitmap (vmap p) in
  copy_bytes (take (Z.to_nat (map_bytes_length bm)) (bits bm)) 0 (vaddr_start (vmap p)) buf_page
    (Kernel.pgdir ct) (Kernel.pgdir pt).

Definition build_child_stack (child_thread : Z) : M os unit :=
  let intr_0_stack := u32 (child_thread + PAGE - sizeof_context) in
  store_word (intr_0_stack + 32) 0 ;;;
  store_word (intr_0_stack - 4) intr_exit ;;;
  upd_proc child_thread (set_kstack (u32 (intr_0_stack - 20))).

(** [l] is the rest of the descriptors of the new thread. *)
Fixpoint update_inode_open_cnts (l : list Z) (local_fd : Z) : M fs unit :=
  match l with
  | [] => ret tt
  | global_fd :: l =>
      ASSERT (global_fd <? MAX_FILE_OPEN) ;;;
      (when negb (global_fd =? -1) do
         (pipe <- is_pipe local_fd ;;
          if pipe : bool then set_slot global_fd (fun f => File (u32 (fd_pos f + 1)) (fd_flag f) (fd_inode f))
          else (f <- file_at global_fd ;; upd_inode (fd_inode f) (fun i => set_count (u32 (i_count i + 1)) i)))) ;;;
      update_inode_open_cnts l (local_fd + 1)
  end.

Definition copy_process (child_thread parent_thread : Z) : M os (option Z) :=
  buf_page <~ get_kernel_page 1 ;;
  if buf_page =? 0 then ret (Some FAILED)
  else
    r <~ copy_tcb_vaddrbitmap_stack0 child_thread parent_thread ;;
    if r =? FAILED then ret (Some FAILED)
    else
      dir <~ create_page_dir ;;
      on_kern (upd_tcb child_thread (set_pgdir dir)) ;;;
      if dir =? 0 then ret (Some FAILED)
      else
        _ <~ copy_body_stack3 child_thread parent_thread buf_page ;;
        build_child_stack child_thread ;;;
        p <- proc_at child_thread ;;
        on_fs (update_inode_open_cnts (drop 3 (fds p)) 3) ;;;
        on_mem (Paging.mfree_page MP_KERNEL buf_page 1) ;;;
        ret (Some 0).
Definition sys_fork : M os (option Z) :=
  parent_thread <- on_kern running_thread ;;
  child_thread <~ get_kernel_page 1 ;;
  if child_thread =? 0 then ret (Some FAILED)
  else
    i <- on_kern intr_get_status ;;
    pt <- on_kern (tcb parent_thread) ;;
    ASSERT (negb i && negb (Kernel.pgdir pt =? 0)) ;;;
    r <~ copy_process child_thread parent_thread ;;
    if r =? FAILED then ret (Some FAILED)
    else
      on_kern (add_all child_thread) ;;;
      on_kern (add_ready child_thread) ;;;
      c <- on_kern (tcb child_thread) ;;
      ret (Some (pid c)).
End processes.
