(* ===== verification/ProcessProofs.v ===== *)
(** * ProcessProofs: what exit and wait do to the threads

    All threads are on [thread_all_list], linked by another node than the one
    that the queues use; the searches go through it in order. *)
From S2P Require Import Prelude Lists ListProofs Bitmap Kernel Queues Sched Locks Malloc Paging.
From S2P Require Import Fs FsInode FsFile FsDev FsCalls Process.

(** ** The list of all threads *)
Definition tcb_test (k : kern) (f : TCB -> bool) (t : Z) : bool :=
  match tasks k !! t with Some b => f b | None => false end.
(** The first thread in order that passes a test. *)
Definition first_with (k : kern) (all : list Z) (f : TCB -> bool) : option Z := List.find (tcb_test k f) all.

(** Everything that the threads of a kernel state keep to: [Q] are the queues,
    [rq] is the ready one, [all] are the threads there are. *)
Record people `{Globals} (k : kern) (Q : queue_map) (rq all : list Z) : Prop := {
  pp_queues : queues (klists k) (alive k) Q;
  pp_ready : rl Q rq;
  pp_all : dll (klists k) thread_all_list (all_list_tag <$> all);
  pp_alive : forall t, t ∈ all -> alive k t;
  pp_page : forall t, alive k t -> t mod 4096 = 0 /\ 0 < t;
  pp_tag : forall a xs t, Q !! a = Some xs -> t ∈ all -> a <> all_list_tag t;
  pp_head : Q !! thread_all_list = None;
  pp_head_tag : forall t, alive k t -> thread_all_list <> general_tag t
}.

Section all_threads.
Context `{Globals}.
Implicit Types (k : kern) (Q : queue_map) (rq all : list Z).

Lemma of_all_tag t : of_all_list_tag (all_list_tag t) = t.
Proof. unfold of_all_list_tag, all_list_tag. lia. Qed.
Lemma all_tag_inj t u : all_list_tag t = all_list_tag u -> t = u.
Proof. unfold all_list_tag. lia. Qed.
Lemma elem_all_tags t all : all_list_tag t ∈ all_list_tag <$> all <-> t ∈ all.
Proof.
  rewrite list_elem_of_fmap. split; [intros (u & E%all_tag_inj & Hu); by subst|]. intros. by exists t.
Qed.
Lemma first_with_in k all f t : first_with k all f = Some t -> t ∈ all /\ exists b, tasks k !! t = Some b /\ f b = true.
Proof.
  intros [Hin Ht]%List.find_some. split; [by apply list_elem_of_In|]. unfold tcb_test in Ht.
  destruct (tasks k !! t) as [b|]; [by exists b|done].
Qed.
Lemma find_all_tags k all f :
  List.find (fun p => tcb_test k f (of_all_list_tag p)) (all_list_tag <$> all) = all_list_tag <$> first_with k all f.
Proof.
  induction all as [|t all IH]; [done|]. unfold first_with in *. cbn [fmap list_fmap List.find]. rewrite of_all_tag.
  by destruct (tcb_test k f t).
Qed.

(** A search that only looks. *)
Lemma walk_all fuel k all (func : Z -> Z -> M kern bool) value f :
  dll (klists k) thread_all_list (all_list_tag <$> all) -> (forall t, t ∈ all -> alive k t) ->
  (forall t b, tasks k !! t = Some b -> func (all_list_tag t) value k = Ok (f b, k)) -> (S (length all) < fuel)%nat ->
  list_walker fuel thread_all_list func value k = Ok (default 0 (all_list_tag <$> first_with k all f), k).
Proof.
  intros Hd Ha Hr Hf. rewrite <-find_all_tags. apply (list_walker_ok (H:=kern_lists)); [done| |by rewrite length_fmap].
  intros p Hp. apply list_elem_of_fmap in Hp as (t & -> & Ht). destruct (Ha t Ht) as [b Hb].
  rewrite (Hr t b Hb). unfold tcb_test. by rewrite of_all_tag, Hb.
Qed.
Lemma find_child_ok k ppid t b : tasks k !! t = Some b -> find_child (all_list_tag t) ppid k = Ok (parent_pid b =? ppid, k).
Proof. intros Hb. unfold find_child. rewrite of_all_tag. by erewrite tcb_bind. Qed.
Lemma find_hanging_ok k ppid t b : tasks k !! t = Some b ->
  find_hanging_child (all_list_tag t) ppid k = Ok ((parent_pid b =? ppid) && (status b =? THREAD_TASK_HANGING), k).
Proof. intros Hb. unfold find_hanging_child. rewrite of_all_tag. by erewrite tcb_bind. Qed.
Lemma pid2thread_ok fuel k all id t :
  dll (klists k) thread_all_list (all_list_tag <$> all) -> (forall t, t ∈ all -> alive k t) -> (S (length all) < fuel)%nat ->
  first_with k all (fun b => pid b =? id) = Some t -> all_list_tag t <> 0 ->
  pid2thread fuel id k = Ok (t, k).
Proof.
  intros Hd Ha Hf Hp H0. unfold pid2thread.
  assert (list_walker fuel thread_all_list find_pid id k = Ok (all_list_tag t, k)) as E.
  { rewrite (walk_all fuel k all find_pid id (fun b => pid b =? id)); [by rewrite Hp|done|done| |done].
    intros u b Hb. unfold find_pid. rewrite of_all_tag. by erewrite tcb_bind. }
  run E. rewrite (proj2 (Z.eqb_neq _ 0)) by done. by rewrite of_all_tag.
Qed.

(** The search that changes the parents of the children it meets. *)
Definition adopt (id : Z) (b : TCB) : TCB := if parent_pid b =? id then set_parent 1 b else b.
Definition adopted (id : Z) (all : list Z) (m : gmap Z TCB) : gmap Z TCB := foldl (fun m t => alter (adopt id) t m) m all.
Lemma adopted_lookup id all m t : NoDup all ->
  adopted id all m !! t = if decide (t ∈ all) then adopt id <$> m !! t else m !! t.
Proof.
  revert m. induction all as [|u all IH]; intros m [Hu Hn]%list.NoDup_cons || intros m _; cbn [adopted foldl];
    [by rewrite decide_False by apply not_elem_of_nil|].
  unfold adopted in IH. rewrite IH by done. destruct (decide (t ∈ all)) as [Ht|Ht].
  - rewrite decide_True by (by right). rewrite lookup_alter_ne; [done|]. intros ->. done.
  - destruct (decide (t = u)) as [->|Hne].
    + by rewrite lookup_alter_eq, decide_True by (by left).
    + rewrite lookup_alter_ne by done. rewrite decide_False; [done|]. intros [->|?]%list.elem_of_cons; done.
Qed.

Lemma adopt_step k id t b : tasks k !! t = Some b ->
  proc_init_adopt_a_child (all_list_tag t) id k = Ok (false, set_tasks (alter (adopt id) t (tasks k)) k).
Proof.
  intros Hb. unfold proc_init_adopt_a_child. rewrite of_all_tag. erewrite tcb_bind by done. unfold adopt.
  assert (forall f, alter f t (tasks k) = <[t := f b]> (tasks k)) as Halt.
  { intros f. apply map_eq. intros u. destruct (decide (u = t)) as [->|]; [by rewrite lookup_alter_eq, Hb, lookup_insert_eq|].
    by rewrite lookup_alter_ne, lookup_insert_ne. }
  rewrite Halt. destruct (parent_pid b =? id); [by run (upd_tcb_ok k t b (set_parent 1) Hb)|].
  rets. rewrite insert_id by done. by destruct k.
Qed.
Lemma adopt_loop fuel k id ys y :
  seg (klists k) (all_list_tag y) (all_list_tag <$> ys) thread_all_list ->
  thread_all_list ∉ all_list_tag <$> y :: ys -> (forall t, t ∈ y :: ys -> alive k t) -> (S (length ys) < fuel)%nat ->
  walk_loop fuel get_next thread_all_list proc_init_adopt_a_child id (all_list_tag y) k
    = Ok (0, set_tasks (adopted id (y :: ys) (tasks k)) k).
Proof.
  revert y k fuel. induction ys as [|z ys IH]; intros y k [|fuel] Hs Hh Ha Hf; cbn [length] in Hf; try lia; cbn [walk_loop];
    rewrite fmap_cons in Hh; (rewrite (proj2 (Z.eqb_neq _ thread_all_list)) by set_solver);
    destruct (Ha y ltac:(by left)) as [b Hb]; run (adopt_step k id y b Hb); set (k1 := set_tasks _ k).
  - destruct Hs as [Hy _]. assert (get_next (all_list_tag y) k1 = Ok (thread_all_list, k1)) as E1.
    { by apply (get_next_ok (S:=kern)). }
    run E1. destruct fuel; [lia|]. cbn [walk_loop]. by rewrite Z.eqb_refl.
  - rewrite fmap_cons in Hs. destruct Hs as (Hy & _ & Hs). assert (get_next (all_list_tag y) k1 = Ok (all_list_tag z, k1)) as E1.
    { by apply (get_next_ok (S:=kern)). }
    run E1. rewrite (IH z k1); [done|done|set_solver| |lia].
    intros t Ht. destruct (Ha t ltac:(by right)) as [c Hc]. unfold alive, k1. cbn [tasks set_tasks].
    destruct (decide (t = y)) as [->|]; [rewrite lookup_alter_eq, Hc; by eexists|rewrite lookup_alter_ne by done; by eexists].
Qed.
Lemma adopt_all fuel k id all :
  dll (klists k) thread_all_list (all_list_tag <$> all) -> (forall t, t ∈ all -> alive k t) -> (S (length all) < fuel)%nat ->
  list_walker fuel thread_all_list proc_init_adopt_a_child id k = Ok (0, set_tasks (adopted id all (tasks k)) k).
Proof.
  intros Hd Ha Hf. unfold list_walker. run (list_is_empty_ok (H:=kern_lists) k _ _ Hd).
  destruct all as [|y ys]; [by destruct k|]. rewrite bool_decide_false by done. destruct Hd as [Hs Hn].
  rewrite fmap_cons in Hs, Hn. destruct Hs as (Hy & _ & Hs). 
  assert (get_next thread_all_list k = Ok (all_list_tag y, k)) as E1 by (by apply (get_next_ok (S:=kern))). run E1.
  apply adopt_loop; [done| |done|cbn in Hf; lia]. by apply list.NoDup_cons in Hn as [? _].
Qed.

(** A thread that is not on the ready list is off it after [people] changes
    somewhere else; what keeps [people]. *)
Lemma people_tasks k Q rq all m :
  (forall t, is_Some (m !! t) <-> alive k t) -> people k Q rq all -> people (set_tasks m k) Q rq all.
Proof.
  intros Hm []. assert (forall t, alive (set_tasks m k) t <-> alive k t) as Ha by done.
  split; try done.
  - eapply queues_ext; [|done]. intros t. by rewrite Ha.
  - intros t. rewrite Ha. auto.
  - intros t. rewrite Ha. auto.
  - intros t. rewrite Ha. auto.
Qed.
Lemma adopted_alive k id all t : NoDup all -> is_Some (adopted id all (tasks k) !! t) <-> alive k t.
Proof.
  intros Hn. rewrite adopted_lookup by done. unfold alive. case_decide; [|done].
  destruct (tasks k !! t); split; intros [? ?]; try done; by eexists.
Qed.
Lemma all_nodup k all : dll (klists k) thread_all_list (all_list_tag <$> all) -> NoDup all.
Proof. intros [_ [_ Hn]%list.NoDup_cons]. by apply NoDup_fmap_1 in Hn. Qed.

(** A change of the ready queue leaves the list of all threads alone. *)
Lemma all_tag_page t u : t mod 4096 = 0 -> u mod 4096 = 0 -> all_list_tag t <> general_tag u.
Proof. unfold all_list_tag, general_tag. intros Ht Hu E. Z.div_mod_to_equations. lia. Qed.
Lemma people_frame k k' Q rq rq' all :
  people k Q rq all -> (forall t, alive k' t <-> alive k t) ->
  queues (klists k') (alive k) (<[thread_ready_list := rq']> Q) ->
  queue_frame thread_ready_list (alive k) (klists k) (klists k') ->
  people k' (<[thread_ready_list := rq']> Q) rq' all.
Proof.
  intros [Hq Hr Hd Ha Hp Ht Hh Hg] Hal Hq' [Hf _]. unfold rl in *.
  assert (thread_ready_list <> thread_all_list) as Hne by (intros E; rewrite E in Hr; congruence).
  split.
  - eapply queues_ext; [|done]. intros t. by rewrite Hal.
  - apply lookup_insert_eq.
  - eapply dll_frame; [done|]. intros p [->|Hin]%list.elem_of_cons; apply Hf.
    + done.
    + intros t Hat. by apply Hg.
    + apply list_elem_of_fmap in Hin as (t & -> & Hin). apply not_eq_sym. by eapply Ht.
    + apply list_elem_of_fmap in Hin as (t & -> & Hin). intros u Hu.
      apply all_tag_page; [apply Hp; by apply Ha|by apply Hp].
  - intros t Hin. apply Hal. auto.
  - intros t Hat%Hal. auto.
  - intros a xs t. rewrite lookup_insert. case_decide; [subst; intros _; by eapply Ht|by apply Ht].
  - by rewrite lookup_insert_ne.
  - intros t Hat%Hal. auto.
Qed.
Lemma people_switched k ts Q rq next rest all k' :
  people k Q rq all -> (forall t, is_Some (ts !! t) <-> alive k t) -> switched k ts Q next rest k' ->
  people k' (<[thread_ready_list := rest]> Q) rest all.
Proof.
  intros Hp Hts [(n & Hn & Ht & _) Hc Hl Hi Hj Hid Hm Hq Ho Hf].
  assert (queue_frame thread_ready_list (alive k) (klists k) (klists k')) as Hfr.
  { apply (queue_frame_of _ _ _ _ (next :: rest)); [done|]. intros t [->|Hin]%list.elem_of_cons; [apply Hts; by eexists|].
    eapply (q_in _ _ _ Hq); [apply lookup_insert_eq|done]. }
  eapply people_frame; [done| |done|done].
  intros t. rewrite <-Hts. unfold alive. rewrite Ht, lookup_insert. case_decide; [subst; rewrite Hn; split; by eexists|done].
Qed.
Lemma people_unblock fuel k Q rq all t b :
  people k Q rq all -> sleeping k Q t b -> (length rq < fuel)%nat ->
  exists h', thread_unblock fuel t k = Ok (tt, set_tasks (<[t := set_status THREAD_TASK_READY b]> (tasks k)) (set_klists h' k)) /\
    people (set_tasks (<[t := set_status THREAD_TASK_READY b]> (tasks k)) (set_klists h' k)) (<[thread_ready_list := t :: rq]> Q) (t :: rq) all.
Proof.
  intros Hp Hs Hf. destruct (thread_unblock_framed fuel k (alive k) Q rq t b) as (h' & E & Hq & Hfr); [by apply Hp|done|by apply Hp|done..|].
  exists h'. split; [done|]. eapply people_frame; [done| |done|].
  2:{ apply (queue_frame_of _ _ _ _ (t :: rq)); [done|]. intros u [->|Hin]%list.elem_of_cons; [destruct Hs; by eexists|].
      eapply (q_in _ _ _ (pp_queues _ _ _ _ Hp)); [apply Hp|done]. }
  intros u. apply (alive_insert (set_klists h' k)). destruct Hs as [Hb _ _]. by eexists.
Qed.
(** The running thread blocks, with somebody in line. *)
Lemma people_block fuel k Q next rest all b st :
  people k Q (next :: rest) all -> tasks k !! current k = Some b -> blocking st = true -> (S (length rest) < fuel)%nat ->
  exists k', thread_block fuel st k = Ok (intr k, k') /\ current k' = next /\ intr k' = false /\ locks k' = locks k /\
    idle_thread k' = idle_thread k /\ main_thread k' = main_thread k /\
    people k' (<[thread_ready_list := rest]> Q) rest all /\ off_queues (<[thread_ready_list := rest]> Q) next /\
    exists t, <[current k := set_status st b]> (tasks k) !! next = Some t /\
      tasks k' = <[next := set_status THREAD_TASK_RUNNING t]> (<[current k := set_status st b]> (tasks k)).
Proof.
  intros Hp Hb Hst Hf. set (k1 := set_tasks (<[current k := set_status st b]> (tasks k)) (set_intr false k)).
  assert (forall t, alive k1 t <-> alive k t) as Ha by (intros t; apply (alive_insert (set_intr false k)); by eexists).
  assert (people k1 Q (next :: rest) all) as Hp1.
  { apply (people_tasks (set_intr false k)); [exact Ha|]. destruct Hp. by split. }
  pose proof (schedule_blocked_ok fuel k1 Q (next :: rest) (set_status st b)) as Hs.
  destruct Hs as (k' & E & Hsw); [by apply Hp1|by apply Hp1|by apply lookup_insert_eq|done|done| |].
  { intros t Ht. destruct (pp_page _ _ _ _ Hp1 t Ht). lia. }
  exists k'. split.
  { unfold thread_block. pass. run (intr_disable_ok k). unfold running_thread. rewrite gets_bind.
    run (upd_tcb_ok (set_intr false k) (current k) b (set_status st)); [|done]. fold k1. run E. done. }
  pose proof Hsw as [(n & Hn & Ht & _) Hc Hl Hi Hj Hid Hm Hq Ho Hfr].
  split_and!; try done; [|by exists n].
  by eapply people_switched.
Qed.
End all_threads.

(** ** Calls that leave the threads alone *)
Definition keeps_threads {A} (c : M os A) : Prop :=
  forall s a s', c s = Ok (a, s') -> kn s' = Kernel.set_cr3 (Kernel.cr3 (kn s')) (kn s).

Section keeping.
Lemma on_kern_run {A} (c : M kern A) s a k' : c (kn s) = Ok (a, k') -> on_kern c s = Ok (a, set_kn k' s).
Proof. unfold on_kern, zoom. by intros ->. Qed.
Lemma set_cr3_same k : Kernel.set_cr3 (Kernel.cr3 k) k = k.
Proof. by destruct k. Qed.
Lemma kt_bind {A B} (c : M os A) (k : A -> M os B) : keeps_threads c -> (forall a, keeps_threads (k a)) -> keeps_threads (bind c k).
Proof.
  intros Hc Hk s b s' (a & s1 & E1 & E2)%bind_inv. apply Hc in E1. apply Hk in E2. rewrite E2, E1. by destruct (kn s).
Qed.
Lemma kt_ret {A} (a : A) : keeps_threads (ret a).
Proof. intros s ? s' [= <- <-]. by rewrite set_cr3_same. Qed.
Lemma kt_fault {A} : keeps_threads (@fault os A).
Proof. by intros s ? s' ?. Qed.
Lemma kt_mem {A} (c : M mem A) : keeps_threads (on_mem c).
Proof. intros s a s' E. unfold on_mem, zoom in E. destruct (c (memory_of s)) as [[a1 m]| | |]; simplify_eq/=. done. Qed.
Lemma kt_fs {A} (c : M fs A) : keeps_threads (on_fs c).
Proof.
  intros s a s' E. unfold on_fs, zoom in E. destruct (c (files_of s)) as [[a1 m]| | |]; simplify_eq/=. by rewrite set_cr3_same.
Qed.
Lemma kt_proc p : keeps_threads (proc_at p).
Proof. intros s a s' E. unfold proc_at in E. destruct (procs s !! p); simplify_eq/=. by rewrite set_cr3_same. Qed.
Lemma kt_tcb t : keeps_threads (on_kern (tcb t)).
Proof. intros s a s' E. unfold on_kern, zoom, tcb in E. destruct (tasks (kn s) !! t); simplify_eq/=. by rewrite set_cr3_same. Qed.
Lemma kt_if {A} (b : bool) (c d : M os A) : keeps_threads c -> keeps_threads d -> keeps_threads (if b then c else d).
Proof. by destruct b. Qed.
Context {E : FsEnv} {D : Drivers}.
Lemma kt_close_fds n thread i : keeps_threads (close_fds n thread i).
Proof.
  revert i. induction n as [|n IH]; intros i; cbn [close_fds]; [apply kt_ret|].
  apply kt_bind; [apply kt_proc|intros p]. apply kt_bind; [destruct (_ !! _); [apply kt_ret|apply kt_fault]|intros fd].
  apply kt_bind; [|intros _; apply IH]. apply kt_if; [|apply kt_ret].
  apply kt_bind; [apply kt_fs|intros pipe]. apply kt_if.
  - apply kt_bind; [apply kt_fs|intros g]. apply kt_bind; [apply kt_fs|intros _]. apply kt_bind; [apply kt_fs|intros f].
    apply kt_if; [|apply kt_ret]. apply kt_bind; [apply kt_fs|intros a]. apply kt_bind; [apply kt_mem|intros _]. apply kt_fs.
  - apply kt_bind; [apply kt_fs|intros _; apply kt_ret].
Qed.
Lemma kt_release thread : keeps_threads (release_proc_resource thread).
Proof.
  apply kt_bind; [apply kt_tcb|intros t]. apply kt_bind; [apply kt_mem|intros _]. apply kt_bind; [apply kt_proc|intros p].
  cbv zeta. apply kt_bind; [apply kt_mem|intros _]. apply kt_close_fds.
Qed.
End keeping.

(** ** Memory seen by the running thread *)
Definition keeps_dir {A} (c : M mem A) : Prop := forall m a m', c m = Ok (a, m') -> Paging.pgdir m' = Paging.pgdir m.

Section memory.
Lemma kd_bind {A B} (c : M mem A) (k : A -> M mem B) : keeps_dir c -> (forall a, keeps_dir (k a)) -> keeps_dir (bind c k).
Proof. intros Hc Hk m b m' (a & m1 & E1 & E2)%bind_inv. apply Hc in E1. apply Hk in E2. congruence. Qed.
Lemma kd_ret {A} (a : A) : keeps_dir (ret a).
Proof. by intros m ? ? [= <- <-]. Qed.
Lemma kd_get : keeps_dir get.
Proof. by intros m ? ? [= <- <-]. Qed.
Lemma kd_panic {A} : keeps_dir (panic : M mem A).
Proof. by intros m ? ?. Qed.
Lemma kd_load a : keeps_dir (load a).
Proof. intros m v m' E. unfold load in E. by destruct (translate m a); simplify_eq. Qed.
Lemma kd_store a v : keeps_dir (store a v).
Proof. intros m u m' E. unfold store in E. by destruct (translate m a); simplify_eq. Qed.
Lemma kd_pool {A} pt (c : M bitmap A) : keeps_dir (on_pool pt c).
Proof.
  intros m a m' E. unfold on_pool, zoom in E. destruct (c _) as [[x b]| | |]; simplify_eq. unfold set_pool. by case_match.
Qed.
Lemma kd_kvaddr {A} (c : M bitmap A) : keeps_dir (on_kvaddr c).
Proof. intros m a m' E. unfold on_kvaddr, zoom in E. by destruct (c _) as [[x b]| | |]; simplify_eq. Qed.
Lemma kd_uvaddr {A} (c : M bitmap A) : keeps_dir (on_uvaddr c).
Proof. intros m a m' E. unfold on_uvaddr, zoom in E. by destruct (c _) as [[x b]| | |]; simplify_eq. Qed.
Lemma kd_free_vaddress pt v n : keeps_dir (free_vaddress pt v n).
Proof. apply kd_bind; [apply kd_get|intros m]. destruct (pt =? MP_KERNEL); [apply kd_kvaddr|apply kd_uvaddr]. Qed.
Lemma kd_free_page pt p : keeps_dir (free_page pt p).
Proof.
  apply kd_bind; [apply kd_get|intros m]. cbv zeta. destruct (_ <? _); [apply kd_panic|]. destruct (_ >? _); [apply kd_panic|]. apply kd_pool.
Qed.
Lemma kd_unmap n pt v : keeps_dir (unmap_pages n pt v).
Proof.
  revert v. induction n as [|n IH]; intros v; cbn [unmap_pages]; [apply kd_ret|].
  apply kd_bind; [|intros a; apply kd_bind; [apply kd_free_page|intros _; apply kd_bind; [|intros _; apply IH]]].
  - apply kd_bind; [apply kd_load|intros d]. destruct (present d); [|apply kd_panic].
    apply kd_bind; [apply kd_load|intros t]. destruct (present t); [apply kd_ret|apply kd_panic].
  - apply kd_bind; [apply kd_load|intros e; apply kd_store].
Qed.
Lemma kd_mfree_page pt v n : keeps_dir (Paging.mfree_page pt v n).
Proof. apply kd_bind; [apply kd_free_vaddress|intros _; apply kd_unmap]. Qed.

(** The memory of the running thread depends on little of the kernel state. *)
Lemma memory_of_kern s k : current k = current (kn s) -> Kernel.cr3 k = Kernel.cr3 (kn s) ->
  (Kernel.pgdir <$> tasks k !! current k) = (Kernel.pgdir <$> tasks (kn s) !! current (kn s)) ->
  memory_of (set_kn k s) = memory_of s.
Proof. intros Hc H3 Hd. unfold memory_of. cbn [kn ram procs set_kn]. by rewrite Hd, Hc, H3. Qed.
Lemma memory_of_set s m : Paging.pgdir m = Paging.pgdir (memory_of s) -> memory_of (set_memory m s) = m.
Proof.
  intros Hd. unfold memory_of, set_memory in *. cbn [kn ram procs current tasks Kernel.cr3 Kernel.set_cr3 Paging.pgdir] in *.
  destruct m as [ph c kp up kv pv d]. cbn [phys Paging.cr3 kernel_pool user_pool kernel_viraddr progress_vaddr Paging.pgdir] in *. f_equal; [|done].
  destruct (procs s !! current (kn s)) as [x|] eqn:Ex.
  - by rewrite lookup_alter_eq, Ex.
  - by rewrite lookup_alter_eq, Ex.
Qed.
Lemma on_mem_ok {A} (c : M mem A) s m a m' : memory_of s = m -> c m = Ok (a, m') -> on_mem c s = Ok (a, set_memory m' s).
Proof. intros <- E. unfold on_mem, zoom. by rewrite E. Qed.
End memory.

(** ** Giving back a pid and a thread *)
Section ending.
Context {G : Globals} {HG : HeapGlobals} {PG : ProcGlobals} {E : FsEnv} {D : Drivers}.
Implicit Types (s : os) (k : kern) (Q : queue_map) (rq all : list Z).

(** Nobody holds the lock of the pids or waits for it, and [id] is one of them. *)
Record pid_ok s Q (id : Z) : Prop := {
  po_lock : locks (kn s) !! pid_lock = Some free_lock;
  po_queue : Q !! waiting_queue pid_lock = Some [];
  po_wf : wf (pid_bm (pids s));
  po_id : pid_start (pids s) <= id < pid_start (pids s) + nbits (pid_bm (pids s))
}.
Lemma fetch_ok fuel l s : locks (kn s) !! l = Some free_lock -> current (kn s) <> 0 ->
  fetch fuel l s = Ok (Some tt, set_kn (with_lock l (held_by (current (kn s))) (kn s)) s).
Proof. intros Hl Hc. unfold fetch. by run (on_kern_run _ s _ _ (lock_fetch_now fuel l (kn s) Hl Hc)). Qed.
Lemma set_kn_self s : set_kn (kn s) s = s.
Proof. by destruct s. Qed.
Lemma release_pid_ok fuel s T Q id : queues (klists (kn s)) T Q -> current (kn s) <> 0 -> pid_ok s Q id ->
  exists b', release_pid fuel id s = Ok (Some tt, set_pids (Pids b' (pid_start (pids s))) s) /\
    wf b' /\ nbits b' = nbits (pid_bm (pids s)) /\
    forall i, 0 <= i -> used b' i = if i =? id - pid_start (pids s) then false else used (pid_bm (pids s)) i.
Proof.
  intros Hq Hc [Hl Hw Hwf Hid]. set (pos := id - pid_start (pids s)).
  destruct (set_value_ok (pid_bm (pids s)) pos false Hwf) as (b' & Eb & Hb' & Hn' & _ & Hu'); [unfold pos; lia|].
  exists b'. split; [|unfold nbits; rewrite Hn'; by split_and!].
  unfold release_pid, awake. run (fetch_ok fuel pid_lock s Hl Hc).
  set (k1 := with_lock pid_lock (held_by (current (kn s))) (kn s)). rewrite gets_bind. cbn [pids set_kn].
  pass by lia. destruct (wf_nbits _ Hwf) as [? _]. pose proof (wf_size _ Hwf). rewrite u32_small by (unfold pos in *; lia). fold pos.
  assert (on_pids (set_value_bitmap pos 0) (set_kn k1 s) = Ok (tt, set_pids (Pids b' (pid_start (pids s))) (set_kn k1 s))) as E1.
  { unfold on_pids, zoom. cbn [pids set_kn]. by rewrite Eb. }
  run E1. assert (lock_release fuel pid_lock k1 = Ok (tt, kn s)) as E2.
  { rewrite (lock_release_now fuel pid_lock (current (kn s))); [|apply with_lock_locks|by apply (q_dll _ _ _ Hq _ [])].
    unfold k1. by rewrite with_lock_twice, with_lock_back. }
  run (on_kern_run _ (set_pids (Pids b' (pid_start (pids s))) (set_kn k1 s)) _ _ E2). by destruct s.
Qed.

(** Taking a thread off the list of all threads. *)
Lemma people_remove k Q rq all xs h ys : people k Q rq all -> all = xs ++ h :: ys ->
  exists h', list_del_init (all_list_tag h) k = Ok (tt, set_klists h' k) /\
    people (set_klists h' k) Q rq (xs ++ ys).
Proof.
  intros Hp ->. pose proof Hp as [Hq Hr Hd Ha Hpg Ht Hh Hg].
  rewrite fmap_app, fmap_cons in Hd.
  destruct (list_del_init_ok (H:=kern_lists) k (all_list_tag h) thread_all_list (all_list_tag <$> xs) (all_list_tag <$> ys) Hd) as (h' & E1 & Hd' & _ & [Hu Hm]).
  exists h'. split; [exact E1|].
  assert (forall p, p <> thread_all_list -> (forall t, t ∈ xs ++ h :: ys -> p <> all_list_tag t) -> h' !! p = klists k !! p) as Hsame.
  { intros p H1 H2. apply Hu. rewrite <-fmap_cons, <-fmap_app. apply list.not_elem_of_cons. split; [done|].
    intros (t & -> & Hin)%list_elem_of_fmap. by apply (H2 t). }
  assert (forall t, t ∈ xs ++ ys -> t ∈ xs ++ h :: ys) as Hsub by set_solver.
  split; try done.
  - split.
    + intros a zs Hz. eapply dll_frame; [by apply Hq|]. intros p [->|Hp']%list.elem_of_cons; apply Hsame.
      * intros ->. congruence.
      * intros t Hin. by eapply Ht.
      * apply list_elem_of_fmap in Hp' as (u & -> & Hin). apply not_eq_sym, Hg. by eapply (q_in _ _ _ Hq).
      * apply list_elem_of_fmap in Hp' as (u & -> & Hin). intros t Hin'. apply not_eq_sym, all_tag_page.
        -- apply Hpg. by apply Ha.
        -- apply Hpg. by eapply (q_in _ _ _ Hq).
    + apply Hq.
    + apply Hq.
    + intros t Hat. apply Hm. by apply (q_node _ _ _ Hq).
    + apply Hq.
  - by rewrite fmap_app.
  - intros t Hin. apply Ha. by apply Hsub.
  - intros a zs t Hz Hin. eapply Ht; [done|]. by apply Hsub.
Qed.

(** The pages that go with a thread: its page directory and its own page. *)
Definition free_dir (dir : Z) : M mem unit := when negb (dir =? 0) do Paging.mfree_page MP_KERNEL dir 1.
Definition free_blocks (dir h : Z) : M mem unit := free_dir dir ;;; Paging.mfree_page MP_KERNEL h 1.
(** A thread that can be discarded by another one. *)
Record discardable s Q all (h : Z) (th : TCB) (m2 : mem) : Prop := {
  dc_tcb : tasks (kn s) !! h = Some th;
  dc_in : h ∈ all;
  dc_off : off_queues Q h;
  dc_other : h <> current (kn s);
  dc_main : h <> main_thread (kn s);
  dc_self : alive (kn s) (current (kn s));
  dc_blocks : free_blocks (Kernel.pgdir th) h (memory_of s) = Ok (tt, m2);
  dc_pid : pid_ok s Q (pid th)
}.
(** Another state with the same threads, but for the status of [h]. *)
Record same_but (h : Z) (th : TCB) s s' : Prop := {
  sb_tasks : tasks (kn s') = <[h := set_status THREAD_TASK_DIED th]> (tasks (kn s));
  sb_current : current (kn s') = current (kn s);
  sb_locks : locks (kn s') = locks (kn s);
  sb_main : main_thread (kn s') = main_thread (kn s);
  sb_intr : intr (kn s') = false;
  sb_pids : pids s' = pids s
}.
Lemma free_dir_ok s dir m m1 : memory_of s = m -> free_dir dir m = Ok (tt, m1) ->
  exists s', (when negb (dir =? 0) do on_mem (Paging.mfree_page MP_KERNEL dir 1)) s = Ok (tt, s') /\
    memory_of s' = m1 /\ kn s' = Kernel.set_cr3 (Kernel.cr3 (kn s')) (kn s) /\ pids s' = pids s.
Proof.
  unfold free_dir. intros <-. destruct (negb (dir =? 0)); intros E1.
  - exists (set_memory m1 s). split; [by apply (on_mem_ok _ s (memory_of s))|]. split; [|done].
    apply memory_of_set. by apply kd_mfree_page in E1.
  - injection E1 as <-. exists s. split_and!; [done..|by rewrite set_cr3_same|done].
Qed.
Lemma people_cr3 v k Q rq all : people k Q rq all -> people (Kernel.set_cr3 v k) Q rq all.
Proof. intros []. by split. Qed.

Lemma people_intr v k Q rq all : people k Q rq all -> people (set_intr v k) Q rq all.
Proof. intros []. by split. Qed.

Lemma thread_exit_ok fuel s Q rq all xs ys h th m2 : people (kn s) Q rq all -> all = xs ++ h :: ys -> (length rq < fuel)%nat ->
  discardable s Q all h th m2 ->
  exists s' b', thread_exit fuel h false s = Ok (Some tt, s') /\ people (kn s') Q rq (xs ++ ys) /\
    same_but h th s (set_pids (pids s) s') /\ memory_of s' = m2 /\ pids s' = Pids b' (pid_start (pids s)) /\
    wf b' /\ nbits b' = nbits (pid_bm (pids s)) /\
    forall i, 0 <= i -> used b' i = if i =? pid th - pid_start (pids s) then false else used (pid_bm (pids s)) i.
Proof.
  intros Hp Hall Hf [Hth Hin Hoff Hne Hmain Hself Hblk Hpid]. unfold thread_exit.
  apply bind_inv in Hblk as ([] & m1 & Hm1 & Hm2).
  assert (current (kn s) <> 0) as Hc0 by (destruct (pp_page _ _ _ _ Hp _ Hself); lia).
  run (on_kern_run _ s _ _ (intr_disable_ok (kn s))).
  run (on_kern_run _ (set_kn (set_intr false (kn s)) s) _ _ (upd_tcb_ok (set_intr false (kn s)) h th (set_status THREAD_TASK_DIED) Hth)).
  cbn [tasks set_intr]. set (died := set_status THREAD_TASK_DIED th). set (k2 := set_tasks (<[h := died]> (tasks (kn s))) (set_intr false (kn s))).
  change (set_kn k2 (set_kn (set_intr false (kn s)) s)) with (set_kn k2 s). set (s2 := set_kn k2 s).
  assert (forall t, alive k2 t <-> alive (kn s) t) as Ha2 by (intros t; apply (alive_insert (set_intr false (kn s))); by eexists).
  assert (people k2 Q rq all) as Hp2 by (apply (people_tasks (set_intr false (kn s))); [exact Ha2|destruct Hp; by split]).
  assert (list_find_element fuel (general_tag h) thread_ready_list k2 = Ok (false, k2)) as Ef.
  { eapply (q_find (L:=kern_lists)); [by apply Hp2|by apply Hp2|apply Ha2; by eexists|by apply (Hoff _ _ (pp_ready _ _ _ _ Hp))|done]. }
  run (on_kern_run _ s2 _ _ Ef). rets. change (set_kn k2 s2) with s2.
  assert (tcb h k2 = Ok (died, k2)) as Et by (unfold tcb, k2; cbn [tasks set_tasks]; by rewrite lookup_insert_eq).
  run (on_kern_run _ s2 _ _ Et). change (set_kn k2 s2) with s2. change (Kernel.pgdir died) with (Kernel.pgdir th).
  assert (memory_of s2 = memory_of s) as Em2.
  { apply memory_of_kern; [done|done|]. unfold k2. cbn [tasks set_tasks current set_intr]. by rewrite lookup_insert_ne. }
  destruct (free_dir_ok s2 _ _ _ Em2 Hm1) as (s3 & E3 & Em3 & Ek3 & Epi3). run E3.
  destruct (people_remove (kn s3) Q rq all xs h ys) as (h' & E4 & Hp4); [rewrite Ek3; by apply people_cr3|done|].
  run (on_kern_run _ s3 _ _ E4). set (s4 := set_kn _ s3). rewrite gets_bind.
  replace (h =? main_thread (kn s4)) with false. 2: { symmetry. apply Z.eqb_neq. unfold s4. cbn [kn set_kn main_thread set_klists]. by rewrite Ek3. }
  assert (memory_of s4 = m1) as Em4 by (rewrite <-Em3; by apply memory_of_kern). cbn [negb].
  run (on_mem_ok _ s4 m1 _ m2 Em4 Hm2). set (s5 := set_memory m2 s4).
  assert (kn s5 = Kernel.set_cr3 (Kernel.cr3 (kn s5)) (set_klists h' k2)) as Ek5.
  { unfold s5, s4. cbn [kn set_memory set_kn]. rewrite Ek3. done. }
  assert (memory_of s5 = m2) as Em5.
  { apply memory_of_set. rewrite Em4. by apply kd_mfree_page in Hm2. }
  assert (tcb h (kn s5) = Ok (died, kn s5)) as Et5.
  { unfold tcb. rewrite Ek5. cbn [tasks Kernel.set_cr3 set_klists]. unfold k2. cbn [tasks set_tasks]. by rewrite lookup_insert_eq. }
  run (on_kern_run _ s5 _ _ Et5). rewrite set_kn_self.
  assert (pids s5 = pids s) as Epi5 by (unfold s5, s4; cbn [pids set_memory set_kn]; exact Epi3).
  assert (people (kn s5) Q rq (xs ++ ys)) as Hp5 by by apply people_cr3.
  destruct (release_pid_ok fuel s5 (alive (kn s5)) Q (pid died)) as (b' & E6 & Hb' & Hn' & Hu').
  - apply Hp5.
  - rewrite Ek5. exact Hc0.
  - destruct Hpid as [P1 P2 P3 P4]. split; [rewrite Ek5; exact P1|exact P2|by rewrite Epi5|by rewrite Epi5].
  - unfold awake. run E6. rets. rewrite Epi5 in *. eexists _, b'. split; [reflexivity|]. split; [exact Hp5|].
    split; [split; cbn [kn set_pids]; [rewrite Ek5; reflexivity..|reflexivity]|]. split; [exact Em5|]. split; [done|]. done.
Qed.
End ending.
