(* ===== verification/ProcessSpec.v ===== *)
(** * ProcessSpec: exit and wait, and a process from fork to its end *)
From S2P Require Import Prelude Lists ListProofs Bitmap Kernel Queues Sched Locks Paging Malloc Fs FsInode FsFile FsSpec FsDev FsCalls FsDirSpec Process ProcessProofs.

Section exiting.
Context {G : Globals} {HG : HeapGlobals} {PG : ProcGlobals} {E : FsEnv} {D : Drivers}.
Implicit Types (s : os) (k : kern) (Q : queue_map) (rq all : list Z).

(** The children of the exiting thread [c] have a new parent. *)
Definition exit_tasks (code c : Z) (b : TCB) all (m : gmap Z TCB) : gmap Z TCB :=
  adopted (pid b) all (<[c := set_exit_status code b]> m).
Definition orphaned (code : Z) (b : TCB) all s : os :=
  set_kn (set_tasks (exit_tasks code (current (kn s)) b all (tasks (kn s))) (kn s)) s.

(** A process that calls exit, with [p] the thread of its parent's pid. *)
Record exiting s Q rq all (b : TCB) (p : Z) (pb : TCB) : Prop := {
  ex_people : people (kn s) Q rq all;
  ex_self : tasks (kn s) !! current (kn s) = Some b;
  ex_in : current (kn s) ∈ all;
  ex_off : off_queues Q (current (kn s));
  ex_has_parent : parent_pid b <> u32 (-1);
  ex_other : parent_pid b <> pid b;
  ex_parent : first_with (kn s) all (fun x => pid x =? parent_pid b) = Some p;
  ex_parent_tcb : tasks (kn s) !! p = Some pb;
  ex_parent_off : status pb = THREAD_TASK_WAITING -> off_queues Q p
}.

Lemma exit_tasks_lookup code c b all m t bt : NoDup all -> c ∈ all -> m !! c = Some b -> parent_pid b <> pid b ->
  m !! t = Some bt ->
  exit_tasks code c b all m !! t = Some (if t =? c then set_exit_status code b else if bool_decide (t ∈ all) then adopt (pid b) bt else bt).
Proof.
  intros Hn Hc Hb Hpp Ht. unfold exit_tasks. rewrite adopted_lookup by done. destruct (Z.eqb_spec t c) as [->|Hne].
  - rewrite decide_True by done. rewrite lookup_insert_eq. cbn [fmap option_fmap option_map]. unfold adopt. cbn [parent_pid set_exit_status].
    by rewrite (proj2 (Z.eqb_neq _ _) Hpp).
  - rewrite lookup_insert_ne by done. rewrite Ht. by case_decide; [rewrite bool_decide_true|rewrite bool_decide_false].
Qed.
Lemma adopt_pid id b : pid (adopt id b) = pid b.
Proof. unfold adopt. by case_match. Qed.
Lemma adopt_status id b : status (adopt id b) = status b.
Proof. unfold adopt. by case_match. Qed.
Lemma first_with_same k k' all f :
  (forall t, t ∈ all -> tcb_test k' f t = tcb_test k f t) -> first_with k' all f = first_with k all f.
Proof.
  unfold first_with. induction all as [|t all IH]; [done|]. intros Ht. cbn [List.find]. rewrite (Ht t) by by left.
  case_match; [done|]. apply IH. intros u Hu. apply Ht. by right.
Qed.

(** The parts of [sys_exit]: to the release of the resources, and after it. *)
Definition exit_end (fuel : nat) (c : Z) : M os unit :=
  x <- on_kern (tcb c) ;;
  parent <- on_kern (pid2thread fuel (parent_pid x)) ;;
  p <- on_kern (tcb parent) ;;
  (when status p =? THREAD_TASK_WAITING do on_kern (thread_unblock fuel parent)) ;;;
  on_kern (thread_block fuel THREAD_TASK_HANGING) ;;;
  ret tt.
Lemma sys_exit_begin fuel s Q rq all b p pb code s2 : exiting s Q rq all b p pb -> (S (length all) < fuel)%nat ->
  release_proc_resource (current (kn s)) (orphaned code b all s) = Ok (tt, s2) ->
  sys_exit fuel code s = exit_end fuel (current (kn s)) s2.
Proof.
  intros [Hp Hb Hin Hoff H1 H2 Hpar Hpb Hpoff] Hf Hr. unfold sys_exit, running_thread.
  rewrite (bind_ok _ _ s (current (kn s)) s) by (rewrite (on_kern_run _ s (current (kn s)) (kn s)); [by destruct s|done]).
  set (k1 := set_tasks (<[current (kn s) := set_exit_status code b]> (tasks (kn s))) (kn s)).
  run (on_kern_run _ s tt k1 (upd_tcb_ok (kn s) _ b (set_exit_status code) Hb)).
  assert (tcb (current (kn s)) k1 = Ok (set_exit_status code b, k1)) as E1 by (unfold tcb, k1; cbn [tasks set_tasks]; by rewrite lookup_insert_eq).
  run (on_kern_run _ (set_kn k1 s) _ k1 E1). cbn [parent_pid set_exit_status]. rewrite (proj2 (Z.eqb_neq _ _) H1). rets.
  assert (forall t, t ∈ all -> alive k1 t) as Ha.
  { intros t Ht. apply (alive_insert (kn s)); [by eexists|]. by apply (pp_alive _ _ _ _ Hp). }
  run (on_kern_run _ (set_kn k1 (set_kn k1 s)) 0 _ (adopt_all fuel k1 (pid b) all (pp_all _ _ _ _ Hp) Ha Hf)).
  change (set_kn _ (set_kn k1 (set_kn k1 s))) with (orphaned code b all s). by run Hr.
Qed.

Lemma parent_is_other s Q rq all b p pb : exiting s Q rq all b p pb -> p <> current (kn s) /\ p ∈ all.
Proof.
  intros [Hp Hb Hin Hoff H1 H2 Hpar Hpb Hpoff]. destruct (first_with_in _ _ _ _ Hpar) as (Hpin & pb0 & Hpb0 & Hpid).
  split; [|done]. intros ->. rewrite Hb in Hpb0. injection Hpb0 as <-. zb. congruence.
Qed.
(** The threads after the release of the resources. *)
Lemma after_release s Q rq all b p pb code s2 : exiting s Q rq all b p pb ->
  release_proc_resource (current (kn s)) (orphaned code b all s) = Ok (tt, s2) ->
  tasks (kn s2) = exit_tasks code (current (kn s)) b all (tasks (kn s)) /\ people (kn s2) Q rq all /\
  current (kn s2) = current (kn s) /\ locks (kn s2) = locks (kn s) /\
  main_thread (kn s2) = main_thread (kn s) /\ idle_thread (kn s2) = idle_thread (kn s).
Proof.
  intros [Hp Hb Hin Hoff H1 H2 Hpar Hpb Hpoff] Hr. apply kt_release in Hr. cbn [kn set_kn orphaned] in Hr.
  set (m1 := exit_tasks _ _ _ _ _) in *. pose proof (all_nodup _ _ (pp_all _ _ _ _ Hp)) as Hnd.
  rewrite Hr. split_and!; try done. apply (people_tasks (Kernel.set_cr3 (Kernel.cr3 (kn s2)) (kn s)) _ _ _ m1); [|destruct Hp; by split].
  intros t. unfold m1, exit_tasks. rewrite adopted_lookup by done. unfold alive. cbn [tasks Kernel.set_cr3].
  destruct (decide (t = current (kn s))) as [->|]; [rewrite lookup_insert_eq, Hb; case_decide; split; by eexists|].
  rewrite lookup_insert_ne by done. case_decide; [|done]. by destruct (tasks (kn s) !! t).
Qed.
(** The parent is found, whatever became of its status. *)
Lemma find_parent fuel s Q rq all b p pb code s2 : exiting s Q rq all b p pb -> (S (length all) < fuel)%nat ->
  release_proc_resource (current (kn s)) (orphaned code b all s) = Ok (tt, s2) ->
  tasks (kn s2) !! current (kn s) = Some (set_exit_status code b) /\ tasks (kn s2) !! p = Some (adopt (pid b) pb) /\
  pid2thread fuel (parent_pid b) (kn s2) = Ok (p, kn s2).
Proof.
  intros Hx Hf Hr. destruct (after_release _ _ _ _ _ _ _ _ _ Hx Hr) as (Et & Hp2 & _). destruct (parent_is_other _ _ _ _ _ _ _ Hx) as [Hpc Hpin].
  destruct Hx as [Hp Hb Hin Hoff H1 H2 Hpar Hpb Hpoff]. pose proof (all_nodup _ _ (pp_all _ _ _ _ Hp)) as Hnd.
  pose proof (fun t bt => exit_tasks_lookup code _ b all (tasks (kn s)) t bt Hnd Hin Hb H2) as Hm1. rewrite <-Et in Hm1.
  split_and!; [rewrite (Hm1 _ _ Hb); by rewrite Z.eqb_refl|rewrite (Hm1 p pb Hpb), (proj2 (Z.eqb_neq _ _) Hpc); by rewrite bool_decide_true|].
  apply (pid2thread_ok fuel _ all); [by apply Hp2|by apply Hp2|done| |destruct (pp_page _ _ _ _ Hp p) as [_ ?]; [by eexists|unfold all_list_tag; lia]].
  rewrite (first_with_same (kn s)); [done|]. intros t Ht. destruct (pp_alive _ _ _ _ Hp t Ht) as [bt Hbt].
  unfold tcb_test. rewrite (Hm1 t bt Hbt), Hbt. destruct (Z.eqb_spec t (current (kn s))) as [->|].
  - rewrite Hb in Hbt. by injection Hbt as <-.
  - rewrite bool_decide_true by done. by rewrite adopt_pid.
Qed.

(** Where [exit_end] leads: the first thread in line runs, and [ts] are the
    control blocks without its change. *)
Record handed_over s (ts : gmap Z TCB) Q next rest all (s2 s' : os) : Prop := {
  ho_current : current (kn s') = next;
  ho_people : people (kn s') (<[thread_ready_list := rest]> Q) rest all;
  ho_off : off_queues (<[thread_ready_list := rest]> Q) next;
  ho_locks : locks (kn s') = locks (kn s);
  ho_main : main_thread (kn s') = main_thread (kn s);
  ho_rest : s' = set_kn (kn s') s2;
  ho_tasks : exists tn, ts !! next = Some tn /\ tasks (kn s') = <[next := set_status THREAD_TASK_RUNNING tn]> ts
}.
Lemma block_hands_over fuel s s2 k Q next rest all b :
  people k Q (next :: rest) all -> tasks k !! current k = Some b -> (S (length rest) < fuel)%nat ->
  locks k = locks (kn s) -> main_thread k = main_thread (kn s) ->
  exists s', (on_kern (thread_block fuel THREAD_TASK_HANGING) ;;; ret tt) (set_kn k s2) = Ok (tt, s') /\
    handed_over s (<[current k := set_status THREAD_TASK_HANGING b]> (tasks k)) Q next rest all s2 s'.
Proof.
  intros Hp Hb Hf Hl Hm.
  destruct (people_block fuel k Q next rest all b THREAD_TASK_HANGING Hp Hb) as (k' & E1 & Hc' & _ & Hl' & _ & Hm' & Hp' & Ho' & Ht); [done|done|].
  exists (set_kn k' s2). split; [by run (on_kern_run _ (set_kn k s2) _ k' E1)|]. split; cbn [kn set_kn]; congruence || done.
Qed.
Lemma exit_end_ok fuel s Q rq all b p pb code s2 next rest : exiting s Q rq all b p pb ->
  release_proc_resource (current (kn s)) (orphaned code b all s) = Ok (tt, s2) ->
  (if status pb =? THREAD_TASK_WAITING then p :: rq else rq) = next :: rest ->
  (S (length all + length rq) < fuel)%nat ->
  let c := current (kn s) in let m1 := exit_tasks code c b all (tasks (kn s)) in
  let m2 := if status pb =? THREAD_TASK_WAITING then <[p := set_status THREAD_TASK_READY (adopt (pid b) pb)]> m1 else m1 in
  exists s', exit_end fuel c s2 = Ok (tt, s') /\
    handed_over s (<[c := set_status THREAD_TASK_HANGING (set_exit_status code b)]> m2) Q next rest all s2 s'.
Proof.
  intros Hx Hr Hn Hf c m1 m2. destruct (after_release _ _ _ _ _ _ _ _ _ Hx Hr) as (Et & Hp2 & Ec & El & Em & _).
  destruct (find_parent fuel _ _ _ _ _ _ _ _ _ Hx ltac:(lia) Hr) as (Hcb & Hpb2 & E2). destruct (parent_is_other _ _ _ _ _ _ _ Hx) as [Hpc Hpin].
  assert (set_kn (kn s2) s2 = s2) as Eset by by destruct s2. unfold exit_end.
  assert (forall t x, tasks (kn s2) !! t = Some x -> tcb t (kn s2) = Ok (x, kn s2)) as Ht by (intros t x; unfold tcb; by intros ->).
  run (on_kern_run _ s2 _ _ (Ht _ _ Hcb)). rewrite Eset. cbn [parent_pid set_exit_status]. run (on_kern_run _ s2 _ _ E2). rewrite Eset.
  run (on_kern_run _ s2 _ _ (Ht _ _ Hpb2)). rewrite Eset, adopt_status. unfold m2. destruct (Z.eqb_spec (status pb) THREAD_TASK_WAITING) as [Hw|Hw].
  - destruct (people_unblock fuel (kn s2) Q rq all p (adopt (pid b) pb) Hp2) as (h3 & E4 & Hp3); [|lia|].
    { split; [done|by rewrite adopt_status, Hw|by apply (ex_parent_off _ _ _ _ _ _ _ Hx)]. }
    run (on_kern_run _ s2 _ _ E4). set (k3 := set_tasks _ (set_klists h3 (kn s2))) in *. injection Hn as <- <-.
    assert (tasks k3 !! current k3 = Some (set_exit_status code b)) as Hb3.
    { change (current k3) with (current (kn s2)). rewrite Ec. unfold k3. cbn [tasks set_tasks]. by rewrite lookup_insert_ne by done. }
    destruct (block_hands_over fuel s s2 k3 _ p rq all _ Hp3 Hb3) as (s' & E5 & Hs'); [lia|done|done|].
    exists s'. split; [exact E5|]. destruct Hs' as [? Hpp Hoo ? ? ? Htt]. rewrite rl_insert in Hpp, Hoo.
    change (current k3) with (current (kn s2)) in Htt. rewrite Ec in Htt. unfold k3 in Htt. cbn [tasks set_tasks] in Htt. rewrite Et in Htt. by split.
  - rets. rewrite Hn in Hp2, Hf. cbn [length] in Hf. rewrite <-Ec in Hcb.
    destruct (block_hands_over fuel s s2 (kn s2) _ next rest all _ Hp2 Hcb) as (s' & E5 & Hs'); [lia|done|done|].
    exists s'. rewrite Eset in E5. split; [exact E5|]. rewrite Ec, Et in Hs'. exact Hs'.
Qed.

(** The control block of thread [t], [bt] before, after [c] has exited. *)
Definition block_after (code c : Z) (b : TCB) (p : Z) (pb : TCB) (next t : Z) (bt : TCB) : TCB :=
  if t =? c then set_status THREAD_TASK_HANGING (set_exit_status code b)
  else set_status (if t =? next then THREAD_TASK_RUNNING
                   else if (t =? p) && (status pb =? THREAD_TASK_WAITING) then THREAD_TASK_READY else status bt)
         (adopt (pid b) bt).
Lemma set_status_twice u v b : set_status u (set_status v b) = set_status u b.
Proof. done. Qed.
Lemma set_status_same b : set_status (status b) b = b.
Proof. by destruct b. Qed.
Lemma handed_over_tasks s Q rq all b p pb code s2 s' next rest m2 : exiting s Q rq all b p pb ->
  let c := current (kn s) in let m1 := exit_tasks code c b all (tasks (kn s)) in
  m2 = (if status pb =? THREAD_TASK_WAITING then <[p := set_status THREAD_TASK_READY (adopt (pid b) pb)]> m1 else m1) ->
  handed_over s (<[c := set_status THREAD_TASK_HANGING (set_exit_status code b)]> m2) Q next rest all s2 s' -> next <> c ->
  forall t bt, t ∈ all -> tasks (kn s) !! t = Some bt -> tasks (kn s') !! t = Some (block_after code c b p pb next t bt).
Proof.
  intros Hx c m1 Hm2 [_ _ _ _ _ _ (tn & Htn & Ets)] Hnc t bt Hin Hbt. destruct (parent_is_other _ _ _ _ _ _ _ Hx) as [Hpc Hpin].
  pose proof Hx as [Hp Hb Hcin Hoff H1 H2 Hpar Hpb Hpoff]. pose proof (all_nodup _ _ (pp_all _ _ _ _ Hp)) as Hnd.
  assert (t <> c -> m2 !! t = Some (if (t =? p) && (status pb =? THREAD_TASK_WAITING) then set_status THREAD_TASK_READY (adopt (pid b) bt) else adopt (pid b) bt)) as Hm.
  { intros Hne. assert (m1 !! t = Some (adopt (pid b) bt)) as E1.
    { unfold m1. rewrite (exit_tasks_lookup code c b all (tasks (kn s)) t bt) by done. rewrite (proj2 (Z.eqb_neq t c)) by done. by rewrite bool_decide_true. }
    subst m2. destruct (status pb =? THREAD_TASK_WAITING); [|by rewrite andb_false_r]. rewrite andb_true_r.
    destruct (Z.eqb_spec t p) as [->|]; [|by rewrite lookup_insert_ne]. rewrite lookup_insert_eq. by simplify_eq. }
  rewrite Ets. unfold block_after. destruct (Z.eqb_spec t c) as [->|Hne].
  { rewrite lookup_insert_ne by done. apply lookup_insert_eq. }
  specialize (Hm Hne). destruct (Z.eqb_spec t next) as [->|Hnn].
  - rewrite lookup_insert_ne in Htn by done. rewrite Hm in Htn. rewrite lookup_insert_eq. injection Htn as <-. by destruct (_ && _).
  - rewrite !lookup_insert_ne by done. rewrite Hm. destruct (_ && _); [done|]. rewrite <-adopt_status with (id := pid b). by rewrite set_status_same.
Qed.

(** C4: when the release of its resources returns, a process that exits with
    a code becomes a hanging thread that keeps the code, its children get the
    parent 1, a parent that waits in [sys_wait] becomes the first thread in
    line and runs next, and no other control block changes. *)
Theorem sys_exit_ends_process (fuel : nat) s Q rq all (b : TCB) (p : Z) (pb : TCB) (code : Z) (s2 : os) (next : Z) (rest : list Z) :
  exiting s Q rq all b p pb ->
  release_proc_resource (current (kn s)) (orphaned code b all s) = Ok (tt, s2) ->
  (if status pb =? THREAD_TASK_WAITING then p :: rq else rq) = next :: rest ->
  (S (length all + length rq) < fuel)%nat ->
  exists s', sys_exit fuel code s = Ok (tt, s') /\ current (kn s') = next /\
    people (kn s') (<[thread_ready_list := rest]> Q) rest all /\
    forall t bt, t ∈ all -> tasks (kn s) !! t = Some bt ->
      tasks (kn s') !! t = Some (block_after code (current (kn s)) b p pb next t bt).
Proof.
  intros Hx Hr Hn Hf. destruct (exit_end_ok fuel _ _ _ _ _ _ _ _ _ _ _ Hx Hr Hn Hf) as (s' & E1 & Hs').
  exists s'. split; [by rewrite (sys_exit_begin fuel _ _ _ _ _ _ _ code s2 Hx ltac:(lia) Hr)|].
  split; [apply Hs'|]. split; [apply Hs'|]. eapply (handed_over_tasks s Q rq all b p pb code s2 s' next rest); [done|reflexivity|exact Hs'|].
  intros ->. destruct (parent_is_other _ _ _ _ _ _ _ Hx) as [Hpc _]. pose proof (ex_off _ _ _ _ _ _ _ Hx _ _ (pp_ready _ _ _ _ (ex_people _ _ _ _ _ _ _ Hx))) as Hnr.
  destruct (status pb =? THREAD_TASK_WAITING); [by simplify_eq|]. apply Hnr. rewrite Hn. by left.
Qed.

(** ** Waiting *)
Definition child_of (id : Z) (b : TCB) : bool := parent_pid b =? id.
Definition hanging_child_of (id : Z) (b : TCB) : bool := (parent_pid b =? id) && (status b =? THREAD_TASK_HANGING).
Lemma all_tag_not_0 k Q rq all t : people k Q rq all -> t ∈ all -> all_list_tag t <> 0.
Proof. intros Hp Ht. destruct (pp_page _ _ _ _ Hp t) as [_ ?]; [by apply (pp_alive _ _ _ _ Hp)|]. unfold all_list_tag. lia. Qed.
(** The first search of [sys_wait]. *)
Lemma wait_search fuel s Q rq all b : people (kn s) Q rq all -> tasks (kn s) !! current (kn s) = Some b -> (S (length all) < fuel)%nat ->
  list_walker fuel thread_all_list find_hanging_child (pid b) (kn s) = Ok (default 0 (all_list_tag <$> first_with (kn s) all (hanging_child_of (pid b))), kn s) /\
  list_walker fuel thread_all_list find_child (pid b) (kn s) = Ok (default 0 (all_list_tag <$> first_with (kn s) all (child_of (pid b))), kn s).
Proof.
  intros Hp Hb Hf. split; (apply walk_all; [by apply Hp|by apply Hp| |done]); intros t x Hx; [by apply find_hanging_ok|by apply find_child_ok].
Qed.
Lemma wait_begin fuel s b : tasks (kn s) !! current (kn s) = Some b -> forall r,
  (child_node <- on_kern (list_walker fuel thread_all_list find_hanging_child (pid b)) ;;
   if negb (child_node =? 0) then
     let child := of_all_list_tag child_node in
     x <- on_kern (tcb child) ;;
     let child_pid := pid x in
     _ <~ thread_exit fuel child false ;;
     ret (Some (Returned child_pid (Some (exit_status x))))
   else
     child_node <- on_kern (list_walker fuel thread_all_list find_child (pid b)) ;;
     if child_node =? 0 then ret (Some (Returned (u32 (-1)) None))
     else
       old <- on_kern (thread_block fuel THREAD_TASK_WAITING) ;;
       ret (Some (Waiting old))) s = r -> sys_wait fuel s = r.
Proof.
  intros Hb r Hr. unfold sys_wait, running_thread.
  rewrite (bind_ok _ _ s (current (kn s)) s) by (rewrite (on_kern_run _ s (current (kn s)) (kn s)); [by rewrite set_kn_self|done]).
  assert (tcb (current (kn s)) (kn s) = Ok (b, kn s)) as E1 by (unfold tcb; by rewrite Hb).
  run (on_kern_run _ s _ _ E1). rewrite set_kn_self. exact Hr.
Qed.
Lemma wait_collects fuel s Q rq all b h th m2 : people (kn s) Q rq all -> tasks (kn s) !! current (kn s) = Some b ->
  (S (length all) < fuel)%nat -> (length rq < fuel)%nat ->
  first_with (kn s) all (hanging_child_of (pid b)) = Some h -> discardable s Q all h th m2 ->
  exists s' b' xs ys, sys_wait fuel s = Ok (Some (Returned (pid th) (Some (exit_status th))), s') /\
    all = xs ++ h :: ys /\ people (kn s') Q rq (xs ++ ys) /\ same_but h th s (set_pids (pids s) s') /\ memory_of s' = m2 /\
    pids s' = Pids b' (pid_start (pids s)) /\
    forall i, 0 <= i -> used b' i = if i =? pid th - pid_start (pids s) then false else used (pid_bm (pids s)) i.
Proof.
  intros Hp Hb Hf1 Hf2 Hfirst Hd. destruct (wait_search fuel s Q rq all b Hp Hb Hf1) as [Es _].
  destruct (list_elem_of_split all h (dc_in _ _ _ _ _ _ Hd)) as (xs & ys & Eall).
  destruct (thread_exit_ok fuel s Q rq all xs ys h th m2 Hp Eall Hf2 Hd) as (s' & b' & Ee & Hp' & Hsb & Hm & Hpi & _ & _ & Hu).
  exists s', b', xs, ys. split; [|done]. apply (wait_begin fuel s b Hb). rewrite Hfirst in Es. cbn [fmap option_fmap option_map default] in Es. unfold id in Es.
  run (on_kern_run _ s _ _ Es). rewrite set_kn_self.
  rewrite (proj2 (Z.eqb_neq _ 0)) by (exact (all_tag_not_0 _ _ _ _ _ Hp (dc_in _ _ _ _ _ _ Hd))). cbn [negb]. cbv zeta. rewrite of_all_tag.
  assert (tcb h (kn s) = Ok (th, kn s)) as Et by (unfold tcb; by rewrite (dc_tcb _ _ _ _ _ _ Hd)).
  run (on_kern_run _ s _ _ Et). rewrite set_kn_self. unfold awake. by run Ee.
Qed.

(** What a wait finds: a hanging child to collect, children that all live, or
    none. *)
Inductive wait_case s Q all (b : TCB) : Prop :=
| wc_hanging h th m2 : first_with (kn s) all (hanging_child_of (pid b)) = Some h -> discardable s Q all h th m2 -> wait_case s Q all b
| wc_alive t : first_with (kn s) all (hanging_child_of (pid b)) = None -> first_with (kn s) all (child_of (pid b)) = Some t -> wait_case s Q all b
| wc_none : first_with (kn s) all (child_of (pid b)) = None -> wait_case s Q all b.

(** C5: [sys_wait] collects the first hanging child in the list of all
    threads: it returns the child's pid and code, takes it off the list, gives
    its pages and its pid back and changes no other thread.  With children
    that all live the caller waits and the first thread in line runs; without
    children it returns -1 and nothing changes. *)
Theorem sys_wait_collects (fuel : nat) s Q (next : Z) (rest all : list Z) (b : TCB) :
  people (kn s) Q (next :: rest) all -> tasks (kn s) !! current (kn s) = Some b ->
  (S (length all) < fuel)%nat -> (S (length rest) < fuel)%nat -> wait_case s Q all b ->
  exists r s', sys_wait fuel s = Ok (Some r, s') /\
  match first_with (kn s) all (hanging_child_of (pid b)) with
  | Some h => exists th xs ys, tasks (kn s) !! h = Some th /\ r = Returned (pid th) (Some (exit_status th)) /\
      all = xs ++ h :: ys /\ people (kn s') Q (next :: rest) (xs ++ ys) /\
      tasks (kn s') = <[h := set_status THREAD_TASK_DIED th]> (tasks (kn s)) /\
      free_blocks (Kernel.pgdir th) h (memory_of s) = Ok (tt, memory_of s') /\
      forall i, 0 <= i -> used (pid_bm (pids s')) i = if i =? pid th - pid_start (pids s) then false else used (pid_bm (pids s)) i
  | None =>
      if first_with (kn s) all (child_of (pid b)) then
        r = Waiting (intr (kn s)) /\ current (kn s') = next /\ people (kn s') (<[thread_ready_list := rest]> Q) rest all /\
        exists tn, <[current (kn s) := set_status THREAD_TASK_WAITING b]> (tasks (kn s)) !! next = Some tn /\
          tasks (kn s') = <[next := set_status THREAD_TASK_RUNNING tn]> (<[current (kn s) := set_status THREAD_TASK_WAITING b]> (tasks (kn s)))
      else r = Returned (u32 (-1)) None /\ s' = s
  end.
Proof.
  intros Hp Hb Hf1 Hf2 Hcase. destruct (wait_search fuel s Q _ all b Hp Hb Hf1) as [Es Ec].
  destruct (first_with (kn s) all (hanging_child_of (pid b))) as [h|] eqn:Eh.
  - destruct Hcase as [h' th m2 Eh' Hd|t Eh' _|Hn]; [rewrite Eh in Eh'; injection Eh' as <-|congruence|].
    + destruct (wait_collects fuel s Q _ all b h th m2 Hp Hb Hf1 Hf2 Eh Hd) as (s' & b' & xs & ys & E1 & Eall & Hp' & [Ht _ _ _ _ _] & Hm & Hpi & Hu).
      eexists _, s'. split; [exact E1|]. exists th, xs, ys. rewrite Hm, Hpi. pose proof (dc_blocks _ _ _ _ _ _ Hd).
      pose proof (dc_tcb _ _ _ _ _ _ Hd). done.
    + exfalso. apply first_with_in in Eh as (Hin & x & Hx & Hf). apply andb_prop in Hf as [Hf _].
      pose proof (List.find_none _ _ Hn h ltac:(by apply list_elem_of_In)) as Hno. unfold tcb_test in Hno. rewrite Hx in Hno. unfold child_of in Hno. congruence.
  - cbn [fmap option_fmap option_map default] in Es. unfold id in Es.
    destruct (first_with (kn s) all (child_of (pid b))) as [t|] eqn:Et; cbn [fmap option_fmap option_map default] in Ec; unfold id in Ec.
    + destruct (people_block fuel (kn s) Q next rest all b THREAD_TASK_WAITING Hp Hb) as (k' & E5 & Hc' & _ & _ & _ & _ & Hp' & _ & Ht'); [done|lia|].
      eexists _, (set_kn k' s). split; [|done]. apply (wait_begin fuel s b Hb). run (on_kern_run _ s _ _ Es). rewrite set_kn_self. cbn [Z.eqb negb].
      run (on_kern_run _ s _ _ Ec). rewrite set_kn_self.
      rewrite (proj2 (Z.eqb_neq _ 0)) by (exact (all_tag_not_0 _ _ _ _ _ Hp (proj1 (first_with_in _ _ _ _ Et)))).
      by run (on_kern_run _ s _ _ E5).
    + eexists _, s. split; [|done]. apply (wait_begin fuel s b Hb). run (on_kern_run _ s _ _ Es). rewrite set_kn_self. cbn [Z.eqb negb].
      run (on_kern_run _ s _ _ Ec). by rewrite set_kn_self.
Qed.

(** C3: a process that exits with a code while its parent waits is collected by
    it: when the parent, which runs next, goes on in its loop and has no other
    hanging child, [sys_wait] returns the pid and the code. *)
Theorem exit_reaches_waiting_parent (fuel : nat) s Q rq all (b : TCB) (p : Z) (pb : TCB) (code : Z) (s2 : os) (old : bool) (m2 : mem) :
  exiting s Q rq all b p pb -> status pb = THREAD_TASK_WAITING ->
  release_proc_resource (current (kn s)) (orphaned code b all s) = Ok (tt, s2) ->
  (S (length all + S (length rq)) < fuel)%nat ->
  (forall t bt, t ∈ all -> t <> current (kn s) -> tasks (kn s) !! t = Some bt -> hanging_child_of (pid pb) (adopt (pid b) bt) = false) ->
  exists s1, sys_exit fuel code s = Ok (tt, s1) /\ current (kn s1) = p /\
    (discardable (set_kn (set_intr old (kn s1)) s1) (<[thread_ready_list := rq]> Q) all (current (kn s))
       (set_status THREAD_TASK_HANGING (set_exit_status code b)) m2 ->
     exists s', sys_wait fuel (set_kn (set_intr old (kn s1)) s1) = Ok (Some (Returned (pid b) (Some code)), s')).
Proof.
  intros Hx Hw Hr Hf Hothers. set (c := current (kn s)) in *.
  assert ((if status pb =? THREAD_TASK_WAITING then p :: rq else rq) = p :: rq) as Hn by by rewrite Hw.
  destruct (exit_end_ok fuel _ _ _ _ _ _ _ _ _ p rq Hx Hr Hn ltac:(lia)) as (s1 & E1 & Hs1).
  destruct (parent_is_other _ _ _ _ _ _ _ Hx) as [Hpc Hpin].
  pose proof (handed_over_tasks s Q rq all b p pb code s2 s1 p rq _ Hx eq_refl Hs1 Hpc) as Ht.
  exists s1. split; [by rewrite (sys_exit_begin fuel _ _ _ _ _ _ _ code s2 Hx ltac:(lia) Hr)|]. split; [apply Hs1|].
  intros Hd. set (s3 := set_kn (set_intr old (kn s1)) s1) in *.
  assert (people (kn s3) (<[thread_ready_list := rq]> Q) rq all) as Hp3 by exact (people_intr old _ _ _ _ (ho_people _ _ _ _ _ _ _ _ Hs1)).
  pose proof (Ht p pb Hpin (ex_parent_tcb _ _ _ _ _ _ _ Hx)) as Hp'. unfold block_after in Hp'. fold c in Hp'.
  rewrite (proj2 (Z.eqb_neq p c) Hpc), Z.eqb_refl in Hp'.
  assert (pid (set_status THREAD_TASK_RUNNING (adopt (pid b) pb)) = pid pb) as Epid by apply adopt_pid.
  assert (tasks (kn s3) !! current (kn s3) = Some (set_status THREAD_TASK_RUNNING (adopt (pid b) pb))) as Hb3.
  { change (current (kn s3)) with (current (kn s1)). by rewrite (ho_current _ _ _ _ _ _ _ _ Hs1). }
  destruct (first_with_in _ _ _ _ (ex_parent _ _ _ _ _ _ _ Hx)) as (_ & pb0 & Hpb0 & Hpid).
  rewrite (ex_parent_tcb _ _ _ _ _ _ _ Hx) in Hpb0. injection Hpb0 as <-. apply Z.eqb_eq in Hpid.
  assert (first_with (kn s3) all (hanging_child_of (pid pb)) = Some c) as Hfirst.
  { unfold first_with. destruct (List.find _ all) as [h|] eqn:Eh.
    - destruct (first_with_in _ _ _ _ Eh) as (Hin & x & Hx3 & Hhx). destruct (decide (h = c)) as [->|Hne]; [done|].
      destruct (pp_alive _ _ _ _ (ex_people _ _ _ _ _ _ _ Hx) h Hin) as [bt Hbt].
      pose proof (Ht h bt Hin Hbt) as Hh. change (tasks (kn s3)) with (tasks (kn s1)) in Hx3. rewrite Hx3 in Hh. injection Hh as ->.
      unfold block_after in Hhx. fold c in Hhx. rewrite (proj2 (Z.eqb_neq h c) Hne) in Hhx.
      specialize (Hothers h bt Hin Hne Hbt). unfold hanging_child_of in *. cbn [parent_pid status set_status] in Hhx.
      apply andb_prop in Hhx as [H1 H2]. change (parent_pid (set_status _ ?z)) with (parent_pid z) in H1. rewrite H1, adopt_status in Hothers. cbn [andb] in Hothers.
      destruct (h =? p); [done|]. cbn [andb] in H2. congruence.
    - pose proof (List.find_none _ _ Eh c ltac:(apply list_elem_of_In; apply Hx)) as Hno. unfold tcb_test in Hno.
      change (tasks (kn s3)) with (tasks (kn s1)) in Hno. rewrite (Ht c b (ex_in _ _ _ _ _ _ _ Hx) (ex_self _ _ _ _ _ _ _ Hx)) in Hno.
      unfold block_after in Hno. fold c in Hno. rewrite Z.eqb_refl in Hno. unfold hanging_child_of in Hno.
      change (parent_pid (set_status _ (set_exit_status code b))) with (parent_pid b) in Hno. rewrite Hpid, Z.eqb_refl in Hno. done. }
  destruct (wait_collects fuel s3 _ rq all (set_status THREAD_TASK_RUNNING (adopt (pid b) pb)) c (set_status THREAD_TASK_HANGING (set_exit_status code b)) m2 Hp3 Hb3) as (s' & b' & xs & ys & E3 & _); [lia|lia|by rewrite Epid|exact Hd|].
  exists s'. exact E3.
Qed.
End exiting.

(** ** A parent at 8192 that waits, its child, and the idle thread at 16384 *)
Definition the_state {A} (d : os) (r : res (A * os)) : os := match r with Ok (_, s) => s | _ => d end.
Definition the_memory {A} (d : mem) (r : res (A * mem)) : mem := match r with Ok (_, m) => m | _ => d end.
Definition returns {A B} (r : res (A * B)) : bool := match r with Ok _ => true | _ => false end.
Lemma the_state_ok d (r : res (unit * os)) : returns r = true -> r = Ok (tt, the_state d r).
Proof. by destruct r as [[[] ?]| | |]. Qed.
Lemma ok_inj {S} (a b : S) : Ok (tt, a) = Ok (tt, b) -> a = b.
Proof. congruence. Qed.
Lemma the_memory_ok d (r : res (unit * mem)) : returns r = true -> r = Ok (tt, the_memory d r).
Proof. by destruct r as [[[] ?]| | |]. Qed.

#[local] Instance family_globals : Globals := {| thread_ready_list := 100; thread_all_list := 300; Kernel.addr_v2p := fun a => a - 0xc0100000 + 0x203000 |}.
#[export] Instance family_heap : HeapGlobals := {| k_block_descs := 1000; u_block_descs := fun t => t + 200; pool_lock := fun p => 2000 + 100 * p |}.
#[export] Instance family_proc : ProcGlobals := {| pid_lock := 2400; intr_exit := 1; kernel_thread := 2; start_process_entry := 3; start_process_ring1_entry := 4 |}.
Definition family_pool (n : nat) (start : Z) : pool := Pool (Bitmap (replicate n 0) (Z.of_nat n) 0) start (Z.of_nat n * 8 * 4096).
Definition family_start : mem :=
  Mem (fun a => if a =? 0x100ffc then 0x100007 else 0) 0x100000 (family_pool 16 0x202000) (family_pool 4 0x302000)
      (Vaddr (Bitmap (replicate 16 0) 16 0) K_HEAP_START) (Vaddr (Bitmap [] 0 0) 0) 0.
(** The child's block, its page directory and the map of its pages. *)
Definition family_memory : mem := the_memory family_start (Paging.malloc_page MP_KERNEL 3 family_start).
Definition CHILD : Z := 0xc0100000.
Definition person (id parent st dir : Z) : TCB := Tcb parent id 0 st 31 31 0 dir (Message 0 0 []) 0 0 0 0 0 0 STACK_MAGIC.
Definition family_kern : kern :=
  Kern (list_to_map [(100, Node (16384 + 52) (16384 + 52)); (16384 + 52, Node 100 100);
                     (300, Node (16384 + 60) (8192 + 60)); (8192 + 60, Node 300 (CHILD + 60)); (CHILD + 60, Node (8192 + 60) (16384 + 60));
                     (16384 + 60, Node (CHILD + 60) 300); (8192 + 52, Node 0 0); (CHILD + 52, Node 0 0); (2408, Node 2408 2408)])
       (list_to_map [(8192, person 1 (u32 (-1)) THREAD_TASK_WAITING 0); (CHILD, person 2 1 THREAD_TASK_RUNNING (CHILD + 4096));
                     (16384, person 3 (u32 (-1)) THREAD_TASK_READY 0)])
       {[2400 := Lock 0 1 0]} CHILD false 0 0x100000 0 16384 4096.
Definition family_proc_of : proc :=
  Proc (replicate 16 0) 0 (Vaddr (Bitmap [0] 1 0) USER_VADDR_START) (CHILD + 8192) ([0; 1; 2] ++ replicate 29 (-1)) 0.
Definition family : os :=
  Os family_kern family_memory ∅ {[CHILD := family_proc_of]} demo_state (Pids (Bitmap [7] 1 0) 1) (fun _ => 0).
Definition family_queues : queue_map := list_to_map [(100, [16384]); (2408, [])].
Definition family_child : TCB := person 2 1 THREAD_TASK_RUNNING (CHILD + 4096).
Definition family_parent : TCB := person 1 (u32 (-1)) THREAD_TASK_WAITING 0.

Lemma family_alive t : alive family_kern t <-> t = 8192 \/ t = CHILD \/ t = 16384.
Proof.
  unfold alive, family_kern. cbn [tasks list_to_map foldr fst snd]. rewrite !lookup_insert_is_Some, lookup_empty.
  split; [|naive_solver lia]. intros [->|[_ [->|[_ [->|[_ [? ?]]]]]]]; naive_solver.
Qed.
Lemma family_people : people family_kern family_queues [16384] [8192; CHILD; 16384].
Proof.
  assert (forall a xs, family_queues !! a = Some xs -> (a = 100 /\ xs = [16384]) \/ (a = 2408 /\ xs = [])) as HQ.
  { intros a xs Hx. unfold family_queues in Hx. cbn in Hx. apply lookup_insert_Some in Hx as [[<- <-]|[_ Hx]]; [by left|].
    apply lookup_insert_Some in Hx as [[<- <-]|[_ Hx]]; [by right|]. by rewrite lookup_empty in Hx. }
  split.
  - split.
    + intros a xs [[-> ->]|[-> ->]]%HQ; split; [by vm_compute|by_computation|by vm_compute|by_computation].
    + intros a xs t [[-> ->]|[-> ->]]%HQ Ht; [|by apply not_elem_of_nil in Ht]. apply list_elem_of_singleton in Ht as ->. apply family_alive. naive_solver.
    + intros a b xs ys t [[-> ->]|[-> ->]]%HQ [[-> ->]|[-> ->]]%HQ Ht Hu; first [done|by apply not_elem_of_nil in Ht|by apply not_elem_of_nil in Hu].
    + intros t [->|[->| ->]]%family_alive; vm_compute; by eexists.
    + intros a xs t [[-> ->]|[-> ->]]%HQ [->|[->| ->]]%family_alive; by vm_compute.
  - done.
  - split; [by vm_compute|by_computation].
  - intros t Ht. apply family_alive. set_solver.
  - intros t [->|[->| ->]]%family_alive; by vm_compute.
  - intros a xs t [[-> ->]|[-> ->]]%HQ Ht; repeat (apply list.elem_of_cons in Ht as [->|Ht]; [by vm_compute|]); by apply not_elem_of_nil in Ht.
  - done.
  - intros t [->|[->| ->]]%family_alive; by vm_compute.
Qed.
Lemma family_exiting : exiting family family_queues [16384] [8192; CHILD; 16384] family_child 8192 family_parent.
Proof.
  split; [exact family_people|done|by vm_compute; right; left| |done|done|done|done|].
  - intros a xs Hx Hin. pose proof (q_in _ _ _ (pp_queues _ _ _ _ family_people) a xs _ Hx Hin) as _.
    unfold family_queues in Hx. cbn in Hx. apply lookup_insert_Some in Hx as [[<- <-]|[_ Hx]]; [by apply list_elem_of_singleton in Hin|].
    apply lookup_insert_Some in Hx as [[<- <-]|[_ Hx]]; [by apply not_elem_of_nil in Hin|by rewrite lookup_empty in Hx].
  - intros _ a xs Hx Hin. unfold family_queues in Hx. cbn in Hx.
    apply lookup_insert_Some in Hx as [[<- <-]|[_ Hx]]; [by apply list_elem_of_singleton in Hin|].
    apply lookup_insert_Some in Hx as [[<- <-]|[_ Hx]]; [by apply not_elem_of_nil in Hin|by rewrite lookup_empty in Hx].
Qed.
Definition family_orphaned : os := orphaned 7 family_child [8192; CHILD; 16384] family.
Definition family_released : os := the_state family (release_proc_resource CHILD family_orphaned).
Lemma family_release : release_proc_resource CHILD family_orphaned = Ok (tt, family_released).
Proof. apply the_state_ok. vm_compute. reflexivity. Qed.
Lemma sys_exit_ends_process_witness :
  exists s', sys_exit 10 7 family = Ok (tt, s') /\ current (kn s') = 8192 /\
    tasks (kn s') !! CHILD = Some (set_status THREAD_TASK_HANGING (set_exit_status 7 family_child)).
Proof.
  destruct (sys_exit_ends_process 10 family family_queues [16384] [8192; CHILD; 16384] family_child 8192 family_parent 7
              family_released 8192 [16384] family_exiting family_release eq_refl ltac:(cbn; lia)) as (s' & E1 & Hc & _ & Ht).
  exists s'. split; [exact E1|]. split; [exact Hc|]. exact (Ht CHILD family_child ltac:(by right; left) eq_refl).
Defined.

(** The same family after the exit, the parent running. *)
Definition family_after : os := the_state family (sys_exit 10 7 family).
Definition family_back : os := set_kn (set_intr false (kn family_after)) family_after.
Definition family_ended : TCB := set_status THREAD_TASK_HANGING (set_exit_status 7 family_child).
Definition family_freed : mem := the_memory family_memory (free_blocks (CHILD + 4096) CHILD (memory_of family_back)).
Lemma family_exit : sys_exit 10 7 family = Ok (tt, family_after).
Proof. apply the_state_ok. vm_compute. reflexivity. Qed.
Lemma family_free : free_blocks (CHILD + 4096) CHILD (memory_of family_back) = Ok (tt, family_freed).
Proof. apply the_memory_ok. vm_compute. reflexivity. Qed.
Definition family_left : queue_map := <[100 := [16384]]> family_queues.
Lemma family_left_entries a xs : family_left !! a = Some xs -> (a = 100 /\ xs = [16384]) \/ (a = 2408 /\ xs = []).
Proof.
  unfold family_left. rewrite lookup_insert. case_decide; [intros [= <-]; by left|]. unfold family_queues. cbn. intros Hx.
  apply lookup_insert_Some in Hx as [[<- <-]|[_ Hx]]; [done|].
  apply lookup_insert_Some in Hx as [[<- <-]|[_ Hx]]; [by right|by rewrite lookup_empty in Hx].
Qed.
Lemma family_discardable : discardable family_back family_left [8192; CHILD; 16384] CHILD family_ended family_freed.
Proof.
  split; [by vm_compute|by right; left| |by vm_compute|by vm_compute|by vm_compute; eexists|exact family_free|].
  - intros a xs [[-> ->]|[-> ->]]%family_left_entries Hin; [by apply list_elem_of_singleton in Hin|by apply not_elem_of_nil in Hin].
  - split; [by vm_compute|by vm_compute| |by vm_compute].
    assert (pid_bm (pids family_back) = Bitmap [7] 1 0) as -> by by vm_compute.
    split; [done|by vm_compute|repeat constructor; lia].
Qed.
Lemma exit_reaches_waiting_parent_witness :
  exists s', sys_wait 10 family_back = Ok (Some (Returned 2 (Some 7)), s').
Proof.
  destruct (exit_reaches_waiting_parent 10 family family_queues [16384] [8192; CHILD; 16384] family_child 8192 family_parent 7
              family_released false family_freed family_exiting eq_refl family_release ltac:(cbn; lia)) as (s1 & E1 & _ & Hw).
  - intros t bt Ht Hne. repeat (apply list.elem_of_cons in Ht as [->|Ht]; [first [done|intros [= <-]; by vm_compute]|]).
    by apply not_elem_of_nil in Ht.
  - pose proof (ok_inj _ _ (eq_trans (eq_sym E1) family_exit)) as ->.
    exact (Hw family_discardable).
Defined.

(** The parent of the same family, had it not waited before. *)
Lemma family_back_people : people (kn family_back) family_left [16384] [8192; CHILD; 16384].
Proof.
  assert (exists s1, sys_exit 10 7 family = Ok (tt, s1) /\ people (kn s1) family_left [16384] [8192; CHILD; 16384]) as (s1 & E1 & Hp).
  { destruct (exit_end_ok 10 family family_queues [16384] [8192; CHILD; 16384] family_child 8192 family_parent 7
                family_released 8192 [16384] family_exiting family_release eq_refl ltac:(cbn; lia)) as (s1 & E1 & Hs1).
    exists s1. split; [|exact (ho_people _ _ _ _ _ _ _ _ Hs1)].
    rewrite (sys_exit_begin 10 _ _ _ _ _ _ _ 7 _ family_exiting ltac:(cbn; lia) family_release). exact E1. }
  pose proof (ok_inj _ _ (eq_trans (eq_sym E1) family_exit)) as ->. exact (people_intr false _ _ _ _ Hp).
Qed.
Lemma sys_wait_collects_witness :
  exists r s', sys_wait 10 family_back = Ok (Some r, s') /\ r = Returned 2 (Some 7).
Proof.
  destruct (sys_wait_collects 10 family_back family_left 16384 [] [8192; CHILD; 16384] (set_status THREAD_TASK_RUNNING family_parent)
              family_back_people) as (r & s' & E1 & Hr).
  - by vm_compute.
  - cbn. lia.
  - cbn. lia.
  - apply (wc_hanging _ _ _ _ CHILD family_ended family_freed); [by vm_compute|exact family_discardable].
  - exists r, s'. split; [exact E1|].
    assert (first_with (kn family_back) [8192; CHILD; 16384] (hanging_child_of (pid (set_status THREAD_TASK_RUNNING family_parent))) = Some CHILD) as Ef by by vm_compute.
    rewrite Ef in Hr. destruct Hr as (th & xs & ys & Hth & -> & _).
    assert (tasks (kn family_back) !! CHILD = Some family_ended) as Et by by vm_compute. rewrite Et in Hth. by injection Hth as <-.
Defined.

(** * Runs of the process calls, and what they do wrong *)

(** ** From fork to the end
    The machine of ProcessSpec.v starts with the main thread at 0xc009e000.
    The first process is made, then the main and the idle thread; the process
    runs, forks and waits; the child runs, exits with code 7,
    and the wait returns its pid and code. *)
Section life.
#[local] Instance life_globals : Globals :=
  {| thread_ready_list := 100; thread_all_list := 300;
     Kernel.addr_v2p := fun a => a - 0xc0100000 + 0x203000 |}.
Definition MAIN : Z := 0xc009e000.
Definition FIRST : Z := 0xc0100000.
Definition IDLE : Z := 0xc0119000.
Definition FORKED : Z := 0xc011a000.
Definition life_kern : kern :=
  Kern (foldr (fun p h => <[p := Node p p]> h) ∅ [100; 300; 2108; 2208; 2408]) {[MAIN := zero_tcb]}
       (list_to_map [(2100, Lock 0 1 0); (2200, Lock 0 1 0); (2400, Lock 0 1 0)]) MAIN false 0 0x100000 0 IDLE MAIN.
Definition life_start : os :=
  Os life_kern family_start ∅ {[MAIN := zero_proc]} demo_state (Pids (Bitmap [] 0 0) 1) (fun _ => 0).
Definition boot : M os (option Z) :=
  init_pid_bitmap 4096 ;;;
  _ <~ process_execute 20 0x8000000 [105; 110; 105; 116] ;;
  _ <~ make_main_thread 20 ;;
  thread_start 20 [105; 100; 108; 101] 10 7 0.
(** The clock gives the processor away until [t] has it. *)
Fixpoint until (n : nat) (t : Z) : M os unit :=
  match n with
  | O => ret tt
  | S n => c <- on_kern running_thread ;; if c =? t then ret tt else (on_kern (schedule 20) ;;; until n t)
  end.
(** The pid that fork returned, the outcome of the first wait and of the
    second, and the name of the child. *)
Definition life : M os (option (option Z * option wait_result * option wait_result * list Z)) :=
  _ <~ boot ;;
  until 5 FIRST ;;;
  id <- sys_fork 20 ;;
  w1 <- sys_wait 20 ;;
  until 5 FORKED ;;;
  p <- proc_at FORKED ;;
  sys_exit 20 7 ;;;
  until 5 FIRST ;;;
  w2 <- sys_wait 20 ;;
  ret (Some (id, w1, w2, take 10 (name p))).
Definition outcome {A} (r : res (A * os)) : option A := match r with Ok (a, _) => Some a | _ => None end.
Lemma life_goes_on :
  outcome (life life_start) =
  Some (Some (Some 4, Some (Waiting false), Some (Returned 4 (Some 7)), [105; 110; 105; 116; 95; 102; 111; 114; 107; 0])).
Proof. vm_compute. reflexivity. Qed.
End life.

(** ** What the code does wrong *)
Section wrong.
#[local] Instance wrong_globals : Globals := family_globals.

(** A parent that waits for something else than a child: it is the only thread
    on the waiting list at 700.  The exit of its child puts the node that is
    linked there on the ready list as well: the parent runs, and the waiting
    list still begins with a node that does not belong to it. *)
Definition waiting_elsewhere : os :=
  set_kn (set_klists (<[700 := Node (8192 + 52) (8192 + 52)]> (<[8192 + 52 := Node 700 700]> (klists family_kern))) family_kern) family.
Lemma parent_leaves_its_queue :
  let s' := the_state family (sys_exit 10 7 waiting_elsewhere) in
  outcome (sys_exit 10 7 waiting_elsewhere) = Some tt /\ current (kn s') = 8192 /\
  klists (kn s') !! 700 = Some (Node (8192 + 52) (8192 + 52)) /\ klists (kn s') !! (8192 + 52) = Some (Node (8192 + 52) (8192 + 52)).
Proof. vm_compute. done. Qed.

(** The first process waits in [sys_wait]; the process at 8192 has a child
    that has ended, and ends itself.  The first process gets the ended child,
    and is not woken to collect it. *)
Definition adopting : os :=
  set_kn (Kern (list_to_map [(100, Node (16384 + 52) (16384 + 52)); (16384 + 52, Node 100 100);
                             (300, Node (24576 + 60) (8192 + 60)); (8192 + 60, Node 300 (CHILD + 60)); (CHILD + 60, Node (8192 + 60) (16384 + 60));
                             (16384 + 60, Node (CHILD + 60) (20480 + 60)); (20480 + 60, Node (16384 + 60) (24576 + 60)); (24576 + 60, Node (20480 + 60) 300);
                             (8192 + 52, Node 0 0); (CHILD + 52, Node 0 0); (20480 + 52, Node 0 0); (24576 + 52, Node 0 0); (2408, Node 2408 2408)])
               (list_to_map [(8192, person 5 (u32 (-1)) THREAD_TASK_BLOCKED 0); (CHILD, person 2 5 THREAD_TASK_RUNNING (CHILD + 4096));
                             (16384, person 3 (u32 (-1)) THREAD_TASK_READY 0); (20480, person 1 (u32 (-1)) THREAD_TASK_WAITING 0);
                             (24576, person 4 2 THREAD_TASK_HANGING 0)])
               {[2400 := Lock 0 1 0]} CHILD false 0 0x100000 0 16384 4096) family.
Lemma adopted_zombie_is_not_collected :
  let s' := the_state family (sys_exit 10 7 adopting) in
  outcome (sys_exit 10 7 adopting) = Some tt /\
  (status <$> tasks (kn s') !! 20480) = Some THREAD_TASK_WAITING /\
  ((fun b => hanging_child_of 1 b) <$> tasks (kn s') !! 24576) = Some true.
Proof. vm_compute. done. Qed.

(** A process of ring 1 adds four times the size of a thread's frame to its
    stack pointer: its registers go to the page behind its control block. *)
Definition ring1_state : os :=
  set_procs {[CHILD := set_kstack (CHILD + PAGE - sizeof_context - sizeof_thread_stack)
    (set_vmap (Vaddr (Bitmap (replicate (Z.to_nat user_bitmap_len) 0) user_bitmap_len 0) USER_VADDR_START) family_proc_of)]} family.
Lemma ring1_frame_is_outside :
  stacks (the_state family (start_process_ring1 0 ring1_state)) (CHILD + PAGE + 20 + 64) = Z.lor EFLAGS_IF_1 EFLAGS_RESERVED.
Proof. vm_compute. reflexivity. Qed.

(** With no pid left, a new process stops the machine. *)
Lemma no_pid_left_panics :
  allocate_pid 10 (set_pids (Pids (Bitmap [255] 1 0) 1) family) = Panic.
Proof. vm_compute. reflexivity. Qed.
End wrong.
