(* ===== verification/WaitQueue.v ===== *)
(** * WaitQueue: queues of threads that wait for an event
    (core/include/sys/wait.h, core/thread/sched.c, core/thread/fork.c)

    A thread that waits has an entry, on its stack or in a page, linked into
    the list of a queue head.  Entries and heads are named by their addresses;
    their list nodes lie inside them, in the list memory of the kernel.  The
    debugging checks of wait.h are compiled in ([WAITQUEUE_DEBUG] is 1): every
    entry and head holds its own address, and [BUG] is an invalid
    instruction, at which the kernel stops. *)
From S2P Require Import Prelude Lists Kernel.

(** [wait_queue_t] and [wait_queue_head_t], without their list nodes. *)
Record wait_queue := Wait { w_flags : Z; w_task : Z; w_magic : Z; w_waker : Z }.
Record wait_queue_head := WaitHead { h_latch : Z; h_magic : Z; h_creator : Z }.
#[export] Instance wait_queue_eq_dec : EqDecision wait_queue.
Proof. solve_decision. Defined.
#[export] Instance wait_queue_head_eq_dec : EqDecision wait_queue_head.
Proof. solve_decision. Defined.

(** The addresses of [task_list] and [__magic] in an entry and in a head. *)
Definition entry_list (e : Z) : Z := e + 8.
Definition of_entry_list (p : Z) : Z := p - 8.
Definition entry_magic (e : Z) : Z := e + 16.
Definition head_list (q : Z) : Z := q + 4.
Definition head_magic (q : Z) : Z := q + 12.

(** The kernel with its wait queues. *)
Record wq := Wq { wkern : kern; waits : gmap Z wait_queue; heads : gmap Z wait_queue_head }.
Definition set_wkern k s := Wq k (waits s) (heads s).
Definition set_waits m s := Wq (wkern s) m (heads s).
Definition set_heads m s := Wq (wkern s) (waits s) m.
#[export] Program Instance wq_lists : HasLists wq :=
  {| lists s := klists (wkern s); set_lists h s := set_wkern (set_klists h (wkern s)) s |}.
Solve All Obligations with by repeat intros [].
Next Obligation. by intros [[] ??]. Qed.

Section accesses.
Definition in_kern {A} (c : M kern A) : M wq A := zoom wkern set_wkern c.
Definition wait_at (e : Z) : M wq wait_queue :=
  fun s => match waits s !! e with Some w => Ok (w, s) | None => Fault end.
Definition head_at (q : Z) : M wq wait_queue_head :=
  fun s => match heads s !! q with Some x => Ok (x, s) | None => Fault end.
Definition put_wait (e : Z) (w : wait_queue) : M wq unit :=
  modify (fun s => set_waits (<[e := w]> (waits s)) s).
Definition put_head (q : Z) (x : wait_queue_head) : M wq unit :=
  modify (fun s => set_heads (<[q := x]> (heads s)) s).
End accesses.

Section wait_queues.
(** The address that [__builtin_return_address(0)] gives. *)
Variable return_address : Z.

(** ** core/include/sys/wait.h *)
Definition WQ_BUG {A} : M wq A := panic.
Definition CHECK_MAGIC (e : Z) : M wq unit :=
  w <- wait_at e ;;
  when negb (w_magic w =? entry_magic e) do WQ_BUG.
Definition CHECK_MAGIC_WQHEAD (q : Z) : M wq unit :=
  x <- head_at q ;;
  when negb (h_magic x =? head_magic q) do WQ_BUG.
Definition WQ_CHECK_LIST_HEAD (l : Z) : M wq unit :=
  n <- get_next l ;;
  if n =? 0 then WQ_BUG else (p <- get_prev l ;; when p =? 0 do WQ_BUG).
Definition WQ_NOTE_WAKER (e : Z) : M wq unit :=
  w <- wait_at e ;;
  put_wait e (Wait (w_flags w) (w_task w) (w_magic w) return_address).

(** [DECLARE_WAITQUEUE]: the initialised entry is new memory at [name]. *)
Definition DECLARE_WAITQUEUE (name tsk : Z) : M wq unit :=
  put_wait name (Wait 0 tsk (entry_magic name) 0) ;;;
  modify (fun s => set_lists (<[entry_list name := Node 0 0]> (lists s)) s).

(** The fields [flags], [task] and [__magic] of [q]; the rest stays. *)
Definition init_waitqueue_entry (q p : Z) : M wq unit :=
  (when (q =? 0) || (p =? 0) do WQ_BUG) ;;;
  w <- wait_at q ;;
  put_wait q (Wait 0 p (entry_magic q) (w_waker w)).
Definition init_waitqueue_head (q : Z) : M wq unit :=
  (when q =? 0 do WQ_BUG) ;;;
  x <- head_at q ;;
  put_head q (WaitHead 0 (h_magic x) (h_creator x)) ;;;
  INIT_LIST_HEAD (head_list q) ;;;
  c <- in_kern running_thread ;;
  put_head q (WaitHead 0 (head_magic q) c).
Definition waitqueue_active (q : Z) : M wq bool :=
  (when q =? 0 do WQ_BUG) ;;;
  CHECK_MAGIC_WQHEAD q ;;;
  e <- list_is_empty (head_list q) ;;
  ret (negb e).
Definition __add_wait_queue (head new : Z) : M wq unit :=
  (when (head =? 0) || (new =? 0) do WQ_BUG) ;;;
  CHECK_MAGIC_WQHEAD head ;;;
  CHECK_MAGIC new ;;;
  WQ_CHECK_LIST_HEAD (head_list head) ;;;
  list_add (entry_list new) (head_list head).
Definition __add_wait_queue_tail (head new : Z) : M wq unit :=
  (when (head =? 0) || (new =? 0) do WQ_BUG) ;;;
  CHECK_MAGIC_WQHEAD head ;;;
  CHECK_MAGIC new ;;;
  WQ_CHECK_LIST_HEAD (head_list head) ;;;
  list_add_tail (entry_list new) (head_list head).
Definition __remove_wait_queue (head old : Z) : M wq unit :=
  (when old =? 0 do WQ_BUG) ;;;
  CHECK_MAGIC old ;;;
  list_del (entry_list old).

(** ** core/thread/fork.c *)
Definition add_wait_queue (q wait : Z) : M wq unit :=
  old_status <- in_kern intr_disable ;;
  __add_wait_queue q wait ;;;
  in_kern (intr_set_status old_status) ;;;
  ret tt.
Definition remove_wait_queue (q wait : Z) : M wq unit :=
  old_status <- in_kern intr_disable ;;
  __remove_wait_queue q wait ;;;
  in_kern (intr_set_status old_status) ;;;
  ret tt.

(** ** core/thread/sched.c *)
Section wake_up.
Context {G : Globals}.
(** Fuel for the walk along the queue. *)
Variable fuel : nat.

Fixpoint wake_loop (fuel : nat) (q mode tmp : Z) : M wq unit :=
  match fuel with
  | O => stuck
  | S fuel =>
      if tmp =? head_list q then ret tt
      else
        let curr := of_entry_list tmp in
        CHECK_MAGIC curr ;;;
        w <- wait_at curr ;;
        let p := w_task w in
        t <- in_kern (tcb p) ;;
        stop <- (if negb (Z.land (status t) mode =? 0) then
                   WQ_NOTE_WAKER curr ;;;
                   success <- in_kern (try_to_wake_up p) ;;
                   ret (negb (success =? 0))
                 else ret false) ;;
        if stop : bool then ret tt
        else (tmp <- get_next tmp ;; wake_loop fuel q mode tmp)
  end.
(** The arguments [nr_exclusive] and [sync] are not looked at. *)
Definition __wake_up_common (q mode nr_exclusive sync : Z) : M wq unit :=
  CHECK_MAGIC_WQHEAD q ;;;
  WQ_CHECK_LIST_HEAD (head_list q) ;;;
  tmp <- get_next (head_list q) ;;
  wake_loop fuel q mode tmp.
Definition __wake_up (q mode nr : Z) : M wq unit :=
  when negb (q =? 0) do __wake_up_common q mode nr 0.
Definition wake_up (x : Z) : M wq unit :=
  __wake_up x (Z.lor THREAD_TASK_WAITING THREAD_TASK_BLOCKED) 1.
Definition wake_up_interruptible (x : Z) : M wq unit := __wake_up x THREAD_TASK_WAITING 1.
End wake_up.
End wait_queues.
