(* ===== verification/WaitQueueSpec.v ===== *)
(** * WaitQueueSpec: who is woken, and what joining and leaving a queue do *)
From S2P Require Import Prelude Lists ListProofs Kernel Queues Sched WaitQueue.

Section waking.
Context {G : Globals}.
Implicit Types (k : kern) (s : wq) (Q : queue_map) (rq es : list Z).

(** A thread that is on no list of threads: its node points to itself. *)
Definition unlinked k Q (t : Z) : Prop := off_queues Q t /\ dll (klists k) (general_tag t) [].

(** The end of the ready list is the place of a thread that is woken. *)
Definition readied k (t : Z) (b : TCB) (h : lheap) : kern :=
  set_tasks (<[t := set_status THREAD_TASK_READY b]> (tasks k)) (set_klists h k).

Lemma try_to_wake_up_ok k Q rq t b :
  queues (klists k) (alive k) Q -> rl Q rq -> tasks k !! t = Some b -> unlinked k Q t ->
  exists h', try_to_wake_up t k = Ok (1, readied k t b h') /\
    queues h' (alive k) (<[thread_ready_list := rq ++ [t]]> Q) /\
    unchanged_except (thread_ready_list :: (general_tag <$> t :: rq)) (klists k) h'.
Proof.
  intros HQ Hrl Hb [Hoff [[Hn Hp] _]].
  set (k1 := set_tasks (<[t := set_status THREAD_TASK_READY b]> (tasks k)) (set_intr false k)).
  destruct (q_push_tail_framed (L:=kern_lists) k1 (alive k) Q _ rq t HQ Hrl) as (h' & E & HQ' & Hu);
    [by eexists|done|].
  exists h'. split; [|done]. unfold try_to_wake_up. run (intr_disable_ok k).
  run (upd_tcb_ok (set_intr false k) t b (set_status THREAD_TASK_READY)); [|done].
  fold k1. assert (task_on_readylist t k1 = Ok (false, k1)) as Eo.
  { assert (get_next (general_tag t) k1 = Ok (general_tag t, k1)) as En by by apply (get_next_ok (S:=kern)).
    unfold task_on_readylist. run En. by rewrite Z.eqb_refl. }
  run Eo. unfold add_to_readylist. run E. rets. run (intr_set_status_ok (intr k)).
  by destruct k.
Qed.

(** ** A queue and its entries *)
Record wait_list s (q : Z) es : Prop := {
  wl_dll : dll (klists (wkern s)) (head_list q) (entry_list <$> es);
  wl_head : exists x, heads s !! q = Some x /\ h_magic x = head_magic q;
  wl_pos : 0 < q;
  wl_entry : forall e, e ∈ es -> 0 < e /\ exists w, waits s !! e = Some w /\
    w_magic w = entry_magic e /\ alive (wkern s) (w_task w) }.

(** A node that is neither that of a thread nor the head of a list of threads. *)
Definition apart k Q (p : Z) : Prop := Q !! p = None /\ forall t, alive k t -> p <> general_tag t.

(** The thread of the entry has a status that [mode] asks for. *)
Definition matches s (mode e : Z) : bool :=
  match waits s !! e with
  | Some w => match tasks (wkern s) !! w_task w with
              | Some b => negb (Z.land (status b) mode =? 0) | None => false end
  | None => false
  end.

(** Threads wait on the queue [q] with entries [es]; those a wake-up of
    [mode] is for are on no list of threads. *)
Record waiting s Q rq (mode q : Z) es : Prop := {
  wt_queues : queues (klists (wkern s)) (alive (wkern s)) Q;
  wt_ready : rl Q rq;
  wt_list : wait_list s q es;
  wt_apart : forall p, p ∈ head_list q :: (entry_list <$> es) -> apart (wkern s) Q p;
  wt_off : forall e w, e ∈ es -> matches s mode e = true -> waits s !! e = Some w ->
    unlinked (wkern s) Q (w_task w) }.

Definition note_waker (ra : Z) (w : wait_queue) : wait_queue := Wait (w_flags w) (w_task w) (w_magic w) ra.

Lemma check_magic_ok s e w : waits s !! e = Some w -> w_magic w = entry_magic e -> CHECK_MAGIC e s = Ok (tt, s).
Proof.
  intros Hw Hm. unfold CHECK_MAGIC, bind, wait_at. rewrite Hw, Hm, Z.eqb_refl. done.
Qed.
Lemma check_head_ok s q x : heads s !! q = Some x -> h_magic x = head_magic q -> CHECK_MAGIC_WQHEAD q s = Ok (tt, s).
Proof.
  intros Hw Hm. unfold CHECK_MAGIC_WQHEAD, bind, head_at. rewrite Hw, Hm, Z.eqb_refl. done.
Qed.
Lemma check_list_ok s q es : wait_list s q es -> WQ_CHECK_LIST_HEAD (head_list q) s = Ok (tt, s).
Proof.
  intros [Hd _ Hq He]. unfold WQ_CHECK_LIST_HEAD.
  assert (forall p, p ∈ head_list q :: (entry_list <$> es) -> p <> 0) as Hne.
  { intros p [->|(e & -> & Hin)%list_elem_of_fmap]%list.elem_of_cons; unfold head_list, entry_list; [lia|].
    destruct (He e Hin). lia. }
  destruct (dll_first _ _ _ Hd) as (f & Hf & _ & ->). destruct (dll_last _ _ _ Hd) as (l & Hl & _ & ->).
  assert (get_next (head_list q) s = Ok (default (head_list q) ((entry_list <$> es) !! 0%nat), s)) as En by by apply (get_next_ok (S:=wq)).
  assert (get_prev (head_list q) s = Ok (default (head_list q) (list.last (entry_list <$> es)), s)) as Ep by by apply (get_prev_ok (S:=wq)).
  run En. rewrite (proj2 (Z.eqb_neq _ 0)).
  2:{ apply Hne. pose proof (first_elem (entry_list <$> es) (head_list q)). set_solver. }
  run Ep. rewrite (proj2 (Z.eqb_neq _ 0)); [done|].
  apply Hne, last_elem.
Qed.
Lemma entry_of_list e : of_entry_list (entry_list e) = e.
Proof. unfold of_entry_list, entry_list. lia. Qed.
#[export] Instance entry_list_Inj : Inj (=) (=) entry_list.
Proof. intros ??. unfold entry_list. lia. Qed.

(** Nodes that a wake-up does not touch. *)
Lemma dll_unchanged h h' (ps : list Z) a xs :
  dll h a xs -> unchanged_except ps h h' -> (forall p, p ∈ a :: xs -> p ∉ ps) -> dll h' a xs.
Proof. intros Hd [Hu _] Hp. eapply dll_frame; [done|]. intros p Hin. by apply Hu, Hp. Qed.

(** The state after the thread of the entry [e] was woken. *)
Definition woken s (ra e t : Z) (w : wait_queue) (b : TCB) (h : lheap) : wq :=
  Wq (readied (wkern s) t b h) (<[e := note_waker ra w]> (waits s)) (heads s).

Lemma woken_waiting s Q rq mode q es ra e w b h :
  waiting s Q rq mode q es -> waits s !! e = Some w -> tasks (wkern s) !! w_task w = Some b ->
  Z.land THREAD_TASK_READY mode = 0 ->
  queues h (alive (wkern s)) (<[thread_ready_list := rq ++ [w_task w]]> Q) ->
  unchanged_except (thread_ready_list :: (general_tag <$> w_task w :: rq)) (klists (wkern s)) h ->
  waiting (woken s ra e (w_task w) w b h) (<[thread_ready_list := rq ++ [w_task w]]> Q) (rq ++ [w_task w]) mode q es.
Proof.
  intros [HQ Hrl [Hd Hh Hq He] Hap Hoff] Hw Hb Hmode HQ' Hu.
  set (t := w_task w) in *. set (s' := woken _ _ _ _ _ _ _).
  assert (forall u, alive (wkern s') u <-> alive (wkern s) u) as HT by (intros u; apply (alive_insert (set_klists h (wkern s))); by eexists).
  assert (forall p, apart (wkern s) Q p -> p ∉ thread_ready_list :: (general_tag <$> t :: rq)) as Hnot.
  { intros p [Hp1 Hp2] [->|(u & -> & Hu')%list_elem_of_fmap]%list.elem_of_cons; [by rewrite Hrl in Hp1|].
    apply (Hp2 u); [|done]. apply list.elem_of_cons in Hu' as [->|Hu']; [by eexists|by eapply (q_in _ _ _ HQ)]. }
  assert (forall e' w', waits s' !! e' = Some w' -> exists w0, waits s !! e' = Some w0 /\ w_task w0 = w_task w' /\ w_magic w0 = w_magic w') as Hold.
  { intros e' w'. simpl. rewrite lookup_insert. case_decide; [subst; intros [= <-]; by exists w|by exists w']. }
  assert (forall e' w0, waits s !! e' = Some w0 -> exists w', waits s' !! e' = Some w' /\ w_task w0 = w_task w' /\ w_magic w0 = w_magic w') as Hnew.
  { intros e' w0 Hw0. simpl. rewrite lookup_insert. case_decide; [subst; simplify_eq; by eexists|by exists w0]. }
  split.
  - eapply queues_ext; [|exact HQ']. intros u. symmetry. apply HT.
  - unfold rl. by rewrite lookup_insert_eq.
  - split; [|done|done|].
    + eapply dll_unchanged; [exact Hd|exact Hu|]. intros p Hp. by apply Hnot, Hap.
    + intros e' He'. destruct (He e' He') as (? & w0 & Hw0 & Em & Hal). split; [done|].
      destruct (Hnew e' w0 Hw0) as (w' & ? & Et & Em'). exists w'. rewrite HT, <-Et, <-Em'. done.
  - intros p Hp. destruct (Hap p Hp) as [Hp1 Hp2]. split; [|intros u Hu'%HT; by apply Hp2].
    rewrite lookup_insert. case_decide; [subst; by rewrite Hrl in Hp1|done].
  - intros e' w' He' Hm' Hw'. destruct (Hold e' w' Hw') as (w0 & Hw0 & Et & _).
    unfold matches in Hm'. rewrite Hw' in Hm'. simpl in Hm'. rewrite lookup_insert in Hm'. case_decide as Hne.
    { simpl in Hm'. by rewrite Hmode in Hm'. }
    destruct (Hoff e' w0 He') as [Ho Hs]; [|done|].
    { unfold matches. by rewrite Hw0, Et. }
    rewrite Et in Ho, Hs. split.
    + eapply off_ready; [exact Hrl|done|by apply not_eq_sym|]. intros v. rewrite list.elem_of_app, list.elem_of_cons. set_solver.
    + eapply dll_unchanged; [exact Hs|exact Hu|]. intros p [->|Hp]%list.elem_of_cons; [|by apply not_elem_of_nil in Hp].
      intros [Hp|(u & Ep%general_tag_inj & Hu')%list_elem_of_fmap]%list.elem_of_cons.
      * destruct (He e' He') as (_ & w1 & Hw1 & _ & Hal). simplify_eq.
        eapply (q_head _ _ _ HQ); [exact Hrl| |exact Hp]. by rewrite <-Et.
      * subst u. apply list.elem_of_cons in Hu' as [?|?]; [done|]. by apply (Ho _ _ Hrl).
Qed.
(** What a wake-up of the queue does, starting at the entries [ys]. *)
Definition wakes s Q rq (ra mode : Z) (ys : list Z) (r : res (unit * wq)) : Prop :=
  match List.find (matches s mode) ys with
  | None => r = Ok (tt, s)
  | Some e => exists w b h, waits s !! e = Some w /\ tasks (wkern s) !! w_task w = Some b /\
      r = Ok (tt, woken s ra e (w_task w) w b h) /\
      queues h (alive (wkern s)) (<[thread_ready_list := rq ++ [w_task w]]> Q) /\
      unchanged_except (thread_ready_list :: (general_tag <$> w_task w :: rq)) (klists (wkern s)) h
  end.

Lemma wake_up_loop_ok ra fuel s Q rq mode q pre ys :
  waiting s Q rq mode q (pre ++ ys) -> (length ys < fuel)%nat ->
  wakes s Q rq ra mode ys
    (wake_loop ra fuel q mode (default (head_list q) ((entry_list <$> ys) !! 0%nat)) s).
Proof.
  revert fuel pre. induction ys as [|e ys IH]; intros [|fuel] pre HW Hf; simpl in Hf; try lia; unfold wakes; simpl.
  { by rewrite Z.eqb_refl. }
  destruct (wl_entry _ _ _ (wt_list _ _ _ _ _ _ HW) e) as (He & w & Hw & Hmg & [b Hb]); [set_solver|].
  destruct (wl_dll _ _ _ (wt_list _ _ _ _ _ _ HW)) as [Hs Hn].
  rewrite fmap_app, fmap_cons in Hs, Hn.
  rewrite (proj2 (Z.eqb_neq (entry_list e) (head_list q))) by (intros E; rewrite E in Hn; nodup_hyps; set_solver).
  rewrite entry_of_list. run (check_magic_ok s e w Hw Hmg).
  assert (wait_at e s = Ok (w, s)) as Ew by (unfold wait_at; by rewrite Hw). run Ew.
  assert (in_kern (tcb (w_task w)) s = Ok (b, s)) as Eb by (unfold in_kern, zoom, tcb; rewrite Hb; by destruct s). run Eb.
  assert (matches s mode e = negb (Z.land (status b) mode =? 0)) as Hm by (unfold matches; by rewrite Hw, Hb). rewrite Hm.
  destruct (negb (Z.land (status b) mode =? 0)) eqn:Hst.
  - destruct (try_to_wake_up_ok (wkern s) Q rq (w_task w) b) as (h & E & HQ' & Hu); [apply HW|apply HW|done| |].
    { eapply (wt_off _ _ _ _ _ _ HW e); [set_solver|done..]. }
    exists w, b, h. split_and!; [done..| |done|done].
    unfold WQ_NOTE_WAKER. run Ew. unfold put_wait. rewrite modify_bind. fold (note_waker ra w).
    assert (in_kern (try_to_wake_up (w_task w)) (set_waits (<[e := note_waker ra w]> (waits s)) s)
      = Ok (1, woken s ra e (w_task w) w b h)) as E' by (unfold in_kern, zoom; simpl; by rewrite E).
    run E'. done.
  - rets. assert (get_next (entry_list e) s = Ok (default (head_list q) ((entry_list <$> ys) !! 0%nat), s)) as En.
    { apply (get_next_ok (S:=wq)). apply seg_app in Hs as [_ Hs]. by destruct ys; [destruct Hs|destruct Hs as (? & _)]. }
    run En. apply (IH fuel (pre ++ [e])); [by rewrite <-app_assoc|lia].
Qed.

Lemma wake_up_common_ok ra fuel s Q rq mode q es nr sync :
  waiting s Q rq mode q es -> (length es < fuel)%nat ->
  wakes s Q rq ra mode es (__wake_up_common ra fuel q mode nr sync s).
Proof.
  intros HW Hf. pose proof (wt_list _ _ _ _ _ _ HW) as HL. unfold __wake_up_common.
  destruct (wl_head _ _ _ HL) as (x & Hx & Hm). run (check_head_ok s q x Hx Hm).
  run (check_list_ok s q es HL). destruct (dll_first _ _ _ (wl_dll _ _ _ HL)) as (f & Hf' & _ & ->).
  assert (get_next (head_list q) s = Ok (default (head_list q) ((entry_list <$> es) !! 0%nat), s)) as En
    by by apply (get_next_ok (S:=wq)).
  run En. by apply (wake_up_loop_ok ra fuel s Q rq mode q []).
Qed.
Lemma wake_up_ok ra fuel s Q rq mode q es nr :
  waiting s Q rq mode q es -> (length es < fuel)%nat -> wakes s Q rq ra mode es (__wake_up ra fuel q mode nr s).
Proof.
  intros HW Hf. unfold __wake_up. pose proof (wl_pos _ _ _ (wt_list _ _ _ _ _ _ HW)).
  rewrite (proj2 (Z.eqb_neq q 0)) by lia. by apply wake_up_common_ok.
Qed.
(** Threads wait on several queues; those that are not woken wait as before. *)
Definition sleepers (fuel : nat) s (qs : list (Z * list Z)) : Prop :=
  exists Q rq, forall q es, (q, es) ∈ qs -> waiting s Q rq THREAD_TASK_WAITING q es /\ (length es < fuel)%nat.
Lemma wakes_sleepers fuel ra s Q rq qs es s' :
  (forall q es, (q, es) ∈ qs -> waiting s Q rq THREAD_TASK_WAITING q es /\ (length es < fuel)%nat) ->
  wakes s Q rq ra THREAD_TASK_WAITING es (Ok (tt, s')) -> sleepers fuel s' qs.
Proof.
  intros HW Hr. unfold wakes in Hr. destruct (List.find _ _) as [e|] eqn:Ef; [|injection Hr as ->; by exists Q, rq].
  destruct Hr as (w & b & h & Hw & Hb & [= ->] & HQ & Hu). eexists _, _. intros q es' Hin.
  destruct (HW q es' Hin) as [HW' Hf]. split; [|done]. by apply (woken_waiting s Q rq THREAD_TASK_WAITING).
Qed.

(** ** Joining and leaving *)
Lemma queues_outside h h' T Q (ps : list Z) :
  queues h T Q -> unchanged_except ps h h' ->
  (forall p, p ∈ ps -> Q !! p = None /\ forall t, T t -> p <> general_tag t) -> queues h' T Q.
Proof.
  intros HQ Hu Hp. split; try apply HQ.
  - intros a xs Ha. eapply dll_unchanged; [by apply HQ|done|].
    intros p [->|(t & -> & Ht)%list_elem_of_fmap]%list.elem_of_cons Hin; destruct (Hp _ Hin) as [Hp1 Hp2]; [congruence|].
    apply (Hp2 t); [by eapply (q_in _ _ _ HQ)|done].
  - intros t Ht. apply Hu. by apply HQ.
Qed.
Lemma unlinked_outside k h Q (ps : list Z) t :
  unlinked k Q t -> unchanged_except ps (klists k) h -> general_tag t ∉ ps -> unlinked (set_klists h k) Q t.
Proof.
  intros [Ho Hd] Hu Hp. split; [done|]. eapply dll_unchanged; [exact Hd|exact Hu|].
  intros p [->|Hin]%list.elem_of_cons; [done|by apply not_elem_of_nil in Hin].
Qed.

Lemma in_kern_bind {A B} (c : M kern A) (f : A -> M wq B) s a k' :
  c (wkern s) = Ok (a, k') -> bind (in_kern c) f s = f a (set_wkern k' s).
Proof. intros E. unfold bind, in_kern, zoom. by rewrite E. Qed.

Lemma add_wait_queue_ok s q es e w :
  wait_list s q es -> waits s !! e = Some w -> w_magic w = entry_magic e -> alive (wkern s) (w_task w) -> 0 < e ->
  mapped (klists (wkern s)) (entry_list e) -> entry_list e ∉ head_list q :: (entry_list <$> es) ->
  exists h, add_wait_queue q e s = Ok (tt, set_lists h s) /\ wait_list (set_lists h s) q (e :: es) /\
    unchanged_except (entry_list e :: head_list q :: (entry_list <$> es)) (klists (wkern s)) h.
Proof.
  intros HL Hw Hm Ha He Hmap Hnin. pose proof HL as [Hd (x & Hx & Hxm) Hq Hes].
  set (s0 := set_wkern (set_intr false (wkern s)) s).
  assert (wait_list s0 q es) as HL0 by (split; [done|by exists x|done|done]).
  destruct (list_add_ok (S:=wq) (H:=wq_lists) s0 (entry_list e) (head_list q) (entry_list <$> es)) as (h & E & Hd' & Hu); [done..|].
  exists h. split_and!; [| |done].
  - unfold add_wait_queue. erewrite in_kern_bind by apply intr_disable_ok. fold s0.
    unfold __add_wait_queue. rewrite (proj2 (Z.eqb_neq q 0)), (proj2 (Z.eqb_neq e 0)) by lia.
    rewrite ?bind_assoc. cbn [orb]. rewrite bind_ret, ?bind_assoc. run (check_head_ok s0 q x Hx Hxm).
    run (check_magic_ok s0 e w Hw Hm). run (check_list_ok s0 q es HL0). run E.
    erewrite in_kern_bind by apply (intr_set_status_ok (intr (wkern s))). unfold s0. destruct s as [[] ? ?]; done.
  - split; [done|by exists x|done|]. intros e' [->|Hin]%list.elem_of_cons; [split; [done|by exists w]|by apply Hes].
Qed.

Lemma remove_wait_queue_ok s q xs e ys :
  wait_list s q (xs ++ e :: ys) ->
  exists h, remove_wait_queue q e s = Ok (tt, set_lists h s) /\ wait_list (set_lists h s) q (xs ++ ys) /\
    unchanged_except (head_list q :: (entry_list <$> xs ++ e :: ys)) (klists (wkern s)) h.
Proof.
  intros HL. pose proof HL as [Hd (x & Hx & Hxm) Hq Hes].
  destruct (Hes e) as (He & w & Hw & Hm & Ha); [set_solver|].
  set (s0 := set_wkern (set_intr false (wkern s)) s).
  rewrite fmap_app, fmap_cons in Hd.
  destruct (list_del_ok (S:=wq) (H:=wq_lists) s0 (entry_list e) (head_list q) (entry_list <$> xs) (entry_list <$> ys) Hd) as (h & E & Hd' & _ & Hu).
  exists h. split_and!.
  - unfold remove_wait_queue. erewrite in_kern_bind by apply intr_disable_ok. fold s0.
    unfold __remove_wait_queue. rewrite (proj2 (Z.eqb_neq e 0)) by lia.
    rewrite ?bind_assoc, bind_ret. run (check_magic_ok s0 e w Hw Hm). run E.
    erewrite in_kern_bind by apply (intr_set_status_ok (intr (wkern s))). unfold s0. destruct s as [[] ? ?]; done.
  - split; [|by exists x|done|]. { by rewrite fmap_app. } intros e' Hin. apply Hes. set_solver.
  - by rewrite fmap_app, fmap_cons.
Qed.

(** The entry of a thread is new memory. *)
Definition declared s (e t : Z) : wq :=
  Wq (set_klists (<[entry_list e := Node 0 0]> (klists (wkern s))) (wkern s)) (<[e := Wait 0 t (entry_magic e) 0]> (waits s)) (heads s).
Lemma DECLARE_WAITQUEUE_ok e t s : DECLARE_WAITQUEUE e t s = Ok (tt, declared s e t).
Proof. by destruct s. Qed.
Lemma declared_unchanged e s t : unchanged_except [entry_list e] (klists (wkern s)) (klists (wkern (declared s e t))).
Proof.
  split; simpl; [intros p Hp; rewrite lookup_insert_ne; [done|set_solver]|].
  intros p Hp. apply lookup_insert_is_Some. destruct (decide (entry_list e = p)); [by left|by right].
Qed.
Lemma declared_waiting s Q rq mode q es e t :
  waiting s Q rq mode q es -> apart (wkern s) Q (entry_list e) -> entry_list e ∉ head_list q :: (entry_list <$> es) ->
  waiting (declared s e t) Q rq mode q es.
Proof.
  intros [HQ Hrl [Hd Hh Hq He] Hap Hoff] Hae Hnin. pose proof (declared_unchanged e s t) as Hu.
  assert (forall e', e' ∈ es -> waits (declared s e t) !! e' = waits s !! e') as Hsame.
  { intros e' Hin. simpl. rewrite lookup_insert_ne; [done|]. intros <-. apply Hnin. rewrite list.elem_of_cons. right. by apply list_elem_of_fmap_2. }
  split; [|done| |done|].
  - eapply queues_outside; [exact HQ|exact Hu|]. intros p Hp%list_elem_of_singleton. by subst.
  - split; [|done|done|].
    + eapply dll_unchanged; [exact Hd|exact Hu|]. set_solver.
    + intros e' Hin. rewrite Hsame by done. by apply He.
  - intros e' w Hin Hm Hw. rewrite Hsame in Hw by done. eapply (unlinked_outside (wkern s)); [|exact Hu|].
    + apply (Hoff e'); [done| |done]. revert Hm. unfold matches. by rewrite Hsame.
    + intros Hp%list_elem_of_singleton. destruct (He e' Hin) as (_ & w' & Hw' & _ & Hal). simplify_eq. by destruct (proj2 Hae _ Hal).
Qed.

Lemma add_waiting s Q rq mode q es e w :
  waiting s Q rq mode q es -> waits s !! e = Some w -> w_magic w = entry_magic e -> alive (wkern s) (w_task w) -> 0 < e ->
  mapped (klists (wkern s)) (entry_list e) -> entry_list e ∉ head_list q :: (entry_list <$> es) ->
  apart (wkern s) Q (entry_list e) -> unlinked (wkern s) Q (w_task w) ->
  exists h, add_wait_queue q e s = Ok (tt, set_lists h s) /\ waiting (set_lists h s) Q rq mode q (e :: es) /\
    unchanged_except (entry_list e :: head_list q :: (entry_list <$> es)) (klists (wkern s)) h.
Proof.
  intros [HQ Hrl HL Hap Hoff] Hw Hm Hal He Hmap Hnin Hae Hun.
  destruct (add_wait_queue_ok s q es e w HL Hw Hm Hal He Hmap Hnin) as (h & E & HL' & Hu).
  exists h. split_and!; [done| |done].
  assert (forall p, p ∈ entry_list e :: head_list q :: (entry_list <$> es) -> apart (wkern s) Q p) as Hap'.
  { intros p [->|Hp]%list.elem_of_cons; [done|by apply Hap]. }
  split; [|done|done| |].
  - eapply queues_outside; [exact HQ|exact Hu|]. exact Hap'.
  - intros p Hp. apply Hap'. rewrite fmap_cons in Hp. revert Hp. rewrite !list.elem_of_cons. tauto.
  - intros e' w' [->|Hin]%list.elem_of_cons Hm' Hw'; (eapply (unlinked_outside (wkern s)); [|exact Hu|]).
    + simpl in Hw'. simplify_eq. done.
    + intros Hp. simpl in Hw'. simplify_eq. by eapply (proj2 (Hap' _ Hp)).
    + by apply (Hoff e').
    + intros Hp. destruct (wl_entry _ _ _ HL e' Hin) as (_ & w0 & Hw0 & _ & Hal'). simpl in Hw'. simplify_eq.
      by eapply (proj2 (Hap' _ Hp)).
Qed.

(** ** Giving up the processor *)
Lemma rl_set Q rq rq' : rl Q rq -> rl (<[thread_ready_list := rq']> Q) rq'.
Proof. intros _. unfold rl. apply lookup_insert_eq. Qed.
Lemma apart_same k k' Q p rq rq' : rl Q rq -> (forall t, alive k' t <-> alive k t) -> apart k Q p -> apart k' (<[thread_ready_list := rq']> Q) p.
Proof.
  intros Hrl HT [H1 H2]. split; [|intros t Ht%HT; by apply H2].
  rewrite lookup_insert. case_decide; [subst; by rewrite Hrl in H1|done].
Qed.
Lemma apart_not_threads k Q rq p (us : list Z) : rl Q rq -> apart k Q p -> (forall u, u ∈ us -> alive k u) ->
  p ∉ thread_ready_list :: (general_tag <$> us).
Proof.
  intros Hrl [H1 H2] Hus [->|(u & -> & Hu)%list_elem_of_fmap]%list.elem_of_cons; [by rewrite Hrl in H1|].
  by apply (H2 u); [apply Hus|].
Qed.
Lemma tag_not_threads k Q rq t (us : list Z) : queues (klists k) (alive k) Q -> rl Q rq -> alive k t -> t ∉ us ->
  general_tag t ∉ thread_ready_list :: (general_tag <$> us).
Proof.
  intros HQ Hrl Ht Hn. apply list.not_elem_of_cons. rewrite elem_tags. split; [|done]. by eapply (q_head _ _ _ HQ).
Qed.

(** The queue [q] after a switch to [next]; only the threads [us] moved. *)
Lemma wait_list_kern s k' Q rq q es (us : list Z) :
  wait_list s q es -> rl Q rq -> (forall t, alive (wkern s) t -> alive k' t) ->
  (forall p, p ∈ head_list q :: (entry_list <$> es) -> apart (wkern s) Q p) -> (forall u, u ∈ us -> alive (wkern s) u) ->
  unchanged_except (thread_ready_list :: (general_tag <$> us)) (klists (wkern s)) (klists k') ->
  wait_list (set_wkern k' s) q es.
Proof.
  intros [Hd Hh Hq He] Hrl HT Hap Hus Hu. split; [|done|done|].
  - eapply dll_unchanged; [exact Hd|exact Hu|]. intros p Hp. eapply apart_not_threads; [done|by apply Hap|done].
  - intros e Hin. destruct (He e Hin) as (? & w & ? & ? & Ht). split; [done|]. exists w. auto.
Qed.

Lemma block_waiting fuel s Q next rest q es b :
  waiting s Q (next :: rest) THREAD_TASK_WAITING q es -> let k := wkern s in
  tasks k !! current k = Some b -> unlinked k Q (current k) -> (S (length rest) < fuel)%nat -> (forall t, alive k t -> t <> 0) ->
  exists k' n, thread_block fuel THREAD_TASK_WAITING k = Ok (intr k, k') /\ current k' = next /\
    tasks k !! next = Some n /\ next <> current k /\
    tasks k' = <[next := set_status THREAD_TASK_RUNNING n]> (<[current k := set_status THREAD_TASK_WAITING b]> (tasks k)) /\
    off_queues (<[thread_ready_list := rest]> Q) next /\
    waiting (set_wkern k' s) (<[thread_ready_list := rest]> Q) rest THREAD_TASK_WAITING q es.
Proof.
  intros [HQ Hrl HL Hap Hoff] k Hb [Hro Hrd] Hf H0. set (R := current k) in *.
  set (k1 := set_tasks (<[R := set_status THREAD_TASK_WAITING b]> (tasks k)) (set_intr false k)).
  assert (forall t, alive k1 t <-> alive k t) as HT by (intros t; apply (alive_insert (set_intr false k)); by eexists).
  assert (queues (klists k1) (alive k1) Q) as HQ1 by (eapply queues_ext; [|exact HQ]; intros t; symmetry; apply HT).
  pose proof (schedule_blocked_ok fuel k1 Q (next :: rest) (set_status THREAD_TASK_WAITING b) HQ1 Hrl) as Hs.
  destruct Hs as (k' & E & Hsw); [apply lookup_insert_eq|done|done|intros t Ht%HT; by apply H0|].
  destruct Hsw as [(n1 & Hn1 & Ht' & _) Hc _ _ _ _ _ HQ' Ho Hfr].
  assert (next <> R) as Hne by (intros ->; apply (Hro _ _ Hrl); by left).
  assert (tasks k !! next = Some n1) as Hn.
  { simpl in Hn1. by rewrite lookup_insert_ne in Hn1. }
  assert (forall t, alive k' t <-> alive k t) as HT'.
  { intros t. rewrite <-HT. unfold alive. rewrite Ht', lookup_insert. case_decide; [|done]. subst t. rewrite Hn1. split; by eexists. }
  assert (forall u, u ∈ next :: rest -> alive k u) as Hus by (intros u Hu; by eapply (q_in _ _ _ HQ)).
  exists k', n1. split_and!; try done.
  { unfold thread_block. pass. run (intr_disable_ok k). unfold running_thread. rewrite gets_bind.
    run (upd_tcb_ok (set_intr false k) R b (set_status THREAD_TASK_WAITING)); [|done]. fold k1. by run E. }
  split.
  - eapply queues_ext; [|exact HQ']. intros t. by rewrite HT', HT.
  - by eapply rl_set.
  - eapply wait_list_kern; [done|exact Hrl|intros t; by rewrite HT'|done|exact Hus|exact Hfr].
  - intros p Hp. eapply apart_same; [exact Hrl|exact HT'|by apply Hap].
  - intros e w He Hm Hw. simpl in Hw.
    assert (unlinked k Q (w_task w) /\ w_task w <> next) as [[Hto Htd] Htn].
    { unfold matches in Hm. simpl in Hm. rewrite Hw, Ht', lookup_insert in Hm. case_decide as Hx; [done|].
      simpl in Hm. rewrite lookup_insert in Hm. case_decide as Hr; [subst; by rewrite <-Hr|].
      split; [|congruence]. apply (Hoff e); [done| |done]. unfold matches. by rewrite Hw. }
    assert (w_task w ∉ next :: rest) as Hnin by (apply (Hto _ _ Hrl)).
    split.
    + eapply off_ready; [exact Hrl|exact Hto|exact Htn|]. intros v Hv. left. by right.
    + eapply dll_unchanged; [exact Htd|exact Hfr|]. intros p [->|Hp]%list.elem_of_cons; [|by apply not_elem_of_nil in Hp].
      eapply (tag_not_threads k); [exact HQ|exact Hrl| |exact Hnin].
      destruct (wl_entry _ _ _ HL e He) as (_ & w0 & Hw0 & _ & ?). by simplify_eq.
Qed.
End waking.

(** ** A machine in which nobody waits *)
Lemma waiting_nobody {G : Globals} (s : wq) Q rq mode q :
  queues_check (klists (wkern s)) (tasks (wkern s)) Q -> Q !! thread_ready_list = Some rq -> 0 < q ->
  dll (klists (wkern s)) (head_list q) [] -> h_magic <$> heads s !! q = Some (head_magic q) ->
  Q !! head_list q = None -> map_Forall (fun t _ => head_list q <> general_tag t) (tasks (wkern s)) ->
  waiting s Q rq mode q [].
Proof.
  intros HQ Hrl Hq Hd Hh Hn Ht. split; [by apply queues_by_check|done| | |].
  - split; [done| |done|by intros e ?%not_elem_of_nil]. destruct (heads s !! q) as [x|]; [|done]. exists x. split; [done|]. by injection Hh.
  - intros p [->|Hp]%list.elem_of_cons; [|by apply not_elem_of_nil in Hp]. split; [done|]. intros t [b Hb]. by apply (Ht t b).
  - by intros e w ?%not_elem_of_nil.
Qed.

Definition idle_tcb (st : Z) : TCB := Tcb 0 1 0 st 20 5 0 0 (Message 0 0 []) 0 0 0 0 0 0 STACK_MAGIC.
(** The thread at 8192 runs, the one at 12288 is ready; nobody waits on the
    queue at 5008. *)
Definition two_globals : Globals := {| thread_ready_list := 100; thread_all_list := 300; addr_v2p := fun a => a |}.
Definition two_threads : wq :=
  Wq (Kern (list_to_map [(100, Node 12340 12340); (12340, Node 100 100); (8244, Node 8244 8244); (5012, Node 5012 5012)])
           (list_to_map [(8192, idle_tcb 0); (12288, idle_tcb 1)]) ∅ 8192 true 0 0x100000 0 12288 8192)
     ∅ {[5008 := WaitHead 0 5020 8192]}.
Lemma two_threads_waiting mode : @waiting two_globals two_threads {[100 := [12288]]} [12288] mode 5008 [].
Proof. apply waiting_nobody; [by_computation|done|done|by_computation|done|done|by_computation]. Qed.
