(* ===== verification/Ports.v ===== *)
(** * Ports: input and output ports, the interrupt controller and the
    programmable timer (core/include/io.h, core/pic/pic.c, core/frog/pit8253.c,
    [ack] of core/interrupt/int.c)

    The devices behind the ports are a parameter, [Machine]: what a read gives
    and what reads and writes do to them.  The code runs inside the state of
    its callers, a state with devices in it. *)
From S2P Require Import Prelude.

Class Machine := {
  device : Type;
  port_in : Z -> device -> Z * device;
  port_out : Z -> Z -> device -> device
}.
Class HasDevices {X : Machine} (S : Type) := {
  devices : S -> device;
  set_devices : device -> S -> S;
  devices_set : forall d s, devices (set_devices d s) = d;
  set_devices_twice : forall d d' s, set_devices d (set_devices d' s) = set_devices d s;
  set_devices_get : forall s, set_devices (devices s) s = s
}.
#[export] Program Instance device_devices {X : Machine} : HasDevices device :=
  {| devices d := d; set_devices d _ := d |}.
Solve All Obligations with done.

Definition PIC0_ICW1 : Z := 0x20.
Definition PIC1_ICW1 : Z := 0xA0.
Definition PIC0_ICW2 : Z := 0x21.
Definition PIC1_ICW2 : Z := 0xA1.
Definition PIC0_ICW3 : Z := 0x21.
Definition PIC1_ICW3 : Z := 0xA1.
Definition PIC0_ICW4 : Z := 0x21.
Definition PIC1_ICW4 : Z := 0xA1.
Definition PIC0_OCW1 : Z := 0x21.
Definition PIC1_OCW1 : Z := 0xA1.
Definition PIC_OPEN_IRQ0 : Z := 0xFE.
Definition PIC_OPEN_IRQ1 : Z := 0xFD.
Definition PIC_OPEN_IRQ2 : Z := 0xFB.
Definition PIC_OPEN_IRQ12 : Z := 0xEF.
Definition PIC_OPEN_IRQ14 : Z := 0xBF.
Definition HZ : Z := 9000.
Definition INPUT_FREQUENCY : Z := 1193180.
Definition COUNTER0_VALUE : Z := INPUT_FREQUENCY / HZ.
Definition COUNTER0_PORT : Z := 0x40.
Definition COUNTER0_NO : Z := 0.
Definition COUTNER_MODE : Z := 2.
Definition READ_WRITE_LATCH : Z := 3.
Definition PIT_CONTROL_PROT : Z := 0x43.

Section ports.
Context {X : Machine} {S : Type} {HD : HasDevices S}.

Definition outb (port data : Z) : M S unit :=
  modify (fun s => set_devices (port_out (u16 port) (u8 data) (devices s)) s).
Definition inb (port : Z) : M S Z :=
  fun s => let '(v, d) := port_in (u16 port) (devices s) in Ok (u8 v, set_devices d s).
(** The same instruction, in core.s; [_io_delay] does nothing. *)
Definition _io_out8 (port data : Z) : M S unit := outb port data.

(** The end-of-interrupt command, to the slave as well when the number of the
    interrupt is above 7; the line number is computed and not used. *)
Definition ack (intno : Z) : M S unit :=
  let irqs_num := Z.lxor intno 0x20 in
  (when intno >? 0x7 do outb 0xa0 0x20) ;;;
  outb 0x20 0x20.

Definition init_8259A : M S unit :=
  _io_out8 PIC0_ICW1 0x11 ;;;
  _io_out8 PIC1_ICW1 0x11 ;;;
  _io_out8 PIC0_ICW2 0x20 ;;;
  _io_out8 PIC1_ICW2 0x28 ;;;
  _io_out8 PIC0_ICW3 0x04 ;;;
  _io_out8 PIC1_ICW3 0x02 ;;;
  _io_out8 PIC0_ICW4 0x01 ;;;
  _io_out8 PIC1_ICW4 0x01 ;;;
  _io_out8 PIC0_OCW1 (Z.land (Z.land PIC_OPEN_IRQ0 PIC_OPEN_IRQ2) PIC_OPEN_IRQ1) ;;;
  _io_out8 PIC1_OCW1 (Z.land PIC_OPEN_IRQ12 PIC_OPEN_IRQ14).

(** In the last line the cast comes before the shift. *)
Definition frequency_set (counter_port counter_no rwL counter_mode counter_value : Z) : M S unit :=
  outb PIT_CONTROL_PROT (u8 (Z.lor (Z.lor (Z.shiftl counter_no 6) (Z.shiftl rwL 4)) (Z.shiftl counter_mode 1))) ;;;
  outb counter_port (u8 counter_value) ;;;
  outb counter_port (Z.shiftr (u8 counter_value) 8).
Definition init_PIT8253 : M S unit :=
  frequency_set COUNTER0_PORT COUNTER0_NO READ_WRITE_LATCH COUTNER_MODE COUNTER0_VALUE.

Lemma outb_bind {B} port v (k : unit -> M S B) s :
  bind (outb port v) k s = k tt (set_devices (port_out (u16 port) (u8 v) (devices s)) s).
Proof. done. Qed.
Lemma inb_ok port s v d : port_in (u16 port) (devices s) = (v, d) -> inb port s = Ok (u8 v, set_devices d s).
Proof. intros E. unfold inb. by rewrite E. Qed.
End ports.
#[export] Hint Rewrite @outb_bind @devices_set @set_devices_twice @set_devices_get : frog.

(** ** Two cascaded 8259A controllers

    Each takes its initialisation words in order after one with bit 4 at its
    first port; then the second port is the mask and the first takes the
    end-of-interrupt command, which ends the service of the request of
    highest priority (the lowest line) in service. *)
Record chip := Chip { expects : list nat; vector_base : Z; icw3 : Z; icw4 : Z; imr : Z; isr : list nat }.
Definition reset : chip := Chip [] 0 0 0 0 [].
Definition chip_out (a0 : bool) (v : Z) (c : chip) : chip :=
  if a0 then
    match expects c with
    | 2%nat :: l => Chip l v (icw3 c) (icw4 c) (imr c) (isr c)
    | 3%nat :: l => Chip l (vector_base c) v (icw4 c) (imr c) (isr c)
    | _ :: l => Chip l (vector_base c) (icw3 c) v (imr c) (isr c)
    | [] => Chip [] (vector_base c) (icw3 c) (icw4 c) v (isr c)
    end
  else if Z.testbit v 4 then
    Chip (2%nat :: (if Z.testbit v 1 then [] else [3%nat]) ++ (if Z.testbit v 0 then [4%nat] else [])) 0 0 0 0 []
  else if v =? 0x20 then Chip (expects c) (vector_base c) (icw3 c) (icw4 c) (imr c) (drop 1 (isr c))
  else c.
Record pics := Pics { master : chip; slave : chip }.
#[local] Instance pic_machine : Machine := {|
  device := pics;
  port_in _ d := (0, d);
  port_out p v d :=
    if p =? 0x20 then Pics (chip_out false v (master d)) (slave d)
    else if p =? 0x21 then Pics (chip_out true v (master d)) (slave d)
    else if p =? 0xA0 then Pics (master d) (chip_out false v (slave d))
    else if p =? 0xA1 then Pics (master d) (chip_out true v (slave d))
    else d |}.

(** The vector that a request on a line gives, when no mask stops it. *)
Definition vector (d : pics) (irq : Z) : option Z :=
  if irq <? 8 then
    if Z.testbit (imr (master d)) irq || Z.testbit (icw3 (master d)) irq then None
    else Some (Z.land (vector_base (master d)) 0xF8 + irq)
  else
    if Z.testbit (imr (slave d)) (irq - 8) || Z.testbit (imr (master d)) (icw3 (slave d)) ||
       negb (Z.testbit (icw3 (master d)) (icw3 (slave d))) then None
    else Some (Z.land (vector_base (slave d)) 0xF8 + (irq - 8)).
(** A request in service; the lines in service of a chip are in order. *)
Fixpoint insert_line (i : nat) (l : list nat) : list nat :=
  match l with [] => [i] | j :: l' => if (i <=? j)%nat then i :: l else j :: insert_line i l' end.
Definition begin_service (irq : nat) (d : pics) : pics :=
  let put i c := Chip (expects c) (vector_base c) (icw3 c) (icw4 c) (imr c) (insert_line i (isr c)) in
  if (irq <? 8)%nat then Pics (put irq (master d)) (slave d)
  else Pics (put 2%nat (master d)) (put (irq - 8)%nat (slave d)).

(** Whatever the two interrupt controllers were doing before, after
    [init_8259A] the request lines that reach the processor are exactly those
    of the clock, the keyboard, the mouse and the disk, line [i] with vector
    [0x20 + i]; the controllers expect no further words, and nothing is in
    service. *)
Theorem init_8259A_routes d :
  exists d', init_8259A (S:=pics) (HD:=device_devices) d = Ok (tt, d') /\
    (forall irq, 0 <= irq < 16 ->
       vector d' irq = if bool_decide (irq ∈ [0; 1; 12; 14]) then Some (0x20 + irq) else None) /\
    expects (master d') = [] /\ expects (slave d') = [] /\ isr (master d') = [] /\ isr (slave d') = [].
Proof.
  eexists. split; [reflexivity|]. split; [|done].
  intros irq Hi. assert (irq ∈ seqZ 0 16) as Hin by (apply elem_of_seqZ; lia).
  revert irq Hi Hin. cbn [seqZ]. intros irq _. revert irq. apply list.Forall_forall.
  repeat (apply list.Forall_cons; split; [reflexivity|]). apply list.Forall_nil. done.
Qed.

(** A request of either chip is ended by the [ack] of its vector, when it is
    the one of highest priority. *)
Lemma ack_ends_request d irq : (irq < 16)%nat -> isr (master d) = [] -> isr (slave d) = [] ->
  ack (S:=pics) (HD:=device_devices) (0x20 + Z.of_nat irq) (begin_service irq d) = Ok (tt, d).
Proof.
  intros Hi Hm Hs. destruct d as [[e1 v1 a1 b1 m1 s1] [e2 v2 a2 b2 m2 s2]]. simpl in *. subst.
  do 16 (destruct irq as [|irq]; [reflexivity|]). lia.
Qed.
(** A keyboard interrupt that arrives while the mouse is served ends the
    service of the mouse too: every vector is above 7. *)
Lemma ack_ends_slave_too : exists d d', isr (slave d) = [4%nat] /\
  ack (S:=pics) (HD:=device_devices) 0x21 (begin_service 1 d) = Ok (tt, d') /\
  isr (master d') = [2%nat] /\ isr (slave d') = [].
Proof. exists (begin_service 12 (Pics reset reset)). eexists. split; [done|]. split; [reflexivity|done]. Qed.
(** The high byte of a count is never written, since it is shifted out of the
    byte it was cast to; the count for [HZ] needs none. *)
Lemma frequency_high_byte_lost v : Z.shiftr (u8 v) 8 = 0.
Proof. rewrite Z.shiftr_div_pow2 by lia. apply Z.div_small. change (2 ^ 8) with 256. apply u8_range. Qed.
Lemma hz_count_fits : COUNTER0_VALUE = 132.
Proof. reflexivity. Qed.
