(* ===== verification/Hid.v ===== *)
(** * Hid: the state of the input devices (core/device/pc_kbd.c, pc_mouse.c,
    ps2hid.c)

    Each of the three drivers has a queue of bytes in memory from [sys_malloc],
    named by its address, with a wait queue in it, and variables of its own. *)
From S2P Require Import Prelude Lists Kernel WaitQueue Ports Softirq.

(** The keyboard, the mouse and the raw bytes of the mouse have queues of one
    shape; [proc_list] is at offset 8. *)
Record ring := Ring { rhead : Z; rtail : Z; rbuf : list Z }.
#[export] Instance ring_eq_dec : EqDecision ring.
Proof. solve_decision. Defined.
Definition proc_list (q : Z) : Z := q + 8.

(** The static variables of pc_kbd.c, and those of pc_mouse.c. *)
Record keys := Keys {
  ctrl_status : bool; shift_status : bool; alt_status : bool;
  caps_lock_status : bool; meta_status : bool; ext_scancode : bool }.
Record mouse := Mouse { mouse_mode : Z; mdata_buf : list Z; mdata_stage : Z }.
#[export] Instance keys_eq_dec : EqDecision keys.
Proof. solve_decision. Defined.

Section state.
Context {X : Machine}.
Record hid := Hid {
  hwq : wq;
  rings : gmap Z ring;
  kbd_queue : Z; mouse_queue : Z; aux_queue : Z;      (* the three variables [queue] *)
  hkeys : keys; hmouse : mouse;
  hsoft : softirq;
  hdev : device }.
Definition set_hwq v s := Hid v (rings s) (kbd_queue s) (mouse_queue s) (aux_queue s) (hkeys s) (hmouse s) (hsoft s) (hdev s).
Definition set_rings v s := Hid (hwq s) v (kbd_queue s) (mouse_queue s) (aux_queue s) (hkeys s) (hmouse s) (hsoft s) (hdev s).
Definition set_kbd_queue v s := Hid (hwq s) (rings s) v (mouse_queue s) (aux_queue s) (hkeys s) (hmouse s) (hsoft s) (hdev s).
Definition set_mouse_queue v s := Hid (hwq s) (rings s) (kbd_queue s) v (aux_queue s) (hkeys s) (hmouse s) (hsoft s) (hdev s).
Definition set_aux_queue v s := Hid (hwq s) (rings s) (kbd_queue s) (mouse_queue s) v (hkeys s) (hmouse s) (hsoft s) (hdev s).
Definition set_hkeys v s := Hid (hwq s) (rings s) (kbd_queue s) (mouse_queue s) (aux_queue s) v (hmouse s) (hsoft s) (hdev s).
Definition set_hmouse v s := Hid (hwq s) (rings s) (kbd_queue s) (mouse_queue s) (aux_queue s) (hkeys s) v (hsoft s) (hdev s).
Definition set_hsoft v s := Hid (hwq s) (rings s) (kbd_queue s) (mouse_queue s) (aux_queue s) (hkeys s) (hmouse s) v (hdev s).
Definition set_hdev v s := Hid (hwq s) (rings s) (kbd_queue s) (mouse_queue s) (aux_queue s) (hkeys s) (hmouse s) (hsoft s) v.
End state.
#[export] Program Instance hid_devices {X : Machine} : HasDevices hid :=
  {| devices := hdev; set_devices := set_hdev |}.
Solve All Obligations with by repeat intros [].

Section queues.
Context {X : Machine}.
Definition in_wq {A} (c : M wq A) : M hid A := zoom hwq set_hwq c.
Definition in_soft {A} (c : M softirq A) : M hid A := zoom hsoft set_hsoft c.
Definition ring_at (q : Z) : M hid ring :=
  fun s => match rings s !! q with Some r => Ok (r, s) | None => Fault end.
Definition put_ring (q : Z) (r : ring) : M hid unit :=
  modify (fun s => set_rings (<[q := r]> (rings s)) s).
(** Bytes written from an index of the buffer on, and read. *)
Definition store_bytes (q i : Z) (l : list Z) : M hid unit :=
  r <- ring_at q ;;
  if (0 <=? i) && (i + Z.of_nat (length l) <=? Z.of_nat (length (rbuf r)))
  then put_ring q (Ring (rhead r) (rtail r) (take (Z.to_nat i) (rbuf r) ++ l ++ drop (Z.to_nat i + length l) (rbuf r)))
  else fault.
Definition load_bytes (q i : Z) (n : nat) : M hid (list Z) :=
  r <- ring_at q ;;
  if (0 <=? i) && (i + Z.of_nat n <=? Z.of_nat (length (rbuf r)))
  then ret (take n (drop (Z.to_nat i) (rbuf r)))
  else fault.

(** The code the three drivers have in common, each with its own queue, size
    and number [n] of bytes at a time: [queue_empty], [get_from_queue], and the
    end of the event handlers, where bytes are stored at the head, which moves
    and wakes a reader unless the queue is full. *)
Definition ring_is_empty (q : Z) : M hid bool :=
  r <- ring_at q ;;
  ret (rhead r =? rtail r).
Definition ring_get (size q : Z) (n : nat) : M hid (list Z) :=
  old_status <- in_wq (in_kern intr_disable) ;;
  r <- ring_at q ;;
  l <- load_bytes q (rtail r) n ;;
  put_ring q (Ring (rhead r) (Z.land (u32 (rtail r + Z.of_nat n)) (size - 1)) (rbuf r)) ;;;
  in_wq (in_kern (intr_set_status old_status)) ;;;
  ret l.
Definition ring_put {G : Globals} (return_address : Z) (fuel : nat) (size q : Z) (l : list Z) : M hid unit :=
  r <- ring_at q ;;
  let head := s32 (rhead r) in
  store_bytes q head l ;;;
  let head := Z.land (s32 (head + Z.of_nat (length l))) (size - 1) in
  r <- ring_at q ;;
  when negb (u32 head =? rtail r) do
    (put_ring q (Ring (u32 head) (rtail r) (rbuf r)) ;;;
     in_wq (wake_up_interruptible return_address fuel (proc_list q))).

(** A queue of [size] bytes in zeroed memory at [q], its wait queue made. *)
Definition new_ring (size : nat) (q : Z) : M hid unit :=
  put_ring q (Ring 0 0 (replicate size 0)) ;;;
  in_wq (put_head (proc_list q) (WaitHead 0 0 0)) ;;;
  in_wq (modify (fun s => set_lists (<[head_list (proc_list q) := Node 0 0]> (lists s)) s)) ;;;
  r <- ring_at q ;;
  put_ring q (Ring 0 0 (rbuf r)) ;;;
  in_wq (init_waitqueue_head (proc_list q)).
End queues.
