(* ===== verification/HidSpec.v ===== *)
(** * HidSpec: the queues of the input devices hold sequences of bytes *)
From S2P Require Import Prelude Lists Kernel Queues Sched WaitQueue WaitQueueSpec Ports Hid.

Section rings.
Implicit Types (r : ring) (l d : list Z) (n w : Z).

(** Bytes overwritten in a list. *)
Definition overwrite (i : nat) d l : list Z := take i l ++ d ++ drop (i + length d) l.
Lemma overwrite_length i d l : (i + length d <= length l)%nat -> length (overwrite i d l) = length l.
Proof. intros. unfold overwrite. rewrite !length_app, length_take, length_drop. lia. Qed.
Lemma overwrite_in i d l k : (i + length d <= length l)%nat -> (k < length d)%nat -> overwrite i d l !! (i + k)%nat = d !! k.
Proof.
  intros. unfold overwrite. assert (length (take i l) = i) as Hi by (rewrite length_take; lia).
  rewrite lookup_app_r by lia. rewrite Hi, lookup_app_l by lia. f_equal. lia.
Qed.
Lemma overwrite_out i d l j : (i + length d <= length l)%nat -> (j < i \/ i + length d <= j)%nat -> overwrite i d l !! j = l !! j.
Proof.
  intros. unfold overwrite. assert (length (take i l) = i) as Hi by (rewrite length_take; lia).
  destruct (Nat.lt_ge_cases j i).
  - rewrite lookup_app_l by lia. by rewrite lookup_take_lt by lia.
  - rewrite lookup_app_r, Hi by lia. rewrite lookup_app_r by lia. rewrite lookup_drop. f_equal. lia.
Qed.

(** The bytes of the queue run from its tail to its head, around the end. *)
Definition ring_ok n r : Prop := 0 < n /\ Z.of_nat (length (rbuf r)) = n /\ 0 <= rhead r < n /\ 0 <= rtail r < n.
Definition ring_count n r : Z := (rhead r - rtail r) mod n.
Definition ring_index n r (i : nat) : nat := Z.to_nat ((rtail r + Z.of_nat i) mod n).
Definition ring_data n r : list Z :=
  (fun i => default 0 (rbuf r !! ring_index n r i)) <$> seq 0 (Z.to_nat (ring_count n r)).

Lemma ring_count_range n r : ring_ok n r -> 0 <= ring_count n r < n.
Proof. intros (? & _). by apply Z.mod_pos_bound. Qed.
Lemma ring_data_length n r : length (ring_data n r) = Z.to_nat (ring_count n r).
Proof. unfold ring_data. by rewrite length_fmap, length_seq. Qed.
Lemma ring_data_lookup n r i :
  ring_data n r !! i = if (i <? Z.to_nat (ring_count n r))%nat then Some (default 0 (rbuf r !! ring_index n r i)) else None.
Proof.
  unfold ring_data. rewrite list_lookup_fmap. destruct (Nat.ltb_spec i (Z.to_nat (ring_count n r))).
  - by rewrite lookup_seq_lt by done.
  - by rewrite lookup_seq_ge by done.
Qed.
Lemma ring_empty n r : ring_ok n r -> (rhead r =? rtail r) = bool_decide (ring_data n r = []).
Proof.
  intros (Hn & _ & Hh & Ht). pose proof (ring_data_length n r) as Hl. unfold ring_count in Hl.
  destruct (Z.eqb_spec (rhead r) (rtail r)) as [E|E].
  - rewrite E, Z.sub_diag, Z.mod_0_l in Hl by lia. symmetry. apply bool_decide_eq_true. by destruct (ring_data n r).
  - symmetry. apply bool_decide_eq_false. intros Hd. rewrite Hd in Hl. simpl in Hl.
    assert ((rhead r - rtail r) mod n = 0) as H0 by (pose proof (Z.mod_pos_bound (rhead r - rtail r) n); lia).
    apply Z.mod_divide in H0 as [c Hc]; [|lia]. assert (c = 0) by nia. lia.
Qed.

(** The place of an element is the same counted from the head. *)
Lemma ring_index_head n r k : ring_ok n r -> rhead r + Z.of_nat k < n ->
  ring_index n r (Z.to_nat (ring_count n r) + k) = (Z.to_nat (rhead r) + k)%nat.
Proof.
  intros (Hn & _ & Hh & Ht) Hk. unfold ring_index. pose proof (Z.mod_pos_bound (rhead r - rtail r) n Hn).
  unfold ring_count. rewrite Nat2Z.inj_add, Z2Nat.id by lia.
  replace (rtail r + _) with ((rhead r - rtail r) mod n + (rtail r + Z.of_nat k)) by lia.
  rewrite Zplus_mod_idemp_l. replace (rhead r - rtail r + (rtail r + Z.of_nat k)) with (rhead r + Z.of_nat k) by lia.
  rewrite Z.mod_small by lia. lia.
Qed.
Lemma ring_index_inj n r i j : ring_ok n r -> Z.of_nat i < n -> Z.of_nat j < n -> ring_index n r i = ring_index n r j -> i = j.
Proof.
  intros (Hn & _ & Hh & Ht) Hi Hj E. unfold ring_index in E.
  apply Z2Nat.inj in E; [|by apply Z.mod_pos_bound..].
  pose proof (Z.div_mod (rtail r + Z.of_nat i) n ltac:(lia)). pose proof (Z.div_mod (rtail r + Z.of_nat j) n ltac:(lia)).
  rewrite E in *. set (a := _ / n) in *. set (b := (rtail r + Z.of_nat j) / n) in *. assert (a = b) by nia. nia.
Qed.
(** An element of the queue is not where the next ones are stored. *)
Lemma ring_index_apart n r w i : ring_ok n r -> ring_count n r + w <= n -> rhead r + w <= n ->
  (i < Z.to_nat (ring_count n r))%nat ->
  (ring_index n r i < Z.to_nat (rhead r) \/ Z.to_nat (rhead r) + Z.to_nat w <= ring_index n r i)%nat.
Proof.
  intros Hr Hc Hw Hi. pose proof (ring_count_range n r Hr) as Hcr.
  destruct (Nat.lt_ge_cases (ring_index n r i) (Z.to_nat (rhead r))) as [|Hge]; [by left|].
  destruct (Nat.lt_ge_cases (ring_index n r i) (Z.to_nat (rhead r) + Z.to_nat w)) as [Hlt|]; [|by right].
  set (k := (ring_index n r i - Z.to_nat (rhead r))%nat).
  assert (i = Z.to_nat (ring_count n r) + k)%nat; [|lia].
  apply (ring_index_inj n r); [done|lia|lia|].
  rewrite ring_index_head; [lia|done|]. destruct Hr as (? & ? & ? & ?). lia.
Qed.

Definition stored r d : list Z := overwrite (Z.to_nat (rhead r)) d (rbuf r).
Lemma stored_lookup n r d i : ring_ok n r -> ring_count n r + Z.of_nat (length d) <= n -> rhead r + Z.of_nat (length d) <= n ->
  (i < Z.to_nat (ring_count n r))%nat -> stored r d !! ring_index n r i = rbuf r !! ring_index n r i.
Proof.
  intros Hr Hc Hw Hi. apply overwrite_out; [destruct Hr as (? & ? & ? & ?); lia|].
  pose proof (ring_index_apart n r (Z.of_nat (length d)) i Hr Hc Hw Hi). lia.
Qed.
(** Storing bytes at the head changes nothing until the head moves. *)
Lemma ring_data_stored n r d : ring_ok n r -> ring_count n r + Z.of_nat (length d) <= n -> rhead r + Z.of_nat (length d) <= n ->
  ring_data n (Ring (rhead r) (rtail r) (stored r d)) = ring_data n r.
Proof.
  intros Hr Hc Hw. apply list_eq. intros i. rewrite !ring_data_lookup. change (ring_count n (Ring _ _ _)) with (ring_count n r).
  destruct (Nat.ltb_spec i (Z.to_nat (ring_count n r))); [|done].
  change (ring_index n (Ring _ _ _)) with (ring_index n r). simpl. by rewrite (stored_lookup n).
Qed.
Lemma ring_data_put n r d : ring_ok n r -> ring_count n r + Z.of_nat (length d) < n -> rhead r + Z.of_nat (length d) <= n ->
  ring_data n (Ring ((rhead r + Z.of_nat (length d)) mod n) (rtail r) (stored r d)) = ring_data n r ++ d.
Proof.
  intros Hr Hc Hw. pose proof (ring_count_range n r Hr). set (r' := Ring _ _ _).
  assert (ring_count n r' = ring_count n r + Z.of_nat (length d)) as Hc'.
  { unfold ring_count. simpl. rewrite Zminus_mod_idemp_l.
    replace (rhead r + Z.of_nat (length d) - rtail r) with ((rhead r - rtail r) + Z.of_nat (length d)) by lia.
    rewrite <-Zplus_mod_idemp_l. fold (ring_count n r). apply Z.mod_small. lia. }
  apply list_eq. intros i. rewrite ring_data_lookup, Hc'. change (ring_index n r' i) with (ring_index n r i).
  destruct (Nat.lt_ge_cases i (Z.to_nat (ring_count n r))) as [Hi|Hi].
  - rewrite lookup_app_l by (rewrite ring_data_length; lia). rewrite ring_data_lookup.
    rewrite (proj2 (Nat.ltb_lt _ _)), (proj2 (Nat.ltb_lt _ _)) by lia. simpl. rewrite (stored_lookup n); [done|done|lia|done|done].
  - rewrite lookup_app_r by (rewrite ring_data_length; lia). rewrite ring_data_length.
    set (k := (i - Z.to_nat (ring_count n r))%nat). replace i with (Z.to_nat (ring_count n r) + k)%nat by lia.
    destruct (Nat.lt_ge_cases k (length d)) as [Hk|Hk].
    + rewrite (proj2 (Nat.ltb_lt _ _)) by lia. rewrite ring_index_head; [|done|lia]. simpl. unfold stored.
      rewrite overwrite_in; [|destruct Hr as (? & ? & ? & ?); lia|done].
      destruct (d !! k) eqn:E; [done|]. apply lookup_ge_None in E. lia.
    + rewrite (proj2 (Nat.ltb_ge _ _)) by lia. symmetry. by apply lookup_ge_None.
Qed.
Lemma ring_full n r w : ring_ok n r -> 0 < w < n -> ring_count n r + w <= n ->
  ((rhead r + w) mod n =? rtail r) = (ring_count n r + w =? n).
Proof.
  intros (Hn & _ & Hh & Ht) Hw Hc. assert ((rhead r + w) mod n = (rtail r + (ring_count n r + w)) mod n) as ->.
  { unfold ring_count. rewrite Z.add_assoc, (Z.add_comm (rtail r)), <-Z.add_assoc, Zplus_mod_idemp_l. f_equal. lia. }
  pose proof (Z.mod_pos_bound (rhead r - rtail r) n Hn) as Hb. fold (ring_count n r) in Hb. set (c := ring_count n r + w) in *.
  destruct (Z.eqb_spec c n) as [->|E].
  - apply Z.eqb_eq. rewrite <-(Z.mul_1_l n) at 1. rewrite Z.mod_add, Z.mod_small; lia.
  - apply Z.eqb_neq. destruct (Z.lt_ge_cases (rtail r + c) n); [rewrite Z.mod_small; lia|].
    rewrite <-(Z_mod_plus_full _ (-1)). rewrite Z.mod_small; lia.
Qed.
(** Taking bytes at the tail. *)
Lemma ring_data_take n r (w : nat) : ring_ok n r -> Z.of_nat w <= ring_count n r -> rtail r + Z.of_nat w <= n -> Z.of_nat w < n ->
  ring_data n r = take w (drop (Z.to_nat (rtail r)) (rbuf r)) ++ ring_data n (Ring (rhead r) ((rtail r + Z.of_nat w) mod n) (rbuf r)).
Proof.
  intros Hr Hc Hw Hwn. pose proof (ring_count_range n r Hr). destruct Hr as (Hn & Hl & Hh & Ht). set (r' := Ring _ _ _).
  assert (ring_count n r' = ring_count n r - Z.of_nat w) as Hc'.
  { unfold ring_count. simpl. rewrite Zminus_mod_idemp_r.
    replace (rhead r - (rtail r + Z.of_nat w)) with ((rhead r - rtail r) - Z.of_nat w) by lia.
    rewrite <-Zminus_mod_idemp_l. fold (ring_count n r). apply Z.mod_small. lia. }
  assert (length (take w (drop (Z.to_nat (rtail r)) (rbuf r))) = w) as Hlw by (rewrite length_take, length_drop; lia).
  apply list_eq. intros i. rewrite ring_data_lookup. destruct (Nat.lt_ge_cases i w).
  - rewrite lookup_app_l by lia. rewrite lookup_take_lt, lookup_drop by lia.
    rewrite (proj2 (Nat.ltb_lt _ _)) by lia. unfold ring_index. rewrite Z.mod_small by lia.
    replace (Z.to_nat (rtail r + Z.of_nat i)) with (Z.to_nat (rtail r) + i)%nat by lia.
    destruct (rbuf r !! (Z.to_nat (rtail r) + i)%nat) eqn:E; [done|]. apply lookup_ge_None in E. lia.
  - rewrite lookup_app_r by lia. rewrite Hlw, ring_data_lookup, Hc'.
    destruct (Nat.ltb_spec i (Z.to_nat (ring_count n r))); destruct (Nat.ltb_spec (i - w) (Z.to_nat (ring_count n r - Z.of_nat w))); try lia; [|done].
    unfold ring_index. simpl. rewrite Zplus_mod_idemp_l. by replace (rtail r + Z.of_nat w + Z.of_nat (i - w)) with (rtail r + Z.of_nat i) by lia.
Qed.
End rings.

Section operations.
Context {X : Machine} {G : Globals}.
Implicit Types (s : hid) (r : ring) (q n : Z) (Q : queue_map) (rq es : list Z).

Lemma ring_at_bind {B} q r (f : ring -> M hid B) s : rings s !! q = Some r -> bind (ring_at q) f s = f r s.
Proof. intros E. unfold bind, ring_at. by rewrite E. Qed.
Lemma in_wq_ok {A} (c : M wq A) s a w : c (hwq s) = Ok (a, w) -> in_wq c s = Ok (a, set_hwq w s).
Proof. intros E. unfold in_wq, zoom. by rewrite E. Qed.
Lemma in_kern_ok {A} (c : M kern A) w a k : c (wkern w) = Ok (a, k) -> in_kern c w = Ok (a, set_wkern k w).
Proof. intros E. unfold in_kern, zoom. by rewrite E. Qed.
Definition with_ring q r s : hid := set_rings (<[q := r]> (rings s)) s.
Lemma with_ring_at q r s : rings (with_ring q r s) !! q = Some r.
Proof. apply lookup_insert_eq. Qed.
Lemma with_ring_twice q r r' s : with_ring q r (with_ring q r' s) = with_ring q r s.
Proof. unfold with_ring, set_rings. simpl. by rewrite insert_insert_eq. Qed.
Lemma put_ring_bind {B} q r (f : unit -> M hid B) s : bind (put_ring q r) f s = f tt (with_ring q r s).
Proof. done. Qed.

Lemma ring_is_empty_ok s q n r : rings s !! q = Some r -> ring_ok n r ->
  ring_is_empty q s = Ok (bool_decide (ring_data n r = []), s).
Proof. intros Hr Hok. unfold ring_is_empty. rewrite (ring_at_bind _ _ _ _ Hr), (ring_empty n) by done. done. Qed.
Lemma store_bytes_bind {B} q r d n (f : unit -> M hid B) s :
  rings s !! q = Some r -> ring_ok n r -> rhead r + Z.of_nat (length d) <= n ->
  bind (store_bytes q (rhead r) d) f s = f tt (with_ring q (Ring (rhead r) (rtail r) (stored r d)) s).
Proof.
  intros Hr (Hn & Hl & Hh & Ht) Hd. unfold store_bytes. rewrite bind_assoc, (ring_at_bind _ _ _ _ Hr).
  rewrite (proj2 (Z.leb_le 0 _)), (proj2 (Z.leb_le _ _)) by lia. done.
Qed.
Lemma load_bytes_ok q r i (w : nat) n s :
  rings s !! q = Some r -> ring_ok n r -> 0 <= i -> i + Z.of_nat w <= n ->
  load_bytes q i w s = Ok (take w (drop (Z.to_nat i) (rbuf r)), s).
Proof.
  intros Hr (Hn & Hl & Hh & Ht) Hi Hd. unfold load_bytes. rewrite (ring_at_bind _ _ _ _ Hr).
  rewrite (proj2 (Z.leb_le 0 _)), (proj2 (Z.leb_le _ _)) by lia. done.
Qed.

(** Bytes are appended, and a reader woken; when the last free place would be
    used, nothing happens to the bytes in the queue. *)
Lemma ring_put_ok ra fuel e q r d s Q rq es :
  0 < e < 31 -> let n := 2 ^ e in
  rings s !! q = Some r -> ring_ok n r -> 0 < Z.of_nat (length d) < n ->
  ring_count n r + Z.of_nat (length d) <= n -> rhead r + Z.of_nat (length d) <= n ->
  waiting (hwq s) Q rq THREAD_TASK_WAITING (proc_list q) es -> (length es < fuel)%nat ->
  exists r' w, ring_put ra fuel n q d s = Ok (tt, set_hwq w (with_ring q r' s)) /\ ring_ok n r' /\ rtail r' = rtail r /\
    if ring_count n r + Z.of_nat (length d) =? n then w = hwq s /\ ring_data n r' = ring_data n r /\ rhead r' = rhead r
    else wakes (hwq s) Q rq ra THREAD_TASK_WAITING es (Ok (tt, w)) /\ ring_data n r' = ring_data n r ++ d /\
      rhead r' = (rhead r + Z.of_nat (length d)) mod n.
Proof.
  intros He n Hr Hok Hd Hc Hw HW Hf. assert (n <= 2 ^ 30) as Hn by (apply Z.pow_le_mono_r; lia).
  pose proof Hok as (Hn0 & Hl & Hh & Ht). pose proof (ring_count_range n r Hok).
  unfold ring_put. rewrite (ring_at_bind _ _ _ _ Hr). cbv zeta. rewrite (s32_small (rhead r)) by lia.
  rewrite (store_bytes_bind _ _ _ n) by done. rewrite (s32_small (_ + _)) by lia.
  replace (n - 1) with (Z.ones e) by (rewrite Z.ones_equiv; unfold n; lia). rewrite Z.land_ones by lia. fold n.
  pose proof (Z.mod_pos_bound (rhead r + Z.of_nat (length d)) n Hn0).
  set (r1 := Ring (rhead r) (rtail r) (stored r d)). set (s1 := with_ring q r1 s).
  rewrite (ring_at_bind _ r1 _ s1) by apply with_ring_at. rewrite u32_small by lia.
  change (rtail r1) with (rtail r). rewrite (ring_full n r) by (done || lia).
  assert (forall h, 0 <= h < n -> ring_ok n (Ring h (rtail r) (stored r d))) as Hok'.
  { intros h Hh'. unfold ring_ok. simpl. unfold stored. rewrite overwrite_length by lia. lia. }
  destruct (Z.eqb_spec (ring_count n r + Z.of_nat (length d)) n) as [E|E]; cbn [negb].
  - exists r1, (hwq s). split; [by destruct s|]. split; [by apply Hok'|]. split; [done|].
    split; [done|]. split; [by apply ring_data_stored|done].
  - rewrite put_ring_bind. unfold s1. rewrite with_ring_twice. set (r2 := Ring _ _ _).
    pose proof (wake_up_ok ra fuel (hwq s) Q rq THREAD_TASK_WAITING (proc_list q) es 1 HW Hf) as Hk.
    assert (exists w, __wake_up ra fuel (proc_list q) THREAD_TASK_WAITING 1 (hwq s) = Ok (tt, w)) as [w Ew].
    { unfold wakes in Hk. destruct (List.find _ _); [destruct Hk as (? & ? & ? & _ & _ & Ew & _)|]; by eexists. }
    rewrite Ew in Hk.
    exists r2, w. split; [by apply (in_wq_ok _ (with_ring q r2 s))|]. split; [by apply Hok'|]. split; [done|].
    split; [done|]. split; [|done]. apply ring_data_put; [done|lia|done].
Qed.

Lemma ring_get_ok e q r (w : nat) s :
  0 < e < 31 -> let n := 2 ^ e in
  rings s !! q = Some r -> ring_ok n r -> (0 < w)%nat -> Z.of_nat w <= ring_count n r -> rtail r + Z.of_nat w <= n ->
  exists l r', ring_get n q w s = Ok (l, with_ring q r' s) /\ ring_ok n r' /\ ring_data n r = l ++ ring_data n r' /\
    length l = w /\ rhead r' = rhead r /\ rtail r' = (rtail r + Z.of_nat w) mod n.
Proof.
  intros He n Hr Hok Hw Hc Ht. assert (n <= 2 ^ 30) as Hn by (apply Z.pow_le_mono_r; lia).
  pose proof Hok as (Hn0 & Hl & Hh & Htl). pose proof (ring_count_range n r Hok).
  set (s0 := set_hwq (set_wkern (set_intr false (wkern (hwq s))) (hwq s)) s).
  assert (in_wq (in_kern intr_disable) s = Ok (intr (wkern (hwq s)), s0)) as E by (apply in_wq_ok, in_kern_ok, intr_disable_ok).
  eexists _, (Ring (rhead r) ((rtail r + Z.of_nat w) mod n) (rbuf r)). split.
  - unfold ring_get. run E. rewrite (ring_at_bind _ r _ s0) by done.
    assert (load_bytes q (rtail r) w s0 = Ok (take w (drop (Z.to_nat (rtail r)) (rbuf r)), s0)) as El
      by (apply (load_bytes_ok _ _ _ _ n); [done..|lia|done]).
    run El. rewrite put_ring_bind. rewrite u32_small by lia.
    replace (n - 1) with (Z.ones e) by (rewrite Z.ones_equiv; unfold n; lia). rewrite Z.land_ones by lia. fold n.
    set (s1 := with_ring q _ s0).
    assert (in_wq (in_kern (intr_set_status (intr (wkern (hwq s))))) s1 =
      Ok (intr (wkern (hwq s1)), set_hwq (set_wkern (set_intr (intr (wkern (hwq s))) (wkern (hwq s1))) (hwq s1)) s1)) as E1
      by (apply in_wq_ok, in_kern_ok, intr_set_status_ok).
    run E1. unfold s1, s0, with_ring, set_rings, ret. destruct s as [[[] ? ?] ? ? ? ? ? ? ? ?]. reflexivity.
  - split.
    { unfold ring_ok. simpl. pose proof (Z.mod_pos_bound (rtail r + Z.of_nat w) n Hn0). lia. }
    split; [apply ring_data_take; [done..|lia]|]. split; [rewrite length_take, length_drop; lia|done].
Qed.
End operations.
