(* ===== verification/Keyboard.v ===== *)
(** * Keyboard: from scan codes to characters (core/device/pc_kbd.c,
    core/include/hid/keymap.h) *)
From S2P Require Import Prelude Lists Kernel WaitQueue Ports Hid.

Definition KBD_BUF_SIZE : Z := 2048.
Definition NR_SCAN_CODES : nat := 128.
Definition FLAG_EXT : Z := 0x00e0.
Definition MAKE_SHIFT_L : Z := 0x002a.
Definition MAKE_SHIFT_R : Z := 0x0036.
Definition MAKE_CTRL_L : Z := 0x001d.
Definition MAKE_CTRL_R : Z := 0xe01d.
Definition MAKE_ALT_L : Z := 0x0038.
Definition MAKE_ALT_R : Z := 0xe038.
Definition MAKE_CAP_LOCK : Z := 0x003a.
Definition MAKE_META_L : Z := 0xe05B.
Definition MAKE_META_R : Z := 0xe05c.
Definition O_NONBLOCK : Z := 2048.   (* 00004000 *)
Definition EAGAIN : Z := 11.
Definition ENOMEM : Z := 12.

(** Rows of a character without and with the shift key; eight rows to a line,
    the index of the first one after it.  Keys without a character have 0. *)
Definition keymap : list (Z * Z) :=
  [
   (0, 0); (27, 27); (49, 33); (50, 64); (51, 35); (52, 36); (53, 37); (54, 94);  (* 0x00 *)
   (55, 38); (56, 42); (57, 40); (48, 41); (45, 95); (61, 43); (8, 8); (9, 9);  (* 0x08 *)
   (113, 81); (119, 87); (101, 69); (114, 82); (116, 84); (121, 89); (117, 85); (105, 73);  (* 0x10 *)
   (111, 79); (112, 80); (91, 123); (93, 125); (13, 13); (0, 0); (97, 65); (115, 83);  (* 0x18 *)
   (100, 68); (102, 70); (103, 71); (104, 72); (106, 74); (107, 75); (108, 76); (59, 58);  (* 0x20 *)
   (39, 34); (96, 126); (0, 0); (92, 124); (122, 90); (120, 88); (99, 67); (118, 86);  (* 0x28 *)
   (98, 66); (110, 78); (109, 77); (44, 60); (46, 62); (47, 63); (0, 0); (42, 42);  (* 0x30 *)
   (0, 0); (32, 32); (0, 0); (0, 0); (0, 0); (0, 0); (0, 0); (0, 0);  (* 0x38 *)
   (0, 0); (0, 0); (0, 0); (0, 0); (0, 0); (0, 0); (0, 0); (0, 0);  (* 0x40 *)
   (0, 0); (0, 0); (0, 0); (0, 0); (0, 0); (0, 0); (0, 0); (0, 0);  (* 0x48 *)
   (0, 0); (0, 0); (0, 0); (0, 0); (0, 0); (0, 0); (0, 0); (0, 0);  (* 0x50 *)
   (0, 0); (0, 0); (0, 0); (0, 0); (0, 0); (0, 0); (0, 0); (0, 0);  (* 0x58 *)
   (0, 0); (0, 0); (0, 0); (0, 0); (0, 0); (0, 0); (0, 0); (0, 0);  (* 0x60 *)
   (0, 0); (0, 0); (0, 0); (0, 0); (0, 0); (0, 0); (0, 0); (0, 0);  (* 0x68 *)
   (0, 0); (0, 0); (0, 0); (0, 0); (0, 0); (0, 0); (0, 0); (0, 0);  (* 0x70 *)
   (0, 0); (0, 0); (0, 0); (0, 0); (0, 0); (0, 0); (0, 0); (0, 0)   (* 0x78 *)
  ].

Section keyboard.
Context {X : Machine} {G : Globals}.
Variable return_address : Z.
Variable fuel : nat.

Definition kbd_queue_empty : M hid bool :=
  q <- gets kbd_queue ;; ring_is_empty q.
Definition kbd_get_from_queue : M hid Z :=
  q <- gets kbd_queue ;;
  l <- ring_get KBD_BUF_SIZE q 1 ;;
  ret (default 0 (l !! 0%nat)).

(** ** Reading *)
(** The loop that copies at most [index] bytes. *)
Fixpoint kbd_copy (index : nat) : M hid (list Z) :=
  match index with
  | O => ret []
  | S index =>
      e <- kbd_queue_empty ;;
      if e : bool then ret []
      else (c <- kbd_get_from_queue ;; l <- kbd_copy index ;; ret (c :: l))
  end.
Definition kbd_take (count : Z) : M hid (list Z * Z) :=
  l <- kbd_copy (Z.to_nat count) ;;
  ret (l, Z.of_nat (length l)).
(** [read_kbd] returns the bytes it stored and its result, or, when it blocks,
    what [thread_block] keeps to restore later; [wait] is the address of the
    entry on its stack. *)
Definition read_kbd (fd_flag count wait : Z) : M hid (bool + list Z * Z) :=
  cur <- in_wq (in_kern running_thread) ;;
  in_wq (DECLARE_WAITQUEUE wait cur) ;;;
  e <- kbd_queue_empty ;;
  if e : bool then
    if negb (Z.land fd_flag O_NONBLOCK =? 0) then ret (inr ([], u32 (- EAGAIN)))
    else
      q <- gets kbd_queue ;;
      in_wq (add_wait_queue (proc_list q) wait) ;;;
      old <- in_wq (in_kern (thread_block fuel THREAD_TASK_WAITING)) ;;
      ret (inl old)
  else (r <- kbd_take count ;; ret (inr r)).
(** The rest of it, when the thread runs again. *)
Definition read_kbd_resumed (old : bool) (count wait : Z) : M hid (list Z * Z) :=
  in_wq (in_kern (intr_set_status old)) ;;;
  old_status <- in_wq (in_kern intr_disable) ;;
  cur <- in_wq (in_kern running_thread) ;;
  in_wq (in_kern (upd_tcb cur (set_status THREAD_TASK_READY))) ;;;
  q <- gets kbd_queue ;;
  in_wq (remove_wait_queue (proc_list q) wait) ;;;
  in_wq (in_kern (intr_set_status old_status)) ;;;
  kbd_take count.

(** ** The events *)
(** The keys whose second character needs the shift key alone. *)
Definition shifted_only (scan_code : Z) : bool :=
  ((scan_code >=? 0x02) && (scan_code <? 0x0e)) || (scan_code =? 0x1a) || (scan_code =? 0x1b) ||
  (scan_code =? 0x27) || (scan_code =? 0x28) || (scan_code =? 0x29) || (scan_code =? 0x2b) ||
  (scan_code =? 0x33) || (scan_code =? 0x34) || (scan_code =? 0x35).
Definition shift_of (scan_code : Z) (shift_pressed cap_lock_pressed : bool) : bool :=
  if shifted_only scan_code then (if shift_pressed then true else false)
  else if shift_pressed && cap_lock_pressed then false
  else if shift_pressed || cap_lock_pressed then true else false.
Definition key_of (scan_code : Z) (shift : bool) : option Z :=
  match keymap !! Z.to_nat (Z.land scan_code 0x00ff) with
  | Some (a, b) => Some (s8 (if shift then b else a)) | None => None end.

(** A character is put into the queue; one that finds it full is dropped. *)
Definition kbd_put (key : Z) : M hid unit :=
  q <- gets kbd_queue ;;
  ring_put return_address fuel KBD_BUF_SIZE q [u8 key].
(** The keys without a character set the state of the keyboard. *)
Definition press (scan_code : Z) (k : keys) : keys :=
  let '(Keys c s a l m e) := k in
  if (scan_code =? MAKE_CTRL_L) || (scan_code =? MAKE_CTRL_R) then Keys true s a l m e
  else if (scan_code =? MAKE_ALT_L) || (scan_code =? MAKE_ALT_R) then Keys c s true l m e
  else if (scan_code =? MAKE_SHIFT_L) || (scan_code =? MAKE_SHIFT_R) then Keys c true a l m e
  else if scan_code =? MAKE_CAP_LOCK then Keys c s a true m e
  else if (scan_code =? MAKE_META_L) || (scan_code =? MAKE_META_R) then Keys c s a l true e
  else k.
Definition release (make_code : Z) (k : keys) : keys :=
  let '(Keys c s a l m e) := k in
  if (make_code =? MAKE_CTRL_R) || (make_code =? MAKE_CTRL_L) then Keys false s a l m e
  else if (make_code =? MAKE_ALT_R) || (make_code =? MAKE_ALT_L) then Keys c s false l m e
  else if (make_code =? MAKE_SHIFT_R) || (make_code =? MAKE_SHIFT_L) then Keys c false a l m e
  else k.
Definition set_ext (b : bool) (k : keys) : keys :=
  Keys (ctrl_status k) (shift_status k) (alt_status k) (caps_lock_status k) (meta_status k) b.
(** The codes the second branch takes. *)
Definition known_code (scan_code : Z) : bool :=
  ((scan_code >? 0x00) && (scan_code <? 0x3b)) ||
  ((scan_code =? MAKE_ALT_R) || (scan_code =? MAKE_CTRL_R)) ||
  ((scan_code =? MAKE_META_L) || (scan_code =? MAKE_META_R)).

Definition handle_keyboard_event (scan_code : Z) : M hid unit :=
  k <- gets hkeys ;;
  if scan_code =? FLAG_EXT then modify (set_hkeys (set_ext true k))
  else
    let scan_code' := if ext_scancode k then Z.lor 0xe000 scan_code else scan_code in
    (when ext_scancode k do modify (set_hkeys (set_ext false k))) ;;;
    if negb (Z.land scan_code' 0x0080 =? 0) then
      let make_code := Z.land scan_code' 0xff7f in
      modify (fun s => set_hkeys (release make_code (hkeys s)) s)
    else if known_code scan_code' then
      match key_of scan_code' (shift_of scan_code' (shift_status k) (caps_lock_status k)) with
      | None => fault
      | Some key =>
          if negb (key =? 0) then kbd_put key
          else modify (fun s => set_hkeys (press scan_code' (hkeys s)) s)
      end
    else if scan_code' =? 0x0 then ret tt
    else panic.

(** [pc_kbd_init] with what [sys_malloc] gave it. *)
Definition pc_kbd_init (allocated : Z) : M hid Z :=
  modify (set_kbd_queue allocated) ;;;
  if allocated =? 0 then ret (u32 (- ENOMEM))
  else (new_ring (Z.to_nat KBD_BUF_SIZE) allocated ;;; ret 0).
End keyboard.
