(* ===== verification/KeyboardSpec.v ===== *)
(** * KeyboardSpec: the keyboard types what its layout says

    [strike] is the keyboard as its user sees it: two modifiers, the layout of
    a US keyboard given row by row, and the text typed so far.  The event
    handler is proved to implement it for every sequence of bytes from the
    keyboard. *)
From Stdlib Require Import Ascii String.
From S2P Require Import Prelude Lists Kernel Queues Sched WaitQueue WaitQueueSpec Ports Hid HidSpec Keyboard.

(** ** The keyboard seen from outside *)
Fixpoint chars (s : string) : list Z :=
  match s with EmptyString => [] | String a s => Z.of_N (N_of_ascii a) :: chars s end.
(** The codes of a row, from its first key on, with the characters. *)
Definition row (first : Z) (plain shifted : list Z) : list (Z * (Z * Z)) :=
  zip (seqZ first (Z.of_nat (List.length plain))) (zip plain shifted).
Definition us_layout : list (Z * (Z * Z)) :=
  row 0x01 ([27] ++ chars "1234567890-=" ++ [8; 9]) ([27] ++ chars "!@#$%^&*()_+" ++ [8; 9]) ++
  row 0x10 (chars "qwertyuiop[]" ++ [13]) (chars "QWERTYUIOP{}" ++ [13]) ++
  row 0x1e (chars "asdfghjkl;'`") (chars "ASDFGHJKL:" ++ [34] ++ chars "~") ++
  row 0x2b (chars "\zxcvbnm,./") (chars "|ZXCVBNM<>?") ++
  row 0x37 (chars "*") (chars "*") ++ row 0x39 (chars " ") (chars " ").
Definition is_letter (c : Z) : bool := (97 <=? c) && (c <=? 122).
(** Caps lock changes letters only. *)
Definition character (shift caps : bool) (code : Z) : option Z :=
  match List.find (fun x => fst x =? code) us_layout with
  | Some (_, (a, b)) => Some (if (if is_letter a then xorb shift caps else shift) then b else a)
  | None => None
  end.

Record desk := Desk { d_shift : bool; d_caps : bool; d_ext : bool; d_text : list Z }.
(** At most 2047 characters wait to be read. *)
Definition type_char (c : Z) (t : list Z) : list Z := if (List.length t <? 2047)%nat then t ++ [c] else t.
(** A byte from the keyboard; at a key it does not know the kernel stops. *)
Definition strike (d : desk) (c : Z) : option desk :=
  if c =? 0xE0 then Some (Desk (d_shift d) (d_caps d) true (d_text d))
  else if d_ext d then
    if (0x80 <=? c) || bool_decide (c ∈ [0x1d; 0x38; 0x5b; 0x5c]) then Some (Desk (d_shift d) (d_caps d) false (d_text d))
    else None
  else if 0x80 <=? c then
    Some (Desk (if bool_decide (c ∈ [0xaa; 0xb6]) then false else d_shift d) (d_caps d) false (d_text d))
  else if c =? 0 then Some d
  else if 0x3a <? c then None
  else match character (d_shift d) (d_caps d) c with
       | Some ch => Some (Desk (d_shift d) (d_caps d) false (type_char ch (d_text d)))
       | None => Some (Desk (if bool_decide (c ∈ [0x2a; 0x36]) then true else d_shift d)
                            (if c =? 0x3a then true else d_caps d) false (d_text d))
       end.
Fixpoint strikes (d : desk) (l : list Z) : option desk :=
  match l with [] => Some d | c :: l => match strike d c with Some d => strikes d l | None => None end end.

(** ** What the handler decides to do *)
Inductive outcome := Stops | Broken | Sets (k : keys) | Puts (key : Z) (k : keys).
Definition decode (k : keys) (scan_code : Z) : outcome :=
  if scan_code =? FLAG_EXT then Sets (set_ext true k)
  else
    let scan_code' := if ext_scancode k then Z.lor 0xe000 scan_code else scan_code in
    let k' := if ext_scancode k then set_ext false k else k in
    if negb (Z.land scan_code' 0x0080 =? 0) then Sets (release (Z.land scan_code' 0xff7f) k')
    else if known_code scan_code' then
      match key_of scan_code' (shift_of scan_code' (shift_status k) (caps_lock_status k)) with
      | None => Broken
      | Some key => if negb (key =? 0) then Puts key k' else Sets (press scan_code' k')
      end
    else if scan_code' =? 0x0 then Sets k' else Stops.

(** The result on the modifiers, and the character. *)
Definition seen (o : outcome) : option (bool * bool * bool * option Z) :=
  match o with
  | Stops | Broken => None
  | Sets k => Some (shift_status k, caps_lock_status k, ext_scancode k, None)
  | Puts key k => Some (shift_status k, caps_lock_status k, ext_scancode k, Some (u8 key))
  end.
Definition struck (sh ca ex : bool) (c : Z) : option (bool * bool * bool * option Z) :=
  match strike (Desk sh ca ex []) c with
  | Some d => Some (d_shift d, d_caps d, d_ext d, d_text d !! 0%nat)
  | None => None
  end.

Section keyboard.
Context {X : Machine} {G : Globals}.
Implicit Types (s : hid) (k : keys) (Q : queue_map) (rq es text : list Z) (qs : list (Z * list Z)).

Lemma map_ext_in_inv {A B} (f g : A -> B) l : map f l = map g l -> forall x, In x l -> f x = g x.
Proof. induction l as [|y l IH]; simpl; [done|]. intros [= ? ?] x [->|?]; [done|by apply IH]. Qed.
Lemma decode_struck k c : 0 <= c < 256 ->
  seen (decode k c) = struck (shift_status k) (caps_lock_status k) (ext_scancode k) c /\ decode k c <> Broken.
Proof.
  intros Hc. assert (In c (seqZ 0 256)) as Hin by (apply list_elem_of_In, elem_of_seqZ; lia).
  assert (forall k, map (fun c => (seen (decode k c), match decode k c with Broken => true | _ => false end)) (seqZ 0 256)
    = map (fun c => (struck (shift_status k) (caps_lock_status k) (ext_scancode k) c, false)) (seqZ 0 256)) as H.
  { intros [c0 [] a0 [] m0 []]; vm_compute; reflexivity. }
  pose proof (map_ext_in_inv _ _ _ (H k) c Hin) as [= E1 E2].
  split; [done|]. intros E. by rewrite E in E2.
Qed.

Lemma handle_decode ra fuel c s :
  handle_keyboard_event ra fuel c s =
  match decode (hkeys s) c with
  | Stops => Panic | Broken => Fault
  | Sets k => Ok (tt, set_hkeys k s)
  | Puts key k => kbd_put ra fuel key (set_hkeys k s)
  end.
Proof.
  unfold handle_keyboard_event, decode. rewrite gets_bind. destruct (c =? FLAG_EXT); [done|].
  destruct (ext_scancode (hkeys s)); [rewrite modify_bind|rets]; cbv zeta;
    (destruct (negb (Z.land _ _ =? 0)); [done|]); (destruct (known_code _);
      [destruct (key_of _ _) as [key|]; [destruct (negb (key =? 0)); [|done]|done]
      |destruct (_ =? 0); done || by destruct s]); done || by destruct s.
Qed.


Lemma strike_struck d c :
  strike d c = match struck (d_shift d) (d_caps d) (d_ext d) c with
               | Some (sh, ca, ex, o) => Some (Desk sh ca ex (match o with Some ch => type_char ch (d_text d) | None => d_text d end))
               | None => None
               end.
Proof.
  destruct d as [sh ca ex t]. unfold struck, strike. cbn [d_shift d_caps d_ext d_text].
  repeat (case_match; try done); simplify_eq/=; done.
Qed.

(** ** The handler implements the keyboard *)
(** [qs] are the wait queues of the machine with the entries in them. *)
Record on_desk (fuel : nat) qs s (d : desk) : Prop := {
  od_keys : shift_status (hkeys s) = d_shift d /\ caps_lock_status (hkeys s) = d_caps d /\ ext_scancode (hkeys s) = d_ext d;
  od_ring : exists r, rings s !! kbd_queue s = Some r /\ ring_ok KBD_BUF_SIZE r /\ ring_data KBD_BUF_SIZE r = d_text d;
  od_wait : sleepers fuel (hwq s) qs /\ exists es, (proc_list (kbd_queue s), es) ∈ qs
}.

Lemma kbd_put_ok ra fuel key s r Q rq es :
  rings s !! kbd_queue s = Some r -> ring_ok KBD_BUF_SIZE r ->
  waiting (hwq s) Q rq THREAD_TASK_WAITING (proc_list (kbd_queue s)) es -> (List.length es < fuel)%nat ->
  exists r' w, kbd_put ra fuel key s = Ok (tt, set_hwq w (with_ring (kbd_queue s) r' s)) /\ ring_ok KBD_BUF_SIZE r' /\
    ring_data KBD_BUF_SIZE r' = type_char (u8 key) (ring_data KBD_BUF_SIZE r) /\
    if (List.length (ring_data KBD_BUF_SIZE r) <? 2047)%nat then wakes (hwq s) Q rq ra THREAD_TASK_WAITING es (Ok (tt, w))
    else w = hwq s.
Proof.
  intros Hr Hok HW Hf. pose proof (ring_count_range _ _ Hok). pose proof Hok as (_ & _ & Hh & _).
  assert (ring_count KBD_BUF_SIZE r + 1 <= KBD_BUF_SIZE /\ rhead r + 1 <= KBD_BUF_SIZE) as [Hc Hhd] by lia.
  assert (KBD_BUF_SIZE = 2048) as EK by done.
  destruct (ring_put_ok ra fuel 11 (kbd_queue s) r [u8 key] s Q rq es) as (r' & w & E & Hok' & Ht & Hres); [done..|].
  change (2 ^ 11) with KBD_BUF_SIZE in *. change (Z.of_nat (List.length [u8 key])) with 1 in Hres.
  exists r', w. split; [exact E|]. split; [done|]. unfold type_char. rewrite ring_data_length.
  destruct (Z.eqb_spec (ring_count KBD_BUF_SIZE r + 1) KBD_BUF_SIZE) as [Ef|Ef].
  - destruct Hres as (-> & Hd & _). rewrite (proj2 (Nat.ltb_ge _ _)) by lia. done.
  - destruct Hres as (Hk & Hd & _). rewrite (proj2 (Nat.ltb_lt _ _)) by lia. done.
Qed.

Lemma on_desk_keys fuel qs s d k sh ca ex :
  on_desk fuel qs s d -> shift_status k = sh -> caps_lock_status k = ca -> ext_scancode k = ex ->
  on_desk fuel qs (set_hkeys k s) (Desk sh ca ex (d_text d)).
Proof. intros [_ Hr HW] <- <- <-. by split. Qed.
Lemma event_strike ra fuel qs c s d : on_desk fuel qs s d -> 0 <= c < 256 ->
  match strike d c with
  | Some d' => exists s', handle_keyboard_event ra fuel c s = Ok (tt, s') /\ on_desk fuel qs s' d'
  | None => handle_keyboard_event ra fuel c s = Panic
  end.
Proof.
  intros [(Es & Ec & Hx) Hr HW] Hc. rewrite strike_struck, handle_decode, <-Es, <-Ec, <-Hx.
  destruct (decode_struck (hkeys s) c Hc) as [E Hb]. rewrite <-E.
  destruct (decode (hkeys s) c) as [| |k|key k]; cbn [seen]; [done|done| |].
  - eexists. split; [done|]. by split.
  - destruct Hr as (r & Hr & Hok & <-). destruct HW as [(Q & rq & HWs) (es & Hin)]. destruct (HWs _ _ Hin) as [HW Hf].
    destruct (kbd_put_ok ra fuel key (set_hkeys k s) r Q rq es) as (r' & w & Ep & Hok' & Hd' & Hw); [done..|].
    eexists. split; [exact Ep|]. split; [done| |].
    + exists r'. split; [apply with_ring_at|]. split; [done|exact Hd'].
    + split; [|by exists es]. destruct (_ <? _)%nat; [|subst w; by exists Q, rq]. by eapply wakes_sleepers.
Qed.

(** The interrupts of a sequence of bytes. *)
Fixpoint handle_all (ra : Z) (fuel : nat) (l : list Z) : M hid unit :=
  match l with [] => ret tt | c :: l => handle_keyboard_event ra fuel c ;;; handle_all ra fuel l end.

(** C11: for every sequence of bytes from the keyboard, the event handler does
    what the layout of a US keyboard says: the characters typed are appended
    to the queue until 2047 wait in it, and then dropped, the shift keys and
    caps lock select the character, a byte [0xE0] makes the next one a code of
    its own; the machine stops exactly at a key outside the table, and the
    readers that are not woken stay in their wait queues. *)
Theorem keyboard_refines_layout ra fuel qs l s d :
  on_desk fuel qs s d -> Forall (fun c => 0 <= c < 256) l ->
  match strikes d l with
  | Some d' => exists s', handle_all ra fuel l s = Ok (tt, s') /\ on_desk fuel qs s' d'
  | None => handle_all ra fuel l s = Panic
  end.
Proof.
  revert s d. induction l as [|c l IH]; intros s d Hd Hl; cbn [strikes handle_all]; [by exists s|].
  apply list.Forall_cons in Hl as [Hc Hl]. pose proof (event_strike ra fuel qs c s d Hd Hc) as He.
  destruct (strike d c) as [d1|]; [|unfold bind; by rewrite He].
  destruct He as (s1 & E & Hd1). specialize (IH s1 d1 Hd1 Hl). unfold bind. rewrite E. exact IH.
Qed.

(** ** Reading *)
Lemma kbd_copy_ok n s r :
  rings s !! kbd_queue s = Some r -> ring_ok KBD_BUF_SIZE r ->
  exists r', kbd_copy n s = Ok (take n (ring_data KBD_BUF_SIZE r), with_ring (kbd_queue s) r' s) /\
    ring_ok KBD_BUF_SIZE r' /\ ring_data KBD_BUF_SIZE r' = drop n (ring_data KBD_BUF_SIZE r).
Proof.
  revert s r. induction n as [|n IH]; intros s r Hr Hok; cbn [kbd_copy].
  - exists r. split; [|done]. unfold ret, with_ring. rewrite insert_id by done. by destruct s.
  - unfold kbd_queue_empty, kbd_get_from_queue. rewrite bind_assoc, gets_bind. run (ring_is_empty_ok _ _ _ _ Hr Hok).
    destruct (ring_data KBD_BUF_SIZE r) as [|c t] eqn:Ed; [rewrite bool_decide_true by done|rewrite bool_decide_false by done].
    + exists r. split; [|by rewrite Ed]. unfold ret, with_ring. rewrite insert_id by done. by destruct s.
    + pose proof (ring_data_length KBD_BUF_SIZE r) as Hl. rewrite Ed in Hl. simpl in Hl. pose proof Hok as (_ & _ & _ & Ht).
      destruct (ring_get_ok 11 (kbd_queue s) r 1 s) as (l & r1 & E & Hok1 & Hd1 & Hl1 & _); [done|done|done|lia|change (2 ^ 11) with KBD_BUF_SIZE; lia..|].
      change (2 ^ 11) with KBD_BUF_SIZE in *. rewrite bind_assoc, gets_bind. run E. rewrite bind_ret.
      destruct l as [|c' [|? ?]]; [done| |done]. rewrite Ed in Hd1. injection Hd1 as -> ->.
      destruct (IH (with_ring (kbd_queue s) r1 s) r1) as (r2 & E2 & Hok2 & Hd2); [apply with_ring_at|done|].
      run E2. rets. exists r2. split; [|done]. cbn [take]. unfold ret. by rewrite with_ring_twice.
Qed.
Lemma kbd_take_ok count s r :
  rings s !! kbd_queue s = Some r -> ring_ok KBD_BUF_SIZE r ->
  let l := take (Z.to_nat count) (ring_data KBD_BUF_SIZE r) in
  exists r', kbd_take count s = Ok ((l, Z.of_nat (List.length l)), with_ring (kbd_queue s) r' s) /\
    ring_ok KBD_BUF_SIZE r' /\ ring_data KBD_BUF_SIZE r' = drop (Z.to_nat count) (ring_data KBD_BUF_SIZE r).
Proof.
  intros Hr Hok. destruct (kbd_copy_ok (Z.to_nat count) s r Hr Hok) as (r' & E & ? & ?). exists r'. split; [|done].
  unfold kbd_take. by run E.
Qed.
End keyboard.

(** ** A keyboard nobody has typed on *)
Definition no_devices : Machine := {| device := unit; port_in _ d := (0, d); port_out _ _ d := d |}.
Definition fresh_ring : ring := Ring 0 0 (replicate (Z.to_nat KBD_BUF_SIZE) 0).
Definition fresh_hid : @hid no_devices :=
  @Hid no_devices two_threads {[5000 := fresh_ring]} 5000 0 0 (Keys false false false false false false) (Mouse 0 [0; 0; 0; 0] 0) (Softirq.Softirq 0 []) tt.
Lemma fresh_ring_ok : ring_ok KBD_BUF_SIZE fresh_ring /\ ring_data KBD_BUF_SIZE fresh_ring = [].
Proof. split; [|done]. unfold ring_ok, fresh_ring. cbn [rbuf rhead rtail]. rewrite length_replicate. unfold KBD_BUF_SIZE. lia. Qed.
Lemma fresh_on_desk : @on_desk no_devices two_globals 10 [(5008, [])] fresh_hid (Desk false false false []).
Proof.
  split; [done| |].
  - exists fresh_ring. split; [done|]. apply fresh_ring_ok.
  - split; [|exists []; by left]. exists {[100 := [12288]]}, [12288]. intros q es [= -> ->]%list_elem_of_singleton. split; [apply two_threads_waiting|simpl; lia].
Qed.

(** Shift and H, then i, and the release of both: "Hi" waits to be read. *)
Lemma keyboard_refines_layout_witness :
  exists s', @handle_all no_devices two_globals 0 10 [0x2a; 0x23; 0xa3; 0xaa; 0x17; 0x97] fresh_hid = Ok (tt, s') /\
    @on_desk no_devices two_globals 10 [(5008, [])] s' (Desk false false false (chars "Hi")).
Proof.
  apply (@keyboard_refines_layout no_devices two_globals 0 10 [(5008, [])] [0x2a; 0x23; 0xa3; 0xaa; 0x17; 0x97] fresh_hid (Desk false false false [])).
  - exact fresh_on_desk.
  - repeat (apply list.Forall_cons; split; [lia|]). by apply list.Forall_nil.
Defined.

(** * A thread that reads the keyboard sleeps until a key comes *)

Section reading.
Context {X : Machine} {G : Globals}.
Implicit Types (s : hid) (Q : queue_map) (rq es : list Z).
Notation kernel s := (wkern (hwq s)).
Notation on_kernel c := (in_wq (in_kern c)).

Lemma on_kernel_ok {A} (c : M kern A) s a k :
  c (kernel s) = Ok (a, k) -> on_kernel c s = Ok (a, set_hwq (set_wkern k (hwq s)) s).
Proof. intros E. by apply in_wq_ok, in_kern_ok. Qed.

(** A thread that runs calls [read_kbd] when no character is there; [wait] is
    free memory on its stack. *)
Record reader s Q rq es (wait : Z) (b : TCB) : Prop := {
  rd_wait : waiting (hwq s) Q rq THREAD_TASK_WAITING (proc_list (kbd_queue s)) es;
  rd_runs : tasks (kernel s) !! current (kernel s) = Some b /\ unlinked (kernel s) Q (current (kernel s));
  rd_entry : 0 < wait /\ apart (kernel s) Q (entry_list wait) /\
    entry_list wait ∉ head_list (proc_list (kbd_queue s)) :: (entry_list <$> es);
  rd_empty : exists r, rings s !! kbd_queue s = Some r /\ ring_ok KBD_BUF_SIZE r /\ ring_data KBD_BUF_SIZE r = [] }.

(** It joins the wait queue and the next thread runs. *)
Lemma read_kbd_sleeps fuel fd_flag count s Q next rest es wait b :
  reader s Q (next :: rest) es wait b -> Z.land fd_flag O_NONBLOCK = 0 -> (S (length rest) < fuel)%nat ->
  (forall t, alive (kernel s) t -> t <> 0) -> let R := current (kernel s) in
  exists w n, read_kbd fuel fd_flag count wait s = Ok (inl (intr (kernel s)), set_hwq w s) /\
    current (wkern w) = next /\ next <> R /\
    tasks (wkern w) = <[next := set_status THREAD_TASK_RUNNING n]> (<[R := set_status THREAD_TASK_WAITING b]> (tasks (kernel s))) /\
    tasks (kernel s) !! next = Some n /\ off_queues (<[thread_ready_list := rest]> Q) next /\
    waits w !! wait = Some (Wait 0 R (entry_magic wait) 0) /\
    waiting w (<[thread_ready_list := rest]> Q) rest THREAD_TASK_WAITING (proc_list (kbd_queue s)) (wait :: es).
Proof.
  intros [HW [Hb Hun] (Hw0 & Hap & Hnin) (r & Hr & Hok & Hd)] Hfl Hf H0 R.
  set (w1 := declared (hwq s) wait R). set (s1 := set_hwq w1 s).
  pose proof (declared_waiting _ _ _ _ _ _ wait R HW Hap Hnin) as HW1. fold w1 in HW1.
  assert (unlinked (wkern w1) Q R) as Hun1.
  { apply (unlinked_outside (kernel s) _ _ [entry_list wait]); [done|apply (declared_unchanged wait (hwq s) R)|].
    intros Hp%list_elem_of_singleton. apply (proj2 Hap R); [by eexists|done]. }
  destruct (add_waiting w1 Q (next :: rest) THREAD_TASK_WAITING _ es wait (Wait 0 R (entry_magic wait) 0) HW1)
    as (h & E2 & HW2 & Hu2); [apply lookup_insert_eq|done|by eexists|done|apply lookup_insert_is_Some; by left|done|exact Hap|exact Hun1|].
  set (w2 := set_lists h w1) in *.
  destruct (block_waiting fuel w2 Q next rest _ _ b HW2) as (k' & n & E3 & Hc & Hn & Hne & Ht & Ho & HW3); [done| |done|exact H0|].
  { apply (unlinked_outside (wkern w1) _ _ _ _ Hun1 Hu2). intros [Hp|Hp]%list.elem_of_cons.
    - apply (proj2 Hap R); [by eexists|done].
    - by apply (proj2 (wt_apart _ _ _ _ _ _ HW _ Hp) R); [by eexists|]. }
  exists (set_wkern k' w2), n. split; [|split_and!; try done; apply lookup_insert_eq].
  unfold read_kbd. run (on_kernel_ok running_thread s R (kernel s) eq_refl).
  replace (set_hwq _ s) with s by by destruct s as [[] ? ? ? ? ? ? ? ?].
  run (in_wq_ok _ s tt w1 (DECLARE_WAITQUEUE_ok wait R (hwq s))). fold s1.
  unfold kbd_queue_empty. rewrite bind_assoc, gets_bind. run (ring_is_empty_ok s1 (kbd_queue s1) KBD_BUF_SIZE r Hr Hok).
  rewrite Hd, bool_decide_true by done. rewrite Hfl, Z.eqb_refl. cbn [negb]. rewrite gets_bind.
  run (in_wq_ok _ s1 tt w2 E2).
  run (on_kernel_ok (thread_block fuel THREAD_TASK_WAITING) (set_hwq w2 s1) _ _ E3). done.
Qed.

(** A key with a character: it is put into the queue, and the reader, whose
    entry is the first one, goes to the end of the ready list. *)
Lemma key_readies_reader ra fuel c ch s Q rq es wait R b :
  waiting (hwq s) Q rq THREAD_TASK_WAITING (proc_list (kbd_queue s)) (wait :: es) -> (S (length es) < fuel)%nat ->
  waits (hwq s) !! wait = Some (Wait 0 R (entry_magic wait) 0) -> tasks (kernel s) !! R = Some b -> status b = THREAD_TASK_WAITING ->
  (exists r, rings s !! kbd_queue s = Some r /\ ring_ok KBD_BUF_SIZE r /\ ring_data KBD_BUF_SIZE r = []) ->
  ext_scancode (hkeys s) = false -> 0 < c < 0x3b ->
  character (shift_status (hkeys s)) (caps_lock_status (hkeys s)) c = Some ch ->
  exists r' w k, handle_keyboard_event ra fuel c s = Ok (tt, set_hwq w (with_ring (kbd_queue s) r' (set_hkeys k s))) /\
    ring_ok KBD_BUF_SIZE r' /\ ring_data KBD_BUF_SIZE r' = [ch] /\ current (wkern w) = current (kernel s) /\
    tasks (wkern w) = <[R := set_status THREAD_TASK_READY b]> (tasks (kernel s)) /\
    waiting w (<[thread_ready_list := rq ++ [R]]> Q) (rq ++ [R]) THREAD_TASK_WAITING (proc_list (kbd_queue s)) (wait :: es).
Proof.
  intros HW Hf Hwt Hb Hst (r & Hr & Hok & Hd) Hx Hc Hch.
  rewrite handle_decode. destruct (decode_struck (hkeys s) c) as [E _]; [lia|].
  assert (struck (shift_status (hkeys s)) (caps_lock_status (hkeys s)) (ext_scancode (hkeys s)) c
    = Some (shift_status (hkeys s), caps_lock_status (hkeys s), false, Some ch)) as Es.
  { unfold struck, strike. cbn [d_ext d_shift d_caps d_text]. rewrite Hx.
    rewrite (proj2 (Z.eqb_neq c 0xE0)), (proj2 (Z.leb_gt 0x80 c)), (proj2 (Z.eqb_neq c 0)), (proj2 (Z.ltb_ge 0x3a c)) by lia.
    by rewrite Hch. }
  rewrite Es in E. destruct (decode (hkeys s) c) as [| |k|key k]; try done. cbn [seen] in E. injection E as _ _ _ Ekey.
  destruct (kbd_put_ok ra fuel key (set_hkeys k s) r Q rq (wait :: es)) as (r' & w & Ep & Hok' & Hd' & Hw); [done..|].
  rewrite Hd in Hd', Hw. cbn in Hw, Hd'. unfold wakes in Hw. cbn [List.find] in Hw.
  assert (matches (hwq s) THREAD_TASK_WAITING wait = true) as Hm by (unfold matches; by rewrite Hwt; cbn; rewrite Hb, Hst).
  change (hwq (set_hkeys k s)) with (hwq s) in Hw. rewrite Hm in Hw.
  destruct Hw as (w0 & b0 & h & Hw0 & Hb0 & [= ->] & HQ & Hu). simplify_eq/=.
  exists r', (woken (hwq s) ra wait R (Wait 0 R (entry_magic wait) 0) b h), k. split_and!; try done.
  by apply (woken_waiting (hwq s) Q rq THREAD_TASK_WAITING _ (wait :: es) ra wait (Wait 0 R (entry_magic wait) 0)).
Qed.

(** The reader runs again: it leaves the wait queue and takes what is there. *)
Lemma read_kbd_wakes old count s es wait r b :
  wait_list (hwq s) (proc_list (kbd_queue s)) (wait :: es) -> tasks (kernel s) !! current (kernel s) = Some b ->
  rings s !! kbd_queue s = Some r -> ring_ok KBD_BUF_SIZE r ->
  let l := take (Z.to_nat count) (ring_data KBD_BUF_SIZE r) in
  exists w r', read_kbd_resumed old count wait s = Ok ((l, Z.of_nat (List.length l)), set_hwq w (with_ring (kbd_queue s) r' s)) /\
    wait_list w (proc_list (kbd_queue s)) es /\ intr (wkern w) = old /\
    tasks (wkern w) = <[current (kernel s) := set_status THREAD_TASK_READY b]> (tasks (kernel s)) /\
    ring_ok KBD_BUF_SIZE r' /\ ring_data KBD_BUF_SIZE r' = drop (Z.to_nat count) (ring_data KBD_BUF_SIZE r).
Proof.
  intros HL Hb Hr Hok l. set (R := current (kernel s)) in *. set (k0 := kernel s) in *.
  set (k2 := set_tasks (<[R := set_status THREAD_TASK_READY b]> (tasks k0)) (set_intr false (set_intr old k0))).
  set (w2 := set_wkern k2 (hwq s)). set (s2 := set_hwq w2 s).
  assert (wait_list w2 (proc_list (kbd_queue s)) (wait :: es)) as HL2.
  { destruct HL as [Hd Hh Hq He]. split; [done..|]. intros e Hin. destruct (He e Hin) as (? & w & ? & ? & Ht).
    split; [done|]. exists w. split_and!; try done. apply (alive_insert (set_intr false (set_intr old k0)) R); [by eexists|done]. }
  destruct (remove_wait_queue_ok w2 _ [] wait es HL2) as (h & E & HL3 & _).
  set (w3 := set_wkern (set_intr old (wkern (set_lists h w2))) (set_lists h w2)).
  destruct (kbd_take_ok count (set_hwq w3 s) r Hr Hok) as (r' & Et & Hok' & Hd').
  exists w3, r'. split; [|split_and!; try done; by destruct HL3].
  unfold read_kbd_resumed. run (on_kernel_ok (intr_set_status old) s _ _ (intr_set_status_ok old k0)).
  set (s0 := set_hwq _ s). run (on_kernel_ok intr_disable s0 _ _ (intr_disable_ok (set_intr old k0))).
  set (s1 := set_hwq _ s0). run (on_kernel_ok running_thread s1 R _ eq_refl).
  replace (set_hwq _ s1) with s1 by by destruct s as [[] ? ? ? ? ? ? ? ?].
  run (on_kernel_ok (upd_tcb R (set_status THREAD_TASK_READY)) s1 _ _ (upd_tcb_ok (set_intr false (set_intr old k0)) R b _ Hb)).
  rewrite gets_bind. run (in_wq_ok (remove_wait_queue (proc_list (kbd_queue s)) wait) s2 _ _ E).
  run (on_kernel_ok (intr_set_status old) (set_hwq (set_lists h w2) s2) _ _ (intr_set_status_ok old _)).
  exact Et.
Qed.

(** C9: a thread that reads the keyboard when nothing was typed goes to sleep
    and the next thread runs; the first character typed puts the reader on the
    ready list; when the processor is given away again, the reader leaves the
    wait queue and [read_kbd] returns that character. *)
Theorem key_wakes_reader ra fuel fd_flag count c ch s Q next n es wait b :
  reader s Q [next] es wait b -> status b = THREAD_TASK_RUNNING ->
  tasks (kernel s) !! next = Some n -> Z.land fd_flag O_NONBLOCK = 0 -> 1 <= count -> (S (length es) < fuel)%nat ->
  (forall t, alive (kernel s) t -> t <> 0) -> let R := current (kernel s) in
  ext_scancode (hkeys s) = false -> 0 < c < 0x3b ->
  character (shift_status (hkeys s)) (caps_lock_status (hkeys s)) c = Some ch ->
  exists s1 s2 s3 s4,
    read_kbd fuel fd_flag count wait s = Ok (inl (intr (kernel s)), s1) /\ current (kernel s1) = next /\
    handle_keyboard_event ra fuel c s1 = Ok (tt, s2) /\ current (kernel s2) = next /\
    on_kernel (schedule fuel) s2 = Ok (tt, s3) /\ current (kernel s3) = R /\
    read_kbd_resumed (intr (kernel s)) count wait s3 = Ok (([ch], 1), s4) /\
    wait_list (hwq s4) (proc_list (kbd_queue s)) es.
Proof.
  intros HR Hrun Hn Hfl Hcount Hf H0 R Hx Hc Hch.
  destruct (read_kbd_sleeps fuel fd_flag count s Q next [] es wait b HR Hfl) as (w1 & n' & E1 & Hc1 & Hne & Ht1 & Hn' & Ho1 & Hw1 & HW1); [simpl; lia|done|].
  assert (n' = n) as -> by congruence. set (s1 := set_hwq w1 s).
  destruct (key_readies_reader ra fuel c ch s1 (<[thread_ready_list := []]> Q) [] es wait R (set_status THREAD_TASK_WAITING b))
    as (r2 & w2 & k2 & E2 & Hok2 & Hd2 & Hc2 & Ht2 & HW2); [exact HW1|exact Hf|exact Hw1| |done|by apply HR|done|done|done|].
  { unfold s1. cbn. rewrite Ht1, lookup_insert_ne by done. apply lookup_insert_eq. }
  set (s2 := set_hwq w2 _) in E2. rewrite insert_insert_eq in HW2. pose proof HW2 as [HQ2 Hrl2 HL2 Hap2 Hoff2]. cbn [app] in *.
  change (hwq s1) with w1 in *. rewrite Ht1 in Ht2.
  assert (tasks (wkern w2) !! current (wkern w2) = Some (set_status THREAD_TASK_RUNNING n)) as Hcur.
  { rewrite Ht2, Hc2, Hc1, lookup_insert_ne by done. apply lookup_insert_eq. }
  assert (forall t, alive (wkern w2) t -> t <> 0) as H02.
  { intros t Ht. apply H0. revert Ht. unfold alive. rewrite Ht2, !lookup_insert. destruct HR as [_ [Hb _] _ _].
    repeat case_decide; subst; intros Ht; done || by eexists. }
  destruct (schedule_running_ok fuel (wkern w2) (<[thread_ready_list := [R]]> Q) [R] R [current (wkern w2)] (set_status THREAD_TASK_RUNNING n))
    as (k3 & E3 & Hsw); [done..| |simpl; lia|done|done|].
  { rewrite Hc2, Hc1. intros a xs. rewrite lookup_insert. case_decide as Ha; [subst; intros [= <-]; set_solver|].
    intros Hq. apply (Ho1 a). by rewrite lookup_insert_ne. }
  destruct Hsw as [(b3 & Hb3 & Ht3 & _) Hc3 _ _ _ _ _ _ _ Hfr3].
  set (s3 := set_hwq (set_wkern k3 w2) s2).
  assert (wait_list (hwq s3) (proc_list (kbd_queue s)) (wait :: es)) as HL3.
  { eapply wait_list_kern; [exact HL2|exact Hrl2| |exact Hap2| |exact Hfr3].
    - intros t Ht. unfold alive. rewrite Ht3, lookup_insert. case_decide; [by eexists|]. rewrite lookup_insert. case_decide; [by eexists|done].
    - intros u Hu. assert (u = R \/ u = current (wkern w2)) as [-> | ->] by set_solver; [|by eexists].
      eapply (q_in _ _ _ HQ2); [exact Hrl2|by left]. }
  destruct (read_kbd_wakes (intr (kernel s)) count s3 es wait r2 (set_status THREAD_TASK_RUNNING b3) HL3) as (w4 & r4 & E4 & HL4 & _).
  { cbn. rewrite Hc3, Ht3. apply lookup_insert_eq. }
  { apply with_ring_at. }
  { done. }
  rewrite Hd2 in E4. rewrite take_ge in E4 by (simpl; lia).
  eexists s1, s2, s3, _. split_and!; [exact E1|exact Hc1|exact E2|by rewrite <-Hc1|apply on_kernel_ok, E3|exact Hc3|exact E4|exact HL4].
Qed.
End reading.

(** The thread at 8192 reads; its entry is at 9000; the key is [h]. *)
Lemma key_wakes_reader_witness :
  exists s1 s2 s3 s4,
    @read_kbd no_devices two_globals 10 0 4 9000 fresh_hid = Ok (inl true, s1) /\ current (wkern (hwq s1)) = 12288 /\
    @handle_keyboard_event no_devices two_globals 0 10 0x23 s1 = Ok (tt, s2) /\ current (wkern (hwq s2)) = 12288 /\
    in_wq (in_kern (@schedule two_globals 10)) s2 = Ok (tt, s3) /\ current (wkern (hwq s3)) = 8192 /\
    read_kbd_resumed true 4 9000 s3 = Ok (([104], 1), s4) /\ wait_list (hwq s4) 5008 [].
Proof.
  apply (@key_wakes_reader no_devices two_globals 0 10 0 4 0x23 104 fresh_hid {[100 := [12288]]} 12288 (idle_tcb 1) [] 9000 (idle_tcb 0)).
  - split; [apply two_threads_waiting| | |exists fresh_ring; split; [done|apply fresh_ring_ok]].
    + split; [done|]. split; [|by_computation].
      intros a xs Ha. apply lookup_singleton_Some in Ha as [_ <-]. by_computation.
    + split; [lia|]. split; [|by_computation]. split; [done|]. intros t [b Hb] E. unfold entry_list, general_tag in E.
      assert (t = 8956) as -> by lia. done.
  - done.
  - done.
  - done.
  - lia.
  - simpl. lia.
  - intros t [b Hb] ->. done.
  - done.
  - lia.
  - done.
Defined.

(** ** What the keyboard does wrong *)
Section wrong.
(** An arrow key, and a function key, stop the kernel. *)
Lemma arrow_key_stops {X : Machine} {G : Globals} ra fuel s : handle_all ra fuel [0xE0; 0x48] s = Panic.
Proof.
  cbn [handle_all]. unfold bind. rewrite handle_decode. change (decode (hkeys s) 0xE0) with (Sets (set_ext true (hkeys s))).
  cbn iota. rewrite handle_decode. reflexivity.
Qed.
Lemma function_key_stops {X : Machine} {G : Globals} ra fuel s : ext_scancode (hkeys s) = false ->
  handle_keyboard_event ra fuel 0x3b s = Panic.
Proof. intros Hx. rewrite handle_decode. unfold decode. by rewrite Hx. Qed.
(** Nothing ends caps lock. *)
Lemma caps_lock_stays k c : caps_lock_status k = true ->
  match decode k c with Sets k' | Puts _ k' => caps_lock_status k' = true | _ => True end.
Proof.
  destruct k as [a b d l m e]. simpl. intros ->. unfold decode, release, press, set_ext. cbn -[Z.land Z.lor keymap].
  repeat case_match; simplify_eq/=; done.
Qed.

(** A key that comes after the test of the queue and before the thread is put
    to sleep wakes nobody: the thread sleeps with its character waiting. *)
Definition missed : M (@hid no_devices) unit :=
  in_wq (DECLARE_WAITQUEUE 9000 8192) ;;;
  e <- kbd_queue_empty ;;
  (if e : bool then in_wq (add_wait_queue (proc_list 5000) 9000) else ret tt) ;;;
  @handle_keyboard_event no_devices two_globals 0 10 0x23 ;;;
  in_wq (in_kern (@thread_block two_globals 10 THREAD_TASK_WAITING)) ;;;
  ret tt.
Lemma missed_ends : match missed fresh_hid with
  | Ok (_, s) => current (wkern (hwq s)) = 12288 /\ status <$> tasks (wkern (hwq s)) !! 8192 = Some THREAD_TASK_WAITING /\
      klists (wkern (hwq s)) !! 8244 = Some (Node 8244 8244) /\ rhead <$> rings s !! 5000 = Some 1 /\ rtail <$> rings s !! 5000 = Some 0
  | _ => False end.
Proof. vm_compute. done. Qed.
End wrong.
