(* ===== verification/Mouse.v ===== *)
(** * Mouse: from the bytes of the mouse to packets (core/device/pc_mouse.c,
    core/include/hid/mouse.h, core/include/device/pc_mouse.h) *)
From S2P Require Import Prelude Lists Kernel WaitQueue Ports Hid Keyboard.

Definition LEFT_CLICK : Z := 0x01.
Definition RIGHT_CLICK : Z := 0x02.
Definition MIDDLE_CLICK : Z := 0x04.
Definition MOUSE_SCROLL_UP : Z := 0x10.
Definition MOUSE_SCROLL_DOWN : Z := 0x20.
Definition MOUSE_MAGIC : Z := 0xFEED1234.
Definition MOUSE_DEFAULT : Z := 0.
Definition MOUSE_SCROLLWHEEL : Z := 1.
Definition MOUSE_BUTTONS : Z := 2.
Definition MOUSE_V_BIT : Z := 0x08.

(** [mouse_device_packet_t] and its bytes in memory. *)
Record mouse_device_packet_t := Packet { magic : Z; x_difference : Z; y_difference : Z; buttons : Z }.
#[export] Instance mouse_device_packet_eq_dec : EqDecision mouse_device_packet_t.
Proof. solve_decision. Defined.
Definition sizeof_packet : Z := 16.
Definition MOUSE_PKG_BUF_SIZE : Z := sizeof_packet * 1024.
Definition packet_bytes (p : mouse_device_packet_t) : list Z :=
  le 4 (magic p) ++ le 4 (u32 (x_difference p)) ++ le 4 (u32 (y_difference p)) ++ le 4 (buttons p).

Section mouse.
Context {X : Machine} {G : Globals}.
Variable return_address : Z.
Variable fuel : nat.

Definition mouse_byte (m : mouse) (i : nat) : Z := default 0 (mdata_buf m !! i).
Definition set_byte (i : nat) (v : Z) (m : mouse) : mouse := Mouse (mouse_mode m) (<[i := u8 v]> (mdata_buf m)) (mdata_stage m).
Definition set_stage (v : Z) (m : mouse) : mouse := Mouse (mouse_mode m) (mdata_buf m) v.
Definition bit (v : Z) (i : Z) : bool := negb (Z.land v (Z.shiftl 1 i) =? 0).

(** The packet that the collected bytes make. *)
Definition packet_of (m : mouse) : mouse_device_packet_t :=
  let b := mouse_byte m in
  let delta_x := b 1%nat in
  let delta_y := b 2%nat in
  let delta_x := if negb (delta_x =? 0) && bit (b 0%nat) 4 then delta_x - 0x100 else delta_x in
  let delta_y := if negb (delta_y =? 0) && bit (b 0%nat) 5 then delta_y - 0x100 else delta_y in
  let overflow := bit (b 0%nat) 6 || bit (b 0%nat) 7 in
  let delta_x := if overflow then 0 else delta_x in
  let delta_y := if overflow then 0 else delta_y in
  let v := 0 in
  let v := if negb (Z.land (b 0%nat) 0x01 =? 0) then Z.lor v LEFT_CLICK else v in
  let v := if negb (Z.land (b 0%nat) 0x02 =? 0) then Z.lor v RIGHT_CLICK else v in
  let v := if negb (Z.land (b 0%nat) 0x04 =? 0) then Z.lor v MIDDLE_CLICK else v in
  let v := if (mouse_mode m =? MOUSE_SCROLLWHEEL) && negb (b 3%nat =? 0) then
             if s8 (b 3%nat) >? 0 then Z.lor v MOUSE_SCROLL_DOWN
             else if s8 (b 3%nat) <? 0 then Z.lor v MOUSE_SCROLL_UP else v
           else v in
  Packet MOUSE_MAGIC delta_x delta_y v.
Definition make_mouse_packet : M hid unit :=
  modify (fun s => set_hmouse (set_stage 0 (hmouse s)) s) ;;;
  m <- gets hmouse ;;
  q <- gets mouse_queue ;;
  ring_put return_address fuel MOUSE_PKG_BUF_SIZE q (packet_bytes (packet_of m)).

(** The switch on the stage; a stage above 3 has no case. *)
Definition next_stage (m : mouse) : mouse := set_stage (u8 (mdata_stage m + 1)) m.
Definition handle_ps2_mouse_scancode (scancode : Z) : M hid unit :=
  let mouse_in := s8 scancode in
  m <- gets hmouse ;;
  if mdata_stage m =? 0 then
    modify (set_hmouse (set_byte 0 mouse_in m)) ;;;
    if Z.land mouse_in MOUSE_V_BIT =? 0 then ret tt
    else modify (set_hmouse (next_stage (set_byte 0 mouse_in m)))
  else if mdata_stage m =? 1 then modify (set_hmouse (next_stage (set_byte 1 mouse_in m)))
  else if mdata_stage m =? 2 then
    modify (set_hmouse (set_byte 2 mouse_in m)) ;;;
    if (mouse_mode m =? MOUSE_SCROLLWHEEL) || (mouse_mode m =? MOUSE_BUTTONS)
    then modify (set_hmouse (next_stage (set_byte 2 mouse_in m)))
    else make_mouse_packet
  else if mdata_stage m =? 3 then
    modify (set_hmouse (set_byte 3 mouse_in m)) ;;;
    make_mouse_packet
  else ret tt.

(** ** Reading *)
Definition mouse_queue_empty : M hid bool :=
  q <- gets mouse_queue ;; ring_is_empty q.
Definition mouse_get_from_queue : M hid (list Z) :=
  q <- gets mouse_queue ;;
  ring_get MOUSE_PKG_BUF_SIZE q (Z.to_nat sizeof_packet).
(** The loop that copies packets: the bytes, and how many packets are missing. *)
Fixpoint mouse_copy (index : nat) : M hid (list Z * nat) :=
  match index with
  | O => ret ([], O)
  | S n =>
      e <- mouse_queue_empty ;;
      if e : bool then ret ([], S n)
      else (p <- mouse_get_from_queue ;; r <- mouse_copy n ;; ret (p ++ fst r, snd r))
  end.
(** The result counts bytes and packets together. *)
Definition mouse_take (count : Z) : M hid (list Z * Z) :=
  r <- mouse_copy (Z.to_nat (count / sizeof_packet)) ;;
  ret (fst r, u32 (count - Z.of_nat (snd r))).
(** From the label [repeat] on; [None] when another thread runs now. *)
Definition read_pcmouse_repeat (count wait : Z) : M hid (option (list Z * Z)) :=
  cur <- in_wq (in_kern running_thread) ;;
  in_wq (in_kern (upd_tcb cur (set_status THREAD_TASK_WAITING))) ;;;
  e <- mouse_queue_empty ;;
  if e : bool then (in_wq (in_kern (schedule fuel)) ;;; ret None)
  else
    old_status <- in_wq (in_kern intr_disable) ;;
    in_wq (in_kern (upd_tcb cur (set_status THREAD_TASK_READY))) ;;;
    q <- gets mouse_queue ;;
    in_wq (remove_wait_queue (proc_list q) wait) ;;;
    in_wq (in_kern (intr_set_status old_status)) ;;;
    r <- mouse_take count ;;
    ret (Some r).
Definition read_pcmouse (fd_flag count wait : Z) : M hid (option (list Z * Z)) :=
  ASSERT (count mod sizeof_packet =? 0) ;;;
  cur <- in_wq (in_kern running_thread) ;;
  in_wq (DECLARE_WAITQUEUE wait cur) ;;;
  e <- mouse_queue_empty ;;
  if e : bool then
    if negb (Z.land fd_flag O_NONBLOCK =? 0) then ret (Some ([], u32 (- EAGAIN)))
    else
      q <- gets mouse_queue ;;
      in_wq (add_wait_queue (proc_list q) wait) ;;;
      read_pcmouse_repeat count wait
  else (r <- mouse_take count ;; ret (Some r)).

(** [pc_mouse_init] with what [sys_malloc] gave it. *)
Definition pc_mouse_init (allocated : Z) : M hid Z :=
  modify (set_mouse_queue allocated) ;;;
  if allocated =? 0 then ret (u32 (- ENOMEM))
  else (new_ring (Z.to_nat MOUSE_PKG_BUF_SIZE) allocated ;;; ret 0).
End mouse.
