(* ===== verification/MouseSpec.v ===== *)
(** * MouseSpec: the mouse queue holds whole packets, and they say what the
    mouse sent *)
From S2P Require Import Prelude Lists Kernel Queues Sched WaitQueue WaitQueueSpec Ports Hid HidSpec Keyboard KeyboardSpec Mouse.

(** The bits of [mouse_click_t]. *)
Definition click_bits : Z :=
  Z.lor LEFT_CLICK (Z.lor RIGHT_CLICK (Z.lor MIDDLE_CLICK (Z.lor MOUSE_SCROLL_UP MOUSE_SCROLL_DOWN))).
(** A packet as user programs may rely on: no bit is set that is not one of
    [mouse_click_t], and the wheel does not turn both ways. *)
Record well_typed (p : mouse_device_packet_t) : Prop := {
  wt_magic : magic p = MOUSE_MAGIC;
  wt_x : -256 < x_difference p < 256;
  wt_y : -256 < y_difference p < 256;
  wt_buttons : 0 <= buttons p /\ Z.land (buttons p) click_bits = buttons p;
  wt_wheel : ~ (Z.testbit (buttons p) 4 = true /\ Z.testbit (buttons p) 5 = true) }.
Definition read_packet (l : list Z) : mouse_device_packet_t :=
  Packet (of_le (take 4 l)) (s32 (of_le (take 4 (drop 4 l)))) (s32 (of_le (take 4 (drop 8 l)))) (of_le (take 4 (drop 12 l))).

Section packets.
Implicit Types p : mouse_device_packet_t.

Lemma packet_length p : length (packet_bytes p) = 16%nat.
Proof. unfold packet_bytes. by rewrite !length_app, !le_length. Qed.
Lemma s32_u32 x : - 2 ^ 31 <= x < 2 ^ 31 -> s32 (u32 x) = x.
Proof. intros. rewrite <-(s32_small x) at 2 by done. unfold s32, u32, sx. by rewrite Zmod_mod. Qed.
Lemma read_packet_bytes p : well_typed p -> read_packet (packet_bytes p) = p.
Proof.
  intros [Hm Hx Hy [Hb0 Hb] _]. destruct p as [m x y b]. simpl in *. subst. unfold read_packet, packet_bytes. cbn [magic x_difference y_difference buttons].
  assert (forall v, 0 <= v < 2 ^ 32 -> of_le (le 4 v) = v) as Hle by (intros; by apply le_of_le).
  change (Packet (of_le (le 4 MOUSE_MAGIC)) (s32 (of_le (le 4 (u32 x)))) (s32 (of_le (le 4 (u32 y)))) (of_le (le 4 b))
    = Packet MOUSE_MAGIC x y b).
  assert (b < 2 ^ 32) as Hb32.
  { change click_bits with (Z.land click_bits (Z.ones 6)) in Hb. rewrite Z.land_assoc, Z.land_ones in Hb by lia.
    pose proof (Z.mod_pos_bound (Z.land b click_bits) (2 ^ 6)). lia. }
  rewrite !Hle by (apply u32_range || lia || done).
  rewrite !s32_u32 by lia. done.
Qed.

Definition byte (v : Z) : Prop := 0 <= v < 256.
Lemma packet_of_typed m : byte (mouse_byte m 1) -> byte (mouse_byte m 2) -> well_typed (packet_of m).
Proof.
  unfold byte. intros H1 H2. unfold packet_of. set (b := mouse_byte m) in *. split; cbn [magic x_difference y_difference buttons].
  - done.
  - repeat case_match; zb; lia.
  - repeat case_match; zb; lia.
  - repeat match goal with |- context [if ?c then _ else _] => destruct c end; by_computation.
  - repeat match goal with |- context [if ?c then _ else _] => destruct c end; by intros [[=] [=]].
Qed.
End packets.

Section mouse.
Context {X : Machine} {G : Globals}.
Implicit Types (s : hid) (Q : queue_map) (rq es : list Z) (ps : list mouse_device_packet_t) (qs : list (Z * list Z)).

(** The packets [ps] wait to be read, and only they. *)
Record mouse_ok (fuel : nat) qs s ps : Prop := {
  mo_raw : length (mdata_buf (hmouse s)) = 4%nat /\ Forall byte (mdata_buf (hmouse s)) /\ 0 <= mdata_stage (hmouse s) <= 3;
  mo_ring : exists r, rings s !! mouse_queue s = Some r /\ ring_ok MOUSE_PKG_BUF_SIZE r /\
    (16 | rhead r) /\ (16 | rtail r) /\ ring_data MOUSE_PKG_BUF_SIZE r = concat (packet_bytes <$> ps);
  mo_types : Forall well_typed ps;
  mo_wait : sleepers fuel (hwq s) qs /\ exists es, (proc_list (mouse_queue s), es) ∈ qs
}.

Lemma packets_length ps : length (concat (packet_bytes <$> ps)) = (16 * length ps)%nat.
Proof. induction ps as [|p ps IH]; [done|]. cbn [fmap list_fmap concat]. rewrite length_app, packet_length, IH. simpl. lia. Qed.
Lemma packets_snoc ps p : concat (packet_bytes <$> ps ++ [p]) = concat (packet_bytes <$> ps) ++ packet_bytes p.
Proof. rewrite fmap_app, concat_app. cbn [fmap list_fmap concat]. by rewrite app_nil_r. Qed.
Lemma MOUSE_SIZE : MOUSE_PKG_BUF_SIZE = 2 ^ 14.
Proof. reflexivity. Qed.
Lemma divide_mod_size x : (16 | x) -> (16 | x mod MOUSE_PKG_BUF_SIZE).
Proof. intros [k ->]. rewrite MOUSE_SIZE, Z.mod_eq by lia. exists (k - 1024 * (k * 16 / 2 ^ 14)). lia. Qed.

Lemma mouse_ok_length fuel qs s ps : mouse_ok fuel qs s ps -> (length ps <= 1023)%nat.
Proof.
  intros [_ (r & _ & Hok & _ & _ & Hd) _ _]. pose proof (ring_data_length MOUSE_PKG_BUF_SIZE r) as Hlen.
  rewrite Hd, packets_length in Hlen. pose proof (ring_count_range _ _ Hok). pose proof MOUSE_SIZE. lia.
Qed.

(** What a byte of the mouse does not touch. *)
Definition others_same s s' : Prop :=
  (forall q, q <> mouse_queue s -> rings s' !! q = rings s !! q) /\ mouse_queue s' = mouse_queue s /\
  aux_queue s' = aux_queue s /\ kbd_queue s' = kbd_queue s /\ hkeys s' = hkeys s /\ hsoft s' = hsoft s /\ hdev s' = hdev s.

(** Storing a packet of the raw data collected so far. *)
Definition push_packet (p : mouse_device_packet_t) ps : list mouse_device_packet_t :=
  if (length ps <? 1023)%nat then ps ++ [p] else ps.
Lemma make_mouse_packet_ok ra fuel qs s ps : mouse_ok fuel qs s ps -> 
  exists s', make_mouse_packet ra fuel s = Ok (tt, s') /\ hmouse s' = set_stage 0 (hmouse s) /\
    others_same s s' /\ mouse_ok fuel qs s' (push_packet (packet_of (hmouse s)) ps).
Proof.
  intros [(Hl & Hb & Hst) (r & Hr & Hok & Hh16 & Ht16 & Hd) Hty [(Q & rq & HWs) (es & Hin)]]. destruct (HWs _ _ Hin) as [HW Hf].
  set (m := set_stage 0 (hmouse s)). set (s1 := set_hmouse m s). set (p := packet_of (hmouse s)).
  assert (well_typed p) as Hp.
  { apply packet_of_typed; unfold mouse_byte; eapply list.Forall_forall; try exact Hb;
      apply list_elem_of_In; destruct (mdata_buf (hmouse s)) as [|? [|? [|? ?]]]; simpl in Hl; try lia; simpl; auto. }
  pose proof (ring_data_length MOUSE_PKG_BUF_SIZE r) as Hlen. rewrite Hd, packets_length in Hlen.
  pose proof (ring_count_range _ _ Hok) as Hcr. pose proof Hok as (_ & _ & Hh & _). pose proof MOUSE_SIZE as HS.
  assert (ring_count MOUSE_PKG_BUF_SIZE r = 16 * Z.of_nat (length ps)) as Hc by lia.
  assert (rhead r + 16 <= MOUSE_PKG_BUF_SIZE) as Hh' by (destruct Hh16 as [k Hk]; lia).
  destruct (ring_put_ok ra fuel 14 (mouse_queue s) r (packet_bytes p) s1 Q rq es) as (r' & w & E & Hok' & Ht & Hres);
    rewrite ?packet_length, <-?HS; [done|done|done|lia|lia|done|done|done|].
  rewrite packet_length in Hres. rewrite <-HS in *. change (Z.of_nat 16) with 16 in Hres.
  exists (set_hwq w (with_ring (mouse_queue s) r' s1)). split; [|split; [done|split]].
  { unfold make_mouse_packet. rewrite modify_bind, gets_bind, gets_bind. exact E. }
  { split; [|done]. intros q Hq. simpl. by rewrite lookup_insert_ne. }
  assert (mouse_queue (set_hwq w (with_ring (mouse_queue s) r' s1)) = mouse_queue s) as Eq by done.
  unfold push_packet. rewrite Hc in Hres. split; [split_and!; try done; simpl; lia| | |].
  - exists r'. split; [apply with_ring_at|]. split; [done|]. rewrite Ht.
    destruct (Z.eqb_spec (16 * Z.of_nat (length ps) + 16) MOUSE_PKG_BUF_SIZE).
    + destruct Hres as (_ & -> & ->). rewrite (proj2 (Nat.ltb_ge _ _)) by lia. done.
    + destruct Hres as (_ & -> & ->). rewrite (proj2 (Nat.ltb_lt _ _)), packets_snoc, Hd by lia.
      split_and!; [|done|done]. apply divide_mod_size, Z.divide_add_r; [done|by exists 1].
  - destruct (_ <? _)%nat; [|exact Hty]. apply list.Forall_app. split; [exact Hty|]. by apply list.Forall_cons.
  - change (hwq (set_hwq w _)) with w. split; [|by exists es].
    destruct (_ =? _); [destruct Hres as (-> & _); by exists Q, rq|]. destruct Hres as (Hk & _). by eapply wakes_sleepers.
Qed.

Lemma mouse_ok_raw fuel qs s ps m : mouse_ok fuel qs s ps -> length (mdata_buf m) = 4%nat -> Forall byte (mdata_buf m) ->
  0 <= mdata_stage m <= 3 -> mouse_ok fuel qs (set_hmouse m s) ps.
Proof. intros [_ ? ? ?] ? ? ?. by split. Qed.
Lemma set_byte_ok i v m : length (mdata_buf m) = 4%nat -> Forall byte (mdata_buf m) ->
  length (mdata_buf (set_byte i v m)) = 4%nat /\ Forall byte (mdata_buf (set_byte i v m)).
Proof.
  intros Hl Hb. split; [simpl; by rewrite length_insert|]. apply Forall_insert; [done|apply u8_range].
Qed.

(** One byte of the mouse: at most one more packet. *)
Lemma mouse_byte_ok ra fuel qs c s ps : mouse_ok fuel qs s ps ->
  exists s' ps', handle_ps2_mouse_scancode ra fuel c s = Ok (tt, s') /\ others_same s s' /\
    mouse_ok fuel qs s' ps' /\ (ps' = ps \/ exists p, ps' = push_packet p ps).
Proof.
  intros Hm. pose proof Hm as [(Hl & Hb & Hst) _ _ _]. unfold handle_ps2_mouse_scancode. rewrite gets_bind. cbv zeta.
  assert (forall i, mouse_ok fuel qs (set_hmouse (set_byte i (s8 c) (hmouse s)) s) ps) as Hset.
  { intros i. destruct (set_byte_ok i (s8 c) (hmouse s) Hl Hb). by apply mouse_ok_raw. }
  assert (forall i, mdata_stage (hmouse s) < 3 -> mouse_ok fuel qs (set_hmouse (next_stage (set_byte i (s8 c) (hmouse s))) s) ps) as Hnext.
  { intros i Hi. destruct (set_byte_ok i (s8 c) (hmouse s) Hl Hb). apply mouse_ok_raw; [done..|]. simpl. rewrite u8_small; lia. }
  assert (forall m', others_same s (set_hmouse m' s)) as Hoth by done.
  destruct (Z.eqb_spec (mdata_stage (hmouse s)) 0) as [E0|E0].
  { rewrite modify_bind. destruct (Z.land _ _ =? 0).
    - eexists _, ps. split; [done|]. split; [apply Hoth|]. split; [apply Hset|by left].
    - eexists _, ps. split; [done|]. split; [apply Hoth|]. split; [apply Hnext; lia|by left]. }
  destruct (Z.eqb_spec (mdata_stage (hmouse s)) 1) as [E1|E1].
  { eexists _, ps. split; [done|]. split; [apply Hoth|]. split; [apply Hnext; lia|by left]. }
  destruct (Z.eqb_spec (mdata_stage (hmouse s)) 2) as [E2|E2].
  { rewrite modify_bind. destruct (_ || _).
    - eexists _, ps. split; [done|]. split; [apply Hoth|]. split; [apply Hnext; lia|by left].
    - destruct (make_mouse_packet_ok ra fuel qs _ ps (Hset 2%nat)) as (s' & E & _ & Hq & Hok). eexists _, _. split; [exact E|].
      split; [exact Hq|]. split; [exact Hok|right; by eexists]. }
  destruct (Z.eqb_spec (mdata_stage (hmouse s)) 3) as [E3|E3]; [|lia].
  rewrite modify_bind. destruct (make_mouse_packet_ok ra fuel qs _ ps (Hset 3%nat)) as (s' & E & _ & Hq & Hok). eexists _, _. split; [exact E|].
  split; [exact Hq|]. split; [exact Hok|right; by eexists].
Qed.

(** The interrupts of a sequence of bytes. *)
Fixpoint mouse_bytes (ra : Z) (fuel : nat) (l : list Z) : M hid unit :=
  match l with [] => ret tt | c :: l => handle_ps2_mouse_scancode ra fuel c ;;; mouse_bytes ra fuel l end.

(** C22: whatever bytes the mouse sends, in any of its modes, the handler never
    stops or faults and the queue stays a sequence of whole packets, each with
    the magic number, differences between -255 and 255 and no button bit that
    is not one of [mouse_click_t];
    the packets that were there stay as they are, and no more than 1023 wait. *)
Theorem mouse_queue_typed ra fuel qs l s ps :
  mouse_ok fuel qs s ps ->
  exists s' new, mouse_bytes ra fuel l s = Ok (tt, s') /\ mouse_ok fuel qs s' (ps ++ new) /\ (length (ps ++ new) <= 1023)%nat.
Proof.
  revert s ps. induction l as [|c l IH]; intros s ps Hm; cbn [mouse_bytes].
  - exists s, []. rewrite app_nil_r. split_and!; [done..|]. by apply (mouse_ok_length fuel qs s).
  - destruct (mouse_byte_ok ra fuel qs c s ps Hm) as (s1 & ps1 & E & _ & Hm1 & Hps).
    assert (exists new, ps1 = ps ++ new) as (new & ->).
    { destruct Hps as [->|[p ->]]; [exists []; by rewrite app_nil_r|]. unfold push_packet.
      case_match; [by exists [p]|exists []; by rewrite app_nil_r]. }
    destruct (IH s1 (ps ++ new) Hm1) as (s2 & new2 & E2 & Hm2 & Hl2). exists s2, (new ++ new2).
    rewrite app_assoc. run E. done.
Qed.

(** ** Reading *)
Lemma mouse_copy_ok n s r ps :
  rings s !! mouse_queue s = Some r -> ring_ok MOUSE_PKG_BUF_SIZE r -> (16 | rtail r) ->
  ring_data MOUSE_PKG_BUF_SIZE r = concat (packet_bytes <$> ps) ->
  exists r', mouse_copy n s = Ok ((concat (packet_bytes <$> take n ps), (n - length ps)%nat), with_ring (mouse_queue s) r' s) /\
    ring_ok MOUSE_PKG_BUF_SIZE r' /\ (16 | rtail r') /\ rhead r' = rhead r /\
    ring_data MOUSE_PKG_BUF_SIZE r' = concat (packet_bytes <$> drop n ps).
Proof.
  revert s r ps. induction n as [|n IH]; intros s r ps Hr Hok H16 Hd; cbn [mouse_copy].
  - exists r. split; [|done]. unfold ret, with_ring. rewrite insert_id by done. by destruct s.
  - unfold mouse_queue_empty, mouse_get_from_queue. rewrite bind_assoc, gets_bind. run (ring_is_empty_ok _ _ _ _ Hr Hok). rewrite Hd.
    pose proof (ring_data_length MOUSE_PKG_BUF_SIZE r) as Hl. rewrite Hd, packets_length in Hl.
    destruct ps as [|p ps]; [rewrite bool_decide_true by done|].
    { exists r. split; [|done]. unfold ret, with_ring. rewrite insert_id by done. by destruct s. }
    rewrite bool_decide_false by (intros E; apply (f_equal length) in E; by rewrite packets_length in E).
    pose proof Hok as (_ & _ & _ & Ht). pose proof MOUSE_SIZE as HS. simpl in Hl.
    destruct (ring_get_ok 14 (mouse_queue s) r 16 s) as (l & r1 & E & Hok1 & Hd1 & Hl1 & Hh1 & Ht1);
      rewrite <-?HS; [done|done|done|lia|lia|destruct H16 as [k Hk]; lia|]. rewrite <-HS in *.
    rewrite bind_assoc, gets_bind. change (Z.to_nat sizeof_packet) with 16%nat. run E.
    rewrite Hd in Hd1. cbn [fmap list_fmap concat] in Hd1. apply app_inj_1 in Hd1 as [<- Hd1]; [|by rewrite packet_length].
    destruct (IH (with_ring (mouse_queue s) r1 s) r1 ps) as (r2 & E2 & Hok2 & Ht2 & Hh2 & Hd2); [apply with_ring_at|done| |done|].
    { rewrite Ht1. apply divide_mod_size, Z.divide_add_r; [done|by exists 1]. }
    run E2. exists r2. split; [|by rewrite Hh2]. unfold ret. rewrite with_ring_twice. simpl. do 3 f_equal.
Qed.
(** What was asked for, less the number of packets that were not there. *)
Lemma mouse_take_ok count s r ps :
  rings s !! mouse_queue s = Some r -> ring_ok MOUSE_PKG_BUF_SIZE r -> (16 | rtail r) ->
  ring_data MOUSE_PKG_BUF_SIZE r = concat (packet_bytes <$> ps) -> let n := Z.to_nat (count / 16) in
  exists s', mouse_take count s = Ok ((concat (packet_bytes <$> take n ps), u32 (count - Z.of_nat (n - length ps))), s') /\ hwq s' = hwq s.
Proof.
  intros Hr Hok H16 Hd n. destruct (mouse_copy_ok n s r ps Hr Hok H16 Hd) as (r' & E & _).
  eexists. split; [unfold mouse_take; change sizeof_packet with 16; fold n; by run E|done].
Qed.

(** The bytes a mouse sends for a movement and the state of its buttons. *)
Definition report (dx dy b : Z) : list Z :=
  [b + 8 + (if dx <? 0 then 16 else 0) + (if dy <? 0 then 32 else 0); dx mod 256; dy mod 256].

Lemma report_flags b (sx sy : bool) : 0 <= b < 8 -> let v := b + 8 + (if sx then 16 else 0) + (if sy then 32 else 0) in
  u8 (s8 v) = v /\ (Z.land (s8 v) MOUSE_V_BIT =? 0) = false /\ bit v 4 = sx /\ bit v 5 = sy /\ bit v 6 = false /\ bit v 7 = false /\
  Z.lor (Z.lor (if negb (Z.land v 0x01 =? 0) then LEFT_CLICK else 0) (if negb (Z.land v 0x02 =? 0) then RIGHT_CLICK else 0))
        (if negb (Z.land v 0x04 =? 0) then MIDDLE_CLICK else 0) = b.
Proof.
  intros Hb. assert (b = 0 \/ b = 1 \/ b = 2 \/ b = 3 \/ b = 4 \/ b = 5 \/ b = 6 \/ b = 7) as Hc by lia.
  destruct Hc as [->|[->|[->|[->|[->|[->|[->| ->]]]]]]]; destruct sx, sy; vm_compute; done.
Qed.
Lemma u8_s8 v : 0 <= v < 256 -> u8 (s8 v) = v.
Proof.
  intros Hv. unfold u8, s8, sx. change (2 ^ 8) with 256. change (2 ^ (8 - 1)) with 128. rewrite (Z.mod_small v 256) by done.
  destruct (Z.ltb_spec v 128); [by rewrite Z.mod_small|]. rewrite <-(Z_mod_plus_full _ 1). rewrite Z.mod_small; lia.
Qed.
Lemma delta_back d (sg : bool) : -256 < d < 256 -> sg = (d <? 0) ->
  (if negb (d mod 256 =? 0) && sg then d mod 256 - 0x100 else d mod 256) = d.
Proof.
  intros Hd ->. destruct (Z.ltb_spec d 0).
  - assert (d mod 256 = d + 256) as -> by (rewrite <-(Z_mod_plus_full _ 1); rewrite Z.mod_small; lia).
    rewrite (proj2 (Z.eqb_neq _ _)) by lia. simpl. lia.
  - rewrite andb_false_r. apply Z.mod_small. lia.
Qed.
Lemma packet_of_report dx dy b x : -256 < dx < 256 -> -256 < dy < 256 -> 0 <= b < 8 ->
  packet_of (Mouse MOUSE_DEFAULT (report dx dy b ++ [x]) 2) = Packet MOUSE_MAGIC dx dy b.
Proof.
  intros Hx Hy Hb. destruct (report_flags b (dx <? 0) (dy <? 0) Hb) as (_ & _ & H4 & H5 & H6 & H7 & Hbt).
  unfold packet_of, mouse_byte, report. cbn [app mdata_buf lookup list_lookup default mouse_mode]. unfold id.
  set (v := b + 8 + _ + _) in *. rewrite H4, H5, H6, H7. cbn [orb]. rewrite !delta_back by done. f_equal.
  change (MOUSE_DEFAULT =? MOUSE_SCROLLWHEEL) with false. cbn [andb]. etransitivity; [|exact Hbt].
  destruct (negb (Z.land v 1 =? 0)), (negb (Z.land v 2 =? 0)), (negb (Z.land v 4 =? 0)); done.
Qed.
Lemma mouse_collects ra fuel dx dy b s : length (mdata_buf (hmouse s)) = 4%nat -> mdata_stage (hmouse s) = 0 ->
  mouse_mode (hmouse s) = MOUSE_DEFAULT -> 0 <= b < 8 ->
  exists x, x ∈ mdata_buf (hmouse s) /\ mouse_bytes ra fuel (report dx dy b) s =
    make_mouse_packet ra fuel (set_hmouse (Mouse MOUSE_DEFAULT (report dx dy b ++ [x]) 2) s).
Proof.
  intros Hl Hst Hmode Hb. destruct (report_flags b (dx <? 0) (dy <? 0) Hb) as (Hu & Hv & _).
  destruct (hmouse s) as [mode buf st] eqn:Em. simpl in *. subst. destruct buf as [|x0 [|x1 [|x2 [|x3 [|? ?]]]]]; simpl in Hl; try lia.
  exists x3. split; [set_solver|]. unfold report in *. set (v := b + 8 + _ + _) in *. cbn [mouse_bytes].
  unfold handle_ps2_mouse_scancode at 1. rewrite ?bind_assoc, gets_bind, Em. cbn [mdata_stage Z.eqb].
  rewrite ?bind_assoc, modify_bind, Hv, modify_bind. unfold set_byte, next_stage, set_stage. cbn [mouse_mode mdata_buf mdata_stage].
  cbn [insert list_insert]. rewrite Hu.
  unfold handle_ps2_mouse_scancode at 1. rewrite ?bind_assoc, gets_bind. cbn [hmouse set_hmouse mdata_stage].
  change (u8 (0 + 1) =? 0) with false. change (u8 (0 + 1) =? 1) with true. cbn iota. rewrite modify_bind.
  unfold set_byte, next_stage, set_stage. cbn [mouse_mode mdata_buf mdata_stage insert list_insert].
  unfold handle_ps2_mouse_scancode at 1. rewrite ?bind_assoc, gets_bind. cbn [hmouse set_hmouse mdata_stage].
  change (u8 (u8 (0 + 1) + 1) =? 0) with false. change (u8 (u8 (0 + 1) + 1) =? 1) with false. change (u8 (u8 (0 + 1) + 1) =? 2) with true. cbn iota.
  rewrite ?bind_assoc, modify_bind. unfold set_byte. cbn [mouse_mode mdata_buf mdata_stage insert list_insert].
  change ((MOUSE_DEFAULT =? MOUSE_SCROLLWHEEL) || (MOUSE_DEFAULT =? MOUSE_BUTTONS)) with false. cbn iota.
  rewrite !u8_s8 by (apply Z.mod_pos_bound; lia). unfold bind. cbn [app].
  change (u8 (u8 (0 + 1) + 1)) with 2. by destruct (make_mouse_packet _ _ _) as [[[] ?]| | |].
Qed.

(** C33: a movement between -255 and 255 in each direction and the state of the
    three buttons, sent as the mouse sends it, are what a program reads from
    the mouse: the packet that [read_pcmouse] returns has these values. *)
Theorem mouse_report_roundtrip ra fuel qs dx dy b s wait fd_flag :
  mouse_ok fuel qs s [] -> mdata_stage (hmouse s) = 0 -> mouse_mode (hmouse s) = MOUSE_DEFAULT ->
  -256 < dx < 256 -> -256 < dy < 256 -> 0 <= b < 8 ->
  exists s1 s2 l, mouse_bytes ra fuel (report dx dy b) s = Ok (tt, s1) /\
    read_pcmouse fuel fd_flag 16 wait s1 = Ok (Some (l, 16), s2) /\
    length l = 16%nat /\ read_packet l = Packet MOUSE_MAGIC dx dy b /\ mdata_stage (hmouse s1) = 0.
Proof.
  intros Hm Hst Hmode Hx Hy Hb. pose proof Hm as [(Hl & Hby & _) _ _ _].
  destruct (mouse_collects ra fuel dx dy b s Hl Hst Hmode Hb) as (x & Hin & E). rewrite E.
  set (m := Mouse MOUSE_DEFAULT (report dx dy b ++ [x]) 2) in *.
  assert (mouse_ok fuel qs (set_hmouse m s) []) as Hm1.
  { apply mouse_ok_raw; [done|done| |simpl; lia]. apply list.Forall_app. split.
    - destruct (report_flags b (dx <? 0) (dy <? 0) Hb) as (Hu & _). unfold report. repeat (apply list.Forall_cons; split); [|apply Z.mod_pos_bound; lia..|by apply list.Forall_nil].
      rewrite <-Hu. apply u8_range.
    - apply list.Forall_cons. split; [|by apply list.Forall_nil]. by eapply list.Forall_forall in Hby. }
  destruct (make_mouse_packet_ok ra fuel qs _ _ Hm1) as (s1 & E1 & Hraw & _ & Hm2). change (hmouse (set_hmouse m s)) with m in Hm2. unfold m in Hm2. rewrite packet_of_report in Hm2 by done.
  change (push_packet (Packet MOUSE_MAGIC dx dy b) []) with [Packet MOUSE_MAGIC dx dy b] in Hm2.
  destruct Hm2 as [_ (r & Hr & Hok & _ & H16 & Hd) Hty _]. set (w1 := declared (hwq s1) wait (current (wkern (hwq s1)))).
  destruct (mouse_take_ok 16 (set_hwq w1 s1) r [Packet MOUSE_MAGIC dx dy b] Hr Hok H16 Hd) as (s2 & E2 & _).
  change (Z.to_nat (16 / 16)) with 1%nat in E2. cbn [take length Nat.sub] in E2. change (u32 (16 - Z.of_nat 0)) with 16 in E2.
  exists s1, s2, (packet_bytes (Packet MOUSE_MAGIC dx dy b)). split_and!.
  - exact E1.
  - unfold read_pcmouse. pass. run (in_wq_ok _ s1 _ _ (in_kern_ok running_thread (hwq s1) _ _ eq_refl)).
    set (s0 := set_hwq _ s1). replace s0 with s1 by (unfold s0; by destruct s1 as [[] ? ? ? ? ? ? ? ?]).
    run (in_wq_ok _ s1 tt w1 (DECLARE_WAITQUEUE_ok wait _ (hwq s1))).
    unfold mouse_queue_empty. rewrite bind_assoc, gets_bind.
    run (ring_is_empty_ok (set_hwq w1 s1) (mouse_queue (set_hwq w1 s1)) MOUSE_PKG_BUF_SIZE r Hr Hok). rewrite Hd, bool_decide_false by done.
    run E2. cbn [fmap list_fmap concat]. rewrite app_nil_r. done.
  - apply packet_length.
  - apply read_packet_bytes. by apply list.Forall_cons in Hty as [? _].
  - by rewrite Hraw.
Qed.
End mouse.

(** ** A mouse that has not moved *)
Definition still_ring : ring := Ring 0 0 (replicate (Z.to_nat MOUSE_PKG_BUF_SIZE) 0).
Definition still_mouse : @hid no_devices :=
  @Hid no_devices two_threads {[5000 := still_ring]} 0 5000 0 (Keys false false false false false false) (Mouse MOUSE_DEFAULT [0; 0; 0; 0] 0)
    (Softirq.Softirq 0 []) tt.
Lemma still_ring_ok : ring_ok MOUSE_PKG_BUF_SIZE still_ring /\ (16 | rhead still_ring) /\ (16 | rtail still_ring) /\
  ring_data MOUSE_PKG_BUF_SIZE still_ring = [].
Proof.
  split; [|split; [by exists 0|split; [by exists 0|done]]].
  unfold ring_ok, still_ring. cbn [rbuf rhead rtail]. rewrite length_replicate, MOUSE_SIZE. lia.
Qed.
Lemma still_mouse_ok : @mouse_ok no_devices two_globals 10 [(5008, [])] still_mouse [].
Proof.
  split.
  - split_and!; try done. repeat (apply list.Forall_cons; split; [done|]). by apply list.Forall_nil.
  - exists still_ring. split; [done|exact still_ring_ok].
  - by apply list.Forall_nil.
  - split; [|exists []; by left]. exists {[100 := [12288]]}, [12288]. intros q es [= -> ->]%list_elem_of_singleton. split; [apply two_threads_waiting|simpl; lia].
Qed.
Lemma mouse_queue_typed_witness :
  exists s' new, @mouse_bytes no_devices two_globals 0 10 [9; 5; 250; 1; 2; 3] still_mouse = Ok (tt, s') /\
    @mouse_ok no_devices two_globals 10 [(5008, [])] s' ([] ++ new) /\ (length ([] ++ new) <= 1023)%nat.
Proof. apply (@mouse_queue_typed no_devices two_globals 0 10 [(5008, [])] [9; 5; 250; 1; 2; 3] still_mouse []). exact still_mouse_ok. Defined.
(** Five to the right and three back, with the left button held. *)
Lemma mouse_report_roundtrip_witness :
  exists s1 s2 l, @mouse_bytes no_devices two_globals 0 10 (report 5 (-3) 1) still_mouse = Ok (tt, s1) /\
    @read_pcmouse no_devices two_globals 10 0 16 9000 s1 = Ok (Some (l, 16), s2) /\
    length l = 16%nat /\ read_packet l = Packet MOUSE_MAGIC 5 (-3) 1 /\ mdata_stage (hmouse s1) = 0.
Proof.
  apply (@mouse_report_roundtrip no_devices two_globals 0 10 [(5008, [])] 5 (-3) 1 still_mouse 9000 0); [exact still_mouse_ok|done|done|lia|lia|lia].
Defined.

(** Of 32 bytes asked for, with one packet there, 16 are copied and 31 is
    returned. *)
Lemma read_pcmouse_mixes_units {X : Machine} s r p :
  rings s !! mouse_queue s = Some r -> ring_ok MOUSE_PKG_BUF_SIZE r -> (16 | rtail r) ->
  ring_data MOUSE_PKG_BUF_SIZE r = packet_bytes p ->
  exists s', mouse_take 32 s = Ok ((packet_bytes p, 31), s') /\ length (packet_bytes p) = 16%nat.
Proof.
  intros Hr Hok H16 Hd. destruct (mouse_take_ok 32 s r [p] Hr Hok H16) as (s' & E & _).
  { rewrite Hd. cbn [fmap list_fmap concat]. by rewrite app_nil_r. }
  exists s'. split; [|apply packet_length]. rewrite E. cbn [Z.div]. change (Z.to_nat (32 / 16)) with 2%nat.
  cbn [take fmap list_fmap concat length]. by rewrite app_nil_r.
Qed.
