(* ===== verification/Ps2hid.v ===== *)
(** * Ps2hid: the PS/2 controller, the interrupts of its devices and the raw
    mouse device (core/device/ps2hid.c)

    [inthandler21] and [inthandler2C] run with the interrupt flag as it was;
    the files of the three devices are made by the calls of FsCalls.v and the
    handlers are entered in the table of Descriptor.v, between the two
    halves of [ps2hid_init] below. *)
From S2P Require Import Prelude Lists Kernel Queues Sched Softirq WaitQueue WaitQueueSpec Ports Hid HidSpec Keyboard KeyboardSpec Mouse MouseSpec.

Definition PS2_STATUS : Z := 0x64.
Definition PS2_COMMAND : Z := 0x64.
Definition PS2_DATA : Z := 0x60.
Definition MOUSE_WRITE : Z := 0xd4.
Definition MOUSE_ENABLE : Z := 0xf4.
Definition KBD_WRITE : Z := 0x60.
Definition KBDC_MODE : Z := 0x47.
Definition PS2_STR_OUTPUT_BUFFER_FULL : Z := 0x01.
Definition AUX_BUF_SIZE : Z := 2048.
Definition INT_VECTOR_KEYBOARD : Z := 0x21.
Definition INT_VECTOR_PS2_MOUSE : Z := 0x2C.

(** ** Talking to the controller *)
Section controller.
Context {X : Machine} {S : Type} {HD : HasDevices S}.

(** The loop [while (--timeout)] with [timeout] at first 100000. *)
Fixpoint ps2_wait (timeout : nat) (mask : Z) : M S Z :=
  match timeout with
  | O => ret 1
  | Datatypes.S timeout =>
      v <- inb PS2_STATUS ;;
      if negb (Z.land v mask =? 0) then ret 0 else ps2_wait timeout mask
  end.
Definition ps2_wait_output : M S Z := ps2_wait (Z.to_nat 99999) 0x1.
Definition ps2_wait_input : M S Z := ps2_wait (Z.to_nat 99999) (Z.shiftl 0x1 1).

Definition ps2_command (cmd : Z) : M S unit := ps2_wait_input ;;; outb PS2_COMMAND cmd.
Definition ps2_command_response (cmd : Z) : M S Z :=
  ps2_wait_input ;;; outb PS2_COMMAND cmd ;;; ps2_wait_output ;;; inb PS2_DATA.
Definition ps2_command_arg (cmd arg : Z) : M S unit :=
  ps2_wait_input ;;; outb PS2_COMMAND cmd ;;; ps2_wait_output ;;; outb PS2_DATA arg.
Definition ps2_read_byte : M S Z := ps2_wait_output ;;; inb PS2_DATA.
Definition kbd_write (data : Z) : M S Z :=
  ps2_wait_input ;;; outb PS2_DATA data ;;; ps2_wait_output ;;; inb PS2_DATA.
Definition mouse_write (data : Z) : M S Z :=
  ps2_command_arg MOUSE_WRITE data ;;; ps2_wait_output ;;; inb PS2_DATA.

(** The end of [ps2hid_init]. *)
Definition enable_keyboard : M S unit :=
  ps2_wait_input ;;; outb PS2_COMMAND KBD_WRITE ;;;
  ps2_wait_input ;;; outb PS2_DATA KBDC_MODE.
Definition enable_mouse : M S unit :=
  ps2_wait_input ;;; outb PS2_COMMAND MOUSE_WRITE ;;;
  ps2_wait_input ;;; outb PS2_DATA MOUSE_ENABLE.
(** The loop of [inthandler21]: the last byte stays. *)
Fixpoint last_scan_code (fuel : nat) (scan_code : Z) : M S Z :=
  match fuel with
  | O => stuck
  | Datatypes.S fuel =>
      v <- inb PS2_STATUS ;;
      if negb (Z.land v PS2_STR_OUTPUT_BUFFER_FULL =? 0) then
        c <- ps2_read_byte ;; last_scan_code fuel c
      else ret scan_code
  end.
End controller.

Section ps2hid.
Context {X : Machine} {G : Globals}.
Variable return_address : Z.
Variable fuel : nat.
(** What the softirq handlers do to the pending bits. *)
Variable action : nat -> Z -> Z.

(** [handle_mouse_event]: the raw byte goes to the queue of the aux device. *)
Definition handle_mouse_event (scancode : Z) : M hid unit :=
  q <- gets aux_queue ;;
  ring_put return_address fuel AUX_BUF_SIZE q [u8 scancode].

Definition inthandler2C : M hid unit :=
  b <- inb PS2_DATA ;;
  let scancode := s8 b in
  ack INT_VECTOR_PS2_MOUSE ;;;
  handle_ps2_mouse_scancode return_address fuel (u8 scancode) ;;;
  handle_mouse_event scancode ;;;
  in_soft (irq_exit action fuel).
Definition inthandler21 : M hid unit :=
  scan_code <- last_scan_code fuel 0x0 ;;
  handle_keyboard_event return_address fuel scan_code ;;;
  ack INT_VECTOR_KEYBOARD ;;;
  in_soft (irq_exit action fuel).

(** ** The raw mouse device *)
Definition aux_queue_empty : M hid bool :=
  q <- gets aux_queue ;; ring_is_empty q.
Definition aux_get_from_queue : M hid Z :=
  q <- gets aux_queue ;;
  l <- ring_get AUX_BUF_SIZE q 1 ;;
  ret (default 0 (l !! 0%nat)).
Fixpoint aux_copy (index : nat) : M hid (list Z) :=
  match index with
  | O => ret []
  | S index =>
      e <- aux_queue_empty ;;
      if e : bool then ret []
      else (c <- aux_get_from_queue ;; l <- aux_copy index ;; ret (c :: l))
  end.
Definition aux_take (count : Z) : M hid (list Z * Z) :=
  l <- aux_copy (Z.to_nat count) ;;
  ret (l, Z.of_nat (length l)).
Definition read_aux (fd_flag count wait : Z) : M hid (bool + list Z * Z) :=
  cur <- in_wq (in_kern running_thread) ;;
  in_wq (DECLARE_WAITQUEUE wait cur) ;;;
  e <- aux_queue_empty ;;
  if e : bool then
    if negb (Z.land fd_flag O_NONBLOCK =? 0) then ret (inr ([], u32 (- EAGAIN)))
    else
      q <- gets aux_queue ;;
      in_wq (add_wait_queue (proc_list q) wait) ;;;
      old <- in_wq (in_kern (thread_block fuel THREAD_TASK_WAITING)) ;;
      ret (inl old)
  else (r <- aux_take count ;; ret (inr r)).
Definition read_aux_resumed (old : bool) (count wait : Z) : M hid (list Z * Z) :=
  in_wq (in_kern (intr_set_status old)) ;;;
  old_status <- in_wq (in_kern intr_disable) ;;
  cur <- in_wq (in_kern running_thread) ;;
  in_wq (in_kern (upd_tcb cur (set_status THREAD_TASK_READY))) ;;;
  q <- gets aux_queue ;;
  in_wq (remove_wait_queue (proc_list q) wait) ;;;
  in_wq (in_kern (intr_set_status old_status)) ;;;
  aux_take count.

(** The queues that [ps2hid_init] makes, with what [sys_malloc] gave; without
    memory for the first one nothing else is done. *)
Definition hid_queues_init (aux_mem mouse_mem kbd_mem : Z) : M hid bool :=
  modify (set_aux_queue aux_mem) ;;;
  if aux_mem =? 0 then ret false
  else
    new_ring (Z.to_nat AUX_BUF_SIZE) aux_mem ;;;
    pc_mouse_init mouse_mem ;;;
    pc_kbd_init kbd_mem ;;;
    ret true.
End ps2hid.

(** * What the interrupts of the PS/2 devices do *)

(** ** The mouse interrupt *)
Section interrupts.
Context {X : Machine} {G : Globals}.
Implicit Types (s : hid) (ps : list mouse_device_packet_t) (qs : list (Z * list Z)) (raw : list Z).

(** The raw device holds the bytes [raw]. *)
Definition aux_ok qs s raw : Prop :=
  (exists r, rings s !! aux_queue s = Some r /\ ring_ok AUX_BUF_SIZE r /\ ring_data AUX_BUF_SIZE r = raw) /\
  (exists es, (proc_list (aux_queue s), es) ∈ qs) /\ aux_queue s <> mouse_queue s.
Lemma handle_mouse_event_ok ra fuel qs c s ps raw : mouse_ok fuel qs s ps -> aux_ok qs s raw ->
  exists s', handle_mouse_event ra fuel c s = Ok (tt, s') /\ mouse_ok fuel qs s' ps /\ aux_ok qs s' (type_char (u8 c) raw) /\
    hsoft s' = hsoft s /\ hdev s' = hdev s.
Proof.
  intros [Hraw (rm & Hrm & Hring) Hty [(Q & rq & HWs) Hmq]] [(r & Hr & Hok & <-) [(es & Hin) Hne]]. destruct (HWs _ _ Hin) as [HW Hf].
  pose proof (ring_count_range _ _ Hok). pose proof Hok as (_ & _ & Hh & _).
  assert (ring_count AUX_BUF_SIZE r + 1 <= AUX_BUF_SIZE /\ rhead r + 1 <= AUX_BUF_SIZE) as [Hc Hhd] by lia.
  assert (AUX_BUF_SIZE = 2048) as EK by done.
  destruct (ring_put_ok ra fuel 11 (aux_queue s) r [u8 c] s Q rq es) as (r' & w & E & Hok' & Ht & Hres); [done..|].
  change (2 ^ 11) with AUX_BUF_SIZE in *. change (Z.of_nat (length [u8 c])) with 1 in Hres.
  assert (sleepers fuel w qs /\ ring_data AUX_BUF_SIZE r' = type_char (u8 c) (ring_data AUX_BUF_SIZE r)) as [Hsl Hd].
  { unfold type_char. rewrite ring_data_length. destruct (Z.eqb_spec (ring_count AUX_BUF_SIZE r + 1) AUX_BUF_SIZE).
    - destruct Hres as (-> & -> & _). rewrite (proj2 (Nat.ltb_ge _ _)) by lia. split; [by exists Q, rq|done].
    - destruct Hres as (Hk & -> & _). rewrite (proj2 (Nat.ltb_lt _ _)) by lia. split; [by eapply wakes_sleepers|done]. }
  exists (set_hwq w (with_ring (aux_queue s) r' s)). split_and!; [exact E| | |done|done].
  - split; [done| |done|done]. exists rm. split; [|done]. simpl. rewrite lookup_insert_ne by done. done.
  - split; [|split; [by exists es|done]]. exists r'. split; [apply with_ring_at|done].
Qed.

Lemma mouse_ok_dev fuel qs s ps d : mouse_ok fuel qs s ps -> mouse_ok fuel qs (set_hdev d s) ps.
Proof. intros []. by split. Qed.
Lemma aux_ok_same qs s s' raw : others_same s s' -> aux_ok qs s raw -> aux_ok qs s' raw.
Proof.
  intros (Hr & Hm & Ha & _) [(r & Hrr & ?) [(es & Hin) Hne]]. unfold aux_ok. rewrite Ha, Hm.
  split; [exists r; by rewrite Hr|]. split; [by exists es|done].
Qed.

(** An interrupt of the mouse reads one byte from the controller and gives
    it to both readers: it is appended to the bytes of the raw device, unless
    2047 wait there, and taken into the decoding, which appends at most one
    packet to the packets of the mouse device. *)
Theorem mouse_interrupt_feeds_both ra fuel action qs s ps raw :
  mouse_ok fuel qs s ps -> aux_ok qs s raw -> g_softirq_pending (hsoft s) = 0 ->
  let c := u8 (port_in PS2_DATA (hdev s)).1 in
  exists s' ps', inthandler2C ra fuel action s = Ok (tt, s') /\
    mouse_ok fuel qs s' ps' /\ (ps' = ps \/ exists p, well_typed p /\ ps' = ps ++ [p]) /\ aux_ok qs s' (type_char c raw).
Proof.
  intros Hm Ha Hsoft c. destruct (port_in PS2_DATA (hdev s)) as [v d] eqn:Ein. simpl in c.
  set (d2 := port_out (u16 0x20) (u8 0x20) (port_out (u16 0xa0) (u8 0x20) d)). set (s2 := set_hdev d2 s).
  assert (u8 (s8 (u8 v)) = u8 v) as Ev by (apply u8_s8, u8_range).
  destruct (mouse_byte_ok ra fuel qs (u8 (s8 (u8 v))) s2 ps (mouse_ok_dev _ _ _ _ d2 Hm)) as (s3 & ps' & E3 & Ho & Hm3 & Hps).
  assert (aux_ok qs s3 raw) as Ha3 by (by apply (aux_ok_same qs s2)).
  destruct (handle_mouse_event_ok ra fuel qs (s8 (u8 v)) s3 ps' raw Hm3 Ha3) as (s4 & E4 & Hm4 & Ha4 & Hs4 & _).
  rewrite Ev in Ha4. exists s4, ps'. split_and!; [|done| |exact Ha4].
  - assert (inb PS2_DATA s = Ok (u8 v, set_devices d s)) as E1 by by apply inb_ok.
    unfold inthandler2C. run E1. cbv zeta.
    assert (ack (S:=hid) INT_VECTOR_PS2_MOUSE (set_devices d s) = Ok (tt, s2)) as E2 by (by destruct s). run E2.
    run E3. run E4. unfold in_soft, zoom, irq_exit. rewrite get_bind.
    assert (hsoft s3 = hsoft s) as E5 by apply Ho. rewrite Hs4, E5, Hsoft. cbn. rewrite <-E5, <-Hs4. by destruct s4.
  - destruct Hps as [->|[p ->]]; [by left|]. unfold push_packet in *. destruct (_ <? _)%nat; [|by left]. right. exists p. split; [|done].
    destruct Hm4 as [_ _ Hty _]. apply list.Forall_app in Hty as [_ [? _]%list.Forall_cons]. done.
Qed.
End interrupts.

(** ** A controller with bytes waiting in it
    Bit 0 of the status says that a byte waits, bit 1 that the controller has
    not yet taken the last one written to it; it takes them at once. *)
Definition i8042 : Machine := {|
  device := list Z;
  port_in p l := if p =? PS2_STATUS then (match l with [] => 0 | _ => 1 end, l)
                 else if p =? PS2_DATA then match l with [] => (0, []) | c :: l => (c, l) end else (0, l);
  port_out _ _ l := l |}.
Section controller.
#[local] Instance the_controller : Machine := i8042.
#[local] Instance its_state : HasDevices (list Z) := device_devices (X:=i8042).

Lemma last_from {A} (l : list A) b c : List.last (b :: l) c = List.last l b.
Proof. revert b c. induction l as [|x l IH]; intros b c; [done|]. change (List.last (x :: l) c = List.last (x :: l) b). by rewrite !IH. Qed.
(** The keyboard interrupt keeps the last of the bytes that wait. *)
Lemma interrupt_keeps_last_byte fuel l c : Forall (fun c => 0 <= c < 256) l -> (length l < fuel)%nat ->
  last_scan_code (S:=list Z) fuel c l = Ok (List.last l c, []).
Proof.
  revert l c. induction fuel as [|fuel IH]; intros [|b l] c Hl Hf; simpl in Hf; try lia; [done|].
  apply list.Forall_cons in Hl as [Hb Hl].
  assert (ps2_read_byte (S:=list Z) (b :: l) = Ok (b, l)) as Er.
  { unfold ps2_read_byte, ps2_wait_output. destruct (Z.to_nat 99999) eqn:En; [lia|]. cbn [ps2_wait].
    unfold bind, inb. simpl. rewrite u8_small by done. done. }
  assert (inb (S:=list Z) PS2_STATUS (b :: l) = Ok (1, b :: l)) as Es by done.
  cbn [last_scan_code]. run Es. change (negb (Z.land 1 PS2_STR_OUTPUT_BUFFER_FULL =? 0)) with true.
  cbn iota. run Er. rewrite IH by (done || lia). by rewrite last_from.
Qed.
(** Waiting before a write looks for the bit to be set, which on a controller
    that is ready it is not: every wait runs to its end. *)
Lemma ready_controller_is_waited_for n l : ps2_wait (S:=list Z) n (Z.shiftl 0x1 1) l = Ok (1, l).
Proof.
  induction n as [|n IH]; [done|]. cbn [ps2_wait]. unfold bind, inb. destruct l; simpl; exact IH.
Qed.
End controller.

(** ** A mouse interrupt on a machine with nothing typed or moved *)
Definition one_byte : Machine := {| device := unit; port_in _ d := (9, d); port_out _ _ d := d |}.
Definition aux_ring : ring := Ring 0 0 (replicate (Z.to_nat AUX_BUF_SIZE) 0).
Definition two_queues : wq :=
  Wq (Kern (list_to_map [(100, Node 12340 12340); (12340, Node 100 100); (8244, Node 8244 8244); (5012, Node 5012 5012); (6012, Node 6012 6012)])
           (list_to_map [(8192, idle_tcb 0); (12288, idle_tcb 1)]) ∅ 8192 true 0 0x100000 0 12288 8192)
     ∅ {[5008 := WaitHead 0 5020 8192; 6008 := WaitHead 0 6020 8192]}.
Definition both_queues : @hid one_byte :=
  @Hid one_byte two_queues {[5000 := still_ring; 6000 := aux_ring]} 0 5000 6000 (Keys false false false false false false)
    (Mouse MOUSE_DEFAULT [0; 0; 0; 0] 0) (Softirq 0 []) tt.
Lemma two_queues_sleepers : @sleepers two_globals 10 two_queues [(5008, []); (6008, [])].
Proof.
  exists {[100 := [12288]]}, [12288]. intros q es [[= -> ->]|[[= -> ->]|Hin%not_elem_of_nil]%list.elem_of_cons]%list.elem_of_cons; [| |done];
    (split; [apply waiting_nobody; [by_computation|done|done|by_computation|done|done|by_computation]|simpl; lia]).
Qed.
Lemma both_mouse_ok : @mouse_ok one_byte two_globals 10 [(5008, []); (6008, [])] both_queues [].
Proof.
  split; [|exists still_ring; split; [done|exact still_ring_ok]|by apply list.Forall_nil|].
  - split_and!; try done. repeat (apply list.Forall_cons; split; [done|]). by apply list.Forall_nil.
  - split; [apply two_queues_sleepers|exists []; by left].
Qed.
Lemma both_aux_ok : @aux_ok one_byte [(5008, []); (6008, [])] both_queues [].
Proof.
  split; [|split; [exists []; right; by left|done]]. exists aux_ring. split; [done|]. split; [|done].
  unfold ring_ok, aux_ring. cbn [rbuf rhead rtail]. rewrite length_replicate. unfold AUX_BUF_SIZE. lia.
Qed.
Lemma mouse_interrupt_feeds_both_witness :
  exists s' ps', @inthandler2C one_byte two_globals 0 10 (fun _ q => q) both_queues = Ok (tt, s') /\
    @mouse_ok one_byte two_globals 10 [(5008, []); (6008, [])] s' ps' /\ (ps' = [] \/ exists p, well_typed p /\ ps' = [] ++ [p]) /\
    @aux_ok one_byte [(5008, []); (6008, [])] s' (type_char 9 []).
Proof.
  apply (@mouse_interrupt_feeds_both one_byte two_globals 0 10 (fun _ q => q) [(5008, []); (6008, [])] both_queues [] []);
    [exact both_mouse_ok|exact both_aux_ok|reflexivity].
Defined.
