(* ===== verification/Resume.v ===== *)
(** * Resume: calls that other threads and interrupts come between

    A kernel call that goes to sleep in the middle is a computation that may
    end early, with the rest of the call in its hand: [Paused k] is a thread
    that has been switched away from (or interrupted) and goes on with [k] when
    it has the processor again.  [play] gives what happens at each of these
    points as a script.  Over it: the calls of core/thread/semaphore.c and
    core/thread/sched.c that wait, for a state with the kernel's in it. *)
From S2P Require Import Prelude Lists Kernel Locks Ports.

Section resumptions.
Context {S : Type}.

Inductive outcome (A : Type) : Type :=
| Done (a : A)
| Paused (k : S -> res (outcome A * S)).
Arguments Done {A} a.
Arguments Paused {A} k.

(** A call that may be paused. *)
Definition T (A : Type) : Type := M S (outcome A).
Definition done {A} (a : A) : T A := ret (Done a).
Definition atom {A} (m : M S A) : T A := a <- m ;; done a.
Definition pause : T unit := ret (Paused (done tt)).

Fixpoint go_on {A B} (o : outcome A) (f : A -> T B) : T B :=
  match o with
  | Done a => f a
  | Paused k => ret (Paused (fun s => match k s with
                                     | Ok (o, s) => go_on o f s
                                     | Panic => Panic | Fault => Fault | Stuck => Stuck end))
  end.
Definition tbind {A B} (m : T A) (f : A -> T B) : T B := o <- m ;; go_on o f.

(** [play o es]: the call goes on to its end; at its pauses happen, in this
    order, the [es].  It is [Stuck] when it pauses more often than that, or
    less often. *)
Fixpoint play {A} (o : outcome A) (es : list (M S unit)) : M S A :=
  match o, es with
  | Done a, [] => ret a
  | Paused k, e :: es => e ;;; o <- k ;; play o es
  | _, _ => stuck
  end.
(** The call [m], with the events [es] in between, takes [s] to [s'] and returns [a]. *)
Definition runs {A} (m : T A) (es : list (M S unit)) (s : S) (a : A) (s' : S) : Prop :=
  (o <- m ;; play o es) s = Ok (a, s').
Definition panics {A} (m : T A) (es : list (M S unit)) (s : S) : Prop :=
  (o <- m ;; play o es) s = Panic.
End resumptions.
Arguments outcome : clear implicits.
Arguments T : clear implicits.
Arguments Done {S A} a.
Arguments Paused {S A} k.

Declare Scope resume_scope.
Delimit Scope resume_scope with resume.
Notation "x <~ m ;; k" := (tbind m (fun x => k))
  (at level 100, m at next level, right associativity) : resume_scope.
Notation "m ;;; k" := (tbind m (fun _ => k))
  (at level 100, right associativity) : resume_scope.
Notation "'when' b 'do' m" := (if b then m else done tt)
  (at level 99, b at level 98, m at level 98) : resume_scope.

Section laws.
Context {S : Type}.
Implicit Types (s : S) (es : list (M S unit)).

Lemma play_go_on {A B} es1 : forall (o : outcome S A) (f : A -> T S B) es2 s a s1 r,
  play o es1 s = Ok (a, s1) -> (o <- f a ;; play o es2) s1 = r ->
  (o' <- go_on o f ;; play o' (es1 ++ es2)) s = r.
Proof.
  induction es1 as [|e es1 IH]; intros [c|k] f es2 s a s1 r H1 H2; try done.
  - cbn in H1. injection H1 as <- <-. exact H2.
  - cbn [play] in H1. apply bind_inv in H1 as ([] & s3 & He & H1). apply bind_inv in H1 as (o & s4 & Hk & H1).
    cbn [go_on]. rewrite bind_ret. cbn [app play]. run He. unfold bind at 1. rewrite Hk.
    by apply (IH o f es2 s4 a s1).
Qed.
Lemma play_panic {A B} es1 : forall (o : outcome S A) (f : A -> T S B) es2 s,
  play o es1 s = Panic -> (o' <- go_on o f ;; play o' (es1 ++ es2)) s = Panic.
Proof.
  induction es1 as [|e es1 IH]; intros [c|k] f es2 s H; try done.
  cbn [play] in H. cbn [go_on]. rewrite bind_ret. cbn [app play].
  unfold bind at 1 in H. unfold bind at 1. destruct (e s) as [[[] s1]| | |]; try done.
  unfold bind at 1 in H. unfold bind at 1. destruct (k s1) as [[o s2]| | |]; try done. by apply IH.
Qed.
Lemma runs_bind {A B} (m : T S A) (f : A -> T S B) es1 es2 s a s1 b s2 :
  runs m es1 s a s1 -> runs (f a) es2 s1 b s2 -> runs (tbind m f) (es1 ++ es2) s b s2.
Proof.
  unfold runs at 1. intros H1 H2. apply bind_inv in H1 as (o & s0 & Hm & H1).
  unfold runs, tbind. run Hm. by eapply play_go_on.
Qed.
(** A call that stops the machine in its second part, or in its first. *)
Lemma panics_bind {A B} (m : T S A) (f : A -> T S B) es1 es2 s a s1 :
  runs m es1 s a s1 -> panics (f a) es2 s1 -> panics (tbind m f) (es1 ++ es2) s.
Proof.
  unfold runs. intros H1 H2. apply bind_inv in H1 as (o & s0 & Hm & H1).
  unfold panics, tbind. run Hm. by eapply play_go_on.
Qed.
Lemma panics_first {A B} (m : T S A) (f : A -> T S B) es1 es2 s :
  panics m es1 s -> panics (tbind m f) (es1 ++ es2) s.
Proof.
  unfold panics, tbind. intros H. rewrite bind_assoc. unfold bind at 1 in H. unfold bind at 1.
  destruct (m s) as [[o s1]| | |]; try done. by apply play_panic.
Qed.
Lemma panics_atom {A B} (m : M S A) (f : A -> T S B) es s : m s = Panic -> panics (tbind (atom m) f) es s.
Proof. intros E. unfold panics, tbind, atom, bind. by rewrite E. Qed.
Lemma runs_done {A} (a : A) s : runs (done a) [] s a s.
Proof. done. Qed.
Lemma runs_atom {A} (m : M S A) s a s' : m s = Ok (a, s') -> runs (atom m) [] s a s'.
Proof. intros E. unfold runs, atom, done. run E. done. Qed.
Lemma runs_pause (e : M S unit) s s' : e s = Ok (tt, s') -> runs pause [e] s tt s'.
Proof. intros E. unfold runs, pause. rewrite bind_ret. cbn [play]. run E. done. Qed.
Lemma guard_play {A} b (f : T S A) es s :
  (o <- tbind (atom (ASSERT b)) (fun _ => f) ;; play o es) s = if b then (o <- f ;; play o es) s else Panic.
Proof. by destruct b. Qed.
(** A call that is not paused first. *)
Lemma runs_step {A B} (m : M S A) (f : A -> T S B) es s a s1 b s2 :
  m s = Ok (a, s1) -> runs (f a) es s1 b s2 -> runs (tbind (atom m) f) es s b s2.
Proof. intros E H. by apply (runs_bind (atom m) f [] es s a s1); [apply runs_atom|]. Qed.

(** The call [m] is paused in the state [s1], and what is left of it is [m']. *)
Definition pauses {A} (m : T S A) s (m' : T S A) s1 : Prop :=
  exists k, m s = Ok (Paused k, s1) /\ forall t, k t = m' t.
Lemma pauses_bind {A B} (m m' : T S A) (f : A -> T S B) s s1 :
  pauses m s m' s1 -> pauses (tbind m f) s (tbind m' f) s1.
Proof.
  intros (k & E & Hk). eexists. split; [unfold tbind; run E; done|]. intros t. cbn beta. rewrite Hk. reflexivity.
Qed.
Lemma pauses_pause s : pauses pause s (done tt) s.
Proof. by eexists. Qed.
Lemma pauses_step {A B} (m : M S A) (f : A -> T S B) s a s0 m' s1 :
  m s = Ok (a, s0) -> pauses (f a) s0 m' s1 -> pauses (tbind (atom m) f) s m' s1.
Proof. intros E (k & Ek & Hk). exists k. split; [|done]. unfold tbind, atom, done. by run E. Qed.
Lemma pauses_ext {A} (m m1 m2 : T S A) s s1 : (forall t, m1 t = m2 t) -> pauses m s m1 s1 -> pauses m s m2 s1.
Proof. intros H (k & E & Hk). exists k. split; [done|]. intros t. by rewrite Hk. Qed.
(** The same for calls that end. *)
Lemma ends_bind {A B} (m : T S A) (f : A -> T S B) s a s1 : m s = Ok (Done a, s1) -> tbind m f s = f a s1.
Proof. intros E. unfold tbind. by run E. Qed.
Lemma ends_step {A B} (m : M S A) (f : A -> T S B) s a s1 : m s = Ok (a, s1) -> tbind (atom m) f s = f a s1.
Proof. intros E. by apply ends_bind; unfold atom, done; run E. Qed.
Lemma tbind_assoc {A B C} (m : T S A) (f : A -> T S B) (g : B -> T S C) s a s1 :
  m s = Ok (Done a, s1) -> tbind (tbind m f) g s = tbind (f a) g s1.
Proof. intros E. unfold tbind at 1. unfold bind at 1. rewrite (ends_bind m f s a s1 E). reflexivity. Qed.
End laws.

(** ** The kernel's calls that wait *)
Class HasKern (S : Type) := {
  kernel : S -> kern;
  set_kernel : kern -> S -> S;
  kernel_set : forall k s, kernel (set_kernel k s) = k;
  set_kernel_twice : forall k k' s, set_kernel k (set_kernel k' s) = set_kernel k s;
  set_kernel_get : forall s, set_kernel (kernel s) s = s
}.
#[export] Hint Rewrite @kernel_set @set_kernel_twice @set_kernel_get : frog.

Definition DIV_ROUND_UP (n d : Z) : Z := (n + d - 1) / d.
Definition mil_seconds_per_intr : Z := DIV_ROUND_UP 1000 HZ.

Section calls.
Context {W : Type} `{!HasKern W} {G : Globals}.
(** Fuel for searches in lists, and for the rounds of a thread that waits. *)
Variables fuel rounds : nat.
Local Open Scope resume_scope.

Definition to_kern {A} (m : M kern A) : M W A := zoom kernel set_kernel m.
Definition on_kern {A} (m : M kern A) : T W A := atom (to_kern m).

(** The loop of [semaphore_down].  A thread that runs again is at the end of
    [thread_block], where the interrupts go back to what they were: off. *)
Fixpoint down_loop (n : nat) (sema : Z) : T W unit :=
  match n with
  | O => atom stuck
  | S n =>
      taken <~ on_kern (down_round fuel sema) ;;
      if taken : bool then done tt
      else (pause ;;; on_kern (intr_set_status false) ;;; down_loop n sema)
  end.
Definition semaphore_down (sema : Z) : T W unit :=
  old_status <~ on_kern intr_disable ;;
  down_loop rounds sema ;;;
  on_kern (intr_set_status old_status) ;;;
  done tt.
Definition lock_fetch (l : Z) : T W unit :=
  x <~ on_kern (lk l) ;;
  cur <~ on_kern running_thread ;;
  if negb (holder x =? cur) then
    semaphore_down l ;;;
    cur <~ on_kern running_thread ;;
    on_kern (upd_lock l (fun x => Lock cur (value x) (holder_repeat_nr x))) ;;;
    x <~ on_kern (lk l) ;;
    atom (ASSERT (holder_repeat_nr x =? 0)) ;;;
    on_kern (upd_lock l (fun x => Lock (holder x) (value x) 1))
  else
    on_kern (upd_lock l (fun x => Lock (holder x) (value x) (u32 (holder_repeat_nr x + 1)))).

(** [thread_yield] returns when the thread runs again. *)
Definition yield : T W unit :=
  old_status <~ on_kern (thread_yield fuel) ;;
  pause ;;;
  on_kern (intr_set_status old_status) ;;;
  done tt.
Fixpoint sleep_loop (n : nat) (start_tick sleep_ticks : Z) : T W unit :=
  match n with
  | O => atom stuck
  | S n =>
      ticks <~ on_kern (gets jiffies) ;;
      if u32 (ticks - start_tick) <? sleep_ticks then (yield ;;; sleep_loop n start_tick sleep_ticks)
      else done tt
  end.
Definition tick_to_sleep (sleep_ticks : Z) : T W unit :=
  start_tick <~ on_kern (gets jiffies) ;;
  sleep_loop rounds start_tick sleep_ticks.
Definition mtime_sleep (m_seconds : Z) : T W unit :=
  atom (ASSERT (negb (mil_seconds_per_intr =? 0))) ;;;
  let sleep_ticks := u32 (DIV_ROUND_UP m_seconds mil_seconds_per_intr) in
  atom (ASSERT (sleep_ticks >? 0)) ;;;
  tick_to_sleep sleep_ticks.
End calls.

Section uncontended.
Context {W : Type} {HK : HasKern W} {G : Globals}.
Variables fuel rounds : nat.
Hypothesis Hrounds : (0 < rounds)%nat.
Implicit Types (s : W) (k : kern) (l : Z).

Lemma to_kern_ok {A} (m : M kern A) s (a : A) k : m (kernel s) = Ok (a, k) -> to_kern m s = Ok (a, set_kernel k s).
Proof using. intros E. unfold to_kern, zoom. by rewrite E. Qed.
Lemma runs_kern {A} (m : M kern A) s (a : A) k : m (kernel s) = Ok (a, k) -> runs (on_kern m) [] s a (set_kernel k s).
Proof using. intros E. apply runs_atom, to_kern_ok, E. Qed.
(** A step of the kernel before the rest of a call. *)
Lemma runs_kern_step {A B} (m : M kern A) (f : A -> T W B) es s (a : A) k b s2 :
  m (kernel s) = Ok (a, k) -> runs (f a) es (set_kernel k s) b s2 -> runs (tbind (on_kern m) f) es s b s2.
Proof using. intros E. apply runs_step, to_kern_ok, E. Qed.

(** A semaphore that is up is taken without a pause. *)
Lemma down_round_now l k h r : locks k !! l = Some (Lock h 1 r) ->
  down_round fuel l k = Ok (true, with_lock l (Lock h 0 r) k).
Proof using.
  intros Hl. unfold down_round. run (lk_now k l (Lock h 1 r) Hl). cbn [value]. change (1 =? 0) with false. cbn iota.
  run (upd_lock_now k l (Lock h 1 r)); [|done]. cbn [value holder holder_repeat_nr]. change (u32 (1 - 1)) with 0.
  run (lk_now (with_lock l (Lock h 0 r) k) l (Lock h 0 r)); [|apply with_lock_locks]. by pass.
Qed.
Lemma runs_down_loop l s h r : locks (kernel s) !! l = Some (Lock h 1 r) ->
  runs (down_loop fuel rounds l) [] s tt (set_kernel (with_lock l (Lock h 0 r) (kernel s)) s).
Proof using Hrounds.
  intros Hl. destruct rounds as [|n]; [lia|]. cbn [down_loop].
  eapply runs_kern_step; [by apply down_round_now|]. apply runs_done.
Qed.
Lemma runs_semaphore_down l s h r : locks (kernel s) !! l = Some (Lock h 1 r) ->
  runs (semaphore_down fuel rounds l) [] s tt (set_kernel (with_lock l (Lock h 0 r) (kernel s)) s).
Proof using Hrounds.
  intros Hl. unfold semaphore_down. set (k := kernel s) in *.
  eapply runs_kern_step; [apply intr_disable_now|].
  eapply (runs_bind _ _ [] []).
  { apply (runs_down_loop l _ h r). rewrite kernel_set. exact Hl. }
  eapply runs_kern_step; [apply intr_set_now|].
  rewrite kernel_set, !set_kernel_twice. replace (set_intr _ _) with (with_lock l (Lock h 0 r) k); [apply runs_done|].
  rewrite kernel_set. fold k. by destruct k.
Qed.
Lemma runs_lock_fetch l s : locks (kernel s) !! l = Some free_lock -> current (kernel s) <> 0 ->
  runs (lock_fetch fuel rounds l) [] s tt (set_kernel (with_lock l (held_by (current (kernel s))) (kernel s)) s).
Proof using Hrounds.
  intros Hl H0. unfold lock_fetch. set (k := kernel s) in *. assert (set_kernel k s = s) as Es by apply set_kernel_get.
  eapply runs_kern_step; [by apply lk_now|]. fold k. rewrite Es.
  eapply runs_kern_step; [done|]. fold k. rewrite Es.
  cbn [holder free_lock]. rewrite (proj2 (Z.eqb_neq _ _)) by (by intros E; apply H0). cbn [negb].
  eapply (runs_bind _ _ [] []); [by apply runs_semaphore_down|]. fold k.
  eapply runs_kern_step; [done|]. rewrite kernel_set, set_kernel_twice. cbn [current with_lock set_locks].
  eapply runs_kern_step; [rewrite kernel_set; apply upd_lock_now, with_lock_locks|].
  rewrite set_kernel_twice, with_lock_twice. cbn [value holder_repeat_nr].
  eapply runs_kern_step; [rewrite kernel_set; apply lk_now, with_lock_locks|]. rewrite set_kernel_twice.
  eapply runs_step; [done|].
  set (k1 := with_lock l (Lock (current k) 0 0) k).
  replace (set_kernel (with_lock l (held_by (current k)) k) s)
    with (set_kernel (with_lock l (held_by (current k)) k1) (set_kernel k1 s))
    by (unfold k1; by rewrite set_kernel_twice, with_lock_twice).
  apply runs_kern. rewrite kernel_set. apply (upd_lock_now k1 l (Lock (current k) 0 0)), with_lock_locks.
Qed.
End uncontended.
