(* ===== verification/Ide.v ===== *)
(** * Ide: the disk driver (core/device/ide.c, include/device/ide.h)

    A disk is named by the indices of its channel and of itself.  The buffers
    of the callers lie in [ram]; words pass between them and the data port.
    A call sleeps on the semaphore [disk_done] until the disk's interrupt; the
    calls are resumptions, and besides sleeping there are the places where the
    disk's request can arrive ([interrupts_here]). *)
From S2P Require Import Prelude Lists Kernel Locks Ports Softirq Stdio Descriptor Resume.

(** Words through a port. *)
Class WordPorts (X : Machine) := {
  port_in_word : Z -> device -> Z * device;
  port_out_word : Z -> Z -> device -> device
}.
(** Addresses in the kernel's image: of the two locks in [struct ide_channel],
    of the list node in a partition, of the handler, of the list's head. *)
Class IdeGlobals := {
  channel_address : Z -> Z;
  part_tag : Z * Z -> Z -> Z;
  partition_list : Z;
  intr_hd_handler_address : Z
}.

Record partition := Partition { p_start_lba : Z; p_sec_cnt : Z; my_disk : Z * Z; p_name : list Z }.
Record hard_disk := HardDisk {
  d_name : list Z; my_channel : Z; dev_no : Z;
  prim_partition : list partition; logic_partition : list partition }.
Record ide_channel := Channel { port_base : Z; irq_no : Z; expecting_intr : bool; hd_devices : list hard_disk }.
Record partition_table_entry := Entry {
  bootable : Z; start_head : Z; start_sec : Z; start_chs : Z; fs_type : Z;
  end_head : Z; end_sec : Z; end_chs : Z; offset_lba : Z; sec_cnt : Z }.
#[export] Instance entry_eq_dec : EqDecision partition_table_entry.
Proof. solve_decision. Defined.
#[export] Instance partition_eq_dec : EqDecision partition.
Proof. solve_decision. Defined.

Section state.
Context {X : Machine}.
Record ide := Ide {
  ikern : kern;
  channels : list ide_channel;
  channel_cnt : Z;
  g_ext_base_offset : Z;
  ram : Z -> Z;
  icpu : cpu;
  isoft : softirq;
  idev : device }.
Definition set_ikern v s := Ide v (channels s) (channel_cnt s) (g_ext_base_offset s) (ram s) (icpu s) (isoft s) (idev s).
Definition set_channels v s := Ide (ikern s) v (channel_cnt s) (g_ext_base_offset s) (ram s) (icpu s) (isoft s) (idev s).
Definition set_channel_cnt v s := Ide (ikern s) (channels s) v (g_ext_base_offset s) (ram s) (icpu s) (isoft s) (idev s).
Definition set_ext_base v s := Ide (ikern s) (channels s) (channel_cnt s) v (ram s) (icpu s) (isoft s) (idev s).
Definition set_ram v s := Ide (ikern s) (channels s) (channel_cnt s) (g_ext_base_offset s) v (icpu s) (isoft s) (idev s).
Definition set_icpu v s := Ide (ikern s) (channels s) (channel_cnt s) (g_ext_base_offset s) (ram s) v (isoft s) (idev s).
Definition set_isoft v s := Ide (ikern s) (channels s) (channel_cnt s) (g_ext_base_offset s) (ram s) (icpu s) v (idev s).
Definition set_idev v s := Ide (ikern s) (channels s) (channel_cnt s) (g_ext_base_offset s) (ram s) (icpu s) (isoft s) v.
End state.
#[export] Program Instance ide_devices {X : Machine} : HasDevices ide :=
  {| devices := idev; set_devices := set_idev |}.
Solve All Obligations with by repeat intros [].
#[export] Program Instance ide_kern {X : Machine} : HasKern ide :=
  {| kernel := ikern; set_kernel := set_ikern |}.
Solve All Obligations with by repeat intros [].

Definition ATA_STATR_BSY : Z := 0x80.
Definition ATA_STATR_DRQ : Z := 0x08.
Definition BIT_DEV_MBS : Z := 0xa0.
Definition BIT_DEV_LBA : Z := 0x40.
Definition BIT_DEV_DEV : Z := 0x10.
Definition CMD_IDENTIFY : Z := 0xec.
Definition CMD_READ_SECTOR : Z := 0x20.
Definition CMD_READ_SECTORS_EXT : Z := 0x24.
Definition CMD_WRITE_SECTOR : Z := 0x30.
Definition CMD_WRITE_SECTORS_EXT : Z := 0x34.
Definition max_lba : Z := 80 * 1024 * 1024 / 512 - 1.
Definition DPT_FILE_SYSTEM_TYPE_EXT : Z := 0x5.
Definition IS_NULL_ENTRY (e : partition_table_entry) : bool :=
  (end_head e =? 0) && (end_sec e =? 0) && (end_chs e =? 0).

(** Bytes in memory. *)
Fixpoint load (ram : Z -> Z) (a : Z) (n : nat) : list Z :=
  match n with O => [] | S n => ram a :: load ram (u32 (a + 1)) n end.
Definition store1 (a v : Z) (ram : Z -> Z) : Z -> Z := fun b => if b =? a then u8 v else ram b.
Fixpoint store (a : Z) (l : list Z) (ram : Z -> Z) : Z -> Z :=
  match l with [] => ram | v :: l => store (u32 (a + 1)) l (store1 a v ram) end.

Section driver.
Context {X : Machine} {W : WordPorts X} {G : Globals} {I : IdeGlobals}.
(** For the kernel's lists; rounds of a thread that waits, and of the chain of
    logical partitions. *)
Variables fuel rounds : nat.
Implicit Types (hd : Z * Z).

(** ** Ports and registers *)
Definition channel_at (c : Z) : M ide ide_channel :=
  fun s => match channels s !! Z.to_nat c with
           | Some ch => if 0 <=? c then Ok (ch, s) else Fault
           | None => Fault end.
Definition upd_channel (c : Z) (f : ide_channel -> ide_channel) : M ide unit :=
  ch <- channel_at c ;;
  modify (fun s => set_channels (<[Z.to_nat c := f ch]> (channels s)) s).
Definition disk_at hd : M ide hard_disk :=
  ch <- channel_at hd.1 ;;
  match hd_devices ch !! Z.to_nat hd.2 with
  | Some d => if 0 <=? hd.2 then ret d else fault
  | None => fault end.
Definition set_expecting (v : bool) (ch : ide_channel) : ide_channel :=
  Channel (port_base ch) (irq_no ch) v (hd_devices ch).
(** The keys of the channel's lock and of its semaphore, which is no part of a
    lock and lies 4 bytes behind its key. *)
Definition channel_lock (c : Z) : Z := channel_address c + 12.
Definition disk_done (c : Z) : Z := channel_address c + 32.

Definition reg_data (ch : ide_channel) : Z := port_base ch + 0.
Definition reg_sect_cnt (ch : ide_channel) : Z := port_base ch + 2.
Definition reg_lba_l (ch : ide_channel) : Z := port_base ch + 3.
Definition reg_lba_m (ch : ide_channel) : Z := port_base ch + 4.
Definition reg_lba_h (ch : ide_channel) : Z := port_base ch + 5.
Definition reg_dev (ch : ide_channel) : Z := port_base ch + 6.
Definition reg_status (ch : ide_channel) : Z := port_base ch + 7.
Definition reg_cmd (ch : ide_channel) : Z := reg_status ch.

(** [rep insw] and [rep outsw]. *)
Fixpoint insw (port addr : Z) (word_cnt : nat) : M ide unit :=
  match word_cnt with
  | O => ret tt
  | S n =>
      (fun s => let '(w, d) := port_in_word (u16 port) (idev s) in
                Ok (tt, set_ram (store addr [w; Z.shiftr w 8] (ram s)) (set_idev d s))) ;;;
      insw port (u32 (addr + 2)) n
  end.
Fixpoint outsw (port addr : Z) (word_cnt : nat) : M ide unit :=
  match word_cnt with
  | O => ret tt
  | S n =>
      modify (fun s => set_idev (port_out_word (u16 port) (ram s addr + 256 * ram s (u32 (addr + 1))) (idev s)) s) ;;;
      outsw port (u32 (addr + 2)) n
  end.

Definition swap_pairs_bytes (dst buf len : Z) : M ide unit :=
  let fix loop (n : nat) (idx dst : Z) : M ide unit :=
    match n with
    | O => stuck
    | S n =>
        if idx <? len then
          modify (fun s => set_ram (store1 (u32 (buf + idx + 1)) (ram s dst) (ram s)) s) ;;;
          modify (fun s => set_ram (store1 (u32 (buf + idx)) (ram s (u32 (dst + 1))) (ram s)) s) ;;;
          loop n (u8 (idx + 2)) (u32 (dst + 2))
        else modify (fun s => set_ram (store1 (u32 (buf + idx)) 0 (ram s)) s)
    end in
  loop (Z.to_nat len + 1)%nat 0 dst.

Definition select_disk hd : M ide unit :=
  h <- disk_at hd ;;
  let reg_device := Z.lor BIT_DEV_MBS BIT_DEV_LBA in
  let reg_device := if dev_no h =? 1 then Z.lor reg_device BIT_DEV_DEV else reg_device in
  channel <- channel_at (my_channel h) ;;
  outb (reg_dev channel) reg_device.
Definition select_sector hd (lba sec_cnt : Z) : M ide unit :=
  ASSERT (lba <=? max_lba) ;;;
  h <- disk_at hd ;;
  channel <- channel_at (my_channel h) ;;
  outb (reg_sect_cnt channel) (u8 sec_cnt) ;;;
  outb (reg_lba_l channel) lba ;;;
  outb (reg_lba_m channel) (Z.shiftr lba 8) ;;;
  outb (reg_lba_h channel) (Z.shiftr lba 16) ;;;
  outb (reg_dev channel)
    (Z.lor (Z.lor (Z.lor BIT_DEV_MBS BIT_DEV_LBA) (if dev_no h =? 1 then BIT_DEV_DEV else 0)) (Z.shiftr lba 24)).
Definition select_sector_ext hd (lba sec_cnt : Z) : M ide unit :=
  ASSERT (lba <=? max_lba) ;;;
  h <- disk_at hd ;;
  channel <- channel_at (my_channel h) ;;
  outb (reg_sect_cnt channel) (Z.shiftr (u8 sec_cnt) 8) ;;;
  outb (reg_lba_l channel) (Z.shiftr lba 24) ;;;
  outb (reg_lba_m channel) 0 ;;;
  outb (reg_lba_h channel) 0 ;;;
  outb (reg_sect_cnt channel) (u8 sec_cnt) ;;;
  outb (reg_lba_l channel) lba ;;;
  outb (reg_lba_m channel) (Z.shiftr lba 8) ;;;
  outb (reg_lba_h channel) (Z.shiftr lba 16) ;;;
  outb (reg_dev channel)
    (Z.lor (Z.lor (Z.lor BIT_DEV_MBS BIT_DEV_LBA) (if dev_no h =? 1 then BIT_DEV_DEV else 0)) 0).

Definition size_in_byte (sec_cnt : Z) : Z := if sec_cnt =? 0 then 256 * 512 else sec_cnt * 512.
Definition read_from_sector hd (buf sec_cnt : Z) : M ide unit :=
  let size_in_byte := size_in_byte (u8 sec_cnt) in
  h <- disk_at hd ;;
  channel <- channel_at (my_channel h) ;;
  insw (reg_data channel) buf (Z.to_nat (size_in_byte / 2)) ;;;
  inb 0x3F6 ;;; inb 0x3F6 ;;; inb 0x3F6 ;;; inb 0x3F6 ;;;
  ret tt.
Definition write_to_sector hd (buf sec_cnt : Z) : M ide unit :=
  let size_in_byte := size_in_byte (u8 sec_cnt) in
  h <- disk_at hd ;;
  channel <- channel_at (my_channel h) ;;
  outsw (reg_data channel) buf (Z.to_nat (size_in_byte / 2)).

(** ** The interrupt of a disk *)
Variable action : nat -> Z -> Z.
Definition intr_hd_handler (irq_number : Z) : M ide unit :=
  ASSERT ((irq_number =? 0x2e) || (irq_number =? 0x2f)) ;;;
  let ch_no := u8 (irq_number - 0x2e) in
  channel <- channel_at ch_no ;;
  status <- inb (reg_status channel) ;;
  ASSERT (irq_no channel =? irq_number) ;;;
  (when expecting_intr channel do
     (upd_channel ch_no (set_expecting false) ;;;
      to_kern (semaphore_up fuel (disk_done ch_no)))) ;;;
  ack irq_number ;;;
  zoom isoft set_isoft (irq_exit action fuel).
End driver.

Section transfers.
Context {X : Machine} {W : WordPorts X} {G : Globals} {I : IdeGlobals}.
Variables fuel rounds : nat.
Implicit Types (hd : Z * Z).
Local Open Scope resume_scope.

(** ** Reading and writing *)
(** Where the request of a disk can arrive, while the thread runs. *)
Definition interrupts_here : T ide unit := pause.
Definition cmd_out (channel cmd : Z) : T ide unit :=
  atom (upd_channel channel (set_expecting true)) ;;;
  ch <~ atom (channel_at channel) ;;
  atom (outb (reg_cmd ch) cmd) ;;;
  interrupts_here.

(** [time_limit -= 10 >= 0] takes [10 >= 0] from the limit, which is 1. *)
Fixpoint busy_loop (n : nat) (channel : ide_channel) (time_limit : Z) : T ide bool :=
  match n with
  | O => atom stuck
  | S n =>
      let time_limit := u16 (time_limit - Z.b2z (10 >=? 0)) in
      if negb (time_limit =? 0) then
        status <~ atom (inb (reg_status channel)) ;;
        if Z.land status ATA_STATR_BSY =? 0 then
          status <~ atom (inb (reg_status channel)) ;;
          done (negb (Z.land status ATA_STATR_DRQ =? 0))
        else (mtime_sleep fuel rounds 10 ;;; busy_loop n channel time_limit)
      else done false
  end.
Definition busy_wait hd : T ide bool :=
  h <~ atom (disk_at hd) ;;
  channel <~ atom (channel_at (my_channel h)) ;;
  let time_limit := 30 * 1000 in
  busy_loop (Z.to_nat time_limit) channel time_limit.

Definition on_channel hd : T ide Z := h <~ atom (disk_at hd) ;; done (my_channel h).
Definition lock_channel hd : T ide unit := c <~ on_channel hd ;; lock_fetch fuel rounds (channel_lock c).
Definition unlock_channel hd : T ide unit := c <~ on_channel hd ;; on_kern (lock_release fuel (channel_lock c)).
Definition await_disk hd : T ide unit := c <~ on_channel hd ;; semaphore_down fuel rounds (disk_done c).
Definition command hd (cmd : Z) : T ide unit := c <~ on_channel hd ;; cmd_out c cmd.

Definition ide_read_sector hd (lba buf : Z) : T ide unit :=
  lock_channel hd ;;;
  atom (select_disk hd) ;;;
  atom (select_sector hd lba 1) ;;;
  command hd CMD_READ_SECTOR ;;;
  await_disk hd ;;;
  ready <~ busy_wait hd ;;
  if negb ready then unlock_channel hd
  else
    atom (read_from_sector hd buf 1) ;;;
    unlock_channel hd.
(** [while (cur_cnt)]. *)
Fixpoint read_loop hd (cur_cnt : nat) (cur_lba r_cursor : Z) : T ide unit :=
  match cur_cnt with
  | O => done tt
  | S n =>
      ide_read_sector hd cur_lba r_cursor ;;;
      read_loop hd n (u32 (cur_lba + 1)) (u32 (r_cursor + 512))
  end.
Definition ide_read hd (lba buf sec_cnt : Z) : T ide unit :=
  atom (ASSERT (lba <=? max_lba)) ;;;
  atom (ASSERT (sec_cnt >? 0)) ;;;
  read_loop hd (Z.to_nat sec_cnt) lba buf.

(** The loop that [ide_read_v2] and [ide_read_ext] have in common: up to 256
    sectors with one command. *)
Fixpoint read_many (select : Z * Z -> Z -> Z -> M ide unit) (cmd : Z) (n : nat) hd (lba buf sec_cnt secs_done : Z) : T ide unit :=
  match n with
  | O => atom stuck
  | S n =>
      if secs_done <? sec_cnt then
        let secs_op := if u32 (secs_done + 256) <=? sec_cnt then 256 else sec_cnt - secs_done in
        atom (select hd (u32 (lba + secs_done)) secs_op) ;;;
        command hd cmd ;;;
        await_disk hd ;;;
        ready <~ busy_wait hd ;;
        if negb ready then unlock_channel hd
        else
          atom (read_from_sector hd (u32 (buf + secs_done * 512)) secs_op) ;;;
          read_many select cmd n hd lba buf sec_cnt (u32 (secs_done + secs_op))
      else unlock_channel hd
  end.
Definition ide_read_v2 hd (lba buf sec_cnt : Z) : T ide unit :=
  atom (ASSERT (lba <=? max_lba)) ;;;
  atom (ASSERT (sec_cnt >? 0)) ;;;
  lock_channel hd ;;;
  atom (select_disk hd) ;;;
  read_many select_sector CMD_READ_SECTOR (Z.to_nat (sec_cnt / 256 + 2)) hd lba buf sec_cnt 0.
Definition ide_read_ext hd (lba buf sec_cnt : Z) : T ide unit :=
  atom (ASSERT (lba <=? max_lba)) ;;;
  atom (ASSERT (sec_cnt >? 0)) ;;;
  lock_channel hd ;;;
  atom (select_disk hd) ;;;
  read_many select_sector_ext CMD_READ_SECTORS_EXT (Z.to_nat (sec_cnt / 256 + 2)) hd lba buf sec_cnt 0.
Definition ide_read_DMA hd (lba buf sec_cnt : Z) : T ide unit :=
  atom (ASSERT (lba <=? max_lba)) ;;;
  atom (ASSERT (sec_cnt >? 0)).

(** The request follows the last word. *)
Definition ide_write_sector hd (lba buf : Z) : T ide unit :=
  lock_channel hd ;;;
  atom (select_disk hd) ;;;
  atom (select_sector hd lba 1) ;;;
  command hd CMD_WRITE_SECTOR ;;;
  ready <~ busy_wait hd ;;
  (when negb ready do atom panic) ;;;
  atom (write_to_sector hd buf 1) ;;;
  interrupts_here ;;;
  await_disk hd ;;;
  unlock_channel hd.
Fixpoint write_loop hd (cur_cnt : nat) (cur_lba w_cursor : Z) : T ide unit :=
  match cur_cnt with
  | O => done tt
  | S n =>
      ide_write_sector hd cur_lba w_cursor ;;;
      write_loop hd n (u32 (cur_lba + 1)) (u32 (w_cursor + 512))
  end.
Definition ide_write hd (lba buf sec_cnt : Z) : T ide unit :=
  atom (ASSERT (lba <=? max_lba)) ;;;
  atom (ASSERT (sec_cnt >? 0)) ;;;
  write_loop hd (Z.to_nat sec_cnt) lba buf.

Fixpoint write_many (select : Z * Z -> Z -> Z -> M ide unit) (cmd : Z) (n : nat) hd (lba buf sec_cnt secs_done : Z) : T ide unit :=
  match n with
  | O => atom stuck
  | S n =>
      if secs_done <? sec_cnt then
        let secs_op := if u32 (secs_done + 256) <=? sec_cnt then 256 else sec_cnt - secs_done in
        atom (select hd (u32 (lba + secs_done)) secs_op) ;;;
        command hd cmd ;;;
        ready <~ busy_wait hd ;;
        (when negb ready do atom panic) ;;;
        atom (write_to_sector hd (u32 (buf + secs_done * 512)) secs_op) ;;;
        interrupts_here ;;;
        await_disk hd ;;;
        write_many select cmd n hd lba buf sec_cnt (u32 (secs_done + secs_op))
      else unlock_channel hd
  end.
Definition ide_write_v2 hd (lba buf sec_cnt : Z) : T ide unit :=
  atom (ASSERT (lba <=? max_lba)) ;;;
  atom (ASSERT (sec_cnt >? 0)) ;;;
  lock_channel hd ;;;
  atom (select_disk hd) ;;;
  write_many select_sector CMD_WRITE_SECTOR (Z.to_nat (sec_cnt / 256 + 2)) hd lba buf sec_cnt 0.
Definition ide_write_ext hd (lba buf sec_cnt : Z) : T ide unit :=
  atom (ASSERT (lba <=? max_lba)) ;;;
  atom (ASSERT (sec_cnt >? 0)) ;;;
  lock_channel hd ;;;
  atom (select_disk hd) ;;;
  write_many select_sector_ext CMD_WRITE_SECTORS_EXT (Z.to_nat (sec_cnt / 256 + 2)) hd lba buf sec_cnt 0.

(** The arrays [id_info] and [buf] of [identify_disk] lie on the stack; what
    is in them at the end is not used. *)
Definition identify_disk (id_info buf : Z) hd : T ide unit :=
  atom (select_disk hd) ;;;
  command hd CMD_IDENTIFY ;;;
  await_disk hd ;;;
  ready <~ busy_wait hd ;;
  (when negb ready do atom panic) ;;;
  atom (read_from_sector hd id_info 1) ;;;
  let sn_start := 10 * 2 in
  let sn_len := 20 in
  atom (swap_pairs_bytes (u32 (id_info + 2 * sn_start)) buf sn_len) ;;;
  atom (modify (fun s => set_ram (store buf (replicate 64 0) (ram s)) s)).

(** ** Partitions *)
Definition copy_entry (src : partition_table_entry) : partition_table_entry :=
  Entry (bootable src) (start_head src) (start_sec src) (start_chs src) (fs_type src)
        (end_head src) (end_sec src) (end_chs src) (offset_lba src) (sec_cnt src).
Definition copy_4_entries (src : list partition_table_entry) : list partition_table_entry :=
  copy_entry <$> take 4 src.
(** The second array is cleared. *)
Definition move_4_entries (src : list partition_table_entry) : list partition_table_entry * list partition_table_entry :=
  (copy_4_entries src, replicate 4 (Entry 0 0 0 0 0 0 0 0 0 0)).
(** [struct partition_table_entry] and [struct boot_sector] as bytes. *)
Definition decode_entry (l : list Z) : partition_table_entry :=
  match l with
  | b0 :: b1 :: b2 :: b3 :: b4 :: b5 :: b6 :: b7 :: l =>
      Entry b0 b1 b2 b3 b4 b5 b6 b7 (of_le (take 4 l)) (of_le (take 4 (drop 4 l)))
  | _ => Entry 0 0 0 0 0 0 0 0 0 0
  end.
Definition boot_tables (l : list Z) : list partition_table_entry :=
  (fun i => decode_entry (take 16 (drop (446 + 16 * i) l))) <$> seq 0 4.
Definition boot_signature (l : list Z) : Z := of_le (take 2 (drop 510 l)).

(** [sector] is the place of the local variable. *)
Variable sector : Z.
Definition get_dpt hd (offset_lba : Z) : T ide (list partition_table_entry) :=
  ide_read hd offset_lba sector 1 ;;;
  l <~ atom (gets (fun s => load (ram s) sector 512)) ;;
  let entries := copy_4_entries (boot_tables l) in
  atom (ASSERT (boot_signature l =? 0xaa55)) ;;;
  done entries.
Fixpoint next_dpt hd (entries : list partition_table_entry) : T ide (option (list partition_table_entry)) :=
  match entries with
  | [] => done None
  | entry :: entries =>
      if IS_NULL_ENTRY entry then next_dpt hd entries
      else if fs_type entry =? DPT_FILE_SYSTEM_TYPE_EXT then
        base <~ atom (gets g_ext_base_offset) ;;
        next <~ get_dpt hd (u32 (base + offset_lba entry)) ;;
        done (Some next)
      else next_dpt hd entries
  end.
End transfers.

Section partitions.
Context {X : Machine} {W : WordPorts X} {G : Globals} {I : IdeGlobals}.
Variables fuel rounds : nat.
Variable sector : Z.
Implicit Types (hd : Z * Z).

Definition upd_disk hd (f : hard_disk -> hard_disk) : M ide unit :=
  d <- disk_at hd ;;
  upd_channel hd.1 (fun ch => Channel (port_base ch) (irq_no ch) (expecting_intr ch)
                                (<[Z.to_nat hd.2 := f d]> (hd_devices ch))).
(** Writing one of the partitions of a disk; outside of the array is outside
    of the disk. *)
Definition put_prim hd (i : Z) (p : partition) : M ide unit :=
  d <- disk_at hd ;;
  if (0 <=? i) && (i <? Z.of_nat (length (prim_partition d))) then
    upd_disk hd (fun d => HardDisk (d_name d) (my_channel d) (dev_no d) (<[Z.to_nat i := p]> (prim_partition d)) (logic_partition d))
  else fault.
Definition put_logic hd (i : Z) (p : partition) : M ide unit :=
  d <- disk_at hd ;;
  if (0 <=? i) && (i <? Z.of_nat (length (logic_partition d))) then
    upd_disk hd (fun d => HardDisk (d_name d) (my_channel d) (dev_no d) (prim_partition d) (<[Z.to_nat i := p]> (logic_partition d)))
  else fault.
(** [sprintf] into an array of 8 characters. *)
Definition print_name (fmt : list Z) (args : list arg) : M ide (list Z) :=
  match sprintf fmt args with
  | Ok (s, _) => if (length s <? 8)%nat then ret s else fault
  | Panic => panic | Fault => fault | Stuck => stuck end.
Definition name_number : list Z := [37; 115; 37; 100].      (* "%s%d" *)
Definition name_letter : list Z := [115; 100; 37; 99].      (* "sd%c" *)

Definition scan_primary hd (i : Z) (e : partition_table_entry) : M ide unit :=
  d <- disk_at hd ;;
  name <- print_name name_number [AStr (Some (d_name d)); AInt (i + 1)] ;;
  put_prim hd i (Partition (offset_lba e) (sec_cnt e) hd name) ;;;
  to_kern (list_add_tail (part_tag hd i) partition_list).
Fixpoint scan_primaries hd (i : Z) (entries : list partition_table_entry) : M ide unit :=
  match entries with
  | [] => ret tt
  | e :: entries => scan_primary hd i e ;;; scan_primaries hd (i + 1) entries
  end.
(** One round of the [while] loop, after [next_dpt]. *)
Definition scan_logical hd (lp_idx ext_base pre_offset : Z) (next : list partition_table_entry) : M ide Z :=
  g <- gets g_ext_base_offset ;;
  (when g =? 0 do modify (set_ext_base ext_base)) ;;;
  d <- disk_at hd ;;
  g <- gets g_ext_base_offset ;;
  match next with
  | e0 :: e1 :: _ =>
      name <- print_name name_number [AStr (Some (d_name d)); AInt (lp_idx + 5)] ;;
      put_logic hd lp_idx (Partition (u32 (offset_lba e0 + g + pre_offset)) (sec_cnt e0) hd name) ;;;
      to_kern (list_add_tail (part_tag hd (lp_idx + 4)) partition_list) ;;;
      ret (offset_lba e1)
  | _ => fault
  end.

Local Open Scope resume_scope.
Fixpoint scan_logicals (n : nat) hd (lp_idx ext_base pre_offset : Z) (entries : list partition_table_entry) : T ide unit :=
  match n with
  | O => atom stuck
  | S n =>
      next <~ next_dpt fuel rounds sector hd entries ;;
      match next with
      | None => done tt
      | Some next =>
          pre_offset <~ atom (scan_logical hd lp_idx ext_base pre_offset next) ;;
          scan_logicals n hd (u8 (lp_idx + 1)) ext_base pre_offset (copy_4_entries next)
      end
  end.
Definition scan_partitions hd : T ide unit :=
  entries <~ get_dpt fuel rounds sector hd 0 ;;
  atom (scan_primaries hd 0 entries) ;;;
  let ext_base := default 0 (offset_lba <$> entries !! 3%nat) in
  scan_logicals rounds hd 0 ext_base 0 entries.

(** [dev_no] is a variable of [ide_init] and is set to 0 once. *)
Fixpoint dev_loop (n : nat) (channel_no dev_no : Z) : T ide Z :=
  match n with
  | O => atom stuck
  | S n =>
      if dev_no <? 2 then
        let hd := (channel_no, dev_no) in
        atom (upd_disk hd (fun d => HardDisk (d_name d) channel_no dev_no (prim_partition d) (logic_partition d))) ;;;
        name <~ atom (print_name name_letter [AInt (97 + channel_no * 2 + dev_no)]) ;;
        atom (upd_disk hd (fun d => HardDisk name (my_channel d) (Ide.dev_no d) (prim_partition d) (logic_partition d))) ;;;
        (if negb (dev_no =? 0) then
           (scan_partitions hd ;;; dev_loop n channel_no (u8 (dev_no + 1)))
         else dev_loop n channel_no (u8 (dev_no + 1)))
      else done dev_no
  end.
Definition set_ports (channel_no : Z) : M ide unit :=
  (if channel_no =? 0 then
     upd_channel channel_no (fun ch => Channel 0x1f0 (0x20 + 14) (expecting_intr ch) (hd_devices ch))
   else if channel_no =? 1 then
     upd_channel channel_no (fun ch => Channel 0x170 (0x20 + 15) (expecting_intr ch) (hd_devices ch))
   else ASSERT ((channel_no =? 0) || (channel_no =? 1)))%frog.
Fixpoint channel_loop (n : nat) (channel_no dev_no : Z) : T ide unit :=
  match n with
  | O => atom stuck
  | S n =>
      cnt <~ atom (gets channel_cnt) ;;
      if channel_no <? cnt then
        atom (set_ports channel_no) ;;;
        atom (upd_channel channel_no (set_expecting false)) ;;;
        on_kern (lock_init (channel_lock channel_no)) ;;;
        on_kern (semaphore_init (disk_done channel_no) 0) ;;;
        on_kern (INIT_LIST_HEAD partition_list) ;;;
        ch <~ atom (channel_at channel_no) ;;
        atom (modify (fun s => set_icpu (register_r0_intr_handler (irq_no ch) intr_hd_handler_address (icpu s)) s)) ;;;
        dev_no <~ dev_loop 3 channel_no dev_no ;;
        channel_loop n (u8 (channel_no + 1)) dev_no
      else done tt
  end.
Definition ide_init : T ide unit :=
  hd_cnt <~ atom (gets (fun s => ram s 0x475)) ;;
  atom (ASSERT (hd_cnt >? 0)) ;;;
  atom (modify (set_channel_cnt (u8 (DIV_ROUND_UP hd_cnt 2)))) ;;;
  channel_loop 256 0 0.
End partitions.
