(* ===== verification/IdeSpec.v ===== *)
(** * IdeSpec: what the disk driver promises to the file system

    A drive behind the ports, and the driver's calls with the drive's requests
    arriving while the thread runs or while it sleeps. *)
From S2P Require Import Prelude Lists Bitmap Kernel Queues Sched Locks Ports Softirq Stdio Descriptor Fs Resume Ide.

(** ** A thread sleeps on a semaphore and is woken *)
Section sleeping.
Context {G : Globals}.
Variable fuel : nat.
Implicit Types (k : kern) (Q : queue_map) (rq : list Z).

(** [R] runs, [rq] is the ready list. *)
Record runs_ok k (R : Z) Q rq : Prop := {
  ro_queues : queues (klists k) (alive k) Q;
  ro_ready : rl Q rq;
  ro_cur : current k = R;
  ro_tcb : exists b, tasks k !! R = Some b /\ status b = THREAD_TASK_RUNNING;
  ro_off : off_queues Q R;
  ro_null : forall t, alive k t -> t <> 0;
  ro_fuel : (length rq < fuel)%nat
}.

Lemma runs_ok_intr v k R Q rq : runs_ok k R Q rq -> runs_ok (set_intr v k) R Q rq.
Proof. intros []. by split. Qed.
Lemma runs_ok_locks m k R Q rq : runs_ok k R Q rq -> runs_ok (set_locks m k) R Q rq.
Proof. intros []. by split. Qed.

(** [R] sleeps in the queue at [a], and [n] runs. *)
Record sleeps k (R n a : Z) Q rest : Prop := {
  sp_queues : queues (klists k) (alive k) (<[thread_ready_list := rest]> (<[a := [R]]> Q));
  sp_cur : current k = n;
  sp_run : exists b, tasks k !! n = Some b /\ status b = THREAD_TASK_RUNNING;
  sp_blocked : exists b, tasks k !! R = Some b /\ status b = THREAD_TASK_BLOCKED;
  sp_off : off_queues (<[thread_ready_list := rest]> (<[a := [R]]> Q)) n;
  sp_null : forall t, alive k t -> t <> 0;
  sp_ne : n <> R
}.

Lemma down_sleeps k R Q n rest l h r :
  runs_ok k R Q (n :: rest) -> locks k !! l = Some (Lock h 0 r) -> Q !! waiting_queue l = Some [] ->
  waiting_queue l <> thread_ready_list ->
  exists k1, down_round fuel l k = Ok (false, k1) /\ sleeps k1 R n (waiting_queue l) Q rest /\
    locks k1 = locks k /\ jiffies k1 = jiffies k.
Proof.
  intros [HQ Hrl Hc (b & Hb & Hst) Hoff H0 Hf] Hl Hw Hne. set (a := waiting_queue l) in *.
  assert (alive k R) as HR by by eexists.
  destruct (q_push_tail_framed (L:=kern_lists) k (alive k) Q a [] R HQ Hw HR Hoff) as (h1 & E1 & HQ1 & _).
  assert (list_find_element fuel (general_tag R) a k = Ok (false, k)) as Ef.
  { eapply (q_find (L:=kern_lists)); [exact HQ|done|done|set_solver|simpl; lia]. }
  set (k1 := set_tasks (<[R := set_status THREAD_TASK_BLOCKED b]> (tasks k)) (set_intr false (set_klists h1 k))).
  assert (forall t, alive k t <-> alive k1 t) as HT by (intros t; symmetry; by apply (alive_insert (set_klists h1 k))).
  assert (rl (<[a := [R]]> Q) (n :: rest)) as Hrl1 by (unfold rl; rewrite lookup_insert_ne; done).
  pose proof (schedule_blocked_ok fuel k1 (<[a := [R]]> Q) (n :: rest) (set_status THREAD_TASK_BLOCKED b)) as Hs.
  destruct Hs as (k2 & E2 & Hsw); [by eapply queues_ext|done|change (current k1) with (current k); rewrite Hc; apply lookup_insert_eq|done|done| |].
  { intros t Ht. by apply H0, HT. }
  exists k2. destruct Hsw as [(bn & Hn & Ht & _) Hc2 Hl2 Hi2 Hj2 _ _ HQ2 Hoff2 _].
  assert (n <> R) as HnR.
  { intros ->. apply (Hoff thread_ready_list (R :: rest) Hrl). by left. }
  split; [|split; [|done]].
  - unfold down_round. erewrite lk_bind by done. cbn [value]. rewrite Z.eqb_refl. pass.
    unfold running_thread. rewrite gets_bind, Hc. run Ef. rets. run E1.
    unfold thread_block, blocking. pass. run (intr_disable_ok (set_klists h1 k)).
    unfold running_thread. rewrite !bind_assoc, gets_bind. cbn [current set_intr set_klists]. rewrite Hc.
    run (upd_tcb_ok (set_intr false (set_klists h1 k)) R b (set_status THREAD_TASK_BLOCKED) Hb).
    change (set_tasks _ _) with k1. run E2. done.
  - split; try done.
    + eapply queues_ext; [|exact HQ2]. intros t. unfold alive at 2. rewrite Ht, lookup_insert.
      case_decide; [subst; split; [by eexists|intros _; by eexists]|]. done.
    + exists (set_status THREAD_TASK_RUNNING bn). split; [rewrite Ht; apply lookup_insert_eq|done].
    + exists (set_status THREAD_TASK_BLOCKED b). split; [|done]. rewrite Ht, lookup_insert_ne by done. apply lookup_insert_eq.
    + intros t. unfold alive. rewrite Ht, lookup_insert. case_decide as Hd; [subst; intros _; apply H0, HT; by eexists|].
      intros Ha. by apply H0, HT.
Qed.

(** The semaphore goes up: [R] is the first in line. *)
Lemma up_wakes k R n l Q rest h r :
  sleeps k R n (waiting_queue l) Q rest -> locks k !! l = Some (Lock h 0 r) ->
  is_Some (Q !! thread_ready_list) -> Q !! waiting_queue l = Some [] ->
  waiting_queue l <> thread_ready_list -> (S (length rest) < fuel)%nat ->
  exists k1 Q1, semaphore_up fuel l k = Ok (tt, k1) /\ locks k1 = <[l := Lock h 1 r]> (locks k) /\
    intr k1 = intr k /\ runs_ok k1 n Q1 (R :: rest) /\ jiffies k1 = jiffies k /\
    (forall b, b <> thread_ready_list -> Q1 !! b = Q !! b).
Proof.
  intros [HQ Hc (bn & Hbn & Hstn) (b & Hb & Hst) Hoff H0 Hne] Hl [rq0 Hr0] Hw Ha Hf. set (a := waiting_queue l) in *.
  assert (<[thread_ready_list := rest]> (<[a := [R]]> Q) !! a = Some [R]) as HaR.
  { rewrite lookup_insert_ne by done. apply lookup_insert_eq. }
  destruct (q_pop_framed (L:=kern_lists) (set_intr false k) (alive k) _ a [] R HQ HaR) as (h1 & E1 & HQ1 & Hoff1 & _).
  set (k1 := set_klists h1 (set_intr false k)) in *.
  set (Q1 := <[a := []]> (<[thread_ready_list := rest]> (<[a := [R]]> Q))) in *.
  assert (rl Q1 rest) as Hrl by (unfold rl, Q1; rewrite lookup_insert_ne by done; apply lookup_insert_eq).
  destruct (thread_unblock_framed fuel k1 (alive k) Q1 rest R b) as (h2 & E2 & HQ2 & _); [done|done|done| |lia|].
  { split; [done|by rewrite Hst|done]. }
  set (k2 := set_tasks _ _) in E2.
  exists (set_intr (intr k) (with_lock l (Lock h 1 r) k2)), (<[thread_ready_list := R :: rest]> Q1). split_and!; try done.
  - unfold semaphore_up. run (intr_disable_ok k).
    run (q_empty (L:=kern_lists) (set_intr false k) (alive k) _ _ _ HQ HaR). rewrite bool_decide_false by done. cbn [negb].
    rewrite bind_assoc. run E1. rewrite of_general_tag_tag. run E2.
    run (upd_lock_now k2 l (Lock h 0 r)); [|done]. cbn [value holder holder_repeat_nr]. change (u32 (0 + 1)) with 1.
    run (lk_now (with_lock l (Lock h 1 r) k2) l (Lock h 1 r)); [|apply with_lock_locks]. pass.
    run (intr_set_status_ok (intr k) (with_lock l (Lock h 1 r) k2)). done.
  - split.
    + eapply queues_ext; [|exact HQ2]. intros t. symmetry. apply (alive_insert (set_klists h2 k1)). by eexists.
    + unfold rl. apply lookup_insert_eq.
    + done.
    + exists bn. split; [|done]. cbn. by rewrite lookup_insert_ne.
    + intros c xs. rewrite lookup_insert. case_decide as Hd; [subst c; intros [= <-] [HnR|Hin]%list.elem_of_cons; [done|]|].
      * by apply (Hoff thread_ready_list rest); [apply lookup_insert_eq|].
      * unfold Q1. rewrite lookup_insert. case_decide as Hd'; [intros [= <-]; set_solver|]. intros Hc'. by apply (Hoff c).
    + intros t. cbn. intros Ha'. apply H0. apply (alive_insert (set_klists h2 k1) R (set_status THREAD_TASK_READY b) t); [by eexists|done].
    + simpl. lia.
  - intros c Hcne. rewrite lookup_insert_ne by done. unfold Q1. rewrite lookup_insert. case_decide; [by subst|].
    rewrite !lookup_insert_ne by done. done.
Qed.

(** The thread that runs gives the processor up to the first in line. *)
Lemma gives_up k n Q R rest :
  runs_ok k n Q (R :: rest) -> exists k1, schedule fuel k = Ok (tt, k1) /\
    runs_ok k1 R (<[thread_ready_list := rest ++ [n]]> Q) (rest ++ [n]) /\
    locks k1 = locks k /\ intr k1 = intr k /\ jiffies k1 = jiffies k.
Proof.
  intros [HQ Hrl Hc (b & Hb & Hst) Hoff H0 Hf]. subst n.
  destruct (schedule_running_ok fuel k Q (R :: rest) R (rest ++ [current k]) b) as (k1 & E & Hsw); [done..|].
  destruct Hsw as [(bR & HbR & Ht & _) Hc1 ? ? ? _ _ HQ1 Ho1 _].
  assert (forall t, alive k1 t <-> alive k t) as HT.
  { intros t. unfold alive. rewrite Ht, !lookup_insert. assert (alive k R) by (eapply (q_in _ _ _ HQ); [done|by left]).
    unfold alive in *. repeat case_decide; subst; split; intros; first [assumption | by eexists]. }
  exists k1. split_and!; try done. split; try done.
  - eapply queues_ext; [|exact HQ1]. intros t. by rewrite HT.
  - unfold rl. apply lookup_insert_eq.
  - exists (set_status THREAD_TASK_RUNNING bR). split; [rewrite Ht; apply lookup_insert_eq|done].
  - intros t Ha. by apply H0, HT.
  - rewrite length_app. simpl in *. lia.
Qed.
End sleeping.

(** ** A drive

    The registers of a channel at port [b], and the two disks on it as the
    ATA standard has them read and written through the data port: a command is
    followed by one block of 512 bytes for each of its sectors, and each block
    read, or stored, comes with a request of its own.  [finish] is what the
    drive does by itself after a time in which its status is busy. *)
Inductive phase :=
| Idle
| Fetching (d lba n : Z)
| Sending (l : list Z) (d lba n : Z)
| Preparing (d lba n : Z)
| Taking (l : list Z) (d lba n : Z)
| Storing (l : list Z) (d lba n : Z).
Record ata := Ata {
  platters : Z -> Z -> list Z;          (* disk, sector *)
  r_cnt : Z; r_l : Z; r_m : Z; r_h : Z; r_dev : Z;
  ph : phase }.
Definition set_phase p (a : ata) : ata := Ata (platters a) (r_cnt a) (r_l a) (r_m a) (r_h a) (r_dev a) p.
Definition ata_lba (a : ata) : Z := r_l a + 256 * r_m a + 65536 * r_h a + 16777216 * Z.land (r_dev a) 15.
Definition ata_drive (a : ata) : Z := Z.b2z (Z.testbit (r_dev a) 4).
Definition ata_count (a : ata) : Z := if r_cnt a =? 0 then 256 else r_cnt a.
Definition ata_status (a : ata) : Z :=
  match ph a with
  | Idle => 0x40
  | Sending _ _ _ _ | Taking _ _ _ _ => 0x48
  | _ => 0x80
  end.
Definition next_block (d lba n : Z) (p : Z -> Z -> Z -> phase) : phase :=
  if n >? 1 then p d (lba + 1) (n - 1) else Idle.
Definition ata_out (b p v : Z) (a : ata) : ata :=
  if p =? b + 2 then Ata (platters a) v (r_l a) (r_m a) (r_h a) (r_dev a) (ph a)
  else if p =? b + 3 then Ata (platters a) (r_cnt a) v (r_m a) (r_h a) (r_dev a) (ph a)
  else if p =? b + 4 then Ata (platters a) (r_cnt a) (r_l a) v (r_h a) (r_dev a) (ph a)
  else if p =? b + 5 then Ata (platters a) (r_cnt a) (r_l a) (r_m a) v (r_dev a) (ph a)
  else if p =? b + 6 then Ata (platters a) (r_cnt a) (r_l a) (r_m a) (r_h a) v (ph a)
  else if p =? b + 7 then
    set_phase (if v =? 0x20 then Fetching (ata_drive a) (ata_lba a) (ata_count a)
               else if v =? 0x30 then Preparing (ata_drive a) (ata_lba a) (ata_count a) else Idle) a
  else a.
Definition ata_word_in (b p : Z) (a : ata) : Z * ata :=
  match ph a with
  | Sending (x :: y :: l) d lba n =>
      if p =? b then (x + 256 * y, set_phase (match l with [] => next_block d lba n Fetching | _ => Sending l d lba n end) a)
      else (0, a)
  | _ => (0, a)
  end.
Definition ata_word_out (b p w : Z) (a : ata) : ata :=
  match ph a with
  | Taking l d lba n =>
      if p =? b then
        let l := l ++ [w mod 256; w / 256] in
        set_phase (if (length l =? 512)%nat then Storing l d lba n else Taking l d lba n) a
      else a
  | _ => a
  end.
#[local] Instance ata_machine (b : Z) : Machine := {|
  device := ata;
  port_in p a := (if p =? b + 7 then ata_status a else 0, a);
  port_out := ata_out b |}.
#[local] Instance ata_words (b : Z) : WordPorts (ata_machine b) :=
  Build_WordPorts (ata_machine b) (ata_word_in b) (ata_word_out b).

Definition write_sector (d lba : Z) (l : list Z) (D : Z -> Z -> list Z) : Z -> Z -> list Z :=
  fun d' a => if (d' =? d) && (a =? lba) then l else D d' a.
Definition finish (a : ata) : ata :=
  match ph a with
  | Fetching d lba n => set_phase (Sending (platters a d lba) d lba n) a
  | Preparing d lba n => set_phase (Taking [] d lba n) a
  | Storing l d lba n =>
      set_phase (next_block d lba n (Taking [])) (Ata (write_sector d lba l (platters a)) (r_cnt a) (r_l a) (r_m a) (r_h a) (r_dev a) Idle)
  | _ => a
  end.
Definition raises (a : ata) : bool :=
  match ph a with Fetching _ _ _ | Storing _ _ _ _ => true | _ => false end.
(** The ports of the two channels. *)
Definition base (c : Z) : Z := if c =? 0 then 0x1f0 else 0x170.

Lemma split_lba lba : 0 <= lba -> u8 lba + 256 * u8 (Z.shiftr lba 8) + 65536 * u8 (Z.shiftr lba 16) + 16777216 * (lba / 2 ^ 24) = lba.
Proof.
  intros. unfold u8. rewrite !Z.shiftr_div_pow2 by lia. change (2 ^ 8) with 256. change (2 ^ 16) with 65536.
  change (2 ^ 24) with 16777216. Z.div_mod_to_equations. lia.
Qed.
Lemma eqb_add b i j : (b + i =? b + j) = (i =? j).
Proof. destruct (Z.eqb_spec i j); [subst; apply Z.eqb_refl|]. apply Z.eqb_neq. lia. Qed.
Lemma ata_out_at b i v a : ata_out b (b + i) v a = ata_out 0 i v a.
Proof. unfold ata_out. by rewrite !eqb_add. Qed.

Lemma u32_step a n : u32 (u32 (a + 1) + n) = u32 (a + (n + 1)).
Proof. unfold u32. rewrite Zplus_mod_idemp_l. f_equal. lia. Qed.
Lemma store_app l1 : forall a l2 r, store a (l1 ++ l2) r =
  store (if (length l1 =? 0)%nat then a else u32 (a + Z.of_nat (length l1))) l2 (store a l1 r).
Proof.
  induction l1 as [|v l1 IH]; intros a l2 r; [done|]. cbn [app store length]. rewrite IH. f_equal.
  destruct l1 as [|w l1]; [done|]. cbn [length Nat.eqb]. rewrite u32_step. f_equal. lia.
Qed.
Lemma load_app (r : Z -> Z) n1 n2 : forall a, load r a (Datatypes.S n1 + n2) = load r a (Datatypes.S n1) ++ load r (u32 (a + Z.of_nat (Datatypes.S n1))) n2.
Proof.
  induction n1 as [|n1 IH]; intros a; [done|].
  change (load r a (Datatypes.S (Datatypes.S n1) + n2)) with (r a :: load r (u32 (a + 1)) (Datatypes.S n1 + n2)).
  rewrite IH, u32_step. by replace (Z.of_nat (Datatypes.S n1) + 1) with (Z.of_nat (Datatypes.S (Datatypes.S n1))) by lia.
Qed.
Lemma load_length (r : Z -> Z) n : forall a, length (load r a n) = n.
Proof. induction n; intros a; simpl; auto. Qed.

(** ** What happens while a call is paused *)
Inductive order := Early | Late.
Section driver.
Context {G : Globals} {I : IdeGlobals}.
Variables (fuel : nat) (c : Z).
#[local] Instance channel_machine : Machine := ata_machine (base c).
#[local] Instance channel_words : WordPorts channel_machine := ata_words (base c).
Variable action : nat -> Z -> Z.

(** The drive is done, and requests an interrupt where that belongs to it. *)
Definition drive_acts : M ide unit :=
  a <- gets idev ;;
  modify (set_idev (finish a)) ;;;
  when raises a do
    (old <- to_kern (gets intr) ;;
     to_kern (modify (set_intr false)) ;;;
     intr_hd_handler fuel action (0x2e + c) ;;;
     to_kern (modify (set_intr old))).
(** While the thread sleeps, another one runs with interrupts on, the drive's
    request comes, and at last the clock gives the processor away. *)
Definition others_run : M ide unit :=
  to_kern (modify (set_intr true)) ;;;
  drive_acts ;;;
  to_kern (modify (set_intr false)) ;;;
  to_kern (schedule fuel).
(** What happens where the request can come, and while the thread sleeps. *)
Definition at_once (o : order) : M ide unit := match o with Early => drive_acts | Late => ret tt end.
Definition asleep (o : order) : list (M ide unit) := match o with Early => [] | Late => [others_run] end.
Definition read_events (os : list order) : list (M ide unit) := flat_map (fun o => at_once o :: asleep o) os.
Definition write_events (os : list order) : list (M ide unit) := flat_map (fun o => drive_acts :: at_once o :: asleep o) os.
(** ** The driver at rest *)
Variables (rounds : nat) (dv : Z).
Notation hd := (c, dv).
Implicit Types (s : ide) (k : kern) (a : ata) (Q : queue_map) (o : order).

(** The channel [c], whose ports are those of the drive, and its disk [dv]. *)
Record channel_ok (e : bool) s ch : Prop := {
  co_at : channels s !! Z.to_nat c = Some ch;
  co_base : port_base ch = base c;
  co_irq : irq_no ch = 0x2e + c;
  co_expecting : expecting_intr ch = e;
  co_disk : exists h, hd_devices ch !! Z.to_nat dv = Some h /\ my_channel h = c /\ dev_no h = dv
}.
(** The thread [R] runs and [m] others are ready; nobody waits for the disk. *)
Definition threads_ok (R : Z) (m : nat) k : Prop :=
  exists Q rq, runs_ok fuel k R Q rq /\ length rq = m /\
    Q !! waiting_queue (channel_lock c) = Some [] /\ Q !! waiting_queue (disk_done c) = Some [].
(** The lock of the channel is [l] and its semaphore is down. *)
Definition locks_ok (l : lock) k : Prop :=
  locks k !! channel_lock c = Some l /\ (exists h r, locks k !! disk_done c = Some (Lock h 0 r)).
(** A time slice for the others is possible when there are others. *)
Definition allowed (m : nat) o : Prop := match o with Early => True | Late => (0 < m)%nat end.

Hypothesis Hc : c = 0 \/ c = 1.
Hypothesis Hdv : dv = 0 \/ dv = 1.

Lemma base_range : 0 <= base c /\ base c + 7 < 0x3F6 /\ 0xa0 < base c.
Proof using Hc. unfold base. destruct Hc as [-> | ->]; simpl; lia. Qed.

Section steps.
Context (e : bool) (s : ide) (ch : ide_channel) (H : channel_ok e s ch).
Lemma channel_at_now : channel_at c s = Ok (ch, s).
Proof using H Hc. unfold channel_at. rewrite (co_at _ _ _ H). by replace (0 <=? c) with true by lia. Qed.
Lemma upd_channel_now f : upd_channel c f s = Ok (tt, set_channels (<[Z.to_nat c := f ch]> (channels s)) s).
Proof using H Hc. unfold upd_channel. run channel_at_now. done. Qed.
Lemma disk_at_now : exists h, disk_at hd s = Ok (h, s) /\ my_channel h = c /\ dev_no h = dv.
Proof using H Hc Hdv.
  destruct (co_disk _ _ _ H) as (h & Hh & Hm & Hd). exists h. split; [|done]. unfold disk_at. cbn [fst snd].
  run channel_at_now. rewrite Hh. by replace (0 <=? dv) with true by lia.
Qed.
Lemma set_expecting_ok e' : channel_ok e' (set_channels (<[Z.to_nat c := set_expecting e' ch]> (channels s)) s) (set_expecting e' ch).
Proof using H. destruct H as [Ha Hb Hi He Hd]. split; try done. cbn. rewrite list_lookup_insert_eq; [done|]. by eapply lookup_lt_Some. Qed.
End steps.
Lemma channel_ok_ext e s s' ch : channel_ok e s ch -> channels s' = channels s -> channel_ok e s' ch.
Proof. intros [] E. split; try done. by rewrite E. Qed.

Lemma runs_on_channel e s ch : channel_ok e s ch -> runs (on_channel hd) [] s c s.
Proof using Hc Hdv.
  intros H. destruct (disk_at_now e s ch H) as (h & E & Hm & _). unfold on_channel.
  eapply runs_step; [exact E|]. rewrite Hm. apply runs_done.
Qed.
Lemma to_kern_now {A} (m : M kern A) s (x : A) k : m (ikern s) = Ok (x, k) -> to_kern m s = Ok (x, set_ikern k s).
Proof. intros E. unfold to_kern, zoom. cbn. by rewrite E. Qed.

(** ** The registers *)
Lemma u16_base i : 0 <= i <= 7 -> u16 (base c + i) = base c + i.
Proof using Hc. intros. pose proof base_range. apply u16_small. lia. Qed.
Lemma outb_at s ch i v : port_base ch = base c -> 0 <= i <= 7 ->
  outb (port_base ch + i) v s = Ok (tt, set_idev (ata_out 0 i (u8 v) (idev s)) s).
Proof using Hc. intros -> Hi. unfold outb, modify. rewrite u16_base by done. cbn. by rewrite ata_out_at. Qed.
Lemma inb_status s ch : port_base ch = base c -> inb (reg_status ch) s = Ok (ata_status (idev s), s).
Proof using Hc.
  intros E. assert (port_in (u16 (reg_status ch)) (devices s) = (ata_status (idev s), idev s)) as Ep.
  { unfold reg_status. rewrite E, u16_base by lia. cbn. by rewrite Z.eqb_refl. }
  rewrite (inb_ok _ _ _ _ Ep). destruct s as [? ? ? ? ? ? ? a]. cbn. do 2 f_equal. unfold ata_status. by destruct (ph a).
Qed.
(** Ports of other devices. *)
Lemma outb_elsewhere s p v : 0 <= p -> p < base c \/ base c + 7 < p -> p < 65536 -> outb p v s = Ok (tt, s).
Proof using.
  intros. unfold outb, modify. rewrite u16_small by lia. cbn. unfold ata_out.
  rewrite !(proj2 (Z.eqb_neq p _)) by lia. by destruct s.
Qed.
Lemma inb_elsewhere s p : 0 <= p -> p < base c \/ base c + 7 < p -> p < 65536 -> inb p s = Ok (0, s).
Proof using.
  intros. unfold inb. rewrite u16_small by lia. cbn. rewrite (proj2 (Z.eqb_neq p _)) by lia. by destruct s.
Qed.

Definition same_drive a a' : Prop := platters a' = platters a /\ ph a' = ph a.
Lemma select_disk_ok e s ch : channel_ok e s ch ->
  exists a, select_disk hd s = Ok (tt, set_idev a s) /\ same_drive (idev s) a.
Proof using Hc Hdv.
  intros H. destruct (disk_at_now e s ch H) as (h & Eh & Hm & Hd). unfold select_disk. run Eh. rewrite Hm.
  run (channel_at_now e s ch H). unfold reg_dev. rewrite (outb_at s ch 6) by (lia || apply H).
  eexists. split; [done|]. done.
Qed.
Lemma select_sector_ok e s ch lba : channel_ok e s ch -> 0 <= lba <= Ide.max_lba ->
  exists a, select_sector hd lba 1 s = Ok (tt, set_idev a s) /\ same_drive (idev s) a /\
    ata_lba a = lba /\ ata_drive a = dv /\ ata_count a = 1.
Proof using Hc Hdv.
  intros H Hl. destruct (disk_at_now e s ch H) as (h & Eh & Hm & Hd).
  unfold select_sector. pass by (apply Z.leb_le; lia). run Eh. rewrite Hm. run (channel_at_now e s ch H).
  unfold reg_sect_cnt, reg_lba_l, reg_lba_m, reg_lba_h, reg_dev.
  pose proof (co_base _ _ _ H) as Hb.
  do 4 (erewrite bind_ok by (apply outb_at; [exact Hb|lia])). rewrite (outb_at _ ch 6) by (exact Hb || lia).
  assert (lba < 2 ^ 24) as H24 by (assert (Ide.max_lba = 163839) as Em by done; change (2 ^ 24) with 16777216; lia).
  assert (Z.shiftr lba 24 = 0) as -> by (rewrite Z.shiftr_div_pow2 by lia; apply Z.div_small; lia).
  set (v := u8 (Z.lor (Z.lor (Z.lor BIT_DEV_MBS BIT_DEV_LBA) (if dev_no h =? 1 then BIT_DEV_DEV else 0)) 0)).
  assert (Z.testbit v 4 = (dv =? 1) /\ Z.land v 15 = 0) as [Ht Hn] by (unfold v; rewrite Hd; by destruct (dv =? 1)).
  clearbody v. eexists. split; [reflexivity|]. split; [done|]. split_and!.
  - change (u8 lba + 256 * u8 (Z.shiftr lba 8) + 65536 * u8 (Z.shiftr lba 16) + 16777216 * Z.land v 15 = lba).
    pose proof (split_lba lba ltac:(lia)) as Hs. rewrite (Z.div_small lba) in Hs by lia. lia.
  - change (Z.b2z (Z.testbit v 4) = dv). rewrite Ht. destruct Hdv as [-> | ->]; done.
  - done.
Qed.

(** The heads of the lists are different words. *)
Definition heads_apart : Prop :=
  waiting_queue (channel_lock c) <> thread_ready_list /\ waiting_queue (disk_done c) <> thread_ready_list.
Hypothesis Hlists : heads_apart.

(** ** The request of the drive *)
Lemma handler_ok s ch k' : channel_ok true s ch -> g_softirq_pending (isoft s) = 0 ->
  semaphore_up fuel (disk_done c) (ikern s) = Ok (tt, k') ->
  intr_hd_handler fuel action (0x2e + c) s =
    Ok (tt, set_ikern k' (set_channels (<[Z.to_nat c := set_expecting false ch]> (channels s)) s)).
Proof using Hc.
  intros H Hsoft Hup. pose proof base_range as Hr. unfold intr_hd_handler.
  pass by (destruct Hc as [-> | ->]; done).
  replace (u8 (46 + c - 46)) with c by (destruct Hc as [-> | ->]; done).
  run (channel_at_now true s ch H). run (inb_status s ch (co_base _ _ _ H)). pass by (rewrite (co_irq _ _ _ H); apply Z.eqb_refl).
  rewrite (co_expecting _ _ _ H). run (upd_channel_now true s ch H (set_expecting false)).
  set (s1 := set_channels _ s). run (to_kern_now (semaphore_up fuel (disk_done c)) s1 tt k' Hup).
  set (s2 := set_ikern k' s1). assert (ack (46 + c) s2 = Ok (tt, s2)) as Ea.
  { unfold ack. rewrite (proj2 (Z.gtb_lt _ _)) by lia. run (outb_elsewhere s2 0xa0 0x20 ltac:(lia) ltac:(lia) ltac:(lia)).
    apply outb_elsewhere; lia. }
  run Ea. unfold zoom, irq_exit. rewrite get_bind. replace (g_softirq_pending (isoft s2)) with 0 by done.
  rewrite Z.eqb_refl. cbn. by destruct s.
Qed.

(** The state after the request, with the kernel at [k']. *)
Definition requested s ch k' : ide :=
  set_ikern (set_intr (intr (ikern s)) k')
    (set_channels (<[Z.to_nat c := set_expecting false ch]> (channels s)) (set_idev (finish (idev s)) s)).
Lemma drive_acts_ok s ch k' : channel_ok true s ch -> g_softirq_pending (isoft s) = 0 -> raises (idev s) = true ->
  semaphore_up fuel (disk_done c) (set_intr false (ikern s)) = Ok (tt, k') ->
  drive_acts s = Ok (tt, requested s ch k').
Proof using Hc.
  intros H Hsoft Hr Hup. unfold drive_acts. rewrite gets_bind, modify_bind, Hr.
  set (s0 := set_idev _ s). run (to_kern_now (gets intr) s0 _ _ eq_refl).
  replace (set_ikern (ikern s0) s0) with s0 by by destruct s.
  run (to_kern_now (modify (set_intr false)) s0 _ _ eq_refl).
  set (s1 := set_ikern _ s0).
  run (handler_ok s1 ch k' (channel_ok_ext _ s s1 ch H eq_refl) Hsoft Hup).
  unfold to_kern, zoom, modify. cbn. reflexivity.
Qed.
(** A drive that only gets ready for data says nothing. *)
Lemma drive_acts_silent s : raises (idev s) = false -> drive_acts s = Ok (tt, set_idev (finish (idev s)) s).
Proof using. intros Hr. unfold drive_acts. by rewrite gets_bind, modify_bind, Hr. Qed.
Lemma requested_channel s ch k' : channel_ok true s ch -> channel_ok false (requested s ch k') (set_expecting false ch).
Proof using. intros H. eapply channel_ok_ext; [by apply (set_expecting_ok true)|done]. Qed.

(** ** Waiting for the drive *)
Lemma threads_null R m k : threads_ok R m k -> current k = R /\ R <> 0.
Proof using. intros (Q & rq & [? ? Hcur (b & Hb & _) ? H0 ?] & _). split; [done|]. apply H0. by eexists. Qed.
Lemma threads_set_locks R m k v : threads_ok R m k -> threads_ok R m (set_locks v k).
Proof using. intros (Q & rq & H & ? & ? & ?). exists Q, rq. split_and!; try done. by apply runs_ok_locks. Qed.
Lemma threads_intr R m k v : threads_ok R m k -> threads_ok R m (set_intr v k).
Proof using. intros (Q & rq & H & ? & ? & ?). exists Q, rq. split_and!; try done. by apply runs_ok_intr. Qed.

(** The driver between two commands, or with one given ([e]); the channel's
    lock is [l], the thread [R] runs and [m] others are ready. *)
Record ide_ok (e : bool) (l : lock) (R : Z) (m : nat) s : Prop := {
  io_channel : exists ch, channel_ok e s ch;
  io_threads : threads_ok R m (ikern s);
  io_locks : locks_ok l (ikern s);
  io_soft : g_softirq_pending (isoft s) = 0
}.
Lemma sleeps_intr v k R n w Q rest : sleeps k R n w Q rest -> sleeps (set_intr v k) R n w Q rest.
Proof using. intros []. by split. Qed.
Lemma runs_await es s s' e ch : channel_ok e s ch ->
  runs (semaphore_down fuel rounds (disk_done c)) es s tt s' -> runs (await_disk fuel rounds hd) es s tt s'.
Proof using Hc Hdv. intros H Hr. unfold await_disk. eapply (runs_bind _ _ [] es); [by eapply runs_on_channel|done]. Qed.
(** [s'] differs from [s] in the drive, which finished what it did, and in
    what does not matter. *)
Record awaited (l : lock) (R : Z) (m : nat) s s' : Prop := {
  aw_ok : ide_ok false l R m s';
  aw_dev : idev s' = finish (idev s);
  aw_ram : ram s' = ram s;
  aw_intr : intr (ikern s') = intr (ikern s)
}.

Lemma wait_early l R m s : (0 < rounds)%nat ->
  ide_ok true l R m s -> raises (idev s) = true ->
  exists s1 s2, drive_acts s = Ok (tt, s1) /\ runs (await_disk fuel rounds hd) [] s1 tt s2 /\ awaited l R m s s2.
Proof using Hc Hdv.
  intros Hn [[ch H] Hth [Hl (h & r & Hs)] Hsoft] Hr. set (k := ikern s) in *.
  set (k1 := with_lock (disk_done c) (Lock h 1 r) (set_intr false k)).
  assert (semaphore_up fuel (disk_done c) (set_intr false k) = Ok (tt, k1)) as Hup.
  { apply semaphore_up_now; [done|]. destruct Hth as (Q & rq & Hro & _ & _ & Hw). apply (q_dll _ _ _ (ro_queues _ _ _ _ _ Hro) _ _ Hw). }
  set (s1 := requested s ch k1).
  set (s2 := set_ikern (with_lock (disk_done c) (Lock h 0 r) (ikern s1)) s1).
  exists s1, s2. split_and!; [by apply drive_acts_ok| |].
  - eapply runs_await; [by apply requested_channel|]. apply (runs_semaphore_down (HK:=ide_kern) fuel rounds Hn (disk_done c) s1 h r).
    cbn. apply lookup_insert_eq.
  - assert (ikern s2 = k) as Ek.
    { unfold s2, s1, k1, requested. cbn. unfold with_lock, set_locks, set_intr. cbn. rewrite insert_insert_eq, insert_id by done. fold k. clearbody k. by destruct k. }
    split; [split| | |]; try done.
    + exists (set_expecting false ch). eapply channel_ok_ext; [by apply (requested_channel s ch k1)|done].
    + by rewrite Ek.
    + rewrite Ek. split; [done|by exists h, r].
Qed.

(** What [others_run] does to the kernel while [R] sleeps. *)
Lemma others_wake R m s ch l h r n Q rest :
  channel_ok true s ch -> g_softirq_pending (isoft s) = 0 -> raises (idev s) = true ->
  sleeps (ikern s) R n (waiting_queue (disk_done c)) Q rest -> locks (ikern s) !! channel_lock c = Some l ->
  locks (ikern s) !! disk_done c = Some (Lock h 0 r) -> is_Some (Q !! thread_ready_list) ->
  Q !! waiting_queue (channel_lock c) = Some [] -> Q !! waiting_queue (disk_done c) = Some [] ->
  S (length rest) = m -> (m < fuel)%nat ->
  exists s', others_run s = Ok (tt, s') /\ channel_ok false s' (set_expecting false ch) /\ threads_ok R m (ikern s') /\
    locks (ikern s') = <[disk_done c := Lock h 1 r]> (locks (ikern s)) /\
    idev s' = finish (idev s) /\ ram s' = ram s /\ isoft s' = isoft s.
Proof using Hc Hlists.
  intros H Hsoft Hr Hsl Hl Hs HQ Hw1 Hw2 Hm Hf. destruct Hlists as [Ha1 Ha2]. set (k := ikern s) in *.
  set (s0 := set_ikern (set_intr true k) s).
  destruct (up_wakes fuel (set_intr false (set_intr true k)) R n (disk_done c) Q rest h r) as (k2 & Q2 & Eup & Hl2 & Hi2 & Hro & _ & HQ2);
    [by apply sleeps_intr, sleeps_intr|done|done|done|done|lia|].
  set (s2 := requested s0 ch k2).
  destruct (gives_up fuel (set_intr false (set_intr true k2)) n Q2 R rest) as (k3 & E3 & Hro3 & Hl3 & _ & _).
  { by apply runs_ok_intr, runs_ok_intr. }
  exists (set_ikern k3 s2). split_and!; try done.
  - unfold others_run. run (to_kern_now (modify (set_intr true)) s _ _ eq_refl). fold k. fold s0.
    run (drive_acts_ok s0 ch k2 (channel_ok_ext _ s s0 ch H eq_refl) Hsoft Hr Eup). fold s2.
    run (to_kern_now (modify (set_intr false)) s2 _ _ eq_refl).
    set (s3 := set_ikern (set_intr false (ikern s2)) s2).
    rewrite (to_kern_now (schedule fuel) s3 tt k3); [by destruct s|]. exact E3.
  - eapply channel_ok_ext; [by apply (requested_channel s ch k2)|done].
  - exists (<[thread_ready_list := rest ++ [n]]> Q2), (rest ++ [n]). split_and!; [exact Hro3| | |].
    + rewrite length_app. simpl. lia.
    + rewrite lookup_insert_ne by done. by rewrite HQ2.
    + rewrite lookup_insert_ne by done. by rewrite HQ2.
  - cbn. rewrite Hl3. exact Hl2.
Qed.

Lemma wait_late l R m s : (1 < rounds)%nat -> (0 < m)%nat ->
  ide_ok true l R m s -> raises (idev s) = true ->
  exists s2, runs (await_disk fuel rounds hd) [others_run] s tt s2 /\ awaited l R m s s2.
Proof using Hc Hdv Hlists.
  intros Hn Hm [[ch H] (Q & rq & Hro & Hrq & Hw1 & Hw2) [Hl (h & r & Hs)] Hsoft] Hr. destruct rq as [|n rest]; simpl in Hrq; [lia|].
  set (k := ikern s) in *. set (s0 := set_ikern (set_intr false k) s).
  destruct (down_sleeps fuel (set_intr false k) R Q n rest (disk_done c) h r) as (k1 & E1 & Hsl & Hl1 & _);
    [by apply runs_ok_intr|done|done|by apply Hlists|].
  set (s1 := set_ikern k1 s0).
  destruct (others_wake R m s1 ch l h r n Q rest) as (s2 & E2 & Hch2 & (Q2 & rq2 & Hro2 & Hrq2 & Hw3 & Hw4) & Hl2 & Hd2 & Hr2 & Hs2);
    [by eapply channel_ok_ext|done|done|done|by unfold s1; cbn; rewrite Hl1|by unfold s1; cbn; rewrite Hl1
    |eexists; exact (ro_ready _ _ _ _ _ Hro)|done|done|done| |].
  { pose proof (ro_fuel _ _ _ _ _ Hro) as Hf. simpl in Hf. lia. }
  set (k3 := set_intr (intr k) (with_lock (disk_done c) (Lock h 0 r) (set_intr false (ikern s2)))).
  assert (locks k3 = locks k) as Elk.
  { unfold k3. cbn. rewrite Hl2. unfold s1. cbn. rewrite Hl1. cbn. rewrite insert_insert_eq. by apply insert_id. }
  exists (set_ikern k3 s2). split.
  - eapply runs_await; [exact H|]. unfold semaphore_down.
    eapply (runs_kern_step (HK:=ide_kern)); [apply intr_disable_now|]. fold k. change (set_kernel (set_intr false k) s) with s0.
    destruct rounds as [|n']; [lia|]. cbn [down_loop].
    eapply (runs_bind _ _ [others_run] []); [|].
    { eapply (runs_kern_step (HK:=ide_kern)); [exact E1|]. change (set_kernel k1 s0) with s1.
      eapply (runs_bind _ _ [others_run] []); [apply runs_pause, E2|].
      eapply (runs_kern_step (HK:=ide_kern)); [apply intr_set_now|].
      apply (runs_down_loop (HK:=ide_kern) fuel n' ltac:(lia) (disk_done c) _ h r).
      cbn. rewrite Hl2. apply lookup_insert_eq. }
    eapply (runs_kern_step (HK:=ide_kern)); [apply intr_set_now|]. rewrite kernel_set, !set_kernel_twice.
    apply runs_done.
  - split; try done. change (ikern (set_ikern k3 s2)) with k3. split.
    + exists (set_expecting false ch). by eapply channel_ok_ext.
    + change (ikern (set_ikern k3 s2)) with k3. apply threads_intr, threads_set_locks, threads_intr. exists Q2, rq2. by split_and!.
    + change (ikern (set_ikern k3 s2)) with k3. unfold locks_ok. rewrite Elk. split; [done|by exists h, r].
    + change (isoft (set_ikern k3 s2)) with (isoft s2). by rewrite Hs2.
Qed.

(** The request of the drive comes while the thread still runs, or while it
    sleeps: the thread goes on either way. *)
Lemma await_ok o l R m s : (1 < rounds)%nat -> allowed m o ->
  ide_ok true l R m s -> raises (idev s) = true ->
  exists s1 s2, at_once o s = Ok (tt, s1) /\ runs (await_disk fuel rounds hd) (asleep o) s1 tt s2 /\ awaited l R m s s2.
Proof using Hc Hdv Hlists.
  intros Hn Ho H Hr. destruct o; [apply wait_early; (done || lia)|].
  destruct (wait_late l R m s Hn Ho H Hr) as (s2 & ? & ?). by exists s, s2.
Qed.

(** ** The pieces of a transfer *)
(** Memory and the interrupt flag are left alone. *)
Definition quiet s s' : Prop := ram s' = ram s /\ intr (ikern s') = intr (ikern s).

Lemma set_lock_ok e l l' R m s : ide_ok e l R m s ->
  ide_ok e l' R m (set_ikern (with_lock (channel_lock c) l' (ikern s)) s).
Proof using.
  intros [[ch H] Hth [Hl (h & r & Hs)] Hsoft]. split; try done.
  - exists ch. by eapply channel_ok_ext.
  - by apply threads_set_locks.
  - split; [apply with_lock_locks|]. exists h, r. cbn. rewrite lookup_insert_ne; [done|]. unfold channel_lock, disk_done. lia.
Qed.
Lemma lock_ok e R m s : (0 < rounds)%nat -> ide_ok e free_lock R m s ->
  let s' := set_ikern (with_lock (channel_lock c) (held_by R) (ikern s)) s in
  runs (lock_channel fuel rounds hd) [] s tt s' /\ ide_ok e (held_by R) R m s'.
Proof using Hc Hdv.
  intros Hn Hok s'. split; [|by apply (set_lock_ok _ free_lock)]. destruct Hok as [[ch H] Hth [Hl _] _].
  destruct (threads_null _ _ _ Hth) as [Hcur H0]. unfold lock_channel.
  eapply (runs_bind _ _ [] []); [by eapply runs_on_channel|]. unfold s'. rewrite <-Hcur.
  apply (runs_lock_fetch (HK:=ide_kern) fuel rounds Hn); [exact Hl|]. change (kernel s) with (ikern s). by rewrite Hcur.
Qed.
Lemma unlock_ok e R m s : ide_ok e (held_by R) R m s ->
  let s' := set_ikern (with_lock (channel_lock c) free_lock (ikern s)) s in
  runs (unlock_channel fuel hd) [] s tt s' /\ ide_ok e free_lock R m s'.
Proof using Hc Hdv.
  intros Hok s'. split; [|by apply (set_lock_ok _ (held_by R))]. destruct Hok as [[ch H] (Q & rq & Hro & _ & Hw & _) [Hl _] _].
  unfold unlock_channel. eapply (runs_bind _ _ [] []); [by eapply runs_on_channel|].
  apply (runs_kern (HK:=ide_kern)). eapply lock_release_now; [exact Hl|].
  apply (q_dll _ _ _ (ro_queues _ _ _ _ _ Hro) _ _ Hw).
Qed.

Lemma command_ok cmd l R m s : ide_ok false l R m s -> 0 <= cmd < 256 ->
  exists s1, (forall w s2, w s1 = Ok (tt, s2) -> runs (command hd cmd) [w] s tt s2) /\
    ide_ok true l R m s1 /\ idev s1 = ata_out 0 7 cmd (idev s) /\ quiet s s1.
Proof using Hc Hdv.
  intros [[ch H] Hth Hl Hsoft] Hcmd. set (sa := set_channels (<[Z.to_nat c := set_expecting true ch]> (channels s)) s).
  pose proof (set_expecting_ok false s ch H true) as Ha. fold sa in Ha.
  exists (@set_idev channel_machine (ata_out 0 7 cmd (idev sa)) sa). split_and!; try done.
  - intros w s2 Hw. unfold command. eapply (runs_bind _ _ [] [w]); [by eapply runs_on_channel|]. unfold cmd_out.
    eapply runs_step; [by apply (upd_channel_now false s ch H)|]. fold sa.
    eapply runs_step; [by apply (channel_at_now true)|].
    eapply runs_step; [unfold reg_cmd, reg_status; apply outb_at; [apply Ha|lia]|]. rewrite u8_small by lia. by apply runs_pause.
  - split; try done. exists (set_expecting true ch). by eapply channel_ok_ext.
Qed.

Lemma busy_wait_ok e l R m s : ide_ok e l R m s -> Z.land (ata_status (idev s)) ATA_STATR_BSY = 0 ->
  runs (busy_wait fuel rounds hd) [] s (negb (Z.land (ata_status (idev s)) ATA_STATR_DRQ =? 0)) s.
Proof using Hc Hdv.
  intros [[ch H] _ _ _] Hb. destruct (disk_at_now e s ch H) as (h & Eh & Hm & _). unfold busy_wait.
  eapply runs_step; [exact Eh|]. rewrite Hm. eapply runs_step; [by apply (channel_at_now e)|].
  replace (Z.to_nat (30 * 1000)) with (Datatypes.S (Z.to_nat 29999)) by (rewrite <-Z2Nat.inj_succ by lia; done).
  cbn [busy_loop]. change (u16 (30 * 1000 - Z.b2z (10 >=? 0)) =? 0) with false. cbn [negb].
  eapply runs_step; [apply (inb_status s ch), H|]. rewrite Hb. cbn iota. change (0 =? 0) with true. cbn iota.
  eapply runs_step; [apply (inb_status s ch), H|]. apply runs_done.
Qed.

Definition bytes (l : list Z) : Prop := Forall (fun v => 0 <= v < 256) l.
Lemma store1_u8 (p : Z) v w r : u8 v = u8 w -> store1 p v r = store1 p w r.
Proof using. intros E. unfold store1. by rewrite E. Qed.
Lemma word_bytes x y : 0 <= x < 256 -> 0 <= y < 256 -> u8 (x + 256 * y) = u8 x /\ u8 (Z.shiftr (x + 256 * y) 8) = u8 y.
Proof using.
  clear. intros. rewrite Z.shiftr_div_pow2 by lia. unfold u8. change (2 ^ 8) with 256. Z.div_mod_to_equations. lia.
Qed.
Lemma insw_ok s d lba n : forall (k : nat) (l : list Z) (addr : Z) dev (rm : Z -> Z), ph dev = Sending l d lba n -> (length l = 2 * Datatypes.S k)%nat -> bytes l ->
  insw (base c + 0) addr (Datatypes.S k) (set_ram rm (@set_idev channel_machine dev s)) =
    Ok (tt, set_ram (store addr l rm) (@set_idev channel_machine (set_phase (next_block d lba n Fetching) dev) s)).
Proof using Hc.
  induction k as [|k IH]; intros [|x [|y l]] addr dev rm Hp Hl Hb; simpl in Hl; try lia.
  all: apply list.Forall_cons in Hb as [Hx Hb]; apply list.Forall_cons in Hb as [Hy Hb].
  all: destruct (word_bytes x y Hx Hy) as [E1 E2].
  all: assert (ata_word_in (base c) (u16 (base c + 0)) dev =
    (x + 256 * y, set_phase (match l with [] => next_block d lba n Fetching | _ => Sending l d lba n end) dev)) as E
    by (rewrite u16_base by lia; rewrite Z.add_0_r; unfold ata_word_in; rewrite Hp, Z.eqb_refl; done).
  - destruct l; [|simpl in Hl; lia]. cbn [insw]. unfold bind. cbn -[u16 u8 u32 Z.add Z.shiftr Z.mul store1 ata_word_in].
    rewrite E. cbn -[u16 u8 u32 Z.add Z.shiftr Z.mul store1 ata_word_in].
    by rewrite (store1_u8 _ _ _ _ E1), (store1_u8 _ _ _ _ E2).
  - destruct l as [|z l]; [simpl in Hl; lia|]. change (insw (base c + 0) addr (Datatypes.S (Datatypes.S k))) with
      ((fun s => let '(w, d) := ata_word_in (base c) (u16 (base c + 0)) (idev s) in
                Ok (tt, set_ram (store addr [w; Z.shiftr w 8] (ram s)) (set_idev d s))) ;;; insw (base c + 0) (u32 (addr + 2)) (Datatypes.S k)).
    rewrite (bind_ok _ _ _ tt (set_ram (store1 (u32 (addr + 1)) y (store1 addr x rm))
      (@set_idev channel_machine (set_phase (Sending (z :: l) d lba n) dev) s))).
    + rewrite (IH (z :: l)) by (simpl in *; (lia || done)). cbn [store].
      replace (u32 (u32 (addr + 1) + 1)) with (u32 (addr + 2)); [done|].
      unfold u32. rewrite Zplus_mod_idemp_l. f_equal. lia.
    + cbn -[u16 u8 u32 Z.add Z.shiftr Z.mul store1 ata_word_in]. rewrite E.
      by rewrite (store1_u8 _ _ _ _ E1), (store1_u8 _ _ _ _ E2).
Qed.

Lemma outsw_ok d lba n : forall (k : nat) (got : list Z) (addr : Z) dev s, idev s = dev -> ph dev = Taking got d lba n ->
  (length got + 2 * Datatypes.S k = 512)%nat -> (forall p, 0 <= ram s p < 256) ->
  outsw (base c + 0) addr (Datatypes.S k) s =
    Ok (tt, set_idev (set_phase (Storing (got ++ load (ram s) addr (2 * Datatypes.S k)) d lba n) dev) s).
Proof using Hc action rounds.
  induction k as [|k IH]; intros got addr dev s Hdev Hp Hl Hb.
  all: set (x := ram s addr); set (y := ram s (u32 (addr + 1))).
  all: assert (forall m, ata_word_out (base c) (u16 (base c + 0)) (x + 256 * y) (idev s) = set_phase m dev ->
    m = (if (length (got ++ [x; y]) =? 512)%nat then Storing (got ++ [x; y]) d lba n else Taking (got ++ [x; y]) d lba n) ->
    outsw (base c + 0) addr 1 s = Ok (tt, set_idev (set_phase m dev) s)) as Hone by
    (intros m E _; cbn -[u16 u32 Z.mul Z.add ata_word_out]; fold x y; by rewrite E).
  all: assert (ata_word_out (base c) (u16 (base c + 0)) (x + 256 * y) (idev s) =
    set_phase (if (length (got ++ [x; y]) =? 512)%nat then Storing (got ++ [x; y]) d lba n else Taking (got ++ [x; y]) d lba n) dev) as E
    by (rewrite u16_base by lia; rewrite Z.add_0_r; unfold ata_word_out; rewrite Hdev, Hp, Z.eqb_refl;
        assert (0 <= x < 256 /\ 0 <= y < 256) by (split; apply Hb); clearbody x y;
        replace ((x + 256 * y) mod 256) with x by (Z.div_mod_to_equations; lia);
        by replace ((x + 256 * y) / 256) with y by (Z.div_mod_to_equations; lia)).
  all: assert (length (got ++ [x; y]) = (length got + 2)%nat) as Hlen by by rewrite length_app.
  - rewrite Hlen, (proj2 (Nat.eqb_eq _ _)) in E by lia. rewrite (Hone _ E) by (rewrite Hlen, (proj2 (Nat.eqb_eq _ _)) by lia; done). done.
  - rewrite Hlen, (proj2 (Nat.eqb_neq _ _)) in E by lia.
    change (outsw (base c + 0) addr (Datatypes.S (Datatypes.S k)) s) with
      ((outsw (base c + 0) addr 1 ;;; outsw (base c + 0) (u32 (addr + 2)) (Datatypes.S k)) s).
    rewrite (bind_ok _ _ _ _ _ (Hone _ E ltac:(rewrite Hlen, (proj2 (Nat.eqb_neq _ _)) by lia; done))).
    erewrite (IH (got ++ [x; y])); [|reflexivity|reflexivity|lia|done].
    replace (2 * Datatypes.S (Datatypes.S k))%nat with (2 + 2 * Datatypes.S k)%nat by lia.
    change (load (ram s) addr (2 + 2 * Datatypes.S k)) with (x :: y :: load (ram s) (u32 (u32 (addr + 1) + 1)) (2 * Datatypes.S k)).
    replace (u32 (u32 (addr + 1) + 1)) with (u32 (addr + 2)) by (unfold u32; rewrite Zplus_mod_idemp_l; f_equal; lia).
    rewrite <-app_assoc. cbn [app]. done.
Qed.

Lemma ide_ok_ext e l R m s s' : ide_ok e l R m s ->
  channels s' = channels s -> ikern s' = ikern s -> isoft s' = isoft s -> ide_ok e l R m s'.
Proof using.
  intros [[ch H] Hth Hl Hs] E1 E2 E3. split; [exists ch; by eapply channel_ok_ext|by rewrite E2|by rewrite E2|by rewrite E3].
Qed.
Definition block (l : list Z) : Prop := length l = 512%nat /\ bytes l.

Lemma read_from_sector_ok e l R m s lba buf bs : ide_ok e l R m s ->
  ph (idev s) = Sending bs dv lba 1 -> block bs ->
  read_from_sector hd buf 1 s = Ok (tt, set_ram (store buf bs (ram s)) (@set_idev channel_machine (set_phase Idle (idev s)) s)).
Proof using Hc Hdv.
  intros [[ch H] _ _ _] Hp [Hl Hb]. destruct (disk_at_now e s ch H) as (h & Eh & Hm & _).
  unfold read_from_sector. run Eh. rewrite Hm. run (channel_at_now e s ch H).
  change (Z.to_nat (size_in_byte (u8 1) / 2)) with 256%nat. unfold reg_data. rewrite (co_base _ _ _ H).
  pose proof (insw_ok s dv lba 1 255 bs buf (idev s) (ram s) Hp Hl Hb) as E.
  replace (set_ram (ram s) (@set_idev channel_machine (idev s) s)) with s in E by by destruct s.
  rewrite (bind_ok _ _ _ _ _ E). change (next_block dv lba 1 Fetching) with Idle.
  set (s1 := set_ram _ _). pose proof base_range. assert (inb 0x3F6 s1 = Ok (0, s1)) as Ei by (apply inb_elsewhere; lia).
  do 4 run Ei. done.
Qed.
Lemma write_to_sector_ok e l R m s lba buf : ide_ok e l R m s ->
  ph (idev s) = Taking [] dv lba 1 -> (forall p, 0 <= ram s p < 256) ->
  write_to_sector hd buf 1 s =
    Ok (tt, @set_idev channel_machine (set_phase (Storing (load (ram s) buf 512) dv lba 1) (idev s)) s).
Proof using Hc Hdv action rounds.
  intros [[ch H] _ _ _] Hp Hb. destruct (disk_at_now e s ch H) as (h & Eh & Hm & _).
  unfold write_to_sector. run Eh. rewrite Hm. run (channel_at_now e s ch H).
  change (Z.to_nat (size_in_byte (u8 1) / 2)) with 256%nat. unfold reg_data. rewrite (co_base _ _ _ H).
  by rewrite (outsw_ok dv lba 1 255 [] buf (idev s) s eq_refl Hp eq_refl Hb).
Qed.

(** ** One sector *)
(** Nothing goes on: the driver is at rest and so is the drive, whose sectors are [D]. *)
Record at_rest (R : Z) (m : nat) (D : Z -> Z -> list Z) s : Prop := {
  ar_ok : ide_ok false free_lock R m s;
  ar_idle : ph (idev s) = Idle;
  ar_platters : platters (idev s) = D
}.

(** The start that both transfers share: the lock is taken, the sector is
    selected and the command [cmd] given, up to the place where the drive's
    request can come. *)
Lemma start_ok cmd R m D s lba (f : T ide unit) : (0 < rounds)%nat -> at_rest R m D s ->
  0 <= lba <= Ide.max_lba -> 0 <= cmd < 256 ->
  exists s1, (forall w s2 es s3, w s1 = Ok (tt, s2) -> runs f es s2 tt s3 ->
      runs (tbind (lock_channel fuel rounds hd) (fun _ => tbind (atom (select_disk hd)) (fun _ =>
        tbind (atom (select_sector hd lba 1)) (fun _ => tbind (command hd cmd) (fun _ => f))))) (w :: es) s tt s3) /\
    ide_ok true (held_by R) R m s1 /\ quiet s s1 /\ platters (idev s1) = D /\
    ph (idev s1) = (if cmd =? 0x20 then Fetching dv lba 1 else if cmd =? 0x30 then Preparing dv lba 1 else Idle).
Proof using Hc Hdv.
  intros Hn [Hok Hidle HD] Hlba Hcmd. destruct (lock_ok false R m s Hn Hok) as [El Hl]. set (s1 := set_ikern _ s) in *.
  destruct (io_channel _ _ _ _ _ Hl) as [ch Hch].
  destruct (select_disk_ok false s1 ch Hch) as (a2 & E2 & [Hp2 Hph2]). set (s2 := @set_idev channel_machine a2 s1) in *.
  destruct (select_sector_ok false s2 ch lba) as (a3 & E3 & [Hp3 Hph3] & Hlb & Hdr & Hcn); [by eapply channel_ok_ext|done|].
  set (s3 := @set_idev channel_machine a3 s2) in *.
  destruct (command_ok cmd (held_by R) R m s3) as (s4 & E4 & Hok4 & Hd4 & Hq4); [by eapply ide_ok_ext|done|].
  exists s4. split_and!.
  - intros w s5 es s6 Hw Hf. eapply (runs_bind _ _ [] (w :: es)); [exact El|].
    eapply runs_step; [exact E2|]. eapply runs_step; [exact E3|].
    eapply (runs_bind _ _ [w] es); [by apply E4|exact Hf].
  - done.
  - done.
  - rewrite Hd4. change (platters (idev s3) = D). change (platters a3 = D). rewrite Hp3. change (platters a2 = D). by rewrite Hp2.
  - rewrite Hd4. change (idev s3) with a3. change (ph (ata_out 0 7 cmd a3)) with
      (if cmd =? 32 then Fetching (ata_drive a3) (ata_lba a3) (ata_count a3)
       else if cmd =? 48 then Preparing (ata_drive a3) (ata_lba a3) (ata_count a3) else Idle).
    by rewrite Hlb, Hdr, Hcn.
Qed.

Lemma read_sector_ok o R m D s lba buf : (1 < rounds)%nat -> allowed m o -> at_rest R m D s ->
  0 <= lba <= Ide.max_lba -> block (D dv lba) ->
  exists s', runs (ide_read_sector fuel rounds hd lba buf) (at_once o :: asleep o) s tt s' /\
    at_rest R m D s' /\ ram s' = store buf (D dv lba) (ram s) /\ intr (ikern s') = intr (ikern s).
Proof using Hc Hdv Hlists.
  intros Hn Ho Hr Hlba Hbl. unfold ide_read_sector. set (rest := tbind (await_disk _ _ _) _).
  destruct (start_ok CMD_READ_SECTOR R m D s lba rest) as (s1 & E1 & Hok1 & [Hr1 Hi1] & HD1 & Hp1); [lia|done..|].
  change (if CMD_READ_SECTOR =? _ then _ else _) with (Fetching dv lba 1) in Hp1.
  destruct (await_ok o _ R m s1 Hn Ho Hok1) as (s2 & s3 & E2 & E3 & [Hok3 Hd3 Hr3 Hi3]); [by unfold raises; rewrite Hp1|].
  assert (ph (idev s3) = Sending (D dv lba) dv lba 1 /\ platters (idev s3) = D) as [Hp3 HD3].
  { rewrite Hd3. unfold finish. rewrite Hp1. cbn. by rewrite HD1. }
  set (s4 := set_ram (store buf (D dv lba) (ram s3)) (@set_idev channel_machine (set_phase Idle (idev s3)) s3)).
  destruct (unlock_ok false R m s4) as [E5 Hok5]; [by eapply ide_ok_ext|]. set (s5 := set_ikern _ s4) in *.
  exists s5. split_and!.
  - eapply E1; [exact E2|]. unfold rest.
    replace (asleep o) with (asleep o ++ []) by apply app_nil_r.
    eapply runs_bind; [exact E3|].
    eapply (runs_bind _ _ [] []). { eapply busy_wait_ok; [exact Hok3|]. unfold ata_status. by rewrite Hp3. }
    assert (negb (Z.land (ata_status (idev s3)) ATA_STATR_DRQ =? 0) = true) as -> by by (unfold ata_status; rewrite Hp3).
    cbn [negb]. eapply runs_step; [by eapply read_from_sector_ok|]. exact E5.
  - split; [exact Hok5|done|]. exact HD3.
  - change (ram s5) with (store buf (D dv lba) (ram s3)). by rewrite Hr3, Hr1.
  - change (intr (ikern s5)) with (intr (ikern s3)). by rewrite Hi3, Hi1.
Qed.

Lemma write_sector_ok o R m D s lba buf : (1 < rounds)%nat -> allowed m o -> at_rest R m D s ->
  0 <= lba <= Ide.max_lba -> (forall p, 0 <= ram s p < 256) ->
  exists s', runs (ide_write_sector fuel rounds hd lba buf) (drive_acts :: at_once o :: asleep o) s tt s' /\
    at_rest R m (write_sector dv lba (load (ram s) buf 512) D) s' /\ ram s' = ram s /\ intr (ikern s') = intr (ikern s).
Proof using Hc Hdv Hlists.
  intros Hn Ho Hr Hlba Hb. unfold ide_write_sector. set (rest := tbind (busy_wait _ _ _) _).
  destruct (start_ok CMD_WRITE_SECTOR R m D s lba rest) as (s1 & E1 & Hok1 & [Hr1 Hi1] & HD1 & Hp1); [lia|done..|].
  change (if CMD_WRITE_SECTOR =? _ then _ else _) with (Preparing dv lba 1) in Hp1.
  assert (raises (idev s1) = false) as Hra by by unfold raises; rewrite Hp1.
  set (s2 := @set_idev channel_machine (finish (idev s1)) s1).
  assert (ph (idev s2) = Taking [] dv lba 1 /\ platters (idev s2) = D) as [Hp2 HD2].
  { cbn. unfold finish. rewrite Hp1. done. }
  assert (ide_ok true (held_by R) R m s2) as Hok2 by by eapply ide_ok_ext.
  set (s3 := @set_idev channel_machine (set_phase (Storing (load (ram s2) buf 512) dv lba 1) (idev s2)) s2).
  destruct (await_ok o (held_by R) R m s3 Hn Ho) as (s4 & s5 & E4 & E5 & [Hok5 Hd5 Hr5 Hi5]); [by eapply ide_ok_ext|done|].
  destruct (unlock_ok false R m s5 Hok5) as [E6 Hok6]. set (s6 := set_ikern _ s5) in *.
  exists s6. split_and!.
  - eapply E1; [by apply drive_acts_silent|]. fold s2. unfold rest.
    eapply (runs_bind _ _ [] (at_once o :: asleep o)). { eapply busy_wait_ok; [exact Hok2|]. unfold ata_status. by rewrite Hp2. }
    assert (negb (Z.land (ata_status (idev s2)) ATA_STATR_DRQ =? 0) = true) as -> by by (unfold ata_status; rewrite Hp2).
    cbn [negb]. eapply (runs_bind _ _ [] (at_once o :: asleep o)); [apply runs_done|].
    eapply runs_step. { eapply write_to_sector_ok; [exact Hok2|exact Hp2|]. change (ram s2) with (ram s1). by rewrite Hr1. }
    eapply (runs_bind _ _ [at_once o] (asleep o)); [apply runs_pause, E4|].
    replace (asleep o) with (asleep o ++ []) by apply app_nil_r.
    eapply runs_bind; [exact E5|exact E6].
  - split; [exact Hok6| |].
    + change (ph (idev s5) = Idle). by rewrite Hd5.
    + change (platters (idev s5) = write_sector dv lba (load (ram s) buf 512) D). rewrite Hd5. cbn.
      unfold finish. rewrite Hp1. cbn. by rewrite HD1, Hr1.
  - change (ram s6) with (ram s5). rewrite Hr5. exact Hr1.
  - change (intr (ikern s6)) with (intr (ikern s5)). rewrite Hi5. exact Hi1.
Qed.

(** ** Many sectors *)
Lemma read_loop_ok R m D (os : list order) : (1 < rounds)%nat -> Forall (allowed m) os ->
  forall s lba buf, at_rest R m D s -> 0 <= lba -> lba + Z.of_nat (length os) <= Ide.max_lba + 1 ->
  (forall p, block (D dv p)) ->
  exists s', runs (read_loop fuel rounds hd (length os) lba buf) (read_events os) s tt s' /\
    at_rest R m D s' /\ ram s' = store buf (sectors (D dv) lba (length os)) (ram s) /\ intr (ikern s') = intr (ikern s).
Proof using Hc Hdv Hlists.
  intros Hn Ho. induction os as [|o os IH]; intros s lba buf Hr H0 Hl Hb.
  - exists s. by split_and!.
  - apply list.Forall_cons in Ho as [Ho Hos]. cbn [length] in Hl.
    assert (Ide.max_lba = 163839) as Em by done.
    destruct (read_sector_ok o R m D s lba buf) as (s1 & E1 & Hr1 & Hm1 & Hi1); [done..|lia|done|].
    destruct (IH Hos s1 (u32 (lba + 1)) (u32 (buf + 512)) Hr1) as (s2 & E2 & Hr2 & Hm2 & Hi2); [rewrite u32_small by lia; lia|rewrite u32_small by lia; lia|done|].
    exists s2. split_and!; [|done| |by rewrite Hi2].
    + cbn [length read_loop read_events flat_map].
      by apply (runs_bind _ _ (at_once o :: asleep o) (read_events os) s tt s1).
    + rewrite Hm2, Hm1. cbn [sectors length]. rewrite store_app. by rewrite (proj1 (Hb lba)).
Qed.

Lemma put_sectors_ext n : forall d d' lba buf, (forall p, d p = d' p) ->
  forall p, put_sectors d lba n buf p = put_sectors d' lba n buf p.
Proof using.
  induction n as [|n IH]; intros d d' lba buf Hd p; [apply Hd|]. cbn [put_sectors]. apply IH.
  intros q. by rewrite Hd.
Qed.
Lemma write_loop_ok R m (os : list order) : (1 < rounds)%nat -> Forall (allowed m) os ->
  forall D s lba buf, at_rest R m D s -> 0 <= lba -> lba + Z.of_nat (length os) <= Ide.max_lba + 1 ->
  (forall p, 0 <= ram s p < 256) ->
  exists D' s', runs (write_loop fuel rounds hd (length os) lba buf) (write_events os) s tt s' /\
    at_rest R m D' s' /\ ram s' = ram s /\ intr (ikern s') = intr (ikern s) /\
    (forall p, D' dv p = put_sectors (D dv) lba (length os) (load (ram s) buf (512 * length os)) p) /\
    (forall d p, d <> dv -> D' d p = D d p).
Proof using Hc Hdv Hlists.
  intros Hn Ho. induction os as [|o os IH]; intros D s lba buf Hr H0 Hl Hb.
  - exists D, s. by split_and!.
  - apply list.Forall_cons in Ho as [Ho Hos]. cbn [length] in Hl.
    assert (Ide.max_lba = 163839) as Em by done.
    destruct (write_sector_ok o R m D s lba buf) as (s1 & E1 & Hr1 & Hm1 & Hi1); [done..|lia|done|].
    destruct (IH Hos _ s1 (u32 (lba + 1)) (u32 (buf + 512)) Hr1) as (D2 & s2 & E2 & Hr2 & Hm2 & Hi2 & HD & Hoth);
      [rewrite u32_small by lia; lia|rewrite u32_small by lia; lia|by rewrite Hm1|].
    exists D2, s2. split_and!; [|done|by rewrite Hm2|by rewrite Hi2| |].
    + cbn [length write_loop write_events flat_map].
      by apply (runs_bind _ _ (drive_acts :: at_once o :: asleep o) (write_events os) s tt s1).
    + intros p. rewrite HD. rewrite Hm1. cbn [length put_sectors].
      replace (512 * Datatypes.S (length os))%nat with (512 + 512 * length os)%nat by lia.
      rewrite (load_app (ram s) 511 (512 * length os) buf).
      rewrite take_app_length', drop_app_length' by (by rewrite load_length).
      apply put_sectors_ext. intros q. unfold write_sector. by rewrite Z.eqb_refl.
    + intros d p Hd. rewrite Hoth by done. unfold write_sector. by rewrite (proj2 (Z.eqb_neq d dv)).
Qed.

(** ** Beyond the last sector the driver stops the machine *)
Lemma lock_then_select R m D s lba (f : T ide unit) es : (0 < rounds)%nat -> at_rest R m D s -> Ide.max_lba < lba ->
  panics (tbind (lock_channel fuel rounds hd) (fun _ => tbind (atom (select_disk hd)) (fun _ =>
    tbind (atom (select_sector hd lba 1)) (fun _ => f)))) es s.
Proof using Hc Hdv.
  intros Hn [Hok _ _] Hlba. destruct (lock_ok false R m s Hn Hok) as [El Hl]. set (s1 := set_ikern _ s) in *.
  destruct (io_channel _ _ _ _ _ Hl) as [ch Hch]. destruct (select_disk_ok false s1 ch Hch) as (a2 & E2 & _).
  eapply (panics_bind _ _ [] es); [exact El|]. eapply (panics_bind _ _ [] es); [apply runs_atom, E2|].
  apply panics_atom. unfold select_sector. by rewrite assert_bind_false by (apply Z.leb_gt; lia).
Qed.
Lemma read_loop_panics R m D (os : list order) : (1 < rounds)%nat -> Forall (allowed m) os ->
  forall s lba buf, at_rest R m D s -> 0 <= lba -> Ide.max_lba + 1 < lba + Z.of_nat (length os) ->
  lba <= Ide.max_lba + 1 -> (forall p, block (D dv p)) ->
  panics (read_loop fuel rounds hd (length os) lba buf) (read_events os) s.
Proof using Hc Hdv Hlists.
  intros Hn Ho. induction os as [|o os IH]; intros s lba buf Hr H0 Hl Hle Hb; cbn [length] in Hl; [lia|].
  apply list.Forall_cons in Ho as [Ho Hos]. assert (Ide.max_lba = 163839) as Em by done.
  cbn [length read_loop read_events flat_map]. destruct (Z.le_gt_cases lba Ide.max_lba) as [Hin|Hout].
  - destruct (read_sector_ok o R m D s lba buf) as (s1 & E1 & Hr1 & _); [done..|].
    apply (panics_bind _ _ (at_once o :: asleep o) (read_events os) s tt s1 E1).
    apply IH; try done; rewrite u32_small by lia; lia.
  - apply (panics_first _ _ (at_once o :: asleep o)). eapply lock_then_select; [lia|done|lia].
Qed.
Lemma write_loop_panics R m (os : list order) : (1 < rounds)%nat -> Forall (allowed m) os ->
  forall D s lba buf, at_rest R m D s -> 0 <= lba -> Ide.max_lba + 1 < lba + Z.of_nat (length os) ->
  lba <= Ide.max_lba + 1 -> (forall p, 0 <= ram s p < 256) ->
  panics (write_loop fuel rounds hd (length os) lba buf) (write_events os) s.
Proof using Hc Hdv Hlists.
  intros Hn Ho. induction os as [|o os IH]; intros D s lba buf Hr H0 Hl Hle Hb; cbn [length] in Hl; [lia|].
  apply list.Forall_cons in Ho as [Ho Hos]. assert (Ide.max_lba = 163839) as Em by done.
  cbn [length write_loop write_events flat_map]. destruct (Z.le_gt_cases lba Ide.max_lba) as [Hin|Hout].
  - destruct (write_sector_ok o R m D s lba buf) as (s1 & E1 & Hr1 & Hm1 & _); [done..|].
    apply (panics_bind _ _ (drive_acts :: at_once o :: asleep o) (write_events os) s tt s1 E1).
    eapply IH; [done|exact Hr1|rewrite u32_small by lia; lia..|by rewrite Hm1].
  - apply (panics_first _ _ (drive_acts :: at_once o :: asleep o)). eapply lock_then_select; [lia|done|lia].
Qed.

Lemma sectors_ext (d d' : Z -> list Z) n : (forall p, d p = d' p) -> forall lba, sectors d lba n = sectors d' lba n.
Proof using. intros Hd. induction n as [|n IH]; intros p; [done|]. cbn [sectors]. by rewrite Hd, IH. Qed.

(** C15: what the file system takes for granted about reading, the driver does.
    For every count of sectors and every way in which the requests of the
    drive fall, each while the thread still runs or while it sleeps and others
    run: where [ide_read] of the file system's model returns bytes, the driver
    returns, has written exactly these bytes to the buffer, and everything is
    at rest again; where it stops the machine, so does the driver. *)
Theorem ide_read_refines_disk (f : fs) R m D (os : list order) s lba buf :
  (1 < rounds)%nat -> Forall (allowed m) os -> at_rest R m D s -> 0 <= lba ->
  (forall p, Fs.disk f p = D dv p) -> (forall p, block (D dv p)) ->
  let cnt := Z.of_nat (length os) in
  let run := (o <- Ide.ide_read fuel rounds hd lba buf cnt ;; play o (read_events os)) s in
  match Fs.ide_read lba cnt f with
  | Ok (l, f') => f' = f /\ exists s', run = Ok (tt, s') /\ at_rest R m D s' /\
      ram s' = store buf l (ram s) /\ intr (ikern s') = intr (ikern s)
  | Panic => run = Panic
  | _ => False
  end.
Proof using Hc Hdv Hlists.
  intros Hn Ho Hr H0 Hf Hb cnt run. unfold run, Ide.ide_read. rewrite !guard_play.
  unfold Fs.ide_read, ASSERT. change Fs.max_lba with Ide.max_lba.
  destruct (Z.leb_spec lba Ide.max_lba) as [H1|H1]; [rewrite bind_ret|done].
  destruct (Z.gtb_spec cnt 0) as [H2|H2]; [rewrite bind_ret|done].
  replace (Z.to_nat cnt) with (length os) by lia.
  destruct (Z.leb_spec (lba + cnt) (Ide.max_lba + 1)) as [H3|H3].
  - rewrite bind_ret. unfold gets. split; [done|].
    destruct (read_loop_ok R m D os Hn Ho s lba buf Hr H0 H3 Hb) as (s' & E & Hr' & Hm & Hi).
    exists s'. split_and!; [exact E|done| |done]. rewrite Hm. f_equal. by apply sectors_ext.
  - eapply read_loop_panics; try done; lia.
Qed.

(** C17: the same for writing: where [ide_write] of the file system's model
    returns, the driver returns for every way in which the requests of the
    drive fall, the sectors of the disk are those of the model, the other disk
    of the channel and the memory are unchanged, and everything is at rest
    again; where it stops the machine, so does the driver. *)
Theorem ide_write_refines_disk (f : fs) R m D (os : list order) s lba buf :
  (1 < rounds)%nat -> Forall (allowed m) os -> at_rest R m D s -> 0 <= lba ->
  (forall p, Fs.disk f p = D dv p) -> (forall p, 0 <= ram s p < 256) ->
  let cnt := Z.of_nat (length os) in
  let run := (o <- Ide.ide_write fuel rounds hd lba buf cnt ;; play o (write_events os)) s in
  match Fs.ide_write lba (load (ram s) buf (512 * length os)) cnt f with
  | Ok (_, f') => exists s' D', run = Ok (tt, s') /\ at_rest R m D' s' /\
      (forall p, Fs.disk f' p = D' dv p) /\ (forall d p, d <> dv -> D' d p = D d p) /\
      ram s' = ram s /\ intr (ikern s') = intr (ikern s)
  | Panic => run = Panic
  | _ => False
  end.
Proof using Hc Hdv Hlists.
  intros Hn Ho Hr H0 Hf Hb cnt run. unfold run, Ide.ide_write. rewrite !guard_play.
  unfold Fs.ide_write, ASSERT. change Fs.max_lba with Ide.max_lba.
  destruct (Z.leb_spec lba Ide.max_lba) as [H1|H1]; [rewrite bind_ret|done].
  destruct (Z.gtb_spec cnt 0) as [H2|H2]; [rewrite bind_ret|done].
  replace (Z.to_nat cnt) with (length os) by lia.
  destruct (Z.leb_spec (lba + cnt) (Ide.max_lba + 1)) as [H3|H3].
  - rewrite bind_ret. unfold modify.
    destruct (write_loop_ok R m os Hn Ho D s lba buf Hr H0 H3 Hb) as (D' & s' & E & Hr' & Hm & Hi & HD & Hoth).
    exists s', D'. split_and!; try done. intros p. rewrite HD. by apply put_sectors_ext.
  - eapply write_loop_panics; try done; lia.
Qed.
End driver.

(** ** Two threads and two disks *)
Definition ide_tcb (st : Z) : TCB := Tcb 0 1 0 st 20 5 0 0 (Message 0 0 []) 0 0 0 0 0 0 STACK_MAGIC.
Definition ide_globals : Globals := {| thread_ready_list := 100; thread_all_list := 300; addr_v2p := fun a => a |}.
Definition ide_places : IdeGlobals :=
  {| channel_address c := 5000 + 1000 * c; part_tag hd i := 20000 + 1000 * hd.2 + 100 * i; partition_list := 400; intr_hd_handler_address := 0 |}.
(** The thread at 8192 runs, the one at 12288 is ready. *)
Definition ide_kernel : kern :=
  Kern (list_to_map [(100, Node 12340 12340); (12340, Node 100 100); (8244, Node 8244 8244); (5020, Node 5020 5020); (5040, Node 5040 5040)])
       (list_to_map [(8192, ide_tcb 0); (12288, ide_tcb 1)])
       (list_to_map [(5012, free_lock); (5032, Lock 0 0 0)]) 8192 true 0 0x100000 0 12288 8192.
Definition numbered (d lba : Z) : list Z := replicate 512 ((lba + 100 * d) mod 256).
Definition demo_drive : ata := Ata numbered 0 0 0 0 0 Idle.
Definition demo_ide (x : Machine) (dev : @device x) : @ide x :=
  @Ide x ide_kernel [Channel 0x1f0 0x2e false [HardDisk [] 0 0 [] []; HardDisk [] 0 1 [] []]] 1 0 (fun _ => 0)
    (Cpu (fun _ => 0) (DescReg 0 0) (DescReg 0 0) 0 (fun _ => 0)) (Softirq.Softirq 0 []) dev.
Lemma demo_at_rest : @at_rest ide_globals ide_places 10 0 1 8192 1 numbered (demo_ide (channel_machine 0) demo_drive).
Proof.
  split; [|done|done]. split; [|exists {[100 := [12288]; 5020 := []; 5040 := []]}, [12288]| |done].
  - eexists. split; [done..|]. by eexists.
  - split_and!; [|done|vm_compute; reflexivity..]. split; [|vm_compute; reflexivity|done| | | |simpl; lia].
    + apply queues_by_check. by_computation.
    + exists (ide_tcb 0). split; [vm_compute; reflexivity|done].
    + intros a xs. apply (map_Forall_lookup_1 (fun _ xs => 8192 ∉ xs) {[100 := [12288]; 5020 := []; 5040 := []]}). by_computation.
    + intros t [b Hb]. apply (map_Forall_lookup_1 (fun t _ => t <> 0) (tasks ide_kernel) t b); [by_computation|exact Hb].
  - split; [vm_compute; reflexivity|]. exists 0, 0. vm_compute; reflexivity.
Qed.
Lemma numbered_block p : block (numbered 1 p).
Proof.
  split; [done|]. apply Forall_replicate. apply Z.mod_pos_bound. lia.
Qed.
Lemma demo_apart : @heads_apart ide_globals ide_places 0.
Proof. split; by_computation. Qed.

Definition demo_fs : fs :=
  Fs (numbered 1) (Super 0 0 0 0 0 0) (Bitmap.Bitmap [] 0 0) (Bitmap.Bitmap [] 0 0) ∅ [] [] [] false [].

(** Two sectors of the second disk, the request for the first while the thread
    runs, for the second while it sleeps. *)
Lemma ide_read_refines_disk_witness :
  exists s', (o <- @Ide.ide_read (channel_machine 0) (channel_words 0) ide_globals ide_places 10 2 (0, 1) 77 4096 2 ;;
      play o (@read_events ide_globals ide_places 10 0 (fun _ p => p) [Early; Late])) (demo_ide (channel_machine 0) demo_drive) = Ok (tt, s') /\
    @at_rest ide_globals ide_places 10 0 1 8192 1 numbered s' /\
    ram s' = store 4096 (numbered 1 77 ++ numbered 1 78) (fun _ => 0).
Proof.
  pose proof (@ide_read_refines_disk ide_globals ide_places 10 0 (fun _ p => p) 2 1 (or_introl eq_refl) (or_intror eq_refl) demo_apart
    demo_fs 8192 1 numbered [Early; Late] (demo_ide (channel_machine 0) demo_drive) 77 4096) as H.
  destruct H as [_ (s' & E & Hr & Hm & _)].
  - lia.
  - repeat constructor.
  - exact demo_at_rest.
  - lia.
  - done.
  - apply numbered_block.
  - exists s'. split; [exact E|]. split; [exact Hr|exact Hm].
Defined.
Lemma ide_write_refines_disk_witness :
  exists s' D', (o <- @Ide.ide_write (channel_machine 0) (channel_words 0) ide_globals ide_places 10 2 (0, 1) 77 4096 2 ;;
      play o (@write_events ide_globals ide_places 10 0 (fun _ p => p) [Late; Early])) (demo_ide (channel_machine 0) demo_drive) = Ok (tt, s') /\
    @at_rest ide_globals ide_places 10 0 1 8192 1 D' s' /\ D' 1 78 = load (fun _ => 0) 4608 512.
Proof.
  pose proof (@ide_write_refines_disk ide_globals ide_places 10 0 (fun _ p => p) 2 1 (or_introl eq_refl) (or_intror eq_refl) demo_apart
    demo_fs 8192 1 numbered [Late; Early] (demo_ide (channel_machine 0) demo_drive) 77 4096) as H.
  destruct H as (s' & D' & E & Hr & HD & _).
  - lia.
  - repeat constructor.
  - exact demo_at_rest.
  - lia.
  - done.
  - intros p. simpl. lia.
  - exists s', D'. split; [exact E|]. split; [exact Hr|]. rewrite <-HD. vm_compute. reflexivity.
Defined.

(** ** What goes wrong *)
(** A drive that answers a command with an error: its status is 0x41. *)
Definition failing : Machine := {| device := unit; port_in _ d := (0x41, d); port_out _ _ d := d |}.
#[local] Instance failing_words : WordPorts failing := Build_WordPorts failing (fun _ d => (0xFFFF, d)) (fun _ _ d => d).
Definition failing_request : M (@ide failing) unit := @intr_hd_handler failing ide_globals ide_places 10 (fun _ p => p) 0x2e.
(** The read returns like one that succeeded; nothing was read. *)
Lemma read_error_is_silent :
  match (o <- @Ide.ide_read failing failing_words ide_globals ide_places 10 2 (0, 1) 77 4096 1 ;; play o [failing_request])
      (demo_ide failing tt) with
  | Ok (_, s') => ram s' 4096 = 0 /\ ram s' 4607 = 0
  | _ => False end.
Proof. vm_compute. split; reflexivity. Qed.
(** Two sectors with one command: the drive asks for a second wait, which the
    driver does not do; it takes the words of the second sector from a drive
    that is busy. *)
Lemma read_v2_second_sector_missing :
  match (o <- @ide_read_v2 (channel_machine 0) (channel_words 0) ide_globals ide_places 10 2 (0, 1) 77 4096 2 ;;
      play o [@drive_acts ide_globals ide_places 10 0 (fun _ p => p)]) (demo_ide (channel_machine 0) demo_drive) with
  | Ok (_, s') => ram s' 4096 = 177 /\ ram s' 4607 = 177 /\ ram s' 4608 = 0 /\ numbered 1 78 = replicate 512 178
  | _ => False end.
Proof. vm_compute. repeat split; reflexivity. Qed.
(** The disks of the second channel are not looked at, since [dev_no] is 2
    from the first one. *)
Lemma second_channel_skipped {X : Machine} {W : WordPorts X} {G : Globals} {I : IdeGlobals} fuel rounds sector s :
  runs (dev_loop fuel rounds sector 3 1 2) [] s 2 s.
Proof. done. Qed.
(** A sleep of 10 milliseconds lasts 10 ticks, of which 9000 make a second. *)
Lemma sleep_is_short : mil_seconds_per_intr = 1 /\ DIV_ROUND_UP 10 mil_seconds_per_intr = 10 /\ 1000 / HZ = 0.
Proof. done. Qed.
(** The bits of the count above the eighth are taken from a byte. *)
Lemma ext_count_high n : Z.shiftr (u8 n) 8 = 0.
Proof. rewrite Z.shiftr_div_pow2 by lia. apply Z.div_small. change (2 ^ 8) with 256. apply u8_range. Qed.
