(* ===== verification/Gfx.v ===== *)
(** * Gfx: drawing into a frame buffer (core/lib/2d_graphics.c,
    include/gua/2d_graphics.h)

    A buffer is a function from offsets to bytes with [g_size] of them; an
    access outside of it faults.  Without double buffering the back buffer is
    the buffer itself.  Colours are 32-bit integers. *)
From S2P Require Import Prelude Stdio.

(** What the code uses of the mode of the display. *)
Record vbe_mode_info := Vbe {
  bits_per_pixel : Z;
  red_field_position : Z; green_field_position : Z; blue_field_position : Z;
  linear_red_mask_size : Z; linear_red_field_position : Z;
  linear_green_mask_size : Z; linear_green_field_position : Z;
  linear_blue_mask_size : Z; linear_blue_field_position : Z }.
Record gfx := Gfx {
  g_width : Z; g_height : Z; g_depth : Z; g_size : Z; g_stride : Z;
  buffer : Z -> Z;
  backbuffer : option (Z -> Z);
  clips : option (list Z);
  clips_size : Z;
  gfx_mode : vbe_mode_info }.
Record sprite := Sprite { s_width : Z; s_height : Z; s_bitmap : list Z; s_alpha : Z }.
Record rect := Rect { rect_x : Z; rect_y : Z; rect_width : Z; rect_height : Z }.
Record point := Point { pX : Z; pY : Z }.
Definition ALPHA_OPAQUE : Z := 0.
Definition ALPHA_EMBEDDED : Z := 2.

Definition back (s : gfx) : Z -> Z := default (buffer s) (backbuffer s).
Definition set_back (m : Z -> Z) (s : gfx) : gfx :=
  match backbuffer s with
  | Some _ => Gfx (g_width s) (g_height s) (g_depth s) (g_size s) (g_stride s) (buffer s) (Some m) (clips s) (clips_size s) (gfx_mode s)
  | None => Gfx (g_width s) (g_height s) (g_depth s) (g_size s) (g_stride s) m None (clips s) (clips_size s) (gfx_mode s)
  end.
Definition set_buffer (m : Z -> Z) (s : gfx) : gfx :=
  Gfx (g_width s) (g_height s) (g_depth s) (g_size s) (g_stride s) m (backbuffer s) (clips s) (clips_size s) (gfx_mode s).
Definition set_clips (c : option (list Z)) (n : Z) (s : gfx) : gfx :=
  Gfx (g_width s) (g_height s) (g_depth s) (g_size s) (g_stride s) (buffer s) (backbuffer s) c n (gfx_mode s).

(** ** Colours *)
Definition _A (color : Z) : Z := Z.shiftr (Z.land color 0xFF000000) 0x18.
Definition _R (color : Z) : Z := Z.shiftr (Z.land color 0x00FF0000) 0x10.
Definition _G (color : Z) : Z := Z.shiftr (Z.land color 0x0000FF00) 0x8.
Definition _B (color : Z) : Z := Z.shiftr (Z.land color 0x000000FF) 0x0.
Definition rgb (r g b : Z) : Z :=
  Z.lor (Z.lor (Z.lor 0xFF000000 (Z.shiftl r 16)) (Z.shiftl g 8)) b.
Definition rgba (r g b a : Z) : Z :=
  u32 (Z.lor (Z.lor (Z.lor (Z.shiftl a 24) (Z.shiftl r 16)) (Z.shiftl g 8)) b).
(** One component of the blend: [t] is 255 less the alpha of the top. *)
Definition blend_part (top bottom t : Z) : Z :=
  u8 (top + Z.shiftr (u32 (u32 (bottom * t + 0x80) * 0x101)) 16).
Definition alpha_blend_rgba (bottom top : Z) : Z :=
  if _A bottom =? 0 then top
  else if _A top =? 255 then top
  else if _A top =? 0 then bottom
  else
    let a := u8 (_A top) in
    let t := u16 (Z.lxor 0xFF a) in
    rgba (blend_part (_R top) (_R bottom) t) (blend_part (_G top) (_G bottom) t)
         (blend_part (_B top) (_B bottom) t) (blend_part (_A top) (_A bottom) t).

(** [convert_a] is never set: it is what the stack holds. *)
Definition convert_argb (convert_a color : Z) (s : gfx) : Z :=
  let g := gfx_mode s in
  let orig_r := Z.land (Z.shiftr color 16) 0xFF in
  let orig_g := Z.land (Z.shiftr color 8) 0xFF in
  let orig_b := Z.land color 0xFF in
  let part orig size := u8 (Z.land (Z.shiftr orig (u8 (8 - size))) (Z.shiftl 1 size - 1)) in
  let '(r, g', b) :=
    if bits_per_pixel g =? 8 then (0, 0, orig_b)
    else (part orig_r (linear_red_mask_size g), part orig_g (linear_green_mask_size g), part orig_b (linear_blue_mask_size g)) in
  u32 (Z.lor (Z.lor (Z.lor (Z.shiftl (u8 convert_a) 24) (Z.shiftl r (linear_red_field_position g)))
    (Z.shiftl g' (linear_green_field_position g))) (Z.shiftl b (linear_blue_field_position g))).
Definition convert_bbp (bbpcolor : Z) (s : gfx) : Z :=
  let g := gfx_mode s in
  let orig_r := Z.land (Z.shiftr bbpcolor (red_field_position g)) 0xFF in
  let orig_g := Z.land (Z.shiftr bbpcolor (green_field_position g)) 0xFF in
  let orig_b := Z.land (Z.shiftr bbpcolor (blue_field_position g)) 0xFF in
  let part orig size := u8 (Z.land (Z.shiftl orig (u8 (8 - size))) (Z.shiftl 1 size - 1)) in
  if bits_per_pixel g =? 8 then rgb 0 0 orig_b
  else rgb (part orig_r (linear_red_mask_size g)) (part orig_g (linear_green_mask_size g)) (part orig_b (linear_blue_mask_size g)).

(** ** Pixels *)
Section drawing.
Definition bytes_at (m : Z -> Z) (off : Z) (n : nat) : list Z := (fun i => m (off + Z.of_nat i)) <$> seq 0 n.
Definition write_bytes (off : Z) (l : list Z) (m : Z -> Z) : Z -> Z :=
  fun p => if (off <=? p) && (p <? off + Z.of_nat (length l)) then default 0 (l !! Z.to_nat (p - off)) else m p.
Definition GFX_off (s : gfx) (x y : Z) : Z := u32 (u32 (g_stride s * u32 y) + u32 (u32 x * (g_depth s / 8))).
Definition GFX (x y : Z) : M gfx Z :=
  fun s => let off := GFX_off s x y in
           if off + 4 <=? g_size s then Ok (of_le (bytes_at (back s) off 4), s) else Fault.
Definition GFX_set (x y color : Z) : M gfx unit :=
  fun s => let off := GFX_off s x y in
           if off + 4 <=? g_size s then Ok (tt, set_back (write_bytes off (le 4 color) (back s)) s) else Fault.
Definition draw_pixel (X Y color : Z) : M gfx unit := GFX_set (u16 X) (u16 Y) color.
Definition fetch_color (X Y : Z) : M gfx Z := GFX X Y.
Definition SPRITE (sp : sprite) (x y : Z) : M gfx Z :=
  fun s => match s_bitmap sp !! Z.to_nat (s_width sp * y + x) with Some c => Ok (c, s) | None => Fault end.

(** ** The damaged region *)
Definition _is_in_clip (y : Z) : M gfx bool :=
  fun s => match clips s with
           | None => Ok (true, s)
           | Some l =>
               if (y <? 0) || (y >=? clips_size s) then Ok (true, s)
               else match l !! Z.to_nat y with Some c => Ok (negb (c =? 0), s) | None => Fault end
           end.
(** [mem] is what [malloc] gives when it is asked, with what is in it. *)
Definition gfx_add_clip (mem : option (list Z)) (x y w h : Z) : M gfx unit :=
  s <- get ;;
  (match clips s with
   | None => match mem with
             | Some _ => put (set_clips (Some (replicate (Z.to_nat (g_height s)) 0)) (s32 (g_height s)) s)
             | None => fault end
   | Some _ => ret tt end) ;;;
  s <- get ;;
  let lo := Z.max y 0 in
  let hi := Z.min (s32 (y + h)) (clips_size s) in
  match clips s with
  | Some l => put (set_clips (Some (imap (fun i c => if (lo <=? Z.of_nat i) && (Z.of_nat i <? hi) then 1 else c) l)) (clips_size s) s)
  | None => ret tt end.
Definition gfx_clear_clip : M gfx unit :=
  modify (fun s => match clips s with
                   | Some l => set_clips (Some (replicate (length l) 0)) (clips_size s) s
                   | None => s end).
Definition gfx_free_clip : M gfx unit :=
  modify (fun s => match clips s with Some _ => set_clips None (clips_size s) s | None => s end).

(** ** The whole buffer *)
Definition clear_buffer : M gfx unit :=
  modify (fun s => set_back (write_bytes 0 (replicate (Z.to_nat (g_size s)) 0) (back s)) s).
(** [memcpy] from the back buffer to the buffer, inside both. *)
Definition copy_range (off n : Z) : M gfx unit :=
  fun s => if off + n <=? g_size s
           then Ok (tt, set_buffer (fun p => if (off <=? p) && (p <? off + n) then back s p else buffer s p) s)
           else Fault.
Fixpoint flip_rows (n : nat) (i : Z) : M gfx unit :=
  match n with
  | O => ret tt
  | S n =>
      s <- get ;;
      c <- _is_in_clip i ;;
      (when c do copy_range (u32 (i * g_stride s)) (u32 (4 * g_width s))) ;;;
      flip_rows n (i + 1)
  end.
Definition flip : M gfx unit :=
  s <- get ;;
  match clips s with
  | Some _ => flip_rows (Z.to_nat (g_height s)) 0
  | None => copy_range 0 (g_size s)
  end.
End drawing.

Section shapes.
(** ** Sprites *)
(** [MIN] of an [int] and an unsigned number compares them unsigned. *)
Definition umin (a b : Z) : Z := if u32 a <? u32 b then u32 a else u32 b.

Definition draw_sprite_alpha (sp : sprite) (x y opacity : Z) : M gfx unit := ret tt.
(** The inner loops, with [n] columns left. *)
Fixpoint embedded_cols (n : nat) (sp : sprite) (x y _x _y _left _top _right _bottom : Z) : M gfx unit :=
  match n with
  | O => ret tt
  | S n =>
      (if (x + _x <? _left) || (x + _x >? _right) || (y + _y <? _top) || (y + _y >? _bottom) then ret tt
       else
         bottom <- GFX (x + _x) (y + _y) ;;
         top <- SPRITE sp _x _y ;;
         GFX_set (x + _x) (y + _y) (alpha_blend_rgba bottom top)) ;;;
      embedded_cols n sp x y (_x + 1) _y _left _top _right _bottom
  end.
Fixpoint opaque_cols (n : nat) (sp : sprite) (x y _x _y _right : Z) : M gfx unit :=
  match n with
  | O => ret tt
  | S n =>
      if x + _x <=? _right then
        c <- SPRITE sp _x _y ;;
        GFX_set (x + _x) (y + _y) (Z.lor c 0xFF000000) ;;;
        opaque_cols n sp x y (_x + 1) _y _right
      else ret tt
  end.
(** The outer loop that both have; [cols] draws the row [_y]. *)
Fixpoint sprite_rows (n : nat) (cols : Z -> M gfx unit) (y _y _top _bottom : Z) : M gfx unit :=
  match n with
  | O => ret tt
  | S n =>
      if y + _y <? _top then sprite_rows n cols y (_y + 1) _top _bottom
      else if y + _y >? _bottom then ret tt
      else
        c <- _is_in_clip (y + _y) ;;
        (when c do cols _y) ;;;
        sprite_rows n cols y (_y + 1) _top _bottom
  end.
Definition draw_sprite (sp : sprite) (x y : Z) : M gfx unit :=
  s <- get ;;
  let _left := Z.max x 0 in
  let _top := Z.max y 0 in
  let _right := s32 (umin (x + s_width sp) (g_width s - 1)) in
  let _bottom := s32 (umin (y + s_height sp) (g_height s - 1)) in
  if s_alpha sp =? ALPHA_EMBEDDED then
    sprite_rows (Z.to_nat (s_height sp))
      (fun _y => embedded_cols (Z.to_nat (s_width sp)) sp x y 0 _y _left _top _right _bottom) y 0 _top _bottom
  else if s_alpha sp =? ALPHA_OPAQUE then
    sprite_rows (Z.to_nat (s_height sp))
      (fun _y =>
         let start := u16 (if x <? _left then _left - x else 0) in
         opaque_cols (Z.to_nat (s_width sp - start)) sp x y start _y _right) y 0 _top _bottom
  else ret tt.

(** ** Rectangles

    [for (uint_16 v = from; v < below; v++)]: a counter of 16 bits that starts
    over at 65536, so that a limit above that is never reached. *)
Fixpoint for16 (n : nat) (v below : Z) (body : Z -> M gfx unit) : M gfx unit :=
  match n with
  | O => stuck
  | S n => if v <? below then (body v ;;; for16 n (u16 (v + 1)) below body) else ret tt
  end.
Definition loop16 (from below : Z) (body : Z -> M gfx unit) : M gfx unit :=
  for16 (Z.to_nat 65537) (u16 from) below body.
Definition draw_fill (color : Z) : M gfx unit :=
  s <- get ;;
  loop16 0 (g_height s) (fun y => loop16 0 (g_width s) (fun x => GFX_set x y color)).
Definition fill_rect_solid (top_left bottom_right : point) (color : Z) : M gfx unit :=
  loop16 (pY top_left) (pY bottom_right) (fun y =>
    loop16 (pX top_left) (pX bottom_right) (fun x => draw_pixel x y color)).
(** The limits are sums of a signed and an unsigned number. *)
Definition draw_rect_solid (r : rect) (color : Z) : M gfx unit :=
  loop16 (rect_y r) (u32 (rect_y r + rect_height r)) (fun y =>
    loop16 (rect_x r) (u32 (rect_x r + rect_width r)) (fun x => GFX_set x y color)).
Fixpoint count_up (n : nat) (i : Z) (body : Z -> M gfx unit) : M gfx unit :=
  match n with O => ret tt | S n => body i ;;; count_up n (i + 1) body end.
Definition clear_screen (convert_a color : Z) : M gfx unit :=
  s <- get ;;
  let set_color := convert_argb convert_a color s in
  count_up (Z.to_nat (g_width s)) 0 (fun x_idx =>
    count_up (Z.to_nat (g_height s)) 0 (fun y_idx => GFX_set x_idx y_idx set_color)).

(** ** Text

    [font] is the memory from [FONT_HANKAKU] on, as signed characters; the
    index is negative for a character above 127. *)
Variable font : Z -> Z.
Variable convert_a : Z.
Fixpoint font_bits (n : nat) (part bit_idx x y color : Z) : M gfx unit :=
  match n with
  | O => ret tt
  | S n =>
      s <- get ;;
      (when negb (Z.land part 1 =? 0) do draw_pixel (x + (7 - bit_idx)) y (convert_argb convert_a color s)) ;;;
      font_bits n (Z.shiftr part 1) (bit_idx + 1) x y color
  end.
Definition s16 (v : Z) : Z := (v + 32768) mod 65536 - 32768.
Definition draw_2d_gfx_8bit_font (font_size x y color from : Z) : M gfx unit :=
  count_up 16 0 (fun i => font_bits 8 (font (from + i)) 0 (s16 x) (s16 y + i) color).
Definition draw_2d_gfx_asc_char (font_size x y color c : Z) : M gfx Z :=
  ASSERT ((font_size =? 8) || (font_size =? 16) || (font_size =? 32)) ;;;
  if font_size =? 8 then
    draw_2d_gfx_8bit_font font_size x y color (c * 16) ;;;
    ret font_size
  else panic.
(** The characters of [str] are signed; [char_idx] is compared unsigned. *)
Fixpoint string_chars (str : list Z) (char_idx font_size x y color pixel_length : Z) : M gfx Z :=
  match str with
  | [] => ret pixel_length
  | c :: str =>
      n <- draw_2d_gfx_asc_char font_size (s32 (x + font_size * char_idx)) y color c ;;
      string_chars str (char_idx + 1) font_size x y color (u32 (pixel_length + n))
  end.
Definition draw_2d_gfx_string (font_size x y color : Z) (str : list Z) (str_len : Z) : M gfx Z :=
  if str_len <=? Z.of_nat (length str)
  then string_chars (take (Z.to_nat str_len) str) 0 font_size x y color 0 else fault.
Definition draw_number (fmt : list Z) (font_size x y color num : Z) : M gfx Z :=
  match sprintf fmt [AInt num] with
  | Ok (s, len) => if (length s <? 20)%nat then draw_2d_gfx_string font_size x y color s len else fault
  | Panic => panic | Fault => fault | Stuck => stuck end.
Definition draw_2d_gfx_hex (font_size x y color num : Z) : M gfx Z := draw_number [37; 120] font_size x y color num.
Definition draw_2d_gfx_dec (font_size x y color num : Z) : M gfx Z := draw_number [37; 100] font_size x y color num.
Definition draw_2d_gfx_label (x y width len bgcolor font_color : Z) (label_name : list Z) : M gfx unit :=
  let tl := Point (s32 x) (s32 y) in
  let br := Point (s32 (x + width)) (s32 (y + len)) in
  fill_rect_solid tl br bgcolor ;;;
  draw_2d_gfx_string 8 (s32 x) (s32 y) font_color label_name (Z.of_nat (length label_name)) ;;;
  ret tt.
End shapes.
