(* ===== verification/GfxSpec.v ===== *)
(** * GfxSpec: what is drawn, and that it stays inside the buffer *)
From S2P Require Import Prelude Stdio Gfx.

(** ** Pictures *)
Definition is_byte (v : Z) : Prop := 0 <= v < 256.
(** A context of 32 bits for each pixel. *)
Record gfx_ok (s : gfx) : Prop := {
  gk_depth : g_depth s = 32;
  gk_width : 0 < g_width s /\ 4 * g_width s <= g_stride s;
  gk_height : 0 < g_height s;
  gk_size : g_size s = g_stride s * g_height s /\ g_size s < 2 ^ 31;
  gk_bytes : forall p, is_byte (back s p);
  gk_clips : forall l, clips s = Some l -> clips_size s <= Z.of_nat (length l)
}.
(** The rows that are damaged, or not known not to be. *)
Definition in_clip (y : Z) (s : gfx) : bool :=
  match clips s with
  | None => true
  | Some l => if (y <? 0) || (y >=? clips_size s) then true else negb (default 0 (l !! Z.to_nat y) =? 0)
  end.
Definition on_screen (s : gfx) (px py : Z) : Prop := 0 <= px < g_width s /\ 0 <= py < g_height s.
Definition offset (s : gfx) (px py : Z) : Z := g_stride s * py + 4 * px.
Definition pixel (s : gfx) (px py : Z) : Z := of_le (bytes_at (back s) (offset s px py) 4).
(** Everything but the bytes of the back buffer. *)
Definition same_context (s s' : gfx) : Prop := exists m, s' = set_back m s.
(** What [s'] shows is [f] of what [s] shows; no other byte changed. *)
Record shows (s s' : gfx) (f : Z -> Z -> Z -> Z) : Prop := {
  sh_context : same_context s s';
  sh_ok : gfx_ok s';
  sh_pixel : forall px py, on_screen s px py -> pixel s' px py = f px py (pixel s px py);
  sh_other : forall p, (forall px py, on_screen s px py -> ~ offset s px py <= p < offset s px py + 4) ->
    back s' p = back s p
}.

Lemma set_back_back m s : back (set_back m s) = m.
Proof. unfold set_back, back. by destruct s as [? ? ? ? ? ? [?|] ? ? ?]. Qed.
Lemma set_back_twice m m' s : set_back m (set_back m' s) = set_back m s.
Proof. by destruct s as [? ? ? ? ? ? [?|] ? ? ?]. Qed.
Lemma set_back_id s : set_back (back s) s = s.
Proof. by destruct s as [? ? ? ? ? ? [?|] ? ? ?]. Qed.
Lemma set_back_fields m s : g_width (set_back m s) = g_width s /\ g_height (set_back m s) = g_height s /\
  g_depth (set_back m s) = g_depth s /\ g_size (set_back m s) = g_size s /\ g_stride (set_back m s) = g_stride s /\
  clips (set_back m s) = clips s /\ clips_size (set_back m s) = clips_size s.
Proof. by destruct s as [? ? ? ? ? ? [?|] ? ? ?]. Qed.

Section context.
Context (s s' : gfx) (H : same_context s s').
Lemma same_fields : g_width s' = g_width s /\ g_height s' = g_height s /\
  g_depth s' = g_depth s /\ g_size s' = g_size s /\ g_stride s' = g_stride s.
Proof using H. destruct H as [m ->]. destruct (set_back_fields m s) as (? & ? & ? & ? & ? & _). auto. Qed.
Lemma same_screen px py : on_screen s' px py <-> on_screen s px py.
Proof using H. unfold on_screen. by destruct same_fields as (-> & -> & _). Qed.
Lemma same_offset px py : offset s' px py = offset s px py.
Proof using H. unfold offset. by destruct same_fields as (_ & _ & _ & _ & ->). Qed.
Lemma same_clip y : in_clip y s' = in_clip y s.
Proof using H. destruct H as [m ->]. unfold in_clip. destruct (set_back_fields m s) as (_ & _ & _ & _ & _ & -> & ->). done. Qed.
End context.

Lemma is_in_clip_ok y s : (forall l, clips s = Some l -> clips_size s <= Z.of_nat (length l)) ->
  _is_in_clip y s = Ok (in_clip y s, s).
Proof.
  intros Hc. unfold _is_in_clip, in_clip. destruct (clips s) as [l|]; [|done]. specialize (Hc l eq_refl). rewrite Z.geb_leb.
  destruct (Z.ltb_spec y 0), (Z.leb_spec (clips_size s) y); cbn [orb]; try done.
  destruct (lookup_lt_is_Some_2 l (Z.to_nat y) ltac:(lia)) as [c ->]. done.
Qed.
Lemma shows_refl s : gfx_ok s -> shows s s (fun _ _ c => c).
Proof. intros H. split; try done. exists (back s). by rewrite set_back_id. Qed.
Lemma shows_trans s1 s2 s3 f g : shows s1 s2 f -> shows s2 s3 g -> shows s1 s3 (fun px py c => g px py (f px py c)).
Proof.
  intros [C1 O1 P1 B1] [C2 O2 P2 B2]. split; [|done| |].
  - destruct C1 as [m1 ->], C2 as [m2 ->]. exists m2. apply set_back_twice.
  - intros px py Hs. rewrite P2 by by apply (same_screen s1). by rewrite P1.
  - intros p Hp. rewrite B2, B1; [done|done|]. intros px py Hs. rewrite (same_offset s1) by done.
    apply Hp. by apply (same_screen s1 s2).
Qed.
Lemma shows_ext s s' f g : (forall px py, on_screen s px py -> f px py (pixel s px py) = g px py (pixel s px py)) ->
  shows s s' f -> shows s s' g.
Proof. intros E [C O P B]. split; try done. intros px py Hs. by rewrite P, E. Qed.

(** ** One pixel *)
Section pixels.
Context (s : gfx) (Hok : gfx_ok s).

Lemma offset_bounds px py : on_screen s px py -> 0 <= offset s px py /\ offset s px py + 4 <= g_size s.
Proof using Hok.
  intros [[Hx0 Hx] [Hy0 Hy]]. destruct Hok as [_ [Hw Hs] Hh [-> Hz] _]. unfold offset.
  assert (g_stride s * py + g_stride s <= g_stride s * g_height s) by nia. nia.
Qed.
Lemma GFX_off_ok px py : on_screen s px py -> GFX_off s px py = offset s px py.
Proof using Hok.
  intros Hs. pose proof (offset_bounds px py Hs) as [H0 H1]. destruct Hs as [[Hx0 Hx] [Hy0 Hy]].
  destruct Hok as [Hd [Hw Hst] Hh [Hsz Hz] _]. unfold GFX_off. rewrite Hd. change (32 / 8) with 4.
  assert (0 <= g_stride s * py) by nia. assert (py < 2 ^ 31) by nia. unfold offset in *.
  rewrite (u32_small py), (u32_small px), (u32_small (px * 4)), (u32_small (g_stride s * py)) by lia.
  rewrite u32_small by lia. lia.
Qed.
(** Two pixels have no byte in common. *)
Lemma offset_apart px py qx qy : on_screen s px py -> on_screen s qx qy -> (px, py) <> (qx, qy) ->
  offset s px py + 4 <= offset s qx qy \/ offset s qx qy + 4 <= offset s px py.
Proof using Hok.
  intros [[Hx0 Hx] _] [[Hx0' Hx'] _] Hne. destruct Hok as [_ [_ Hst] _ _ _]. unfold offset.
  destruct (Z.lt_trichotomy py qy) as [Hy|[->|Hy]].
  - left. nia.
  - assert (px <> qx) by congruence. lia.
  - right. nia.
Qed.
End pixels.

Lemma le_bytes n : forall v, Forall is_byte (le n v).
Proof. induction n as [|n IH]; intros v; constructor; [apply Z.mod_pos_bound; lia|apply IH]. Qed.
Lemma of_le_range l : Forall is_byte l -> 0 <= of_le l < 256 ^ Z.of_nat (length l).
Proof.
  induction 1 as [|b l Hb Hl IH]; cbn [of_le length]; [done|].
  rewrite Nat2Z.inj_succ, Z.pow_succ_r by lia. unfold is_byte in Hb. nia.
Qed.
Lemma bytes_at_write off l m : bytes_at (write_bytes off l m) off (length l) = l.
Proof.
  apply list_eq. intros i. unfold bytes_at. rewrite list_lookup_fmap.
  destruct (decide (i < length l)%nat) as [Hi|Hi].
  - rewrite lookup_seq_lt by done. cbn. unfold write_bytes.
    rewrite (proj2 (Z.leb_le _ _)), (proj2 (Z.ltb_lt _ _)) by lia. cbn [andb].
    replace (Z.to_nat (off + Z.of_nat i - off)) with i by lia.
    by destruct (lookup_lt_is_Some_2 l i Hi) as [x ->].
  - rewrite lookup_seq_ge by lia. cbn. symmetry. apply lookup_ge_None. lia.
Qed.
Lemma bytes_at_other off l m off' n : off' + Z.of_nat n <= off \/ off + Z.of_nat (length l) <= off' ->
  bytes_at (write_bytes off l m) off' n = bytes_at m off' n.
Proof.
  intros H. apply list_fmap_ext. intros _ i Hi%list_elem_of_lookup_2%elem_of_seq. unfold write_bytes.
  destruct (Z.leb_spec off (off' + Z.of_nat i)), (Z.ltb_spec (off' + Z.of_nat i) (off + Z.of_nat (length l))); cbn [andb]; done || lia.
Qed.

(** Only the pixel at [X], [Y] becomes [h] of what it was. *)
Definition put_at (X Y : Z) (h : Z -> Z) : Z -> Z -> Z -> Z :=
  fun px py c => if (px =? X) && (py =? Y) then h c else c.

Section access.
Context (s : gfx) (Hok : gfx_ok s) (X Y : Z) (Hs : on_screen s X Y).
Lemma GFX_ok : GFX X Y s = Ok (pixel s X Y, s).
Proof using Hok Hs.
  unfold GFX. rewrite GFX_off_ok by done. destruct (offset_bounds s Hok X Y Hs).
  by rewrite (proj2 (Z.leb_le _ _)).
Qed.
Lemma pixel_range : 0 <= pixel s X Y < 2 ^ 32.
Proof using Hok.
  unfold pixel. apply (of_le_range (bytes_at (back s) (offset s X Y) 4)).
  apply Forall_fmap, list.Forall_forall. intros i _. apply (gk_bytes s Hok).
Qed.
Lemma GFX_set_ok c h : 0 <= c < 2 ^ 32 -> h (pixel s X Y) = c ->
  exists s', GFX_set X Y c s = Ok (tt, s') /\ shows s s' (put_at X Y h).
Proof using Hok Hs.
  intros Hc Hh. exists (set_back (write_bytes (offset s X Y) (le 4 c) (back s)) s). split.
  { unfold GFX_set. rewrite GFX_off_ok by done. destruct (offset_bounds s Hok X Y Hs). by rewrite (proj2 (Z.leb_le _ _)). }
  set (m := write_bytes _ _ _). destruct (set_back_fields m s) as (Ew & Eh & Ed & Ez & Est & Ecl & Ecs).
  assert (same_context s (set_back m s)) as Hsame by by exists m.
  split; [done| | |].
  - destruct Hok as [H1 H2 H3 H4 H5 H6]. split; rewrite ?Ew, ?Eh, ?Ed, ?Ez, ?Est, ?Ecl, ?Ecs; try done.
    intros p. rewrite set_back_back. unfold m, write_bytes. case_match eqn:E; [|apply H5].
    apply andb_prop in E as [E1%Z.leb_le E2%Z.ltb_lt]. change (Z.of_nat (length (le 4 c))) with 4 in E2.
    destruct (lookup_lt_is_Some_2 (le 4 c) (Z.to_nat (p - offset s X Y))) as [b Hb]; [rewrite le_length; lia|].
    rewrite Hb. cbn. by apply (Forall_lookup_1 _ _ _ _ (le_bytes 4 c) Hb).
  - intros px py Hp. unfold pixel at 1. rewrite (same_offset s), set_back_back by done. unfold put_at, m.
    destruct (decide ((px, py) = (X, Y))) as [[= -> ->]|Hne].
    + rewrite !Z.eqb_refl. cbn [andb]. rewrite Hh. pose proof (bytes_at_write (offset s X Y) (le 4 c) (back s)) as E.
      rewrite le_length in E. rewrite E. by apply le_of_le.
    + replace ((px =? X) && (py =? Y)) with false.
      * rewrite bytes_at_other; [done|]. rewrite le_length. destruct (offset_apart s Hok px py X Y Hp Hs Hne); lia.
      * destruct (Z.eqb_spec px X), (Z.eqb_spec py Y); subst; done.
  - intros p Hp. rewrite set_back_back. unfold m, write_bytes. specialize (Hp X Y Hs).
    destruct (Z.leb_spec (offset s X Y) p), (Z.ltb_spec p (offset s X Y + Z.of_nat (length (le 4 c)))); try done.
    rewrite le_length in *. lia.
Qed.
End access.

Lemma lor_range a b n : 0 <= n -> 0 <= a < 2 ^ n -> 0 <= b < 2 ^ n -> 0 <= Z.lor a b < 2 ^ n.
Proof.
  intros Hn Ha Hb. split; [apply Z.lor_nonneg; lia|].
  destruct (Z.eq_dec (Z.lor a b) 0) as [->|Hne]; [lia|]. assert (0 <= Z.lor a b) by (apply Z.lor_nonneg; lia).
  apply Z.log2_lt_pow2; [lia|]. rewrite Z.log2_lor by lia.
  assert (0 < n) as Hpos.
  { destruct (Z.eq_dec n 0) as [->|]; [|lia]. assert (a = 0 /\ b = 0) as [-> ->] by (simpl in *; lia). done. }
  assert (forall c, 0 <= c < 2 ^ n -> Z.log2 c < n) as L.
  { intros c Hc. destruct (Z.eq_dec c 0) as [->|]; [done|]. apply Z.log2_lt_pow2; lia. }
  pose proof (L a Ha). pose proof (L b Hb). lia.
Qed.
Lemma blend_range bottom top : 0 <= bottom < 2 ^ 32 -> 0 <= top < 2 ^ 32 -> 0 <= alpha_blend_rgba bottom top < 2 ^ 32.
Proof. intros. unfold alpha_blend_rgba, rgba. repeat case_match; try done. apply u32_range. Qed.

(** The smaller of the end of the sprite and the edge of the screen: as far as
    the sprite reaches, it is the edge. *)
Lemma edge_ok x w W v : 0 < W < 2 ^ 31 -> - 2 ^ 31 <= x -> x + w < 2 ^ 31 -> x <= v < x + w ->
  v <= s32 (umin (x + w) (W - 1)) <-> v <= W - 1.
Proof.
  intros HW Hx Hw Hv. unfold umin. rewrite (u32_small (W - 1)) by lia.
  destruct (Z.lt_ge_cases (x + w) 0) as [Hneg|Hpos].
  - assert (u32 (x + w) = x + w + 2 ^ 32) as -> by (unfold u32; change (2 ^ 32) with 4294967296 in *; change (2 ^ 31) with 2147483648 in *; Z.div_mod_to_equations; lia).
    rewrite (proj2 (Z.ltb_ge _ _)) by lia. rewrite s32_small by lia. done.
  - rewrite u32_small by lia. destruct (Z.ltb_spec (x + w) (W - 1)); rewrite s32_small by lia; lia.
Qed.

Record sprite_ok (sp : sprite) : Prop := {
  so_width : 0 <= s_width sp < 65536;
  so_height : 0 <= s_height sp < 65536;
  so_bitmap : length (s_bitmap sp) = Z.to_nat (s_width sp * s_height sp);
  so_colors : Forall (fun c => 0 <= c < 2 ^ 32) (s_bitmap sp)
}.
Definition texel (sp : sprite) (u v : Z) : Z := default 0 (s_bitmap sp !! Z.to_nat (s_width sp * v + u)).

Section sprites.
Context (sp : sprite) (Hsp : sprite_ok sp).
Lemma SPRITE_ok u v s : 0 <= u < s_width sp -> 0 <= v < s_height sp ->
  SPRITE sp u v s = Ok (texel sp u v, s) /\ 0 <= texel sp u v < 2 ^ 32.
Proof using Hsp.
  intros Hu Hv. destruct Hsp as [Hw Hh Hl Hc]. unfold SPRITE, texel.
  destruct (lookup_lt_is_Some_2 (s_bitmap sp) (Z.to_nat (s_width sp * v + u))) as [c Hk]; [rewrite Hl; nia|].
  rewrite Hk. split; [done|]. cbn. by apply (Forall_lookup_1 _ _ _ _ Hc Hk).
Qed.

(** A row of the sprite, from column [u] on, is drawn at the row [y + v] of
    the screen; [h] mixes the colours. *)
Definition row_from (h : Z -> Z -> Z) (x y u v : Z) : Z -> Z -> Z -> Z :=
  fun px py c => if (py =? y + v) && (x + u <=? px) && (px <? x + s_width sp) then h c (texel sp (px - x) v) else c.
Lemma row_step h x y u v px py c : 0 <= u < s_width sp ->
  row_from h x y (u + 1) v px py (put_at (x + u) (y + v) (fun c => h c (texel sp u v)) px py c) = row_from h x y u v px py c.
Proof using.
  intros Hu. unfold row_from, put_at. destruct (Z.eqb_spec py (y + v)) as [->|]; cbn [andb].
  - destruct (Z.eqb_spec px (x + u)) as [->|].
    + cbn [andb]. rewrite (proj2 (Z.leb_gt (x + (u + 1)) (x + u))), (proj2 (Z.leb_le (x + u) (x + u))), (proj2 (Z.ltb_lt _ _)) by lia.
      cbn [andb]. by replace (x + u - x) with u by lia.
    + cbn [andb]. replace (x + (u + 1) <=? px) with (x + u <=? px); [done|].
      destruct (Z.leb_spec (x + u) px), (Z.leb_spec (x + (u + 1)) px); done || lia.
  - by rewrite andb_false_r.
Qed.
Lemma row_skip h x y u v px py c : px <> x + u -> row_from h x y (u + 1) v px py c = row_from h x y u v px py c.
Proof using.
  intros Hne. unfold row_from. replace (x + (u + 1) <=? px) with (x + u <=? px); [done|].
  destruct (Z.leb_spec (x + u) px), (Z.leb_spec (x + (u + 1)) px); done || lia.
Qed.
Lemma row_none h x y u v px py c : px < x + u \/ x + s_width sp <= px -> row_from h x y u v px py c = c.
Proof using.
  intros Hp. unfold row_from. destruct (Z.leb_spec (x + u) px), (Z.ltb_spec px (x + s_width sp));
    rewrite ?andb_false_r; done || lia.
Qed.

(** Where the sprite goes. *)
Context (x y : Z) (Hx : - 2 ^ 31 <= x /\ x + s_width sp < 2 ^ 31) (Hy : - 2 ^ 31 <= y /\ y + s_height sp < 2 ^ 31).
Notation R s := (s32 (umin (x + s_width sp) (g_width s - 1))).
Notation B s := (s32 (umin (y + s_height sp) (g_height s - 1))).

Lemma widths s : gfx_ok s -> 0 < g_width s < 2 ^ 31 /\ 0 < g_height s < 2 ^ 31.
Proof using. intros [_ [H1 H2] H3 [H4 H5] _]. rewrite H4 in H5. nia. Qed.

Lemma embedded_cols_ok v n : 0 <= v < s_height sp -> forall u s, gfx_ok s -> 0 <= y + v < g_height s ->
  0 <= u -> u + Z.of_nat n = s_width sp ->
  exists s', embedded_cols n sp x y u v (Z.max x 0) (Z.max y 0) (R s) (B s) s = Ok (tt, s') /\
    shows s s' (row_from alpha_blend_rgba x y u v).
Proof using Hsp Hx Hy.
  intros Hv. induction n as [|n IH]; intros u s Hok Hrow Hu Hn.
  { exists s. split; [done|]. eapply shows_ext; [|by apply shows_refl]. intros px py _. symmetry. cbn beta. rewrite row_none; [done|lia]. }
  destruct (widths s Hok) as [HW HH].
  assert (x + u <= R s <-> x + u <= g_width s - 1) as HR by (apply edge_ok; lia).
  assert (y + v <= B s <-> y + v <= g_height s - 1) as HB by (apply edge_ok; lia).
  assert (exists s1, (if (x + u <? Z.max x 0) || (x + u >? R s) || (y + v <? Z.max y 0) || (y + v >? B s) then ret tt
       else bottom <- GFX (x + u) (y + v) ;; top <- SPRITE sp u v ;;
            GFX_set (x + u) (y + v) (alpha_blend_rgba bottom top)) s = Ok (tt, s1) /\ gfx_ok s1 /\ same_context s s1 /\
     forall s2, shows s1 s2 (row_from alpha_blend_rgba x y (u + 1) v) -> shows s s2 (row_from alpha_blend_rgba x y u v))
    as (s1 & E1 & Hok1 & Hsame & Hnext).
  { rewrite (proj2 (Z.ltb_ge (y + v) (Z.max y 0))), (Z.gtb_ltb (y + v)), (proj2 (Z.ltb_ge (B s) (y + v))), !orb_false_r by lia.
    destruct (Z.ltb_spec (x + u) (Z.max x 0)) as [Hl|Hl]; cbn [orb]; [|rewrite Z.gtb_ltb; destruct (Z.ltb_spec (R s) (x + u)) as [Hr|Hr]].
    1, 2: exists s; split_and!; [done|done|exists (back s); by rewrite set_back_id|]; intros s2 Hs2;
      eapply shows_ext; [|exact Hs2]; intros px py [[Hp0 Hp1] _]; apply row_skip; lia.
    assert (on_screen s (x + u) (y + v)) as Hs by (split; lia).
    destruct (SPRITE_ok u v s) as [Et Ht]; [lia|done|].
    destruct (GFX_set_ok s Hok (x + u) (y + v) Hs (alpha_blend_rgba (pixel s (x + u) (y + v)) (texel sp u v))
      (fun c => alpha_blend_rgba c (texel sp u v))) as (s1 & E & Hsh); [apply blend_range; [by apply pixel_range|done]|done|].
    exists s1. split_and!; [|apply Hsh|apply Hsh|].
    - run (GFX_ok s Hok (x + u) (y + v) Hs). run Et. exact E.
    - intros s2 Hs2. eapply shows_ext; [|apply (shows_trans _ _ _ _ _ Hsh Hs2)].
      intros px py _. cbn beta. apply row_step. lia. }
  destruct (same_fields s s1 Hsame) as (Ew & Eh & _).
  destruct (IH (u + 1) s1 Hok1) as (s2 & E2 & Hsh2); [by rewrite Eh|lia|lia|].
  exists s2. split; [|by apply Hnext]. cbn [embedded_cols]. rewrite (bind_ok _ _ _ _ _ E1). by rewrite <-E2, Ew, Eh.
Qed.

Lemma opaque_cols_ok v : 0 <= v < s_height sp -> forall n u s, gfx_ok s -> 0 <= y + v < g_height s ->
  0 <= u -> 0 <= x + u -> n = Z.to_nat (s_width sp - u) ->
  exists s', opaque_cols n sp x y u v (R s) s = Ok (tt, s') /\
    shows s s' (row_from (fun _ top => Z.lor top 0xFF000000) x y u v).
Proof using Hsp Hx.
  intros Hv. induction n as [|n IH]; intros u s Hok Hrow Hu Hxu Hn.
  { exists s. split; [done|]. eapply shows_ext; [|by apply shows_refl]. intros px py _. symmetry. cbn beta. rewrite row_none; [done|lia]. }
  destruct (widths s Hok) as [HW HH].
  assert (x + u <= R s <-> x + u <= g_width s - 1) as HR by (apply edge_ok; lia).
  cbn [opaque_cols]. destruct (Z.leb_spec (x + u) (R s)) as [Hr|Hr].
  2: { exists s. split; [done|]. eapply shows_ext; [|by apply shows_refl]. intros px py [[Hp0 Hp1] _]. symmetry. cbn beta. rewrite row_none; [done|lia]. }
  assert (on_screen s (x + u) (y + v)) as Hs by (split; lia).
  destruct (SPRITE_ok u v s) as [Et Ht]; [lia|done|].
  destruct (GFX_set_ok s Hok (x + u) (y + v) Hs (Z.lor (texel sp u v) 0xFF000000) (fun _ => Z.lor (texel sp u v) 0xFF000000))
    as (s1 & E & Hsh); [apply lor_range; lia|done|].
  destruct (same_fields s s1 (sh_context _ _ _ Hsh)) as (Ew & Eh & _).
  destruct (IH (u + 1) s1 (sh_ok _ _ _ Hsh)) as (s2 & E2 & Hsh2); [by rewrite Eh|lia..|].
  exists s2. split.
  - run Et. run E. by rewrite <-E2, Ew.
  - eapply shows_ext; [|apply (shows_trans _ _ _ _ _ Hsh Hsh2)].
    intros px py _. cbn beta. apply (row_step (fun _ top => Z.lor top 0xFF000000)). lia.
Qed.

(** The rows [v] to [v + n - 1], each drawn by [cols] with the mixing [h]. *)
Definition rows_from (h : Z -> Z -> Z) (s : gfx) (v : Z) (n : nat) : Z -> Z -> Z -> Z :=
  fun px py c => if (y + v <=? py) && (py <? y + v + Z.of_nat n) && in_clip py s
                 then row_from h x y 0 (py - y) px py c else c.
Lemma rows_ok h (cols : Z -> M gfx unit) s0 :
  (forall v s, gfx_ok s -> same_context s0 s -> 0 <= v < s_height sp -> 0 <= y + v < g_height s0 ->
     exists s', cols v s = Ok (tt, s') /\ shows s s' (row_from h x y 0 v)) ->
  forall n v s, gfx_ok s -> same_context s0 s -> 0 <= v -> v + Z.of_nat n = s_height sp ->
  exists s', sprite_rows n cols y v (Z.max y 0) (B s0) s = Ok (tt, s') /\ shows s s' (rows_from h s0 v n).
Proof using Hy.
  intros Hcols. induction n as [|n IH]; intros v s Hok Hsame Hv Hn.
  { exists s. split; [done|]. eapply shows_ext; [|by apply shows_refl]. intros px py _. unfold rows_from.
    destruct (Z.leb_spec (y + v) py), (Z.ltb_spec py (y + v + Z.of_nat 0)); done || lia. }
  assert (0 < g_height s0 < 2 ^ 31) as HH by (destruct (widths s Hok) as [_ H]; by rewrite (proj1 (proj2 (same_fields _ _ Hsame))) in H).
  assert (y + v <= B s0 <-> y + v <= g_height s0 - 1) as HB by (apply edge_ok; lia).
  cbn [sprite_rows]. destruct (Z.ltb_spec (y + v) (Z.max y 0)) as [Ht|Ht].
  { destruct (IH (v + 1) s Hok Hsame) as (s' & E & Hsh); [lia..|]. exists s'. split; [exact E|].
    eapply shows_ext; [|exact Hsh]. intros px py [_ [Hp0 _]]. unfold rows_from.
    replace (y + (v + 1) + Z.of_nat n) with (y + v + Z.of_nat (S n)) by lia.
    by rewrite (proj2 (Z.leb_le (y + (v + 1)) py)), (proj2 (Z.leb_le (y + v) py)) by lia. }
  rewrite Z.gtb_ltb. destruct (Z.ltb_spec (B s0) (y + v)) as [Hb|Hb].
  { exists s. split; [done|]. eapply shows_ext; [|by apply shows_refl]. intros px py Hp%(same_screen _ _ Hsame).
    destruct Hp as [_ [_ Hp1]]. unfold rows_from. by rewrite (proj2 (Z.leb_gt (y + v) py)) by lia. }
  run (is_in_clip_ok (y + v) s (gk_clips s Hok)). rewrite (same_clip s0 s Hsame).
  assert (exists s1, (when in_clip (y + v) s0 do cols v) s = Ok (tt, s1) /\
    shows s s1 (fun px py c => if in_clip (y + v) s0 then row_from h x y 0 v px py c else c)) as (s1 & E1 & Hsh1).
  { destruct (in_clip (y + v) s0); [apply Hcols; (done || lia)|]. exists s. split; [done|by apply shows_refl]. }
  assert (same_context s0 s1) as Hsame1.
  { destruct Hsame as [m ->], (sh_context _ _ _ Hsh1) as [m1 ->]. exists m1. apply set_back_twice. }
  destruct (IH (v + 1) s1 (sh_ok _ _ _ Hsh1) Hsame1) as (s2 & E2 & Hsh2); [lia..|].
  exists s2. split; [by rewrite (bind_ok _ _ _ _ _ E1)|].
  eapply shows_ext; [|apply (shows_trans _ _ _ _ _ Hsh1 Hsh2)]. intros px py _. cbn beta. unfold rows_from.
  replace (y + (v + 1) + Z.of_nat n) with (y + v + Z.of_nat (S n)) by lia.
  destruct (Z.leb_spec (y + v) py) as [H1|H1]; cbn [andb].
  - destruct (Z.eq_dec py (y + v)) as [->|Hne].
    + rewrite (proj2 (Z.leb_gt (y + (v + 1)) _)), (proj2 (Z.ltb_lt (y + v) _)) by lia. cbn [andb]. by replace (y + v - y) with v by lia.
    + rewrite (proj2 (Z.leb_le (y + (v + 1)) py)) by lia. cbn [andb].
      assert (forall c, (if in_clip (y + v) s0 then row_from h x y 0 v px py c else c) = c) as Er.
      { intros c. case_match; [|done]. unfold row_from. by rewrite (proj2 (Z.eqb_neq py (y + v))). }
      by rewrite Er.
  - rewrite (proj2 (Z.leb_gt (y + (v + 1)) py)) by lia. cbn [andb]. case_match; [|done].
    unfold row_from. by rewrite (proj2 (Z.eqb_neq py (y + v))) by lia.
Qed.
End sprites.

(** What the sprite, with its corner at [x], [y], makes of the colour [c]. *)
Definition sprite_over (sp : sprite) (x y : Z) (s : gfx) : Z -> Z -> Z -> Z :=
  fun px py c =>
    if (x <=? px) && (px <? x + s_width sp) && (y <=? py) && (py <? y + s_height sp) && in_clip py s then
      let top := texel sp (px - x) (py - y) in
      if s_alpha sp =? ALPHA_EMBEDDED then alpha_blend_rgba c top
      else if s_alpha sp =? ALPHA_OPAQUE then Z.lor top 0xFF000000
      else c
    else c.

(** C37: a sprite whose left side is at [x > -65536] is drawn wherever it lies,
    also partly or wholly outside of the screen: exactly the pixels of the
    screen that it covers, in rows of the damaged region, become the mixture of
    their colour and the sprite's, and no other byte of memory is touched. *)
Theorem draw_sprite_shows sp x y s :
  gfx_ok s -> sprite_ok sp -> - 65536 < x -> x + s_width sp < 2 ^ 31 -> - 2 ^ 31 <= y -> y + s_height sp < 2 ^ 31 ->
  exists s', draw_sprite sp x y s = Ok (tt, s') /\ shows s s' (sprite_over sp x y s).
Proof.
  intros Hok Hsp Hx0 Hx1 Hy0 Hy1. pose proof (so_width sp Hsp) as Hw. pose proof (so_height sp Hsp) as Hh.
  assert (same_context s s) as Hss by (exists (back s); by rewrite set_back_id).
  assert (- 2 ^ 31 <= x /\ x + s_width sp < 2 ^ 31) as Hx by lia.
  assert (- 2 ^ 31 <= y /\ y + s_height sp < 2 ^ 31) as Hy by done.
  unfold draw_sprite. rewrite get_bind. unfold sprite_over.
  assert (forall h px py c, rows_from sp x y h s 0 (Z.to_nat (s_height sp)) px py c =
    if (x <=? px) && (px <? x + s_width sp) && (y <=? py) && (py <? y + s_height sp) && in_clip py s
    then h c (texel sp (px - x) (py - y)) else c) as Hover.
  { intros h px py c. unfold rows_from, row_from. rewrite !Z.add_0_r, Z2Nat.id by lia.
    replace (y + (py - y)) with py by lia. rewrite Z.eqb_refl.
    by destruct (x <=? px), (px <? x + s_width sp), (y <=? py), (py <? y + s_height sp), (in_clip py s). }
  destruct (s_alpha sp =? ALPHA_EMBEDDED); [|destruct (s_alpha sp =? ALPHA_OPAQUE)].
  - edestruct (rows_ok sp x y Hy alpha_blend_rgba) as (s' & E & Hsh); [|exact Hok|exact Hss|reflexivity|apply Z2Nat.id; lia|].
    2: { exists s'. split; [exact E|]. eapply shows_ext; [|exact Hsh]. intros px py _. cbv beta. by rewrite Hover. }
    intros v s1 Hok1 Hs1 Hv Hr. destruct (same_fields s s1 Hs1) as (Ew & Eh & _). rewrite <-Ew, <-Eh.
    apply embedded_cols_ok; try done; lia.
  - edestruct (rows_ok sp x y Hy (fun _ top => Z.lor top 0xFF000000)) as (s' & E & Hsh); [|exact Hok|exact Hss|reflexivity|apply Z2Nat.id; lia|].
    2: { exists s'. split; [exact E|]. eapply shows_ext; [|exact Hsh]. intros px py _. cbv beta. by rewrite Hover. }
    intros v s1 Hok1 Hs1 Hv Hr. destruct (same_fields s s1 Hs1) as (Ew & Eh & _). rewrite <-Ew.
    set (u := u16 _). assert (u = Z.max 0 (- x)) as Hu.
    { unfold u. destruct (Z.ltb_spec x (Z.max x 0)); rewrite u16_small by lia; lia. }
    destruct (opaque_cols_ok sp Hsp x y Hx v Hv (Z.to_nat (s_width sp - u)) u s1) as (s2 & E & Hsh); [done|lia..|done|].
    exists s2. split; [exact E|]. eapply shows_ext; [|exact Hsh]. intros px py [[Hp _] _]. unfold row_from.
    replace (x + u <=? px) with (x + 0 <=? px); [done|]. destruct (Z.leb_spec (x + 0) px), (Z.leb_spec (x + u) px); done || lia.
  - exists s. split; [done|]. eapply shows_ext; [|by apply shows_refl]. intros px py _. by case_match.
Qed.

(** A screen of 3 by 2 pixels, whose second row is damaged, and a sprite of 2
    by 2 that begins left of it. *)
Definition tiny_mode : vbe_mode_info := Vbe 32 16 8 0 8 16 8 8 8 0.
Definition tiny : gfx := Gfx 3 2 32 32 16 (fun _ => 0) (Some (fun _ => 7)) (Some [0; 1]) 2 tiny_mode.
Definition tiny_sprite (alpha : Z) : sprite := Sprite 2 2 [0xFF000001; 0xFF000002; 0xFF000003; 0xFF000004] alpha.
Lemma tiny_ok : gfx_ok tiny.
Proof. split; try done. by intros l [= <-]. Qed.
Lemma tiny_sprite_ok alpha : sprite_ok (tiny_sprite alpha).
Proof. split; try done. by_computation. Qed.
Lemma draw_sprite_shows_witness :
  exists s', draw_sprite (tiny_sprite ALPHA_EMBEDDED) (-1) 0 tiny = Ok (tt, s') /\
    shows tiny s' (sprite_over (tiny_sprite ALPHA_EMBEDDED) (-1) 0 tiny) /\ pixel s' 0 1 = 0xFF000004 /\ pixel s' 0 0 = 0x07070707.
Proof.
  destruct (draw_sprite_shows (tiny_sprite ALPHA_EMBEDDED) (-1) 0 tiny) as (s' & E & Hs); [exact tiny_ok|apply tiny_sprite_ok|simpl; lia..|].
  exists s'. split; [exact E|]. split; [exact Hs|]. split; rewrite (sh_pixel _ _ _ Hs) by (split; simpl; lia); vm_compute; reflexivity.
Defined.

(** ** The damaged rows are shown *)

Lemma copy_range_ok off n s : off + n <= g_size s ->
  exists s', copy_range off n s = Ok (tt, s') /\ back s' = (match backbuffer s with Some m => m | None => buffer s' end) /\
    (forall p, buffer s' p = if (off <=? p) && (p <? off + n) then back s p else buffer s p) /\
    backbuffer s' = backbuffer s /\ clips s' = clips s /\ clips_size s' = clips_size s /\
    g_width s' = g_width s /\ g_stride s' = g_stride s /\ g_size s' = g_size s.
Proof.
  intros H. eexists. split; [unfold copy_range; by rewrite (proj2 (Z.leb_le _ _))|]. split_and!; try done.
Qed.
(** [flip] with a second buffer and a damaged region: the rows of the region
    show what was drawn, the others what they showed before. *)
Lemma flip_rows_ok m : forall n i s, backbuffer s = Some m -> 0 <= i -> 4 * g_width s <= g_stride s -> 0 < g_width s ->
  (i + Z.of_nat n) * g_stride s <= g_size s -> g_size s < 2 ^ 31 ->
  (forall l, clips s = Some l -> clips_size s <= Z.of_nat (length l)) ->
  exists s', flip_rows n i s = Ok (tt, s') /\ backbuffer s' = Some m /\
    forall py o, 0 <= o < 4 * g_width s -> 0 <= py -> py * g_stride s + g_stride s <= g_size s ->
      buffer s' (py * g_stride s + o) =
        if (i <=? py) && (py <? i + Z.of_nat n) && in_clip py s then m (py * g_stride s + o) else buffer s (py * g_stride s + o).
Proof.
  induction n as [|n IH]; intros i s Hm Hi Hw Hw0 Hz H31 Hcl.
  { exists s. split_and!; try done. intros py o _ _ _. by destruct (Z.leb_spec i py), (Z.ltb_spec py (i + Z.of_nat 0)); try lia. }
  assert (0 < g_stride s /\ i * g_stride s + g_stride s <= g_size s) as [Hst Hrow] by nia.
  assert (0 <= i * g_stride s) as Hoff by nia.
  cbn [flip_rows]. rewrite get_bind. run (is_in_clip_ok i s Hcl).
  assert (exists s1, (when in_clip i s do copy_range (u32 (i * g_stride s)) (u32 (4 * g_width s))) s = Ok (tt, s1) /\
    backbuffer s1 = Some m /\ clips s1 = clips s /\ clips_size s1 = clips_size s /\
    g_width s1 = g_width s /\ g_stride s1 = g_stride s /\ g_size s1 = g_size s /\
    forall p, buffer s1 p = if in_clip i s && (i * g_stride s <=? p) && (p <? i * g_stride s + 4 * g_width s) then m p else buffer s p)
    as (s1 & E1 & Hm1 & Hc1 & Hn1 & Hw1 & Hs1 & Hz1 & Hb1).
  { destruct (in_clip i s); [|by exists s]. rewrite !u32_small by lia.
    destruct (copy_range_ok (i * g_stride s) (4 * g_width s) s) as (s1 & E & _ & Hb & ? & ? & ? & ? & ? & ?); [lia|].
    exists s1. split_and!; try congruence. intros p. rewrite Hb. unfold back. by rewrite Hm. }
  destruct (IH (i + 1) s1) as (s2 & E2 & Hm2 & Hb2); rewrite ?Hw1, ?Hs1, ?Hz1, ?Hc1, ?Hn1; [done|lia|lia|lia|nia|lia|done|].
  exists s2. split_and!; [by rewrite (bind_ok _ _ _ _ _ E1)|done|].
  intros py o Ho Hpy Hpz. rewrite Hw1, Hs1, Hz1 in Hb2. rewrite Hb2 by done. rewrite Hb1.
  assert (in_clip py s1 = in_clip py s) as -> by (unfold in_clip; by rewrite Hc1, Hn1).
  replace (i + 1 + Z.of_nat n) with (i + Z.of_nat (S n)) by lia.
  destruct (Z.lt_trichotomy py i) as [Hlt|[->|Hgt]].
  - rewrite (proj2 (Z.leb_gt (i + 1) py)), (proj2 (Z.leb_gt i py)) by lia. cbn [andb].
    rewrite (proj2 (Z.leb_gt (i * g_stride s) _)) by nia. by rewrite andb_false_r.
  - rewrite (proj2 (Z.leb_gt (i + 1) i)), (proj2 (Z.leb_le i i)), (proj2 (Z.ltb_lt i _)) by lia. cbn [andb].
    rewrite (proj2 (Z.leb_le (i * g_stride s) _)), (proj2 (Z.ltb_lt _ (i * g_stride s + _))) by lia. by rewrite !andb_true_r.
  - rewrite (proj2 (Z.leb_le (i + 1) py)), (proj2 (Z.leb_le i py)) by lia.
    rewrite (proj2 (Z.ltb_ge _ (i * g_stride s + 4 * g_width s))) by nia. by rewrite andb_false_r.
Qed.
Lemma flip_shows_damaged m l s : backbuffer s = Some m -> clips s = Some l -> gfx_ok s ->
  exists s', flip s = Ok (tt, s') /\ forall px py, on_screen s px py -> forall b, 0 <= b < 4 ->
    buffer s' (offset s px py + b) = (if in_clip py s then m else buffer s) (offset s px py + b).
Proof.
  intros Hm Hl [_ [Hw Hst] Hh [Hz Hz31] _ Hcl]. unfold flip. rewrite get_bind, Hl.
  destruct (flip_rows_ok m (Z.to_nat (g_height s)) 0 s) as (s' & E & _ & Hb); [done|lia|lia|lia|rewrite Hz; nia|done|exact Hcl|].
  exists s'. split; [exact E|]. intros px py [[Hx0 Hx] [Hy0 Hy]] b Hb4. unfold offset.
  replace (g_stride s * py + 4 * px + b) with (py * g_stride s + (4 * px + b)) by lia.
  rewrite Hb; [|lia|lia|rewrite Hz; nia]. rewrite (proj2 (Z.leb_le 0 py)), (proj2 (Z.ltb_lt py _)) by lia. cbn [andb].
  by case_match.
Qed.

(** The damaged region that [gfx_add_clip] makes is as long as it says. *)
Lemma gfx_add_clip_ok m x y w h s : gfx_ok s ->
  exists s', gfx_add_clip (Some m) x y w h s = Ok (tt, s') /\ gfx_ok s' /\
    exists l, clips s' = Some l /\ forall py, 0 <= py < clips_size s' -> y <= py < s32 (y + h) -> in_clip py s' = true.
Proof.
  intros Hok. assert (exists l n s1, ((match clips s with
      | None => put (set_clips (Some (replicate (Z.to_nat (g_height s)) 0)) (s32 (g_height s)) s) | Some _ => ret tt end) : M gfx unit) s = Ok (tt, s1) /\
    s1 = set_clips (Some l) n s /\ n <= Z.of_nat (length l)) as (l & n & s1 & E1 & Es1 & Hl).
  { destruct (clips s) as [l|] eqn:El.
    - exists l, (clips_size s), s. split_and!; [done| |by apply (gk_clips s Hok)]. destruct s. simpl in *. by subst.
    - eexists _, _, _. split_and!; [done..|]. rewrite length_replicate. destruct (widths s Hok) as [_ ?]. rewrite s32_small by lia. lia. }
  subst s1. unfold gfx_add_clip. rewrite get_bind. run E1. rewrite get_bind. eexists. split; [reflexivity|].
  set (l' := imap _ l). assert (length l' = length l) as El' by apply length_imap. split.
  - destruct Hok. split; try done. intros l0 [= <-]. cbn. by rewrite El'.
  - exists l'. split; [done|]. intros py Hpy Hr. unfold in_clip. cbn [clips clips_size set_clips] in *.
    destruct (_ || _); [done|]. unfold l'. rewrite list_lookup_imap.
    destruct (lookup_lt_is_Some_2 l (Z.to_nat py) ltac:(lia)) as [c ->]. cbn. rewrite Z2Nat.id by lia.
    rewrite (proj2 (Z.leb_le _ _)), (proj2 (Z.ltb_lt _ _)) by lia. done.
Qed.

(** ** What goes wrong *)
(** 65536 pixels to the left, the first column is taken to be 0 again. *)
Lemma sprite_wraps_far_left : draw_sprite (tiny_sprite ALPHA_OPAQUE) (-65536) 0 (set_clips None 0 tiny) = Fault.
Proof. vm_compute. reflexivity. Qed.
(** A colour that was not multiplied with its alpha before: half a red over
    white has less red than either. *)
Lemma blend_wraps : _R (alpha_blend_rgba 0xFFFFFFFF 0x80FF0000) = 126.
Proof. vm_compute. reflexivity. Qed.
(** The alpha of a converted colour is what was on the stack. *)
Lemma convert_alpha_random : convert_argb 0 0x112233 tiny = 0x112233 /\ convert_argb 200 0x112233 tiny = 0xC8112233.
Proof. vm_compute. split; reflexivity. Qed.
(** A loop with a counter of 16 bits and a limit above 65535 has no end. *)
Lemma loop16_endless below (body : Z -> M gfx unit) : 65536 <= below -> (forall v s, exists s', body v s = Ok (tt, s')) ->
  forall n from s, for16 n (u16 from) below body s = Stuck.
Proof.
  intros Hb Hbody. induction n as [|n IH]; intros from s; [done|]. cbn [for16]. pose proof (u16_range from).
  rewrite (proj2 (Z.ltb_lt (u16 from) below)) by lia. destruct (Hbody (u16 from) s) as [s' E]. rewrite (bind_ok _ _ _ _ _ E). apply IH.
Qed.
(** A rectangle that begins left of the screen is not drawn at all, and one
    that ends right of it is drawn over the end of the line and of memory. *)
Lemma rect_not_clipped c :
  fill_rect_solid (Point (-1) 0) (Point 2 1) c tiny = Ok (tt, tiny) /\ fill_rect_solid (Point 2 1) (Point 5 2) c tiny = Fault.
Proof. split; reflexivity. Qed.
