(* ===== verification/Package.v ===== *)
(** * Package: messages between a server and its clients
    (core/vfs/packagefs.c, core/lib/packetx.c)

    A server has a circular queue for the messages to it, and so has each
    client; a message is a header of two words (size and sender) and its bytes.
    The calls wait in the circular queues, so they are resumptions (Resume.v)
    over the files of Fs.v and the queues and threads of Ioqueue.v together.
    Servers and clients are named by their addresses; the lock of a server and
    the list of its clients lie inside it.  What a block of [sys_malloc] holds
    after it was given back is not kept: a message that a call builds and hands
    to a queue is a list of bytes. *)
From S2P Require Import Prelude Lists Bitmap Kernel Locks Fs FsInode FsDir FsFile Path FsPath FsDev FsCalls Ioqueue Ports Resume.

(** ** The data *)
Record pkg_server_t := PkgServer { s_name : list Z; s_msg_list : Z }.
Record pkg_client_t := PkgClient { server : Z; c_msg_list : Z }.
Definition sizeof_server : Z := 44.
Definition server_lock (s : Z) : Z := s + 12.
Definition server_clients (s : Z) : Z := s + 36.
Definition sizeof_client : Z := 16.
Definition client_target (c : Z) : Z := c + 4.
Definition of_client_target (p : Z) : Z := p - 4.
(** [sizeof(package_t)], without its data, and [sizeof(header_t)]. *)
Definition sizeof_package : Z := 8.
Definition sizeof_header : Z := 4.
Definition MAX_PACKET_SIZE : Z := 1024.
Definition IO_PACKAGEFS_QUEUE : Z := 0x9001.
Definition EINVAL : Z := 22.
(** The bytes of a [package_t]. *)
Definition package (size source : Z) (data : list Z) : list Z := le 4 size ++ le 4 source ++ data.

Record pkgsys := Pkgsys {
  pk_files : fs;
  pk_io : iosys;
  pk_servers : gmap Z pkg_server_t;
  pk_clients : gmap Z pkg_client_t }.
Definition set_pk_files v x := Pkgsys v (pk_io x) (pk_servers x) (pk_clients x).
Definition set_pk_io v x := Pkgsys (pk_files x) v (pk_servers x) (pk_clients x).
Definition set_servers v x := Pkgsys (pk_files x) (pk_io x) v (pk_clients x).
Definition set_clients v x := Pkgsys (pk_files x) (pk_io x) (pk_servers x) v.
#[export] Program Instance pkg_kern : HasKern pkgsys :=
  {| kernel x := kn (pk_io x); set_kernel k x := set_pk_io (set_kn k (pk_io x)) x |}.
Next Obligation. done. Qed.
Next Obligation. done. Qed.
Next Obligation. by intros [? [] ? ?]. Qed.
Definition set_pgdir (v : Z) (t : TCB) : TCB :=
  Tcb (parent_pid t) (pid t) (exit_status t) (status t) (priority t) (ticks t) (elapsed_ticks t) v
      (p_message t) (p_recvfrom t) (p_sendto t) (p_flags t) (p_intr_present t)
      (p_sending_queue t) (p_next_sending t) (stack_magic t).

(** Memory: where [sys_malloc] (for the running thread, in kernel memory when
    its page directory is null) and [get_kernel_page] find room; 0 for none. *)
Class PkgMemory := {
  sys_malloc : Z -> pkgsys -> Z;
  get_kernel_page : pkgsys -> Z -> Z
}.

Section accesses.
Definition in_io {A} (m : M iosys A) : M pkgsys A := zoom pk_io set_pk_io m.
Definition in_files {A} (m : M fs A) : M pkgsys A := zoom pk_files set_pk_files m.
Definition in_kern {A} (m : M kern A) : M pkgsys A := in_io (Ioqueue.on_kern m).
Definition on_io {A} (m : M iosys A) : T pkgsys A := atom (in_io m).
Definition on_files {A} (m : M fs A) : T pkgsys A := atom (in_files m).
Definition server_at (a : Z) : M pkgsys pkg_server_t :=
  fun s => match pk_servers s !! a with Some x => Ok (x, s) | None => Fault end.
Definition client_at (a : Z) : M pkgsys pkg_client_t :=
  fun s => match pk_clients s !! a with Some x => Ok (x, s) | None => Fault end.
(** New memory, not tested for being null before it is used. *)
Definition malloc_used `{PkgMemory} (size : Z) : M pkgsys Z :=
  a <- gets (sys_malloc size) ;; (when a =? 0 do fault) ;;; ret a.
End accesses.

Section calls.
Context {G : Globals} {E : FsEnv} {D : Drivers} {Y : PkgMemory}.
(** Fuel for searches in lists, and for the rounds of a thread that waits. *)
Variables fuel rounds : nat.
Local Open Scope resume_scope.

(** ** The calls of core/lib/ioqueue.c, with the waiting in them *)
Fixpoint put_rounds (n : nat) (queue : Z) (data : list Z) (written count : Z) : T pkgsys Z :=
  match n with
  | O => atom stuck
  | S n =>
      if written <? count then
        lock_fetch fuel rounds (queue_lock queue) ;;;
        av <~ on_io (ioqueue_avaliable queue) ;;
        written <~ on_io (if av >? count then put_loop (S (Z.to_nat count)) queue data written count else ret written) ;;
        on_kern (wake_up_consumors fuel queue) ;;;
        (if written <? count then
           old_status <~ on_kern (wait_on fuel queue (producer_waiting_list queue)) ;;
           pause ;;;
           on_kern (wake_status old_status)
         else on_kern (lock_release fuel (queue_lock queue))) ;;;
        put_rounds n queue data written count
      else done written
  end.
Definition ioqueue_put_data (queue : Z) (data : list Z) : T pkgsys Z :=
  put_rounds rounds queue data 0 (Z.of_nat (length data)).
Fixpoint get_rounds (n : nat) (queue : Z) (data : list Z) (count : Z) : T pkgsys (list Z) :=
  match n with
  | O => atom stuck
  | S n =>
      if Z.of_nat (length data) <? count then
        lock_fetch fuel rounds (queue_lock queue) ;;;
        un <~ on_io (ioqueue_unread queue) ;;
        data <~ on_io (if un >=? count then get_loop (S (Z.to_nat count)) queue data count else ret data) ;;
        on_kern (wake_up_producers fuel queue) ;;;
        (if Z.of_nat (length data) <? count then
           old_status <~ on_kern (wait_on fuel queue (consumor_waiting_list queue)) ;;
           pause ;;;
           on_kern (wake_status old_status)
         else on_kern (lock_release fuel (queue_lock queue))) ;;;
        get_rounds n queue data count
      else done data
  end.
Definition ioqueue_get_data (queue count : Z) : T pkgsys (list Z) := get_rounds rounds queue [] count.
Definition ioqueue_size (queue : Z) : T pkgsys Z :=
  lock_fetch fuel rounds (queue_lock queue) ;;;
  out <~ on_io (ioqueue_unread queue) ;;
  on_kern (lock_release fuel (queue_lock queue)) ;;;
  done (s32 out).

(** ** Messages *)
(** The bytes of the message, and the result. *)
Definition receive_packet (msg_list : Z) : T pkgsys (list Z * Z) :=
  head <~ ioqueue_get_data msg_list 4 ;;
  let data_size := of_le head in
  atom (malloc_used (u32 (data_size + sizeof_package))) ;;;
  body <~ ioqueue_get_data msg_list (u32 (data_size + sizeof_package - 4)) ;;
  done (le 4 data_size ++ body, u32 (Z.of_nat (length body) + 4)).
Definition send_to_server (serv c size : Z) (data : list Z) : T pkgsys Z :=
  atom (malloc_used (u32 (sizeof_package + size))) ;;;
  x <~ atom (server_at serv) ;;
  ioqueue_put_data (s_msg_list x) (package size c data).
(** The sender null is the server. *)
Definition send_to_client (c size : Z) (data : list Z) : T pkgsys Z :=
  atom (malloc_used (u32 (sizeof_package + size))) ;;;
  x <~ atom (client_at c) ;;
  ioqueue_put_data (c_msg_list x) (package size 0 data).

(** ** Making servers and clients *)
(** [sys_malloc] with the page directory of the thread put aside. *)
Definition kernel_malloc (size : Z) : M pkgsys Z :=
  (cur <- in_kern running_thread ;;
   t <- in_kern (tcb cur) ;;
   in_kern (upd_tcb cur (set_pgdir 0)) ;;;
   a <- gets (sys_malloc size) ;;
   in_kern (upd_tcb cur (set_pgdir (pgdir t))) ;;;
   ret a)%frog.
Definition new_nodes (l : list Z) : M kern unit :=
  modify (fun k => set_klists (foldr (fun a h => <[a := Node 0 0]> h) (klists k) l) k).
Definition new_queue : M pkgsys Z := fun s => in_io (Ioqueue.init_ioqueue (get_kernel_page s) 4000) s.
Definition create_client (server : Z) : M pkgsys Z :=
  (client <- kernel_malloc sizeof_client ;;
   (when client =? 0 do fault) ;;;
   msg_list <- new_queue ;;
   in_kern (new_nodes [client_target client]) ;;;
   modify (fun s => set_clients (<[client := PkgClient server msg_list]> (pk_clients s)) s) ;;;
   in_kern (list_add_tail (client_target client) (server_clients server)) ;;;
   ret client)%frog.
(** The block for the name has [strlen(name)] bytes; [strcpy] writes one more. *)
Definition create_server (name : list Z) : M pkgsys Z :=
  (server <- kernel_malloc sizeof_server ;;
   (when server =? 0 do fault) ;;;
   msg_list <- new_queue ;;
   in_kern (new_nodes [server_clients server; waiting_queue (server_lock server)]) ;;;
   in_kern (INIT_LIST_HEAD (server_clients server)) ;;;
   malloc_used (Z.of_nat (length name)) ;;;
   modify (fun s => set_servers (<[server := PkgServer name msg_list]> (pk_servers s)) s) ;;;
   in_kern (modify (fun k => set_locks (<[server_lock server := Lock 0 0 0]> (locks k)) k)) ;;;
   in_kern (lock_init (server_lock server)) ;;;
   ret server)%frog.

(** An inode that is only in memory, for the descriptor of a client. *)
Definition client_inode (client : Z) : inode :=
  set_dev DNOPKGFS (set_count 1 (set_mode (Z.shiftl FT_FIFO 11) (set_zones (<[0%nat := client]> (i_zones zero_inode)) zero_inode))).
Definition open_pkg (parent_d : Z) (name : list Z) (inode_nr flags : Z) : M pkgsys Z :=
  (if Z.land flags O_CREAT =? O_CREAT then
     server <- create_server name ;;
     gidx <- in_files (packagefs_create parent_d name server) ;;
     in_files (install_thread_fd gidx)
   else
     a <- in_files (inode_open inode_nr) ;;
     i <- in_files (inode_at a) ;;
     ser <- in_files (elem (i_zones i) 0) ;;
     client <- create_client ser ;;
     in_files lock_files ;;;
     gidx <- in_files occupy_file_table_slot ;;
     if gidx =? -1 then ret (-1)
     else
       m <- in_files (gets inodes) ;;
       let a := new_address m in
       in_files (modify (fun s => set_inodes (<[a := client_inode client]> (inodes s)) s)) ;;;
       in_files (set_slot gidx (fun _ => File CLIENT_MARK flags a)) ;;;
       in_files unlock_files ;;;
       in_files (install_thread_fd gidx))%frog.

(** ** The file operations; [idx] is a slot of the file table *)
Definition pkg_target (idx : Z) : M pkgsys Z :=
  (f <- in_files (file_at idx) ;; i <- in_files (inode_at (fd_inode f)) ;; in_files (elem (i_zones i) 0))%frog.
Definition read_server (idx count : Z) : T pkgsys (list Z * Z) :=
  server <~ atom (pkg_target idx) ;;
  x <~ atom (server_at server) ;;
  p <~ receive_packet (s_msg_list x) ;;
  let '(packet, _) := p in
  let size := of_le (take 4 packet) in
  if u32 (size + sizeof_package) >? count then done ([], u32 (-1))
  else
    let out_size := u32 (size + sizeof_package) in
    done (take (Z.to_nat out_size) packet, out_size).
(** The loop of the broadcast; the next client is looked up after the message
    has gone. *)
Fixpoint broadcast (n : nat) (pos head size : Z) (data : list Z) : T pkgsys unit :=
  match n with
  | O => atom stuck
  | S n =>
      if pos =? head then done tt
      else
        send_to_client (of_client_target pos) size data ;;;
        pos <~ on_kern (get_next pos) ;;
        broadcast n pos head size data
  end.
Definition write_server (idx : Z) (buf : list Z) : T pkgsys Z :=
  let count := Z.of_nat (length buf) in
  p <~ atom (pkg_target idx) ;;
  let size := u32 (count - sizeof_header) in
  if size >? MAX_PACKET_SIZE then done (u32 (-1))
  else
    let target := of_le (take 4 buf) in
    let data := drop 4 buf in
    if target =? 0 then
      lock_fetch fuel rounds (server_lock p) ;;;
      pos <~ on_kern (get_next (server_clients p)) ;;
      broadcast fuel pos (server_clients p) size data ;;;
      on_kern (lock_release fuel (server_lock p)) ;;;
      done count
    else
      x <~ atom (client_at target) ;;
      if negb (server x =? p) then done (u32 (-1))
      else
        n <~ send_to_client target size data ;;
        done (u32 (n + sizeof_header)).
Definition ioctl_server (idx request : Z) : T pkgsys Z :=
  if request =? IO_PACKAGEFS_QUEUE then
    s <~ atom (pkg_target idx) ;;
    x <~ atom (server_at s) ;;
    ioqueue_size (s_msg_list x)
  else done (- EINVAL).
Definition read_client (idx count : Z) : T pkgsys (list Z * Z) :=
  c <~ atom (pkg_target idx) ;;
  x <~ atom (client_at c) ;;
  p <~ receive_packet (c_msg_list x) ;;
  let '(packet, _) := p in
  let size := of_le (take 4 packet) in
  if u32 (size + sizeof_package) >? count then done ([], u32 (-1))
  else done (take (Z.to_nat size) (drop 8 packet), size).
Definition write_client (idx : Z) (buf : list Z) : T pkgsys Z :=
  let count := Z.of_nat (length buf) in
  c <~ atom (pkg_target idx) ;;
  if count >? MAX_PACKET_SIZE then done (u32 (- EINVAL))
  else
    x <~ atom (client_at c) ;;
    send_to_server (server x) c count buf ;;;
    done count.
Definition ioctl_client (idx request : Z) : T pkgsys Z :=
  if request =? IO_PACKAGEFS_QUEUE then
    c <~ atom (pkg_target idx) ;;
    x <~ atom (client_at c) ;;
    ioqueue_size (c_msg_list x)
  else done (- EINVAL).

(** ** The calls of core/fs/fs.c on descriptors of package files *)
(** The tests of [sys_write] and [sys_read] before the package files; the
    descriptor [std] is the one for the console or the keyboard. *)
Definition pkg_branch (std fd : Z) : M fs bool :=
  (pipe <- is_pipe fd ;;
   if pipe : bool then ret false
   else if fd =? std then ret false
   else
     char <- is_char_fd fd ;;
     if char : bool then ret false else is_pkg_fd fd)%frog.
Definition sys_write (fd : Z) (buf : list Z) : T pkgsys Z :=
  if fd <? 0 then done (-1)
  else
    pkg <~ on_files (pkg_branch 1 fd) ;;
    if pkg : bool then
      g_fd <~ on_files (fd_local2global fd) ;;
      wr_file <~ on_files (file_at g_fd) ;;
      if fd_pos wr_file =? CLIENT_MARK then write_client g_fd buf else write_server g_fd buf
    else on_files (FsCalls.sys_write fd buf).
Definition sys_read (fd count : Z) : T pkgsys (list Z * Z) :=
  if fd <? 0 then done ([], -1)
  else if fd =? 2 then done ([], -1)
  else
    pkg <~ on_files (pkg_branch 0 fd) ;;
    if pkg : bool then
      g_fd <~ on_files (fd_local2global fd) ;;
      f <~ on_files (file_at g_fd) ;;
      if fd_pos f =? CLIENT_MARK then read_client g_fd count else read_server g_fd count
    else on_files (FsCalls.sys_read fd count).
Definition sys_ioctl (fd request argp : Z) : T pkgsys (option Z) :=
  g_fd <~ on_files (get_file fd) ;;
  f <~ on_files (file_at g_fd) ;;
  i <~ on_files (inode_at (fd_inode f)) ;;
  if i_dev i =? DNOPKGFS then
    r <~ (if fd_pos f =? CLIENT_MARK then ioctl_client g_fd request else ioctl_server g_fd request) ;;
    done (Some r)
  else on_files (FsCalls.sys_ioctl fd request argp).
(** [sys_open], for which [root] is the inode of the root directory. *)
Definition open_found (pathname last_name : list Z) (next_dir : dir) (file_inode_nr flags : Z) : M pkgsys Z :=
  (if negb (Z.land flags O_CREAT =? 0) then
     fd <- (if bool_decide (take 8 pathname = DEV_PKG)
            then open_pkg (d_inode next_dir) last_name file_inode_nr flags
            else in_files (file_create (d_inode next_dir) last_name flags)) ;;
     in_files (dir_close_dir next_dir) ;;;
     ret fd
   else
     char <- in_files (is_char_file file_inode_nr) ;;
     if char : bool then
       aux <- in_files (is_dev file_inode_nr DNOAUX) ;;
       if aux : bool then in_files (open_aux file_inode_nr flags)
       else
         lfb <- in_files (is_dev file_inode_nr DNOLFB) ;;
         in_files (if lfb : bool then open_lfb file_inode_nr flags else open_aux file_inode_nr flags)
     else
       pkg <- in_files (is_pkg_file file_inode_nr) ;;
       if pkg : bool then open_pkg (d_inode next_dir) last_name file_inode_nr flags
       else in_files (file_open file_inode_nr flags))%frog.
Definition sys_open (root : Z) (pathname : list Z) (flags : Z) : M pkgsys Z :=
  (if bool_decide (list.last pathname = Some slash) then ret (-1)
   else
     in_files (when negb (length pathname =? 0)%nat do malloc_unchecked) ;;;
     p <- in_files (peel_copy pathname) ;;
     let '(_, last_name) := p in
     depth <- in_files (path_depth_m pathname) ;;
     names <- in_files (path_names depth pathname) ;;
     match names with
     | None => ret (-1)
     | Some names =>
         d <- in_files (open_dirs names (root_dir root)) ;;
         match d with
         | None => ret (-1)
         | Some next_dir =>
             file_inode_nr <- in_files (search_file next_dir last_name) ;;
             if (file_inode_nr =? -1) && (Z.land flags O_CREAT =? 0)
                || negb (file_inode_nr =? -1) && negb (Z.land flags O_CREAT =? 0)
             then in_files (dir_close_dir next_dir) ;;; ret (-1)
             else open_found pathname last_name next_dir file_inode_nr flags
         end
     end)%frog.

Definition DEV_PKG_MONITOR : list Z := DEV_PKG ++ [slash; 109; 111; 110; 105; 116; 111; 114].
(** [create_packetfs_monitor] makes an empty list of servers, which nobody
    looks at; its address goes into the file. *)
Definition packagefs_init (root : Z) (stack_inode : inode) : M pkgsys unit :=
  (monitor <- malloc_used 12 ;;
   in_kern (new_nodes [monitor]) ;;;
   in_kern (INIT_LIST_HEAD monitor) ;;;
   in_files (sys_mount_device root stack_inode DEV_PKG_MONITOR DNOPKGFS monitor) ;;;
   ret tt)%frog.
End calls.

(** ** The library for user programs (core/lib/packetx.c) *)
(** The system calls it makes; [malloc] gives 0 for no memory. *)
Class PkxCalls (S : Type) := {
  write : Z -> list Z -> T S Z;
  read : Z -> Z -> T S (list Z * Z);
  ioctl : Z -> Z -> Z -> T S (option Z);
  open : list Z -> Z -> T S Z;
  malloc : Z -> T S Z
}.
Definition MAX_PACKET_DATA_SIZE : Z := 1024.
Definition PACKET_SIZE : Z := sizeof_package + MAX_PACKET_DATA_SIZE.

Section packetx.
Context {S : Type} {X : PkxCalls S}.
Local Open Scope resume_scope.

(** The first [size] bytes at [blob], which has to have as many. *)
Definition blob_bytes (size : Z) (blob : list Z) : T S (list Z) :=
  atom (if size <=? Z.of_nat (length blob) then ret (take (Z.to_nat size) blob) else fault).
Definition pkx_send (sockfd rcpt size : Z) (blob : list Z) : T S Z :=
  atom (ASSERT (size <=? MAX_PACKET_DATA_SIZE)) ;;;
  broadcast <~ malloc (sizeof_header + size) ;;
  atom (if broadcast =? 0 then fault else ret tt) ;;;
  data <~ blob_bytes size blob ;;
  write sockfd (le 4 rcpt ++ data).
Definition pkx_broadcast (sockfd size : Z) (blob : list Z) : T S Z := pkx_send sockfd 0 size blob.
Definition pkx_listen (sockfd : Z) : T S (list Z * Z) := read sockfd PACKET_SIZE.
(** The size is not looked at. *)
Definition pkx_reply (sockfd size : Z) (blob : list Z) : T S Z :=
  data <~ blob_bytes MAX_PACKET_DATA_SIZE blob ;;
  write sockfd data.
(** The buffer is zeros behind what is read. *)
Definition pkx_recv (sockfd : Z) : T S (list Z * Z) :=
  r <~ read sockfd MAX_PACKET_DATA_SIZE ;;
  let '(data, n) := r in
  done (splice 0 data (replicate (Z.to_nat MAX_PACKET_DATA_SIZE) 0), n).
Definition pkx_query (sockfd : Z) : T S (option Z) := ioctl sockfd IO_PACKAGEFS_QUEUE 0.
Definition pkx_path (target : list Z) : list Z := DEV_PKG ++ slash :: target.
Definition pkx_bind (target : list Z) : T S Z :=
  if 80 <? Z.of_nat (length target) then done (-1) else open (pkx_path target) O_CREAT.
Definition pkx_connect (target : list Z) : T S Z :=
  if 80 <? Z.of_nat (length target) then done (-1) else open (pkx_path target) O_RDONLY.
End packetx.

(** The system calls are those of the kernel. *)
Section kernel_calls.
Context {G : Globals} {E : FsEnv} {D : Drivers} {Y : PkgMemory}.
Definition pkg_calls (fuel rounds : nat) (root : Z) (user_malloc : Z -> pkgsys -> Z) : PkxCalls pkgsys :=
  {| write := sys_write fuel rounds; read := sys_read fuel rounds; ioctl := sys_ioctl fuel rounds;
     open path flags := atom (sys_open root path flags); malloc n := atom (gets (user_malloc n)) |}.
End kernel_calls.
