(* ===== verification/PackageSpec.v ===== *)
(** * PackageSpec: servers and clients have inboxes of messages

    The calls on package files against an abstract state that is only a
    sequence of messages for every server and client. *)
From S2P Require Import Prelude Lists ListProofs ListSpec Bitmap Kernel Queues Sched Locks.
From S2P Require Import Fs FsInode FsDir FsFile FsSpec FsDirSpec Path FsPath FsDev FsCalls Ioqueue IoqueueProofs IoqueueSpec Ports Resume Package.

(** ** Queues at rest, each on a page of its own *)
Section rest.
Context {G : Globals}.
Implicit Types (k : kern) (Q : queue_map) (ps cs rq ts : list Z).

Definition on_page (q : Z) : Prop := exists j, q = PG_SIZE * j.
Definition wake_list (q : Z) (get : bool) : Z := if get then consumor_waiting_list q else producer_waiting_list q.

Lemma wake_list_places q q' get : on_page q -> on_page q' ->
  wake_list q get <> waiting_queue q' /\ (wake_list q get = producer_waiting_list q' -> q = q' /\ get = false) /\
  (wake_list q get = consumor_waiting_list q' -> q = q' /\ get = true).
Proof.
  intros [j ->] [j' ->]. unfold wake_list, waiting_queue, producer_waiting_list, consumor_waiting_list, PG_SIZE.
  destruct get; split_and!; intros; try split; try done; lia.
Qed.
Lemma woken_lookup a ts rq Q b xs : b <> thread_ready_list ->
  woken_queues a ts rq Q !! b = Some xs <-> if decide (b = a) then xs = [] else Q !! b = Some xs.
Proof.
  intros Hb. unfold woken_queues. rewrite lookup_insert_ne by done. rewrite lookup_insert. repeat case_decide; try congruence.
  all: split; congruence.
Qed.

(** Everybody on one list of [q] is woken: the queues are at rest again. *)
Lemma idle_after_wake k Q q ps cs rq (get : bool) h :
  let ts := if get then cs else ps in
  idle_queue k Q q ps cs rq -> on_page q -> queues h (alive k) (woken_queues (wake_list q get) ts rq Q) ->
  forall q' ps' cs', on_page q' -> idle_queue k Q q' ps' cs' rq ->
  exists ps2 cs2, idle_queue (after_wake k ts h) (woken_queues (wake_list q get) ts rq Q) q' ps2 cs2 (rev ts ++ rq).
Proof.
  intros ts Hi Hq HQ' q' ps' cs' Hq' [HQ1 Hp Hc Hr Hl Hw (Hq0 & Hrw & Hrp & Hrc) Hs Hpos [Hcur Hoff]].
  destruct (wake_list_places q q' get Hq Hq') as (Hn1 & Hn2 & Hn3).
  assert (Q !! wake_list q get = Some ts) as Hts by (destruct get; apply Hi).
  assert (wake_list q get <> thread_ready_list) as Hna.
  { destruct (iq_places _ _ _ _ _ _ Hi) as (_ & _ & ? & ?). unfold wake_list. destruct get; congruence. }
  set (ps2 := if decide (producer_waiting_list q' = wake_list q get) then [] else ps').
  set (cs2 := if decide (consumor_waiting_list q' = wake_list q get) then [] else cs').
  exists ps2, cs2. split.
  - eapply queues_ext; [|exact HQ']. intros t. symmetry. apply after_wake_alive.
  - apply woken_lookup; [done|]. unfold ps2. case_decide; done.
  - apply woken_lookup; [done|]. unfold cs2. case_decide; done.
  - unfold rl, woken_queues. apply lookup_insert_eq.
  - exact Hl.
  - apply woken_lookup; [done|]. rewrite decide_False by done. done.
  - done.
  - assert (forall b xs t, Q !! b = Some xs -> b <> wake_list q get -> t ∈ xs -> t ∉ ts) as Hdis.
    { intros b xs t Hb Hne Ht Hin. apply Hne. by apply (q_one _ _ _ HQ1 _ _ _ _ t Hb Hts). }
    intros t Ht. assert (t ∈ ps' ++ cs' /\ t ∉ ts) as [Hin Hnot].
    { unfold ps2, cs2 in Ht. rewrite list.elem_of_app in *. repeat case_decide; destruct Ht as [Ht|Ht]; try by apply not_elem_of_nil in Ht.
      all: split; [tauto|]. all: first [by apply (Hdis _ _ _ Hp) | by apply (Hdis _ _ _ Hc)]. }
    destruct (Hs t Hin) as (b & Hb & Hst). exists b. split; [|done]. unfold after_wake. cbn [tasks set_tasks]. by rewrite woken_other.
  - intros t Ht%after_wake_alive. by apply Hpos.
  - split; [by apply after_wake_alive|]. intros a xs. destruct (decide (a = thread_ready_list)) as [->|Ha].
    + unfold woken_queues. rewrite lookup_insert_eq. intros [= <-].
      rewrite list.elem_of_app, list_elem_of_In, <-in_rev, <-list_elem_of_In. intros [H|H]; [by apply (Hoff _ _ Hts)|by apply (Hoff _ _ Hr)].
    + intros Hx%woken_lookup; [|done]. case_decide; [subst; apply not_elem_of_nil|by apply (Hoff a)].
Qed.

(** There are no more threads on queues than threads. *)
Lemma waiting_bound k Q a b xs ys : queues (lists k) (alive k) Q -> Q !! a = Some xs -> Q !! b = Some ys -> a <> b ->
  (length xs + length ys <= base.size (tasks k))%nat.
Proof.
  intros HQ Ha Hb Hab. rewrite <-length_app.
  assert (NoDup (xs ++ ys)) as Hnd.
  { apply list.NoDup_app. split_and!; [by eapply q_nodup| |by eapply q_nodup]. intros t H1 H2. apply Hab. by apply (q_one _ _ _ HQ _ _ _ _ t Ha Hb). }
  rewrite <-(size_dom (tasks k)), <-(size_list_to_set (C:=gset Z) _ Hnd). apply subseteq_size.
  intros t Ht%elem_of_list_to_set. apply elem_of_dom. apply list.elem_of_app in Ht as [Ht|Ht]; [by apply (q_in _ _ _ HQ a xs)|by apply (q_in _ _ _ HQ b ys)].
Qed.
Lemma woken_size ts (m : gmap Z TCB) : base.size (woken ts m) = base.size m.
Proof.
  rewrite <-!size_dom. f_equal. unfold_leibniz. intros t. rewrite !elem_of_dom. apply woken_alive.
Qed.
End rest.

(** ** A call on one queue that does not wait *)
Section one_queue.
Context {G : Globals}.
Variables fuel rounds : nat.
Hypothesis Hrounds : (2 <= rounds)%nat.
Implicit Types (s : pkgsys) (Q : queue_map) (x : ioqueue) (l data ps cs rq : list Z).

Lemma two_rounds : exists n, rounds = S (S n).
Proof using Hrounds. exists (rounds - 2)%nat. lia. Qed.
Lemma in_io_ok {A} (m : M iosys A) s a io : m (pk_io s) = Ok (a, io) -> in_io m s = Ok (a, set_pk_io io s).
Proof using. intros E. unfold in_io, zoom. by rewrite E. Qed.
Lemma runs_io {A B} (m : M iosys A) (f : A -> T pkgsys B) es s a io b s2 :
  m (pk_io s) = Ok (a, io) -> runs (f a) es (set_pk_io io s) b s2 -> runs (tbind (on_io m) f) es s b s2.
Proof using. intros E. apply runs_step, in_io_ok, E. Qed.
Lemma set_pk_io_same s : set_pk_io (pk_io s) s = s.
Proof using. by destruct s. Qed.

(** The state after a call on queue [q], which holds [x] now; the threads
    [ts] were woken. *)
Definition after_call s (q : Z) x ts h : pkgsys := set_pk_io (Iosys (after_wake (kernel s) ts h) (<[q := x]> (ioqs (pk_io s)))) s.
(** What a call on [q] that wakes its list does to the state besides. *)
Record called s Q (q : Z) (get : bool) ts rq x (s' : pkgsys) h : Prop := {
  cd_state : s' = after_call s q x ts h;
  cd_queues : queues h (alive (kernel s)) (woken_queues (wake_list q get) ts rq Q);
  cd_frame : wake_frame (wake_list q get) (alive (kernel s)) (klists (kernel s)) h
}.

Section around.
Variables (s : pkgsys) (Q : queue_map) (q : Z) (ps cs rq : list Z).
Hypothesis Hi : idle_queue (kernel s) Q q ps cs rq.
Hypothesis Hfuel : (base.size (tasks (kernel s)) < fuel)%nat.
Notation locked := (with_lock q (held_by (current (kernel s))) (kernel s)).

Lemma runs_take_lock : runs (lock_fetch fuel rounds (queue_lock q)) [] s tt (set_kernel locked s).
Proof using Hrounds Hi Hfuel.
  apply runs_lock_fetch; [lia|apply Hi|]. destruct (iq_current _ _ _ _ _ _ Hi) as [Ha _].
  pose proof (iq_threads _ _ _ _ _ _ Hi _ Ha). lia.
Qed.
(** Waking one side, with the lock held. *)
Lemma wake_side (get : bool) : let ts := if get then cs else ps in
  exists h, wake_up_list fuel (wake_list q get) locked = Ok (tt, with_lock q (held_by (current (kernel s))) (after_wake (kernel s) ts h)) /\
    queues h (alive (kernel s)) (woken_queues (wake_list q get) ts rq Q) /\
    wake_frame (wake_list q get) (alive (kernel s)) (klists (kernel s)) h.
Proof using Hi Hfuel.
  clear Hrounds.
  intros ts. destruct (wake_up_list_ok fuel locked (alive (kernel s)) Q (wake_list q get) ts rq) as (h & E & HQ' & Hu).
  - unfold wake_list, ts. exact (waiters_of (kernel s) Q q ps cs rq (held_by (current (kernel s))) get Hi).
  - assert (wake_list q get <> thread_ready_list) as Hne.
    { destruct (iq_places _ _ _ _ _ _ Hi) as (_ & _ & ? & ?). unfold wake_list. destruct get; congruence. }
    pose proof (waiting_bound (kernel s) Q (wake_list q get) thread_ready_list ts rq (iq_queues _ _ _ _ _ _ Hi)) as Hb.
    enough (length ts + length rq <= base.size (tasks (kernel s)))%nat by lia.
    apply Hb; [unfold wake_list, ts; destruct get; apply Hi|apply (iq_ready _ _ _ _ _ _ Hi)|done].
  - exists h. split; [exact E|]. split; [exact HQ'|exact Hu].
Qed.
End around.

Lemma runs_put s Q q x l data ps cs rq :
  idle_queue (kernel s) Q q ps cs rq -> (base.size (tasks (kernel s)) < fuel)%nat ->
  ioqs (pk_io s) !! q = Some x -> ring x l -> data <> [] -> Z.of_nat (length l + length data) + 1 < size x ->
  exists x' h s', runs (ioqueue_put_data fuel rounds q data) [] s (Z.of_nat (length data)) s' /\
    called s Q q true cs rq x' s' h /\ ring x' (l ++ data) /\ size x' = size x.
Proof using Hrounds.
  intros Hi Hf Hx Hr Hd Hroom. set (k := kernel s). set (c := current k). set (count := Z.of_nat (length data)).
  assert (0 < count) as Hc by (unfold count; destruct data; [done|cbn; lia]).
  destruct (wake_side s Q q ps cs rq Hi Hf true) as (h & Ew & HQ' & Hu). fold k in Ew, HQ', Hu. fold c in Ew.
  set (io1 := set_kn (with_lock q (held_by c) k) (pk_io s)).
  destruct (put_loop_ok (S (Z.to_nat count)) io1 q x l data 0 count Hx Hr) as (x' & Ep & Hr' & Hs'); [unfold count; lia|unfold count; lia|unfold count in *; lia|].
  exists x', h, (after_call s q x' cs h). split; [|done].
  unfold ioqueue_put_data. fold count. destruct two_rounds as [n En]. rewrite En at 2. cbn [put_rounds].
  rewrite (proj2 (Z.ltb_lt 0 count)) by done.
  eapply (runs_bind _ _ [] []); [apply (runs_take_lock s Q q ps cs rq Hi Hf)|].
  eapply runs_io; [apply (avaliable_now io1 q x l Hx Hr)|]. cbv beta.
  rewrite Z.gtb_ltb, (proj2 (Z.ltb_lt count _)) by (unfold count; lia).
  eapply runs_io; [exact Ep|].
  eapply runs_kern_step; [exact Ew|].
  rewrite Z.ltb_irrefl.
  eapply runs_kern_step; [exact (released fuel k Q q ps cs rq true h c Hi HQ')|].
  apply runs_done.
Qed.

Lemma runs_get s Q q x l1 l2 ps cs rq :
  idle_queue (kernel s) Q q ps cs rq -> (base.size (tasks (kernel s)) < fuel)%nat ->
  ioqs (pk_io s) !! q = Some x -> ring x (l1 ++ l2) -> l1 <> [] ->
  exists x' h s', runs (ioqueue_get_data fuel rounds q (Z.of_nat (length l1))) [] s l1 s' /\
    called s Q q false ps rq x' s' h /\ ring x' l2 /\ size x' = size x.
Proof using Hrounds.
  intros Hi Hf Hx Hr Hd. set (k := kernel s). set (c := current k). set (count := Z.of_nat (length l1)).
  assert (0 < count) as Hc by (unfold count; destruct l1; [done|cbn; lia]).
  destruct (wake_side s Q q ps cs rq Hi Hf false) as (h & Ew & HQ' & Hu). fold k in Ew, HQ', Hu. fold c in Ew.
  set (io1 := set_kn (with_lock q (held_by c) k) (pk_io s)).
  destruct (take_loop_ok (S (Z.to_nat count)) io1 q x l1 l2 [] count Hx Hr) as (x' & Ep & Hr' & Hs'); [unfold count; cbn; lia|unfold count; lia|].
  exists x', h, (after_call s q x' ps h). split; [|done].
  unfold ioqueue_get_data. destruct two_rounds as [n En]. rewrite En at 2. cbn [get_rounds].
  change (Z.of_nat (length (@nil Z))) with 0. rewrite (proj2 (Z.ltb_lt 0 count)) by done.
  eapply (runs_bind _ _ [] []); [apply (runs_take_lock s Q q ps cs rq Hi Hf)|].
  eapply runs_io; [apply (unread_now io1 q x _ Hx Hr)|]. cbv beta.
  rewrite Z.geb_leb, (proj2 (Z.leb_le count _)) by (rewrite length_app; unfold count; lia).
  eapply runs_io; [exact Ep|]. cbn [app]. fold count.
  eapply runs_kern_step; [exact Ew|].
  rewrite Z.ltb_irrefl.
  eapply runs_kern_step; [exact (released fuel k Q q ps cs rq false h c Hi HQ')|].
  fold count. rewrite ?Z.ltb_irrefl. apply runs_done.
Qed.
End one_queue.

(** ** All queues of the servers and clients *)
(** The clients of each server, in the order of its list. *)
Abbreviation topology := (gmap Z (list Z)).
(** The queue of the server or client [a]. *)
Definition msg_queue (s : pkgsys) (a : Z) : option Z :=
  match pk_servers s !! a with
  | Some x => Some (s_msg_list x)
  | None => c_msg_list <$> pk_clients s !! a
  end.
(** An address that is neither the node of a thread nor the head of a queue. *)
Definition apart (k : kern) (Q : queue_map) (p : Z) : Prop :=
  (forall t, alive k t -> general_tag t <> p) /\ Q !! p = None.

(** [B]: the bytes in the queue of each server and client. *)
Record served `{Globals} (fuel : nat) (members : topology) (s : pkgsys) (Q : queue_map) (rq : list Z) (B : gmap Z (list Z)) : Prop := {
  sv_idle : forall q, is_Some (ioqs (pk_io s) !! q) -> on_page q /\ exists ps cs, idle_queue (kernel s) Q q ps cs rq;
  sv_fuel : (base.size (tasks (kernel s)) < fuel)%nat;
  sv_bytes : forall a l, B !! a = Some l -> exists q x, msg_queue s a = Some q /\ ioqs (pk_io s) !! q = Some x /\ size x = 4000 /\ ring x l;
  sv_inj : forall a b q, msg_queue s a = Some q -> msg_queue s b = Some q -> a = b;
  sv_members : forall a cl, members !! a = Some cl ->
    dll (klists (kernel s)) (server_clients a) (client_target <$> cl) /\
    dll (klists (kernel s)) (waiting_queue (server_lock a)) [] /\
    (forall p, p ∈ server_clients a :: waiting_queue (server_lock a) :: (client_target <$> cl) -> apart (kernel s) Q p);
  sv_locks : forall a cl, members !! a = Some cl -> ioqs (pk_io s) !! server_lock a = None
}.
(** What calls on the queues leave as it was. *)
Record kept (s s' : pkgsys) : Prop := {
  kp_files : pk_files s' = pk_files s;
  kp_servers : pk_servers s' = pk_servers s;
  kp_clients : pk_clients s' = pk_clients s;
  kp_locks : locks (kernel s') = locks (kernel s);
  kp_current : current (kernel s') = current (kernel s)
}.

Section all_queues.
Context {G : Globals}.
Variables (fuel rounds : nat) (members : topology).
Hypothesis Hrounds : (2 <= rounds)%nat.
Implicit Types (s : pkgsys) (Q : queue_map) (rq l data : list Z) (B : gmap Z (list Z)).

#[export] Instance kept_preorder : PreOrder kept.
Proof using. split; [by split|]. intros s1 s2 s3 [] []. split; congruence. Qed.
Lemma kept_queue s s' a : kept s s' -> msg_queue s' a = msg_queue s a.
Proof using. intros [_ Es Ec _ _]. unfold msg_queue. by rewrite Es, Ec. Qed.

Lemma woken_none a ts rq Q xs p : Q !! a = Some xs -> is_Some (Q !! thread_ready_list) -> Q !! p = None ->
  woken_queues a ts rq Q !! p = None.
Proof using. intros Ha [ys Hr] Hp. unfold woken_queues. rewrite !lookup_insert_ne; [done|congruence|congruence]. Qed.

(** One queue changed, and one of its lists was woken. *)
Lemma served_called s Q rq B a q x l get ps cs s' h x' l' :
  served fuel members s Q rq B -> msg_queue s a = Some q -> ioqs (pk_io s) !! q = Some x -> B !! a = Some l ->
  idle_queue (kernel s) Q q ps cs rq -> called s Q q get (if get then cs else ps) rq x' s' h ->
  size x' = 4000 -> ring x' l' ->
  served fuel members s' (woken_queues (wake_list q get) (if get then cs else ps) rq Q) (rev (if get then cs else ps) ++ rq) (<[a := l']> B) /\
  kept s s'.
Proof using.
  clear Hrounds. intros Hs Ha Hx Hl Hi [-> HQ' Hu] Hs' Hr'. set (ts := if get then cs else ps) in *.
  destruct (sv_idle _ _ _ _ _ _ Hs q ltac:(by eexists)) as [Hpage _].
  assert (Q !! wake_list q get = Some ts) as Hts by (destruct get; apply Hi).
  assert (kept s (after_call s q x' ts h)) as Hk by by split.
  assert (forall p, apart (kernel s) Q p -> h !! p = klists (kernel s) !! p) as Hfr.
  { intros p [Hp1 Hp2]. apply Hu; [congruence| |done]. pose proof (iq_ready _ _ _ _ _ _ Hi) as Hr. unfold rl in Hr. congruence. }
  split; [|done]. split.
  - intros q' Hq'. cbn in Hq'. assert (is_Some (ioqs (pk_io s) !! q')) as Hq.
    { destruct (decide (q' = q)) as [->|Hne]; [by eexists|]. by rewrite lookup_insert_ne in Hq'. }
    destruct (sv_idle _ _ _ _ _ _ Hs q' Hq) as (Hp' & ps' & cs' & Hi'). split; [done|].
    exact (idle_after_wake (kernel s) Q q ps cs rq get h Hi Hpage HQ' q' ps' cs' Hp' Hi').
  - cbn. rewrite woken_size. apply Hs.
  - intros b lb. rewrite (kept_queue s _ b Hk). cbn. rewrite !lookup_insert. case_decide as Hab.
    + intros [= <-]. subst b. exists q, x'. by rewrite lookup_insert_eq.
    + intros Hb. destruct (sv_bytes _ _ _ _ _ _ Hs b lb Hb) as (qb & xb & Eq & Hxb & ? & ?). exists qb, xb.
      split_and!; try done. rewrite lookup_insert_ne; [done|]. intros <-. by destruct Hab, (sv_inj _ _ _ _ _ _ Hs a b q).
  - intros b c qb. rewrite !(kept_queue s _ _ Hk). apply Hs.
  - intros b cl Hb. destruct (sv_members _ _ _ _ _ _ Hs b cl Hb) as (H1 & H2 & H3). split_and!.
    + eapply dll_frame; [exact H1|]. intros p Hp. apply Hfr, H3. set_solver.
    + eapply dll_frame; [exact H2|]. intros p Hp. apply Hfr, H3. set_solver.
    + intros p Hp. destruct (H3 p Hp) as [Hp1 Hp2]. split.
      * intros t Ht%after_wake_alive. by apply Hp1.
      * eapply woken_none; [done|eexists; apply (iq_ready _ _ _ _ _ _ Hi)|done].
  - intros b cl Hb. cbn. rewrite lookup_insert_ne; [by eapply sv_locks|]. intros ->.
    rewrite (sv_locks _ _ _ _ _ _ Hs b cl Hb) in Hx. done.
Qed.

Lemma served_put s Q rq B a q l data : served fuel members s Q rq B -> msg_queue s a = Some q -> B !! a = Some l ->
  data <> [] -> Z.of_nat (length l + length data) + 1 < 4000 ->
  exists s' Q' rq', runs (ioqueue_put_data fuel rounds q data) [] s (Z.of_nat (length data)) s' /\
    served fuel members s' Q' rq' (<[a := l ++ data]> B) /\ kept s s'.
Proof using Hrounds.
  intros Hs Ha Hl Hd Hroom. destruct (sv_bytes _ _ _ _ _ _ Hs a l Hl) as (q' & x & Eq & Hx & Hsz & Hr).
  rewrite Ha in Eq. injection Eq as <-. destruct (sv_idle _ _ _ _ _ _ Hs q ltac:(by eexists)) as (_ & ps & cs & Hi).
  destruct (runs_put fuel rounds Hrounds s Q q x l data ps cs rq Hi (sv_fuel _ _ _ _ _ _ Hs) Hx Hr Hd) as (x' & h & s' & E & Hc & Hr' & Hs'); [by rewrite Hsz|].
  rewrite Hsz in Hs'. exists s'. eexists _, _. split; [exact E|]. exact (served_called s Q rq B a q x l true ps cs s' h x' _ Hs Ha Hx Hl Hi Hc Hs' Hr').
Qed.
Lemma served_get s Q rq B a q l1 l2 : served fuel members s Q rq B -> msg_queue s a = Some q -> B !! a = Some (l1 ++ l2) -> l1 <> [] ->
  exists s' Q' rq', runs (ioqueue_get_data fuel rounds q (Z.of_nat (length l1))) [] s l1 s' /\
    served fuel members s' Q' rq' (<[a := l2]> B) /\ kept s s'.
Proof using Hrounds.
  intros Hs Ha Hl Hd. destruct (sv_bytes _ _ _ _ _ _ Hs a _ Hl) as (q' & x & Eq & Hx & Hsz & Hr).
  rewrite Ha in Eq. injection Eq as <-. destruct (sv_idle _ _ _ _ _ _ Hs q ltac:(by eexists)) as (_ & ps & cs & Hi).
  destruct (runs_get fuel rounds Hrounds s Q q x l1 l2 ps cs rq Hi (sv_fuel _ _ _ _ _ _ Hs) Hx Hr Hd) as (x' & h & s' & E & Hc & Hr' & Hs').
  rewrite Hsz in Hs'. exists s'. eexists _, _. split; [exact E|]. exact (served_called s Q rq B a q x _ false ps cs s' h x' _ Hs Ha Hx Hl Hi Hc Hs' Hr').
Qed.
(** Changing a lock that is no queue's. *)
Lemma served_lock s Q rq B c v : served fuel members s Q rq B -> ioqs (pk_io s) !! c = None ->
  served fuel members (set_kernel (with_lock c v (kernel s)) s) Q rq B.
Proof using.
  intros [H1 H2 H3 H4 H5 H6] Hc. split; try assumption.
  intros q Hq. destruct (H1 q Hq) as (Hp & ps & cs & [? ? ? ? Hl ? ? ? ? ?]). split; [done|]. exists ps, cs. split; try assumption.
  rewrite kernel_set. cbn. rewrite lookup_insert_ne; [done|]. intros ->. by destruct Hq as [? Hq]; cbn in Hq; rewrite Hc in Hq.
Qed.
End all_queues.

(** ** The abstract state: a sequence of messages for every server and client *)
Record pkg_msg := PkgMsg { from : Z; bytes : list Z }.
#[export] Instance pkg_msg_eq_dec : EqDecision pkg_msg.
Proof. solve_decision. Defined.
Abbreviation inboxes := (gmap Z (list pkg_msg)).
Definition encode_msg (m : pkg_msg) : list Z := package (Z.of_nat (length (bytes m))) (from m) (bytes m).
Definition inbox_bytes (ms : list pkg_msg) : list Z := concat (encode_msg <$> ms).
Definition small (m : pkg_msg) : Prop := Z.of_nat (length (bytes m)) <= MAX_PACKET_SIZE.
(** Which end of the conversation a descriptor stands for. *)
Inductive pkg_end := AtServer (srv : Z) | AtClient (c : Z).
Definition end_address (e : pkg_end) : Z := match e with AtServer a | AtClient a => a end.
Inductive pkg_call := Write (buf : list Z) | Read (count : Z).

Section abstract.
(** The clients of each server, and the server of each client. *)
Variables (members : topology) (owners : gmap Z Z).

(** Into an inbox with room; otherwise the call waits, and the specification
    says nothing. *)
Definition deliver (a : Z) (m : pkg_msg) (A : inboxes) : option inboxes :=
  ms ← A !! a;
  if Z.of_nat (length (inbox_bytes ms) + length (encode_msg m)) + 1 <? 4000 then Some (<[a := ms ++ [m]]> A) else None.
Fixpoint deliver_all (cl : list Z) (m : pkg_msg) (A : inboxes) : option inboxes :=
  match cl with [] => Some A | c :: cl => A' ← deliver c m A; deliver_all cl m A' end.
(** The result for a message to one client counts its header twice. *)
Definition spec_write (e : pkg_end) (buf : list Z) (A : inboxes) : option (Z * inboxes) :=
  let count := Z.of_nat (length buf) in
  match e with
  | AtClient c =>
      if count >? MAX_PACKET_SIZE then Some (u32 (- EINVAL), A)
      else srv ← owners !! c; A' ← deliver srv (PkgMsg c buf) A; Some (count, A')
  | AtServer srv =>
      if u32 (count - sizeof_header) >? MAX_PACKET_SIZE then Some (u32 (-1), A)
      else
        let target := of_le (take 4 buf) in
        let m := PkgMsg 0 (drop 4 buf) in
        if target =? 0 then cl ← members !! srv; A' ← deliver_all cl m A; Some (count, A')
        else
          srv' ← owners !! target;
          if negb (srv' =? srv) then Some (u32 (-1), A)
          else A' ← deliver target m A; Some (count + sizeof_package, A')
  end.
(** A message that does not fit into the reader's buffer is taken out of the
    inbox all the same. *)
Definition spec_read (e : pkg_end) (count : Z) (A : inboxes) : option ((list Z * Z) * inboxes) :=
  let a := end_address e in
  ms ← A !! a;
  match ms with
  | [] => None
  | m :: ms =>
      let n := Z.of_nat (length (bytes m)) in
      let A' := <[a := ms]> A in
      if n + sizeof_package >? count then Some (([], u32 (-1)), A')
      else match e with
           | AtServer _ => Some ((encode_msg m, n + sizeof_package), A')
           | AtClient _ => Some ((bytes m, n), A')
           end
  end.
Definition spec_call (e : pkg_end) (c : pkg_call) (A : inboxes) : option ((list Z * Z) * inboxes) :=
  match c with
  | Write buf => r ← spec_write e buf A; Some (([], r.1), r.2)
  | Read count => spec_read e count A
  end.

(** The state [s] has the inboxes [A]. *)
Record at_rest `{Globals} (fuel : nat) (s : pkgsys) (A : inboxes) : Prop := {
  ar_served : exists Q rq, served fuel members s Q rq (inbox_bytes <$> A);
  ar_small : forall a ms, A !! a = Some ms -> Forall small ms;
  ar_servers : forall a, is_Some (members !! a) <-> is_Some (pk_servers s !! a);
  ar_owners : forall c, owners !! c = server <$> pk_clients s !! c;
  ar_kinds : forall a, is_Some (members !! a) -> owners !! a = None;
  ar_owned : forall c a, owners !! c = Some a -> is_Some (members !! a);
  ar_members : forall a cl c, members !! a = Some cl -> c ∈ cl -> owners !! c = Some a;
  ar_locks : forall a cl, members !! a = Some cl -> locks (kernel s) !! server_lock a = Some free_lock /\ (length cl < fuel)%nat;
  ar_current : current (kernel s) <> 0
}.
End abstract.

(** The descriptor [fd] is open, in the slot [g], for the end [e]. *)
Record pkg_fd (f : fs) (fd g : Z) (e : pkg_end) : Prop := {
  pf_fd : 2 < fd /\ fd_table f !! Z.to_nat fd = Some g /\ 0 <= g < MAX_FILE_OPEN;
  pf_slot : exists x i, g_file_table f !! Z.to_nat g = Some x /\ fd_flag x <> PIPE_FLAG /\
    (fd_pos x =? CLIENT_MARK) = (if e then false else true) /\
    inodes f !! fd_inode x = Some i /\ IS_FT_CHAR i = false /\ IS_FT_FIFO i = true /\ i_zones i !! 0%nat = Some (end_address e)
}.
Definition pkg_call_m `{Globals, FsEnv, Drivers, PkgMemory} (fuel rounds : nat) (fd : Z) (c : pkg_call) : T pkgsys (list Z * Z) :=
  match c with
  | Write buf => (n <~ sys_write fuel rounds fd buf ;; done ([], n))%resume
  | Read count => sys_read fuel rounds fd count
  end.

Section messages.
Implicit Types (m : pkg_msg) (ms : list pkg_msg) (A : inboxes).
Lemma encode_msg_length m : length (encode_msg m) = (8 + length (bytes m))%nat.
Proof. unfold encode_msg, package. rewrite !length_app, !le_length. lia. Qed.
Lemma encode_not_nil m : encode_msg m <> [].
Proof. intros E. by pose proof (encode_msg_length m) as H; rewrite E in H. Qed.
Lemma inbox_bytes_app ms m : inbox_bytes (ms ++ [m]) = inbox_bytes ms ++ encode_msg m.
Proof. unfold inbox_bytes. rewrite fmap_app, concat_app. cbn. by rewrite app_nil_r. Qed.
Lemma inbox_bytes_cons m ms : inbox_bytes (m :: ms) = encode_msg m ++ inbox_bytes ms.
Proof. done. Qed.
Lemma deliver_small a m A A' : small m -> deliver a m A = Some A' ->
  (forall b ms, A !! b = Some ms -> Forall small ms) -> forall b ms, A' !! b = Some ms -> Forall small ms.
Proof.
  intros Hm Hd HA b ms. unfold deliver in Hd. destruct (A !! a) as [ma|] eqn:Ea; [|done]. cbn in Hd.
  destruct (_ <? _); [|done]. injection Hd as <-. rewrite lookup_insert. case_decide; [|apply HA].
  intros [= <-]. apply list.Forall_app. split; [by apply (HA a)|]. by apply list.Forall_singleton.
Qed.
End messages.

(** ** The calls against the abstract state *)
Lemma deliver_all_small cl m : small m -> forall A A', deliver_all cl m A = Some A' ->
  (forall b ms, A !! b = Some ms -> Forall small ms) -> forall b ms, A' !! b = Some ms -> Forall small ms.
Proof.
  intros Hm. induction cl as [|c cl IH]; intros A A'; cbn [deliver_all]; [by intros [= <-]|].
  destruct (deliver c m A) as [A1|] eqn:E1; [|done]. intros Hd HA. eapply IH; [exact Hd|]. by eapply deliver_small.
Qed.

Section refinement.
Context {G : Globals} {E : FsEnv} {D : Drivers} {Y : PkgMemory}.
Variables (fuel rounds : nat) (members : topology) (owners : gmap Z Z).
Hypothesis Hrounds : (2 <= rounds)%nat.
(** There is memory for a message. *)
Hypothesis Hmem : forall n s, 0 < n <= sizeof_package + MAX_PACKET_SIZE -> sys_malloc n s <> 0.
Implicit Types (s : pkgsys) (m : pkg_msg) (ms : list pkg_msg) (A : inboxes) (a c q : Z) (cl : list Z).
Local Open Scope resume_scope.

Definition resting s A : Prop := exists Q rq, served fuel members s Q rq (inbox_bytes <$> A).

Lemma malloc_used_now n s : 0 < n <= sizeof_package + MAX_PACKET_SIZE -> malloc_used n s = Ok (sys_malloc n s, s).
Proof using Hmem.
  clear Hrounds. intros Hn. unfold malloc_used. rewrite gets_bind, (proj2 (Z.eqb_neq (sys_malloc n s) 0)); [done|].
  exact (Hmem n s Hn).
Qed.

Lemma deliver_runs s A a q m A' : resting s A -> msg_queue s a = Some q -> deliver a m A = Some A' ->
  exists s', runs (ioqueue_put_data fuel rounds q (encode_msg m)) [] s (Z.of_nat (length (encode_msg m))) s' /\
    resting s' A' /\ kept s s'.
Proof using Hrounds.
  intros (Q & rq & Hs) Ha Hd. unfold deliver in Hd. destruct (A !! a) as [ms|] eqn:Ea; [|done]. cbn in Hd.
  destruct (_ <? _) eqn:Hr in Hd; [|done]. apply Z.ltb_lt in Hr. injection Hd as <-.
  destruct (served_put fuel rounds members Hrounds s Q rq _ a q (inbox_bytes ms) (encode_msg m) Hs Ha) as (s' & Q' & rq' & Er & Hs' & Hk);
    [by rewrite lookup_fmap, Ea|apply encode_not_nil|done|].
  exists s'. split; [done|]. split; [|done]. exists Q', rq'. by rewrite fmap_insert, inbox_bytes_app.
Qed.

Lemma u32_size m : small m -> u32 (sizeof_package + Z.of_nat (length (bytes m))) = sizeof_package + Z.of_nat (length (bytes m)) /\
  0 < sizeof_package + Z.of_nat (length (bytes m)) <= sizeof_package + MAX_PACKET_SIZE.
Proof using. unfold small, sizeof_package, MAX_PACKET_SIZE. clear. intros H. rewrite u32_small; lia. Qed.
Lemma encode_size m : Z.of_nat (length (encode_msg m)) = sizeof_package + Z.of_nat (length (bytes m)).
Proof using. rewrite encode_msg_length. unfold sizeof_package. clear. lia. Qed.

Lemma send_to_client_runs s A c x data A' : resting s A -> pk_servers s !! c = None -> pk_clients s !! c = Some x ->
  small (PkgMsg 0 data) -> deliver c (PkgMsg 0 data) A = Some A' ->
  exists s', runs (send_to_client fuel rounds c (Z.of_nat (length data)) data) [] s (sizeof_package + Z.of_nat (length data)) s' /\
    resting s' A' /\ kept s s'.
Proof using Hrounds Hmem.
  intros Hs Hn Hx Hm Hd. destruct (u32_size _ Hm) as [Hu Hb]. cbn [bytes] in Hu, Hb.
  destruct (deliver_runs s A c (c_msg_list x) (PkgMsg 0 data) A' Hs) as (s' & Er & Hs' & Hk); [by unfold msg_queue; rewrite Hn, Hx|exact Hd|].
  exists s'. split; [|done]. unfold send_to_client. rewrite Hu. eapply runs_step; [by apply malloc_used_now|].
  eapply runs_step; [unfold client_at; by rewrite Hx|]. by rewrite encode_size in Er.
Qed.
Lemma send_to_server_runs s A srv x c data A' : resting s A -> pk_servers s !! srv = Some x ->
  small (PkgMsg c data) -> deliver srv (PkgMsg c data) A = Some A' ->
  exists s', runs (send_to_server fuel rounds srv c (Z.of_nat (length data)) data) [] s (sizeof_package + Z.of_nat (length data)) s' /\
    resting s' A' /\ kept s s'.
Proof using Hrounds Hmem.
  intros Hs Hx Hm Hd. destruct (u32_size _ Hm) as [Hu Hb]. cbn [bytes] in Hu, Hb.
  destruct (deliver_runs s A srv (s_msg_list x) (PkgMsg c data) A' Hs) as (s' & Er & Hs' & Hk); [by unfold msg_queue; rewrite Hx|exact Hd|].
  exists s'. split; [|done]. unfold send_to_server. rewrite Hu. eapply runs_step; [by apply malloc_used_now|].
  eapply runs_step; [unfold server_at; by rewrite Hx|]. by rewrite encode_size in Er.
Qed.

Lemma receive_runs s A a q m ms : resting s A -> msg_queue s a = Some q -> A !! a = Some (m :: ms) -> small m ->
  exists s', runs (receive_packet fuel rounds q) [] s (encode_msg m, Z.of_nat (length (bytes m)) + sizeof_package) s' /\
    resting s' (<[a := ms]> A) /\ kept s s'.
Proof using Hrounds Hmem.
  intros (Q & rq & Hs) Ha HA Hm. set (n := Z.of_nat (length (bytes m))). destruct (u32_size _ Hm) as [Hu Hb]. fold n in Hu, Hb.
  assert (0 <= n <= 1024) as Hn by (unfold small, MAX_PACKET_SIZE in Hm; unfold n; lia).
  set (body := le 4 (from m) ++ bytes m).
  assert (Z.of_nat (length body) = n + 4) as Hbody by (unfold body; rewrite length_app, le_length; unfold n; lia).
  destruct (served_get fuel rounds members Hrounds s Q rq _ a q (le 4 n) (body ++ inbox_bytes ms) Hs Ha) as (s1 & Q1 & rq1 & E1 & Hs1 & Hk1).
  { rewrite lookup_fmap, HA. cbn [fmap option_fmap option_map]. rewrite inbox_bytes_cons. unfold encode_msg, package, body, n. by rewrite <-!app_assoc. }
  { done. }
  destruct (served_get fuel rounds members Hrounds s1 Q1 rq1 _ a q body (inbox_bytes ms) Hs1) as (s2 & Q2 & rq2 & E2 & Hs2 & Hk2).
  { by rewrite (kept_queue _ _ _ Hk1). }
  { apply lookup_insert_eq. }
  { done. }
  exists s2. split; [|split; [|by etransitivity]].
  - unfold receive_packet. eapply (runs_bind _ _ [] []); [exact E1|]. cbv beta.
    rewrite le_of_le by (change (256 ^ Z.of_nat 4) with (2 ^ 32); lia).
    rewrite (Z.add_comm n sizeof_package), Hu.
    eapply runs_step; [by apply malloc_used_now|].
    replace (u32 (sizeof_package + n - 4)) with (Z.of_nat (length body)) by (unfold sizeof_package; rewrite u32_small; lia).
    eapply (runs_bind _ _ [] []); [exact E2|]. cbv beta. rewrite Hbody.
    replace (u32 (n + 4 + 4)) with (sizeof_package + n) by (unfold sizeof_package; rewrite u32_small; lia). apply runs_done.
  - exists Q2, rq2. by rewrite fmap_insert, insert_insert_eq in *.
Qed.

(** The broadcast; the list of clients stays what it is under the calls. *)
Lemma broadcast_runs n s A a pre cl data A' : resting s A -> members !! a = Some (pre ++ cl) ->
  (forall c, c ∈ cl -> pk_servers s !! c = None /\ is_Some (pk_clients s !! c)) -> small (PkgMsg 0 data) ->
  deliver_all cl (PkgMsg 0 data) A = Some A' -> (length cl < n)%nat ->
  exists s', runs (broadcast fuel rounds n (default (server_clients a) ((client_target <$> cl) !! 0%nat)) (server_clients a) (Z.of_nat (length data)) data) [] s tt s' /\
    resting s' A' /\ kept s s'.
Proof using Hrounds Hmem.
  intros Hs Hcl Hc Hm. revert n s A pre Hs Hcl Hc. induction cl as [|c cl IH]; intros n s A pre Hs Hcl Hc Hd Hn;
    (destruct n as [|n]; [cbn in Hn; lia|]); cbn [broadcast].
  - cbn in Hd. injection Hd as <-. cbn. rewrite Z.eqb_refl. exists s. split; [apply runs_done|]. by split.
  - cbn in Hd. destruct (deliver c _ A) as [A1|] eqn:E1; [|done]. cbn in Hd.
    destruct (Hc c) as (Hc1 & x & Hc2); [by left|].
    destruct (send_to_client_runs s A c x data A1 Hs Hc1 Hc2 Hm E1) as (s1 & Er1 & Hs1 & Hk1).
    destruct Hs1 as (Q1 & rq1 & Hs1). destruct (sv_members _ _ _ _ _ _ Hs1 a _ Hcl) as ([Hseg Hnd] & _ & _).
    rewrite fmap_app in Hseg, Hnd. cbn [fmap list_fmap] in Hseg, Hnd |- *. cbn [lookup list_lookup default from_option id].
    rewrite (proj2 (Z.eqb_neq _ _)).
    2: { intros Eh. rewrite Eh in Hnd. apply list.NoDup_cons in Hnd as [Hnd _]. apply Hnd. rewrite list.elem_of_app. right. by left. }
    destruct (IH n s1 A1 (pre ++ [c])) as (s2 & Er2 & Hs2 & Hk2).
    + by exists Q1, rq1.
    + by rewrite <-app_assoc.
    + intros c' Hc'. rewrite (kp_servers _ _ Hk1), (kp_clients _ _ Hk1). apply Hc. by right.
    + exact Hd.
    + cbn in Hn. lia.
    + exists s2. split; [|split; [done|by etransitivity]].
      replace (of_client_target (client_target c)) with c by (unfold of_client_target, client_target; clear; lia).
      eapply (runs_bind _ _ [] []); [exact Er1|]. cbv beta.
      eapply runs_kern_step; [|rewrite set_kernel_get; exact Er2].
      apply (get_next_ok (S:=kern)). apply seg_app in Hseg as [_ Hseg]. by destruct cl; [destruct Hseg|destruct Hseg as (? & _)].
Qed.

Lemma at_rest_kept s s' A A' : at_rest members owners fuel s A -> resting s' A' -> kept s s' ->
  (forall a ms, A' !! a = Some ms -> Forall small ms) -> at_rest members owners fuel s' A'.
Proof using.
  intros [_ _ H1 H2 H3 H4 H5 H6 H7] Hs [_ Hk2 Hk3 Hk4 Hk5] Hsm. split; try assumption.
  - intros a. by rewrite Hk2.
  - intros c. by rewrite Hk3.
  - intros a cl. rewrite Hk4. apply H6.
  - by rewrite Hk5.
Qed.

(** ** Descriptors *)
Lemma in_files_ok {X} (m : M fs X) s x f : m (pk_files s) = Ok (x, f) -> in_files m s = Ok (x, set_pk_files f s).
Proof using. intros Em. unfold in_files, zoom. by rewrite Em. Qed.
Lemma runs_files {X B} (m : M fs X) (f : X -> T pkgsys B) es s x b s2 :
  m (pk_files s) = Ok (x, pk_files s) -> runs (f x) es s b s2 -> runs (tbind (on_files m) f) es s b s2.
Proof using.
  intros Em Hr. eapply runs_step; [by apply in_files_ok|]. by destruct s.
Qed.
Lemma pkg_fd_facts f fd g e : pkg_fd f fd g e ->
  exists x i, (forall std, std <= 2 -> pkg_branch std fd f = Ok (true, f)) /\ fd_local2global fd f = Ok (g, f) /\
    file_at g f = Ok (x, f) /\ (fd_pos x =? CLIENT_MARK) = (if e then false else true) /\
    inode_at (fd_inode x) f = Ok (i, f) /\ elem (i_zones i) 0 f = Ok (end_address e, f).
Proof using.
  clear. intros [(Hfd & Ht & Hg) (x & i & Hx & Hp & Hc & Hi & Hch & Hff & Hz)].
  assert (fd_local2global fd f = Ok (g, f)) as Ef.
  { unfold fd_local2global. rewrite gets_bind. unfold elem. rewrite (proj2 (Z.ltb_ge fd 0)), Ht by lia. rets.
    rewrite assert_bind; [done|]. rewrite Z.geb_leb, (proj2 (Z.leb_le 0 g)), (proj2 (Z.ltb_lt g _)) by lia. done. }
  assert (file_at g f = Ok (x, f)) as Ex by (unfold file_at; by rewrite Hx).
  assert (inode_at (fd_inode x) f = Ok (i, f)) as Ei by (unfold inode_at; by rewrite Hi).
  exists x, i. split_and!; [|done..|unfold elem; change (Z.to_nat 0) with 0%nat; by rewrite Hz].
  intros std Hstd. unfold pkg_branch, is_pipe. run Ef. run Ex. rets. rewrite (proj2 (Z.eqb_neq _ _)) by done.
  rewrite (proj2 (Z.eqb_neq fd std)) by lia. unfold is_char_fd. run Ef. run Ex. run Ei. rets. rewrite Hch.
  unfold is_pkg_fd. run Ef. run Ex. run Ei. by rewrite Hff.
Qed.
Lemma pkg_target_now s fd g e : pkg_fd (pk_files s) fd g e -> pkg_target g s = Ok (end_address e, s).
Proof using.
  intros (x & i & _ & _ & Ex & _ & Ei & Ez)%pkg_fd_facts. unfold pkg_target.
  assert (set_pk_files (pk_files s) s = s) as Es by by destruct s.
  run (in_files_ok _ s _ _ Ex). rewrite Es. run (in_files_ok _ s _ _ Ei). rewrite Es. by rewrite (in_files_ok _ s _ _ Ez), Es.
Qed.

(** ** Writing *)
Lemma no_server s c A : at_rest members owners fuel s A -> is_Some (owners !! c) -> pk_servers s !! c = None.
Proof using.
  intros Hr [a Ho]. destruct (pk_servers s !! c) eqn:Ec; [|done]. pose proof (ar_kinds _ _ _ _ _ Hr c) as Hk.
  rewrite Ho in Hk. discriminate Hk. apply (ar_servers _ _ _ _ _ Hr). by eexists.
Qed.
Lemma broadcast_all_runs s A a cl data A' : at_rest members owners fuel s A -> members !! a = Some cl -> small (PkgMsg 0 data) ->
  deliver_all cl (PkgMsg 0 data) A = Some A' ->
  exists s', runs (lock_fetch fuel rounds (server_lock a) ;;;
      pos <~ on_kern (get_next (server_clients a)) ;;
      broadcast fuel rounds fuel pos (server_clients a) (Z.of_nat (length data)) data ;;;
      on_kern (lock_release fuel (server_lock a)) ;;;
      done (Z.of_nat (length data) + sizeof_header)) [] s (Z.of_nat (length data) + sizeof_header) s' /\
    resting s' A' /\ kept s s'.
Proof using Hrounds Hmem.
  intros Hr Hcl Hm Hd. destruct (ar_served _ _ _ _ _ Hr) as (Q & rq & Hs). set (L := server_lock a).
  destruct (ar_locks _ _ _ _ _ Hr a cl Hcl) as [Hfree Hlen]. pose proof (sv_locks _ _ _ _ _ _ Hs a cl Hcl) as Hnq. fold L in Hfree, Hnq.
  set (s1 := set_kernel (with_lock L (held_by (current (kernel s))) (kernel s)) s).
  assert (resting s1 A) as Hs1 by (exists Q, rq; by apply served_lock).
  destruct (broadcast_runs fuel s1 A a [] cl data A' Hs1 Hcl) as (s2 & Er2 & (Q2 & rq2 & Hs2) & Hk2); [|done..|].
  { intros c Hc. pose proof (ar_members _ _ _ _ _ Hr a cl c Hcl Hc) as Ho. split.
    - apply (no_server s c A Hr). by eexists.
    - rewrite (ar_owners _ _ _ _ _ Hr) in Ho. change (pk_clients s1) with (pk_clients s). by destruct (pk_clients s !! c). }
  set (s3 := set_kernel (with_lock L free_lock (kernel s2)) s2).
  assert (locks (kernel s2) !! L = Some (held_by (current (kernel s)))) as Hheld.
  { rewrite (kp_locks _ _ Hk2). apply with_lock_locks. }
  destruct (sv_members _ _ _ _ _ _ Hs2 a cl Hcl) as (_ & Hwq & _).
  exists s3. split; [|split].
  - eapply (runs_bind _ _ [] []); [apply runs_lock_fetch; [clear -Hrounds; lia|done|apply Hr]|]. fold L s1.
    destruct (sv_members _ _ _ _ _ _ Hs a cl Hcl) as ([Hseg _] & _).
    eapply runs_kern_step; [apply (get_next_ok (S:=kern) _ _ (default (server_clients a) ((client_target <$> cl) !! 0%nat)))|].
    { by destruct cl; [destruct Hseg|destruct Hseg as (? & _)]. }
    rewrite set_kernel_get. eapply (runs_bind _ _ [] []); [exact Er2|]. cbv beta.
    eapply runs_kern_step; [by apply (lock_release_now fuel L (current (kernel s)))|]. fold s3. apply runs_done.
  - exists Q2, rq2. apply served_lock; [done|]. by eapply sv_locks.
  - destruct Hk2 as [K1 K2 K3 K4 K5]. split; try assumption.
    change (<[L := free_lock]> (locks (kernel s2)) = locks (kernel s)). rewrite K4.
    change (<[L := free_lock]> (<[L := held_by (current (kernel s))]> (locks (kernel s))) = locks (kernel s)).
    by rewrite insert_insert_eq, insert_id.
Qed.

Definition known (e : pkg_end) : Prop :=
  match e with AtServer a => is_Some (members !! a) | AtClient c => is_Some (owners !! c) end.
Lemma write_runs s A e fd g buf n A' : at_rest members owners fuel s A -> pkg_fd (pk_files s) fd g e -> known e ->
  Z.of_nat (length buf) < 2 ^ 32 -> spec_write members owners e buf A = Some (n, A') ->
  exists s', runs (sys_write fuel rounds fd buf) [] s n s' /\ at_rest members owners fuel s' A' /\ pk_files s' = pk_files s.
Proof using Hrounds Hmem.
  intros Hr Hfd Hkn Hlen Hsp. pose proof (pkg_target_now s fd g e Hfd) as Et.
  destruct (pkg_fd_facts _ _ _ _ Hfd) as (x & i & Eb & Eg & Ex & Em & _ & _).
  assert (0 <= fd) as H0 by (destruct Hfd as [[? _] _]; lia).
  enough (exists s', runs (if e then write_server fuel rounds g buf else write_client fuel rounds g buf) [] s n s' /\
      (s' = s /\ A' = A \/ resting s' A' /\ kept s s' /\ forall a ms, A' !! a = Some ms -> Forall small ms)) as (s' & Er & Hs').
  { exists s'. split.
    - unfold sys_write. rewrite (proj2 (Z.ltb_ge fd 0)) by done. eapply runs_files; [by apply Eb|]. cbn iota.
      eapply runs_files; [exact Eg|]. eapply runs_files; [exact Ex|]. rewrite Em. by destruct e.
    - destruct Hs' as [[-> ->]|(Hs' & Hk & Hsm)]; [done|]. split; [by eapply at_rest_kept|by apply kp_files]. }
  pose proof (ar_small _ _ _ _ _ Hr) as Hsm. destruct (ar_served _ _ _ _ _ Hr) as (Q & rq & Hs).
  set (count := Z.of_nat (length buf)) in *. unfold spec_write in Hsp. fold count in Hsp. destruct e as [a|c].
  - unfold write_server. fold count. destruct (u32 (count - sizeof_header) >? MAX_PACKET_SIZE) eqn:Eu.
    { injection Hsp as <- <-. exists s. split; [|by left]. eapply runs_step; [exact Et|]. apply runs_done. }
    assert (Z.of_nat (length (drop 4 buf)) = count - sizeof_header /\ u32 (count - sizeof_header) = count - sizeof_header) as [Ed Eu'].
    { rewrite length_drop. unfold sizeof_header, MAX_PACKET_SIZE, u32 in *. rewrite Z.gtb_ltb in Eu. apply Z.ltb_ge in Eu.
      assert (0 <= count - 4) by (destruct (Z.le_gt_cases 0 (count - 4)) as [|Hlt]; [done|]; exfalso;
        rewrite <-(Z_mod_plus_full _ 1), Z.mod_small in Eu; unfold count in *; lia).
      rewrite Z.mod_small in * by (unfold count in *; lia). split; [unfold count in *; lia|done]. }
    assert (small (PkgMsg 0 (drop 4 buf))) as Hm.
    { unfold small. cbn [bytes]. rewrite Ed, <-Eu'. rewrite Z.gtb_ltb in Eu. by apply Z.ltb_ge in Eu. }
    destruct (of_le (take 4 buf) =? 0) eqn:E0.
    + destruct (members !! a) as [cl|] eqn:Ecl; [|done]. cbn in Hsp.
      destruct (deliver_all cl _ A) as [A1|] eqn:Ed1; [|done]. injection Hsp as <- <-.
      destruct (broadcast_all_runs s A a cl _ A1 Hr Ecl Hm Ed1) as (s' & Er & Hs' & Hk).
      exists s'. split; [|right; split_and!; [done..|by eapply deliver_all_small]].
      eapply runs_step; [exact Et|]. cbv beta zeta. rewrite Eu', <-Ed. cbn [end_address].
      replace (Z.of_nat (length (drop 4 buf)) + sizeof_header) with count in Er by lia. exact Er.
    + set (t := of_le (take 4 buf)) in *. destruct (owners !! t) as [srv|] eqn:Eo; [|done]. cbn in Hsp.
      pose proof (ar_owners _ _ _ _ _ Hr t) as Ho. rewrite Eo in Ho. destruct (pk_clients s !! t) as [y|] eqn:Ey; [|done].
      injection Ho as ->. assert (client_at t s = Ok (y, s)) as Ec by (unfold client_at; by rewrite Ey).
      destruct (negb (server y =? a)) eqn:Esrv.
      { injection Hsp as <- <-. exists s. split; [|by left]. eapply runs_step; [exact Et|]. cbv beta zeta. fold t.
        eapply runs_step; [exact Ec|]. cbn [end_address]. rewrite Esrv. apply runs_done. }
      destruct (deliver t _ A) as [A1|] eqn:Ed1; [|done]. injection Hsp as <- <-.
      destruct (send_to_client_runs s A t y (drop 4 buf) A1) as (s' & Er & Hs' & Hk); [by exists Q, rq| |done..|].
      { apply (no_server s t A Hr). by eexists. }
      exists s'. split; [|right; split_and!; [done..|by eapply deliver_small]].
      eapply runs_step; [exact Et|]. cbv beta zeta. fold t. eapply runs_step; [exact Ec|].
      cbn [end_address]. rewrite Esrv, Eu', <-Ed. eapply (runs_bind _ _ [] []); [exact Er|]. cbv beta.
      replace (u32 _) with (count + sizeof_package); [apply runs_done|]. unfold small in Hm. cbn [bytes] in Hm. rewrite Ed in *.
      unfold sizeof_package, sizeof_header, MAX_PACKET_SIZE in *. rewrite u32_small; lia.
  - unfold write_client. fold count. cbn [end_address] in Et.
    destruct (count >? MAX_PACKET_SIZE) eqn:Eu.
    { injection Hsp as <- <-. exists s. split; [|by left]. eapply runs_step; [exact Et|]. apply runs_done. }
    destruct (owners !! c) as [srv|] eqn:Eo; [|done]. cbn in Hsp. destruct (deliver srv _ A) as [A1|] eqn:Ed1; [|done].
    injection Hsp as <- <-. pose proof (ar_owners _ _ _ _ _ Hr c) as Ho. rewrite Eo in Ho.
    destruct (pk_clients s !! c) as [y|] eqn:Ey; [|done]. injection Ho as ->.
    destruct (proj1 (ar_servers _ _ _ _ _ Hr (server y)) (ar_owned _ _ _ _ _ Hr c _ Eo)) as [z Ez].
    assert (small (PkgMsg c buf)) as Hm.
    { unfold small. cbn [bytes]. fold count. rewrite Z.gtb_ltb in Eu. by apply Z.ltb_ge in Eu. }
    destruct (send_to_server_runs s A (server y) z c buf A1) as (s' & Er & Hs' & Hk); [by exists Q, rq|done..|].
    exists s'. split; [|right; split_and!; [done..|by eapply deliver_small]].
    eapply runs_step; [exact Et|]. eapply runs_step; [unfold client_at; by rewrite Ey|].
    eapply (runs_bind _ _ [] []); [exact Er|]. apply runs_done.
Qed.

(** ** Reading *)
Lemma read_runs s A e fd g count r A' : at_rest members owners fuel s A -> pkg_fd (pk_files s) fd g e -> known e ->
  spec_read e count A = Some (r, A') ->
  exists s', runs (sys_read fuel rounds fd count) [] s r s' /\ at_rest members owners fuel s' A' /\ pk_files s' = pk_files s.
Proof using Hrounds Hmem.
  intros Hr Hfd Hkn Hsp. pose proof (pkg_target_now s fd g e Hfd) as Et.
  destruct (pkg_fd_facts _ _ _ _ Hfd) as (x & i & Eb & Eg & Ex & Em & _ & _).
  assert (2 < fd) as H0 by apply Hfd.
  unfold spec_read in Hsp. destruct (A !! end_address e) as [[|m ms]|] eqn:EA; [done| |done]. cbn [mbind option_bind] in Hsp.
  pose proof (ar_small _ _ _ _ _ Hr) as Hsm. pose proof (Hsm _ _ EA) as [Hm Hms]%list.Forall_cons.
  destruct (u32_size _ Hm) as [Hu _]. set (n := Z.of_nat (length (bytes m))) in *.
  destruct (ar_served _ _ _ _ _ Hr) as (Q & rq & Hs).
  assert (exists q, msg_queue s (end_address e) = Some q) as [q Hq].
  { destruct (sv_bytes _ _ _ _ _ _ Hs (end_address e) (inbox_bytes (m :: ms))) as (q & _ & Hq & _); [by rewrite lookup_fmap, EA|]. by exists q. }
  destruct (receive_runs s A (end_address e) q m ms ltac:(by exists Q, rq) Hq EA Hm) as (s' & Er & Hs' & Hk). fold n in Er.
  assert (A' = <[end_address e := ms]> A) as ->.
  { destruct (_ >? _); [by injection Hsp as _ <-|]. destruct e; by injection Hsp as _ <-. }
  exists s'. split; [|split; [eapply at_rest_kept; [done..|]|by apply kp_files]].
  2: { intros a l. rewrite lookup_insert. case_decide; [by intros [= <-]|apply Hsm]. }
  assert (of_le (take 4 (encode_msg m)) = n) as En.
  { unfold encode_msg, package. fold n. rewrite take_app_length' by by rewrite le_length. apply le_of_le.
    unfold small, MAX_PACKET_SIZE in Hm. change (256 ^ Z.of_nat 4) with (2 ^ 32). fold n in Hm. lia. }
  unfold sys_read. rewrite (proj2 (Z.ltb_ge fd 0)), (proj2 (Z.eqb_neq fd 2)) by lia.
  eapply runs_files; [by apply Eb|]. cbn iota. eapply runs_files; [exact Eg|]. eapply runs_files; [exact Ex|]. rewrite Em.
  rewrite (Z.add_comm sizeof_package n) in Hu. destruct e as [a|c]; cbn [end_address] in *; unfold msg_queue in Hq.
  - destruct (proj1 (ar_servers _ _ _ _ _ Hr a) Hkn) as [y Ey]. rewrite Ey in Hq. injection Hq as <-.
    eapply runs_step; [exact Et|]. eapply runs_step; [unfold server_at; by rewrite Ey|].
    eapply (runs_bind _ _ [] []); [exact Er|]. cbv beta iota zeta. rewrite En, Hu.
    destruct (n + sizeof_package >? count); injection Hsp as <-; [apply runs_done|].
    rewrite firstn_all2; [apply runs_done|]. pose proof (encode_size m) as He. fold n in He. lia.
  - rewrite (no_server s c A Hr Hkn) in Hq. destruct (pk_clients s !! c) as [y|] eqn:Ey; [|done]. injection Hq as <-.
    eapply runs_step; [exact Et|]. eapply runs_step; [unfold client_at; by rewrite Ey|].
    eapply (runs_bind _ _ [] []); [exact Er|]. cbv beta iota zeta. rewrite En, Hu.
    destruct (n + sizeof_package >? count); injection Hsp as <-; [apply runs_done|].
    replace (take _ _) with (bytes m); [apply runs_done|]. unfold encode_msg, package. rewrite app_assoc.
    rewrite drop_app_length' by done. unfold n. by rewrite Nat2Z.id, firstn_all.
Qed.

(** C19: reading and writing on the descriptors of a package server and its
    clients do to the queues, locks and threads of the kernel what an abstract
    state with one sequence of messages per server and client says: a client's
    bytes are appended to the inbox of its server with its name, a server's to
    the inbox of the client it names, or of every client in the list; a read
    takes the first message whole (a message too long for the reader is taken
    and lost); too long messages and clients of other servers are refused.  The
    call does not wait, wakes whoever waits on the other side, and leaves the
    queues at rest for the next call.  The cases
    in which the code waits, an empty inbox to read or a full one to write to,
    are those for which the abstract call has no result. *)
Theorem package_calls_refine_inboxes (s : pkgsys) (A A' : inboxes) (e : pkg_end) (fd g : Z) (c : pkg_call) (r : list Z * Z) :
  at_rest members owners fuel s A -> pkg_fd (pk_files s) fd g e -> known e ->
  (if c is Write buf then Z.of_nat (length buf) < 2 ^ 32 else True) ->
  spec_call members owners e c A = Some (r, A') ->
  exists s', runs (pkg_call_m fuel rounds fd c) [] s r s' /\ at_rest members owners fuel s' A' /\ pk_files s' = pk_files s.
Proof using Hrounds Hmem.
  intros Hr Hfd Hkn Hlen Hsp. destruct c as [buf|count]; cbn [spec_call pkg_call_m] in *; [|by eapply read_runs].
  destruct (spec_write members owners e buf A) as [[n A1]|] eqn:Ew; [|done]. injection Hsp as <- <-.
  destruct (write_runs s A e fd g buf n A1 Hr Hfd Hkn Hlen Ew) as (s' & Er & Hs'). exists s'. split; [|done].
  eapply (runs_bind _ _ [] []); [exact Er|]. apply runs_done.
Qed.
End refinement.

(** ** A server at 40000 with two clients, at 50000 and 60000; a thread sleeps
    until there is a message for the first client *)
Definition pkg_globals : Globals := {| thread_ready_list := 100; thread_all_list := 300; addr_v2p := fun a => a |}.
Definition pkg_memory : PkgMemory := {| sys_malloc _ _ := 70000; get_kernel_page _ _ := 0 |}.
Definition empty_lists : list Z := [20488; 20500; 20508; 24584; 24596; 28680; 28692; 28700; 40020].
Definition pkg_heap : lheap :=
  list_to_map ([(100, Node 12340 12340); (12340, Node 100 100); (24604, Node 8244 8244); (8244, Node 24604 24604); (4148, Node 0 0);
                (40036, Node 60004 50004); (50004, Node 40036 60004); (60004, Node 50004 40036)] ++
               map (fun a => (a, Node a a)) empty_lists).
Definition pkg_k : kern :=
  Kern pkg_heap (list_to_map [(4096, ring_thread 0); (8192, ring_thread 2); (12288, ring_thread 1)])
       (list_to_map [(20480, free_lock); (24576, free_lock); (28672, free_lock); (40012, free_lock)]) 4096 true 0 0 0 12288 4096.
Definition pkg_queues : queue_map :=
  list_to_map ([(100, [12288]); (24604, [8192])] ++ map (fun a => (a, [])) (take 8 empty_lists)).
Definition empty_queue : ioqueue := Ioqueue 0 0 4000 (replicate 4048 0).
Definition pkg_state : pkgsys :=
  Pkgsys
    (Fs (fun _ => []) (Super 0 0 0 0 0 0) demo_bitmap demo_bitmap (list_to_map [(1000, client_inode 40000); (2000, client_inode 50000)]) []
        [File 0 0 1000; File CLIENT_MARK 0 2000] [0; 1; 2; 0; 1] false [])
    (Iosys pkg_k (list_to_map [(20480, empty_queue); (24576, empty_queue); (28672, empty_queue)]))
    {[40000 := PkgServer [119] 20480]} (list_to_map [(50000, PkgClient 40000 24576); (60000, PkgClient 40000 28672)]).
Definition pkg_members : topology := {[40000 := [50000; 60000]]}.
Definition pkg_owners : gmap Z Z := list_to_map [(50000, 40000); (60000, 40000)].
Definition no_messages : inboxes := list_to_map [(40000, []); (50000, []); (60000, [])].

Section example.
#[local] Existing Instance pkg_globals.

Lemma empty_ring : ring empty_queue [].
Proof. split; cbn [size buf producer_p consumor_p empty_queue length]; rewrite ?length_replicate; try lia. by rewrite Z.mod_0_l. Qed.
Lemma pkg_alive t : alive pkg_k t -> t = 4096 \/ t = 8192 \/ t = 12288.
Proof. intros [b Hb]. cbn in Hb. repeat (apply lookup_insert_Some in Hb as [[<- _]|[_ Hb]]; [tauto|]). by apply lookup_empty_Some in Hb. Qed.
Lemma pkg_queue a xs : pkg_queues !! a = Some xs -> (a = 100 /\ xs = [12288]) \/ (a = 24604 /\ xs = [8192]) \/ (xs = [] /\ a ∈ take 8 empty_lists).
Proof.
  intros H. cbn in H. repeat (apply lookup_insert_Some in H as [[<- <-]|[_ H]]; [first [tauto|right; right; split; [done|by_computation]]|]).
  by apply lookup_empty_Some in H.
Qed.
Lemma pkg_queues_ok : queues (lists pkg_k) (alive pkg_k) pkg_queues.
Proof.
  assert (forall a xs t, pkg_queues !! a = Some xs -> t ∈ xs -> (a = 100 /\ t = 12288) \/ (a = 24604 /\ t = 8192)) as Hm.
  { intros a xs t [[-> ->]|[[-> ->]|[-> _]]]%pkg_queue Ht; [| |by apply not_elem_of_nil in Ht]; apply list_elem_of_singleton in Ht; tauto. }
  split.
  - intros a xs [[-> ->]|[[-> ->]|[-> Ha]]]%pkg_queue; [by_computation..|].
    cbn in Ha. repeat (apply list.elem_of_cons in Ha as [->|Ha]; [by_computation|]). by apply not_elem_of_nil in Ha.
  - intros a xs t Ha [[-> ->]|[-> ->]]%(Hm a xs t Ha); by eexists.
  - intros a b xs ys t Ha Hb Hx Hy. destruct (Hm a xs t Ha Hx), (Hm b ys t Hb Hy); lia.
  - intros t [->|[->| ->]]%pkg_alive; vm_compute; by eexists.
  - intros a xs t Ha Ht%pkg_alive. unfold general_tag. apply pkg_queue in Ha as [[-> _]|[[-> _]|[_ Ha]]]; [lia|lia|].
    cbn in Ha. repeat (apply list.elem_of_cons in Ha as [->|Ha]; [lia|]). by apply not_elem_of_nil in Ha.
Qed.
Lemma pkg_idle q cs : In (q, cs) [(20480, []); (24576, [8192]); (28672, [])] -> on_page q /\ idle_queue pkg_k pkg_queues q [] cs [12288].
Proof.
  assert (forall t, t ∈ [8192] -> exists b, tasks pkg_k !! t = Some b /\ blocking (status b) = true) as H8.
  { intros t ->%list_elem_of_singleton. by eexists. }
  assert (off_queues pkg_queues 4096) as Hoff.
  { intros a xs [[-> ->]|[[-> ->]|[-> _]]]%pkg_queue; set_solver. }
  intros Hq. cbn in Hq. split; [|split].
  1: destruct Hq as [[= <- <-]|[[= <- <-]|[[= <- <-]|[]]]]; [by exists 5|by exists 6|by exists 7].
  1: exact pkg_queues_ok.
  1-5: by destruct Hq as [[= <- <-]|[[= <- <-]|[[= <- <-]|[]]]].
  - by destruct Hq as [[= <- <-]|[[= <- <-]|[[= <- <-]|[]]]].
  - cbn [app]. destruct Hq as [[= <- <-]|[[= <- <-]|[[= <- <-]|[]]]]; [by intros ? ?%not_elem_of_nil|exact H8|by intros ? ?%not_elem_of_nil].
  - intros t Ht%pkg_alive. lia.
  - split; [by eexists|exact Hoff].
Qed.

Lemma pkg_apart p : In p [40036; 40020; 50004; 60004] -> apart pkg_k pkg_queues p.
Proof.
  intros Hp. split.
  - intros t Ht%pkg_alive. unfold general_tag. cbn in Hp. lia.
  - cbn in Hp. by destruct Hp as [<-|[<-|[<-|[<-|[]]]]].
Qed.
Lemma pkg_ioq q : is_Some (ioqs (pk_io pkg_state) !! q) -> exists cs, In (q, cs) [(20480, []); (24576, [8192]); (28672, [])].
Proof.
  intros [x Hx]. cbn in Hx. repeat (apply lookup_insert_Some in Hx as [[<- _]|[_ Hx]]; [eexists; cbn; tauto|]).
  by apply lookup_empty_Some in Hx.
Qed.
Lemma pkg_address a q : msg_queue pkg_state a = Some q ->
  (a = 40000 /\ q = 20480) \/ (a = 50000 /\ q = 24576) \/ (a = 60000 /\ q = 28672).
Proof.
  unfold msg_queue. cbn [pk_servers pk_clients pkg_state]. rewrite lookup_singleton. case_decide as Ha; [intros [= <-]; subst a; tauto|].
  cbn [list_to_map foldr]. rewrite !lookup_insert. repeat case_decide; try done; intros [= <-]; subst a; tauto.
Qed.
Lemma pkg_served : served 5 pkg_members pkg_state pkg_queues [12288] (inbox_bytes <$> no_messages).
Proof.
  split.
  - intros q (cs & Hq)%pkg_ioq. destruct (pkg_idle q cs Hq) as [Hp Hi]. split; [done|]. by exists [], cs.
  - by_computation.
  - intros a l Hl. rewrite lookup_fmap in Hl. unfold no_messages in Hl. cbn [list_to_map foldr] in Hl. rewrite !lookup_insert in Hl.
    repeat case_decide; try done; injection Hl as <-; subst a.
    all: eexists _, empty_queue; split; [reflexivity|]; split; [reflexivity|]; split; [done|exact empty_ring].
  - intros a b q Ha%pkg_address Hb%pkg_address. lia.
  - intros a cl Hcl. unfold pkg_members in Hcl; apply lookup_singleton_Some in Hcl as [<- <-]. split; [by_computation|split; [by_computation|]].
    intros p Hp. apply pkg_apart. apply list_elem_of_In in Hp. cbn in *. tauto.
  - intros a cl Hcl. unfold pkg_members in Hcl. by apply lookup_singleton_Some in Hcl as [<- _].
Qed.
Lemma pkg_at_rest : at_rest pkg_members pkg_owners 5 pkg_state no_messages.
Proof.
  split.
  - exists pkg_queues, [12288]. exact pkg_served.
  - intros a ms H. unfold no_messages in H. cbn [list_to_map foldr] in H. rewrite !lookup_insert in H. repeat case_decide; try done; injection H as <-; constructor.
  - intros a. cbn [pk_servers pkg_state]. unfold pkg_members. by rewrite !lookup_singleton_is_Some.
  - intros c. unfold pkg_owners. cbn [pk_clients pkg_state list_to_map foldr]. rewrite !lookup_insert. by repeat case_decide.
  - intros a [cl Hcl]. unfold pkg_members in Hcl. by apply lookup_singleton_Some in Hcl as [<- _].
  - intros c a H. unfold pkg_owners in H. cbn [list_to_map foldr] in H. rewrite !lookup_insert in H.
    repeat case_decide; try done; injection H as <-; by eexists.
  - intros a cl c H Hc. unfold pkg_members in H; apply lookup_singleton_Some in H as [<- <-]. apply list_elem_of_In in Hc. by destruct Hc as [<-|[<-|[]]].
  - intros a cl H. unfold pkg_members in H; apply lookup_singleton_Some in H as [<- <-]. split; [reflexivity|cbn; lia].
  - done.
Qed.
Lemma pkg_server_fd : pkg_fd (pk_files pkg_state) 3 0 (AtServer 40000).
Proof. split; [by vm_compute|]. by eexists _, _. Qed.
Lemma pkg_client_fd : pkg_fd (pk_files pkg_state) 4 1 (AtClient 50000).
Proof. split; [by vm_compute|]. by eexists _, _. Qed.
End example.

(** The first client writes 7 8 9, the server reads it with its sender, and
    answers all its clients. *)
Lemma package_calls_refine_inboxes_witness :
  exists s1 s2 s3,
    runs (@pkg_call_m pkg_globals some_env no_drivers pkg_memory 5 2 4 (Write [7; 8; 9])) [] pkg_state ([], 3) s1 /\
    runs (@pkg_call_m pkg_globals some_env no_drivers pkg_memory 5 2 3 (Read 1032)) [] s1 ([3; 0; 0; 0; 80; 195; 0; 0; 7; 8; 9], 11) s2 /\
    runs (@pkg_call_m pkg_globals some_env no_drivers pkg_memory 5 2 3 (Write [0; 0; 0; 0; 5])) [] s2 ([], 5) s3 /\
    @at_rest pkg_members pkg_owners pkg_globals 5 s3
      (list_to_map [(40000, []); (50000, [PkgMsg 0 [5]]); (60000, [PkgMsg 0 [5]])]).
Proof.
  assert (forall n (s : pkgsys), 0 < n <= sizeof_package + MAX_PACKET_SIZE -> @sys_malloc pkg_memory n s <> 0) as Hmem by (intros n s _; done).
  pose proof (fun s => @package_calls_refine_inboxes pkg_globals some_env no_drivers pkg_memory 5 2 pkg_members pkg_owners ltac:(lia) Hmem s) as H.
  destruct (H pkg_state no_messages (list_to_map [(40000, [PkgMsg 50000 [7; 8; 9]]); (50000, []); (60000, [])]) (AtClient 50000) 4 1 (Write [7; 8; 9]) ([], 3)
    pkg_at_rest pkg_client_fd ltac:(by eexists) ltac:(done) ltac:(by_computation)) as (s1 & R1 & A1 & F1).
  assert (pkg_fd (pk_files s1) 3 0 (AtServer 40000)) as Hfd1 by (rewrite F1; exact pkg_server_fd).
  destruct (H s1 _ no_messages (AtServer 40000) 3 0 (Read 1032) ([3; 0; 0; 0; 80; 195; 0; 0; 7; 8; 9], 11) A1 Hfd1
    ltac:(by eexists) I ltac:(by_computation)) as (s2 & R2 & A2 & F2).
  assert (pkg_fd (pk_files s2) 3 0 (AtServer 40000)) as Hfd2 by (rewrite F2; exact Hfd1).
  destruct (H s2 _ (list_to_map [(40000, []); (50000, [PkgMsg 0 [5]]); (60000, [PkgMsg 0 [5]])]) (AtServer 40000) 3 0 (Write [0; 0; 0; 0; 5]) ([], 5) A2 Hfd2
    ltac:(by eexists) ltac:(done) ltac:(by_computation)) as (s3 & R3 & A3 & _).
  exists s1, s2, s3. split; [exact R1|]. split; [exact R2|]. split; [exact R3|exact A3].
Defined.

(** ** What the code does not do *)

(** A client that finds no free slot leaves the lock of the file table taken,
    and is in the list of the server. *)
Lemma connect_keeps_lock :
  match @open_pkg some_env pkg_memory 0 [] 0 O_RDONLY
    (set_pk_files (set_open [1000] (pk_files pkg_state)) pkg_state) with
  | Ok (fd, s) => bool_decide (fd = -1 /\ ft_locked (pk_files s) = true /\
      dll (klists (kernel s)) (server_clients 40000) (client_target <$> [50000; 60000; 70000]))
  | _ => false end = true.
Proof. vm_compute. reflexivity. Qed.
(** An answer of one byte is read as one of 1024. *)
Lemma reply_sends_full_packet {S} {X : PkxCalls S} sockfd size blob s :
  Z.of_nat (length blob) < MAX_PACKET_DATA_SIZE -> pkx_reply sockfd size blob s = Fault.
Proof.
  intros Hb. unfold pkx_reply, blob_bytes. rewrite (proj2 (Z.leb_gt _ _)) by exact Hb. done.
Qed.
