(* ===== verification/Exec.v ===== *)
(** * Exec: programs are loaded and started (core/thread/exec.c, core/include/elf.h)

    Over the processes of Process.v: the program file is read through the file
    calls into the memory of the calling process, whose pages are made as they
    are needed.  A word of memory is four bytes, the lowest first.  A block of
    [sys_malloc] is zeros; that it is given back is not seen.  [root] is the
    inode of the root directory.

    Then what a program finds: the bytes of its segments where its headers say,
    and everything else in user memory as it was. *)
From S2P Require Import Prelude Bitmap Kernel Paging PagingSpec Fs FsInode FsProofs FsDir FsFile FsSpec FsDirSpec FsPath FsPathSpec Path FsDev FsCalls FsCallsSpec Process ProcessProofs.

(** ** The headers (core/include/elf.h) *)
Record Elf32_Ehdr := Ehdr { e_ident : list Z; e_type : Z; e_machine : Z; e_version : Z; e_entry : Z; e_phoff : Z;
  e_shoff : Z; e_flags : Z; e_ehsize : Z; e_phentsize : Z; e_phnum : Z; e_shentsize : Z; e_shnum : Z; e_shstrndx : Z }.
Definition sizeof_Ehdr : Z := 52.
Definition decode_ehdr (l : list Z) : Elf32_Ehdr :=
  Ehdr (sub 0 16 l) (word 16 2 l) (word 18 2 l) (word 20 4 l) (word 24 4 l) (word 28 4 l) (word 32 4 l) (word 36 4 l)
       (word 40 2 l) (word 42 2 l) (word 44 2 l) (word 46 2 l) (word 48 2 l) (word 50 2 l).
Definition ELFMAG : list Z := [0x7f; 69; 76; 70].
Record Elf32_Phdr := Phdr { p_type : Z; p_offset : Z; p_vaddr : Z; p_paddr : Z; p_filesz : Z; p_memsz : Z; p_flags : Z; p_align : Z }.
Definition sizeof_Phdr : Z := 32.
Definition decode_phdr (l : list Z) : Elf32_Phdr :=
  Phdr (word 0 4 l) (word 4 4 l) (word 8 4 l) (word 12 4 l) (word 16 4 l) (word 20 4 l) (word 24 4 l) (word 28 4 l).
Definition PT_LOAD : Z := 1.

(** ** Bytes of memory *)
Definition word_of (pa : Z) : Z := pa - pa mod 4.
Definition byte_in (w k : Z) : Z := (w / 256 ^ k) mod 256.
Definition with_byte (w k b : Z) : Z := w + (b - byte_in w k) * 256 ^ k.
Definition store_byte (va b : Z) : M mem unit :=
  fun m => match translate m va with
           | Some pa => Ok (tt, set_phys (put (phys m) (word_of pa) (with_byte (phys m (word_of pa)) (pa mod 4) b)) m)
           | None => Fault end.
Fixpoint store_bytes (va : Z) (l : list Z) : M mem unit :=
  match l with
  | [] => ret tt
  | b :: l => store_byte va b ;;; store_bytes (u32 (va + 1)) l
  end.

Section exec.
Context {G : Globals} {E : FsEnv} {D : Drivers}.
Variable root : Z.

(** [sys_read] with the address of the buffer in user memory. *)
Definition read_to (fd va size : Z) : M os Z :=
  r <- on_fs (sys_read fd size) ;;
  on_mem (store_bytes va (fst r)) ;;;
  ret (snd r).

(** ** [load_code] *)
Definition page_cnt (virtaddr size : Z) : Z :=
  let size_fpage := PG_SIZE - Z.land virtaddr 0x00000fff in
  if size >? size_fpage then u32 (size - size_fpage + PG_SIZE - 1) / PG_SIZE + 1 else 1.
(** The page is there, or is made; [false] when there is no memory. *)
Definition load_page (vaddr_page : Z) : M mem bool :=
  pde <- load (pde_ptr vaddr_page) ;;
  there <- (if present pde then pte <- load (pte_ptr vaddr_page) ;; ret (present pte) else ret false) ;;
  if there : bool then ret true
  else a <- malloc_page_with_vaddr MP_USER vaddr_page ;; ret (negb (a =? 0)).
Fixpoint load_pages (occupy_page_cnt : nat) (vaddr_page : Z) : M mem bool :=
  match occupy_page_cnt with
  | O => ret true
  | S n =>
      ok <- load_page vaddr_page ;;
      if ok : bool then load_pages n (u32 (vaddr_page + PG_SIZE)) else ret false
  end.
Definition load_code (fd virtaddr offset size : Z) : M os bool :=
  let vaddr_first_page := Z.land virtaddr 0xfffff000 in
  ok <- on_mem (load_pages (Z.to_nat (page_cnt virtaddr size)) vaddr_first_page) ;;
  if negb ok then ret false
  else
    on_fs (sys_lseek fd (s32 offset) SEEK_SET) ;;;
    read_to fd virtaddr size ;;;
    ret true.

(** ** [load_elf_file] *)
(** The loop over the program headers; the result is [false] for a failure.
    A header is read into a block of [phsz] bytes, behind which is other memory. *)
Fixpoint load_segments (phnum : nat) (fd phoff phsz : Z) : M os bool :=
  match phnum with
  | O => ret true
  | S n =>
      on_fs (sys_lseek fd (s32 phoff) SEEK_SET) ;;;
      r <- on_fs (sys_read fd phsz) ;;
      if negb (snd r =? phsz) then ret false
      else if phsz <? 20 then on_fs fault
      else
        let ph_buf := decode_phdr (fst r) in
        ok <- (if p_type ph_buf =? PT_LOAD
               then load_code fd (p_vaddr ph_buf) (p_offset ph_buf) (p_filesz ph_buf) else ret true) ;;
        if ok : bool then load_segments n fd (u32 (phoff + phsz)) phsz else ret false
  end.
(** A file that is not of the format is left open. *)
Definition load_elf_file (pathname : list Z) : M os Z :=
  fd <- on_fs (sys_open root pathname O_RDONLY) ;;
  if fd =? -1 then ret (-1)
  else
    ok <- on_fs sys_malloc_ok ;;
    if negb ok then ret (-1)
    else
      r <- on_fs (sys_read fd sizeof_Ehdr) ;;
      let elf_header := decode_ehdr (splice 0 (fst r) (replicate (Z.to_nat sizeof_Ehdr) 0)) in
      if bool_decide (take 4 (e_ident elf_header) = ELFMAG) then
        on_fs malloc_unchecked ;;;
        ok <- load_segments (Z.to_nat (e_phnum elf_header)) fd (e_phoff elf_header) (e_phentsize elf_header) ;;
        on_fs (sys_close fd) ;;;
        ret (if ok : bool then s32 (e_entry elf_header) else -1)
      else ret (-1).

(** ** [sys_execv] *)
Fixpoint count_args (fuel : nat) (argv argc : Z) : M mem Z :=
  match fuel with
  | O => stuck
  | S fuel =>
      a <- load (u32 (argv + 4 * argc)) ;;
      if a =? 0 then ret argc else count_args fuel argv (argc + 1)
  end.
Definition MAIN : list Z := [109; 97; 105; 110].
Definition name_text (l : list Z) : list Z := take (Z.to_nat (name_length l)) l.
(** The frame from which [intr_exit] takes the registers of [thread]. *)
Definition intr_0_stack (thread : Z) : Z := u32 (thread + PG_SIZE - sizeof_context).
(** [None]: the thread goes on at [intr_exit], with that frame.  The value for
    [esp] goes to the place that [popad] skips. *)
Definition sys_execv (fuel : nat) (path : list Z) (argv : Z) : M os (option Z) :=
  cur <- on_kern running_thread ;;
  p <- proc_at cur ;;
  if bool_decide (name_text (name p) = MAIN) then panic
  else
    argc <- on_mem (count_args fuel argv 0) ;;
    entry_point <- load_elf_file path ;;
    if entry_point =? -1 then ret (Some (-1))
    else
      let name_len := Z.of_nat (length path) in
      ASSERT (name_len <? TASK_NAME_LEN) ;;;
      upd_proc cur (fun p =>
        let cleared := replicate (Z.to_nat (name_length (name p))) 0 ++ drop (Z.to_nat (name_length (name p))) (name p) in
        set_name (path ++ 0 :: drop (S (length path)) cleared) p) ;;;
      store_word (intr_0_stack cur + 20) argv ;;;
      store_word (intr_0_stack cur + 28) argc ;;;
      store_word (intr_0_stack cur + 56) (u32 entry_point) ;;;
      store_word (intr_0_stack cur + 16) 0xc0000000 ;;;
      ret None.
End exec.

(** * What is loaded *)

(** ** Bytes in words *)
Section bytes.
Lemma byte_in_with w j k b : 0 <= j < 4 -> 0 <= k < 4 -> 0 <= b < 256 ->
  byte_in (with_byte w k b) j = if j =? k then b else byte_in w j.
Proof.
  intros Hj Hk Hb. unfold with_byte, byte_in.
  assert (j = 0 \/ j = 1 \/ j = 2 \/ j = 3) as [->|[->|[->| ->]]] by lia;
  assert (k = 0 \/ k = 1 \/ k = 2 \/ k = 3) as [->|[->|[->| ->]]] by lia; cbn [Z.eqb Pos.eqb];
  change (256 ^ 0) with 1; change (256 ^ 1) with 256; change (256 ^ 2) with 65536; change (256 ^ 3) with 16777216;
  rewrite ?Z.div_1_r; Z.to_euclidean_division_equations; lia.
Qed.
Lemma word_of_page f o : f mod 4096 = 0 -> 0 <= o < 4096 -> exists o', word_of (f + o) = f + o' /\ 0 <= o' < 4096 /\ (f + o) mod 4 = o mod 4 /\ o' = o - o mod 4.
Proof.
  intros Hf Ho. exists (o - o mod 4). unfold word_of. pose proof (Z.mod_pos_bound o 4). pose proof (Z.div_mod f 4096).
  assert ((f + o) mod 4 = o mod 4) as E.
  { replace (f + o) with (o + (f / 4096 * 1024) * 4) by lia. apply Z_mod_plus_full. }
  rewrite E. split; [lia|]. split; [|done]. Z.to_euclidean_division_equations. lia.
Qed.
End bytes.

(** ** The memory of a process *)
Definition user (va : Z) : Prop := 0 <= va < 0xc0000000.
Definition in_frame (p : pool) (pos a : Z) : Prop :=
  0 <= pos < nbits (pool_bitmap p) /\ frame_of p pos <= a < frame_of p pos + 4096.
(** The byte at a virtual address. *)
Definition byte_at_va (m : mem) (va : Z) : option Z :=
  pa ← translate m va; Some (byte_in (phys m (word_of pa)) (pa mod 4)).
(** User pages lie in frames of the user pool, one page in one frame, and no
    table lies there. *)
Record space (m : mem) : Prop := {
  sp_tables : tables_ok m;
  sp_dir : own_dir m;
  sp_own : 0xc0000000 <= pgdir m;
  sp_used : tables_used m;
  sp_kpool : pool_ok (kernel_pool m);
  sp_upool : pool_ok (user_pool m);
  sp_apart : forall i pos, 0 <= i < 1024 -> present (phys m (cr3 m + 4 * i)) = true -> 0 <= pos < nbits (pool_bitmap (user_pool m)) ->
    frame (phys m (cr3 m + 4 * i)) <> frame_of (user_pool m) pos;
  sp_pools : forall i j, 0 <= i < nbits (pool_bitmap (kernel_pool m)) -> 0 <= j < nbits (pool_bitmap (user_pool m)) ->
    frame_of (kernel_pool m) i <> frame_of (user_pool m) j;
  sp_pages : forall va pa, user va -> translate m va = Some pa ->
    exists pos, 0 <= pos < nbits (pool_bitmap (user_pool m)) /\ used (pool_bitmap (user_pool m)) pos = true /\
      pa = frame_of (user_pool m) pos + va mod 4096;
  sp_inj : forall va vb pos oa ob, user va -> user vb -> 0 <= oa < 4096 -> 0 <= ob < 4096 ->
    translate m va = Some (frame_of (user_pool m) pos + oa) -> translate m vb = Some (frame_of (user_pool m) pos + ob) ->
    va / 4096 = vb / 4096
}.

Section space.
Implicit Types (m : mem) (va vb b : Z).

Lemma user_range va : user va -> 0 <= va < 2 ^ 32 /\ PDE_IDX va <> 1023.
Proof.
  unfold user. intros H. split; [lia|]. rewrite pde_idx by lia. change (2 ^ 22) with 4194304.
  assert (va / 4194304 < 768) by (apply Z.div_lt_upper_bound; lia). lia.
Qed.
Lemma cr3_apart m pos : space m -> 0 <= pos < nbits (pool_bitmap (user_pool m)) -> cr3 m <> frame_of (user_pool m) pos.
Proof.
  intros H Hp. destruct (to_cr3 _ (sp_tables m H)) as [Hc Hm]. destruct (entry_spec _ Hm Hc) as (_ & Ef & Ep & _).
  pose proof (sp_apart m H 1023 pos ltac:(lia)) as Ha. rewrite (to_self _ (sp_tables m H)), Ef, Ep in Ha. by apply Ha.
Qed.
Lemma table_apart m i pos o t : space m -> 0 <= i < 1024 -> present (phys m (cr3 m + 4 * i)) = true ->
  0 <= pos < nbits (pool_bitmap (user_pool m)) -> 0 <= o < 4096 -> 0 <= t < 1024 ->
  frame (phys m (cr3 m + 4 * i)) + 4 * t <> frame_of (user_pool m) pos + o.
Proof.
  intros H Hi Hp Hpos Ho Ht. apply pages_apart; [|by apply frame_of_aligned; [apply H|]|by apply sp_apart|lia|done].
  apply frame_aligned. by apply (to_range _ (sp_tables m H)).
Qed.
Lemma dir_apart m i pos o : space m -> 0 <= i < 1024 -> 0 <= pos < nbits (pool_bitmap (user_pool m)) -> 0 <= o < 4096 ->
  cr3 m + 4 * i <> frame_of (user_pool m) pos + o.
Proof.
  intros H Hi Hpos Ho. apply pages_apart; [apply (to_cr3 _ (sp_tables m H))|by apply frame_of_aligned; [apply H|]|by apply cr3_apart|lia|done].
Qed.

(** Writing into a user frame changes no translation. *)
Lemma write_user_frame m pos o v : space m -> 0 <= pos < nbits (pool_bitmap (user_pool m)) -> 0 <= o < 4096 ->
  let m' := set_phys (put (phys m) (frame_of (user_pool m) pos + o) v) m in
  space m' /\ forall va, 0 <= va < 2 ^ 32 -> translate m' va = translate m va.
Proof.
  intros H Hpos Ho m'.
  assert (forall i, 0 <= i < 1024 -> phys m' (cr3 m + 4 * i) = phys m (cr3 m + 4 * i)) as Hdir.
  { intros i Hi. apply put_ne. by apply dir_apart. }
  assert (forall va, 0 <= va < 2 ^ 32 -> translate m' va = translate m va) as Htr.
  { intros va Hva. pose proof (pde_idx_range va Hva) as Hd. pose proof (pte_idx_range va ltac:(lia)) as Ht.
    rewrite !translate_walk. unfold walk. change (cr3 m') with (cr3 m). rewrite Hdir by done.
    destruct (present (phys m (cr3 m + 4 * PDE_IDX va))) eqn:Ep; [|done]. cbn [phys set_phys m'].
    rewrite put_ne; [done|]. by apply table_apart. }
  split; [|done]. destruct H as [[H1 H2 H3 H4] Hown Hpg Hused Hk Hu Ha Hp Hpages Hinj]. split; try done.
  - split; change (cr3 m') with (cr3 m); [done|by rewrite (Hdir 1023)|intros i Hi; rewrite Hdir by done; auto|].
    intros i j Hi Hj. rewrite !Hdir by done. auto.
  - destruct Hown as [Ho'|(Hd1 & Hd2 & Hd3 & Hd4)]; [by left|right]. change (pgdir m') with (pgdir m). split_and!; try done; try lia.
    change (cr3 m') with (cr3 m). by rewrite Htr.
  - intros i q Hi. change (cr3 m') with (cr3 m). rewrite Hdir by done. by apply Hused.
  - intros i q Hi. change (cr3 m') with (cr3 m). rewrite Hdir by done. by apply Ha.
  - intros va pa Hva. rewrite Htr by by apply user_range. by apply Hpages.
  - intros va vb q oa ob Hva Hvb. rewrite !Htr by by apply user_range. by apply Hinj.
Qed.
End space.

(** What writing bytes leaves as it was. *)
Record same_map (m m' : mem) : Prop := {
  sm_translate : forall va, 0 <= va < 2 ^ 32 -> translate m' va = translate m va;
  sm_pgdir : pgdir m' = pgdir m;
  sm_pools : kernel_pool m' = kernel_pool m /\ user_pool m' = user_pool m;
  sm_vaddr : progress_vaddr m' = progress_vaddr m
}.
Section storing.
Implicit Types (m : mem) (va vb b : Z) (l : list Z).
#[export] Instance same_map_preorder : PreOrder same_map.
Proof.
  split; [by split|]. intros m1 m2 m3 [H1 H2 [H3 H3'] H4] [K1 K2 [K3 K3'] K4]. split; [|congruence|split; congruence|congruence].
  intros va Hva. by rewrite K1, H1.
Qed.

Lemma store_byte_ok m va b : space m -> user va -> is_Some (translate m va) -> 0 <= b < 256 ->
  exists m', store_byte va b m = Ok (tt, m') /\ space m' /\ same_map m m' /\ byte_at_va m' va = Some b /\
    forall vb, user vb -> vb <> va -> byte_at_va m' vb = byte_at_va m vb.
Proof.
  intros H Hva [pa Epa] Hb. destruct (sp_pages m H va pa Hva Epa) as (pos & Hpos & _ & Hpa).
  pose proof (Z.mod_pos_bound va 4096 ltac:(lia)) as Ho. set (f := frame_of (user_pool m) pos) in *.
  destruct (frame_of_aligned (user_pool m) pos (sp_upool m H) Hpos) as [Hfm _]. fold f in Hfm.
  destruct (word_of_page f (va mod 4096) Hfm Ho) as (o' & Ew & Ho' & Em & Eo').
  destruct (write_user_frame m pos o' (with_byte (phys m (word_of pa)) (pa mod 4) b) H Hpos Ho') as [H' Htr]. fold f in H', Htr.
  set (m' := set_phys _ m) in *. exists m'. pose proof (user_range va Hva) as [Hr _].
  assert (word_of pa = f + o') as Ewp by (by rewrite Hpa). split.
  { unfold store_byte. rewrite Epa. unfold m'. by rewrite Ewp. }
  split; [done|]. split; [by split|]. split.
  - unfold byte_at_va. rewrite Htr, Epa by done. cbn [mbind option_bind]. rewrite Ewp. cbn [phys set_phys m']. rewrite put_eq.
    rewrite byte_in_with by (try lia; apply Z.mod_pos_bound; lia). by rewrite Z.eqb_refl.
  - intros vb Hvb Hne. unfold byte_at_va. rewrite Htr by by apply user_range.
    destruct (translate m vb) as [pb|] eqn:Epb; [|done]. cbn [mbind option_bind phys set_phys m'].
    destruct (sp_pages m H vb pb Hvb Epb) as (q & Hq & _ & Hpb). pose proof (Z.mod_pos_bound vb 4096 ltac:(lia)) as Hob.
    destruct (frame_of_aligned (user_pool m) q (sp_upool m H) Hq) as [Hgm _].
    destruct (word_of_page (frame_of (user_pool m) q) (vb mod 4096) Hgm Hob) as (o2 & Ew2 & Ho2 & Em2 & Eo2).
    rewrite Hpb, Ew2. destruct (decide (f = frame_of (user_pool m) q)) as [Ef|Ef].
    + rewrite <-Ef in *. assert (va / 4096 = vb / 4096) as Epage.
      { apply (sp_inj m H va vb pos (va mod 4096) (vb mod 4096)); try done; fold f; congruence. }
      destruct (decide (o2 = o')) as [->|Hno].
      * rewrite put_eq, <-Ewp, byte_in_with by (try lia; apply Z.mod_pos_bound; lia).
        rewrite (proj2 (Z.eqb_neq _ _)); [done|]. rewrite Hpa, Em, Em2. pose proof (Z.div_mod va 4096). pose proof (Z.div_mod vb 4096). lia.
      * by rewrite put_ne by lia.
    + rewrite put_ne; [done|]. by apply pages_apart.
Qed.

Lemma store_bytes_ok m va l : space m -> (forall k, 0 <= k < Z.of_nat (length l) -> user (va + k) /\ is_Some (translate m (va + k))) ->
  Forall (fun b => 0 <= b < 256) l ->
  exists m', store_bytes va l m = Ok (tt, m') /\ space m' /\ same_map m m' /\
    (forall k : nat, (k < length l)%nat -> byte_at_va m' (va + Z.of_nat k) = l !! k) /\
    forall vb, user vb -> ~ (va <= vb < va + Z.of_nat (length l)) -> byte_at_va m' vb = byte_at_va m vb.
Proof.
  revert m va. induction l as [|b l IH]; intros m va H Hl Hb; cbn [store_bytes].
  - exists m. split; [done|]. split; [done|]. split; [done|]. split; [intros k Hk; cbn in Hk; lia|done].
  - apply list.Forall_cons in Hb as [Hb Hbs]. cbn [length] in *.
    destruct (Hl 0 ltac:(lia)) as [Hu Ht]. rewrite Z.add_0_r in Hu, Ht.
    destruct (store_byte_ok m va b H Hu Ht Hb) as (m1 & E1 & H1 & Hs1 & Hb1 & Ho1). run E1.
    destruct (decide (l = [])) as [->|Hne].
    { exists m1. cbn [store_bytes length]. split; [done|]. split; [done|]. split; [done|]. split.
      - intros k Hk. assert (k = 0%nat) as -> by (cbn in Hk; lia). by rewrite Z.add_0_r.
      - intros vb Hvb Hn. apply Ho1; [done|cbn in Hn; lia]. }
    assert (0 < length l)%nat by (destruct l; [done|cbn; lia]).
    assert (user (va + 1)) as Hu1 by (apply Hl; lia). rewrite u32_small by (unfold user in *; lia).
    destruct (IH m1 (va + 1) H1) as (m2 & E2 & H2 & Hs2 & Hb2 & Ho2); [|done|].
    { intros k Hk. replace (va + 1 + k) with (va + (k + 1)) by lia. destruct (Hl (k + 1) ltac:(lia)) as [Huk Htk].
      split; [done|]. by rewrite (sm_translate _ _ Hs1) by by apply user_range. }
    exists m2. split; [done|]. split; [done|]. split; [by etransitivity|]. split.
    + intros [|k] Hk.
      * rewrite Z.add_0_r, Ho2 by (done || lia). done.
      * replace (va + Z.of_nat (S k)) with (va + 1 + Z.of_nat k) by lia. rewrite Hb2 by lia. done.
    + intros vb Hvb Hn. rewrite Ho2 by (done || lia). apply Ho1; [done|lia].
Qed.
End storing.

(** ** A page more *)
(** There are [k] free frames in the pool. *)
Definition has_free (p : pool) (k : nat) : Prop :=
  exists l, NoDup l /\ length l = k /\ forall pos, pos ∈ l -> 0 <= pos < nbits (pool_bitmap p) /\ used (pool_bitmap p) pos = false.
Section mapping.
Implicit Types (m : mem) (va vb : Z) (p : pool).

Lemma has_free_one p k : has_free p (S k) -> exists pos, 0 <= pos < nbits (pool_bitmap p) /\ used (pool_bitmap p) pos = false.
Proof. intros ([|x l] & _ & Hl & Hx); [done|]. exists x. apply Hx. by left. Qed.
Lemma has_free_less p k : has_free p (S k) -> has_free p k.
Proof.
  intros ([|x l] & Hn & Hl & Hx); [done|]. apply list.NoDup_cons in Hn as [_ Hn]. exists l. split; [done|]. split; [by injection Hl|].
  intros pos Hp. apply Hx. by right.
Qed.
Lemma has_free_taken p p' pos k : has_free p (S k) -> nbits (pool_bitmap p') = nbits (pool_bitmap p) ->
  (forall i, 0 <= i -> used (pool_bitmap p') i = if i =? pos then true else used (pool_bitmap p) i) -> has_free p' k.
Proof.
  intros (l & Hn & Hl & Hx) Hnb Hu. destruct (decide (pos ∈ l)) as [Hin|Hin].
  - apply list_elem_of_split in Hin as (l1 & l2 & ->). exists (l1 ++ l2).
    apply list.NoDup_app in Hn as (H1 & H2 & [H3 H4]%list.NoDup_cons). split; [|split].
    + apply list.NoDup_app. split_and!; [done| |done]. intros x Hx1 Hx2. apply (H2 x Hx1). by right.
    + rewrite length_app in *. cbn in Hl. lia.
    + intros i Hi. assert (i ∈ l1 ++ pos :: l2) as Hi' by (rewrite list.elem_of_app, list.elem_of_cons in *; tauto).
      destruct (Hx i Hi') as [Hr Hf]. rewrite Hnb, Hu by lia. rewrite (proj2 (Z.eqb_neq i pos)); [done|]. intros ->.
      apply list.elem_of_app in Hi as [Hi|Hi]; [|done]. apply (H2 pos Hi). by left.
  - assert (has_free p' (S k)) as Hf.
    { exists l. split; [done|]. split; [done|]. intros i Hi. destruct (Hx i Hi) as [Hr Hf]. rewrite Hnb, Hu by lia.
      by rewrite (proj2 (Z.eqb_neq i pos)) by congruence. }
    by apply has_free_less.
Qed.

(** The tables changed only to map the page of [va] to frame [pos]. *)
Record one_more m m' va (pos : Z) : Prop := {
  om_tables : tables_ok m';
  om_own : own_dir m';
  om_same : pgdir m' = pgdir m /\ user_pool m' = user_pool m /\ progress_vaddr m' = progress_vaddr m;
  om_kpool : pool_ok (kernel_pool m') /\ phy_addr_start (kernel_pool m') = phy_addr_start (kernel_pool m) /\
    nbits (pool_bitmap (kernel_pool m')) = nbits (pool_bitmap (kernel_pool m));
  om_kfree : forall i, 0 <= i < nbits (pool_bitmap (kernel_pool m)) -> used (pool_bitmap (kernel_pool m')) i = false ->
    used (pool_bitmap (kernel_pool m)) i = false;
  om_entries : forall i, 0 <= i < 1024 -> present (phys m' (cr3 m' + 4 * i)) = true ->
    present (phys m (cr3 m + 4 * i)) = true /\ phys m' (cr3 m' + 4 * i) = phys m (cr3 m + 4 * i) \/
    exists kp, 0 <= kp < nbits (pool_bitmap (kernel_pool m)) /\ used (pool_bitmap (kernel_pool m')) kp = true /\
      frame (phys m' (cr3 m' + 4 * i)) = frame_of (kernel_pool m) kp;
  om_page : forall vb, 0 <= vb < 2 ^ 32 -> vb / 4096 = va / 4096 -> translate m' vb = Some (frame_of (user_pool m) pos + vb mod 4096);
  om_other : forall vb, 0 <= vb < 2 ^ 32 -> PDE_IDX vb <> 1023 -> vb / 4096 <> va / 4096 -> translate m' vb = translate m vb;
  om_data : forall q o, 0 <= q < nbits (pool_bitmap (user_pool m)) -> 0 <= o < 4096 ->
    phys m' (frame_of (user_pool m) q + o) = phys m (frame_of (user_pool m) q + o)
}.

Lemma frame_offsets p q q' o o' : pool_ok p -> 0 <= q < nbits (pool_bitmap p) -> 0 <= q' < nbits (pool_bitmap p) ->
  0 <= o < 4096 -> 0 <= o' < 4096 -> frame_of p q + o = frame_of p q' + o' -> q = q' /\ o = o'.
Proof. unfold frame_of, PG_SIZE. intros _ _ _ Ho Ho' E. lia. Qed.
Lemma space_mapped m m' va pos : space m -> user va -> 0 <= pos < nbits (pool_bitmap (user_pool m)) ->
  used (pool_bitmap (user_pool m)) pos = true ->
  (forall vb o, user vb -> 0 <= o < 4096 -> translate m vb <> Some (frame_of (user_pool m) pos + o)) ->
  one_more m m' va pos -> space m'.
Proof.
  intros H Hva Hpos Hused Hnew [Ht Ho (Epg & Eup & _) (Hkp & Ekst & Eknb) Hkf He Hpage Hother _].
  assert (forall i, frame_of (kernel_pool m') i = frame_of (kernel_pool m) i) as Ekf by (intros i; unfold frame_of; by rewrite Ekst).
  assert (forall vb pb, user vb -> translate m' vb = Some pb ->
    (vb / 4096 = va / 4096 /\ pb = frame_of (user_pool m) pos + vb mod 4096) \/ (vb / 4096 <> va / 4096 /\ translate m vb = Some pb)) as Hcases.
  { intros vb pb Hvb Hpb. destruct (user_range vb Hvb) as [Hr Hi]. destruct (decide (vb / 4096 = va / 4096)) as [E|E].
    - left. rewrite (Hpage vb Hr E) in Hpb. by injection Hpb as <-.
    - right. by rewrite <-(Hother vb Hr Hi E). }
  split; try done.
  - rewrite Epg. apply H.
  - intros i q Hi Hp Hq Huq. rewrite Ekf, Eknb in *. destruct (He i Hi Hp) as [[Hp' ->]|(kp & Hkp' & Huk & ->)].
    + apply (sp_used m H i q Hi Hp' Hq). by apply Hkf.
    + intros E. apply frame_of_inj in E. congruence.
  - rewrite Eup. apply H.
  - intros i q Hi Hp. rewrite Eup. intros Hq. destruct (He i Hi Hp) as [[Hp' ->]|(kp & Hkp' & Huk & ->)]; [by apply H|by apply H].
  - intros i j. rewrite Eknb, Eup, Ekf. apply H.
  - intros vb pb Hvb Hpb. rewrite Eup. destruct (Hcases vb pb Hvb Hpb) as [[_ ->]|[_ E]]; [by exists pos|by apply H].
  - intros v1 v2 q o1 o2 H1 H2 Ho1 Ho2 T1 T2. rewrite Eup in T1, T2.
    destruct (Hcases v1 _ H1 T1) as [[E1 F1]|[N1 F1]], (Hcases v2 _ H2 T2) as [[E2 F2]|[N2 F2]].
    + congruence.
    + exfalso. assert (q = pos) as -> by (unfold frame_of, PG_SIZE in F1; pose proof (Z.mod_pos_bound v1 4096); lia). by apply (Hnew v2 o2).
    + exfalso. assert (q = pos) as -> by (unfold frame_of, PG_SIZE in F2; pose proof (Z.mod_pos_bound v2 4096); lia). by apply (Hnew v1 o1).
    + by apply (sp_inj m H v1 v2 q o1 o2).
Qed.
End mapping.

Section putting.
Implicit Types (m : mem) (va vb : Z).

Lemma own_page m va : space m -> user va -> pgdir m / 4096 <> va / 4096.
Proof.
  intros H Hva. pose proof (sp_own m H). unfold user in Hva. assert (va / 4096 < 786432) by (apply Z.div_lt_upper_bound; lia).
  assert (786432 <= pgdir m / 4096) by (apply Z.div_le_lower_bound; lia). lia.
Qed.
Lemma page_index va vb : 0 <= va < 2 ^ 32 -> 0 <= vb < 2 ^ 32 -> vb / 4096 = va / 4096 -> PDE_IDX vb = PDE_IDX va /\ PTE_IDX vb = PTE_IDX va.
Proof. intros H1 H2. by apply same_page. Qed.

Lemma put_present_one_more m va pos : space m -> user va -> 0 <= pos < nbits (pool_bitmap (user_pool m)) ->
  present (pde_of m va) = true ->
  exists m', put_page va (frame_of (user_pool m) pos) m = Ok (tt, m') /\ one_more m m' va pos /\ kernel_pool m' = kernel_pool m.
Proof.
  intros H Hva Hpos Hp. destruct (user_range va Hva) as [Hr Hi]. pose proof (sp_tables m H) as Ht. set (p := frame_of (user_pool m) pos).
  destruct (frame_of_aligned (user_pool m) pos (sp_upool m H) Hpos) as [Hpm Hpr]. fold p in Hpm, Hpr.
  destruct (entry_spec p Hpm ltac:(lia)) as (_ & Efr & Epr & _).
  destruct (put_entry_ok m va (entry_of p) Ht Hr Hp Hi) as (H' & Hsame & Hother).
  pose proof (own_page m va H Hva) as Hpg. pose proof (pde_idx_range va Hr) as Hd. pose proof (pte_idx_range va ltac:(lia)) as Hte.
  assert (forall i, 0 <= i < 1024 -> put (phys m) (frame (pde_of m va) + 4 * PTE_IDX va) (entry_of p) (cr3 m + 4 * i) = phys m (cr3 m + 4 * i)) as Hdir.
  { intros i Hii. apply put_ne. apply pages_apart; [apply (to_cr3 _ Ht)|by apply frame_aligned, (to_range _ Ht)| |lia|lia].
    apply not_eq_sym. by apply table_not_dir. }
  eexists. split; [by apply put_page_present_ok; [| apply H|..]|]. split; [|done]. split; try done.
  - by apply own_dir_after; [|apply H|..].
  - split; [apply H|done].
  - intros i Hii. cbn [phys set_phys cr3]. rewrite Hdir by done. by left.
  - intros vb Hvb E. apply page_index in E as [E1 E2]; [|done..]. by rewrite Hsame, Epr, Efr, offset_mod by done.
  - intros vb Hvb Hnb E. apply Hother; [done..|]. by rewrite same_page by done.
  - intros q o Hq Ho. cbn [phys set_phys]. apply put_ne. apply not_eq_sym. by apply table_apart.
Qed.

Lemma put_absent_one_more m va pos k : space m -> user va -> 0 <= pos < nbits (pool_bitmap (user_pool m)) ->
  present (pde_of m va) = false -> has_free (kernel_pool m) (S k) ->
  exists m', put_page va (frame_of (user_pool m) pos) m = Ok (tt, m') /\ one_more m m' va pos /\ has_free (kernel_pool m') k.
Proof.
  intros H Hva Hpos Hp Hfree. destruct (user_range va Hva) as [Hr Hi]. pose proof (sp_tables m H) as Ht. set (p := frame_of (user_pool m) pos).
  destruct (frame_of_aligned (user_pool m) pos (sp_upool m H) Hpos) as [Hpm Hpr]. fold p in Hpm, Hpr.
  destruct (has_free_one _ _ Hfree) as (pos0 & Hpos0 & Hu0).
  destruct (get_free_page_ok MP_KERNEL m (sp_kpool m H)) as [(kp & b' & Eg & Hkp & Hku & Hw' & Hl' & Hb')|[_ Hall]]; [|by rewrite Hall in Hu0].
  change (pool_of MP_KERNEL m) with (kernel_pool m) in *.
  destruct (frame_of_aligned _ kp (sp_kpool m H) Hkp) as [Hfm Hfr]. set (f := frame_of (kernel_pool m) kp) in *.
  assert (fresh_table m f) as Hf by (split_and!; [done|lia|lia|]; intros i Hii Hpi; by apply (sp_used m H)).
  set (m1 := set_pool_bitmap MP_KERNEL b' m). assert (tables_ok m1) as H1 by (by destruct Ht; split).
  destruct (new_table_ok m1 va f H1 Hf Hr Hp Hi) as (H3 & Epde & _ & Hkeep).
  destruct (entry_spec f Hfm ltac:(lia)) as (_ & Eff & Epf & _). destruct (entry_spec p Hpm ltac:(lia)) as (_ & Efr & Epr & _).
  set (m3 := set_phys _ m1) in *. assert (present (pde_of m3 va) = true) as Hp3 by by rewrite Epde.
  destruct (put_entry_ok m3 va (entry_of p) H3 Hr Hp3 Hi) as (H' & Hsame & Hother). pose proof (own_page m va H Hva) as Hpg.
  assert (own_dir m3) as Hown3.
  { destruct (sp_dir m H) as [[E _]|(Hd1 & Hd2 & Hd3 & Hd4)]; [pose proof (sp_own m H); lia|right].
    change (pgdir m3) with (pgdir m). split_and!; [done|lia|lia|done|]. change (cr3 m3) with (cr3 m). by rewrite Hkeep. }
  pose proof (own_dir_after m3 va (entry_of p) H3 Hown3 Hr Hp3 Hi (fun _ => Hpg)) as Hown'.
  rewrite Epde, Eff in H', Hsame, Hother, Hown'. set (m' := set_phys _ m3) in *.
  pose proof (pde_idx_range va Hr) as Hd. pose proof (pte_idx_range va ltac:(lia)) as Hte. destruct (to_cr3 _ Ht) as [_ Hcm].
  assert (cr3 m <> f) as Hcf by by apply fresh_not_dir.
  assert (nbits (pool_bitmap (kernel_pool m')) = nbits (pool_bitmap (kernel_pool m))) as Hnb by (unfold nbits; change (pool_bitmap (kernel_pool m')) with b'; by rewrite Hl').
  exists m'. split; [exact (put_page_absent_ok m va p Ht Hr Hi Hp f b' Eg Hf)|]. split.
  - split; try done.
    + split; [|done]. destruct (sp_kpool m H) as [? Hs He]. split; [done|done|]. by rewrite Hnb.
    + intros i Hii. change (pool_bitmap (kernel_pool m')) with b'. rewrite Hb' by lia. by destruct (i =? kp).
    + intros i Hii. change (cr3 m') with (cr3 m). cbn [phys set_phys m' m3]. rewrite put_ne, cleared_out by (first [apply pages_apart; try done; lia | done | lia]).
      unfold put. change (cr3 m1) with (cr3 m). destruct (Z.eqb_spec (cr3 m + 4 * i) (cr3 m + 4 * PDE_IDX va)); [|intros Hpi; left; by split].
      intros _. right. exists kp. change (pool_bitmap (kernel_pool m')) with b'. rewrite Hb', Z.eqb_refl by lia. by rewrite Eff.
    + intros vb Hvb E. apply page_index in E as [E1 E2]; [|done..]. by rewrite Hsame, Epr, Efr, offset_mod by done.
    + intros vb Hvb Hnvb E. etransitivity; [apply Hother; [done..|]|by apply Hkeep]. by rewrite same_page by done.
    + intros q o Hq Ho. destruct (frame_of_aligned (user_pool m) q (sp_upool m H) Hq) as [Hqm _].
      assert (frame_of (user_pool m) q <> f) as Hqf by (apply not_eq_sym; by apply (sp_pools m H)).
      cbn [phys set_phys m' m3]. rewrite put_ne, cleared_out by (first [apply pages_apart; try done; lia | done]).
      apply put_ne. apply not_eq_sym. by apply (dir_apart m _ q o H).
  - eapply (has_free_taken _ _ kp); [exact Hfree|exact Hnb|]. intros i Hii. change (pool_bitmap (kernel_pool m')) with b'. by apply Hb'.
Qed.
End putting.

(** ** The pages of a segment *)
(** The user memory of [m'] has what [m] has, and at most pages in [P] more. *)
Record grows (m m' : mem) (P : Z -> Prop) : Prop := {
  gw_bytes : forall va, user va -> is_Some (translate m va) -> is_Some (translate m' va) /\ byte_at_va m' va = byte_at_va m va;
  gw_unmapped : forall va, user va -> translate m va = None -> ~ P (va / 4096) -> translate m' va = None;
  gw_pgdir : pgdir m' = pgdir m;
  gw_vaddr : vaddr_start (progress_vaddr m') = vaddr_start (progress_vaddr m) /\
    nbits (vaddr_bitmap (progress_vaddr m')) = nbits (vaddr_bitmap (progress_vaddr m))
}.
(** Room for [j] pages and [k] page tables. *)
Record room (m : mem) (j k : nat) : Prop := {
  rm_space : space m;
  rm_vmap : wf (vaddr_bitmap (progress_vaddr m));
  rm_user : has_free (user_pool m) j;
  rm_kernel : has_free (kernel_pool m) k
}.
(** The page of [va] has a bit in the map of the process. *)
Definition has_bit (m : mem) (va : Z) : Prop :=
  0 < vaddr_start (progress_vaddr m) <= va /\ (va - vaddr_start (progress_vaddr m)) / 4096 < nbits (vaddr_bitmap (progress_vaddr m)).

Section pages.
Implicit Types (m : mem) (va vb : Z) (P : Z -> Prop).

Lemma grows_trans m1 m2 m3 P : grows m1 m2 P -> grows m2 m3 P -> grows m1 m3 P.
Proof.
  intros [A1 A2 A3 [A4 A4']] [B1 B2 B3 [B4 B4']]. split; [| |congruence|split; congruence].
  - intros va Hva Hs. destruct (A1 va Hva Hs) as [Hs' <-]. by apply B1.
  - intros va Hva Hn HP. by apply B2; [|apply A2|].
Qed.
Lemma grows_refl m P : grows m m P.
Proof. by split. Qed.
Lemma grows_weaken m m' P P' : (forall x, P x -> P' x) -> grows m m' P -> grows m m' P'.
Proof. intros HP [A1 A2 A3 A4]. split; try done. intros va Hva Hn Hx. apply A2; auto. Qed.
Lemma room_less m j k : room m (S j) (S k) -> room m j k.
Proof. intros [A1 A2 A3 A4]. split; try done; by apply has_free_less. Qed.
Lemma has_bit_grows m m' P va : grows m m' P -> has_bit m va -> has_bit m' va.
Proof. intros [_ _ _ [E1 E2]]. unfold has_bit. by rewrite E1, E2. Qed.

Lemma same_page_none m va x : 0 <= va < 2 ^ 32 -> 0 <= x < 2 ^ 32 -> x / 4096 = va / 4096 -> translate m va = None -> translate m x = None.
Proof.
  intros Hva Hx E. apply page_index in E as [E1 E2]; [|done..]. rewrite !translate_walk, E1, E2. unfold walk.
  by repeat case_match.
Qed.
Lemma malloc_user_page m va j k : room m (S j) (S k) -> user va -> has_bit m va -> translate m va = None ->
  exists m', malloc_page_with_vaddr MP_USER va m = Ok (va, m') /\ room m' j k /\
    grows m m' (fun x => x = va / 4096) /\ forall vb, 0 <= vb < 2 ^ 32 -> vb / 4096 = va / 4096 -> is_Some (translate m' vb).
Proof.
  intros [H Hwf Hju Hkk] Hva [[Hvs Hvs'] Hbit] Hn. destruct (user_range va Hva) as [Hr _]. pose proof (sp_own m H) as Hown.
  set (v := progress_vaddr m) in *. set (idx := (va - vaddr_start v) / 4096) in *.
  assert (0 <= idx < 1048576) as Hidx by (unfold idx; split; [apply Z.div_pos; lia|apply Z.div_lt_upper_bound; unfold user in Hva; lia]).
  destruct (set_value_ok (vaddr_bitmap v) idx true Hwf) as (vb' & Ev & Hvwf & Hvl & _ & _); [lia|].
  set (m1 := set_uvaddr (Vaddr vb' (vaddr_start v)) m).
  assert (space m1) as H1.
  { destruct H as [[] Hdir ? ? ? ? ? ? ? ?]. split; try done. }
  destruct (has_free_one _ _ Hju) as (p0 & Hp0 & Hu0).
  destruct (get_free_page_ok MP_USER m1 (sp_upool m1 H1)) as [(pos & b' & Eg & Hpos & Hpu & Hw' & Hl' & Hb')|[_ Hall]].
  2: { change (pool_of MP_USER m1) with (user_pool m) in Hall. by rewrite Hall in Hu0. }
  change (pool_of MP_USER m1) with (user_pool m) in *. set (m2 := set_pool_bitmap MP_USER b' m1) in *.
  assert (nbits b' = nbits (pool_bitmap (user_pool m))) as Hnb by (unfold nbits; by rewrite Hl').
  assert (forall i, frame_of (user_pool m2) i = frame_of (user_pool m) i) as Efr by done.
  assert (space m2) as H2.
  { destruct H1 as [[] Hdir ? ? ? [? Hs Hend] Ha Hp Hpg Hinj]. split; try done.
    - split; [done|done|]. by change (pool_bitmap (user_pool m2)) with b'; rewrite Hnb.
    - change (pool_bitmap (user_pool m2)) with b'. by rewrite Hnb.
    - change (pool_bitmap (user_pool m2)) with b'. by rewrite Hnb.
    - change (pool_bitmap (user_pool m2)) with b'. rewrite Hnb. intros x px Hx Hpx. destruct (Hpg x px Hx Hpx) as (q & Hq & Huq & ->).
      change (user_pool m1) with (user_pool m) in *. exists q. split_and!; [lia|lia| |done]. rewrite Hb' by lia. by destruct (q =? pos). }
  assert (has_free (user_pool m2) j) as Hj2.
  { eapply (has_free_taken (user_pool m)); [exact Hju|exact Hnb|]. intros i Hi. by apply Hb'. }
  assert (0 <= pos < nbits (pool_bitmap (user_pool m2))) as Hpos2 by (change (pool_bitmap (user_pool m2)) with b'; lia).
  assert (exists m', put_page va (frame_of (user_pool m) pos) m2 = Ok (tt, m') /\ one_more m2 m' va pos /\ has_free (kernel_pool m') k) as (m' & Ep & Hom & Hkf).
  { destruct (present (pde_of m2 va)) eqn:Epde.
    - destruct (put_present_one_more m2 va pos H2 Hva Hpos2 Epde) as (m' & E1 & E2 & E3). exists m'. split; [done|]. split; [done|].
      rewrite E3. by apply has_free_less.
    - exact (put_absent_one_more m2 va pos k H2 Hva Hpos2 Epde Hkk). }
  assert (space m') as H'.
  { eapply (space_mapped m2 m' va pos H2 Hva Hpos2); [|  |done].
    - change (pool_bitmap (user_pool m2)) with b'. by rewrite Hb', Z.eqb_refl by lia.
    - intros x o Hx Ho Hpx. change (translate m x = Some (frame_of (user_pool m) pos + o)) in Hpx.
      destruct (sp_pages m H x _ Hx Hpx) as (q & Hq & Huq & Eq). pose proof (Z.mod_pos_bound x 4096 ltac:(lia)).
      destruct (frame_offsets (user_pool m) pos q o (x mod 4096) (sp_upool m H)) as [-> _]; [lia..|done|congruence]. }
  exists m'. destruct (om_same _ _ _ _ Hom) as (Epg & Eup & Epv). split; [|split; [|split]].
  - unfold malloc_page_with_vaddr. rewrite get_bind. rewrite (proj2 (Z.eqb_neq (pgdir m) 0)) by lia. cbn [andb negb].
    change (MP_USER =? MP_USER) with true. cbn iota. fold v.
    rewrite (u32_small (va - _)) by lia. change PG_SIZE with 4096. fold idx. rewrite s32_small by lia.
    pass by (rewrite Z.geb_leb; apply Z.leb_le; lia).
    assert (on_uvaddr (set_value_bitmap idx 1) m = Ok (tt, m1)) as Eb by (unfold on_uvaddr, zoom; fold v; by rewrite Ev).
    run Eb. run Eg. rewrite (proj2 (Z.eqb_neq _ 0)) by (destruct (frame_of_aligned (user_pool m) pos (sp_upool m H) Hpos); lia).
    by run Ep.
  - split; [done|by rewrite Epv|by rewrite Eup|done].
  - assert (forall x, user x -> is_Some (translate m x) -> x / 4096 <> va / 4096) as Hne.
    { intros x Hx [px Hpx] Ex. pose proof (same_page_none m va x Hr (proj1 (user_range x Hx)) Ex Hn). congruence. }
    split.
    + intros x Hx Hsx. destruct (user_range x Hx) as [Hxr Hxi].
      assert (translate m' x = translate m x) as Et by (by apply (om_other _ _ _ _ Hom); [..|apply Hne]).
      rewrite Et. split; [done|]. unfold byte_at_va. rewrite Et. destruct (translate m x) as [px|] eqn:Epx; [|done]. cbn [mbind option_bind].
      destruct (sp_pages m H x px Hx Epx) as (q & Hq & _ & ->). pose proof (Z.mod_pos_bound x 4096 ltac:(lia)) as Ho.
      destruct (frame_of_aligned (user_pool m) q (sp_upool m H) Hq) as [Hqm _].
      destruct (word_of_page _ _ Hqm Ho) as (o' & Ew & Ho' & _). rewrite Ew. do 2 f_equal.
      apply (om_data _ _ _ _ Hom q o'); [|done]. change (pool_bitmap (user_pool m2)) with b'. lia.
    + intros x Hx Hnx Hp. destruct (user_range x Hx) as [Hxr Hxi]. by rewrite (om_other _ _ _ _ Hom).
    + by rewrite Epg.
    + rewrite Epv. split; [done|]. unfold nbits. change (vaddr_bitmap (progress_vaddr m2)) with vb'. by rewrite Hvl.
  - intros x Hx Ex. by rewrite (om_page _ _ _ _ Hom).
Qed.

Lemma load_page_ok m va j k : room m (S j) (S k) -> user va -> has_bit m va ->
  exists m1, load_page va m = Ok (true, m1) /\ room m1 j k /\ grows m m1 (fun x => x = va / 4096) /\
    forall vb, 0 <= vb < 2 ^ 32 -> vb / 4096 = va / 4096 -> is_Some (translate m1 vb).
Proof.
  intros Hroom Hu Hb. destruct (user_range va Hu) as [Hr _]. pose proof (sp_tables m (rm_space _ _ _ Hroom)) as Ht.
  assert (translate m va = if present (pde_of m va) then
      if present (phys m (frame (pde_of m va) + 4 * PTE_IDX va)) then Some (frame (phys m (frame (pde_of m va) + 4 * PTE_IDX va)) + Z.land va 0xfff) else None
    else None) as Etr by done.
  assert (translate m va = None -> exists m1, (a <- malloc_page_with_vaddr MP_USER va ;; ret (negb (a =? 0))) m = Ok (true, m1) /\
    room m1 j k /\ grows m m1 (fun x => x = va / 4096) /\
    forall vb, 0 <= vb < 2 ^ 32 -> vb / 4096 = va / 4096 -> is_Some (translate m1 vb)) as Hnew.
  { intros Hn. destruct (malloc_user_page m va j k Hroom Hu Hb Hn) as (m1 & E & Hm1). exists m1. split; [|done].
    run E. rewrite (proj2 (Z.eqb_neq va 0)) by (destruct Hb as [[? ?] _]; lia). done. }
  unfold load_page. run (load_ok m _ _ (translate_pde_ptr m va Ht Hr)). fold (pde_of m va).
  destruct (present (pde_of m va)) eqn:Epd; [|rets; by apply Hnew].
  run (load_ok m _ _ (translate_pte_ptr m va Ht Hr Epd)). rets.
  destruct (present (phys m (frame (pde_of m va) + 4 * PTE_IDX va))) eqn:Ept; [|by apply Hnew].
  exists m. split; [done|]. split; [by apply room_less|]. split; [apply grows_refl|].
  intros vb Hvb Evb. destruct (translate m vb) eqn:Evt; [by eexists|].
  by rewrite (same_page_none m vb va Hvb Hr (eq_sym Evb) Evt) in Etr.
Qed.
Lemma load_pages_ok n : forall m va j k, room m (n + j) (n + k) -> va mod 4096 = 0 ->
  (forall i, 0 <= i < Z.of_nat n -> user (va + i * 4096) /\ has_bit m (va + i * 4096)) ->
  exists m', load_pages n va m = Ok (true, m') /\ room m' j k /\
    grows m m' (fun x => va / 4096 <= x < va / 4096 + Z.of_nat n) /\
    forall vb, user vb -> va / 4096 <= vb / 4096 < va / 4096 + Z.of_nat n -> is_Some (translate m' vb).
Proof.
  induction n as [|n IH]; intros m va j k Hroom Hva Hpages; cbn [load_pages].
  - exists m. split; [done|]. split; [done|]. split; [apply grows_refl|]. intros vb _ Hvb. cbn in Hvb. lia.
  - destruct (Hpages 0 ltac:(lia)) as [Hu Hb]. rewrite Z.add_0_r in Hu, Hb.
    destruct (load_page_ok m va (n + j) (n + k) Hroom Hu Hb) as (m1 & E1 & Hr1 & Hg1 & Hp1). run E1.
    assert ((va + 4096) / 4096 = va / 4096 + 1) as Ediv by (rewrite <-(Z.mul_1_l 4096) at 1; by rewrite Z.div_add).
    change PG_SIZE with 4096. destruct (decide (n = 0%nat)) as [->|Hn0].
    { exists m1. cbn [load_pages]. split; [done|]. split; [done|]. split; [eapply grows_weaken; [|done]; intros x ->; cbn; lia|].
      intros vb Hvb Hx. apply Hp1; [by apply user_range|cbn in Hx; lia]. }
    assert (user (va + 4096)) as Hu1 by (apply (Hpages 1); lia). rewrite u32_small by (unfold user in Hu1; lia).
    destruct (IH m1 (va + 4096) j k Hr1) as (m2 & E2 & Hr2 & Hg2 & Hp2).
    { by rewrite <-(Z.mul_1_l 4096), Z_mod_plus_full. }
    { intros i Hi. replace (va + 4096 + i * 4096) with (va + (i + 1) * 4096) by lia. destruct (Hpages (i + 1) ltac:(lia)) as [Hui Hbi].
      split; [done|]. by eapply has_bit_grows. }
    rewrite Ediv in *. exists m2. split; [done|]. split; [done|]. split.
    + eapply grows_trans; (eapply grows_weaken; [|done]); intros x Hx; cbn beta in *; lia.
    + intros vb Hvb Hx. destruct (decide (vb / 4096 = va / 4096)) as [E|E].
      * apply (gw_bytes _ _ _ Hg2); [done|]. apply Hp1; [by apply user_range|done].
      * apply Hp2; [done|lia].
Qed.
End pages.

(** ** The running process *)
(** Its memory and its files. *)
Record runs_as (s : os) (m : mem) (f : fs) : Prop := {
  ra_memory : memory_of s = m;
  ra_files : files_of s = f;
  ra_proc : is_Some (procs s !! current (kn s))
}.
(** What the calls on memory and files leave as it was. *)
Record same_thread (s s' : os) : Prop := {
  st_current : current (kn s') = current (kn s);
  st_stacks : stacks s' = stacks s;
  st_name : (name <$> procs s' !! current (kn s)) = (name <$> procs s !! current (kn s))
}.
Section process.
Implicit Types (s : os) (m : mem) (f : fs).
#[export] Instance same_thread_preorder : PreOrder same_thread.
Proof. split; [by split|]. intros s1 s2 s3 [A1 A2 A3] [B1 B2 B3]. split; [congruence|congruence|]. rewrite <-A3, <-A1. exact B3. Qed.

Lemma memory_step {A} (c : M mem A) s m f a m' : runs_as s m f -> c m = Ok (a, m') -> pgdir m' = pgdir m ->
  exists s', on_mem c s = Ok (a, s') /\ runs_as s' m' f /\ same_thread s s'.
Proof.
  intros [<- <- [p Hp]] Ec Hpg. exists (set_memory m' s). split; [by apply on_mem_ok with (memory_of s)|]. split; [split|split].
  - by apply memory_of_set.
  - unfold files_of, set_memory. cbn [procs kn current files Kernel.set_cr3]. by rewrite lookup_alter_eq, Hp.
  - cbn [procs kn current set_memory Kernel.set_cr3]. rewrite lookup_alter_eq, Hp. by eexists.
  - done.
  - done.
  - cbn [procs kn set_memory]. by rewrite lookup_alter_eq, Hp.
Qed.
Lemma files_step {A} (c : M fs A) s m f a f' : runs_as s m f -> c f = Ok (a, f') ->
  exists s', on_fs c s = Ok (a, s') /\ runs_as s' m f' /\ same_thread s s'.
Proof.
  intros [<- <- [p Hp]] Ec. exists (set_files_of f' s). split; [unfold on_fs, zoom; by rewrite Ec|]. split; [split|split].
  - unfold memory_of, set_files_of. cbn [kn ram procs]. by rewrite lookup_alter_eq, Hp.
  - unfold files_of, set_files_of. cbn [kn procs files]. rewrite lookup_alter_eq, Hp. by destruct f'.
  - cbn [procs kn set_files_of]. rewrite lookup_alter_eq, Hp. by eexists.
  - done.
  - done.
  - cbn [procs kn set_files_of]. by rewrite lookup_alter_eq, Hp.
Qed.
End process.

(** ** The open program file *)
Record opened (f : fs) (fd g : Z) (x : file) (i : inode) : Prop := {
  op_descriptor : descriptor f fd g x i;
  op_kind : 2 < fd /\ fd_flag x <> PIPE_FLAG /\ IS_FT_CHAR i = false /\ IS_FT_FIFO i = false;
  op_zones : zones_ok f i;
  op_mallocs : mallocs f = [];
  op_size : 0 <= i_size i <= MAX_FILE_SIZE
}.
(** The bytes from [off] on lie so in the zones that one read gets them. *)
Definition readable (i : inode) (off n : Z) : Prop :=
  0 <= off /\ 0 <= n /\ off + n <= i_size i /\ off < MAX_FILE_SIZE /\ (off mod 512 = 0 \/ (off mod 512 + n <= 512 /\ n < 512)).
Section file.
Context {E : FsEnv} {D : Drivers}.
Implicit Types (f : fs) (x : file) (i : inode).

(** Seeking and reading a file that nobody else changes. *)
Lemma opened_set f fd g x i x' : opened f fd g x i -> fd_inode x' = fd_inode x -> fd_flag x' = fd_flag x ->
  opened (Fs.set_files (<[Z.to_nat g := x']> (g_file_table f)) f) fd g x' i.
Proof.
  intros [[H1 H2 H3 H4 H5] Hk [Z1 Z2 Z3 Z4] Hm Hs] Ei Ef. split; [split| |split| |]; try done.
  - cbn [g_file_table Fs.set_files]. apply list_lookup_insert_eq. by eapply lookup_lt_Some.
  - by rewrite Ei.
  - by rewrite Ef.
Qed.
Lemma seek_now f fd g x i off : opened f fd g x i -> 0 <= off <= i_size i ->
  sys_lseek fd off SEEK_SET f = Ok (off, Fs.set_files (<[Z.to_nat g := File off (fd_flag x) (fd_inode x)]> (g_file_table f)) f).
Proof.
  intros Ho Hoff. pose proof (op_descriptor _ _ _ _ _ Ho) as Hd. pose proof (op_size _ _ _ _ _ Ho) as Hs. change MAX_FILE_SIZE with 71680 in Hs.
  unfold sys_lseek. rewrite (proj2 (Z.ltb_ge fd 0)) by apply Hd. pass.
  run (local2global_now f fd g x i Hd). run (file_at_now f fd g x i Hd). run (fd_inode_now f fd g x i Hd).
  change (SEEK_SET =? SEEK_SET) with true. cbn iota. rewrite (s32_small (i_size i)) by lia.
  rewrite (proj2 (Z.ltb_ge off 0)), Z.gtb_ltb, (proj2 (Z.ltb_ge (i_size i) off)) by lia. cbn [orb].
  unfold set_pos. run (set_slot_ok f g (fun y => File off (fd_flag y) (fd_inode y)) x (proj1 (de_slot _ _ _ _ _ Hd)) (de_file _ _ _ _ _ Hd)).
  done.
Qed.
Lemma read_now f fd g x i n count : opened f fd g x i -> readable i (fd_pos x) n -> n = Z.min (i_size i - fd_pos x) count ->
  exists x', sys_read fd count f = Ok ((sub (Z.to_nat (fd_pos x)) (Z.to_nat n) (content f i), n), Fs.set_files (<[Z.to_nat g := x']> (g_file_table f)) f) /\
    fd_inode x' = fd_inode x /\ fd_flag x' = fd_flag x.
Proof.
  intros Ho (H1 & H2 & H3 & H4 & H5) Hn. pose proof (op_descriptor _ _ _ _ _ Ho) as Hd.
  destruct (op_kind _ _ _ _ _ Ho) as (K1 & K2 & K3 & K4). rewrite (sys_read_regular f fd g x i count Hd K1 K2 K3 K4).
  exists (moved x n). rewrite Hn. split; [|done]. rewrite Hn in H2, H3, H5.
  apply (file_read_ok f g x i count); [apply Hd|apply Hd|apply Hd|apply Ho|apply Ho|lia|apply Ho|lia|lia|exact H5].
Qed.
(** Both, and the file is as it was. *)
Lemma seek_read f fd g x i off n count : opened f fd g x i -> readable i off n -> n = Z.min (i_size i - off) count ->
  exists f1 f2 x2, sys_lseek fd off SEEK_SET f = Ok (off, f1) /\
    sys_read fd count f1 = Ok ((sub (Z.to_nat off) (Z.to_nat n) (content f i), n), f2) /\
    opened f2 fd g x2 i /\ disk f2 = disk f.
Proof.
  intros Ho Hr Hn. assert (0 <= off <= i_size i) as Hoff by (destruct Hr as (? & ? & ? & _); lia).
  pose proof (opened_set f fd g x i (File off (fd_flag x) (fd_inode x)) Ho eq_refl eq_refl) as Ho1.
  destruct (read_now _ fd g _ i n count Ho1 Hr Hn) as (x2 & Er & Ei & Ef). eexists _, _, x2.
  split; [by apply (seek_now f fd g x i)|]. split; [exact Er|]. split; [|done]. by eapply opened_set.
Qed.
Lemma close_inode_now f a i : inodes f !! a = Some i -> exists f', inode_close a f = Ok (tt, f') /\ g_file_table f' = g_file_table f.
Proof.
  intros Hi. unfold inode_close, upd_inode, inode_at, bind. rewrite Hi. cbn [inodes Fs.set_inodes]. rewrite lookup_insert_eq.
  destruct (_ =? 0); by eexists.
Qed.
Lemma close_now f fd g x i : opened f fd g x i -> exists f', sys_close fd f = Ok (0, f').
Proof.
  intros Ho. pose proof (op_descriptor _ _ _ _ _ Ho) as Hd. destruct (op_kind _ _ _ _ _ Ho) as (K1 & K2 & K3 & K4).
  unfold sys_close. rewrite Z.gtb_ltb, (proj2 (Z.ltb_lt 2 fd)) by done. run (local2global_now f fd g x i Hd).
  run (is_pipe_now f fd g x i Hd). rewrite (proj2 (Z.eqb_neq _ PIPE_FLAG)) by done.
  run (is_char_fd_now f fd g x i Hd). rewrite K3. unfold file_close. run (file_at_now f fd g x i Hd).
  assert (upd_inode (fd_inode x) (set_ilock 0) f = Ok (tt, Fs.set_inodes (<[fd_inode x := set_ilock 0 i]> (inodes f)) f)) as E1.
  { unfold upd_inode. by rewrite (de_inode _ _ _ _ _ Hd). }
  run E1. set (f1 := Fs.set_inodes _ f).
  destruct (close_inode_now f1 (fd_inode x) (set_ilock 0 i)) as (f2 & E2 & Eg); [apply lookup_insert_eq|]. run E2.
  run (set_slot_ok f2 g (fun y => File (fd_pos y) (fd_flag y) 0) x); [|apply Hd|rewrite Eg; apply Hd]. rets. by eexists.
Qed.
End file.

(** ** One segment *)
(** From [m] to [m'] bytes were written in [W] and pages added in [P]. *)
Record loads (m m' : mem) (W P : Z -> Prop) : Prop := {
  ld_bytes : forall va, user va -> is_Some (translate m va) -> is_Some (translate m' va) /\ (~ W va -> byte_at_va m' va = byte_at_va m va);
  ld_unmapped : forall va, user va -> translate m va = None -> ~ P (va / 4096) -> translate m' va = None;
  ld_vaddr : vaddr_start (progress_vaddr m') = vaddr_start (progress_vaddr m) /\
    nbits (vaddr_bitmap (progress_vaddr m')) = nbits (vaddr_bitmap (progress_vaddr m))
}.
Definition segment_page (ph : Elf32_Phdr) (k : Z) : Z := p_vaddr ph / 4096 * 4096 + k * 4096.
Definition pages (ph : Elf32_Phdr) : Z := page_cnt (p_vaddr ph) (p_filesz ph).
(** Where a segment is written, and the pages it takes. *)
Definition in_segment (ph : Elf32_Phdr) (va : Z) : Prop := p_vaddr ph <= va < p_vaddr ph + p_filesz ph.
Definition in_pages (ph : Elf32_Phdr) (x : Z) : Prop := p_vaddr ph / 4096 <= x < p_vaddr ph / 4096 + pages ph.
(** The segment lies in the file, and in the part of user memory that the map
    of the process has bits for. *)
Record good_segment (m : mem) (i : inode) (ph : Elf32_Phdr) : Prop := {
  gs_file : readable i (p_offset ph) (p_filesz ph) /\ p_offset ph < 2 ^ 31;
  gs_user : user (p_vaddr ph) /\ user (p_vaddr ph + p_filesz ph - 1);
  gs_pages : forall k, 0 <= k < pages ph -> user (segment_page ph k) /\ has_bit m (segment_page ph k)
}.
Definition segment_bytes (c : list Z) (ph : Elf32_Phdr) : list Z := sub (Z.to_nat (p_offset ph)) (Z.to_nat (p_filesz ph)) c.
(** The bytes of the segment are in memory. *)
Definition in_memory (m : mem) (c : list Z) (ph : Elf32_Phdr) : Prop :=
  forall va, in_segment ph va -> is_Some (translate m va) /\ byte_at_va m va = segment_bytes c ph !! Z.to_nat (va - p_vaddr ph).

Section segment.
Context {E : FsEnv} {D : Drivers}.
Implicit Types (s : os) (m : mem) (f : fs) (x : file) (i : inode) (ph : Elf32_Phdr).

Lemma loads_trans m1 m2 m3 (W1 W2 P1 P2 : Z -> Prop) : loads m1 m2 W1 P1 -> loads m2 m3 W2 P2 ->
  loads m1 m3 (fun v => W1 v \/ W2 v) (fun v => P1 v \/ P2 v).
Proof.
  intros [A1 A2 [A4 A4']] [B1 B2 [B4 B4']]. split; [| |split; congruence].
  - intros va Hva Hs. destruct (A1 va Hva Hs) as [Hs' Ha]. destruct (B1 va Hva Hs') as [Hs2 Hb]. split; [done|].
    intros HW. rewrite Hb, Ha; tauto.
  - intros va Hva Hn HP. apply B2; [done|apply A2; tauto|tauto].
Qed.
Lemma grows_loads m m' P : grows m m' P -> loads m m' (fun _ => False) P.
Proof. intros [A1 A2 A3 A4]. split; [|done|done]. intros va Hva Hs. destruct (A1 va Hva Hs). done. Qed.
Lemma loads_weaken m m' (W W' P P' : Z -> Prop) : (forall v, W v -> W' v) -> (forall v, P v -> P' v) -> loads m m' W P -> loads m m' W' P'.
Proof.
  intros HW HP [A1 A2 A3]. split; [| |done].
  - intros va Hva Hs. destruct (A1 va Hva Hs) as [Hs' Ha]. split; [done|]. intros Hn. apply Ha. auto.
  - intros va Hva Hn Hp. apply A2; auto.
Qed.
Lemma good_segment_loads m m' W P i ph : loads m m' W P -> good_segment m i ph -> good_segment m' i ph.
Proof.
  intros [_ _ [E1 E2]] [A1 A2 A3]. split; [done|done|]. intros k Hk. destruct (A3 k Hk) as [Hu Hb]. split; [done|].
  unfold has_bit in *. by rewrite E1, E2.
Qed.
Lemma room_same m m' j k : room m j k -> space m' -> same_map m m' -> room m' j k.
Proof. intros [A1 A2 A3 A4] H [B1 B2 [B3 B4] B5]. split; [done|by rewrite B5|by rewrite B4|by rewrite B3]. Qed.

Lemma pages_cover ph va : 0 <= p_vaddr ph < 2 ^ 32 -> p_filesz ph <= MAX_FILE_SIZE -> in_segment ph va -> in_pages ph (va / 4096).
Proof.
  unfold in_segment, in_pages, pages, page_cnt. change MAX_FILE_SIZE with 71680. change PG_SIZE with 4096. intros Hv Hsz Hva.
  change (Z.land (p_vaddr ph) 0x00000fff) with (Z.land (p_vaddr ph) 0xfff). rewrite offset_mod.
  rewrite Z.gtb_ltb. destruct (Z.ltb_spec (4096 - p_vaddr ph mod 4096) (p_filesz ph)) as [Hl|Hl].
  - pose proof (Z.mod_pos_bound (p_vaddr ph) 4096). rewrite u32_small by lia. Z.to_euclidean_division_equations. lia.
  - Z.to_euclidean_division_equations. lia.
Qed.
Lemma pages_positive ph : 0 <= p_filesz ph <= MAX_FILE_SIZE -> 0 < pages ph.
Proof.
  unfold pages, page_cnt. change MAX_FILE_SIZE with 71680. change PG_SIZE with 4096. intros Hsz. destruct (_ >? _); [|lia].
  enough (0 <= u32 (p_filesz ph - (4096 - Z.land (p_vaddr ph) 4095) + 4096 - 1) / 4096) by lia.
  apply Z.div_pos; [|lia]. unfold u32. apply Z.mod_pos_bound. lia.
Qed.

Lemma load_code_ok s m f fd g x i ph j k : runs_as s m f -> opened f fd g x i -> room m (Z.to_nat (pages ph) + j) (Z.to_nat (pages ph) + k) ->
  good_segment m i ph -> Forall (fun b => 0 <= b < 256) (content f i) ->
  exists s' m' f' x', load_code fd (p_vaddr ph) (p_offset ph) (p_filesz ph) s = Ok (true, s') /\
    runs_as s' m' f' /\ same_thread s s' /\ opened f' fd g x' i /\ disk f' = disk f /\ room m' j k /\
    loads m m' (in_segment ph) (in_pages ph) /\ in_memory m' (content f i) ph.
Proof.
  intros Hs Ho Hroom [[Hrd Hoff] [Hu1 Hu2] Hpg] Hc.
  pose proof (op_size _ _ _ _ _ Ho) as Hsz. assert (0 <= p_filesz ph <= MAX_FILE_SIZE) as Hfs by (destruct Hrd as (? & ? & ? & _); lia).
  pose proof (pages_positive ph Hfs) as Hpp. destruct (user_range _ Hu1) as [Hvr _].
  assert (Z.land (p_vaddr ph) 0xfffff000 = p_vaddr ph / 4096 * 4096) as Ebase by by apply (frame_div (p_vaddr ph)).
  destruct (load_pages_ok (Z.to_nat (pages ph)) m (p_vaddr ph / 4096 * 4096) j k Hroom) as (m1 & E1 & Hr1 & Hg1 & Hp1).
  { by rewrite Z_mod_mult. }
  { intros q Hq. apply (Hpg q). lia. }
  rewrite Z.div_mul, Z2Nat.id in Hg1, Hp1 by lia.
  destruct (memory_step _ s m f _ m1 Hs E1 (gw_pgdir _ _ _ Hg1)) as (s1 & Es1 & Hs1 & Ht1).
  destruct (seek_read f fd g x i (p_offset ph) (p_filesz ph) (p_filesz ph) Ho Hrd) as (f1 & f2 & x2 & Ek & Er & Ho2 & Hd2).
  { destruct Hrd as (? & ? & ? & _). lia. }
  destruct (files_step _ s1 m1 f _ f1 Hs1 Ek) as (s2 & Es2 & Hs2 & Ht2).
  destruct (files_step _ s2 m1 f1 _ f2 Hs2 Er) as (s3 & Es3 & Hs3 & Ht3).
  fold (segment_bytes (content f i) ph) in Er, Es3. set (l := segment_bytes (content f i) ph) in *.
  assert (Z.of_nat (length l) <= p_filesz ph) as Hll by (unfold l, segment_bytes, sub; rewrite length_take; lia).
  destruct (store_bytes_ok m1 (p_vaddr ph) l (rm_space _ _ _ Hr1)) as (m2 & E2 & H2 & Hsm & Hb2 & Hn2).
  { intros q Hq. assert (user (p_vaddr ph + q)) as Huq by (unfold user in *; lia). split; [done|]. apply Hp1; [done|].
    apply (pages_cover ph (p_vaddr ph + q)); [done|lia|unfold in_segment; lia]. }
  { unfold l, segment_bytes, sub. by apply Forall_take, Forall_drop. }
  destruct (memory_step _ s3 m1 f2 _ m2 Hs3 E2 (sm_pgdir _ _ Hsm)) as (s4 & Es4 & Hs4 & Ht4).
  exists s4, m2, f2, x2. split; [|split; [done|split; [|split; [done|split; [done|split; [|split]]]]]].
  - unfold load_code. rewrite Ebase. fold (pages ph). run Es1. cbn [negb]. rewrite s32_small by (destruct Hrd; lia). run Es2. unfold read_to. run Es3. cbn [fst snd]. run Es4. by rets.
  - etransitivity; [exact Ht1|]. etransitivity; [exact Ht2|]. by etransitivity.
  - by eapply room_same.
  - apply (loads_weaken m m2 (fun v => False \/ in_segment ph v) _ (fun v => in_pages ph v \/ False) _); [tauto|tauto|].
    eapply loads_trans; [by apply grows_loads|]. split.
    + intros va Hva Hsv. rewrite (sm_translate _ _ Hsm) by by apply user_range. split; [done|]. intros Hn. apply Hn2; [done|].
      unfold in_segment in Hn. lia.
    + intros va Hva Hnv _. by rewrite (sm_translate _ _ Hsm) by by apply user_range.
    + by rewrite (sm_vaddr _ _ Hsm).
  - intros va Hva. assert (user va) as Huv by (unfold in_segment, user in *; lia).
    assert (length l = Z.to_nat (p_filesz ph)) as Hlen.
    { unfold l, segment_bytes, sub. rewrite length_take, length_drop, content_length by apply (zo_disk _ _ (op_zones _ _ _ _ _ Ho)).
      destruct Hrd as (? & ? & ? & _). change MAX_FILE_SIZE with 71680 in Hsz. lia. }
    split.
    + rewrite (sm_translate _ _ Hsm) by by apply user_range. apply Hp1; [done|]. apply (pages_cover ph va); [done|lia|done].
    + unfold in_segment in Hva. specialize (Hb2 (Z.to_nat (va - p_vaddr ph)) ltac:(lia)).
      by replace (p_vaddr ph + Z.of_nat (Z.to_nat (va - p_vaddr ph))) with va in Hb2 by lia.
Qed.
End segment.

(** ** All segments *)
Fixpoint need (phs : list Elf32_Phdr) : nat :=
  match phs with [] => 0 | ph :: phs => (if p_type ph =? PT_LOAD then Z.to_nat (pages ph) else 0) + need phs end.
(** The program headers [phs] lie in the file from [phoff] on. *)
Fixpoint headers (c : list Z) (i : inode) (phoff phsz : Z) (phs : list Elf32_Phdr) : Prop :=
  match phs with
  | [] => True
  | ph :: phs => decode_phdr (sub (Z.to_nat phoff) (Z.to_nat phsz) c) = ph /\ readable i phoff phsz /\ headers c i (phoff + phsz) phsz phs
  end.
(** No two segments share a byte. *)
Fixpoint separate (phs : list Elf32_Phdr) : Prop :=
  match phs with
  | [] => True
  | ph :: phs => (p_type ph = PT_LOAD -> forall ph' va, ph' ∈ phs -> p_type ph' = PT_LOAD -> in_segment ph va -> ~ in_segment ph' va) /\ separate phs
  end.
Definition written (phs : list Elf32_Phdr) (va : Z) : Prop := exists ph, ph ∈ phs /\ p_type ph = PT_LOAD /\ in_segment ph va.
Definition paged (phs : list Elf32_Phdr) (x : Z) : Prop := exists ph, ph ∈ phs /\ p_type ph = PT_LOAD /\ in_pages ph x.

Section segments.
Context {E : FsEnv} {D : Drivers}.
Implicit Types (s : os) (m : mem) (f : fs) (x : file) (ph : Elf32_Phdr) (phs : list Elf32_Phdr).
Variables (fd g phsz : Z) (i : inode) (c : list Z).
Hypothesis Hphsz : 20 <= phsz.
Hypothesis Hbytes : Forall (fun b => 0 <= b < 256) c.

Lemma content_disk f f' : disk f' = disk f -> content f' i = content f i.
Proof using. intros E1. unfold content, zones_of. by rewrite E1. Qed.
Lemma in_memory_loads m m' W P ph : in_memory m c ph -> loads m m' W P -> user (p_vaddr ph) -> user (p_vaddr ph + p_filesz ph - 1) ->
  (forall va, in_segment ph va -> ~ W va) -> in_memory m' c ph.
Proof using.
  intros Hm Hl Hu1 Hu2 HW va Hva. destruct (Hm va Hva) as [Hs Hb].
  assert (user va) as Hu by (clear -Hu1 Hu2 Hva; unfold user, in_segment in *; lia).
  destruct (ld_bytes _ _ _ _ Hl va Hu Hs) as [Hs' Hb']. split; [done|]. by rewrite Hb' by by apply HW.
Qed.

Lemma load_segments_ok phs : forall s m f x phoff j k, runs_as s m f -> opened f fd g x i -> content f i = c ->
  room m (need phs + j) (need phs + k) -> headers c i phoff phsz phs ->
  (forall ph, ph ∈ phs -> p_type ph = PT_LOAD -> good_segment m i ph) -> separate phs ->
  exists s' m' f' x', load_segments (length phs) fd phoff phsz s = Ok (true, s') /\
    runs_as s' m' f' /\ same_thread s s' /\ opened f' fd g x' i /\ disk f' = disk f /\ room m' j k /\
    loads m m' (written phs) (paged phs) /\ forall ph, ph ∈ phs -> p_type ph = PT_LOAD -> in_memory m' c ph.
Proof using Hphsz Hbytes.
  induction phs as [|ph phs IH]; intros s m f x phoff j k Hs Ho Hc Hroom Hh Hg Hsep; cbn [load_segments length].
  - exists s, m, f, x. split_and!; try done. intros ph Hph. by apply not_elem_of_nil in Hph.
  - destruct Hh as (Hph & Hrd & Hh). destruct Hsep as [Hsep1 Hsep2]. pose proof (op_size _ _ _ _ _ Ho) as Hsz. change MAX_FILE_SIZE with 71680 in Hsz.
    destruct (seek_read f fd g x i phoff phsz phsz Ho Hrd) as (f1 & f2 & x2 & Ek & Er & Ho2 & Hd2); [destruct Hrd as (? & ? & ? & _); lia|].
    rewrite Hc in Er. destruct (files_step _ s m f _ f1 Hs Ek) as (s1 & Es1 & Hs1 & Ht1).
    destruct (files_step _ s1 m f1 _ f2 Hs1 Er) as (s2 & Es2 & Hs2 & Ht2).
    rewrite s32_small by (destruct Hrd as (? & ? & ? & _); lia). run Es1. run Es2. cbn [fst snd].
    rewrite Z.eqb_refl. cbn [negb]. rewrite (proj2 (Z.ltb_ge phsz 20)) by done. rewrite Hph.
    assert (content f2 i = c) as Hc2 by (by rewrite (content_disk f f2 Hd2)).
    assert (exists s3 m3 f3 x3, (if p_type ph =? PT_LOAD then load_code fd (p_vaddr ph) (p_offset ph) (p_filesz ph) else ret true) s2 = Ok (true, s3) /\
      runs_as s3 m3 f3 /\ same_thread s2 s3 /\ opened f3 fd g x3 i /\ disk f3 = disk f2 /\ room m3 (need phs + j) (need phs + k) /\
      loads m m3 (fun v => p_type ph = PT_LOAD /\ in_segment ph v) (fun v => p_type ph = PT_LOAD /\ in_pages ph v) /\
      (p_type ph = PT_LOAD -> in_memory m3 c ph)) as (s3 & m3 & f3 & x3 & E3 & Hs3 & Ht3 & Ho3 & Hd3 & Hr3 & Hl3 & Hm3).
    { cbn [need] in Hroom. destruct (Z.eqb_spec (p_type ph) PT_LOAD) as [El|El].
      - rewrite <-!Nat.add_assoc in Hroom. destruct (load_code_ok s2 m f2 fd g x2 i ph _ _ Hs2 Ho2 Hroom) as (s3 & m3 & f3 & x3 & E3 & A1 & A2 & A3 & A4 & A5 & A6 & A7).
        { apply Hg; [by left|done]. }
        { by rewrite Hc2. }
        rewrite Hc2 in A7. exists s3, m3, f3, x3. split_and!; try done. eapply loads_weaken; [| |exact A6]; done.
      - exists s2, m, f2, x2. split_and!; try done. }
    run E3. destruct (IH s3 m3 f3 x3 (phoff + phsz) j k Hs3 Ho3) as (s4 & m4 & f4 & x4 & E4 & Hs4 & Ht4 & Ho4 & Hd4 & Hr4 & Hl4 & Hm4); [|done|done| |done|].
    { by rewrite (content_disk f2 f3 Hd3). }
    { intros ph' Hin Hty. eapply good_segment_loads; [done|]. apply Hg; [by right|done]. }
    rewrite u32_small by (destruct Hrd as (? & ? & ? & _); lia).
    exists s4, m4, f4, x4. split; [done|]. split; [done|]. split; [|split; [done|split; [congruence|split; [done|split]]]].
    + etransitivity; [exact Ht1|]. etransitivity; [exact Ht2|]. by etransitivity.
    + eapply loads_weaken; [| |by eapply loads_trans].
      * intros v [[Hty Hv]|(ph' & Hin & Hv)]; [exists ph; split; [by left|done]|exists ph'; split; [by right|done]].
      * intros v [[Hty Hv]|(ph' & Hin & Hv)]; [exists ph; split; [by left|done]|exists ph'; split; [by right|done]].
    + intros ph' [->|Hin]%list.elem_of_cons Hty; [|by apply Hm4].
      destruct (gs_user _ _ _ (Hg ph ltac:(by left) Hty)) as [Hu1 Hu2].
      eapply in_memory_loads; [by apply Hm3|exact Hl4|done|done|].
      intros va Hva (ph2 & Hin2 & Hty2 & Hva2). by apply (Hsep1 Hty ph2 va Hin2 Hty2).
Qed.
End segments.

(** ** The whole file *)
(** The bytes [c] of the file of [i] are a program with the headers [eh] and
    [phs], whose segments a process with the memory [m] has room for. *)
Record program (m : mem) (i : inode) (c : list Z) (eh : Elf32_Ehdr) (phs : list Elf32_Phdr) : Prop := {
  pr_bytes : Forall (fun b => 0 <= b < 256) c;
  pr_header : sizeof_Ehdr <= i_size i /\ decode_ehdr (sub 0 52 c) = eh;
  pr_magic : take 4 (e_ident eh) = ELFMAG;
  pr_headers : e_phnum eh = Z.of_nat (length phs) /\ 20 <= e_phentsize eh /\ headers c i (e_phoff eh) (e_phentsize eh) phs;
  pr_segments : forall ph, ph ∈ phs -> p_type ph = PT_LOAD -> good_segment m i ph;
  pr_separate : separate phs;
  pr_room : room m (need phs) (need phs);
  pr_entry : s32 (e_entry eh) <> -1
}.
Section program.
Context {E : FsEnv} {D : Drivers}.
Implicit Types (s : os) (m : mem) (f : fs) (x : file) (phs : list Elf32_Phdr).

Lemma load_elf_file_ok root s m f path fd f1 g x i c eh phs : runs_as s m f ->
  sys_open root path O_RDONLY f = Ok (fd, f1) -> fd <> -1 -> opened f1 fd g x i -> fd_pos x = 0 -> content f1 i = c ->
  program m i c eh phs ->
  exists s' m' f', load_elf_file root path s = Ok (s32 (e_entry eh), s') /\ runs_as s' m' f' /\ same_thread s s' /\
    loads m m' (written phs) (paged phs) /\ forall ph, ph ∈ phs -> p_type ph = PT_LOAD -> in_memory m' c ph.
Proof.
  intros Hs Eo Hfd Ho Hpos Hc [P1 [P2 P2'] P3 (P4 & P5 & P6) P7 P8 P9 P10]. change sizeof_Ehdr with 52 in P2.
  pose proof (op_size _ _ _ _ _ Ho) as Hsz.
  destruct (files_step _ s m f _ f1 Hs Eo) as (s1 & Es1 & Hs1 & Ht1).
  destruct (files_step _ s1 m f1 _ f1 Hs1 (sys_malloc_now f1 (op_mallocs _ _ _ _ _ Ho))) as (s2 & Es2 & Hs2 & Ht2).
  destruct (read_now f1 fd g x i 52 52 Ho) as (x3 & Er & Ei & Ef).
  { rewrite Hpos. unfold readable. change MAX_FILE_SIZE with 71680. split_and!; try lia. by left. }
  { rewrite Hpos. lia. }
  rewrite Hpos, Hc in Er. destruct (files_step _ s2 m f1 _ _ Hs2 Er) as (s3 & Es3 & Hs3 & Ht3).
  pose proof (opened_set f1 fd g x i x3 Ho Ei Ef) as Ho3. set (f3 := Fs.set_files _ f1) in *.
  assert (malloc_unchecked f3 = Ok (tt, f3)) as Em by (unfold malloc_unchecked; by run (sys_malloc_now f3 (op_mallocs _ _ _ _ _ Ho))).
  destruct (files_step _ s3 m f3 _ f3 Hs3 Em) as (s4 & Es4 & Hs4 & Ht4).
  destruct (load_segments_ok fd g (e_phentsize eh) i c P5 P1 phs s4 m f3 x3 (e_phoff eh) 0 0) as (s5 & m5 & f5 & x5 & E5 & Hs5 & Ht5 & Ho5 & _ & _ & Hl & Hm);
    [done|done|done|by rewrite !Nat.add_0_r|done|done|done|].
  destruct (close_now f5 fd g x5 i Ho5) as (f6 & Ec). destruct (files_step _ s5 m5 f5 _ f6 Hs5 Ec) as (s6 & Es6 & Hs6 & Ht6).
  exists s6, m5, f6. split; [|split; [done|split; [|done]]].
  - assert (length (sub 0 52 c) = 52%nat) as Hlen.
    { unfold sub. rewrite length_take, length_drop, <-Hc, content_length by apply (zo_disk _ _ (op_zones _ _ _ _ _ Ho)).
      change MAX_FILE_SIZE with 71680 in Hsz. lia. }
    unfold load_elf_file. run Es1. rewrite (proj2 (Z.eqb_neq fd (-1))) by done. run Es2. cbn [negb]. change sizeof_Ehdr with 52. run Es3.
    assert (splice 0 (sub 0 52 c) (replicate 52 0) = sub 0 52 c) as Esp.
    { unfold splice. rewrite Hlen, drop_ge by (rewrite length_replicate; lia). cbn [take app]. apply app_nil_r. }
    change (splice 0 _ _) with (splice 0 (sub 0 52 c) (replicate 52 0)). rewrite Esp, P2', bool_decide_true by done. run Es4. rewrite P4, Nat2Z.id. run E5. run Es6. by rets.
  - etransitivity; [exact Ht1|]. etransitivity; [exact Ht2|]. etransitivity; [exact Ht3|]. etransitivity; [exact Ht4|]. by etransitivity.
Qed.
End program.

(** ** The new program *)
(** The [n] words from [argv] on are pointers, and behind them is a null. *)
Definition arguments (m : mem) (argv n : Z) : Prop :=
  0 <= n /\ (forall k, 0 <= k < n -> exists w, load (u32 (argv + 4 * k)) m = Ok (w, m) /\ w <> 0) /\ load (u32 (argv + 4 * n)) m = Ok (0, m).
(** A word of the frame of [thread]. *)
Definition frame_word (s : os) (thread k : Z) : Z := stacks s (u32 (intr_0_stack thread + k)).

Section execv.
Context {E : FsEnv} {D : Drivers}.
Implicit Types (s : os) (m : mem) (f : fs) (x : file) (phs : list Elf32_Phdr).

Lemma count_args_ok m argv n : arguments m argv n -> forall fuel k, 0 <= k <= n -> (Z.to_nat (n - k) < fuel)%nat -> count_args fuel argv k m = Ok (n, m).
Proof.
  intros (Hn & Hw & H0). induction fuel as [|fuel IH]; intros k Hk Hf; [lia|]. cbn [count_args].
  destruct (decide (k = n)) as [->|Hne].
  - run H0. by rets.
  - destruct (Hw k ltac:(lia)) as (w & Ew & Hw0). run Ew. rewrite (proj2 (Z.eqb_neq w 0)) by done. apply IH; lia.
Qed.
Lemma store_word_ok a v s : store_word a v s = Ok (tt, set_stacks (fun b => if b =? u32 a then v else stacks s b) s).
Proof. done. Qed.
Lemma u32_apart b i j : 0 <= i < 2 ^ 32 -> 0 <= j < 2 ^ 32 -> i <> j -> (u32 (b + i) =? u32 (b + j)) = false.
Proof. intros. apply Z.eqb_neq. unfold u32. Z.to_euclidean_division_equations. lia. Qed.
Lemma name_text_new (l rest : list Z) : 0 ∉ l -> name_text (l ++ 0 :: rest) = l.
Proof.
  intros Hl. assert (name_length (l ++ 0 :: rest) = Z.of_nat (length l)) as En.
  { induction l as [|a l IH]; [done|]. apply list.not_elem_of_cons in Hl as [Ha Hl]. cbn [name_length app length].
    rewrite (proj2 (Z.eqb_neq a 0)), IH by done || lia. lia. }
  unfold name_text. rewrite En, Nat2Z.id. apply take_app_length.
Qed.
(** The end of [sys_execv]. *)
Lemma begin_program s cur argv argc entry (fn : proc -> proc) p : procs s !! cur = Some p -> vmap (fn p) = vmap p -> fds (fn p) = fds p ->
  exists s', (upd_proc cur fn ;;; store_word (intr_0_stack cur + 20) argv ;;; store_word (intr_0_stack cur + 28) argc ;;;
      store_word (intr_0_stack cur + 56) entry ;;; store_word (intr_0_stack cur + 16) 0xc0000000 ;;; ret (@None Z)) s = Ok (None, s') /\
    procs s' = <[cur := fn p]> (procs s) /\ kn s' = kn s /\ ram s' = ram s /\ files s' = files s /\
    frame_word s' cur 56 = entry /\ frame_word s' cur 20 = argv /\ frame_word s' cur 28 = argc /\
    frame_word s' cur 68 = frame_word s cur 68.
Proof.
  intros Hp Hv Hfd. assert (upd_proc cur fn s = Ok (tt, set_procs (<[cur := fn p]> (procs s)) s)) as Eu by (unfold upd_proc; by rewrite Hp).
  eexists. split; [run Eu; by repeat (rewrite ?bind_assoc; run store_word_ok); rets|].
  do 4 (split; [done|]). unfold frame_word. cbn [stacks set_stacks].
  rewrite !Z.eqb_refl, !u32_apart by lia. done.
Qed.


(** C20: [sys_execv] starts the program of a file: the bytes of each of its
    segments are in the memory of the process where the program headers say,
    every other byte of its memory is as it was and no page is mapped but those
    of the segments, the process bears the name of the file, and the frame from
    which it goes on has the entry point, the arguments and their number; the
    stack pointer in that frame stays what it was. *)
Theorem sys_execv_starts_program (root : Z) (fuel : nat) (path : list Z) (argv argc : Z) (s : os) (m : mem) (f : fs) (p : proc)
    (fd g : Z) (f1 : fs) (x : file) (i : inode) (eh : Elf32_Ehdr) (phs : list Elf32_Phdr) :
  let cur := current (kn s) in
  runs_as s m f -> procs s !! cur = Some p -> name_text (name p) <> MAIN ->
  arguments m argv argc -> (Z.to_nat argc < fuel)%nat -> 0 ∉ path -> (length path < 16)%nat ->
  sys_open root path O_RDONLY f = Ok (fd, f1) -> fd <> -1 -> opened f1 fd g x i -> fd_pos x = 0 ->
  program m i (content f1 i) eh phs ->
  exists s' m' f', sys_execv root fuel path argv s = Ok (None, s') /\ runs_as s' m' f' /\ current (kn s') = cur /\
    (forall ph, ph ∈ phs -> p_type ph = PT_LOAD -> in_memory m' (content f1 i) ph) /\
    loads m m' (written phs) (paged phs) /\
    (exists p', procs s' !! cur = Some p' /\ name_text (name p') = path) /\
    frame_word s' cur 56 = u32 (e_entry eh) /\ frame_word s' cur 20 = argv /\ frame_word s' cur 28 = argc /\
    frame_word s' cur 68 = frame_word s cur 68.
Proof.
  intros cur Hs Hp Hnm Ha Hf Hz Hlen Eo Hfd Ho Hpos Hprog.
  assert (count_args fuel argv 0 m = Ok (argc, m)) as Ec by (apply (count_args_ok m argv argc Ha); destruct Ha; lia).
  destruct (memory_step _ s m f _ m Hs Ec eq_refl) as (s1 & Es1 & Hs1 & Ht1).
  destruct (load_elf_file_ok root s1 m f path fd f1 g x i _ eh phs Hs1 Eo Hfd Ho Hpos eq_refl Hprog) as (s2 & m2 & f2 & Es2 & Hs2 & Ht2 & Hl & Hm).
  assert (same_thread s s2) as Ht by (by transitivity s1). pose proof (st_current _ _ Ht) as Hc2.
  destruct (ra_proc _ _ _ Hs2) as [p2 Hp2]. rewrite Hc2 in Hp2. fold cur in Hp2.
  unfold sys_execv. run (on_kern_run running_thread s cur (kn s) eq_refl). rewrite set_kn_self.
  assert (proc_at cur s = Ok (p, s)) as Ep by (unfold proc_at; by rewrite Hp). run Ep.
  rewrite bool_decide_false by done. run Es1. run Es2.
  rewrite (proj2 (Z.eqb_neq (s32 (e_entry eh)) (-1))) by apply Hprog.
  change TASK_NAME_LEN with 16. rewrite (proj2 (Z.ltb_lt (Z.of_nat (length path)) 16)) by lia.
  pass. set (fn := fun p0 : proc => set_name _ p0).
  destruct (begin_program s2 cur argv argc (u32 (s32 (e_entry eh))) fn p2 Hp2 eq_refl eq_refl) as (s3 & E3 & P1 & P2 & P3 & P4 & P5 & P6 & P7 & P8).
  exists s3, m2, f2. split; [exact E3|]. split; [|split; [by rewrite P2|split; [done|split; [done|split; [|split; [|split; [done|split; [done|]]]]]]]].
  - destruct Hs2 as [H1 H2 H3]. fold cur in Hc2. split.
    + rewrite <-H1. unfold memory_of. by rewrite P1, P2, P3, Hc2, lookup_insert_eq, Hp2.
    + rewrite <-H2. unfold files_of. by rewrite P1, P2, P4, Hc2, lookup_insert_eq, Hp2.
    + rewrite P1, P2, Hc2, lookup_insert_eq. by eexists.
  - eexists. split; [by rewrite P1, lookup_insert_eq|]. by apply name_text_new.
  - by rewrite P5, u32_s32.
  - rewrite P8. unfold frame_word. by rewrite (st_stacks _ _ Ht).
Qed.
End execv.

(** ** A small program: one segment of 16 bytes in the file "/g" of
    FsDirSpec.v; the page directory of the process at 0x100000, the table of its
    kernel part at 0x101000, one argument *)
Definition exec_image : list Z :=
  [0x7f; 69; 76; 70; 1; 1; 1; 0; 0; 0; 0; 0; 0; 0; 0; 0; 2; 0; 3; 0; 1; 0; 0; 0; 0x54; 0; 0; 8; 52; 0; 0; 0;
   0; 0; 0; 0; 0; 0; 0; 0; 52; 0; 32; 0; 1; 0; 0; 0; 0; 0; 0; 0] ++
  [1; 0; 0; 0; 84; 0; 0; 0; 0x54; 0; 0; 8; 0; 0; 0; 0; 16; 0; 0; 0; 16; 0; 0; 0; 5; 0; 0; 0; 0; 16; 0; 0] ++
  [0xb8; 1; 0; 0; 0; 0xcd; 0x93; 0xeb; 0xfe; 4; 3; 2; 1; 0; 0; 7] ++ replicate 412 0.
Definition exec_disk (a : Z) : list Z := if a =? 102 then exec_image else demo_disk a.
Definition exec_ehdr : Elf32_Ehdr := decode_ehdr (take 52 exec_image).
Definition exec_phdr : Elf32_Phdr := decode_phdr (sub 52 32 exec_image).
Definition exec_pool (start : Z) : pool := Pool (Bitmap [0] 1 0) start 0x8000.
Definition exec_mem : mem :=
  Mem (fun a => if a =? 0x100ffc then 0x100007 else if a =? 0x100c00 then 0x101007 else if a =? 0x101000 then 0x100007
                else if a =? 0x101004 then 0x102007 else if a =? 0x102000 then 0xc0001800 else 0)
      0x100000 (exec_pool 0x202000) (exec_pool 0x402000) (Vaddr (Bitmap [0] 1 0) K_HEAP_START)
      (Vaddr (Bitmap [0] 1 0) USER_VADDR_START) 0xc0000000.
Definition exec_thread : Z := 0xc0005000.
Definition exec_fs : fs := Fs.set_disk exec_disk demo_state.
Definition exec_files : fs := set_fds (<[3%nat := 0]> (fd_table exec_fs)) (opened_slot 0 O_RDONLY 4 exec_fs).
Definition exec_state : os :=
  Os (Kern ∅ {[exec_thread := Tcb 2 1 0 THREAD_TASK_RUNNING 31 31 0 0xc0000000 (Message 0 0 []) 0 0 0 0 0 0 STACK_MAGIC]} ∅
           exec_thread false 0 0x100000 0 0 0)
     exec_mem ∅ {[exec_thread := Proc (replicate 16 0) 0 (progress_vaddr exec_mem) 0 (fd_table exec_fs) 0]}
     exec_fs (Pids (Bitmap [7] 1 0) 1) (fun _ => 0).

Lemma exec_pool_ok start : start mod 4096 = 0 -> 0 < start < 2 ^ 31 -> pool_ok (exec_pool start).
Proof.
  intros H1 H2. split; [split; [done|by vm_compute|repeat constructor; lia]|cbn; lia|]. cbn [phy_addr_start exec_pool pool_bitmap].
  change (nbits (Bitmap [0] 1 0)) with 8. lia.
Qed.
Lemma exec_entry i : 0 <= i < 1024 ->
  phys exec_mem (cr3 exec_mem + 4 * i) = if i =? 1023 then 0x100007 else if i =? 768 then 0x101007 else 0.
Proof.
  intros Hi. unfold exec_mem. cbn [phys cr3].
  destruct (Z.eqb_spec i 1023) as [->|H1]; [done|]. destruct (Z.eqb_spec i 768) as [->|H2]; [done|].
  repeat (rewrite (proj2 (Z.eqb_neq _ _)) by lia). done.
Qed.
Lemma exec_entries i : 0 <= i < 1024 -> present (phys exec_mem (cr3 exec_mem + 4 * i)) = true ->
  (i = 1023 /\ phys exec_mem (cr3 exec_mem + 4 * i) = 0x100007) \/ (i = 768 /\ phys exec_mem (cr3 exec_mem + 4 * i) = 0x101007).
Proof.
  intros Hi. rewrite exec_entry by done. destruct (Z.eqb_spec i 1023); [by left|]. destruct (Z.eqb_spec i 768); [by right|]. by vm_compute.
Qed.
Lemma exec_unmapped va : user va -> translate exec_mem va = None.
Proof.
  intros Hva. destruct (user_range va Hva) as [Hr H1]. pose proof (pde_idx_range va Hr) as Hi. unfold translate, pde_of.
  rewrite exec_entry by done. rewrite (proj2 (Z.eqb_neq _ 1023)) by done.
  rewrite (proj2 (Z.eqb_neq _ 768)); [done|]. rewrite pde_idx by done. unfold user in Hva. change (2 ^ 22) with 4194304.
  enough (va / 4194304 < 768) by lia. apply Z.div_lt_upper_bound; lia.
Qed.
Lemma exec_space : space exec_mem.
Proof.
  split.
  - split; [by vm_compute|done| |].
    + intros i Hi. rewrite exec_entry by done. repeat case_match; lia.
    + intros i j Hi Hj Pi Pj. destruct (exec_entries i Hi Pi) as [[-> ->]|[-> ->]], (exec_entries j Hj Pj) as [[-> ->]|[-> ->]]; by vm_compute.
  - right. by vm_compute.
  - by vm_compute.
  - intros i pos Hi Pi Hpos _. change (nbits _) with 8 in Hpos. unfold frame_of. change (phy_addr_start _) with 0x202000. change PG_SIZE with 4096.
    destruct (exec_entries i Hi Pi) as [[-> ->]|[-> ->]]; [change (frame 0x100007) with 0x100000|change (frame 0x101007) with 0x101000]; lia.
  - by apply exec_pool_ok.
  - by apply exec_pool_ok.
  - intros i pos Hi Pi Hpos. change (nbits _) with 8 in Hpos. unfold frame_of. change (phy_addr_start _) with 0x402000. change PG_SIZE with 4096.
    destruct (exec_entries i Hi Pi) as [[-> ->]|[-> ->]]; [change (frame 0x100007) with 0x100000|change (frame 0x101007) with 0x101000]; lia.
  - intros i j Hi Hj. change (nbits _) with 8 in Hi. change (nbits _) with 8 in Hj. unfold frame_of.
    change (phy_addr_start (kernel_pool exec_mem)) with 0x202000. change (phy_addr_start (user_pool exec_mem)) with 0x402000. change PG_SIZE with 4096. lia.
  - intros va pa Hva. by rewrite exec_unmapped.
  - intros va vb pos oa ob Hva. by rewrite exec_unmapped.
Qed.
Lemma exec_disk_ok : disk_ok exec_disk.
Proof. intros a. unfold exec_disk. destruct (a =? 102); [by vm_compute|]. apply demo_state_table. Qed.
Lemma exec_table : table_ok exec_fs.
Proof. split; [exact exec_disk_ok|done|split; cbn; lia|by vm_compute]. Qed.
Lemma exec_inode : fresh_inode exec_fs 4 = set_count 1 demo_file.
Proof. vm_compute. reflexivity. Qed.
Lemma exec_opened : opened exec_files 3 0 (File 0 O_RDONLY (new_at exec_fs)) (set_count 1 demo_file).
Proof.
  split.
  - split; [lia|done|by vm_compute|done|by vm_compute].
  - by vm_compute.
  - split; [exact exec_disk_ok|done|by vm_compute|]. apply (bool_decide_unpack _). vm_compute. exact I.
  - done.
  - by vm_compute.
Qed.
Lemma exec_at_root d j t : at_dir demo_root exec_fs d j t -> i_num j = 0 -> t = exec_fs.
Proof.
  destruct 1 as [i Hi|nr Ho]; intros Hj; [reflexivity|]. exfalso. destruct (op_closed _ _ Ho demo_root ltac:(by left)) as (b & Hb & Hn).
  assert (inodes exec_fs !! demo_root = Some (set_count 1 (demo_dir 0 100))) as Hr by (vm_compute; reflexivity).
  rewrite Hr in Hb. injection Hb as <-. change (0 <> nr) in Hn. pose proof (op_num _ _ Ho) as En.
  change (i_num (disk_inode exec_fs nr) = 0) in Hj. congruence.
Qed.
Lemma exec_open : sys_open demo_root [47; 103] O_RDONLY exec_fs = Ok (3, exec_files).
Proof.
  destruct (sys_open_now demo_root exec_fs (set_count 1 (demo_dir 0 100)) [] [103] (set_count 1 (demo_dir 0 100)) 4 3 0) as (d & t & Hd & E).
  - exact exec_table.
  - done.
  - done.
  - done.
  - done.
  - done.
  - by_computation.
  - cbn. lia.
  - done.
  - constructor. split; [done|by vm_compute|]. unfold dir_zones. cbn. repeat constructor; [done|..].
    all: apply (bool_decide_unpack _); vm_compute; exact I.
  - vm_compute. reflexivity.
  - split; [cbn; lia| |by vm_compute|by vm_compute]. intros b Hb%list_elem_of_singleton. subst b.
    exists (set_count 1 (demo_dir 0 100)). split; [by vm_compute|]. cbn. lia.
  - done.
  - by vm_compute.
  - by vm_compute.
  - by vm_compute.
  - lia.
  - by vm_compute.
  - lia.
  - change (path_text [] [103] false) with [47; 103] in E. rewrite E. clear E.
    rewrite (exec_at_root _ _ _ Hd eq_refl). reflexivity.
Qed.
Definition is_byte (b : Z) : bool := (0 <=? b) && (b <? 256).
Lemma bytes_decide l : forallb is_byte l = true -> Forall (fun b => 0 <= b < 256) l.
Proof. intros H. apply list.Forall_forall. intros b Hb%list_elem_of_In. rewrite List.forallb_forall in H. specialize (H b Hb). unfold is_byte in H. zb. lia. Qed.
Lemma exec_bytes a : Forall (fun b => 0 <= b < 256) (exec_disk a).
Proof.
  unfold exec_disk. destruct (a =? 102); [apply bytes_decide; by vm_compute|]. unfold demo_disk.
  repeat (destruct (a =? _); [apply bytes_decide; by vm_compute|]). apply Forall_replicate. destruct (a <? 100); [lia|apply Z.mod_pos_bound; lia].
Qed.
Lemma exec_program : program exec_mem (set_count 1 demo_file) (content exec_files (set_count 1 demo_file)) exec_ehdr [exec_phdr].
Proof.
  split.
  - unfold content. change (disk exec_files) with exec_disk. generalize (zones_of exec_files (set_count 1 demo_file)).
    intros l. induction l as [|z l IH]; [constructor|]. cbn [flat_map]. apply list.Forall_app. split; [apply exec_bytes|exact IH].
  - split; [by vm_compute|vm_compute; reflexivity].
  - by vm_compute.
  - split; [by vm_compute|split; [by vm_compute|]]. split; [vm_compute; reflexivity|split; [|done]].
    change (readable (set_count 1 demo_file) 52 32). split_and!; try by vm_compute. right. by vm_compute.
  - intros ph ->%list_elem_of_singleton _. split.
    + split; [|by vm_compute]. split_and!; try by vm_compute. right. by vm_compute.
    + by vm_compute.
    + intros k Hk. change (pages exec_phdr) with 1 in Hk. assert (k = 0) as -> by lia. by vm_compute.
  - split; [|done]. intros _ ph' va Hin. by apply not_elem_of_nil in Hin.
  - assert (forall st, has_free (exec_pool st) 1) as Hf.
    { intros st. exists [0]. split; [apply NoDup_singleton|split; [done|]]. intros pos ->%list_elem_of_singleton. by vm_compute. }
    split; [exact exec_space| |apply Hf|apply Hf]. split; [done|by vm_compute|repeat constructor; lia].
  - by vm_compute.
Qed.
Lemma sys_execv_starts_program_witness :
  exists s' m', sys_execv demo_root 10 [47; 103] 0xc0001000 exec_state = Ok (None, s') /\
    memory_of s' = m' /\ byte_at_va m' 0x8000054 = Some 0xb8 /\ byte_at_va m' 0x8000063 = Some 7 /\ translate m' 0x8001000 = None /\
    frame_word s' exec_thread 56 = 0x8000054 /\ frame_word s' exec_thread 28 = 1.
Proof.
  destruct (sys_execv_starts_program demo_root 10 [47; 103] 0xc0001000 1 exec_state exec_mem exec_fs
    (Proc (replicate 16 0) 0 (progress_vaddr exec_mem) 0 (fd_table exec_fs) 0) 3 0 exec_files
    (File 0 O_RDONLY (new_at exec_fs)) (set_count 1 demo_file) exec_ehdr [exec_phdr])
    as (s' & m' & f' & E & Hs & _ & Hm & Hl & _ & H1 & _ & H2 & _).
  - split; [done|done|by eexists].
  - done.
  - by vm_compute.
  - split; [lia|split; [|by vm_compute]]. intros k Hk. assert (k = 0) as -> by lia. eexists. split; [vm_compute; reflexivity|lia].
  - vm_compute. lia.
  - by_computation.
  - cbn. lia.
  - exact exec_open.
  - lia.
  - exact exec_opened.
  - done.
  - exact exec_program.
  - exists s', m'. split; [exact E|]. split; [apply Hs|]. specialize (Hm exec_phdr ltac:(by left) eq_refl).
    split; [|split; [|split; [|split; [exact H1|exact H2]]]].
    + assert (in_segment exec_phdr 0x8000054) as Hi by (split; by vm_compute). rewrite (proj2 (Hm 0x8000054 Hi)). vm_compute. reflexivity.
    + assert (in_segment exec_phdr 0x8000063) as Hi by (split; by vm_compute). rewrite (proj2 (Hm 0x8000063 Hi)). vm_compute. reflexivity.
    + assert (user 0x8001000) as Hu by (split; by vm_compute). apply (ld_unmapped _ _ _ _ Hl _ Hu (exec_unmapped _ Hu)).
      intros (ph & ->%list_elem_of_singleton & _ & Hp). clear -Hp. by destruct Hp as [_ Hp%Z.lt_nge].
Defined.
(** A file that is not a program is left open, and the process goes on with
    one descriptor less. *)
Lemma execv_leaves_file_open :
  match sys_execv demo_root 10 [47; 103] 0xc0001000 (set_files demo_state exec_state) with
  | Ok (r, s) => bool_decide (r = Some (-1) /\ fd_table (files_of s) !! 3%nat = Some 0) | _ => false end = true.
Proof. vm_compute. reflexivity. Qed.
