(* ===== verification/Select.v ===== *)
(** * Select: waiting for any of several devices
    (core/fs/select.c, core/include/frog/poll.h, [schedule_timeout] of
    core/thread/sched.c, [sys_poll] of core/fs/fs.c and the [poll] functions of
    the three input devices)

    Over the devices and wait queues of Hid.v, the timers of Timer.v and the
    descriptors of the files.  A call of [sys_wait2] puts one wait entry per
    descriptor into pages of its own, sleeps until a device wakes it or its
    timer does, looks again, and takes its entries out of the queues.  It is a
    resumption (Resume.v) that pauses where the processor is given away.

    Pages come from [get_kernel_page] (0 for none) and are zeros, which is put
    down for an entry when it is first used.  The result of a device without a
    [poll] function is a variable that was never set: [unset]. *)
From S2P Require Import Prelude Lists ListProofs Kernel Queues Sched WaitQueue WaitQueueSpec Ports Softirq Hid HidSpec Keyboard KeyboardSpec Mouse MouseSpec Ps2hid Timer TimerProofs Fs FsInode FsFile FsDev Resume.

Definition POLLIN : Z := 0x0001.
Definition POLLPRI : Z := 0x0002.
Definition POLLOUT : Z := 0x0004.
Definition POLLERR : Z := 0x0008.
Definition POLLHUP : Z := 0x0010.
Definition POLLRDNORM : Z := 0x0040.
Definition POLLRDBAND : Z := 0x0080.
Definition POLLIN_SET : Z := Z.lor (Z.lor (Z.lor (Z.lor POLLRDNORM POLLRDBAND) POLLIN) POLLHUP) POLLERR.
Definition MAX_SCHEDULE_TIMEOUT : Z := 2 ^ 31 - 1.

(** ** The poll table *)
Record poll_table := PollTable { error : Z; table : Z }.
Record poll_table_page := PollPage { next : Z; entry : Z }.
Record poll_table_entry := PollEntry { filp : Z; wait_address : Z }.
Definition entries (p : Z) : Z := p + 8.
Definition sizeof_entry : Z := 32.
Definition entry_wait (e : Z) : Z := e + 4.
Definition POLL_TABLE_FULL (p : Z) (page : poll_table_page) : bool := u32 (entry page + sizeof_entry) >? u32 (PG_SIZE + p).

Record selsys {X : Machine} := Selsys {
  sl_hid : hid;
  sl_wheel : wheel;
  sl_files : fs;
  sl_pages : gmap Z poll_table_page;
  sl_entries : gmap Z poll_table_entry }.

Section state.
Context {X : Machine}.
Definition set_sl_hid v s := Selsys _ v (sl_wheel s) (sl_files s) (sl_pages s) (sl_entries s).
Definition set_sl_wheel v s := Selsys _ (sl_hid s) v (sl_files s) (sl_pages s) (sl_entries s).
Definition set_sl_files v s := Selsys _ (sl_hid s) (sl_wheel s) v (sl_pages s) (sl_entries s).
Definition set_sl_pages v s := Selsys _ (sl_hid s) (sl_wheel s) (sl_files s) v (sl_entries s).
Definition set_sl_entries v s := Selsys _ (sl_hid s) (sl_wheel s) (sl_files s) (sl_pages s) v.
Definition in_hid {A} (m : M hid A) : M selsys A := zoom sl_hid set_sl_hid m.
Definition in_waits {A} (m : M wq A) : M selsys A := in_hid (in_wq m).
Definition in_files {A} (m : M fs A) : M selsys A := zoom sl_files set_sl_files m.
(** The clock of the timers is that of the scheduler. *)
Definition in_wheel {A} (m : M wheel A) : M selsys A :=
  zoom (fun s => Timer.set_ticks (jiffies (wkern (hwq (sl_hid s)))) (sl_wheel s)) set_sl_wheel m.
Definition page_at (p : Z) : M selsys poll_table_page :=
  fun s => match sl_pages s !! p with Some x => Ok (x, s) | None => Fault end.
Definition put_page (p : Z) (x : poll_table_page) : M selsys unit := modify (fun s => set_sl_pages (<[p := x]> (sl_pages s)) s).
Definition entry_at (e : Z) : M selsys poll_table_entry :=
  fun s => match sl_entries s !! e with Some x => Ok (x, s) | None => Fault end.
Definition put_entry (e : Z) (x : poll_table_entry) : M selsys unit := modify (fun s => set_sl_entries (<[e := x]> (sl_entries s)) s).
End state.
#[export] Program Instance sel_kern {X : Machine} : HasKern selsys :=
  {| kernel s := wkern (hwq (sl_hid s)); set_kernel k s := set_sl_hid (set_hwq (set_wkern k (hwq (sl_hid s))) (sl_hid s)) s |}.
Next Obligation. done. Qed.
Next Obligation. done. Qed.
Next Obligation. by intros X [[[] ? ? ? ? ? ? ? ?] ? ? ? ?]. Qed.

Section select.
Context {X : Machine} {G : Globals}.
(** The memory for tables, the result nobody sets, the address of
    [process_timeout], and the fuel for lists of threads and for rounds. *)
Variable get_kernel_page : selsys -> Z.
Variables unset process_timeout : Z.
Variables fuel rounds : nat.

(** ** Entries *)
(** The end of [__pollwait]: an entry in the page at [table]. *)
Definition add_entry (file wait_address current table : Z) : M selsys unit :=
  page <- page_at table ;;
  let e := entry page in
  put_page table (PollPage (next page) (u32 (e + sizeof_entry))) ;;;
  put_entry e (PollEntry file wait_address) ;;;
  in_waits (DECLARE_WAITQUEUE (entry_wait e) 0) ;;;
  in_waits (init_waitqueue_entry (entry_wait e) current) ;;;
  in_waits (add_wait_queue wait_address (entry_wait e)).
Definition __pollwait (file wait_address : Z) (p : poll_table) : M selsys poll_table :=
  current <- to_kern running_thread ;;
  full <- (if table p =? 0 then ret true else page <- page_at (table p) ;; ret (POLL_TABLE_FULL (table p) page)) ;;
  if full : bool then
    new_table <- gets get_kernel_page ;;
    if new_table =? 0 then
      to_kern (upd_tcb current (set_status THREAD_TASK_RUNNING)) ;;;
      ret (PollTable (- ENOMEM) (table p))
    else
      put_page new_table (PollPage (table p) (entries new_table)) ;;;
      add_entry file wait_address current new_table ;;;
      ret (PollTable (error p) new_table)
  else add_entry file wait_address current (table p) ;;; ret p.
(** [wait] says whether there is a table. *)
Definition poll_wait (file wait_address : Z) (wait : bool) (p : poll_table) : M selsys poll_table :=
  if wait && negb (wait_address =? 0) then __pollwait file wait_address p else ret p.

Fixpoint free_entries (n : nat) (p e : Z) : M selsys unit :=
  match n with
  | O => stuck
  | S n =>
      let e := u32 (e - sizeof_entry) in
      x <- entry_at e ;;
      in_waits (remove_wait_queue (wait_address x) (entry_wait e)) ;;;
      if e >? entries p then free_entries n p e else ret tt
  end.
(** [mfree_page] takes the page away. *)
Fixpoint poll_freewait (n : nat) (p : Z) : M selsys unit :=
  match n with
  | O => stuck
  | S n =>
      if p =? 0 then ret tt
      else
        page <- page_at p ;;
        free_entries 128 p (entry page) ;;;
        modify (fun s => set_sl_pages (delete p (sl_pages s)) s) ;;;
        poll_freewait n (next page)
  end.

(** ** The devices *)
Definition poll_ring (q file : Z) (wait : bool) (p : poll_table) : M selsys (Z * poll_table) :=
  p <- poll_wait file (proc_list q) wait p ;;
  e <- in_hid (ring_is_empty q) ;;
  ret (if e : bool then 0 else Z.lor POLLIN POLLRDNORM, p).
Definition poll_kbd (file : Z) (wait : bool) (p : poll_table) := q <- gets (fun s => kbd_queue (sl_hid s)) ;; poll_ring q file wait p.
Definition poll_pcmouse (file : Z) (wait : bool) (p : poll_table) := q <- gets (fun s => mouse_queue (sl_hid s)) ;; poll_ring q file wait p.
Definition poll_aux (file : Z) (wait : bool) (p : poll_table) := q <- gets (fun s => aux_queue (sl_hid s)) ;; poll_ring q file wait p.
Definition sys_poll (file : Z) (wait : bool) (p : poll_table) : M selsys (Z * poll_table) :=
  f <- in_files (file_at file) ;;
  i <- in_files (inode_at (fd_inode f)) ;;
  if i_dev i =? DNOAUX then poll_aux file wait p
  else if i_dev i =? DNOPCMOUSE then poll_pcmouse file wait p
  else if i_dev i =? DNOPCKBD then poll_kbd file wait p
  else ret (unset, p).

(** ** Sleeping for a time *)
Section resumed.
Local Open Scope resume_scope.

(** [timer] is the address of the timer on the stack. *)
Definition set_timeout (timer expire current : Z) : M wheel unit :=
  modify (Timer.set_timer timer (Timer expire current process_timeout false)).
Definition schedule_timeout (timer timeout : Z) : T selsys Z :=
  let out := fun timeout => done (if timeout <? 0 then 0 else timeout) in
  current <~ on_kern running_thread ;;
  if timeout =? MAX_SCHEDULE_TIMEOUT then
    on_kern (schedule fuel) ;;;
    pause ;;;
    out timeout
  else if timeout <? 0 then
    on_kern (upd_tcb current (set_status THREAD_TASK_RUNNING)) ;;;
    out timeout
  else
    ticks <~ on_kern (gets jiffies) ;;
    let expire := u32 (timeout + ticks) in
    atom (in_wheel (set_timeout timer expire current)) ;;;
    atom (in_wheel (add_timer timer)) ;;;
    on_kern (schedule fuel) ;;;
    pause ;;;
    atom (in_wheel (del_timer timer)) ;;;
    ticks <~ on_kern (gets jiffies) ;;
    out (s32 (expire - ticks)).
End resumed.

(** ** [do_wait2] and [sys_wait2] *)
(** The inner loop; it gives the table, and [retval]. *)
Fixpoint poll_fds (fds : list Z) (i : Z) (wait : bool) (p : poll_table) (retval : Z) : M selsys (poll_table * Z) :=
  match fds with
  | [] => ret (p, retval)
  | fd :: fds =>
      f <- in_files (get_file fd) ;;
      r <- sys_poll f wait p ;;
      let '(mask, p) := r in
      if negb (Z.land mask POLLIN_SET =? 0) then poll_fds fds (i + 1) false p i
      else poll_fds fds (i + 1) wait p retval
  end.
(** The assertions that all descriptors are of devices. *)
Fixpoint check_fds (fds : list Z) : M selsys unit :=
  match fds with
  | [] => ret tt
  | fd :: fds =>
      f <- in_files (get_file fd) ;;
      x <- in_files (file_at f) ;;
      i <- in_files (inode_at (fd_inode x)) ;;
      ASSERT (IS_FT_CHAR i) ;;;
      check_fds fds
  end.
Record timeval := Timeval { tv_sec : Z; tv_usec : Z }.

Section resumed.
Local Open Scope resume_scope.
(** The outer loop; it ends with the table, [retval] and the time that is left. *)
Fixpoint wait_loop (n : nat) (cur timer : Z) (fds : list Z) (wait : bool) (p : poll_table) (timeout : Z) : T selsys (poll_table * Z * Z) :=
  match n with
  | O => atom stuck
  | S n =>
      old_status <~ on_kern intr_disable ;;
      on_kern (upd_tcb cur (set_status THREAD_TASK_WAITING)) ;;;
      r <~ atom (poll_fds fds 0 wait p (-1)) ;;
      let '(p, retval) := r in
      if negb (retval =? -1) || (timeout =? 0) then done (p, retval, timeout)
      else if negb (error p =? 0) then done (p, error p, timeout)
      else
        timeout <~ schedule_timeout timer timeout ;;
        on_kern (intr_set_status old_status) ;;;
        wait_loop n cur timer fds false p timeout
  end.
Definition do_wait2 (timer : Z) (fds : list Z) (timeout : Z) : T selsys Z :=
  cur <~ on_kern running_thread ;;
  r <~ wait_loop rounds cur timer fds (negb (timeout =? 0)) (PollTable 0 0) timeout ;;
  let '(p, retval, timeout) := r in
  on_kern (upd_tcb cur (set_status THREAD_TASK_RUNNING)) ;;;
  old_status <~ on_kern intr_disable ;;
  atom (poll_freewait rounds (table p)) ;;;
  on_kern (intr_set_status old_status) ;;;
  done retval.
Definition wait_ticks (tvp : option timeval) : Z :=
  match tvp with Some tv => u32 ((tv_sec tv + Z.quot (tv_usec tv) 1000000) * HZ) | None => 0 end.
Definition sys_wait2 (timer : Z) (fds : list Z) (tvp : option timeval) : T selsys Z :=
  atom (check_fds fds) ;;;
  res <~ do_wait2 timer fds (s32 (wait_ticks tvp)) ;;
  done (u32 res).
End resumed.
End select.

(** * What is waited for *)

(** ** Several wait queues *)
(** [W] has the entries of each queue; no two queues share a node. *)
Definition nodes (q : Z) (es : list Z) : list Z := head_list q :: (entry_list <$> es).
Record wait_queues (s : wq) (W : gmap Z (list Z)) : Prop := {
  wqs_list : forall q es, W !! q = Some es -> wait_list s q es;
  wqs_apart : forall q q' es es' p, W !! q = Some es -> W !! q' = Some es' -> p ∈ nodes q es -> p ∈ nodes q' es' -> q = q' }.
Definition outside (W : gmap Z (list Z)) (p : Z) : Prop := forall q es, W !! q = Some es -> p ∉ nodes q es.
(** The queues without the entries [l]. *)
Definition minus (l : list Z) (W : gmap Z (list Z)) : gmap Z (list Z) := filter (fun e => e ∉ l) <$> W.

Section wait_queues.
Implicit Types (s : wq) (W : gmap Z (list Z)) (q e p : Z) (es l : list Z).

Lemma keep_all l e : e ∉ l -> filter (fun x => x ∉ [e]) l = l.
Proof.
  induction l as [|x l IH]; intros Hn; [done|]. apply list.not_elem_of_cons in Hn as [Hx Hn].
  rewrite filter_cons_True by (by intros ->%list_elem_of_singleton). by rewrite IH.
Qed.
Lemma drop_one xs e ys : e ∉ xs -> e ∉ ys -> filter (fun x => x ∉ [e]) (xs ++ e :: ys) = xs ++ ys.
Proof.
  intros Hx Hy. induction xs as [|x xs IH]; cbn [app].
  - rewrite filter_cons_False by (intros H; apply H; by left). by apply keep_all.
  - apply list.not_elem_of_cons in Hx as [Hne Hx]. rewrite filter_cons_True by (by intros ->%list_elem_of_singleton). by rewrite IH.
Qed.
Lemma wait_list_nodup s q es : wait_list s q es -> NoDup es.
Proof. intros H. destruct (wl_dll _ _ _ H) as [_ Hn]. apply list.NoDup_cons in Hn as [_ Hn]. by apply NoDup_fmap_1 in Hn. Qed.
(** Nodes that are in no queue may change, and the tasks may. *)
Lemma wait_queues_change s s' W ps : wait_queues s W -> unchanged_except ps (klists (wkern s)) (klists (wkern s')) ->
  (forall p, p ∈ ps -> outside W p) -> heads s' = heads s -> (forall t, alive (wkern s) t -> alive (wkern s') t) ->
  (forall q es e, W !! q = Some es -> e ∈ es -> waits s' !! e = waits s !! e) -> wait_queues s' W.
Proof.
  intros [H1 H2] Hu Hps Hh Ha Hw. split; [|done]. intros q es Hq. destruct (H1 q es Hq) as [Hd (x & Hx & Hm) Hpos He]. split.
  - eapply dll_unchanged; [exact Hd|exact Hu|]. intros p Hp Hin. by apply (Hps p Hin q es Hq).
  - rewrite Hh. by exists x.
  - done.
  - intros e Hin. destruct (He e Hin) as (? & w & Ew & ? & ?). split; [done|]. exists w. rewrite (Hw q es e) by done. auto.
Qed.
Lemma outside_entry W q es e e' : outside W (entry_list e) -> W !! q = Some es -> e' ∈ es -> e' <> e.
Proof. intros Ho Hq He ->. apply (Ho q es Hq). right. by apply list_elem_of_fmap_2. Qed.

(** An entry joins a queue. *)
Lemma join_queue s W q es e w : wait_queues s W -> W !! q = Some es -> waits s !! e = Some w -> w_magic w = entry_magic e ->
  alive (wkern s) (w_task w) -> 0 < e -> mapped (klists (wkern s)) (entry_list e) -> outside W (entry_list e) ->
  exists h, add_wait_queue q e s = Ok (tt, WaitQueue.set_wkern (set_klists h (wkern s)) s) /\
    wait_queues (WaitQueue.set_wkern (set_klists h (wkern s)) s) (<[q := e :: es]> W) /\
    unchanged_except (entry_list e :: nodes q es) (klists (wkern s)) h.
Proof.
  intros HW Hq Hw Hm Ht He Hmap Ho. pose proof (wqs_list _ _ HW q es Hq) as HL.
  destruct (add_wait_queue_ok s q es e w HL Hw Hm Ht He Hmap (Ho q es Hq)) as (h & E & HL' & Hu).
  exists h. split; [exact E|]. split; [|exact Hu]. split.
  - intros q' es'. rewrite lookup_insert. case_decide as Hqq; [intros [= <-]; subst q'; exact HL'|]. intros Hq'.
    assert (wait_queues (WaitQueue.set_wkern (set_klists h (wkern s)) s) (delete q W)) as HW'.
    { apply (wait_queues_change s _ _ (entry_list e :: nodes q es)); [|exact Hu| |done|done|done].
      - split; [intros q1 es1 [_ H1]%lookup_delete_Some; by apply HW|].
        intros q1 q2 es1 es2 p [_ H1]%lookup_delete_Some [_ H2]%lookup_delete_Some. by apply (wqs_apart _ _ HW).
      - intros p [->|Hp]%list.elem_of_cons q1 es1 [Hne H1]%lookup_delete_Some Hin; [by apply (Ho q1 es1 H1)|].
        apply Hne. by apply (wqs_apart _ _ HW q q1 es es1 p). }
    apply (wqs_list _ _ HW' q' es'). by apply lookup_delete_Some.
  - assert (forall q1 es1 p, <[q := e :: es]> W !! q1 = Some es1 -> p ∈ nodes q1 es1 ->
      (q1 = q /\ p = entry_list e) \/ (exists es0, W !! q1 = Some es0 /\ p ∈ nodes q1 es0)) as Hold.
    { intros q1 es1 p. rewrite lookup_insert. case_decide; [subst q1; intros [= <-] Hp|by right; exists es1].
      unfold nodes in Hp. rewrite fmap_cons, !list.elem_of_cons in Hp. destruct Hp as [->|[->|Hp]].
      - right. exists es. split; [done|by left].
      - by left.
      - right. exists es. split; [done|by right]. }
    intros q1 q2 es1 es2 p H1 H2 Hp1 Hp2. apply (Hold q1 es1 p H1) in Hp1. apply (Hold q2 es2 p H2) in Hp2.
    destruct Hp1 as [[-> ->]|(l1 & Hl1 & Hp1)], Hp2 as [[-> Ep]|(l2 & Hl2 & Hp2)]; [done| | |by apply (wqs_apart _ _ HW q1 q2 l1 l2 p)].
    + by destruct (Ho q2 l2 Hl2).
    + subst p. by destruct (Ho q1 l1 Hl1).
Qed.
(** An entry leaves its queue. *)
Lemma minus_one s W q xs e ys : wait_queues s W -> W !! q = Some (xs ++ e :: ys) -> <[q := xs ++ ys]> W = minus [e] W.
Proof.
  intros HW Hq. apply map_eq. intros q'. unfold minus. rewrite lookup_fmap, lookup_insert.
  pose proof (wait_list_nodup s q _ (wqs_list _ _ HW _ _ Hq)) as Hn.
  case_decide as E0.
  - subst q'. rewrite Hq. simpl. f_equal.
    apply list.NoDup_app in Hn as (_ & Hd & [He _]%list.NoDup_cons). rewrite drop_one; [done| |done]. intros Hx. apply (Hd e Hx). by left.
  - destruct (W !! q') as [es'|] eqn:E1; [|done]. simpl. f_equal. symmetry. apply keep_all. intros He. apply E0.
    apply (wqs_apart _ _ HW q q' _ _ (entry_list e) Hq E1); right; apply list_elem_of_fmap_2; set_solver.
Qed.
Lemma leave_queue s W q es e : wait_queues s W -> W !! q = Some es -> e ∈ es ->
  exists h, remove_wait_queue q e s = Ok (tt, WaitQueue.set_wkern (set_klists h (wkern s)) s) /\
    wait_queues (WaitQueue.set_wkern (set_klists h (wkern s)) s) (minus [e] W) /\
    unchanged_except (nodes q es) (klists (wkern s)) h.
Proof.
  intros HW Hq (xs & ys & ->)%list_elem_of_split. pose proof (wqs_list _ _ HW q _ Hq) as HL.
  destruct (remove_wait_queue_ok s q xs e ys HL) as (h & E & HL' & Hu).
  exists h. split; [exact E|]. split; [|exact Hu]. rewrite <-(minus_one s W q xs e ys HW Hq).
  assert (forall p, p ∈ nodes q (xs ++ ys) -> p ∈ nodes q (xs ++ e :: ys)) as Hsub.
  { intros p. unfold nodes. rewrite !fmap_app, fmap_cons. set_solver. }
  split.
  - intros q' es'. rewrite lookup_insert. case_decide as Hqq; [intros [= <-]; subst q'; exact HL'|]. intros Hq'.
    destruct (wqs_list _ _ HW q' es' Hq') as [Hd Hx Hpos He]. split; [|done|done|done].
    eapply dll_unchanged; [exact Hd|exact Hu|]. intros p Hp Hin. apply Hqq. by apply (wqs_apart _ _ HW q q' (xs ++ e :: ys) es' p).
  - intros q1 q2 es1 es2 p. rewrite !lookup_insert. case_decide as D1; case_decide as D2; subst; try done.
    + intros [= <-] H2 Hp1%Hsub Hp2. by apply (wqs_apart _ _ HW q1 q2 (xs ++ e :: ys) es2 p).
    + intros H1 [= <-] Hp1 Hp2%Hsub. by apply (wqs_apart _ _ HW q1 q2 es1 (xs ++ e :: ys) p).
    + intros H1 H2. by apply (wqs_apart _ _ HW q1 q2).
Qed.
Lemma minus_more e l W : minus l (minus [e] W) = minus (e :: l) W.
Proof.
  unfold minus. rewrite <-map_fmap_compose. apply map_fmap_ext. intros q es _. simpl. rewrite list_filter_filter.
  apply list_filter_iff. intros x. rewrite list_elem_of_singleton, list.elem_of_cons. tauto.
Qed.
Lemma minus_in l W q es : W !! q = Some es -> minus l W !! q = Some (filter (fun e => e ∉ l) es).
Proof. intros Hq. unfold minus. by rewrite lookup_fmap, Hq. Qed.
End wait_queues.

Section polling.
Context {X : Machine} {G : Globals}.
Implicit Types (s : selsys) (w : wq) (W : gmap Z (list Z)) (q e p : Z) (es l : list Z).

(** [s] with other wait queues and tables: what polling changes. *)
Definition stage s w pg en : selsys := Selsys _ (set_hwq w (sl_hid s)) (sl_wheel s) (sl_files s) pg en.
(** The descriptor [fd] is of an input device with the queue [q]; [g] is its
    place in the table of open files. *)
Definition device s (fd g q : Z) : Prop :=
  get_file fd (sl_files s) = Ok (g, sl_files s) /\
  (exists f i, file_at g (sl_files s) = Ok (f, sl_files s) /\ inode_at (fd_inode f) (sl_files s) = Ok (i, sl_files s) /\ IS_FT_CHAR i = true /\
    ((i_dev i = DNOAUX /\ q = aux_queue (sl_hid s)) \/ (i_dev i = DNOPCMOUSE /\ q = mouse_queue (sl_hid s)) \/
     (i_dev i = DNOPCKBD /\ q = kbd_queue (sl_hid s)))) /\
  is_Some (rings (sl_hid s) !! q) /\ proc_list q <> 0.
Definition has_data s (q : Z) : bool := match rings (sl_hid s) !! q with Some r => negb (rhead r =? rtail r) | None => false end.
(** The index of the last device that has data. *)
Fixpoint last_ready s (qs : list Z) (i r : Z) : Z :=
  match qs with [] => r | q :: qs => last_ready s qs (i + 1) (if has_data s q then i else r) end.
(** The devices up to the first one that has data. *)
Fixpoint watched s (gqs : list (Z * Z)) : list (Z * Z) :=
  match gqs with [] => [] | gq :: gqs => gq :: if has_data s (snd gq) then [] else watched s gqs end.

Lemma look_up_ok {A} (c : M fs A) s a : c (sl_files s) = Ok (a, sl_files s) -> in_files c s = Ok (a, s).
Proof. intros E. unfold in_files, zoom. rewrite E. by destruct s. Qed.
Lemma in_waits_ok {A} (c : M wq A) s w pg en a w' : c w = Ok (a, w') -> in_waits c (stage s w pg en) = Ok (a, stage s w' pg en).
Proof. intros E. unfold in_waits, in_hid, in_wq, zoom. cbn [sl_hid stage hwq set_hwq]. rewrite E. by destruct s as [[]]. Qed.
Lemma to_kern_stage {A} (c : M kern A) s w pg en a k : c (wkern w) = Ok (a, k) ->
  to_kern c (stage s w pg en) = Ok (a, stage s (WaitQueue.set_wkern k w) pg en).
Proof. intros E. unfold to_kern, zoom. cbn [kernel set_kernel sel_kern sl_hid stage hwq set_hwq]. by rewrite E. Qed.
Lemma poll_ring_end s q (p : poll_table) : is_Some (rings (sl_hid s) !! q) ->
  (e <- in_hid (ring_is_empty q) ;; ret (if e : bool then 0 else Z.lor POLLIN POLLRDNORM, p)) s =
    Ok ((if has_data s q then Z.lor POLLIN POLLRDNORM else 0, p), s).
Proof.
  intros [r Hr]. unfold in_hid, zoom, ring_is_empty, has_data. unfold bind at 1. rewrite (ring_at_bind q r _ (sl_hid s) Hr), Hr.
  unfold ret. destruct (rhead r =? rtail r); cbn [negb]; by destruct s.
Qed.
(** A device is polled through its queue. *)
Lemma sys_poll_ring unset gkp s fd g q wait (p : poll_table) : device s fd g q ->
  sys_poll gkp unset g wait p s = poll_ring gkp q g wait p s.
Proof.
  intros (_ & (f & i & Hf & Hi & _ & Hq) & _). unfold sys_poll. run (look_up_ok _ s _ Hf). run (look_up_ok _ s _ Hi).
  destruct Hq as [[-> ->]|[[-> ->]|[-> ->]]]; done.
Qed.

(** Looking at the devices without a table changes nothing. *)
Lemma poll_fds_look gkp unset s (p : poll_table) fds gqs : Forall2 (fun fd gq => device s fd (fst gq) (snd gq)) fds gqs -> forall i r,
  poll_fds gkp unset fds i false p r s = Ok ((p, last_ready s (snd <$> gqs) i r), s).
Proof.
  induction 1 as [|fd [g q] fds gqs Hd _ IH]; intros i r; [done|]. cbn [poll_fds fmap list_fmap last_ready fst snd] in *.
  run (look_up_ok _ s _ (proj1 Hd)). assert (sys_poll gkp unset g false p s = Ok ((if has_data s q then Z.lor POLLIN POLLRDNORM else 0, p), s)) as E.
  { rewrite (sys_poll_ring unset gkp s fd g q) by done. unfold poll_ring, poll_wait. cbn [andb]. rewrite bind_ret. apply poll_ring_end, Hd. }
  run E. destruct (has_data s q); apply IH.
Qed.
Lemma check_fds_ok s fds gqs : Forall2 (fun fd gq => device s fd (fst gq) (snd gq)) fds gqs -> check_fds fds s = Ok (tt, s).
Proof.
  induction 1 as [|fd [g q] fds gqs (Hg & (f & i & Hf & Hi & Hc & _) & _) _ IH]; [done|]. cbn [check_fds].
  run (look_up_ok _ s _ Hg). run (look_up_ok _ s _ Hf). run (look_up_ok _ s _ Hi). rewrite Hc. by pass.
Qed.

(** ** One entry *)
(** The entries of the page [P], and their wait entries. *)
Definition slot (P : Z) (j : nat) : Z := entries P + sizeof_entry * Z.of_nat j.
Definition own (P : Z) (j : nat) : Z := entry_wait (slot P j).
Definition page_of (P nx : Z) (j : nat) : poll_table_page := PollPage nx (slot P j).
(** What polling may change of the wait queues: nodes that are neither of
    threads nor heads of their lists. *)
Definition beside Q w w' : Prop := heads w' = heads w /\ exists h ps, wkern w' = set_klists h (wkern w) /\
  unchanged_except ps (klists (wkern w)) h /\ forall p, p ∈ ps -> apart (wkern w) Q p.
(** The part of the page [P] from the entry [j] on is in no queue. *)
Definition unused Q w W (P : Z) (j : nat) : Prop := forall p, slot P j <= p < P + PG_SIZE -> outside W p /\ apart (wkern w) Q p.
(** The nodes of the queues are apart from the threads. *)
Definition all_apart Q w W : Prop := forall q es p, W !! q = Some es -> p ∈ nodes q es -> apart (wkern w) Q p.

Lemma beside_refl Q w : beside Q w w.
Proof. split; [done|]. exists (klists (wkern w)), []. split; [by destruct w as [[]]|]. split; [done|]. intros p Hp. by apply not_elem_of_nil in Hp. Qed.
Lemma beside_trans Q w1 w2 w3 : beside Q w1 w2 -> beside Q w2 w3 -> beside Q w1 w3.
Proof.
  intros (E1 & h1 & ps1 & K1 & U1 & A1) (E2 & h2 & ps2 & K2 & U2 & A2). split; [congruence|]. exists h2, (ps1 ++ ps2).
  rewrite K1 in K2, U2, A2. split; [rewrite K2; by destruct (wkern w1)|]. split.
  - eapply unchanged_trans; [exact U1|exact U2|set_solver|set_solver].
  - intros p [Hp|Hp]%list.elem_of_app; [by apply A1|by apply A2].
Qed.
Lemma beside_alive Q w w' t : beside Q w w' -> alive (wkern w') t <-> alive (wkern w) t.
Proof. intros (_ & h & ps & -> & _). done. Qed.
Lemma beside_apart Q w w' p : beside Q w w' -> apart (wkern w) Q p -> apart (wkern w') Q p.
Proof. intros (_ & h & ps & -> & _). done. Qed.

Lemma add_entry_ok Q s w pg en W g q es R P nx j :
  wait_queues w W -> all_apart Q w W -> unused Q w W P j -> (j < 127)%nat -> 0 < P -> P + PG_SIZE < 2 ^ 32 -> R <> 0 -> alive (wkern w) R ->
  pg !! P = Some (page_of P nx j) -> W !! proc_list q = Some es ->
  exists w', add_entry g (proc_list q) R P (stage s w pg en) =
      Ok (tt, stage s w' (<[P := page_of P nx (S j)]> pg) (<[slot P j := PollEntry g (proc_list q)]> en)) /\
    let W' := <[proc_list q := own P j :: es]> W in
    wait_queues w' W' /\ all_apart Q w' W' /\ unused Q w' W' P (S j) /\ beside Q w w' /\ outside W (entry_list (own P j)) /\
    waits w' = <[own P j := Wait 0 R (entry_magic (own P j)) 0]> (waits w).
Proof.
  intros HW Hall Hun Hj HP HP2 HR HRa Hpg Hq. change PG_SIZE with 4096 in *.
  assert (slot P j = P + 8 + 32 * Z.of_nat j /\ own P j = P + 12 + 32 * Z.of_nat j /\ entry_list (own P j) = P + 20 + 32 * Z.of_nat j) as (Es & Eo & El)
    by (unfold own, slot, entries, entry_list, entry_wait, sizeof_entry; lia).
  assert (slot P (S j) = slot P j + 32) as Es' by (unfold slot, sizeof_entry; lia).
  unfold unused in *. change PG_SIZE with 4096 in *. destruct (Hun (entry_list (own P j))) as [Hout Hap]; [lia|].
  set (w1 := declared w (own P j) R).
  assert (wait_queues w1 W) as HW1.
  { apply (wait_queues_change w w1 W [entry_list (own P j)] HW); [apply declared_unchanged|by intros p ->%list_elem_of_singleton|done|done|].
    intros q' es' e' Hq' He'. cbn. rewrite lookup_insert_ne; [done|]. intros <-. by apply (outside_entry W q' es' (own P j) (own P j) Hout Hq' He'). }
  destruct (join_queue w1 W (proc_list q) es (own P j) (Wait 0 R (entry_magic (own P j)) 0) HW1 Hq) as (h & E & HW2 & Hu);
    [apply lookup_insert_eq|done|exact HRa|lia|apply lookup_insert_is_Some; by left|exact Hout|].
  set (w2 := WaitQueue.set_wkern _ w1) in *. exists w2. split; [|split; [exact HW2|]].
  - unfold add_entry. unfold page_at. unfold bind at 1. cbn [sl_pages stage]. rewrite Hpg. cbn [entry next page_of].
    unfold put_page, put_entry. rewrite !modify_bind. cbn [sl_entries sl_pages set_sl_pages set_sl_entries stage].
    change (entry_wait (slot P j)) with (own P j). change sizeof_entry with 32.
    rewrite u32_small by lia. rewrite <-Es'. fold (page_of P nx (S j)). set (pg' := <[P := _]> pg). set (en' := <[slot P j := _]> en).
    change (Selsys _ _ _ _ pg' en') with (stage s w pg' en').
    run (in_waits_ok _ s w pg' en' tt _ (DECLARE_WAITQUEUE_ok (own P j) 0 w)).
    assert (init_waitqueue_entry (own P j) R (declared w (own P j) 0) = Ok (tt, w1)) as Ei.
    { unfold init_waitqueue_entry. rewrite (proj2 (Z.eqb_neq (own P j) 0)), (proj2 (Z.eqb_neq R 0)) by lia. cbn [orb].
      rewrite bind_ret. unfold wait_at. unfold bind. cbn [waits declared]. rewrite lookup_insert_eq. unfold put_wait, modify, w1, declared. cbn.
      by rewrite insert_insert_eq. }
    run (in_waits_ok _ s _ pg' en' tt _ Ei). by apply in_waits_ok.
  - assert (beside Q w w2) as Hb.
    { split; [done|]. exists h, (entry_list (own P j) :: nodes (proc_list q) es). split; [done|]. split.
      - eapply unchanged_trans; [apply (declared_unchanged (own P j) w R)|exact Hu|set_solver|done].
      - intros p [->|Hp]%list.elem_of_cons; [exact Hap|by apply (Hall _ _ p Hq)]. }
    assert (forall q1 es1 p, <[proc_list q := own P j :: es]> W !! q1 = Some es1 -> p ∈ nodes q1 es1 -> p = entry_list (own P j) \/
      exists es0, W !! q1 = Some es0 /\ p ∈ nodes q1 es0) as Hold.
    { intros q1 es1 p. rewrite lookup_insert. case_decide; [subst q1; intros [= <-] Hp|by right; exists es1].
      unfold nodes in Hp. rewrite fmap_cons, !list.elem_of_cons in Hp. destruct Hp as [->|[->|Hp]];
        [right; exists es; split; [done|by left]|by left|right; exists es; split; [done|by right]]. }
    split; [|split; [|split; [exact Hb|split; [exact Hout|done]]]].
    + intros q1 es1 p Hq1 Hp. apply (beside_apart Q w w2 p Hb). destruct (Hold q1 es1 p Hq1 Hp) as [->|(es0 & H0 & Hp0)]; [done|by eapply Hall].
    + intros p Hp. destruct (Hun p) as [Ho Ha]; [lia|]. split; [|by apply (beside_apart Q w w2)].
      intros q1 es1 Hq1 Hin. destruct (Hold q1 es1 p Hq1 Hin) as [->|(es0 & H0 & Hp0)]; [lia|by apply (Ho q1 es0)].
Qed.

(** ** All entries *)
(** The devices [l] got the entries from [j] on. *)
Record joined Q (R P nx : Z) (j : nat) (l : list (Z * Z)) w W (pg : gmap Z poll_table_page) (en : gmap Z poll_table_entry) w' W'
    (pg' : gmap Z poll_table_page) (en' : gmap Z poll_table_entry) : Prop := {
  jn_queues : wait_queues w' W';
  jn_apart : all_apart Q w' W';
  jn_beside : beside Q w w';
  jn_page : pg' !! P = Some (page_of P nx (j + length l)) /\ delete P pg' = delete P pg;
  jn_entries : forall m gq, l !! m = Some gq -> en' !! slot P (j + m) = Some (PollEntry (fst gq) (proc_list (snd gq)));
  jn_others : forall i, (i < j)%nat -> en' !! slot P i = en !! slot P i;
  jn_linked : forall m gq, l !! m = Some gq -> exists es, W' !! proc_list (snd gq) = Some es /\ own P (j + m) ∈ es;
  jn_tasks : forall m gq, l !! m = Some gq -> exists x, waits w' !! own P (j + m) = Some x /\ w_task x = R;
  jn_waits : forall i, (i < j)%nat -> waits w' !! own P i = waits w !! own P i;
  jn_grows : forall q es, W !! q = Some es -> exists es', W' !! q = Some es' /\ forall e, e ∈ es -> e ∈ es';
  jn_minus : minus (own P <$> seq j (length l)) W' = W
}.
Lemma minus_nil W : minus [] W = W.
Proof.
  unfold minus. rewrite <-(map_fmap_id W) at 2. apply map_fmap_ext. intros q es _. simpl.
  induction es as [|e es IH]; [done|]. rewrite filter_cons_True by apply not_elem_of_nil. by rewrite IH.
Qed.
Lemma minus_last l e W : minus [e] (minus l W) = minus (e :: l) W.
Proof.
  unfold minus. rewrite <-map_fmap_compose. apply map_fmap_ext. intros q es _. simpl. rewrite list_filter_filter.
  apply list_filter_iff. intros x. rewrite list_elem_of_singleton, list.elem_of_cons. tauto.
Qed.
Lemma minus_joined q e es W : W !! q = Some es -> outside W (entry_list e) -> minus [e] (<[q := e :: es]> W) = W.
Proof.
  intros Hq Ho. apply map_eq. intros q'. unfold minus. rewrite lookup_fmap, lookup_insert.
  assert (forall q1 es1, W !! q1 = Some es1 -> e ∉ es1) as Hn.
  { intros q1 es1 H1 He. apply (Ho q1 es1 H1). right. by apply list_elem_of_fmap_2. }
  case_decide as Hqq.
  - subst q'. simpl. rewrite filter_cons_False by (intros H; apply H; by left). rewrite keep_all by by eapply Hn. done.
  - destruct (W !! q') as [es'|] eqn:E; [|done]. simpl. by rewrite keep_all by by eapply Hn.
Qed.
Lemma joined_nil Q R P nx j w W pg en : wait_queues w W -> all_apart Q w W -> pg !! P = Some (page_of P nx j) ->
  joined Q R P nx j [] w W pg en w W pg en.
Proof.
  intros HW Ha Hpg. split; try done; [apply beside_refl|by rewrite Nat.add_0_r|by intros q es Hq; exists es|apply minus_nil].
Qed.
Lemma slot_inj P i j : slot P i = slot P j -> i = j.
Proof. unfold slot, sizeof_entry. lia. Qed.
Lemma own_inj P i j : own P i = own P j -> i = j.
Proof. unfold own, entry_wait, slot, sizeof_entry. lia. Qed.
Lemma joined_cons Q R P nx j g q ds w W pg en w1 es w' W' pg' en' : W !! proc_list q = Some es -> outside W (entry_list (own P j)) -> beside Q w w1 ->
  waits w1 = <[own P j := Wait 0 R (entry_magic (own P j)) 0]> (waits w) ->
  joined Q R P nx (S j) ds w1 (<[proc_list q := own P j :: es]> W) (<[P := page_of P nx (S j)]> pg) (<[slot P j := PollEntry g (proc_list q)]> en) w' W' pg' en' ->
  joined Q R P nx j ((g, q) :: ds) w W pg en w' W' pg' en'.
Proof.
  intros Hq Ho Hb Hwt [H1 H2 H3 [H4 H4'] H5 H6 H7 H10 H11 H8 H9]. split; [exact H1|exact H2|by eapply beside_trans|..].
  - split; [cbn [length]; by rewrite <-plus_n_Sm|]. by rewrite H4', delete_insert_eq.
  - intros [|m] gq Hm; cbn in Hm; [injection Hm as <-; rewrite Nat.add_0_r, H6, lookup_insert_eq by lia; done|]. rewrite <-plus_n_Sm. by apply H5.
  - intros i Hi. rewrite H6 by lia. apply lookup_insert_ne. intros E%slot_inj. lia.
  - intros [|m] gq Hm; cbn in Hm; [|rewrite <-plus_n_Sm; by apply H7]. injection Hm as <-. rewrite Nat.add_0_r.
    destruct (H8 (proc_list q) (own P j :: es)) as (es' & E & Hin); [apply lookup_insert_eq|]. exists es'. split; [exact E|]. apply Hin. by left.
  - intros [|m] gq Hm; cbn in Hm; [|rewrite <-plus_n_Sm; by apply (H10 m gq)]. rewrite Nat.add_0_r, H11, Hwt, lookup_insert_eq by lia. by eexists.
  - intros i Hi. rewrite H11, Hwt by lia. apply lookup_insert_ne. intros E%own_inj. lia.
  - intros q1 es1 Hq1. destruct (decide (q1 = proc_list q)) as [->|Hne].
    + destruct (H8 (proc_list q) (own P j :: es)) as (es' & E & Hin); [apply lookup_insert_eq|]. exists es'. split; [exact E|].
      intros e He. apply Hin. right. by simplify_eq.
    + apply H8. by rewrite lookup_insert_ne.
  - cbn [length seq fmap list_fmap]. rewrite <-minus_last, H9. by apply minus_joined.
Qed.

Lemma poll_wait_ok gkp s w pg en R P nx j g q : current (wkern w) = R -> 0 < P -> P + PG_SIZE < 2 ^ 32 -> (j < 127)%nat -> proc_list q <> 0 ->
  pg !! P = Some (page_of P nx j) ->
  poll_wait gkp g (proc_list q) true (PollTable 0 P) (stage s w pg en) =
    (add_entry g (proc_list q) R P ;;; ret (PollTable 0 P)) (stage s w pg en).
Proof.
  intros Hc HP HP2 Hj Hq Hpg. unfold poll_wait. rewrite (proj2 (Z.eqb_neq (proc_list q) 0)) by done. cbn [andb negb].
  unfold __pollwait. run (to_kern_stage running_thread s w pg en R (wkern w) ltac:(unfold running_thread, gets; by rewrite Hc)).
  replace (WaitQueue.set_wkern (wkern w) w) with w by by destruct w. cbn [table error].
  rewrite (proj2 (Z.eqb_neq P 0)) by lia. unfold page_at. rewrite bind_assoc. unfold bind at 1. cbn [sl_pages stage]. rewrite Hpg. rewrite bind_ret.
  assert (POLL_TABLE_FULL P (page_of P nx j) = false) as ->; [|done].
  unfold POLL_TABLE_FULL, page_of, slot, entries, sizeof_entry. cbn [entry]. change PG_SIZE with 4096 in *. rewrite !u32_small by lia.
  rewrite Z.gtb_ltb. apply Z.ltb_ge. lia.
Qed.
Lemma last_ready_stage s w pg en qs i r : last_ready (stage s w pg en) qs i r = last_ready s qs i r.
Proof. revert i r. induction qs as [|q qs IH]; intros i r; [done|]. apply IH. Qed.
Lemma poll_fds_watch gkp unset Q s R P nx fds gqs : 0 < P -> P + PG_SIZE < 2 ^ 32 -> R <> 0 ->
  Forall2 (fun fd gq => device s fd (fst gq) (snd gq)) fds gqs -> forall w W pg en j i r,
  current (wkern w) = R -> alive (wkern w) R -> wait_queues w W -> all_apart Q w W -> unused Q w W P j ->
  pg !! P = Some (page_of P nx j) -> (j + length gqs <= 127)%nat -> (forall gq, gq ∈ gqs -> is_Some (W !! proc_list (snd gq))) ->
  exists w' W' pg' en', poll_fds gkp unset fds i true (PollTable 0 P) r (stage s w pg en) =
      Ok ((PollTable 0 P, last_ready s (snd <$> gqs) i r), stage s w' pg' en') /\
    joined Q R P nx j (watched s gqs) w W pg en w' W' pg' en'.
Proof.
  intros HP HP2 HR. induction 1 as [|fd [g q] fds gqs Hd Hds IH]; intros w W pg en j i r Hc HRa HW Hall Hun Hpg Hj HWq.
  { exists w, W, pg, en. split; [done|by apply joined_nil]. }
  cbn [poll_fds fmap list_fmap last_ready fst snd length watched] in *.
  destruct (HWq (g, q)) as [es Hes]; [by left|]. cbn [snd] in Hes.
  destruct (add_entry_ok Q s w pg en W g q es R P nx j HW Hall Hun ltac:(lia) HP HP2 HR HRa Hpg Hes) as (w1 & E1 & HW1 & Hall1 & Hun1 & Hb1 & Ho1 & Hwt1).
  set (W1 := <[proc_list q := own P j :: es]> W) in *. set (pg1 := <[P := page_of P nx (S j)]> pg) in *. set (en1 := <[slot P j := PollEntry g (proc_list q)]> en) in *.
  assert (sys_poll gkp unset g true (PollTable 0 P) (stage s w pg en) =
    Ok ((if has_data s q then Z.lor POLLIN POLLRDNORM else 0, PollTable 0 P), stage s w1 pg1 en1)) as Ep.
  { rewrite (sys_poll_ring unset gkp (stage s w pg en) fd g q) by exact Hd. unfold poll_ring.
    rewrite (bind_ok _ _ _ (PollTable 0 P) (stage s w1 pg1 en1)); [exact (poll_ring_end (stage s w1 pg1 en1) q (PollTable 0 P) (proj1 (proj2 (proj2 Hd))))|].
    rewrite (poll_wait_ok gkp s w pg en R P nx j g q) by (done || lia || apply Hd). by run E1. }
  run (look_up_ok _ (stage s w pg en) _ (proj1 Hd)). run Ep.
  destruct Hb1 as [Hh1 (h1 & ps1 & K1 & U1 & A1)]. assert (current (wkern w1) = R) as Hc1 by by rewrite K1.
  assert (beside Q w w1) as Hb1 by (split; [done|]; by exists h1, ps1).
  destruct (has_data s q) eqn:Eh.
  - change (Z.land (Z.lor POLLIN POLLRDNORM) POLLIN_SET =? 0) with false. cbn [negb].
    exists w1, W1, pg1, en1. split; [rewrite <-(last_ready_stage s w1 pg1 en1); exact (poll_fds_look gkp unset (stage s w1 pg1 en1) _ fds gqs Hds (i + 1) i)|].
    eapply joined_cons; [exact Hes|exact Ho1|exact Hb1|exact Hwt1|]. apply joined_nil; [exact HW1|exact Hall1|apply lookup_insert_eq].
  - change (negb (Z.land 0 POLLIN_SET =? 0)) with false. cbn iota.
    destruct (IH w1 W1 pg1 en1 (S j) (i + 1) r Hc1) as (w' & W' & pg' & en' & E & HJ); [by rewrite K1|exact HW1|exact Hall1|exact Hun1|apply lookup_insert_eq|lia| |].
    { intros gq Hin. unfold W1. rewrite lookup_insert. case_decide; [by eexists|]. apply HWq. by right. }
    exists w', W', pg', en'. split; [exact E|]. by eapply joined_cons.
Qed.

(** The first entry of a call is in a new page. *)
Lemma slot_0 P : slot P 0 = entries P.
Proof. unfold slot. lia. Qed.
Lemma poll_wait_first gkp s w pg en R P g q : current (wkern w) = R -> 0 < P -> P + PG_SIZE < 2 ^ 32 -> proc_list q <> 0 ->
  gkp (stage s w pg en) = P ->
  poll_wait gkp g (proc_list q) true (PollTable 0 0) (stage s w pg en) =
    poll_wait gkp g (proc_list q) true (PollTable 0 P) (stage s w (<[P := page_of P 0 0]> pg) en).
Proof.
  intros Hc HP HP2 Hq Hg. rewrite (poll_wait_ok gkp s w _ en R P 0 0 g q) by (done || lia || apply lookup_insert_eq).
  unfold poll_wait. rewrite (proj2 (Z.eqb_neq (proc_list q) 0)) by done. cbn [andb negb].
  unfold __pollwait. run (to_kern_stage running_thread s w pg en R (wkern w) ltac:(unfold running_thread, gets; by rewrite Hc)).
  replace (WaitQueue.set_wkern (wkern w) w) with w by by destruct w. cbn [table error]. change (0 =? 0) with true. cbn iota.
  rewrite bind_ret, gets_bind, Hg. rewrite (proj2 (Z.eqb_neq P 0)) by lia. unfold put_page. rewrite modify_bind.
  unfold page_of. rewrite slot_0. done.
Qed.
Lemma poll_fds_first gkp unset s w pg en R P fd g q fds i r : current (wkern w) = R -> 0 < P -> P + PG_SIZE < 2 ^ 32 ->
  device s fd g q -> gkp (stage s w pg en) = P ->
  poll_fds gkp unset (fd :: fds) i true (PollTable 0 0) r (stage s w pg en) =
    poll_fds gkp unset (fd :: fds) i true (PollTable 0 P) r (stage s w (<[P := page_of P 0 0]> pg) en).
Proof.
  intros Hc HP HP2 Hd Hg.
  assert (forall (p : poll_table) pg', poll_fds gkp unset (fd :: fds) i true p r (stage s w pg' en) =
    (x <- poll_ring gkp q g true p ;;
     let '(mask, p) := x in
     if negb (Z.land mask POLLIN_SET =? 0) then poll_fds gkp unset fds (i + 1) false p i
     else poll_fds gkp unset fds (i + 1) true p r) (stage s w pg' en)) as E.
  { intros p pg'. cbn [poll_fds]. run (look_up_ok (get_file fd) (stage s w pg' en) g (proj1 Hd)).
    unfold bind at 1. rewrite (sys_poll_ring unset gkp _ fd g q) by exact Hd. done. }
  rewrite !E. unfold poll_ring. rewrite !bind_assoc. unfold bind at 1. symmetry. unfold bind at 1.
  rewrite (poll_wait_first gkp s w pg en R P g q) by (done || apply Hd). done.
Qed.

(** ** Taking the entries out *)
Lemma minus_ext l l' W : (forall e, e ∈ l <-> e ∈ l') -> minus l W = minus l' W.
Proof.
  intros H. unfold minus. apply map_fmap_ext. intros q es _. apply list_filter_iff. intros e. by rewrite H.
Qed.
(** The first [k] entries of the page [P] are in the queues that the page says. *)
Definition linked_in W (en : gmap Z poll_table_entry) (P : Z) (k : nat) : Prop :=
  forall m, (m < k)%nat -> exists f q es, en !! slot P m = Some (PollEntry f q) /\ W !! q = Some es /\ own P m ∈ es.
Lemma free_entries_ok s pg en P k : forall n w W, 0 < P -> P + PG_SIZE < 2 ^ 32 -> (k < 127)%nat -> (k < n)%nat ->
  wait_queues w W -> linked_in W en P (S k) ->
  exists h, let w' := WaitQueue.set_wkern (set_klists h (wkern w)) w in
    free_entries n P (slot P (S k)) (stage s w pg en) = Ok (tt, stage s w' pg en) /\
    wait_queues w' (minus (own P <$> seq 0 (S k)) W).
Proof.
  induction k as [|k IH]; intros n w W HP HP2 Hk Hn HW Hl; destruct n as [|n]; try lia; cbn [free_entries].
  all: assert (slot P 0 = P + 8 /\ forall j, slot P (S j) = slot P j + 32 /\ slot P j = P + 8 + 32 * Z.of_nat j) as [E0 Es] by (unfold slot, entries, sizeof_entry; split; [lia|]; intros j; lia).
  all: change PG_SIZE with 4096 in *; change sizeof_entry with 32.
  - destruct (Hl 0%nat) as (f & q & es & He & Hq & Hin); [lia|]. destruct (Es 0%nat) as [-> _]. rewrite E0, u32_small by lia.
    destruct (leave_queue w W q es (own P 0) HW Hq Hin) as (h & E & HW' & _). exists h.
    replace (P + 8 + 32 - 32) with (slot P 0) by lia. split; [|exact HW'].
    unfold entry_at. unfold bind at 1. cbn [sl_entries stage]. rewrite He. cbn [wait_address].
    change (entry_wait (slot P 0)) with (own P 0). run (in_waits_ok _ s w pg en tt _ E).
    rewrite slot_0, Z.gtb_ltb, Z.ltb_irrefl. done.
  - destruct (Hl (S k)) as (f & q & es & He & Hq & Hin); [lia|]. destruct (Es (S k)) as [-> Esk].
    replace (u32 (slot P (S k) + 32 - 32)) with (slot P (S k)) by (rewrite u32_small; lia).
    destruct (leave_queue w W q es (own P (S k)) HW Hq Hin) as (h & E & HW' & _). set (w1 := WaitQueue.set_wkern _ w) in *.
    destruct (IH n w1 (minus [own P (S k)] W)) as (h2 & E2 & HW2); [done|done|lia|lia|exact HW'| |].
    { intros m Hm. destruct (Hl m) as (f' & q' & es' & He' & Hq' & Hin'); [lia|]. eexists f', q', _. split; [exact He'|]. split; [by apply minus_in|].
      apply list_elem_of_filter. split; [|exact Hin']. intros Ei%list_elem_of_singleton%own_inj. lia. }
    exists h2. cbv zeta. split.
    + unfold entry_at. unfold bind at 1. cbn [sl_entries stage]. rewrite He. cbn [wait_address].
      change (entry_wait (slot P (S k))) with (own P (S k)). run (in_waits_ok _ s w pg en tt _ E).
      assert (slot P (S k) >? entries P = true) as -> by (rewrite Z.gtb_ltb; apply Z.ltb_lt; unfold entries; lia).
      exact E2.
    + rewrite minus_more in HW2. rewrite (minus_ext _ (own P (S k) :: (own P <$> seq 0 (S k)))); [exact HW2|].
      intros e. rewrite (seq_S (S k) 0), fmap_app. cbn [Nat.add fmap list_fmap]. rewrite list.elem_of_app, list_elem_of_singleton, list.elem_of_cons. tauto.
Qed.
Lemma poll_freewait_ok s w pg en P k n W : 0 < P -> P + PG_SIZE < 2 ^ 32 -> (k < 127)%nat -> (1 < n)%nat ->
  wait_queues w W -> linked_in W en P (S k) -> pg !! P = Some (page_of P 0 (S k)) ->
  exists h, let w' := WaitQueue.set_wkern (set_klists h (wkern w)) w in
    poll_freewait n P (stage s w pg en) = Ok (tt, stage s w' (delete P pg) en) /\
    wait_queues w' (minus (own P <$> seq 0 (S k)) W).
Proof.
  intros HP HP2 Hk Hn HW Hl Hpg. destruct n as [|[|n]]; try lia.
  destruct (free_entries_ok s pg en P k 128 w W HP HP2 Hk ltac:(lia) HW Hl) as (h & E & HW'). exists h. split; [|exact HW'].
  cbn [poll_freewait]. rewrite (proj2 (Z.eqb_neq P 0)) by lia. unfold page_at. unfold bind at 1. cbn [sl_pages stage]. rewrite Hpg.
  cbn [entry next page_of]. run E. rewrite modify_bind. done.
Qed.
End polling.

(** ** Sleeping *)
(** What is left of the time at which the timer was set to go off. *)
Definition time_left {X : Machine} (expire : Z) (t : selsys) : Z :=
  let d := s32 (expire - jiffies (kernel t)) in if d <? 0 then 0 else d.

Section sleeping.
Context {X : Machine} {G : Globals}.
Implicit Types (s t : selsys) (w : wq) (W : gmap Z (list Z)) (k : kern).
Variables (process_timeout timer : Z) (fuel : nat).

Lemma stage_self s : stage s (hwq (sl_hid s)) (sl_pages s) (sl_entries s) = s.
Proof. by destruct s as [[] ? ? ? ?]. Qed.
Lemma in_wheel_ok {A} (c : M wheel A) s a wh : c (Timer.set_ticks (jiffies (kernel s)) (sl_wheel s)) = Ok (a, wh) ->
  in_wheel c s = Ok (a, set_sl_wheel wh s).
Proof. intros E. unfold in_wheel, zoom. cbn beta. change (wkern (hwq (sl_hid s))) with (kernel s). by rewrite E. Qed.
Lemma add_timer_arms wh x : timers wh !! timer = Some x -> linked x = false ->
  exists wh', add_timer timer wh = Ok (tt, wh') /\ timers wh' !! timer = Some (set_linked true x).
Proof.
  intros Hx Hl. unfold add_timer, timer_pending. rewrite bind_assoc, (get_timer_bind wh timer x) by done. rewrite bind_ret, Hl.
  unfold internal_add_timer. rewrite (get_timer_bind wh timer x) by done. rewrite gets_bind. destruct (running wh) as [q|].
  - rewrite modify_bind. rewrite (upd_timer_ok _ timer x) by done. eexists. split; [reflexivity|apply lookup_insert_eq].
  - rewrite bind_assoc. unfold bind at 1, get. destruct (choose_vec wh (expires x)) as [n i]. unfold put. unfold bind at 1.
    rewrite (upd_timer_ok _ timer x) by done. eexists. split; [reflexivity|apply lookup_insert_eq].
Qed.
Lemma del_timer_now wh x : timers wh !! timer = Some x -> exists r wh', del_timer timer wh = Ok (r, wh').
Proof.
  intros Hx. unfold del_timer, detach_timer, timer_pending. rewrite !bind_assoc, (get_timer_bind wh timer x) by done. rewrite bind_ret.
  destruct (linked x); cbn [negb].
  - unfold list_del_timer. rewrite !bind_assoc, modify_bind. run (upd_timer_ok (unlink timer wh) timer x (set_linked false) Hx). rewrite bind_ret.
    set (wh1 := Timer.set_timer _ _ _). run (upd_timer_ok wh1 timer (set_linked false x) (set_linked false) (lookup_insert_eq _ _ _)). by eexists _, _.
  - rewrite bind_ret. run (upd_timer_ok wh timer x (set_linked false) Hx). by eexists _, _.
Qed.

(** The rest of [schedule_timeout] when the thread runs again. *)
Definition woken_up (expire : Z) : T selsys Z :=
  tbind (done tt) (fun _ => tbind (atom (in_wheel (del_timer timer))) (fun _ => tbind (on_kern (gets jiffies)) (fun ticks =>
    done (if s32 (expire - ticks) <? 0 then 0 else s32 (expire - ticks))))).
Lemma woken_up_ok expire t : is_Some (timers (sl_wheel t) !! timer) ->
  exists wh, woken_up expire t = Ok (Done (time_left expire t), set_sl_wheel wh t).
Proof.
  intros [x Hx]. destruct (del_timer_now (Timer.set_ticks (jiffies (kernel t)) (sl_wheel t)) x Hx) as (r & wh & E). exists wh.
  unfold woken_up. rewrite (ends_bind (done tt) _ t tt t) by done. rewrite (ends_step _ _ t _ _ (in_wheel_ok _ t _ _ E)).
  unfold on_kern. rewrite (ends_step _ _ _ (jiffies (kernel t)) (set_sl_wheel wh t)); [done|]. unfold to_kern, zoom, gets. cbn. by destruct t as [[[]] ? ? ? ?].
Qed.
Lemma schedule_timeout_pauses s k' timeout : schedule fuel (kernel s) = Ok (tt, k') -> 0 <= timeout < MAX_SCHEDULE_TIMEOUT ->
  let expire := u32 (timeout + jiffies (kernel s)) in
  exists wh, pauses (schedule_timeout process_timeout fuel timer timeout) s (woken_up expire) (set_kernel k' (set_sl_wheel wh s)) /\
    timers wh !! timer = Some (Timer expire (current (kernel s)) process_timeout true).
Proof.
  intros Es Ht expire. set (x := Timer expire (current (kernel s)) process_timeout false).
  set (wh1 := Timer.set_timer timer x (Timer.set_ticks (jiffies (kernel s)) (sl_wheel s))).
  destruct (add_timer_arms (Timer.set_ticks (jiffies (kernel s)) wh1) x) as (wh & Ea & Hx); [apply lookup_insert_eq|done|].
  exists wh. split; [|exact Hx]. assert (set_kernel (kernel s) s = s) as Ek by apply set_kernel_get.
  unfold schedule_timeout. eapply pauses_step; [apply to_kern_ok; reflexivity|]. rewrite Ek. cbv zeta.
  rewrite (proj2 (Z.eqb_neq timeout MAX_SCHEDULE_TIMEOUT)), (proj2 (Z.ltb_ge timeout 0)) by lia.
  eapply pauses_step; [apply to_kern_ok; reflexivity|]. rewrite Ek. fold expire.
  eapply (pauses_step _ _ s tt (set_sl_wheel wh1 s)); [by apply in_wheel_ok|].
  eapply (pauses_step _ _ _ tt (set_sl_wheel wh s)); [by apply (in_wheel_ok _ (set_sl_wheel wh1 s))|].
  eapply (pauses_step _ _ _ tt (set_kernel k' (set_sl_wheel wh s))); [by apply (to_kern_ok (schedule fuel) (set_sl_wheel wh s))|].
  apply pauses_bind, pauses_pause.
Qed.
End sleeping.

(** ** Rounds *)
Section rounds.
Context {X : Machine} {G : Globals}.
Implicit Types (s t u : selsys) (w : wq) (W : gmap Z (list Z)) (k : kern) (b : TCB) (p : poll_table).
Variables (gkp : selsys -> Z) (unset process_timeout : Z) (fuel rounds : nat).
Variables (R P timer : Z) (fds : list Z) (gqs : list (Z * Z)).

(** The thread looks at the devices: it says before that it is waiting. *)
Definition looking b k : kern := set_tasks (<[R := set_status THREAD_TASK_WAITING b]> (tasks k)) (set_intr false k).
Definition look b t : selsys := set_kernel (looking b (kernel t)) t.
Notation loop := (wait_loop gkp unset process_timeout fuel).

Lemma begin_round {A} t b (f : bool -> T selsys A) : tasks (kernel t) !! R = Some b ->
  forall s' m, (pauses (f (intr (kernel t))) (look b t) m s' ->
    pauses (tbind (on_kern intr_disable) (fun old => tbind (on_kern (upd_tcb R (set_status THREAD_TASK_WAITING))) (fun _ => f old))) t m s') /\
  tbind (on_kern intr_disable) (fun old => tbind (on_kern (upd_tcb R (set_status THREAD_TASK_WAITING))) (fun _ => f old)) t = f (intr (kernel t)) (look b t).
Proof.
  intros Hb s' m. set (t1 := set_kernel (set_intr false (kernel t)) t).
  assert (to_kern intr_disable t = Ok (intr (kernel t), t1)) as E1 by apply to_kern_ok, intr_disable_ok.
  assert (to_kern (upd_tcb R (set_status THREAD_TASK_WAITING)) t1 = Ok (tt, look b t)) as E2.
  { assert (tasks (kernel t1) !! R = Some b) as Hb1 by (unfold t1; rewrite kernel_set; exact Hb).
    rewrite (to_kern_ok _ t1 _ _ (upd_tcb_ok (kernel t1) R b _ Hb1)). unfold t1. rewrite kernel_set, set_kernel_twice. done. }
  split.
  - intros H. eapply pauses_step; [exact E1|]. eapply pauses_step; [exact E2|exact H].
  - unfold on_kern. rewrite (ends_step _ _ t _ _ E1). by rewrite (ends_step _ _ t1 _ _ E2).
Qed.
Lemma round_ends n wait p timeout t b p' r t2 : tasks (kernel t) !! R = Some b ->
  poll_fds gkp unset fds 0 wait p (-1) (look b t) = Ok ((p', r), t2) -> r <> -1 \/ timeout = 0 ->
  loop (S n) R timer fds wait p timeout t = Ok (Done (p', r, timeout), t2).
Proof.
  intros Hb Ep Hr. cbn [wait_loop]. rewrite (proj2 (begin_round t b _ Hb t (done (p', r, timeout)))).
  rewrite (ends_step _ _ _ _ _ Ep). assert (negb (r =? -1) || (timeout =? 0) = true) as ->; [|done].
  destruct (Z.eqb_spec r (-1)), (Z.eqb_spec timeout 0); cbn; lia || done.
Qed.
Lemma round_sleeps n wait p timeout t b p' t2 m t3 : tasks (kernel t) !! R = Some b ->
  poll_fds gkp unset fds 0 wait p (-1) (look b t) = Ok ((p', -1), t2) -> timeout <> 0 -> error p' = 0 ->
  pauses (schedule_timeout process_timeout fuel timer timeout) t2 m t3 ->
  pauses (loop (S n) R timer fds wait p timeout) t
    (tbind m (fun left => tbind (on_kern (intr_set_status (intr (kernel t)))) (fun _ => loop n R timer fds false p' left))) t3.
Proof.
  intros Hb Ep Ht He Hm. cbn [wait_loop]. apply (begin_round t b _ Hb). eapply pauses_step; [exact Ep|].
  change (-1 =? -1) with true. cbn [negb orb]. rewrite (proj2 (Z.eqb_neq timeout 0)), He by done. cbn [orb]. change (negb (0 =? 0)) with false. cbn iota.
  by apply pauses_bind.
Qed.

(** What is left of the call while the thread sleeps, with [n] rounds to go. *)
Definition finish (r : poll_table * Z * Z) : T selsys Z :=
  let '(p, retval, timeout) := r in
  tbind (on_kern (upd_tcb R (set_status THREAD_TASK_RUNNING))) (fun _ => tbind (on_kern intr_disable) (fun old_status =>
    tbind (atom (poll_freewait rounds (table p))) (fun _ => tbind (on_kern (intr_set_status old_status)) (fun _ => done retval)))).
Definition rest_of_call (n : nat) (old : bool) (expire : Z) : T selsys Z :=
  tbind (tbind (tbind (woken_up timer expire) (fun left => tbind (on_kern (intr_set_status old)) (fun _ => loop n R timer fds false (PollTable 0 P) left)))
    finish) (fun res => done (u32 res)).

(** Each device has one entry of the thread: the page says for which file and
    which queue it is, it is in the queue of this device, and it wakes this
    thread. *)
Definition queued t W : Prop := forall m gq, gqs !! m = Some gq ->
  sl_entries t !! slot P m = Some (PollEntry (fst gq) (proc_list (snd gq))) /\
  (exists es, W !! proc_list (snd gq) = Some es /\ own P m ∈ es) /\
  (exists x, waits (hwq (sl_hid t)) !! own P m = Some x /\ w_task x = R).
(** The thread runs again: its table is as it left it, its entries are in the
    queues of the devices, whose other entries may be others, and its timer is
    there. *)
Record nap t W b : Prop := {
  np_current : current (kernel t) = R /\ tasks (kernel t) !! R = Some b;
  np_devices : Forall2 (fun fd gq => device t fd (fst gq) (snd gq)) fds gqs;
  np_queues : wait_queues (hwq (sl_hid t)) W;
  np_queued : queued t W;
  np_page : sl_pages t !! P = Some (page_of P 0 (length gqs));
  np_timer : is_Some (timers (sl_wheel t) !! timer)
}.
(** The call is over: no entry and no page of it is left, the devices are as
    they were, the thread is running, and interrupts are off. *)
Record finished t t' W b : Prop := {
  fi_queues : wait_queues (hwq (sl_hid t')) (minus (own P <$> seq 0 (length gqs)) W);
  fi_pages : sl_pages t' = delete P (sl_pages t);
  fi_devices : rings (sl_hid t') = rings (sl_hid t) /\ sl_files t' = sl_files t;
  fi_tasks : tasks (kernel t') = <[R := set_status THREAD_TASK_RUNNING b]> (tasks (kernel t));
  fi_current : current (kernel t') = R /\ intr (kernel t') = false
}.
(** Another thread is ready to run. *)
Record may_sleep k Q (next : Z) (rest : list Z) : Prop := {
  ms_queues : queues (klists k) (alive k) Q;
  ms_ready : rl Q (next :: rest);
  ms_unlinked : unlinked k Q R;
  ms_fuel : (S (length rest) < fuel)%nat;
  ms_alive : forall v, alive k v -> v <> 0
}.
(** The thread has gone to sleep with its entries in the queues of the
    devices, and [next] runs. *)
Record asleep t t1 W (next : Z) b : Prop := {
  as_current : current (kernel t1) = next /\ next <> R;
  as_waiting : tasks (kernel t1) !! R = Some (set_status THREAD_TASK_WAITING b);
  as_queues : wait_queues (hwq (sl_hid t1)) W;
  as_queued : queued t1 W;
  as_page : sl_pages t1 !! P = Some (page_of P 0 (length gqs));
  as_devices : Forall2 (fun fd gq => device t1 fd (fst gq) (snd gq)) fds gqs;
  as_data : rings (sl_hid t1) = rings (sl_hid t) /\ sl_files t1 = sl_files t
}.
(** The timer of the sleeping thread is set. *)
Definition armed t1 (expire : Z) : Prop := timers (sl_wheel t1) !! timer = Some (Timer expire R process_timeout true).

(** The call [m], paused, does this the next [n] times that its thread runs:
    it returns when a device has data or the time is over, and sleeps on
    otherwise. *)
Fixpoint goes_on (n : nat) (expire : Z) (m : T selsys Z) : Prop :=
  match n with
  | O => True
  | S n => forall t W b, nap t W b ->
      let r := last_ready t (snd <$> gqs) 0 (-1) in
      (r <> -1 \/ time_left expire t = 0 -> exists t', m t = Ok (Done (u32 r), t') /\ finished t t' W b) /\
      (r = -1 -> 0 < time_left expire t < MAX_SCHEDULE_TIMEOUT -> forall Q next rest, may_sleep (kernel t) Q next rest -> all_apart Q (hwq (sl_hid t)) W ->
        exists m' t1, pauses m t m' t1 /\ asleep t t1 W next b /\ armed t1 expire /\ goes_on n expire m')
  end.

(** ** What a round needs *)
Lemma tbind_eq {A B} (m m' : T selsys A) (f : A -> T selsys B) s s' : m s = m' s' -> tbind m f s = tbind m' f s'.
Proof. intros E. unfold tbind, bind. by rewrite E. Qed.
Lemma device_same s s' fd g q : sl_files s' = sl_files s -> rings (sl_hid s') = rings (sl_hid s) ->
  (kbd_queue (sl_hid s'), mouse_queue (sl_hid s'), aux_queue (sl_hid s')) = (kbd_queue (sl_hid s), mouse_queue (sl_hid s), aux_queue (sl_hid s)) ->
  device s fd g q -> device s' fd g q.
Proof. intros E1 E2 [= E3 E4 E5]. unfold device. by rewrite E1, E2, E3, E4, E5. Qed.
Lemma last_ready_same s s' qs i r : rings (sl_hid s') = rings (sl_hid s) -> last_ready s' qs i r = last_ready s qs i r.
Proof. intros E. revert i r. induction qs as [|q qs IH]; intros i r; [done|]. cbn [last_ready]. unfold has_data at 1. rewrite E. apply IH. Qed.
Lemma wait_queues_kern w k' W : wait_queues w W -> klists k' = klists (wkern w) -> (forall v, alive (wkern w) v -> alive k' v) ->
  wait_queues (WaitQueue.set_wkern k' w) W.
Proof.
  intros HW Ek Ha. apply (wait_queues_change w _ W [] HW); [|intros p Hp; by apply not_elem_of_nil in Hp|done|exact Ha|done].
  cbn [wkern WaitQueue.set_wkern]. rewrite Ek. done.
Qed.
Lemma alive_looking b b0 k v : tasks k !! R = Some b0 -> alive (looking b k) v <-> alive k v.
Proof. intros Hb. apply (alive_insert (set_intr false k)). by eexists. Qed.

Lemma queued_linked t W : queued t W -> linked_in W (sl_entries t) P (length gqs).
Proof.
  intros H m Hm. destruct (lookup_lt_is_Some_2 gqs m Hm) as [gq Hgq]. destruct (H m gq Hgq) as (E & (es & Ee & Hin) & _).
  by exists (fst gq), (proc_list (snd gq)), es.
Qed.
(** What a sleeping thread keeps of the devices and of its entries. *)
Definition same_devices t t' : Prop :=
  rings (sl_hid t') = rings (sl_hid t) /\ sl_files t' = sl_files t /\ sl_entries t' = sl_entries t /\
  waits (hwq (sl_hid t')) = waits (hwq (sl_hid t)) /\
  (kbd_queue (sl_hid t'), mouse_queue (sl_hid t'), aux_queue (sl_hid t')) = (kbd_queue (sl_hid t), mouse_queue (sl_hid t), aux_queue (sl_hid t)).
Lemma queued_same t t' W : same_devices t t' -> queued t W -> queued t' W.
Proof. intros (_ & _ & E1 & E2 & _) H m gq Hm. rewrite E1, E2. by apply H. Qed.
Lemma devices_same t t' : same_devices t t' -> Forall2 (fun fd gq => device t fd (fst gq) (snd gq)) fds gqs ->
  Forall2 (fun fd gq => device t' fd (fst gq) (snd gq)) fds gqs.
Proof. intros (E1 & E2 & _ & _ & E3) H. eapply Forall2_impl; [|exact H]. intros fd gq. by apply device_same. Qed.

(** The end of the call. *)
Lemma finish_ok u W b r left (c : nat) : (1 < rounds)%nat -> (0 < c <= 127)%nat -> 0 < P -> P + PG_SIZE < 2 ^ 32 ->
  tasks (kernel u) !! R = Some b -> wait_queues (hwq (sl_hid u)) W -> linked_in W (sl_entries u) P c ->
  sl_pages u !! P = Some (page_of P 0 c) ->
  exists h, let k' := set_klists h (set_tasks (<[R := set_status THREAD_TASK_RUNNING b]> (tasks (kernel u))) (kernel u)) in
    let u' := set_kernel k' (set_sl_pages (delete P (sl_pages u)) u) in
    finish (PollTable 0 P, r, left) u = Ok (Done r, u') /\ wait_queues (hwq (sl_hid u')) (minus (own P <$> seq 0 c) W).
Proof.
  intros Hrounds Hlen HP HP2 Hb HW Hl Hpg. destruct c as [|l]; [lia|].
  set (k1 := set_tasks (<[R := set_status THREAD_TASK_RUNNING b]> (tasks (kernel u))) (kernel u)).
  set (w2 := WaitQueue.set_wkern (set_intr false k1) (hwq (sl_hid u))).
  assert (wait_queues w2 W) as HW2.
  { apply wait_queues_kern; [exact HW|done|]. intros v Hv. apply (alive_insert (kernel u) R); [by eexists|exact Hv]. }
  destruct (poll_freewait_ok u w2 (sl_pages u) (sl_entries u) P l rounds W HP HP2 ltac:(lia) Hrounds HW2 Hl Hpg) as (h & Ef & HW3).
  exists h. split; [|].
  - unfold finish. unfold on_kern. rewrite (ends_step _ _ u tt (set_kernel k1 u)).
    2:{ apply to_kern_ok. by apply upd_tcb_ok. }
    rewrite (ends_step _ _ (set_kernel k1 u) (intr k1) (stage u w2 (sl_pages u) (sl_entries u))).
    2:{ rewrite (to_kern_ok _ _ _ _ (intr_disable_ok _)). rewrite kernel_set, set_kernel_twice. done. }
    cbn [table]. rewrite (ends_step _ _ _ _ _ Ef). set (u3 := stage u _ _ _).
    rewrite (ends_step _ _ u3 _ _ (to_kern_ok _ u3 _ _ (intr_set_status_ok (intr k1) (kernel u3)))).
    reflexivity.
  - apply (wait_queues_kern _ (set_klists h k1) _ HW3); [done|]. intros v Hv. exact Hv.
Qed.

(** The thread gives the processor to the next one. *)
Lemma sleeps k Q next rest b : may_sleep k Q next rest -> current k = R -> tasks k !! R = Some b ->
  exists k', schedule fuel (looking b k) = Ok (tt, k') /\ current k' = next /\ next <> R /\
    tasks k' !! R = Some (set_status THREAD_TASK_WAITING b) /\ (forall v, alive k v -> alive k' v) /\
    unchanged_except (thread_ready_list :: (general_tag <$> next :: rest)) (klists k) (klists k') /\
    forall v, v ∈ next :: rest -> alive k v.
Proof.
  intros [HQ Hrl [Hro Hrd] Hf H0] Hc Hb. set (k1 := looking b k).
  assert (queues (klists k1) (alive k1) Q) as HQ1 by (eapply queues_ext; [|exact HQ]; intros v; symmetry; by eapply alive_looking).
  destruct (schedule_blocked_ok fuel k1 Q (next :: rest) (set_status THREAD_TASK_WAITING b) HQ1 Hrl) as (k' & E & Hsw).
  { cbn [current k1 looking set_tasks set_intr]. rewrite Hc. apply lookup_insert_eq. }
  { done. }
  { exact Hf. }
  { intros v Hv. apply H0. by eapply alive_looking. }
  destruct Hsw as [(n & Hn & Ht & _) Hcur _ _ _ _ _ _ _ Hfr].
  assert (next <> R) as Hne by (intros ->; apply (Hro _ _ Hrl); by left).
  exists k'. split; [exact E|]. split; [exact Hcur|]. split; [exact Hne|]. split; [|split; [|split; [exact Hfr|]]].
  - rewrite Ht, lookup_insert_ne by done. apply lookup_insert_eq.
  - intros v Hv. apply (alive_looking b b) in Hv; [|exact Hb]. unfold alive. rewrite Ht, lookup_insert. case_decide; [by eexists|exact Hv].
  - intros v Hv. by eapply (q_in _ _ _ HQ).
Qed.
Lemma still_apart Q w W ps : all_apart Q w W -> rl Q ps -> (forall v, v ∈ ps -> alive (wkern w) v) ->
  forall a, a ∈ thread_ready_list :: (general_tag <$> ps) -> outside W a.
Proof.
  intros Ha Hrl Hal a Hp q es Hq Hin. by apply (apart_not_threads (wkern w) Q ps a ps Hrl (Ha q es a Hq Hin) Hal).
Qed.

(** The thread runs again: its timer is stopped, and the next round begins. *)
Lemma wakes_up n old expire t : is_Some (timers (sl_wheel t) !! timer) ->
  exists wh, let t' := set_kernel (set_intr old (kernel t)) (set_sl_wheel wh t) in
    rest_of_call n old expire t = tbind (tbind (loop n R timer fds false (PollTable 0 P) (time_left expire t)) finish) (fun res => done (u32 res)) t'.
Proof.
  intros Ht. destruct (woken_up_ok timer expire t Ht) as [wh E]. exists wh.
  unfold rest_of_call. apply tbind_eq, tbind_eq. rewrite (ends_bind _ _ t _ _ E). unfold on_kern.
  rewrite (ends_step _ _ _ _ _ (to_kern_ok _ (set_sl_wheel wh t) _ _ (intr_set_status_ok old _))). done.
Qed.
Lemma expire_again expire j : 0 <= expire < 2 ^ 32 -> 0 < (let d := s32 (expire - j) in if d <? 0 then 0 else d) ->
  u32 ((let d := s32 (expire - j) in if d <? 0 then 0 else d) + j) = expire.
Proof.
  intros He. cbv zeta. destruct (s32 (expire - j) <? 0) eqn:E0; [lia|]. intros _.
  pose proof (u32_s32 (expire - j)) as E. unfold u32 in *. rewrite <-Zplus_mod_idemp_l, E, Zplus_mod_idemp_l.
  replace (expire - j + j) with expire by lia. by apply Z.mod_small.
Qed.

Lemma sleep_ok t2 k W Q next rest b timeout : kernel t2 = looking b k -> may_sleep k Q next rest -> current k = R -> tasks k !! R = Some b ->
  all_apart Q (hwq (sl_hid t2)) W -> wait_queues (hwq (sl_hid t2)) W -> 0 <= timeout < MAX_SCHEDULE_TIMEOUT ->
  let expire := u32 (timeout + jiffies k) in
  exists t3, pauses (schedule_timeout process_timeout fuel timer timeout) t2 (woken_up timer expire) t3 /\
    current (kernel t3) = next /\ next <> R /\ tasks (kernel t3) !! R = Some (set_status THREAD_TASK_WAITING b) /\
    wait_queues (hwq (sl_hid t3)) W /\ sl_pages t3 = sl_pages t2 /\ same_devices t2 t3 /\ armed t3 expire.
Proof.
  intros Ek Hms Hc Hb Ha HW Ht expire. destruct (sleeps k Q next rest b Hms Hc Hb) as (k' & Es & Hcur & Hne & Hw & Hal & Hfr & Hus).
  rewrite <-Ek in Es. destruct (schedule_timeout_pauses process_timeout timer fuel t2 k' timeout Es Ht) as (wh & Hp & Hx).
  rewrite Ek in Hp, Hx. change (jiffies (looking b k)) with (jiffies k) in *. change (current (looking b k)) with (current k) in Hx. rewrite Hc in Hx.
  exists (set_kernel k' (set_sl_wheel wh t2)). split; [exact Hp|]. split; [exact Hcur|]. split; [exact Hne|]. split; [exact Hw|].
  split; [|split; [done|split; [done|exact Hx]]].
  assert (wkern (hwq (sl_hid t2)) = looking b k) as Ek' by exact Ek.
  apply (wait_queues_change (hwq (sl_hid t2)) _ W (thread_ready_list :: (general_tag <$> next :: rest)) HW); [rewrite Ek'; exact Hfr| |done| |done].
  - apply (still_apart Q (hwq (sl_hid t2)) W (next :: rest) Ha); [apply Hms|]. intros v Hv. rewrite Ek'. eapply alive_looking; [exact Hb|by apply Hus].
  - intros v Hv. apply Hal. rewrite Ek' in Hv. by eapply alive_looking.
Qed.
Lemma pauses_eq {A} (m m' r : T selsys A) s s' s1 : m s = m' s' -> pauses m' s' r s1 -> pauses m s r s1.
Proof. intros E (k & Ek & Hk). exists k. by rewrite E. Qed.

Lemma goes_on_ok m : forall n old expire, (1 < rounds)%nat -> (0 < length gqs <= 127)%nat -> 0 < P -> P + PG_SIZE < 2 ^ 32 ->
  0 <= expire < 2 ^ 32 -> (m <= n)%nat -> goes_on m expire (rest_of_call n old expire).
Proof.
  induction m as [|m IH]; intros n old expire Hrounds Hlen HP HP2 He Hn; [done|]. destruct n as [|n]; [lia|].
  cbn [goes_on]. intros t W b [[Hc Hb] Hdev HW Hl Hpg Htm]. destruct (wakes_up (S n) old expire t Htm) as [wh Ew]. cbv zeta in Ew.
  set (t' := set_kernel (set_intr old (kernel t)) (set_sl_wheel wh t)) in *. set (r := last_ready t (snd <$> gqs) 0 (-1)). set (left := time_left expire t) in *.
  assert (tasks (kernel t') !! R = Some b) as Hb' by exact Hb.
  assert (poll_fds gkp unset fds 0 false (PollTable 0 P) (-1) (look b t') = Ok ((PollTable 0 P, r), look b t')) as Ep.
  { rewrite (poll_fds_look gkp unset (look b t') (PollTable 0 P) fds gqs); [|eapply Forall2_impl; [|exact Hdev]; intros fd gq; by apply device_same].
    unfold r. by rewrite (last_ready_same t). }
  assert (wait_queues (hwq (sl_hid (look b t'))) W) as HW'.
  { apply (wait_queues_kern (hwq (sl_hid t)) (looking b (set_intr old (kernel t))) W HW); [done|]. intros v Hv. eapply alive_looking; [exact Hb|exact Hv]. }
  split.
  - intros Hr. destruct (finish_ok (look b t') W (set_status THREAD_TASK_WAITING b) r left (length gqs) Hrounds Hlen HP HP2) as (h & Ef & HWf); [apply lookup_insert_eq|exact HW'|exact (queued_linked t W Hl)|exact Hpg|].
    eexists. split.
    { rewrite Ew. rewrite (tbind_eq _ _ _ _ _ (ends_bind _ finish t' _ _ (round_ends n false (PollTable 0 P) left t' b _ r _ Hb' Ep Hr))).
      rewrite (ends_bind _ _ _ _ _ Ef). reflexivity. }
    split; [exact HWf|done|done| |].
    + cbn [tasks kernel]. change (tasks (kernel (look b t'))) with (<[R := set_status THREAD_TASK_WAITING b]> (tasks (kernel t))).
      cbn. by rewrite insert_insert_eq.
    + split; [exact Hc|done].
  - intros Hr Hleft Q next rest Hms Hap. fold left in Hleft.
    assert (may_sleep (set_intr old (kernel t)) Q next rest) as Hms' by (destruct Hms; by split).
    destruct (sleep_ok (look b t') (set_intr old (kernel t)) W Q next rest b left) as (t3 & Hp & Hcur & Hne & Hw & HW3 & Hp3 & Hs3 & Ha3);
      [done|exact Hms'|exact Hc|exact Hb| |exact HW'|lia|].
    { intros q es a Hq Hin. destruct (Hap q es a Hq Hin) as [H1 H2]. split; [exact H1|]. intros v Hv. apply H2.
      apply (alive_looking b b (set_intr old (kernel t)) v Hb). exact Hv. }
    change (jiffies (set_intr old (kernel t))) with (jiffies (kernel t)) in *.
    assert (u32 (left + jiffies (kernel t)) = expire) as Ee by (apply expire_again; [exact He|exact (proj1 Hleft)]).
    rewrite Ee in Hp, Ha3. rewrite Hr in Ep.
    pose proof (round_sleeps n false (PollTable 0 P) left t' b _ _ _ t3 Hb' Ep ltac:(lia) eq_refl Hp) as Hp'.
    eexists _, t3. split; [eapply pauses_eq; [exact Ew|]; by apply pauses_bind, pauses_bind|].
    split; [|split; [exact Ha3|apply IH; done || lia]].
    assert (same_devices t t3) as Hs by exact Hs3.
    split; [done|done|exact HW3|by apply (queued_same t)|by rewrite Hp3|by apply (devices_same t)|by split; apply Hs].
Qed.

(** ** The first round *)
Lemma no_data_yet s qs i r : (forall q, q ∈ qs -> has_data s q = false) -> last_ready s qs i r = r.
Proof.
  revert i. induction qs as [|q qs IH]; intros i Hn; [done|]. cbn [last_ready]. rewrite (Hn q) by by left. apply IH. intros q' Hq. apply Hn. by right.
Qed.
Lemma watched_all s (ds : list (Z * Z)) : (forall gq, gq ∈ ds -> has_data s (snd gq) = false) -> watched s ds = ds.
Proof.
  induction ds as [|gq ds IH]; intros Hn; [done|]. cbn [watched]. rewrite (Hn gq) by by left. f_equal. apply IH. intros x Hx. apply Hn. by right.
Qed.
Lemma watched_length s (ds : list (Z * Z)) : ds <> [] -> (0 < length (watched s ds) <= length ds)%nat.
Proof.
  intros Hne. assert (length (watched s ds) <= length ds)%nat as Hle.
  { clear. induction ds as [|gq ds IH]; [done|]. cbn. destruct (has_data s gq.2); cbn; lia. }
  split; [|exact Hle]. destruct ds as [|gq ds]; [done|]. cbn. lia.
Qed.
Lemma joined_queued Q w W pg en t W' : let w' := hwq (sl_hid t) in
  joined Q R P 0 0 gqs w W pg en w' W' (sl_pages t) (sl_entries t) -> queued t W'.
Proof.
  intros w' HJ m gq Hm. split; [exact (jn_entries _ _ _ _ _ _ _ _ _ _ _ _ _ _ HJ m gq Hm)|].
  split; [exact (jn_linked _ _ _ _ _ _ _ _ _ _ _ _ _ _ HJ m gq Hm)|exact (jn_tasks _ _ _ _ _ _ _ _ _ _ _ _ _ _ HJ m gq Hm)].
Qed.
Lemma joined_linked Q ds w W pg en w' W' pg' en' : joined Q R P 0 0 ds w W pg en w' W' pg' en' -> linked_in W' en' P (length ds).
Proof.
  intros HJ m Hm. destruct (lookup_lt_is_Some_2 ds m Hm) as [gq Hgq]. destruct (jn_linked _ _ _ _ _ _ _ _ _ _ _ _ _ _ HJ m gq Hgq) as (es & E & Hin).
  exists (fst gq), (proc_list (snd gq)), es. split; [|by split]. exact (jn_entries _ _ _ _ _ _ _ _ _ _ _ _ _ _ HJ m gq Hgq).
Qed.

(** The thread [R] calls [sys_wait2] for the devices [gqs]; the queues have
    the entries [W], and the page [P] is free. *)
Record caller s Q W b : Prop := {
  ca_thread : current (kernel s) = R /\ tasks (kernel s) !! R = Some b /\ R <> 0;
  ca_devices : Forall2 (fun fd gq => device s fd (fst gq) (snd gq)) fds gqs /\ gqs <> [] /\ (length gqs <= 127)%nat;
  ca_queues : wait_queues (hwq (sl_hid s)) W /\ all_apart Q (hwq (sl_hid s)) W /\ forall gq, gq ∈ gqs -> is_Some (W !! proc_list (snd gq));
  ca_page : gkp (look b s) = P /\ 0 < P /\ P + PG_SIZE < 2 ^ 32 /\ unused Q (hwq (sl_hid s)) W P 0;
  ca_rounds : (1 < rounds)%nat
}.
Lemma first_poll s Q W b : caller s Q W b ->
  let w1 := WaitQueue.set_wkern (looking b (kernel s)) (hwq (sl_hid s)) in
  exists w' W' pg' en', poll_fds gkp unset fds 0 true (PollTable 0 0) (-1) (look b s) =
      Ok ((PollTable 0 P, last_ready s (snd <$> gqs) 0 (-1)), stage s w' pg' en') /\
    joined Q R P 0 0 (watched s gqs) w1 W (<[P := page_of P 0 0]> (sl_pages s)) (sl_entries s) w' W' pg' en'.
Proof.
  intros [(Hc & Hb & HR) (Hd & Hne & Hlen) (HW & Ha & HWq) (Hg & HP & HP2 & Hun) _] w1.
  assert (forall v, alive (wkern w1) v <-> alive (kernel s) v) as Hal by (intros v; by eapply (alive_looking b b)).
  assert (wait_queues w1 W) as HW1 by (apply wait_queues_kern; [exact HW|done|]; intros v Hv; by apply Hal).
  assert (forall a, apart (kernel s) Q a -> apart (wkern w1) Q a) as Hap by (intros a [H1 H2]; split; [done|]; intros v Hv%Hal; by apply H2).
  destruct Hd as [|fd [g q] fds' gqs' Hd Hds]; [done|].
  rewrite (poll_fds_first gkp unset s w1 (sl_pages s) (sl_entries s) R P fd g q) by (done || apply Hd).
  apply (poll_fds_watch gkp unset Q s R P 0 (fd :: fds') ((g, q) :: gqs') HP HP2 HR); [by constructor|exact Hc| |exact HW1| | |apply lookup_insert_eq|exact Hlen|exact HWq].
  - apply Hal. by eexists.
  - intros q' es a Hq Hin. apply Hap. by apply (Ha q' es a).
  - intros a Hin. destruct (Hun a Hin) as [H1 H2]. split; [exact H1|by apply Hap].
Qed.
Lemma caller_rests s Q W b next rest h ps : may_sleep (kernel s) Q next rest -> unchanged_except ps (klists (kernel s)) h ->
  (forall a, a ∈ ps -> apart (kernel s) Q a) -> alive (kernel s) R -> may_sleep (set_klists h (kernel s)) Q next rest.
Proof.
  intros [H1 H2 H3 H4 H5] Hu Hps HR. split; [|exact H2| |exact H4|exact H5].
  - eapply queues_outside; [exact H1|exact Hu|exact Hps].
  - eapply unlinked_outside; [exact H3|exact Hu|]. intros Hin. by apply (proj2 (Hps _ Hin) R).
Qed.
End rounds.

Section calls.
Context {X : Machine} {G : Globals}.

Lemma call_begins gkp unset ptfn fuel rounds timer fds gqs tvp s (Hd : Forall2 (fun fd gq => device s fd (fst gq) (snd gq)) fds gqs) :
  let timeout := s32 (wait_ticks tvp) in let R := current (kernel s) in
  sys_wait2 gkp unset ptfn fuel rounds timer fds tvp s =
    tbind (tbind (wait_loop gkp unset ptfn fuel rounds R timer fds (negb (timeout =? 0)) (PollTable 0 0) timeout) (finish rounds R)) (fun res => done (u32 res)) s.
Proof.
  intros timeout R. unfold sys_wait2. rewrite (ends_step _ _ s _ _ (check_fds_ok s fds gqs Hd)). apply tbind_eq.
  unfold do_wait2. unfold on_kern at 1. rewrite (ends_step _ _ s R s); [reflexivity|].
  rewrite (to_kern_ok running_thread s R (kernel s) eq_refl). by rewrite set_kernel_get.
Qed.

(** C18: [sys_wait2] on input devices that have no data, with a time to wait:
    the call puts an entry for each device into the wait queue of the device,
    sets a timer and goes to sleep, and another thread runs.  From then on,
    each time the thread runs again: if a device has data or the time is over,
    the call returns the index of the last device that has data, or -1, takes
    all its entries out of the queues, which keep the entries of others that
    joined or stayed, and gives its page back; otherwise it sleeps on, until
    the same time. *)
Theorem sys_wait2_waits_for_input (gkp : selsys -> Z) (unset process_timeout : Z) (fuel rounds : nat) (R P timer : Z) (fds : list Z)
    (gqs : list (Z * Z)) (s : selsys) (Q : queue_map) (W : gmap Z (list Z)) (b : TCB) (next : Z) (rest : list Z) (tvp : option timeval) :
  caller gkp rounds R P fds gqs s Q W b -> may_sleep fuel R (kernel s) Q next rest ->
  (forall gq, gq ∈ gqs -> has_data s (snd gq) = false) -> 0 < wait_ticks tvp < MAX_SCHEDULE_TIMEOUT ->
  let expire := u32 (wait_ticks tvp + jiffies (kernel s)) in
  exists m s1 W1, pauses (sys_wait2 gkp unset process_timeout fuel rounds timer fds tvp) s m s1 /\
    asleep R P fds gqs s s1 W1 next b /\ armed process_timeout R timer s1 expire /\
    minus (own P <$> seq 0 (length gqs)) W1 = W /\
    forall n, (n < rounds)%nat -> goes_on process_timeout fuel R P timer fds gqs n expire m.
Proof.
  intros Hca Hms Hnone Ht expire. pose proof Hca as [(Hc & Hb & HR) (Hd & Hne & Hlen) (HW & Ha & HWq) (Hg & HP & HP2 & Hun) Hrounds].
  assert (alive (kernel s) R) as HRa by by eexists.
  destruct (first_poll gkp unset rounds R P fds gqs s Q W b Hca) as (w' & W' & pg' & en' & Ep & HJ).
  rewrite (watched_all s gqs Hnone) in HJ. rewrite no_data_yet in Ep by (intros q (gq & -> & Hin)%list_elem_of_fmap; by apply Hnone).
  set (t2 := stage s w' pg' en') in *. destruct (jn_beside _ _ _ _ _ _ _ _ _ _ _ _ _ _ HJ) as (_ & h & ps & Ek & Hu & Hps).
  cbn [wkern WaitQueue.set_wkern] in Ek, Hu, Hps.
  assert (forall a, a ∈ ps -> apart (kernel s) Q a) as Hps'.
  { intros a Hin. destruct (Hps a Hin) as [H1 H2]. split; [exact H1|]. intros v Hv. apply H2. by apply (alive_looking R b b (kernel s) v Hb). }
  assert (s32 (wait_ticks tvp) = wait_ticks tvp) as E32 by (apply s32_small; unfold MAX_SCHEDULE_TIMEOUT in Ht; lia).
  destruct (sleep_ok process_timeout fuel R timer t2 (set_klists h (kernel s)) W' Q next rest b (wait_ticks tvp))
    as (t3 & Hp & Hcur & Hnr & Hw & HW3 & Hp3 & Hs3 & Ha3); [exact Ek|by eapply caller_rests|exact Hc|exact Hb|apply HJ|apply HJ|lia|].
  change (jiffies (set_klists h (kernel s))) with (jiffies (kernel s)) in *. fold expire in Hp, Ha3.
  destruct rounds as [|n]; [lia|].
  pose proof (round_sleeps gkp unset process_timeout fuel R timer fds n true (PollTable 0 0) (wait_ticks tvp) s b _ _ _ t3 Hb Ep ltac:(lia) eq_refl Hp) as Hp'.
  eexists (rest_of_call gkp unset process_timeout fuel (S n) R P timer fds n (intr (kernel s)) expire), t3, W'. split; [|split; [|split; [exact Ha3|split]]].
  - eapply pauses_eq; [by apply (call_begins gkp unset process_timeout fuel (S n) timer fds gqs)|]. rewrite E32, (proj2 (Z.eqb_neq (wait_ticks tvp) 0)) by lia.
    rewrite Hc. apply pauses_bind, pauses_bind. exact Hp'.
  - split; [done|exact Hw|exact HW3| | | |].
    + apply (queued_same R P gqs t2 t3 W' Hs3). by apply (joined_queued R P gqs Q _ W _ _ t2 W') in HJ.
    + rewrite Hp3. apply (jn_page _ _ _ _ _ _ _ _ _ _ _ _ _ _ HJ).
    + apply (devices_same fds gqs t2 t3 Hs3). eapply Forall2_impl; [|exact Hd]. intros fd gq. by apply device_same.
    + split; [exact (proj1 Hs3)|exact (proj1 (proj2 Hs3))].
  - apply HJ.
  - intros n' Hn'. apply goes_on_ok; [lia|split; [destruct gqs; [done|cbn; lia]|exact Hlen]|exact HP|exact HP2|apply u32_range|lia].
Qed.

(** When a device has data, the call returns without sleeping, and nothing
    that it did is left. *)
Lemma sys_wait2_returns_at_once gkp unset ptfn fuel rounds R P timer fds gqs s Q W b tvp :
  caller gkp rounds R P fds gqs s Q W b -> last_ready s (snd <$> gqs) 0 (-1) <> -1 -> s32 (wait_ticks tvp) <> 0 ->
  exists s', sys_wait2 gkp unset ptfn fuel rounds timer fds tvp s = Ok (Done (u32 (last_ready s (snd <$> gqs) 0 (-1))), s') /\
    wait_queues (hwq (sl_hid s')) W /\ sl_pages s' = delete P (sl_pages s) /\ rings (sl_hid s') = rings (sl_hid s) /\
    tasks (kernel s') = <[R := set_status THREAD_TASK_RUNNING b]> (tasks (kernel s)) /\ intr (kernel s') = false.
Proof.
  intros Hca Hr Ht. pose proof Hca as [(Hc & Hb & HR) (Hd & Hne & Hlen) (HW & Ha & HWq) (Hg & HP & HP2 & Hun) Hrounds].
  destruct (first_poll gkp unset rounds R P fds gqs s Q W b Hca) as (w' & W' & pg' & en' & Ep & HJ).
  set (t2 := stage s w' pg' en') in *. set (r := last_ready s _ 0 (-1)) in *.
  destruct (jn_beside _ _ _ _ _ _ _ _ _ _ _ _ _ _ HJ) as (_ & h & ps & Ek & _). cbn [wkern WaitQueue.set_wkern] in Ek.
  destruct (jn_page _ _ _ _ _ _ _ _ _ _ _ _ _ _ HJ) as [Hpg Hdel]. pose proof (watched_length s gqs Hne) as Hwl.
  assert (tasks (kernel t2) = <[R := set_status THREAD_TASK_WAITING b]> (tasks (kernel s))) as Etk by (change (kernel t2) with (wkern w'); by rewrite Ek).
  destruct (finish_ok rounds R P t2 W' (set_status THREAD_TASK_WAITING b) r (s32 (wait_ticks tvp)) (length (watched s gqs)) Hrounds ltac:(lia) HP HP2)
    as (h2 & Ef & HWf); [rewrite Etk; apply lookup_insert_eq|apply HJ|by eapply joined_linked|exact Hpg|].
  destruct rounds as [|n]; [lia|].
  pose proof (round_ends gkp unset ptfn fuel R timer fds n true (PollTable 0 0) (s32 (wait_ticks tvp)) s b _ _ _ Hb Ep (or_introl Hr)) as El.
  eexists. split; [|split; [|split; [|split; [|split]]]].
  - rewrite (call_begins gkp unset ptfn fuel (S n) timer fds gqs) by done. rewrite (proj2 (Z.eqb_neq _ 0)) by done. cbn [negb]. rewrite Hc.
    rewrite (tbind_eq _ _ _ _ _ (ends_bind _ _ s _ _ El)). rewrite (ends_bind _ _ _ _ _ Ef). reflexivity.
  - rewrite (jn_minus _ _ _ _ _ _ _ _ _ _ _ _ _ _ HJ) in HWf. exact HWf.
  - change (delete P pg' = delete P (sl_pages s)). rewrite Hdel. apply delete_insert_eq.
  - done.
  - change (<[R := set_status THREAD_TASK_RUNNING (set_status THREAD_TASK_WAITING b)]> (tasks (wkern w')) = <[R := set_status THREAD_TASK_RUNNING b]> (tasks (kernel s))).
    change (wkern w') with (kernel t2). rewrite Etk. by rewrite insert_insert_eq.
  - change (intr (wkern w') = false). by rewrite Ek.
Qed.

(** ** What [sys_wait2] does wrong *)
(** A time below one second is no time at all, and a null pointer does not
    mean to wait without end. *)
Lemma short_time_is_no_time usec : 0 <= usec < 1000000 -> wait_ticks (Some (Timeval 0 usec)) = 0.
Proof. intros H. unfold wait_ticks. cbn [tv_sec tv_usec]. by rewrite Z.quot_small. Qed.
Lemma null_is_no_time : wait_ticks None = 0.
Proof. done. Qed.
(** A device without a [poll] function has what happens to be in memory as its
    result. *)
Lemma poll_result_unset gkp unset g s f i (p : poll_table) wait : file_at g (sl_files s) = Ok (f, sl_files s) ->
  inode_at (fd_inode f) (sl_files s) = Ok (i, sl_files s) -> i_dev i = DNOCONSOLE -> sys_poll gkp unset g wait p s = Ok ((unset, p), s).
Proof. intros Hf Hi Hd. unfold sys_poll. run (look_up_ok _ s _ Hf). run (look_up_ok _ s _ Hi). by rewrite Hd. Qed.
End calls.

(** ** Two threads, the keyboard and the mouse; one of the threads waits for
    both, for two seconds *)
Definition char_inode (nr dev : Z) : inode := set_dev dev (set_mode (Z.shiftl FT_CHAR 11) (set_num nr zero_inode)).
Definition select_files : fs :=
  Fs.set_inodes {[7000 := char_inode 4 DNOPCKBD; 7100 := char_inode 5 DNOPCMOUSE]}
    (Fs.set_files [File 0 0 7000; File 0 0 7100] (Fs.set_fds [0; 1; 2; 0; 1] (Fs.Fs (fun _ => []) (Super 20 2 3 10 8 99) (Bitmap.Bitmap [] 0 0) (Bitmap.Bitmap [] 0 0) ∅ [] [] [] false []))).
Definition select_state : @selsys no_devices :=
  @Selsys no_devices (@Hid no_devices two_queues {[5000 := fresh_ring; 6000 := Ring 0 0 (replicate 16384 0)]} 5000 6000 0
    (Keys false false false false false false) (Mouse 0 [0; 0; 0; 0] 0) (Softirq.Softirq 0 []) tt)
    (Wheel ∅ ∅ 0 None ∅ 0 []) select_files ∅ ∅.
Definition select_queues : gmap Z (list Z) := {[5008 := []; 6008 := []]}.
Definition select_ready : queue_map := {[100 := [12288]]}.
Lemma select_waiting q : q = 5008 \/ q = 6008 -> @waiting two_globals two_queues select_ready [12288] THREAD_TASK_WAITING q [].
Proof. intros [-> | ->]; (apply waiting_nobody; [by_computation|done|done|by_computation|done|done|by_computation]). Qed.
Lemma select_queues_cases q es : select_queues !! q = Some es -> es = [] /\ (q = 5008 \/ q = 6008).
Proof.
  unfold select_queues. rewrite lookup_insert. case_decide; [intros [= <-]; auto|].
  intros [<- <-]%lookup_singleton_Some. auto.
Qed.
Lemma select_alive t : alive (wkern two_queues) t -> t = 8192 \/ t = 12288.
Proof.
  unfold alive. cbn [wkern two_queues tasks]. intros [b Hb]. apply elem_of_list_to_map_2 in Hb.
  apply list.elem_of_cons in Hb as [[= -> _]|[[= -> _]|Hb%not_elem_of_nil]%list.elem_of_cons]; auto. done.
Qed.
Lemma select_caller : @caller no_devices (fun _ => 65536) 5 8192 65536 [3; 4] [(0, 5000); (1, 6000)] select_state select_ready select_queues (idle_tcb 0).
Proof.
  split.
  - by split_and!.
  - split; [|by split_and!; [|cbn; lia]]. apply Forall2_cons; [|apply Forall2_cons; [|by apply Forall2_nil]]; cbn [fst snd].
    + split; [by vm_compute|]. split; [|split; [by eexists|done]]. exists (File 0 0 7000), (char_inode 4 DNOPCKBD). split_and!; [by vm_compute..|]. auto.
    + split; [by vm_compute|]. split; [|split; [by eexists|done]]. exists (File 0 0 7100), (char_inode 5 DNOPCMOUSE). split_and!; [by vm_compute..|]. auto.
  - split; [|split].
    + split.
      * intros q es [-> Hq]%select_queues_cases. apply (@wt_list two_globals two_queues select_ready [12288] THREAD_TASK_WAITING q []), select_waiting, Hq.
      * intros q q' es es' a [-> Hq]%select_queues_cases [-> Hq']%select_queues_cases. unfold nodes, head_list. cbn.
        intros ->%list_elem_of_singleton Ha%list_elem_of_singleton. lia.
    + intros q es a [-> Hq]%select_queues_cases Ha. by apply (@wt_apart two_globals two_queues select_ready [12288] THREAD_TASK_WAITING q [] (select_waiting q Hq)).
    + intros gq [->|[->|Hin%not_elem_of_nil]%list.elem_of_cons]%list.elem_of_cons; [by eexists|by eexists|done].
  - split; [done|]. split; [lia|]. split; [by vm_compute|]. intros a Ha. unfold slot, entries, sizeof_entry in Ha. change PG_SIZE with 4096 in Ha. split.
    + intros q es [-> Hq]%select_queues_cases Hin. unfold nodes, head_list in Hin. cbn in Hin. apply list_elem_of_singleton in Hin. lia.
    + split; [|intros t [-> | ->]%select_alive; unfold general_tag; lia]. unfold select_ready. apply lookup_singleton_ne. lia.
  - lia.
Qed.
Lemma sys_wait2_waits_for_input_witness :
  exists m s1 W1, pauses (@sys_wait2 no_devices two_globals (fun _ => 65536) 0 77 10 5 9000 [3; 4] (Some (Timeval 2 0)) ) select_state m s1 /\
    @asleep no_devices 8192 65536 [3; 4] [(0, 5000); (1, 6000)] select_state s1 W1 12288 (idle_tcb 0) /\ armed 77 8192 9000 s1 18000 /\
    @goes_on no_devices two_globals 77 10 8192 65536 9000 [3; 4] [(0, 5000); (1, 6000)] 4 18000 m.
Proof.
  destruct (@sys_wait2_waits_for_input no_devices two_globals (fun _ => 65536) 0 77 10 5 8192 65536 9000 [3; 4] [(0, 5000); (1, 6000)]
    select_state select_ready select_queues (idle_tcb 0) 12288 [] (Some (Timeval 2 0))) as (m & s1 & W1 & Hp & Has & Har & _ & Hgo).
  - exact select_caller.
  - split; [apply (@wt_queues two_globals two_queues select_ready [12288] THREAD_TASK_WAITING 5008 [] (select_waiting 5008 (or_introl eq_refl)))|done| |cbn; lia|].
    + split; [|by_computation]. intros a xs Ha. unfold select_ready in Ha. apply lookup_singleton_Some in Ha as [_ <-]. by_computation.
    + intros v [-> | ->]%select_alive; lia.
  - intros gq [->|[->|Hin%not_elem_of_nil]%list.elem_of_cons]%list.elem_of_cons; [by vm_compute|by vm_compute|done].
  - by vm_compute.
  - exists m, s1, W1. split; [exact Hp|]. split; [exact Has|]. split; [exact Har|]. apply (Hgo 4%nat). lia.
Defined.
(** The thread waits, the other one runs, the key [h] is struck, and the
    processor is given back: the call returns 0, the index of the keyboard, with
    its entries and its page gone and interrupts off. *)
Example key_ends_wait :
  match (o <- @sys_wait2 no_devices two_globals (fun _ => 65536) 0 77 10 5 9000 [3; 4] (Some (Timeval 2 0)) ;;
         play o [in_hid (@handle_keyboard_event no_devices two_globals 0 10 0x23) ;;; to_kern (@schedule two_globals 10)]) select_state with
  | Ok (r, s) => bool_decide (r = 0 /\ current (kernel s) = 8192 /\ sl_pages s = ∅ /\ intr (kernel s) = false /\
      dll (klists (kernel s)) 5012 [] /\ dll (klists (kernel s)) 6012 [])
  | _ => false end = true.
Proof. vm_compute. reflexivity. Qed.
